(* ===== verification/_CoqProject ===== *)
-Q . S2P
Prelude.v
Types.v
Machine.v
ProtocolInference.v
DataCommon.v
SockKey.v
Skb.v
Conn.v
Frame.v
Syscalls.v
Ssl.v
GoTls.v
System.v
OpensslTables.v
OpensslOffsets.v
GoBase.v
StreamBuffer.v
Reassembly.v
RingBuffer.v
KernEvents.v
Protocol.v
Mysql.v
AgentConn.v
AgentStream.v
Pipeline.v
Float64.v
ConnManager.v
Stat.v
TimeLine.v
Records.v
Redis.v
Streams.v
Conversation.v
RocketMQ.v
MysqlMatch.v
MysqlRecords.v
Samples.v
Percentile.v
Classify.v
Analysis.v
Reports.v
Dns.v
Processor.v
Delay.v
AgentSafe.v
EarlyData.v
Events.v
