(* ===== verification/Prelude.v ===== *)
(** * Kyanos, from the probes to the messages: a Rocq model

    Kyanos traces the network traffic of processes from inside the kernel.  Its
    C part ([src/bpf]) is a set of eBPF programs: probes on the kernel's packet
    path, on system calls, on OpenSSL and on Go's [crypto/tls].  They share maps,
    and write events to perf rings, which the Go agent ([src/agent]) reads to
    put the life of each request together.  What makes that possible is the
    numbering of events: a byte of a TCP stream has the same number in the system
    call that moved it, in every packet that carried it and, through the SSL
    events, in the plaintext it encrypts.  The numbering is what the central
    theorems about the probes say.  The agent puts the data of the events back into
    streams by those numbers, parses messages out of the streams, matches requests
    with responses, and looks up the events that carried them, from which it computes
    where the time went; the central theorems about the agent say that it finds what
    the probes reported.

    ** The files

    - [Prelude.v]: machine integers, byte encodings, a reader and state monad
      with its equations ([run], [steps]), record updates, and [keeps], the
      relational reading of "every run of this program relates its initial and
      final state", with the tactic [keeps_tac] and the hint database [keeps].
    - [Types.v]: the enumerations and structures of [pktlatency.h],
      [data_common.h], [go_common.h] and [gotls.bpf.c], and the layout of the event
      structures.
    - [Machine.v]: what a run of a probe reads ([env]: the current task, kernel
      objects, memory, the clock) and what it writes ([bpf]: the maps, the per-CPU
      scratch values, the rings), with the semantics of map updates and memory
      reads.
    - [ProtocolInference.v]: [protocol_inference.h].
    - [DataCommon.v]: the functions of [data_common.h] that fill and write events.
    - [SockKey.v]: flow keys from sockets and from packet headers, address
      translation, and the filters ([pktlatency.bpf.c], lines 39 to 352, 728 to
      799 and 856 to 933).
    - [Skb.v]: the packet path, [parse_skb] and the kprobes (lines 165 to 259 and
      355 to 701).
    - [Conn.v]: connections: created by [connect], [accept] or the first read or
      write, advanced by data calls, removed by [close] (lines 703 to 724 and 813
      to 1388), and [get_goid] of [go_common.h].
    - [Frame.v]: the invariant [inv] of the maps and what each function of
      [Conn.v] and [Skb.v] leaves alone.
    - [Syscalls.v]: the entry and exit handlers of every traced system call and the
      fentry, fexit and tracepoint programs around them (lines 1390 to 2526).
    - [Ssl.v]: [openssl.h] with the offsets of [openssl_*.bpf.c].
    - [GoTls.v]: [gotls.bpf.c].
    - [System.v]: all probes and the agent's map operations as one transition
      system, and what holds of every reachable state.
    - [OpensslTables.v]: the text of the thirteen files [openssl_*.bpf.c].
    - [OpensslOffsets.v]: the programs and scripts under [src/utils] that write such
      files, and a reader of the macros in them.
    - [GoBase.v]: Go values that can panic ([go]), slices, and the interface
      [TreeMap] of the tree map package, with its laws and an instance.
    - [StreamBuffer.v]: [agent/buffer/stream_buffer.go].
    - [Reassembly.v]: chunks of a stream added to a stream buffer in any order.
    - [RingBuffer.v]: [common/ringbuffer.go].
    - [KernEvents.v]: [agent/conn/kern_event_handler.go], which keeps the events of a
      connection per step.
    - [Protocol.v]: the interface of protocol parsers ([agent/protocol/protocol.go]),
      with the laws a connection relies on ([ParserLaws]), [common.go] and
      [fakedata.go] of the same directory.
    - [Mysql.v]: the parser of [agent/protocol/mysql], an instance of the interface;
      [MysqlMatch.v]: [Match] and the handlers of the same package, which interpret
      requests and responses; [MysqlRecords.v]: what records they make.
    - [AgentConn.v]: a connection in the agent ([agent/conn/conntrack.go]): the
      handlers of events and the parse loop, for any parser.
    - [AgentStream.v]: from the events of a direction to the queue of its messages, for
      every protocol that frames messages as the class [FramingLaws] says; [Streams.v]:
      MySQL and Redis do; [Conversation.v]: requests and responses in turn, from the system
      calls to the records.
    - [Pipeline.v]: from the records the probes write to the agent's stream buffer.
    - [Float64.v]: rounding of integers to double precision.
    - [ConnManager.v]: the manager of connections ([agent/conn/conntrack.go]), with the
      connections as objects of a heap.
    - [Stat.v]: [agent/analysis/stat.go], the times of a finished record; [TimeLine.v]:
      what they say about the events of the probes.
    - [Records.v]: [agent/conn/record_processor.go] and the filters of
      [agent/protocol/generic_filter.go].
    - [Samples.v], [Percentile.v]: the samples and the percentiles of a class of records
      ([AddToSamples] of [agent/analysis/analysis.go], [percentile.go]); [Classify.v]:
      options, classes and metrics ([classfier.go], [common/types.go]); [Analysis.v]: the
      analyzer that puts records into classes and reports on them ([analysis.go],
      [types.go]); [Reports.v]: what its numbers say.
    - [Redis.v]: [agent/protocol/redis..go] with [decoder.go], a second instance of the
      parser interface; [RocketMQ.v]: [agent/protocol/rocketmq], which is none, since it
      panics; [Dns.v]: [agent/protocol/dns], which is one if the package that unpacks its
      messages does as it says.
    - [Processor.v]: [agent/conn/processor.go] and [first_packet_processor.go], the
      loop that receives every event; [Delay.v]: its queues; [AgentSafe.v]: the
      invariant of the whole agent; [EarlyData.v]: events kept until the protocol of
      their connection is known.
    - [Events.v]: the bytes of the rings' records ([pktlatency.h]) and the functions
      that read them ([bpf/events.go]).

    ** How the code is modelled

    A C function that touches maps is a program of the monad [M]: it reads an
    [env] and transforms a [bpf].  Names are those of the source.  The context
    argument [ctx] of a program is dropped unless the source reads it.

    - A [w]-bit integer is a [Z], truncated by [u8] to [u64] or [s8] to [s64] where
      the C code stores or converts it.
    - A hash map is a finite map; [bpf_map_update_elem] refuses a new key in a full
      map, and [BPF_NOEXIST] an old one.  Error codes of updates are dropped, as
      the source drops them.  A per-CPU array of one entry is an optional value,
      the entry of the CPU on which the run takes place; the model has one CPU.
    - A pointer into [conn_info_map] is the value it points to; the function that
      changes the value returns it, and its caller stores it back.  The value of a
      deleted entry stays readable through a pointer taken before the deletion.
    - Memory is a partial function from addresses to bytes.  A read that touches an
      unreadable byte delivers zeros, as the BPF helpers do.  Kernel objects are
      reached through tables in [env]; what CO-RE relocation decides when a
      program is loaded is the record [build].
    - A structure on the stack of which a member is never assigned,
      [conn_id_s.no_trace], holds what [env] says the stack held.  The padding of
      [sock_key] is taken to be zero.  Signed overflow, which the source can reach
      in the length of a Kafka frame, wraps around.
    - Registers and the layout of [pt_regs] are those of x86-64, and the build flag
      [LAGACY_KERNEL_310] is a field of [build].
    - A probe runs to completion before the next one starts.
    - The rings are one list of records: events are kept in the order in which they
      are written, and no event is lost.

    Loops of the probes have the bounds of the source: [LOOP_LIMIT] = 3 vectors in
    [report_syscall_evt_vecs], [PROTOCOL_VEC_LIMIT] = 1 in the inference over
    vectors, and 2 buffers in [dev_hard_start_xmit].  They are structural
    recursions on those numbers, so that every definition is total and nothing
    can run out of fuel.

    The agent is written in Go.  A function that can panic has a result in [go],
    which is [Ret] of a value or [Panic]: an index or a slice out of range, a nil
    pointer, a division by zero, an explicit [panic].  A method changes its receiver
    by returning it.

    - A stream buffer holds its runs as a list; the pointers to them that [Add] takes
      are indices.  The table of timestamps is any type with the operations of
      [TreeMap]; the package it comes from is not part of the repository, so that
      its documented behaviour is the class [TreeMapLaws], and finite maps are the
      instance that shows the laws can hold.
    - A ring buffer is the array with its two indices and the flag, a slot that holds
      nothing is [None].
    - The attributes of an event are a Go map, shared by the copies of the event; they
      are locations in a store ([attrs]).
    - A parser is a type with [FindBoundary] and [ParseStream]; a connection's theorems
      hold of every parser with [ParserLaws], which [Mysql.v] and [Redis.v] show of
      theirs.
    - The clock, the names of interfaces and the limits of the progress check are
      parameters.
    - Connections are shared: the map by descriptor, the map by address, the lists of
      earlier connections and events on their way point to them.  A pointer is an index
      into the list [heap] of [ConnManager.store].
    - The parsers' [Match] is the class [MessageMatcher], with [MatcherLaws] where a
      theorem needs that it invents no messages; [slices.SortFunc] is the class
      [SortFunc], whose laws are those of a sort that need not be stable.
    - A difference of times is computed in double precision as the code does
      ([Float64.f64] rounds an integer; [Records.float64] is the specification of the
      standard's arithmetic in the Standard Library).
    - A processor is [run_step], one case of its [select] with the clock readings it
      makes as arguments; [run] is a sequence of them.  The goroutine that closes a
      connection later and the manager's ticker are inputs of their own, so that they
      can come at any point between two turns.
    - A record of a ring is the bytes of its C structure, the padding with any content.
    - [float32] and [float64] values of the analysis are those of [SpecFloat] in the
      Standard Library, each operation rounded once (no fused multiply-add).  What
      [int32(x)] and [int(x)] make of a value out of range is a parameter, since the
      language leaves it open; [Reports.amd64_int32_overflow] is that of amd64.
    - A report holds copies of the statistics, which the code hands out by reference: the
      theorems say what they are at the time of the report.
    - MySQL's [Match] makes responses of a type of their own and writes into the packets
      of the queue; it is modelled with both, beside the class [MessageMatcher], whose
      records hold parsed messages.
    - The loops of the agent have fuel: the number of slots of a ring for its loops, and
      the number of bytes in the stream buffer for the parse loop, each iteration of
      which takes a byte off or stops, and twice the number of bytes for the mutually
      recursive functions of the Redis parser, the packets of a response for MySQL's
      result sets, and the length of a slice for a binary search.  Running out of fuel is [Ret None], and the
      theorems show that it does not happen ([RingBuffer.ring_refines_queue],
      [RingBuffer.binary_search_correct], [AgentConn.data_events_handled],
      [AgentSafe.agent_never_panics], in which it would count as a panic;
      [Samples.samples_are_largest], [Analysis.analysis_reports],
      [MysqlRecords.query_recorded]).

    The programs under [src/utils] are functions from the version strings and the
    offsets of OpenSSL's structures, which are parameters, to the text they print.

    ** What is shown

    - Numbering of the system calls: over any sequence of reads and writes, through
      buffers, vectors or sendfile, events cover the stream exactly once and in
      order ([Conn.stream_numbering], [DataCommon.report_syscall_evt_vecs_tiles],
      [Syscalls.socket_write_traced]).
    - Numbering of the packets: each segment is reported with its offset from the
      initial sequence number ([Skb.parse_skb_segment], [Skb.parse_skb_new_flow],
      [Skb.transmit_path_agrees], [Skb.user_copy_seq]), under the key of its
      socket ([SockKey.packet_key_is_socket_key], [SockKey.handle_nat_symmetric]).
    - The two numberings agree: [Conn.submit_new_conn_in_step],
      [Conn.first_data_call_in_step], [Conn.data_call_keeps_step].
    - Plaintext is tied to ciphertext: [Ssl.ssl_call_points_to_ciphertext],
      [GoTls.go_call_points_to_ciphertext], [Conn.nested_calls_recorded].
    - Payloads stay within their buffers: [DataCommon.report_syscall_buf_event],
      [DataCommon.report_ssl_buf_event].
    - Classification: what each classifier accepts, and what a connection remembers
      between reads ([ProtocolInference]).
    - Life of the entries: [Conn.create_conn_info_spec],
      [Conn.close_forgets_connection], [Conn.destroy_sock_forgets_send_side],
      [Syscalls.exit_forgets_arguments], and [System.reachable_inv], an invariant of
      every state the probes and the agent can reach.
    - Offsets: [OpensslOffsets.generated_table_offsets], a table written for a release
      gives the compiler that release's offsets;
      [OpensslOffsets.tables_generated_and_used], the tables of the repository are such
      output, and the model of the probes reads with their offsets.
    - Streams in the agent: [StreamBuffer.add_refines] and
      [StreamBuffer.removePrefix_spec] refine a partial map from positions to bytes;
      [Reassembly.reassembly], the order in which chunks arrive does not matter;
      [StreamBuffer.add_never_panics] and [StreamBuffer.removePrefix_panics_iff].
    - Events in the agent: [RingBuffer.ring_refines_queue],
      [RingBuffer.binary_search_correct], [KernEvents.add_kern_event_outcomes],
      [KernEvents.find_events_exact], [KernEvents.ssl_event_roundtrip].
    - Messages: [Mysql.mysql_packet_roundtrip], [Redis.redis_value_roundtrip],
      [RocketMQ.rocketmq_frame_read], [RocketMQ.rocketmq_match_pairs],
      [Protocol.match_in_turn],
      [Protocol.fake_data_roundtrip]; [AgentConn.data_events_handled], no data makes
      the agent panic or hang; [Streams.mysql_stream_arrives] and
      [Streams.redis_stream_arrives], every message of a stream arrives once, in order,
      with its position and its time, however the stream is cut into events;
      [MysqlRecords.query_recorded], a query and its result set become one record;
      [Dns.dns_responses_matched], DNS responses are recorded with the requests of their
      numbers.
    - From the system calls to the records: [Conversation.redis_conversation_recorded],
      each exchange of a connection on which the sides speak in turn becomes one record of
      the request and the response to it ([Conversation.exchanges_recorded] for every
      protocol with a framing and one stream).
    - Probes and agent together: [Pipeline.probes_to_stream_buffer] takes the records
      that [DataCommon.report_syscall_evt_vecs_tiles] and [Conn.stream_numbering]
      describe to one run in the stream buffer; [Pipeline.syscall_data_fills] says for
      which records this works.
    - The agent as a whole: [AgentSafe.agent_never_panics], after any sequence of events
      the next one is handled to its end; [Delay.delay_queue_in_order], the queues
      deliver events in order, late, and refuse them only when full;
      [EarlyData.early_data_not_lost], it does not matter whether data arrives before
      the protocol of its connection is known.
    - Connections in the agent: [ConnManager.event_attribution], an event goes to the
      connection that was open on its descriptor at its time;
      [ConnManager.agent_key_is_kernel_key], [Events.events_of_descriptor_meet], agent
      and probes name connections alike.
    - Time: [TimeLine.time_line_exact], a record lists exactly the system calls and
      packets that carried its messages; [TimeLine.client_duration], how far its
      duration is from the exact one; [TimeLine.ssl_wire_range], the ciphertext of a
      message; [Records.records_accounted], when every record is handed on once.
    - Reports: [Analysis.analysis_reports], every report is the statistics of the records
      received until then, class by class; [Samples.samples_are_largest], the samples are
      the records with the largest values; [Percentile.percentile_in_bucket], a percentile
      lies in the bucket of the value it stands for.
    - The rings: [Events.ring_records_read_back], the agent reads what the probes wrote;
      [Events.decoded_events_well_formed], and what it reads from any bytes is fit for
      the handlers.
    - Who is traced: [SockKey.match_trace_tgid_decides], [Syscalls.file_io_untraced].
    - Behaviour that differs from what the code means to do, as theorems about the
      code as it is: [Conn.vectors_bypass_process_filter],
      [System.agent_update_loses_bytes], [Conn.dual_stack_close_leaks],
      [Conn.scratch_address_leak], [Conn.implicit_conn_timestamp],
      [DataCommon.without_data_inherits_header],
      [ProtocolInference.is_rocketmq_protocol_json_only],
      [Syscalls.write_probes_differ_on_null],
      [StreamBuffer.nested_data_duplicated], [KernEvents.full_step_is_stuck],
      [KernEvents.earlier_event_not_recorded],
      [Mysql.boundary_reads_first_sequence_id], [RocketMQ.rocketmq_frame_read],
      [RocketMQ.no_response_boundary], [Records.slow_record_lost],
      [ConnManager.reused_address_forgotten], [Reports.slow_request_not_sampled],
      [Reports.p99_takes_largest], [Reports.array_reply_counts_as_failed],
      [Conversation.pipelined_requests_lost], [Dns.unknown_message_is_response],
      [Dns.reused_number_matched_twice], [Dns.unanswered_request_stays],
      [MysqlRecords.waiting_execute_lost],
      [MysqlRecords.execute_without_parameters_panics], [MysqlRecords.close_deletes_zero],
      [MysqlRecords.ok_status_unknown], [MysqlRecords.empty_packet_panics],
      [MysqlRecords.short_error_no_response], [MysqlRecords.long_parameter_skipped],
      [MysqlRecords.string_column_unknown].

    ** What is not modelled

    The kernel, of which only the objects the probes read appear; the headers under
    [src/vmlinux], generated from kernel type information; the arm64 register
    layouts; preemption of one run by another and loss of events in full rings.  Of
    the agent: the loops that read the rings through a third-party package, the
    interleaving of several processors on the shared manager, the HTTP, Kafka and
    MongoDB parsers, which decode with packages that are not part of the repository or
    with large tables, the decoding of JSON (a parameter of [RocketMQ.v]) and the
    unpacking of DNS messages (a parameter of [Dns.v]), texts for display, container
    metadata, command line and user interface.  Of the scripts under [src/utils]: the
    checkout and compilation of OpenSSL.

    ** What could follow

    The Kafka parser, whose decoders are part of the repository; several CPUs, each with
    its own scratch values; first data calls on SSL connections, whose protocol is
    inferred from the plaintext; the tables and texts of the display. *)

From stdpp Require Import gmap list fin_maps.
From Stdlib Require Import ZArith Lia.
Local Open Scope Z_scope.

(** ** Machine integers

    A w-bit C integer is a [Z]; every store into a w-bit object goes through
    one of these truncations. *)

Definition u8 (z : Z) : Z := z mod 256.
Definition u16 (z : Z) : Z := z mod 65536.
Definition u32 (z : Z) : Z := z mod 4294967296.
Definition u64 (z : Z) : Z := z mod 18446744073709551616.

(** Two's complement reading of the low 8, 16, 32, 64 bits. *)
Definition s8 (z : Z) : Z := (z + 128) mod 256 - 128.
Definition s16 (z : Z) : Z := (z + 32768) mod 65536 - 32768.
Definition s32 (z : Z) : Z := (z + 2147483648) mod 4294967296 - 2147483648.
Definition s64 (z : Z) : Z :=
  (z + 9223372036854775808) mod 18446744073709551616 - 9223372036854775808.

(** [C] conditions that test an integer as a truth value. *)
Definition truthy (z : Z) : bool := negb (z =? 0).

(** Arithmetic with the truncations unfolded. *)
Ltac word_lia :=
  unfold u8, u16, u32, u64, s8, s16, s32, s64, truthy in *;
  Z.to_euclidean_division_equations; lia.

Lemma u32_range z : 0 <= u32 z < 4294967296.
Proof. unfold u32. apply Z.mod_pos_bound. lia. Qed.

Lemma u16_range z : 0 <= u16 z < 65536.
Proof. unfold u16. apply Z.mod_pos_bound. lia. Qed.

Lemma u64_range z : 0 <= u64 z < 18446744073709551616.
Proof. unfold u64. apply Z.mod_pos_bound. lia. Qed.

Lemma u32_small z : 0 <= z < 4294967296 -> u32 z = z.
Proof. intros. unfold u32. by apply Z.mod_small. Qed.

Lemma u16_small z : 0 <= z < 65536 -> u16 z = z.
Proof. intros. unfold u16. by apply Z.mod_small. Qed.

Lemma u64_small z : 0 <= z < 18446744073709551616 -> u64 z = z.
Proof. intros. unfold u64. by apply Z.mod_small. Qed.

Lemma s64_small z :
  -9223372036854775808 <= z < 9223372036854775808 -> s64 z = z.
Proof. intros. unfold s64. rewrite Z.mod_small; lia. Qed.

Lemma s32_small z : -2147483648 <= z < 2147483648 -> s32 z = z.
Proof. intros. unfold s32. rewrite Z.mod_small; lia. Qed.

Lemma u32_u64 z : u32 (u64 z) = u32 z.
Proof.
  unfold u32, u64. apply Z.mod_mod_divide.
  exists 4294967296. lia.
Qed.

Lemma u32_add_l a b : u32 (u32 a + b) = u32 (a + b).
Proof. unfold u32. by rewrite Zplus_mod_idemp_l. Qed.

Lemma u32_add_r a b : u32 (a + u32 b) = u32 (a + b).
Proof. unfold u32. by rewrite Zplus_mod_idemp_r. Qed.

Lemma u32_sub_l a b : u32 (u32 a - b) = u32 (a - b).
Proof. unfold u32. by rewrite Zminus_mod_idemp_l. Qed.

Lemma u32_sub_r a b : u32 (a - u32 b) = u32 (a - b).
Proof. unfold u32. by rewrite Zminus_mod_idemp_r. Qed.

Lemma u64_add_l a b : u64 (u64 a + b) = u64 (a + b).
Proof. unfold u64. by rewrite Zplus_mod_idemp_l. Qed.

Lemma u64_add_r a b : u64 (a + u64 b) = u64 (a + b).
Proof. unfold u64. by rewrite Zplus_mod_idemp_r. Qed.

Lemma u32_idem z : u32 (u32 z) = u32 z.
Proof. apply u32_small, u32_range. Qed.

Create HintDb ints.
Create Rewrite HintDb ints.
#[export] Hint Rewrite u32_u64 u32_idem u32_add_l u32_add_r u32_sub_l u32_sub_r
  u64_add_l u64_add_r : ints.
#[export] Hint Resolve u16_range u32_range u64_range : ints.

(** ** Bytes in memory order *)

(** The value of bytes stored little-endian: the low byte first. *)
Fixpoint le_decode (bs : list Z) : Z :=
  match bs with
  | [] => 0
  | b :: bs => b + 256 * le_decode bs
  end.

Fixpoint le_encode (n : nat) (z : Z) : list Z :=
  match n with
  | O => []
  | S n => z mod 256 :: le_encode n (z / 256)
  end.

(** Network byte order: the high byte first. *)
Definition be_decode (bs : list Z) : Z := le_decode (rev bs).
Definition be_encode (n : nat) (z : Z) : list Z := rev (le_encode n z).

Definition byte_range (b : Z) : Prop := 0 <= b < 256.

Lemma length_le_encode n z : length (le_encode n z) = n.
Proof. revert z. induction n; intros; simpl; auto. Qed.

Lemma le_encode_bytes n z : Forall byte_range (le_encode n z).
Proof.
  revert z. induction n; intros; simpl; constructor; auto.
  unfold byte_range. apply Z.mod_pos_bound. lia.
Qed.

Lemma pow256_succ n : 256 ^ Z.of_nat (S n) = 256 * 256 ^ Z.of_nat n.
Proof. rewrite Nat2Z.inj_succ, Z.pow_succ_r by lia. done. Qed.

Lemma le_decode_encode n z : le_decode (le_encode n z) = z mod 256 ^ Z.of_nat n.
Proof.
  revert z. induction n as [|n IH]; intros z.
  - simpl. by rewrite Z.mod_1_r.
  - cbn [le_encode le_decode]. rewrite IH, pow256_succ, Z.rem_mul_r; try lia.
Qed.

Lemma le_decode_range bs :
  Forall byte_range bs -> 0 <= le_decode bs < 256 ^ Z.of_nat (length bs).
Proof.
  induction 1 as [|b bs Hb _ IH].
  - simpl. lia.
  - cbn [length le_decode]. rewrite pow256_succ. unfold byte_range in Hb. lia.
Qed.

Lemma le_encode_decode bs :
  Forall byte_range bs -> le_encode (length bs) (le_decode bs) = bs.
Proof.
  induction 1 as [|b bs Hb _ IH]; [done|].
  cbn [length le_decode le_encode]. unfold byte_range in Hb.
  rewrite (Z.mul_comm 256), Z.mod_add, Z.div_add, Z.mod_small, Z.div_small by lia.
  f_equal. rewrite Z.add_0_l. exact IH.
Qed.

Lemma length_be_encode n z : length (be_encode n z) = n.
Proof. unfold be_encode. by rewrite length_rev, length_le_encode. Qed.

Lemma be_decode_encode n z : be_decode (be_encode n z) = z mod 256 ^ Z.of_nat n.
Proof. unfold be_decode, be_encode. by rewrite rev_involutive, le_decode_encode. Qed.

Lemma be_encode_bytes n z : Forall byte_range (be_encode n z).
Proof. apply Forall_rev, le_encode_bytes. Qed.

(** [bpf_ntohs]/[bpf_htons] and [bpf_ntohl]/[bpf_htonl] on a little-endian
    machine: the argument is truncated to the width and its bytes reversed. *)
Definition bpf_ntohs (z : Z) : Z := be_decode (le_encode 2 z).
Definition bpf_ntohl (z : Z) : Z := be_decode (le_encode 4 z).
Definition bpf_htonl (z : Z) : Z := bpf_ntohl z.

Lemma bpf_ntohs_decode bs :
  Forall byte_range bs -> length bs = 2%nat -> bpf_ntohs (le_decode bs) = be_decode bs.
Proof. intros Hb Hl. unfold bpf_ntohs. rewrite <- Hl, le_encode_decode by done. done. Qed.

Lemma bpf_ntohl_decode bs :
  Forall byte_range bs -> length bs = 4%nat -> bpf_ntohl (le_decode bs) = be_decode bs.
Proof. intros Hb Hl. unfold bpf_ntohl. rewrite <- Hl, le_encode_decode by done. done. Qed.

Lemma bpf_ntohl_range z : 0 <= bpf_ntohl z < 4294967296.
Proof.
  unfold bpf_ntohl, be_decode.
  pose proof (le_decode_range (rev (le_encode 4 z))) as H.
  rewrite length_rev, length_le_encode in H. apply H.
  apply Forall_rev, le_encode_bytes.
Qed.

Lemma bpf_ntohs_range z : 0 <= bpf_ntohs z < 65536.
Proof.
  unfold bpf_ntohs, be_decode.
  pose proof (le_decode_range (rev (le_encode 2 z))) as H.
  rewrite length_rev, length_le_encode in H. apply H.
  apply Forall_rev, le_encode_bytes.
Qed.

Lemma bpf_ntohs_involutive z : 0 <= z < 65536 -> bpf_ntohs (bpf_ntohs z) = z.
Proof.
  intros Hz. unfold bpf_ntohs at 1, be_decode.
  replace (le_encode 2 (bpf_ntohs z)) with (rev (le_encode 2 z)).
  - rewrite rev_involutive, le_decode_encode. rewrite Z.mod_small; simpl; lia.
  - unfold bpf_ntohs, be_decode.
    rewrite <- (le_encode_decode (rev (le_encode 2 z))) at 1.
    + by rewrite length_rev, length_le_encode.
    + apply Forall_rev, le_encode_bytes.
Qed.

#[export] Hint Resolve le_encode_bytes bpf_ntohs_range bpf_ntohl_range : ints.

(** ** Record update

    [r <| p := v |>] replaces the field [p] of [r].  A record type declares
    its eta-expansion once; the setter of a field is derived from it. *)

Class Eta (R : Type) := eta : R -> R.
Class Setter {R T : Type} (p : R -> T) := set_field : (T -> T) -> R -> R.
Arguments set_field {R T} p {_} _ _ : simpl never.

Ltac derive_setter :=
  match goal with
  | |- @Setter ?R ?T ?p =>
    let e := eval cbv beta delta [eta] in (@eta R _) in
    let e := eval red in e in
    lazymatch (eval pattern p in e) with
    | ?f _ =>
      exact (fun g : T -> T =>
        ltac:(let r := eval cbv beta in (f (fun r => g (p r))) in exact r))
    end
  end.
#[export] Hint Extern 1 (Setter _) => derive_setter : typeclass_instances.

Declare Scope model_scope.
Delimit Scope model_scope with model.
Open Scope model_scope.

Notation "r <| p := v |>" := (set_field p (fun _ => v) r)
  (at level 12, left associativity, p at level 11,
   format "r  <| p  :=  v |>") : model_scope.
Notation "r <| p ::= f |>" := (set_field p f r)
  (at level 12, left associativity, p at level 11,
   format "r  <| p  ::=  f |>") : model_scope.

(** Simplify a projection of an updated record, in the goal or everywhere. *)
Ltac fsimp_goal :=
  repeat match goal with
  | |- context [?p (@set_field ?R ?T ?q ?i ?g ?r)] =>
    first [ change (p (@set_field R T q i g r)) with (p r)
          | change (p (@set_field R T q i g r)) with (g (p r)) ]
  end; cbv beta.
Ltac fsimp :=
  repeat match goal with
  | H : context [?p (@set_field ?R ?T ?q ?i ?g ?r)] |- _ =>
    first [ change (p (@set_field R T q i g r)) with (p r) in H
          | change (p (@set_field R T q i g r)) with (g (p r)) in H ];
    cbv beta in H
  end; fsimp_goal.

(** ** A reader and state monad

    A probe runs against an environment [E] (the kernel and user memory it
    observes, fixed for one run) and a state [S] (the maps and rings). *)

Definition RS (E S A : Type) : Type := E -> S -> A * S.

#[export] Instance RS_ret E S : MRet (RS E S) := fun _ a _ s => (a, s).
#[export] Instance RS_bind E S : MBind (RS E S) :=
  fun _ _ k m e s => let '(a, s') := m e s in k a e s'.

Definition ask {E S} : RS E S E := fun e s => (e, s).
Definition asks {E S A} (f : E -> A) : RS E S A := fun e s => (f e, s).
Definition gets {E S A} (f : S -> A) : RS E S A := fun _ s => (f s, s).
Definition modify {E S} (f : S -> S) : RS E S unit := fun _ s => (tt, f s).

Notation "'return_if' c 'with' v ;; k" := (if c then mret v else k)
  (at level 100, c at level 99, v at level 99, k at level 200,
   format "'return_if'  c  'with'  v  ;; '//' k") : model_scope.

(** Result and final state of a run. *)
Definition result {E S A} (m : RS E S A) (e : E) (s : S) : A := (m e s).1.
Definition exec {E S A} (m : RS E S A) (e : E) (s : S) : S := (m e s).2.

Lemma exec_bind {E S A B} (m : RS E S A) (k : A -> RS E S B) e s :
  exec (m ≫= k) e s = exec (k (result m e s)) e (exec m e s).
Proof. unfold exec, result, mbind, RS_bind. by destruct (m e s). Qed.

Lemma result_bind {E S A B} (m : RS E S A) (k : A -> RS E S B) e s :
  result (m ≫= k) e s = result (k (result m e s)) e (exec m e s).
Proof. unfold exec, result, mbind, RS_bind. by destruct (m e s). Qed.

Lemma exec_ret {E S A} (a : A) (e : E) (s : S) : exec (mret a) e s = s.
Proof. done. Qed.
Lemma result_ret {E S A} (a : A) (e : E) (s : S) : result (mret a) e s = a.
Proof. done. Qed.
Lemma exec_gets {E S A} (f : S -> A) (e : E) s : exec (gets f) e s = s.
Proof. done. Qed.
Lemma result_gets {E S A} (f : S -> A) (e : E) s : result (gets f) e s = f s.
Proof. done. Qed.
Lemma exec_asks {E S A} (f : E -> A) e (s : S) : exec (asks f) e s = s.
Proof. done. Qed.
Lemma result_asks {E S A} (f : E -> A) e (s : S) : result (asks f) e s = f e.
Proof. done. Qed.
Lemma exec_ask {E S} (e : E) (s : S) : exec ask e s = s.
Proof. done. Qed.
Lemma result_ask {E S} (e : E) (s : S) : result ask e s = e.
Proof. done. Qed.
Lemma exec_modify {E S} (f : S -> S) (e : E) s : exec (modify f) e s = f s.
Proof. done. Qed.

Create Rewrite HintDb run.
#[export] Hint Rewrite @exec_bind @result_bind @exec_ret @result_ret @exec_gets
  @result_gets @exec_asks @result_asks @exec_ask @result_ask @exec_modify : run.

(** Push [exec]/[result] through the monadic structure. *)
Ltac run := autorewrite with run.
Ltac run_in H := autorewrite with run in H.

(** One step of a run, as a pair of result and final state. *)
Lemma step_ask {E S B} (k : E -> RS E S B) e s : (ask ≫= k) e s = k e e s.
Proof. done. Qed.
Lemma step_asks {E S A B} (f : E -> A) (k : A -> RS E S B) e s : (asks f ≫= k) e s = k (f e) e s.
Proof. done. Qed.
Lemma step_gets {E S A B} (f : S -> A) (k : A -> RS E S B) e s : (gets f ≫= k) e s = k (f s) e s.
Proof. done. Qed.
Lemma step_modify {E S B} (f : S -> S) (k : unit -> RS E S B) e s :
  (modify f ≫= k) e s = k tt e (f s).
Proof. done. Qed.
Lemma step_ret {E S A B} (a : A) (k : A -> RS E S B) e s : (mret a ≫= k) e s = k a e s.
Proof. done. Qed.
Lemma step_bind {E S A B C} (m : RS E S A) (k : A -> RS E S B) (k' : B -> RS E S C) e s :
  ((m ≫= k) ≫= k') e s = (m ≫= (fun a => k a ≫= k')) e s.
Proof. unfold mbind, RS_bind. by destruct (m e s). Qed.

Lemma step_run {E S A B} (m : RS E S A) (k : A -> RS E S B) e s a s' :
  m e s = (a, s') -> (m ≫= k) e s = k a e s'.
Proof. intros H. unfold mbind, RS_bind. by rewrite H. Qed.
Lemma run_pair {E S A} (m : RS E S A) e s : m e s = (result m e s, exec m e s).
Proof. apply surjective_pairing. Qed.

Create Rewrite HintDb steps.
#[export] Hint Rewrite @step_ask @step_asks @step_gets @step_modify @step_ret @step_bind : steps.
Ltac steps := autorewrite with steps; cbv beta iota.

(** ** Relations kept by a run

    [keeps R m]: every run of [m] relates its initial to its final state by
    [R].  With [R] reflexive and transitive it composes; an invariant [I] is
    the relation [I s -> I s'] and a frame condition is [f s = f s']. *)

Definition keeps {E S A} (R : S -> S -> Prop) (m : RS E S A) : Prop :=
  forall e s, R s (exec m e s).

Definition inv_rel {S} (I : S -> Prop) : S -> S -> Prop := fun s s' => I s -> I s'.
Definition same {S T} (f : S -> T) : S -> S -> Prop := fun s s' => f s' = f s.

#[export] Instance inv_rel_preorder {S} (I : S -> Prop) : PreOrder (inv_rel I).
Proof. split; unfold inv_rel; repeat intro; eauto. Qed.
#[export] Instance same_preorder {S T} (f : S -> T) : PreOrder (same f).
Proof. split; unfold same; repeat intro; congruence. Qed.

Section Keeps.
Context {E S : Type} (R : S -> S -> Prop) `{!PreOrder R}.

Lemma keeps_ret {A} (a : A) : keeps (E := E) R (mret a).
Proof. intros e s. rewrite exec_ret. reflexivity. Qed.

Lemma keeps_gets {A} (f : S -> A) : keeps (E := E) R (gets f).
Proof. intros e s. rewrite exec_gets. reflexivity. Qed.

Lemma keeps_asks {A} (f : E -> A) : keeps R (asks f).
Proof. intros e s. rewrite exec_asks. reflexivity. Qed.

Lemma keeps_ask : keeps (E := E) R ask.
Proof. intros e s. rewrite exec_ask. reflexivity. Qed.

Lemma keeps_modify f : (forall s, R s (f s)) -> keeps (E := E) R (modify f).
Proof. intros H e s. rewrite exec_modify. apply H. Qed.

Lemma keeps_bind {A B} (m : RS E S A) (k : A -> RS E S B) :
  keeps R m -> (forall a, keeps R (k a)) -> keeps R (m ≫= k).
Proof. intros Hm Hk e s. rewrite exec_bind. etrans; [apply Hm | apply Hk]. Qed.

(** The continuation may use what the value read from the state was. *)
Lemma keeps_bind_gets {A B} (f : S -> A) (k : A -> RS E S B) :
  (forall e s, R s (exec (k (f s)) e s)) -> keeps R (gets f ≫= k).
Proof. intros Hk e s. rewrite exec_bind, exec_gets, result_gets. apply Hk. Qed.
End Keeps.

Create HintDb keeps discriminated.
#[export] Hint Constants Opaque : keeps.
#[export] Hint Variables Opaque : keeps.
#[export] Hint Resolve keeps_ret keeps_gets keeps_asks keeps_ask : keeps.

(** Decompose a [keeps] goal along the structure of the program; component
    lemmas in the database [keeps] discharge the calls. *)
Ltac keeps_step :=
  match goal with
  | |- keeps _ (mret _) => apply keeps_ret; [typeclasses eauto]
  | |- keeps _ (gets _) => apply keeps_gets; [typeclasses eauto]
  | |- keeps _ (asks _) => apply keeps_asks; [typeclasses eauto]
  | |- keeps _ ask => apply keeps_ask; [typeclasses eauto]
  | |- keeps _ (_ ≫= _) =>
      apply keeps_bind; [typeclasses eauto | | let a := fresh "a" in intros a]
  | |- keeps _ (if ?b then _ else _) => destruct b
  | |- keeps _ (match ?x with _ => _ end) => destruct x
  | |- keeps _ _ => solve [auto 2 with nocore keeps]
  end.
Ltac keeps_tac := repeat (keeps_step; cbv beta zeta).
