(* ===== verification/Types.v ===== *)
(** * Data types of the eBPF programs

    The enumerations and structures of [bpf/pktlatency.h], the auxiliary
    structures of [bpf/data_common.h], [bpf/go_common.h] and [bpf/gotls.bpf.c],
    and the sizes of the structures that are written to the perf rings. *)

From stdpp Require Import gmap list fin_maps.
From Stdlib Require Import ZArith Lia.
From S2P Require Import Prelude.
Local Open Scope Z_scope.

(** ** Constants *)

Definition PX_AF_UNKNOWN : Z := 255.
Definition AF_INET : Z := 2.
Definition AF_INET6 : Z := 10.
Definition MAX_MSG_SIZE : Z := 30720.
Definition EINPROGRESS : Z := 115.
Definition MSG_OOB : Z := 1.
Definition MSG_PEEK : Z := 2.
Definition kInvalidFD : Z := -1.
Definition ETH_P_IP : Z := 2048.
Definition ETH_P_IPV6 : Z := 34525.
Definition ETH_HLEN : Z := 14.
Definition IP_H_LEN : Z := 20.
Definition PROTOCOL_VEC_LIMIT : nat := 1.
Definition LOOP_LIMIT : nat := 3.
Definition IPPROTO_IPIP : Z := 4.
Definition IPPROTO_TCP : Z := 6.
Definition SOCK_STREAM : Z := 1.
Definition SOCK_DGRAM : Z := 2.
Definition BPF_OK : Z := 0.
Definition XDP_PASS : Z := 2.

(** ** Enumerations *)

Inductive step_t : Set :=
| step_start | SSL_OUT | SYSCALL_OUT | TCP_OUT | IP_OUT | QDISC_OUT | DEV_OUT
| NIC_OUT | NIC_IN | DEV_IN | IP_IN | TCP_IN | USER_COPY | SYSCALL_IN | SSL_IN
| step_end.

Definition step_val (s : step_t) : Z :=
  match s with
  | step_start => 0 | SSL_OUT => 1 | SYSCALL_OUT => 2 | TCP_OUT => 3
  | IP_OUT => 4 | QDISC_OUT => 5 | DEV_OUT => 6 | NIC_OUT => 7 | NIC_IN => 8
  | DEV_IN => 9 | IP_IN => 10 | TCP_IN => 11 | USER_COPY => 12
  | SYSCALL_IN => 13 | SSL_IN => 14 | step_end => 15
  end.

Inductive traffic_protocol_t : Set :=
| kProtocolUnset | kProtocolUnknown | kProtocolHTTP | kProtocolHTTP2
| kProtocolMySQL | kProtocolCQL | kProtocolPGSQL | kProtocolDNS | kProtocolRedis
| kProtocolNATS | kProtocolMongo | kProtocolKafka | kProtocolMux | kProtocolAMQP
| kProtocolRocketMQ | kNumProtocols.

Definition traffic_protocol_val (p : traffic_protocol_t) : Z :=
  match p with
  | kProtocolUnset => 0 | kProtocolUnknown => 1 | kProtocolHTTP => 2
  | kProtocolHTTP2 => 3 | kProtocolMySQL => 4 | kProtocolCQL => 5
  | kProtocolPGSQL => 6 | kProtocolDNS => 7 | kProtocolRedis => 8
  | kProtocolNATS => 9 | kProtocolMongo => 10 | kProtocolKafka => 11
  | kProtocolMux => 12 | kProtocolAMQP => 13 | kProtocolRocketMQ => 14
  | kNumProtocols => 15
  end.

(** [kRoleZero] is the value 0 of a zero-filled structure; it is no enumerator
    of the C type (which has 1, 2 and 4). *)
Inductive endpoint_role_t : Set :=
| kRoleZero | kRoleClient | kRoleServer | kRoleUnknown.

Inductive source_function_t : Set :=
| kSourceFunctionUnknown | kSyscallAccept | kSyscallConnect | kSyscallClose
| kSyscallWrite | kSyscallRead | kSyscallSend | kSyscallRecv | kSyscallSendTo
| kSyscallRecvFrom | kSyscallSendMsg | kSyscallRecvMsg | kSyscallSendMMsg
| kSyscallRecvMMsg | kSyscallWriteV | kSyscallReadV | kSyscallSendfile
| kGoTLSConnWrite | kGoTLSConnRead | kSSLWrite | kSSLRead.

Definition source_function_val (f : source_function_t) : Z :=
  match f with
  | kSourceFunctionUnknown => 0 | kSyscallAccept => 1 | kSyscallConnect => 2
  | kSyscallClose => 3 | kSyscallWrite => 4 | kSyscallRead => 5
  | kSyscallSend => 6 | kSyscallRecv => 7 | kSyscallSendTo => 8
  | kSyscallRecvFrom => 9 | kSyscallSendMsg => 10 | kSyscallRecvMsg => 11
  | kSyscallSendMMsg => 12 | kSyscallRecvMMsg => 13 | kSyscallWriteV => 14
  | kSyscallReadV => 15 | kSyscallSendfile => 16 | kGoTLSConnWrite => 17
  | kGoTLSConnRead => 18 | kSSLWrite => 19 | kSSLRead => 20
  end.

Inductive conn_trace_state_t : Set :=
| unset | traceable | protocol_not_matched | protocol_unknown | other.

Definition conn_trace_state_val (t : conn_trace_state_t) : Z :=
  match t with
  | unset => 0 | traceable => 1 | protocol_not_matched => 2
  | protocol_unknown => 3 | other => 4
  end.

Inductive control_value_index_t : Set :=
| kTargetTGIDIndex | kStirlingTGIDIndex | kEnabledXdpIndex | kEnableFilterByPid
| kEnableFilterByLocalPort | kEnableFilterByRemotePort
| kEnableFilterByRemoteHost | kSideFilter | kNumControlValues | kTraceProtocol.

Definition control_value_index_val (i : control_value_index_t) : Z :=
  match i with
  | kTargetTGIDIndex => 0 | kStirlingTGIDIndex => 1 | kEnabledXdpIndex => 2
  | kEnableFilterByPid => 3 | kEnableFilterByLocalPort => 4
  | kEnableFilterByRemotePort => 5 | kEnableFilterByRemoteHost => 6
  | kSideFilter => 7 | kNumControlValues => 8 | kTraceProtocol => 9
  end.

Inductive message_type_t : Set := kUnknown | kRequest | kResponse.
Inductive traffic_direction_t : Set := kEgress | kIngress.
Inductive conn_type_t : Set := kConnect | kClose | kProtocolInfer.
Inductive target_tgid_match_result_t : Set :=
| TARGET_TGID_UNSPECIFIED | TARGET_TGID_ALL | TARGET_TGID_MATCHED
| TARGET_TGID_UNMATCHED.

#[export] Instance step_t_eq : EqDecision step_t.
Proof. solve_decision. Defined.
#[export] Instance traffic_protocol_t_eq : EqDecision traffic_protocol_t.
Proof. solve_decision. Defined.
#[export] Instance endpoint_role_t_eq : EqDecision endpoint_role_t.
Proof. solve_decision. Defined.
#[export] Instance source_function_t_eq : EqDecision source_function_t.
Proof. solve_decision. Defined.
#[export] Instance conn_trace_state_t_eq : EqDecision conn_trace_state_t.
Proof. solve_decision. Defined.
#[export] Instance message_type_t_eq : EqDecision message_type_t.
Proof. solve_decision. Defined.
#[export] Instance traffic_direction_t_eq : EqDecision traffic_direction_t.
Proof. solve_decision. Defined.
#[export] Instance conn_type_t_eq : EqDecision conn_type_t.
Proof. solve_decision. Defined.
#[export] Instance target_tgid_match_result_t_eq : EqDecision target_tgid_match_result_t.
Proof. solve_decision. Defined.

(** [no_trace <= traceable], the comparison the code uses for "trace it". *)
Definition trace_le_traceable (t : conn_trace_state_t) : bool :=
  conn_trace_state_val t <=? conn_trace_state_val traceable.

(** ** Structures *)

Record protocol_message_t := mk_protocol_message {
  pm_protocol : traffic_protocol_t;
  pm_type : message_type_t;
}.

(** [struct sock_key]; [sip[0]] is [sip0] and so on. *)
Record sock_key := mk_sock_key {
  sip0 : Z; sip1 : Z; dip0 : Z; dip1 : Z; sport : Z; dport : Z;
}.
Definition sock_key_zero : sock_key := mk_sock_key 0 0 0 0 0 0.
#[export] Instance eta_sock_key : Eta sock_key := fun r =>
  mk_sock_key (sip0 r) (sip1 r) (dip0 r) (dip1 r) (sport r) (dport r).

#[export] Instance sock_key_eq : EqDecision sock_key.
Proof. solve_decision. Defined.
#[export] Instance sock_key_countable : Countable sock_key.
Proof.
  refine (inj_countable'
    (fun k => (sip0 k, sip1 k, dip0 k, dip1 k, sport k, dport k))
    (fun '(a, b, c, d, e, f) => mk_sock_key a b c d e f) _).
  by intros [].
Defined.

(** [struct in6_addr]: its 16 bytes as two little-endian 64-bit words, the
    form in which [struct sock_key] holds them. *)
Record in6_addr := mk_in6_addr { addr64_0 : Z; addr64_1 : Z }.
Definition in6_zero : in6_addr := mk_in6_addr 0 0.
#[export] Instance in6_addr_eq : EqDecision in6_addr.
Proof. solve_decision. Defined.
#[export] Instance in6_addr_countable : Countable in6_addr.
Proof.
  refine (inj_countable' (fun a => (addr64_0 a, addr64_1 a))
    (fun '(a, b) => mk_in6_addr a b) _).
  by intros [].
Defined.

(** [in6_u.u6_addr32[0]], the first four bytes. *)
Definition addr32_0 (a : in6_addr) : Z := u32 (addr64_0 a).
Definition set_addr32_0 (v : Z) (a : in6_addr) : in6_addr :=
  mk_in6_addr (addr64_0 a - u32 (addr64_0 a) + u32 v) (addr64_1 a).

(** [union sockaddr_t], read and written through its member [in6]; [sa.sa_family]
    is the same field as [in6.sin6_family]. *)
Record sockaddr_t := mk_sockaddr {
  sin6_family : Z;
  sin6_port : Z;
  sin6_flowinfo : Z;
  sin6_addr : in6_addr;
  sin6_scope_id : Z;
}.
Definition sockaddr_zero : sockaddr_t := mk_sockaddr 0 0 0 in6_zero 0.
#[export] Instance eta_sockaddr : Eta sockaddr_t := fun r =>
  mk_sockaddr (sin6_family r) (sin6_port r) (sin6_flowinfo r) (sin6_addr r)
    (sin6_scope_id r).

Record conn_id_t := mk_conn_id {
  cid_tgid : Z;
  cid_start_time_ticks : Z;
  cid_fd : Z;
  cid_tsid : Z;
}.
Definition conn_id_zero : conn_id_t := mk_conn_id 0 0 0 0.

Record conn_id_s_t := mk_conn_id_s {
  tgid_fd : Z;
  cids_no_trace : conn_trace_state_t;
}.
Definition conn_id_s_zero : conn_id_s_t := mk_conn_id_s 0 unset.
#[export] Instance eta_conn_id_s : Eta conn_id_s_t := fun r =>
  mk_conn_id_s (tgid_fd r) (cids_no_trace r).

Record kern_evt := mk_kern_evt {
  ke_func_name : list Z;
  ke_ts : Z;
  ke_ts_delta : Z;
  ke_seq : Z;
  ke_len : Z;
  ke_flags : Z;
  ke_prepend_length_header : bool;
  ke_ifindex : Z;
  ke_conn_id_s : conn_id_s_t;
  ke_step : step_t;
  ke_length_header : Z;
}.
Definition kern_evt_zero : kern_evt :=
  mk_kern_evt (replicate 16 0) 0 0 0 0 0 false 0 conn_id_s_zero step_start 0.
#[export] Instance eta_kern_evt : Eta kern_evt := fun r =>
  mk_kern_evt (ke_func_name r) (ke_ts r) (ke_ts_delta r) (ke_seq r) (ke_len r)
    (ke_flags r) (ke_prepend_length_header r) (ke_ifindex r) (ke_conn_id_s r)
    (ke_step r) (ke_length_header r).

Record first_packet_evt := mk_first_packet_evt {
  fp_ts : Z;
  fp_len : Z;
  fp_flags : Z;
  fp_ifindex : Z;
  fp_step : step_t;
  fp_key : sock_key;
}.
Definition first_packet_evt_zero : first_packet_evt :=
  mk_first_packet_evt 0 0 0 0 step_start sock_key_zero.
#[export] Instance eta_first_packet_evt : Eta first_packet_evt := fun r =>
  mk_first_packet_evt (fp_ts r) (fp_len r) (fp_flags r) (fp_ifindex r) (fp_step r)
    (fp_key r).

(** [msg] is the whole buffer of [MAX_MSG_SIZE] bytes. *)
Record kern_evt_data := mk_kern_evt_data {
  ked_ke : kern_evt;
  ked_buf_size : Z;
  ked_msg : list Z;
}.
Definition kern_evt_data_zero : kern_evt_data :=
  mk_kern_evt_data kern_evt_zero 0 (replicate (Z.to_nat MAX_MSG_SIZE) 0).
#[export] Instance eta_kern_evt_data : Eta kern_evt_data := fun r =>
  mk_kern_evt_data (ked_ke r) (ked_buf_size r) (ked_msg r).

Record kern_evt_ssl_data := mk_kern_evt_ssl_data {
  kes_ke : kern_evt;
  kes_syscall_seq : Z;
  kes_syscall_len : Z;
  kes_buf_size : Z;
  kes_msg : list Z;
}.
Definition kern_evt_ssl_data_zero : kern_evt_ssl_data :=
  mk_kern_evt_ssl_data kern_evt_zero 0 0 0 (replicate (Z.to_nat MAX_MSG_SIZE) 0).
#[export] Instance eta_kern_evt_ssl_data : Eta kern_evt_ssl_data := fun r =>
  mk_kern_evt_ssl_data (kes_ke r) (kes_syscall_seq r) (kes_syscall_len r)
    (kes_buf_size r) (kes_msg r).

Record data_args := mk_data_args {
  da_source_fn : source_function_t;
  da_sock_event : bool;
  da_fd : Z;
  da_buf : Z;
  da_iov : Z;
  da_iovlen : Z;
  da_msg_len : Z;
  da_ssl_ex_len : Z;
  da_start_ts : Z;
  da_end_ts : Z;
}.
Definition data_args_zero : data_args :=
  mk_data_args kSourceFunctionUnknown false 0 0 0 0 0 0 0 0.
#[export] Instance eta_data_args : Eta data_args := fun r =>
  mk_data_args (da_source_fn r) (da_sock_event r) (da_fd r) (da_buf r) (da_iov r)
    (da_iovlen r) (da_msg_len r) (da_ssl_ex_len r) (da_start_ts r) (da_end_ts r).

(** The field is [uint32_t]. *)
Record close_args := mk_close_args { cla_fd : Z }.

Record sendfile_args := mk_sendfile_args {
  sfa_out_fd : Z;
  sfa_in_fd : Z;
  sfa_count : Z;
  sfa_start_ts : Z;
  sfa_end_ts : Z;
}.
#[export] Instance eta_sendfile_args : Eta sendfile_args := fun r =>
  mk_sendfile_args (sfa_out_fd r) (sfa_in_fd r) (sfa_count r) (sfa_start_ts r)
    (sfa_end_ts r).

Record connect_args := mk_connect_args {
  coa_addr : Z;
  coa_fd : Z;
  coa_start_ts : Z;
}.

Record accept_args := mk_accept_args {
  aca_addr : Z;
  aca_sock_alloc_socket : Z;
}.
#[export] Instance eta_accept_args : Eta accept_args := fun r =>
  mk_accept_args (aca_addr r) (aca_sock_alloc_socket r).

Record conn_info_t := mk_conn_info {
  ci_conn_id : conn_id_t;
  ci_read_bytes : Z;
  ci_write_bytes : Z;
  ci_ssl_read_bytes : Z;
  ci_ssl_write_bytes : Z;
  ci_laddr : sockaddr_t;
  ci_raddr : sockaddr_t;
  ci_protocol : traffic_protocol_t;
  ci_role : endpoint_role_t;
  ci_prev_count : Z;
  ci_prev_buf : list Z;
  ci_prepend_length_header : bool;
  ci_no_trace : conn_trace_state_t;
  ci_ssl : bool;
}.
Definition conn_info_zero : conn_info_t :=
  mk_conn_info conn_id_zero 0 0 0 0 sockaddr_zero sockaddr_zero kProtocolUnset
    kRoleZero 0 [0; 0; 0; 0] false unset false.
#[export] Instance eta_conn_info : Eta conn_info_t := fun r =>
  mk_conn_info (ci_conn_id r) (ci_read_bytes r) (ci_write_bytes r)
    (ci_ssl_read_bytes r) (ci_ssl_write_bytes r) (ci_laddr r) (ci_raddr r)
    (ci_protocol r) (ci_role r) (ci_prev_count r) (ci_prev_buf r)
    (ci_prepend_length_header r) (ci_no_trace r) (ci_ssl r).

Record conn_evt_t := mk_conn_evt {
  ce_conn_info : conn_info_t;
  ce_conn_type : conn_type_t;
  ce_ts : Z;
}.
Definition conn_evt_zero : conn_evt_t := mk_conn_evt conn_info_zero kConnect 0.

(** [struct nested_syscall_fd_t] of [data_common.h]; [fd] is an [int]. *)
Record nested_syscall_fd_t := mk_nested_syscall_fd {
  ns_fd : Z;
  ns_mismatched_fds : bool;
  ns_syscall_len : Z;
}.
#[export] Instance eta_nested : Eta nested_syscall_fd_t := fun r =>
  mk_nested_syscall_fd (ns_fd r) (ns_mismatched_fds r) (ns_syscall_len r).

(** The arguments [report_kern_evt] and [parse_kern_evt_body] take. *)
Record parse_kern_evt_body_t := mk_parse_kern_evt_body {
  pb_inital_seq : Z;
  pb_key : sock_key;
  pb_cur_seq : Z;
  pb_len : Z;
  pb_func_name : Z;
  pb_step : step_t;
  pb_tcp : Z;
  pb_ifindex : Z;
}.

(** ** Go uprobe structures ([go_common.h], [gotls.bpf.c]) *)

Record go_common_symaddrs_t := mk_go_common_symaddrs {
  internal_syscallConn : Z;
  tls_Conn : Z;
  net_TCPConn : Z;
  FD_Sysfd_offset : Z;
  tlsConn_conn_offset : Z;
  syscallConn_conn_offset : Z;
  g_goid_offset : Z;
  g_addr_offset : Z;
}.

Record tgid_goid_t := mk_tgid_goid { tg_tgid : Z; tg_goid : Z }.
#[export] Instance tgid_goid_eq : EqDecision tgid_goid_t.
Proof. solve_decision. Defined.
#[export] Instance tgid_goid_countable : Countable tgid_goid_t.
Proof.
  refine (inj_countable' (fun a => (tg_tgid a, tg_goid a))
    (fun '(a, b) => mk_tgid_goid a b) _).
  by intros [].
Defined.

Record go_interface := mk_go_interface { gi_type : Z; gi_ptr : Z }.

Inductive location_type_t : Set :=
| kLocationTypeInvalid | kLocationTypeStack | kLocationTypeRegisters.
#[export] Instance location_type_eq : EqDecision location_type_t.
Proof. solve_decision. Defined.

Record location_t := mk_location { loc_type : location_type_t; loc_offset : Z }.

Record go_tls_symaddrs_t := mk_go_tls_symaddrs {
  Write_c_loc : location_t;
  Write_b_loc : location_t;
  Write_retval0_loc : location_t;
  Write_retval1_loc : location_t;
  Read_c_loc : location_t;
  Read_b_loc : location_t;
  Read_retval0_loc : location_t;
  Read_retval1_loc : location_t;
}.

Record go_tls_conn_args := mk_go_tls_conn_args {
  tca_conn_ptr : Z;
  tca_plaintext_ptr : Z;
}.

(** ** Structure layout

    The size of a C structure from the sizes and alignments of its members, in
    declaration order. *)

Definition round_up (n a : Z) : Z := (n + a - 1) / a * a.

Fixpoint layout_end (off : Z) (fs : list (Z * Z)) : Z :=
  match fs with
  | [] => off
  | (sz, al) :: fs => layout_end (round_up off al + sz) fs
  end.

Definition struct_align (fs : list (Z * Z)) : Z :=
  foldr (fun f a => Z.max f.2 a) 1 fs.
Definition struct_size (fs : list (Z * Z)) : Z :=
  round_up (layout_end 0 fs) (struct_align fs).
Definition offset_of (fs : list (Z * Z)) (i : nat) : Z :=
  match fs !! i with
  | Some (_, al) => round_up (layout_end 0 (take i fs)) al
  | None => layout_end 0 fs
  end.
Definition struct_member (fs : list (Z * Z)) : Z * Z := (struct_size fs, struct_align fs).

Definition conn_id_s_t_layout : list (Z * Z) := [(8, 8); (4, 4)].
Definition kern_evt_layout : list (Z * Z) :=
  [(16, 1); (8, 8); (4, 4); (4, 4); (4, 4); (1, 1); (1, 1); (4, 4);
   struct_member conn_id_s_t_layout; (4, 4); (4, 4)].
Definition kern_evt_data_layout : list (Z * Z) :=
  [struct_member kern_evt_layout; (4, 4); (MAX_MSG_SIZE, 1)].
Definition kern_evt_ssl_data_layout : list (Z * Z) :=
  [struct_member kern_evt_layout; (4, 4); (4, 4); (4, 4); (MAX_MSG_SIZE, 1)].

Definition sizeof_kern_evt : Z := struct_size kern_evt_layout.
Definition sizeof_kern_evt_data : Z := struct_size kern_evt_data_layout.
Definition sizeof_kern_evt_ssl_data : Z := struct_size kern_evt_ssl_data_layout.
(** Offsets of the members [msg]. *)
Definition offsetof_data_msg : Z := offset_of kern_evt_data_layout 2.
Definition offsetof_ssl_msg : Z := offset_of kern_evt_ssl_data_layout 4.

Lemma sizes : sizeof_kern_evt = 72 /\ sizeof_kern_evt_data = 30800 /\
  sizeof_kern_evt_ssl_data = 30808 /\ offsetof_data_msg = 76 /\ offsetof_ssl_msg = 84.
Proof. vm_compute. repeat split. Qed.
