(* ===== verification/Machine.v ===== *)
(** * The machine a probe runs on

    [env] is what one run of a probe observes: the current task, the kernel
    objects reached through [BPF_CORE_READ], and memory.  [bpf] is what it can
    change: the maps of [data_common.h], [pktlatency.bpf.c], [go_common.h] and
    [gotls.bpf.c], the per-CPU scratch entries, and the perf rings. *)

From stdpp Require Import gmap list fin_maps.
From Stdlib Require Import ZArith Lia.
From S2P Require Import Prelude Types.
Local Open Scope Z_scope.

(** ** Kernel objects

    The fields of the kernel structures that the probes read.  An object is
    reached by its address; a read through an address that holds no such
    object faults, and the BPF read helpers then deliver zero bytes. *)

Record sock := mk_sock {
  skc_family : Z;
  skc_daddr : Z;
  skc_rcv_saddr : Z;
  skc_v6_daddr : in6_addr;
  skc_v6_rcv_saddr : in6_addr;
  skc_num : Z;
  skc_dport : Z;          (* network byte order *)
  skc_after_state : Z;    (* the byte that follows [skc_state] *)
  inet_sport : Z;         (* network byte order *)
  write_seq : Z;
  copied_seq : Z;
}.
Definition sock_zero : sock := mk_sock 0 0 0 in6_zero in6_zero 0 0 0 0 0 0.

(** [skc_addrpair] overlays [skc_daddr] and [skc_rcv_saddr]. *)
Definition skc_addrpair (s : sock) : Z := skc_daddr s + 4294967296 * skc_rcv_saddr s.

Record socket := mk_socket { so_type : Z; so_file : Z; so_sk : Z }.
Definition socket_zero : socket := mk_socket 0 0 0.

Record sk_buff := mk_sk_buff {
  skb_sk : Z;
  skb_network_header : Z;
  skb_mac_header : Z;
  skb_transport_header : Z;
  skb_head : Z;
  skb_data : Z;
  skb_len : Z;
  skb_protocol : Z;       (* network byte order *)
  skb_dev : Z;
  skb_skb_iif : Z;
  skb_cb_seq : Z;         (* [((struct tcp_skb_cb * )cb)->seq] *)
  skb_next : Z;
}.
Definition sk_buff_zero : sk_buff := mk_sk_buff 0 0 0 0 0 0 0 0 0 0 0 0.

(** One direction of a conntrack entry; the ports are in network byte order. *)
Record nf_conntrack_tuple := mk_nf_conntrack_tuple {
  nct_src : in6_addr;
  nct_src_port : Z;
  nct_dst : in6_addr;
  nct_dst_port : Z;
}.
Definition nf_tuple_zero : nf_conntrack_tuple := mk_nf_conntrack_tuple in6_zero 0 in6_zero 0.
Record nf_conn := mk_nf_conn {
  nfc_orig : nf_conntrack_tuple;
  nfc_reply : nf_conntrack_tuple;
}.

(** What CO-RE relocation decides when the object is loaded, and the build
    flag [LAGACY_KERNEL_310]. *)
Record build := mk_build {
  lagacy_kernel_310 : bool;
  has_skc_v6_daddr : bool;
  has_skc_state : bool;
  skc_state_offset_positive : bool;
  has_tuplehash : bool;
  has_tuplehash_older_52 : bool;
}.

Record env := mk_env {
  env_build : build;
  pid_tgid : Z;               (* [bpf_get_current_pid_tgid] *)
  clock : nat -> Z;           (* successive results of [bpf_ktime_get_ns] *)
  umem : Z -> option Z;       (* readable bytes of user memory *)
  kmem : Z -> option Z;       (* readable bytes of kernel memory *)
  task_size : Z;              (* addresses below it are user addresses *)
  task_ptr : Z;               (* [bpf_get_current_task] *)
  task_real_parent : Z;
  task_parent_tgid : Z;
  task_pidns : Z;
  task_mntns : Z;
  task_netns : Z;
  task_fsbase : Z;
  fd_table : Z -> Z;          (* file pointer in slot [fd] *)
  file_private_data : Z -> Z;
  socket_at : Z -> option socket;
  sock_at : Z -> option sock;
  skb_at : Z -> option sk_buff;
  dev_ifindex : Z -> Z;       (* [dev->ifindex], 0 where the read faults *)
  nf_conn_at : Z -> option nf_conn;
  stack_no_trace : conn_trace_state_t;
    (* what the stack holds where [conn_id_s.no_trace] is not initialised *)
}.

Definition read_sock (e : env) (p : Z) : sock := default sock_zero (sock_at e p).
Definition read_socket (e : env) (p : Z) : socket := default socket_zero (socket_at e p).
Definition read_skb (e : env) (p : Z) : sk_buff := default sk_buff_zero (skb_at e p).
Definition read_nf_conn (e : env) (p : Z) : nf_conn :=
  default (mk_nf_conn nf_tuple_zero nf_tuple_zero) (nf_conn_at e p).

(** ** Memory reads *)

(** A memory cell holds a byte: what is read is its low 8 bits. *)
Fixpoint read_bytes (m : Z -> option Z) (a : Z) (n : nat) : option (list Z) :=
  match n with
  | O => Some []
  | S n => b ← m (u64 a); bs ← read_bytes m (a + 1) n; Some (u8 b :: bs)
  end.

(** [bpf_probe_read_*]: the bytes, or zeros when any of them is unreadable. *)
Definition probe (m : Z -> option Z) (a : Z) (n : nat) : list Z :=
  default (replicate n 0) (read_bytes m a n).

Definition bpf_probe_read_user (e : env) (a : Z) (n : nat) : list Z := probe (umem e) a n.
Definition bpf_probe_read_kernel (e : env) (a : Z) (n : nat) : list Z := probe (kmem e) a n.
(** The legacy helper serves both address spaces. *)
Definition any_mem (e : env) (a : Z) : option Z :=
  if a <? task_size e then umem e a else kmem e a.
Definition bpf_probe_read (e : env) (a : Z) (n : nat) : list Z := probe (any_mem e) a n.

Lemma read_bytes_length m a n bs : read_bytes m a n = Some bs -> length bs = n.
Proof.
  revert a bs. induction n as [|n IH]; intros a bs; simpl; [by intros [= <-]|].
  destruct (m (u64 a)); [|done]. simpl.
  destruct (read_bytes m (a + 1) n) eqn:E; [|done]. simpl.
  intros [= <-]. simpl. f_equal. eauto.
Qed.

Lemma probe_length m a n : length (probe m a n) = n.
Proof.
  unfold probe. destruct (read_bytes m a n) eqn:E; simpl.
  - by eapply read_bytes_length.
  - by rewrite length_replicate.
Qed.

Lemma probe_bytes m a n : Forall byte_range (probe m a n).
Proof.
  unfold probe. destruct (read_bytes m a n) as [bs|] eqn:E; simpl.
  - revert a bs E. induction n as [|n IH]; intros a bs; simpl; [by intros [= <-]|].
    destruct (m (u64 a)) eqn:Ea; [|done]. simpl.
    destruct (read_bytes m (a + 1) n) eqn:E'; [|done]. simpl.
    intros [= <-]. constructor; eauto.
    unfold byte_range, u8. apply Z.mod_pos_bound. lia.
  - apply Forall_replicate. unfold byte_range. lia.
Qed.
#[export] Hint Resolve probe_bytes : ints.

Lemma length_read_user e a n : length (bpf_probe_read_user e a n) = n.
Proof. apply probe_length. Qed.
Lemma length_read_kernel e a n : length (bpf_probe_read_kernel e a n) = n.
Proof. apply probe_length. Qed.
Lemma length_read e a n : length (bpf_probe_read e a n) = n.
Proof. apply probe_length. Qed.

(** Memory holding the bytes [bs] at address [a]. *)
Definition mem_at (a : Z) (bs : list Z) : Z -> option Z :=
  fun x => if a <=? x then bs !! Z.to_nat (x - a) else None.

(** [m] holds the bytes [bs] from address [a] on. *)
Definition holds (m : Z -> option Z) (a : Z) (bs : list Z) : Prop :=
  Forall byte_range bs /\
  forall i, (i < length bs)%nat -> m (u64 (a + Z.of_nat i)) = bs !! i.

Lemma holds_cons m a b bs :
  holds m a (b :: bs) <-> byte_range b /\ m (u64 a) = Some b /\ holds m (a + 1) bs.
Proof.
  unfold holds. rewrite Forall_cons. split.
  - intros [[Hb Hbs] H]. pose proof (H 0%nat ltac:(simpl; lia)) as H0.
    rewrite Z.add_0_r in H0. split; [done|]. split; [done|]. split; [done|].
    intros i Hi. specialize (H (S i) ltac:(simpl; lia)). simpl in H.
    rewrite <- H. f_equal. f_equal. lia.
  - intros (Hb & H0 & Hbs & H). split; [done|].
    intros [|i] Hi; [by rewrite Z.add_0_r|]. simpl in *.
    rewrite <- H by lia. f_equal. f_equal. lia.
Qed.

Lemma holds_app m a xs ys :
  holds m a (xs ++ ys) <-> holds m a xs /\ holds m (a + Z.of_nat (length xs)) ys.
Proof.
  revert a. induction xs as [|x xs IH]; intros a.
  - simpl. rewrite Z.add_0_r. split; [|by intros [_ ?]].
    intros. split; [|done]. split; [constructor|]. intros i Hi. simpl in Hi. lia.
  - simpl. rewrite !holds_cons, IH.
    replace (a + Z.of_nat (S (length xs))) with (a + 1 + Z.of_nat (length xs)) by lia.
    tauto.
Qed.

Lemma probe_holds m a bs n :
  holds m a bs -> (n <= length bs)%nat -> probe m a n = take n bs.
Proof.
  intros H Hn. unfold probe.
  enough (read_bytes m a n = Some (take n bs)) as -> by done.
  revert a bs H Hn. induction n as [|n IH]; intros a bs H Hn; [by destruct bs|].
  destruct bs as [|b bs]; [simpl in Hn; lia|].
  apply holds_cons in H as (Hb & H0 & H). simpl. rewrite H0. simpl.
  rewrite (IH _ bs) by (auto; simpl in Hn; lia). simpl.
  unfold u8. by rewrite Z.mod_small.
Qed.

(** Evaluate [holds] on concrete memory. *)
Lemma bytes_ok bs : forallb (fun b => (0 <=? b) && (b <? 256)) bs = true -> Forall byte_range bs.
Proof.
  intros H. apply Forall_forall. intros b Hb.
  apply forallb_forall with (x := b) in H; [|by apply list_elem_of_In].
  apply andb_prop in H as [?%Z.leb_le ?%Z.ltb_lt]. by split.
Qed.

Ltac holds_tac :=
  split; [apply bytes_ok; reflexivity|];
  let i := fresh "i" in let Hi := fresh "Hi" in
  intros i Hi; cbn in Hi;
  repeat first [exfalso; lia | destruct i as [|i]; [reflexivity|] ].

(** ** Maps *)

Inductive update_flag : Set := BPF_ANY | BPF_NOEXIST.

(** [bpf_map_update_elem] on a hash map: an existing key is overwritten unless
    [BPF_NOEXIST] is given; a new key is refused when the map is full.  The
    return code, which every call in the source discards, is not modelled. *)
Definition bpf_map_update_elem {K V} `{Countable K} (max_entries : Z) (flag : update_flag)
    (k : K) (v : V) (m : gmap K V) : gmap K V :=
  match m !! k with
  | Some _ => match flag with BPF_ANY => <[k := v]> m | BPF_NOEXIST => m end
  | None => if Z.of_nat (size m) <? max_entries then <[k := v]> m else m
  end.

(** [max_entries] of the maps declared with [MY_BPF_HASH], and of the filters. *)
Definition MAX_ENTRIES : Z := 65535.
Definition FILTER_MAX_ENTRIES : Z := 10.

Section MapUpdate.
Context {K V : Type} `{Countable K} (max : Z) (flag : update_flag).
Implicit Types (m : gmap K V) (k : K) (v : V).

(** The map has room for [k]: it holds [k] already or is not full. *)
Definition has_room (m : gmap K V) (k : K) : Prop :=
  is_Some (m !! k) \/ Z.of_nat (size m) < max.

Lemma update_ne m k k' v :
  k <> k' -> bpf_map_update_elem max flag k v m !! k' = m !! k'.
Proof.
  intros. unfold bpf_map_update_elem.
  destruct (m !! k), flag; try case_match; by rewrite ?lookup_insert_ne.
Qed.

Lemma update_any_eq m k v :
  has_room m k -> bpf_map_update_elem max BPF_ANY k v m !! k = Some v.
Proof.
  intros Hr. unfold bpf_map_update_elem. destruct (m !! k) eqn:E.
  - by rewrite lookup_insert_eq.
  - destruct Hr as [[? ?]|Hr]; [congruence|].
    rewrite (proj2 (Z.ltb_lt _ _) Hr). by rewrite lookup_insert_eq.
Qed.

Lemma update_noexist_old m k v v0 :
  m !! k = Some v0 -> bpf_map_update_elem max BPF_NOEXIST k v m !! k = Some v0.
Proof. intros E. unfold bpf_map_update_elem. by rewrite E. Qed.

Lemma update_noexist_new m k v :
  m !! k = None -> Z.of_nat (size m) < max ->
  bpf_map_update_elem max BPF_NOEXIST k v m !! k = Some v.
Proof.
  intros E Hs. unfold bpf_map_update_elem. rewrite E, (proj2 (Z.ltb_lt _ _) Hs).
  by rewrite lookup_insert_eq.
Qed.

(** Whatever is found after an update is the new value or was there before. *)
Lemma update_lookup m k v k' v' :
  bpf_map_update_elem max flag k v m !! k' = Some v' ->
  (k' = k /\ v' = v) \/ m !! k' = Some v'.
Proof.
  intros Hl. destruct (decide (k = k')) as [->|Hne].
  - unfold bpf_map_update_elem in Hl.
    destruct (m !! k') eqn:E; [destruct flag|case_match];
      rewrite ?lookup_insert_eq, ?E in Hl; simplify_eq; eauto.
  - right. by rewrite update_ne in Hl.
Qed.

(** The capacity is never exceeded. *)
Lemma update_size m k v :
  Z.of_nat (size m) <= max -> Z.of_nat (size (bpf_map_update_elem max flag k v m)) <= max.
Proof.
  intros Hs. unfold bpf_map_update_elem.
  destruct (m !! k) eqn:E.
  - destruct flag; [|done]. by rewrite map_size_insert_Some.
  - destruct (Z.ltb_spec (Z.of_nat (size m)) max); [|done].
    rewrite map_size_insert_None by done. lia.
Qed.
End MapUpdate.

(** ** State *)

(** What is written to the perf rings, one constructor per ring.  A record on
    [syscall_rb] or [ssl_rb] carries the bytes of [msg] that are within the
    length passed to [bpf_perf_event_output]. *)
Inductive perf_record : Type :=
| rb (evt : kern_evt)
| syscall_rb (ke : kern_evt) (buf_size : Z) (payload : list Z)
| ssl_rb (ke : kern_evt) (syscall_seq syscall_len buf_size : Z) (payload : list Z)
| first_packet_rb (evt : first_packet_evt)
| conn_evt_rb (evt : conn_evt_t)
| proc_exec_events (pid : Z)
| proc_exit_events (pid : Z).

Record bpf := mk_bpf {
  (* data_common.h *)
  filter_mntns_map : gmap Z Z;
  filter_pidns_map : gmap Z Z;
  filter_netns_map : gmap Z Z;
  filter_pid_map : gmap Z Z;
  active_ssl_read_args_map : gmap Z data_args;
  active_ssl_write_args_map : gmap Z data_args;
  ssl_user_space_call_map : gmap Z nested_syscall_fd_t;
  conn_info_map : gmap Z conn_info_t;
  syscall_data_map : option kern_evt_data;
  ssl_data_map : option kern_evt_ssl_data;
  first_packet_evt_map : option first_packet_evt;
  conn_evt_map : option conn_evt_t;
  control_values : gmap Z Z;
  (* pktlatency.bpf.c *)
  sock_xmit_map : gmap sock_key Z;
  sock_key_conn_id_map : gmap sock_key conn_id_s_t;
  nat_flow_map : gmap sock_key sock_key;
  conn_info_t_map : option conn_info_t;
  kern_evt_t_map : option kern_evt;
  accept_args_map : gmap Z accept_args;
  connect_args_map : gmap Z connect_args;
  close_args_map : gmap Z close_args;
  write_args_map : gmap Z data_args;
  active_sendfile_args_map : gmap Z sendfile_args;
  read_args_map : gmap Z data_args;
  enabled_remote_port_map : gmap Z Z;
  enabled_local_port_map : gmap Z Z;
  enabled_remote_ip_map : gmap in6_addr Z;
  enabled_local_ipv4_map : gmap Z Z;
  (* go_common.h, gotls.bpf.c *)
  go_common_symaddrs_map : gmap Z go_common_symaddrs_t;
  go_ssl_user_space_call_map : gmap tgid_goid_t nested_syscall_fd_t;
  go_tls_symaddrs_map : gmap Z go_tls_symaddrs_t;
  active_tls_conn_op_map : gmap tgid_goid_t go_tls_conn_args;
  regs_heap : option (list Z);
  (* the perf rings, in the order of output, and the number of clock reads *)
  perf : list perf_record;
  ticks : nat;
}.
#[export] Instance eta_bpf : Eta bpf := fun r =>
  mk_bpf (filter_mntns_map r) (filter_pidns_map r) (filter_netns_map r)
    (filter_pid_map r) (active_ssl_read_args_map r) (active_ssl_write_args_map r)
    (ssl_user_space_call_map r) (conn_info_map r) (syscall_data_map r)
    (ssl_data_map r) (first_packet_evt_map r) (conn_evt_map r) (control_values r)
    (sock_xmit_map r) (sock_key_conn_id_map r) (nat_flow_map r) (conn_info_t_map r)
    (kern_evt_t_map r) (accept_args_map r) (connect_args_map r) (close_args_map r)
    (write_args_map r) (active_sendfile_args_map r) (read_args_map r)
    (enabled_remote_port_map r) (enabled_local_port_map r) (enabled_remote_ip_map r)
    (enabled_local_ipv4_map r) (go_common_symaddrs_map r)
    (go_ssl_user_space_call_map r) (go_tls_symaddrs_map r)
    (active_tls_conn_op_map r) (regs_heap r) (perf r) (ticks r).

(** The state when the programs are loaded: hash maps empty, per-CPU entries
    present and zero-filled. *)
Definition bpf_init : bpf := {|
  filter_mntns_map := ∅; filter_pidns_map := ∅; filter_netns_map := ∅;
  filter_pid_map := ∅; active_ssl_read_args_map := ∅;
  active_ssl_write_args_map := ∅; ssl_user_space_call_map := ∅;
  conn_info_map := ∅; syscall_data_map := Some kern_evt_data_zero;
  ssl_data_map := Some kern_evt_ssl_data_zero;
  first_packet_evt_map := Some first_packet_evt_zero;
  conn_evt_map := Some conn_evt_zero; control_values := ∅;
  sock_xmit_map := ∅; sock_key_conn_id_map := ∅; nat_flow_map := ∅;
  conn_info_t_map := Some conn_info_zero; kern_evt_t_map := Some kern_evt_zero;
  accept_args_map := ∅; connect_args_map := ∅; close_args_map := ∅;
  write_args_map := ∅; active_sendfile_args_map := ∅; read_args_map := ∅;
  enabled_remote_port_map := ∅; enabled_local_port_map := ∅;
  enabled_remote_ip_map := ∅; enabled_local_ipv4_map := ∅;
  go_common_symaddrs_map := ∅; go_ssl_user_space_call_map := ∅;
  go_tls_symaddrs_map := ∅; active_tls_conn_op_map := ∅;
  regs_heap := Some (replicate 9 0); perf := []; ticks := 0;
|}.

(** ** Helpers every probe uses *)

Abbreviation M := (RS env bpf).

Definition bpf_get_current_pid_tgid : M Z := asks pid_tgid.

Definition bpf_ktime_get_ns : M Z :=
  n ← gets ticks;
  e ← ask;
  modify (fun s => s <| ticks := S n |>);;
  mret (clock e n).

Definition bpf_perf_event_output (r : perf_record) : M unit :=
  modify (fun s => s <| perf ::= fun l => l ++ [r] |>).

Lemma exec_ktime e s : exec bpf_ktime_get_ns e s = s <| ticks ::= S |>.
Proof. done. Qed.
Lemma result_ktime e s : result bpf_ktime_get_ns e s = clock e (ticks s).
Proof. done. Qed.
Lemma exec_perf r e s : exec (bpf_perf_event_output r) e s = s <| perf ::= fun l => l ++ [r] |>.
Proof. done. Qed.
Lemma exec_pid_tgid e s : exec bpf_get_current_pid_tgid e s = s.
Proof. done. Qed.
Lemma result_pid_tgid e s : result bpf_get_current_pid_tgid e s = pid_tgid e.
Proof. done. Qed.
#[export] Hint Rewrite exec_ktime result_ktime exec_perf exec_pid_tgid result_pid_tgid : run.

(** An environment in which nothing can be read, from which the concrete runs
    start. *)
Definition build0 : build := mk_build false true true true true false.
Definition env0 : env := {|
  env_build := build0; pid_tgid := 0; clock := fun n => 1000 + Z.of_nat n;
  umem := fun _ => None; kmem := fun _ => None; task_size := 140737488351232;
  task_ptr := 1; task_real_parent := 0; task_parent_tgid := 0; task_pidns := 0;
  task_mntns := 0; task_netns := 0; task_fsbase := 0; fd_table := fun _ => 0;
  file_private_data := fun _ => 0; socket_at := fun _ => None;
  sock_at := fun _ => None; skb_at := fun _ => None; dev_ifindex := fun _ => 0;
  nf_conn_at := fun _ => None; stack_no_trace := unset;
|}.
#[export] Instance eta_env : Eta env := fun r =>
  mk_env (env_build r) (pid_tgid r) (clock r) (umem r) (kmem r) (task_size r)
    (task_ptr r) (task_real_parent r) (task_parent_tgid r) (task_pidns r)
    (task_mntns r) (task_netns r) (task_fsbase r) (fd_table r)
    (file_private_data r) (socket_at r) (sock_at r) (skb_at r) (dev_ifindex r)
    (nf_conn_at r) (stack_no_trace r).
