(* ===== verification/ProtocolInference.v ===== *)
(** * Protocol inference ([bpf/protocol_inference.h])

    Each [is_*_protocol] reads a few bytes of the traced buffer and classifies
    it; [infer_protocol] tries them in order and updates the per-connection
    state ([prev_count], [prev_buf], [prepend_length_header]) that lets a
    header and a body read by two system calls be recognised together.

    The functions are pure: they read the environment and return the updated
    [conn_info_t] where the C code writes through its pointer. *)

From stdpp Require Import gmap list fin_maps.
From Stdlib Require Import ZArith Lia.
From Stdlib Require Ascii String.
Import String.StringSyntax.
From S2P Require Import Prelude Types Machine.
Local Open Scope Z_scope.

(** [buf[i]] of a local array. *)
Definition byte_at (bs : list Z) (i : nat) : Z := default 0 (bs !! i).

(** The four (two) bytes read by [read_big_endian_int32] ([_int16]), swapped. *)
Definition be_int32 (bs : list Z) : Z := s32 (bpf_ntohl (le_decode bs)).
Definition be_int16 (bs : list Z) : Z := s16 (bpf_ntohs (le_decode bs)).

Definition read_big_endian_int32 (e : env) (buf : Z) : Z := be_int32 (bpf_probe_read e buf 4).
Definition read_big_endian_int16 (e : env) (buf : Z) : Z := be_int16 (bpf_probe_read e buf 2).

Definition kNumAPIs : Z := 62.
Definition kMaxAPIVersion : Z := 17.

Definition infer_kafka_request (e : env) (buf : Z) : message_type_t :=
  let request_API_key := read_big_endian_int16 e buf in
  if (request_API_key <? 0) || (kNumAPIs <? request_API_key) then kUnknown else
  let request_API_version := read_big_endian_int16 e (buf + 2) in
  if (request_API_version <? 0) || (kMaxAPIVersion <? request_API_version) then kUnknown else
  let correlation_id := read_big_endian_int32 e (buf + 4) in
  if correlation_id <? 0 then kUnknown else kRequest.

Definition kMinRequestLength : Z := 12.

(** Returns the C [bool] and the connection. *)
Definition is_kafka_protocol (e : env) (buf count total_count : Z) (ci : conn_info_t)
    : bool * conn_info_t :=
  let count_in_prev_buf := u64 (be_int32 (ci_prev_buf ci)) in
  let use_prev_buf :=
    (ci_prev_count ci =? 4) &&
    ((count_in_prev_buf =? count) || (count_in_prev_buf =? total_count)) in
  let count := if use_prev_buf then u64 (count + 4) else count in
  if count <? kMinRequestLength then (false, ci) else
  let message_size :=
    if use_prev_buf then s32 count else s32 (read_big_endian_int32 e buf + 4) in
  if (message_size <? 0) ||
     (negb (count =? u64 message_size) && negb (total_count =? u64 message_size))
  then (false, ci) else
  let request_buf := if use_prev_buf then buf else buf + 4 in
  let result := infer_kafka_request e request_buf in
  let ci :=
    if use_prev_buf && bool_decide (result = kRequest) &&
       bool_decide (ci_protocol ci = kProtocolUnknown)
    then ci <| ci_prepend_length_header := true |> else ci in
  (bool_decide (result <> kUnknown), ci).

Definition kComQuery : Z := 3.
Definition kComConnect : Z := 11.
Definition kComStmtPrepare : Z := 22.
Definition kComStmtExecute : Z := 23.
Definition kComStmtClose : Z := 25.

Definition is_mysql_protocol (e : env) (old_buf count : Z) (ci : conn_info_t) : message_type_t :=
  let use_prev_buf :=
    (ci_prev_count ci =? 4) && (le_decode (ci_prev_buf ci) =? count) in
  let count := if use_prev_buf then u64 (count + 4) else count in
  if count <? 5 then kUnknown else
  let buf := bpf_probe_read_user e old_buf 5 in
  let len := if use_prev_buf then le_decode (ci_prev_buf ci) else le_decode (take 4 buf) in
  let len := Z.land len 16777215 in
  let seq := if use_prev_buf then byte_at (ci_prev_buf ci) 3 else byte_at buf 3 in
  let com := if use_prev_buf then byte_at buf 0 else byte_at buf 4 in
  if negb (seq =? 0) then kUnknown else
  if len =? 0 then kUnknown else
  if 10000 <? len then kUnknown else
  if (com =? kComConnect) || (com =? kComQuery) || (com =? kComStmtPrepare) ||
     (com =? kComStmtExecute) || (com =? kComStmtClose)
  then kRequest else kUnknown.

(** ['+'], ['-'], [':'], ['$'], ['*'], ['\r'], ['\n']. *)
Definition is_redis_protocol (e : env) (old_buf count : Z) : bool :=
  if count <? 3 then false else
  let first_byte := byte_at (bpf_probe_read_user e old_buf 1) 0 in
  if negb (first_byte =? 43) && negb (first_byte =? 45) && negb (first_byte =? 58) &&
     negb (first_byte =? 36) && negb (first_byte =? 42)
  then false else
  let last_buf := bpf_probe_read_user e (old_buf + count - 2) 2 in
  if negb (byte_at last_buf 0 =? 13) then false else
  if negb (byte_at last_buf 1 =? 10) then false else true.

(** The bytes compared are those of ["HTTP"], ["GET"], ["HEAD"], ["POST"]. *)
Definition is_http_protocol (e : env) (old_buf count : Z) : message_type_t :=
  if count <? 5 then kUnknown else
  let buf := bpf_probe_read_user e old_buf 4 in
  if (byte_at buf 0 =? 72) && (byte_at buf 1 =? 84) && (byte_at buf 2 =? 84) &&
     (byte_at buf 3 =? 80) then kResponse else
  if (byte_at buf 0 =? 71) && (byte_at buf 1 =? 69) && (byte_at buf 2 =? 84)
  then kRequest else
  if (byte_at buf 0 =? 72) && (byte_at buf 1 =? 69) && (byte_at buf 2 =? 65) &&
     (byte_at buf 3 =? 68) then kRequest else
  if (byte_at buf 0 =? 80) && (byte_at buf 1 =? 79) && (byte_at buf 2 =? 83) &&
     (byte_at buf 3 =? 84) then kRequest else
  kUnknown.

Definition kMongoHeaderLength : Z := 16.

(** [((int32_t* )buf)[i]] *)
Definition int32_at (buf : list Z) (i : nat) : Z :=
  s32 (le_decode (take 4 (drop (4 * i) buf))).

Definition is_mongo_opcode (opcode : Z) : bool :=
  (opcode =? 2001) || (opcode =? 2002) || (opcode =? 2003) || (opcode =? 2004) ||
  (opcode =? 2005) || (opcode =? 2006) || (opcode =? 2007) || (opcode =? 2012) ||
  (opcode =? 2013).

Definition is_mongo_protocol (e : env) (old_buf count : Z) : message_type_t :=
  if count <? kMongoHeaderLength then kUnknown else
  let buf := bpf_probe_read_user e old_buf 17 in
  let message_length := int32_at buf 0 in
  if message_length <? kMongoHeaderLength then kUnknown else
  let request_id := int32_at buf 1 in
  if request_id <? 0 then kUnknown else
  let response_to := int32_at buf 2 in
  let opcode := int32_at buf 3 in
  if is_mongo_opcode opcode && (response_to =? 0) then kRequest else kUnknown.

(** [{"code":] *)
Definition rocketmq_json_prefix : list Z := [123; 34; 99; 111; 100; 101; 34; 58].

Definition is_rocketmq_protocol (e : env) (old_buf count : Z) : message_type_t :=
  if count <? 16 then kUnknown else
  let frame_size := s32 (bpf_ntohl (le_decode (bpf_probe_read_user e old_buf 4))) in
  if (frame_size <=? 0) || (u64 (count - 4) <? u64 frame_size) then kUnknown else
  let header_length := s32 (bpf_ntohl (le_decode (bpf_probe_read_user e (old_buf + 4) 4))) in
  let serialized_type := s8 (Z.land (Z.shiftr header_length 24) 255) in
  let header_data_len := Z.land header_length 16777215 in
  if (header_data_len <=? 0) || negb (header_data_len =? frame_size - 4) then kUnknown else
  if serialized_type =? 0 then
    let buf := bpf_probe_read_user e (old_buf + 8) 8 in
    if bool_decide (buf = rocketmq_json_prefix) then kRequest else kUnknown
  else if serialized_type =? 1 then
    let request_code := le_decode (bpf_probe_read_user e (old_buf + 8) 2) in
    let l_flag := le_decode (bpf_probe_read_user e (old_buf + 10) 1) in
    let request_code := u16 (bpf_ntohl request_code) in
    if request_code <? 10 then kUnknown else
    if 13 <? l_flag then kUnknown else kRequest
  else kUnknown.

Definition kDNSHeaderSize : Z := 12.
Definition kMaxDNSMessageSize : Z := 512.
Definition kMaxNumRR : Z := 25.

(** [(ubuf[i] << 8) + ubuf[i + 1]] stored in a [uint16_t]. *)
Definition ubuf16 (ubuf : list Z) (i : nat) : Z :=
  u16 (Z.shiftl (byte_at ubuf i) 8 + byte_at ubuf (i + 1)).

Definition is_dns_protocol (e : env) (buf count : Z) : message_type_t :=
  if (count <? kDNSHeaderSize) || (kMaxDNSMessageSize <? count) then kUnknown else
  let ubuf := bpf_probe_read_user e buf 12 in
  let flags := ubuf16 ubuf 2 in
  let num_questions := ubuf16 ubuf 4 in
  let num_answers := ubuf16 ubuf 6 in
  let num_auth := ubuf16 ubuf 8 in
  let num_addl := ubuf16 ubuf 10 in
  let qr := Z.land (Z.shiftr flags 15) 1 in
  let opcode := Z.land (Z.shiftr flags 11) 15 in
  let zero := Z.land (Z.shiftr flags 6) 1 in
  if negb (zero =? 0) then kUnknown else
  if negb (opcode =? 0) then kUnknown else
  if (num_questions =? 0) || (10 <? num_questions) then kUnknown else
  let num_rr := u32 (num_questions + num_answers + num_auth + num_addl) in
  if kMaxNumRR <? num_rr then kUnknown else
  if qr =? 0 then kRequest else kResponse.

(** [TRACE_PROTOCOL(p)]; [trace_protocol] is the 32-bit control value. *)
Definition TRACE_PROTOCOL (trace_protocol : Z) (p : traffic_protocol_t) : bool :=
  (trace_protocol =? traffic_protocol_val kProtocolUnset) ||
  (trace_protocol =? traffic_protocol_val p).

(** The [else if] chain of [infer_protocol]: the classifiers in order. *)
Definition classify (e : env) (buf count total_count : Z) (ci : conn_info_t)
    (trace_protocol : Z) : protocol_message_t * conn_info_t :=
  let try p t := TRACE_PROTOCOL trace_protocol p && bool_decide (t <> kUnknown) in
  let http := is_http_protocol e buf count in
  if try kProtocolHTTP http then (mk_protocol_message kProtocolHTTP http, ci) else
  let mongo := is_mongo_protocol e buf count in
  if try kProtocolMongo mongo then (mk_protocol_message kProtocolMongo mongo, ci) else
  let mysql := is_mysql_protocol e buf count ci in
  if try kProtocolMySQL mysql then (mk_protocol_message kProtocolMySQL mysql, ci) else
  let rocketmq := is_rocketmq_protocol e buf count in
  if try kProtocolRocketMQ rocketmq
  then (mk_protocol_message kProtocolRocketMQ rocketmq, ci) else
  let '(kafka, ci) :=
    if TRACE_PROTOCOL trace_protocol kProtocolKafka
    then is_kafka_protocol e buf count total_count ci else (false, ci) in
  if kafka then (mk_protocol_message kProtocolKafka kRequest, ci) else
  let dns := is_dns_protocol e buf count in
  if try kProtocolDNS dns then (mk_protocol_message kProtocolDNS dns, ci) else
  if TRACE_PROTOCOL trace_protocol kProtocolRedis && is_redis_protocol e buf count
  then (mk_protocol_message kProtocolRedis kUnknown, ci) else
  (mk_protocol_message kProtocolUnknown kUnknown, ci).

Definition infer_protocol (e : env) (buf count total_count : Z) (ci : conn_info_t)
    (trace_protocol : Z) : protocol_message_t * conn_info_t :=
  let ci := ci <| ci_prepend_length_header := false |> in
  let '(protocol_message, ci) := classify e buf count total_count ci trace_protocol in
  let ci := ci <| ci_prev_count := count |> in
  let ci := if count =? 4 then ci <| ci_prev_buf := bpf_probe_read e buf 4 |> else ci in
  (protocol_message, ci).

(** ** What the classifiers accept *)

(** The bytes of an ASCII string. *)
Definition str (s : String.string) : list Z :=
  List.map (fun c => Z.of_N (Ascii.N_of_ascii c)) (String.list_ascii_of_string s).
#[local] Arguments str s%_string_scope.

Definition starts_with (e : env) (buf : Z) (n : nat) (p : list Z) : Prop :=
  take (length p) (bpf_probe_read_user e buf n) = p.

(** Name the bytes of a list of known length. *)
Ltac name_bytes H :=
  repeat match type of H with
  | length ?l = S _ =>
    let b := fresh "b" in let l' := fresh "l" in
    destruct l as [|b l']; [discriminate H | apply (f_equal pred) in H; cbn [pred length] in H]
  | length ?l = O => destruct l; [clear H | discriminate H]
  end.

(** Open the read of [n] bytes at [a] as an explicit list. *)
Ltac open_read a n :=
  let H := fresh "Hlen" in let l := fresh "bytes" in
  match goal with
  | |- context [bpf_probe_read_user ?e a n] =>
    pose proof (probe_length (umem e) a n) as H;
    change (probe (umem e) a n) with (bpf_probe_read_user e a n) in H;
    set (l := bpf_probe_read_user e a n) in *; clearbody l; name_bytes H
  | |- context [bpf_probe_read ?e a n] =>
    pose proof (probe_length (any_mem e) a n) as H;
    change (probe (any_mem e) a n) with (bpf_probe_read e a n) in H;
    set (l := bpf_probe_read e a n) in *; clearbody l; name_bytes H
  end.

Ltac eval_str :=
  repeat match goal with
  | |- context [str ?s] => let v := eval vm_compute in (str s) in change (str s) with v
  end.

Ltac split_eqb :=
  repeat match goal with
  | |- context [?a =? ?b] => destruct (Z.eqb_spec a b); cbn [andb orb negb]
  | |- context [?a <? ?b] => destruct (Z.ltb_spec a b); cbn [andb orb negb]
  | |- context [?a <=? ?b] => destruct (Z.leb_spec a b); cbn [andb orb negb]
  end.

Definition http_spec (e : env) (buf count : Z) (t : message_type_t) : Prop :=
  match t with
  | kResponse => 5 <= count /\ starts_with e buf 4 (str "HTTP")
  | kRequest => 5 <= count /\
      (starts_with e buf 4 (str "GET") \/ starts_with e buf 4 (str "HEAD") \/
       starts_with e buf 4 (str "POST"))
  | kUnknown => count < 5 \/
      (~ starts_with e buf 4 (str "HTTP") /\ ~ starts_with e buf 4 (str "GET") /\
       ~ starts_with e buf 4 (str "HEAD") /\ ~ starts_with e buf 4 (str "POST"))
  end.

Lemma is_http_protocol_sound e buf count :
  http_spec e buf count (is_http_protocol e buf count).
Proof.
  unfold is_http_protocol, http_spec, starts_with. eval_str.
  destruct (Z.ltb_spec count 5); [lia|]. open_read buf 4%nat.
  unfold byte_at. simpl. split_eqb; subst; intuition congruence.
Qed.

Lemma http_spec_functional e buf count t t' :
  http_spec e buf count t -> http_spec e buf count t' -> t = t'.
Proof.
  unfold http_spec, starts_with. eval_str. open_read buf 4%nat. simpl.
  destruct t, t'; intros; try done; exfalso; intuition (try lia; try congruence).
Qed.


(** *** RocketMQ *)

(** Swapping a zero-extended 16-bit value as a 32-bit one moves both its bytes
    to the upper half: nothing is left after truncation to 16 bits. *)
Lemma ntohl_of_u16 z : 0 <= z < 65536 -> u16 (bpf_ntohl z) = 0.
Proof.
  intros Hz. unfold bpf_ntohl, be_decode. cbn [le_encode rev app le_decode].
  replace (z / 256 / 256) with 0 by word_lia.
  change (0 / 256) with 0. change (0 mod 256) with 0. word_lia.
Qed.

Lemma read_u16_range e a : 0 <= le_decode (bpf_probe_read_user e a 2) < 65536.
Proof.
  pose proof (le_decode_range _ (probe_bytes (umem e) a 2)) as H.
  rewrite probe_length in H. exact H.
Qed.

Definition rocketmq_frame_size (e : env) (buf : Z) : Z :=
  s32 (bpf_ntohl (le_decode (bpf_probe_read_user e buf 4))).
Definition rocketmq_header_length (e : env) (buf : Z) : Z :=
  s32 (bpf_ntohl (le_decode (bpf_probe_read_user e (buf + 4) 4))).

(** [is_rocketmq_protocol] accepts a buffer exactly when the frame sizes
    agree, the serialisation type is JSON and the header starts with the JSON
    prefix: a frame in the binary serialisation is never recognised. *)
Theorem is_rocketmq_protocol_json_only e buf count :
  is_rocketmq_protocol e buf count = kRequest <->
  16 <= count /\
  0 < rocketmq_frame_size e buf /\
  u64 (rocketmq_frame_size e buf) <= u64 (count - 4) /\
  0 < Z.land (rocketmq_header_length e buf) 16777215 /\
  Z.land (rocketmq_header_length e buf) 16777215 = rocketmq_frame_size e buf - 4 /\
  s8 (Z.land (Z.shiftr (rocketmq_header_length e buf) 24) 255) = 0 /\
  bpf_probe_read_user e (buf + 8) 8 = rocketmq_json_prefix.
Proof.
  unfold is_rocketmq_protocol, rocketmq_frame_size, rocketmq_header_length.
  rewrite ntohl_of_u16 by apply read_u16_range. change (0 <? 10) with true.
  set (f := s32 (bpf_ntohl (le_decode (bpf_probe_read_user e buf 4)))).
  set (h := Z.land (s32 _) 16777215).
  set (t := s8 _).
  destruct (Z.ltb_spec count 16); [split; [done|lia]|].
  destruct (Z.leb_spec f 0), (Z.ltb_spec (u64 (count - 4)) (u64 f)); cbn [orb];
    try (split; [done|lia]).
  destruct (Z.leb_spec h 0), (Z.eqb_spec h (f - 4)); cbn [orb negb];
    try (split; [done|lia]).
  destruct (Z.eqb_spec t 0).
  - destruct (bool_decide_reflect (bpf_probe_read_user e (buf + 8) 8 = rocketmq_json_prefix));
      intuition (try done; try lia).
  - split; [by case_match|lia].
Qed.

(** *** DNS *)

Definition dns_word (e : env) (buf : Z) (i : nat) : Z :=
  be_decode (take 2 (drop i (bpf_probe_read_user e buf 12))).

Lemma ubuf16_be e buf i :
  (i + 1 < 12)%nat -> ubuf16 (bpf_probe_read_user e buf 12) i = dns_word e buf i.
Proof.
  intros Hi. unfold dns_word, ubuf16, byte_at.
  pose proof (probe_length (umem e) buf 12) as Hl.
  pose proof (probe_bytes (umem e) buf 12) as Hb.
  change (probe (umem e) buf 12) with (bpf_probe_read_user e buf 12) in *.
  set (l := bpf_probe_read_user e buf 12) in *. clearbody l.
  destruct (lookup_lt_is_Some_2 l i ltac:(lia)) as [x Hx].
  destruct (lookup_lt_is_Some_2 l (i + 1) ltac:(lia)) as [y Hy].
  rewrite Hx, Hy. simpl.
  rewrite (drop_S l x i Hx), <- (Nat.add_1_r i), (drop_S l y (i + 1) Hy).
  pose proof (proj1 (Forall_lookup _ _) Hb _ _ Hx).
  pose proof (proj1 (Forall_lookup _ _) Hb _ _ Hy).
  unfold byte_range in *. cbn [take be_decode].
  unfold be_decode. simpl. rewrite Z.shiftl_mul_pow2 by lia. word_lia.
Qed.

Definition dns_valid (e : env) (buf count : Z) : Prop :=
  12 <= count <= 512 /\
  Z.land (Z.shiftr (dns_word e buf 2) 6) 1 = 0 /\
  Z.land (Z.shiftr (dns_word e buf 2) 11) 15 = 0 /\
  1 <= dns_word e buf 4 <= 10 /\
  dns_word e buf 4 + dns_word e buf 6 + dns_word e buf 8 + dns_word e buf 10 <= 25.

Lemma dns_word_range e buf i : 0 <= dns_word e buf i < 65536.
Proof.
  unfold dns_word, be_decode.
  set (l := take 2 _).
  assert (Hb : Forall byte_range (rev l)).
  { apply Forall_rev, Forall_take, Forall_drop, probe_bytes. }
  pose proof (le_decode_range _ Hb) as H. rewrite length_rev in H.
  assert (length l <= 2)%nat by (unfold l; rewrite length_take; lia).
  assert (256 ^ Z.of_nat (length l) <= 256 ^ 2) by (apply Z.pow_le_mono_r; lia).
  lia.
Qed.

(** [is_dns_protocol] accepts exactly the buffers of 12 to 512 bytes whose
    big-endian header words have a zero Z bit, opcode 0, between 1 and 10
    questions and at most 25 records in all, as a response when the QR bit is
    set and as a request otherwise. *)
Theorem is_dns_protocol_spec e buf count :
  (dns_valid e buf count /\ is_dns_protocol e buf count =
     if Z.testbit (dns_word e buf 2) 15 then kResponse else kRequest) \/
  (~ dns_valid e buf count /\ is_dns_protocol e buf count = kUnknown).
Proof.
  unfold is_dns_protocol, dns_valid, kDNSHeaderSize, kMaxDNSMessageSize, kMaxNumRR.
  rewrite !ubuf16_be by lia.
  pose proof (dns_word_range e buf 4). pose proof (dns_word_range e buf 6).
  pose proof (dns_word_range e buf 8). pose proof (dns_word_range e buf 10).
  rewrite u32_small by lia.
  assert (Ht : (Z.land (Z.shiftr (dns_word e buf 2) 15) 1 =? 0)
    = negb (Z.testbit (dns_word e buf 2) 15)).
  { change 1 with (Z.ones 1). rewrite Z.land_ones by lia.
    change (2 ^ 1) with 2. rewrite <- Z.bit0_mod, Z.shiftr_spec by lia. change (0 + 15) with 15.
    by destruct (Z.testbit (dns_word e buf 2) 15). }
  rewrite Ht.
  split_eqb; try (right; split; [lia|done]).
  left. split; [lia|]. by destruct (Z.testbit (dns_word e buf 2) 15).
Qed.

(** *** The chain *)

(** A message [infer_protocol] can produce, with the classifier that accepted
    it.  Redis is recognised without a message type. *)
Inductive classified (e : env) (buf count total : Z) (ci : conn_info_t)
    : protocol_message_t -> Prop :=
| classified_http t : t <> kUnknown -> is_http_protocol e buf count = t ->
    classified e buf count total ci (mk_protocol_message kProtocolHTTP t)
| classified_mongo t : t <> kUnknown -> is_mongo_protocol e buf count = t ->
    classified e buf count total ci (mk_protocol_message kProtocolMongo t)
| classified_mysql t : t <> kUnknown -> is_mysql_protocol e buf count ci = t ->
    classified e buf count total ci (mk_protocol_message kProtocolMySQL t)
| classified_rocketmq t : t <> kUnknown -> is_rocketmq_protocol e buf count = t ->
    classified e buf count total ci (mk_protocol_message kProtocolRocketMQ t)
| classified_kafka : (is_kafka_protocol e buf count total ci).1 = true ->
    classified e buf count total ci (mk_protocol_message kProtocolKafka kRequest)
| classified_dns t : t <> kUnknown -> is_dns_protocol e buf count = t ->
    classified e buf count total ci (mk_protocol_message kProtocolDNS t)
| classified_redis : is_redis_protocol e buf count = true ->
    classified e buf count total ci (mk_protocol_message kProtocolRedis kUnknown)
| classified_unknown :
    classified e buf count total ci (mk_protocol_message kProtocolUnknown kUnknown).

(** Kafka inference changes nothing but [prepend_length_header], and raises it
    only when it accepts a body whose header came in the previous read. *)
Lemma is_kafka_protocol_frame e buf count total ci :
  let r := is_kafka_protocol e buf count total ci in
  r.2 = ci \/
  (r.2 = ci <| ci_prepend_length_header := true |> /\ r.1 = true /\
   ci_protocol ci = kProtocolUnknown /\ ci_prev_count ci = 4).
Proof.
  unfold is_kafka_protocol. cbv zeta.
  destruct ((ci_prev_count ci =? 4) && _) eqn:Eu; cbn [andb].
  - apply andb_prop in Eu as [Eu%Z.eqb_eq _].
    destruct (_ <? _); [by left|]. destruct (_ || _); [by left|].
    destruct (infer_kafka_request e buf) eqn:Er; simpl; try by left.
    destruct (bool_decide_reflect (ci_protocol ci = kProtocolUnknown)); [right|left]; done.
  - left. repeat case_match; done.
Qed.

#[local] Arguments TRACE_PROTOCOL : simpl never.

Ltac trace_case :=
  match goal with
  | H : TRACE_PROTOCOL ?t ?p && bool_decide (?x <> kUnknown) = true |- _ =>
    apply andb_prop in H as [? ?%bool_decide_eq_true]
  | H : TRACE_PROTOCOL ?t ?p && _ = true |- _ => apply andb_prop in H as [? ?]
  end.

Lemma classify_spec e buf count total ci tp :
  let r := classify e buf count total ci tp in
  classified e buf count total ci r.1 /\
  (pm_protocol r.1 = kProtocolUnknown \/ TRACE_PROTOCOL tp (pm_protocol r.1) = true) /\
  (r.2 = ci \/
   (r.2 = ci <| ci_prepend_length_header := true |> /\ pm_protocol r.1 = kProtocolKafka /\
    ci_protocol ci = kProtocolUnknown /\ ci_prev_count ci = 4)).
Proof.
  unfold classify. cbv zeta.
  pose proof (is_kafka_protocol_frame e buf count total ci) as Hk. cbv zeta in Hk.
  destruct (TRACE_PROTOCOL tp kProtocolKafka) eqn:Ek;
    [destruct (is_kafka_protocol e buf count total ci) as [b ci'] eqn:Ekk; simpl in Hk|];
    repeat case_match; simplify_eq; simpl; repeat trace_case;
    (split; [by constructor; rewrite ?Ekk | split; [first [by left | by right]|]]);
    try (by left); destruct Hk as [->|(-> & ? & ? & ?)]; auto; congruence.
Qed.

(** The state [infer_protocol] leaves: the traffic is remembered, and nothing
    else but [prepend_length_header] changes. *)
Definition infer_update (e : env) (buf count : Z) (prepend : bool) (ci : conn_info_t)
    : conn_info_t :=
  ci <| ci_prepend_length_header := prepend |> <| ci_prev_count := count |>
     <| ci_prev_buf := if count =? 4 then bpf_probe_read e buf 4 else ci_prev_buf ci |>.

Lemma infer_protocol_state e buf count total ci tp :
  let r := infer_protocol e buf count total ci tp in
  exists prepend, r.2 = infer_update e buf count prepend ci /\
    (prepend = true -> pm_protocol r.1 = kProtocolKafka /\
       ci_protocol ci = kProtocolUnknown /\ ci_prev_count ci = 4).
Proof.
  unfold infer_protocol. cbv zeta.
  pose proof (classify_spec e buf count total
    (ci <| ci_prepend_length_header := false |>) tp) as (_ & _ & Hs). cbv zeta in Hs.
  destruct (classify _ _ _ _ _ _) as [pm ci'] eqn:E. simpl in *.
  destruct Hs as [->|(-> & Hp & Hu & Hc)]; [exists false | exists true];
    (split; [destruct ci; unfold infer_update; by destruct (count =? 4) | auto]).
  done.
Qed.

Lemma infer_protocol_message e buf count total ci tp :
  let r := infer_protocol e buf count total ci tp in
  r.1 = (classify e buf count total (ci <| ci_prepend_length_header := false |>) tp).1.
Proof. unfold infer_protocol. by destruct (classify _ _ _ _ _ _). Qed.

Lemma is_kafka_ignores_prepend e buf count total ci b :
  (is_kafka_protocol e buf count total (ci <| ci_prepend_length_header := b |>)).1
  = (is_kafka_protocol e buf count total ci).1.
Proof. unfold is_kafka_protocol. fsimp. repeat case_match; done. Qed.

Lemma classified_ignores_prepend e buf count total ci b m :
  classified e buf count total (ci <| ci_prepend_length_header := b |>) m ->
  classified e buf count total ci m.
Proof.
  inversion 1; subst; try (by econstructor; eauto).
  apply classified_kafka. by rewrite is_kafka_ignores_prepend in *.
Qed.

(** ** Properties *)

(** [is_http_protocol] accepts exactly the buffers of at least 5 bytes that
    start with [HTTP] (as a response) or with [GET], [HEAD] or [POST] (as a
    request), and rejects every other buffer. *)
Theorem is_http_protocol_spec e buf count t :
  is_http_protocol e buf count = t <-> http_spec e buf count t.
Proof.
  split; [intros <-; apply is_http_protocol_sound|].
  intros H. eapply http_spec_functional; [apply is_http_protocol_sound | done].
Qed.


(** [infer_protocol] answers unknown exactly when every classifier that the
    protocol filter admits rejects the buffer. *)
Theorem infer_protocol_unknown_iff e buf count total ci tp :
  pm_protocol (infer_protocol e buf count total ci tp).1 = kProtocolUnknown <->
  (TRACE_PROTOCOL tp kProtocolHTTP = true -> is_http_protocol e buf count = kUnknown) /\
  (TRACE_PROTOCOL tp kProtocolMongo = true -> is_mongo_protocol e buf count = kUnknown) /\
  (TRACE_PROTOCOL tp kProtocolMySQL = true -> is_mysql_protocol e buf count ci = kUnknown) /\
  (TRACE_PROTOCOL tp kProtocolRocketMQ = true -> is_rocketmq_protocol e buf count = kUnknown) /\
  (TRACE_PROTOCOL tp kProtocolKafka = true ->
     (is_kafka_protocol e buf count total ci).1 = false) /\
  (TRACE_PROTOCOL tp kProtocolDNS = true -> is_dns_protocol e buf count = kUnknown) /\
  (TRACE_PROTOCOL tp kProtocolRedis = true -> is_redis_protocol e buf count = false).
Proof.
  rewrite infer_protocol_message. unfold classify. cbv zeta.
  rewrite <- (is_kafka_ignores_prepend e buf count total ci false).
  change (is_mysql_protocol e buf count (ci <| ci_prepend_length_header := false |>))
    with (is_mysql_protocol e buf count ci).
  destruct (TRACE_PROTOCOL tp kProtocolHTTP), (TRACE_PROTOCOL tp kProtocolMongo),
    (TRACE_PROTOCOL tp kProtocolMySQL), (TRACE_PROTOCOL tp kProtocolRocketMQ),
    (TRACE_PROTOCOL tp kProtocolKafka), (TRACE_PROTOCOL tp kProtocolDNS),
    (TRACE_PROTOCOL tp kProtocolRedis); cbn [andb].
  all: destruct (is_kafka_protocol e buf count total _) as [[] ?]; simpl.
  all: repeat case_bool_decide; repeat case_match; simpl; intuition (try done; try congruence).
Qed.

(** *** Header and body read by two system calls *)

Lemma infer_prev e buf total ci tp :
  ci_prev_count (infer_protocol e buf 4 total ci tp).2 = 4 /\
  ci_prev_buf (infer_protocol e buf 4 total ci tp).2 = bpf_probe_read e buf 4.
Proof.
  destruct (infer_protocol_state e buf 4 total ci tp) as (p & -> & _). done.
Qed.

Lemma le_decode_snoc_zero bs : le_decode (bs ++ [0]) = le_decode bs.
Proof. induction bs as [|b bs IH]; simpl; [done|]. by rewrite IH. Qed.

Definition mysql_command (com : Z) : Prop :=
  com = kComConnect \/ com = kComQuery \/ com = kComStmtPrepare \/
  com = kComStmtExecute \/ com = kComStmtClose.

Lemma mysql_body_request e buf n ci com rest :
  1 <= n <= 10000 -> mysql_command com ->
  bpf_probe_read_user e buf 5 = com :: rest ->
  ci_prev_count ci = 4 -> ci_prev_buf ci = le_encode 3 n ++ [0] ->
  is_mysql_protocol e buf n ci = kRequest.
Proof.
  intros Hn Hcom Hr Hc Hb. unfold is_mysql_protocol.
  assert (Hd : le_decode (ci_prev_buf ci) = n).
  { rewrite Hb, le_decode_snoc_zero, le_decode_encode. apply Z.mod_small. simpl. lia. }
  assert (Hs : byte_at (ci_prev_buf ci) 3 = 0) by (rewrite Hb; done).
  rewrite Hc, Hd, Hs, Hr, (Z.eqb_refl n). change (4 =? 4) with true. cbn [andb].
  rewrite u64_small by lia. change (byte_at (com :: rest) 0) with com.
  change 16777215 with (Z.ones 24). rewrite Z.land_ones by lia.
  change (2 ^ 24) with 16777216. rewrite Z.mod_small by lia.
  unfold mysql_command, kComConnect, kComQuery, kComStmtPrepare, kComStmtExecute,
    kComStmtClose in *.
  split_eqb; try lia; done.
Qed.

Lemma mysql_body_not_http e buf n com rest :
  mysql_command com -> bpf_probe_read_user e buf 4 = com :: rest ->
  is_http_protocol e buf n = kUnknown.
Proof.
  intros Hcom Hr. unfold is_http_protocol. rewrite Hr.
  change (byte_at (com :: rest) 0) with com.
  unfold mysql_command, kComConnect, kComQuery, kComStmtPrepare, kComStmtExecute,
    kComStmtClose in *.
  destruct (n <? 5); [done|].
  destruct Hcom as [->|[->|[->|[->| ->] ] ] ]; done.
Qed.

(** A MySQL command packet whose 4-byte header is read by one call and
    whose body of [n] bytes is read by the next is recognised as a MySQL
    request at the second read, for every earlier state of the connection,
    when MySQL is the traced protocol or no filter is set and the body does
    not parse as a MongoDB message. *)
Theorem mysql_split_read e1 e2 hdr body n com rest t1 t2 ci tp :
  1 <= n <= 10000 -> mysql_command com -> (4 <= length rest)%nat ->
  holds (any_mem e1) hdr (le_encode 3 n ++ [0]) ->
  holds (umem e2) body (com :: rest) ->
  tp = traffic_protocol_val kProtocolMySQL \/
    (tp = 0 /\ is_mongo_protocol e2 body n = kUnknown) ->
  let ci1 := (infer_protocol e1 hdr 4 t1 ci tp).2 in
  (infer_protocol e2 body n t2 ci1 tp).1 = mk_protocol_message kProtocolMySQL kRequest.
Proof.
  intros Hn Hcom Hl Hh Hb Htp ci1. rewrite infer_protocol_message.
  destruct (infer_prev e1 hdr t1 ci tp) as [Hc Hp].
  assert (Hp' : ci_prev_buf ci1 = le_encode 3 n ++ [0]).
  { unfold ci1. rewrite Hp. unfold bpf_probe_read. rewrite (probe_holds _ _ _ 4 Hh).
    - done.
    - rewrite length_app, length_le_encode. simpl. lia. }
  assert (Hm : is_mysql_protocol e2 body n ci1 = kRequest).
  { eapply mysql_body_request; eauto.
    unfold bpf_probe_read_user. rewrite (probe_holds _ _ _ 5 Hb) by (simpl; lia). done. }
  assert (Hhttp : is_http_protocol e2 body n = kUnknown).
  { eapply mysql_body_not_http; eauto.
    unfold bpf_probe_read_user. rewrite (probe_holds _ _ _ 4 Hb) by (simpl; lia). done. }
  unfold classify. cbv zeta.
  change (is_mysql_protocol e2 body n (ci1 <| ci_prepend_length_header := false |>))
    with (is_mysql_protocol e2 body n ci1).
  rewrite Hm, Hhttp. destruct Htp as [->|[-> ->]]; done.
Qed.

(** [mysql_split_read] at a [COM_QUERY] packet of 12 bytes. *)
Lemma mysql_split_read_witness :
  let query := [3; 83; 69; 76; 69; 67; 84; 32; 49; 59; 32; 32] in
  let e1 := env0 <| umem := mem_at 4096 [12; 0; 0; 0] |> in
  let e2 := env0 <| umem := mem_at 4096 query |> in
  let ci1 := (infer_protocol e1 4096 4 4 conn_info_zero 0).2 in
  (infer_protocol e2 4096 12 12 ci1 0).1 = mk_protocol_message kProtocolMySQL kRequest.
Proof.
  apply (mysql_split_read _ _ 4096 4096 12 3 [83; 69; 76; 69; 67; 84; 32; 49; 59; 32; 32]).
  - lia.
  - right; left; reflexivity.
  - simpl; lia.
  - holds_tac.
  - holds_tac.
  - right. split; reflexivity.
Defined.

(** A Kafka request header: API key, API version, correlation id. *)
Definition kafka_request_header (key version corr : Z) : list Z :=
  be_encode 2 key ++ be_encode 2 version ++ be_encode 4 corr.

Lemma be_int16_encode z : 0 <= z < 32768 -> be_int16 (be_encode 2 z) = z.
Proof.
  intros. unfold be_int16. rewrite bpf_ntohs_decode.
  - rewrite be_decode_encode. rewrite Z.mod_small by (simpl; lia). word_lia.
  - apply Forall_rev, le_encode_bytes.
  - unfold be_encode. by rewrite length_rev, length_le_encode.
Qed.

Lemma be_int32_encode z : 0 <= z < 2147483648 -> be_int32 (be_encode 4 z) = z.
Proof.
  intros. unfold be_int32. rewrite bpf_ntohl_decode.
  - rewrite be_decode_encode. rewrite Z.mod_small by (simpl; lia). word_lia.
  - apply Forall_rev, le_encode_bytes.
  - unfold be_encode. by rewrite length_rev, length_le_encode.
Qed.

Lemma kafka_header_request e buf key version corr :
  0 <= key <= kNumAPIs -> 0 <= version <= kMaxAPIVersion -> 0 <= corr < 2147483648 ->
  holds (any_mem e) buf (kafka_request_header key version corr) ->
  infer_kafka_request e buf = kRequest.
Proof.
  unfold kNumAPIs, kMaxAPIVersion. intros Hk Hv Hc Hh.
  unfold kafka_request_header in Hh.
  apply holds_app in Hh as [H1 H2]. apply holds_app in H2 as [H2 H3].
  rewrite !length_be_encode in *. change (Z.of_nat 2) with 2 in *.
  replace (buf + 2 + 2) with (buf + 4) in H3 by lia.
  unfold infer_kafka_request, read_big_endian_int16, read_big_endian_int32, bpf_probe_read.
  rewrite (probe_holds _ _ _ 2 H1), (probe_holds _ _ _ 2 H2), (probe_holds _ _ _ 4 H3)
    by (rewrite length_be_encode; lia).
  rewrite !take_ge by (rewrite length_be_encode; lia).
  rewrite !be_int16_encode, be_int32_encode by lia.
  unfold kNumAPIs, kMaxAPIVersion. split_eqb; try lia; done.
Qed.

Lemma kafka_body_request e buf n total key version corr ci :
  8 <= n < 2147483644 ->
  0 <= key <= kNumAPIs -> 0 <= version <= kMaxAPIVersion -> 0 <= corr < 2147483648 ->
  holds (any_mem e) buf (kafka_request_header key version corr) ->
  ci_prev_count ci = 4 -> ci_prev_buf ci = be_encode 4 n ->
  ci_protocol ci = kProtocolUnknown ->
  is_kafka_protocol e buf n total ci = (true, ci <| ci_prepend_length_header := true |>).
Proof.
  intros Hn Hk Hv Hc Hh Hpc Hpb Hu. unfold is_kafka_protocol.
  rewrite Hpb, be_int32_encode, Hpc, Hu by lia.
  rewrite (u64_small n) by lia. rewrite (Z.eqb_refl n). change (4 =? 4) with true.
  cbn [andb orb]. rewrite (u64_small (n + 4)), (s32_small (n + 4)) by lia.
  rewrite (u64_small (n + 4)), Z.eqb_refl by lia. cbn [andb orb negb].
  rewrite orb_false_r. unfold kMinRequestLength.
  destruct (Z.ltb_spec (n + 4) 12); [lia|].
  destruct (Z.ltb_spec (n + 4) 0); [lia|].
  erewrite kafka_header_request; eauto.
Qed.

(** A Kafka request whose 4-byte length is read by one call and whose body
    by the next is recognised at the second read when Kafka is traced, and the
    connection then asks for the length to be prepended, with the length bytes
    in [prev_buf] equal to the header that was read. *)
Theorem kafka_split_read e1 e2 hdr body n key version corr t1 t2 ci :
  8 <= n < 2147483644 ->
  0 <= key <= kNumAPIs -> 0 <= version <= kMaxAPIVersion -> 0 <= corr < 2147483648 ->
  holds (any_mem e1) hdr (be_encode 4 n) ->
  holds (any_mem e2) body (kafka_request_header key version corr) ->
  let tp := traffic_protocol_val kProtocolKafka in
  let ci1 := (infer_protocol e1 hdr 4 t1 ci tp).2 <| ci_protocol := kProtocolUnknown |> in
  let r := infer_protocol e2 body n t2 ci1 tp in
  r.1 = mk_protocol_message kProtocolKafka kRequest /\
  ci_prepend_length_header r.2 = true /\ ci_prev_buf r.2 = be_encode 4 n.
Proof.
  intros Hn Hk Hv Hc Hh Hb tp ci1 r.
  destruct (infer_prev e1 hdr t1 ci tp) as [Hpc Hpb].
  assert (Hpb' : ci_prev_buf ci1 = be_encode 4 n).
  { change (ci_prev_buf ci1) with (ci_prev_buf (infer_protocol e1 hdr 4 t1 ci tp).2).
    rewrite Hpb. unfold bpf_probe_read.
    rewrite (probe_holds _ _ _ 4 Hh) by (rewrite length_be_encode; lia).
    apply take_ge. rewrite length_be_encode. lia. }
  subst r. unfold infer_protocol, classify. cbv zeta.
  change (TRACE_PROTOCOL tp kProtocolHTTP) with false.
  change (TRACE_PROTOCOL tp kProtocolMongo) with false.
  change (TRACE_PROTOCOL tp kProtocolMySQL) with false.
  change (TRACE_PROTOCOL tp kProtocolRocketMQ) with false.
  change (TRACE_PROTOCOL tp kProtocolKafka) with true. cbn [andb].
  erewrite kafka_body_request; eauto. simpl.
  destruct (Z.eqb_spec n 4); [lia|]. done.
Qed.

(** [kafka_split_read] at a 20-byte Metadata request. *)
Lemma kafka_split_read_witness :
  let e1 := env0 <| umem := mem_at 4096 [0; 0; 0; 20] |> in
  let e2 := env0 <| umem := mem_at 4096 [0; 3; 0; 8; 0; 0; 0; 5] |> in
  let ci1 := (infer_protocol e1 4096 4 4 conn_info_zero 11).2 <| ci_protocol := kProtocolUnknown |> in
  let r := infer_protocol e2 4096 20 20 ci1 11 in
  r.1 = mk_protocol_message kProtocolKafka kRequest /\
  ci_prepend_length_header r.2 = true /\ ci_prev_buf r.2 = be_encode 4 20.
Proof.
  apply (kafka_split_read _ _ 4096 4096 20 3 8 5); unfold kNumAPIs, kMaxAPIVersion; try lia.
  - holds_tac.
  - holds_tac.
Defined.
