(* ===== verification/DataCommon.v ===== *)
(** * Reporting ([bpf/data_common.h])

    The functions that fill the per-CPU event buffers and write them to the
    perf rings, and [process_syscall_data_with_conn_info], which infers the
    protocol of a connection and reports one read or write on it.

    A [struct conn_info_t *] argument is passed by value and the updated value
    returned; the caller stores it back where the pointer pointed.  The pointer
    [conn_id_s] is the address of a local in every call, so its [NULL] test
    cannot fire and the structure is passed by value. *)

From stdpp Require Import gmap list fin_maps.
From Stdlib Require Import ZArith Lia.
From S2P Require Import Prelude Types Machine ProtocolInference.
Local Open Scope Z_scope.

Definition report_conn_evt (conn_info : conn_info_t) (type : conn_type_t) (ts : Z) : M bool :=
  o ← gets conn_evt_map;
  match o with
  | None => mret false
  | Some _ =>
    ts ← (if negb (ts =? 0) then mret ts else bpf_ktime_get_ns);
    let evt := mk_conn_evt conn_info type ts in
    modify (fun s => s <| conn_evt_map := Some evt |>);;
    bpf_perf_event_output (conn_evt_rb evt);;
    mret true
  end.

Definition should_trace_conn (conn_info : conn_info_t) : bool :=
  bool_decide (ci_protocol conn_info <> kProtocolUnknown) &&
  trace_le_traceable (ci_no_trace conn_info).

(** [len < MAX_MSG_SIZE ? len : MAX_MSG_SIZE] *)
Definition clamp_len (len : Z) : Z := if len <? MAX_MSG_SIZE then len else MAX_MSG_SIZE.

(** [if (ts != 0) { ke.ts = ts; ke.ts_delta = ts_delta; } else { ke.ts = now; }] *)
Definition set_times (ke : kern_evt) (ts ts_delta : Z) : M kern_evt :=
  if negb (ts =? 0) then mret (ke <| ke_ts := ts |> <| ke_ts_delta := ts_delta |>)
  else (now ← bpf_ktime_get_ns; mret (ke <| ke_ts := now |>)).

(** Output of the first [out_len] bytes of the buffer, [msg] being at [offsetof]. *)
Definition output_syscall (evt : kern_evt_data) (out_len : Z) : M unit :=
  bpf_perf_event_output
    (syscall_rb (ked_ke evt) (ked_buf_size evt)
       (take (Z.to_nat (out_len - offsetof_data_msg)) (ked_msg evt))).
Definition output_ssl (evt : kern_evt_ssl_data) (out_len : Z) : M unit :=
  bpf_perf_event_output
    (ssl_rb (kes_ke evt) (kes_syscall_seq evt) (kes_syscall_len evt) (kes_buf_size evt)
       (take (Z.to_nat (out_len - offsetof_ssl_msg)) (kes_msg evt))).

Definition report_syscall_buf_without_data (seq : Z) (conn_id_s : conn_id_s_t) (len : Z)
    (step : step_t) (ts ts_delta : Z) (source_fn : source_function_t) : M unit :=
  let _len := clamp_len len in
  return_if (_len =? 0) with tt ;;
  o ← gets syscall_data_map;
  match o with
  | None => mret tt
  | Some evt =>
    let ke := ked_ke evt <| ke_conn_id_s := conn_id_s |> <| ke_seq := u32 seq |>
      <| ke_len := u32 len |> <| ke_step := step |>
      <| ke_func_name ::= <[0%nat := source_function_val source_fn]> |> in
    ke ← set_times ke ts ts_delta;
    let evt := evt <| ked_ke := ke |> <| ked_buf_size := 0 |> in
    modify (fun s => s <| syscall_data_map := Some evt |>);;
    let out_len := sizeof_kern_evt + 4 in
    output_syscall evt out_len
  end.

(** [bpf_probe_read(msg, n, buf)] into the buffer [msg]. *)
Definition read_into (e : env) (msg : list Z) (buf n : Z) : list Z :=
  bpf_probe_read e buf (Z.to_nat n) ++ drop (Z.to_nat n) msg.

(** The guarded copy: the new buffer and the amount copied. *)
Definition copy_msg (e : env) (msg : list Z) (buf _len : Z) : list Z * Z :=
  let len_minus_1 := u64 (_len - 1) in
  let _len := u64 (len_minus_1 + 1) in
  if len_minus_1 <? MAX_MSG_SIZE then (read_into e msg buf _len, _len)
  else if len_minus_1 <? 2147483647 then (read_into e msg buf MAX_MSG_SIZE, MAX_MSG_SIZE)
  else (msg, 0).

Definition report_syscall_buf (seq : Z) (conn_id_s : conn_id_s_t) (len : Z)
    (step : step_t) (ts ts_delta buf : Z) (source_fn : source_function_t)
    (prepend_length_header : bool) (length_header : Z) : M unit :=
  let _len := clamp_len len in
  return_if (_len =? 0) with tt ;;
  o ← gets syscall_data_map;
  match o with
  | None => mret tt
  | Some evt =>
    e ← ask;
    let ke := ked_ke evt <| ke_conn_id_s := conn_id_s |> <| ke_seq := u32 seq |>
      <| ke_len := u32 len |> <| ke_step := step |>
      <| ke_func_name ::= <[0%nat := source_function_val source_fn]> |>
      <| ke_prepend_length_header := prepend_length_header |> in
    let ke := if prepend_length_header then ke <| ke_length_header := length_header |> else ke in
    ke ← set_times ke ts ts_delta;
    let '(msg, amount_copied) := copy_msg e (ked_msg evt) buf _len in
    let evt := evt <| ked_ke := ke |> <| ked_buf_size := u32 amount_copied |>
      <| ked_msg := msg |> in
    modify (fun s => s <| syscall_data_map := Some evt |>);;
    let out_len := sizeof_kern_evt + 4 + amount_copied in
    output_syscall evt out_len
  end.

(** [args->end_ts - args->start_ts] passed as a [uint32_t]. *)
Definition ts_delta_of (args : data_args) : Z := u32 (da_end_ts args - da_start_ts args).

Definition report_syscall_evt (seq : Z) (conn_id_s : conn_id_s_t) (len : Z) (step : step_t)
    (args : data_args) (prepend_length_header : bool) (length_header : Z) : M unit :=
  report_syscall_buf seq conn_id_s (u32 len) step (da_start_ts args) (ts_delta_of args)
    (da_buf args) (da_source_fn args) prepend_length_header length_header.

Definition report_ssl_buf (seq : Z) (conn_id_s : conn_id_s_t) (len : Z) (step : step_t)
    (ts ts_delta buf syscall_seq syscall_len : Z) : M unit :=
  let _len := clamp_len len in
  return_if (_len =? 0) with tt ;;
  o ← gets ssl_data_map;
  match o with
  | None => mret tt
  | Some evt =>
    e ← ask;
    let ke := kes_ke evt <| ke_conn_id_s := conn_id_s |> <| ke_seq := u32 seq |>
      <| ke_len := u32 len |> <| ke_step := step |> in
    ke ← set_times ke ts ts_delta;
    let '(msg, amount_copied) := copy_msg e (kes_msg evt) buf _len in
    let evt := evt <| kes_ke := ke |> <| kes_buf_size := u32 amount_copied |>
      <| kes_syscall_len := u32 syscall_len |> <| kes_syscall_seq := u32 syscall_seq |>
      <| kes_msg := msg |> in
    modify (fun s => s <| ssl_data_map := Some evt |>);;
    let out_len := sizeof_kern_evt + 4 + 8 + 4 + amount_copied in
    output_ssl evt out_len
  end.

Definition report_ssl_evt (seq : Z) (conn_id_s : conn_id_s_t) (len : Z) (step : step_t)
    (args : data_args) (syscall_seq syscall_len : Z) : M unit :=
  report_ssl_buf seq conn_id_s (u32 len) step (da_start_ts args) (ts_delta_of args)
    (da_buf args) syscall_seq syscall_len.

(** [struct iovec] number [i] of the array at [iov]: base and length. *)
Definition read_iovec (e : env) (iov : Z) (i : nat) : Z * Z :=
  let bs := bpf_probe_read_user e (iov + 16 * Z.of_nat i) 16 in
  (le_decode (take 8 bs), le_decode (drop 8 bs)).

(** The loop of [report_syscall_evt_vecs]; [fuel] counts down from
    [LOOP_LIMIT], the unrolled bound, and [i] up from 0.  Returns
    [(bytes_sent, seq)]. *)
Fixpoint vecs_loop (fuel i : nat) (conn_id_s : conn_id_s_t) (total_size : Z) (step : step_t)
    (args : data_args) (length_header : Z) (bytes_sent seq : Z) (prepend : bool)
    : M (Z * Z) :=
  match fuel with
  | O => mret (bytes_sent, seq)
  | S fuel =>
    return_if negb ((Z.of_nat i <? da_iovlen args) && (u32 bytes_sent <? total_size))
      with (bytes_sent, seq) ;;
    e ← ask;
    let '(iov_base, iov_len) := read_iovec e (da_iov args) i in
    let bytes_remaining := s32 (total_size - bytes_sent) in
    let iov_size := if iov_len <? u64 bytes_remaining then iov_len else u64 bytes_remaining in
    report_syscall_buf seq conn_id_s iov_size step (da_start_ts args) (ts_delta_of args)
      iov_base (da_source_fn args) prepend length_header;;
    vecs_loop fuel (S i) conn_id_s total_size step args length_header
      (s32 (bytes_sent + iov_size)) (u32 (seq + iov_size)) false
  end.

Definition report_syscall_evt_vecs (seq : Z) (conn_id_s : conn_id_s_t) (total_size : Z)
    (step : step_t) (args : data_args) (prepend_length_header : bool) (length_header : Z)
    : M unit :=
  r ← vecs_loop LOOP_LIMIT 0 conn_id_s total_size step args length_header 0 seq
        prepend_length_header;
  let '(bytes_sent, seq) := r in
  if u32 bytes_sent <? total_size then
    report_syscall_buf_without_data seq conn_id_s (u32 (total_size - bytes_sent)) step
      (da_start_ts args) (ts_delta_of args) (da_source_fn args)
  else mret tt.

(** [((uint64_t)tgid << 32) | (uint32_t)fd] *)
Definition gen_tgid_fd (tgid fd : Z) : Z := Z.lor (Z.shiftl (u32 tgid) 32) (u32 fd).

(** [id >> 32] of a [bpf_get_current_pid_tgid] result. *)
Definition tgid_of (id : Z) : Z := u32 (Z.shiftr id 32).

(** [direct == kEgress ? write_bytes : read_bytes], and the SSL counters. *)
Definition dir_bytes (direct : traffic_direction_t) (ci : conn_info_t) : Z :=
  match direct with kEgress => ci_write_bytes ci | kIngress => ci_read_bytes ci end.
Definition dir_ssl_bytes (direct : traffic_direction_t) (ci : conn_info_t) : Z :=
  match direct with kEgress => ci_ssl_write_bytes ci | kIngress => ci_ssl_read_bytes ci end.

Definition data_step (is_ssl : bool) (direct : traffic_direction_t) : step_t :=
  if is_ssl then match direct with kEgress => SSL_OUT | kIngress => SSL_IN end
  else match direct with kEgress => SYSCALL_OUT | kIngress => SYSCALL_IN end.

(** A [conn_id_s_t] on the stack of which only [tgid_fd] is assigned. *)
Definition local_conn_id_s (tgid_fd : Z) : M conn_id_s_t :=
  e ← ask; mret (mk_conn_id_s tgid_fd (stack_no_trace e)).

Definition process_sendfile_with_conn_info (args : sendfile_args) (tgid_fd : Z)
    (direct : traffic_direction_t) (bytes_count : Z) (conn_info : conn_info_t)
    (is_ssl : bool) : M unit :=
  let seq := u32 (dir_bytes direct conn_info + 1) in
  conn_id_s ← local_conn_id_s tgid_fd;
  let step := data_step is_ssl direct in
  if bool_decide (ci_protocol conn_info <> kProtocolUnknown) &&
     trace_le_traceable (ci_no_trace conn_info) then
    report_syscall_buf_without_data seq conn_id_s (u64 bytes_count) step (sfa_start_ts args)
      (u32 (sfa_end_ts args - sfa_start_ts args)) kSyscallSendfile
  else mret tt.

(** [*bpf_map_lookup_elem(&control_values, &kTraceProtocol)] read as a 32-bit
    enumeration, [kProtocolUnset] when absent. *)
Definition trace_protocol_value (s : bpf) : Z :=
  match control_values s !! control_value_index_val kTraceProtocol with
  | None => traffic_protocol_val kProtocolUnset
  | Some v => u32 v
  end.

(** [(direct == kEgress) ^ (type == kResponse) ? kRoleClient : kRoleServer] *)
Definition role_of (direct : traffic_direction_t) (type : message_type_t) : endpoint_role_t :=
  if xorb (bool_decide (direct = kEgress)) (bool_decide (type = kResponse))
  then kRoleClient else kRoleServer.

(** The inference block, which [process_syscall_data_with_conn_info] and
    [process_syscall_data_vecs] share: returns the connection and [inferred]. *)
Definition infer_and_report (buf count total_count : Z) (direct : traffic_direction_t)
    (conn_info : conn_info_t) : M (conn_info_t * bool) :=
  let before_infer := ci_protocol conn_info in
  e ← ask;
  trace_protocol ← gets trace_protocol_value;
  let '(protocol_message, conn_info) :=
    infer_protocol e buf count total_count conn_info trace_protocol in
  if bool_decide (before_infer <> pm_protocol protocol_message) then
    let conn_info := conn_info <| ci_protocol := pm_protocol protocol_message |> in
    let conn_info :=
      if bool_decide (ci_role conn_info = kRoleUnknown) &&
         bool_decide (pm_type protocol_message <> kUnknown)
      then conn_info <| ci_role := role_of direct (pm_type protocol_message) |>
      else conn_info in
    report_conn_evt conn_info kProtocolInfer 0;;
    mret (conn_info, true)
  else mret (conn_info, false).

Definition needs_inference (ci : conn_info_t) : bool :=
  bool_decide (ci_protocol ci = kProtocolUnset) ||
  bool_decide (ci_protocol ci = kProtocolUnknown).

Definition length_header_of (ci : conn_info_t) : Z :=
  if ci_prepend_length_header ci then le_decode (ci_prev_buf ci) else 0.

Definition process_syscall_data_with_conn_info (args : data_args) (tgid_fd : Z)
    (direct : traffic_direction_t) (bytes_count : Z) (conn_info : conn_info_t)
    (syscall_len : Z) (is_ssl with_data : bool) : M conn_info_t :=
  r ← (if needs_inference conn_info && with_data
       then infer_and_report (da_buf args) (u64 bytes_count) (u64 bytes_count) direct conn_info
       else mret (conn_info, false));
  let '(conn_info, inferred) := r in
  let seq := u32 (dir_bytes direct conn_info + 1) in
  conn_id_s ← local_conn_id_s tgid_fd;
  let step := data_step is_ssl direct in
  if (bool_decide (ci_protocol conn_info <> kProtocolUnknown) &&
      (inferred || trace_le_traceable (ci_no_trace conn_info))) ||
     (bool_decide (ci_protocol conn_info <> kProtocolUnknown) &&
      bool_decide (ci_no_trace conn_info = protocol_unknown)) then
    if is_ssl then
      let syscall_seq := u32 (dir_bytes direct conn_info + 1) in
      let seq := u32 (dir_ssl_bytes direct conn_info + 1) in
      report_ssl_evt seq conn_id_s bytes_count step args
        (if syscall_len <? 0 then 0 else u32 (syscall_seq - syscall_len))
        (if syscall_len <? 0 then 0 else syscall_len);;
      mret conn_info
    else if with_data then
      report_syscall_evt seq conn_id_s bytes_count step args
        (ci_prepend_length_header conn_info) (length_header_of conn_info);;
      mret (conn_info <| ci_prepend_length_header := false |>)
    else
      report_syscall_buf_without_data seq conn_id_s (u64 bytes_count) step (da_start_ts args)
        (ts_delta_of args) (da_source_fn args);;
      mret conn_info
  else mret conn_info.

Definition set_conn_as_ssl (tgid fd : Z) : M unit :=
  modify (fun s => s <| conn_info_map ::=
    alter (fun ci => ci <| ci_ssl := true |>) (gen_tgid_fd tgid fd) |>).

(** ** Reporting touches only the rings and the event buffers *)

(** The state without the rings, the per-CPU event buffers and the clock. *)
Definition persistent (s : bpf) : bpf :=
  s <| syscall_data_map := None |> <| ssl_data_map := None |> <| first_packet_evt_map := None |>
    <| conn_evt_map := None |> <| kern_evt_t_map := None |> <| perf := [] |> <| ticks := 0%nat |>.

(** The event buffers of the CPU exist, as entry 0 of a per-CPU array does. *)
Definition scratch_ok (s : bpf) : Prop :=
  is_Some (syscall_data_map s) /\ is_Some (ssl_data_map s) /\
  is_Some (first_packet_evt_map s) /\ is_Some (conn_evt_map s) /\
  is_Some (kern_evt_t_map s) /\ is_Some (conn_info_t_map s) /\ is_Some (regs_heap s).

(** What holds of every reporting function: nothing else changes, the buffers
    stay, and the rings only grow. *)
Definition reports (s s' : bpf) : Prop :=
  persistent s' = persistent s /\ (scratch_ok s -> scratch_ok s') /\
  exists l, perf s' = perf s ++ l.

#[export] Instance reports_preorder : PreOrder reports.
Proof.
  split.
  - intros s. split; [done|]. split; [done|]. exists []. by rewrite app_nil_r.
  - intros s1 s2 s3 (H1 & H2 & l1 & H3) (H4 & H5 & l2 & H6). split; [congruence|].
    split; [auto|]. exists (l1 ++ l2). by rewrite H6, H3, app_assoc.
Qed.

Lemma reports_field {T} (f : bpf -> T) s s' :
  (forall x, f x = f (persistent x)) -> reports s s' -> f s' = f s.
Proof. intros Hf [H _]. rewrite (Hf s), (Hf s'). congruence. Qed.

(** Read a map of the final state of a report in the initial state. *)
Ltac reports_rewrite H :=
  let go f := (try rewrite (reports_field f _ _ (fun _ => eq_refl) H)) in
  go conn_info_map; go sock_xmit_map; go sock_key_conn_id_map; go control_values;
  go nat_flow_map; go filter_pid_map; go read_args_map; go write_args_map;
  go conn_info_t_map; go ssl_user_space_call_map; go go_ssl_user_space_call_map;
  go connect_args_map; go close_args_map; go accept_args_map; go active_sendfile_args_map;
  go active_ssl_read_args_map; go active_ssl_write_args_map; go active_tls_conn_op_map.

Lemma scratch_ok_set s s' :
  (is_Some (syscall_data_map s) -> is_Some (syscall_data_map s')) ->
  (is_Some (ssl_data_map s) -> is_Some (ssl_data_map s')) ->
  (is_Some (first_packet_evt_map s) -> is_Some (first_packet_evt_map s')) ->
  (is_Some (conn_evt_map s) -> is_Some (conn_evt_map s')) ->
  (is_Some (kern_evt_t_map s) -> is_Some (kern_evt_t_map s')) ->
  (is_Some (conn_info_t_map s) -> is_Some (conn_info_t_map s')) ->
  (is_Some (regs_heap s) -> is_Some (regs_heap s')) ->
  scratch_ok s -> scratch_ok s'.
Proof. unfold scratch_ok. tauto. Qed.

Ltac reports_modify :=
  apply keeps_modify; intros ?; split; [reflexivity|];
  split; [apply scratch_ok_set; try exact id; intros _; eexists; reflexivity
         | exists []; by rewrite app_nil_r].

Lemma ktime_reports : keeps reports bpf_ktime_get_ns.
Proof.
  intros e s. rewrite exec_ktime. split; [reflexivity|]. split; [exact id|].
  exists []. by rewrite app_nil_r.
Qed.

Lemma perf_reports r : keeps reports (bpf_perf_event_output r).
Proof.
  apply keeps_modify. intros s. split; [reflexivity|]. split; [exact id|]. by exists [r].
Qed.
#[export] Hint Resolve ktime_reports perf_reports : keeps.

Lemma set_times_reports ke ts d : keeps reports (set_times ke ts d).
Proof. unfold set_times. keeps_tac. Qed.
#[export] Hint Resolve set_times_reports : keeps.

Lemma report_conn_evt_reports ci t ts : keeps reports (report_conn_evt ci t ts).
Proof. unfold report_conn_evt. keeps_tac. reports_modify. Qed.

Lemma report_without_data_reports seq c len st ts d fn :
  keeps reports (report_syscall_buf_without_data seq c len st ts d fn).
Proof. unfold report_syscall_buf_without_data, output_syscall. keeps_tac. reports_modify. Qed.

Lemma report_syscall_buf_reports seq c len st ts d buf fn p lh :
  keeps reports (report_syscall_buf seq c len st ts d buf fn p lh).
Proof.
  unfold report_syscall_buf, output_syscall. cbv zeta. keeps_tac; reports_modify.
Qed.

Lemma report_ssl_buf_reports seq c len st ts d buf ss sl :
  keeps reports (report_ssl_buf seq c len st ts d buf ss sl).
Proof. unfold report_ssl_buf, output_ssl. cbv zeta. keeps_tac; reports_modify. Qed.
#[export] Hint Resolve report_conn_evt_reports report_without_data_reports
  report_syscall_buf_reports report_ssl_buf_reports : keeps.

Lemma vecs_loop_reports fuel i c tot st args lh sent seq p :
  keeps reports (vecs_loop fuel i c tot st args lh sent seq p).
Proof.
  revert i sent seq p. induction fuel as [|fuel IH]; intros; simpl; keeps_tac.
Qed.
#[export] Hint Resolve vecs_loop_reports : keeps.

Lemma report_vecs_reports seq c tot st args p lh :
  keeps reports (report_syscall_evt_vecs seq c tot st args p lh).
Proof. unfold report_syscall_evt_vecs. keeps_tac. Qed.

Lemma local_conn_id_s_reports t : keeps reports (local_conn_id_s t).
Proof. unfold local_conn_id_s. keeps_tac. Qed.
#[export] Hint Resolve report_vecs_reports local_conn_id_s_reports : keeps.

Lemma process_sendfile_reports args t d n ci ssl :
  keeps reports (process_sendfile_with_conn_info args t d n ci ssl).
Proof. unfold process_sendfile_with_conn_info. keeps_tac. Qed.

Lemma infer_and_report_reports buf n tot d ci : keeps reports (infer_and_report buf n tot d ci).
Proof. unfold infer_and_report. keeps_tac. Qed.
#[export] Hint Resolve process_sendfile_reports infer_and_report_reports : keeps.

Lemma process_data_reports args t d n ci sl ssl wd :
  keeps reports (process_syscall_data_with_conn_info args t d n ci sl ssl wd).
Proof.
  unfold process_syscall_data_with_conn_info, report_ssl_evt, report_syscall_evt. keeps_tac.
Qed.
#[export] Hint Resolve process_data_reports : keeps.

(** ** Connection keys *)

Lemma shiftl_land_low a b n : 0 <= n -> 0 <= b < 2 ^ n -> Z.land (Z.shiftl a n) b = 0.
Proof.
  intros Hn Hb. apply Z.bits_inj'. intros i Hi. rewrite Z.land_spec, Z.bits_0.
  destruct (Z.ltb_spec i n).
  - by rewrite Z.shiftl_spec_low.
  - rewrite <- (Z.mod_small b (2 ^ n)), Z.mod_pow2_bits_high by lia. apply andb_false_r.
Qed.

Lemma gen_tgid_fd_sum tgid fd : gen_tgid_fd tgid fd = u32 tgid * 4294967296 + u32 fd.
Proof.
  unfold gen_tgid_fd. pose proof (u32_range fd).
  pose proof (Z.add_lor_land (Z.shiftl (u32 tgid) 32) (u32 fd)) as H1.
  rewrite shiftl_land_low, Z.shiftl_mul_pow2 in H1 by (change (2 ^ 32) with 4294967296; lia).
  rewrite Z.shiftl_mul_pow2 by lia. change (2 ^ 32) with 4294967296 in *. lia.
Qed.

Lemma tgid_of_gen tgid fd : tgid_of (gen_tgid_fd tgid fd) = u32 tgid.
Proof.
  unfold tgid_of. rewrite gen_tgid_fd_sum, Z.shiftr_div_pow2 by lia.
  change (2 ^ 32) with 4294967296. pose proof (u32_range fd).
  rewrite Z.div_add_l, Z.div_small, Z.add_0_r by lia. apply u32_idem.
Qed.

Lemma u32_gen tgid fd : u32 (gen_tgid_fd tgid fd) = u32 fd.
Proof.
  rewrite gen_tgid_fd_sum. unfold u32 at 1.
  rewrite Z.add_comm, Z.mod_add by lia. apply u32_idem.
Qed.

(** ** What is reported *)

Lemma clamp_len_min len : clamp_len len = Z.min len MAX_MSG_SIZE.
Proof. unfold clamp_len. destruct (Z.ltb_spec len MAX_MSG_SIZE); lia. Qed.

Lemma clamp_pos len : 0 < len -> 0 < clamp_len len <= MAX_MSG_SIZE.
Proof. rewrite clamp_len_min. unfold MAX_MSG_SIZE. lia. Qed.

(** The compiler barrier around [len_minus_1] never changes the amount. *)
Lemma copy_msg_clamped e msg buf n :
  0 < n <= MAX_MSG_SIZE -> copy_msg e msg buf n = (read_into e msg buf n, n).
Proof.
  unfold MAX_MSG_SIZE. intros Hn. unfold copy_msg.
  rewrite (u64_small (n - 1)) by lia. replace (n - 1 + 1) with n by lia.
  rewrite u64_small by lia. unfold MAX_MSG_SIZE.
  destruct (Z.ltb_spec (n - 1) 30720); [done|lia].
Qed.

Lemma take_read_into e msg buf n :
  take (Z.to_nat n) (read_into e msg buf n) = bpf_probe_read e buf (Z.to_nat n).
Proof.
  unfold read_into. rewrite take_app_length'; [done|]. symmetry. apply probe_length.
Qed.

(** The times an event carries: those given, or the clock. *)
Lemma set_times_result ke ts d e s :
  result (set_times ke ts d) e s =
    if negb (ts =? 0) then ke <| ke_ts := ts |> <| ke_ts_delta := d |>
    else ke <| ke_ts := clock e (ticks s) |>.
Proof. unfold set_times. destruct (negb _); run; done. Qed.

Lemma set_times_exec ke ts d e s :
  exec (set_times ke ts d) e s = if negb (ts =? 0) then s else s <| ticks ::= S |>.
Proof. unfold set_times. destruct (negb _); run; done. Qed.
#[export] Hint Rewrite set_times_result set_times_exec : run.

(** The fields of a system call event that depend on the call. *)
Definition syscall_event (ke : kern_evt) (seq : Z) (c : conn_id_s_t) (len : Z) (st : step_t)
    : Prop :=
  ke_seq ke = u32 seq /\ ke_conn_id_s ke = c /\ ke_len ke = u32 len /\ ke_step ke = st.

Lemma report_syscall_buf_emits seq c len st ts d buf fn p lh e s :
  0 < len -> is_Some (syscall_data_map s) ->
  let n := clamp_len len in
  exists ke, syscall_event ke seq c len st /\ ke_prepend_length_header ke = p /\
    (p = true -> ke_length_header ke = lh) /\
    (exists evt', syscall_data_map (exec (report_syscall_buf seq c len st ts d buf fn p lh) e s)
       = Some evt' /\ ked_ke evt' = ke) /\
    perf (exec (report_syscall_buf seq c len st ts d buf fn p lh) e s) =
      perf s ++ [syscall_rb ke n (bpf_probe_read e buf (Z.to_nat n))].
Proof.
  intros Hlen [evt Hevt]. cbv zeta.
  pose proof (clamp_pos len Hlen) as Hn. unfold report_syscall_buf. cbv zeta.
  destruct (Z.eqb_spec (clamp_len len) 0); [lia|].
  run. rewrite Hevt. run. rewrite copy_msg_clamped by done. run.
  unfold output_syscall. run. fsimp.
  rewrite (u32_small (clamp_len len)) by (unfold MAX_MSG_SIZE in Hn; lia).
  replace (sizeof_kern_evt + 4 + clamp_len len - offsetof_data_msg) with (clamp_len len)
    by (change sizeof_kern_evt with 72; change offsetof_data_msg with 76; lia).
  rewrite take_read_into.
  eexists. split; [|split; [|split; [|split; [|f_equal; by destruct (negb _)] ] ] ].
  - by destruct (negb _), p.
  - by destruct (negb _), p.
  - intros ->. by destruct (negb _).
  - eexists. split; reflexivity.
Qed.

Lemma report_without_data_emits seq c len st ts d fn e s evt :
  0 < len -> syscall_data_map s = Some evt ->
  exists ke, syscall_event ke seq c len st /\
    ke_prepend_length_header ke = ke_prepend_length_header (ked_ke evt) /\
    ke_length_header ke = ke_length_header (ked_ke evt) /\
    perf (exec (report_syscall_buf_without_data seq c len st ts d fn) e s) =
      perf s ++ [syscall_rb ke 0 []].
Proof.
  intros Hlen Hevt. pose proof (clamp_pos len Hlen) as Hn.
  unfold report_syscall_buf_without_data. cbv zeta.
  destruct (Z.eqb_spec (clamp_len len) 0); [lia|].
  run. rewrite Hevt. run. unfold output_syscall. run. fsimp.
  eexists. split; [|split; [|split; [|f_equal; by destruct (negb _)] ] ];
    by destruct (negb _).
Qed.

Lemma report_ssl_buf_emits seq c len st ts d buf ss sl e s evt :
  0 < len -> ssl_data_map s = Some evt ->
  let n := clamp_len len in
  exists ke, syscall_event ke seq c len st /\
    perf (exec (report_ssl_buf seq c len st ts d buf ss sl) e s) =
      perf s ++ [ssl_rb ke (u32 ss) (u32 sl) n
        (take (Z.to_nat (n + 4)) (read_into e (kes_msg evt) buf n))].
Proof.
  intros Hlen Hevt. cbv zeta. pose proof (clamp_pos len Hlen) as Hn.
  unfold report_ssl_buf. cbv zeta.
  destruct (Z.eqb_spec (clamp_len len) 0); [lia|].
  run. rewrite Hevt. run. rewrite copy_msg_clamped by done. run.
  unfold output_ssl. run. fsimp.
  rewrite (u32_small (clamp_len len)) by (unfold MAX_MSG_SIZE in Hn; lia).
  replace (sizeof_kern_evt + 4 + 8 + 4 + clamp_len len - offsetof_ssl_msg) with (clamp_len len + 4)
    by (change sizeof_kern_evt with 72; change offsetof_ssl_msg with 84; lia).
  eexists. split; [|f_equal; by destruct (negb _)]. by destruct (negb _).
Qed.

Lemma report_syscall_buf_nothing seq c st ts d buf fn p lh e s :
  exec (report_syscall_buf seq c 0 st ts d buf fn p lh) e s = s.
Proof. done. Qed.

(** An event carries as many bytes as it says, and no more than it stands for. *)
Definition captured (ke : kern_evt) (n : Z) (payload : list Z) : Prop :=
  Z.of_nat (length payload) = n /\ n <= ke_len ke.

Lemma captured_clamp e buf ke n :
  0 < n -> ke_len ke = n -> captured ke (clamp_len n) (bpf_probe_read e buf (Z.to_nat (clamp_len n))).
Proof.
  intros Hn Hk. unfold captured. rewrite length_read, Hk. pose proof (clamp_pos n Hn).
  rewrite clamp_len_min in *. lia.
Qed.

Lemma captured_none ke : 0 <= ke_len ke -> captured ke 0 [].
Proof. done. Qed.

(** The events [rs] cover the bytes [seq, seq + total) of one stream in order
    and without gap, each carrying the sequence number of its first byte. *)
Fixpoint tiles (c : conn_id_s_t) (st : step_t) (seq total : Z) (rs : list perf_record) : Prop :=
  match rs with
  | [] => total = 0
  | syscall_rb ke n payload :: rs =>
    syscall_event ke seq c (ke_len ke) st /\ (0 < ke_len ke <= total /\ captured ke n payload) /\
    tiles c st (seq + ke_len ke) (total - ke_len ke) rs
  | _ :: _ => False
  end.

Lemma tiles_u32 c st seq seq' total rs :
  u32 seq = u32 seq' -> tiles c st seq total rs -> tiles c st seq' total rs.
Proof.
  revert seq seq' total. induction rs as [|[] rs IH]; intros seq seq' total Hs; simpl; try done.
  unfold syscall_event. rewrite Hs. intros (? & ? & H). split; [done|]. split; [done|].
  eapply IH, H. by rewrite <- (u32_add_l seq), Hs, u32_add_l.
Qed.

Lemma read_iovec_len e iov i : 0 <= (read_iovec e iov i).2 < 18446744073709551616.
Proof.
  unfold read_iovec. simpl.
  pose proof (le_decode_range (drop 8 (bpf_probe_read_user e (iov + 16 * Z.of_nat i) 16))) as H.
  rewrite length_drop in H.
  rewrite length_read_user in H.
  apply H, Forall_drop, probe_bytes.
Qed.

(** The piece the loop reports is what the vector holds of the rest. *)
Lemma iov_size_min total sent len :
  0 <= sent < total -> total < 2147483648 ->
  (if len <? u64 (s32 (total - sent)) then len else u64 (s32 (total - sent)))
  = Z.min len (total - sent).
Proof.
  intros. rewrite s32_small, u64_small by lia. destruct (Z.ltb_spec len (total - sent)); lia.
Qed.

Lemma vecs_loop_tiles fuel i c total st args lh sent seq p e s :
  0 <= sent <= total -> total < 2147483648 -> scratch_ok s ->
  let m := vecs_loop fuel i c total st args lh sent seq p in
  exists l sent' seq', result m e s = (sent', seq') /\ perf (exec m e s) = perf s ++ l /\ (length l <= fuel)%nat /\
    sent <= sent' <= total /\ u32 seq' = u32 (seq + (sent' - sent)) /\
    forall rest, tiles c st seq' (total - sent') rest -> tiles c st seq (total - sent) (l ++ rest).
Proof.
  intros Hsent Htot. revert i sent seq p s Hsent.
  induction fuel as [|fuel IH]; intros i sent seq p s Hsent Hs; cbv zeta; cbn [vecs_loop].
  - exists [], sent, seq. rewrite app_nil_r. repeat split; simpl; try lia.
    + f_equal. lia.
    + done.
  - rewrite u32_small by lia.
    destruct (negb _) eqn:Eg.
    { exists [], sent, seq. run. rewrite app_nil_r. repeat split; simpl; try lia.
      - f_equal. lia.
      - done. }
    apply negb_false_iff, andb_prop in Eg as [_ Hlt%Z.ltb_lt].
    run. pose proof (read_iovec_len e (da_iov args) i) as Hiov.
    destruct (read_iovec e (da_iov args) i) as [base len]. simpl in Hiov.
    rewrite iov_size_min by lia. run.
    set (n := Z.min len (total - sent)).
    assert (0 <= n <= total - sent) as Hnb by (unfold n; lia). clearbody n.
    set (m1 := report_syscall_buf _ _ _ _ _ _ _ _ _ _).
    pose proof (report_syscall_buf_reports _ _ _ _ _ _ _ _ _ _ : keeps reports m1) as Hr.
    rewrite (s32_small (sent + n)) by lia.
    destruct (IH (S i) (sent + n) (u32 (seq + n)) false (exec m1 e s)
      ltac:(lia) (proj1 (proj2 (Hr e s)) Hs)) as (l & sent' & seq' & H1 & H2 & Hlen & H3 & H4 & H5).
    rewrite H1, H2.
    destruct (decide (n = 0)) as [Hn|Hn].
    + subst m1. rewrite Hn, report_syscall_buf_nothing.
      exists l, sent', seq'. split; [done|]. split; [done|]. split; [lia|]. split; [lia|]. split.
      * rewrite H4, u32_add_l. f_equal. lia.
      * intros rest Hrest. apply H5 in Hrest. rewrite Hn, !Z.add_0_r in Hrest.
        eapply tiles_u32, Hrest. apply u32_idem.
    + destruct (report_syscall_buf_emits seq c n st (da_start_ts args) (ts_delta_of args) base
        (da_source_fn args) p lh e s ltac:(lia) (proj1 Hs)) as (ke & Hke & _ & _ & _ & Hperf).
      subst m1. rewrite Hperf.
      exists (syscall_rb ke (clamp_len n) (bpf_probe_read e base (Z.to_nat (clamp_len n))) :: l),
        sent', seq'.
      split; [done|]. split; [by rewrite <- app_assoc|]. split; [simpl; lia|].
      split; [lia|]. split.
      * rewrite H4, u32_add_l. f_equal. lia.
      * intros rest Hrest. apply H5 in Hrest. simpl.
        assert (ke_len ke = n) as Hlk by (destruct Hke as (_ & _ & -> & _); apply u32_small; lia).
        assert (captured ke (clamp_len n) (bpf_probe_read e base (Z.to_nat (clamp_len n)))) as Hcap
          by (apply captured_clamp; [lia|done]).
        rewrite Hlk. split; [done|]. split; [split; [lia|done]|].
        replace (total - sent - n) with (total - (sent + n)) by lia.
        eapply tiles_u32, Hrest. apply u32_idem.
Qed.

Lemma report_vecs_tiles seq c total st args p lh e s :
  0 <= total < 2147483648 -> scratch_ok s ->
  exists l, perf (exec (report_syscall_evt_vecs seq c total st args p lh) e s) = perf s ++ l /\
    tiles c st seq total l /\ (length l <= LOOP_LIMIT + 1)%nat.
Proof.
  intros Ht Hs. unfold report_syscall_evt_vecs. run.
  destruct (vecs_loop_tiles LOOP_LIMIT 0 c total st args lh 0 seq p e s ltac:(lia) ltac:(lia) Hs)
    as (l & sent & seq' & H1 & H2 & Hl & H3 & H4 & H5). rewrite H1.
  set (s1 := exec (vecs_loop _ _ _ _ _ _ _ _ _ _) e s) in *.
  assert (Hs1 : scratch_ok s1) by (by apply (proj1 (proj2 (vecs_loop_reports _ _ _ _ _ _ _ _ _ _ e s)))).
  rewrite (u32_small sent), Z.sub_0_r in * by lia.
  destruct (Z.ltb_spec sent total) as [Hlt|Hge].
  - rewrite (u32_small (total - sent)) by lia. destruct (proj1 Hs1) as [evt Hevt].
    destruct (report_without_data_emits seq' c (total - sent) st (da_start_ts args)
      (ts_delta_of args) (da_source_fn args) e s1 evt ltac:(lia) Hevt) as (ke & Hke & _ & _ & ->).
    exists (l ++ [syscall_rb ke 0 []]). rewrite H2, app_assoc. split; [done|]. split.
    + apply H5. simpl.
      assert (ke_len ke = total - sent) as Hlk by (destruct Hke as (_ & _ & -> & _); apply u32_small; lia).
      unfold captured. rewrite Hlk. split; [done|]. cbn [length]. lia.
    + rewrite length_app. cbn [length]. lia.
  - exists l. run. rewrite H2. split; [done|]. split; [|lia].
    rewrite <- (app_nil_r l). apply H5. simpl. lia.
Qed.

Lemma tiles_app c st seq t1 t2 l1 l2 :
  0 <= t2 -> tiles c st seq t1 l1 -> tiles c st (seq + t1) t2 l2 -> tiles c st seq (t1 + t2) (l1 ++ l2).
Proof.
  intros Ht2. revert seq t1. induction l1 as [|[] l1 IH]; intros seq t1; simpl; try done.
  - intros -> H. by rewrite Z.add_0_r in H.
  - intros (H1 & [H2 Hc] & H3) H4. split; [done|]. split; [split; [lia|done]|].
    replace (t1 + t2 - ke_len ke) with (t1 - ke_len ke + t2) by lia. apply IH; [done|].
    by replace (seq + ke_len ke + (t1 - ke_len ke)) with (seq + t1) by lia.
Qed.

(** *** What happens to the connection *)

(** Everything of a connection but its protocol, its role and the memory of
    the last read. *)
Definition same_conn (ci ci' : conn_info_t) : Prop :=
  ci_conn_id ci' = ci_conn_id ci /\
  ci_read_bytes ci' = ci_read_bytes ci /\ ci_write_bytes ci' = ci_write_bytes ci /\
  ci_ssl_read_bytes ci' = ci_ssl_read_bytes ci /\
  ci_ssl_write_bytes ci' = ci_ssl_write_bytes ci /\
  ci_laddr ci' = ci_laddr ci /\ ci_raddr ci' = ci_raddr ci /\
  ci_no_trace ci' = ci_no_trace ci /\ ci_ssl ci' = ci_ssl ci.

(** The connection after the inference block. *)
Definition infer_conn (e : env) (tp buf count total : Z) (direct : traffic_direction_t)
    (ci : conn_info_t) : conn_info_t :=
  let r := infer_protocol e buf count total ci tp in
  if bool_decide (ci_protocol ci <> pm_protocol r.1) then
    let ci' := r.2 <| ci_protocol := pm_protocol r.1 |> in
    if bool_decide (ci_role ci' = kRoleUnknown) && bool_decide (pm_type r.1 <> kUnknown)
    then ci' <| ci_role := role_of direct (pm_type r.1) |> else ci'
  else r.2.

Lemma infer_and_report_result buf n tot d ci e s :
  result (infer_and_report buf n tot d ci) e s =
    (infer_conn e (trace_protocol_value s) buf n tot d ci,
     bool_decide (ci_protocol ci <>
       pm_protocol (infer_protocol e buf n tot ci (trace_protocol_value s)).1)).
Proof.
  unfold infer_and_report, infer_conn. run.
  destruct (infer_protocol _ _ _ _ _ _) as [pm ci'] eqn:E. simpl.
  destruct (bool_decide _); run; done.
Qed.
#[export] Hint Rewrite infer_and_report_result : run.

Lemma infer_update_same_conn e buf n p ci : same_conn ci (infer_update e buf n p ci).
Proof. done. Qed.

Lemma infer_conn_same_conn e tp buf n tot d ci : same_conn ci (infer_conn e tp buf n tot d ci).
Proof.
  unfold infer_conn. cbv zeta.
  destruct (infer_protocol_state e buf n tot ci tp) as (p & -> & _).
  repeat case_match; done.
Qed.

(** The connection [process_syscall_data_with_conn_info] leaves, and whether
    it reports the data. *)
Definition data_conn (e : env) (tp : Z) (args : data_args) (direct : traffic_direction_t)
    (n : Z) (ci : conn_info_t) (with_data : bool) : conn_info_t :=
  if needs_inference ci && with_data
  then infer_conn e tp (da_buf args) (u64 n) (u64 n) direct ci else ci.

Definition data_reported (inferred : bool) (ci : conn_info_t) : bool :=
  bool_decide (ci_protocol ci <> kProtocolUnknown) &&
  (inferred || trace_le_traceable (ci_no_trace ci) ||
   bool_decide (ci_no_trace ci = protocol_unknown)).

Lemma process_data_result args t d n ci sl ssl wd e s :
  let ci1 := data_conn e (trace_protocol_value s) args d n ci wd in
  let r := result (process_syscall_data_with_conn_info args t d n ci sl ssl wd) e s in
  r = ci1 \/ r = ci1 <| ci_prepend_length_header := false |>.
Proof.
  cbv zeta. unfold process_syscall_data_with_conn_info, data_conn. run.
  destruct (needs_inference ci && wd); run; cbv beta iota; run;
    repeat case_match; run; auto.
Qed.

Lemma process_data_same_conn args t d n ci sl ssl wd e s :
  same_conn ci (result (process_syscall_data_with_conn_info args t d n ci sl ssl wd) e s).
Proof.
  destruct (process_data_result args t d n ci sl ssl wd e s) as [-> | ->];
    unfold data_conn; case_match; try done; apply infer_conn_same_conn.
Qed.

(** A connection whose protocol is known and that is to be traced. *)
Definition traced (ci : conn_info_t) : Prop :=
  needs_inference ci = false /\ data_reported false ci = true.

Lemma traced_protocol ci : traced ci -> ci_protocol ci <> kProtocolUnknown.
Proof.
  intros [_ H]. unfold data_reported in H. apply andb_prop in H as [H _].
  by apply bool_decide_eq_true in H.
Qed.

(** On a traced connection the reporting branch is taken. *)
Lemma traced_guard ci :
  traced ci ->
  (bool_decide (ci_protocol ci <> kProtocolUnknown) &&
    (false || trace_le_traceable (ci_no_trace ci))) ||
  (bool_decide (ci_protocol ci <> kProtocolUnknown) &&
    bool_decide (ci_no_trace ci = protocol_unknown)) = true.
Proof.
  intros [_ H]. unfold data_reported in H. cbn [orb] in *.
  by destruct (bool_decide (ci_protocol ci <> kProtocolUnknown)).
Qed.

Lemma process_data_traced args t d n ci sl wd :
  traced ci ->
  process_syscall_data_with_conn_info args t d n ci sl false wd =
  (conn_id_s ← local_conn_id_s t;
   if wd then
     report_syscall_evt (u32 (dir_bytes d ci + 1)) conn_id_s n (data_step false d) args
       (ci_prepend_length_header ci) (length_header_of ci);;
     mret (ci <| ci_prepend_length_header := false |>)
   else
     report_syscall_buf_without_data (u32 (dir_bytes d ci + 1)) conn_id_s (u64 n)
       (data_step false d) (da_start_ts args) (ts_delta_of args) (da_source_fn args);;
     mret ci).
Proof.
  intros H. unfold process_syscall_data_with_conn_info.
  rewrite (proj1 H). cbn [andb]. unfold mbind at 1, RS_bind at 1, mret at 1, RS_ret at 1.
  cbv beta iota. by rewrite (traced_guard ci H).
Qed.

(** ** Properties *)

(** A system call event carries the sequence number, the length, the
    connection and the step it was given, and a payload of exactly the first
    [min(len, MAX_MSG_SIZE)] bytes of the traced buffer; what is written to
    the ring stays within the event structure. *)
Theorem report_syscall_buf_event seq c len st ts d buf fn p lh e s :
  0 < len -> is_Some (syscall_data_map s) ->
  let n := Z.min len MAX_MSG_SIZE in
  exists ke, syscall_event ke seq c len st /\ ke_prepend_length_header ke = p /\
    (p = true -> ke_length_header ke = lh) /\
    perf (exec (report_syscall_buf seq c len st ts d buf fn p lh) e s) =
      perf s ++ [syscall_rb ke n (bpf_probe_read e buf (Z.to_nat n))] /\
    offsetof_data_msg + Z.of_nat (length (bpf_probe_read e buf (Z.to_nat n)))
      <= sizeof_kern_evt_data.
Proof.
  intros Hlen Hs. cbv zeta.
  destruct (report_syscall_buf_emits seq c len st ts d buf fn p lh e s Hlen Hs)
    as (ke & H1 & H2 & H3 & _ & H5).
  rewrite clamp_len_min in H5. exists ke. do 4 (split; [done|]).
  rewrite length_read. destruct sizes as (_ & -> & _ & -> & _).
  unfold MAX_MSG_SIZE in *. lia.
Qed.

(** [report_syscall_buf_event] for 3 bytes read at address 4096. *)
Lemma report_syscall_buf_event_witness :
  let e := env0 <| umem := mem_at 4096 [71; 69; 84] |> in
  exists ke, syscall_event ke 1 conn_id_s_zero 3 SYSCALL_IN /\
    ke_prepend_length_header ke = false /\ (false = true -> ke_length_header ke = 0) /\
    perf (exec (report_syscall_buf 1 conn_id_s_zero 3 SYSCALL_IN 7 2 4096 kSyscallRead false 0)
            e bpf_init) = [syscall_rb ke 3 [71; 69; 84]] /\
    76 + 3 <= sizeof_kern_evt_data.
Proof.
  intros e.
  exact (report_syscall_buf_event 1 conn_id_s_zero 3 SYSCALL_IN 7 2 4096 kSyscallRead false 0
    e bpf_init eq_refl ltac:(eexists; reflexivity)).
Defined.

(** An SSL event carries the first [n = min(len, MAX_MSG_SIZE)] bytes of
    the plaintext buffer and its sequence data; the length passed to the ring,
    four bytes more than the event needs, never exceeds the structure. *)
Theorem report_ssl_buf_event seq c len st ts d buf ss sl e s evt :
  0 < len -> ssl_data_map s = Some evt ->
  let n := Z.min len MAX_MSG_SIZE in
  exists ke payload, syscall_event ke seq c len st /\
    perf (exec (report_ssl_buf seq c len st ts d buf ss sl) e s) =
      perf s ++ [ssl_rb ke (u32 ss) (u32 sl) n payload] /\
    take (Z.to_nat n) payload = bpf_probe_read e buf (Z.to_nat n) /\
    offsetof_ssl_msg + Z.of_nat (length payload) <= offsetof_ssl_msg + n + 4
      <= sizeof_kern_evt_ssl_data.
Proof.
  intros Hlen Hs. cbv zeta.
  destruct (report_ssl_buf_emits seq c len st ts d buf ss sl e s evt Hlen Hs) as (ke & H1 & H2).
  pose proof (clamp_pos len Hlen) as Hn. rewrite clamp_len_min in *.
  exists ke. eexists. split; [done|]. split; [exact H2|]. split.
  - rewrite take_take, Nat.min_l by lia. apply take_read_into.
  - rewrite length_take. destruct sizes as (_ & _ & -> & _ & ->).
    unfold MAX_MSG_SIZE in *. lia.
Qed.

(** [report_ssl_buf_event] for a two-byte write. *)
Lemma report_ssl_buf_event_witness :
  let e := env0 <| umem := mem_at 4096 [72; 105] |> in
  exists ke payload, syscall_event ke 5 conn_id_s_zero 2 SSL_OUT /\
    perf (exec (report_ssl_buf 5 conn_id_s_zero 2 SSL_OUT 7 2 4096 1 30) e bpf_init) =
      [] ++ [ssl_rb ke 1 30 2 payload] /\
    take 2 payload = bpf_probe_read e 4096 2 /\
    offsetof_ssl_msg + Z.of_nat (length payload) <= offsetof_ssl_msg + 2 + 4
      <= sizeof_kern_evt_ssl_data.
Proof.
  intros e.
  exact (report_ssl_buf_event 5 conn_id_s_zero 2 SSL_OUT 7 2 4096 1 30 e bpf_init
    kern_evt_ssl_data_zero eq_refl eq_refl).
Defined.



(** Two connections share a key of [conn_info_map] only if they have the
    same process and the same descriptor, and both can be read back from it. *)
Theorem gen_tgid_fd_injective tgid fd tgid' fd' :
  (gen_tgid_fd tgid fd = gen_tgid_fd tgid' fd' <-> u32 tgid = u32 tgid' /\ u32 fd = u32 fd') /\
  tgid_of (gen_tgid_fd tgid fd) = u32 tgid /\ u32 (gen_tgid_fd tgid fd) = u32 fd.
Proof.
  split; [|split; [apply tgid_of_gen | apply u32_gen]]. split.
  - intros H. split; [by rewrite <- (tgid_of_gen tgid fd), H, tgid_of_gen|].
    by rewrite <- (u32_gen tgid fd), H, u32_gen.
  - intros [H1 H2]. rewrite !gen_tgid_fd_sum. congruence.
Qed.

(** The role that inference gives a connection of unknown role: the side
    that sends a request or receives a response is the client. *)
Theorem infer_role_correct buf n tot d ci e s :
  let pm := (infer_protocol e buf n tot ci (trace_protocol_value s)).1 in
  ci_role ci = kRoleUnknown -> ci_protocol ci <> pm_protocol pm -> pm_type pm <> kUnknown ->
  let ci' := (result (infer_and_report buf n tot d ci) e s).1 in
  ci_protocol ci' = pm_protocol pm /\
  (ci_role ci' = kRoleClient <->
    (d = kEgress /\ pm_type pm = kRequest) \/ (d = kIngress /\ pm_type pm = kResponse)) /\
  (ci_role ci' = kRoleServer <->
    (d = kIngress /\ pm_type pm = kRequest) \/ (d = kEgress /\ pm_type pm = kResponse)).
Proof.
  intros pm Hr Hp Ht. rewrite infer_and_report_result. simpl. unfold infer_conn. fold pm.
  destruct (infer_protocol_state e buf n tot ci (trace_protocol_value s)) as (p & -> & _).
  cbv zeta. rewrite bool_decide_eq_true_2 by done. fsimp.
  change (ci_role (infer_update e buf n p ci)) with (ci_role ci).
  rewrite Hr, !bool_decide_eq_true_2 by done. cbn [andb]. fsimp.
  split; [done|]. unfold role_of. destruct d, (pm_type pm); simpl; intuition congruence.
Qed.

(** [infer_role_correct] at the first [GET] a process sends. *)
Lemma infer_role_correct_witness :
  let e := env0 <| umem := mem_at 4096 [71; 69; 84; 32; 47] |> in
  let ci := conn_info_zero <| ci_role := kRoleUnknown |> in
  let ci' := (result (infer_and_report 4096 5 5 kEgress ci) e bpf_init).1 in
  ci_protocol ci' = kProtocolHTTP /\
  (ci_role ci' = kRoleClient <->
    (kEgress = kEgress /\ kRequest = kRequest) \/ (kEgress = kIngress /\ kRequest = kResponse)) /\
  (ci_role ci' = kRoleServer <->
    (kEgress = kIngress /\ kRequest = kRequest) \/ (kEgress = kEgress /\ kRequest = kResponse)).
Proof.
  intros e ci.
  apply (infer_role_correct 4096 5 5 kEgress ci e bpf_init); vm_compute; congruence.
Defined.

(** An event without data leaves [prepend_length_header] and
    [length_header] of the per-CPU buffer as the previous event set them: after
    a Kafka event that asked for its header to be prepended, the next event
    without data on that CPU carries the same request, whatever its connection. *)
Theorem without_data_inherits_header seq c len st ts d buf fn lh seq' c' len' st' ts' d' fn' e s :
  0 < len -> 0 < len' -> is_Some (syscall_data_map s) ->
  let m := report_syscall_buf seq c len st ts d buf fn true lh;;
           report_syscall_buf_without_data seq' c' len' st' ts' d' fn' in
  exists ke ke' n payload,
    perf (exec m e s) = perf s ++ [syscall_rb ke n payload; syscall_rb ke' 0 []] /\
    syscall_event ke seq c len st /\ syscall_event ke' seq' c' len' st' /\
    ke_prepend_length_header ke' = true /\ ke_length_header ke' = lh.
Proof.
  intros Hl Hl' Hs m. subst m. rewrite exec_bind.
  destruct (report_syscall_buf_emits seq c len st ts d buf fn true lh e s Hl Hs)
    as (ke & H1 & H2 & H3 & (evt & Hevt & Hke) & H4).
  destruct (report_without_data_emits seq' c' len' st' ts' d' fn' e _ evt Hl' Hevt)
    as (ke' & H5 & H6 & H7 & H8).
  do 4 eexists. split; [rewrite H8, H4, <- app_assoc; done|].
  split; [done|]. split; [done|]. rewrite H6, H7, Hke. auto.
Qed.

(** [without_data_inherits_header] across two connections. *)
Lemma without_data_inherits_header_witness :
  let c := mk_conn_id_s (gen_tgid_fd 10 3) unset in
  let c' := mk_conn_id_s (gen_tgid_fd 11 4) unset in
  exists ke ke' n payload,
    perf (exec (report_syscall_buf 5 c 20 SYSCALL_IN 1 1 4096 kSyscallRead true 335544320;;
                report_syscall_buf_without_data 1 c' 7 SYSCALL_OUT 2 1 kSyscallSendfile)
            env0 bpf_init) = [] ++ [syscall_rb ke n payload; syscall_rb ke' 0 []] /\
    syscall_event ke 5 c 20 SYSCALL_IN /\ syscall_event ke' 1 c' 7 SYSCALL_OUT /\
    ke_prepend_length_header ke' = true /\ ke_length_header ke' = 335544320.
Proof.
  intros c c'.
  apply (without_data_inherits_header 5 c 20 SYSCALL_IN 1 1 4096 kSyscallRead 335544320
    1 c' 7 SYSCALL_OUT 2 1 kSyscallSendfile env0 bpf_init); [lia|lia|eexists; reflexivity].
Defined.
