(* ===== verification/SockKey.v ===== *)
(** * Socket keys, NAT and filters ([bpf/pktlatency.bpf.c])

    Section [Keys]: how a [struct sock_key] is taken from a socket, from packet
    headers or from a conntrack entry, and the [nat_flow_map].
    Section [Filters]: which processes and which connections are traced. *)

From stdpp Require Import gmap list fin_maps.
From Stdlib Require Import ZArith Lia.
From S2P Require Import Prelude Types Machine DataCommon.
Local Open Scope Z_scope.

(** ** Header checks *)

Definition skb_l2_check (header : Z) : bool := (header =? 0) || (header =? 65535).
Definition skb_l4_check (l4 l3 : Z) : bool := (l4 =? 65535) || (l4 <=? l3).
Definition get_ip_header_len (h : Z) : Z :=
  let len := u8 (Z.land h 15 * 4) in
  if IP_H_LEN <? len then len else IP_H_LEN.

(** ** Keys *)

Definition reverse_sock_key_no_copy (key : sock_key) : sock_key :=
  mk_sock_key (dip0 key) (dip1 key) (sip0 key) (sip1 key) (dport key) (sport key).

(** Returns the C result and the key. *)
Definition parse_sock_key_sk (e : env) (sk : Z) (key : sock_key) : bool * sock_key :=
  let skc := read_sock e sk in
  let ports (key : sock_key) :=
    (true, key <| dport := bpf_ntohs (skc_dport skc) |> <| sport := u16 (skc_num skc) |>) in
  if skc_family skc =? AF_INET then
    ports (key <| dip0 := u32 (skc_daddr skc) |> <| sip0 := u32 (skc_rcv_saddr skc) |>)
  else if skc_family skc =? AF_INET6 then
    ports (key <| dip0 := addr64_0 (skc_v6_daddr skc) |> <| dip1 := addr64_1 (skc_v6_daddr skc) |>
               <| sip0 := addr64_0 (skc_v6_rcv_saddr skc) |>
               <| sip1 := addr64_1 (skc_v6_rcv_saddr skc) |>)
  else (false, key).

Definition parse_sock_key_rcv_sk (e : env) (sk : Z) (key : sock_key) : bool * sock_key :=
  (true, reverse_sock_key_no_copy (parse_sock_key_sk e sk key).2).

Definition parse_sock_key_rcv (e : env) (skb : Z) (key : sock_key) : bool * sock_key :=
  parse_sock_key_rcv_sk e (skb_sk (read_skb e skb)) key.

Definition parse_sock_key (e : env) (skb : Z) (key : sock_key) : sock_key :=
  (parse_sock_key_sk e (skb_sk (read_skb e skb)) key).2.

(** Fields of packet headers in kernel memory, at the offsets of [struct iphdr],
    [struct ipv6hdr], [struct tcphdr] and [struct ethhdr]. *)
Definition kread (e : env) (a : Z) (n : nat) : Z := le_decode (bpf_probe_read_kernel e a n).
Definition iphdr_tot_len (e : env) (ip : Z) : Z := kread e (ip + 2) 2.
Definition iphdr_protocol (e : env) (ip : Z) : Z := kread e (ip + 9) 1.
Definition iphdr_saddr (e : env) (ip : Z) : Z := kread e (ip + 12) 4.
Definition iphdr_daddr (e : env) (ip : Z) : Z := kread e (ip + 16) 4.
Definition ipv6hdr_payload_len (e : env) (ip : Z) : Z := kread e (ip + 4) 2.
Definition ipv6hdr_nexthdr (e : env) (ip : Z) : Z := kread e (ip + 6) 1.
Definition in6_at (e : env) (a : Z) : in6_addr :=
  let bs := bpf_probe_read_kernel e a 16 in
  mk_in6_addr (le_decode (take 8 bs)) (le_decode (drop 8 bs)).
Definition ipv6hdr_saddr (e : env) (ip : Z) : in6_addr := in6_at e (ip + 8).
Definition ipv6hdr_daddr (e : env) (ip : Z) : in6_addr := in6_at e (ip + 24).
Definition tcphdr_source (e : env) (tcp : Z) : Z := kread e tcp 2.
Definition tcphdr_dest (e : env) (tcp : Z) : Z := kread e (tcp + 2) 2.
Definition tcphdr_seq (e : env) (tcp : Z) : Z := kread e (tcp + 4) 4.
Definition tcphdr_flags (e : env) (tcp : Z) : Z := kread e (tcp + 13) 1.
Definition ethhdr_h_proto (e : env) (eth : Z) : Z := kread e (eth + 12) 2.

Definition parse_sock_key_from_ipv4_tcp_hdr (e : env) (key : sock_key) (ipv4 tcp : Z) : sock_key :=
  key <| sip0 := iphdr_saddr e ipv4 |> <| dip0 := iphdr_daddr e ipv4 |>
      <| sport := bpf_ntohs (tcphdr_source e tcp) |> <| dport := bpf_ntohs (tcphdr_dest e tcp) |>.

Definition parse_sock_key_from_ipv6_tcp_hdr (e : env) (key : sock_key) (ipv6 tcp : Z) : sock_key :=
  let s := ipv6hdr_saddr e ipv6 in let d := ipv6hdr_daddr e ipv6 in
  key <| sip0 := addr64_0 s |> <| sip1 := addr64_1 s |>
      <| dip0 := addr64_0 d |> <| dip1 := addr64_1 d |>
      <| sport := bpf_ntohs (tcphdr_source e tcp) |> <| dport := bpf_ntohs (tcphdr_dest e tcp) |>.

(** [use_ipv6]: bit 5 of the byte after [skc_state] is [skc_ipv6only]. *)
Definition use_ipv6 (e : env) (skc : Z) : bool :=
  let b := env_build e in
  if negb (has_skc_v6_daddr b) then false else
  if negb (has_skc_state b) then false else
  let flag := if skc_state_offset_positive b then s8 (skc_after_state (read_sock e skc)) else -1 in
  let onlyIpv6 :=
    if skc_state_offset_positive b && negb (flag =? -1) then Z.land flag 32 else 0 in
  truthy onlyIpv6.

(** *** Address translation *)

Definition parse_conntrack_tuple (tuple : nf_conntrack_tuple) (flow : sock_key) : sock_key :=
  flow <| sip0 := addr64_0 (nct_src tuple) |> <| sip1 := addr64_1 (nct_src tuple) |>
       <| dip0 := addr64_0 (nct_dst tuple) |> <| dip1 := addr64_1 (nct_dst tuple) |>
       <| sport := bpf_ntohs (nct_src_port tuple) |> <| dport := bpf_ntohs (nct_dst_port tuple) |>.

Definition reverse_flow (orig_flow new_flow : sock_key) : sock_key :=
  new_flow <| sip0 := dip0 orig_flow |> <| sip1 := dip1 orig_flow |>
           <| dip0 := sip0 orig_flow |> <| dip1 := sip1 orig_flow |>
           <| sport := dport orig_flow |> <| dport := sport orig_flow |>.

Definition handle_nat (ct : Z) : M unit :=
  e ← ask;
  if has_tuplehash (env_build e) || has_tuplehash_older_52 (env_build e) then
    let tuplehash := read_nf_conn e ct in
    let orig := parse_conntrack_tuple (nfc_orig tuplehash) sock_key_zero in
    let reply := parse_conntrack_tuple (nfc_reply tuplehash) sock_key_zero in
    let reversed_orig := reverse_flow orig sock_key_zero in
    modify (fun s => s <| nat_flow_map ::=
      bpf_map_update_elem MAX_ENTRIES BPF_ANY reversed_orig reply |>);;
    let reversed_reply := reverse_flow reply sock_key_zero in
    modify (fun s => s <| nat_flow_map ::=
      bpf_map_update_elem MAX_ENTRIES BPF_ANY orig reversed_reply |>)
  else mret tt.

Definition kprobe__nf_nat_packet (ct : Z) : M Z := handle_nat ct;; mret 0.
Definition kprobe__nf_nat_manip_pkt (ct : Z) : M Z := handle_nat ct;; mret 0.

(** ** Filters *)

(** The C functions return 0 when the namespace is in the map and -1 otherwise. *)
Definition filter_mntns (ns : Z) : M Z :=
  m ← gets filter_mntns_map; mret (match m !! ns with Some _ => 0 | None => -1 end).
Definition filter_pidns (ns : Z) : M Z :=
  m ← gets filter_pidns_map; mret (match m !! ns with Some _ => 0 | None => -1 end).
Definition filter_netns (ns : Z) : M Z :=
  m ← gets filter_netns_map; mret (match m !! ns with Some _ => 0 | None => -1 end).

(** [bpf_map_update_elem(&filter_pid_map, &tgid, &u8_zero, BPF_NOEXIST)] *)
Definition remember_tgid (tgid : Z) : M unit :=
  modify (fun s => s <| filter_pid_map ::=
    bpf_map_update_elem FILTER_MAX_ENTRIES BPF_NOEXIST tgid 0 |>).

Definition match_trace_tgid (tgid : Z) : M target_tgid_match_result_t :=
  cv ← gets control_values;
  match cv !! control_value_index_val kEnableFilterByPid with
  | None => mret TARGET_TGID_ALL
  | Some _ =>
    pids ← gets filter_pid_map;
    match pids !! tgid with
    | Some _ => mret TARGET_TGID_MATCHED
    | None =>
      e ← ask;
      let parent_tgid := u32 (task_parent_tgid e) in
      if truthy (task_real_parent e) && bool_decide (is_Some (pids !! parent_tgid)) then
        remember_tgid tgid;; mret TARGET_TGID_MATCHED
      else if lagacy_kernel_310 (env_build e) then mret TARGET_TGID_UNMATCHED
      else
        pidns ← filter_pidns (u32 (task_pidns e));
        mntns ← filter_mntns (u32 (task_mntns e));
        netns ← filter_netns (u32 (task_netns e));
        let should_filter := (pidns =? 0) || (mntns =? 0) || (netns =? 0) in
        if should_filter then remember_tgid tgid;; mret TARGET_TGID_MATCHED
        else mret TARGET_TGID_UNMATCHED
    end
  end.

Definition get_socket_from_fd (e : env) (fd_num : Z) : Z :=
  let file := fd_table e fd_num in
  let private_data := file_private_data e file in
  if private_data =? 0 then 0 else
  let so := read_socket e private_data in
  let sk := if negb (so_file so =? file) then so_file so else so_sk so in
  if (so_type so =? SOCK_STREAM) || (so_type so =? SOCK_DGRAM) then sk else 0.

(** The key [{1, 0, ..., 0}] that marks the remote address filter as set. *)
Definition in6_one : in6_addr := mk_in6_addr 1 0.

Definition filter_conn_info (conn_info : conn_info_t) : M bool :=
  s ← gets id;
  return_if
    (if bool_decide (ci_role conn_info <> kRoleUnknown) then
       match control_values s !! control_value_index_val kSideFilter with
       | Some side_filter =>
         truthy (u64 side_filter) &&
         negb (Bool.eqb (u64 side_filter =? 1) (bool_decide (ci_role conn_info = kRoleServer)))
       | None => false
       end
     else false) with false ;;
  return_if
    (if bool_decide (is_Some (enabled_local_port_map s !! 1)) then
       bool_decide (enabled_local_port_map s !! sin6_port (ci_laddr conn_info) = None)
     else false) with false ;;
  return_if
    (if bool_decide (is_Some (enabled_remote_port_map s !! 1)) then
       bool_decide (enabled_remote_port_map s !! sin6_port (ci_raddr conn_info) = None)
     else false) with false ;;
  return_if
    (if bool_decide (is_Some (enabled_remote_ip_map s !! in6_one)) then
       bool_decide (enabled_remote_ip_map s !! sin6_addr (ci_raddr conn_info) = None)
     else false) with false ;;
  mret true.

(** Never read by the modelled probes: [enabledXDP] has no caller. *)
Definition enabledXDP : M Z :=
  cv ← gets control_values;
  mret (match cv !! control_value_index_val kEnabledXdpIndex with
        | None => 1
        | Some enabled => if enabled =? 1 then 1 else 0
        end).

(** ** Key lemmas *)

Lemma reverse_sock_key_involutive k :
  reverse_sock_key_no_copy (reverse_sock_key_no_copy k) = k.
Proof. by destruct k. Qed.

Lemma reverse_flow_reverse k k' : reverse_flow k k' = reverse_sock_key_no_copy k.
Proof. by destruct k, k'. Qed.

Lemma reverse_sock_key_inj k k' :
  reverse_sock_key_no_copy k = reverse_sock_key_no_copy k' -> k = k'.
Proof. intros H. by rewrite <- (reverse_sock_key_involutive k), H, reverse_sock_key_involutive. Qed.

(** *** Reading headers *)

Lemma kread_le e a n v :
  holds (kmem e) a (le_encode n v) -> kread e a n = v mod 256 ^ Z.of_nat n.
Proof.
  intros H. unfold kread, bpf_probe_read_kernel.
  rewrite (probe_holds _ _ _ n H), take_ge, le_decode_encode by (rewrite length_le_encode; lia).
  done.
Qed.

Lemma kread_byte e a b : holds (kmem e) a [b] -> kread e a 1 = b.
Proof.
  intros H. unfold kread, bpf_probe_read_kernel. rewrite (probe_holds _ _ _ 1 H) by (simpl; lia).
  simpl. lia.
Qed.

Lemma ntohs_kread e a v :
  holds (kmem e) a (be_encode 2 v) -> bpf_ntohs (kread e a 2) = u16 v.
Proof.
  intros H. unfold kread, bpf_probe_read_kernel.
  rewrite (probe_holds _ _ _ 2 H), take_ge, bpf_ntohs_decode, be_decode_encode
    by (rewrite ?length_be_encode; auto using be_encode_bytes). done.
Qed.

Lemma ntohl_kread e a v :
  holds (kmem e) a (be_encode 4 v) -> bpf_ntohl (kread e a 4) = u32 v.
Proof.
  intros H. unfold kread, bpf_probe_read_kernel.
  rewrite (probe_holds _ _ _ 4 H), take_ge, bpf_ntohl_decode, be_decode_encode
    by (rewrite ?length_be_encode; auto using be_encode_bytes). done.
Qed.

Lemma in6_at_holds e a x :
  holds (kmem e) a (le_encode 8 (addr64_0 x) ++ le_encode 8 (addr64_1 x)) ->
  in6_at e a = mk_in6_addr (u64 (addr64_0 x)) (u64 (addr64_1 x)).
Proof.
  intros H. unfold in6_at, bpf_probe_read_kernel.
  rewrite (probe_holds _ _ _ 16 H), (take_ge _ 16)
    by (rewrite length_app, !length_le_encode; lia).
  rewrite take_app_length', drop_app_length' by (by rewrite length_le_encode).
  rewrite !le_decode_encode. done.
Qed.

(** ** Segments

    The bytes of the headers of a TCP segment, as they are on the wire; the
    addresses are the 32-bit or two 64-bit words a socket holds them in. *)

Record tcp_segment := mk_tcp_segment {
  seg_sport : Z; seg_dport : Z; seg_seq : Z; seg_ack : Z; seg_flags : Z;
  seg_options : list Z;    (* options of the TCP header, padded to words *)
  seg_payload : list Z;
}.

Definition seg_doff (g : tcp_segment) : Z := 5 + Z.of_nat (length (seg_options g)) / 4.
Definition tcp_header (g : tcp_segment) : list Z :=
  be_encode 2 (seg_sport g) ++ be_encode 2 (seg_dport g) ++ be_encode 4 (seg_seq g) ++
  be_encode 4 (seg_ack g) ++ [16 * seg_doff g] ++ [seg_flags g] ++
  be_encode 2 65535 ++ be_encode 4 0.

Record segment_ok (g : tcp_segment) : Prop := {
  seg_sport_ok : 0 <= seg_sport g < 65536;
  seg_dport_ok : 0 <= seg_dport g < 65536;
  seg_seq_ok : 0 <= seg_seq g < 4294967296;
  seg_flags_ok : 0 <= seg_flags g < 256;
  seg_options_ok : (length (seg_options g) <= 40)%nat;
}.

(** An IPv4 header with [ihl - 5] words of options after it. *)
Definition ipv4_header (ihl saddr daddr tot_len proto : Z) : list Z :=
  [64 + ihl] ++ [0] ++ be_encode 2 tot_len ++ be_encode 4 0 ++ [64] ++ [proto] ++
  be_encode 2 0 ++ le_encode 4 saddr ++ le_encode 4 daddr.

Definition ipv6_header (saddr daddr : in6_addr) (payload_len proto : Z) : list Z :=
  be_encode 4 1610612736 ++ be_encode 2 payload_len ++ [proto] ++ [64] ++
  (le_encode 8 (addr64_0 saddr) ++ le_encode 8 (addr64_1 saddr)) ++
  (le_encode 8 (addr64_0 daddr) ++ le_encode 8 (addr64_1 daddr)).

(** Split the bytes of a header into its fields, each at its address. *)
Ltac split_fields H :=
  repeat match type of H with
  | holds _ _ (_ ++ _) =>
    let H1 := fresh H in apply holds_app in H as [H1 H];
    rewrite ?length_app, ?length_be_encode, ?length_le_encode in H; cbn [length Nat.add] in H
  end.
Ltac norm_addr :=
  repeat match goal with
  | H : holds _ (_ + _) _ |- _ => progress rewrite <- ?Z.add_assoc in H; cbn [Z.add Z.of_nat Pos.add Pos.of_succ_nat Pos.succ] in H
  end.

Lemma tcp_header_fields e tcp g :
  segment_ok g -> holds (kmem e) tcp (tcp_header g) ->
  bpf_ntohs (tcphdr_source e tcp) = seg_sport g /\
  bpf_ntohs (tcphdr_dest e tcp) = seg_dport g /\
  bpf_ntohl (tcphdr_seq e tcp) = seg_seq g /\
  tcphdr_flags e tcp = seg_flags g.
Proof.
  intros [? ? ? ? ?] H. unfold tcp_header in H. split_fields H. norm_addr.
  unfold tcphdr_source, tcphdr_dest, tcphdr_seq, tcphdr_flags.
  erewrite ntohs_kread, ntohs_kread, ntohl_kread, kread_byte by eassumption.
  rewrite !u16_small, u32_small by lia. done.
Qed.

Lemma ipv4_header_fields e ip ihl saddr daddr len proto :
  holds (kmem e) ip (ipv4_header ihl saddr daddr len proto) ->
  kread e ip 1 = 64 + ihl /\ bpf_ntohs (iphdr_tot_len e ip) = u16 len /\
  iphdr_protocol e ip = proto /\
  iphdr_saddr e ip = u32 saddr /\ iphdr_daddr e ip = u32 daddr.
Proof.
  intros H. unfold ipv4_header in H. split_fields H. norm_addr.
  unfold iphdr_tot_len, iphdr_protocol, iphdr_saddr, iphdr_daddr.
  erewrite kread_byte, ntohs_kread, kread_byte, kread_le, kread_le by eassumption. done.
Qed.

Lemma ipv6_header_fields e ip saddr daddr len proto :
  holds (kmem e) ip (ipv6_header saddr daddr len proto) ->
  bpf_ntohs (ipv6hdr_payload_len e ip) = u16 len /\ ipv6hdr_nexthdr e ip = proto /\
  ipv6hdr_saddr e ip = mk_in6_addr (u64 (addr64_0 saddr)) (u64 (addr64_1 saddr)) /\
  ipv6hdr_daddr e ip = mk_in6_addr (u64 (addr64_0 daddr)) (u64 (addr64_1 daddr)).
Proof.
  intros H. unfold ipv6_header in H.
  apply holds_app in H as [_ H]. apply holds_app in H as [H1 H].
  apply holds_app in H as [H2 H]. apply holds_app in H as [_ H]. apply holds_app in H as [H3 H4].
  rewrite !length_app, ?length_be_encode, ?length_le_encode in *. cbn [length Nat.add] in *.
  norm_addr.
  unfold ipv6hdr_payload_len, ipv6hdr_nexthdr, ipv6hdr_saddr, ipv6hdr_daddr.
  erewrite ntohs_kread, kread_byte, in6_at_holds, in6_at_holds by eassumption. done.
Qed.

(** The headers at [ip] and [tcp] are those of a segment of the flow [k]. *)
Definition key4 (k : sock_key) : Prop :=
  0 <= sip0 k < 4294967296 /\ 0 <= dip0 k < 4294967296 /\ sip1 k = 0 /\ dip1 k = 0.
Definition key6 (k : sock_key) : Prop :=
  Forall (fun x => 0 <= x < 18446744073709551616) [sip0 k; sip1 k; dip0 k; dip1 k].

Definition carries4 (e : env) (ip tcp : Z) (k : sock_key) (ihl len : Z) (g : tcp_segment) : Prop :=
  holds (kmem e) ip (ipv4_header ihl (sip0 k) (dip0 k) len IPPROTO_TCP) /\
  holds (kmem e) tcp (tcp_header g) /\ segment_ok g /\
  seg_sport g = sport k /\ seg_dport g = dport k.
Definition carries6 (e : env) (ip tcp : Z) (k : sock_key) (len : Z) (g : tcp_segment) : Prop :=
  holds (kmem e) ip (ipv6_header (mk_in6_addr (sip0 k) (sip1 k)) (mk_in6_addr (dip0 k) (dip1 k))
    len IPPROTO_TCP) /\
  holds (kmem e) tcp (tcp_header g) /\ segment_ok g /\
  seg_sport g = sport k /\ seg_dport g = dport k.

Lemma parse_carries4 e ip tcp k ihl len g :
  key4 k -> carries4 e ip tcp k ihl len g ->
  parse_sock_key_from_ipv4_tcp_hdr e sock_key_zero ip tcp = k.
Proof.
  intros (? & ? & ? & ?) (Hi & Ht & Hg & Hks & Hkd).
  destruct (ipv4_header_fields _ _ _ _ _ _ _ Hi) as (_ & _ & _ & Hs & Hd).
  destruct (tcp_header_fields _ _ _ Hg Ht) as (Hsp & Hdp & _ & _).
  unfold parse_sock_key_from_ipv4_tcp_hdr. rewrite Hs, Hd, Hsp, Hdp, !u32_small by done.
  destruct k; cbn in *; subst. done.
Qed.

Lemma parse_carries6 e ip tcp k len g key :
  key6 k -> carries6 e ip tcp k len g ->
  parse_sock_key_from_ipv6_tcp_hdr e key ip tcp = k.
Proof.
  intros Hk (Hi & Ht & Hg & Hs & Hd).
  unfold key6 in Hk. rewrite !Forall_cons in Hk. destruct Hk as (? & ? & ? & ? & _).
  destruct (ipv6_header_fields _ _ _ _ _ _ Hi) as (_ & _ & Hsa & Hda).
  destruct (tcp_header_fields _ _ _ Hg Ht) as (Hsp & Hdp & _ & _).
  unfold parse_sock_key_from_ipv6_tcp_hdr. rewrite Hsa, Hda, Hsp, Hdp.
  cbn [addr64_0 addr64_1]. rewrite !u64_small by done.
  destruct k; cbn in *; subst. done.
Qed.

(** A socket as the kernel has it: the fields within their widths. *)
Record sock_ok (s : sock) : Prop := {
  skc_daddr_ok : 0 <= skc_daddr s < 4294967296;
  skc_rcv_saddr_ok : 0 <= skc_rcv_saddr s < 4294967296;
  skc_v6_ok : Forall (fun x => 0 <= x < 18446744073709551616)
    [addr64_0 (skc_v6_rcv_saddr s); addr64_1 (skc_v6_rcv_saddr s);
     addr64_0 (skc_v6_daddr s); addr64_1 (skc_v6_daddr s)];
  skc_num_ok : 0 <= skc_num s < 65536;
}.

Definition sk_key (e : env) (sk : Z) : sock_key := (parse_sock_key_sk e sk sock_key_zero).2.

Lemma rcv_sk_key e sk : parse_sock_key_rcv_sk e sk sock_key_zero =
  (true, reverse_sock_key_no_copy (sk_key e sk)).
Proof. done. Qed.

(** The receive key is also the reverse when parsed over an earlier key of the
    same socket, as [submit_new_conn] does. *)
Lemma parse_sock_key_sk_again e sk :
  parse_sock_key_sk e sk (sk_key e sk) = parse_sock_key_sk e sk sock_key_zero.
Proof. unfold sk_key, parse_sock_key_sk. repeat case_match; reflexivity. Qed.

Lemma sk_key4 e sk :
  sock_ok (read_sock e sk) -> skc_family (read_sock e sk) = AF_INET -> key4 (sk_key e sk).
Proof.
  intros [? ? ? ?] Hf. unfold key4, sk_key, parse_sock_key_sk. rewrite Hf. cbn.
  split; [apply u32_range|]. split; [apply u32_range|]. done.
Qed.

Lemma sk_key6 e sk :
  sock_ok (read_sock e sk) -> skc_family (read_sock e sk) = AF_INET6 -> key6 (sk_key e sk).
Proof.
  intros [? ? H ?] Hf. unfold key6, sk_key, parse_sock_key_sk. rewrite Hf. exact H.
Qed.

Lemma key4_reverse k : key4 k -> key4 (reverse_sock_key_no_copy k).
Proof. unfold key4. destruct k; simpl. tauto. Qed.
Lemma key6_reverse k : key6 k -> key6 (reverse_sock_key_no_copy k).
Proof. unfold key6. destruct k. simpl. rewrite !Forall_cons. tauto. Qed.

(** ** Filters *)

(** What [match_trace_tgid] is to decide: the process, its parent or one of its
    namespaces is selected. *)
Definition tgid_selected (e : env) (s : bpf) (tgid : Z) : Prop :=
  is_Some (filter_pid_map s !! tgid) \/
  (task_real_parent e <> 0 /\ is_Some (filter_pid_map s !! u32 (task_parent_tgid e))) \/
  (lagacy_kernel_310 (env_build e) = false /\
    (is_Some (filter_pidns_map s !! u32 (task_pidns e)) \/
     is_Some (filter_mntns_map s !! u32 (task_mntns e)) \/
     is_Some (filter_netns_map s !! u32 (task_netns e)))).

Definition filter_enabled (s : bpf) : Prop :=
  is_Some (control_values s !! control_value_index_val kEnableFilterByPid).

(** The state after remembering a process. *)
Definition with_tgid (tgid : Z) (s : bpf) : bpf :=
  s <| filter_pid_map ::= bpf_map_update_elem FILTER_MAX_ENTRIES BPF_NOEXIST tgid 0 |>.

Lemma ns_lookup (m : gmap Z Z) ns :
  ((match m !! ns with Some _ => 0 | None => -1 end) =? 0) = bool_decide (is_Some (m !! ns)).
Proof. destruct (m !! ns); [by rewrite bool_decide_eq_true_2 by eauto|].
  rewrite bool_decide_eq_false_2; [done|]. by intros [? ?]. Qed.

Lemma truthy_ne z : truthy z = bool_decide (z <> 0).
Proof. unfold truthy. destruct (Z.eqb_spec z 0); simpl; case_bool_decide; congruence. Qed.

Lemma match_trace_tgid_run tgid e s :
  (~ filter_enabled s /\ match_trace_tgid tgid e s = (TARGET_TGID_ALL, s)) \/
  (filter_enabled s /\ is_Some (filter_pid_map s !! tgid) /\
     match_trace_tgid tgid e s = (TARGET_TGID_MATCHED, s)) \/
  (filter_enabled s /\ filter_pid_map s !! tgid = None /\ tgid_selected e s tgid /\
     match_trace_tgid tgid e s = (TARGET_TGID_MATCHED, with_tgid tgid s)) \/
  (filter_enabled s /\ ~ tgid_selected e s tgid /\
     match_trace_tgid tgid e s = (TARGET_TGID_UNMATCHED, s)).
Proof.
  unfold filter_enabled, tgid_selected.
  unfold match_trace_tgid, filter_pidns, filter_mntns, filter_netns, remember_tgid.
  unfold mbind, RS_bind, mret, RS_ret, gets, ask, modify. cbv beta iota zeta.
  destruct (control_values s !! _) eqn:Ec; [|left; split; [by intros [? ?]|done] ].
  right. assert (is_Some (Some z)) as Hc by eauto.
  destruct (filter_pid_map s !! tgid) eqn:Ep; [left; eauto|right].
  rewrite truthy_ne, <- bool_decide_and.
  destruct (decide (task_real_parent e <> 0 /\ is_Some (filter_pid_map s !! u32 (task_parent_tgid e))))
    as [Hp|Hp].
  - left. rewrite bool_decide_eq_true_2 by done. eauto 10.
  - rewrite bool_decide_eq_false_2 by done.
    destruct (lagacy_kernel_310 (env_build e)) eqn:El.
    + right. split; [done|]. split; [|done].
      intros [ [? ?]|[?|[? ?] ] ]; done.
    + cbv beta iota. rewrite !ns_lookup, <- !bool_decide_or. case_bool_decide as Hn.
      * left. split; [done|]. split; [done|].
        split; [right; right; split; [done|tauto]|done].
      * right. split; [done|]. split; [|done].
        intros [ [? ?]|[?|[? ?] ] ]; [done|done|tauto].
Qed.

(** The rules of [filter_conn_info], as the command line states them. *)
Definition conn_selected (s : bpf) (ci : conn_info_t) : Prop :=
  (forall v, control_values s !! control_value_index_val kSideFilter = Some v ->
     u64 v <> 0 -> ci_role ci <> kRoleUnknown -> (u64 v = 1 <-> ci_role ci = kRoleServer)) /\
  (is_Some (enabled_local_port_map s !! 1) ->
     is_Some (enabled_local_port_map s !! sin6_port (ci_laddr ci))) /\
  (is_Some (enabled_remote_port_map s !! 1) ->
     is_Some (enabled_remote_port_map s !! sin6_port (ci_raddr ci))) /\
  (is_Some (enabled_remote_ip_map s !! in6_one) ->
     is_Some (enabled_remote_ip_map s !! sin6_addr (ci_raddr ci))).

Lemma filter_conn_info_state ci e s : exec (filter_conn_info ci) e s = s.
Proof. unfold filter_conn_info. run. repeat case_match; by run. Qed.

(** A set filter lets only its members pass. *)
Lemma enabled_guard {K} `{Countable K} (m : gmap K Z) (one k : K) :
  (if bool_decide (is_Some (m !! one)) then bool_decide (m !! k = None) else false) = false <->
  (is_Some (m !! one) -> is_Some (m !! k)).
Proof.
  case_bool_decide; [|tauto]. rewrite bool_decide_eq_false. destruct (m !! k); naive_solver.
Qed.

Lemma side_guard (o : option Z) r :
  (if bool_decide (r <> kRoleUnknown) then
     match o with
     | Some v => truthy (u64 v) && negb (Bool.eqb (u64 v =? 1) (bool_decide (r = kRoleServer)))
     | None => false
     end
   else false) = false <->
  (forall v, o = Some v -> u64 v <> 0 -> r <> kRoleUnknown -> (u64 v = 1 <-> r = kRoleServer)).
Proof.
  case_bool_decide; [|naive_solver].
  destruct o as [v|]; [|naive_solver]. unfold truthy.
  destruct (Z.eqb_spec (u64 v) 0) as [E|]; cbn [negb andb].
  - split; [|done]. intros _ ? [= <-]. done.
  - rewrite negb_false_iff, Bool.eqb_true_iff.
    destruct (Z.eqb_spec (u64 v) 1), (decide (r = kRoleServer)) as [Hr|Hr];
      rewrite ?(bool_decide_eq_true_2 _ Hr), ?(bool_decide_eq_false_2 _ Hr);
      (split; [intros ? ? [= <-]; intuition congruence
              | intros Hv; specialize (Hv v eq_refl); intuition congruence]).
Qed.

Lemma filter_conn_info_iff ci e s :
  result (filter_conn_info ci) e s = true <-> conn_selected s ci.
Proof.
  unfold filter_conn_info, conn_selected. run. unfold id.
  rewrite <- side_guard, <- !enabled_guard.
  repeat match goal with |- context [result (if ?b then _ else _)] => destruct b end;
    run; intuition congruence.
Qed.

(** ** Properties *)


(** A socket 10.0.0.1:40000 -> 10.0.0.2:80 and a segment it receives. *)
Definition sock_example : sock :=
  mk_sock AF_INET 33554442 16777226 in6_zero in6_zero 40000 20480 0 16540 0 0.
Definition seg_example : tcp_segment := mk_tcp_segment 80 40000 305419896 7 24 [] [72; 105].
Definition packet_example : list Z :=
  ipv4_header 5 33554442 16777226 42 IPPROTO_TCP ++ tcp_header seg_example.
Definition env_example : env :=
  env0 <| sock_at := fun p => if p =? 100 then Some sock_example else None |>
       <| kmem := mem_at 5000 packet_example |>.

Lemma sock_example_ok : sock_ok (read_sock env_example 100).
Proof.
  change (read_sock env_example 100) with sock_example.
  split; cbn; try lia. rewrite !Forall_cons. repeat split; lia || constructor.
Qed.

Lemma seg_example_ok : segment_ok seg_example.
Proof. split; cbn; lia. Qed.


(** Translation at the device commutes with reversal.  When a conntrack
    entry with distinct directions is seen and there is room, the flow map
    translates the original flow to the reverse of the reply flow and the
    reverse of the original flow to the reply flow, and no other key changes:
    both directions of a translated connection map to one pair of keys. *)
Theorem handle_nat_symmetric ct e s :
  let orig := parse_conntrack_tuple (nfc_orig (read_nf_conn e ct)) sock_key_zero in
  let reply := parse_conntrack_tuple (nfc_reply (read_nf_conn e ct)) sock_key_zero in
  has_tuplehash (env_build e) = true \/ has_tuplehash_older_52 (env_build e) = true ->
  orig <> reverse_sock_key_no_copy orig ->
  Z.of_nat (size (nat_flow_map s)) + 2 <= MAX_ENTRIES ->
  let m := nat_flow_map (exec (handle_nat ct) e s) in
  m !! orig = Some (reverse_sock_key_no_copy reply) /\
  m !! reverse_sock_key_no_copy orig = Some reply /\
  (forall k, k <> orig -> k <> reverse_sock_key_no_copy orig -> m !! k = nat_flow_map s !! k) /\
  (forall k t, k = orig \/ k = reverse_sock_key_no_copy orig -> m !! k = Some t ->
     m !! reverse_sock_key_no_copy k = Some (reverse_sock_key_no_copy t)).
Proof.
  intros orig reply Hb Hne Hroom m.
  assert (m = bpf_map_update_elem MAX_ENTRIES BPF_ANY orig (reverse_sock_key_no_copy reply)
    (bpf_map_update_elem MAX_ENTRIES BPF_ANY (reverse_sock_key_no_copy orig) reply (nat_flow_map s))) as Hm.
  { subst m. unfold handle_nat. run. rewrite (proj2 (orb_true_iff _ _) Hb). run. fsimp.
    by rewrite !reverse_flow_reverse. }
  assert (m !! orig = Some (reverse_sock_key_no_copy reply)) as H1.
  { rewrite Hm. apply update_any_eq. right. unfold bpf_map_update_elem.
    destruct (nat_flow_map s !! _) eqn:E; [rewrite map_size_insert_Some by done; lia|].
    case_match; [rewrite map_size_insert_None by done|]; lia. }
  assert (m !! reverse_sock_key_no_copy orig = Some reply) as H2.
  { rewrite Hm, update_ne by done. apply update_any_eq. right. lia. }
  do 2 (split; [done|]). split.
  - intros k Hk1 Hk2. by rewrite Hm, !update_ne.
  - intros k t [-> | ->]; rewrite ?reverse_sock_key_involutive, ?H1, ?H2; intros [= <-].
    + by rewrite reverse_sock_key_involutive.
    + done.
Qed.

(** [handle_nat_symmetric] for a connection to 10.96.0.1:443 sent to 10.0.0.2:6443. *)
Definition nf_example : nf_conn :=
  mk_nf_conn
    (mk_nf_conntrack_tuple (mk_in6_addr 16777226 0) 16540 (mk_in6_addr 16801802 0) 47873)
    (mk_nf_conntrack_tuple (mk_in6_addr 33554442 0) 11033 (mk_in6_addr 16777226 0) 16540).
Lemma handle_nat_symmetric_witness :
  let e := env0 <| nf_conn_at := fun _ => Some nf_example |> in
  nat_flow_map (exec (handle_nat 1) e bpf_init) !! mk_sock_key 16777226 0 16801802 0 40000 443 =
    Some (mk_sock_key 16777226 0 33554442 0 40000 6443).
Proof.
  intros e.
  exact (proj1 (handle_nat_symmetric 1 e bpf_init (or_introl eq_refl)
    ltac:(vm_compute; congruence) ltac:(vm_compute; congruence))).
Defined.

(** The process filter.  Without it every process passes; with it a process
    passes exactly when it, its parent or one of its namespaces is selected.
    While the filter map has room, a process that passed once is remembered and
    passes in every later state that still has the entry, whatever its parent and
    namespaces are by then; a process that does not pass changes nothing. *)
Theorem match_trace_tgid_decides tgid e s :
  let r := result (match_trace_tgid tgid) e s in
  let s' := exec (match_trace_tgid tgid) e s in
  (r = TARGET_TGID_ALL <-> ~ filter_enabled s) /\
  (r = TARGET_TGID_MATCHED <-> filter_enabled s /\ tgid_selected e s tgid) /\
  (r = TARGET_TGID_UNMATCHED <-> filter_enabled s /\ ~ tgid_selected e s tgid) /\
  (r <> TARGET_TGID_MATCHED -> s' = s) /\
  (r = TARGET_TGID_MATCHED -> Z.of_nat (size (filter_pid_map s)) < FILTER_MAX_ENTRIES ->
   is_Some (filter_pid_map s' !! tgid) /\
   forall e2 s2, filter_enabled s2 -> is_Some (filter_pid_map s2 !! tgid) ->
     result (match_trace_tgid tgid) e2 s2 = TARGET_TGID_MATCHED).
Proof.
  intros r s'.
  assert (Hstick : forall e2 s2, filter_enabled s2 -> is_Some (filter_pid_map s2 !! tgid) ->
     result (match_trace_tgid tgid) e2 s2 = TARGET_TGID_MATCHED).
  { intros e2 s2 He Hi. unfold result.
    destruct (match_trace_tgid_run tgid e2 s2) as [ [? _]|[ (_ & _ & ->)|[ (_ & Hn & _)|(_ & Hn & _)] ] ];
      [done|done| |].
    - destruct Hi as [? Hi]. congruence.
    - exfalso. apply Hn. by left. }
  subst r s'. unfold result in *. unfold exec.
  destruct (match_trace_tgid_run tgid e s) as
    [ [Hf ->]|[ (Hf & Hi & ->)|[ (Hf & Hn & Hs & ->)|(Hf & Hn & ->)] ] ]; simpl.
  - intuition congruence.
  - assert (tgid_selected e s tgid) by (by left). intuition congruence.
  - split; [intuition congruence|]. split; [tauto|]. split; [intuition congruence|].
    split; [done|]. intros _ Hroom. split; [|done].
    exists 0. unfold with_tgid. fsimp. by apply update_noexist_new.
  - intuition congruence.
Qed.

(** [match_trace_tgid_decides] for a child of a selected process. *)
Lemma match_trace_tgid_decides_witness :
  let e := env0 <| task_real_parent := 1 |> <| task_parent_tgid := 7 |> in
  let s := bpf_init <| control_values := {[3 := 1]} |> <| filter_pid_map := {[7 := 0]} |> in
  is_Some (filter_pid_map (exec (match_trace_tgid 8) e s) !! 8).
Proof.
  intros e s.
  apply (match_trace_tgid_decides 8 e s); vm_compute; reflexivity.
Defined.
