(* ===== verification/Skb.v ===== *)
(** * Packets in the kernel ([bpf/pktlatency.bpf.c], lines 165 to 701)

    [parse_skb] finds the TCP header of a packet, the key of its flow and the
    initial sequence number kept for that flow in [sock_xmit_map], and reports
    the packet; the probes of the receive and transmit path call it. *)

From stdpp Require Import gmap list fin_maps.
From Stdlib Require Import ZArith Lia.
From S2P Require Import Prelude Types Machine DataCommon SockKey.
Local Open Scope Z_scope.

(** ** Reporting *)

(** [conn_id_s] and [conn_info] of a key, when both tests of
    [report_kern_evt] pass. *)
Definition traced_conn_id (s : bpf) (key : sock_key) : option conn_id_s_t :=
  match sock_key_conn_id_map s !! key with
  | Some conn_id_s =>
    if trace_le_traceable (cids_no_trace conn_id_s) then
      match conn_info_map s !! tgid_fd conn_id_s with
      | Some conn_info =>
        if bool_decide (ci_protocol conn_info <> kProtocolUnknown) then Some conn_id_s else None
      | None => None
      end
    else None
  | None => None
  end.

Definition parse_kern_evt_body (param : parse_kern_evt_body_t) : M unit :=
  o ← gets kern_evt_t_map;
  match o with
  | None => mret tt
  | Some evt =>
    s ← gets id;
    match traced_conn_id s (pb_key param) with
    | None => mret tt
    | Some conn_id_s =>
      now ← bpf_ktime_get_ns;
      e ← ask;
      let evt := evt <| ke_conn_id_s := conn_id_s |> <| ke_seq := pb_cur_seq param |>
        <| ke_len := pb_len param |> <| ke_ts := now |> <| ke_ts_delta := 0 |>
        <| ke_step := pb_step param |>
        <| ke_func_name := bpf_probe_read_kernel e (pb_func_name param) 16 |> in
      modify (fun s => s <| kern_evt_t_map := Some evt |>);;
      bpf_perf_event_output (rb evt)
    end
  end.

(** The data offset, the high half of byte 12, times 4. *)
Definition tcp_hdr_len (e : env) (tcp : Z) : Z :=
  Z.shiftl (Z.shiftr (Z.land (kread e (tcp + 12) 4) 255) 4) 2.

Definition report_kern_evt (param : parse_kern_evt_body_t) : M unit :=
  e ← ask;
  let tcp := pb_tcp param in
  let step := pb_step param in
  let tcpseq := bpf_htonl (tcphdr_seq e tcp) in
  let relative_seq := u32 (tcpseq - pb_inital_seq param) in
  let len_minus_hdr := u32 (s32 (pb_len param) - tcp_hdr_len e tcp) in
  s ← gets id;
  match traced_conn_id s (pb_key param) with
  | Some conn_id_s =>
    match kern_evt_t_map s with
    | None => mret tt
    | Some evt =>
      now ← bpf_ktime_get_ns;
      let evt := evt <| ke_seq := relative_seq |> <| ke_len := len_minus_hdr |>
        <| ke_ts := now |> <| ke_ts_delta := 0 |> <| ke_step := step |>
        <| ke_ifindex := pb_ifindex param |> <| ke_flags := tcphdr_flags e tcp |>
        <| ke_conn_id_s := conn_id_s |> in
      modify (fun s => s <| kern_evt_t_map := Some evt |>);;
      bpf_perf_event_output (rb evt)
    end
  | None =>
    if bool_decide (sock_key_conn_id_map s !! pb_key param = None) && (relative_seq =? 1) &&
       (0 <? len_minus_hdr) && (bool_decide (step = DEV_IN) || bool_decide (step = TCP_IN)) then
      match first_packet_evt_map s with
      | None => mret tt
      | Some evt =>
        now ← bpf_ktime_get_ns;
        let evt := evt <| fp_ts := now |> <| fp_step := step |> <| fp_len := len_minus_hdr |>
          <| fp_key := pb_key param |> <| fp_ifindex := pb_ifindex param |>
          <| fp_flags := tcphdr_flags e tcp |> in
        modify (fun s => s <| first_packet_evt_map := Some evt |>);;
        bpf_perf_event_output (first_packet_rb evt)
      end
    else mret tt
  end.

(** ** Parsing a packet *)

(** Lines 409 to 439: the network protocol, [None] for [goto err] (and for
    falling out of the nested conditions). *)
Definition skb_l3_proto (e : env) (b : sk_buff) : option Z :=
  let network_header := skb_network_header b in
  let mac_header := skb_mac_header b in
  let data := skb_head b in
  let known p := if (p =? ETH_P_IP) || (p =? ETH_P_IPV6) then Some p else None in
  if negb (skb_l2_check mac_header) then
    if truthy network_header && (network_header <=? mac_header) then Some ETH_P_IP
    else if negb (mac_header =? network_header) then
      known (bpf_ntohs (ethhdr_h_proto e (data + mac_header)))
    else None
  else known (bpf_ntohs (skb_protocol b)).

(** What lines 441 to 474 compute: the address of the (inner) IPv4 header, the
    transport header, the length of the segment and the transport protocol. *)
Record l4_info := mk_l4_info {
  l4_ip : Z; l4_tcp : Z; l4_tcp_len : Z; l4_proto : Z;
}.

Definition skb_l4 (e : env) (b : sk_buff) (l3_proto : Z) : l4_info :=
  let data := skb_head b in
  let ip := data + skb_network_header b in
  let l4 := if negb (skb_l4_check (skb_transport_header b) (skb_network_header b))
            then u64 (data + skb_transport_header b) else 0 in
  if l3_proto =? ETH_P_IP then
    let len := bpf_ntohs (iphdr_tot_len e ip) in
    let ip_hdr_len := get_ip_header_len (kread e ip 1) in
    let l4 := if truthy l4 then l4 else ip + ip_hdr_len in
    let proto_l4 := iphdr_protocol e ip in
    let tcp_len := u32 (len - ip_hdr_len) in
    if proto_l4 =? IPPROTO_IPIP then
      let ip := ip + ip_hdr_len in
      mk_l4_info ip (ip + ip_hdr_len) (u32 (tcp_len - ip_hdr_len)) (iphdr_protocol e ip)
    else mk_l4_info ip l4 tcp_len proto_l4
  else
    mk_l4_info ip (if truthy l4 then l4 else ip + 40)
      (bpf_ntohs (ipv6hdr_payload_len e ip)) (ipv6hdr_nexthdr e ip).

(** Lines 478 to 488: the key from the headers, translated at the device. *)
Definition packet_key (e : env) (nat_flows : gmap sock_key sock_key) (l3_proto : Z) (i : l4_info)
    (step : step_t) (key : sock_key) : sock_key :=
  let key := if l3_proto =? ETH_P_IP
    then parse_sock_key_from_ipv4_tcp_hdr e key (l4_ip i) (l4_tcp i)
    else parse_sock_key_from_ipv6_tcp_hdr e key (l4_ip i) (l4_tcp i) in
  if bool_decide (step = DEV_IN) || bool_decide (step = DEV_OUT)
  then default key (nat_flows !! key) else key.

(** Lines 489 to 505: the initial sequence number of the flow, recorded when a
    packet of an unknown flow comes in at the device; [None] for [goto err]. *)
Definition initial_seq (key : sock_key) (tcp : Z) (step : step_t) : M (option Z) :=
  e ← ask;
  xmit ← gets sock_xmit_map;
  match xmit !! key with
  | Some found => mret (Some (u32 found))
  | None =>
    if bool_decide (step = DEV_IN) then
      let inital_seq := bpf_ntohl (tcphdr_seq e tcp) in
      let inital_seq :=
        if Z.land (tcphdr_flags e tcp) 2 =? 0 then u32 (inital_seq - 1) else inital_seq in
      modify (fun s => s <| sock_xmit_map ::=
        bpf_map_update_elem MAX_ENTRIES BPF_NOEXIST key inital_seq |>);;
      mret (Some inital_seq)
    else mret None
  end.

(** Lines 476 to 526, for a packet whose transport protocol is known. *)
Definition parse_l4 (b : sk_buff) (l3_proto : Z) (i : l4_info) (step : step_t)
    (inital_seq : Z) (key : sock_key) : M Z :=
  e ← ask;
  if l4_proto i =? IPPROTO_TCP then
    nat_flows ← gets nat_flow_map;
    let pkey := packet_key e nat_flows l3_proto i step key in
    r ← (if negb (truthy inital_seq)
         then (o ← initial_seq pkey (l4_tcp i) step; mret (o, pkey))
         else mret (Some inital_seq, key));
    match r with
    | (None, _) => mret BPF_OK
    | (Some inital_seq, key) =>
      let ifindex :=
        if truthy (skb_dev b) then dev_ifindex e (skb_dev b) else skb_skb_iif b in
      let key := if step_val NIC_IN <=? step_val step then reverse_sock_key_no_copy key else key in
      report_kern_evt
        (mk_parse_kern_evt_body inital_seq key 0 (l4_tcp_len i) 0 step (l4_tcp i) ifindex);;
      mret 1
    end
  else mret BPF_OK.

Definition parse_skb (skb : Z) (sk_not_ready : bool) (step : step_t) : M Z :=
  return_if (skb =? 0) with BPF_OK ;;
  e ← ask;
  let b := read_skb e skb in
  let sk := skb_sk b in
  xmit ← gets sock_xmit_map;
  let parse inital_seq key :=
    match skb_l3_proto e b with
    | None => mret BPF_OK
    | Some l3_proto => parse_l4 b l3_proto (skb_l4 e b l3_proto) step inital_seq key
    end in
  if truthy sk && (truthy (skc_addrpair (read_sock e sk)) && negb sk_not_ready) then
    let key := parse_sock_key e skb sock_key_zero in
    match xmit !! key with
    | None => mret 0
    | Some found => parse (u32 found) key
    end
  else parse 0 sock_key_zero.

(** ** The probes *)

Definition xdp_proxy : M Z := mret XDP_PASS.

Definition handle_skb_data_copy (skb offset len : Z) : M Z :=
  e ← ask;
  let '(_, key) := parse_sock_key_rcv e skb sock_key_zero in
  xmit ← gets sock_xmit_map;
  match xmit !! key with
  | None => mret BPF_OK
  | Some found =>
    let inital_seq := u32 found in
    let seq := u32 (skb_cb_seq (read_skb e skb) + offset) in
    let key := reverse_sock_key_no_copy key in
    parse_kern_evt_body
      (mk_parse_kern_evt_body inital_seq key (u32 (seq - inital_seq)) (u32 len) 0 USER_COPY 0 0);;
    mret BPF_OK
  end.

Definition skb_copy_datagram_iter (skb offset len : Z) : M Z := handle_skb_data_copy skb offset len.
Definition skb_copy_datagram_iovec (skb offset len : Z) : M Z := handle_skb_data_copy skb offset len.

(** [skbaddr] and [len] follow the 8-byte [struct trace_entry]. *)
Definition tracepoint__skb_copy_datagram_iovec (ctx : Z) : M Z :=
  e ← ask;
  let p := ctx + 8 in
  let skb := kread e p 8 in
  let len := s32 (kread e (p + 8) 4) in
  handle_skb_data_copy skb 0 len.

Definition tracepoint__netif_receive_skb (ctx : Z) : M Z :=
  e ← ask;
  let skb := kread e (ctx + 8) 8 in
  parse_skb skb true DEV_IN;; mret BPF_OK.

Definition tcp_queue_rcv (sk skb : Z) : M Z := mret BPF_OK.
Definition tcp_rcv_established (sk skb : Z) : M Z := mret BPF_OK.
Definition tcp_v4_do_rcv (sk skb : Z) : M Z := parse_skb skb true TCP_IN;; mret BPF_OK.
Definition tcp_v6_do_rcv (sk skb : Z) : M Z := parse_skb skb true TCP_IN;; mret BPF_OK.
Definition tcp_v4_rcv (skb : Z) : M Z := mret BPF_OK.
Definition ip_rcv_core (skb : Z) : M Z := parse_skb skb true IP_IN;; mret BPF_OK.

(** The unrolled loop over the list of packets handed to the device. *)
Fixpoint xmit_loop (fuel : nat) (skb : Z) : M Z :=
  match fuel with
  | O => mret 0
  | S fuel =>
    parse_skb skb false DEV_OUT;;
    e ← ask;
    let skb := skb_next (read_skb e skb) in
    return_if (skb =? 0) with 0 ;;
    xmit_loop fuel skb
  end.
Definition dev_hard_start_xmit (skb : Z) : M Z := xmit_loop 2 skb.
Definition dev_queue_xmit (skb : Z) : M Z := parse_skb skb false QDISC_OUT;; mret 0.

Definition handle_ip_queue_xmit (skb : Z) : M Z :=
  e ← ask;
  let key := parse_sock_key e skb sock_key_zero in
  xmit ← gets sock_xmit_map;
  match xmit !! key with
  | None => mret 0
  | Some found =>
    let inital_seq := u32 found in
    let tcp := skb_data (read_skb e skb) in
    report_kern_evt
      (mk_parse_kern_evt_body inital_seq key 0 (u32 (skb_len (read_skb e skb))) 0 IP_OUT tcp 0);;
    mret 0
  end.

Definition ip_queue_xmit2 (skb : Z) : M Z := handle_ip_queue_xmit skb.
Definition ip_queue_xmit (sk skb : Z) : M Z := handle_ip_queue_xmit skb.

(** ** Packets on the wire *)

(** The packet [b] is an IPv4 TCP segment [g] of flow [k]: the layer 2 header
    is absent or an Ethernet header, the transport header is set or not. *)
Record ipv4_skb (e : env) (b : sk_buff) (k : sock_key) (ihl : Z) (g : tcp_segment) : Prop := {
  v4_head : 0 < skb_head b /\ skb_head b + 131072 < 18446744073709551616;
  v4_nh : 0 <= skb_network_header b < 65535;
  v4_ihl : 5 <= ihl <= 15;
  v4_l2 :
    (skb_l2_check (skb_mac_header b) = true /\ bpf_ntohs (skb_protocol b) = ETH_P_IP) \/
    (skb_l2_check (skb_mac_header b) = false /\
     skb_mac_header b < skb_network_header b /\
     bpf_ntohs (ethhdr_h_proto e (skb_head b + skb_mac_header b)) = ETH_P_IP);
  v4_l4 :
    skb_transport_header b = skb_network_header b + 4 * ihl \/
    skb_l4_check (skb_transport_header b) (skb_network_header b) = true;
  v4_len : 4 * ihl + 4 * seg_doff g + Z.of_nat (length (seg_payload g)) < 65536;
  v4_bytes : let ip := skb_head b + skb_network_header b in
    carries4 e ip (ip + 4 * ihl) k ihl
      (4 * ihl + 4 * seg_doff g + Z.of_nat (length (seg_payload g))) g;
}.

Lemma ip_header_len_ihl ihl : 5 <= ihl <= 15 -> get_ip_header_len (64 + ihl) = 4 * ihl.
Proof.
  intros H. assert (ihl ∈ [5;6;7;8;9;10;11;12;13;14;15]) as Hin.
  { rewrite !elem_of_cons. lia. }
  repeat (apply elem_of_cons in Hin as [-> | Hin]; [reflexivity|]). by apply elem_of_nil in Hin.
Qed.

Lemma ipv4_l3_proto e b k ihl g : ipv4_skb e b k ihl g -> skb_l3_proto e b = Some ETH_P_IP.
Proof.
  intros [? ? ? H2 ? ? ?]. unfold skb_l3_proto.
  destruct H2 as [ [-> ->]|(-> & Hlt & ->)]; [done|]. cbn [negb].
  destruct (Z.leb_spec (skb_network_header b) (skb_mac_header b)); [lia|].
  rewrite andb_false_r. destruct (Z.eqb_spec (skb_mac_header b) (skb_network_header b)); [lia|done].
Qed.

Lemma seg_doff_range g : segment_ok g -> 5 <= seg_doff g <= 15.
Proof.
  intros [? ? ? ? ?]. unfold seg_doff.
  assert (Z.of_nat (length (seg_options g)) <= 40) by lia.
  pose proof (Z.div_le_mono (Z.of_nat (length (seg_options g))) 40 4 ltac:(lia) ltac:(lia)).
  pose proof (Z.div_pos (Z.of_nat (length (seg_options g))) 4 ltac:(lia) ltac:(lia)).
  change (40 / 4) with 10 in *. lia.
Qed.

Lemma ipv4_l4 e b k ihl g :
  ipv4_skb e b k ihl g ->
  let ip := skb_head b + skb_network_header b in
  skb_l4 e b ETH_P_IP = mk_l4_info ip (ip + 4 * ihl)
    (4 * seg_doff g + Z.of_nat (length (seg_payload g))) IPPROTO_TCP.
Proof.
  intros [Hh Hn Hi ? H4 Hlen (Hip & _ & Hg & _)]. set (ip := skb_head b + skb_network_header b) in *.
  cbv zeta.
  pose proof (seg_doff_range g Hg).
  destruct (ipv4_header_fields _ _ _ _ _ _ _ Hip) as (H0 & Htl & Hp & _).
  unfold skb_l4. fold ip. rewrite Z.eqb_refl, H0, Htl, Hp, ip_header_len_ihl by done.
  cbv zeta. rewrite u16_small by lia. cbn [IPPROTO_TCP IPPROTO_IPIP Z.eqb Pos.eqb].
  f_equal.
  - destruct H4 as [Ht | Hc].
    + unfold skb_l4_check. rewrite Ht.
      destruct (Z.eqb_spec (skb_network_header b + 4 * ihl) 65535) as [E|_].
      { by cbn [orb negb truthy Z.eqb]. }
      destruct (Z.leb_spec (skb_network_header b + 4 * ihl) (skb_network_header b)); [lia|].
      cbn [orb negb]. rewrite u64_small by lia. rewrite truthy_ne, bool_decide_eq_true_2 by lia.
      subst ip. lia.
    + rewrite Hc. done.
  - rewrite u32_small by lia. lia.
Qed.

Lemma tcp_hdr_len_doff e tcp g :
  segment_ok g -> holds (kmem e) tcp (tcp_header g) -> tcp_hdr_len e tcp = 4 * seg_doff g.
Proof.
  intros Hg H. pose proof (seg_doff_range g Hg) as Hd. unfold tcp_header in H.
  do 4 (apply holds_app in H as [_ H]). rewrite !length_be_encode in H. rewrite <- !Z.add_assoc in H.
  change (holds (kmem e) (tcp + 12) ([16 * seg_doff g] ++ [seg_flags g] ++ be_encode 2 65535 ++ be_encode 4 0)) in H.
  unfold tcp_hdr_len, kread, bpf_probe_read_kernel.
  rewrite (probe_holds _ _ _ 4 H) by (rewrite !length_app, !length_be_encode; simpl; lia).
  destruct (be_encode 2 65535) as [|x [|y [|? ?] ] ] eqn:E; try done.
  cbn [app take le_decode]. change 255 with (Z.ones 8). rewrite Z.land_ones by lia.
  rewrite Z.shiftr_div_pow2, Z.shiftl_mul_pow2 by lia.
  change (2 ^ 8) with 256. change (2 ^ 4) with 16. change (2 ^ 2) with 4.
  rewrite (Z.mul_comm 256), Z.mod_add, Z.mod_small, (Z.mul_comm 16), Z.div_mul by lia. lia.
Qed.

(** ** One report *)

Definition skb_event (ke : kern_evt) (seq len flags ifindex : Z) (st : step_t) (c : conn_id_s_t) : Prop :=
  ke_seq ke = seq /\ ke_len ke = len /\ ke_flags ke = flags /\ ke_ifindex ke = ifindex /\
  ke_step ke = st /\ ke_conn_id_s ke = c.

Lemma report_kern_evt_traced iss k len st tcp ifx e s c evt g n :
  holds (kmem e) tcp (tcp_header g) -> segment_ok g ->
  traced_conn_id s k = Some c -> kern_evt_t_map s = Some evt ->
  len = 4 * seg_doff g + n -> 0 <= n < 65536 ->
  exists ke, skb_event ke (u32 (seg_seq g - iss)) n (seg_flags g) ifx st c /\
    perf (exec (report_kern_evt (mk_parse_kern_evt_body iss k 0 len 0 st tcp ifx)) e s) =
      perf s ++ [rb ke].
Proof.
  intros Ht Hg Hc Hevt -> Hn. pose proof (seg_doff_range g Hg).
  destruct (tcp_header_fields _ _ _ Hg Ht) as (_ & _ & Hseq & Hfl).
  unfold report_kern_evt. run. unfold id. cbn [pb_key pb_tcp pb_step pb_len pb_inital_seq pb_ifindex].
  rewrite Hc, Hevt. run. eexists. split; [|reflexivity].
  unfold bpf_htonl. rewrite Hseq, Hfl, (tcp_hdr_len_doff _ _ _ Hg Ht).
  repeat split. fsimp. rewrite s32_small, u32_small by lia. lia.
Qed.

(** The headers of a flow determine its key whatever key they are parsed over,
    if its upper words are clear. *)
Lemma parse_over4 e key ip tcp :
  sip1 key = 0 -> dip1 key = 0 ->
  parse_sock_key_from_ipv4_tcp_hdr e key ip tcp =
  parse_sock_key_from_ipv4_tcp_hdr e sock_key_zero ip tcp.
Proof.
  intros H1 H2. unfold parse_sock_key_from_ipv4_tcp_hdr. destruct key; cbn in *. by subst.
Qed.

Lemma read_skb_some e p b : skb_at e p = Some b -> read_skb e p = b.
Proof. intros H. unfold read_skb. by rewrite H. Qed.

Section Ipv4Packet.
Context (e : env) (skb : Z) (b : sk_buff) (k : sock_key) (ihl : Z) (g : tcp_segment).
Context (Hskb : skb <> 0) (Hb : skb_at e skb = Some b).
Context (Hv4 : ipv4_skb e b k ihl g) (Hk4 : key4 k).

Definition l4_of : l4_info :=
  let ip := skb_head b + skb_network_header b in
  mk_l4_info ip (ip + 4 * ihl) (4 * seg_doff g + Z.of_nat (length (seg_payload g))) IPPROTO_TCP.
Definition ifindex_of : Z :=
  if truthy (skb_dev b) then dev_ifindex e (skb_dev b) else skb_skb_iif b.
(** The key under which a step looks the connection up. *)
Definition step_key (st : step_t) : sock_key :=
  if step_val NIC_IN <=? step_val st then reverse_sock_key_no_copy k else k.

Lemma packet_key_ipv4 nat_flows st key :
  nat_flows !! k = None -> sip1 key = 0 -> dip1 key = 0 ->
  packet_key e nat_flows ETH_P_IP l4_of st key = k.
Proof using Hv4 Hk4.
  intros Hn H1 H2. unfold packet_key. rewrite Z.eqb_refl, parse_over4 by done.
  destruct Hv4 as [_ _ _ _ _ _ Hc]. cbv zeta in Hc. cbn [l4_of l4_ip l4_tcp].
  rewrite (parse_carries4 _ _ _ _ _ _ _ Hk4 Hc), Hn. by destruct (_ || _).
Qed.

(** With the initial sequence number of the flow known, [parse_l4] reports. *)
Definition report_of (iss : Z) (st : step_t) : M unit :=
  report_kern_evt (mk_parse_kern_evt_body iss (step_key st) 0 (l4_tcp_len l4_of) 0 st
    (l4_tcp l4_of) ifindex_of).

Lemma parse_skb_known snr st iss s :
  (snr = false -> skb_sk b <> 0 -> sk_key e (skb_sk b) = k) ->
  nat_flow_map s !! k = None -> sock_xmit_map s !! k = Some iss -> 0 <= iss < 4294967296 ->
  parse_skb skb snr st e s = (report_of iss st;; mret 1) e s.
Proof using Hskb Hb Hv4 Hk4.
  intros Hsk Hn Hx Hi. unfold parse_skb. rewrite (proj2 (Z.eqb_neq _ _) Hskb).
  steps. rewrite (read_skb_some _ _ _ Hb).
  rewrite (ipv4_l3_proto _ _ _ _ _ Hv4), (ipv4_l4 _ _ _ _ _ Hv4). fold l4_of.
  assert (Hp : forall iss' key, (iss' = 0 /\ sip1 key = 0 /\ dip1 key = 0) \/ (iss' = iss /\ key = k) ->
    parse_l4 b ETH_P_IP l4_of st iss' key e s = (report_of iss st;; mret 1) e s).
  { intros iss' key Hc. unfold parse_l4. steps. cbn [l4_of l4_proto IPPROTO_TCP Z.eqb Pos.eqb].
    steps. rewrite (truthy_ne iss'). case_bool_decide as Hz; cbn [negb].
    - destruct Hc as [(? & _)|[-> ->] ]; [done|].
      by steps.
    - assert (packet_key e (nat_flow_map s) ETH_P_IP l4_of st key = k) as Hpk.
      { apply packet_key_ipv4; [done| |]; destruct Hc as [(_ & ? & ?)|[_ ->] ]; try done;
          destruct Hk4 as (_ & _ & ? & ?); done. }
      steps. unfold initial_seq. rewrite Hpk. steps. rewrite Hx. steps. by rewrite u32_small. }
  rewrite !truthy_ne. case_bool_decide as Hs; cbn [andb]; [|apply Hp; auto].
  case_match eqn:E; [|apply Hp; auto]. apply andb_prop in E as [_ E].
  destruct snr; [done|]. unfold parse_sock_key. rewrite (read_skb_some _ _ _ Hb).
  fold (sk_key e (skb_sk b)). rewrite (Hsk eq_refl Hs), Hx. rewrite u32_small by done.
  apply Hp. auto.
Qed.

Lemma report_of_traced iss st s c evt :
  traced_conn_id s (step_key st) = Some c -> kern_evt_t_map s = Some evt ->
  exists ke, skb_event ke (u32 (seg_seq g - iss)) (Z.of_nat (length (seg_payload g)))
      (seg_flags g) ifindex_of st c /\
    perf (exec (report_of iss st) e s) = perf s ++ [rb ke].
Proof using Hv4.
  intros Hc Hevt. destruct Hv4 as [_ _ ? _ _ Hlen (Hi & Ht & Hg & _)].
  pose proof (seg_doff_range g Hg).
  apply (report_kern_evt_traced iss (step_key st) _ st _ ifindex_of e s c evt g); auto. lia.
Qed.
End Ipv4Packet.

(** An unknown flow at the device: the initial sequence number is recorded and
    the packet reported. *)
Lemma parse_skb_unknown e skb b k ihl g s :
  skb <> 0 -> skb_at e skb = Some b -> ipv4_skb e b k ihl g -> key4 k ->
  nat_flow_map s !! k = None -> sock_xmit_map s !! k = None ->
  let syn := negb (Z.land (seg_flags g) 2 =? 0) in
  let iss := if syn then seg_seq g else u32 (seg_seq g - 1) in
  exec (parse_skb skb true DEV_IN) e s =
    exec (report_of e b k ihl g iss DEV_IN) e
      (s <| sock_xmit_map ::= bpf_map_update_elem MAX_ENTRIES BPF_NOEXIST k iss |>) /\
  u32 ((if syn then seg_seq g + 1 else seg_seq g) - iss) = 1.
Proof.
  intros Hskb Hb Hv4 Hk4 Hn Hx syn iss.
  pose proof (v4_bytes _ _ _ _ _ Hv4) as (_ & Ht & Hg & _). cbv zeta in Ht.
  destruct (tcp_header_fields _ _ _ Hg Ht) as (_ & _ & Hseq & Hfl). split.
  - unfold exec at 1, parse_skb. rewrite (proj2 (Z.eqb_neq _ _) Hskb). steps.
    rewrite (read_skb_some _ _ _ Hb), (ipv4_l3_proto _ _ _ _ _ Hv4), (ipv4_l4 _ _ _ _ _ Hv4).
    cbn [negb]. rewrite !andb_false_r. fold (l4_of b ihl g).
    unfold parse_l4. steps. cbn [l4_proto l4_of IPPROTO_TCP Z.eqb Pos.eqb].
    steps. change (negb (truthy 0)) with true. steps.
    rewrite (packet_key_ipv4 e b k ihl g Hv4 Hk4) by done.
    unfold initial_seq. steps. rewrite Hx. steps. cbn [l4_tcp l4_of].
    rewrite bool_decide_eq_true_2, Hseq, Hfl by done. steps.
    replace (if Z.land (seg_flags g) 2 =? 0 then u32 (seg_seq g - 1) else seg_seq g) with iss
      by (subst iss syn; by destruct (_ =? 0)).
    change (exec (report_of e b k ihl g iss DEV_IN;; mret 1) e
      (s <| sock_xmit_map ::= bpf_map_update_elem MAX_ENTRIES BPF_NOEXIST k iss |>) = 
      exec (report_of e b k ihl g iss DEV_IN) e
      (s <| sock_xmit_map ::= bpf_map_update_elem MAX_ENTRIES BPF_NOEXIST k iss |>)).
    by run.
  - subst iss. destruct syn; rewrite ?u32_sub_r;
      (replace (_ - _) with 1 by lia); done.
Qed.

(** Data of a connection not yet known is reported as a first packet. *)
Lemma report_of_first e b k ihl g :
  ipv4_skb e b k ihl g -> forall iss st s fp,
  sock_key_conn_id_map s !! step_key k st = None -> st = DEV_IN \/ st = TCP_IN ->
  u32 (seg_seq g - iss) = 1 -> seg_payload g <> [] -> first_packet_evt_map s = Some fp ->
  exists evt, perf (exec (report_of e b k ihl g iss st) e s) = perf s ++ [first_packet_rb evt] /\
    fp_key evt = step_key k st /\ fp_len evt = Z.of_nat (length (seg_payload g)) /\
    fp_flags evt = seg_flags g.
Proof.
  intros Hv4 iss st s fp Hc Hst Hrel Hpl Hfp.
  destruct Hv4 as [_ _ ? _ _ Hlen (Hi & Ht & Hg & _)].
  pose proof (seg_doff_range g Hg) as Hd.
  destruct (tcp_header_fields _ _ _ Hg Ht) as (_ & _ & Hseq & Hfl).
  assert (0 < Z.of_nat (length (seg_payload g))) as Hpos
    by (destruct (seg_payload g); [done|simpl; lia]).
  unfold report_of, report_kern_evt. run. unfold id.
  cbn [pb_key pb_tcp pb_step pb_len pb_inital_seq pb_ifindex l4_of l4_tcp l4_tcp_len].
  unfold bpf_htonl. rewrite Hseq, Hfl, (tcp_hdr_len_doff _ _ _ Hg Ht), Hrel.
  unfold traced_conn_id. rewrite Hc, Hfp.
  rewrite (s32_small (4 * seg_doff g + _)), (u32_small (_ - _)) by lia.
  replace (4 * seg_doff g + Z.of_nat (length (seg_payload g)) - 4 * seg_doff g)
    with (Z.of_nat (length (seg_payload g))) by lia.
  rewrite (bool_decide_eq_true_2 (None = None)) by done.
  rewrite (proj2 (Z.ltb_lt _ _) Hpos).
  replace (bool_decide (st = DEV_IN) || bool_decide (st = TCP_IN)) with true
    by (destruct Hst as [-> | ->]; done).
  cbn [andb Z.eqb Pos.eqb]. run. eexists. split; [reflexivity|]. done.
Qed.

(** ** What a packet can change *)

(** Besides reporting, only new initial sequence numbers. *)
Definition packet_rel (s s' : bpf) : Prop :=
  reports (s <| sock_xmit_map := sock_xmit_map s' |>) s' /\ sock_xmit_map s ⊆ sock_xmit_map s'.

Lemma reports_set_xmit m s s' :
  reports s s' -> reports (s <| sock_xmit_map := m |>) (s' <| sock_xmit_map := m |>).
Proof.
  intros (H1 & H2 & H3). split; [|split; [exact H2|exact H3] ].
  exact (f_equal (fun x => x <| sock_xmit_map := m |>) H1).
Qed.

Lemma set_xmit_same s : s <| sock_xmit_map := sock_xmit_map s |> = s.
Proof. by destruct s. Qed.

#[export] Instance packet_rel_preorder : PreOrder packet_rel.
Proof.
  split.
  - intros s. split; [|done]. by rewrite set_xmit_same.
  - intros s1 s2 s3 [H1 S1] [H2 S2]. split; [|by etrans].
    etrans; [|exact H2].
    exact (reports_set_xmit (sock_xmit_map s3) _ _ H1).
Qed.

Lemma reports_packet_rel s s' : reports s s' -> packet_rel s s'.
Proof.
  intros H. assert (sock_xmit_map s' = sock_xmit_map s) as E
    by (apply (reports_field sock_xmit_map); [reflexivity|done]).
  split; rewrite E; [by rewrite set_xmit_same|done].
Qed.

Lemma keeps_packet_rel {A} (m : M A) : keeps reports m -> keeps packet_rel m.
Proof. intros H e s. apply reports_packet_rel, H. Qed.

Lemma parse_kern_evt_body_reports p : keeps reports (parse_kern_evt_body p).
Proof. unfold parse_kern_evt_body. keeps_tac. reports_modify. Qed.
Lemma report_kern_evt_reports p : keeps reports (report_kern_evt p).
Proof. unfold report_kern_evt. keeps_tac; reports_modify. Qed.
#[export] Hint Resolve parse_kern_evt_body_reports report_kern_evt_reports : keeps.

Lemma update_noexist_subseteq {K V} `{Countable K} max (k : K) (v : V) (m : gmap K V) :
  m ⊆ bpf_map_update_elem max BPF_NOEXIST k v m.
Proof.
  apply map_subseteq_spec. intros k' v' Hl. destruct (decide (k = k')) as [->|].
  - by apply update_noexist_old.
  - by rewrite update_ne.
Qed.

Lemma initial_seq_reports key tcp st : st <> DEV_IN -> keeps reports (initial_seq key tcp st).
Proof. intros H. unfold initial_seq. rewrite bool_decide_eq_false_2 by done. keeps_tac. Qed.

Lemma initial_seq_packet key tcp st : keeps packet_rel (initial_seq key tcp st).
Proof.
  unfold initial_seq. keeps_tac. apply keeps_modify. intros s. split; [|apply update_noexist_subseteq].
  fsimp. reflexivity.
Qed.
#[export] Hint Resolve initial_seq_reports initial_seq_packet : keeps.

Lemma parse_l4_reports b p i st iss key : st <> DEV_IN -> keeps reports (parse_l4 b p i st iss key).
Proof. intros H. unfold parse_l4. keeps_tac. Qed.

Lemma parse_l4_packet b p i st iss key : keeps packet_rel (parse_l4 b p i st iss key).
Proof. unfold parse_l4. keeps_tac. by apply keeps_packet_rel, report_kern_evt_reports. Qed.
#[export] Hint Resolve parse_l4_reports parse_l4_packet : keeps.

Lemma parse_skb_reports skb snr st : st <> DEV_IN -> keeps reports (parse_skb skb snr st).
Proof. intros H. unfold parse_skb. keeps_tac. Qed.
Lemma parse_skb_packet skb snr st : keeps packet_rel (parse_skb skb snr st).
Proof. unfold parse_skb. keeps_tac. Qed.
#[export] Hint Resolve parse_skb_reports parse_skb_packet : keeps.

Lemma xmit_loop_reports fuel skb : keeps reports (xmit_loop fuel skb).
Proof. revert skb. induction fuel as [|fuel IH]; intros; simpl; keeps_tac; by apply parse_skb_reports. Qed.

Lemma handle_skb_data_copy_reports skb off len : keeps reports (handle_skb_data_copy skb off len).
Proof. unfold handle_skb_data_copy. keeps_tac. Qed.
Lemma handle_ip_queue_xmit_reports skb : keeps reports (handle_ip_queue_xmit skb).
Proof. unfold handle_ip_queue_xmit. keeps_tac. Qed.
#[export] Hint Resolve xmit_loop_reports handle_skb_data_copy_reports handle_ip_queue_xmit_reports : keeps.

(** The probes of the packet path. *)
Inductive packet_probe : Type :=
| P_skb_copy_datagram_iter (skb offset len : Z)
| P_skb_copy_datagram_iovec (skb offset len : Z)
| P_tp_skb_copy_datagram_iovec (ctx : Z)
| P_netif_receive_skb (ctx : Z)
| P_tcp_queue_rcv (sk skb : Z)
| P_tcp_rcv_established (sk skb : Z)
| P_tcp_v4_do_rcv (sk skb : Z)
| P_tcp_v6_do_rcv (sk skb : Z)
| P_tcp_v4_rcv (skb : Z)
| P_ip_rcv_core (skb : Z)
| P_dev_hard_start_xmit (skb : Z)
| P_dev_queue_xmit (skb : Z)
| P_ip_queue_xmit (sk skb : Z)
| P_ip_queue_xmit2 (skb : Z)
| P_xdp_proxy.

Definition run_packet (p : packet_probe) : M Z :=
  match p with
  | P_skb_copy_datagram_iter skb off len => skb_copy_datagram_iter skb off len
  | P_skb_copy_datagram_iovec skb off len => skb_copy_datagram_iovec skb off len
  | P_tp_skb_copy_datagram_iovec ctx => tracepoint__skb_copy_datagram_iovec ctx
  | P_netif_receive_skb ctx => tracepoint__netif_receive_skb ctx
  | P_tcp_queue_rcv sk skb => tcp_queue_rcv sk skb
  | P_tcp_rcv_established sk skb => tcp_rcv_established sk skb
  | P_tcp_v4_do_rcv sk skb => tcp_v4_do_rcv sk skb
  | P_tcp_v6_do_rcv sk skb => tcp_v6_do_rcv sk skb
  | P_tcp_v4_rcv skb => tcp_v4_rcv skb
  | P_ip_rcv_core skb => ip_rcv_core skb
  | P_dev_hard_start_xmit skb => dev_hard_start_xmit skb
  | P_dev_queue_xmit skb => dev_queue_xmit skb
  | P_ip_queue_xmit sk skb => ip_queue_xmit sk skb
  | P_ip_queue_xmit2 skb => ip_queue_xmit2 skb
  | P_xdp_proxy => xdp_proxy
  end.

Lemma run_packet_reports p : (forall ctx, p <> P_netif_receive_skb ctx) -> keeps reports (run_packet p).
Proof.
  intros Hp. destruct p; try (by destruct (Hp ctx)); cbn [run_packet];
    unfold skb_copy_datagram_iter, skb_copy_datagram_iovec, tracepoint__skb_copy_datagram_iovec,
      tcp_queue_rcv, tcp_rcv_established, tcp_v4_do_rcv, tcp_v6_do_rcv, tcp_v4_rcv, ip_rcv_core,
      dev_hard_start_xmit, dev_queue_xmit, ip_queue_xmit, ip_queue_xmit2, xdp_proxy;
    keeps_tac; by apply parse_skb_reports.
Qed.

Lemma run_packet_packet p : keeps packet_rel (run_packet p).
Proof.
  destruct p; try (apply keeps_packet_rel, run_packet_reports; discriminate).
  simpl. unfold tracepoint__netif_receive_skb. keeps_tac.
Qed.

Lemma report_kern_evt_scratch p e s :
  is_Some (kern_evt_t_map s) -> is_Some (kern_evt_t_map (exec (report_kern_evt p) e s)).
Proof.
  intros [evt H]. unfold report_kern_evt. run. unfold id. rewrite H. repeat case_match; run; fsimp;
    rewrite ?H; eexists; reflexivity.
Qed.

(** ** Properties *)

(** C18: an IPv4 TCP segment seen at any step of the packet path, on a flow whose
    initial sequence number is known and whose connection is traced, is
    reported once, under its connection, with the number of its first byte
    relative to the initial sequence number modulo 2^32, its payload length
    whatever the lengths of the IP and TCP options, its TCP flags and its
    interface. *)
Theorem parse_skb_segment skb snr st e s b k ihl g iss c evt :
  skb <> 0 -> skb_at e skb = Some b -> ipv4_skb e b k ihl g -> key4 k ->
  (snr = false -> skb_sk b <> 0 -> (parse_sock_key_sk e (skb_sk b) sock_key_zero).2 = k) ->
  nat_flow_map s !! k = None ->
  sock_xmit_map s !! k = Some iss -> 0 <= iss < 4294967296 ->
  traced_conn_id s (step_key k st) = Some c -> kern_evt_t_map s = Some evt ->
  exists ke,
    perf (exec (parse_skb skb snr st) e s) = perf s ++ [rb ke] /\
    skb_event ke (u32 (seg_seq g - iss)) (Z.of_nat (length (seg_payload g)))
      (seg_flags g) (ifindex_of e b) st c /\
    result (parse_skb skb snr st) e s = 1.
Proof.
  intros Hskb Hb Hv4 Hk4 Hsk Hn Hx Hi Hc Hevt.
  destruct (report_of_traced e b k ihl g Hv4 iss st s c evt Hc Hevt) as (ke & H1 & H2).
  exists ke. unfold exec, result in *.
  rewrite (parse_skb_known e skb b k ihl g Hskb Hb Hv4 Hk4 snr st iss s Hsk Hn Hx Hi).
  fold (exec (report_of e b k ihl g iss st;; mret 1) e s).
  fold (result (report_of e b k ihl g iss st;; mret 1) e s). run. done.
Qed.

(** The example segment, received by the socket of [env_example], in a packet
    without a layer 2 header. *)
Definition skb_example : sk_buff := mk_sk_buff 0 0 0 65535 5000 5020 22 8 0 3 305419896 0.
Definition env_skb : env := env_example <| skb_at := fun p => if p =? 900 then Some skb_example else None |>.
Definition key_example : sock_key := mk_sock_key 33554442 0 16777226 0 80 40000.
Definition conn_example : conn_info_t :=
  conn_info_zero <| ci_protocol := kProtocolHTTP |> <| ci_role := kRoleClient |>.
Definition state_skb : bpf :=
  bpf_init <| sock_xmit_map := {[key_example := 305419890]} |>
    <| sock_key_conn_id_map := {[reverse_sock_key_no_copy key_example := mk_conn_id_s 77 unset]} |>
    <| conn_info_map := {[77 := conn_example]} |>.

Lemma skb_example_ok : ipv4_skb env_skb skb_example key_example 5 seg_example.
Proof.
  split; [cbn; lia|cbn; lia|lia| | |reflexivity|].
  - left. split; reflexivity.
  - right. reflexivity.
  - cbn. split; [holds_tac|]. split; [holds_tac|].
    split; [exact seg_example_ok|]. split; reflexivity.
Qed.

(** [parse_skb_segment]: the segment is byte 6 of the stream. *)
Lemma parse_skb_segment_witness :
  exists ke,
    perf (exec (parse_skb 900 true TCP_IN) env_skb state_skb) = [] ++ [rb ke] /\
    skb_event ke 6 2 24 3 TCP_IN (mk_conn_id_s 77 unset) /\
    result (parse_skb 900 true TCP_IN) env_skb state_skb = 1.
Proof.
  apply (parse_skb_segment 900 true TCP_IN env_skb state_skb skb_example key_example 5 seg_example
    305419890 (mk_conn_id_s 77 unset) kern_evt_zero);
    [done|done|exact skb_example_ok| |done|done|vm_compute; reflexivity|lia|vm_compute; reflexivity|done].
  vm_compute. intuition congruence.
Defined.

(** The first packet of an unknown flow that arrives at the device fixes its
    initial sequence number so that the first data byte of the stream is number
    1: a SYN records its own number, any other segment the number before its
    own.  Data that arrives this way for a connection not yet known is reported
    as a first packet under the key of the receiving socket, and later packets
    never change the recorded number. *)
Theorem parse_skb_new_flow skb e s b k ihl g fp :
  skb <> 0 -> skb_at e skb = Some b -> ipv4_skb e b k ihl g -> key4 k ->
  nat_flow_map s !! k = None -> sock_xmit_map s !! k = None ->
  Z.of_nat (size (sock_xmit_map s)) < MAX_ENTRIES ->
  sock_key_conn_id_map s !! reverse_sock_key_no_copy k = None ->
  first_packet_evt_map s = Some fp ->
  let syn := negb (Z.land (seg_flags g) 2 =? 0) in
  let iss := if syn then seg_seq g else u32 (seg_seq g - 1) in
  let s' := exec (parse_skb skb true DEV_IN) e s in
  sock_xmit_map s' !! k = Some iss /\
  u32 ((if syn then seg_seq g + 1 else seg_seq g) - iss) = 1 /\
  (syn = false -> seg_payload g <> [] -> exists evt,
     perf s' = perf s ++ [first_packet_rb evt] /\
     fp_key evt = reverse_sock_key_no_copy k /\
     fp_len evt = Z.of_nat (length (seg_payload g)) /\ fp_flags evt = seg_flags g) /\
  (forall p e2, sock_xmit_map (exec (run_packet p) e2 s') !! k = Some iss).
Proof.
  intros Hskb Hb Hv4 Hk4 Hn Hx Hroom Hconn Hfp syn iss s'.
  destruct (parse_skb_unknown e skb b k ihl g s Hskb Hb Hv4 Hk4 Hn Hx) as [Hrun Hiss].
  fold syn iss in Hrun. fold syn iss in Hiss.
  set (s1 := s <| sock_xmit_map ::= bpf_map_update_elem MAX_ENTRIES BPF_NOEXIST k iss |>) in *.
  assert (Hs' : s' = exec (report_of e b k ihl g iss DEV_IN) e s1) by exact Hrun.
  assert (Hk : sock_xmit_map s' !! k = Some iss).
  { rewrite Hs'. pose proof (report_kern_evt_reports (mk_parse_kern_evt_body iss (step_key k DEV_IN) 0
      (l4_tcp_len (l4_of b ihl g)) 0 DEV_IN (l4_tcp (l4_of b ihl g)) (ifindex_of e b)) e s1) as Hr.
    unfold report_of. reports_rewrite Hr. by apply update_noexist_new. }
  split; [done|]. split; [exact Hiss|]. split.
  - intros Hsyn Hpl. rewrite Hs'.
    apply (report_of_first e b k ihl g Hv4 iss DEV_IN s1 fp); auto.
    rewrite Hsyn in Hiss. exact Hiss.
  - intros p e2. destruct (run_packet_packet p e2 s') as [_ Hsub].
    by apply (lookup_weaken _ _ _ _ Hk).
Qed.

(** [parse_skb_new_flow] at the example segment on empty maps. *)
Lemma parse_skb_new_flow_witness :
  sock_xmit_map (exec (parse_skb 900 true DEV_IN) env_skb bpf_init) !! key_example = Some 305419895 /\
  exists evt, perf (exec (parse_skb 900 true DEV_IN) env_skb bpf_init) = [] ++ [first_packet_rb evt] /\
    fp_key evt = mk_sock_key 16777226 0 33554442 0 40000 80 /\
    fp_len evt = 2 /\ fp_flags evt = 24.
Proof.
  destruct (parse_skb_new_flow 900 env_skb bpf_init skb_example key_example 5 seg_example
    first_packet_evt_zero) as (H1 & _ & H2 & _);
    [done|done|exact skb_example_ok|vm_compute; intuition congruence|done|done
    |vm_compute; reflexivity|done|done|].
  split; [exact H1|]. exact (H2 eq_refl ltac:(discriminate)).
Defined.

(** The probes of the packet path change no connection, filter, argument or
    translation entry; they keep every recorded initial sequence number, and
    only [netif_receive_skb] adds one. *)
Theorem packets_frame p e s :
  let s' := exec (run_packet p) e s in
  persistent (s' <| sock_xmit_map := ∅ |>) = persistent (s <| sock_xmit_map := ∅ |>) /\
  sock_xmit_map s ⊆ sock_xmit_map s' /\
  ((forall ctx, p <> P_netif_receive_skb ctx) -> sock_xmit_map s' = sock_xmit_map s) /\
  (exists l, perf s' = perf s ++ l).
Proof.
  intros s'. destruct (run_packet_packet p e s) as [Hr Hsub]. fold s' in Hr, Hsub. split.
  - exact (proj1 (reports_set_xmit ∅ _ _ Hr)).
  - split; [done|]. split; [|exact (proj2 (proj2 Hr))].
    intros Hp. apply (reports_field sock_xmit_map); [reflexivity|].
    by apply run_packet_reports.
Qed.

(** The copy to user space of a byte of a segment is numbered like the
    segment: at offset [off] it is reported [off] after the number every other
    step gives the segment, and under the key of the receiving socket.  Its flags
    and interface are not those of the segment: they are what the previous event
    on that CPU left. *)
Theorem user_copy_seq skb off len e s b k g iss c evt :
  skb_at e skb = Some b -> (parse_sock_key_sk e (skb_sk b) sock_key_zero).2 = k ->
  skb_cb_seq b = seg_seq g -> sock_xmit_map s !! reverse_sock_key_no_copy k = Some iss ->
  traced_conn_id s k = Some c -> kern_evt_t_map s = Some evt ->
  exists ke, perf (exec (handle_skb_data_copy skb off len) e s) = perf s ++ [rb ke] /\
    ke_seq ke = u32 (u32 (seg_seq g - iss) + off) /\ ke_len ke = u32 len /\
    ke_step ke = USER_COPY /\ ke_conn_id_s ke = c /\
    ke_flags ke = ke_flags evt /\ ke_ifindex ke = ke_ifindex evt.
Proof.
  intros Hb Hk Hcb Hx Hc Hevt. unfold handle_skb_data_copy. run.
  unfold parse_sock_key_rcv. rewrite (read_skb_some _ _ _ Hb), rcv_sk_key.
  unfold sk_key. rewrite Hk. cbv beta iota. run. rewrite Hx. run.
  unfold parse_kern_evt_body. run. rewrite Hevt. run. unfold id. cbn [pb_key].
  rewrite reverse_sock_key_involutive, Hc. run.
  eexists. split; [reflexivity|]. split; [|done]. fsimp. cbn [pb_cur_seq].
  rewrite Hcb. autorewrite with ints. f_equal. lia.
Qed.

(** [user_copy_seq] for the second byte of the example segment. *)
Lemma user_copy_seq_witness :
  let e := env_example <| skb_at := fun _ => Some (mk_sk_buff 100 0 0 65535 5000 5040 2 8 0 3 305419896 0) |> in
  exists ke, perf (exec (handle_skb_data_copy 900 1 1) e state_skb) = [] ++ [rb ke] /\
    ke_seq ke = u32 (6 + 1) /\ ke_len ke = 1 /\ ke_step ke = USER_COPY /\
    ke_conn_id_s ke = mk_conn_id_s 77 unset /\ ke_flags ke = 0 /\ ke_ifindex ke = 0.
Proof.
  intros e.
  apply (user_copy_seq 900 1 1 e state_skb (mk_sk_buff 100 0 0 65535 5000 5040 2 8 0 3 305419896 0)
    (mk_sock_key 16777226 0 33554442 0 40000 80) seg_example 305419890 (mk_conn_id_s 77 unset)
    kern_evt_zero); vm_compute; reflexivity.
Defined.

(** A segment is numbered alike all along the transmit path: the event at
    [__ip_queue_xmit], where the packet has only its TCP header, and the one at
    the queueing discipline or the device, where its headers are complete, have
    the same sequence number, length, flags and connection. *)
Theorem transmit_path_agrees skb e1 e2 s b1 b2 k ihl g iss c evt st :
  skb <> 0 -> skb_at e1 skb = Some b1 -> skb_at e2 skb = Some b2 ->
  st = QDISC_OUT \/ st = DEV_OUT ->
  segment_ok g -> holds (kmem e1) (skb_data b1) (tcp_header g) ->
  skb_len b1 = 4 * seg_doff g + Z.of_nat (length (seg_payload g)) ->
  (parse_sock_key_sk e1 (skb_sk b1) sock_key_zero).2 = k ->
  ipv4_skb e2 b2 k ihl g -> key4 k ->
  (skb_sk b2 <> 0 -> (parse_sock_key_sk e2 (skb_sk b2) sock_key_zero).2 = k) ->
  nat_flow_map s !! k = None -> sock_xmit_map s !! k = Some iss -> 0 <= iss < 4294967296 ->
  traced_conn_id s k = Some c -> kern_evt_t_map s = Some evt ->
  let s1 := exec (handle_ip_queue_xmit skb) e1 s in
  exists ke1 ke2,
    perf (exec (parse_skb skb false st) e2 s1) = perf s ++ [rb ke1; rb ke2] /\
    ke_step ke1 = IP_OUT /\ ke_step ke2 = st /\ ke_seq ke1 = u32 (seg_seq g - iss) /\
    ke_seq ke2 = ke_seq ke1 /\ ke_len ke2 = ke_len ke1 /\ ke_flags ke2 = ke_flags ke1 /\
    ke_conn_id_s ke2 = ke_conn_id_s ke1.
Proof.
  intros Hskb Hb1 Hb2 Hst Hg Ht Hlen Hk Hv4 Hk4 Hsk Hn Hx Hi Hc Hevt s1.
  pose proof (v4_len _ _ _ _ _ Hv4) as Hl. pose proof (v4_ihl _ _ _ _ _ Hv4) as Hihl.
  pose proof (seg_doff_range g Hg) as Hd.
  assert (step_key k st = k) as Hsk2 by (by destruct Hst as [-> | ->]).
  destruct (report_kern_evt_traced iss k (u32 (skb_len b1)) IP_OUT (skb_data b1) 0 e1 s c evt g
    (Z.of_nat (length (seg_payload g))) Ht Hg Hc Hevt ltac:(rewrite u32_small; lia) ltac:(lia))
    as (ke1 & (E1 & E2 & E3 & _ & E5 & E6) & Hp1).
  assert (Hs1 : s1 = exec (report_kern_evt
    (mk_parse_kern_evt_body iss k 0 (u32 (skb_len b1)) 0 IP_OUT (skb_data b1) 0)) e1 s).
  { subst s1. unfold handle_ip_queue_xmit, parse_sock_key. run.
    rewrite (read_skb_some _ _ _ Hb1), Hk, Hx. run. by rewrite u32_small. }
  pose proof (handle_ip_queue_xmit_reports skb e1 s) as Hr. fold s1 in Hr.
  assert (is_Some (kern_evt_t_map s1)) as [evt1 Hevt1].
  { rewrite Hs1. by apply report_kern_evt_scratch; eexists. }
  assert (Hc1 : traced_conn_id s1 (step_key k st) = Some c).
  { rewrite Hsk2, <- Hc. unfold traced_conn_id. reports_rewrite Hr. done. }
  destruct (report_of_traced e2 b2 k ihl g Hv4 iss st s1 c evt1 Hc1 Hevt1)
    as (ke2 & (F1 & F2 & F3 & _ & F5 & F6) & Hp2).
  exists ke1, ke2. split.
  - unfold exec at 1.
    rewrite (parse_skb_known e2 skb b2 k ihl g Hskb Hb2 Hv4 Hk4 false st iss s1 (fun _ => Hsk))
      by (reports_rewrite Hr; done).
    fold (exec (report_of e2 b2 k ihl g iss st;; mret 1) e2 s1). run.
    rewrite Hp2, Hs1, Hp1, <- app_assoc. done.
  - split; [done|]. split; [done|]. split; [done|].
    rewrite F1, F2, F3, F6, E1, E2, E3, E6. done.
Qed.

(** [transmit_path_agrees] for a segment the example socket sends. *)
Definition seg_out_example : tcp_segment := mk_tcp_segment 40000 80 5000 7 24 [] [71; 69; 84].
Definition env_out1 : env :=
  env_example <| kmem := mem_at 5020 (tcp_header seg_out_example) |>
    <| skb_at := fun _ => Some (mk_sk_buff 100 0 0 0 5000 5020 23 0 0 3 5000 0) |>.
Definition skb_out2 : sk_buff := mk_sk_buff 100 0 65535 20 5000 5000 43 8 0 3 5000 0.
Definition env_out2 : env :=
  env_example <| kmem := mem_at 5000 (ipv4_header 5 16777226 33554442 43 IPPROTO_TCP ++ tcp_header seg_out_example) |>
    <| skb_at := fun _ => Some skb_out2 |>.
Definition key_out_example : sock_key := reverse_sock_key_no_copy key_example.
Definition state_out : bpf := state_skb <| sock_xmit_map := {[key_out_example := 4999]} |>.

Lemma skb_out2_ok : ipv4_skb env_out2 skb_out2 key_out_example 5 seg_out_example.
Proof.
  split; [cbn; lia|cbn; lia|lia| | |reflexivity|].
  - left. split; reflexivity.
  - left. reflexivity.
  - cbn. split; [holds_tac|]. split; [holds_tac|].
    split; [split; cbn; lia|]. split; reflexivity.
Qed.

Lemma transmit_path_agrees_witness :
  exists ke1 ke2,
    perf (exec (parse_skb 900 false DEV_OUT) env_out2
            (exec (handle_ip_queue_xmit 900) env_out1 state_out)) = [] ++ [rb ke1; rb ke2] /\
    ke_step ke1 = IP_OUT /\ ke_step ke2 = DEV_OUT /\ ke_seq ke1 = 1 /\
    ke_seq ke2 = ke_seq ke1 /\ ke_len ke2 = ke_len ke1 /\ ke_flags ke2 = ke_flags ke1 /\
    ke_conn_id_s ke2 = ke_conn_id_s ke1.
Proof.
  apply (transmit_path_agrees 900 env_out1 env_out2 state_out
    (mk_sk_buff 100 0 0 0 5000 5020 23 0 0 3 5000 0) skb_out2 key_out_example 5 seg_out_example
    4999 (mk_conn_id_s 77 unset) kern_evt_zero DEV_OUT);
    first [exact skb_out2_ok | holds_tac | split; cbn; lia | right; reflexivity | lia
          | vm_compute; intuition congruence | done].
Defined.
