(* ===== verification/Conn.v ===== *)
(** * Connections ([bpf/pktlatency.bpf.c], lines 703 to 724 and 813 to 1388)

    How an entry of [conn_info_map] is made, by [connect], [accept] or by the
    first data call seen on a descriptor, how reads and writes account for
    their bytes in it, and how it goes away.

    A pointer into [conn_info_map] that a handler holds is modelled by the value
    it points to, stored back with [store_conn] when the handler has finished:
    no call in between reads that entry of the map. *)

From stdpp Require Import gmap list fin_maps.
From Stdlib Require Import ZArith Lia.
From S2P Require Import Prelude Types Machine ProtocolInference DataCommon SockKey Skb.
Local Open Scope Z_scope.

(** ** Destruction of a socket *)

Definition tcp_destroy_sock (sk : Z) : M Z :=
  e ← ask;
  let '(_, key) := parse_sock_key_sk e sk sock_key_zero in
  let key := key <| sport := bpf_ntohs (inet_sport (read_sock e sk)) |> in
  modify (fun s => s <| sock_xmit_map ::= delete key |>);;
  ids ← gets sock_key_conn_id_map;
  match ids !! key with
  | None => mret BPF_OK
  | Some conn_id_s =>
    conns ← gets conn_info_map;
    (match conns !! tgid_fd conn_id_s with
     | Some conn_info => report_conn_evt conn_info kClose 0;; mret tt
     | None => mret tt
     end);;
    modify (fun s => s <| conn_info_map ::= delete (tgid_fd conn_id_s) |>);;
    modify (fun s => s <| sock_key_conn_id_map ::= delete key |>);;
    mret BPF_OK
  end.

(** ** Making a connection *)

Definition set_family (family : Z) (ci : conn_info_t) : conn_info_t :=
  ci <| ci_laddr ::= fun a => a <| sin6_family := family |> |>
     <| ci_raddr ::= fun a => a <| sin6_family := family |> |>.
Definition set_lport (port : Z) (ci : conn_info_t) : conn_info_t :=
  ci <| ci_laddr ::= fun a => a <| sin6_port := port |> |>.
Definition set_rport (port : Z) (ci : conn_info_t) : conn_info_t :=
  ci <| ci_raddr ::= fun a => a <| sin6_port := port |> |>.
Definition set_laddr (f : in6_addr -> in6_addr) (ci : conn_info_t) : conn_info_t :=
  ci <| ci_laddr ::= fun a => a <| sin6_addr ::= f |> |>.
Definition set_raddr (f : in6_addr -> in6_addr) (ci : conn_info_t) : conn_info_t :=
  ci <| ci_raddr ::= fun a => a <| sin6_addr ::= f |> |>.

Definition read_sockaddr_kernel (e : env) (conn_info : conn_info_t) (socket : Z) : conn_info_t :=
  let sk_common := read_sock e (so_sk (read_socket e socket)) in
  let family := u16 (skc_family sk_common) in
  let lport := u16 (skc_num sk_common) in
  let rport := bpf_ntohs (skc_dport sk_common) in
  let conn_info := set_family family conn_info in
  let conn_info := set_rport rport (set_lport lport conn_info) in
  if family =? AF_INET then
    set_raddr (set_addr32_0 (skc_daddr sk_common))
      (set_laddr (set_addr32_0 (skc_rcv_saddr sk_common)) conn_info)
  else if family =? AF_INET6 then
    set_raddr (fun _ => skc_v6_daddr sk_common)
      (set_laddr (fun _ => skc_v6_rcv_saddr sk_common) conn_info)
  else conn_info.

Definition init_conn_id (tgid fd : Z) : M conn_id_t :=
  now ← bpf_ktime_get_ns;
  mret (mk_conn_id (u32 tgid) 0 (s32 fd) now).

Definition init_conn_info (tgid fd : Z) (conn_info : conn_info_t) : M conn_info_t :=
  conn_id ← init_conn_id tgid fd;
  mret (set_family PX_AF_UNKNOWN
    (conn_info <| ci_conn_id := conn_id |> <| ci_role := kRoleUnknown |>)).

Definition create_conn_info (conn_info : conn_info_t) (tgid_fd : Z) (key : sock_key)
    (role : endpoint_role_t) (start_ts : Z) : M bool :=
  selected ← (if should_trace_conn conn_info then filter_conn_info conn_info else mret false);
  if selected && negb (sin6_port (ci_laddr conn_info) =? 0) then
    modify (fun s => s <| conn_info_map ::=
      bpf_map_update_elem MAX_ENTRIES BPF_ANY tgid_fd conn_info |>);;
    modify (fun s => s <| sock_key_conn_id_map ::=
      bpf_map_update_elem MAX_ENTRIES BPF_NOEXIST key (mk_conn_id_s tgid_fd unset) |>);;
    report_conn_evt conn_info kConnect start_ts;;
    mret true
  else mret false.

(** [bpf_map_update_elem(&sock_xmit_map, &key, &seq, BPF_ANY)] *)
Definition record_seq (key : sock_key) (seq : Z) : M unit :=
  modify (fun s => s <| sock_xmit_map ::= bpf_map_update_elem MAX_ENTRIES BPF_ANY key seq |>).

(** The fields of a user [struct sockaddr_in] and [struct sockaddr_in6]. *)
Definition uread (e : env) (a : Z) (n : nat) : Z := le_decode (bpf_probe_read_user e a n).
Definition read_sockaddr_in6 (e : env) (a : Z) : sockaddr_t :=
  let bs := bpf_probe_read_user e a 28 in
  let field off n := le_decode (take n (drop off bs)) in
  mk_sockaddr (field 0%nat 2%nat) (field 2%nat 2%nat) (field 4%nat 4%nat)
    (mk_in6_addr (field 8%nat 8%nat) (field 16%nat 8%nat)) (field 24%nat 4%nat).

(** Lines 954 to 968: the addresses the system call was given. *)
Definition addr_from_call (e : env) (addr socket : Z) (conn_info : conn_info_t) : conn_info_t :=
  if negb (socket =? 0) then read_sockaddr_kernel e conn_info socket
  else if negb (addr =? 0) then
    let sa_family := uread e addr 2 in
    if sa_family =? AF_INET then
      set_raddr (set_addr32_0 (uread e (addr + 4) 4))
        (set_rport (bpf_ntohs (uread e (addr + 2) 2)) conn_info)
    else if sa_family =? AF_INET6 then conn_info <| ci_raddr := read_sockaddr_in6 e addr |>
    else conn_info
  else conn_info.

(** Lines 977 to 997: the rest from the socket, when the call named none. *)
Definition addr_from_key (e : env) (addr socket tcp_sk : Z) (key : sock_key)
    (conn_info : conn_info_t) : conn_info_t :=
  if socket =? 0 then
    let conn_info := set_lport (sport key) conn_info in
    let conn_info := if addr =? 0 then set_rport (dport key) conn_info else conn_info in
    let family := u16 (skc_family (read_sock e tcp_sk)) in
    let conn_info :=
      if family =? AF_INET then
        let conn_info := set_laddr (set_addr32_0 (sip0 key)) conn_info in
        if addr =? 0 then set_raddr (set_addr32_0 (dip0 key)) conn_info else conn_info
      else if family =? AF_INET6 then
        let conn_info := set_laddr (fun _ => mk_in6_addr (sip0 key) (sip1 key)) conn_info in
        if addr =? 0 then set_raddr (fun _ => mk_in6_addr (dip0 key) (dip1 key)) conn_info
        else conn_info
      else conn_info in
    set_family family conn_info
  else conn_info.

Definition submit_new_conn (tgid fd addr socket : Z) (role : endpoint_role_t) (start_ts : Z)
    : M unit :=
  let tgid_fd := gen_tgid_fd tgid fd in
  conn_info ← init_conn_info tgid fd conn_info_zero;
  e ← ask;
  let conn_info := addr_from_call e addr socket conn_info in
  let tcp_sk := get_socket_from_fd e fd in
  let tcp_sk := if tcp_sk =? 0 then so_sk (read_socket e socket) else tcp_sk in
  let '(_, key) := parse_sock_key_sk e tcp_sk sock_key_zero in
  let conn_info := addr_from_key e addr socket tcp_sk key conn_info in
  let conn_info := conn_info <| ci_role := role |> in
  created ← create_conn_info conn_info tgid_fd key role start_ts;
  if created && negb (tcp_sk =? 0) then
    let write_seq := u32 (write_seq (read_sock e tcp_sk)) in
    let copied_seq := u32 (copied_seq (read_sock e tcp_sk)) in
    (if negb (write_seq =? 0) then record_seq key (u32 (write_seq - 1)) else mret tt);;
    let '(_, key) := parse_sock_key_rcv_sk e tcp_sk key in
    if negb (copied_seq =? 0) then record_seq key (u32 (copied_seq - 1)) else mret tt
  else mret tt.

(** ** The end of a connection *)

(** The key that lines 1037 to 1046 build from the addresses of the entry. *)
Definition key_of_conn (conn_info : conn_info_t) : sock_key :=
  let l := ci_laddr conn_info in let r := ci_raddr conn_info in
  if sin6_family l =? AF_INET then
    mk_sock_key (addr32_0 (sin6_addr l)) 0 (addr32_0 (sin6_addr r)) 0 (sin6_port l) (sin6_port r)
  else
    mk_sock_key (addr64_0 (sin6_addr l)) (addr64_1 (sin6_addr l))
      (addr64_0 (sin6_addr r)) (addr64_1 (sin6_addr r)) (sin6_port l) (sin6_port r).

(** [args->fd] is unsigned, so that the test [args->fd < 0] never succeeds. *)
Definition process_syscall_close (ret_val : Z) (args : close_args) (id : Z) : M unit :=
  let tgid := tgid_of id in
  return_if (u32 (cla_fd args) <? 0) with tt ;;
  return_if (ret_val <? 0) with tt ;;
  let tgid_fd := gen_tgid_fd tgid (cla_fd args) in
  conns ← gets conn_info_map;
  match conns !! tgid_fd with
  | None => mret tt
  | Some conn_info =>
    report_conn_evt conn_info kClose 0;;
    modify (fun s => s <| conn_info_map ::= delete tgid_fd |>);;
    let key := key_of_conn conn_info in
    modify (fun s => s <| sock_key_conn_id_map ::= delete key |>)
  end.

Definition process_syscall_connect (ret_val : Z) (args : connect_args) (id : Z) : M unit :=
  let tgid := tgid_of id in
  return_if (ret_val <? 0) && negb (ret_val =? - EINPROGRESS) with tt ;;
  return_if (coa_fd args <? 0) with tt ;;
  r ← match_trace_tgid tgid;
  return_if bool_decide (r = TARGET_TGID_UNMATCHED) with tt ;;
  submit_new_conn tgid (coa_fd args) (coa_addr args) 0 kRoleClient (coa_start_ts args).

Definition process_syscall_accept (ret : Z) (args : accept_args) (id : Z) : M unit :=
  let tgid := tgid_of id in
  return_if (ret <? 0) with tt ;;
  r ← match_trace_tgid tgid;
  return_if bool_decide (r = TARGET_TGID_UNMATCHED) with tt ;;
  submit_new_conn tgid (s32 ret) (aca_addr args) (aca_sock_alloc_socket args) kRoleServer 0.

(** ** Reads and writes *)

(** Returns whether the connection was created, and the structure that the
    pointer [new_conn_info] designates. *)
Definition create_conn_info_in_data_syscall (tcp_sk tgid_fd : Z) (direct : traffic_direction_t)
    (bytes_count : Z) (new_conn_info : conn_info_t) (ts : Z) : M (bool * conn_info_t) :=
  new_conn_info ← init_conn_info (Z.shiftr tgid_fd 32) (u32 tgid_fd) new_conn_info;
  e ← ask;
  let '(_, key) := parse_sock_key_sk e tcp_sk sock_key_zero in
  let new_conn_info := set_rport (dport key) (set_lport (sport key) new_conn_info) in
  let usev6 := use_ipv6 e tcp_sk in
  let family := if usev6 then u16 (skc_family (read_sock e tcp_sk)) else AF_INET in
  let new_conn_info :=
    if family =? AF_INET then
      set_raddr (set_addr32_0 (dip0 key)) (set_laddr (set_addr32_0 (sip0 key)) new_conn_info)
    else if family =? AF_INET6 then
      set_raddr (fun _ => mk_in6_addr (dip0 key) (dip1 key))
        (set_laddr (fun _ => mk_in6_addr (sip0 key) (sip1 key)) new_conn_info)
    else new_conn_info in
  let new_conn_info := set_family family new_conn_info in
  created ← create_conn_info new_conn_info tgid_fd key kRoleUnknown ts;
  return_if (negb created) with (false, new_conn_info) ;;
  let write_seq := u32 (write_seq (read_sock e tcp_sk)) in
  let copied_seq := u32 (copied_seq (read_sock e tcp_sk)) in
  let '(send_initial_seq, rcv_initial_seq) :=
    match direct with
    | kEgress => (u32 (write_seq - bytes_count - 1), u32 (copied_seq - 1))
    | kIngress => (u32 (write_seq - 1), u32 (copied_seq - bytes_count - 1))
    end in
  record_seq key send_initial_seq;;
  let '(_, key) := parse_sock_key_rcv_sk e tcp_sk key in
  record_seq key rcv_initial_seq;;
  mret (true, new_conn_info).

(** The connection of [tgid_fd], made from the per-CPU structure
    [conn_info_t_map] when there is none: the lookup that
    [process_syscall_data] and [process_syscall_data_vecs] share. *)
Definition lookup_or_create (tgid_fd fd : Z) (direct : traffic_direction_t) (bytes_count ts : Z)
    : M (option conn_info_t) :=
  conns ← gets conn_info_map;
  match conns !! tgid_fd with
  | Some conn_info => mret (Some conn_info)
  | None =>
    e ← ask;
    let tcp_sk := get_socket_from_fd e fd in
    return_if (tcp_sk =? 0) with None ;;
    o ← gets conn_info_t_map;
    match o with
    | None => mret None
    | Some new_conn_info =>
      let new_conn_info := new_conn_info <| ci_protocol := kProtocolUnset |> in
      r ← create_conn_info_in_data_syscall tcp_sk tgid_fd direct bytes_count new_conn_info ts;
      let '(created, new_conn_info) := (r : bool * conn_info_t) in
      modify (fun s => s <| conn_info_t_map := Some new_conn_info |>);;
      if created then (conns ← gets conn_info_map; mret (conns !! tgid_fd)) else mret None
    end
  end.

(** Write through the pointer into [conn_info_map]. *)
Definition store_conn (tgid_fd : Z) (ci : conn_info_t) : M unit :=
  modify (fun s => s <| conn_info_map ::= alter (fun _ => ci) tgid_fd |>).

(** [if (direct == kEgress) write_bytes += n; else read_bytes += n;] *)
Definition add_bytes (direct : traffic_direction_t) (n : Z) (ci : conn_info_t) : conn_info_t :=
  match direct with
  | kEgress => ci <| ci_write_bytes := u64 (ci_write_bytes ci + n) |>
  | kIngress => ci <| ci_read_bytes := u64 (ci_read_bytes ci + n) |>
  end.

Definition mark_ssl (nested : bool) (ci : conn_info_t) : conn_info_t :=
  if nested then ci <| ci_ssl := true |> else ci.

(** The loop of lines 1175 to 1202, unrolled [PROTOCOL_VEC_LIMIT] times; [i]
    counts up from 0. *)
Fixpoint infer_vecs (fuel i : nat) (args : data_args) (bytes_count : Z)
    (direct : traffic_direction_t) (conn_info : conn_info_t) : M conn_info_t :=
  match fuel with
  | O => mret conn_info
  | S fuel =>
    return_if negb (Z.of_nat i <? da_iovlen args) with conn_info ;;
    e ← ask;
    let '(iov_base, iov_len) := read_iovec e (da_iov args) i in
    let buf_size := if iov_len <? u64 bytes_count then iov_len else u64 bytes_count in
    if negb (buf_size =? 0) then
      r ← infer_and_report iov_base buf_size (u64 bytes_count) direct conn_info;
      mret r.1
    else infer_vecs fuel (S i) args bytes_count direct conn_info
  end.

Definition process_syscall_data_vecs (args : data_args) (id : Z) (direct : traffic_direction_t)
    (bytes_count : Z) (is_in_nested_ssl : bool) : M unit :=
  let tgid := tgid_of id in
  return_if (da_iov args =? 0) with tt ;;
  return_if (da_iovlen args <=? 0) with tt ;;
  return_if (da_fd args <? 0) with tt ;;
  return_if (bytes_count <=? 0) with tt ;;
  let tgid_fd := gen_tgid_fd tgid (da_fd args) in
  o ← lookup_or_create tgid_fd (da_fd args) direct bytes_count (u64 (da_end_ts args - 1));
  match o with
  | None => mret tt
  | Some conn_info =>
    let conn_info := mark_ssl is_in_nested_ssl conn_info in
    conn_info ←
      (if negb (ci_ssl conn_info) then
         conn_info ← (if needs_inference conn_info
                      then infer_vecs PROTOCOL_VEC_LIMIT 0 args bytes_count direct conn_info
                      else mret conn_info);
         let seq := u32 (dir_bytes direct conn_info + 1) in
         conn_id_s ← local_conn_id_s tgid_fd;
         if should_trace_conn conn_info then
           report_syscall_evt_vecs seq conn_id_s (u32 bytes_count) (data_step false direct) args
             (ci_prepend_length_header conn_info) (length_header_of conn_info);;
           mret (conn_info <| ci_prepend_length_header := false |>)
         else mret conn_info
       else
         let seq := u32 (dir_bytes direct conn_info + 1) in
         conn_id_s ← local_conn_id_s tgid_fd;
         report_syscall_buf_without_data seq conn_id_s (u64 bytes_count) (data_step false direct)
           (da_start_ts args) (ts_delta_of args) (da_source_fn args);;
         mret conn_info);
    store_conn tgid_fd (add_bytes direct bytes_count conn_info)
  end.

Definition process_syscall_data (args : data_args) (id : Z) (direct : traffic_direction_t)
    (bytes_count : Z) (is_nested_ssl : bool) : M unit :=
  return_if (bytes_count <=? 0) with tt ;;
  let tgid := tgid_of id in
  r ← match_trace_tgid tgid;
  return_if bool_decide (r = TARGET_TGID_UNMATCHED) with tt ;;
  let tgid_fd := gen_tgid_fd tgid (da_fd args) in
  o ← lookup_or_create tgid_fd (da_fd args) direct bytes_count (u64 (da_end_ts args - 1));
  match o with
  | None => mret tt
  | Some conn_info =>
    let conn_info := mark_ssl is_nested_ssl conn_info in
    conn_info ← process_syscall_data_with_conn_info args tgid_fd direct bytes_count conn_info 0
      false (negb (ci_ssl conn_info));
    store_conn tgid_fd (add_bytes direct bytes_count conn_info)
  end.

(** Here the new connection is a local structure, zero-filled. *)
Definition process_syscall_sendfile (id : Z) (args : sendfile_args) (bytes_count : Z) : M unit :=
  let tgid := tgid_of id in
  return_if (sfa_out_fd args <? 0) with tt ;;
  return_if (bytes_count <=? 0) with tt ;;
  r ← match_trace_tgid tgid;
  return_if bool_decide (r = TARGET_TGID_UNMATCHED) with tt ;;
  let tgid_fd := gen_tgid_fd tgid (sfa_out_fd args) in
  conns ← gets conn_info_map;
  o ← match conns !! tgid_fd with
      | Some conn_info => mret (Some conn_info)
      | None =>
        e ← ask;
        let tcp_sk := get_socket_from_fd e (sfa_out_fd args) in
        return_if (tcp_sk =? 0) with None ;;
        r ← create_conn_info_in_data_syscall tcp_sk tgid_fd kEgress bytes_count
          (conn_info_zero <| ci_protocol := kProtocolUnset |>) (u64 (sfa_end_ts args - 1));
        if (r.1 : bool) then (conns ← gets conn_info_map; mret (conns !! tgid_fd)) else mret None
      end;
  match o with
  | None => mret tt
  | Some conn_info =>
    process_sendfile_with_conn_info args tgid_fd kEgress bytes_count conn_info false;;
    store_conn tgid_fd (add_bytes kEgress bytes_count conn_info)
  end.

(** The last argument of [submit_new_conn] is its start time; this caller
    passes the number of the system call. *)
Definition process_implicit_conn (id : Z) (args : connect_args) (source_fn : source_function_t)
    (role : endpoint_role_t) : M unit :=
  let tgid := tgid_of id in
  r ← match_trace_tgid tgid;
  return_if bool_decide (r = TARGET_TGID_UNMATCHED) with tt ;;
  return_if (coa_fd args <? 0) with tt ;;
  let tgid_fd := gen_tgid_fd tgid (coa_fd args) in
  conns ← gets conn_info_map;
  match conns !! tgid_fd with
  | Some _ => mret tt
  | None =>
    submit_new_conn tgid (coa_fd args) (coa_addr args) 0 role (source_function_val source_fn)
  end.

(** ** System calls made inside an SSL call *)

(** Of [go_common.h]. *)
Definition get_goid : M Z :=
  id ← bpf_get_current_pid_tgid;
  symaddrs ← gets go_common_symaddrs_map;
  e ← ask;
  match symaddrs !! tgid_of id with
  | None => mret 0
  | Some common_symaddrs =>
    return_if (task_ptr e =? 0) with 0 ;;
    let fs_base := task_fsbase e in
    let g_addr := uread e (fs_base + g_addr_offset common_symaddrs) 8 in
    mret (uread e (g_addr + g_goid_offset common_symaddrs) 8)
  end.

Definition update_fd_and_syscall_len_to_uprobe (n : nested_syscall_fd_t) (fd len : Z)
    : nested_syscall_fd_t :=
  let n := if ns_fd n =? kInvalidFD then n <| ns_fd := fd |>
           else if negb (ns_fd n =? fd) then n <| ns_mismatched_fds := true |> else n in
  if 0 <? len then n <| ns_syscall_len := u32 (ns_syscall_len n + len) |> else n.

(** [len] is [uint32_t] and passed on as an [int]. *)
Definition propagate_fd_to_uprobe (pid_tgid fd len : Z) : M bool :=
  let update n := update_fd_and_syscall_len_to_uprobe n fd (s32 (u32 len)) in
  modify (fun s => s <| ssl_user_space_call_map ::= alter update pid_tgid |>);;
  goid ← get_goid;
  if negb (goid =? 0) then
    let tgid_goid := mk_tgid_goid (tgid_of pid_tgid) (s64 goid) in
    calls ← gets go_ssl_user_space_call_map;
    match calls !! tgid_goid with
    | Some _ =>
      modify (fun s => s <| go_ssl_user_space_call_map ::= alter update tgid_goid |>);; mret true
    | None => mret false
    end
  else mret false.

(** ** Helper lemmas *)

(** The process passes the filter without a change of state. *)
Definition passes (s : bpf) (tgid : Z) : Prop :=
  ~ filter_enabled s \/ is_Some (filter_pid_map s !! tgid).

Lemma passes_run s tgid e :
  passes s tgid -> exists r, match_trace_tgid tgid e s = (r, s) /\ r <> TARGET_TGID_UNMATCHED.
Proof.
  intros Hp. destruct (match_trace_tgid_run tgid e s) as
    [ [_ ->]|[ (_ & _ & ->)|[ (Hf & Hn & _)|(Hf & Hn & _)] ] ]; eauto.
  - exfalso. destruct Hp as [?|[? ?] ]; [done|congruence].
  - exfalso. destruct Hp as [?|?]; [done|]. apply Hn. by left.
Qed.

Lemma passes_step {B} s tgid e (k : target_tgid_match_result_t -> M B) (d : M B) :
  passes s tgid ->
  (r ← match_trace_tgid tgid; if bool_decide (r = TARGET_TGID_UNMATCHED) then d else k r) e s =
  k (result (match_trace_tgid tgid) e s) e s.
Proof.
  intros Hp. destruct (passes_run s tgid e Hp) as (r & Hr & Hne).
  unfold result, mbind, RS_bind. rewrite Hr. by rewrite bool_decide_eq_false_2.
Qed.

Lemma unselected_step {B} s tgid e (k : target_tgid_match_result_t -> M B) (d : M B) :
  filter_enabled s -> ~ tgid_selected e s tgid ->
  (r ← match_trace_tgid tgid; if bool_decide (r = TARGET_TGID_UNMATCHED) then d else k r) e s = d e s.
Proof.
  intros Hf Hn. destruct (match_trace_tgid_run tgid e s) as
    [ [? _]|[ (_ & Hs & _)|[ (_ & _ & Hs & _)|(_ & _ & Hr)] ] ]; [done| |done|].
  - destruct Hn. by left.
  - unfold mbind, RS_bind. by rewrite Hr.
Qed.

(** A connection whose data is reported: known protocol, not SSL, traced. *)
Definition streaming (ci : conn_info_t) : Prop :=
  needs_inference ci = false /\ ci_ssl ci = false /\ should_trace_conn ci = true.

Lemma streaming_traced ci : streaming ci -> traced ci.
Proof.
  intros (H1 & _ & H3). split; [done|]. unfold should_trace_conn in H3. unfold data_reported.
  apply andb_prop in H3 as [-> ->]. done.
Qed.

Lemma u64_pos n : 0 < n < 2147483648 -> u64 n = n.
Proof. intros. apply u64_small. lia. Qed.

(** *** One data call on a known connection *)

Section OneCall.
Context (s : bpf) (e : env) (tgid fd : Z) (d : traffic_direction_t) (ci : conn_info_t).
Context (Hci : conn_info_map s !! gen_tgid_fd tgid fd = Some ci).
Context (Hst : streaming ci) (Hscratch : scratch_ok s).

(** What one call of [n] bytes does. *)
Definition call_effect (n : Z) (s' : bpf) : Prop :=
  exists s1 l p,
    reports s s1 /\ perf s1 = perf s ++ l /\
    tiles (mk_conn_id_s (gen_tgid_fd tgid fd) (stack_no_trace e)) (data_step false d)
      (dir_bytes d ci + 1) n l /\
    s' = s1 <| conn_info_map ::= alter
      (fun _ => add_bytes d n (ci <| ci_prepend_length_header := p |>)) (gen_tgid_fd tgid fd) |>.

Lemma lookup_known ts n :
  lookup_or_create (gen_tgid_fd tgid fd) fd d n ts e s = (Some ci, s).
Proof using Hci. unfold lookup_or_create. steps. by rewrite Hci. Qed.

Lemma tiles_single c st seq n ke k p :
  0 < n < 2147483648 -> syscall_event ke seq c n st -> (ke_len ke = n -> captured ke k p) ->
  tiles c st seq n [syscall_rb ke k p].
Proof.
  intros Hn Hke Hcap. assert (ke_len ke = n) as E by (destruct Hke as (_ & _ & -> & _); apply u32_small; lia).
  specialize (Hcap E). simpl. rewrite E. split; [done|]. split; [split; [lia|done]|lia].
Qed.

Lemma process_data_effect args id n :
  tgid_of id = tgid -> da_fd args = fd -> passes s tgid -> 0 < n < 2147483648 ->
  call_effect n (exec (process_syscall_data args id d n false) e s).
Proof using Hci Hst Hscratch.
  intros Hid Hfd Hp Hn. unfold process_syscall_data, exec.
  destruct (Z.leb_spec n 0); [lia|]. rewrite Hid, Hfd, passes_step by done.
  unfold mbind at 1, RS_bind at 1. rewrite lookup_known. cbn [mark_ssl].
  rewrite (proj1 (proj2 Hst)). cbn [negb].
  rewrite (process_data_traced _ _ _ _ _ _ _ (streaming_traced _ Hst)).
  unfold local_conn_id_s, report_syscall_evt. steps.
  rewrite (u32_small n) by lia.
  set (c := mk_conn_id_s _ _). set (m := report_syscall_buf _ _ _ _ _ _ _ _ _ _).
  destruct (report_syscall_buf_emits (u32 (dir_bytes d ci + 1)) c n (data_step false d)
    (da_start_ts args) (ts_delta_of args) (da_buf args) (da_source_fn args)
    (ci_prepend_length_header ci) (length_header_of ci) e s ltac:(lia) (proj1 Hscratch))
    as (ke & Hke & _ & _ & _ & Hperf). fold m in Hperf.
  exists (exec m e s). eexists. exists false. split; [apply report_syscall_buf_reports|]. split; [exact Hperf|].
  split.
  - eapply tiles_u32; [|eapply tiles_single; [done|done|intros; apply captured_clamp; lia] ]. by rewrite u32_idem.
  - unfold mbind at 1, RS_bind at 1, exec at 1. destruct (m e s). reflexivity.
Qed.

Lemma process_vecs_effect args id n :
  tgid_of id = tgid -> da_fd args = fd -> 0 <= fd -> da_iov args <> 0 -> 0 < da_iovlen args ->
  0 < n < 2147483648 ->
  call_effect n (exec (process_syscall_data_vecs args id d n false) e s).
Proof using Hci Hst Hscratch.
  intros Hid Hfd Hfd0 Hiov Hlen Hn. unfold process_syscall_data_vecs, exec.
  rewrite (proj2 (Z.eqb_neq _ _) Hiov).
  destruct (Z.leb_spec (da_iovlen args) 0); [lia|]. rewrite Hfd.
  destruct (Z.ltb_spec fd 0); [lia|]. destruct (Z.leb_spec n 0); [lia|]. rewrite Hid.
  unfold mbind at 1, RS_bind at 1. rewrite lookup_known. cbn [mark_ssl].
  destruct Hst as (Hs1 & Hs2 & Hs3). rewrite Hs2, Hs1. cbn [negb]. unfold local_conn_id_s. steps.
  rewrite Hs3. steps. rewrite (u32_small n) by lia.
  set (c := mk_conn_id_s _ _). set (m := report_syscall_evt_vecs _ _ _ _ _ _ _).
  destruct (report_vecs_tiles (u32 (dir_bytes d ci + 1)) c n (data_step false d) args
    (ci_prepend_length_header ci) (length_header_of ci) e s ltac:(lia) Hscratch)
    as (l & Hperf & Ht & _). fold m in Hperf.
  exists (exec m e s), l, false. split; [apply report_vecs_reports|]. split; [exact Hperf|].
  split.
  - eapply tiles_u32; [|exact Ht]. by rewrite u32_idem.
  - unfold mbind at 1, RS_bind at 1, exec at 1. destruct (m e s). reflexivity.
Qed.

Lemma process_sendfile_effect args id n :
  d = kEgress -> tgid_of id = tgid -> sfa_out_fd args = fd -> 0 <= fd -> passes s tgid ->
  0 < n < 2147483648 ->
  call_effect n (exec (process_syscall_sendfile id args n) e s).
Proof using Hci Hst Hscratch.
  intros Hd Hid Hfd Hfd0 Hp Hn. unfold call_effect. rewrite Hd.
  unfold process_syscall_sendfile, exec. rewrite Hfd.
  destruct (Z.ltb_spec fd 0); [lia|]. destruct (Z.leb_spec n 0); [lia|].
  rewrite Hid, passes_step by done. steps. rewrite Hci. steps.
  unfold process_sendfile_with_conn_info, local_conn_id_s. steps.
  destruct Hst as (_ & _ & Hs3). unfold should_trace_conn in Hs3. rewrite Hs3.
  rewrite (u64_pos n Hn). destruct Hscratch as [ [evt Hevt] _].
  set (c := mk_conn_id_s _ _). set (m := report_syscall_buf_without_data _ _ _ _ _ _ _).
  destruct (report_without_data_emits (u32 (dir_bytes kEgress ci + 1)) c n (data_step false kEgress)
    (sfa_start_ts args) (u32 (sfa_end_ts args - sfa_start_ts args)) kSyscallSendfile e s evt
    ltac:(lia) Hevt) as (ke & Hke & _ & _ & Hperf). fold m in Hperf.
  exists (exec m e s). eexists. exists (ci_prepend_length_header ci).
  split; [apply report_without_data_reports|]. split; [exact Hperf|]. split.
  - eapply tiles_u32; [|eapply tiles_single; [done|done|intros; apply captured_none; lia] ]. by rewrite u32_idem.
  - unfold mbind at 1, RS_bind at 1, exec at 1. destruct (m e s). by destruct ci.
Qed.
End OneCall.

(** *** Sequences of calls *)

Inductive data_call : Type :=
| call_buf (args : data_args) (n : Z)
| call_vecs (args : data_args) (n : Z)
| call_sendfile (args : sendfile_args) (n : Z).

Definition call_bytes (c : data_call) : Z :=
  match c with call_buf _ n | call_vecs _ n | call_sendfile _ n => n end.
Definition run_call (id : Z) (d : traffic_direction_t) (c : data_call) : M unit :=
  match c with
  | call_buf args n => process_syscall_data args id d n false
  | call_vecs args n => process_syscall_data_vecs args id d n false
  | call_sendfile args n => process_syscall_sendfile id args n
  end.
(** A successful call on the descriptor [fd]. *)
Definition call_ok (fd : Z) (d : traffic_direction_t) (c : data_call) : Prop :=
  0 < call_bytes c < 2147483648 /\
  match c with
  | call_buf args _ => da_fd args = fd
  | call_vecs args _ => da_fd args = fd /\ da_iov args <> 0 /\ 0 < da_iovlen args
  | call_sendfile args _ => sfa_out_fd args = fd /\ d = kEgress
  end.

(** Each call sees its own memory. *)
Fixpoint run_calls (id : Z) (d : traffic_direction_t) (cs : list (env * data_call)) (s : bpf) : bpf :=
  match cs with
  | [] => s
  | (e, c) :: cs => run_calls id d cs (exec (run_call id d c) e s)
  end.
Definition total_bytes (cs : list (env * data_call)) : Z :=
  foldr (fun ec t => call_bytes ec.2 + t) 0 cs.

Lemma run_call_effect s e id fd d ci c :
  conn_info_map s !! gen_tgid_fd (tgid_of id) fd = Some ci -> streaming ci -> scratch_ok s ->
  passes s (tgid_of id) -> 0 <= fd -> call_ok fd d c ->
  call_effect s e (tgid_of id) fd d ci (call_bytes c) (exec (run_call id d c) e s).
Proof.
  intros Hci Hst Hsc Hp Hfd [Hn Hc]. destruct c; cbn [call_bytes run_call] in *.
  - apply process_data_effect; assumption || reflexivity.
  - destruct Hc as (? & ? & ?). apply process_vecs_effect; assumption || reflexivity.
  - destruct Hc. apply process_sendfile_effect; assumption || reflexivity.
Qed.

Lemma dir_bytes_add d n ci : dir_bytes d (add_bytes d n ci) = u64 (dir_bytes d ci + n).
Proof. by destruct d. Qed.

Lemma passes_reports s s' tgid : reports s s' -> passes s tgid -> passes s' tgid.
Proof. intros Hr. unfold passes, filter_enabled. by reports_rewrite Hr. Qed.

(** A call leaves a state from which the next one can be followed. *)
Lemma call_effect_next s e tgid fd d ci n s' :
  conn_info_map s !! gen_tgid_fd tgid fd = Some ci -> streaming ci -> scratch_ok s ->
  passes s tgid -> call_effect s e tgid fd d ci n s' ->
  exists ci' l, perf s' = perf s ++ l /\
    tiles (mk_conn_id_s (gen_tgid_fd tgid fd) (stack_no_trace e)) (data_step false d)
      (dir_bytes d ci + 1) n l /\
    conn_info_map s' !! gen_tgid_fd tgid fd = Some ci' /\
    dir_bytes d ci' = u64 (dir_bytes d ci + n) /\
    (forall d', d' <> d -> dir_bytes d' ci' = dir_bytes d' ci) /\
    streaming ci' /\ scratch_ok s' /\ passes s' tgid.
Proof.
  intros Hci Hst Hsc Hp (s1 & l & p & Hr & Hperf & Ht & ->).
  eexists. exists l. split; [exact Hperf|]. split; [exact Ht|]. split.
  { fsimp. rewrite lookup_alter_eq. reports_rewrite Hr. by rewrite Hci. }
  split; [by destruct d|]. split; [intros d'; by destruct d, d'|].
  split; [by destruct d|].
  split; [exact (proj1 (proj2 Hr) Hsc)|]. exact (passes_reports _ _ _ Hr Hp).
Qed.

(** *** Creation *)

(** When [create_conn_info] records a connection. *)
Definition create_ok (s : bpf) (ci : conn_info_t) : Prop :=
  should_trace_conn ci = true /\ conn_selected s ci /\ sin6_port (ci_laddr ci) <> 0.

(** The maps with the connection in them. *)
Definition with_conn (t : Z) (k : sock_key) (ci : conn_info_t) (s : bpf) : bpf :=
  s <| conn_info_map ::= bpf_map_update_elem MAX_ENTRIES BPF_ANY t ci |>
    <| sock_key_conn_id_map ::=
         bpf_map_update_elem MAX_ENTRIES BPF_NOEXIST k (mk_conn_id_s t unset) |>.

Lemma create_conn_info_run ci t k r ts e s :
  (create_ok s ci /\ create_conn_info ci t k r ts e s =
     (true, exec (report_conn_evt ci kConnect ts) e (with_conn t k ci s))) \/
  (~ create_ok s ci /\ create_conn_info ci t k r ts e s = (false, s)).
Proof.
  unfold create_conn_info, create_ok.
  destruct (should_trace_conn ci) eqn:Et.
  - pose proof (run_pair (filter_conn_info ci) e s) as Hr. rewrite filter_conn_info_state in Hr.
    rewrite (step_run _ _ _ _ _ _ Hr), <- (filter_conn_info_iff ci e s).
    destruct (result (filter_conn_info ci) e s); cbn [andb].
    + destruct (Z.eqb_spec (sin6_port (ci_laddr ci)) 0) as [Hz|Hz]; cbn [negb].
      * right. split; [tauto|done].
      * left. split; [tauto|]. steps.
        rewrite (step_run _ _ _ _ _ _ (run_pair _ _ _)). done.
    + right. split; [|done]. intros (_ & ? & _). done.
  - right. steps. split; [|done]. intros (? & _). congruence.
Qed.

(** What a new connection keeps of the structure it is made from. *)
Definition fresh_conn (ci : conn_info_t) : Prop :=
  ci_read_bytes ci = 0 /\ ci_write_bytes ci = 0 /\ ci_ssl_read_bytes ci = 0 /\
  ci_ssl_write_bytes ci = 0 /\ ci_protocol ci = kProtocolUnset /\ ci_prev_count ci = 0 /\
  ci_prev_buf ci = [0; 0; 0; 0] /\ ci_prepend_length_header ci = false /\
  ci_no_trace ci = unset /\ ci_ssl ci = false.

Lemma fresh_dir_bytes d ci : fresh_conn ci -> dir_bytes d ci = 0.
Proof. intros (? & ? & _). by destruct d. Qed.

Lemma addr_from_call_fresh e a so ci : fresh_conn ci -> fresh_conn (addr_from_call e a so ci).
Proof.
  intros H. unfold addr_from_call, read_sockaddr_kernel. repeat case_match; exact H.
Qed.

Lemma addr_from_key_fresh e a so sk k ci :
  fresh_conn ci -> fresh_conn (addr_from_key e a so sk k ci).
Proof. intros H. unfold addr_from_key. repeat case_match; exact H. Qed.

(** The structure [create_conn_info_in_data_syscall] fills in. *)
Definition data_addr (e : env) (tcp_sk : Z) (key : sock_key) (ci : conn_info_t) : conn_info_t :=
  let ci := set_rport (dport key) (set_lport (sport key) ci) in
  let family := if use_ipv6 e tcp_sk then u16 (skc_family (read_sock e tcp_sk)) else AF_INET in
  let ci :=
    if family =? AF_INET then
      set_raddr (set_addr32_0 (dip0 key)) (set_laddr (set_addr32_0 (sip0 key)) ci)
    else if family =? AF_INET6 then
      set_raddr (fun _ => mk_in6_addr (dip0 key) (dip1 key))
        (set_laddr (fun _ => mk_in6_addr (sip0 key) (sip1 key)) ci)
    else ci in
  set_family family ci.

Definition init_conn (tgid fd now : Z) (ci : conn_info_t) : conn_info_t :=
  set_family PX_AF_UNKNOWN
    (ci <| ci_conn_id := mk_conn_id (u32 tgid) 0 (s32 fd) now |> <| ci_role := kRoleUnknown |>).

Definition new_data_conn (e : env) (tcp_sk t now : Z) (ci : conn_info_t) : conn_info_t :=
  data_addr e tcp_sk (sk_key e tcp_sk) (init_conn (Z.shiftr t 32) (u32 t) now ci).

Lemma new_data_conn_fresh e sk t now ci : fresh_conn ci -> fresh_conn (new_data_conn e sk t now ci).
Proof. intros H. unfold new_data_conn, data_addr. repeat case_match; exact H. Qed.

Lemma new_data_conn_role e sk t now ci : ci_role (new_data_conn e sk t now ci) = kRoleUnknown.
Proof. unfold new_data_conn, data_addr. repeat case_match; reflexivity. Qed.

(** The initial sequence numbers it records: [n] bytes of the direction [d]
    have been transferred already. *)
Definition next_seq (d : traffic_direction_t) (sk : sock) : Z :=
  match d with kEgress => write_seq sk | kIngress => copied_seq sk end.
Definition dir_key (d : traffic_direction_t) (k : sock_key) : sock_key :=
  match d with kEgress => k | kIngress => reverse_sock_key_no_copy k end.
Definition done_bytes (d d' : traffic_direction_t) (n : Z) : Z :=
  match d, d' with kEgress, kEgress | kIngress, kIngress => n | _, _ => 0 end.
Definition data_iss (d d' : traffic_direction_t) (sk : sock) (n : Z) : Z :=
  u32 (u32 (next_seq d' sk) - done_bytes d d' n - 1).

Definition with_seqs (k : sock_key) (snd_iss rcv_iss : Z) (s : bpf) : bpf :=
  s <| sock_xmit_map ::= bpf_map_update_elem MAX_ENTRIES BPF_ANY k snd_iss |>
    <| sock_xmit_map ::=
         bpf_map_update_elem MAX_ENTRIES BPF_ANY (reverse_sock_key_no_copy k) rcv_iss |>.

Lemma create_in_data_run tcp_sk t d n ci ts e s :
  let k := sk_key e tcp_sk in
  let sk := read_sock e tcp_sk in
  let ci1 := new_data_conn e tcp_sk t (clock e (ticks s)) ci in
  let s1 := s <| ticks ::= S |> in
  (create_ok s ci1 /\ create_conn_info_in_data_syscall tcp_sk t d n ci ts e s =
     ((true, ci1), with_seqs k (data_iss d kEgress sk n) (data_iss d kIngress sk n)
        (exec (report_conn_evt ci1 kConnect ts) e (with_conn t k ci1 s1)))) \/
  (~ create_ok s ci1 /\
     create_conn_info_in_data_syscall tcp_sk t d n ci ts e s = ((false, ci1), s1)).
Proof.
  intros k sk ci1 s1.
  unfold create_conn_info_in_data_syscall, init_conn_info, init_conn_id, bpf_ktime_get_ns. steps.
  assert (parse_sock_key_sk e tcp_sk sock_key_zero = ((parse_sock_key_sk e tcp_sk sock_key_zero).1, k))
    as Hk by apply surjective_pairing.
  rewrite Hk. change (s <| ticks := S (ticks s) |>) with s1.
  match goal with |- context [create_conn_info ?x t k kRoleUnknown ts] => change x with ci1 end.
  destruct (create_conn_info_run ci1 t k kRoleUnknown ts e s1) as [ [Hok Hrun]|[Hok Hrun] ];
    rewrite (step_run _ _ _ _ _ _ Hrun);
    cbn [negb]; [left|right]; (split; [exact Hok|]); [|reflexivity].
  assert (parse_sock_key_rcv_sk e tcp_sk k = (true, reverse_sock_key_no_copy k)) as Hr
    by (unfold parse_sock_key_rcv_sk; by rewrite parse_sock_key_sk_again).
  unfold record_seq, with_seqs, data_iss.
  destruct d; steps; rewrite Hr; steps; cbn [next_seq done_bytes];
    rewrite Z.sub_0_r; reflexivity.
Qed.

(** *** Sequence numbers of system calls and of packets *)

(** In both directions the next byte of the stream has the same number for the
    system calls, which count bytes from the entry of the connection, and for
    the packets, which subtract the recorded initial sequence number from the
    one in the TCP header. *)
Definition in_step (s : bpf) (k : sock_key) (sk : sock) (ci : conn_info_t) : Prop :=
  forall d, exists iss, sock_xmit_map s !! dir_key d k = Some iss /\
    u32 (next_seq d sk - iss) = u32 (dir_bytes d ci + 1).

(** The maps have room for the entries of one more connection. *)
Definition roomy (s : bpf) : Prop :=
  Z.of_nat (size (conn_info_map s)) < MAX_ENTRIES /\
  Z.of_nat (size (sock_xmit_map s)) + 2 <= MAX_ENTRIES.

Lemma with_seqs_lookup k a b s :
  k <> reverse_sock_key_no_copy k -> Z.of_nat (size (sock_xmit_map s)) + 2 <= MAX_ENTRIES ->
  sock_xmit_map (with_seqs k a b s) !! k = Some a /\
  sock_xmit_map (with_seqs k a b s) !! reverse_sock_key_no_copy k = Some b.
Proof.
  intros Hne Hroom. unfold with_seqs. fsimp. split.
  - rewrite update_ne by done. apply update_any_eq. right. lia.
  - apply update_any_eq. right. unfold bpf_map_update_elem.
    destruct (sock_xmit_map s !! k) eqn:E; [rewrite map_size_insert_Some by done; lia|].
    case_match; [rewrite map_size_insert_None by done|]; lia.
Qed.

(** What the tail of a data call does with the connection [ci] it found. *)
Lemma store_tail (m : M conn_info_t) t d n ci c0 e s :
  keeps reports m -> same_conn ci (result m e s) -> conn_info_map s !! t = Some c0 ->
  let s' := exec (ci ← m; store_conn t (add_bytes d n ci)) e s in
  exists ci', conn_info_map s' !! t = Some ci' /\
    dir_bytes d ci' = u64 (dir_bytes d ci + n) /\
    (forall d', d' <> d -> dir_bytes d' ci' = dir_bytes d' ci) /\
    sock_xmit_map s' = sock_xmit_map s.
Proof.
  intros Hr (_ & Hrd & Hwr & _) Ht s'. subst s'. unfold store_conn. run. fsimp.
  pose proof (Hr e s) as Hre. reports_rewrite Hre. rewrite lookup_alter_eq, Ht.
  eexists. split; [reflexivity|].
  split; [|split; [|reflexivity] ]; [|intros d' Hd]; destruct d; try destruct d';
    cbn [add_bytes dir_bytes]; fsimp; congruence.
Qed.

Lemma infer_vecs_reports fuel i args n d ci : keeps reports (infer_vecs fuel i args n d ci).
Proof. revert i. induction fuel as [|fuel IH]; intros i; simpl; keeps_tac. Qed.
#[export] Hint Resolve infer_vecs_reports : keeps.

Lemma same_conn_refl ci : same_conn ci ci.
Proof. done. Qed.

Lemma infer_vecs_same_conn fuel i args n d ci e s :
  same_conn ci (result (infer_vecs fuel i args n d ci) e s).
Proof.
  revert i. induction fuel as [|fuel IH]; intros i; [done|]. cbn [infer_vecs].
  destruct (negb (Z.of_nat i <? da_iovlen args)); [done|]. run.
  destruct (read_iovec e (da_iov args) i) as [base len]. destruct (negb _).
  - run. apply infer_conn_same_conn.
  - apply IH.
Qed.

(** The middle of [process_syscall_data_vecs]. *)
Definition vecs_report (args : data_args) (t : Z) (d : traffic_direction_t) (n : Z)
    (conn_info : conn_info_t) : M conn_info_t :=
  if negb (ci_ssl conn_info) then
    conn_info ← (if needs_inference conn_info
                 then infer_vecs PROTOCOL_VEC_LIMIT 0 args n d conn_info
                 else mret conn_info);
    let seq := u32 (dir_bytes d conn_info + 1) in
    conn_id_s ← local_conn_id_s t;
    if should_trace_conn conn_info then
      report_syscall_evt_vecs seq conn_id_s (u32 n) (data_step false d) args
        (ci_prepend_length_header conn_info) (length_header_of conn_info);;
      mret (conn_info <| ci_prepend_length_header := false |>)
    else mret conn_info
  else
    let seq := u32 (dir_bytes d conn_info + 1) in
    conn_id_s ← local_conn_id_s t;
    report_syscall_buf_without_data seq conn_id_s (u64 n) (data_step false d)
      (da_start_ts args) (ts_delta_of args) (da_source_fn args);;
    mret conn_info.

Lemma vecs_report_reports args t d n ci : keeps reports (vecs_report args t d n ci).
Proof. unfold vecs_report. keeps_tac. Qed.

Lemma vecs_report_same_conn args t d n ci e s :
  same_conn ci (result (vecs_report args t d n ci) e s).
Proof.
  unfold vecs_report. destruct (negb (ci_ssl ci)); run; [|done].
  destruct (needs_inference ci); run.
  - pose proof (infer_vecs_same_conn PROTOCOL_VEC_LIMIT 0 args n d ci e s) as H.
    destruct (should_trace_conn _); run; exact H.
  - destruct (should_trace_conn _); run; done.
Qed.

Lemma process_vecs_eq args id d n nested :
  da_iov args <> 0 -> 0 < da_iovlen args -> 0 <= da_fd args -> 0 < n ->
  process_syscall_data_vecs args id d n nested =
  (let t := gen_tgid_fd (tgid_of id) (da_fd args) in
   o ← lookup_or_create t (da_fd args) d n (u64 (da_end_ts args - 1));
   match o with
   | None => mret tt
   | Some ci => ci ← vecs_report args t d n (mark_ssl nested ci); store_conn t (add_bytes d n ci)
   end).
Proof.
  intros H1 H2 H3 H4. unfold process_syscall_data_vecs.
  rewrite (proj2 (Z.eqb_neq _ _) H1). destruct (Z.leb_spec (da_iovlen args) 0); [lia|].
  destruct (Z.ltb_spec (da_fd args) 0); [lia|]. destruct (Z.leb_spec n 0); [lia|]. done.
Qed.

(** Frame equations stated for any state, so that rewriting with them need not
    compare large states. *)
Lemma scratch_xmit s c : sock_xmit_map (s <| conn_info_t_map := c |>) = sock_xmit_map s.
Proof. done. Qed.
Lemma scratch_conns s c : conn_info_map (s <| conn_info_t_map := c |>) = conn_info_map s.
Proof. done. Qed.
Lemma with_seqs_conns k a b s : conn_info_map (with_seqs k a b s) = conn_info_map s.
Proof. done. Qed.

(** The first data call seen on a descriptor. *)
Section FirstCall.
Context (e : env) (s : bpf) (t fd : Z) (d : traffic_direction_t) (n ts : Z) (ci0 : conn_info_t).
Let p := get_socket_from_fd e fd.
Let k := sk_key e p.
Let sk := read_sock e p.
Let ci1 := new_data_conn e p t (clock e (ticks s)) (ci0 <| ci_protocol := kProtocolUnset |>).
Context (Hnone : conn_info_map s !! t = None) (Hp : p <> 0).
Context (Hscr : conn_info_t_map s = Some ci0) (Hok : create_ok s ci1) (Hroom : roomy s).
Context (Hne : k <> reverse_sock_key_no_copy k).

Lemma lookup_created :
  exists s2, lookup_or_create t fd d n ts e s = (Some ci1, s2) /\
    conn_info_map s2 !! t = Some ci1 /\
    sock_xmit_map s2 !! k = Some (data_iss d kEgress sk n) /\
    sock_xmit_map s2 !! reverse_sock_key_no_copy k = Some (data_iss d kIngress sk n).
Proof using Hnone Hp Hscr Hok Hroom Hne.
  unfold lookup_or_create. steps. rewrite Hnone. steps. fold p. rewrite (proj2 (Z.eqb_neq _ _) Hp).
  steps. rewrite Hscr.
  destruct (create_in_data_run p t d n (ci0 <| ci_protocol := kProtocolUnset |>) ts e s)
    as [ [_ Hrun]|[Hno _] ]; [|exfalso; exact (Hno Hok)].
  rewrite (step_run _ _ _ _ _ _ Hrun). steps. fold ci1 k sk.
  set (s1 := exec (report_conn_evt ci1 kConnect ts) e _).
  pose proof (report_conn_evt_reports ci1 kConnect ts e
    (with_conn t k ci1 (s <| ticks ::= S |>))) as Hr. fold s1 in Hr.
  assert (Hc : conn_info_map s1 !! t = Some ci1).
  { reports_rewrite Hr. unfold with_conn. fsimp. apply update_any_eq. right. apply Hroom. }
  eexists. split; [|split].
  - unfold mret, RS_ret. rewrite scratch_conns, with_seqs_conns, Hc. reflexivity.
  - rewrite scratch_conns, with_seqs_conns. exact Hc.
  - rewrite scratch_xmit. apply with_seqs_lookup; [exact Hne|]. reports_rewrite Hr. apply Hroom.
Qed.

(** The initial sequence numbers match what remains to be transferred. *)
Lemma data_iss_step d' :
  u32 (next_seq d' sk - data_iss d d' sk n) = u32 (done_bytes d d' n + 1).
Proof.
  unfold data_iss. set (a := done_bytes d d' n). rewrite u32_sub_r.
  replace (next_seq d' sk - (u32 (next_seq d' sk) - a - 1))
    with (next_seq d' sk + a + 1 - u32 (next_seq d' sk)) by lia.
  rewrite u32_sub_r. f_equal. lia.
Qed.

Lemma first_call_tail (m : conn_info_t -> M conn_info_t) nested :
  0 < n < 2147483648 -> fresh_conn ci0 -> (forall ci, keeps reports (m ci)) ->
  (forall ci e s, same_conn ci (result (m ci) e s)) ->
  let s' := exec (o ← lookup_or_create t fd d n ts;
    match o with
    | None => mret tt
    | Some ci => ci ← m (mark_ssl nested ci); store_conn t (add_bytes d n ci)
    end) e s in
  exists ci', conn_info_map s' !! t = Some ci' /\ dir_bytes d ci' = n /\ in_step s' k sk ci'.
Proof using Hnone Hp Hscr Hok Hroom Hne.
  intros Hn Hf Hmr Hms s'. subst s'. unfold exec.
  destruct lookup_created as (s2 & Hl & Hc & Hx1 & Hx2).
  rewrite (step_run _ _ _ _ _ _ Hl).
  destruct (store_tail (m (mark_ssl nested ci1)) t d n (mark_ssl nested ci1) ci1 e s2
    (Hmr _) (Hms _ _ _) Hc) as (ci' & H1 & H2 & H3 & H4). unfold exec in *.
  assert (Hz : forall d', dir_bytes d' (mark_ssl nested ci1) = 0).
  { intros d'. rewrite <- (fresh_dir_bytes d' ci1); [by destruct nested, d'|].
    apply new_data_conn_fresh. destruct Hf as (?&?&?&?&?&?&?&?&?&?). by repeat split. }
  rewrite Hz in H2. rewrite u64_small in H2 by lia.
  exists ci'. split; [exact H1|]. split; [lia|]. intros d'. rewrite H4.
  exists (data_iss d d' sk n). split; [by destruct d'|]. rewrite data_iss_step. f_equal.
  destruct (decide (d' = d)) as [->|Hd]; [rewrite H2; by destruct d|].
  rewrite H3, Hz by done. by destruct d, d'.
Qed.
End FirstCall.

(** *** [submit_new_conn] *)

Definition submit_sk (e : env) (fd socket : Z) : Z :=
  let tcp_sk := get_socket_from_fd e fd in
  if tcp_sk =? 0 then so_sk (read_socket e socket) else tcp_sk.

Definition submit_conn (e : env) (tgid fd addr socket : Z) (role : endpoint_role_t) (now : Z)
    : conn_info_t :=
  let p := submit_sk e fd socket in
  addr_from_key e addr socket p (sk_key e p)
    (addr_from_call e addr socket (init_conn tgid fd now conn_info_zero)) <| ci_role := role |>.

Lemma submit_conn_fresh e tgid fd addr so role now :
  fresh_conn (submit_conn e tgid fd addr so role now).
Proof.
  unfold submit_conn. cbv zeta.
  enough (fresh_conn (addr_from_key e addr so (submit_sk e fd so) (sk_key e (submit_sk e fd so))
    (addr_from_call e addr so (init_conn tgid fd now conn_info_zero)))) as H by exact H.
  apply addr_from_key_fresh, addr_from_call_fresh. by repeat split.
Qed.

(** The optional record of one initial sequence number. *)
Definition with_seq_opt (k : sock_key) (seq : Z) (s : bpf) : bpf :=
  if negb (u32 seq =? 0)
  then s <| sock_xmit_map ::= bpf_map_update_elem MAX_ENTRIES BPF_ANY k (u32 (u32 seq - 1)) |>
  else s.

Lemma submit_new_conn_run tgid fd addr so role ts e s :
  let p := submit_sk e fd so in
  let k := sk_key e p in
  let t := gen_tgid_fd tgid fd in
  let ci := submit_conn e tgid fd addr so role (clock e (ticks s)) in
  let s1 := s <| ticks ::= S |> in
  let s2 := exec (report_conn_evt ci kConnect ts) e (with_conn t k ci s1) in
  (create_ok s ci /\ exec (submit_new_conn tgid fd addr so role ts) e s =
     if negb (p =? 0) then
       with_seq_opt (reverse_sock_key_no_copy k) (copied_seq (read_sock e p))
         (with_seq_opt k (write_seq (read_sock e p)) s2)
     else s2) \/
  (~ create_ok s ci /\ exec (submit_new_conn tgid fd addr so role ts) e s = s1).
Proof.
  intros p k t ci s1 s2.
  unfold exec, submit_new_conn, init_conn_info, init_conn_id, bpf_ktime_get_ns. steps.
  fold (submit_sk e fd so). fold p.
  assert (parse_sock_key_sk e p sock_key_zero = ((parse_sock_key_sk e p sock_key_zero).1, k))
    as Hk by apply surjective_pairing.
  rewrite Hk. change (s <| ticks := S (ticks s) |>) with s1. fold t.
  match goal with |- context [create_conn_info ?x t k role ts] => change x with ci end.
  destruct (create_conn_info_run ci t k role ts e s1) as [ [Hok Hrun]|[Hok Hrun] ];
    rewrite (step_run _ _ _ _ _ _ Hrun); cbn [andb]; [left|right]; (split; [exact Hok|]);
    [|reflexivity].
  fold s2. clearbody s2. destruct (negb (p =? 0)); [|reflexivity].
  assert (parse_sock_key_rcv_sk e p k = (true, reverse_sock_key_no_copy k)) as Hr
    by (unfold parse_sock_key_rcv_sk; by rewrite parse_sock_key_sk_again).
  rewrite Hr. unfold record_seq, with_seq_opt.
  destruct (negb (u32 (write_seq _) =? 0)), (negb (u32 (copied_seq _) =? 0)); steps; reflexivity.
Qed.

Lemma with_seq_opt_size k v s :
  Z.of_nat (size (sock_xmit_map (with_seq_opt k v s))) <= Z.of_nat (size (sock_xmit_map s)) + 1.
Proof.
  unfold with_seq_opt. case_match; [|lia]. fsimp. unfold bpf_map_update_elem.
  destruct (sock_xmit_map s !! k) eqn:E; [rewrite map_size_insert_Some by done; lia|].
  case_match; [rewrite map_size_insert_None by done|]; lia.
Qed.

Lemma with_seq_opt_eq k v s :
  u32 v <> 0 -> Z.of_nat (size (sock_xmit_map s)) < MAX_ENTRIES ->
  sock_xmit_map (with_seq_opt k v s) !! k = Some (u32 (u32 v - 1)).
Proof.
  intros Hv Hs. unfold with_seq_opt. rewrite (proj2 (Z.eqb_neq _ _) Hv). cbn [negb]. fsimp.
  apply update_any_eq. by right.
Qed.

Lemma with_seq_opt_ne k k' v s :
  k <> k' -> sock_xmit_map (with_seq_opt k v s) !! k' = sock_xmit_map s !! k'.
Proof. intros. unfold with_seq_opt. case_match; fsimp; [by apply update_ne|done]. Qed.

Lemma with_seq_opt_conns k v s : conn_info_map (with_seq_opt k v s) = conn_info_map s.
Proof. unfold with_seq_opt. by case_match. Qed.

Lemma with_seq_opt_perf k v s : perf (with_seq_opt k v s) = perf s.
Proof. unfold with_seq_opt. by case_match. Qed.

Lemma u32_pred_step x : u32 (x - u32 (u32 x - 1)) = 1.
Proof.
  rewrite u32_sub_r. replace (x - (u32 x - 1)) with (x + 1 - u32 x) by lia. rewrite u32_sub_r.
  by replace (x + 1 - x) with 1 by lia.
Qed.

(** *** Addresses and keys *)

Lemma addr32_0_set v a : addr32_0 (set_addr32_0 v a) = u32 v.
Proof.
  unfold addr32_0, set_addr32_0. cbn [addr64_0].
  rewrite u32_add_r. replace (addr64_0 a - u32 (addr64_0 a) + v)
    with (addr64_0 a + v - u32 (addr64_0 a)) by lia.
  rewrite u32_sub_r. f_equal. lia.
Qed.

Lemma key_of_conn4 f g sp dp ci :
  key_of_conn (set_family AF_INET (set_raddr f (set_laddr g (set_rport dp (set_lport sp ci))))) =
  mk_sock_key (addr32_0 (g (sin6_addr (ci_laddr ci)))) 0 (addr32_0 (f (sin6_addr (ci_raddr ci)))) 0 sp dp.
Proof. reflexivity. Qed.

(** The key rebuilt from a connection entered at a data call is the key of its
    socket, when the family recorded is that of the socket. *)
Lemma new_data_conn_key e p t now ci0 :
  sock_ok (read_sock e p) ->
  (skc_family (read_sock e p) = AF_INET /\ use_ipv6 e p = false \/
   skc_family (read_sock e p) = AF_INET6 /\ use_ipv6 e p = true) ->
  key_of_conn (new_data_conn e p t now ci0) = sk_key e p.
Proof.
  intros Hok [ [Hf Hu]|[Hf Hu] ]; unfold new_data_conn, data_addr; rewrite Hu.
  - destruct (sk_key4 e p Hok Hf) as (H1 & H2 & H3 & H4). rewrite Z.eqb_refl, key_of_conn4.
    rewrite !addr32_0_set, !u32_small by done. destruct (sk_key e p); cbn in *. by subst.
  - rewrite Hf. by destruct (sk_key e p).
Qed.

(** *** System calls inside an SSL call *)

Lemma nested_fold fd (Hfd : fd <> kInvalidFD) calls n :
  ns_fd n = fd ->
  let n' := foldl (fun n c => update_fd_and_syscall_len_to_uprobe n c.1 c.2) n calls in
  ns_fd n' = fd /\
  (ns_mismatched_fds n' = true <-> ns_mismatched_fds n = true \/ exists c, c ∈ calls /\ c.1 <> fd) /\
  u32 (ns_syscall_len n') = u32 (ns_syscall_len n + foldr (fun c t => Z.max 0 c.2 + t) 0 calls) /\
  (u32 (ns_syscall_len n) = ns_syscall_len n -> u32 (ns_syscall_len n') = ns_syscall_len n').
Proof.
  revert n. induction calls as [|[f l] calls IH]; intros n Hn; cbn [foldl foldr fst snd].
  - split; [done|]. split; [|by rewrite Z.add_0_r].
    split; [auto|]. intros [?|(c & Hc & _)]; [done|]. by apply elem_of_nil in Hc.
  - set (n1 := update_fd_and_syscall_len_to_uprobe n f l).
    assert (ns_fd n1 = fd /\
      (ns_mismatched_fds n1 = true <-> ns_mismatched_fds n = true \/ f <> fd) /\
      u32 (ns_syscall_len n1) = u32 (ns_syscall_len n + Z.max 0 l) /\
      (u32 (ns_syscall_len n) = ns_syscall_len n -> u32 (ns_syscall_len n1) = ns_syscall_len n1))
      as (H1 & H2 & H3 & H4).
    { subst n1. unfold update_fd_and_syscall_len_to_uprobe. rewrite Hn.
      rewrite (proj2 (Z.eqb_neq _ _) Hfd).
      destruct (Z.eqb_spec fd f) as [->|Hf]; cbn [negb];
        (destruct (Z.ltb_spec 0 l); fsimp; [rewrite u32_idem, Z.max_r by lia
                                           |rewrite Z.max_l, Z.add_0_r by lia]);
        (split; [done|]); (split; [|split; [done|by rewrite ?u32_idem] ]); intuition congruence. }
    destruct (IH n1 H1) as (E1 & E2 & E3 & E4). split; [done|]. split; [|split; [|by auto] ].
    + rewrite E2, H2. split.
      * intros [ [?|?]|(c & Hc & ?)]; [by left| |].
        -- right. exists (f, l). split; [by left|done].
        -- right. exists c. split; [by right|done].
      * intros [?|(c & Hc & Hne)]; [by left; left|].
        apply elem_of_cons in Hc as [->|Hc]; [left; by right|right; eauto].
    + rewrite E3, <- u32_add_l, H3, u32_add_l. f_equal. lia.
Qed.

(** ** Properties *)


(** [stream_numbering] for a write, a writev of two vectors and a sendfile. *)
Definition conn_http : conn_info_t :=
  conn_info_zero <| ci_protocol := kProtocolHTTP |> <| ci_role := kRoleServer |>
    <| ci_write_bytes := 100 |>.
Definition state_http : bpf := bpf_init <| conn_info_map := {[gen_tgid_fd 10 3 := conn_http]} |>.
Definition calls_example : list (env * data_call) :=
  let vec base len := le_encode 8 base ++ le_encode 8 len in
  [(env0, call_buf (data_args_zero <| da_fd := 3 |> <| da_buf := 4096 |>) 5);
   (env0 <| umem := mem_at 4096 (vec 8192 4 ++ vec 8200 6) |>,
    call_vecs (data_args_zero <| da_fd := 3 |> <| da_iov := 4096 |> <| da_iovlen := 2 |>) 10);
   (env0, call_sendfile (mk_sendfile_args 3 4 1000 1 2) 1000)].


(** C32: a connection entered by [connect] or [accept] whose socket has both its
    sequence numbers is numbered alike by the system calls and by the packets,
    in both directions: the next byte is number 1. *)
Theorem submit_new_conn_in_step tgid fd addr so role ts e s :
  let p := (let sk := get_socket_from_fd e fd in if sk =? 0 then so_sk (read_socket e so) else sk) in
  let k := (parse_sock_key_sk e p sock_key_zero).2 in
  let ci := submit_conn e tgid fd addr so role (clock e (ticks s)) in
  p <> 0 -> create_ok s ci -> roomy s -> k <> reverse_sock_key_no_copy k ->
  u32 (write_seq (read_sock e p)) <> 0 -> u32 (copied_seq (read_sock e p)) <> 0 ->
  let s' := exec (submit_new_conn tgid fd addr so role ts) e s in
  conn_info_map s' !! gen_tgid_fd tgid fd = Some ci /\
  in_step s' k (read_sock e p) ci /\ (forall d, dir_bytes d ci = 0) /\ ci_role ci = role.
Proof.
  cbv zeta. fold (submit_sk e fd so). fold (sk_key e (submit_sk e fd so)).
  set (p := submit_sk e fd so). set (k := sk_key e p).
  set (ci := submit_conn e tgid fd addr so role (clock e (ticks s))).
  intros Hp Hok [Hr1 Hr2] Hne Hw Hc.
  destruct (submit_new_conn_run tgid fd addr so role ts e s) as [ [_ Hrun]|[Hno _] ];
    [|exfalso; exact (Hno Hok)].
  fold p k ci in Hrun. rewrite (proj2 (Z.eqb_neq _ _) Hp) in Hrun. cbn [negb] in Hrun.
  set (w := with_conn _ _ _ _) in Hrun.
  pose proof (report_conn_evt_reports ci kConnect ts e w) as Hr.
  set (s2 := exec (report_conn_evt ci kConnect ts) e w) in *.
  assert (Hx : sock_xmit_map s2 = sock_xmit_map s) by (reports_rewrite Hr; done).
  assert (Hfr : forall d, dir_bytes d ci = 0) by (intros d; apply fresh_dir_bytes, submit_conn_fresh).
  rewrite Hrun. split; [|split; [|split; [done|reflexivity] ] ].
  - rewrite !with_seq_opt_conns. reports_rewrite Hr. apply update_any_eq. right. exact Hr1.
  - intros d. rewrite Hfr. exists (u32 (u32 (next_seq d (read_sock e p)) - 1)).
    split; [|by rewrite u32_pred_step]. destruct d; cbn [dir_key next_seq].
    + rewrite with_seq_opt_ne by done. apply with_seq_opt_eq; [done|]. rewrite Hx. lia.
    + apply with_seq_opt_eq; [done|].
      pose proof (with_seq_opt_size k (write_seq (read_sock e p)) s2). rewrite Hx in *. lia.
Qed.

(** A process with a connected socket at descriptor 3: 10.0.0.1:40000 to
    10.0.0.2:80, the next byte to send is 5003, the next to read 9001. *)
Definition sock_conn : sock :=
  mk_sock AF_INET 33554442 16777226 in6_zero in6_zero 40000 20480 0 16540 5003 9001.
Definition env_conn : env :=
  env0 <| fd_table := fun fd => if fd =? 3 then 50 else 0 |>
       <| file_private_data := fun f => if f =? 50 then 60 else 0 |>
       <| socket_at := fun p => if p =? 60 then Some (mk_socket SOCK_STREAM 50 100) else None |>
       <| sock_at := fun p => if p =? 100 then Some sock_conn else None |>.

Lemma no_filter s ci :
  control_values s = ∅ -> enabled_local_port_map s = ∅ -> enabled_remote_port_map s = ∅ ->
  enabled_remote_ip_map s = ∅ -> conn_selected s ci.
Proof.
  intros H1 H2 H3 H4. unfold conn_selected. rewrite H1, H2, H3, H4.
  split; [intros v Hv; by rewrite lookup_empty in Hv|].
  repeat split; intros Hx; rewrite lookup_empty in Hx; by destruct Hx.
Qed.

Lemma only_pid_filter s ci :
  control_values s = {[control_value_index_val kEnableFilterByPid := 1]} ->
  enabled_local_port_map s = ∅ -> enabled_remote_port_map s = ∅ ->
  enabled_remote_ip_map s = ∅ -> conn_selected s ci.
Proof.
  intros H1 H2 H3 H4. unfold conn_selected. rewrite H1, H2, H3, H4.
  split; [intros v Hv; by apply lookup_singleton_Some in Hv as [? ?]|].
  repeat split; intros Hx; rewrite lookup_empty in Hx; by destruct Hx.
Qed.

(** [submit_new_conn_in_step] for a [connect] whose handshake is done. *)
Lemma submit_new_conn_in_step_witness :
  let s' := exec (submit_new_conn 10 3 0 0 kRoleClient 77) env_conn bpf_init in
  let ci := submit_conn env_conn 10 3 0 0 kRoleClient 1000 in
  conn_info_map s' !! gen_tgid_fd 10 3 = Some ci /\
  in_step s' key_out_example sock_conn ci /\ (forall d, dir_bytes d ci = 0) /\
  ci_role ci = kRoleClient.
Proof.
  apply (submit_new_conn_in_step 10 3 0 0 kRoleClient 77 env_conn bpf_init).
  - vm_compute. congruence.
  - split; [reflexivity|]. split; [by apply no_filter|]. vm_compute. congruence.
  - split; vm_compute; congruence.
  - vm_compute. congruence.
  - vm_compute. congruence.
  - vm_compute. congruence.
Defined.

(** C15: a connection first seen at a read or write of [n] bytes is entered with
    initial sequence numbers that put system calls and packets in step in both
    directions: the [n] bytes of this call have the numbers 1 to [n] for the
    packets that carry them as for the call, whatever the single buffer or the
    vectors held and whether or not a protocol was inferred from them. *)
Theorem first_data_call_in_step args id d n nested e s ci0 :
  let t := gen_tgid_fd (tgid_of id) (da_fd args) in
  let p := get_socket_from_fd e (da_fd args) in
  let k := (parse_sock_key_sk e p sock_key_zero).2 in
  conn_info_map s !! t = None -> p <> 0 ->
  conn_info_t_map s = Some ci0 -> fresh_conn ci0 ->
  create_ok s (new_data_conn e p t (clock e (ticks s)) (ci0 <| ci_protocol := kProtocolUnset |>)) ->
  roomy s -> k <> reverse_sock_key_no_copy k -> 0 < n < 2147483648 ->
  (passes s (tgid_of id) ->
     let s' := exec (process_syscall_data args id d n nested) e s in
     exists ci', conn_info_map s' !! t = Some ci' /\ dir_bytes d ci' = n /\
       in_step s' k (read_sock e p) ci') /\
  (da_iov args <> 0 -> 0 < da_iovlen args -> 0 <= da_fd args ->
     let s' := exec (process_syscall_data_vecs args id d n nested) e s in
     exists ci', conn_info_map s' !! t = Some ci' /\ dir_bytes d ci' = n /\
       in_step s' k (read_sock e p) ci').
Proof.
  intros t p k Hnone Hp Hscr Hf Hok Hroom Hne Hn. split.
  - intros Hpass s'. subst s'. unfold process_syscall_data, exec.
    destruct (Z.leb_spec n 0); [lia|]. rewrite passes_step by done.
    apply (first_call_tail e s t (da_fd args) d n (u64 (da_end_ts args - 1)) ci0 Hnone Hp Hscr Hok
      Hroom Hne (fun ci => process_syscall_data_with_conn_info args t d n ci 0 false (negb (ci_ssl ci)))
      nested Hn Hf); intros; [apply process_data_reports|apply process_data_same_conn].
  - intros H1 H2 H3 s'. subst s'. rewrite process_vecs_eq by (done || lia).
    apply (first_call_tail e s t (da_fd args) d n (u64 (da_end_ts args - 1)) ci0 Hnone Hp Hscr Hok
      Hroom Hne (vecs_report args t d n) nested Hn Hf);
      intros; [apply vecs_report_reports|apply vecs_report_same_conn].
Qed.

(** [first_data_call_in_step] for a write of 3 bytes that starts at 5000. *)
Lemma first_data_call_in_step_witness :
  let args := data_args_zero <| da_fd := 3 |> <| da_buf := 4096 |> <| da_end_ts := 9 |> in
  let s' := exec (process_syscall_data args (10 * 4294967296) kEgress 3 false) env_conn bpf_init in
  exists ci', conn_info_map s' !! gen_tgid_fd 10 3 = Some ci' /\ dir_bytes kEgress ci' = 3 /\
    in_step s' key_out_example sock_conn ci'.
Proof.
  intros args.
  apply (first_data_call_in_step args (10 * 4294967296) kEgress 3 false env_conn bpf_init conn_info_zero).
  - reflexivity.
  - vm_compute. congruence.
  - reflexivity.
  - by repeat split.
  - split; [reflexivity|]. split; [by apply no_filter|]. vm_compute. congruence.
  - split; vm_compute; congruence.
  - vm_compute. congruence.
  - lia.
  - left. intros [? ?]. discriminate.
Defined.

(** C39: the process filter holds for calls with a single buffer and for sendfile
    and is bypassed by calls with vectors.  With the filter set and the process
    not selected, [process_syscall_data] and [process_syscall_sendfile] change
    nothing, while [process_syscall_data_vecs] never consults the filter: the
    same process's first [readv], [writev], [sendmsg] or [recvmsg] on a socket
    enters its connection and counts its bytes. *)
Theorem vectors_bypass_process_filter args sargs id d n nested e s ci0 :
  let t := gen_tgid_fd (tgid_of id) (da_fd args) in
  let p := get_socket_from_fd e (da_fd args) in
  let k := (parse_sock_key_sk e p sock_key_zero).2 in
  filter_enabled s -> ~ tgid_selected e s (tgid_of id) ->
  conn_info_map s !! t = None -> p <> 0 ->
  conn_info_t_map s = Some ci0 -> fresh_conn ci0 ->
  create_ok s (new_data_conn e p t (clock e (ticks s)) (ci0 <| ci_protocol := kProtocolUnset |>)) ->
  roomy s -> k <> reverse_sock_key_no_copy k -> 0 < n < 2147483648 ->
  da_iov args <> 0 -> 0 < da_iovlen args -> 0 <= da_fd args ->
  exec (process_syscall_data args id d n nested) e s = s /\
  exec (process_syscall_sendfile id sargs n) e s = s /\
  exists ci', conn_info_map (exec (process_syscall_data_vecs args id d n nested) e s) !! t = Some ci' /\
    dir_bytes d ci' = n.
Proof.
  intros t p k Hfe Hns Hnone Hp Hscr Hf Hok Hroom Hne Hn H1 H2 H3.
  split; [|split].
  - unfold process_syscall_data, exec. destruct (Z.leb_spec n 0); [lia|]. by rewrite unselected_step.
  - unfold process_syscall_sendfile, exec. destruct (sfa_out_fd sargs <? 0); [done|].
    destruct (Z.leb_spec n 0); [lia|]. by rewrite unselected_step.
  - rewrite process_vecs_eq by (done || lia).
    destruct (first_call_tail e s t (da_fd args) d n (u64 (da_end_ts args - 1)) ci0 Hnone Hp Hscr Hok
      Hroom Hne (vecs_report args t d n) nested Hn Hf) as (ci' & ? & ? & _);
      [intros; apply vecs_report_reports|intros; apply vecs_report_same_conn|]. eauto.
Qed.

(** [vectors_bypass_process_filter] for a [writev] of 3 bytes by process 10 when
    no process is selected. *)
Lemma vectors_bypass_process_filter_witness :
  let args := data_args_zero <| da_fd := 3 |> <| da_iov := 4096 |> <| da_iovlen := 1 |>
    <| da_end_ts := 9 |> in
  let s := bpf_init <| control_values := {[control_value_index_val kEnableFilterByPid := 1]} |> in
  let id := 10 * 4294967296 in
  exec (process_syscall_data args id kEgress 3 false) env_conn s = s /\
  exec (process_syscall_sendfile id (mk_sendfile_args 3 4 3 1 2) 3) env_conn s = s /\
  exists ci', conn_info_map (exec (process_syscall_data_vecs args id kEgress 3 false) env_conn s) !!
    gen_tgid_fd 10 3 = Some ci' /\ dir_bytes kEgress ci' = 3.
Proof.
  intros args s id.
  apply (vectors_bypass_process_filter args (mk_sendfile_args 3 4 3 1 2) id kEgress 3 false env_conn s
    conn_info_zero).
  - by eexists.
  - intros [ [? ?]|[ [ Hx _]|[_ [ [? ?]|[ [? ?]|[? ?] ] ] ] ] ]; try discriminate. by apply Hx.
  - reflexivity.
  - vm_compute. congruence.
  - reflexivity.
  - by repeat split.
  - split; [reflexivity|]. split; [by apply only_pid_filter|]. vm_compute. congruence.
  - split; vm_compute; congruence.
  - vm_compute. congruence.
  - lia.
  - vm_compute. congruence.
  - vm_compute. reflexivity.
  - vm_compute. congruence.
Defined.

(** The step is kept: a later call of [n] bytes, after which the socket has
    advanced by [n] in the direction of the call, leaves system calls and
    packets numbered alike. *)
Theorem data_call_keeps_step id fd d c e s ci k sk sk' :
  conn_info_map s !! gen_tgid_fd (tgid_of id) fd = Some ci -> streaming ci -> scratch_ok s ->
  passes s (tgid_of id) -> 0 <= fd -> call_ok fd d c ->
  in_step s k sk ci ->
  u32 (next_seq d sk') = u32 (next_seq d sk + call_bytes c) ->
  (forall d', d' <> d -> u32 (next_seq d' sk') = u32 (next_seq d' sk)) ->
  let s' := exec (run_call id d c) e s in
  exists ci', conn_info_map s' !! gen_tgid_fd (tgid_of id) fd = Some ci' /\ in_step s' k sk' ci' /\
    streaming ci' /\ scratch_ok s' /\ passes s' (tgid_of id).
Proof.
  intros Hci Hst Hsc Hp Hfd Hc Hin Hadv Hoth s'.
  pose proof (run_call_effect s e id fd d ci c Hci Hst Hsc Hp Hfd Hc) as Heff. fold s' in Heff.
  destruct (call_effect_next _ _ _ _ _ _ _ _ Hci Hst Hsc Hp Heff)
    as (ci' & l & _ & _ & H1 & H2 & H3 & H4 & H5 & H6).
  exists ci'. split; [done|]. split; [|done]. intros d'.
  destruct (Hin d') as (iss & Hx & Hiss). exists iss. split.
  - destruct Heff as (s1 & l' & p & Hr & _ & _ & ->). fsimp. reports_rewrite Hr. done.
  - destruct (decide (d' = d)) as [->|Hd].
    + rewrite H2, <- u32_sub_l, Hadv, u32_sub_l.
      replace (next_seq d sk + call_bytes c - iss) with (call_bytes c + (next_seq d sk - iss)) by lia.
      rewrite <- u32_add_r, Hiss, u32_add_r, <- (u32_add_l (u64 _)), u32_u64, u32_add_l. f_equal. lia.
    + rewrite H3, <- u32_sub_l, (Hoth d'), u32_sub_l by done. done.
Qed.

(** [data_call_keeps_step] for a read of 6 bytes. *)
Lemma data_call_keeps_step_witness :
  let s := state_http <| sock_xmit_map := {[key_out_example := 4902; key_example := 9000]} |> in
  let c := call_buf (data_args_zero <| da_fd := 3 |>) 6 in
  let sk' := mk_sock AF_INET 33554442 16777226 in6_zero in6_zero 40000 20480 0 16540 5003 9007 in
  let s' := exec (run_call (10 * 4294967296) kIngress c) env0 s in
  exists ci', conn_info_map s' !! gen_tgid_fd 10 3 = Some ci' /\
    in_step s' key_out_example sk' ci' /\ streaming ci' /\ scratch_ok s' /\ passes s' 10.
Proof.
  intros s c sk'.
  apply (data_call_keeps_step (10 * 4294967296) 3 kIngress c env0 s conn_http key_out_example
    sock_conn sk').
  - reflexivity.
  - repeat split.
  - repeat split; eexists; reflexivity.
  - left. intros [? ?]. discriminate.
  - lia.
  - split; [cbn; lia|reflexivity].
  - intros []; eexists; (split; [vm_compute; reflexivity|reflexivity]).
  - reflexivity.
  - intros [] ?; [reflexivity|congruence].
Defined.

(** [create_conn_info] enters a connection exactly when it is traced, passes
    every filter that is set and has a local port; it then maps the descriptor
    to the connection and the key to the descriptor, unless the key has one
    already, and reports [kConnect]; otherwise nothing changes. *)
Theorem create_conn_info_spec ci t k r ts e s :
  (result (create_conn_info ci t k r ts) e s = true <-> create_ok s ci) /\
  (~ create_ok s ci -> exec (create_conn_info ci t k r ts) e s = s) /\
  (create_ok s ci -> roomy s -> scratch_ok s ->
   let s' := exec (create_conn_info ci t k r ts) e s in
   conn_info_map s' !! t = Some ci /\
   (forall t', t' <> t -> conn_info_map s' !! t' = conn_info_map s !! t') /\
   (forall c, sock_key_conn_id_map s !! k = Some c -> sock_key_conn_id_map s' !! k = Some c) /\
   (sock_key_conn_id_map s !! k = None ->
    Z.of_nat (size (sock_key_conn_id_map s)) < MAX_ENTRIES ->
    sock_key_conn_id_map s' !! k = Some (mk_conn_id_s t unset)) /\
   (ts <> 0 -> perf s' = perf s ++ [conn_evt_rb (mk_conn_evt ci kConnect ts)])).
Proof.
  destruct (create_conn_info_run ci t k r ts e s) as [ [Hok Hrun]|[Hok Hrun] ];
    unfold result, exec; rewrite Hrun; cbn [fst snd].
  - split; [tauto|]. split; [tauto|]. intros _ [Hr1 _] Hsc. cbv zeta.
    pose proof (report_conn_evt_reports ci kConnect ts e (with_conn t k ci s)) as Hr.
    reports_rewrite Hr. unfold with_conn at 1 2 3 4. fsimp.
    split; [apply update_any_eq; by right|]. split; [intros; by rewrite update_ne|].
    split; [intros; by apply update_noexist_old|]. split; [intros; by apply update_noexist_new|].
    intros Hts. destruct Hsc as (_ & _ & _ & [evt Hevt] & _).
    unfold report_conn_evt. run. change (conn_evt_map (with_conn t k ci s)) with (conn_evt_map s).
    rewrite Hevt. rewrite (proj2 (Z.eqb_neq _ _) Hts). cbn [negb]. run. reflexivity.
  - split; [split; [done|tauto]|]. split; [done|]. tauto.
Qed.

(** [create_conn_info_spec] with a remote port filter for port 80. *)
Lemma create_conn_info_spec_witness :
  let ci := set_rport 80 (set_lport 40000 conn_info_zero) in
  let s := bpf_init <| enabled_remote_port_map := {[1 := 1; 80 := 1]} |> in
  perf (exec (create_conn_info ci 5 key_example kRoleClient 77) env0 s) =
    [] ++ [conn_evt_rb (mk_conn_evt ci kConnect 77)].
Proof.
  intros ci s.
  apply (create_conn_info_spec ci 5 key_example kRoleClient 77 env0 s).
  - split; [reflexivity|]. split; [|vm_compute; congruence].
    split; [intros v Hv; discriminate|]. split; [intros [? ?]; discriminate|].
    split; [intros _; eexists; reflexivity|intros [? ?]; discriminate].
  - split; vm_compute; congruence.
  - repeat split; eexists; reflexivity.
  - lia.
Defined.

(** The close of a descriptor forgets its connection: one [kClose] event with
    the entry as it was, the entry removed, and, for a connection entered at a
    read or write on an IPv4 socket or on an IPv6-only one, the entry of the
    socket's key removed with it; every other entry stays.  A failed close or
    an unknown descriptor changes nothing. *)
Theorem close_forgets_connection ret args id e s ci :
  let t := gen_tgid_fd (tgid_of id) (cla_fd args) in
  let s' := exec (process_syscall_close ret args id) e s in
  (ret < 0 \/ conn_info_map s !! t = None -> s' = s) /\
  (0 <= ret -> conn_info_map s !! t = Some ci -> scratch_ok s ->
   conn_info_map s' = delete t (conn_info_map s) /\
   sock_key_conn_id_map s' = delete (key_of_conn ci) (sock_key_conn_id_map s) /\
   (exists ts, perf s' = perf s ++ [conn_evt_rb (mk_conn_evt ci kClose ts)]) /\
   (forall e0 p t0 now ci0, ci = new_data_conn e0 p t0 now ci0 -> sock_ok (read_sock e0 p) ->
      (skc_family (read_sock e0 p) = AF_INET /\ use_ipv6 e0 p = false \/
       skc_family (read_sock e0 p) = AF_INET6 /\ use_ipv6 e0 p = true) ->
      sock_key_conn_id_map s' !! (parse_sock_key_sk e0 p sock_key_zero).2 = None)).
Proof.
  intros t s'. subst s'. unfold process_syscall_close.
  destruct (Z.ltb_spec (u32 (cla_fd args)) 0) as [Hneg|_].
  { pose proof (u32_range (cla_fd args)). lia. }
  split.
  - intros Hc. destruct (Z.ltb_spec ret 0); [done|]. run. fold t.
    destruct Hc as [|Hc]; [lia|]. by rewrite Hc.
  - intros Hret Hci Hsc. destruct (Z.ltb_spec ret 0); [lia|]. run. fold t. rewrite Hci. run.
    pose proof (report_conn_evt_reports ci kClose 0 e s) as Hr.
    set (s1 := exec (report_conn_evt ci kClose 0) e s) in *. fsimp. reports_rewrite Hr.
    split; [done|]. split; [done|]. split.
    + exists (clock e (ticks s)). subst s1. destruct Hsc as (_ & _ & _ & [evt Hevt] & _).
      unfold report_conn_evt. run. rewrite Hevt. run. reflexivity.
    + intros e0 p t0 now ci0 -> Hok Hf. rewrite new_data_conn_key by done.
      apply lookup_delete_eq.
Qed.

(** [close_forgets_connection] after a first write. *)
Lemma close_forgets_connection_witness :
  let ci := new_data_conn env_conn 100 (gen_tgid_fd 10 3) 1000 conn_info_zero in
  let s := bpf_init <| conn_info_map := {[gen_tgid_fd 10 3 := ci]} |>
    <| sock_key_conn_id_map := {[key_out_example := mk_conn_id_s (gen_tgid_fd 10 3) unset]} |> in
  let s' := exec (process_syscall_close 0 (mk_close_args 3) (10 * 4294967296)) env_conn s in
  conn_info_map s' = delete (gen_tgid_fd 10 3) (conn_info_map s) /\
  sock_key_conn_id_map s' !! key_out_example = None.
Proof.
  intros ci s.
  destruct (close_forgets_connection 0 (mk_close_args 3) (10 * 4294967296) env_conn s ci) as [_ H].
  destruct H as (H1 & _ & _ & H2); [lia|reflexivity|repeat split; eexists; reflexivity|].
  split; [exact H1|].
  apply (H2 env_conn 100 (gen_tgid_fd 10 3) 1000 conn_info_zero eq_refl).
  - change (read_sock env_conn 100) with sock_conn. split; cbn; try lia.
    rewrite !Forall_cons. repeat split; lia || constructor.
  - left. split; reflexivity.
Defined.

(** On a dual-stack IPv6 socket [use_ipv6] is false, so a connection entered
    at a read or write keeps only four bytes of each address under the family
    AF_INET; the key its close rebuilds differs from the key of the socket, and
    the entry of that key outlives the connection. *)
Theorem dual_stack_close_leaks ret args id e s e0 p t0 now ci0 c :
  let ci := new_data_conn e0 p t0 now ci0 in
  let t := gen_tgid_fd (tgid_of id) (cla_fd args) in
  let k := (parse_sock_key_sk e0 p sock_key_zero).2 in
  skc_family (read_sock e0 p) = AF_INET6 -> use_ipv6 e0 p = false ->
  addr64_1 (skc_v6_daddr (read_sock e0 p)) <> 0 ->
  0 <= ret -> conn_info_map s !! t = Some ci -> sock_key_conn_id_map s !! k = Some c ->
  let s' := exec (process_syscall_close ret args id) e s in
  conn_info_map s' !! t = None /\ sock_key_conn_id_map s' !! k = Some c /\
  sin6_family (ci_raddr ci) = AF_INET.
Proof.
  intros ci t k Hf Hu Hd Hret Hci Hk s'. subst s'. unfold process_syscall_close.
  destruct (Z.ltb_spec (u32 (cla_fd args)) 0) as [Hneg|_].
  { pose proof (u32_range (cla_fd args)). lia. }
  destruct (Z.ltb_spec ret 0); [lia|]. run. fold t. rewrite Hci. run.
  pose proof (report_conn_evt_reports ci kClose 0 e s) as Hr.
  set (s1 := exec (report_conn_evt ci kClose 0) e s) in *. fsimp. reports_rewrite Hr.
  assert (Hfam : sin6_family (ci_laddr ci) = AF_INET /\ sin6_family (ci_raddr ci) = AF_INET).
  { subst ci. unfold new_data_conn, data_addr. rewrite Hu. done. }
  split; [apply lookup_delete_eq|]. split; [|apply Hfam].
  rewrite lookup_delete_ne; [done|]. intros Hkey. apply Hd.
  assert (dip1 k = addr64_1 (skc_v6_daddr (read_sock e0 p))) as <-.
  { subst k. unfold parse_sock_key_sk. rewrite Hf. done. }
  rewrite <- Hkey. unfold key_of_conn. rewrite (proj1 Hfam). done.
Qed.

(** [dual_stack_close_leaks] for a connection between [2001:db8::1] and [2001:db8::2]. *)
Definition sock_dual : sock :=
  mk_sock AF_INET6 0 0 (mk_in6_addr 3087007777 144115188075855872)
    (mk_in6_addr 3087007777 72057594037927936) 40000 20480 65 16540 5003 9001.
Definition env_dual : env :=
  env_conn <| sock_at := fun p => if p =? 100 then Some sock_dual else None |>.
Definition key_dual : sock_key := (parse_sock_key_sk env_dual 100 sock_key_zero).2.
Lemma dual_stack_close_leaks_witness :
  let ci := new_data_conn env_dual 100 (gen_tgid_fd 10 3) 1000 conn_info_zero in
  let c := mk_conn_id_s (gen_tgid_fd 10 3) unset in
  let s := bpf_init <| conn_info_map := {[gen_tgid_fd 10 3 := ci]} |>
    <| sock_key_conn_id_map := {[key_dual := c]} |> in
  let s' := exec (process_syscall_close 0 (mk_close_args 3) (10 * 4294967296)) env_dual s in
  conn_info_map s' !! gen_tgid_fd 10 3 = None /\ sock_key_conn_id_map s' !! key_dual = Some c /\
  sin6_family (ci_raddr ci) = AF_INET.
Proof.
  intros ci c s.
  apply (dual_stack_close_leaks 0 (mk_close_args 3) (10 * 4294967296) env_dual s env_dual 100
    (gen_tgid_fd 10 3) 1000 conn_info_zero c);
    first [reflexivity | lia | vm_compute; congruence].
Defined.

(** The per-CPU structure from which data calls make connections is reused
    without being cleared: an IPv4 connection entered after an IPv6 one keeps
    the upper twelve bytes of the IPv6 addresses, so that with a remote address
    filter that selects IPv4 addresses only, the connection is refused although
    its address is selected. *)
Theorem scratch_address_leak e p t d n ci0 ts s :
  skc_family (read_sock e p) = AF_INET -> use_ipv6 e p = false ->
  addr64_1 (sin6_addr (ci_raddr ci0)) <> 0 ->
  is_Some (enabled_remote_ip_map s !! in6_one) ->
  (forall a, is_Some (enabled_remote_ip_map s !! a) -> addr64_1 a = 0) ->
  let r := create_conn_info_in_data_syscall p t d n ci0 ts in
  (result r e s).1 = false /\
  addr64_1 (sin6_addr (ci_raddr (result r e s).2)) = addr64_1 (sin6_addr (ci_raddr ci0)) /\
  conn_info_map (exec r e s) = conn_info_map s.
Proof.
  intros Hf Hu Hstale Hon H4 r.
  assert (Hup : forall now, addr64_1 (sin6_addr (ci_raddr (new_data_conn e p t now ci0))) =
    addr64_1 (sin6_addr (ci_raddr ci0))).
  { intros now. unfold new_data_conn, data_addr. rewrite Hu. reflexivity. }
  destruct (create_in_data_run p t d n ci0 ts e s) as [ [Hok Hrun]|[_ Hrun] ].
  - exfalso. destruct Hok as (_ & (_ & _ & _ & Hip) & _). apply Hstale. rewrite <- (Hup (clock e (ticks s))).
    apply H4, Hip, Hon.
  - subst r. unfold result, exec. rewrite Hrun. cbn [fst snd]. split; [done|]. split; [apply Hup|done].
Qed.

(** [scratch_address_leak]: 10.0.0.2 is selected, the previous connection on the
    CPU was to [2001:db8::2]. *)
Lemma scratch_address_leak_witness :
  let ci0 := set_raddr (fun _ => skc_v6_daddr sock_dual) conn_info_zero in
  let s := bpf_init <| enabled_remote_ip_map := {[in6_one := 1; mk_in6_addr 33554442 0 := 1]} |> in
  (result (create_conn_info_in_data_syscall 100 7 kEgress 3 ci0 77) env_conn s).1 = false /\
  (result (create_conn_info_in_data_syscall 100 7 kEgress 3 conn_info_zero 77) env_conn s).1 = true.
Proof.
  intros ci0 s. split; [|vm_compute; reflexivity].
  apply (scratch_address_leak env_conn 100 7 kEgress 3 ci0 77 s);
    [reflexivity|reflexivity|vm_compute; congruence|eexists; reflexivity|].
  intros a [v Hv]. subst s. fsimp.
  destruct (decide (a = in6_one)) as [->|Hne]; [reflexivity|].
  rewrite lookup_insert_ne in Hv by done.
  apply lookup_singleton_Some in Hv as [<- _]. reflexivity.
Defined.

(** A connection entered implicitly by an addressed send or receive is
    reported as opened at the number of the system call instead of a time: that
    caller passes [source_fn] where [submit_new_conn] expects its start time. *)
Theorem implicit_conn_timestamp id args fn role e s :
  let t := gen_tgid_fd (tgid_of id) (coa_fd args) in
  let ci := submit_conn e (tgid_of id) (coa_fd args) (coa_addr args) 0 role (clock e (ticks s)) in
  passes s (tgid_of id) -> 0 <= coa_fd args -> conn_info_map s !! t = None ->
  create_ok s ci -> fn <> kSourceFunctionUnknown -> scratch_ok s ->
  perf (exec (process_implicit_conn id args fn role) e s) =
    perf s ++ [conn_evt_rb (mk_conn_evt ci kConnect (source_function_val fn))].
Proof.
  intros t ci Hp Hfd Hnone Hok Hfn Hsc. unfold exec, process_implicit_conn.
  rewrite passes_step by done. destruct (Z.ltb_spec (coa_fd args) 0); [lia|]. steps. fold t.
  rewrite Hnone.
  destruct (submit_new_conn_run (tgid_of id) (coa_fd args) (coa_addr args) 0 role
    (source_function_val fn) e s) as [ [_ Hrun]|[Hno _] ]; [|exfalso; exact (Hno Hok)].
  unfold exec in Hrun at 1. rewrite Hrun. fold t ci.
  set (w := with_conn _ _ _ _).
  assert (perf (exec (report_conn_evt ci kConnect (source_function_val fn)) e w) =
    perf s ++ [conn_evt_rb (mk_conn_evt ci kConnect (source_function_val fn))]) as E.
  { destruct Hsc as (_ & _ & _ & [evt Hevt] & _). unfold report_conn_evt. run.
    change (conn_evt_map w) with (conn_evt_map s). rewrite Hevt.
    assert (source_function_val fn <> 0) as Hz by (destruct fn; cbn; congruence).
    rewrite (proj2 (Z.eqb_neq _ _) Hz). cbn [negb]. run. reflexivity. }
  case_match; rewrite ?with_seq_opt_perf; exact E.
Qed.

(** [implicit_conn_timestamp] for a [sendto]: the event is dated 8 ns after boot. *)
Lemma implicit_conn_timestamp_witness :
  exists ci, perf (exec (process_implicit_conn (10 * 4294967296) (mk_connect_args 4096 3 0)
    kSyscallSendTo kRoleClient) env_conn bpf_init) = [] ++ [conn_evt_rb (mk_conn_evt ci kConnect 8)].
Proof.
  eexists.
  apply (implicit_conn_timestamp (10 * 4294967296) (mk_connect_args 4096 3 0) kSyscallSendTo
    kRoleClient env_conn bpf_init).
  - left. intros [? ?]. discriminate.
  - cbn. lia.
  - reflexivity.
  - split; [reflexivity|]. split; [by apply no_filter|]. vm_compute. congruence.
  - discriminate.
  - repeat split; eexists; reflexivity.
Defined.

(** What an SSL call learns from the system calls it makes.  After the system
    calls [(fd, len)], in order, the record of the call holds the descriptor of
    the first one, is marked as mismatched exactly when a later one used
    another descriptor, and holds the number of bytes they moved modulo 2^32. *)
Theorem nested_calls_recorded fd len calls :
  fd <> kInvalidFD ->
  let n := foldl (fun n c => update_fd_and_syscall_len_to_uprobe n c.1 c.2)
             (mk_nested_syscall_fd kInvalidFD false 0) ((fd, len) :: calls) in
  ns_fd n = fd /\
  (ns_mismatched_fds n = true <-> exists c, c ∈ calls /\ c.1 <> fd) /\
  ns_syscall_len n = u32 (foldr (fun c t => Z.max 0 c.2 + t) 0 ((fd, len) :: calls)).
Proof.
  intros Hfd. cbn [foldl foldr fst snd]. set (n0 := update_fd_and_syscall_len_to_uprobe _ _ _).
  assert (ns_fd n0 = fd /\ ns_mismatched_fds n0 = false /\ ns_syscall_len n0 = u32 (Z.max 0 len))
    as (H1 & H2 & H3).
  { subst n0. unfold update_fd_and_syscall_len_to_uprobe. cbn [ns_fd].
    rewrite Z.eqb_refl. destruct (Z.ltb_spec 0 len); cbn; rewrite ?Z.max_r, ?Z.max_l by lia; done. }
  destruct (nested_fold fd Hfd calls n0 H1) as (E1 & E2 & E3 & E4).
  split; [done|]. split; [rewrite E2, H2; split; [intros [|]; done|by right]|].
  rewrite <- E4, E3, H3, u32_add_l; [done|]. by rewrite H3, u32_idem.
Qed.

(** [nested_calls_recorded] for a handshake record and two reads. *)
Lemma nested_calls_recorded_witness :
  let n := foldl (fun n c => update_fd_and_syscall_len_to_uprobe n c.1 c.2)
             (mk_nested_syscall_fd kInvalidFD false 0) [(7, 5); (7, -11); (7, 300)] in
  ns_fd n = 7 /\ (ns_mismatched_fds n = true <-> exists c, c ∈ [(7, -11); (7, 300)] /\ c.1 <> 7) /\
  ns_syscall_len n = 305.
Proof. apply (nested_calls_recorded 7 5 [(7, -11); (7, 300)]). discriminate. Defined.

(** The destruction of a socket ends what is known of its sending side: the
    initial sequence number and the connection of its key are gone, with one
    [kClose] event if there was an entry.  The initial sequence number of the
    receiving side is not removed, and a packet that later opens a flow with
    the same addresses and ports keeps being numbered from it. *)
Theorem destroy_sock_forgets_send_side p e s :
  let k := (parse_sock_key_sk e p sock_key_zero).2 <| sport := bpf_ntohs (inet_sport (read_sock e p)) |> in
  let s' := exec (tcp_destroy_sock p) e s in
  sock_xmit_map s' = delete k (sock_xmit_map s) /\
  sock_key_conn_id_map s' !! k = None /\
  (forall c, sock_key_conn_id_map s !! k = Some c -> conn_info_map s' = delete (tgid_fd c) (conn_info_map s)) /\
  (forall iss, k <> reverse_sock_key_no_copy k ->
     sock_xmit_map s !! reverse_sock_key_no_copy k = Some iss ->
     sock_xmit_map s' !! reverse_sock_key_no_copy k = Some iss /\
     forall pr e2, sock_xmit_map (exec (run_packet pr) e2 s') !! reverse_sock_key_no_copy k = Some iss).
Proof.
  intros k s'.
  assert (Hmaps : sock_xmit_map s' = delete k (sock_xmit_map s) /\
    sock_key_conn_id_map s' !! k = None /\
    (forall c, sock_key_conn_id_map s !! k = Some c ->
       conn_info_map s' = delete (tgid_fd c) (conn_info_map s))).
  { subst s'. unfold exec, tcp_destroy_sock. steps.
    rewrite (surjective_pairing (parse_sock_key_sk e p sock_key_zero)). fold k. steps. fsimp_goal.
    destruct (sock_key_conn_id_map s !! k) as [c|] eqn:Ek; [|by repeat split].
    steps. fsimp_goal. destruct (conn_info_map s !! tgid_fd c) as [ci|].
    - steps. set (s1 := s <| sock_xmit_map ::= delete k |>).
      rewrite (step_run _ _ _ _ _ _ (run_pair (report_conn_evt ci kClose 0) e s1)). steps.
      pose proof (report_conn_evt_reports ci kClose 0 e s1) as Hr.
      set (s2 := exec (report_conn_evt ci kClose 0) e s1) in *. unfold mret, RS_ret. cbn [snd].
      fsimp_goal. reports_rewrite Hr. split; [done|]. split; [apply lookup_delete_eq|].
      intros ? [= <-]. done.
    - steps. unfold mret, RS_ret. cbn [snd]. fsimp_goal.
      split; [done|]. split; [apply lookup_delete_eq|]. intros ? [= <-]. done. }
  destruct Hmaps as (H1 & H2 & H3). do 3 (split; [done|]).
  intros iss Hne Hrev.
  assert (sock_xmit_map s' !! reverse_sock_key_no_copy k = Some iss) as Hk
    by (by rewrite H1, lookup_delete_ne).
  split; [done|]. intros pr e2. destruct (run_packet_packet pr e2 s') as [_ Hsub].
  by apply (lookup_weaken _ _ _ _ Hk).
Qed.

(** [destroy_sock_forgets_send_side]: the receive side of the example socket. *)
Lemma destroy_sock_forgets_send_side_witness :
  let s := bpf_init <| sock_xmit_map := {[key_out_example := 4902; key_example := 9000]} |> in
  sock_xmit_map (exec (tcp_destroy_sock 100) env_conn s) !! key_example = Some 9000.
Proof.
  intros s.
  exact (proj1 (proj2 (proj2 (proj2 (destroy_sock_forgets_send_side 100 env_conn s))) 9000
    ltac:(vm_compute; congruence) ltac:(vm_compute; reflexivity))).
Defined.
