(* ===== verification/Frame.v ===== *)
(** * What the probes keep

    [inv] is the invariant of the maps, [core] the part of the state that the
    connection code of [Conn.v] never writes.  [good] relates the states before
    and after a run: the core is the same, the invariant is kept, the rings only
    grow.  Every function of [Conn.v] that the system call probes call is shown
    to be [good]. *)

From stdpp Require Import gmap list fin_maps.
From Stdlib Require Import ZArith Lia.
From S2P Require Import Prelude Types Machine ProtocolInference DataCommon SockKey Skb Conn.
Local Open Scope Z_scope.

(** ** The invariant *)

(** An entry of [conn_info_map] is filed under its own process and descriptor,
    and its counters are 64-bit numbers. *)
Definition conn_ok (t : Z) (ci : conn_info_t) : Prop :=
  cid_tgid (ci_conn_id ci) = tgid_of t /\ cid_fd (ci_conn_id ci) = s32 (u32 t) /\
  0 <= ci_read_bytes ci < 18446744073709551616 /\
  0 <= ci_write_bytes ci < 18446744073709551616 /\
  0 <= ci_ssl_read_bytes ci < 18446744073709551616 /\
  0 <= ci_ssl_write_bytes ci < 18446744073709551616.

Definition within {K V} `{Countable K} (max : Z) (m : gmap K V) : Prop := Z.of_nat (size m) <= max.

Record inv (s : bpf) : Prop := {
  inv_scratch : scratch_ok s;
  inv_fresh : forall ci, conn_info_t_map s = Some ci -> fresh_conn ci;
  inv_conns : map_Forall conn_ok (conn_info_map s);
  inv_xmit : map_Forall (fun _ v => 0 <= v < 4294967296) (sock_xmit_map s);
  inv_conns_size : within MAX_ENTRIES (conn_info_map s);
  inv_ids_size : within MAX_ENTRIES (sock_key_conn_id_map s);
  inv_xmit_size : within MAX_ENTRIES (sock_xmit_map s);
  inv_pids_size : within FILTER_MAX_ENTRIES (filter_pid_map s);
}.

(** ** The part the connection code does not write *)

Definition without_conns (s : bpf) : bpf :=
  s <| conn_info_map := ∅ |> <| sock_key_conn_id_map := ∅ |> <| sock_xmit_map := ∅ |>
    <| filter_pid_map := ∅ |> <| conn_info_t_map := None |>
    <| ssl_user_space_call_map := ∅ |> <| go_ssl_user_space_call_map := ∅ |>.
Definition core (s : bpf) : bpf := without_conns (persistent s).

Definition good (s s' : bpf) : Prop :=
  inv s -> core s' = core s /\ inv s' /\ exists l, perf s' = perf s ++ l.

#[export] Instance good_preorder : PreOrder good.
Proof.
  split.
  - intros s Hi. split; [done|]. split; [done|]. exists []. by rewrite app_nil_r.
  - intros s1 s2 s3 H12 H23 Hi. destruct (H12 Hi) as (H1 & H2 & l1 & H3).
    destruct (H23 H2) as (H4 & H5 & l2 & H6). split; [congruence|].
    split; [done|]. exists (l1 ++ l2). by rewrite H6, H3, app_assoc.
Qed.

Lemma good_field {T} (f : bpf -> T) s s' :
  (forall x, f x = f (core x)) -> good s s' -> inv s -> f s' = f s.
Proof. intros Hf H Hi. destruct (H Hi) as [Hc _]. rewrite (Hf s), (Hf s'). congruence. Qed.

Lemma reports_good s s' : reports s s' -> good s s'.
Proof.
  intros Hr [? ? ? ? ? ? ? ?]. pose proof Hr as (H1 & H2 & H3).
  split; [exact (f_equal without_conns H1)|]. split; [|done].
  split; reports_rewrite Hr; auto.
Qed.

Lemma keeps_good {A} (m : M A) : keeps reports m -> keeps good m.
Proof. intros H e s. apply reports_good, H. Qed.

(** A change of the maps that keeps the core and the rings is good when it
    keeps the invariant. *)
Lemma good_modify f :
  (forall s, core (f s) = core s) -> (forall s, perf (f s) = perf s) ->
  (forall s, inv s -> inv (f s)) -> forall s, good s (f s).
Proof.
  intros H1 H2 H3 s Hi. split; [apply H1|]. split; [by apply H3|]. exists []. by rewrite H2, app_nil_r.
Qed.

(** *** Updates that keep the invariant *)

Lemma update_Forall {K V} `{Countable K} (P : K -> V -> Prop) max fl k v (m : gmap K V) :
  P k v -> map_Forall P m -> map_Forall P (bpf_map_update_elem max fl k v m).
Proof.
  intros Hv Hm k' v' Hl. apply update_lookup in Hl as [ [-> ->]|Hl]; [done|]. by apply Hm.
Qed.

Lemma within_update {K V} `{Countable K} max fl (k : K) (v : V) m :
  within max m -> within max (bpf_map_update_elem max fl k v m).
Proof. apply update_size. Qed.

Lemma within_delete {K V} `{Countable K} max (k : K) (m : gmap K V) :
  within max m -> within max (delete k m).
Proof.
  unfold within. intros H1. destruct (m !! k) eqn:E.
  - rewrite map_size_delete_Some by eauto. lia.
  - by rewrite map_size_delete_None.
Qed.

Lemma within_alter {K V} `{Countable K} max f (k : K) (m : gmap K V) :
  within max m -> within max (alter f k m).
Proof.
  unfold within. destruct (m !! k) eqn:E.
  - rewrite (alter_alt_Some _ _ _ _ E), map_size_insert_Some by done. done.
  - rewrite alter_id; [done|]. intros x Hx. congruence.
Qed.

Lemma with_conn_good t k ci s : conn_ok t ci -> good s (with_conn t k ci s).
Proof.
  intros Hc. revert s. apply good_modify; [done|done|]. intros s [? ? ? ? ? ? ? ?].
  split; unfold with_conn; fsimp; auto using within_update. by apply update_Forall.
Qed.

Lemma record_seq_good k v : 0 <= v < 4294967296 -> keeps good (record_seq k v).
Proof.
  intros Hv. apply keeps_modify, good_modify; [done|done|]. intros s [? ? ? ? ? ? ? ?].
  split; fsimp; auto using within_update. by apply update_Forall.
Qed.

Lemma remember_tgid_good t : keeps good (remember_tgid t).
Proof.
  apply keeps_modify, good_modify; [done|done|]. intros s [? ? ? ? ? ? ? ?].
  split; fsimp; auto using within_update.
Qed.
#[export] Hint Resolve remember_tgid_good : keeps.

Lemma filter_conn_info_good ci : keeps good (filter_conn_info ci).
Proof. intros e s. by rewrite filter_conn_info_state. Qed.

Lemma match_trace_tgid_good t : keeps good (match_trace_tgid t).
Proof. unfold match_trace_tgid, filter_pidns, filter_mntns, filter_netns. keeps_tac. Qed.
#[export] Hint Resolve filter_conn_info_good match_trace_tgid_good : keeps.

Lemma delete_conn_good t : keeps (E := env) good (modify (fun s => s <| conn_info_map ::= delete t |>)).
Proof.
  apply keeps_modify, good_modify; [done|done|]. intros s [? ? ? ? ? ? ? ?].
  split; fsimp; auto using within_delete. by apply map_Forall_delete.
Qed.
Lemma delete_id_good k : keeps (E := env) good (modify (fun s => s <| sock_key_conn_id_map ::= delete k |>)).
Proof.
  apply keeps_modify, good_modify; [done|done|]. intros s [? ? ? ? ? ? ? ?].
  split; fsimp; auto using within_delete.
Qed.
Lemma delete_xmit_good k : keeps (E := env) good (modify (fun s => s <| sock_xmit_map ::= delete k |>)).
Proof.
  apply keeps_modify, good_modify; [done|done|]. intros s [? ? ? ? ? ? ? ?].
  split; fsimp; auto using within_delete. by apply map_Forall_delete.
Qed.
#[export] Hint Resolve delete_conn_good delete_id_good delete_xmit_good : keeps.

Lemma report_conn_evt_good ci t ts : keeps good (report_conn_evt ci t ts).
Proof. apply keeps_good, report_conn_evt_reports. Qed.
#[export] Hint Resolve report_conn_evt_good : keeps.

Lemma tcp_destroy_sock_good p : keeps good (tcp_destroy_sock p).
Proof. unfold tcp_destroy_sock. keeps_tac. Qed.

Lemma process_syscall_close_good ret args id : keeps good (process_syscall_close ret args id).
Proof. unfold process_syscall_close. keeps_tac. Qed.
#[export] Hint Resolve tcp_destroy_sock_good process_syscall_close_good : keeps.

(** ** Making connections *)

Lemma s32_u32 z : s32 (u32 z) = s32 z.
Proof. unfold s32, u32. by rewrite Zplus_mod_idemp_l. Qed.

(** Only the identity and the counters matter. *)
Lemma conn_ok_same t ci ci' : same_conn ci ci' -> conn_ok t ci -> conn_ok t ci'.
Proof. intros (E1 & E2 & E3 & E4 & E5 & _) H. unfold conn_ok. by rewrite E1, E2, E3, E4, E5. Qed.

Lemma conn_ok_add_bytes t d n ci : conn_ok t ci -> conn_ok t (add_bytes d n ci).
Proof.
  intros (H1 & H2 & H3 & H4 & H5 & H6). pose proof (u64_range (ci_write_bytes ci + n)).
  pose proof (u64_range (ci_read_bytes ci + n)).
  destruct d; cbn [add_bytes]; unfold conn_ok; fsimp; auto 10.
Qed.

Lemma conn_ok_fresh t ci :
  fresh_conn ci -> cid_tgid (ci_conn_id ci) = tgid_of t -> cid_fd (ci_conn_id ci) = s32 (u32 t) ->
  conn_ok t ci.
Proof. intros (E1 & E2 & E3 & E4 & _) ? ?. unfold conn_ok. rewrite E1, E2, E3, E4. repeat split; lia. Qed.

Lemma new_data_conn_ok e p t now ci : fresh_conn ci -> conn_ok t (new_data_conn e p t now ci).
Proof.
  intros Hf. apply conn_ok_fresh; [by apply new_data_conn_fresh| |];
    unfold new_data_conn, data_addr; repeat case_match; reflexivity.
Qed.

Lemma submit_conn_id e tgid fd a so r now :
  ci_conn_id (submit_conn e tgid fd a so r now) = mk_conn_id (u32 tgid) 0 (s32 fd) now.
Proof.
  unfold submit_conn, addr_from_key, addr_from_call, read_sockaddr_kernel. cbv zeta.
  repeat case_match; reflexivity.
Qed.

Lemma submit_conn_ok e tgid fd a so r now :
  conn_ok (gen_tgid_fd tgid fd) (submit_conn e tgid fd a so r now).
Proof.
  apply conn_ok_fresh; [apply submit_conn_fresh| |]; rewrite submit_conn_id; simpl.
  - by rewrite tgid_of_gen.
  - by rewrite u32_gen, s32_u32.
Qed.

Lemma with_seq_opt_good k v s : good s (with_seq_opt k v s).
Proof.
  unfold with_seq_opt. case_match; [|reflexivity].
  exact (record_seq_good k _ (u32_range _) env0 s).
Qed.

Lemma ticks_good s : good s (s <| ticks ::= S |>).
Proof. exact (keeps_good _ ktime_reports env0 s). Qed.

Lemma submit_new_conn_good tgid fd a so r ts : keeps good (submit_new_conn tgid fd a so r ts).
Proof.
  intros e s. destruct (submit_new_conn_run tgid fd a so r ts e s) as [ [_ ->]|[_ ->] ];
    [|apply ticks_good].
  set (ci := submit_conn e tgid fd a so r (clock e (ticks s))).
  assert (Hs2 : good s (exec (report_conn_evt ci kConnect ts) e
    (with_conn (gen_tgid_fd tgid fd) (sk_key e (submit_sk e fd so)) ci (s <| ticks ::= S |>)))).
  { etrans; [apply ticks_good|]. etrans; [apply with_conn_good, submit_conn_ok|].
    apply report_conn_evt_good. }
  case_match; [|done]. etrans; [exact Hs2|]. etrans; apply with_seq_opt_good.
Qed.
#[export] Hint Resolve submit_new_conn_good : keeps.

Lemma process_syscall_connect_good ret args id : keeps good (process_syscall_connect ret args id).
Proof. unfold process_syscall_connect. keeps_tac. Qed.
Lemma process_syscall_accept_good ret args id : keeps good (process_syscall_accept ret args id).
Proof. unfold process_syscall_accept. keeps_tac. Qed.
Lemma process_implicit_conn_good id args fn r : keeps good (process_implicit_conn id args fn r).
Proof. unfold process_implicit_conn. keeps_tac. Qed.
#[export] Hint Resolve process_syscall_connect_good process_syscall_accept_good
  process_implicit_conn_good : keeps.

(** ** Reads and writes

    The connection a lookup delivers is filed under the key it was looked up
    with; what is stored back is the same connection with more bytes. *)

Definition some_ok (t : Z) (o : option conn_info_t) : Prop :=
  match o with Some ci => conn_ok t ci | None => True end.

Lemma with_seqs_good k a b s :
  0 <= a < 4294967296 -> 0 <= b < 4294967296 -> good s (with_seqs k a b s).
Proof.
  intros Ha Hb. unfold with_seqs. etrans; [exact (record_seq_good k a Ha env0 s)|].
  exact (record_seq_good _ b Hb env0 _).
Qed.

Lemma lookup_ok s t : inv s -> some_ok t (conn_info_map s !! t).
Proof.
  intros H. unfold some_ok. destruct (conn_info_map s !! t) eqn:E; [|done]. by apply (inv_conns s H).
Qed.

(** The invariant with the fresh structure still to be stored. *)
Lemma create_in_data_good p t d n ci ts e s :
  fresh_conn ci ->
  let r := create_conn_info_in_data_syscall p t d n ci ts in
  good s (exec r e s) /\ fresh_conn (result r e s).2.
Proof.
  intros Hf r. set (ci1 := new_data_conn e p t (clock e (ticks s)) ci).
  assert (Hf1 : fresh_conn ci1) by (by apply new_data_conn_fresh).
  destruct (create_in_data_run p t d n ci ts e s) as [ [_ Hrun]|[_ Hrun] ];
    unfold r, exec, result; rewrite Hrun; cbn [fst snd]; fold ci1;
    (split; [|exact Hf1]); [|apply ticks_good].
  etrans; [|apply with_seqs_good; apply u32_range].
  transitivity (with_conn t (sk_key e p) ci1 (s <| ticks ::= S |>)); [|apply report_conn_evt_good].
  etrans; [apply ticks_good|]. by apply with_conn_good, new_data_conn_ok.
Qed.

Lemma set_scratch_good ci s : fresh_conn ci -> good s (s <| conn_info_t_map := Some ci |>).
Proof.
  intros Hf [ [? [? [? [? [? [? ?] ] ] ] ] ] ? ? ? ? ? ? ?].
  split; [done|]. split; [|exists []; by rewrite app_nil_r]. split; fsimp; try assumption.
  - repeat split; try assumption. by eexists.
  - by intros ? [= <-].
Qed.

Lemma lookup_or_create_good t fd d n ts e s :
  inv s ->
  good s (exec (lookup_or_create t fd d n ts) e s) /\
  some_ok t (result (lookup_or_create t fd d n ts) e s).
Proof.
  intros Hi. unfold lookup_or_create, exec, result. steps.
  pose proof (lookup_ok s t Hi) as Hok. destruct (conn_info_map s !! t) as [ci|] eqn:E; [done|].
  steps. case_match; [done|]. steps. destruct (conn_info_t_map s) as [ci0|] eqn:Es; [|done].
  assert (Hf0 : fresh_conn (ci0 <| ci_protocol := kProtocolUnset |>)).
  { destruct (inv_fresh s Hi ci0 Es) as (?&?&?&?&?&?&?&?&?&?). by repeat split. }
  destruct (create_in_data_good (get_socket_from_fd e fd) t d n _ ts e s Hf0) as [Hg Hf1].
  rewrite (step_run _ _ _ _ _ _ (run_pair _ e s)).
  destruct (result _ e s) as [created ci1]. cbn [snd] in Hf1. steps.
  set (s1 := exec _ e s) in *. set (s2 := s1 <| conn_info_t_map := Some ci1 |>).
  assert (Hg2 : good s s2) by (etrans; [exact Hg|by apply set_scratch_good]).
  destruct created; steps; (split; [exact Hg2|]); [|done].
  apply (lookup_ok s2 t), (Hg2 Hi).
Qed.

Lemma store_conn_good t ci e s : conn_ok t ci -> good s (exec (store_conn t ci) e s).
Proof.
  intros Hc. unfold store_conn. rewrite exec_modify. revert s.
  apply good_modify; [done|done|]. intros s [? ? Hci ? ? ? ? ?].
  split; fsimp; auto using within_alter.
  intros t' ci' Hl. destruct (decide (t' = t)) as [->|Hne].
  - rewrite lookup_alter_eq in Hl. apply fmap_Some in Hl as (? & _ & ->). done.
  - rewrite lookup_alter_ne in Hl by done. by apply Hci.
Qed.

(** The tail of a data call. *)
Lemma store_tail_good (m : M conn_info_t) t d n ci e s :
  keeps reports m -> same_conn ci (result m e s) -> conn_ok t ci ->
  good s (exec (ci ← m; store_conn t (add_bytes d n ci)) e s).
Proof.
  intros Hr Hs Hc. rewrite exec_bind. etrans; [apply reports_good, Hr|].
  apply store_conn_good, conn_ok_add_bytes. by eapply conn_ok_same.
Qed.

Lemma mark_ssl_ok t b ci : conn_ok t ci -> conn_ok t (mark_ssl b ci).
Proof. intros H. destruct b; exact H. Qed.


(** A lookup followed by work on the connection found. *)
Lemma lookup_then_good t fd d n ts (k : conn_info_t -> M unit) :
  (forall ci e s, conn_ok t ci -> good s (exec (k ci) e s)) ->
  keeps good (o ← lookup_or_create t fd d n ts; match o with None => mret tt | Some ci => k ci end).
Proof.
  intros Hk e s Hi. rewrite exec_bind.
  destruct (lookup_or_create_good t fd d n ts e s Hi) as [Hg Hok].
  apply (fun H => transitivity (R := good) Hg H Hi).
  destruct (result (lookup_or_create t fd d n ts) e s) as [ci|]; [by apply Hk|reflexivity].
Qed.

(** The lookup of [process_syscall_sendfile]. *)
Definition sendfile_lookup (t : Z) (args : sendfile_args) (n : Z) : M (option conn_info_t) :=
  conns ← gets conn_info_map;
  match conns !! t with
  | Some conn_info => mret (Some conn_info)
  | None =>
    e ← ask;
    let tcp_sk := get_socket_from_fd e (sfa_out_fd args) in
    return_if (tcp_sk =? 0) with None ;;
    r ← create_conn_info_in_data_syscall tcp_sk t kEgress n
      (conn_info_zero <| ci_protocol := kProtocolUnset |>) (u64 (sfa_end_ts args - 1));
    if (r.1 : bool) then (conns ← gets conn_info_map; mret (conns !! t)) else mret None
  end.

Lemma sendfile_lookup_good t args n e s :
  inv s -> good s (exec (sendfile_lookup t args n) e s) /\
  some_ok t (result (sendfile_lookup t args n) e s).
Proof.
  intros Hi. unfold sendfile_lookup, exec, result. steps.
  pose proof (lookup_ok s t Hi) as Hok. destruct (conn_info_map s !! t) as [ci|] eqn:E; [done|].
  steps. case_match; [done|].
  assert (Hf0 : fresh_conn (conn_info_zero <| ci_protocol := kProtocolUnset |>)) by (by repeat split).
  destruct (create_in_data_good (get_socket_from_fd e (sfa_out_fd args)) t kEgress n _
    (u64 (sfa_end_ts args - 1)) e s Hf0) as [Hg _].
  rewrite (step_run _ _ _ _ _ _ (run_pair _ e s)).
  destruct (result _ e s) as [created ci1]. set (s1 := exec _ e s) in *. cbn [fst].
  destruct created; steps; (split; [exact Hg|]); [|done].
  apply (lookup_ok s1 t), (Hg Hi).
Qed.

Lemma process_syscall_data_good args id d n nested :
  keeps good (process_syscall_data args id d n nested).
Proof.
  unfold process_syscall_data. keeps_step; [apply keeps_ret; typeclasses eauto|].
  keeps_step; [apply match_trace_tgid_good|]. keeps_step; [apply keeps_ret; typeclasses eauto|].
  apply lookup_then_good. intros ci e s Hok.
  eapply store_tail_good; [apply process_data_reports|apply process_data_same_conn|].
  by apply mark_ssl_ok.
Qed.

Lemma process_syscall_data_vecs_good args id d n nested :
  keeps good (process_syscall_data_vecs args id d n nested).
Proof.
  unfold process_syscall_data_vecs. do 4 (keeps_step; [apply keeps_ret; typeclasses eauto|]).
  apply lookup_then_good. intros ci e s Hok.
  apply (store_tail_good (vecs_report args (gen_tgid_fd (tgid_of id) (da_fd args)) d n
    (mark_ssl nested ci)) _ _ _ (mark_ssl nested ci));
    [apply vecs_report_reports|apply vecs_report_same_conn|]. by apply mark_ssl_ok.
Qed.

Lemma process_syscall_sendfile_good id args n : keeps good (process_syscall_sendfile id args n).
Proof.
  unfold process_syscall_sendfile. do 2 (keeps_step; [apply keeps_ret; typeclasses eauto|]).
  keeps_step; [apply match_trace_tgid_good|]. keeps_step; [apply keeps_ret; typeclasses eauto|].
  set (t := gen_tgid_fd _ _). intros e s Hi.
  set (k := fun o : option conn_info_t => match o with
    | None => mret tt
    | Some ci => process_sendfile_with_conn_info args t kEgress n ci false;;
                 store_conn t (add_bytes kEgress n ci)
    end : M unit).
  destruct (sendfile_lookup_good t args n e s Hi) as [Hg Hok].
  assert (Hk : good s (exec (sendfile_lookup t args n ≫= k) e s)); [|exact (Hk Hi)].
  rewrite exec_bind. etrans; [exact Hg|].
  destruct (result (sendfile_lookup t args n) e s) as [ci|]; [|reflexivity]. cbn [some_ok] in Hok.
  unfold k. rewrite exec_bind. etrans; [apply reports_good, process_sendfile_reports|].
  apply store_conn_good, conn_ok_add_bytes, Hok.
Qed.
#[export] Hint Resolve process_syscall_data_good process_syscall_data_vecs_good
  process_syscall_sendfile_good : keeps.

(** ** Nested calls and packets *)

Lemma alter_ssl_good f t : keeps (E := env) good (modify (fun s => s <| ssl_user_space_call_map ::= alter f t |>)).
Proof.
  apply keeps_modify, good_modify; [done|done|]. intros s [? ? ? ? ? ? ? ?]. by split.
Qed.
Lemma alter_go_ssl_good f t :
  keeps (E := env) good (modify (fun s => s <| go_ssl_user_space_call_map ::= alter f t |>)).
Proof.
  apply keeps_modify, good_modify; [done|done|]. intros s [? ? ? ? ? ? ? ?]. by split.
Qed.
#[export] Hint Resolve alter_ssl_good alter_go_ssl_good : keeps.

Lemma get_goid_good : keeps good get_goid.
Proof. unfold get_goid, bpf_get_current_pid_tgid. keeps_tac. Qed.
#[export] Hint Resolve get_goid_good : keeps.

Lemma propagate_fd_good id fd len : keeps good (propagate_fd_to_uprobe id fd len).
Proof. unfold propagate_fd_to_uprobe. keeps_tac. Qed.

Lemma pid_tgid_good : keeps good bpf_get_current_pid_tgid.
Proof. unfold bpf_get_current_pid_tgid. keeps_tac. Qed.
Lemma ktime_good : keeps good bpf_ktime_get_ns.
Proof. apply keeps_good, ktime_reports. Qed.
Lemma perf_good r : keeps good (bpf_perf_event_output r).
Proof. apply keeps_good, perf_reports. Qed.
#[export] Hint Resolve propagate_fd_good pid_tgid_good ktime_good perf_good : keeps.

Lemma report_kern_evt_good p : keeps good (report_kern_evt p).
Proof. apply keeps_good, report_kern_evt_reports. Qed.

Lemma initial_seq_good key tcp st : keeps good (initial_seq key tcp st).
Proof.
  unfold initial_seq. keeps_tac.
  apply keeps_modify, good_modify; [done|done|]. intros s [? ? ? ? ? ? ? ?].
  split; fsimp; auto using within_update. apply update_Forall; [|done].
  case_match; [apply u32_range|apply bpf_ntohl_range].
Qed.
#[export] Hint Resolve report_kern_evt_good initial_seq_good : keeps.

Lemma parse_l4_good b p i st iss key : keeps good (parse_l4 b p i st iss key).
Proof. unfold parse_l4. keeps_tac. Qed.
#[export] Hint Resolve parse_l4_good : keeps.

Lemma parse_skb_good skb snr st : keeps good (parse_skb skb snr st).
Proof. unfold parse_skb. keeps_tac. Qed.
#[export] Hint Resolve parse_skb_good : keeps.

Lemma run_packet_good p : keeps good (run_packet p).
Proof.
  destruct p; try (apply keeps_good, run_packet_reports; discriminate).
  cbn [run_packet]. unfold tracepoint__netif_receive_skb. keeps_tac.
Qed.
