(* ===== verification/Syscalls.v ===== *)
(** * System call probes ([bpf/pktlatency.bpf.c], lines 1390 to 2526)

    For every traced system call a handler at its entry, which stashes the
    arguments under the thread's id, and one at its exit, which takes them back
    and processes the call.  Each handler is attached twice, as fentry/fexit and
    as a tracepoint; the two forms differ in where they find the arguments.

    Registers are those of x86-64. *)

From stdpp Require Import gmap list fin_maps.
From Stdlib Require Import ZArith Lia.
From S2P Require Import Prelude Types Machine ProtocolInference DataCommon SockKey Skb Conn Frame.
Local Open Scope Z_scope.

(** ** Where arguments are found *)

(** [TP_ARGS(dst, idx, ctx)] and [TP_RET(dst, ctx)] for a [dst] of [n] bytes:
    the arguments follow the 8-byte [struct trace_entry] and the call number. *)
Definition TP_ARGS (e : env) (n : nat) (idx ctx : Z) : Z := kread e (ctx + 16 + idx * 8) n.
Definition TP_RET (e : env) (n : nat) (ctx : Z) : Z := kread e (ctx + 16) n.

(** [PT_REGS_PARMn_CORE(regs)]: the fields [di], [si], [dx], [cx] and [r8] of
    [struct pt_regs], and [PT_REGS_RC], its field [ax]. *)
Definition PT_REGS_PARM1_CORE (e : env) (regs : Z) : Z := kread e (regs + 112) 8.
Definition PT_REGS_PARM2_CORE (e : env) (regs : Z) : Z := kread e (regs + 104) 8.
Definition PT_REGS_PARM3_CORE (e : env) (regs : Z) : Z := kread e (regs + 96) 8.
Definition PT_REGS_PARM4_CORE (e : env) (regs : Z) : Z := kread e (regs + 88) 8.
Definition PT_REGS_RC_CORE (e : env) (regs : Z) : Z := kread e (regs + 80) 8.

(** [struct my_user_msghdr] and [struct mmsghdr] in user memory. *)
Definition msg_name (e : env) (msghdr : Z) : Z := uread e msghdr 8.
Definition msg_iov (e : env) (msghdr : Z) : Z := uread e (msghdr + 16) 8.
Definition msg_iovlen (e : env) (msghdr : Z) : Z := uread e (msghdr + 24) 8.
Definition msg_hdr_offset : Z := 0.
Definition msg_len_offset : Z := 56.

(** ** Stashing *)

Definition stash_read (id : Z) (args : data_args) : M unit :=
  modify (fun s => s <| read_args_map ::= bpf_map_update_elem MAX_ENTRIES BPF_ANY id args |>).
Definition stash_write (id : Z) (args : data_args) : M unit :=
  modify (fun s => s <| write_args_map ::= bpf_map_update_elem MAX_ENTRIES BPF_ANY id args |>).
Definition stash_connect (id : Z) (args : connect_args) : M unit :=
  modify (fun s => s <| connect_args_map ::= bpf_map_update_elem MAX_ENTRIES BPF_ANY id args |>).
Definition unstash_read (id : Z) : M unit := modify (fun s => s <| read_args_map ::= delete id |>).
Definition unstash_write (id : Z) : M unit := modify (fun s => s <| write_args_map ::= delete id |>).
Definition unstash_connect (id : Z) : M unit :=
  modify (fun s => s <| connect_args_map ::= delete id |>).

(** The address given with a send or receive: [_connect_args] of lines 1440,
    1597 and the like. *)
Definition stash_addr (id fd addr : Z) : M unit :=
  if negb (addr =? 0) then stash_connect id (mk_connect_args addr fd 0) else mret tt.

(** The first half of the exit of an addressed call: the connection the address
    implies. *)
Definition exit_implicit (id : Z) (ok : bool) (source_fn : source_function_t)
    (role : endpoint_role_t) : M unit :=
  conns ← gets connect_args_map;
  (match conns !! id with
   | Some args => if ok then process_implicit_conn id args source_fn role else mret tt
   | None => mret tt
   end);;
  unstash_connect id.

(** [args->end_ts = now; is_ssl = propagate_fd_to_uprobe(...); process_syscall_data(...)] *)
Definition finish_data (args : data_args) (id : Z) (direct : traffic_direction_t) (bytes_count : Z)
    : M unit :=
  now ← bpf_ktime_get_ns;
  let args := args <| da_end_ts := now |> in
  is_ssl ← propagate_fd_to_uprobe id (da_fd args) bytes_count;
  process_syscall_data args id direct bytes_count is_ssl.
Definition finish_data_vecs (args : data_args) (id : Z) (direct : traffic_direction_t)
    (bytes_count : Z) : M unit :=
  now ← bpf_ktime_get_ns;
  let args := args <| da_end_ts := now |> in
  is_ssl ← propagate_fd_to_uprobe id (da_fd args) bytes_count;
  process_syscall_data_vecs args id direct bytes_count is_ssl.

(** ** Socket events *)

Definition handle_security_socket_sendmsg : M Z :=
  id ← bpf_get_current_pid_tgid;
  modify (fun s => s <| write_args_map ::= alter (fun a => a <| da_sock_event := true |>) id |>);;
  mret 0.
Definition fentry__security_socket_sendmsg : M Z := handle_security_socket_sendmsg.
Definition security_socket_sendmsg_enter : M Z := handle_security_socket_sendmsg.

Definition handle_security_socket_recvmsg : M Z :=
  id ← bpf_get_current_pid_tgid;
  modify (fun s => s <| read_args_map ::= alter (fun a => a <| da_sock_event := true |>) id |>);;
  mret 0.
Definition fentry__security_socket_recvmsg : M Z := handle_security_socket_recvmsg.
Definition security_socket_recvmsg_enter : M Z := handle_security_socket_recvmsg.

(** ** recvfrom *)

Definition handle_syscall_enter_recvfrom (fd buf src_addr flags : Z) : M Z :=
  return_if truthy (Z.land flags MSG_OOB) || truthy (Z.land flags MSG_PEEK) with 0 ;;
  let args := data_args_zero <| da_fd := fd |> <| da_buf := buf |> in
  id ← bpf_get_current_pid_tgid;
  stash_addr id fd src_addr;;
  now ← bpf_ktime_get_ns;
  let args := args <| da_source_fn := kSyscallRecvFrom |> <| da_start_ts := now |> in
  stash_read id args;;
  mret 0.
Definition fentry__sys_recvfrom (fd buf size flags src_addr : Z) : M Z :=
  handle_syscall_enter_recvfrom (s32 fd) buf src_addr (s32 flags).
Definition tracepoint__syscalls__sys_enter_recvfrom (ctx : Z) : M Z :=
  e ← ask;
  let fd := s32 (TP_ARGS e 4 0 ctx) in
  let buf := TP_ARGS e 8 1 ctx in
  let flags := s32 (TP_ARGS e 4 3 ctx) in
  let src_addr := TP_ARGS e 8 4 ctx in
  handle_syscall_enter_recvfrom fd buf src_addr flags.

Definition handle_syscall_exit_recvfrom (bytes_count : Z) : M Z :=
  id ← bpf_get_current_pid_tgid;
  exit_implicit id (0 <? bytes_count) kSyscallRecvFrom kRoleServer;;
  stash ← gets read_args_map;
  (match stash !! id with
   | Some args => finish_data args id kIngress bytes_count
   | None => mret tt
   end);;
  unstash_read id;;
  mret 0.
Definition fexit__sys_recvfrom (regs ret : Z) : M Z := handle_syscall_exit_recvfrom (s64 ret).
Definition tracepoint__syscalls__sys_exit_recvfrom (ctx : Z) : M Z :=
  e ← ask; handle_syscall_exit_recvfrom (s64 (TP_RET e 8 ctx)).

(** ** read *)

Definition handle_syscall_enter_read (fd buf : Z) : M Z :=
  id ← bpf_get_current_pid_tgid;
  now ← bpf_ktime_get_ns;
  let args := data_args_zero <| da_fd := fd |> <| da_buf := buf |>
    <| da_source_fn := kSyscallRead |> <| da_start_ts := now |> in
  stash_read id args;;
  mret 0.
Definition fentry__sys_read (regs : Z) : M Z :=
  e ← ask;
  handle_syscall_enter_read (s32 (PT_REGS_PARM1_CORE e regs)) (PT_REGS_PARM2_CORE e regs).
Definition tracepoint__syscalls__sys_enter_read (ctx : Z) : M Z :=
  e ← ask; handle_syscall_enter_read (s32 (TP_ARGS e 4 0 ctx)) (TP_ARGS e 8 1 ctx).

Definition handle_syscall_exit_read (bytes_count : Z) : M Z :=
  id ← bpf_get_current_pid_tgid;
  stash ← gets read_args_map;
  (match stash !! id with
   | Some args => if da_sock_event args then finish_data args id kIngress bytes_count else mret tt
   | None => mret tt
   end);;
  unstash_read id;;
  mret 0.
Definition fexit__sys_read (regs ret : Z) : M Z := handle_syscall_exit_read (s64 ret).
Definition tracepoint__syscalls__sys_exit_read (ctx : Z) : M Z :=
  e ← ask; handle_syscall_exit_read (s64 (TP_RET e 8 ctx)).

(** ** recvmmsg *)

Definition handle_syscall_enter_recvmmsg (sockfd msgvec vlen : Z) : M Z :=
  id ← bpf_get_current_pid_tgid;
  e ← ask;
  if negb (msgvec =? 0) && (1 <=? vlen) then
    let msghdr := u64 (msgvec + msg_hdr_offset) in
    if negb (msghdr =? 0) then
      stash_addr id sockfd (msg_name e msghdr);;
      now ← bpf_ktime_get_ns;
      let read_args := data_args_zero <| da_fd := sockfd |> <| da_iov := msg_iov e msghdr |>
        <| da_iovlen := msg_iovlen e msghdr |> <| da_msg_len := msgvec + msg_len_offset |>
        <| da_source_fn := kSyscallRecvMMsg |> <| da_start_ts := now |> in
      stash_read id read_args;;
      mret 0
    else mret 0
  else mret 0.
Definition fentry__sys_recvmmsg (regs : Z) : M Z :=
  e ← ask;
  handle_syscall_enter_recvmmsg (s32 (PT_REGS_PARM1_CORE e regs)) (PT_REGS_PARM2_CORE e regs)
    (u32 (PT_REGS_PARM3_CORE e regs)).
Definition tracepoint__syscalls__sys_enter_recvmmsg (ctx : Z) : M Z :=
  e ← ask;
  handle_syscall_enter_recvmmsg (s32 (TP_ARGS e 4 0 ctx)) (TP_ARGS e 8 1 ctx) (TP_ARGS e 4 2 ctx).

Definition handle_syscall_exit_recvmmsg (num_msgs : Z) : M Z :=
  id ← bpf_get_current_pid_tgid;
  exit_implicit id (0 <? num_msgs) kSyscallRecvMMsg kRoleServer;;
  stash ← gets read_args_map;
  e ← ask;
  (match stash !! id with
   | Some args =>
     if 0 <? num_msgs then
       let bytes_count := le_decode (bpf_probe_read e (da_msg_len args) 4) in
       finish_data_vecs args id kIngress bytes_count
     else mret tt
   | None => mret tt
   end);;
  unstash_read id;;
  mret 0.
Definition fexit__sys_recvmmsg (regs ret : Z) : M Z := handle_syscall_exit_recvmmsg (s32 ret).
Definition tracepoint__syscalls__sys_exit_recvmmsg (ctx : Z) : M Z :=
  e ← ask; handle_syscall_exit_recvmmsg (s32 (TP_RET e 4 ctx)).

(** ** recvmsg *)

Definition handle_syscall_enter_recvmsg (sockfd msghdr flags : Z) : M Z :=
  return_if truthy (Z.land flags MSG_OOB) || truthy (Z.land flags MSG_PEEK) with 0 ;;
  id ← bpf_get_current_pid_tgid;
  e ← ask;
  if negb (msghdr =? 0) then
    stash_addr id sockfd (msg_name e msghdr);;
    now ← bpf_ktime_get_ns;
    let read_args := data_args_zero <| da_source_fn := kSyscallRecvMsg |> <| da_fd := sockfd |>
      <| da_iov := msg_iov e msghdr |> <| da_iovlen := msg_iovlen e msghdr |>
      <| da_start_ts := now |> in
    stash_read id read_args;;
    mret 0
  else mret 0.
Definition fentry__sys_recvmsg (regs : Z) : M Z :=
  e ← ask;
  handle_syscall_enter_recvmsg (s32 (PT_REGS_PARM1_CORE e regs)) (PT_REGS_PARM2_CORE e regs)
    (s32 (PT_REGS_PARM3_CORE e regs)).
Definition tracepoint__syscalls__sys_enter_recvmsg (ctx : Z) : M Z :=
  e ← ask;
  handle_syscall_enter_recvmsg (s32 (TP_ARGS e 4 0 ctx)) (TP_ARGS e 8 1 ctx) (s32 (TP_ARGS e 4 2 ctx)).

Definition handle_syscall_exit_recvmsg (bytes_count : Z) : M Z :=
  id ← bpf_get_current_pid_tgid;
  exit_implicit id (0 <? bytes_count) kSyscallRecvMsg kRoleServer;;
  stash ← gets read_args_map;
  (match stash !! id with
   | Some args => finish_data_vecs args id kIngress bytes_count
   | None => mret tt
   end);;
  unstash_read id;;
  mret 0.
Definition fexit__sys_recvmsg (regs ret : Z) : M Z := handle_syscall_exit_recvmsg (s64 ret).
Definition tracepoint__syscalls__sys_exit_recvmsg (ctx : Z) : M Z :=
  e ← ask; handle_syscall_exit_recvmsg (s64 (TP_RET e 8 ctx)).

(** ** readv *)

Definition handle_syscall_enter_readv (fd iov iovlen : Z) : M Z :=
  id ← bpf_get_current_pid_tgid;
  return_if (iov =? 0) with 0 ;;
  now ← bpf_ktime_get_ns;
  let args := data_args_zero <| da_fd := fd |> <| da_iov := iov |> <| da_iovlen := u64 iovlen |>
    <| da_source_fn := kSyscallReadV |> <| da_start_ts := now |> in
  stash_read id args;;
  mret 0.
Definition fentry__sys_readv (regs : Z) : M Z :=
  e ← ask;
  handle_syscall_enter_readv (s32 (PT_REGS_PARM1_CORE e regs)) (PT_REGS_PARM2_CORE e regs)
    (s32 (PT_REGS_PARM3_CORE e regs)).
Definition tracepoint__syscalls__sys_enter_readv (ctx : Z) : M Z :=
  e ← ask;
  handle_syscall_enter_readv (s32 (TP_ARGS e 4 0 ctx)) (TP_ARGS e 8 1 ctx) (s32 (TP_ARGS e 4 2 ctx)).

Definition handle_syscall_exit_readv (bytes_count : Z) : M Z :=
  id ← bpf_get_current_pid_tgid;
  stash ← gets read_args_map;
  (match stash !! id with
   | Some args => if da_sock_event args then finish_data_vecs args id kIngress bytes_count else mret tt
   | None => mret tt
   end);;
  unstash_read id;;
  mret 0.
Definition fexit__sys_readv (regs ret : Z) : M Z := handle_syscall_exit_readv (s64 ret).
Definition tracepoint__syscalls__sys_exit_readv (ctx : Z) : M Z :=
  e ← ask; handle_syscall_exit_readv (s64 (TP_RET e 8 ctx)).

(** ** sendfile *)

Definition handle_syscall_enter_sendfile (out_fd in_fd count : Z) : M Z :=
  id ← bpf_get_current_pid_tgid;
  return_if (out_fd <? 0) || (in_fd <? 0) with 0 ;;
  now ← bpf_ktime_get_ns;
  let args := mk_sendfile_args out_fd in_fd (u64 count) now 0 in
  modify (fun s => s <| active_sendfile_args_map ::=
    bpf_map_update_elem MAX_ENTRIES BPF_ANY id args |>);;
  mret 0.
Definition fentry__sys_sendfile64 (regs : Z) : M Z :=
  e ← ask;
  handle_syscall_enter_sendfile (s32 (PT_REGS_PARM1_CORE e regs)) (s32 (PT_REGS_PARM2_CORE e regs))
    (PT_REGS_PARM4_CORE e regs).
Definition tracepoint__syscalls__sys_enter_sendfile64 (ctx : Z) : M Z :=
  e ← ask;
  handle_syscall_enter_sendfile (s32 (TP_ARGS e 4 0 ctx)) (s32 (TP_ARGS e 4 1 ctx))
    (s64 (TP_ARGS e 8 3 ctx)).

Definition handle_syscall_exit_sendfile64 (bytes_count : Z) : M Z :=
  id ← bpf_get_current_pid_tgid;
  stash ← gets active_sendfile_args_map;
  (match stash !! id with
   | Some args =>
     now ← bpf_ktime_get_ns;
     process_syscall_sendfile id (args <| sfa_end_ts := now |>) bytes_count
   | None => mret tt
   end);;
  modify (fun s => s <| active_sendfile_args_map ::= delete id |>);;
  mret 0.
Definition fexit__sys_sendfile64 (regs ret : Z) : M Z := handle_syscall_exit_sendfile64 (s64 ret).
Definition tracepoint__syscalls__sys_exit_sendfile64 (ctx : Z) : M Z :=
  e ← ask; handle_syscall_exit_sendfile64 (s64 (TP_RET e 8 ctx)).

(** ** sendto *)

Definition handle_syscall_enter_sendto (fd buf dest_addr : Z) : M Z :=
  id ← bpf_get_current_pid_tgid;
  return_if (buf =? 0) with 0 ;;
  now ← bpf_ktime_get_ns;
  let args := data_args_zero <| da_fd := fd |> <| da_buf := buf |>
    <| da_source_fn := kSyscallSendTo |> <| da_start_ts := now |> in
  stash_addr id fd dest_addr;;
  stash_write id args;;
  mret 0.
Definition fentry__sys_sendto (fd buff len flags dest_addr addrlen : Z) : M Z :=
  handle_syscall_enter_sendto (s32 fd) buff dest_addr.
Definition tracepoint__syscalls__sys_enter_sendto (ctx : Z) : M Z :=
  e ← ask;
  handle_syscall_enter_sendto (s32 (TP_ARGS e 4 0 ctx)) (TP_ARGS e 8 1 ctx) (TP_ARGS e 8 4 ctx).

Definition handle_syscall_exit_sendto (bytes_count : Z) : M Z :=
  id ← bpf_get_current_pid_tgid;
  exit_implicit id (0 <? bytes_count) kSyscallSendTo kRoleClient;;
  stash ← gets write_args_map;
  (match stash !! id with
   | Some args => finish_data args id kEgress bytes_count
   | None => mret tt
   end);;
  unstash_write id;;
  mret 0.
Definition fexit__sys_sendto (regs ret : Z) : M Z := handle_syscall_exit_sendto (s64 ret).
Definition tracepoint__syscalls__sys_exit_sendto (ctx : Z) : M Z :=
  e ← ask; handle_syscall_exit_sendto (s64 (TP_RET e 8 ctx)).

(** ** write *)

Definition handle_syscall_enter_write (fd buf : Z) : M Z :=
  id ← bpf_get_current_pid_tgid;
  return_if (buf =? 0) with 0 ;;
  now ← bpf_ktime_get_ns;
  let args := data_args_zero <| da_fd := fd |> <| da_buf := buf |>
    <| da_source_fn := kSyscallWrite |> <| da_start_ts := now |> in
  stash_write id args;;
  mret 0.
Definition fentry__sys_write (regs : Z) : M Z :=
  e ← ask;
  handle_syscall_enter_write (s32 (PT_REGS_PARM1_CORE e regs)) (PT_REGS_PARM2_CORE e regs).
(** This tracepoint has a body of its own, without the test of [buf]. *)
Definition tracepoint__syscalls__sys_enter_write (ctx : Z) : M Z :=
  id ← bpf_get_current_pid_tgid;
  e ← ask;
  let args := data_args_zero <| da_fd := s32 (TP_ARGS e 4 0 ctx) |>
    <| da_buf := TP_ARGS e 8 1 ctx |> <| da_source_fn := kSyscallWrite |> in
  now ← bpf_ktime_get_ns;
  stash_write id (args <| da_start_ts := now |>);;
  mret 0.

Definition handle_syscall_exit_write (bytes_count : Z) : M Z :=
  id ← bpf_get_current_pid_tgid;
  stash ← gets write_args_map;
  (match stash !! id with
   | Some args => if da_sock_event args then finish_data args id kEgress bytes_count else mret tt
   | None => mret tt
   end);;
  unstash_write id;;
  mret 0.
Definition fexit__sys_write (regs bytes_count : Z) : M Z := handle_syscall_exit_write (s64 bytes_count).
Definition tracepoint__syscalls__sys_exit_write (ctx : Z) : M Z :=
  id ← bpf_get_current_pid_tgid;
  e ← ask;
  let bytes_count := s64 (TP_RET e 8 ctx) in
  stash ← gets write_args_map;
  (match stash !! id with
   | Some args => if da_sock_event args then finish_data args id kEgress bytes_count else mret tt
   | None => mret tt
   end);;
  unstash_write id;;
  mret 0.

(** ** sendmmsg *)

Definition handle_syscall_enter_sendmmsg (sockfd msgvec vlen : Z) : M Z :=
  id ← bpf_get_current_pid_tgid;
  e ← ask;
  if negb (msgvec =? 0) && (1 <=? vlen) then
    let msghdr := u64 (msgvec + msg_hdr_offset) in
    if negb (msghdr =? 0) then
      stash_addr id sockfd (msg_name e msghdr);;
      now ← bpf_ktime_get_ns;
      let write_args := data_args_zero <| da_fd := sockfd |> <| da_iov := msg_iov e msghdr |>
        <| da_iovlen := msg_iovlen e msghdr |> <| da_msg_len := msgvec + msg_len_offset |>
        <| da_source_fn := kSyscallSendMMsg |> <| da_start_ts := now |> in
      stash_write id write_args;;
      mret 0
    else mret 0
  else mret 0.
Definition fentry__sys_sendmmsg (sockfd msgvec vlen : Z) : M Z :=
  handle_syscall_enter_sendmmsg (s32 sockfd) msgvec (u32 vlen).
Definition tracepoint__syscalls__sys_enter_sendmmsg (ctx : Z) : M Z :=
  e ← ask;
  handle_syscall_enter_sendmmsg (s32 (TP_ARGS e 4 0 ctx)) (TP_ARGS e 8 1 ctx) (TP_ARGS e 4 2 ctx).

Definition handle_syscall_exit_sendmmsg (num_msgs : Z) : M Z :=
  id ← bpf_get_current_pid_tgid;
  exit_implicit id (0 <? num_msgs) kSyscallSendMMsg kRoleClient;;
  stash ← gets write_args_map;
  e ← ask;
  (match stash !! id with
   | Some args =>
     if 0 <? num_msgs then
       let bytes_count := le_decode (bpf_probe_read e (da_msg_len args) 4) in
       finish_data_vecs args id kEgress bytes_count
     else mret tt
   | None => mret tt
   end);;
  unstash_write id;;
  mret 0.
Definition fexit__sys_sendmmsg (regs num_msgs : Z) : M Z := handle_syscall_exit_sendmmsg (s32 num_msgs).
Definition tracepoint__syscalls__sys_exit_sendmmsg (ctx : Z) : M Z :=
  e ← ask; handle_syscall_exit_sendmmsg (s32 (TP_RET e 4 ctx)).

(** ** sendmsg *)

Definition handle_syscall_enter_sendmsg (sockfd msghdr : Z) : M Z :=
  id ← bpf_get_current_pid_tgid;
  e ← ask;
  if negb (msghdr =? 0) then
    stash_addr id sockfd (msg_name e msghdr);;
    now ← bpf_ktime_get_ns;
    let write_args := data_args_zero <| da_fd := sockfd |> <| da_iov := msg_iov e msghdr |>
      <| da_iovlen := msg_iovlen e msghdr |> <| da_source_fn := kSyscallSendMsg |>
      <| da_start_ts := now |> in
    stash_write id write_args;;
    mret 0
  else mret 0.
Definition fentry__sys_sendmsg (fd msg : Z) : M Z := handle_syscall_enter_sendmsg (s32 fd) msg.
Definition tracepoint__syscalls__sys_enter_sendmsg (ctx : Z) : M Z :=
  e ← ask; handle_syscall_enter_sendmsg (s32 (TP_ARGS e 4 0 ctx)) (TP_ARGS e 8 1 ctx).

Definition handle_syscall_exit_sendmsg (bytes_count : Z) : M Z :=
  id ← bpf_get_current_pid_tgid;
  exit_implicit id (0 <? bytes_count) kSyscallSendMsg kRoleClient;;
  stash ← gets write_args_map;
  (match stash !! id with
   | Some args => if da_sock_event args then finish_data_vecs args id kEgress bytes_count else mret tt
   | None => mret tt
   end);;
  unstash_write id;;
  mret 0.
Definition fexit__sys_sendmsg (regs bytes_count : Z) : M Z := handle_syscall_exit_sendmsg (s64 bytes_count).
Definition tracepoint__syscalls__sys_exit_sendmsg (ctx : Z) : M Z :=
  e ← ask; handle_syscall_exit_sendmsg (s64 (TP_RET e 8 ctx)).

(** ** writev *)

(** [args.source_fn] is not set. *)
Definition handle_syscall_enter_writev (fd iov iovlen : Z) : M Z :=
  id ← bpf_get_current_pid_tgid;
  now ← bpf_ktime_get_ns;
  let args := data_args_zero <| da_fd := fd |> <| da_iov := iov |> <| da_iovlen := u64 iovlen |>
    <| da_start_ts := now |> in
  stash_write id args;;
  mret 0.
Definition fentry__sys_writev (regs : Z) : M Z :=
  e ← ask;
  handle_syscall_enter_writev (s32 (PT_REGS_PARM1_CORE e regs)) (PT_REGS_PARM2_CORE e regs)
    (s32 (PT_REGS_PARM3_CORE e regs)).
Definition tracepoint__syscalls__sys_enter_writev (ctx : Z) : M Z :=
  e ← ask;
  handle_syscall_enter_writev (s32 (TP_ARGS e 4 0 ctx)) (TP_ARGS e 8 1 ctx) (s32 (TP_ARGS e 4 2 ctx)).

Definition handle_syscall_exit_writev (bytes_count : Z) : M Z :=
  id ← bpf_get_current_pid_tgid;
  stash ← gets write_args_map;
  (match stash !! id with
   | Some args => if da_sock_event args then finish_data_vecs args id kEgress bytes_count else mret tt
   | None => mret tt
   end);;
  unstash_write id;;
  mret 0.
Definition fexit__sys_writev (regs bytes_count : Z) : M Z := handle_syscall_exit_writev (s64 bytes_count).
Definition tracepoint__syscalls__sys_exit_writev (ctx : Z) : M Z :=
  id ← bpf_get_current_pid_tgid;
  e ← ask;
  let bytes_count := s64 (TP_RET e 8 ctx) in
  stash ← gets write_args_map;
  (match stash !! id with
   | Some args => if da_sock_event args then finish_data_vecs args id kEgress bytes_count else mret tt
   | None => mret tt
   end);;
  unstash_write id;;
  mret 0.

(** ** close *)

Definition handle_syscall_enter_close (fd : Z) : M Z :=
  id ← bpf_get_current_pid_tgid;
  modify (fun s => s <| close_args_map ::=
    bpf_map_update_elem MAX_ENTRIES BPF_ANY id (mk_close_args (u32 fd)) |>);;
  mret 0.
Definition fentry__sys_close (regs : Z) : M Z :=
  e ← ask; handle_syscall_enter_close (s32 (PT_REGS_PARM1_CORE e regs)).
Definition tracepoint__syscalls__sys_enter_close (ctx : Z) : M Z :=
  e ← ask; handle_syscall_enter_close (s32 (TP_ARGS e 4 0 ctx)).

Definition handle_syscall_exit_close (ret : Z) : M Z :=
  id ← bpf_get_current_pid_tgid;
  stash ← gets close_args_map;
  (match stash !! id with
   | Some args => process_syscall_close (s32 ret) args id
   | None => mret tt
   end);;
  modify (fun s => s <| close_args_map ::= delete id |>);;
  mret 0.
Definition fexit__sys_close (regs ret : Z) : M Z := handle_syscall_exit_close (s64 ret).
Definition tracepoint__syscalls__sys_exit_close (ctx : Z) : M Z :=
  e ← ask; handle_syscall_exit_close (s64 (TP_RET e 8 ctx)).

(** ** connect *)

Definition handle_syscall_enter_connect (sockfd addr : Z) : M Z :=
  id ← bpf_get_current_pid_tgid;
  now ← bpf_ktime_get_ns;
  stash_connect id (mk_connect_args addr sockfd now);;
  mret 0.
Definition fentry__sys_connect (sockfd addr : Z) : M Z := handle_syscall_enter_connect (s32 sockfd) addr.
Definition tracepoint__syscalls__sys_enter_connect (ctx : Z) : M Z :=
  e ← ask; handle_syscall_enter_connect (s32 (TP_ARGS e 4 0 ctx)) (TP_ARGS e 8 1 ctx).

Definition handle_syscall_exit_connect (ret : Z) : M Z :=
  id ← bpf_get_current_pid_tgid;
  stash ← gets connect_args_map;
  (match stash !! id with
   | Some args => process_syscall_connect ret args id
   | None => mret tt
   end);;
  unstash_connect id;;
  mret 0.
Definition fexit__sys_connect (fd addr addrlen ret : Z) : M Z := handle_syscall_exit_connect (s32 ret).
Definition tracepoint__syscalls__sys_exit_connect (ctx : Z) : M Z :=
  e ← ask; handle_syscall_exit_connect (s32 (TP_RET e 8 ctx)).

(** ** accept4 *)

Definition handle_syscall_enter_accept4 (addr : Z) : M Z :=
  id ← bpf_get_current_pid_tgid;
  modify (fun s => s <| accept_args_map ::=
    bpf_map_update_elem MAX_ENTRIES BPF_ANY id (mk_accept_args addr 0) |>);;
  mret 0.
Definition fentry__sys_accept4 (fd addr : Z) : M Z := handle_syscall_enter_accept4 addr.
Definition tracepoint__syscalls__sys_enter_accept4 (ctx : Z) : M Z :=
  e ← ask; handle_syscall_enter_accept4 (TP_ARGS e 8 1 ctx).

Definition sock_alloc_ret (ctx : Z) : M Z :=
  id ← bpf_get_current_pid_tgid;
  e ← ask;
  modify (fun s => s <| accept_args_map ::= alter
    (fun a => if aca_sock_alloc_socket a =? 0
              then a <| aca_sock_alloc_socket := PT_REGS_RC_CORE e ctx |> else a) id |>);;
  mret 0.

Definition handle_syscall_exit_accept4 (ret : Z) : M Z :=
  id ← bpf_get_current_pid_tgid;
  stash ← gets accept_args_map;
  (match stash !! id with
   | Some args => process_syscall_accept ret args id
   | None => mret tt
   end);;
  modify (fun s => s <| accept_args_map ::= delete id |>);;
  mret 0.
Definition fexit__sys_accept4 (fd upeer_sockaddr upeer_addrlen flags ret : Z) : M Z :=
  handle_syscall_exit_accept4 (s64 ret).
Definition tracepoint__syscalls__sys_exit_accept4 (ctx : Z) : M Z :=
  id ← bpf_get_current_pid_tgid;
  stash ← gets accept_args_map;
  e ← ask;
  (match stash !! id with
   | Some args => process_syscall_accept (s64 (TP_RET e 8 ctx)) args id
   | None => mret tt
   end);;
  modify (fun s => s <| accept_args_map ::= delete id |>);;
  mret 0.

(** ** Processes *)

(** [tgid == (uint32_t) id]: the thread is the leader of its group. *)
Definition is_thread_group_leader (id : Z) : bool := tgid_of id =? u32 id.

Definition handle_sched_process_exec : M Z :=
  id ← bpf_get_current_pid_tgid;
  if is_thread_group_leader id then
    bpf_perf_event_output (proc_exec_events (s32 (tgid_of id)));; mret BPF_OK
  else mret BPF_OK.
Definition tracepoint__sched__sched_process_exec (ctx : Z) : M Z := handle_sched_process_exec.

Definition handle_sched_process_exit : M Z :=
  id ← bpf_get_current_pid_tgid;
  if is_thread_group_leader id then
    bpf_perf_event_output (proc_exit_events (s32 (tgid_of id)));; mret BPF_OK
  else mret BPF_OK.
Definition tracepoint__sched__sched_process_exit (ctx : Z) : M Z := handle_sched_process_exit.

(** ** The probes as data *)

Inductive enter_probe : Type :=
| E_recvfrom (fd buf src_addr flags : Z) | E_read (fd buf : Z)
| E_recvmmsg (sockfd msgvec vlen : Z) | E_recvmsg (sockfd msghdr flags : Z)
| E_readv (fd iov iovlen : Z) | E_sendfile (out_fd in_fd count : Z)
| E_sendto (fd buf dest_addr : Z) | E_write (fd buf : Z) | E_tp_write (ctx : Z)
| E_sendmmsg (sockfd msgvec vlen : Z) | E_sendmsg (sockfd msghdr : Z)
| E_writev (fd iov iovlen : Z) | E_close (fd : Z) | E_connect (sockfd addr : Z)
| E_accept4 (addr : Z).

Definition run_enter (p : enter_probe) : M Z :=
  match p with
  | E_recvfrom fd buf a fl => handle_syscall_enter_recvfrom fd buf a fl
  | E_read fd buf => handle_syscall_enter_read fd buf
  | E_recvmmsg fd v n => handle_syscall_enter_recvmmsg fd v n
  | E_recvmsg fd h fl => handle_syscall_enter_recvmsg fd h fl
  | E_readv fd v n => handle_syscall_enter_readv fd v n
  | E_sendfile o i c => handle_syscall_enter_sendfile o i c
  | E_sendto fd buf a => handle_syscall_enter_sendto fd buf a
  | E_write fd buf => handle_syscall_enter_write fd buf
  | E_tp_write ctx => tracepoint__syscalls__sys_enter_write ctx
  | E_sendmmsg fd v n => handle_syscall_enter_sendmmsg fd v n
  | E_sendmsg fd h => handle_syscall_enter_sendmsg fd h
  | E_writev fd v n => handle_syscall_enter_writev fd v n
  | E_close fd => handle_syscall_enter_close fd
  | E_connect fd a => handle_syscall_enter_connect fd a
  | E_accept4 a => handle_syscall_enter_accept4 a
  end.

Inductive exit_probe : Type :=
| X_recvfrom (n : Z) | X_read (n : Z) | X_recvmmsg (n : Z) | X_recvmsg (n : Z) | X_readv (n : Z)
| X_sendfile (n : Z) | X_sendto (n : Z) | X_write (n : Z) | X_sendmmsg (n : Z) | X_sendmsg (n : Z)
| X_writev (n : Z) | X_close (ret : Z) | X_connect (ret : Z) | X_accept4 (ret : Z).

Definition run_exit (p : exit_probe) : M Z :=
  match p with
  | X_recvfrom n => handle_syscall_exit_recvfrom n
  | X_read n => handle_syscall_exit_read n
  | X_recvmmsg n => handle_syscall_exit_recvmmsg n
  | X_recvmsg n => handle_syscall_exit_recvmsg n
  | X_readv n => handle_syscall_exit_readv n
  | X_sendfile n => handle_syscall_exit_sendfile64 n
  | X_sendto n => handle_syscall_exit_sendto n
  | X_write n => handle_syscall_exit_write n
  | X_sendmmsg n => handle_syscall_exit_sendmmsg n
  | X_sendmsg n => handle_syscall_exit_sendmsg n
  | X_writev n => handle_syscall_exit_writev n
  | X_close r => handle_syscall_exit_close r
  | X_connect r => handle_syscall_exit_connect r
  | X_accept4 r => handle_syscall_exit_accept4 r
  end.

(** The arguments stashed for a thread. *)
Record stash := mk_stash {
  st_read : option data_args; st_write : option data_args; st_connect : option connect_args;
  st_close : option close_args; st_accept : option accept_args; st_sendfile : option sendfile_args;
}.
Definition stash_of (s : bpf) (id : Z) : stash :=
  mk_stash (read_args_map s !! id) (write_args_map s !! id) (connect_args_map s !! id)
    (close_args_map s !! id) (accept_args_map s !! id) (active_sendfile_args_map s !! id).
#[export] Instance eta_stash : Eta stash := fun r =>
  mk_stash (st_read r) (st_write r) (st_connect r) (st_close r) (st_accept r) (st_sendfile r).

(** What an exit forgets. *)
Definition forget (p : exit_probe) (t : stash) : stash :=
  match p with
  | X_recvfrom _ | X_recvmmsg _ | X_recvmsg _ => t <| st_connect := None |> <| st_read := None |>
  | X_read _ | X_readv _ => t <| st_read := None |>
  | X_sendto _ | X_sendmmsg _ | X_sendmsg _ => t <| st_connect := None |> <| st_write := None |>
  | X_write _ | X_writev _ => t <| st_write := None |>
  | X_sendfile _ => t <| st_sendfile := None |>
  | X_close _ => t <| st_close := None |>
  | X_connect _ => t <| st_connect := None |>
  | X_accept4 _ => t <| st_accept := None |>
  end.

(** *** Frames *)

(** A run that leaves every stash as it was. *)
Lemma good_stash s s' id : good s s' -> inv s -> stash_of s' id = stash_of s id.
Proof.
  intros Hg Hi. unfold stash_of.
  rewrite (good_field read_args_map s s' (fun _ => eq_refl) Hg Hi).
  rewrite (good_field write_args_map s s' (fun _ => eq_refl) Hg Hi).
  rewrite (good_field connect_args_map s s' (fun _ => eq_refl) Hg Hi).
  rewrite (good_field close_args_map s s' (fun _ => eq_refl) Hg Hi).
  rewrite (good_field accept_args_map s s' (fun _ => eq_refl) Hg Hi).
  by rewrite (good_field active_sendfile_args_map s s' (fun _ => eq_refl) Hg Hi).
Qed.

Lemma finish_data_good args id d n : keeps good (finish_data args id d n).
Proof. unfold finish_data. keeps_tac. Qed.
Lemma finish_data_vecs_good args id d n : keeps good (finish_data_vecs args id d n).
Proof. unfold finish_data_vecs. keeps_tac. Qed.
#[export] Hint Resolve finish_data_good finish_data_vecs_good : keeps.

(** A change of the stash alone keeps the invariant. *)
Definition without_stash (s : bpf) : bpf :=
  s <| read_args_map := ∅ |> <| write_args_map := ∅ |> <| connect_args_map := ∅ |>
    <| close_args_map := ∅ |> <| accept_args_map := ∅ |> <| active_sendfile_args_map := ∅ |>.

Lemma inv_without_stash s : inv s <-> inv (without_stash s).
Proof. split; intros [? ? ? ? ? ? ? ?]; by split. Qed.

Lemma inv_stash s s' : without_stash s' = without_stash s -> inv s -> inv s'.
Proof.
  intros H Hi. apply (proj2 (inv_without_stash s')). rewrite H. exact (proj1 (inv_without_stash s) Hi).
Qed.

(** [m] leaves the stash of the other threads alone, turns that of the thread
    [id] by [f], and keeps the invariant. *)
Definition stashes {A} (id : Z) (f : stash -> stash) (m : M A) : Prop :=
  forall e s, inv s ->
    inv (exec m e s) /\ stash_of (exec m e s) id = f (stash_of s id) /\
    forall id', id' <> id -> stash_of (exec m e s) id' = stash_of s id'.

Lemma stashes_bind {A B} id f g h (m : M A) (k : A -> M B) :
  stashes id f m -> (forall a, stashes id g (k a)) -> (forall t, h t = g (f t)) ->
  stashes id h (m ≫= k).
Proof.
  intros Hm Hk Hh e s Hi. rewrite exec_bind. destruct (Hm e s Hi) as (H1 & H2 & H3).
  destruct (Hk (result m e s) e (exec m e s) H1) as (H4 & H5 & H6).
  split; [done|]. split; [by rewrite H5, H2, Hh|]. intros id' Hid. by rewrite H6, H3.
Qed.

Lemma stashes_good {A} id (m : M A) : keeps good m -> stashes id (fun t => t) m.
Proof.
  intros Hm e s Hi. pose proof (Hm e s) as Hg. split; [apply Hg, Hi|].
  split; [by apply good_stash|]. intros id' _. by apply good_stash.
Qed.

(** The good part of a handler, and then the rest. *)
Lemma stashes_after {A B} id f (m : M A) (k : A -> M B) :
  keeps good m -> (forall a, stashes id f (k a)) -> stashes id f (m ≫= k).
Proof. intros Hm Hk. eapply stashes_bind; [by apply stashes_good|exact Hk|done]. Qed.

Lemma stashes_modify id f (g : bpf -> bpf) :
  (forall s, without_stash (g s) = without_stash s) ->
  (forall s, stash_of (g s) id = f (stash_of s id)) ->
  (forall s id', id' <> id -> stash_of (g s) id' = stash_of s id') ->
  stashes id f (modify g).
Proof.
  intros H1 H2 H3 e s Hi. rewrite exec_modify. split; [by eapply inv_stash; [apply H1|]|]. auto.
Qed.

Ltac stash_delete :=
  apply stashes_modify; [done | intros s; unfold stash_of; fsimp; by rewrite lookup_delete_eq
    | intros s id' Hid; unfold stash_of; fsimp; by rewrite lookup_delete_ne by done].

Lemma unstash_read_ok id : stashes id (fun t => t <| st_read := None |>) (unstash_read id).
Proof. stash_delete. Qed.
Lemma unstash_write_ok id : stashes id (fun t => t <| st_write := None |>) (unstash_write id).
Proof. stash_delete. Qed.
Lemma unstash_connect_ok id : stashes id (fun t => t <| st_connect := None |>) (unstash_connect id).
Proof. stash_delete. Qed.
Lemma unstash_close_ok id :
  stashes id (fun t => t <| st_close := None |>) (modify (fun s => s <| close_args_map ::= delete id |>)).
Proof. stash_delete. Qed.
Lemma unstash_accept_ok id :
  stashes id (fun t => t <| st_accept := None |>) (modify (fun s => s <| accept_args_map ::= delete id |>)).
Proof. stash_delete. Qed.
Lemma unstash_sendfile_ok id :
  stashes id (fun t => t <| st_sendfile := None |>)
    (modify (fun s => s <| active_sendfile_args_map ::= delete id |>)).
Proof. stash_delete. Qed.

Lemma exit_implicit_ok id ok fn r :
  stashes id (fun t => t <| st_connect := None |>) (exit_implicit id ok fn r).
Proof.
  unfold exit_implicit. apply stashes_after; [keeps_tac|]. intros conns.
  apply stashes_after; [keeps_tac|]. intros _. apply unstash_connect_ok.
Qed.

(** The end of every exit handler: the stashed call is processed and forgotten. *)
Lemma stashes_end {A} id f (m : M A) (u : M unit) :
  keeps good m -> stashes id f u -> stashes id f (m;; u;; mret 0).
Proof.
  intros Hm Hu. apply stashes_after; [done|]. intros _.
  eapply stashes_bind; [exact Hu|intros _; apply stashes_good; keeps_tac|done].
Qed.

(** The same for a probe, of the thread it runs in. *)
Definition thread_stashes (f : stash -> stash) (m : M Z) : Prop :=
  forall e s, inv s ->
    let s' := exec m e s in
    inv s' /\ stash_of s' (pid_tgid e) = f (stash_of s (pid_tgid e)) /\
    forall id', id' <> pid_tgid e -> stash_of s' id' = stash_of s id'.

Lemma stashes_pid f (k : Z -> M Z) :
  (forall id, stashes id f (k id)) -> thread_stashes f (id ← bpf_get_current_pid_tgid; k id).
Proof. intros Hk e s Hi s'. subst s'. run. by apply Hk. Qed.

(** An exit handler after its address has been dealt with. *)
Ltac exit_end :=
  apply stashes_end; [keeps_tac|];
  first [ apply unstash_read_ok | apply unstash_write_ok | apply unstash_connect_ok
        | apply unstash_close_ok | apply unstash_accept_ok | apply unstash_sendfile_ok ].
Ltac exit_rest :=
  apply stashes_after; [keeps_tac|intros ?];
  first [ solve [exit_end] | apply stashes_after; [keeps_tac|intros ?]; exit_end ].

Lemma run_exit_stash p : thread_stashes (forget p) (run_exit p).
Proof.
  destruct p; cbn [run_exit forget];
    [ unfold handle_syscall_exit_recvfrom | unfold handle_syscall_exit_read
    | unfold handle_syscall_exit_recvmmsg | unfold handle_syscall_exit_recvmsg
    | unfold handle_syscall_exit_readv | unfold handle_syscall_exit_sendfile64
    | unfold handle_syscall_exit_sendto | unfold handle_syscall_exit_write
    | unfold handle_syscall_exit_sendmmsg | unfold handle_syscall_exit_sendmsg
    | unfold handle_syscall_exit_writev | unfold handle_syscall_exit_close
    | unfold handle_syscall_exit_connect | unfold handle_syscall_exit_accept4 ];
    apply stashes_pid; intros id;
    first [ solve [exit_rest]
          | eapply stashes_bind; [apply exit_implicit_ok|intros _; exit_rest|reflexivity] ].
Qed.

(** *** Entries *)

(** Nothing but stashes and the clock changes. *)
Definition quiet (s s' : bpf) : Prop :=
  without_stash (persistent s') = without_stash (persistent s) /\ perf s' = perf s /\
  (inv s -> inv s').

#[export] Instance quiet_preorder : PreOrder quiet.
Proof. split; unfold quiet; [done|]. intros s1 s2 s3. intuition congruence. Qed.

Lemma quiet_modify g :
  (forall s, without_stash (g s) = without_stash s) -> keeps (E := env) quiet (modify g).
Proof.
  intros Hg. apply keeps_modify. intros s. pose proof (Hg s) as H. split; [|split].
  - exact (f_equal persistent H).
  - exact (f_equal perf H).
  - by apply inv_stash.
Qed.

Lemma ktime_quiet : keeps quiet bpf_ktime_get_ns.
Proof.
  intros e s. rewrite exec_ktime. split; [done|]. split; [done|]. intros [? ? ? ? ? ? ? ?]. by split.
Qed.
Lemma pid_quiet : keeps quiet bpf_get_current_pid_tgid.
Proof. unfold bpf_get_current_pid_tgid. keeps_tac. Qed.
Lemma stash_read_quiet id a : keeps quiet (stash_read id a).
Proof. by apply quiet_modify. Qed.
Lemma stash_write_quiet id a : keeps quiet (stash_write id a).
Proof. by apply quiet_modify. Qed.
Lemma stash_connect_quiet id a : keeps quiet (stash_connect id a).
Proof. by apply quiet_modify. Qed.
Lemma unstash_read_quiet id : keeps quiet (unstash_read id).
Proof. by apply quiet_modify. Qed.
Lemma unstash_write_quiet id : keeps quiet (unstash_write id).
Proof. by apply quiet_modify. Qed.
#[export] Hint Resolve ktime_quiet pid_quiet stash_read_quiet stash_write_quiet stash_connect_quiet
  unstash_read_quiet unstash_write_quiet : keeps.

Lemma stash_addr_quiet id fd a : keeps quiet (stash_addr id fd a).
Proof. unfold stash_addr. keeps_tac. Qed.
#[export] Hint Resolve stash_addr_quiet : keeps.

Lemma run_enter_quiet p : keeps quiet (run_enter p).
Proof.
  destruct p; cbn [run_enter];
    unfold handle_syscall_enter_recvfrom, handle_syscall_enter_read, handle_syscall_enter_recvmmsg,
      handle_syscall_enter_recvmsg, handle_syscall_enter_readv, handle_syscall_enter_sendfile,
      handle_syscall_enter_sendto, handle_syscall_enter_write, tracepoint__syscalls__sys_enter_write,
      handle_syscall_enter_sendmmsg, handle_syscall_enter_sendmsg, handle_syscall_enter_writev,
      handle_syscall_enter_close, handle_syscall_enter_connect, handle_syscall_enter_accept4;
    keeps_tac; by apply quiet_modify.
Qed.

(** The hooks that mark a stashed call as one on a socket, and the record of an
    accepted socket. *)
Lemma sendmsg_quiet : keeps quiet handle_security_socket_sendmsg.
Proof. unfold handle_security_socket_sendmsg. keeps_tac. by apply quiet_modify. Qed.
Lemma recvmsg_quiet : keeps quiet handle_security_socket_recvmsg.
Proof. unfold handle_security_socket_recvmsg. keeps_tac. by apply quiet_modify. Qed.
Lemma sock_alloc_quiet ctx : keeps quiet (sock_alloc_ret ctx).
Proof. unfold sock_alloc_ret. keeps_tac. by apply quiet_modify. Qed.

(** Exits of calls whose arguments no socket hook has marked. *)
Definition unmarked (o : option data_args) : Prop :=
  match o with Some a => da_sock_event a = false | None => True end.

Lemma exit_read_quiet n e s :
  unmarked (read_args_map s !! pid_tgid e) -> quiet s (exec (handle_syscall_exit_read n) e s).
Proof.
  intros Hu. unfold handle_syscall_exit_read. run.
  destruct (read_args_map s !! pid_tgid e) as [a|]; cbn in Hu; rewrite ?Hu; run;
    apply (unstash_read_quiet (pid_tgid e) e s).
Qed.
Lemma exit_readv_quiet n e s :
  unmarked (read_args_map s !! pid_tgid e) -> quiet s (exec (handle_syscall_exit_readv n) e s).
Proof.
  intros Hu. unfold handle_syscall_exit_readv. run.
  destruct (read_args_map s !! pid_tgid e) as [a|]; cbn in Hu; rewrite ?Hu; run;
    apply (unstash_read_quiet (pid_tgid e) e s).
Qed.
Lemma exit_write_quiet n e s :
  unmarked (write_args_map s !! pid_tgid e) -> quiet s (exec (handle_syscall_exit_write n) e s).
Proof.
  intros Hu. unfold handle_syscall_exit_write. run.
  destruct (write_args_map s !! pid_tgid e) as [a|]; cbn in Hu; rewrite ?Hu; run;
    apply (unstash_write_quiet (pid_tgid e) e s).
Qed.
Lemma exit_writev_quiet n e s :
  unmarked (write_args_map s !! pid_tgid e) -> quiet s (exec (handle_syscall_exit_writev n) e s).
Proof.
  intros Hu. unfold handle_syscall_exit_writev. run.
  destruct (write_args_map s !! pid_tgid e) as [a|]; cbn in Hu; rewrite ?Hu; run;
    apply (unstash_write_quiet (pid_tgid e) e s).
Qed.

(** What an entry stashes is not marked. *)
Lemma update_unmarked id a (m : gmap Z data_args) :
  da_sock_event a = false -> unmarked (m !! id) ->
  unmarked (bpf_map_update_elem MAX_ENTRIES BPF_ANY id a m !! id).
Proof.
  intros Ha Hm. destruct (bpf_map_update_elem MAX_ENTRIES BPF_ANY id a m !! id) eqn:E; [|done].
  apply update_lookup in E as [ [_ ->]|E]; [done|]. by rewrite E in Hm.
Qed.

(** A call on a file: an entry, and the exit of the same call. *)
Inductive file_io : enter_probe -> exit_probe -> Prop :=
| io_read fd buf n : file_io (E_read fd buf) (X_read n)
| io_write fd buf n : file_io (E_write fd buf) (X_write n)
| io_tp_write ctx n : file_io (E_tp_write ctx) (X_write n)
| io_readv fd v l n : file_io (E_readv fd v l) (X_readv n)
| io_writev fd v l n : file_io (E_writev fd v l) (X_writev n).

(** When the process has no Go symbols no call is taken for one inside an SSL
    call, and only the record of an enclosing OpenSSL call changes before the
    data is processed. *)
Lemma get_goid_none e s :
  go_common_symaddrs_map s !! tgid_of (pid_tgid e) = None -> get_goid e s = (0, s).
Proof.
  intros Hgo. unfold get_goid, bpf_get_current_pid_tgid. steps. by rewrite Hgo.
Qed.

Lemma propagate_no_go id fd len e s :
  go_common_symaddrs_map s !! tgid_of (pid_tgid e) = None ->
  exists f, propagate_fd_to_uprobe id fd len e s = (false, s <| ssl_user_space_call_map ::= f |>).
Proof.
  intros Hgo. eexists. unfold propagate_fd_to_uprobe. steps.
  match goal with |- (get_goid ≫= _) e ?x = _ =>
    rewrite (step_run _ _ _ _ _ _ (get_goid_none e x Hgo)) end.
  reflexivity.
Qed.

Lemma finish_data_no_go args id n e s :
  pid_tgid e = id -> go_common_symaddrs_map s !! tgid_of id = None ->
  exists s1 args', exec (finish_data args id kEgress n) e s =
      exec (process_syscall_data args' id kEgress n false) e s1 /\
    conn_info_map s1 = conn_info_map s /\ (scratch_ok s -> scratch_ok s1) /\
    (forall t, passes s t -> passes s1 t) /\ perf s1 = perf s /\ da_fd args' = da_fd args.
Proof.
  intros Hid Hgo.
  unfold finish_data. rewrite exec_bind, exec_ktime, result_ktime.
  destruct (propagate_no_go id (da_fd (args <| da_end_ts := clock e (ticks s) |>)) n e
    (s <| ticks ::= S |>)) as [f Hf]; [by rewrite Hid|].
  unfold exec at 1. rewrite (step_run _ _ _ _ _ _ Hf).
  eexists _, _. split; [reflexivity|]. done.
Qed.

(** *** Arguments *)

Lemma s32_u64 z : s32 (u64 z) = s32 z.
Proof. by rewrite <- s32_u32, u32_u64, s32_u32. Qed.

Lemma reg_read e a v : holds (kmem e) a (le_encode 8 v) -> kread e a 8 = u64 v.
Proof. apply kread_le. Qed.

(** The low half of an argument slot. *)
Lemma kread_low e a v : holds (kmem e) a (le_encode 8 v) -> kread e a 4 = u32 v.
Proof.
  intros H. unfold kread, bpf_probe_read_kernel.
  rewrite (probe_holds _ _ _ 4 H) by (rewrite length_le_encode; lia).
  change (take 4 (le_encode 8 v)) with (le_encode 4 v). apply le_decode_encode.
Qed.

Lemma tp_args_read e ctx a0 a1 a2 a3 :
  holds (kmem e) (ctx + 16) (le_encode 8 a0 ++ le_encode 8 a1 ++ le_encode 8 a2 ++ le_encode 8 a3) ->
  TP_ARGS e 4 0 ctx = u32 a0 /\ TP_ARGS e 8 1 ctx = u64 a1 /\ TP_ARGS e 4 2 ctx = u32 a2.
Proof.
  intros H. apply holds_app in H as [H0 H]. apply holds_app in H as [H1 H].
  apply holds_app in H as [H2 _]. rewrite !length_le_encode in *. unfold TP_ARGS.
  replace (ctx + 16 + 0 * 8) with (ctx + 16) by lia.
  replace (ctx + 16 + Z.of_nat 8) with (ctx + 16 + 1 * 8) in H1 by lia.
  replace (ctx + 16 + Z.of_nat 8 + Z.of_nat 8) with (ctx + 16 + 2 * 8) in H2 by lia.
  by rewrite (kread_low _ _ _ H0), (reg_read _ _ _ H1), (kread_low _ _ _ H2).
Qed.

(** ** Properties *)

(** Every exit handler forgets the arguments its call stashed, those of the
    address it may have come with included, whatever becomes of the call; it
    touches no other stash of the thread and no stash of another thread, and it
    keeps the invariant of the maps. *)
Theorem exit_forgets_arguments p e s :
  inv s ->
  let s' := exec (run_exit p) e s in
  inv s' /\ stash_of s' (pid_tgid e) = forget p (stash_of s (pid_tgid e)) /\
  forall id, id <> pid_tgid e -> stash_of s' id = stash_of s id.
Proof. apply run_exit_stash. Qed.

Lemma inv_init : inv bpf_init.
Proof.
  split.
  - repeat split; eexists; reflexivity.
  - intros ci [= <-]. by repeat split.
  - apply map_Forall_empty.
  - apply map_Forall_empty.
  - done.
  - done.
  - done.
  - done.
Qed.

(** [exit_forgets_arguments] at the start. *)
Lemma exit_forgets_arguments_witness :
  let s' := exec (run_exit (X_sendto 5)) env_conn bpf_init in
  inv s' /\ stash_of s' 0 = mk_stash None None None None None None /\
  forall id, id <> 0 -> stash_of s' id = stash_of bpf_init id.
Proof. exact (exit_forgets_arguments (X_sendto 5) env_conn bpf_init inv_init). Defined.

(** Reads and writes that never reach a socket are not traced: entry and
    exit of [read], [write], [readv] or [writev] without a socket hook between
    them write no event and leave every map but the stash as it was. *)
Theorem file_io_untraced p x e1 e2 s :
  file_io p x -> pid_tgid e2 = pid_tgid e1 ->
  read_args_map s !! pid_tgid e1 = None -> write_args_map s !! pid_tgid e1 = None ->
  let s' := exec (run_exit x) e2 (exec (run_enter p) e1 s) in
  without_stash (persistent s') = without_stash (persistent s) /\ perf s' = perf s.
Proof.
  intros Hio Hpid Hr Hw s'.
  enough (quiet s s') as (? & ? & _) by done.
  subst s'. transitivity (exec (run_enter p) e1 s); [apply run_enter_quiet|].
  destruct Hio; cbn [run_exit run_enter];
    [apply exit_read_quiet | apply exit_write_quiet | apply exit_write_quiet
    | apply exit_readv_quiet | apply exit_writev_quiet]; rewrite Hpid;
    unfold handle_syscall_enter_read, handle_syscall_enter_write, handle_syscall_enter_readv,
      tracepoint__syscalls__sys_enter_write, handle_syscall_enter_writev, stash_read, stash_write;
    run; try (destruct (_ =? 0); run); fsimp_goal;
    first [ apply update_unmarked; [done|by rewrite ?Hr, ?Hw] | by rewrite ?Hr, ?Hw ].
Qed.

(** [file_io_untraced] for a read from a file. *)
Lemma file_io_untraced_witness :
  perf (exec (run_exit (X_read 100)) env_conn (exec (run_enter (E_read 3 4096)) env_conn bpf_init)) = [].
Proof.
  exact (proj2 (file_io_untraced (E_read 3 4096) (X_read 100) env_conn env_conn bpf_init
    (io_read 3 4096 100) eq_refl eq_refl eq_refl)).
Defined.

Lemma quiet_field {T} (f : bpf -> T) s s' :
  (forall x, f x = f (without_stash (persistent x))) -> quiet s s' -> f s' = f s.
Proof. intros Hf (Hq & _). rewrite (Hf s), (Hf s'). congruence. Qed.

Lemma quiet_passes s s' tgid : quiet s s' -> passes s tgid -> passes s' tgid.
Proof.
  intros Hq. unfold passes, filter_enabled.
  by rewrite (quiet_field control_values _ _ (fun _ => eq_refl) Hq),
    (quiet_field filter_pid_map _ _ (fun _ => eq_refl) Hq).
Qed.

(** What the entry handler and the socket hook stash for a write. *)
Definition write_args_of (fd buf ts : Z) : data_args :=
  data_args_zero <| da_fd := fd |> <| da_buf := buf |> <| da_source_fn := kSyscallWrite |>
    <| da_start_ts := ts |> <| da_sock_event := true |>.

Lemma write_stashed fd buf e1 e2 s :
  pid_tgid e2 = pid_tgid e1 -> buf <> 0 -> Z.of_nat (size (write_args_map s)) < MAX_ENTRIES ->
  write_args_map (exec handle_security_socket_sendmsg e2
    (exec (handle_syscall_enter_write fd buf) e1 s)) !! pid_tgid e1 =
  Some (write_args_of fd buf (clock e1 (ticks s))).
Proof.
  intros Hp Hbuf Hroom.
  unfold handle_security_socket_sendmsg, handle_syscall_enter_write, stash_write.
  run. rewrite (proj2 (Z.eqb_neq _ _) Hbuf). run. fsimp. rewrite Hp.
  by rewrite lookup_alter_eq, update_any_eq by (by right).
Qed.

Lemma exit_write_run n e s args :
  write_args_map s !! pid_tgid e = Some args -> da_sock_event args = true ->
  exec (handle_syscall_exit_write n) e s =
  exec (finish_data args (pid_tgid e) kEgress n) e s <| write_args_map ::= delete (pid_tgid e) |>.
Proof. intros Ha Hs. unfold handle_syscall_exit_write. run. rewrite Ha, Hs. by run. Qed.

(** A write on a traced socket, from entry to exit.  The entry handler, the
    socket hook and the exit handler, run in the thread in this order around a
    write of [n] bytes, produce the events of exactly these [n] bytes, numbered
    on from the counter of the connection; the counter grows by [n] and the stash is empty again. *)
Theorem socket_write_traced fd buf n e1 e2 e3 s ci :
  let id := pid_tgid e1 in
  let t := gen_tgid_fd (tgid_of id) fd in
  pid_tgid e2 = id -> pid_tgid e3 = id -> buf <> 0 -> 0 < n < 2147483648 ->
  conn_info_map s !! t = Some ci -> streaming ci -> inv s -> passes s (tgid_of id) ->
  go_common_symaddrs_map s !! tgid_of id = None ->
  Z.of_nat (size (write_args_map s)) < MAX_ENTRIES ->
  let s' := exec (handle_syscall_exit_write n) e3
    (exec handle_security_socket_sendmsg e2 (exec (handle_syscall_enter_write fd buf) e1 s)) in
  exists l ci', perf s' = perf s ++ l /\
    tiles (mk_conn_id_s t (stack_no_trace e3)) SYSCALL_OUT (ci_write_bytes ci + 1) n l /\
    conn_info_map s' !! t = Some ci' /\ ci_write_bytes ci' = u64 (ci_write_bytes ci + n) /\
    ci_read_bytes ci' = ci_read_bytes ci /\
    write_args_map s' !! id = None /\ inv s'.
Proof.
  intros id t Hp2 Hp3 Hbuf Hn Hci Hst Hi Hpass Hgo Hroom s'.
  pose proof (write_stashed fd buf e1 e2 s Hp2 Hbuf Hroom) as Hargs. fold id in Hargs.
  set (s2 := exec handle_security_socket_sendmsg e2 _) in *.
  assert (Hq : quiet s s2) by (etrans; [apply (run_enter_quiet (E_write fd buf))|apply sendmsg_quiet]).
  set (args := write_args_of _ _ _) in *.
  assert (Hs' : s' = _) by (apply (exit_write_run n e3 s2 args); [by rewrite Hp3|reflexivity]).
  rewrite Hp3 in Hs'. set (s3 := exec (finish_data args id kEgress n) e3 s2) in *.
  destruct (finish_data_no_go args id n e3 s2 Hp3) as (s4 & a4 & Hrun & Hcm & Hsc & Hpa & Hpf & Hfd).
  { by rewrite (quiet_field go_common_symaddrs_map _ _ (fun _ => eq_refl) Hq). }
  fold s3 in Hrun. rewrite (quiet_field conn_info_map _ _ (fun _ => eq_refl) Hq) in Hcm.
  specialize (Hpa _ (quiet_passes _ _ _ Hq Hpass)).
  destruct Hq as (_ & Hq2 & Hq3). specialize (Hq3 Hi). specialize (Hsc (inv_scratch _ Hq3)).
  rewrite <- Hcm in Hci.
  assert (Heff : call_effect s4 e3 (tgid_of id) fd kEgress ci n s3)
    by (rewrite Hrun; apply process_data_effect; assumption || reflexivity).
  destruct (call_effect_next _ _ _ _ _ _ _ _ Hci Hst Hsc Hpa Heff)
    as (ci' & l & H1 & H2 & H3 & H4 & H5 & _).
  exists l, ci'. rewrite Hs'. fsimp_goal.
  split; [rewrite H1, Hpf; congruence|]. split; [exact H2|]. split; [exact H3|].
  split; [exact H4|]. split; [by apply (H5 kIngress)|]. split; [apply lookup_delete_eq|].
  apply (inv_stash s3); [done|]. apply (finish_data_good args id kEgress n e3 s2), Hq3.
Qed.

(** [socket_write_traced] for 5 bytes on the example connection. *)
Lemma state_http_inv : inv (state_http <| conn_info_map := {[gen_tgid_fd 10 3 :=
  conn_http <| ci_conn_id := mk_conn_id 10 0 3 1 |>]} |>).
Proof.
  destruct inv_init as [H1 H2 _ H4 _ H6 H7 H8]. split;
    [exact H1|exact H2| |exact H4|apply Z.leb_le; reflexivity|exact H6|exact H7|exact H8].
  intros t ci Hl. fsimp. apply lookup_singleton_Some in Hl as [<- <-].
  repeat split; vm_compute; congruence.
Qed.
Lemma socket_write_traced_witness :
  let e := env0 <| pid_tgid := 10 * 4294967296 + 12 |> in
  let s := state_http <| conn_info_map := {[gen_tgid_fd 10 3 :=
    conn_http <| ci_conn_id := mk_conn_id 10 0 3 1 |>]} |> in
  let s' := exec (handle_syscall_exit_write 5) e
    (exec handle_security_socket_sendmsg e (exec (handle_syscall_enter_write 3 4096) e s)) in
  exists l ci', perf s' = [] ++ l /\
    tiles (mk_conn_id_s (gen_tgid_fd 10 3) unset) SYSCALL_OUT 101 5 l /\
    conn_info_map s' !! gen_tgid_fd 10 3 = Some ci' /\ ci_write_bytes ci' = 105 /\
    ci_read_bytes ci' = 0 /\ write_args_map s' !! (10 * 4294967296 + 12) = None /\ inv s'.
Proof.
  intros e s.
  refine (socket_write_traced 3 4096 5 e e e s (conn_http <| ci_conn_id := mk_conn_id 10 0 3 1 |>)
    eq_refl eq_refl _ _ eq_refl _ state_http_inv _ eq_refl eq_refl);
    [discriminate|lia|by repeat split|]. left. intros [? ?]. discriminate.
Defined.

(** The two ways of attaching an entry probe agree.  Where the tracepoint
    record and the saved registers hold the same arguments, the fentry and the
    tracepoint program of [read], [readv], [writev], [recvmsg], [recvmmsg] and
    [close] do the same, and those of [write] do whenever the buffer is not
    NULL. *)
Theorem fentry_tracepoint_agree e s ctx regs a0 a1 a2 a3 :
  holds (kmem e) (ctx + 16) (le_encode 8 a0 ++ le_encode 8 a1 ++ le_encode 8 a2 ++ le_encode 8 a3) ->
  holds (kmem e) (regs + 112) (le_encode 8 a0) -> holds (kmem e) (regs + 104) (le_encode 8 a1) ->
  holds (kmem e) (regs + 96) (le_encode 8 a2) ->
  fentry__sys_read regs e s = tracepoint__syscalls__sys_enter_read ctx e s /\
  fentry__sys_readv regs e s = tracepoint__syscalls__sys_enter_readv ctx e s /\
  fentry__sys_writev regs e s = tracepoint__syscalls__sys_enter_writev ctx e s /\
  fentry__sys_recvmsg regs e s = tracepoint__syscalls__sys_enter_recvmsg ctx e s /\
  fentry__sys_recvmmsg regs e s = tracepoint__syscalls__sys_enter_recvmmsg ctx e s /\
  fentry__sys_close regs e s = tracepoint__syscalls__sys_enter_close ctx e s /\
  (u64 a1 <> 0 -> fentry__sys_write regs e s = tracepoint__syscalls__sys_enter_write ctx e s).
Proof.
  intros Htp H1 H2 H3.
  destruct (tp_args_read e ctx a0 a1 a2 a3 Htp) as (T0 & T1 & T2).
  pose proof (reg_read e _ a0 H1) as R1. pose proof (reg_read e _ a1 H2) as R2.
  pose proof (reg_read e _ a2 H3) as R3.
  unfold fentry__sys_read, fentry__sys_readv, fentry__sys_writev, fentry__sys_recvmsg,
    fentry__sys_recvmmsg, fentry__sys_close, fentry__sys_write,
    tracepoint__syscalls__sys_enter_read, tracepoint__syscalls__sys_enter_readv,
    tracepoint__syscalls__sys_enter_writev, tracepoint__syscalls__sys_enter_recvmsg,
    tracepoint__syscalls__sys_enter_recvmmsg, tracepoint__syscalls__sys_enter_close,
    tracepoint__syscalls__sys_enter_write, PT_REGS_PARM1_CORE, PT_REGS_PARM2_CORE, PT_REGS_PARM3_CORE.
  steps. rewrite T0, T1, T2, R1, R2, R3, !s32_u64, !s32_u32, u32_u64. repeat split.
  intros Hbuf. unfold handle_syscall_enter_write, bpf_get_current_pid_tgid. steps.
  rewrite (proj2 (Z.eqb_neq _ _) Hbuf), T0, T1, s32_u32. reflexivity.
Qed.

(** [fentry_tracepoint_agree] for [write(3, 4096, 5)]. *)
Lemma fentry_tracepoint_agree_witness :
  let word z := le_encode 8 z in
  let e := env0 <| kmem := mem_at 2096 (word 5 ++ word 4096 ++ word 3 ++ replicate 896 0 ++
    word 3 ++ word 4096 ++ word 5 ++ word 0) |> in
  fentry__sys_write 2000 e bpf_init = tracepoint__syscalls__sys_enter_write 3000 e bpf_init.
Proof.
  intros word e.
  refine (proj2 (proj2 (proj2 (proj2 (proj2 (proj2
    (fentry_tracepoint_agree e bpf_init 3000 2000 3 4096 5 0 _ _ _ _)))))) _);
    [holds_tac|holds_tac|holds_tac|holds_tac|vm_compute; congruence].
Defined.

(** With a NULL buffer the two entry probes of [write] differ: the fentry
    program stashes nothing, the tracepoint program stashes the call. *)
Theorem write_probes_differ_on_null e s ctx regs a0 a2 a3 :
  holds (kmem e) (ctx + 16) (le_encode 8 a0 ++ le_encode 8 0 ++ le_encode 8 a2 ++ le_encode 8 a3) ->
  holds (kmem e) (regs + 104) (le_encode 8 0) ->
  Z.of_nat (size (write_args_map s)) < MAX_ENTRIES -> write_args_map s !! pid_tgid e = None ->
  write_args_map (exec (fentry__sys_write regs) e s) !! pid_tgid e = None /\
  is_Some (write_args_map (exec (tracepoint__syscalls__sys_enter_write ctx) e s) !! pid_tgid e).
Proof.
  intros Htp H2 Hroom Hnone.
  unfold fentry__sys_write, tracepoint__syscalls__sys_enter_write, handle_syscall_enter_write,
    PT_REGS_PARM1_CORE, PT_REGS_PARM2_CORE, stash_write. run.
  rewrite (reg_read e _ 0 H2). change (u64 0 =? 0) with true. run. split; [done|]. fsimp_goal.
  rewrite update_any_eq by (by right). by eexists.
Qed.

(** [write_probes_differ_on_null] for [write(3, NULL, 5)]. *)
Lemma write_probes_differ_on_null_witness :
  let word z := le_encode 8 z in
  let e := env0 <| kmem := mem_at 2104 (word 0 ++ word 3 ++ replicate 896 0 ++
    word 3 ++ word 0 ++ word 5 ++ word 0) |> in
  write_args_map (exec (fentry__sys_write 2000) e bpf_init) !! 0 = None /\
  is_Some (write_args_map (exec (tracepoint__syscalls__sys_enter_write 3000) e bpf_init) !! 0).
Proof.
  intros word e.
  apply (write_probes_differ_on_null e bpf_init 3000 2000 3 5 0); [holds_tac|holds_tac|done|done].
Defined.
