(* ===== verification/Ssl.v ===== *)
(** * OpenSSL probes ([bpf/openssl.h], [bpf/openssl_*.bpf.c])

    User-space probes at the entry and return of [SSL_read], [SSL_write] and
    their [_ex] forms.  A call to them makes system calls of its own, which move
    the ciphertext; the probes report the plaintext together with the range of
    the ciphertext that carried it.  Which descriptor a call used is learnt from
    the system calls it makes (the [nested_syscall] probes) or read out of the
    [SSL] object (the [offset] probes).

    The object file of each OpenSSL version is [openssl.h] compiled with the
    offsets of that version; it shares its maps with [pktlatency.bpf.c].  [ctx]
    is the address of the saved user registers, those of x86-64. *)

From stdpp Require Import gmap list fin_maps.
From Stdlib Require Import ZArith Lia.
From S2P Require Import Prelude Types Machine ProtocolInference DataCommon SockKey Skb Conn.
From S2P Require Import Frame Syscalls.
Local Open Scope Z_scope.

(** ** Versions *)

Inductive openssl_version : Set :=
| openssl_1_0_2a | openssl_1_1_0a | openssl_1_1_1a | openssl_1_1_1b | openssl_1_1_1d
| openssl_1_1_1j | openssl_3_0_0 | openssl_3_1_0 | openssl_3_2_0 | openssl_3_2_3
| openssl_3_3_0 | openssl_3_4_0 | openssl_3_5_0.

(** [ssl_st->rbio], from 3.2 on [ssl_connection_st->rbio]. *)
Definition SSL_ST_RBIO (v : openssl_version) : Z :=
  match v with
  | openssl_1_0_2a | openssl_1_1_0a | openssl_1_1_1a | openssl_1_1_1b | openssl_1_1_1d
  | openssl_1_1_1j | openssl_3_0_0 | openssl_3_1_0 => 16
  | openssl_3_2_0 | openssl_3_2_3 | openssl_3_3_0 | openssl_3_4_0 => 72
  | openssl_3_5_0 => 80
  end.

(** [bio_st->num] *)
Definition BIO_ST_NUM (v : openssl_version) : Z :=
  match v with
  | openssl_1_0_2a | openssl_1_1_0a => 40
  | openssl_1_1_1a | openssl_1_1_1b | openssl_1_1_1d | openssl_1_1_1j => 48
  | openssl_3_0_0 | openssl_3_1_0 | openssl_3_2_0 | openssl_3_2_3 | openssl_3_3_0
  | openssl_3_4_0 | openssl_3_5_0 => 56
  end.

(** ** The descriptor of an [SSL] object *)

(** [ssl->rbio->num] *)
Definition get_fd_symaddrs (v : openssl_version) (e : env) (ssl : Z) : Z :=
  let rbio_ptr := uread e (ssl + SSL_ST_RBIO v) 8 in
  s32 (uread e (rbio_ptr + BIO_ST_NUM v) 4).

Definition get_fd (v : openssl_version) (e : env) (ssl : Z) : Z :=
  let fd := get_fd_symaddrs v e ssl in
  if negb (fd =? kInvalidFD) && (2 <? fd) then fd else kInvalidFD.

(** ** Data *)

(** [if (direction == kEgress) ssl_write_bytes += n; else ssl_read_bytes += n;] *)
Definition add_ssl_bytes (direction : traffic_direction_t) (n : Z) (ci : conn_info_t) : conn_info_t :=
  match direction with
  | kEgress => ci <| ci_ssl_write_bytes := u64 (ci_ssl_write_bytes ci + n) |>
  | kIngress => ci <| ci_ssl_read_bytes := u64 (ci_ssl_read_bytes ci + n) |>
  end.

(** Lines 70 to 82: the length of the plaintext, [None] for [return]. *)
Definition ssl_bytes_count (e : env) (ctx ssl_ex_len : Z) : option Z :=
  let bytes_count := s32 (PT_REGS_RC_CORE e ctx) in
  if (bytes_count =? 1) && negb (ssl_ex_len =? 0) then Some (s32 (uread e ssl_ex_len 8))
  else if bytes_count <=? 0 then None else Some bytes_count.

(** The parameter [is_ex_call] is not used. *)
Definition process_ssl_data (ctx id : Z) (direction : traffic_direction_t) (args : data_args)
    (is_ex_call : bool) (syscall_len : Z) : M unit :=
  e ← ask;
  match ssl_bytes_count e ctx (da_ssl_ex_len args) with
  | None => mret tt
  | Some bytes_count =>
    let tgid_fd := gen_tgid_fd (tgid_of id) (da_fd args) in
    conns ← gets conn_info_map;
    match conns !! tgid_fd with
    | Some conn_info =>
      let conn_info := conn_info <| ci_ssl := true |> in
      conn_info ← process_syscall_data_with_conn_info args tgid_fd direction bytes_count conn_info
        (s32 syscall_len) true true;
      store_conn tgid_fd (add_ssl_bytes direction bytes_count conn_info)
    | None => mret tt
    end
  end.

(** ** Probes that read the descriptor from the [SSL] object *)

Definition stash_ssl_read (id : Z) (args : data_args) : M unit :=
  modify (fun s => s <| active_ssl_read_args_map ::=
    bpf_map_update_elem MAX_ENTRIES BPF_ANY id args |>).
Definition stash_ssl_write (id : Z) (args : data_args) : M unit :=
  modify (fun s => s <| active_ssl_write_args_map ::=
    bpf_map_update_elem MAX_ENTRIES BPF_ANY id args |>).

Definition do_SSL_read_entry_offset (v : openssl_version) (ctx : Z) (is_ex_call : bool) : M Z :=
  id ← bpf_get_current_pid_tgid;
  e ← ask;
  let tgid := tgid_of id in
  let ssl := PT_REGS_PARM1_CORE e ctx in
  let buf := PT_REGS_PARM2_CORE e ctx in
  let fd := get_fd v e ssl in
  return_if (fd =? kInvalidFD) with BPF_OK ;;
  now ← bpf_ktime_get_ns;
  stash_ssl_read id (data_args_zero <| da_source_fn := kSSLRead |> <| da_fd := fd |>
    <| da_buf := buf |> <| da_start_ts := now |>);;
  set_conn_as_ssl tgid fd;;
  mret BPF_OK.

Definition do_SSL_read_ret_offset (ctx : Z) : M Z :=
  id ← bpf_get_current_pid_tgid;
  calls ← gets active_ssl_read_args_map;
  (match calls !! id with
   | Some read_args =>
     now ← bpf_ktime_get_ns;
     process_ssl_data ctx id kIngress (read_args <| da_end_ts := now |>) false 0
   | None => mret tt
   end);;
  modify (fun s => s <| active_ssl_read_args_map ::= delete id |>);;
  mret 0.

Definition do_SSL_write_entry_offset (v : openssl_version) (ctx : Z) (is_ex_call : bool) : M Z :=
  id ← bpf_get_current_pid_tgid;
  e ← ask;
  let tgid := tgid_of id in
  let ssl := PT_REGS_PARM1_CORE e ctx in
  let buf := PT_REGS_PARM2_CORE e ctx in
  let fd := get_fd v e ssl in
  return_if (fd =? kInvalidFD) with BPF_OK ;;
  now ← bpf_ktime_get_ns;
  stash_ssl_write id (data_args_zero <| da_source_fn := kSSLWrite |> <| da_fd := fd |>
    <| da_buf := buf |> <| da_start_ts := now |>);;
  set_conn_as_ssl tgid fd;;
  mret BPF_OK.

Definition do_SSL_write_ret_offset (ctx : Z) : M Z :=
  id ← bpf_get_current_pid_tgid;
  calls ← gets active_ssl_write_args_map;
  (match calls !! id with
   | Some write_args =>
     now ← bpf_ktime_get_ns;
     process_ssl_data ctx id kEgress (write_args <| da_end_ts := now |>) false 0
   | None => mret tt
   end);;
  modify (fun s => s <| active_ssl_write_args_map ::= delete id |>);;
  mret 0.

(** ** Probes that learn the descriptor from the nested system calls *)

(** [nested_syscall_fd] at the entry: the descriptor of the object or none. *)
Definition enter_nested (v : openssl_version) (id ssl : Z) : M unit :=
  e ← ask;
  modify (fun s => s <| ssl_user_space_call_map ::=
    bpf_map_update_elem MAX_ENTRIES BPF_ANY id (mk_nested_syscall_fd (get_fd v e ssl) false 0) |>).

Definition do_SSL_read_entry (v : openssl_version) (ctx : Z) (is_ex_call : bool) : M Z :=
  id ← bpf_get_current_pid_tgid;
  e ← ask;
  enter_nested v id (PT_REGS_PARM1_CORE e ctx);;
  let buf := PT_REGS_PARM2_CORE e ctx in
  now ← bpf_ktime_get_ns;
  let read_args := data_args_zero <| da_source_fn := kSSLRead |> <| da_buf := buf |>
    <| da_start_ts := now |> in
  let read_args :=
    if is_ex_call then read_args <| da_ssl_ex_len := PT_REGS_PARM4_CORE e ctx |> else read_args in
  stash_ssl_read id read_args;;
  mret 0.

(** The arguments stay in the map, with the time and the descriptor filled in. *)
Definition do_SSL_read_ret (ctx : Z) (is_ex_call : bool) : M Z :=
  id ← bpf_get_current_pid_tgid;
  nested ← gets ssl_user_space_call_map;
  match nested !! id with
  | None => mret 0
  | Some nested_syscall_fd =>
    let fd := ns_fd nested_syscall_fd in
    modify (fun s => s <| ssl_user_space_call_map ::= delete id |>);;
    calls ← gets active_ssl_read_args_map;
    (match calls !! id with
     | Some data_arg =>
       now ← bpf_ktime_get_ns;
       let data_arg := data_arg <| da_end_ts := now |> <| da_fd := fd |> in
       modify (fun s => s <| active_ssl_read_args_map ::= alter (fun _ => data_arg) id |>);;
       process_ssl_data ctx id kIngress data_arg is_ex_call (ns_syscall_len nested_syscall_fd)
     | None => mret tt
     end);;
    mret 0
  end.

Definition do_SSL_write_entry (v : openssl_version) (ctx : Z) (is_ex_call : bool) : M Z :=
  id ← bpf_get_current_pid_tgid;
  e ← ask;
  enter_nested v id (PT_REGS_PARM1_CORE e ctx);;
  let buf := PT_REGS_PARM2_CORE e ctx in
  now ← bpf_ktime_get_ns;
  let write_args := data_args_zero <| da_source_fn := kSSLWrite |> <| da_buf := buf |>
    <| da_start_ts := now |> in
  let write_args :=
    if is_ex_call then write_args <| da_ssl_ex_len := PT_REGS_PARM4_CORE e ctx |> else write_args in
  stash_ssl_write id write_args;;
  mret 0.

Definition do_SSL_write_ret (ctx : Z) (is_ex_call : bool) : M Z :=
  id ← bpf_get_current_pid_tgid;
  nested ← gets ssl_user_space_call_map;
  match nested !! id with
  | None => mret 0
  | Some nested_syscall_fd =>
    let fd := ns_fd nested_syscall_fd in
    modify (fun s => s <| ssl_user_space_call_map ::= delete id |>);;
    calls ← gets active_ssl_write_args_map;
    (match calls !! id with
     | Some data_arg =>
       now ← bpf_ktime_get_ns;
       let data_arg := data_arg <| da_end_ts := now |> <| da_fd := fd |> in
       modify (fun s => s <| active_ssl_write_args_map ::= alter (fun _ => data_arg) id |>);;
       process_ssl_data ctx id kEgress data_arg is_ex_call (ns_syscall_len nested_syscall_fd)
     | None => mret tt
     end);;
    mret 0
  end.

(** ** Programs *)

Definition SSL_read_entry_nested_syscall (v : openssl_version) (ctx : Z) : M Z :=
  do_SSL_read_entry v ctx false.
Definition SSL_read_ret_nested_syscall (ctx : Z) : M Z := do_SSL_read_ret ctx false.
Definition SSL_read_ex_entry_nested_syscall (v : openssl_version) (ctx : Z) : M Z :=
  do_SSL_read_entry v ctx true.
Definition SSL_read_ex_ret_nested_syscall (ctx : Z) : M Z := do_SSL_read_ret ctx true.
Definition SSL_write_entry_nested_syscall (v : openssl_version) (ctx : Z) : M Z :=
  do_SSL_write_entry v ctx false.
Definition SSL_write_ret_nested_syscall (ctx : Z) : M Z := do_SSL_write_ret ctx false.
Definition SSL_write_ex_entry_nested_syscall (v : openssl_version) (ctx : Z) : M Z :=
  do_SSL_write_entry v ctx true.
Definition SSL_write_ex_ret_nested_syscall (ctx : Z) : M Z := do_SSL_write_ret ctx true.
Definition SSL_write_entry_offset (v : openssl_version) (ctx : Z) : M Z :=
  do_SSL_write_entry_offset v ctx false.
Definition SSL_write_ret_offset (ctx : Z) : M Z := do_SSL_write_ret_offset ctx.
Definition SSL_read_entry_offset (v : openssl_version) (ctx : Z) : M Z :=
  do_SSL_read_entry_offset v ctx false.
Definition SSL_read_ret_offset (ctx : Z) : M Z := do_SSL_read_ret_offset ctx.

Inductive ssl_probe : Type :=
| L_read_entry (v : openssl_version) (ctx : Z) | L_read_ret (ctx : Z)
| L_read_ex_entry (v : openssl_version) (ctx : Z) | L_read_ex_ret (ctx : Z)
| L_write_entry (v : openssl_version) (ctx : Z) | L_write_ret (ctx : Z)
| L_write_ex_entry (v : openssl_version) (ctx : Z) | L_write_ex_ret (ctx : Z)
| L_read_entry_offset (v : openssl_version) (ctx : Z) | L_read_ret_offset (ctx : Z)
| L_write_entry_offset (v : openssl_version) (ctx : Z) | L_write_ret_offset (ctx : Z).

Definition run_ssl (p : ssl_probe) : M Z :=
  match p with
  | L_read_entry v ctx => SSL_read_entry_nested_syscall v ctx
  | L_read_ret ctx => SSL_read_ret_nested_syscall ctx
  | L_read_ex_entry v ctx => SSL_read_ex_entry_nested_syscall v ctx
  | L_read_ex_ret ctx => SSL_read_ex_ret_nested_syscall ctx
  | L_write_entry v ctx => SSL_write_entry_nested_syscall v ctx
  | L_write_ret ctx => SSL_write_ret_nested_syscall ctx
  | L_write_ex_entry v ctx => SSL_write_ex_entry_nested_syscall v ctx
  | L_write_ex_ret ctx => SSL_write_ex_ret_nested_syscall ctx
  | L_read_entry_offset v ctx => SSL_read_entry_offset v ctx
  | L_read_ret_offset ctx => SSL_read_ret_offset ctx
  | L_write_entry_offset v ctx => SSL_write_entry_offset v ctx
  | L_write_ret_offset ctx => SSL_write_ret_offset ctx
  end.

(** ** The invariant *)

Lemma conn_ok_add_ssl t d n ci : conn_ok t ci -> conn_ok t (add_ssl_bytes d n ci).
Proof.
  intros (H1 & H2 & H3 & H4 & H5 & H6).
  pose proof (u64_range (dir_ssl_bytes d ci + n)) as H. unfold conn_ok.
  destruct d; cbn in *; intuition.
Qed.

Lemma inv_modify f : (forall s, inv s -> inv (f s)) -> keeps (E := env) (inv_rel inv) (modify f).
Proof. intros H. apply keeps_modify. exact H. Qed.

(** The report and the counter of an SSL call on an entry of the map. *)
Lemma ssl_store_inv args t d n ci sl e s :
  conn_info_map s !! t = Some ci -> inv s ->
  inv (exec (ci' ← process_syscall_data_with_conn_info args t d n (ci <| ci_ssl := true |>) sl true true;
             store_conn t (add_ssl_bytes d n ci')) e s).
Proof.
  intros Hci Hi. set (ci1 := ci <| ci_ssl := true |>).
  assert (conn_ok t ci1) as Hok by (apply (inv_conns s Hi) in Hci; exact Hci).
  run. apply store_conn_good; [|apply (reports_good s); [apply process_data_reports|done] ].
  apply conn_ok_add_ssl. eapply conn_ok_same; [|exact Hok]. apply process_data_same_conn.
Qed.

Lemma process_ssl_data_inv ctx id d args ex sl : keeps (inv_rel inv) (process_ssl_data ctx id d args ex sl).
Proof.
  intros e s Hi. unfold process_ssl_data. rewrite exec_bind, exec_ask, result_ask.
  destruct (ssl_bytes_count _ _ _) as [n|]; [|done]. rewrite exec_bind, exec_gets, result_gets.
  destruct (conn_info_map s !! _) as [ci|] eqn:Hci; [|done]. by apply ssl_store_inv.
Qed.
#[export] Hint Resolve process_ssl_data_inv : keeps.

Lemma inv_ssl_maps f1 f2 f3 s :
  inv s -> inv (s <| active_ssl_read_args_map ::= f1 |> <| active_ssl_write_args_map ::= f2 |>
    <| ssl_user_space_call_map ::= f3 |>).
Proof. intros [? ? ? ? ? ? ? ?]. by split. Qed.

Lemma ktime_inv : keeps (inv_rel inv) bpf_ktime_get_ns.
Proof. intros e s Hi. apply ktime_good, Hi. Qed.
Lemma pid_inv : keeps (inv_rel inv) bpf_get_current_pid_tgid.
Proof. by intros e s Hi. Qed.
Lemma set_conn_as_ssl_inv tgid fd : keeps (inv_rel inv) (set_conn_as_ssl tgid fd).
Proof.
  apply inv_modify. intros s [? ? Hc ? ? ? ? ?]. split; fsimp; auto using within_alter.
  intros t ci Hl. destruct (decide (t = gen_tgid_fd tgid fd)) as [->|Hne].
  - rewrite lookup_alter_eq in Hl. destruct (conn_info_map s !! _) as [ci0|] eqn:E; [|done].
    injection Hl as <-. exact (Hc _ _ E).
  - rewrite lookup_alter_ne in Hl by done. by apply Hc.
Qed.
#[export] Hint Resolve ktime_inv pid_inv set_conn_as_ssl_inv : keeps.

Lemma run_ssl_inv p : keeps (inv_rel inv) (run_ssl p).
Proof.
  assert (Hr : forall f, keeps (E := env) (inv_rel inv) (modify (fun s => s <| active_ssl_read_args_map ::= f |>)))
    by (intros f; apply inv_modify; intros s; exact (inv_ssl_maps f id id s)).
  assert (Hw : forall f, keeps (E := env) (inv_rel inv) (modify (fun s => s <| active_ssl_write_args_map ::= f |>)))
    by (intros f; apply inv_modify; intros s; exact (inv_ssl_maps id f id s)).
  assert (Hn : forall f, keeps (E := env) (inv_rel inv) (modify (fun s => s <| ssl_user_space_call_map ::= f |>)))
    by (intros f; apply inv_modify; intros s; exact (inv_ssl_maps id id f s)).
  destruct p; cbn [run_ssl];
    unfold SSL_read_entry_nested_syscall, SSL_read_ret_nested_syscall, SSL_read_ex_entry_nested_syscall,
      SSL_read_ex_ret_nested_syscall, SSL_write_entry_nested_syscall, SSL_write_ret_nested_syscall,
      SSL_write_ex_entry_nested_syscall, SSL_write_ex_ret_nested_syscall, SSL_write_entry_offset,
      SSL_write_ret_offset, SSL_read_entry_offset, SSL_read_ret_offset, do_SSL_read_entry,
      do_SSL_read_ret, do_SSL_write_entry, do_SSL_write_ret, do_SSL_read_entry_offset,
      do_SSL_read_ret_offset, do_SSL_write_entry_offset, do_SSL_write_ret_offset, enter_nested,
      stash_ssl_read, stash_ssl_write; keeps_tac; auto.
Qed.

(** ** Nested system calls *)

(** A read or write on a socket by one thread, from entry to exit. *)
Record socket_io := mk_socket_io { io_enter : env; io_hook : env; io_exit : env; io_buf : Z; io_len : Z }.

Definition run_io (d : traffic_direction_t) (fd : Z) (x : socket_io) (s : bpf) : bpf :=
  match d with
  | kEgress => exec (handle_syscall_exit_write (io_len x)) (io_exit x)
      (exec handle_security_socket_sendmsg (io_hook x)
        (exec (handle_syscall_enter_write fd (io_buf x)) (io_enter x) s))
  | kIngress => exec (handle_syscall_exit_read (io_len x)) (io_exit x)
      (exec handle_security_socket_recvmsg (io_hook x)
        (exec (handle_syscall_enter_read fd (io_buf x)) (io_enter x) s))
  end.
Definition run_ios (d : traffic_direction_t) (fd : Z) (xs : list socket_io) (s : bpf) : bpf :=
  foldl (fun s x => run_io d fd x s) s xs.

Definition io_ok (id : Z) (nt : conn_trace_state_t) (x : socket_io) : Prop :=
  pid_tgid (io_enter x) = id /\ pid_tgid (io_hook x) = id /\ pid_tgid (io_exit x) = id /\
  io_buf x <> 0 /\ 0 < io_len x < 2147483648 /\ stack_no_trace (io_exit x) = nt.
Definition total_len (xs : list socket_io) : Z := foldr (fun x t => io_len x + t) 0 xs.

Definition args_map (d : traffic_direction_t) (s : bpf) : gmap Z data_args :=
  match d with kEgress => write_args_map s | kIngress => read_args_map s end.
Definition ssl_args_map (d : traffic_direction_t) (s : bpf) : gmap Z data_args :=
  match d with kEgress => active_ssl_write_args_map s | kIngress => active_ssl_read_args_map s end.

(** A connection whose SSL traffic is reported. *)
Definition ssl_traced (ci : conn_info_t) : Prop := traced ci /\ ci_ssl ci = true.

(** The state inside an SSL call of the thread [id] on the connection [ci]. *)
Record in_ssl_call (id t : Z) (d : traffic_direction_t) (ci : conn_info_t) (args : data_args)
    (rec : nested_syscall_fd_t) (s : bpf) : Prop := {
  isc_conn : conn_info_map s !! t = Some ci;
  isc_ssl : ssl_traced ci;
  isc_args : ssl_args_map d s !! id = Some args;
  isc_rec : ssl_user_space_call_map s !! id = Some rec;
  isc_inv : inv s;
  isc_passes : passes s (tgid_of id);
  isc_go : go_common_symaddrs_map s !! tgid_of id = None;
  isc_room : Z.of_nat (size (args_map d s)) < MAX_ENTRIES;
}.

(** What entry handler and hook leave for the exit handler. *)
Definition io_args (d : traffic_direction_t) (fd buf ts : Z) : data_args :=
  data_args_zero <| da_fd := fd |> <| da_buf := buf |>
    <| da_source_fn := match d with kEgress => kSyscallWrite | kIngress => kSyscallRead end |>
    <| da_start_ts := ts |> <| da_sock_event := true |>.

Definition del_args (d : traffic_direction_t) (id : Z) (s : bpf) : bpf :=
  match d with
  | kEgress => s <| write_args_map ::= delete id |>
  | kIngress => s <| read_args_map ::= delete id |>
  end.

Lemma update_any_insert {K V} `{Countable K} max (m : gmap K V) k v :
  Z.of_nat (size m) < max -> bpf_map_update_elem max BPF_ANY k v m = <[k := v]> m.
Proof.
  intros Hr. unfold bpf_map_update_elem. destruct (m !! k); [done|].
  by rewrite (proj2 (Z.ltb_lt _ _) Hr).
Qed.

Lemma run_io_finish d fd x s id :
  pid_tgid (io_enter x) = id -> pid_tgid (io_hook x) = id -> pid_tgid (io_exit x) = id ->
  io_buf x <> 0 -> Z.of_nat (size (args_map d s)) < MAX_ENTRIES ->
  exists s2 args, quiet s s2 /\ da_fd args = fd /\
    args_map d s2 = <[id := args]> (args_map d s) /\
    run_io d fd x s = del_args d id (exec (finish_data args id d (io_len x)) (io_exit x) s2).
Proof.
  intros H1 H2 H3 Hbuf Hroom. set (ts := clock (io_enter x) (ticks s)).
  destruct d; cbn [run_io args_map del_args] in *.
  - set (s2 := exec handle_security_socket_sendmsg _ _).
    assert (write_args_map s2 = <[id := io_args kEgress fd (io_buf x) ts]> (write_args_map s)) as Hs2.
    { subst s2. unfold handle_security_socket_sendmsg, handle_syscall_enter_write, stash_write.
      run. rewrite (proj2 (Z.eqb_neq _ _) Hbuf). run. fsimp.
      by rewrite H1, H2, update_any_insert, alter_insert_eq. }
    exists s2, (io_args kEgress fd (io_buf x) ts).
    split; [etrans; [apply (run_enter_quiet (E_write fd (io_buf x)))|apply sendmsg_quiet]|].
    split; [done|]. split; [done|]. unfold handle_syscall_exit_write, unstash_write. run.
    rewrite H3, Hs2, lookup_insert_eq. cbn [io_args da_sock_event]. by run.
  - set (s2 := exec handle_security_socket_recvmsg _ _).
    assert (read_args_map s2 = <[id := io_args kIngress fd (io_buf x) ts]> (read_args_map s)) as Hs2.
    { subst s2. unfold handle_security_socket_recvmsg, handle_syscall_enter_read, stash_read.
      run. fsimp. by rewrite H1, H2, update_any_insert, alter_insert_eq. }
    exists s2, (io_args kIngress fd (io_buf x) ts).
    split; [etrans; [apply (run_enter_quiet (E_read fd (io_buf x)))|apply recvmsg_quiet]|].
    split; [done|]. split; [done|]. unfold handle_syscall_exit_read, unstash_read. run.
    rewrite H3, Hs2, lookup_insert_eq. cbn [io_args da_sock_event]. by run.
Qed.

Lemma finish_data_run args id d n e s :
  pid_tgid e = id -> go_common_symaddrs_map s !! tgid_of id = None ->
  exists ts, exec (finish_data args id d n) e s =
    exec (process_syscall_data (args <| da_end_ts := ts |>) id d n false) e
      (s <| ticks ::= S |> <| ssl_user_space_call_map ::=
        alter (fun r => update_fd_and_syscall_len_to_uprobe r (da_fd args) (s32 (u32 n))) id |>).
Proof.
  intros Hid Hgo. exists (clock e (ticks s)).
  unfold finish_data. rewrite exec_bind, exec_ktime, result_ktime. unfold propagate_fd_to_uprobe, exec.
  steps. match goal with |- context [(get_goid ≫= _) e ?x] =>
    rewrite (step_run _ _ _ _ _ _ (get_goid_none e x ltac:(rewrite Hid; exact Hgo))) end.
  reflexivity.
Qed.

(** A system call on a connection marked as SSL, or made inside a Go TLS call, is
    reported without data. *)
Lemma ssl_data_effect s e id fd d ci args n nested :
  let t := gen_tgid_fd (tgid_of id) fd in
  conn_info_map s !! t = Some ci -> traced ci -> ci_ssl (mark_ssl nested ci) = true ->
  scratch_ok s -> passes s (tgid_of id) -> da_fd args = fd -> 0 < n < 2147483648 ->
  exists s1 l, reports s s1 /\ perf s1 = perf s ++ l /\
    tiles (mk_conn_id_s t (stack_no_trace e)) (data_step false d) (dir_bytes d ci + 1) n l /\
    exec (process_syscall_data args id d n nested) e s =
      s1 <| conn_info_map ::= alter (fun _ => add_bytes d n (mark_ssl nested ci)) t |>.
Proof.
  intros t Hci Htr Hssl Hsc Hp Hfd Hn. unfold process_syscall_data, exec.
  destruct (Z.leb_spec n 0); [lia|]. rewrite passes_step by done. rewrite Hfd. fold t.
  rewrite (step_run _ _ _ _ _ _ (lookup_known s e (tgid_of id) fd d ci Hci _ n)).
  cbv beta iota zeta. rewrite Hssl. cbn [negb].
  assert (traced (mark_ssl nested ci)) as Htr' by by destruct nested.
  assert (dir_bytes d (mark_ssl nested ci) = dir_bytes d ci) as Hd by by destruct nested, d.
  rewrite (process_data_traced _ _ _ _ _ _ _ Htr').
  unfold local_conn_id_s. steps. rewrite u64_pos, Hd by done.
  set (c := mk_conn_id_s _ _). set (m := report_syscall_buf_without_data _ _ _ _ _ _ _).
  destruct (proj1 Hsc) as [evt Hevt].
  destruct (report_without_data_emits (u32 (dir_bytes d ci + 1)) c n (data_step false d)
    (da_start_ts args) (ts_delta_of args) (da_source_fn args) e s evt ltac:(lia) Hevt)
    as (ke & Hke & _ & _ & Hperf). fold m in Hperf.
  exists (exec m e s). eexists. split; [apply report_without_data_reports|].
  split; [exact Hperf|]. split.
  - eapply tiles_u32; [|eapply tiles_single; [done|done|intros; apply captured_none; lia] ]. by rewrite u32_idem.
  - unfold mbind at 1, RS_bind at 1, exec at 1. destruct (m e s). reflexivity.
Qed.

Lemma ssl_traced_add d n ci : ssl_traced ci -> ssl_traced (add_bytes d n ci).
Proof. by destruct d. Qed.

(** The state after a nested call: [s2] after its entry and hook, [s3] after the
    record of the call is updated, [s4] after the report of its bytes. *)
Section AfterNested.
Context (d : traffic_direction_t) (id : Z) (s s2 s3 s4 : bpf).
Context (g : gmap Z conn_info_t -> gmap Z conn_info_t).
Context (Hq : quiet s s2) (Hr : reports s3 s4).
Let s' := del_args d id (s4 <| conn_info_map ::= g |>).

Lemma nested_field {T} (f : bpf -> T) :
  f s3 = f s2 -> (forall x, f x = f (persistent x)) ->
  (forall x, f x = f (without_stash (persistent x))) ->
  (forall d x, f (del_args d id (x <| conn_info_map ::= g |>)) = f x) -> f s' = f s.
Proof using Hq Hr.
  intros E1 E2 E3 E4. unfold s'. rewrite E4, (reports_field f s3 s4 E2 Hr), E1. by apply quiet_field.
Qed.

Lemma nested_conns :
  conn_info_map s3 = conn_info_map s2 -> conn_info_map s' = g (conn_info_map s).
Proof using Hq Hr.
  intros E. transitivity (g (conn_info_map s4)); [unfold s'; by destruct d|].
  rewrite (reports_field conn_info_map s3 s4 (fun _ => eq_refl) Hr), E.
  by rewrite (quiet_field conn_info_map _ _ (fun _ => eq_refl) Hq).
Qed.

Lemma nested_passes tgid :
  control_values s3 = control_values s2 -> filter_pid_map s3 = filter_pid_map s2 ->
  passes s tgid -> passes s' tgid.
Proof using Hq Hr.
  intros E1 E2. unfold passes, filter_enabled.
  rewrite (nested_field control_values), (nested_field filter_pid_map); try done; by intros [].
Qed.

Lemma nested_room a :
  args_map d s3 = args_map d s2 -> args_map d s2 = <[id := a]> (args_map d s) ->
  Z.of_nat (size (args_map d s)) < MAX_ENTRIES -> Z.of_nat (size (args_map d s')) < MAX_ENTRIES.
Proof using Hr.
  intros E Hm Hroom. assert (args_map d s' = delete id (args_map d s)) as ->.
  { transitivity (delete id (args_map d s4)); [unfold s'; by destruct d|].
    transitivity (delete id (args_map d s2)); [|by rewrite Hm, delete_insert_eq].
    rewrite <- E. destruct d; cbn [args_map]; by reports_rewrite Hr. }
  pose proof (within_delete (MAX_ENTRIES - 1) id (args_map d s)) as Hw. unfold within in Hw. lia.
Qed.
End AfterNested.

Lemma in_ssl_call_next id fd d ci args rec n a s s2 s4 :
  let t := gen_tgid_fd (tgid_of id) fd in
  let s3 := s2 <| ticks ::= S |> <| ssl_user_space_call_map ::=
    alter (fun r => update_fd_and_syscall_len_to_uprobe r (da_fd a) (s32 (u32 n))) id |> in
  let s5 := s4 <| conn_info_map ::= alter (fun _ => add_bytes d n ci) t |> in
  in_ssl_call id t d ci args rec s -> 0 < n < 2147483648 -> quiet s s2 -> da_fd a = fd ->
  args_map d s2 = <[id := a]> (args_map d s) -> reports s3 s4 -> inv s5 ->
  in_ssl_call id t d (add_bytes d n ci) args (update_fd_and_syscall_len_to_uprobe rec fd n)
    (del_args d id s5).
Proof.
  intros t s3 s5 [Hci Hssl Hargs Hrec Hi Hpa Hgo Hroom] Hn Hq Ha Hm Hr Hi5. subst s5. split.
  - pose proof (nested_conns d id s s2 s3 s4 (alter (fun _ => add_bytes d n ci) t) Hq Hr eq_refl) as E.
    etrans; [exact (f_equal (lookup t) E)|]. by rewrite lookup_alter_eq, Hci.
  - by apply ssl_traced_add.
  - etrans; [|exact Hargs]. apply (f_equal (lookup id)).
    apply (nested_field d id s s2 s3 s4 _ Hq Hr (ssl_args_map d)); destruct d; try done; by intros [].
  - transitivity (ssl_user_space_call_map s4 !! id); [by destruct d|].
    rewrite (reports_field ssl_user_space_call_map _ _ (fun _ => eq_refl) Hr). subst s3. fsimp.
    rewrite lookup_alter_eq, (quiet_field ssl_user_space_call_map _ _ (fun _ => eq_refl) Hq), Hrec, Ha.
    cbn. by rewrite s32_u32, s32_small by lia.
  - destruct d; refine (inv_stash _ _ _ Hi5); reflexivity.
  - by apply (nested_passes d id s s2 s3 s4).
  - etrans; [|exact Hgo]. apply (f_equal (lookup (tgid_of id))).
    apply (nested_field d id s s2 s3 s4 _ Hq Hr go_common_symaddrs_map); try done. by intros [].
  - by apply (nested_room d id s s2 s3 s4 _ Hr a); try done; destruct d.
Qed.

Lemma run_io_step id fd d ci args rec nt x s :
  let t := gen_tgid_fd (tgid_of id) fd in
  in_ssl_call id t d ci args rec s -> io_ok id nt x ->
  exists l, perf (run_io d fd x s) = perf s ++ l /\
    tiles (mk_conn_id_s t nt) (data_step false d) (dir_bytes d ci + 1) (io_len x) l /\
    in_ssl_call id t d (add_bytes d (io_len x) ci) args
      (update_fd_and_syscall_len_to_uprobe rec fd (io_len x)) (run_io d fd x s).
Proof.
  intros t [Hci Hssl Hargs Hrec Hi Hpa Hgo Hroom] (H1 & H2 & H3 & Hbuf & Hn & Hnt).
  destruct (run_io_finish d fd x s id H1 H2 H3 Hbuf Hroom) as (s2 & a & Hq & Ha & Hm & Hrun).
  assert (Hi2 : inv s2) by apply Hq, Hi.
  assert (Hi3 : inv (exec (finish_data a id d (io_len x)) (io_exit x) s2))
    by (apply (finish_data_good a id d (io_len x)), Hi2).
  destruct (finish_data_run a id d (io_len x) (io_exit x) s2 H3) as [ts Hfin];
    [by rewrite (quiet_field go_common_symaddrs_map _ _ (fun _ => eq_refl) Hq)|].
  rewrite Hfin in Hi3, Hrun. clear Hfin. set (s3 := s2 <| ticks ::= S |> <| _ ::= _ |>) in *.
  destruct (ssl_data_effect s3 (io_exit x) id fd d ci (a <| da_end_ts := ts |>) (io_len x) false)
    as (s4 & l & Hr & Hpf & Ht & Hs5); [|apply Hssl|apply Hssl|apply Hi2| |done|done|].
  { change (conn_info_map s3) with (conn_info_map s2).
    by rewrite (quiet_field conn_info_map _ _ (fun _ => eq_refl) Hq). }
  { exact (quiet_passes _ _ _ Hq Hpa). }
  rewrite Hs5 in Hi3, Hrun. rewrite Hrun, <- Hnt. clear Hrun Hs5. fold t in Ht.
  exists l. split; [|split; [exact Ht|] ].
  - destruct Hq as (_ & Hq & _). rewrite <- Hq. destruct d; exact Hpf.
  - by apply (in_ssl_call_next id fd d ci args rec (io_len x) a s s2 s4).
Qed.

Lemma total_len_pos xs : Forall (fun x => 0 < io_len x) xs -> 0 <= total_len xs.
Proof. induction 1; [done|]. cbn [total_len foldr]. unfold total_len in *. lia. Qed.

Lemma total_len_nonneg id nt xs : Forall (io_ok id nt) xs -> 0 <= total_len xs.
Proof.
  intros H. apply total_len_pos. eapply Forall_impl; [exact H|]. intros x (_ & _ & _ & _ & Hx & _). apply Hx.
Qed.

(** The number of the first byte of the ciphertext, computed back from the
    counter after it. *)
Lemma seq_before_nested a b n : u64 a = u64 (b + n) -> u32 (a + 1 - n) = u32 (b + 1).
Proof.
  intros H. apply (f_equal u32) in H. rewrite !u32_u64 in H.
  replace (a + 1 - n) with (a + (1 - n)) by lia. rewrite <- u32_add_l, H, u32_add_l. f_equal. lia.
Qed.

(** The connection and the record of the call after its system calls. *)
Definition io_conn (d : traffic_direction_t) (xs : list socket_io) (ci : conn_info_t) : conn_info_t :=
  foldl (fun ci x => add_bytes d (io_len x) ci) ci xs.
Definition io_record (fd : Z) (xs : list socket_io) (rec : nested_syscall_fd_t) : nested_syscall_fd_t :=
  foldl (fun r x => update_fd_and_syscall_len_to_uprobe r fd (io_len x)) rec xs.

Lemma run_ios_steps id fd d nt args xs ci rec s :
  let t := gen_tgid_fd (tgid_of id) fd in
  in_ssl_call id t d ci args rec s -> Forall (io_ok id nt) xs ->
  exists l, perf (run_ios d fd xs s) = perf s ++ l /\
    tiles (mk_conn_id_s t nt) (data_step false d) (dir_bytes d ci + 1) (total_len xs) l /\
    in_ssl_call id t d (io_conn d xs ci) args
      (io_record fd xs rec)
      (run_ios d fd xs s).
Proof.
  intros t Hs Hxs. revert ci rec s Hs. induction Hxs as [|x xs Hx Hxs IH]; intros ci rec s Hs.
  - exists []. rewrite app_nil_r. done.
  - destruct (run_io_step id fd d ci args rec nt x s Hs Hx) as (l1 & Hp1 & Ht1 & Hs1).
    destruct (IH _ _ _ Hs1) as (l2 & Hp2 & Ht2 & Hs2). exists (l1 ++ l2).
    cbn [run_ios io_conn io_record foldl total_len foldr]. split; [|split; [|exact Hs2] ].
    + etrans; [exact Hp2|]. by rewrite Hp1, app_assoc.
    + apply tiles_app; [by eapply total_len_nonneg|exact Ht1|]. eapply tiles_u32; [|exact Ht2].
      rewrite dir_bytes_add, <- u32_add_l, u32_u64, u32_add_l. f_equal. lia.
Qed.

Lemma nested_conn d xs ci :
  let ci' := io_conn d xs ci in
  u64 (dir_bytes d ci') = u64 (dir_bytes d ci + total_len xs) /\
  dir_ssl_bytes d ci' = dir_ssl_bytes d ci.
Proof.
  revert ci. induction xs as [|x xs IH]; intros ci; cbn [total_len foldr].
  - by rewrite Z.add_0_r.
  - change (io_conn d (x :: xs) ci) with (io_conn d xs (add_bytes d (io_len x) ci)).
    destruct (IH (add_bytes d (io_len x) ci)) as [H1 H2]. split; [|rewrite H2; by destruct d].
    rewrite H1, dir_bytes_add, u64_add_l. f_equal. unfold total_len. lia.
Qed.

Lemma io_record_len fd xs rec :
  Forall (fun x => 0 < io_len x) xs -> 0 <= ns_syscall_len rec ->
  ns_syscall_len rec + total_len xs < 4294967296 ->
  ns_syscall_len (io_record fd xs rec) = ns_syscall_len rec + total_len xs.
Proof.
  intros Hxs. revert rec. induction Hxs as [|x xs Hx Hxs IH]; intros rec H0 Hlt.
  - symmetry. apply Z.add_0_r.
  - change (io_record fd (x :: xs) rec) with
      (io_record fd xs (update_fd_and_syscall_len_to_uprobe rec fd (io_len x))).
    change (total_len (x :: xs)) with (io_len x + total_len xs) in *.
    pose proof (total_len_pos xs Hxs).
    assert (ns_syscall_len (update_fd_and_syscall_len_to_uprobe rec fd (io_len x)) =
      ns_syscall_len rec + io_len x) as E.
    { unfold update_fd_and_syscall_len_to_uprobe. rewrite (proj2 (Z.ltb_lt _ _) Hx).
      repeat case_match; fsimp; apply u32_small; lia. }
    rewrite IH; rewrite ?E; lia.
Qed.

Lemma io_record_fd fd xs rec :
  ns_fd rec = fd \/ ns_fd rec = kInvalidFD /\ xs <> [] -> ns_fd (io_record fd xs rec) = fd.
Proof.
  revert rec. induction xs as [|x xs IH]; intros rec Hfd; [by destruct Hfd as [?|[_ ?] ]|].
  change (io_record fd (x :: xs) rec) with
    (io_record fd xs (update_fd_and_syscall_len_to_uprobe rec fd (io_len x))).
  apply IH. left. unfold update_fd_and_syscall_len_to_uprobe.
  destruct (Z.eqb_spec (ns_fd rec) kInvalidFD); [by case_match|].
  destruct Hfd as [Hfd|[? _] ]; [|done]. rewrite Hfd, Z.eqb_refl. by case_match.
Qed.

(** ** Entry and return *)

Definition ssl_entry (d : traffic_direction_t) (v : openssl_version) (ctx : Z) (ex : bool) : M Z :=
  match d with kEgress => do_SSL_write_entry v ctx ex | kIngress => do_SSL_read_entry v ctx ex end.
Definition ssl_ret (d : traffic_direction_t) (ctx : Z) (ex : bool) : M Z :=
  match d with kEgress => do_SSL_write_ret ctx ex | kIngress => do_SSL_read_ret ctx ex end.

(** [ssl_ex_len] of the call. *)
Definition ex_len_of (e : env) (ctx : Z) (ex : bool) : Z := if ex then PT_REGS_PARM4_CORE e ctx else 0.

Definition ssl_room (d : traffic_direction_t) (s : bpf) : Prop :=
  Z.of_nat (size (args_map d s)) < MAX_ENTRIES /\
  Z.of_nat (size (ssl_args_map d s)) < MAX_ENTRIES /\
  Z.of_nat (size (ssl_user_space_call_map s)) < MAX_ENTRIES.

Lemma ssl_entry_run d v ctx ex e s t ci :
  let id := pid_tgid e in
  conn_info_map s !! t = Some ci -> ssl_traced ci -> inv s -> passes s (tgid_of id) ->
  go_common_symaddrs_map s !! tgid_of id = None -> ssl_room d s ->
  let s' := exec (ssl_entry d v ctx ex) e s in
  exists args, da_buf args = PT_REGS_PARM2_CORE e ctx /\ da_ssl_ex_len args = ex_len_of e ctx ex /\
    in_ssl_call id t d ci args
      (mk_nested_syscall_fd (get_fd v e (PT_REGS_PARM1_CORE e ctx)) false 0) s' /\
    perf s' = perf s.
Proof.
  intros id Hci Hssl Hi Hpa Hgo (Hr1 & Hr2 & Hr3) s'.
  assert (Hi' : inv s').
  { destruct d, ex; [apply (run_ssl_inv (L_write_ex_entry v ctx) e s)|
      apply (run_ssl_inv (L_write_entry v ctx) e s)|apply (run_ssl_inv (L_read_ex_entry v ctx) e s)|
      apply (run_ssl_inv (L_read_entry v ctx) e s)]; exact Hi. }
  exists (data_args_zero
    <| da_source_fn := match d with kEgress => kSSLWrite | kIngress => kSSLRead end |>
    <| da_buf := PT_REGS_PARM2_CORE e ctx |> <| da_start_ts := clock e (ticks s) |>
    <| da_ssl_ex_len := ex_len_of e ctx ex |>).
  split; [done|]. split; [done|]. subst s'. revert Hi'.
  destruct d; cbn [ssl_entry ssl_args_map args_map] in *;
    unfold do_SSL_write_entry, do_SSL_read_entry, enter_nested, stash_ssl_write, stash_ssl_read;
    run; fold id; intros Hi'; (split; [split; [exact Hci|exact Hssl| | |exact Hi'|exact Hpa|exact Hgo|exact Hr1]|done]);
    cbn [ssl_args_map]; fsimp; rewrite update_any_eq by (by right); by destruct ex.
Qed.

(** The report of a traced SSL connection. *)
Lemma process_ssl_traced args t d n ci sl :
  traced ci ->
  process_syscall_data_with_conn_info args t d n ci sl true true =
  (conn_id_s ← local_conn_id_s t;
   report_ssl_evt (u32 (dir_ssl_bytes d ci + 1)) conn_id_s n (data_step true d) args
     (if sl <? 0 then 0 else u32 (u32 (dir_bytes d ci + 1) - sl)) (if sl <? 0 then 0 else sl);;
   mret ci).
Proof.
  intros H. unfold process_syscall_data_with_conn_info.
  rewrite (proj1 H). cbn [andb]. unfold mbind at 1, RS_bind at 1, mret at 1, RS_ret at 1.
  cbv beta iota. by rewrite (traced_guard ci H).
Qed.

(** The event of [n] bytes of plaintext carried by [sl] bytes of ciphertext, and
    the counters after it. *)
Definition ssl_effect (t : Z) (d : traffic_direction_t) (ci : conn_info_t) (n sl buf : Z) (e : env)
    (s s' : bpf) : Prop :=
  exists ke payload,
    syscall_event ke (dir_ssl_bytes d ci + 1) (mk_conn_id_s t (stack_no_trace e)) n (data_step true d) /\
    take (Z.to_nat (clamp_len n)) payload = bpf_probe_read e buf (Z.to_nat (clamp_len n)) /\
    perf s' = perf s ++ [ssl_rb ke (u32 (dir_bytes d ci + 1 - sl)) sl (clamp_len n) payload] /\
    (exists ci', conn_info_map s' !! t = Some ci' /\ ci_ssl ci' = true /\
       dir_ssl_bytes d ci' = u64 (dir_ssl_bytes d ci + n) /\ (forall d', dir_bytes d' ci' = dir_bytes d' ci)) /\
    ssl_user_space_call_map s' = ssl_user_space_call_map s.

Lemma ssl_report_run args t d n ci sl e s :
  conn_info_map s !! t = Some ci -> traced ci -> scratch_ok s ->
  0 < n < 2147483648 -> 0 <= sl < 2147483648 ->
  ssl_effect t d ci n sl (da_buf args) e s
    (exec (ci' ← process_syscall_data_with_conn_info args t d n (ci <| ci_ssl := true |>) (s32 sl) true true;
           store_conn t (add_ssl_bytes d n ci')) e s).
Proof.
  intros Hci Htr Hsc Hn0 Hsl.
  set (ci1 := ci <| ci_ssl := true |>). assert (traced ci1) as Htr1 by exact Htr.
  set (c := mk_conn_id_s t (stack_no_trace e)).
  set (m := report_ssl_buf (u32 (dir_ssl_bytes d ci1 + 1)) c n (data_step true d) (da_start_ts args)
    (ts_delta_of args) (da_buf args) (u32 (u32 (dir_bytes d ci1 + 1) - sl)) sl).
  match goal with |- ssl_effect _ _ _ _ _ _ _ _ ?x =>
    assert (x = exec m e s <| conn_info_map ::= alter (fun _ => add_ssl_bytes d n ci1) t |>) as -> end.
  { rewrite process_ssl_traced by done. unfold report_ssl_evt, local_conn_id_s, store_conn.
    rewrite s32_small by lia. destruct (Z.ltb_spec sl 0); [lia|]. run.
    rewrite (u32_small n) by lia. reflexivity. }
  destruct (proj1 (proj2 Hsc)) as [evt Hevt].
  destruct (report_ssl_buf_emits (u32 (dir_ssl_bytes d ci1 + 1)) c n (data_step true d)
    (da_start_ts args) (ts_delta_of args) (da_buf args) (u32 (u32 (dir_bytes d ci1 + 1) - sl)) sl e s evt
    ltac:(lia) Hevt) as (ke & Hke & Hpf). fold m in Hpf.
  pose proof (report_ssl_buf_reports (u32 (dir_ssl_bytes d ci1 + 1)) c n (data_step true d)
    (da_start_ts args) (ts_delta_of args) (da_buf args) (u32 (u32 (dir_bytes d ci1 + 1) - sl)) sl e s)
    as Hr. fold m in Hr.
  exists ke, (take (Z.to_nat (clamp_len n + 4)) (read_into e (kes_msg evt) (da_buf args) (clamp_len n))).
  split; [|split; [|split; [|split] ] ].
  - destruct d; unfold syscall_event in *; by rewrite u32_idem in Hke.
  - rewrite take_take, Nat.min_l by (pose proof (clamp_pos n (proj1 Hn0)); lia). apply take_read_into.
  - fsimp_goal. rewrite Hpf, u32_idem, u32_sub_l, (u32_small sl) by lia. destruct d; reflexivity.
  - eexists. split; [fsimp_goal; rewrite lookup_alter_eq; reports_rewrite Hr; by rewrite Hci|].
    split; [by destruct d|]. split; [by destruct d|]. intros d'. by destruct d, d'.
  - fsimp_goal. by reports_rewrite Hr.
Qed.

Lemma process_ssl_data_run ctx id d args ex sl e s ci n :
  let t := gen_tgid_fd (tgid_of id) (da_fd args) in
  conn_info_map s !! t = Some ci -> ssl_traced ci -> scratch_ok s ->
  ssl_bytes_count e ctx (da_ssl_ex_len args) = Some n -> 0 < n < 2147483648 -> 0 <= sl < 2147483648 ->
  ssl_effect t d ci n sl (da_buf args) e s (exec (process_ssl_data ctx id d args ex sl) e s).
Proof.
  intros t Hci [Htr _] Hsc Hn Hn0 Hsl. unfold process_ssl_data.
  rewrite exec_bind, exec_ask, result_ask, Hn, exec_bind, exec_gets, result_gets. fold t. rewrite Hci.
  by apply ssl_report_run.
Qed.

Lemma ssl_ret_run id fd d ctx ex args rec e s ci :
  let t := gen_tgid_fd (tgid_of id) fd in
  in_ssl_call id t d ci args rec s -> pid_tgid e = id -> ns_fd rec = fd ->
  exists a, da_fd a = fd /\ da_buf a = da_buf args /\ da_ssl_ex_len a = da_ssl_ex_len args /\
    exists s1, exec (ssl_ret d ctx ex) e s = exec (process_ssl_data ctx id d a ex (ns_syscall_len rec)) e s1 /\
      conn_info_map s1 = conn_info_map s /\ scratch_ok s1 /\ perf s1 = perf s /\
      ssl_user_space_call_map s1 !! id = None.
Proof.
  intros t [Hci Hssl Hargs Hrec Hi _ _ _] Hid Hfd.
  exists (args <| da_end_ts := clock e (ticks s) |> <| da_fd := fd |>).
  split; [done|]. split; [done|]. split; [done|].
  destruct d; cbn [ssl_ret ssl_args_map] in *; unfold do_SSL_write_ret, do_SSL_read_ret; run;
    rewrite Hid, Hrec; run; fsimp; rewrite Hargs; run; rewrite Hfd;
    (eexists; split; [reflexivity|]); (split; [done|]); (split; [apply Hi|]); (split; [done|]);
    fsimp_goal; apply lookup_delete_eq.
Qed.

(** ** Theorems *)


(** An SSL connection of process 10 at descriptor 3, 100 bytes of ciphertext
    written so far, and a thread that calls [SSL_write(8192, 4096, 5)], which
    returns 5: saved registers at 2000. *)
Definition conn_ssl : conn_info_t :=
  conn_http <| ci_conn_id := mk_conn_id 10 0 3 1 |> <| ci_ssl := true |> <| ci_ssl_write_bytes := 60 |>.
Definition state_ssl : bpf := state_http <| conn_info_map := {[gen_tgid_fd 10 3 := conn_ssl]} |>.
Definition env_ssl : env :=
  env0 <| pid_tgid := 10 * 4294967296 + 12 |> <| umem := mem_at 4096 [104; 101; 108; 108; 111] |>
       <| kmem := mem_at 2080 (le_encode 8 5 ++ le_encode 8 0 ++ le_encode 8 5 ++
            le_encode 8 4096 ++ le_encode 8 8192) |>.

Lemma state_ssl_inv : inv state_ssl.
Proof.
  destruct inv_init as [H1 H2 _ H4 _ H6 H7 H8]. split;
    [exact H1|exact H2| |exact H4|apply Z.leb_le; reflexivity|exact H6|exact H7|exact H8].
  intros t ci Hl. change (({[gen_tgid_fd 10 3 := conn_ssl]} : gmap Z conn_info_t) !! t = Some ci) in Hl.
  apply lookup_singleton_Some in Hl as [<- <-]. repeat split; vm_compute; congruence.
Qed.

