(* ===== verification/GoTls.v ===== *)
(** * Go TLS probes ([bpf/gotls.bpf.c])

    Probes at the entry and return of the methods [Write] and [Read] of the type
    [Conn] of [crypto/tls].
    Goroutines move between threads, so a call is followed under its process and
    goroutine id.  Where Go keeps arguments and results depends on the compiler:
    the agent gives their locations, on the stack or in registers, per process.
    The descriptor is found by following the interface values of the connection
    down to the [net.TCPConn].

    [ctx] is the address of the saved user registers, those of x86-64. *)

From stdpp Require Import gmap list fin_maps.
From Stdlib Require Import ZArith Lia.
From S2P Require Import Prelude Types Machine ProtocolInference DataCommon SockKey Skb Conn.
From S2P Require Import Frame Syscalls Ssl.
Local Open Scope Z_scope.

(** ** Arguments *)

Definition pt_regs_sp (e : env) (ctx : Z) : Z := kread e (ctx + 152) 8.

(** [ax], [bx], [cx], [di], [si], [r8], [r9], [r10] and [r11], the registers in
    which Go passes arguments and results. *)
Definition go_regs (e : env) (ctx : Z) : list Z :=
  (fun off => kread e (ctx + off) 8) <$> [80; 40; 88; 112; 104; 72; 64; 56; 48].

(** Copies the registers to the per-CPU value [regs_heap]. *)
Definition go_regabi_regs (ctx : Z) : M (option (list Z)) :=
  heap ← gets regs_heap;
  match heap with
  | None => mret None
  | Some _ =>
    e ← ask;
    modify (fun s => s <| regs_heap := Some (go_regs e ctx) |>);;
    mret (Some (go_regs e ctx))
  end.

Section GoTls.
(** The bytes of kernel memory behind the per-CPU value [regs_heap]: a register
    location may be up to 1000 bytes from its start. *)
Context (regs_tail : list Z).

(** [assign_arg(&arg, n, loc, sp, regs)] for an [arg] of [n] zero bytes. *)
Definition assign_arg (e : env) (n : nat) (loc : location_t) (sp : Z) (regs : list Z) : list Z :=
  match loc_type loc with
  | kLocationTypeStack => bpf_probe_read e (sp + loc_offset loc) n
  | kLocationTypeRegisters =>
    if (loc_offset loc <? 0) || (1000 <? loc_offset loc) then replicate n 0
    else
      let bytes := drop (Z.to_nat (loc_offset loc)) (mjoin (le_encode 8 <$> regs) ++ regs_tail) in
      if (n <=? length bytes)%nat then take n bytes else replicate n 0
  | kLocationTypeInvalid => replicate n 0
  end.

Definition go_interface_of (bs : list Z) : go_interface :=
  mk_go_interface (s64 (le_decode (take 8 bs))) (le_decode (drop 8 bs)).

(** ** The descriptor of a connection *)

Definition pread (e : env) (a : Z) (n : nat) : Z := le_decode (bpf_probe_read e a n).

Definition get_fd_from_conn_intf_core (e : env) (conn_intf : go_interface)
    (symaddrs : go_common_symaddrs_t) : Z :=
  if FD_Sysfd_offset symaddrs =? -1 then kInvalidFD else
  let at_syscallConn := gi_type conn_intf =? internal_syscallConn symaddrs in
  if at_syscallConn && (syscallConn_conn_offset symaddrs =? -1) then kInvalidFD else
  let conn_intf :=
    if at_syscallConn
    then go_interface_of (bpf_probe_read e (gi_ptr conn_intf + syscallConn_conn_offset symaddrs) 16)
    else conn_intf in
  let at_tls := gi_type conn_intf =? tls_Conn symaddrs in
  if at_tls && (tlsConn_conn_offset symaddrs =? -1) then kInvalidFD else
  let conn_intf :=
    if at_tls
    then go_interface_of (bpf_probe_read e (gi_ptr conn_intf + tlsConn_conn_offset symaddrs) 16)
    else conn_intf in
  if negb (gi_type conn_intf =? net_TCPConn symaddrs) then kInvalidFD else
  let fd_ptr := pread e (gi_ptr conn_intf) 8 in
  s32 (pread e (fd_ptr + FD_Sysfd_offset symaddrs) 8).

(** ** Write *)

Definition is_invalid (loc : location_t) : bool := bool_decide (loc_type loc = kLocationTypeInvalid).

(** What both entry probes do once they have their locations. *)
Definition go_entry (ctx : Z) (tgid_goid : tgid_goid_t) (c_loc b_loc : location_t) : M Z :=
  e ← ask;
  let sp := pt_regs_sp e ctx in
  o ← go_regabi_regs ctx;
  match o with
  | None => mret 0
  | Some regs =>
    let args := mk_go_tls_conn_args (le_decode (assign_arg e 8 c_loc sp regs))
      (le_decode (assign_arg e 8 b_loc sp regs)) in
    modify (fun s => s <| active_tls_conn_op_map ::=
      bpf_map_update_elem MAX_ENTRIES BPF_ANY tgid_goid args |>);;
    modify (fun s => s <| go_ssl_user_space_call_map ::=
      bpf_map_update_elem MAX_ENTRIES BPF_ANY tgid_goid (mk_nested_syscall_fd kInvalidFD false 0) |>);;
    mret 0
  end.

Definition probe_entry_tls_conn_write (ctx : Z) : M Z :=
  id ← bpf_get_current_pid_tgid;
  let tgid := tgid_of id in
  goid ← get_goid;
  return_if (goid =? 0) with 0 ;;
  let tgid_goid := mk_tgid_goid tgid (s64 goid) in
  symaddrs_map ← gets go_tls_symaddrs_map;
  match symaddrs_map !! tgid with
  | None => mret 0
  | Some symaddrs =>
    return_if is_invalid (Write_c_loc symaddrs) with 0 ;;
    return_if is_invalid (Write_b_loc symaddrs) with 0 ;;
    go_entry ctx tgid_goid (Write_c_loc symaddrs) (Write_b_loc symaddrs)
  end.

(** Lines 262 to 276, and 415 to 427 for [Read]: the report of a call that moved
    [retval0] bytes. *)
Definition go_report (tgid fd : Z) (direct : traffic_direction_t) (source_fn : source_function_t)
    (plaintext_ptr retval0 syscall_len : Z) : M unit :=
  let data := data_args_zero <| da_source_fn := source_fn |> <| da_buf := plaintext_ptr |>
    <| da_fd := fd |> in
  let tgid_fd := gen_tgid_fd tgid fd in
  conns ← gets conn_info_map;
  match conns !! tgid_fd with
  | Some conn_info =>
    let conn_info := conn_info <| ci_ssl := true |> in
    conn_info ← process_syscall_data_with_conn_info data tgid_fd direct retval0 conn_info
      (s32 syscall_len) true true;
    store_conn tgid_fd (add_ssl_bytes direct retval0 conn_info)
  | None => mret tt
  end.

(** What both return probes do once they have their locations: [conn_intf] is
    the connection as a [tls.Conn] interface value. *)
Definition go_return (ctx tgid : Z) (direct : traffic_direction_t) (source_fn : source_function_t)
    (args : go_tls_conn_args) (tgoid : tgid_goid_t) (retval0_loc retval1_loc : location_t) : M Z :=
  e ← ask;
  let sp := pt_regs_sp e ctx in
  o ← go_regabi_regs ctx;
  match o with
  | None => mret 0
  | Some regs =>
    let retval0 := s64 (le_decode (assign_arg e 8 retval0_loc sp regs)) in
    let retval1 := go_interface_of (assign_arg e 16 retval1_loc sp regs) in
    return_if negb (gi_ptr retval1 =? 0) with 0 ;;
    common ← gets go_common_symaddrs_map;
    match common !! tgid with
    | None => mret 0
    | Some common_symaddrs =>
      let conn_intf := mk_go_interface (tls_Conn common_symaddrs) (tca_conn_ptr args) in
      let fd := get_fd_from_conn_intf_core e conn_intf common_symaddrs in
      return_if (fd =? kInvalidFD) with 0 ;;
      nested ← gets go_ssl_user_space_call_map;
      match nested !! tgoid with
      | None => mret 0
      | Some nested_syscall_fd =>
        go_report tgid fd direct source_fn (tca_plaintext_ptr args) retval0
          (ns_syscall_len nested_syscall_fd);;
        mret 0
      end
    end
  end.

Definition probe_return_tls_conn_write_core (ctx tgid : Z) (args : go_tls_conn_args)
    (tgoid : tgid_goid_t) : M Z :=
  symaddrs_map ← gets go_tls_symaddrs_map;
  match symaddrs_map !! tgid with
  | None => mret 0
  | Some symaddrs =>
    return_if is_invalid (Write_retval0_loc symaddrs) with 0 ;;
    return_if is_invalid (Write_retval1_loc symaddrs) with 0 ;;
    go_return ctx tgid kEgress kSSLWrite args tgoid (Write_retval0_loc symaddrs)
      (Write_retval1_loc symaddrs)
  end.

Definition probe_return_tls_conn_write (ctx : Z) : M Z :=
  id ← bpf_get_current_pid_tgid;
  let tgid := tgid_of id in
  goid ← get_goid;
  return_if (goid =? 0) with 0 ;;
  let tgid_goid := mk_tgid_goid tgid (s64 goid) in
  ops ← gets active_tls_conn_op_map;
  match ops !! tgid_goid with
  | None => mret 0
  | Some args =>
    probe_return_tls_conn_write_core ctx tgid args tgid_goid;;
    modify (fun s => s <| active_tls_conn_op_map ::= delete tgid_goid |>);;
    modify (fun s => s <| go_ssl_user_space_call_map ::= delete tgid_goid |>);;
    mret 0
  end.

(** ** Read *)

Definition probe_entry_tls_conn_read (ctx : Z) : M Z :=
  id ← bpf_get_current_pid_tgid;
  let tgid := tgid_of id in
  goid ← get_goid;
  return_if (goid =? 0) with 0 ;;
  let tgid_goid := mk_tgid_goid tgid (s64 goid) in
  symaddrs_map ← gets go_tls_symaddrs_map;
  match symaddrs_map !! tgid with
  | None => mret 0
  | Some symaddrs =>
    return_if is_invalid (Read_c_loc symaddrs) with 0 ;;
    return_if is_invalid (Read_b_loc symaddrs) with 0 ;;
    go_entry ctx tgid_goid (Read_c_loc symaddrs) (Read_b_loc symaddrs)
  end.

Definition probe_return_tls_conn_read_core (ctx tgid : Z) (args : go_tls_conn_args)
    (tgoid : tgid_goid_t) : M Z :=
  symaddrs_map ← gets go_tls_symaddrs_map;
  match symaddrs_map !! tgid with
  | None => mret 0
  | Some symaddrs =>
    return_if is_invalid (Read_retval0_loc symaddrs) with 0 ;;
    return_if is_invalid (Read_retval1_loc symaddrs) with 0 ;;
    go_return ctx tgid kIngress kSSLRead args tgoid (Read_retval0_loc symaddrs)
      (Read_retval1_loc symaddrs)
  end.

Definition probe_return_tls_conn_read (ctx : Z) : M Z :=
  id ← bpf_get_current_pid_tgid;
  let tgid := tgid_of id in
  goid ← get_goid;
  return_if (goid =? 0) with 0 ;;
  let tgid_goid := mk_tgid_goid tgid (s64 goid) in
  ops ← gets active_tls_conn_op_map;
  match ops !! tgid_goid with
  | None => mret 0
  | Some args =>
    probe_return_tls_conn_read_core ctx tgid args tgid_goid;;
    modify (fun s => s <| active_tls_conn_op_map ::= delete tgid_goid |>);;
    modify (fun s => s <| go_ssl_user_space_call_map ::= delete tgid_goid |>);;
    mret 0
  end.

Inductive go_probe : Type :=
| G_write_entry (ctx : Z) | G_write_return (ctx : Z)
| G_read_entry (ctx : Z) | G_read_return (ctx : Z).

Definition run_go (p : go_probe) : M Z :=
  match p with
  | G_write_entry ctx => probe_entry_tls_conn_write ctx
  | G_write_return ctx => probe_return_tls_conn_write ctx
  | G_read_entry ctx => probe_entry_tls_conn_read ctx
  | G_read_return ctx => probe_return_tls_conn_read ctx
  end.

(** ** The invariant *)

Lemma inv_go_maps f1 f2 s :
  inv s -> inv (s <| active_tls_conn_op_map ::= f1 |> <| go_ssl_user_space_call_map ::= f2 |>).
Proof. intros [? ? ? ? ? ? ? ?]. by split. Qed.

Lemma go_regabi_regs_inv ctx : keeps (inv_rel inv) (go_regabi_regs ctx).
Proof.
  intros e s Hi. unfold go_regabi_regs. run. destruct (regs_heap s) eqn:E; [|done]. run.
  destruct Hi as [(H1 & H2 & H3 & H4 & H5 & H6 & H7) ? ? ? ? ? ? ?]. split; try done.
Qed.
#[local] Hint Resolve go_regabi_regs_inv : keeps.

Lemma get_goid_inv : keeps (inv_rel inv) get_goid.
Proof. intros e s Hi. apply get_goid_good, Hi. Qed.
#[local] Hint Resolve get_goid_inv : keeps.

Lemma go_report_inv tgid fd d fn p n sl : keeps (inv_rel inv) (go_report tgid fd d fn p n sl).
Proof.
  intros e s Hi. unfold go_report. rewrite exec_bind, exec_gets, result_gets.
  destruct (conn_info_map s !! _) as [ci|] eqn:Hci; [|done]. by apply ssl_store_inv.
Qed.
#[local] Hint Resolve go_report_inv : keeps.

Lemma run_go_inv p : keeps (inv_rel inv) (run_go p).
Proof.
  assert (Ho : forall f, keeps (E := env) (inv_rel inv) (modify (fun s => s <| active_tls_conn_op_map ::= f |>)))
    by (intros f; apply inv_modify; intros s; exact (inv_go_maps f (fun x => x) s)).
  assert (Hn : forall f, keeps (E := env) (inv_rel inv) (modify (fun s => s <| go_ssl_user_space_call_map ::= f |>)))
    by (intros f; apply inv_modify; intros s; exact (inv_go_maps (fun x => x) f s)).
  destruct p; cbn [run_go];
    unfold probe_entry_tls_conn_write, probe_return_tls_conn_write, probe_entry_tls_conn_read,
      probe_return_tls_conn_read, probe_return_tls_conn_write_core, probe_return_tls_conn_read_core,
      go_entry, go_return; keeps_tac; auto.
Qed.
End GoTls.

(** ** System calls of a goroutine *)

(** The current thread runs the goroutine [g]. *)
Definition on_goroutine (cs : go_common_symaddrs_t) (g : Z) (e : env) : Prop :=
  task_ptr e <> 0 /\
  uread e (uread e (task_fsbase e + g_addr_offset cs) 8 + g_goid_offset cs) 8 = g.

Lemma get_goid_run e s cs g :
  go_common_symaddrs_map s !! tgid_of (pid_tgid e) = Some cs -> on_goroutine cs g e ->
  get_goid e s = (g, s).
Proof.
  intros Hcs [Ht Hg]. unfold get_goid, bpf_get_current_pid_tgid. steps. rewrite Hcs.
  rewrite (proj2 (Z.eqb_neq _ _) Ht). by rewrite <- Hg.
Qed.

Lemma finish_data_go args id d n e s cs g :
  let tg := mk_tgid_goid (tgid_of id) (s64 g) in
  let update r := update_fd_and_syscall_len_to_uprobe r (da_fd args) (s32 (u32 n)) in
  pid_tgid e = id -> go_common_symaddrs_map s !! tgid_of id = Some cs -> on_goroutine cs g e ->
  g <> 0 -> is_Some (go_ssl_user_space_call_map s !! tg) ->
  exists ts, exec (finish_data args id d n) e s =
    exec (process_syscall_data (args <| da_end_ts := ts |>) id d n true) e
      (s <| ticks ::= S |> <| ssl_user_space_call_map ::= alter update id |>
         <| go_ssl_user_space_call_map ::= alter update tg |>).
Proof.
  intros tg update Hid Hcs Hg Hg0 [r Hr]. exists (clock e (ticks s)).
  unfold finish_data. rewrite exec_bind, exec_ktime, result_ktime. unfold propagate_fd_to_uprobe, exec.
  steps. match goal with |- context [(get_goid ≫= _) e ?x] =>
    rewrite (step_run _ _ _ _ _ _ (get_goid_run e x cs g ltac:(rewrite Hid; exact Hcs) Hg)) end.
  rewrite (proj2 (Z.eqb_neq _ _) Hg0). cbn [negb]. steps. fold tg.
  change (go_ssl_user_space_call_map (s <| ticks ::= S |> <| ssl_user_space_call_map ::= _ |>))
    with (go_ssl_user_space_call_map s). rewrite Hr. reflexivity.
Qed.

(** The state inside a TLS call of the goroutine [tg] on the connection [ci]. *)
Record in_go_call (tg : tgid_goid_t) (cs : go_common_symaddrs_t) (sym : go_tls_symaddrs_t) (t : Z)
    (d : traffic_direction_t) (ci : conn_info_t) (args : go_tls_conn_args) (rec : nested_syscall_fd_t)
    (s : bpf) : Prop := {
  igc_conn : conn_info_map s !! t = Some ci;
  igc_traced : traced ci;
  igc_args : active_tls_conn_op_map s !! tg = Some args;
  igc_rec : go_ssl_user_space_call_map s !! tg = Some rec;
  igc_inv : inv s;
  igc_passes : passes s (tg_tgid tg);
  igc_cs : go_common_symaddrs_map s !! tg_tgid tg = Some cs;
  igc_sym : go_tls_symaddrs_map s !! tg_tgid tg = Some sym;
  igc_room : Z.of_nat (size (args_map d s)) < MAX_ENTRIES;
}.

(** A read or write the goroutine makes, on whatever thread it runs. *)
Definition go_io_ok (tgid : Z) (cs : go_common_symaddrs_t) (g : Z) (nt : conn_trace_state_t)
    (x : socket_io) : Prop :=
  io_ok (pid_tgid (io_enter x)) nt x /\ tgid_of (pid_tgid (io_enter x)) = tgid /\
  on_goroutine cs g (io_exit x).

Lemma in_go_call_next tg cs sym id fd d ci args rec n a s s2 s4 :
  let t := gen_tgid_fd (tg_tgid tg) fd in
  let update r := update_fd_and_syscall_len_to_uprobe r (da_fd a) (s32 (u32 n)) in
  let s3 := s2 <| ticks ::= S |> <| ssl_user_space_call_map ::= alter update id |>
    <| go_ssl_user_space_call_map ::= alter update tg |> in
  let s5 := s4 <| conn_info_map ::= alter (fun _ => add_bytes d n (mark_ssl true ci)) t |> in
  in_go_call tg cs sym t d ci args rec s -> 0 < n < 2147483648 -> quiet s s2 -> da_fd a = fd ->
  args_map d s2 = <[id := a]> (args_map d s) -> reports s3 s4 -> inv s5 ->
  in_go_call tg cs sym t d (add_bytes d n (mark_ssl true ci)) args
    (update_fd_and_syscall_len_to_uprobe rec fd n) (del_args d id s5).
Proof.
  intros t update s3 s5 [Hci Htr Hargs Hrec Hi Hpa Hcs Hsym Hroom] Hn Hq Ha Hm Hr Hi5. subst s5. split.
  - pose proof (nested_conns d id s s2 s3 s4 (alter (fun _ => add_bytes d n (mark_ssl true ci)) t)
      Hq Hr eq_refl) as E.
    etrans; [exact (f_equal (lookup t) E)|]. by rewrite lookup_alter_eq, Hci.
  - by destruct d.
  - etrans; [|exact Hargs]. apply (f_equal (lookup tg)).
    apply (nested_field d id s s2 s3 s4 _ Hq Hr active_tls_conn_op_map); try done. by intros [].
  - transitivity (go_ssl_user_space_call_map s4 !! tg); [by destruct d|].
    rewrite (reports_field go_ssl_user_space_call_map _ _ (fun _ => eq_refl) Hr). subst s3. fsimp.
    rewrite lookup_alter_eq, (quiet_field go_ssl_user_space_call_map _ _ (fun _ => eq_refl) Hq), Hrec.
    cbn. unfold update. by rewrite Ha, s32_u32, s32_small by lia.
  - destruct d; refine (inv_stash _ _ _ Hi5); reflexivity.
  - by apply (nested_passes d id s s2 s3 s4).
  - etrans; [|exact Hcs]. apply (f_equal (lookup (tg_tgid tg))).
    apply (nested_field d id s s2 s3 s4 _ Hq Hr go_common_symaddrs_map); try done. by intros [].
  - etrans; [|exact Hsym]. apply (f_equal (lookup (tg_tgid tg))).
    apply (nested_field d id s s2 s3 s4 _ Hq Hr go_tls_symaddrs_map); try done. by intros [].
  - by apply (nested_room d id s s2 s3 s4 _ Hr a); try done; destruct d.
Qed.

Lemma go_io_step tgid g cs sym fd d ci args rec nt x s :
  let tg := mk_tgid_goid tgid (s64 g) in
  let t := gen_tgid_fd tgid fd in
  in_go_call tg cs sym t d ci args rec s -> go_io_ok tgid cs g nt x -> g <> 0 ->
  exists l, perf (run_io d fd x s) = perf s ++ l /\
    tiles (mk_conn_id_s t nt) (data_step false d) (dir_bytes d ci + 1) (io_len x) l /\
    in_go_call tg cs sym t d (add_bytes d (io_len x) (mark_ssl true ci)) args
      (update_fd_and_syscall_len_to_uprobe rec fd (io_len x)) (run_io d fd x s).
Proof.
  intros tg t Hin ((H1 & H2 & H3 & Hbuf & Hn & Hnt) & Htg & Hg) Hg0. set (id := pid_tgid (io_enter x)) in *.
  pose proof Hin as [Hci Htr Hargs Hrec Hi Hpa Hcs Hsym Hroom]. cbn [tg_tgid tg] in Hpa, Hcs.
  destruct (run_io_finish d fd x s id H1 H2 H3 Hbuf Hroom) as (s2 & a & Hq & Ha & Hm & Hrun).
  assert (Hi2 : inv s2) by apply Hq, Hi.
  assert (Hi3 : inv (exec (finish_data a id d (io_len x)) (io_exit x) s2))
    by (apply (finish_data_good a id d (io_len x)), Hi2).
  destruct (finish_data_go a id d (io_len x) (io_exit x) s2 cs g H3) as [ts Hfin]; [|done|done| |].
  { by rewrite (quiet_field go_common_symaddrs_map _ _ (fun _ => eq_refl) Hq), Htg. }
  { rewrite (quiet_field go_ssl_user_space_call_map _ _ (fun _ => eq_refl) Hq), Htg. by eexists. }
  rewrite Hfin in Hi3, Hrun. clear Hfin. rewrite Htg in Hi3, Hrun. fold tg in Hi3, Hrun.
  set (s3 := s2 <| ticks ::= S |> <| ssl_user_space_call_map ::= _ |> <| _ ::= _ |>) in *.
  destruct (ssl_data_effect s3 (io_exit x) id fd d ci (a <| da_end_ts := ts |>) (io_len x) true)
    as (s4 & l & Hr & Hpf & Ht & Hs5); [|done|done|apply Hi2| |done|done|].
  { rewrite Htg. fold t. change (conn_info_map s3) with (conn_info_map s2).
    by rewrite (quiet_field conn_info_map _ _ (fun _ => eq_refl) Hq). }
  { rewrite Htg. exact (quiet_passes _ _ _ Hq Hpa). }
  rewrite Htg in Hs5, Ht. fold t in Hs5, Ht. rewrite Hs5 in Hi3, Hrun. rewrite Hrun, <- Hnt.
  exists l. split; [|split; [exact Ht|] ].
  - destruct Hq as (_ & Hq & _). rewrite <- Hq. destruct d; exact Hpf.
  - by apply (in_go_call_next tg cs sym id fd d ci args rec (io_len x) a s s2 s4).
Qed.

(** The connection after the system calls of the goroutine. *)
Definition go_conn (d : traffic_direction_t) (xs : list socket_io) (ci : conn_info_t) : conn_info_t :=
  foldl (fun ci x => add_bytes d (io_len x) (mark_ssl true ci)) ci xs.

Lemma dir_bytes_mark d nested ci : dir_bytes d (mark_ssl nested ci) = dir_bytes d ci.
Proof. by destruct d, nested. Qed.

Lemma go_conn_spec d xs ci :
  u64 (dir_bytes d (go_conn d xs ci)) = u64 (dir_bytes d ci + total_len xs) /\
  dir_ssl_bytes d (go_conn d xs ci) = dir_ssl_bytes d ci.
Proof.
  revert ci. induction xs as [|x xs IH]; intros ci; cbn [total_len foldr].
  - by rewrite Z.add_0_r.
  - change (go_conn d (x :: xs) ci) with (go_conn d xs (add_bytes d (io_len x) (mark_ssl true ci))).
    destruct (IH (add_bytes d (io_len x) (mark_ssl true ci))) as [H1 H2].
    split; [|rewrite H2; by destruct d].
    rewrite H1, dir_bytes_add, dir_bytes_mark, u64_add_l. f_equal. unfold total_len. lia.
Qed.

Lemma go_ios_steps tgid g cs sym fd d nt args xs ci rec s :
  let tg := mk_tgid_goid tgid (s64 g) in
  let t := gen_tgid_fd tgid fd in
  in_go_call tg cs sym t d ci args rec s -> Forall (go_io_ok tgid cs g nt) xs -> g <> 0 ->
  exists l, perf (run_ios d fd xs s) = perf s ++ l /\
    tiles (mk_conn_id_s t nt) (data_step false d) (dir_bytes d ci + 1) (total_len xs) l /\
    in_go_call tg cs sym t d (go_conn d xs ci) args (io_record fd xs rec) (run_ios d fd xs s).
Proof.
  intros tg t Hs Hxs Hg0. revert ci rec s Hs. induction Hxs as [|x xs Hx Hxs IH]; intros ci rec s Hs.
  - exists []. rewrite app_nil_r. done.
  - destruct (go_io_step tgid g cs sym fd d ci args rec nt x s Hs Hx Hg0) as (l1 & Hp1 & Ht1 & Hs1).
    destruct (IH _ _ _ Hs1) as (l2 & Hp2 & Ht2 & Hs2). exists (l1 ++ l2).
    cbn [run_ios go_conn io_record foldl total_len foldr]. split; [|split; [|exact Hs2] ].
    + etrans; [exact Hp2|]. by rewrite Hp1, app_assoc.
    + apply tiles_app; [|exact Ht1|].
      * clear -Hxs. induction Hxs as [|x xs ((_ & _ & _ & _ & Hx & _) & _) _ IH]; [done|].
        cbn [total_len foldr]. unfold total_len in IH. lia.
      * eapply tiles_u32; [|exact Ht2].
        rewrite dir_bytes_add, dir_bytes_mark, <- u32_add_l, u32_u64, u32_add_l. f_equal. lia.
Qed.

(** ** Entry and return *)

Definition c_loc (d : traffic_direction_t) (sym : go_tls_symaddrs_t) : location_t :=
  match d with kEgress => Write_c_loc sym | kIngress => Read_c_loc sym end.
Definition b_loc (d : traffic_direction_t) (sym : go_tls_symaddrs_t) : location_t :=
  match d with kEgress => Write_b_loc sym | kIngress => Read_b_loc sym end.
Definition retval0_loc (d : traffic_direction_t) (sym : go_tls_symaddrs_t) : location_t :=
  match d with kEgress => Write_retval0_loc sym | kIngress => Read_retval0_loc sym end.
Definition retval1_loc (d : traffic_direction_t) (sym : go_tls_symaddrs_t) : location_t :=
  match d with kEgress => Write_retval1_loc sym | kIngress => Read_retval1_loc sym end.
Definition locs_valid (d : traffic_direction_t) (sym : go_tls_symaddrs_t) : Prop :=
  Forall (fun l => is_invalid l = false)
    [c_loc d sym; b_loc d sym; retval0_loc d sym; retval1_loc d sym].

Definition probe_entry (tail : list Z) (d : traffic_direction_t) (ctx : Z) : M Z :=
  match d with
  | kEgress => probe_entry_tls_conn_write tail ctx | kIngress => probe_entry_tls_conn_read tail ctx
  end.
Definition probe_return (tail : list Z) (d : traffic_direction_t) (ctx : Z) : M Z :=
  match d with
  | kEgress => probe_return_tls_conn_write tail ctx | kIngress => probe_return_tls_conn_read tail ctx
  end.

(** What the probes read of a call through its locations. *)
Definition go_arg (tail : list Z) (e : env) (ctx : Z) (n : nat) (loc : location_t) : list Z :=
  assign_arg tail e n loc (pt_regs_sp e ctx) (go_regs e ctx).

Definition go_room (d : traffic_direction_t) (s : bpf) : Prop :=
  Z.of_nat (size (args_map d s)) < MAX_ENTRIES /\
  Z.of_nat (size (active_tls_conn_op_map s)) < MAX_ENTRIES /\
  Z.of_nat (size (go_ssl_user_space_call_map s)) < MAX_ENTRIES.

Lemma go_regabi_run ctx e s :
  scratch_ok s -> go_regabi_regs ctx e s = (Some (go_regs e ctx), s <| regs_heap := Some (go_regs e ctx) |>).
Proof.
  intros (_ & _ & _ & _ & _ & _ & [r Hr]). unfold go_regabi_regs. steps. rewrite Hr. by steps.
Qed.

Lemma probe_entry_run tail d ctx e s t ci g cs sym :
  let tgid := tgid_of (pid_tgid e) in
  let tg := mk_tgid_goid tgid (s64 g) in
  go_common_symaddrs_map s !! tgid = Some cs -> go_tls_symaddrs_map s !! tgid = Some sym ->
  on_goroutine cs g e -> g <> 0 -> locs_valid d sym ->
  conn_info_map s !! t = Some ci -> traced ci -> inv s -> passes s tgid -> go_room d s ->
  let s' := exec (probe_entry tail d ctx) e s in
  in_go_call tg cs sym t d ci
    (mk_go_tls_conn_args (le_decode (go_arg tail e ctx 8 (c_loc d sym)))
       (le_decode (go_arg tail e ctx 8 (b_loc d sym))))
    (mk_nested_syscall_fd kInvalidFD false 0) s' /\
  perf s' = perf s.
Proof.
  intros tgid tg Hcs Hsym Hg Hg0 Hl Hci Htr Hi Hpa (Hr1 & Hr2 & Hr3) s'.
  assert (Hi' : inv s') by (destruct d;
    [apply (run_go_inv tail (G_write_entry ctx) e s)|apply (run_go_inv tail (G_read_entry ctx) e s)]; exact Hi).
  apply Forall_cons in Hl as [L1 Hl]. apply Forall_cons in Hl as [L2 _].
  assert (E : s' = s <| regs_heap := Some (go_regs e ctx) |>
      <| active_tls_conn_op_map ::= bpf_map_update_elem MAX_ENTRIES BPF_ANY tg
          (mk_go_tls_conn_args (le_decode (go_arg tail e ctx 8 (c_loc d sym)))
             (le_decode (go_arg tail e ctx 8 (b_loc d sym)))) |>
      <| go_ssl_user_space_call_map ::=
          bpf_map_update_elem MAX_ENTRIES BPF_ANY tg (mk_nested_syscall_fd kInvalidFD false 0) |>).
  { subst s'. destruct d; cbn [probe_entry c_loc b_loc] in *;
      unfold probe_entry_tls_conn_write, probe_entry_tls_conn_read, go_entry,
        bpf_get_current_pid_tgid, exec; steps;
      rewrite (step_run _ _ _ _ _ _ (get_goid_run e s cs g Hcs Hg)), (proj2 (Z.eqb_neq _ _) Hg0);
      steps; fold tgid tg; rewrite Hsym, L1, L2; steps;
      rewrite (step_run _ _ _ _ _ _ (go_regabi_run ctx e s (inv_scratch _ Hi))); by steps. }
  rewrite E in *. split; [|done].
  split; [exact Hci|exact Htr| | |exact Hi'|exact Hpa|exact Hcs|exact Hsym|by destruct d];
    fsimp; rewrite update_any_eq by (by right); done.
Qed.

Lemma probe_return_run tail d ctx e s fd g tgid cs sym ci args rec n :
  tgid_of (pid_tgid e) = tgid ->
  let tg := mk_tgid_goid tgid (s64 g) in
  let t := gen_tgid_fd tgid fd in
  in_go_call tg cs sym t d ci args rec s -> on_goroutine cs g e -> g <> 0 -> locs_valid d sym ->
  s64 (le_decode (go_arg tail e ctx 8 (retval0_loc d sym))) = n ->
  gi_ptr (go_interface_of (go_arg tail e ctx 16 (retval1_loc d sym))) = 0 ->
  get_fd_from_conn_intf_core e (mk_go_interface (tls_Conn cs) (tca_conn_ptr args)) cs = fd ->
  fd <> kInvalidFD -> 0 < n < 2147483648 -> 0 <= ns_syscall_len rec < 2147483648 ->
  let s' := exec (probe_return tail d ctx) e s in
  (exists s1, ssl_effect t d ci n (ns_syscall_len rec) (tca_plaintext_ptr args) e
      (s <| regs_heap := Some (go_regs e ctx) |>) s1 /\
    s' = s1 <| active_tls_conn_op_map ::= delete tg |> <| go_ssl_user_space_call_map ::= delete tg |>).
Proof.
  intros <-. set (tgid := tgid_of (pid_tgid e)). intros tg t [Hci Htr Hargs Hrec Hi _ Hcs Hsym _] Hg Hg0 Hl Hn Herr Hfd Hfd0 Hn0 Hsl s'.
  do 2 apply Forall_cons in Hl as [_ Hl]. apply Forall_cons in Hl as [L1 Hl]. apply Forall_cons in Hl as [L2 _].
  cbn [tg_tgid tg] in Hcs, Hsym. set (s0 := s <| regs_heap := Some (go_regs e ctx) |>).
  set (fn := match d with kEgress => kSSLWrite | kIngress => kSSLRead end).
  exists (exec (go_report tgid fd d fn (tca_plaintext_ptr args) n (ns_syscall_len rec)) e s0). split.
  - unfold go_report. rewrite exec_bind, exec_gets, result_gets. fold t.
    change (conn_info_map s0) with (conn_info_map s). rewrite Hci.
    refine (ssl_report_run (data_args_zero <| da_source_fn := fn |> <| da_buf := tca_plaintext_ptr args |>
      <| da_fd := fd |>) t d n ci (ns_syscall_len rec) e s0 Hci Htr _ Hn0 Hsl).
    destruct (inv_scratch _ Hi) as (?&?&?&?&?&?&?). by repeat split.
  - subst s'. destruct d; cbn [probe_return retval0_loc retval1_loc] in *;
      unfold probe_return_tls_conn_write, probe_return_tls_conn_read, probe_return_tls_conn_write_core,
        probe_return_tls_conn_read_core, bpf_get_current_pid_tgid, exec; steps;
      rewrite (step_run _ _ _ _ _ _ (get_goid_run e s cs g Hcs Hg)), (proj2 (Z.eqb_neq _ _) Hg0);
      steps; fold tgid tg; rewrite Hargs; steps; rewrite Hsym, L1, L2; unfold go_return; steps;
      rewrite (step_run _ _ _ _ _ _ (go_regabi_run ctx e s (inv_scratch _ Hi)));
      unfold go_arg in Hn, Herr; rewrite Herr; cbn [negb Z.eqb]; steps; fold s0;
      change (go_common_symaddrs_map s0) with (go_common_symaddrs_map s); rewrite Hcs;
      rewrite Hfd, (proj2 (Z.eqb_neq _ _) Hfd0); steps;
      change (go_ssl_user_space_call_map s0) with (go_ssl_user_space_call_map s); rewrite Hrec, Hn; steps;
      rewrite (step_run _ _ _ _ _ _ (run_pair (go_report tgid fd _ _ _ _ _) e s0)); steps; reflexivity.
Qed.

(** ** Theorems *)


(** *** Descriptors *)

(** The interface value [i] is in memory at [a], and a [net.TCPConn] whose
    descriptor is [fd] at [p]. *)
Definition iface_at (e : env) (a : Z) (i : go_interface) : Prop :=
  holds (any_mem e) a (le_encode 8 (gi_type i) ++ le_encode 8 (gi_ptr i)) /\
  s64 (gi_type i) = gi_type i /\ 0 <= gi_ptr i < 18446744073709551616.
Definition tcp_conn_at (e : env) (cs : go_common_symaddrs_t) (p fd : Z) : Prop :=
  exists netfd, holds (any_mem e) p (le_encode 8 netfd) /\ 0 <= netfd < 18446744073709551616 /\
    holds (any_mem e) (netfd + FD_Sysfd_offset cs) (le_encode 8 fd) /\ s32 fd = fd.

Lemma pread_le e a n v : holds (any_mem e) a (le_encode n v) -> pread e a n = v mod 256 ^ Z.of_nat n.
Proof.
  intros H. unfold pread, bpf_probe_read.
  rewrite (probe_holds _ _ _ n H) by (by rewrite length_le_encode).
  rewrite take_ge by (by rewrite length_le_encode). apply le_decode_encode.
Qed.

Lemma iface_read e a i : iface_at e a i -> go_interface_of (bpf_probe_read e a 16) = i.
Proof.
  intros (H & Ht & Hp). unfold bpf_probe_read.
  rewrite (probe_holds _ _ _ 16 H) by (by rewrite length_app, !length_le_encode).
  rewrite take_ge by (by rewrite length_app, !length_le_encode). unfold go_interface_of.
  rewrite take_app_length' by (by rewrite length_le_encode).
  rewrite drop_app_length' by (by rewrite length_le_encode).
  rewrite !le_decode_encode. change (256 ^ Z.of_nat 8) with 18446744073709551616.
  rewrite (Z.mod_small (gi_ptr i)) by done. fold (u64 (gi_type i)).
  assert (s64 (u64 (gi_type i)) = gi_type i) as -> by (rewrite <- Ht at 2; clear; word_lia).
  by destruct i.
Qed.

(** The descriptor of a Go connection.  From the interface value of a
    connection the probe reaches the descriptor of the TCP connection underneath,
    directly, through a [tls.Conn], or through a gRPC [syscallConn] around a
    [tls.Conn]; for any other connection it finds none, and none when the agent
    did not find where [internal/poll.FD] keeps its descriptor. *)
Theorem get_fd_follows_interfaces e cs i tcp tls p fd :
  internal_syscallConn cs <> tls_Conn cs -> tls_Conn cs <> net_TCPConn cs ->
  internal_syscallConn cs <> net_TCPConn cs ->
  FD_Sysfd_offset cs <> -1 -> tlsConn_conn_offset cs <> -1 -> syscallConn_conn_offset cs <> -1 ->
  tcp_conn_at e cs p fd -> gi_type tcp = net_TCPConn cs -> gi_ptr tcp = p ->
  gi_type tls = tls_Conn cs -> iface_at e (gi_ptr tls + tlsConn_conn_offset cs) tcp ->
  get_fd_from_conn_intf_core e tcp cs = fd /\
  get_fd_from_conn_intf_core e tls cs = fd /\
  (gi_type i = internal_syscallConn cs -> iface_at e (gi_ptr i + syscallConn_conn_offset cs) tls ->
     get_fd_from_conn_intf_core e i cs = fd) /\
  (gi_type i ∉ [internal_syscallConn cs; tls_Conn cs; net_TCPConn cs] ->
     get_fd_from_conn_intf_core e i cs = kInvalidFD) /\
  get_fd_from_conn_intf_core e i (mk_go_common_symaddrs (internal_syscallConn cs) (tls_Conn cs)
    (net_TCPConn cs) (-1) (tlsConn_conn_offset cs) (syscallConn_conn_offset cs) (g_goid_offset cs)
    (g_addr_offset cs)) = kInvalidFD.
Proof.
  intros D1 D2 D3 O1 O2 O3 (netfd & Hn & Hn0 & Hfd & Hs) Ht Hp Hl Htls.
  assert (Hend : s32 (pread e (pread e (gi_ptr tcp) 8 + FD_Sysfd_offset cs) 8) = fd).
  { rewrite Hp, (pread_le _ _ _ _ Hn). change (256 ^ Z.of_nat 8) with 18446744073709551616.
    rewrite Z.mod_small by done. rewrite (pread_le _ _ _ _ Hfd).
    change (fd mod 256 ^ Z.of_nat 8) with (u64 fd). by rewrite s32_u64. }
  apply Z.eqb_neq in D1, D2, D3, O1, O2, O3. rewrite Z.eqb_sym in D1, D2, D3.
  assert (Htcp : get_fd_from_conn_intf_core e tcp cs = fd).
  { unfold get_fd_from_conn_intf_core. rewrite O1, Ht, D3. cbn [andb]. cbv iota zeta.
    rewrite Ht, D2. cbn [andb]. cbv iota. by rewrite Ht, Z.eqb_refl. }
  assert (Htl : get_fd_from_conn_intf_core e tls cs = fd).
  { unfold get_fd_from_conn_intf_core. rewrite O1, Hl, D1. cbn [andb]. cbv iota zeta.
    rewrite Hl, Z.eqb_refl, O2. cbn [andb]. cbv iota. by rewrite (iface_read _ _ _ Htls), Ht, Z.eqb_refl. }
  split; [done|]. split; [done|]. split; [|split; [|done] ].
  - intros Hi Hc. unfold get_fd_from_conn_intf_core. rewrite O1, Hi, Z.eqb_refl, O3.
    cbn [andb]. cbv iota zeta. rewrite (iface_read _ _ _ Hc), Hl, Z.eqb_refl, O2. cbn [andb]. cbv iota.
    by rewrite (iface_read _ _ _ Htls), Ht, Z.eqb_refl.
  - intros Hni. rewrite !not_elem_of_cons in Hni. destruct Hni as (N1 & N2 & N3 & _).
    apply Z.eqb_neq in N1, N2, N3. unfold get_fd_from_conn_intf_core. rewrite O1, N1.
    cbn [andb]. cbv iota zeta. rewrite N2. cbn [andb]. cbv iota. by rewrite N3.
Qed.

(** Process 10 with a TLS connection at 6000 over a TCP connection on descriptor
    3, and goroutine 7 on a thread of it calling [Write] with the plaintext at
    4096; entry registers at 2000, return registers at 3000. *)
Definition cs_example : go_common_symaddrs_t := mk_go_common_symaddrs 111 222 333 16 0 0 152 (-8).
Definition sym_example : go_tls_symaddrs_t :=
  let reg n := mk_location kLocationTypeRegisters n in
  mk_go_tls_symaddrs (reg 0) (reg 8) (reg 0) (reg 8) (reg 0) (reg 8) (reg 0) (reg 8).
Definition go_umem (a : Z) : option Z :=
  let word z := le_encode 8 z in
  if a <? 4096 then mem_at 992 (word 5000) a
  else if a <? 5000 then mem_at 4096 [104; 101; 108; 108; 111] a
  else if a <? 6000 then mem_at 5152 (word 7) a
  else if a <? 7000 then mem_at 6000 (word 333 ++ word 7000) a
  else if a <? 8000 then mem_at 7000 (word 8000) a
  else if a <? 9000 then mem_at 8016 (word 3) a
  else mem_at 9000 (word 222 ++ word 6000) a.
Definition go_kmem (a : Z) : option Z :=
  let word z := le_encode 8 z in
  let regs ax bx cx := word bx ++ replicate 32 0 ++ word ax ++ word cx ++ replicate 72 0 in
  if a <? 3000 then mem_at 2040 (regs 6000 4096 5) a else mem_at 3040 (regs 5 0 0) a.
Definition env_go (pid : Z) : env :=
  env0 <| pid_tgid := 10 * 4294967296 + pid |> <| umem := go_umem |> <| kmem := go_kmem |>
       <| task_fsbase := 1000 |>.
Definition state_go : bpf :=
  state_ssl <| go_common_symaddrs_map := {[10 := cs_example]} |>
    <| go_tls_symaddrs_map := {[10 := sym_example]} |>.

Lemma state_go_inv : inv state_go.
Proof. destruct state_ssl_inv as [H1 H2 H3 H4 H5 H6 H7 H8]. by split. Qed.

Lemma env_go_goroutine pid : on_goroutine cs_example 7 (env_go pid).
Proof. split; [discriminate|vm_compute; reflexivity]. Qed.


(** [get_fd_follows_interfaces] for the same connection and a gRPC connection
    around it at 9000. *)
Lemma get_fd_follows_interfaces_witness :
  let e := env_go 12 in
  get_fd_from_conn_intf_core e (mk_go_interface 333 7000) cs_example = 3 /\
  get_fd_from_conn_intf_core e (mk_go_interface 222 6000) cs_example = 3 /\
  (111 = 111 -> iface_at e 9000 (mk_go_interface 222 6000) ->
     get_fd_from_conn_intf_core e (mk_go_interface 111 9000) cs_example = 3) /\
  (111 ∉ [111; 222; 333] -> get_fd_from_conn_intf_core e (mk_go_interface 111 9000) cs_example = kInvalidFD) /\
  get_fd_from_conn_intf_core e (mk_go_interface 111 9000)
    (mk_go_common_symaddrs 111 222 333 (-1) 0 0 152 (-8)) = kInvalidFD.
Proof.
  intros e.
  apply (get_fd_follows_interfaces e cs_example (mk_go_interface 111 9000) (mk_go_interface 333 7000)
    (mk_go_interface 222 6000) 7000 3); try discriminate; try reflexivity.
  - exists 8000. split; [holds_tac|]. split; [lia|]. split; [holds_tac|reflexivity].
  - split; [holds_tac|]. split; [reflexivity|cbn; lia].
Defined.
