(* ===== verification/System.v ===== *)
(** * The system

    The probes of [pktlatency.bpf.c], [openssl.h] and [gotls.bpf.c] run interleaved with each other and with
    the agent, which configures the filters and edits entries of the maps
    ([UpdateConnectionTraceable] and [OnClose] of [agent/conn/conntrack.go]).
    [step] is one run of a probe or one map operation of the agent; what holds of
    every reachable state is shown by induction on the steps.

    A run of a probe is one step: on one CPU a probe is not preempted by another,
    and the agent sees the maps before or after it. *)

From stdpp Require Import gmap list fin_maps relations.
From Stdlib Require Import ZArith Lia.
From S2P Require Import Prelude Types Machine ProtocolInference DataCommon SockKey Skb Conn.
From S2P Require Import Frame Syscalls Ssl GoTls.
Local Open Scope Z_scope.

(** ** Probes *)

Inductive probe_run : Type :=
| R_packet (p : packet_probe)
| R_enter (p : enter_probe)
| R_exit (p : exit_probe)
| R_sendmsg | R_recvmsg
| R_sock_alloc (ctx : Z)
| R_nat_packet (ct : Z)
| R_nat_manip_pkt (ct : Z)
| R_destroy_sock (sk : Z)
| R_sched_exec | R_sched_exit
| R_ssl (p : ssl_probe)
| R_go (regs_tail : list Z) (p : go_probe).

Definition run_probe (p : probe_run) : M Z :=
  match p with
  | R_packet p => run_packet p
  | R_enter p => run_enter p
  | R_exit p => run_exit p
  | R_sendmsg => handle_security_socket_sendmsg
  | R_recvmsg => handle_security_socket_recvmsg
  | R_sock_alloc ctx => sock_alloc_ret ctx
  | R_nat_packet ct => kprobe__nf_nat_packet ct
  | R_nat_manip_pkt ct => kprobe__nf_nat_manip_pkt ct
  | R_destroy_sock sk => tcp_destroy_sock sk
  | R_sched_exec => handle_sched_process_exec
  | R_sched_exit => handle_sched_process_exit
  | R_ssl p => run_ssl p
  | R_go regs_tail p => run_go regs_tail p
  end.

(** ** The agent *)

(** The maps the agent fills: the user's choices, and what it found in the Go
    binaries of the traced processes. *)
Record config := mk_config {
  cf_control : gmap Z Z;
  cf_mntns : gmap Z Z; cf_pidns : gmap Z Z; cf_netns : gmap Z Z; cf_pids : gmap Z Z;
  cf_local_ports : gmap Z Z; cf_remote_ports : gmap Z Z; cf_remote_ips : gmap in6_addr Z;
  cf_go_common : gmap Z go_common_symaddrs_t; cf_go_tls : gmap Z go_tls_symaddrs_t;
}.
Definition configure (c : config) (s : bpf) : bpf :=
  s <| control_values := cf_control c |> <| filter_mntns_map := cf_mntns c |>
    <| filter_pidns_map := cf_pidns c |> <| filter_netns_map := cf_netns c |>
    <| filter_pid_map := cf_pids c |> <| enabled_local_port_map := cf_local_ports c |>
    <| enabled_remote_port_map := cf_remote_ports c |> <| enabled_remote_ip_map := cf_remote_ips c |>
    <| go_common_symaddrs_map := cf_go_common c |> <| go_tls_symaddrs_map := cf_go_tls c |>.

(** [connInfo.NoTrace = traceableState; connInfoMap.Update(c.TgidFd, &connInfo,
    ebpf.UpdateExist)]: the whole entry is written back, if there is one. *)
Definition UpdateConnInfo (t : Z) (connInfo : conn_info_t) (st : conn_trace_state_t) (s : bpf) : bpf :=
  s <| conn_info_map ::= alter (fun _ => connInfo <| ci_no_trace := st |>) t |>.

(** [doUpdateConnIdMapProtocolToUnknwon] *)
Definition UpdateConnId (k : sock_key) (st : conn_trace_state_t) (s : bpf) : bpf :=
  s <| sock_key_conn_id_map ::= alter (fun c => c <| cids_no_trace := st |>) k |>.

(** [OnClose] with [needClearBpfMap]. *)
Definition OnClose (k : sock_key) (s : bpf) : bpf :=
  let revKey := reverse_sock_key_no_copy k in
  s <| sock_key_conn_id_map ::= delete k |> <| sock_key_conn_id_map ::= delete revKey |>
    <| sock_xmit_map ::= delete k |> <| sock_xmit_map ::= delete revKey |>.

(** The maps, and the entry the agent has read and not yet written back. *)
Definition sys : Type := bpf * option (Z * conn_info_t).

Inductive step : sys -> sys -> Prop :=
| step_probe p e s a : step (s, a) (exec (run_probe p) e s, a)
| step_configure c s a :
    within FILTER_MAX_ENTRIES (cf_pids c) -> step (s, a) (configure c s, a)
| step_conn_lookup t ci s a :
    conn_info_map s !! t = Some ci -> step (s, a) (s, Some (t, ci))
| step_conn_update t ci st s : step (s, Some (t, ci)) (UpdateConnInfo t ci st s, None)
| step_id_update k st s a : step (s, a) (UpdateConnId k st s, a)
| step_on_close k s a : step (s, a) (OnClose k s, a).

Definition reachable (x : sys) : Prop := rtc step (bpf_init, None) x.

(** ** Invariants *)

Lemma handle_nat_inv ct : keeps (inv_rel inv) (handle_nat ct).
Proof.
  unfold handle_nat. keeps_tac; apply keeps_modify; intros s [? ? ? ? ? ? ? ?]; by split.
Qed.
#[export] Hint Resolve handle_nat_inv : keeps.

Lemma good_inv {A} (m : M A) : keeps good m -> keeps (inv_rel inv) m.
Proof. intros H e s Hi. apply (H e s Hi). Qed.

Lemma quiet_inv {A} (m : M A) : keeps quiet m -> keeps (inv_rel inv) m.
Proof. intros H e s Hi. apply (H e s), Hi. Qed.

Lemma run_probe_inv p : keeps (inv_rel inv) (run_probe p).
Proof.
  destruct p; cbn [run_probe].
  - apply good_inv, run_packet_good.
  - apply quiet_inv, run_enter_quiet.
  - intros e s Hi. by apply run_exit_stash.
  - apply quiet_inv, sendmsg_quiet.
  - apply quiet_inv, recvmsg_quiet.
  - apply quiet_inv, sock_alloc_quiet.
  - unfold kprobe__nf_nat_packet. keeps_tac.
  - unfold kprobe__nf_nat_manip_pkt. keeps_tac.
  - apply good_inv, tcp_destroy_sock_good.
  - apply good_inv. unfold handle_sched_process_exec. keeps_tac.
  - apply good_inv. unfold handle_sched_process_exit. keeps_tac.
  - apply run_ssl_inv.
  - apply run_go_inv.
Qed.

(** The entry the agent holds is that of the descriptor it will write to. *)
Definition sys_inv (x : sys) : Prop :=
  inv x.1 /\ match x.2 with Some (t, ci) => conn_ok t ci | None => True end.

Lemma UpdateConnInfo_inv t ci st s : conn_ok t ci -> inv s -> inv (UpdateConnInfo t ci st s).
Proof.
  intros Hc Hi. assert (conn_ok t (ci <| ci_no_trace := st |>)) as Hc' by exact Hc.
  apply (store_conn_good t _ env0 s Hc' Hi).
Qed.

Lemma OnClose_inv k s : inv s -> inv (OnClose k s).
Proof.
  intros [? ? ? ? ? ? ? ?]. unfold OnClose. split; fsimp; auto using within_delete.
  by do 2 apply map_Forall_delete.
Qed.

Lemma step_inv x y : step x y -> sys_inv x -> sys_inv y.
Proof.
  intros Hs [Hi Ha]. destruct Hs as [p e s a|c s a Hc|t ci s a Hl|t ci st s|k st s a|k s a];
    cbn [fst snd] in *; split; cbn [fst snd]; try done.
  - by apply (run_probe_inv p e s).
  - destruct Hi as [? ? ? ? ? ? ? ?]. by split.
  - by apply (inv_conns s Hi).
  - by apply UpdateConnInfo_inv.
  - destruct Hi as [? ? ? ? ? ? ? ?]. split; try done. by apply within_alter.
  - by apply OnClose_inv.
Qed.

Lemma sys_inv_reachable x : reachable x -> sys_inv x.
Proof.
  intros Hr. refine (rtc_ind_r sys_inv (bpf_init, None) _ _ x Hr).
  - split; [apply inv_init|done].
  - intros y z _ Hs. by apply step_inv.
Qed.

(** ** Theorems *)

(** C31: in every state the probes and the agent can reach, in any order of
    runs and map operations, each entry of [conn_info_map] is filed under the
    process and descriptor it records and has 64-bit counters, initial sequence
    numbers are 32-bit numbers, the maps of connections, of keys, of sequence
    numbers and of selected processes hold no more entries than they were
    declared with, the per-CPU scratch values are present and the scratch
    connection has no bytes counted; and the entry the agent is about to write back is one of
    the descriptor it writes to. *)
Theorem reachable_inv s a :
  reachable (s, a) ->
  inv s /\ (forall t ci, a = Some (t, ci) -> conn_ok t ci).
Proof.
  intros Hr. destruct (sys_inv_reachable _ Hr) as [Hi Ha]. split; [done|].
  by intros t ci ->.
Qed.

(** [reachable_inv] after the first write on a socket, while the agent holds the
    connection it created. *)
Lemma reachable_inv_witness :
  let e := env_conn in
  let s1 := exec (run_probe (R_enter (E_write 3 4096))) e bpf_init in
  let s2 := exec (run_probe R_sendmsg) e s1 in
  let s3 := exec (run_probe (R_exit (X_write 5))) e s2 in
  exists ci, conn_info_map s3 !! gen_tgid_fd 0 3 = Some ci /\ ci_write_bytes ci = 5 /\
    inv s3 /\ (forall t ci', Some (gen_tgid_fd 0 3, ci) = Some (t, ci') -> conn_ok t ci').
Proof.
  intros e s1 s2 s3. eexists. split; [vm_compute; reflexivity|]. split; [reflexivity|].
  apply reachable_inv. unfold reachable.
  eapply rtc_l; [apply (step_probe (R_enter (E_write 3 4096)) e)|].
  eapply rtc_l; [apply (step_probe R_sendmsg e)|].
  eapply rtc_l; [apply (step_probe (R_exit (X_write 5)) e)|].
  apply rtc_once, step_conn_lookup. vm_compute. reflexivity.
Defined.

(** C40: the agent reads an entry of [conn_info_map] and writes it back whole
    with another trace state; the bytes of a call that ran in between are
    forgotten.  The call's events number its bytes from [b + 1], where [b] is the
    count the agent read, and the next call in the same direction numbers its own
    bytes from [b + 1] again. *)
Theorem agent_update_loses_bytes id fd d st c1 c2 e1 e2 s ci :
  let t := gen_tgid_fd (tgid_of id) fd in
  conn_info_map s !! t = Some ci -> streaming ci -> streaming (ci <| ci_no_trace := st |>) ->
  scratch_ok s -> passes s (tgid_of id) -> 0 <= fd -> call_ok fd d c1 -> call_ok fd d c2 ->
  let s1 := exec (run_call id d c1) e1 s in
  let s2 := UpdateConnInfo t ci st s1 in
  let s3 := exec (run_call id d c2) e2 s2 in
  exists l1 l2, perf s3 = perf s ++ l1 ++ l2 /\
    tiles (mk_conn_id_s t (stack_no_trace e1)) (data_step false d)
      (dir_bytes d ci + 1) (call_bytes c1) l1 /\
    tiles (mk_conn_id_s t (stack_no_trace e2)) (data_step false d)
      (dir_bytes d ci + 1) (call_bytes c2) l2 /\
    exists ci3, conn_info_map s3 !! t = Some ci3 /\
      dir_bytes d ci3 = u64 (dir_bytes d ci + call_bytes c2).
Proof.
  intros t Hci Hst Hst' Hsc Hp Hfd Hc1 Hc2 s1 s2 s3.
  pose proof (run_call_effect s e1 id fd d ci c1 Hci Hst Hsc Hp Hfd Hc1) as H1. fold s1 in H1.
  destruct (call_effect_next _ _ _ _ _ _ _ _ Hci Hst Hsc Hp H1)
    as (ci1 & l1 & Hp1 & Ht1 & Hci1 & _ & _ & _ & Hsc1 & Hpa1).
  assert (conn_info_map s2 !! t = Some (ci <| ci_no_trace := st |>)) as Hci2.
  { subst s2. unfold UpdateConnInfo. fsimp. rewrite lookup_alter_eq. fold t in Hci1. by rewrite Hci1. }
  assert (scratch_ok s2) as Hsc2 by exact Hsc1.
  assert (passes s2 (tgid_of id)) as Hpa2 by exact Hpa1.
  pose proof (run_call_effect s2 e2 id fd d _ c2 Hci2 Hst' Hsc2 Hpa2 Hfd Hc2) as H2. fold s3 in H2.
  destruct (call_effect_next _ _ _ _ _ _ _ _ Hci2 Hst' Hsc2 Hpa2 H2)
    as (ci3 & l2 & Hp3 & Ht3 & Hci3 & Hb3 & _).
  exists l1, l2. change (perf s2) with (perf s1) in Hp3. rewrite Hp3, Hp1, app_assoc.
  assert (dir_bytes d (ci <| ci_no_trace := st |>) = dir_bytes d ci) as E by by destruct d.
  rewrite E in Ht3, Hb3. eauto 6.
Qed.

(** [agent_update_loses_bytes] for two writes of 5 and 7 bytes. *)
Lemma agent_update_loses_bytes_witness :
  let c1 := call_buf (data_args_zero <| da_fd := 3 |>) 5 in
  let c2 := call_buf (data_args_zero <| da_fd := 3 |>) 7 in
  let s1 := exec (run_call (10 * 4294967296) kEgress c1) env0 state_http in
  let s3 := exec (run_call (10 * 4294967296) kEgress c2) env0
    (UpdateConnInfo (gen_tgid_fd 10 3) conn_http traceable s1) in
  exists l1 l2, perf s3 = perf state_http ++ l1 ++ l2 /\
    tiles (mk_conn_id_s (gen_tgid_fd 10 3) unset) SYSCALL_OUT 101 5 l1 /\
    tiles (mk_conn_id_s (gen_tgid_fd 10 3) unset) SYSCALL_OUT 101 7 l2 /\
    exists ci3, conn_info_map s3 !! gen_tgid_fd 10 3 = Some ci3 /\
      dir_bytes kEgress ci3 = u64 (dir_bytes kEgress conn_http + 7).
Proof.
  intros c1 c2.
  apply (agent_update_loses_bytes (10 * 4294967296) 3 kEgress traceable c1 c2 env0 env0 state_http
    conn_http).
  - reflexivity.
  - repeat split.
  - repeat split.
  - repeat split; eexists; reflexivity.
  - left. intros [? ?]. discriminate.
  - lia.
  - split; [cbn; lia|reflexivity].
  - split; [cbn; lia|reflexivity].
Defined.
