(* ===== verification/OpensslTables.v ===== *)
(** * The OpenSSL offset tables

    [src/bpf/openssl_*.bpf.c], line by line.  Each of the files defines the
    offsets of one group of OpenSSL releases and then includes [openssl.h], the
    probes of [Ssl.v]; the build compiles each file on its own.
    [OpensslOffsets.v] models the programs and scripts that write them and says
    what a compiler reads in them. *)

From stdpp Require Import strings list.
From Stdlib Require Import Ascii.

Definition blank : string := EmptyString.
(** The double quote. *)
Definition dquote : string := String (ascii_of_nat 34) EmptyString.

Definition table_1_0_2a : list string := [
  "//go:build ignore";
  blank;
  "#ifndef ECAPTURE_OPENSSL_1_0_2_A_KERN_H";
  "#define ECAPTURE_OPENSSL_1_0_2_A_KERN_H";
  blank;
  "/* OPENSSL_VERSION_TEXT: OpenSSL 1.0.2u  20 Dec 2019 */";
  "/* OPENSSL_VERSION_NUMBER: 268443999 */";
  blank;
  "// ssl_st->version";
  "#define SSL_ST_VERSION 0x0";
  blank;
  "// ssl_st->session";
  "#define SSL_ST_SESSION 0x130";
  blank;
  "// ssl_st->s3";
  "#define SSL_ST_S3 0x80";
  blank;
  "// ssl_st->rbio";
  "#define SSL_ST_RBIO 0x10";
  blank;
  "// ssl_st->wbio";
  "#define SSL_ST_WBIO 0x18";
  blank;
  "// ssl_st->server";
  "#define SSL_ST_SERVER 0x38";
  blank;
  "// ssl_session_st->master_key";
  "#define SSL_SESSION_ST_MASTER_KEY 0x14";
  blank;
  "// ssl3_state_st->client_random";
  "#define SSL3_STATE_ST_CLIENT_RANDOM 0xc4";
  blank;
  "// ssl_session_st->cipher";
  "#define SSL_SESSION_ST_CIPHER 0xe0";
  blank;
  "// ssl_session_st->cipher_id";
  "#define SSL_SESSION_ST_CIPHER_ID 0xe8";
  blank;
  "// ssl_cipher_st->id";
  "#define SSL_CIPHER_ST_ID 0x10";
  blank;
  "// bio_st->num";
  "#define BIO_ST_NUM 0x28";
  blank;
  "// openssl 1.0.2 does not support TLS 1.3, set 0 default";
  "#define SSL_ST_HANDSHAKE_SECRET 0";
  "#define SSL_ST_HANDSHAKE_TRAFFIC_HASH 0";
  "#define SSL_ST_CLIENT_APP_TRAFFIC_SECRET 0";
  "#define SSL_ST_SERVER_APP_TRAFFIC_SECRET 0";
  "#define SSL_ST_EXPORTER_MASTER_SECRET 0";
  blank;
  ("#include " +:+ dquote +:+ "openssl.h" +:+ dquote);
  blank;
  "#endif" ].

Definition table_1_1_0a : list string := [
  "//go:build ignore";
  blank;
  "#ifndef ECAPTURE_OPENSSL_1_1_0_A_KERN_H";
  "#define ECAPTURE_OPENSSL_1_1_0_A_KERN_H";
  blank;
  "/* OPENSSL_VERSION_TEXT: OpenSSL 1.1.0l  10 Sep 2019 */";
  "/* OPENSSL_VERSION_NUMBER: 269484239 */";
  blank;
  "// ssl_st->version";
  "#define SSL_ST_VERSION 0x0";
  blank;
  "// ssl_st->session";
  "#define SSL_ST_SESSION 0x178";
  blank;
  "// ssl_st->s3";
  "#define SSL_ST_S3 0x90";
  blank;
  "// ssl_st->rbio";
  "#define SSL_ST_RBIO 0x10";
  blank;
  "// ssl_st->wbio";
  "#define SSL_ST_WBIO 0x18";
  blank;
  "// ssl_st->server";
  "#define SSL_ST_SERVER 0x38";
  blank;
  "// ssl_session_st->master_key";
  "#define SSL_SESSION_ST_MASTER_KEY 0x8";
  blank;
  "// ssl3_state_st->client_random";
  "#define SSL3_STATE_ST_CLIENT_RANDOM 0xb0";
  blank;
  "// ssl_session_st->cipher";
  "#define SSL_SESSION_ST_CIPHER 0xd8";
  blank;
  "// ssl_session_st->cipher_id";
  "#define SSL_SESSION_ST_CIPHER_ID 0xe0";
  blank;
  "// ssl_cipher_st->id";
  "#define SSL_CIPHER_ST_ID 0x10";
  blank;
  "// bio_st->num";
  "#define BIO_ST_NUM 0x28";
  blank;
  "// openssl 1.1.0 does not support TLS 1.3, set 0 default";
  "#define SSL_ST_HANDSHAKE_SECRET 0";
  "#define SSL_ST_HANDSHAKE_TRAFFIC_HASH 0";
  "#define SSL_ST_CLIENT_APP_TRAFFIC_SECRET 0";
  "#define SSL_ST_SERVER_APP_TRAFFIC_SECRET 0";
  "#define SSL_ST_EXPORTER_MASTER_SECRET 0";
  blank;
  ("#include " +:+ dquote +:+ "openssl.h" +:+ dquote);
  blank;
  "#endif" ].

Definition table_1_1_1a : list string := [
  "//go:build ignore";
  blank;
  "#ifndef ECAPTURE_OPENSSL_1_1_1_A_KERN_H";
  "#define ECAPTURE_OPENSSL_1_1_1_A_KERN_H";
  blank;
  "/* OPENSSL_VERSION_TEXT: OpenSSL 1.1.1a  20 Nov 2018 */";
  "/* OPENSSL_VERSION_NUMBER: 269488159 */";
  blank;
  "// ssl_st->version";
  "#define SSL_ST_VERSION 0x0";
  blank;
  "// ssl_st->session";
  "#define SSL_ST_SESSION 0x510";
  blank;
  "// ssl_st->s3";
  "#define SSL_ST_S3 0xa8";
  blank;
  "// ssl_st->rbio";
  "#define SSL_ST_RBIO 0x10";
  blank;
  "// ssl_st->wbio";
  "#define SSL_ST_WBIO 0x18";
  blank;
  "// ssl_st->server";
  "#define SSL_ST_SERVER 0x38";
  blank;
  "// ssl_session_st->master_key";
  "#define SSL_SESSION_ST_MASTER_KEY 0x50";
  blank;
  "// ssl3_state_st->client_random";
  "#define SSL3_STATE_ST_CLIENT_RANDOM 0xb8";
  blank;
  "// ssl_session_st->cipher";
  "#define SSL_SESSION_ST_CIPHER 0x1f8";
  blank;
  "// ssl_session_st->cipher_id";
  "#define SSL_SESSION_ST_CIPHER_ID 0x200";
  blank;
  "// ssl_cipher_st->id";
  "#define SSL_CIPHER_ST_ID 0x18";
  blank;
  "// ssl_st->handshake_secret";
  "#define SSL_ST_HANDSHAKE_SECRET 0x174";
  blank;
  "// ssl_st->handshake_traffic_hash";
  "#define SSL_ST_HANDSHAKE_TRAFFIC_HASH 0x2f4";
  blank;
  "// ssl_st->client_app_traffic_secret";
  "#define SSL_ST_CLIENT_APP_TRAFFIC_SECRET 0x334";
  blank;
  "// ssl_st->server_app_traffic_secret";
  "#define SSL_ST_SERVER_APP_TRAFFIC_SECRET 0x374";
  blank;
  "// ssl_st->exporter_master_secret";
  "#define SSL_ST_EXPORTER_MASTER_SECRET 0x3b4";
  blank;
  "// bio_st->num";
  "#define BIO_ST_NUM 0x30";
  blank;
  ("#include " +:+ dquote +:+ "openssl.h" +:+ dquote);
  blank;
  "#endif" ].

Definition table_1_1_1b : list string := [
  "//go:build ignore";
  blank;
  "#ifndef ECAPTURE_OPENSSL_1_1_1_B_KERN_H";
  "#define ECAPTURE_OPENSSL_1_1_1_B_KERN_H";
  blank;
  "/* OPENSSL_VERSION_TEXT: OpenSSL 1.1.1c  28 May 2019 */";
  "/* OPENSSL_VERSION_NUMBER: 269488191 */";
  blank;
  "// ssl_st->version";
  "#define SSL_ST_VERSION 0x0";
  blank;
  "// ssl_st->session";
  "#define SSL_ST_SESSION 0x508";
  blank;
  "// ssl_st->s3";
  "#define SSL_ST_S3 0xa8";
  blank;
  "// ssl_st->rbio";
  "#define SSL_ST_RBIO 0x10";
  blank;
  "// ssl_st->wbio";
  "#define SSL_ST_WBIO 0x18";
  blank;
  "// ssl_st->server";
  "#define SSL_ST_SERVER 0x38";
  blank;
  "// ssl_session_st->master_key";
  "#define SSL_SESSION_ST_MASTER_KEY 0x50";
  blank;
  "// ssl3_state_st->client_random";
  "#define SSL3_STATE_ST_CLIENT_RANDOM 0xb8";
  blank;
  "// ssl_session_st->cipher";
  "#define SSL_SESSION_ST_CIPHER 0x1f8";
  blank;
  "// ssl_session_st->cipher_id";
  "#define SSL_SESSION_ST_CIPHER_ID 0x200";
  blank;
  "// ssl_cipher_st->id";
  "#define SSL_CIPHER_ST_ID 0x18";
  blank;
  "// ssl_st->handshake_secret";
  "#define SSL_ST_HANDSHAKE_SECRET 0x174";
  blank;
  "// ssl_st->handshake_traffic_hash";
  "#define SSL_ST_HANDSHAKE_TRAFFIC_HASH 0x2f4";
  blank;
  "// ssl_st->client_app_traffic_secret";
  "#define SSL_ST_CLIENT_APP_TRAFFIC_SECRET 0x334";
  blank;
  "// ssl_st->server_app_traffic_secret";
  "#define SSL_ST_SERVER_APP_TRAFFIC_SECRET 0x374";
  blank;
  "// ssl_st->exporter_master_secret";
  "#define SSL_ST_EXPORTER_MASTER_SECRET 0x3b4";
  blank;
  "// bio_st->num";
  "#define BIO_ST_NUM 0x30";
  blank;
  ("#include " +:+ dquote +:+ "openssl.h" +:+ dquote);
  blank;
  "#endif" ].

Definition table_1_1_1d : list string := [
  "//go:build ignore";
  blank;
  "#ifndef ECAPTURE_OPENSSL_1_1_1_D_KERN_H";
  "#define ECAPTURE_OPENSSL_1_1_1_D_KERN_H";
  blank;
  "/* OPENSSL_VERSION_TEXT: OpenSSL 1.1.1i  8 Dec 2020 */";
  "/* OPENSSL_VERSION_NUMBER: 269488287 */";
  blank;
  "// ssl_st->version";
  "#define SSL_ST_VERSION 0x0";
  blank;
  "// ssl_st->session";
  "#define SSL_ST_SESSION 0x510";
  blank;
  "// ssl_st->s3";
  "#define SSL_ST_S3 0xa8";
  blank;
  "// ssl_st->rbio";
  "#define SSL_ST_RBIO 0x10";
  blank;
  "// ssl_st->wbio";
  "#define SSL_ST_WBIO 0x18";
  blank;
  "// ssl_st->server";
  "#define SSL_ST_SERVER 0x38";
  blank;
  "// ssl_session_st->master_key";
  "#define SSL_SESSION_ST_MASTER_KEY 0x50";
  blank;
  "// ssl3_state_st->client_random";
  "#define SSL3_STATE_ST_CLIENT_RANDOM 0xb8";
  blank;
  "// ssl_session_st->cipher";
  "#define SSL_SESSION_ST_CIPHER 0x1f8";
  blank;
  "// ssl_session_st->cipher_id";
  "#define SSL_SESSION_ST_CIPHER_ID 0x200";
  blank;
  "// ssl_cipher_st->id";
  "#define SSL_CIPHER_ST_ID 0x18";
  blank;
  "// ssl_st->handshake_secret";
  "#define SSL_ST_HANDSHAKE_SECRET 0x17c";
  blank;
  "// ssl_st->handshake_traffic_hash";
  "#define SSL_ST_HANDSHAKE_TRAFFIC_HASH 0x2fc";
  blank;
  "// ssl_st->client_app_traffic_secret";
  "#define SSL_ST_CLIENT_APP_TRAFFIC_SECRET 0x33c";
  blank;
  "// ssl_st->server_app_traffic_secret";
  "#define SSL_ST_SERVER_APP_TRAFFIC_SECRET 0x37c";
  blank;
  "// ssl_st->exporter_master_secret";
  "#define SSL_ST_EXPORTER_MASTER_SECRET 0x3bc";
  blank;
  "// bio_st->num";
  "#define BIO_ST_NUM 0x30";
  blank;
  ("#include " +:+ dquote +:+ "openssl.h" +:+ dquote);
  blank;
  "#endif" ].

Definition table_1_1_1j : list string := [
  "//go:build ignore";
  blank;
  "#ifndef ECAPTURE_OPENSSL_1_1_1_J_KERN_H";
  "#define ECAPTURE_OPENSSL_1_1_1_J_KERN_H";
  blank;
  "/* OPENSSL_VERSION_TEXT: OpenSSL 1.1.1w  11 Sep 2023 */";
  "/* OPENSSL_VERSION_NUMBER: 269488511 */";
  blank;
  "// ssl_st->version";
  "#define SSL_ST_VERSION 0x0";
  blank;
  "// ssl_st->session";
  "#define SSL_ST_SESSION 0x510";
  blank;
  "// ssl_st->s3";
  "#define SSL_ST_S3 0xa8";
  blank;
  "// ssl_st->rbio";
  "#define SSL_ST_RBIO 0x10";
  blank;
  "// ssl_st->wbio";
  "#define SSL_ST_WBIO 0x18";
  blank;
  "// ssl_st->server";
  "#define SSL_ST_SERVER 0x38";
  blank;
  "// ssl_session_st->master_key";
  "#define SSL_SESSION_ST_MASTER_KEY 0x50";
  blank;
  "// ssl3_state_st->client_random";
  "#define SSL3_STATE_ST_CLIENT_RANDOM 0xb8";
  blank;
  "// ssl_session_st->cipher";
  "#define SSL_SESSION_ST_CIPHER 0x1f0";
  blank;
  "// ssl_session_st->cipher_id";
  "#define SSL_SESSION_ST_CIPHER_ID 0x1f8";
  blank;
  "// ssl_cipher_st->id";
  "#define SSL_CIPHER_ST_ID 0x18";
  blank;
  "// ssl_st->handshake_secret";
  "#define SSL_ST_HANDSHAKE_SECRET 0x17c";
  blank;
  "// ssl_st->handshake_traffic_hash";
  "#define SSL_ST_HANDSHAKE_TRAFFIC_HASH 0x2fc";
  blank;
  "// ssl_st->client_app_traffic_secret";
  "#define SSL_ST_CLIENT_APP_TRAFFIC_SECRET 0x33c";
  blank;
  "// ssl_st->server_app_traffic_secret";
  "#define SSL_ST_SERVER_APP_TRAFFIC_SECRET 0x37c";
  blank;
  "// ssl_st->exporter_master_secret";
  "#define SSL_ST_EXPORTER_MASTER_SECRET 0x3bc";
  blank;
  "// bio_st->num";
  "#define BIO_ST_NUM 0x30";
  blank;
  ("#include " +:+ dquote +:+ "openssl.h" +:+ dquote);
  blank;
  "#endif" ].

Definition table_3_0_0 : list string := [
  "//go:build ignore";
  blank;
  "#ifndef ECAPTURE_OPENSSL_3_0_0_KERN_H";
  "#define ECAPTURE_OPENSSL_3_0_0_KERN_H";
  blank;
  "/* OPENSSL_VERSION_TEXT: OpenSSL 3.0.9 30 May 2023 */";
  "/* OPENSSL_VERSION_NUMBER: 805306512 */";
  blank;
  "// ssl_st->version";
  "#define SSL_ST_VERSION 0x0";
  blank;
  "// ssl_st->session";
  "#define SSL_ST_SESSION 0x918";
  blank;
  "// ssl_st->s3";
  "#define SSL_ST_S3 0xa8";
  blank;
  "// ssl_st->rbio";
  "#define SSL_ST_RBIO 0x10";
  blank;
  "// ssl_st->wbio";
  "#define SSL_ST_WBIO 0x18";
  blank;
  "// ssl_st->server";
  "#define SSL_ST_SERVER 0x38";
  blank;
  "// ssl_session_st->master_key";
  "#define SSL_SESSION_ST_MASTER_KEY 0x50";
  blank;
  "// ssl_st->s3.client_random";
  "#define SSL_ST_S3_CLIENT_RANDOM 0x160";
  blank;
  "// ssl_session_st->cipher";
  "#define SSL_SESSION_ST_CIPHER 0x2f8";
  blank;
  "// ssl_session_st->cipher_id";
  "#define SSL_SESSION_ST_CIPHER_ID 0x300";
  blank;
  "// ssl_cipher_st->id";
  "#define SSL_CIPHER_ST_ID 0x18";
  blank;
  "// ssl_st->handshake_secret";
  "#define SSL_ST_HANDSHAKE_SECRET 0x584";
  blank;
  "// ssl_st->handshake_traffic_hash";
  "#define SSL_ST_HANDSHAKE_TRAFFIC_HASH 0x704";
  blank;
  "// ssl_st->client_app_traffic_secret";
  "#define SSL_ST_CLIENT_APP_TRAFFIC_SECRET 0x744";
  blank;
  "// ssl_st->server_app_traffic_secret";
  "#define SSL_ST_SERVER_APP_TRAFFIC_SECRET 0x784";
  blank;
  "// ssl_st->exporter_master_secret";
  "#define SSL_ST_EXPORTER_MASTER_SECRET 0x7c4";
  blank;
  "// bio_st->num";
  "#define BIO_ST_NUM 0x38";
  blank;
  ("#include " +:+ dquote +:+ "openssl.h" +:+ dquote);
  blank;
  "#endif" ].

Definition table_3_1_0 : list string := [
  "//go:build ignore";
  blank;
  "#ifndef ECAPTURE_OPENSSL_3_0_0_KERN_H";
  "#define ECAPTURE_OPENSSL_3_0_0_KERN_H";
  blank;
  "/* OPENSSL_VERSION_TEXT: OpenSSL 3.1.7 3 Sep 2024 */";
  "/* OPENSSL_VERSION_NUMBER: 806355056 */";
  blank;
  "// ssl_st->version";
  "#define SSL_ST_VERSION 0x0";
  blank;
  "// ssl_st->session";
  "#define SSL_ST_SESSION 0x918";
  blank;
  "// ssl_st->s3";
  "#define SSL_ST_S3 0xa8";
  blank;
  "// ssl_st->rbio";
  "#define SSL_ST_RBIO 0x10";
  blank;
  "// ssl_st->wbio";
  "#define SSL_ST_WBIO 0x18";
  blank;
  "// ssl_st->server";
  "#define SSL_ST_SERVER 0x38";
  blank;
  "// ssl_session_st->master_key";
  "#define SSL_SESSION_ST_MASTER_KEY 0x50";
  blank;
  "// ssl_st->s3.client_random";
  "#define SSL_ST_S3_CLIENT_RANDOM 0x160";
  blank;
  "// ssl_session_st->cipher";
  "#define SSL_SESSION_ST_CIPHER 0x2f8";
  blank;
  "// ssl_session_st->cipher_id";
  "#define SSL_SESSION_ST_CIPHER_ID 0x300";
  blank;
  "// ssl_cipher_st->id";
  "#define SSL_CIPHER_ST_ID 0x18";
  blank;
  "// ssl_st->handshake_secret";
  "#define SSL_ST_HANDSHAKE_SECRET 0x584";
  blank;
  "// ssl_st->handshake_traffic_hash";
  "#define SSL_ST_HANDSHAKE_TRAFFIC_HASH 0x704";
  blank;
  "// ssl_st->client_app_traffic_secret";
  "#define SSL_ST_CLIENT_APP_TRAFFIC_SECRET 0x744";
  blank;
  "// ssl_st->server_app_traffic_secret";
  "#define SSL_ST_SERVER_APP_TRAFFIC_SECRET 0x784";
  blank;
  "// ssl_st->exporter_master_secret";
  "#define SSL_ST_EXPORTER_MASTER_SECRET 0x7c4";
  blank;
  "// bio_st->num";
  "#define BIO_ST_NUM 0x38";
  blank;
  ("#include " +:+ dquote +:+ "openssl.h" +:+ dquote);
  blank;
  "#endif" ].

Definition table_3_2_0 : list string := [
  "//go:build ignore";
  blank;
  "#ifndef ECAPTURE_OPENSSL_3_2_0_KERN_H";
  "#define ECAPTURE_OPENSSL_3_2_0_KERN_H";
  blank;
  "/* OPENSSL_VERSION_TEXT: OpenSSL 3.2.2 4 Jun 2024 */";
  "/* OPENSSL_VERSION_NUMBER: 807403552 */";
  blank;
  "// ssl_st->type";
  "#define SSL_ST_TYPE 0x0";
  blank;
  "// ssl_connection_st->version";
  "#define SSL_CONNECTION_ST_VERSION 0x40";
  blank;
  "// ssl_connection_st->session";
  "#define SSL_CONNECTION_ST_SESSION 0x880";
  blank;
  "// ssl_connection_st->s3";
  "#define SSL_CONNECTION_ST_S3 0x118";
  blank;
  "// ssl_connection_st->rbio";
  "#define SSL_CONNECTION_ST_RBIO 0x48";
  blank;
  "// ssl_connection_st->wbio";
  "#define SSL_CONNECTION_ST_WBIO 0x50";
  blank;
  "// ssl_connection_st->server";
  "#define SSL_CONNECTION_ST_SERVER 0x70";
  blank;
  "// ssl_session_st->master_key";
  "#define SSL_SESSION_ST_MASTER_KEY 0x50";
  blank;
  "// ssl_connection_st->s3.client_random";
  "#define SSL_CONNECTION_ST_S3_CLIENT_RANDOM 0x140";
  blank;
  "// ssl_session_st->cipher";
  "#define SSL_SESSION_ST_CIPHER 0x300";
  blank;
  "// ssl_session_st->cipher_id";
  "#define SSL_SESSION_ST_CIPHER_ID 0x308";
  blank;
  "// ssl_cipher_st->id";
  "#define SSL_CIPHER_ST_ID 0x18";
  blank;
  "// ssl_connection_st->handshake_secret";
  "#define SSL_CONNECTION_ST_HANDSHAKE_SECRET 0x53c";
  blank;
  "// ssl_connection_st->handshake_traffic_hash";
  "#define SSL_CONNECTION_ST_HANDSHAKE_TRAFFIC_HASH 0x6bc";
  blank;
  "// ssl_connection_st->client_app_traffic_secret";
  "#define SSL_CONNECTION_ST_CLIENT_APP_TRAFFIC_SECRET 0x6fc";
  blank;
  "// ssl_connection_st->server_app_traffic_secret";
  "#define SSL_CONNECTION_ST_SERVER_APP_TRAFFIC_SECRET 0x73c";
  blank;
  "// ssl_connection_st->exporter_master_secret";
  "#define SSL_CONNECTION_ST_EXPORTER_MASTER_SECRET 0x77c";
  blank;
  "// bio_st->num";
  "#define BIO_ST_NUM 0x38";
  blank;
  "// quic_conn_st->tls";
  "#define QUIC_CONN_ST_TLS 0x40";
  blank;
  "#define SSL_ST_VERSION SSL_CONNECTION_ST_VERSION";
  blank;
  "#define SSL_ST_WBIO SSL_CONNECTION_ST_WBIO";
  blank;
  "#define SSL_ST_RBIO SSL_CONNECTION_ST_RBIO";
  blank;
  blank;
  ("#include " +:+ dquote +:+ "openssl.h" +:+ dquote);
  blank;
  "#endif" ].

Definition table_3_2_3 : list string := [
  "//go:build ignore";
  blank;
  "#ifndef ECAPTURE_OPENSSL_3_2_3_KERN_H";
  "#define ECAPTURE_OPENSSL_3_2_3_KERN_H";
  blank;
  "/* OPENSSL_VERSION_TEXT: OpenSSL 3.2.3 3 Sep 2024 */";
  "/* OPENSSL_VERSION_NUMBER: 807403568 */";
  blank;
  "// ssl_st->type";
  "#define SSL_ST_TYPE 0x0";
  blank;
  "// ssl_connection_st->version";
  "#define SSL_CONNECTION_ST_VERSION 0x40";
  blank;
  "// ssl_connection_st->session";
  "#define SSL_CONNECTION_ST_SESSION 0x880";
  blank;
  "// ssl_connection_st->s3";
  "#define SSL_CONNECTION_ST_S3 0x118";
  blank;
  "// ssl_connection_st->rbio";
  "#define SSL_CONNECTION_ST_RBIO 0x48";
  blank;
  "// ssl_connection_st->wbio";
  "#define SSL_CONNECTION_ST_WBIO 0x50";
  blank;
  "// ssl_connection_st->server";
  "#define SSL_CONNECTION_ST_SERVER 0x70";
  blank;
  "// ssl_session_st->master_key";
  "#define SSL_SESSION_ST_MASTER_KEY 0x50";
  blank;
  "// ssl_connection_st->s3.client_random";
  "#define SSL_CONNECTION_ST_S3_CLIENT_RANDOM 0x140";
  blank;
  "// ssl_session_st->cipher";
  "#define SSL_SESSION_ST_CIPHER 0x2f8";
  blank;
  "// ssl_session_st->cipher_id";
  "#define SSL_SESSION_ST_CIPHER_ID 0x300";
  blank;
  "// ssl_cipher_st->id";
  "#define SSL_CIPHER_ST_ID 0x18";
  blank;
  "// ssl_connection_st->handshake_secret";
  "#define SSL_CONNECTION_ST_HANDSHAKE_SECRET 0x53c";
  blank;
  "// ssl_connection_st->handshake_traffic_hash";
  "#define SSL_CONNECTION_ST_HANDSHAKE_TRAFFIC_HASH 0x6bc";
  blank;
  "// ssl_connection_st->client_app_traffic_secret";
  "#define SSL_CONNECTION_ST_CLIENT_APP_TRAFFIC_SECRET 0x6fc";
  blank;
  "// ssl_connection_st->server_app_traffic_secret";
  "#define SSL_CONNECTION_ST_SERVER_APP_TRAFFIC_SECRET 0x73c";
  blank;
  "// ssl_connection_st->exporter_master_secret";
  "#define SSL_CONNECTION_ST_EXPORTER_MASTER_SECRET 0x77c";
  blank;
  "// bio_st->num";
  "#define BIO_ST_NUM 0x38";
  blank;
  "// quic_conn_st->tls";
  "#define QUIC_CONN_ST_TLS 0x40";
  blank;
  "#define SSL_ST_VERSION SSL_CONNECTION_ST_VERSION";
  blank;
  "#define SSL_ST_WBIO SSL_CONNECTION_ST_WBIO";
  blank;
  "#define SSL_ST_RBIO SSL_CONNECTION_ST_RBIO";
  blank;
  blank;
  ("#include " +:+ dquote +:+ "openssl.h" +:+ dquote);
  blank;
  "#endif" ].

Definition table_3_3_0 : list string := [
  "//go:build ignore";
  blank;
  "#ifndef ECAPTURE_OPENSSL_3_2_0_KERN_H";
  "#define ECAPTURE_OPENSSL_3_2_0_KERN_H";
  blank;
  "/* OPENSSL_VERSION_TEXT: OpenSSL 3.3.2 3 Sep 2024 */";
  "/* OPENSSL_VERSION_NUMBER: 808452128 */";
  blank;
  "// ssl_st->type";
  "#define SSL_ST_TYPE 0x0";
  blank;
  "// ssl_connection_st->version";
  "#define SSL_CONNECTION_ST_VERSION 0x40";
  blank;
  "// ssl_connection_st->session";
  "#define SSL_CONNECTION_ST_SESSION 0x880";
  blank;
  "// ssl_connection_st->s3";
  "#define SSL_CONNECTION_ST_S3 0x118";
  blank;
  "// ssl_connection_st->rbio";
  "#define SSL_CONNECTION_ST_RBIO 0x48";
  blank;
  "// ssl_connection_st->wbio";
  "#define SSL_CONNECTION_ST_WBIO 0x50";
  blank;
  "// ssl_connection_st->server";
  "#define SSL_CONNECTION_ST_SERVER 0x70";
  blank;
  "// ssl_session_st->master_key";
  "#define SSL_SESSION_ST_MASTER_KEY 0x50";
  blank;
  "// ssl_connection_st->s3.client_random";
  "#define SSL_CONNECTION_ST_S3_CLIENT_RANDOM 0x140";
  blank;
  "// ssl_session_st->cipher";
  "#define SSL_SESSION_ST_CIPHER 0x2f8";
  blank;
  "// ssl_session_st->cipher_id";
  "#define SSL_SESSION_ST_CIPHER_ID 0x300";
  blank;
  "// ssl_cipher_st->id";
  "#define SSL_CIPHER_ST_ID 0x18";
  blank;
  "// ssl_connection_st->handshake_secret";
  "#define SSL_CONNECTION_ST_HANDSHAKE_SECRET 0x53c";
  blank;
  "// ssl_connection_st->handshake_traffic_hash";
  "#define SSL_CONNECTION_ST_HANDSHAKE_TRAFFIC_HASH 0x6bc";
  blank;
  "// ssl_connection_st->client_app_traffic_secret";
  "#define SSL_CONNECTION_ST_CLIENT_APP_TRAFFIC_SECRET 0x6fc";
  blank;
  "// ssl_connection_st->server_app_traffic_secret";
  "#define SSL_CONNECTION_ST_SERVER_APP_TRAFFIC_SECRET 0x73c";
  blank;
  "// ssl_connection_st->exporter_master_secret";
  "#define SSL_CONNECTION_ST_EXPORTER_MASTER_SECRET 0x77c";
  blank;
  "// bio_st->num";
  "#define BIO_ST_NUM 0x38";
  blank;
  "// quic_conn_st->tls";
  "#define QUIC_CONN_ST_TLS 0x40";
  blank;
  "#define SSL_ST_VERSION SSL_CONNECTION_ST_VERSION";
  blank;
  "#define SSL_ST_WBIO SSL_CONNECTION_ST_WBIO";
  blank;
  "#define SSL_ST_RBIO SSL_CONNECTION_ST_RBIO";
  blank;
  blank;
  ("#include " +:+ dquote +:+ "openssl.h" +:+ dquote);
  blank;
  "#endif" ].

Definition table_3_4_0 : list string := [
  "//go:build ignore";
  blank;
  "#ifndef ECAPTURE_OPENSSL_3_4_0_KERN_H";
  "#define ECAPTURE_OPENSSL_3_4_0_KERN_H";
  blank;
  "/* OPENSSL_VERSION_TEXT: OpenSSL 3.4.0 22 Oct 2024 */";
  "/* OPENSSL_VERSION_NUMBER: 809500672 */";
  blank;
  "// ssl_st->type";
  "#define SSL_ST_TYPE 0x0";
  blank;
  "// ssl_connection_st->version";
  "#define SSL_CONNECTION_ST_VERSION 0x40";
  blank;
  "// ssl_connection_st->session";
  "#define SSL_CONNECTION_ST_SESSION 0x880";
  blank;
  "// ssl_connection_st->s3";
  "#define SSL_CONNECTION_ST_S3 0x118";
  blank;
  "// ssl_connection_st->rbio";
  "#define SSL_CONNECTION_ST_RBIO 0x48";
  blank;
  "// ssl_connection_st->wbio";
  "#define SSL_CONNECTION_ST_WBIO 0x50";
  blank;
  "// ssl_connection_st->server";
  "#define SSL_CONNECTION_ST_SERVER 0x70";
  blank;
  "// ssl_session_st->master_key";
  "#define SSL_SESSION_ST_MASTER_KEY 0x50";
  blank;
  "// ssl_connection_st->s3.client_random";
  "#define SSL_CONNECTION_ST_S3_CLIENT_RANDOM 0x140";
  blank;
  "// ssl_session_st->cipher";
  "#define SSL_SESSION_ST_CIPHER 0x2f8";
  blank;
  "// ssl_session_st->cipher_id";
  "#define SSL_SESSION_ST_CIPHER_ID 0x300";
  blank;
  "// ssl_cipher_st->id";
  "#define SSL_CIPHER_ST_ID 0x18";
  blank;
  "// ssl_connection_st->handshake_secret";
  "#define SSL_CONNECTION_ST_HANDSHAKE_SECRET 0x53c";
  blank;
  "// ssl_connection_st->handshake_traffic_hash";
  "#define SSL_CONNECTION_ST_HANDSHAKE_TRAFFIC_HASH 0x6bc";
  blank;
  "// ssl_connection_st->client_app_traffic_secret";
  "#define SSL_CONNECTION_ST_CLIENT_APP_TRAFFIC_SECRET 0x6fc";
  blank;
  "// ssl_connection_st->server_app_traffic_secret";
  "#define SSL_CONNECTION_ST_SERVER_APP_TRAFFIC_SECRET 0x73c";
  blank;
  "// ssl_connection_st->exporter_master_secret";
  "#define SSL_CONNECTION_ST_EXPORTER_MASTER_SECRET 0x77c";
  blank;
  "// bio_st->num";
  "#define BIO_ST_NUM 0x38";
  blank;
  "// quic_conn_st->tls";
  "#define QUIC_CONN_ST_TLS 0x40";
  blank;
  "#define SSL_ST_VERSION SSL_CONNECTION_ST_VERSION";
  blank;
  "#define SSL_ST_WBIO SSL_CONNECTION_ST_WBIO";
  blank;
  "#define SSL_ST_RBIO SSL_CONNECTION_ST_RBIO";
  blank;
  blank;
  ("#include " +:+ dquote +:+ "openssl.h" +:+ dquote);
  blank;
  "#endif" ].

Definition table_3_5_0 : list string := [
  "//go:build ignore";
  blank;
  "#ifndef ECAPTURE_OPENSSL_3_5_0_KERN_H";
  "#define ECAPTURE_OPENSSL_3_5_0_KERN_H";
  blank;
  "/* OPENSSL_VERSION_TEXT: OpenSSL 3.5.0 8 Apr 2025 */";
  "/* OPENSSL_VERSION_NUMBER: 810549248 */";
  blank;
  "// ssl_st->type";
  "#define SSL_ST_TYPE 0x0";
  blank;
  "// ssl_connection_st->version";
  "#define SSL_CONNECTION_ST_VERSION 0x48";
  blank;
  "// ssl_connection_st->session";
  "#define SSL_CONNECTION_ST_SESSION 0x900";
  blank;
  "// ssl_connection_st->s3";
  "#define SSL_CONNECTION_ST_S3 0x160";
  blank;
  "// ssl_connection_st->rbio";
  "#define SSL_CONNECTION_ST_RBIO 0x50";
  blank;
  "// ssl_connection_st->wbio";
  "#define SSL_CONNECTION_ST_WBIO 0x58";
  blank;
  "// ssl_connection_st->server";
  "#define SSL_CONNECTION_ST_SERVER 0x78";
  blank;
  "// ssl_session_st->master_key";
  "#define SSL_SESSION_ST_MASTER_KEY 0x50";
  blank;
  "// ssl_connection_st->s3.client_random";
  "#define SSL_CONNECTION_ST_S3_CLIENT_RANDOM 0x188";
  blank;
  "// ssl_session_st->cipher";
  "#define SSL_SESSION_ST_CIPHER 0x2f8";
  blank;
  "// ssl_session_st->cipher_id";
  "#define SSL_SESSION_ST_CIPHER_ID 0x300";
  blank;
  "// ssl_cipher_st->id";
  "#define SSL_CIPHER_ST_ID 0x18";
  blank;
  "// ssl_connection_st->handshake_secret";
  "#define SSL_CONNECTION_ST_HANDSHAKE_SECRET 0x5bc";
  blank;
  "// ssl_connection_st->handshake_traffic_hash";
  "#define SSL_CONNECTION_ST_HANDSHAKE_TRAFFIC_HASH 0x73c";
  blank;
  "// ssl_connection_st->client_app_traffic_secret";
  "#define SSL_CONNECTION_ST_CLIENT_APP_TRAFFIC_SECRET 0x77c";
  blank;
  "// ssl_connection_st->server_app_traffic_secret";
  "#define SSL_CONNECTION_ST_SERVER_APP_TRAFFIC_SECRET 0x7bc";
  blank;
  "// ssl_connection_st->exporter_master_secret";
  "#define SSL_CONNECTION_ST_EXPORTER_MASTER_SECRET 0x7fc";
  blank;
  "// bio_st->num";
  "#define BIO_ST_NUM 0x38";
  blank;
  "#define SSL_ST_VERSION SSL_CONNECTION_ST_VERSION";
  blank;
  "#define SSL_ST_WBIO SSL_CONNECTION_ST_WBIO";
  blank;
  "#define SSL_ST_RBIO SSL_CONNECTION_ST_RBIO";
  blank;
  blank;
  ("#include " +:+ dquote +:+ "openssl.h" +:+ dquote);
  blank;
  "#endif" ].
