(* ===== verification/OpensslOffsets.v ===== *)
(** * Where the offsets come from

    A program of [src/utils/openssl_*_offset.c], compiled against the headers of
    an OpenSSL release, prints the offsets of the members the probes use as macro
    definitions; a script [src/utils/openssl_offset_*.sh] puts a frame around its
    output and so makes a table of [src/bpf].  OpenSSL is not part of the
    repository: [offsetof] is a parameter, a function from the names of a structure
    and a member.

    - [program], [toUpper], [format], [main]: the programs.
    - [script], [generate]: the scripts.
    - [macros], [define_value]: what the compiler reads in a table, whose comments
      all stand on lines of their own.

    The theorems say that for every layout of OpenSSL's structures the probes
    compiled with a generated table use the offsets of that layout, and that the
    tables of the repository are such tables. *)

From stdpp Require Import strings list.
From Stdlib Require Import ZArith Lia Ascii.
From S2P Require Import Prelude.
From S2P Require Import Types.
From S2P Require Import Machine.
From S2P Require Import Conn.
From S2P Require Import Ssl.
From S2P Require Import OpensslTables.
Local Open Scope Z_scope.

(** ** Characters and numbers *)

Definition nl : ascii := ascii_of_nat 10.
Definition newline : string := String nl EmptyString.

(** [toupper] in the C locale. *)
Definition toupper (c : ascii) : ascii :=
  let n := nat_of_ascii c in
  if (97 <=? n)%nat && (n <=? 122)%nat then ascii_of_nat (n - 32) else c.

Definition digit_char (d : Z) : ascii :=
  ascii_of_nat (Z.to_nat (if d <? 10 then 48 + d else 87 + d)).

(** Most significant digit first, without leading zeros. *)
Fixpoint digits (fuel : nat) (base n : Z) (acc : string) : string :=
  match fuel with
  | O => acc
  | S fuel' =>
      let acc' := String (digit_char (n mod base)) acc in
      if n <? base then acc' else digits fuel' base (n / base) acc'
  end.

(** [%lx] of a [size_t]: sixteen digits are enough for 64 bits. *)
Definition percent_lx (n : Z) : string := digits 16 16 (u64 n) EmptyString.

Definition signed_decimal (z : Z) : string :=
  if z <? 0 then "-" +:+ digits 20 10 (- z) EmptyString else digits 20 10 z EmptyString.

(** [%ld], and [%d] given a [long], of which it prints the low half. *)
Definition percent_ld (z : Z) : string := signed_decimal (s64 z).
Definition percent_d (z : Z) : string := signed_decimal (s32 z).

(** ** The programs *)

(** The [X]-macro list of a program, its [toUpper] and the conversion with which it
    prints the version number. *)
Record program := mk_program {
  SSL_STRUCT_OFFSETS : list (string * string);
  prog_toUpper : string -> string;
  prog_conversion : Z -> string }.

Fixpoint toUpper (s : string) : string :=
  match s with
  | EmptyString => EmptyString
  | String c s' => String (toupper c) (toUpper s')
  end.

(** From 3.0 on: members of members, [s3.client_random]. *)
Fixpoint toUpper_dots (s : string) : string :=
  match s with
  | EmptyString => EmptyString
  | String c s' =>
      String (if decide (c = ascii_of_nat 46) then ascii_of_nat 95 else toupper c) (toUpper_dots s')
  end.

Definition format (p : program) (struct_name field_name : string) (offset : Z) : string :=
  "// " +:+ struct_name +:+ "->" +:+ field_name +:+ newline +:+
  "#define " +:+ prog_toUpper p struct_name +:+ "_" +:+ prog_toUpper p field_name +:+
  " 0x" +:+ percent_lx offset +:+ newline +:+ newline.

Fixpoint print_fields (p : program) (offsetof : string -> string -> Z)
    (fields : list (string * string)) : string :=
  match fields with
  | [] => EmptyString
  | (s, f) :: rest => format p s f (offsetof s f) +:+ print_fields p offsetof rest
  end.

(** [text] and [number] are OpenSSL's [OPENSSL_VERSION_TEXT] and
    [OPENSSL_VERSION_NUMBER]. *)
Definition main (p : program) (text : string) (number : Z) (offsetof : string -> string -> Z)
    : string :=
  "/* OPENSSL_VERSION_TEXT: " +:+ text +:+ " */" +:+ newline +:+
  "/* OPENSSL_VERSION_NUMBER: " +:+ prog_conversion p number +:+ " */" +:+ newline +:+ newline +:+
  print_fields p offsetof (SSL_STRUCT_OFFSETS p).

Definition openssl_1_0_2_offset : program := mk_program [
  ("ssl_st", "version");
  ("ssl_st", "session");
  ("ssl_st", "s3");
  ("ssl_st", "rbio");
  ("ssl_st", "wbio");
  ("ssl_st", "server");
  ("ssl_session_st", "master_key");
  ("ssl3_state_st", "client_random");
  ("ssl_session_st", "cipher");
  ("ssl_session_st", "cipher_id");
  ("ssl_cipher_st", "id");
  ("bio_st", "num") ] toUpper percent_d.

Definition openssl_1_1_0_offset : program := mk_program [
  ("ssl_st", "version");
  ("ssl_st", "session");
  ("ssl_st", "s3");
  ("ssl_st", "rbio");
  ("ssl_st", "wbio");
  ("ssl_st", "server");
  ("ssl_session_st", "master_key");
  ("ssl3_state_st", "client_random");
  ("ssl_session_st", "cipher");
  ("ssl_session_st", "cipher_id");
  ("ssl_cipher_st", "id");
  ("bio_st", "num") ] toUpper percent_d.

Definition openssl_1_1_1_offset : program := mk_program [
  ("ssl_st", "version");
  ("ssl_st", "session");
  ("ssl_st", "s3");
  ("ssl_st", "rbio");
  ("ssl_st", "wbio");
  ("ssl_st", "server");
  ("ssl_session_st", "master_key");
  ("ssl3_state_st", "client_random");
  ("ssl_session_st", "cipher");
  ("ssl_session_st", "cipher_id");
  ("ssl_cipher_st", "id");
  ("ssl_st", "handshake_secret");
  ("ssl_st", "handshake_traffic_hash");
  ("ssl_st", "client_app_traffic_secret");
  ("ssl_st", "server_app_traffic_secret");
  ("ssl_st", "exporter_master_secret");
  ("bio_st", "num") ] toUpper percent_d.

Definition openssl_3_0_offset : program := mk_program [
  ("ssl_st", "version");
  ("ssl_st", "session");
  ("ssl_st", "s3");
  ("ssl_st", "rbio");
  ("ssl_st", "wbio");
  ("ssl_st", "server");
  ("ssl_session_st", "master_key");
  ("ssl_st", "s3.client_random");
  ("ssl_session_st", "cipher");
  ("ssl_session_st", "cipher_id");
  ("ssl_cipher_st", "id");
  ("ssl_st", "handshake_secret");
  ("ssl_st", "handshake_traffic_hash");
  ("ssl_st", "client_app_traffic_secret");
  ("ssl_st", "server_app_traffic_secret");
  ("ssl_st", "exporter_master_secret");
  ("bio_st", "num") ] toUpper_dots percent_d.

Definition openssl_3_2_0_offset : program := mk_program [
  ("ssl_st", "type");
  ("ssl_connection_st", "version");
  ("ssl_connection_st", "session");
  ("ssl_connection_st", "s3");
  ("ssl_connection_st", "rbio");
  ("ssl_connection_st", "wbio");
  ("ssl_connection_st", "server");
  ("ssl_session_st", "master_key");
  ("ssl_connection_st", "s3.client_random");
  ("ssl_session_st", "cipher");
  ("ssl_session_st", "cipher_id");
  ("ssl_cipher_st", "id");
  ("ssl_connection_st", "handshake_secret");
  ("ssl_connection_st", "handshake_traffic_hash");
  ("ssl_connection_st", "client_app_traffic_secret");
  ("ssl_connection_st", "server_app_traffic_secret");
  ("ssl_connection_st", "exporter_master_secret");
  ("bio_st", "num");
  ("quic_conn_st", "tls") ] toUpper_dots percent_ld.

Definition openssl_3_5_0_offset : program := mk_program [
  ("ssl_st", "type");
  ("ssl_connection_st", "version");
  ("ssl_connection_st", "session");
  ("ssl_connection_st", "s3");
  ("ssl_connection_st", "rbio");
  ("ssl_connection_st", "wbio");
  ("ssl_connection_st", "server");
  ("ssl_session_st", "master_key");
  ("ssl_connection_st", "s3.client_random");
  ("ssl_session_st", "cipher");
  ("ssl_session_st", "cipher_id");
  ("ssl_cipher_st", "id");
  ("ssl_connection_st", "handshake_secret");
  ("ssl_connection_st", "handshake_traffic_hash");
  ("ssl_connection_st", "client_app_traffic_secret");
  ("ssl_connection_st", "server_app_traffic_secret");
  ("ssl_connection_st", "exporter_master_secret");
  ("bio_st", "num") ] toUpper_dots percent_ld.
(** ** The scripts *)

Definition unlines (ls : list string) : string :=
  foldr (fun l s => l +:+ newline +:+ s) EmptyString ls.

(** A script: the program it compiles, [header_define] of the table it writes, and
    the lines it writes after the program's output. *)
Record script := mk_script {
  sc_program : program;
  header_define : string;
  sc_trailer : list string }.

Definition include_openssl_h : list string :=
  ["#include " +:+ dquote +:+ "openssl.h" +:+ dquote; blank; "#endif"].

Definition trailer_1_0_2 (release : string) : list string :=
  ["// openssl " +:+ release +:+ " does not support TLS 1.3, set 0 default";
   "#define SSL_ST_HANDSHAKE_SECRET 0";
   "#define SSL_ST_HANDSHAKE_TRAFFIC_HASH 0";
   "#define SSL_ST_CLIENT_APP_TRAFFIC_SECRET 0";
   "#define SSL_ST_SERVER_APP_TRAFFIC_SECRET 0";
   "#define SSL_ST_EXPORTER_MASTER_SECRET 0"; blank] ++ include_openssl_h.

Definition trailer_3_2 : list string :=
  ["#define SSL_ST_VERSION SSL_CONNECTION_ST_VERSION"; blank;
   "#define SSL_ST_WBIO SSL_CONNECTION_ST_WBIO"; blank;
   "#define SSL_ST_RBIO SSL_CONNECTION_ST_RBIO"; blank; blank] ++ include_openssl_h.

Definition script_of (v : openssl_version) : script :=
  match v with
  | openssl_1_0_2a => mk_script openssl_1_0_2_offset "OPENSSL_1_0_2_A_KERN_H" (trailer_1_0_2 "1.0.2")
  | openssl_1_1_0a => mk_script openssl_1_1_0_offset "OPENSSL_1_1_0_A_KERN_H" (trailer_1_0_2 "1.1.0")
  | openssl_1_1_1a => mk_script openssl_1_1_1_offset "OPENSSL_1_1_1_A_KERN_H" include_openssl_h
  | openssl_1_1_1b => mk_script openssl_1_1_1_offset "OPENSSL_1_1_1_B_KERN_H" include_openssl_h
  | openssl_1_1_1d => mk_script openssl_1_1_1_offset "OPENSSL_1_1_1_D_KERN_H" include_openssl_h
  | openssl_1_1_1j => mk_script openssl_1_1_1_offset "OPENSSL_1_1_1_J_KERN_H" include_openssl_h
  | openssl_3_0_0 => mk_script openssl_3_0_offset "OPENSSL_3_0_0_KERN_H" include_openssl_h
  | openssl_3_1_0 => mk_script openssl_3_0_offset "OPENSSL_3_0_0_KERN_H" include_openssl_h
  | openssl_3_2_0 => mk_script openssl_3_2_0_offset "OPENSSL_3_2_0_KERN_H" trailer_3_2
  | openssl_3_2_3 => mk_script openssl_3_2_0_offset "OPENSSL_3_2_3_KERN_H" trailer_3_2
  | openssl_3_3_0 => mk_script openssl_3_2_0_offset "OPENSSL_3_3_0_KERN_H" trailer_3_2
  | openssl_3_4_0 => mk_script openssl_3_2_0_offset "OPENSSL_3_4_0_KERN_H" trailer_3_2
  | openssl_3_5_0 => mk_script openssl_3_5_0_offset "OPENSSL_3_5_0_KERN_H" trailer_3_2
  end.

Definition frame (guard : string) : list string :=
  ["//go:build ignore"; blank; "#ifndef ECAPTURE_" +:+ guard; "#define ECAPTURE_" +:+ guard; blank].

Definition generate (sc : script) (text : string) (number : Z) (offsetof : string -> string -> Z)
    : string :=
  unlines (frame (header_define sc)) +:+
  main (sc_program sc) text number offsetof +:+ unlines (sc_trailer sc).

Definition table (v : openssl_version) : list string :=
  match v with
  | openssl_1_0_2a => table_1_0_2a | openssl_1_1_0a => table_1_1_0a
  | openssl_1_1_1a => table_1_1_1a | openssl_1_1_1b => table_1_1_1b
  | openssl_1_1_1d => table_1_1_1d | openssl_1_1_1j => table_1_1_1j
  | openssl_3_0_0 => table_3_0_0 | openssl_3_1_0 => table_3_1_0
  | openssl_3_2_0 => table_3_2_0 | openssl_3_2_3 => table_3_2_3
  | openssl_3_3_0 => table_3_3_0 | openssl_3_4_0 => table_3_4_0
  | openssl_3_5_0 => table_3_5_0
  end.

(** The release a table names in its second comment. *)
Definition version_of (v : openssl_version) : string * Z :=
  match v with
  | openssl_1_0_2a => ("OpenSSL 1.0.2u  20 Dec 2019", 268443999)
  | openssl_1_1_0a => ("OpenSSL 1.1.0l  10 Sep 2019", 269484239)
  | openssl_1_1_1a => ("OpenSSL 1.1.1a  20 Nov 2018", 269488159)
  | openssl_1_1_1b => ("OpenSSL 1.1.1c  28 May 2019", 269488191)
  | openssl_1_1_1d => ("OpenSSL 1.1.1i  8 Dec 2020", 269488287)
  | openssl_1_1_1j => ("OpenSSL 1.1.1w  11 Sep 2023", 269488511)
  | openssl_3_0_0 => ("OpenSSL 3.0.9 30 May 2023", 805306512)
  | openssl_3_1_0 => ("OpenSSL 3.1.7 3 Sep 2024", 806355056)
  | openssl_3_2_0 => ("OpenSSL 3.2.2 4 Jun 2024", 807403552)
  | openssl_3_2_3 => ("OpenSSL 3.2.3 3 Sep 2024", 807403568)
  | openssl_3_3_0 => ("OpenSSL 3.3.2 3 Sep 2024", 808452128)
  | openssl_3_4_0 => ("OpenSSL 3.4.0 22 Oct 2024", 809500672)
  | openssl_3_5_0 => ("OpenSSL 3.5.0 8 Apr 2025", 810549248)
  end.

#[global] Instance openssl_version_eq_dec : EqDecision openssl_version.
Proof. solve_decision. Defined.

(** ** Reading a table *)

Inductive macro_body : Set :=
| Number (z : Z)
| Name (s : string)
| Empty.

#[global] Instance macro_body_eq_dec : EqDecision macro_body.
Proof. solve_decision. Defined.

Fixpoint split_lines (s : string) : list string :=
  match s with
  | EmptyString => [EmptyString]
  | String c s' =>
      if decide (c = nl) then EmptyString :: split_lines s'
      else match split_lines s' with
           | [] => [String c EmptyString]
           | l :: ls => String c l :: ls
           end
  end.

Fixpoint strip (p s : string) : option string :=
  match p, s with
  | EmptyString, _ => Some s
  | String a p', String b s' => if decide (a = b) then strip p' s' else None
  | String _ _, EmptyString => None
  end.

(** The part of [s] before the first [c], and what follows it. *)
Fixpoint break (c : ascii) (s : string) : string * option string :=
  match s with
  | EmptyString => (EmptyString, None)
  | String a s' =>
      if decide (a = c) then (EmptyString, Some s')
      else let '(x, y) := break c s' in (String a x, y)
  end.

Definition digit_value (c : ascii) : option Z :=
  let n := Z.of_nat (nat_of_ascii c) in
  if (48 <=? n) && (n <=? 57) then Some (n - 48)
  else if (97 <=? n) && (n <=? 102) then Some (n - 87) else None.

Fixpoint number_from (base acc : Z) (s : string) : option Z :=
  match s with
  | EmptyString => Some acc
  | String c s' =>
      match digit_value c with
      | Some d => if d <? base then number_from base (acc * base + d) s' else None
      | None => None
      end
  end.

Definition read_body (s : string) : macro_body :=
  match strip "0x" s with
  | Some h => from_option Number (Name s) (number_from 16 0 h)
  | None => from_option Number (Name s) (number_from 10 0 s)
  end.

Definition read_line (l : string) : option (string * macro_body) :=
  match strip "#define " l with
  | Some d => let '(name, rest) := break " " d in Some (name, from_option read_body Empty rest)
  | None => None
  end.

Definition macros (text : string) : list (string * macro_body) := omap read_line (split_lines text).

Fixpoint lookup_macro (name : string) (ms : list (string * macro_body)) : option macro_body :=
  match ms with
  | [] => None
  | (n, b) :: ms' => if decide (n = name) then Some b else lookup_macro name ms'
  end.

(** A macro whose body is the name of another stands for its value; a chain without
    repetition is no longer than the list. *)
Fixpoint expand (fuel : nat) (ms : list (string * macro_body)) (name : string) : option Z :=
  match fuel with
  | O => None
  | S fuel' =>
      match lookup_macro name ms with
      | Some (Number z) => Some z
      | Some (Name n) => expand fuel' ms n
      | _ => None
      end
  end.

Definition define_value (text name : string) : option Z :=
  let ms := macros text in expand (S (length ms)) ms name.

Definition macro_name (p : program) (s f : string) : string :=
  prog_toUpper p s +:+ "_" +:+ prog_toUpper p f.

(** The offsets a table of the repository gives to the members its program prints. *)
Definition offset_in (v : openssl_version) (s f : string) : Z :=
  default 0 (define_value (unlines (table v)) (macro_name (sc_program (script_of v)) s f)).

(** ** Lemmas on strings *)

Fixpoint no_char (c : ascii) (s : string) : bool :=
  match s with
  | EmptyString => true
  | String a s' => negb (bool_decide (a = c)) && no_char c s'
  end.

Lemma append_cons c (a b : string) : String c a +:+ b = String c (a +:+ b).
Proof. done. Qed.

Lemma append_assoc (a b c : string) : (a +:+ b) +:+ c = a +:+ (b +:+ c).
Proof. induction a as [|x a IH]; [done|]. by rewrite !append_cons, IH. Qed.

Lemma no_char_append c a b : no_char c (a +:+ b) = no_char c a && no_char c b.
Proof.
  induction a as [|x a IH]; [done|]. rewrite append_cons. cbn. by rewrite IH, andb_assoc.
Qed.

Lemma strip_append p s : strip p (p +:+ s) = Some s.
Proof.
  induction p as [|a p IH]; [by destruct s|]. rewrite append_cons. cbn [strip]. by rewrite decide_True.
Qed.

Lemma break_append c s t :
  no_char c s -> break c (s +:+ String c t) = (s, Some t).
Proof.
  induction s as [|a s IH]; [intros _|].
  { change (break c (String c t) = (EmptyString, Some t)). cbn [break]. by rewrite decide_True. }
  intros [Ha Hs]%andb_True. rewrite append_cons. cbn [break]. rewrite decide_False.
  - by rewrite IH.
  - intros ->. by rewrite bool_decide_true in Ha.
Qed.

Lemma split_lines_append s t :
  no_char nl s -> split_lines (s +:+ newline +:+ t) = s :: split_lines t.
Proof.
  induction s as [|a s IH]; [done|].
  intros [Ha Hs]%andb_True. rewrite append_cons. cbn [split_lines]. rewrite decide_False.
  - by rewrite IH.
  - intros ->. by rewrite bool_decide_true in Ha.
Qed.

Lemma unlines_app ls ls' : unlines (ls ++ ls') = unlines ls +:+ unlines ls'.
Proof.
  induction ls as [|l ls IH]; [done|].
  change (unlines ((l :: ls) ++ ls')) with (l +:+ newline +:+ unlines (ls ++ ls')).
  change (unlines (l :: ls)) with (l +:+ newline +:+ unlines ls).
  by rewrite IH, !append_assoc.
Qed.

(** What a text of whole lines defines. *)
Lemma macros_unlines ls :
  Forall (fun l => no_char nl l) ls -> macros (unlines ls) = omap read_line ls.
Proof.
  intros H. unfold macros.
  enough (split_lines (unlines ls) = ls ++ [EmptyString]) as ->
    by (rewrite omap_app; apply app_nil_r).
  induction H as [|l ls Hl _ IH]; [done|]. 
  change (unlines (l :: ls)) with (l +:+ newline +:+ unlines ls).
  rewrite split_lines_append by done. cbn [app]. by rewrite <- IH.
Qed.

(** ** Lemmas on numbers *)

Lemma digit_value_char d : 0 <= d < 16 -> digit_value (digit_char d) = Some d.
Proof.
  intros H. assert (d ∈ (Z.of_nat <$> seq 0 16)) as Hd.
  { apply list_elem_of_fmap. exists (Z.to_nat d). rewrite elem_of_seq. lia. }
  clear H. revert d Hd. apply Forall_forall. by repeat constructor.
Qed.

Lemma digit_char_plain d c : 0 <= d < 16 -> c = nl \/ c = " "%char -> digit_char d <> c.
Proof.
  intros H Hc E. pose proof (digit_value_char d H) as D. rewrite E in D.
  destruct Hc as [-> | ->]; discriminate.
Qed.

(** Printing and reading a number, in any base up to sixteen. *)
Lemma number_from_digits base fuel n acc :
  1 < base <= 16 -> 0 <= n < base ^ Z.of_nat fuel ->
  number_from base 0 (digits fuel base n acc) = number_from base n acc.
Proof.
  intros Hb. revert n acc. induction fuel as [|fuel IH]; intros n acc Hn.
  { change (base ^ Z.of_nat 0) with 1 in Hn. by replace n with 0 by lia. }
  rewrite Nat2Z.inj_succ, Z.pow_succ_r in Hn by lia. cbn [digits].
  pose proof (Z.mod_pos_bound n base). pose proof (Z_div_mod_eq_full n base).
  assert (step : forall m, m * base + n mod base = n ->
    number_from base m (String (digit_char (n mod base)) acc) = number_from base n acc).
  { intros m Hm. cbn [number_from]. rewrite digit_value_char by lia.
    rewrite (proj2 (Z.ltb_lt _ _)) by lia. by rewrite Hm. }
  destruct (Z.ltb_spec n base).
  - apply step. rewrite Z.mod_small by lia. lia.
  - rewrite IH; [apply step; lia|]. split; [apply Z.div_pos; lia|].
    apply Z.div_lt_upper_bound; lia.
Qed.

Lemma digits_plain c base fuel n acc :
  c = nl \/ c = " "%char -> 1 < base <= 16 ->
  no_char c acc -> no_char c (digits fuel base n acc).
Proof.
  intros Hc Hb. revert n acc. induction fuel as [|fuel IH]; intros n acc H; [done|].
  cbn [digits].
  assert (no_char c (String (digit_char (n mod base)) acc)) as H'.
  { cbn. pose proof (Z.mod_pos_bound n base).
    rewrite bool_decide_false by (apply digit_char_plain; [lia|done]). done. }
  destruct (n <? base); auto.
Qed.

Lemma signed_decimal_plain z : no_char nl (signed_decimal z).
Proof.
  unfold signed_decimal. destruct (z <? 0); [rewrite no_char_append|]; 
    apply digits_plain; auto; lia.
Qed.

Lemma read_body_hex n :
  0 <= n < 18446744073709551616 -> read_body ("0x" +:+ percent_lx n) = Number n.
Proof.
  intros H. unfold read_body. rewrite strip_append. unfold percent_lx.
  rewrite u64_small by lia. rewrite number_from_digits by lia. done.
Qed.

(** ** The lines of a generated table *)

Definition plain (s : string) : bool := no_char nl s && no_char " " s.

(** Names without blanks, as the members of C structures have. *)
Definition well_named (p : program) : bool :=
  forallb (fun '(s, f) => no_char nl s && no_char nl f && plain (macro_name p s f))
    (SSL_STRUCT_OFFSETS p).

Definition well_formed (sc : script) : bool :=
  well_named (sc_program sc) && plain (header_define sc) && forallb (no_char nl) (sc_trailer sc).

Definition field_lines (p : program) (offsetof : string -> string -> Z) (sf : string * string)
    : list string :=
  ["// " +:+ sf.1 +:+ "->" +:+ sf.2;
   "#define " +:+ macro_name p sf.1 sf.2 +:+ " 0x" +:+ percent_lx (offsetof sf.1 sf.2); blank].

Definition main_lines (p : program) (text : string) (number : Z) (offsetof : string -> string -> Z)
    : list string :=
  ["/* OPENSSL_VERSION_TEXT: " +:+ text +:+ " */";
   "/* OPENSSL_VERSION_NUMBER: " +:+ prog_conversion p number +:+ " */"; blank]
  ++ (SSL_STRUCT_OFFSETS p ≫= field_lines p offsetof).

Lemma unlines_cons l ls : unlines (l :: ls) = l +:+ newline +:+ unlines ls.
Proof. done. Qed.

Lemma print_fields_unlines p offsetof fs :
  print_fields p offsetof fs = unlines (fs ≫= field_lines p offsetof).
Proof.
  induction fs as [|[s f] fs IH]; [done|].
  rewrite bind_cons, unlines_app, <- IH. cbn [print_fields]. unfold format, field_lines, macro_name.
  by rewrite !unlines_cons, !append_assoc.
Qed.

Lemma main_unlines p text number offsetof :
  main p text number offsetof = unlines (main_lines p text number offsetof).
Proof.
  unfold main, main_lines. rewrite unlines_app, !unlines_cons, !append_assoc.
  by rewrite print_fields_unlines.
Qed.

Lemma omap_cons {A B} (g : A -> option B) x l :
  omap g (x :: l) = option_list (g x) ++ omap g l.
Proof. cbn. by destruct (g x). Qed.

Lemma read_line_define name n :
  no_char " " name -> 0 <= n < 18446744073709551616 ->
  read_line ("#define " +:+ name +:+ " 0x" +:+ percent_lx n) = Some (name, Number n).
Proof.
  intros Hb Hn. unfold read_line. rewrite strip_append.
  change (" 0x" +:+ percent_lx n) with (String " " ("0x" +:+ percent_lx n)).
  rewrite break_append by done. cbn [from_option]. by rewrite read_body_hex.
Qed.

Lemma break_none c s : no_char c s -> break c s = (s, None).
Proof.
  induction s as [|a s IH]; [done|]. intros [Ha Hs]%andb_True. cbn [break].
  rewrite decide_False; [by rewrite IH|]. intros ->. by rewrite bool_decide_true in Ha.
Qed.

Lemma read_line_guard g :
  no_char " " g -> read_line ("#define ECAPTURE_" +:+ g) = Some ("ECAPTURE_" +:+ g, Empty).
Proof.
  intros Hg. unfold read_line.
  change ("#define ECAPTURE_" +:+ g) with ("#define " +:+ ("ECAPTURE_" +:+ g)).
  rewrite strip_append, break_none; [done|]. by rewrite no_char_append.
Qed.

(** The macros a program's output defines. *)
Lemma field_lines_read p offsetof s f :
  no_char nl s && no_char nl f && plain (macro_name p s f) ->
  0 <= offsetof s f < 18446744073709551616 ->
  Forall (fun l => no_char nl l) (field_lines p offsetof (s, f)) /\
  omap read_line (field_lines p offsetof (s, f)) = [(macro_name p s f, Number (offsetof s f))].
Proof.
  unfold plain. rewrite !andb_True. intros [[Hs Hf] [Hn Hb]] Ho. split.
  - unfold field_lines. cbn [fst snd]. repeat constructor; rewrite !no_char_append, ?andb_True.
    + done.
    + repeat split; auto. apply digits_plain; auto. lia.
  - unfold field_lines. cbn [fst snd]. by rewrite !omap_cons, read_line_define.
Qed.

Definition field_macro (p : program) (offsetof : string -> string -> Z) (sf : string * string)
    : string * macro_body :=
  (macro_name p sf.1 sf.2, Number (offsetof sf.1 sf.2)).

Lemma fields_read p offsetof fs :
  forallb (fun '(s, f) => no_char nl s && no_char nl f && plain (macro_name p s f)) fs ->
  (forall s f, 0 <= offsetof s f < 18446744073709551616) ->
  Forall (fun l => no_char nl l) (fs ≫= field_lines p offsetof) /\
  omap read_line (fs ≫= field_lines p offsetof) = field_macro p offsetof <$> fs.
Proof.
  intros Hw Ho. induction fs as [|[s f] fs IH]; [done|].
  cbn [forallb] in Hw. apply andb_True in Hw as [H1 H2]. rewrite bind_cons.
  destruct (field_lines_read p offsetof s f H1 (Ho s f)) as [A B].
  destruct (IH H2) as [C D]. split; [by apply Forall_app|].
  rewrite omap_app, B, D. done.
Qed.

(** What a generated table defines: the guard, the fields, the script's own lines. *)
Lemma macros_generate sc text number offsetof :
  well_formed sc -> no_char nl text -> (forall n, no_char nl (prog_conversion (sc_program sc) n)) ->
  (forall s f, 0 <= offsetof s f < 18446744073709551616) ->
  macros (generate sc text number offsetof) =
  ("ECAPTURE_" +:+ header_define sc, Empty) ::
  (field_macro (sc_program sc) offsetof <$> SSL_STRUCT_OFFSETS (sc_program sc)) ++
  omap read_line (sc_trailer sc).
Proof.
  unfold well_formed, plain. rewrite !andb_True. intros [[Hw [Hg Hgb]] Ht] Hx Hc Ho.
  destruct (fields_read _ offsetof _ Hw Ho) as [A B].
  unfold generate. rewrite main_unlines, <- !unlines_app, macros_unlines.
  - rewrite !omap_app. unfold main_lines. rewrite omap_app, B.
    unfold frame. rewrite !omap_cons, read_line_guard by done. done.
  - apply Forall_app. split; [|apply Forall_app; split].
    + unfold frame. repeat constructor; rewrite no_char_append; by rewrite ?andb_True.
    + unfold main_lines. apply Forall_app. split; [|done].
      repeat constructor; rewrite !no_char_append, !andb_True; auto.
    + apply forallb_True in Ht. by eapply Forall_impl.
Qed.
(** ** Theorems *)

(** The structure whose member [rbio] is the socket of a connection. *)
Definition rbio_struct (v : openssl_version) : string :=
  match v with
  | openssl_3_2_0 | openssl_3_2_3 | openssl_3_3_0 | openssl_3_4_0 | openssl_3_5_0 => "ssl_connection_st"
  | _ => "ssl_st"
  end.

Lemma script_of_ok v :
  well_formed (script_of v) /\ forall n, no_char nl (prog_conversion (sc_program (script_of v)) n).
Proof. split; [by destruct v; vm_compute | intros n; destruct v; apply signed_decimal_plain]. Qed.

(** C34: a table generated for an OpenSSL release gives the probes that release's
    offsets.  Whatever the layout of OpenSSL's structures, the macros a compiler
    reads in the output of the script are the offsets of the members: the two that
    openssl.h uses, also where a release needs an alias for the renamed structure,
    and every member the program prints. *)
Theorem generated_table_offsets (v : openssl_version) (text : string) (number : Z)
    (offsetof : string -> string -> Z)
    (Htext : no_char nl text)
    (Hrange : forall s f, 0 <= offsetof s f < 18446744073709551616) :
  let header := generate (script_of v) text number offsetof in
  let p := sc_program (script_of v) in
  define_value header "SSL_ST_RBIO" = Some (offsetof (rbio_struct v) "rbio") /\
  define_value header "BIO_ST_NUM" = Some (offsetof "bio_st" "num") /\
  Forall (fun sf => define_value header (macro_name p sf.1 sf.2) = Some (offsetof sf.1 sf.2))
    (SSL_STRUCT_OFFSETS p).
Proof.
  destruct (script_of_ok v) as [Hw Hc]. unfold define_value.
  rewrite macros_generate by done.
  split; [|split]; [destruct v; vm_compute; reflexivity..|].
  destruct v; repeat (apply Forall_cons_2; [vm_compute; reflexivity|]); apply Forall_nil_2.
Qed.

Definition sample_layout (s f : string) : Z :=
  if decide (f = "rbio") then 72 else if decide (f = "num") then 4026531841 else 0.

Lemma generated_table_offsets_witness :
  define_value (generate (script_of openssl_3_2_0) "OpenSSL 3.2.9" 807403664 sample_layout)
    "SSL_ST_RBIO" = Some (sample_layout (rbio_struct openssl_3_2_0) "rbio").
Proof.
  refine (proj1 (generated_table_offsets openssl_3_2_0 "OpenSSL 3.2.9" 807403664 sample_layout _ _)).
  - vm_compute. exact I.
  - intros s f. unfold sample_layout. repeat case_decide; lia.
Defined.

(** The tables of the repository.  Each is, byte for byte, what its script writes
    around the output of its program, for the offsets the table itself gives (the
    3.3.0 table has the include guard of 3.2.0 instead of its own); no table defines
    a macro twice, and the values the compiler reads in it for the macros of openssl.h are
    the offsets with which the model of the probes reads a descriptor. *)
Theorem tables_generated_and_used (v : openssl_version) :
  let guard := if decide (v = openssl_3_3_0) then "OPENSSL_3_2_0_KERN_H"
               else header_define (script_of v) in
  unlines (table v) =
    generate (mk_script (sc_program (script_of v)) guard (sc_trailer (script_of v)))
      (version_of v).1 (version_of v).2 (offset_in v) /\
  NoDup (macros (unlines (table v))).*1 /\
  define_value (unlines (table v)) "SSL_ST_RBIO" = Some (SSL_ST_RBIO v) /\
  define_value (unlines (table v)) "BIO_ST_NUM" = Some (BIO_ST_NUM v).
Proof.
  split; [|split; [|split]]; [|apply (bool_decide_unpack _)|..]; destruct v; vm_compute; done.
Qed.

(** The probes of a table read [ssl->rbio->num] of the layout the table describes. *)
Lemma get_fd_symaddrs_offset_in v e ssl :
  get_fd_symaddrs v e ssl =
  s32 (uread e (uread e (ssl + offset_in v (rbio_struct v) "rbio") 8 + offset_in v "bio_st" "num") 4).
Proof.
  unfold get_fd_symaddrs.
  assert (offset_in v (rbio_struct v) "rbio" = SSL_ST_RBIO v) as -> by (destruct v; reflexivity).
  assert (offset_in v "bio_st" "num" = BIO_ST_NUM v) as -> by (destruct v; reflexivity).
  done.
Qed.
