(* ===== verification/GoBase.v ===== *)
(** * Go values the agent's code is written with

    What the model of the agent ([src/agent], [src/common]) shares: a call that
    returns or panics, slices with their bounds checks, and the ordered map of
    [github.com/emirpasic/gods/maps/treemap], which is not part of the repository
    and so appears as an interface: the class [TreeMap] has its operations and
    [TreeMapLaws] what its documentation says of them. *)

From stdpp Require Import gmap list sorting.
From Stdlib Require Import ZArith Lia.
From S2P Require Import Prelude.
Local Open Scope Z_scope.

(** ** Panics *)

(** A call returns a value or panics; a panic ends every call around it. *)
Inductive go (A : Type) : Type :=
| Ret (a : A)
| Panic.
Arguments Ret {A} a.
Arguments Panic {A}.

#[export] Instance go_ret : MRet go := fun _ a => Ret a.
#[export] Instance go_bind : MBind go :=
  fun _ _ k m => match m with Ret a => k a | Panic => Panic end.

(** The bind with the call first, for a pattern whose type the call gives. *)
Definition go_then {A B} (m : go A) (k : A -> go B) : go B := m ≫= k.
Notation "'do' p <- m ; k" := (go_then m (fun p => k))
  (at level 10, p pattern at level 0, m at level 100, k at level 200,
   format "'do'  p  <-  m ; '//' k") : model_scope.

Lemma go_bind_ret {A B} (a : A) (k : A -> go B) : (Ret a ≫= k) = k a.
Proof. done. Qed.
Lemma go_bind_inv {A B} (m : go A) (k : A -> go B) b :
  (m ≫= k) = Ret b -> exists a, m = Ret a /\ k a = Ret b.
Proof. destruct m as [a|]; [by exists a|done]. Qed.

(** ** Slices *)

Definition zlen {A} (l : list A) : Z := Z.of_nat (length l).

(** [l[n:]] and [l[:n]]. *)
Definition slice_from {A} (l : list A) (n : Z) : go (list A) :=
  if (0 <=? n) && (n <=? zlen l) then Ret (drop (Z.to_nat n) l) else Panic.
Definition slice_to {A} (l : list A) (n : Z) : go (list A) :=
  if (0 <=? n) && (n <=? zlen l) then Ret (take (Z.to_nat n) l) else Panic.

(** [slices.Insert(l, i, x)] and [slices.Delete(l, i, i+1)]. *)
Definition slices_insert {A} (l : list A) (i : nat) (x : A) : list A :=
  take i l ++ x :: drop i l.
Definition slices_delete {A} (l : list A) (i : nat) : list A :=
  take i l ++ drop (S i) l.

Section Slices.
Context {A : Type}.
Implicit Types l : list A.

Lemma elem_of_dropped (x : A) n l : x ∈ drop n l -> x ∈ l.
Proof. intros Hx. rewrite <- (take_drop n l). apply elem_of_app. by right. Qed.

Lemma zlen_nonneg l : 0 <= zlen l.
Proof. unfold zlen. lia. Qed.
Lemma zlen_app l1 l2 : zlen (l1 ++ l2) = zlen l1 + zlen l2.
Proof. unfold zlen. rewrite length_app. lia. Qed.
Lemma zlen_cons x l : zlen (x :: l) = zlen l + 1.
Proof. unfold zlen. cbn [length]. lia. Qed.
Lemma zlen_drop n l : 0 <= n <= zlen l -> zlen (drop (Z.to_nat n) l) = zlen l - n.
Proof. unfold zlen. rewrite length_drop. lia. Qed.
Lemma zlen_take n l : 0 <= n <= zlen l -> zlen (take (Z.to_nat n) l) = n.
Proof. unfold zlen. rewrite length_take. lia. Qed.

Lemma slice_from_ok l n : 0 <= n <= zlen l -> slice_from l n = Ret (drop (Z.to_nat n) l).
Proof.
  intros. unfold slice_from.
  destruct (Z.leb_spec 0 n), (Z.leb_spec n (zlen l)); try lia. done.
Qed.
Lemma slice_to_ok l n : 0 <= n <= zlen l -> slice_to l n = Ret (take (Z.to_nat n) l).
Proof.
  intros. unfold slice_to.
  destruct (Z.leb_spec 0 n), (Z.leb_spec n (zlen l)); try lia. done.
Qed.
Lemma slice_from_panic l n : n < 0 \/ zlen l < n -> slice_from l n = Panic.
Proof.
  intros. unfold slice_from.
  destruct (Z.leb_spec 0 n), (Z.leb_spec n (zlen l)); try lia; done.
Qed.

Lemma slices_insert_app l1 l2 x : slices_insert (l1 ++ l2) (length l1) x = l1 ++ x :: l2.
Proof. unfold slices_insert. by rewrite take_app_length, drop_app_length. Qed.
Lemma slices_delete_app l1 x l2 : slices_delete (l1 ++ x :: l2) (length l1) = l1 ++ l2.
Proof.
  unfold slices_delete. rewrite take_app_length. f_equal.
  replace (S (length l1)) with (length l1 + 1)%nat by lia.
  by rewrite drop_app_add.
Qed.
End Slices.

#[export] Hint Rewrite @zlen_app @zlen_cons : ints.

Lemma filter_none {A} (P : A -> Prop) `{!forall x, Decision (P x)} l :
  Forall (fun x => ~ P x) l -> filter P l = [].
Proof. induction 1 as [|x l Hx Hl IH]; [done|]. by rewrite filter_cons_False. Qed.

Lemma Forall_snoc_last {A} (P : A -> Prop) l x : Forall P (l ++ [x]) -> P x.
Proof. intros [_ H]%Forall_app. by apply Forall_cons in H as [H _]. Qed.

(** ** The ordered map of the treemap package *)

(** Keys and values are 64-bit unsigned integers in this program. *)
Class TreeMap (T : Type) := {
  tm_new : T;
  tm_Get : T -> Z -> option Z;
  tm_Put : T -> Z -> Z -> T;
  tm_Remove : T -> Z -> T;
  tm_Clear : T -> T;
  tm_Floor : T -> Z -> option (Z * Z);
  (* the keys in the order of the iterator *)
  tm_Keys : T -> list Z;
}.

Definition tm_Size `{TreeMap T} (m : T) : Z := zlen (tm_Keys m).

Class TreeMapLaws (T : Type) `{TreeMap T} := {
  tm_get_new k : tm_Get tm_new k = None;
  tm_get_put m k v j : tm_Get (tm_Put m k v) j = if decide (j = k) then Some v else tm_Get m j;
  tm_get_remove m k j : tm_Get (tm_Remove m k) j = if decide (j = k) then None else tm_Get m j;
  tm_get_clear m k : tm_Get (tm_Clear m) k = None;
  tm_keys_get m k : k ∈ tm_Keys m <-> is_Some (tm_Get m k);
  tm_keys_sorted m : StronglySorted Z.lt (tm_Keys m);
  (* the largest key at most [k] *)
  tm_floor_some m k j v :
    tm_Floor m k = Some (j, v) <->
    tm_Get m j = Some v /\ j <= k /\ (forall i, is_Some (tm_Get m i) -> i <= k -> i <= j);
}.

(** Removing a list of keys, the second loop of the clean-up functions. *)
Definition tm_remove_all `{TreeMap T} (m : T) (ks : list Z) : T := foldl tm_Remove m ks.

Section TreeMapFacts.
Context `{TreeMapLaws T}.

Lemma tm_get_remove_all (m : T) ks j :
  tm_Get (tm_remove_all m ks) j = if decide (j ∈ ks) then None else tm_Get m j.
Proof.
  unfold tm_remove_all. revert m. induction ks as [|k ks IH]; intros m; cbn [foldl].
  - rewrite decide_False; [done|]. apply not_elem_of_nil.
  - rewrite IH, tm_get_remove.
    destruct (decide (j ∈ k :: ks)) as [ [->|?]%elem_of_cons|Hn].
    + rewrite (decide_True (P := k = k)) by done. by case_decide.
    + by rewrite decide_True.
    + rewrite not_elem_of_cons in Hn. by rewrite !decide_False by tauto.
Qed.

Lemma tm_remove_all_sub (m : T) ks j : is_Some (tm_Get (tm_remove_all m ks) j) -> is_Some (tm_Get m j).
Proof. rewrite tm_get_remove_all. case_decide; [by intros []|done]. Qed.
End TreeMapFacts.

(** ** A finite map has these laws *)

Definition sorted_keys (m : gmap Z Z) : list Z := merge_sort Z.le (map_to_list m).*1.

Definition gmap_floor (m : gmap Z Z) (k : Z) : option (Z * Z) :=
  j ← last (filter (fun j => j <= k) (sorted_keys m)); v ← m !! j; Some (j, v).

#[export] Instance gmap_treemap : TreeMap (gmap Z Z) := {|
  tm_new := ∅;
  tm_Get m k := m !! k;
  tm_Put m k v := <[k := v]> m;
  tm_Remove m k := delete k m;
  tm_Clear _ := ∅;
  tm_Floor := gmap_floor;
  tm_Keys := sorted_keys;
|}.

Lemma elem_of_sorted_keys m k : k ∈ sorted_keys m <-> is_Some (m !! k).
Proof.
  unfold sorted_keys. rewrite merge_sort_Permutation, list_elem_of_fmap. split.
  - intros ([k' v] & -> & Hin). apply elem_of_map_to_list in Hin. by exists v.
  - intros [v Hv]. exists (k, v). by rewrite elem_of_map_to_list.
Qed.

Lemma strongly_sorted_lt l : StronglySorted Z.le l -> NoDup l -> StronglySorted Z.lt l.
Proof.
  induction 1 as [|x l Hs IH Hx]; [constructor|].
  intros [Hin Hnd]%NoDup_cons. constructor; [by apply IH|].
  rewrite Forall_forall in Hx |- *. intros y Hy. specialize (Hx _ Hy).
  assert (x <> y) by (intros ->; done). lia.
Qed.

Lemma sorted_keys_sorted m : StronglySorted Z.lt (sorted_keys m).
Proof.
  apply strongly_sorted_lt.
  - apply (StronglySorted_merge_sort Z.le).
  - unfold sorted_keys. rewrite merge_sort_Permutation. apply NoDup_fst_map_to_list.
Qed.

(** The last element of a filtered ascending list is the largest that passes. *)
Lemma last_filter_max (P : Z -> Prop) `{!forall x, Decision (P x)} l j :
  StronglySorted Z.lt l ->
  last (filter P l) = Some j <-> (j ∈ l /\ P j /\ forall i, i ∈ l -> P i -> i <= j).
Proof.
  intros Hs. revert j. induction Hs as [|x l Hs IH Hx]; intros j.
  { split; [done|]. intros [[]%not_elem_of_nil _]. }
  rewrite Forall_forall in Hx. rewrite filter_cons. case_decide as HP.
  - rewrite last_cons. destruct (last (filter P l)) as [j'|] eqn:E in |- *; split.
    + intros [= <-]. apply IH in E as (Hin&?&Hmax). split; [by right|]. split; [done|].
      intros i [->|Hi]%elem_of_cons Hp; [|auto]. specialize (Hx _ Hin). lia.
    + intros (Hj & Hp & Hmax). apply IH in E as (Hin&HP'&Hmax').
      f_equal. apply elem_of_cons in Hj as [->|Hj].
      * specialize (Hmax j' ltac:(by right) HP'). specialize (Hx _ Hin). lia.
      * specialize (Hmax j' ltac:(by right) HP'). specialize (Hmax' j Hj Hp). lia.
    + intros [= <-]. split; [by left|]. split; [done|].
      intros i [->|Hi]%elem_of_cons Hp; [lia|]. exfalso.
      apply last_None in E. assert (i ∈ filter P l) by (by apply list_elem_of_filter).
      rewrite E in *. by eapply not_elem_of_nil.
    + intros (Hj & Hp & Hmax). apply elem_of_cons in Hj as [->|Hj]; [done|].
      exfalso. apply last_None in E.
      assert (j ∈ filter P l) by (by apply list_elem_of_filter).
      rewrite E in *. by eapply not_elem_of_nil.
  - rewrite IH. split.
    + intros (?&?&Hm). split; [by right|]. split; [done|].
      intros i [->|Hi]%elem_of_cons ?; [done|auto].
    + intros (Hj&?&Hm). apply elem_of_cons in Hj as [->|Hj]; [done|].
      split; [done|]. split; [done|]. intros i Hi. apply Hm. by right.
Qed.

#[export] Instance gmap_treemap_laws : TreeMapLaws (gmap Z Z).
Proof.
  split; cbn.
  - intros. apply lookup_empty.
  - intros. case_decide; subst; [by rewrite lookup_insert_eq|by rewrite lookup_insert_ne].
  - intros. case_decide; subst; [by rewrite lookup_delete_eq|by rewrite lookup_delete_ne].
  - intros. apply lookup_empty.
  - apply elem_of_sorted_keys.
  - apply sorted_keys_sorted.
  - intros m k j v. unfold gmap_floor.
    rewrite bind_Some. split.
    + intros (j' & (Hin & Hle & Hmax)%last_filter_max & (v' & Hv & [= -> ->])%bind_Some);
        [|apply sorted_keys_sorted].
      split; [done|]. split; [done|]. intros i Hi. apply Hmax. by apply elem_of_sorted_keys.
    + intros (Hv & Hle & Hmax). exists j. rewrite Hv. split; [|done].
      apply last_filter_max; [apply sorted_keys_sorted|].
      split; [apply elem_of_sorted_keys; by exists v|]. split; [done|].
      intros i Hi. apply Hmax. by apply elem_of_sorted_keys.
Qed.
