(* ===== verification/StreamBuffer.v ===== *)
(** * The agent's stream buffers

    [src/agent/buffer/stream_buffer.go]: the bytes of one direction of a connection
    as the agent knows them, kept as a list of runs ([Buffer]) in the order of
    their positions.  The agent adds the data of system call and SSL events under
    the sequence number the probes gave them ([Add]), the protocol parsers read the
    first run and take what they parsed off its front ([RemovePrefix]).

    A pointer to a [Buffer] of [sb.buffers] is its index.  A [[]byte] is the list of
    the bytes it shows: two runs never share an array, and [append] writes past the
    end of a slice only where no other slice of the program looks. *)

From stdpp Require Import gmap list sorting.
From Stdlib Require Import ZArith Lia.
From S2P Require Import Prelude.
From S2P Require Import GoBase.
Local Open Scope Z_scope.

(** ** One run of bytes *)

Record Buffer := mk_Buffer { buf : list Z; seq : Z }.
#[export] Instance eta_Buffer : Eta Buffer := fun b => mk_Buffer (buf b) (seq b).
#[export] Instance Buffer_eq_dec : EqDecision Buffer.
Proof. solve_decision. Defined.

Definition Len (b : Buffer) : Z := zlen (buf b).
Definition LeftBoundary (b : Buffer) : Z := seq b.
Definition RightBoundary (b : Buffer) : Z := u64 (seq b + u64 (zlen (buf b))).

Definition CanFuseAsLeft (b : Buffer) (sq len : Z) : bool :=
  let l := sq in
  let r := u64 (l + len) in
  (RightBoundary b >=? sq) && (LeftBoundary b <=? sq) && (r >=? RightBoundary b).

Definition CanFuseAsRight (b : Buffer) (sq len : Z) : bool :=
  let l := sq in
  let r := u64 (sq + len) in
  (LeftBoundary b <=? r) && (RightBoundary b >=? r) && (LeftBoundary b >=? l).

Definition FuseAsLeft (b : Buffer) (sq : Z) (data : list Z) : go Buffer :=
  if sq =? RightBoundary b then
    Ret (b <| buf := buf b ++ data |>)
  else if (sq <? RightBoundary b) && (sq >=? LeftBoundary b) then
    let overlapSize := u64 (RightBoundary b - sq) in
    data' ← slice_from data overlapSize;
    Ret (b <| buf := buf b ++ data' |>)
  else Panic.

Definition FuseAsRight (b : Buffer) (sq : Z) (data : list Z) : go Buffer :=
  let l := sq in
  let r := u64 (l + u64 (zlen data)) in
  if r =? LeftBoundary b then
    Ret (mk_Buffer (data ++ buf b) sq)
  else if (r >? LeftBoundary b) && (r <=? RightBoundary b) then
    let overlapSize := u64 (r - LeftBoundary b) in
    data' ← slice_to data (u64 (u64 (zlen data) - overlapSize));
    Ret (mk_Buffer (data' ++ buf b) sq)
  else Panic.

(** [Buffer.RemovePrefix]; the length is a signed integer. *)
Definition Buffer_RemovePrefix (b : Buffer) (len : Z) : go Buffer :=
  if Len b >? len then
    buf' ← slice_from (buf b) len;
    Ret (mk_Buffer buf' (u64 (seq b + u64 len)))
  else if Len b =? len then Ret b
  else Panic.

(** ** The stream *)

Definition maxBytesGap : Z := 1024 * 1024 * 1.
Definition maxBytesGapIndicateTcpSeqOverflow : Z := 4294967295 / 2.
Definition maxTimestampEntries : Z := 100000.

Section StreamBuffer.
Context {T : Type} `{TreeMap T}.

Record StreamBuffer := mk_StreamBuffer {
  buffers : list Buffer;
  capacity : Z;
  timestamps : T;
}.
#[export] Instance eta_StreamBuffer : Eta StreamBuffer :=
  fun sb => mk_StreamBuffer (buffers sb) (capacity sb) (timestamps sb).

Definition New (capacity : Z) : StreamBuffer := mk_StreamBuffer [] capacity tm_new.

Definition IsEmpty (sb : StreamBuffer) : bool :=
  match buffers sb with [] => true | _ => false end.

Definition Head (sb : StreamBuffer) : option Buffer := head (buffers sb).

(** Of a list of runs, so that the clean-up loops can use them. *)
Definition position0 (bs : list Buffer) : Z :=
  match bs with [] => 0 | b :: _ => seq b end.
Definition positionN (bs : list Buffer) : Z :=
  match last bs with None => 0 | Some b => RightBoundary b end.
Definition Position0 (sb : StreamBuffer) : Z := position0 (buffers sb).
Definition PositionN (sb : StreamBuffer) : Z := positionN (buffers sb).

Definition Clear (sb : StreamBuffer) : StreamBuffer :=
  sb <| buffers := [] |> <| timestamps := tm_Clear (timestamps sb) |>.

Definition IsContinugous (sb : StreamBuffer) : bool := (length (buffers sb) =? 1)%nat.

(** The keys the iterator meets before the first that is not smaller. *)
Fixpoint keys_below (targetSeq : Z) (ks : list Z) : list Z :=
  match ks with
  | [] => []
  | k :: ks => if k <? targetSeq then k :: keys_below targetSeq ks else []
  end.

Definition cleanTimestampMapBySeqNoMoreThan (ts : T) (targetSeq : Z) : T :=
  tm_remove_all ts (keys_below targetSeq (tm_Keys ts)).

Definition cleanOldTimestamps (ts : T) : T :=
  if tm_Size ts <=? maxTimestampEntries then ts
  else
    let removeCount := tm_Size ts / 2 in
    tm_remove_all ts (take (Z.to_nat removeCount) (tm_Keys ts)).

Definition shrinkHeadBuffer (sb : StreamBuffer) : StreamBuffer :=
  match buffers sb with
  | [] => sb
  | hd :: bs =>
    sb <| buffers := bs |>
       <| timestamps := cleanTimestampMapBySeqNoMoreThan (timestamps sb) (seq hd) |>
  end.

(** The loop of [RemovePrefix]: [bs] is the list of runs, from which each
    iteration takes the head or returns.  Without a head the call of [Len]
    dereferences a nil pointer. *)
Fixpoint removePrefixLoop (bs : list Buffer) (sb : StreamBuffer) (left : Z) : go StreamBuffer :=
  if left =? 0 then Ret sb
  else match bs with
  | [] => Panic
  | hd :: bs' =>
    if Len hd >? left then
      hd' ← Buffer_RemovePrefix hd left;
      Ret (sb <| buffers := hd' :: bs' |>)
    else removePrefixLoop bs' (shrinkHeadBuffer sb) (left - Len hd)
  end.

Definition RemovePrefix (sb : StreamBuffer) (length : Z) : go StreamBuffer :=
  if IsEmpty sb then Ret sb else removePrefixLoop (buffers sb) sb length.

Definition RemoveHead (sb : StreamBuffer) : go StreamBuffer :=
  match Head sb with
  | None => Panic
  | Some hd => RemovePrefix sb (Len hd)
  end.

(** The loop of [shrinkBufferUntilSizeBelowCapacity]: the runs left, and the
    last one that was dropped. *)
Fixpoint shrinkLoop (capacity : Z) (bs : list Buffer) (lastDelete : option Buffer)
    : list Buffer * option Buffer :=
  match bs with
  | [] => ([], lastDelete)
  | b :: bs' =>
    if u64 (positionN bs - position0 bs) >? u64 capacity
    then shrinkLoop capacity bs' (Some b)
    else (bs, lastDelete)
  end.

Definition shrinkBufferUntilSizeBelowCapacity (sb : StreamBuffer) : StreamBuffer :=
  let '(bs, lastDelete) := shrinkLoop (capacity sb) (buffers sb) None in
  match lastDelete with
  | Some b =>
    sb <| buffers := bs |>
       <| timestamps := cleanTimestampMapBySeqNoMoreThan (timestamps sb) (seq b) |>
  | None => sb <| buffers := bs |>
  end.

Definition FindTimestampBySeq (sb : StreamBuffer) (targetSeq : Z) : Z * bool :=
  match tm_Floor (timestamps sb) targetSeq with
  | None => (0, false)
  | Some (_, v) => (v, true)
  end.

Definition updateTimestamp (sb : StreamBuffer) (sq timestamp : Z) : StreamBuffer :=
  sb <| timestamps := tm_Put (timestamps sb) sq timestamp |>.

(** The runs before the first that starts after [sq], and that first one: the
    left buffer is the last of the former, its index their number less one. *)
Fixpoint findRightBufferBySeq (sq : Z) (bs : list Buffer) (index : nat) : option (nat * Buffer) :=
  match bs with
  | [] => None
  | each :: bs' =>
    if LeftBoundary each >? sq then Some (index, each)
    else findRightBufferBySeq sq bs' (S index)
  end.

Fixpoint findLeftBufferBySeq (sq : Z) (bs : list Buffer) (index : nat) (prev : option (nat * Buffer))
    : option (nat * Buffer) :=
  match bs with
  | [] => prev
  | each :: bs' =>
    if LeftBoundary each >? sq then prev
    else findLeftBufferBySeq sq bs' (S index) (Some (index, each))
  end.

(** The part of [Add] that puts new data among the runs. *)
Definition add_to_buffers (bs : list Buffer) (sq : Z) (data : list Z) : go (list Buffer) :=
  let dataLen := u64 (zlen data) in
  let newBuffer := mk_Buffer data sq in
  match findLeftBufferBySeq sq bs 0 None, findRightBufferBySeq sq bs 0 with
  | None, None => Ret (bs ++ [newBuffer])
  | None, Some (ri, rightBuffer) =>
    if CanFuseAsRight rightBuffer sq dataLen then
      r' ← FuseAsRight rightBuffer sq data;
      Ret (<[ri := r']> bs)
    else Ret (slices_insert bs 0 newBuffer)
  | Some (li, leftBuffer), None =>
    if CanFuseAsLeft leftBuffer sq dataLen then
      l' ← FuseAsLeft leftBuffer sq data;
      Ret (<[li := l']> bs)
    else Ret (bs ++ [newBuffer])
  | Some (li, leftBuffer), Some (ri, rightBuffer) =>
    if CanFuseAsLeft leftBuffer sq dataLen && CanFuseAsRight rightBuffer sq dataLen then
      l' ← FuseAsLeft leftBuffer sq data;
      r' ← FuseAsRight rightBuffer (seq l') (buf l');
      Ret (slices_delete (<[ri := r']> (<[li := l']> bs)) li)
    else if CanFuseAsLeft leftBuffer sq dataLen && negb (CanFuseAsRight rightBuffer sq dataLen) then
      l' ← FuseAsLeft leftBuffer sq data;
      Ret (<[li := l']> bs)
    else if negb (CanFuseAsLeft leftBuffer sq dataLen) && CanFuseAsRight rightBuffer sq dataLen then
      r' ← FuseAsRight rightBuffer sq data;
      Ret (<[ri := r']> bs)
    else Ret (slices_insert bs (S li) newBuffer)
  end.

Definition Add (sb : StreamBuffer) (sq : Z) (data : list Z) (timestamp : Z)
    : go (bool * StreamBuffer) :=
  match tm_Get (timestamps sb) sq with
  | Some _ => Ret (false, sb)
  | None =>
    let newBuffer := mk_Buffer data sq in
    if IsEmpty sb then
      let sb := updateTimestamp sb sq timestamp in
      Ret (true, sb <| buffers := buffers sb ++ [newBuffer] |>)
    else if s64 (u64 (PositionN sb - sq)) >=? s64 maxBytesGapIndicateTcpSeqOverflow then
      let sb := Clear sb in
      Ret (true, updateTimestamp (sb <| buffers := buffers sb ++ [newBuffer] |>) sq timestamp)
    else if s64 (u64 (Position0 sb - sq)) >=? s64 maxBytesGap then Ret (true, sb)
    else if s64 (u64 (sq - PositionN sb)) >=? s64 maxBytesGap then
      let sb := Clear sb in
      Ret (true, updateTimestamp (sb <| buffers := buffers sb ++ [newBuffer] |>) sq timestamp)
    else
      bs ← add_to_buffers (buffers sb) sq data;
      let sb := updateTimestamp (sb <| buffers := bs |>) sq timestamp in
      let sb := shrinkBufferUntilSizeBelowCapacity sb in
      Ret (true, sb <| timestamps ::= cleanOldTimestamps |>)
  end.

End StreamBuffer.
Arguments StreamBuffer : clear implicits.
Arguments New {T _} _.

(** ** Runs as partial maps from positions to bytes *)

(** The position after the last byte, without wrap-around. *)
Definition stop (b : Buffer) : Z := seq b + zlen (buf b).

Definition byte_at (b : Buffer) (p : Z) : option Z :=
  if seq b <=? p then buf b !! Z.to_nat (p - seq b) else None.

Definition bytes_at (bs : list Buffer) (p : Z) : option Z :=
  foldr (fun b acc => byte_at b p ∪ acc) None bs.

(** A run has bytes, at positions below [2^63]. *)
Definition run_ok (b : Buffer) : Prop := 0 <= seq b < stop b /\ stop b < 9223372036854775808.
(** There is a gap between two runs. *)
Definition gap (a b : Buffer) : Prop := stop a < seq b.
Definition runs_ok (bs : list Buffer) : Prop := Forall run_ok bs /\ StronglySorted gap bs.

(** New data may overlap the run before it and the run after it, but neither
    lies inside a run nor covers one from both sides. *)
Definition fits (bs : list Buffer) (n : Buffer) : Prop :=
  Forall (fun b => (seq b <= seq n -> stop b < seq n \/ stop b <= stop n) /\
                   (seq n < seq b -> stop n <= stop b)) bs.

Lemma byte_at_None b p : p < seq b \/ stop b <= p -> byte_at b p = None.
Proof.
  unfold byte_at, stop, zlen. intros. destruct (Z.leb_spec (seq b) p); [|done].
  apply lookup_ge_None_2. lia.
Qed.

Lemma byte_at_Some b p : is_Some (byte_at b p) <-> seq b <= p < stop b.
Proof.
  unfold byte_at, stop, zlen. destruct (Z.leb_spec (seq b) p).
  - rewrite lookup_lt_is_Some. lia.
  - split; [by intros []|lia].
Qed.

Lemma option_union_assoc {A} (x y z : option A) : x ∪ (y ∪ z) = (x ∪ y) ∪ z.
Proof. by destruct x, y, z. Qed.

Lemma bytes_at_app l1 l2 p : bytes_at (l1 ++ l2) p = bytes_at l1 p ∪ bytes_at l2 p.
Proof.
  induction l1 as [|b l1 IH]; cbn [bytes_at foldr app]; [by rewrite (left_id _ _)|].
  unfold bytes_at in IH. by rewrite IH, option_union_assoc.
Qed.

Lemma bytes_at_cons b l p : bytes_at (b :: l) p = byte_at b p ∪ bytes_at l p.
Proof. done. Qed.

Lemma bytes_at_None l p : Forall (fun b => p < seq b \/ stop b <= p) l -> bytes_at l p = None.
Proof.
  induction 1 as [|b l Hb Hl IH]; [done|]. by rewrite bytes_at_cons, byte_at_None, IH.
Qed.

(** A run after every run of a list, or before every run of a list. *)
Lemma bytes_at_before l p q :
  Forall (fun b => stop b <= q) l -> q <= p -> bytes_at l p = None.
Proof.
  intros Hl Hp. apply bytes_at_None. eapply Forall_impl; [exact Hl|]. cbn. lia.
Qed.
Lemma bytes_at_after l p q :
  Forall (fun b => q <= seq b) l -> p < q -> bytes_at l p = None.
Proof.
  intros Hl Hp. apply bytes_at_None. eapply Forall_impl; [exact Hl|]. cbn. lia.
Qed.

(** ** Fusing two runs *)

Definition fused_left (b n : Buffer) : Buffer :=
  mk_Buffer (buf b ++ drop (Z.to_nat (stop b - seq n)) (buf n)) (seq b).
Definition fused_right (n b : Buffer) : Buffer :=
  mk_Buffer (take (Z.to_nat (seq b - seq n)) (buf n) ++ buf b) (seq n).

Lemma fused_left_stop b n : seq n <= stop b <= stop n -> stop (fused_left b n) = stop n.
Proof.
  unfold fused_left, stop. cbn [buf seq]. intros.
  rewrite zlen_app, zlen_drop; unfold zlen in *; lia.
Qed.
Lemma fused_right_stop n b : seq n <= seq b <= stop n -> stop (fused_right n b) = stop b.
Proof.
  unfold fused_right, stop. cbn [buf seq]. intros.
  rewrite zlen_app, zlen_take; unfold zlen in *; lia.
Qed.

Lemma byte_at_fused_left b n p :
  seq b <= seq n <= stop b -> stop b <= stop n ->
  byte_at (fused_left b n) p = byte_at b p ∪ byte_at n p.
Proof.
  unfold byte_at, fused_left, stop, zlen. cbn [buf seq]. intros H1 H2.
  destruct (Z.leb_spec (seq b) p), (Z.leb_spec (seq n) p); try lia; try done.
  - destruct (decide (Z.to_nat (p - seq b) < length (buf b))%nat) as [Hlt|Hge].
    + rewrite lookup_app_l by done.
      destruct (lookup_lt_is_Some_2 _ _ Hlt) as [x ->]. by rewrite union_Some_l.
    + rewrite lookup_app_r, lookup_drop, (lookup_ge_None_2 (buf b)), (left_id _ _) by lia.
      f_equal. lia.
  - rewrite lookup_app_l by lia. by rewrite (right_id _ _).
Qed.

Lemma byte_at_fused_right n b p :
  seq n <= seq b <= stop n -> stop n <= stop b ->
  byte_at (fused_right n b) p = byte_at b p ∪ byte_at n p.
Proof.
  unfold byte_at, fused_right, stop, zlen. cbn [buf seq]. intros H1 H2.
  destruct (Z.leb_spec (seq n) p), (Z.leb_spec (seq b) p); try lia; try done.
  - rewrite lookup_app_r by (rewrite length_take; lia). rewrite length_take.
    replace (Z.to_nat (p - seq n) - _)%nat with (Z.to_nat (p - seq b)) by lia.
    destruct (decide (Z.to_nat (p - seq b) < length (buf b))%nat) as [Hlt|Hge].
    + destruct (lookup_lt_is_Some_2 _ _ Hlt) as [x ->]. by rewrite union_Some_l.
    + rewrite !lookup_ge_None_2 by lia. done.
  - rewrite (left_id _ _), lookup_app_l, lookup_take_lt by (rewrite ?length_take; lia). done.
Qed.

(** ** What the tests and the fusions compute on runs without wrap-around *)

Lemma RightBoundary_stop b : run_ok b -> RightBoundary b = stop b.
Proof.
  unfold run_ok, stop, RightBoundary. intros.
  pose proof (zlen_nonneg (buf b)). by rewrite (u64_small (zlen _)), u64_small by lia.
Qed.

Lemma u64_zlen n : run_ok n -> u64 (zlen (buf n)) = zlen (buf n).
Proof. unfold run_ok, stop. intros. apply u64_small. pose proof (zlen_nonneg (buf n)). lia. Qed.

Section TwoRuns.
Context (b n : Buffer) (Hb : run_ok b) (Hn : run_ok n).

Lemma CanFuseAsLeft_spec :
  CanFuseAsLeft b (seq n) (zlen (buf n)) = true <-> seq b <= seq n <= stop b /\ stop b <= stop n.
Proof using Hb Hn.
  unfold CanFuseAsLeft, LeftBoundary. rewrite RightBoundary_stop by done.
  rewrite (u64_small (seq n + _)) by (unfold run_ok, stop in *; lia).
  fold (stop n). rewrite !andb_true_iff, !Z.geb_le, Z.leb_le. lia.
Qed.

Lemma CanFuseAsRight_spec :
  CanFuseAsRight b (seq n) (zlen (buf n)) = true <-> seq n <= seq b <= stop n /\ stop n <= stop b.
Proof using Hb Hn.
  unfold CanFuseAsRight, LeftBoundary. rewrite RightBoundary_stop by done.
  rewrite (u64_small (seq n + _)) by (unfold run_ok, stop in *; lia).
  fold (stop n). rewrite !andb_true_iff, !Z.geb_le, Z.leb_le. lia.
Qed.

Lemma FuseAsLeft_ok :
  seq b <= seq n <= stop b -> stop b <= stop n ->
  FuseAsLeft b (seq n) (buf n) = Ret (fused_left b n).
Proof using Hb Hn.
  intros H1 H2. unfold FuseAsLeft, fused_left, LeftBoundary. rewrite RightBoundary_stop by done.
  destruct (Z.eqb_spec (seq n) (stop b)) as [E|E].
  - rewrite E, Z.sub_diag. done.
  - destruct (Z.ltb_spec (seq n) (stop b)); [|lia]. rewrite Z.geb_leb.
    destruct (Z.leb_spec (seq b) (seq n)); [|lia]. cbn [andb]. cbv zeta.
    rewrite u64_small by (unfold run_ok in *; lia).
    by rewrite slice_from_ok by (unfold stop in *; lia).
Qed.

Lemma FuseAsRight_ok :
  seq n <= seq b <= stop n -> stop n <= stop b ->
  FuseAsRight b (seq n) (buf n) = Ret (fused_right n b).
Proof using Hb Hn.
  intros H1 H2. unfold FuseAsRight, fused_right, LeftBoundary. cbv zeta.
  rewrite RightBoundary_stop, u64_zlen by done.
  rewrite (u64_small (seq n + _)) by (unfold run_ok, stop in *; lia). fold (stop n).
  destruct (Z.eqb_spec (stop n) (seq b)) as [E|E].
  - rewrite take_ge; [done|]. unfold stop, zlen in E. lia.
  - rewrite Z.gtb_ltb. destruct (Z.ltb_spec (seq b) (stop n)); [|lia].
    destruct (Z.leb_spec (stop n) (stop b)); [|lia]. cbn [andb].
    rewrite (u64_small (stop n - _)) by (unfold run_ok in *; lia).
    replace (zlen (buf n) - (stop n - seq b)) with (seq b - seq n) by (unfold stop; lia).
    rewrite u64_small by (unfold run_ok in *; lia).
    by rewrite slice_to_ok by (unfold stop in *; lia).
Qed.
End TwoRuns.

(** ** The runs around a position *)

Lemma findRight_split q l1 l2 i :
  Forall (fun b => seq b <= q) l1 -> Forall (fun b => q < seq b) l2 ->
  findRightBufferBySeq q (l1 ++ l2) i =
    match l2 with [] => None | r :: _ => Some ((i + length l1)%nat, r) end.
Proof.
  intros Hl1 Hl2. revert i. induction Hl1 as [|b l1 Hb _ IH]; intros i.
  - cbn [app length]. rewrite Nat.add_0_r. destruct Hl2 as [|r l2 Hr _]; [done|].
    cbn. unfold LeftBoundary. rewrite Z.gtb_ltb. by destruct (Z.ltb_spec q (seq r)); [|lia].
  - cbn. unfold LeftBoundary. rewrite Z.gtb_ltb. destruct (Z.ltb_spec q (seq b)); [lia|].
    rewrite IH. destruct l2; [done|]. do 2 f_equal. lia.
Qed.

Lemma findLeft_split q l1 l2 i prev :
  Forall (fun b => seq b <= q) l1 -> Forall (fun b => q < seq b) l2 ->
  findLeftBufferBySeq q (l1 ++ l2) i prev =
    match last l1 with None => prev | Some l => Some ((i + length l1 - 1)%nat, l) end.
Proof.
  intros Hl1 Hl2. revert i prev. induction Hl1 as [|b l1 Hb _ IH]; intros i prev.
  - cbn [app last]. destruct Hl2 as [|r l2 Hr _]; [done|].
    cbn. unfold LeftBoundary. rewrite Z.gtb_ltb. by destruct (Z.ltb_spec q (seq r)); [|lia].
  - cbn [app findLeftBufferBySeq]. unfold LeftBoundary. rewrite Z.gtb_ltb.
    destruct (Z.ltb_spec q (seq b)); [lia|]. rewrite IH, last_cons.
    destruct (last l1) eqn:E; [|apply last_None in E as ->]; cbn [length]; do 2 f_equal; lia.
Qed.

(** Every ordered list of runs splits at a position. *)
Lemma runs_split bs q :
  runs_ok bs -> exists l1 l2, bs = l1 ++ l2 /\
    Forall (fun b => seq b <= q) l1 /\ Forall (fun b => q < seq b) l2.
Proof.
  intros [Hok Hs]. induction Hs as [|b bs Hs IH Hb]; [by exists [], []|].
  apply Forall_cons in Hok as [Hb' Hok]. destruct (Z.le_gt_cases (seq b) q) as [Hle|Hgt].
  - destruct (IH Hok) as (l1 & l2 & -> & H1 & H2). exists (b :: l1), l2. auto.
  - exists [], (b :: bs). split; [done|]. split; [done|]. constructor; [lia|].
    eapply Forall_impl; [exact Hb|]. unfold gap, run_ok in *. intros. lia.
Qed.

(** ** Putting data among the runs *)

Lemma runs_ok_app l1 l2 :
  runs_ok (l1 ++ l2) <->
  runs_ok l1 /\ runs_ok l2 /\ (forall a b, a ∈ l1 -> b ∈ l2 -> gap a b).
Proof. unfold runs_ok. rewrite Forall_app, StronglySorted_app. tauto. Qed.

Lemma runs_ok_mid l1 x l2 :
  runs_ok l1 -> runs_ok l2 -> run_ok x ->
  Forall (fun b => gap b x) l1 -> Forall (gap x) l2 -> runs_ok (l1 ++ x :: l2).
Proof.
  intros H1 H2 Hx Hl1 Hl2. rewrite Forall_forall in Hl1.
  apply runs_ok_app. split; [done|]. split.
  - destruct H2. split; constructor; done.
  - rewrite Forall_forall in Hl2. intros a b Ha [->|Hb]%elem_of_cons; [auto|].
    specialize (Hl1 _ Ha). specialize (Hl2 _ Hb). unfold gap, run_ok in *. lia.
Qed.

(** The runs [m] in the middle of a list give way to one run [x] that has their
    bytes and those of [n]. *)
Lemma replace_runs l1 m l2 x n :
  runs_ok (l1 ++ m ++ l2) -> run_ok x -> run_ok n ->
  Forall (fun b => gap b x) l1 -> Forall (gap x) l2 ->
  (forall p, byte_at x p = bytes_at m p ∪ byte_at n p) ->
  runs_ok (l1 ++ x :: l2) /\
  (forall p, bytes_at (l1 ++ x :: l2) p = bytes_at (l1 ++ m ++ l2) p ∪ byte_at n p).
Proof.
  intros Hr Hx Hn Hl1 Hl2 Hby. apply runs_ok_app in Hr as (Hr1 & Hr2 & _).
  apply runs_ok_app in Hr2 as (_ & Hr2 & _). split; [by apply runs_ok_mid|].
  intros p. rewrite !bytes_at_app, bytes_at_cons, Hby, <- !option_union_assoc. f_equal. f_equal.
  destruct (byte_at n p) as [v|] eqn:E; [|by rewrite (left_id _ _), (right_id _ _)].
  rewrite (bytes_at_after l2 p (stop x)); [done| |].
  - eapply Forall_impl; [exact Hl2|]. unfold gap. intros. lia.
  - apply byte_at_Some. rewrite Hby, E. destruct (bytes_at m p); by eexists.
Qed.

(** [add_to_buffers] on a list split at the position of the new data. *)
Section AddToBuffers.
Context (n : Buffer) (Hn : run_ok n).

Definition joins_left (b : Buffer) : Prop := seq b <= seq n <= stop b /\ stop b <= stop n.
Definition joins_right (b : Buffer) : Prop := seq n < seq b <= stop n /\ stop n <= stop b.

Lemma can_left_true L : run_ok L -> joins_left L -> CanFuseAsLeft L (seq n) (u64 (zlen (buf n))) = true.
Proof using Hn. intros. rewrite u64_zlen by done. by apply CanFuseAsLeft_spec. Qed.
Lemma can_left_false L : run_ok L -> gap L n -> CanFuseAsLeft L (seq n) (u64 (zlen (buf n))) = false.
Proof using Hn.
  unfold gap. intros. rewrite u64_zlen by done. apply not_true_is_false.
  rewrite CanFuseAsLeft_spec by done. lia.
Qed.
Lemma can_right_true R : run_ok R -> joins_right R -> CanFuseAsRight R (seq n) (u64 (zlen (buf n))) = true.
Proof using Hn.
  unfold joins_right. intros. rewrite u64_zlen by done. apply CanFuseAsRight_spec; [done..|]. lia.
Qed.
Lemma can_right_false R : run_ok R -> gap n R -> CanFuseAsRight R (seq n) (u64 (zlen (buf n))) = false.
Proof using Hn.
  unfold gap. intros. rewrite u64_zlen by done. apply not_true_is_false.
  rewrite CanFuseAsRight_spec by done. lia.
Qed.

(** Where the search functions of [add_to_buffers] look. *)
Ltac at_split l1 l2 :=
  unfold add_to_buffers;
  rewrite (findLeft_split (seq n) l1 l2), (findRight_split (seq n) l1 l2) by done.

Context (k1 k2 : list Buffer).
Hypothesis Hk1 : Forall (fun b => run_ok b /\ seq b <= seq n) k1.
Hypothesis Hk2 : Forall (fun b => run_ok b /\ seq n < seq b) k2.

Lemma add_apart :
  Forall (fun b => gap b n) k1 -> Forall (gap n) k2 ->
  add_to_buffers (k1 ++ k2) (seq n) (buf n) = Ret (k1 ++ n :: k2).
Proof using Hn Hk1 Hk2.
  apply Forall_and in Hk1 as [Ho1 Hs1], Hk2 as [Ho2 Hs2]. intros H1 H2. at_split k1 k2.
  destruct (last k1) as [L|] eqn:EL.
  - apply last_Some in EL as [k ->]. apply Forall_snoc_last in H1, Ho1.
    destruct Ho2 as [|R k2' HR _].
    + rewrite can_left_false by done. rewrite app_nil_r. by destruct n.
    + apply Forall_cons in H2 as [H2 _].
      rewrite can_left_false, can_right_false by done. cbn [andb negb].
      rewrite length_app. cbn [length].
      replace (S (0 + (length k + 1) - 1)) with (length (k ++ [L])) by (rewrite length_app; cbn; lia).
      rewrite slices_insert_app. by destruct n.
  - apply last_None in EL as ->. destruct Ho2 as [|R k2' HR _]; [by destruct n|].
    apply Forall_cons in H2 as [H2 _]. rewrite can_right_false by done. by destruct n.
Qed.

Lemma add_left L :
  run_ok L -> joins_left L -> Forall (gap n) k2 ->
  add_to_buffers (k1 ++ [L] ++ k2) (seq n) (buf n) = Ret (k1 ++ fused_left L n :: k2).
Proof using Hn Hk1 Hk2.
  apply Forall_and in Hk1 as [Ho1 Hs1], Hk2 as [Ho2 Hs2]. intros HL Hj H2.
  assert (Hs : Forall (fun b => seq b <= seq n) (k1 ++ [L])).
  { apply Forall_app. split; [done|]. constructor; [by apply Hj|done]. }
  rewrite app_assoc. at_split (k1 ++ [L]) k2. rewrite last_snoc, length_app. cbn [length].
  destruct Hj as [Hj1 Hj2].
  replace (0 + (length k1 + 1) - 1)%nat with (length k1 + 0)%nat by lia.
  destruct Ho2 as [|R k2' HR _].
  - rewrite can_left_true, FuseAsLeft_ok by done.
    cbn [mbind go_bind]. by rewrite <- app_assoc, insert_app_r.
  - apply Forall_cons in H2 as [H2 _].
    rewrite can_left_true, can_right_false, FuseAsLeft_ok by done.
    cbn [andb negb mbind go_bind]. by rewrite <- app_assoc, insert_app_r.
Qed.

Lemma add_right R :
  run_ok R -> joins_right R -> Forall (fun b => gap b n) k1 ->
  add_to_buffers (k1 ++ [R] ++ k2) (seq n) (buf n) = Ret (k1 ++ fused_right n R :: k2).
Proof using Hn Hk1 Hk2.
  apply Forall_and in Hk1 as [Ho1 Hs1], Hk2 as [Ho2 Hs2]. intros HR Hj H1.
  assert (Hs : Forall (fun b => seq n < seq b) ([R] ++ k2)).
  { constructor; [apply Hj|done]. }
  at_split k1 ([R] ++ k2). destruct Hj as [Hj1 Hj2]. cbn [app Nat.add].
  destruct (last k1) as [L|] eqn:EL.
  - apply last_Some in EL as [k ->]. apply Forall_snoc_last in H1, Ho1.
    rewrite can_left_false, can_right_true, FuseAsRight_ok by (done || lia).
    cbn [andb negb mbind go_bind]. by rewrite <- (Nat.add_0_r (length _)), insert_app_r.
  - apply last_None in EL as ->. rewrite can_right_true, FuseAsRight_ok by (done || lia). done.
Qed.

Lemma fused_left_ok L : run_ok L -> joins_left L -> run_ok (fused_left L n).
Proof using Hn.
  unfold run_ok, joins_left. intros H1 H2. rewrite fused_left_stop by lia.
  cbn [fused_left seq]. unfold run_ok in Hn. lia.
Qed.
Lemma fused_right_ok m R :
  run_ok m -> run_ok R -> seq m <= seq R <= stop m -> run_ok (fused_right m R).
Proof using.
  unfold run_ok. intros H1 H2 H3. rewrite fused_right_stop by lia. cbn [fused_right seq]. lia.
Qed.

Lemma add_both L R :
  run_ok L -> joins_left L -> run_ok R -> joins_right R ->
  add_to_buffers (k1 ++ [L; R] ++ k2) (seq n) (buf n)
  = Ret (k1 ++ fused_right (fused_left L n) R :: k2).
Proof using Hn Hk1 Hk2.
  apply Forall_and in Hk1 as [Ho1 Hs1], Hk2 as [Ho2 Hs2]. intros HL HjL HR HjR.
  assert (Hs : Forall (fun b => seq b <= seq n) (k1 ++ [L])).
  { apply Forall_app. split; [done|]. constructor; [by apply HjL|done]. }
  assert (Hs' : Forall (fun b => seq n < seq b) (R :: k2)).
  { constructor; [apply HjR|done]. }
  change ([L; R] ++ k2) with ([L] ++ R :: k2). rewrite app_assoc.
  at_split (k1 ++ [L]) (R :: k2). rewrite last_snoc.
  rewrite can_left_true, can_right_true by done. pose proof (fused_left_ok L HL HjL) as Hf.
  destruct HjL as [H1 H2], HjR as [H3 H4].
  pose proof (fused_left_stop L n ltac:(lia)) as Hst.
  rewrite FuseAsLeft_ok by done. cbn [andb mbind go_bind].
  rewrite FuseAsRight_ok; [|done..|cbn [fused_left seq]; lia|lia].
  cbn [mbind go_bind]. rewrite !length_app. cbn [length].
  replace (0 + (length k1 + 1) - 1)%nat with (length k1 + 0)%nat by lia.
  rewrite <- app_assoc, insert_app_r. cbn [app]. change (<[0%nat := ?x]> (L :: ?t)) with (x :: t).
  rewrite Nat.add_0_l, insert_app_r. change (<[1%nat := ?x]> (?a :: R :: ?t)) with (a :: x :: t).
  by rewrite Nat.add_0_r, slices_delete_app.
Qed.
End AddToBuffers.

(** The runs on either side of a split keep their distance to its inner runs. *)
Lemma split_gaps k1 L R k2 :
  runs_ok (k1 ++ L ++ R ++ k2) ->
  Forall (fun b => Forall (gap b) (L ++ R ++ k2)) k1 /\
  Forall (fun b => Forall (fun a => gap a b) (L ++ R)) k2.
Proof.
  intros Hr. split; apply Forall_forall; intros b Hb; apply Forall_forall; intros a Ha.
  - apply runs_ok_app in Hr as (_ & _ & Hg). by apply Hg.
  - rewrite !app_assoc in Hr. apply runs_ok_app in Hr as (_ & _ & Hg). apply Hg; [|done].
    rewrite <- app_assoc. apply elem_of_app. by right.
Qed.

(** The four outcomes together: data that [fits] is put in without a panic,
    the runs stay apart, and their bytes are the old ones and the new ones, the
    old ones where both have a byte. *)
Section AddFits.
Context (n : Buffer) (Hn : run_ok n).

Definition added (bs bs' : list Buffer) : Prop :=
  add_to_buffers bs (seq n) (buf n) = Ret bs' /\ runs_ok bs' /\
  (forall p, bytes_at bs' p = bytes_at bs p ∪ byte_at n p).

Lemma added_at k1 m k2 x :
  runs_ok (k1 ++ m ++ k2) ->
  add_to_buffers (k1 ++ m ++ k2) (seq n) (buf n) = Ret (k1 ++ x :: k2) ->
  run_ok x -> Forall (fun b => gap b x) k1 -> Forall (gap x) k2 ->
  (forall p, byte_at x p = bytes_at m p ∪ byte_at n p) ->
  exists bs', added (k1 ++ m ++ k2) bs'.
Proof using Hn. intros. eexists. split; [done|]. by apply replace_runs. Qed.

(** The last run of the left part and the first run of the right part, if they
    take part in the fusion. *)
Lemma left_part l1 :
  runs_ok l1 -> fits l1 n -> Forall (fun b => seq b <= seq n) l1 ->
  Forall (fun b => gap b n) l1 \/
  exists k L, l1 = k ++ [L] /\ run_ok L /\ joins_left n L /\
    Forall (fun b => gap b L) k /\ Forall (fun b => gap b n) k.
Proof using.
  intros Hr Hf Hs. destruct (last l1) as [L|] eqn:E; [|apply last_None in E as ->; by left].
  apply last_Some in E as [k ->]. apply runs_ok_app in Hr as (Hk & [HL _] & Hg).
  apply Forall_inv in HL. apply Forall_snoc_last in Hf, Hs.
  assert (Hkl : Forall (fun b => gap b L) k).
  { apply Forall_forall. intros b Hb. apply Hg; [done|]. by left. }
  destruct Hf as [Hf _]. specialize (Hf Hs).
  assert (Hkn : Forall (fun b => gap b n) k).
  { eapply Forall_impl; [exact Hkl|]. unfold gap. intros. lia. }
  destruct (Z.lt_ge_cases (stop L) (seq n)) as [Hlt|Hge].
  - left. apply Forall_app. split; [done|]. by constructor.
  - right. exists k, L. unfold joins_left. split_and!; try done; cbv beta in Hs; lia.
Qed.

Lemma right_part l2 :
  runs_ok l2 -> fits l2 n -> Forall (fun b => seq n < seq b) l2 ->
  Forall (gap n) l2 \/
  exists R k, l2 = R :: k /\ run_ok R /\ joins_right n R /\ Forall (gap R) k.
Proof using.
  intros [Ho Hso] Hf Hs. destruct Hso as [|R k _ Hg]; [by left|].
  apply Forall_cons in Ho as [HR Ho], Hf as [ [_ Hf] _], Hs as [Hs _]. specialize (Hf Hs).
  destruct (Z.lt_ge_cases (stop n) (seq R)) as [Hlt|Hge].
  - left. constructor; [done|]. eapply Forall_impl; [exact Hg|].
    unfold gap, run_ok in *. intros. lia.
  - right. exists R, k. unfold joins_right. split_and!; try done; cbv beta in Hs; lia.
Qed.

Lemma gap_side k : runs_ok k -> Forall (fun b => seq b <= seq n) k ->
  Forall (fun b => run_ok b /\ seq b <= seq n) k.
Proof using. intros [Ho _] Hs. apply Forall_and. by split. Qed.
Lemma gap_side_r k : runs_ok k -> Forall (fun b => seq n < seq b) k ->
  Forall (fun b => run_ok b /\ seq n < seq b) k.
Proof using. intros [Ho _] Hs. apply Forall_and. by split. Qed.

Lemma forall_gap_r x y l : stop x = stop y -> Forall (gap x) l -> Forall (gap y) l.
Proof using. unfold gap. intros ->. done. Qed.

Lemma add_to_buffers_fits bs : runs_ok bs -> fits bs n -> exists bs', added bs bs'.
Proof using Hn.
  intros Hr Hf. destruct (runs_split bs (seq n) Hr) as (l1 & l2 & -> & H1 & H2).
  pose proof (proj1 (runs_ok_app _ _) Hr) as (Hr1 & Hr2 & Hg).
  apply Forall_app in Hf as [Hf1 Hf2].
  pose proof (gap_side _ Hr1 H1) as Hs1. pose proof (gap_side_r _ Hr2 H2) as Hs2.
  destruct (left_part l1 Hr1 Hf1 H1) as [Hl|(k1 & L & -> & HL & HjL & HkL & Hkn)];
  destruct (right_part l2 Hr2 Hf2 H2) as [Hrt|(R & k2 & -> & HR & HjR & HkR)].
  - apply (added_at l1 [] l2 n); try done; [by apply add_apart|].
    intros p. cbn. by rewrite (left_id _ _).
  - apply Forall_cons in Hs2 as [_ Hs2].
    apply (added_at l1 [R] k2 (fused_right n R)); try done; [by apply add_right|..].
    + apply fused_right_ok; try done. destruct HjR; lia.
    + eapply forall_gap_r, HkR. symmetry. apply fused_right_stop. destruct HjR; lia.
    + intros p. destruct HjR. rewrite byte_at_fused_right by lia. cbn. by rewrite (right_id _ _).
  - rewrite <- app_assoc in *. apply Forall_app in Hs1 as [Hs1 _].
    apply (added_at k1 [L] l2 (fused_left L n)); try done; [by apply add_left|..].
    + by apply fused_left_ok.
    + eapply forall_gap_r, Hrt. symmetry. apply fused_left_stop. destruct HjL; lia.
    + intros p. destruct HjL. rewrite byte_at_fused_left by lia. cbn. by rewrite (right_id _ _).
  - apply Forall_app in Hs1 as [Hs1 _]. apply Forall_cons in Hs2 as [_ Hs2].
    pose proof (fused_left_ok n Hn L HL HjL) as Hfl.
    assert (Hst : stop (fused_left L n) = stop n) by (apply fused_left_stop; destruct HjL; lia).
    assert (HLR : gap L R) by (apply Hg; [apply elem_of_app; right|]; by left).
    rewrite <- app_assoc. change ([L] ++ R :: k2) with ([L; R] ++ k2).
    apply (added_at k1 [L; R] k2 (fused_right (fused_left L n) R)); try done.
    + by rewrite <- app_assoc in Hr.
    + by apply add_both.
    + apply fused_right_ok; try done. cbn [fused_left seq]. destruct HjL, HjR. lia.
    + eapply forall_gap_r, HkR. symmetry. apply fused_right_stop.
      cbn [fused_left seq]. destruct HjL, HjR. lia.
    + intros p. destruct HjL, HjR.
      rewrite byte_at_fused_right, byte_at_fused_left by (cbn [fused_left seq]; lia).
      cbn. rewrite (right_id _ _). unfold gap in HLR.
      destruct (Z.lt_ge_cases p (seq R)).
      * by rewrite (byte_at_None R), (left_id _ _), (right_id _ _) by lia.
      * by rewrite (byte_at_None L), !(left_id _ _) by lia.
Qed.
End AddFits.

(** ** Runs are determined by their bytes *)

Lemma runs_ok_cons b bs : runs_ok (b :: bs) <-> run_ok b /\ Forall (gap b) bs /\ runs_ok bs.
Proof.
  unfold runs_ok. rewrite Forall_cons. split.
  - intros [ [Hb Ho] [Hs Hg]%StronglySorted_inv]. done.
  - intros (Hb & Hg & Ho & Hs). split; [done|]. by constructor.
Qed.

Lemma bytes_at_cons_lo b bs p : runs_ok (b :: bs) -> p < stop b -> bytes_at (b :: bs) p = byte_at b p.
Proof.
  intros (Hb & Hg & _)%runs_ok_cons Hp. rewrite bytes_at_cons.
  rewrite (bytes_at_after bs p (stop b)); [by rewrite (right_id _ _)| |done].
  eapply Forall_impl; [exact Hg|]. unfold gap. intros. lia.
Qed.
Lemma bytes_at_cons_hi b bs p : stop b <= p -> bytes_at (b :: bs) p = bytes_at bs p.
Proof. intros Hp. by rewrite bytes_at_cons, byte_at_None, (left_id _ _) by lia. Qed.
Lemma bytes_at_stop b bs : runs_ok (b :: bs) -> bytes_at (b :: bs) (stop b) = None.
Proof.
  intros (Hb & Hg & _)%runs_ok_cons. rewrite bytes_at_cons_hi by lia.
  apply (bytes_at_after _ _ (stop b + 1)); [|lia].
  eapply Forall_impl; [exact Hg|]. unfold gap. intros. lia.
Qed.
Lemma bytes_at_first b bs p : runs_ok (b :: bs) -> p < seq b -> bytes_at (b :: bs) p = None.
Proof.
  intros Hr Hp. pose proof (proj1 (runs_ok_cons _ _) Hr) as ([? ?] & _).
  rewrite bytes_at_cons_lo by (done || lia). apply byte_at_None. lia.
Qed.

Lemma run_eq b b' : seq b = seq b' -> (forall p, byte_at b p = byte_at b' p) -> b = b'.
Proof.
  destruct b as [l q], b' as [l' q']. cbn. intros -> H. f_equal.
  apply list_eq. intros i. specialize (H (q' + Z.of_nat i)). unfold byte_at in H. cbn in H.
  destruct (Z.leb_spec q' (q' + Z.of_nat i)); [|lia].
  by replace (Z.to_nat (q' + Z.of_nat i - q')) with i in H by lia.
Qed.

(** The first run starts and ends where the bytes say. *)
Lemma first_run_le b bs b' bs' :
  runs_ok (b :: bs) -> runs_ok (b' :: bs') ->
  (forall p, bytes_at (b :: bs) p = bytes_at (b' :: bs') p) ->
  seq b <= seq b' /\ (seq b = seq b' -> stop b <= stop b').
Proof.
  intros Hr Hr' H. pose proof (proj1 (runs_ok_cons _ _) Hr) as ([Hb ?] & _).
  pose proof (proj1 (runs_ok_cons _ _) Hr') as ([Hb' ?] & _). split.
  - destruct (Z.le_gt_cases (seq b) (seq b')) as [|Hlt]; [done|].
    pose proof (proj2 (byte_at_Some b' (seq b')) ltac:(lia)) as [v Hv].
    specialize (H (seq b')). rewrite bytes_at_first, bytes_at_cons_lo, Hv in H by (done || lia). done.
  - intros E. destruct (Z.le_gt_cases (stop b) (stop b')) as [|Hlt]; [done|].
    pose proof (proj2 (byte_at_Some b (stop b')) ltac:(lia)) as [v Hv].
    specialize (H (stop b')). rewrite bytes_at_stop, bytes_at_cons_lo, Hv in H by (done || lia). done.
Qed.

Lemma runs_canonical bs bs' :
  runs_ok bs -> runs_ok bs' -> (forall p, bytes_at bs p = bytes_at bs' p) -> bs = bs'.
Proof.
  revert bs'. induction bs as [|b bs IH]; intros [|b' bs'] Hr Hr' H; [done| | |].
  1, 2: exfalso.
  - pose proof (proj1 (runs_ok_cons _ _) Hr') as ([? ?] & _). specialize (H (seq b')).
    pose proof (proj2 (byte_at_Some b' (seq b')) ltac:(lia)) as [v Hv].
    by rewrite bytes_at_cons, Hv, union_Some_l in H.
  - pose proof (proj1 (runs_ok_cons _ _) Hr) as ([? ?] & _). specialize (H (seq b)).
    pose proof (proj2 (byte_at_Some b (seq b)) ltac:(lia)) as [v Hv].
    by rewrite bytes_at_cons, Hv, union_Some_l in H.
  - destruct (first_run_le _ _ _ _ Hr Hr' H) as [H1 H1'].
    destruct (first_run_le _ _ _ _ Hr' Hr ltac:(done)) as [H2 H2'].
    assert (Hs : seq b = seq b') by lia. assert (He : stop b = stop b') by (specialize (H1' Hs); lia).
    f_equal.
    + apply run_eq; [done|]. intros p. destruct (Z.lt_ge_cases p (stop b)).
      * specialize (H p). by rewrite !bytes_at_cons_lo in H by (done || lia).
      * by rewrite !byte_at_None by lia.
    + apply IH; [by apply runs_ok_cons in Hr as (_&_&?)|by apply runs_ok_cons in Hr' as (_&_&?)|].
      intros p. destruct (Z.lt_ge_cases p (stop b)).
      * apply runs_ok_cons in Hr as (_&Hg&_), Hr' as (_&Hg'&_).
        rewrite (bytes_at_after bs p (stop b)), (bytes_at_after bs' p (stop b)); try done;
          (eapply Forall_impl; [eassumption|]; unfold gap; intros; lia).
      * specialize (H p). by rewrite !bytes_at_cons_hi in H by lia.
Qed.

(** ** Positions of the first and the last byte *)

Lemma positionN_snoc bs b : run_ok b -> positionN (bs ++ [b]) = stop b.
Proof. intros. unfold positionN. by rewrite last_snoc, RightBoundary_stop. Qed.

Lemma runs_ok_sub bs bs' : bs' `suffix_of` bs -> runs_ok bs -> runs_ok bs'.
Proof. intros [k ->]. rewrite runs_ok_app. tauto. Qed.

Lemma bytes_at_range bs p :
  Forall run_ok bs -> is_Some (bytes_at bs p) -> 0 <= p < 9223372036854775808.
Proof.
  intros Ho Hp.
  destruct (Z.lt_ge_cases p 0), (Z.lt_ge_cases p 9223372036854775808); try lia; exfalso;
    (rewrite bytes_at_None in Hp; [by destruct Hp|]); (eapply Forall_impl; [exact Ho|]);
    unfold run_ok; intros; lia.
Qed.

Lemma positions_in bs lo hi :
  runs_ok bs -> bs <> [] -> (forall p, is_Some (bytes_at bs p) -> lo <= p < hi) ->
  0 <= position0 bs < positionN bs /\ positionN bs < 9223372036854775808 /\
  lo <= position0 bs /\ positionN bs <= hi.
Proof.
  intros Hr Hne Hin. destruct bs as [|b bs]; [done|].
  destruct (exists_last Hne) as (bs' & b' & E).
  assert (Hb' : run_ok b').
  { rewrite E in Hr. apply runs_ok_app in Hr as (_ & [Ho _] & _). by apply Forall_inv in Ho. }
  pose proof (proj1 (runs_ok_cons _ _) Hr) as (Hb & Hg & _).
  assert (Hle : stop b <= stop b').
  { assert (Hin' : b' ∈ b :: bs) by (rewrite E; apply elem_of_app; right; by left).
    apply elem_of_cons in Hin' as [->|Hin']; [done|].
    rewrite Forall_forall in Hg. specialize (Hg _ Hin'). unfold gap, run_ok in *. lia. }
  assert (H1 : lo <= seq b < hi).
  { apply Hin. rewrite bytes_at_cons. apply union_is_Some. left. apply byte_at_Some.
    unfold run_ok in Hb. lia. }
  assert (H2 : lo <= stop b' - 1 < hi).
  { apply Hin. rewrite E, bytes_at_app. apply union_is_Some. right. rewrite bytes_at_cons.
    apply union_is_Some. left. apply byte_at_Some. unfold run_ok in Hb'. lia. }
  cbn [position0]. rewrite E, positionN_snoc by done. unfold run_ok in *. lia.
Qed.

Lemma s64_u64 z : -9223372036854775808 <= z < 9223372036854775808 -> s64 (u64 z) = z.
Proof.
  intros. unfold s64, u64. rewrite Zplus_mod_idemp_l, Z.mod_small; lia.
Qed.

(** ** Keeping below the capacity *)

Lemma shrinkLoop_suffix c bs o : (shrinkLoop c bs o).1 `suffix_of` bs.
Proof.
  revert o. induction bs as [|b bs IH]; intros o; cbn [shrinkLoop]; [done|].
  destruct (_ >? _); [|done]. by apply suffix_cons_r.
Qed.

Lemma shrinkLoop_id c bs o :
  0 <= positionN bs - position0 bs <= c -> c < 9223372036854775808 -> shrinkLoop c bs o = (bs, o).
Proof.
  intros H1 H2. destruct bs as [|b bs]; [done|]. cbn [shrinkLoop].
  rewrite !u64_small by lia. rewrite Z.gtb_ltb. by destruct (Z.ltb_spec c (positionN (b :: bs) - position0 (b :: bs))); [lia|].
Qed.

Lemma shrinkLoop_span c bs o :
  runs_ok bs -> 0 <= c < 9223372036854775808 ->
  let bs' := (shrinkLoop c bs o).1 in bs' <> [] -> positionN bs' - position0 bs' <= c.
Proof.
  intros Hr Hc. revert o Hr. induction bs as [|b bs IH]; intros o Hr; cbn [shrinkLoop]; [done|].
  destruct (Z.gtb_spec (u64 (positionN (b :: bs) - position0 (b :: bs))) (u64 c)) as [Hgt|Hle].
  - apply IH. by apply runs_ok_cons in Hr as (_ & _ & ?).
  - intros _. cbn [fst] in *.
    destruct (positions_in (b :: bs) (position0 (b :: bs)) 9223372036854775808 Hr) as (H1 & H2 & _).
    + done.
    + intros p Hp. split; [|apply (bytes_at_range (b :: bs)); [apply Hr|done] ].
      destruct (Z.le_gt_cases (seq b) p) as [|Hlt]; [done|].
      rewrite bytes_at_first in Hp by done. by destruct Hp.
    + rewrite !u64_small in Hle by lia. lia.
Qed.

(** ** [Add] *)

Section Adding.
Context {T : Type} `{TreeMapLaws T}.
Implicit Types sb : StreamBuffer T.

(** Near enough to the known bytes to be taken neither for a position of another
    round of the 32-bit counter nor for data after a gap. *)
Definition near sb (n : Buffer) : Prop :=
  PositionN sb - seq n < 2147483647 /\ Position0 sb - seq n < 1048576 /\
  seq n - PositionN sb < 1048576.

(** What [cleanOldTimestamps] and the other clean-ups leave was there before. *)
Lemma cleanOld_sub (ts : T) q : is_Some (tm_Get (cleanOldTimestamps ts) q) -> is_Some (tm_Get ts q).
Proof. unfold cleanOldTimestamps. destruct (_ <=? _); [done|]. apply tm_remove_all_sub. Qed.

Lemma shrink_spec sb :
  let sb' := shrinkBufferUntilSizeBelowCapacity sb in
  buffers sb' = (shrinkLoop (capacity sb) (buffers sb) None).1 /\
  capacity sb' = capacity sb /\
  (forall q, is_Some (tm_Get (timestamps sb') q) -> is_Some (tm_Get (timestamps sb) q)).
Proof.
  unfold shrinkBufferUntilSizeBelowCapacity.
  destruct (shrinkLoop _ _ _) as [bs [b|] ]; fsimp_goal; cbn; split_and!; try done.
  intros q. apply tm_remove_all_sub.
Qed.

(** The state after the last branch of [Add], with the runs [bs']. *)
Definition settled sb (bs' : list Buffer) (q t : Z) : StreamBuffer T :=
  shrinkBufferUntilSizeBelowCapacity (updateTimestamp (sb <| buffers := bs' |>) q t)
    <| timestamps ::= cleanOldTimestamps |>.

Lemma Add_normal sb n t :
  runs_ok (buffers sb) -> buffers sb <> [] -> run_ok n -> near sb n ->
  tm_Get (timestamps sb) (seq n) = None ->
  Add sb (seq n) (buf n) t =
    (bs' ← add_to_buffers (buffers sb) (seq n) (buf n); Ret (true, settled sb bs' (seq n) t)).
Proof.
  intros Hr Hne Hn (H1 & H2 & H3) Hts. unfold Add. rewrite Hts.
  assert (He : IsEmpty sb = false) by (unfold IsEmpty; by destruct (buffers sb)).
  destruct (positions_in (buffers sb) 0 9223372036854775808 Hr Hne) as (Hp1 & Hp2 & _).
  { intros p. apply bytes_at_range, Hr. }
  unfold Position0, PositionN in *. rewrite He.
  change (s64 maxBytesGapIndicateTcpSeqOverflow) with 2147483647. change (s64 maxBytesGap) with 1048576.
  unfold run_ok in Hn. unfold PositionN, Position0. rewrite !s64_u64 by lia. rewrite !Z.geb_leb.
  destruct (Z.leb_spec 2147483647 (positionN (buffers sb) - seq n)); [lia|].
  destruct (Z.leb_spec 1048576 (position0 (buffers sb) - seq n)); [lia|].
  destruct (Z.leb_spec 1048576 (seq n - positionN (buffers sb))); [lia|].
  done.
Qed.

Lemma Add_first sb n t :
  buffers sb = [] -> tm_Get (timestamps sb) (seq n) = None ->
  Add sb (seq n) (buf n) t = Ret (true, mk_StreamBuffer [n] (capacity sb) (tm_Put (timestamps sb) (seq n) t)).
Proof.
  intros He Hts. destruct sb as [bs c ts]. cbn in He, Hts. subst bs. unfold Add. cbn. rewrite Hts.
  by destruct n.
Qed.

Lemma settled_inside sb bs' q t :
  0 <= positionN bs' - position0 bs' <= capacity sb -> capacity sb < 9223372036854775808 ->
  settled sb bs' q t
  = mk_StreamBuffer bs' (capacity sb) (cleanOldTimestamps (tm_Put (timestamps sb) q t)).
Proof.
  intros H1 H2. unfold settled, shrinkBufferUntilSizeBelowCapacity, updateTimestamp. fsimp_goal.
  by rewrite shrinkLoop_id by done.
Qed.

(** Data where no byte is known fits. *)
Lemma fits_disjoint bs n :
  runs_ok bs -> run_ok n -> (forall p, seq n <= p < stop n -> bytes_at bs p = None) -> fits bs n.
Proof.
  intros Hr Hn Hd. apply Forall_forall. intros b Hb.
  apply list_elem_of_split in Hb as (l1 & l2 & ->).
  assert (Hb : run_ok b).
  { apply runs_ok_app in Hr as (_ & [Ho _] & _). by apply Forall_inv in Ho. }
  assert (Hin : forall p, seq b <= p < stop b -> ~ seq n <= p < stop n).
  { intros p Hp Hq. specialize (Hd p Hq). apply byte_at_Some in Hp as [v Hv].
    rewrite bytes_at_app, bytes_at_cons, Hv in Hd. apply union_None in Hd as [_ Hd].
    by rewrite union_Some_l in Hd. }
  unfold run_ok in *. split; intros Hs.
  - right. assert (seq b < seq n) by (specialize (Hin (seq b)); lia).
    specialize (Hin (seq n)). lia.
  - specialize (Hin (seq b)). lia.
Qed.
End Adding.

(** ** Taking a prefix off *)

Section Removing.
Context {T : Type} `{TreeMap T}.
Implicit Types sb : StreamBuffer T.

Definition content (bs : list Buffer) : list Z := concat (buf <$> bs).

(** [removePrefixLoop] on the list of runs alone. *)
Fixpoint cut (bs : list Buffer) (left : Z) : go (list Buffer) :=
  if left =? 0 then Ret bs
  else match bs with
  | [] => Panic
  | hd :: bs' =>
    if Len hd >? left then hd' ← Buffer_RemovePrefix hd left; Ret (hd' :: bs')
    else cut bs' (left - Len hd)
  end.

Lemma removePrefixLoop_cut bs sb left :
  buffers sb = bs ->
  match cut bs left with
  | Ret bs' => exists sb', removePrefixLoop bs sb left = Ret sb' /\ buffers sb' = bs' /\
                 capacity sb' = capacity sb
  | Panic => removePrefixLoop bs sb left = Panic
  end.
Proof.
  revert sb left. induction bs as [|b bs IH]; intros sb left E; cbn [cut removePrefixLoop];
    destruct (left =? 0); [by exists sb|done|by exists sb|].
  destruct (Len b >? left).
  - destruct (Buffer_RemovePrefix b left); cbn [mbind go_bind]; [by eexists|done].
  - assert (E' : buffers (shrinkHeadBuffer sb) = bs /\ capacity (shrinkHeadBuffer sb) = capacity sb).
    { unfold shrinkHeadBuffer. by rewrite E. }
    destruct E' as [E1 E2]. specialize (IH _ (left - Len b) E1). destruct (cut bs _); [|done].
    destruct IH as (sb' & ? & ? & ?). exists sb'. by rewrite <- E2.
Qed.

Lemma Buffer_RemovePrefix_ok b len :
  run_ok b -> 0 <= len < Len b ->
  Buffer_RemovePrefix b len = Ret (mk_Buffer (drop (Z.to_nat len) (buf b)) (seq b + len)).
Proof.
  intros Hb Hl. unfold Buffer_RemovePrefix. rewrite Z.gtb_ltb.
  destruct (Z.ltb_spec len (Len b)); [|lia]. unfold Len in *.
  rewrite slice_from_ok by lia. cbn. unfold run_ok, stop in Hb.
  by rewrite (u64_small len), u64_small by lia.
Qed.

Lemma cut_ok bs left :
  Forall run_ok bs -> 0 <= left <= zlen (content bs) ->
  exists bs', cut bs left = Ret bs' /\ content bs' = drop (Z.to_nat left) (content bs) /\
    Forall run_ok bs' /\ (runs_ok bs -> runs_ok bs').
Proof.
  revert left. induction bs as [|b bs IH]; intros left Ho Hl; cbn [cut].
  - cbn in Hl. replace left with 0 by (unfold zlen in Hl; cbn in Hl; lia). by exists [].
  - change (content (b :: bs)) with (buf b ++ content bs) in *. rewrite zlen_app in Hl.
    destruct (Z.eqb_spec left 0) as [->|Hnz]; [by exists (b :: bs)|].
    apply Forall_cons in Ho as [Hb Ho]. rewrite Z.gtb_ltb. destruct (Z.ltb_spec left (Len b)) as [Hlt|Hge].
    + rewrite Buffer_RemovePrefix_ok by (done || lia). cbn [mbind go_bind].
      set (b' := mk_Buffer _ _). unfold Len in Hlt.
      assert (Hs : stop b' = stop b).
      { unfold stop, b'. cbn [buf seq]. rewrite zlen_drop by lia. lia. }
      assert (Hok : run_ok b').
      { unfold run_ok in *. rewrite Hs. unfold b', stop in *. cbn [seq]. lia. }
      exists (b' :: bs). split; [done|]. split; [|split; [by constructor|] ].
      * change (content (b' :: bs)) with (drop (Z.to_nat left) (buf b) ++ content bs).
        rewrite drop_app_le; [done|]. unfold zlen in Hlt. lia.
      * rewrite !runs_ok_cons. intros (_ & Hg & Hr). split_and!; try done.
        unfold gap in *. by rewrite Hs.
    + unfold Len in *. destruct (IH (left - zlen (buf b)) Ho ltac:(lia)) as (bs' & Hc & Hd & Ho' & Hr').
      exists bs'. split; [done|]. split; [|split; [done|] ].
      * rewrite Hd, drop_app_ge by (unfold zlen in Hge; lia). f_equal. unfold zlen. lia.
      * intros Hr. apply Hr'. by apply runs_ok_cons in Hr as (_ & _ & ?).
Qed.

Lemma cut_panics bs left :
  Forall run_ok bs -> bs <> [] -> left < 0 \/ zlen (content bs) < left -> cut bs left = Panic.
Proof.
  intros Ho. revert left. induction Ho as [|b bs Hb Ho IH]; intros left Hne Hl; [done|].
  change (content (b :: bs)) with (buf b ++ content bs) in Hl. rewrite zlen_app in Hl.
  assert (0 < zlen (buf b)) by (unfold run_ok, stop in Hb; lia).
  pose proof (zlen_nonneg (content bs)).
  cbn [cut]. destruct (Z.eqb_spec left 0); [lia|]. rewrite Z.gtb_ltb. unfold Len.
  destruct (Z.ltb_spec left (zlen (buf b))).
  - unfold Buffer_RemovePrefix. rewrite Z.gtb_ltb. unfold Len.
    destruct (Z.ltb_spec left (zlen (buf b))); [|lia]. by rewrite slice_from_panic by lia.
  - destruct bs as [|b' bs]; [|apply IH; [done|lia] ].
    cbn [cut]. unfold zlen in Hl. cbn in Hl. unfold zlen. destruct (Z.eqb_spec (left - Z.of_nat (length (buf b))) 0); [lia|done].
Qed.
End Removing.

(** ** No panic

    Neither order nor distance of the runs matters here. *)

Lemma findRight_Some q bs i ri R :
  Forall run_ok bs -> findRightBufferBySeq q bs i = Some (ri, R) -> run_ok R /\ q < seq R.
Proof.
  intros Ho. revert i. induction Ho as [|b bs Hb Ho IH]; intros i; cbn [findRightBufferBySeq]; [done|].
  unfold LeftBoundary. destruct (Z.gtb_spec (seq b) q); [intros [= <- <-]; done|apply IH].
Qed.

Lemma findLeft_Some q bs i prev li L :
  Forall run_ok bs -> (forall j b, prev = Some (j, b) -> run_ok b /\ seq b <= q) ->
  findLeftBufferBySeq q bs i prev = Some (li, L) -> run_ok L /\ seq L <= q.
Proof.
  intros Ho. revert i prev. induction Ho as [|b bs Hb Ho IH]; intros i prev Hp; cbn [findLeftBufferBySeq].
  - apply Hp.
  - unfold LeftBoundary. destruct (Z.gtb_spec (seq b) q); [apply Hp|].
    apply IH. intros j b' [= <- <-]. split; [done|lia].
Qed.

Lemma Forall_slices_insert {A} (Q : A -> Prop) l i x : Forall Q l -> Q x -> Forall Q (slices_insert l i x).
Proof.
  intros. apply Forall_app. split; [by apply Forall_take|]. constructor; [done|by apply Forall_drop].
Qed.
Lemma Forall_slices_delete {A} (Q : A -> Prop) l i : Forall Q l -> Forall Q (slices_delete l i).
Proof. intros. apply Forall_app. split; [by apply Forall_take|by apply Forall_drop]. Qed.

Section NoPanic.
Context (n : Buffer) (Hn : run_ok n).

Lemma can_left_joins L : run_ok L -> CanFuseAsLeft L (seq n) (u64 (zlen (buf n))) = true -> joins_left n L.
Proof using Hn. intros HL. rewrite u64_zlen by done. by apply CanFuseAsLeft_spec. Qed.
Lemma can_right_joins R :
  run_ok R -> seq n < seq R -> CanFuseAsRight R (seq n) (u64 (zlen (buf n))) = true -> joins_right n R.
Proof using Hn.
  intros HR Hlt. rewrite u64_zlen by done. rewrite CanFuseAsRight_spec by done. unfold joins_right. lia.
Qed.

(** The two fusions, as a step each: what they return is a run again. *)
Lemma fuse_left_total L :
  run_ok L -> CanFuseAsLeft L (seq n) (u64 (zlen (buf n))) = true ->
  FuseAsLeft L (seq n) (buf n) = Ret (fused_left L n) /\ run_ok (fused_left L n) /\
  stop (fused_left L n) = stop n /\ seq (fused_left L n) <= seq n.
Proof using Hn.
  intros HL Hj%can_left_joins; [|done]. pose proof (fused_left_ok n Hn L HL Hj). destruct Hj as [H1 H2].
  split; [by apply FuseAsLeft_ok|]. split; [done|]. split; [apply fused_left_stop; lia|].
  cbn [fused_left seq]. lia.
Qed.
Lemma fuse_right_total m R :
  run_ok m -> run_ok R -> stop m = stop n -> seq m <= seq n -> seq n < seq R ->
  CanFuseAsRight R (seq n) (u64 (zlen (buf n))) = true ->
  FuseAsRight R (seq m) (buf m) = Ret (fused_right m R) /\ run_ok (fused_right m R).
Proof using Hn.
  intros Hm HR Hs Hl Hlt Hj%can_right_joins; [|done..]. destruct Hj as [H1 H2].
  split; [apply FuseAsRight_ok; (done || lia)|apply fused_right_ok; (done || lia)].
Qed.

Lemma add_to_buffers_total bs :
  Forall run_ok bs -> exists bs', add_to_buffers bs (seq n) (buf n) = Ret bs' /\ Forall run_ok bs'.
Proof using Hn.
  intros Ho. unfold add_to_buffers. cbv zeta.
  assert (Hself : run_ok (mk_Buffer (buf n) (seq n))) by (by destruct n).
  destruct (findLeftBufferBySeq (seq n) bs 0 None) as [ [li L]|] eqn:EL;
  destruct (findRightBufferBySeq (seq n) bs 0) as [ [ri R]|] eqn:ER.
  all: try (apply findLeft_Some in EL as [HL HLs]; [|done|done]).
  all: try (apply findRight_Some in ER as [HR HRs]; [|done]).
  - destruct (CanFuseAsLeft L (seq n) (u64 (zlen (buf n)))) eqn:E1, (CanFuseAsRight R (seq n) (u64 (zlen (buf n)))) eqn:E2; cbn [andb negb].
    + destruct (fuse_left_total L HL E1) as (-> & Hf & Hs & Hq). cbn [mbind go_bind].
      destruct (fuse_right_total (fused_left L n) R Hf HR Hs Hq HRs E2) as [-> Hf2]. cbn [mbind go_bind].
      eexists. split; [done|]. apply Forall_slices_delete. by do 2 (apply Forall_insert; [|done]).
    + destruct (fuse_left_total L HL E1) as (-> & Hf & _). eexists. split; [done|]. by apply Forall_insert.
    + destruct (fuse_right_total n R Hn HR ltac:(done) ltac:(lia) HRs E2) as [-> Hf2].
      eexists. split; [done|]. by apply Forall_insert.
    + eexists. split; [done|]. by apply Forall_slices_insert.
  - destruct (CanFuseAsLeft L (seq n) (u64 (zlen (buf n)))) eqn:E1.
    + destruct (fuse_left_total L HL E1) as (-> & Hf & _). eexists. split; [done|]. by apply Forall_insert.
    + eexists. split; [done|]. apply Forall_app. split; [done|by constructor].
  - destruct (CanFuseAsRight R (seq n) (u64 (zlen (buf n)))) eqn:E2.
    + destruct (fuse_right_total n R Hn HR ltac:(done) ltac:(lia) HRs E2) as [-> Hf2].
      eexists. split; [done|]. by apply Forall_insert.
    + eexists. split; [done|]. by apply Forall_slices_insert.
  - eexists. split; [done|]. apply Forall_app. split; [done|by constructor].
Qed.
End NoPanic.

Lemma suffix_Forall {A} (Q : A -> Prop) l l' : l' `suffix_of` l -> Forall Q l -> Forall Q l'.
Proof. intros [k ->]. rewrite Forall_app. tauto. Qed.

Lemma Add_total {T} `{TreeMap T} (sb : StreamBuffer T) n t :
  run_ok n -> Forall run_ok (buffers sb) ->
  exists r sb', Add sb (seq n) (buf n) t = Ret (r, sb') /\ Forall run_ok (buffers sb') /\
    capacity sb' = capacity sb.
Proof.
  intros Hn Ho. assert (Hself : Forall run_ok [mk_Buffer (buf n) (seq n)]).
  { constructor; [by destruct n|done]. }
  unfold Add. destruct (tm_Get _ _); [by eauto|]. destruct (IsEmpty sb) eqn:E.
  { eexists _, _. split; [done|]. fsimp_goal. split; [|done]. apply Forall_app. by split. }
  destruct (_ >=? _); [by eexists _, _|]. destruct (_ >=? _); [by eauto|].
  destruct (_ >=? _); [by eexists _, _|].
  destruct (add_to_buffers_total n Hn _ Ho) as (bs' & -> & Hb). cbn [mbind go_bind].
  eexists _, _. split; [done|]. fsimp_goal. unfold shrinkBufferUntilSizeBelowCapacity, updateTimestamp.
  fsimp_goal. pose proof (suffix_Forall _ _ _ (shrinkLoop_suffix (capacity sb) bs' None) Hb) as Hs.
  by destruct (shrinkLoop _ _ _) as [bs [b|] ].
Qed.

(** ** The stream as an abstract value *)

(** A stream buffer stands for a partial map from positions to bytes. *)
Definition represents {T} (sb : StreamBuffer T) (f : Z -> option Z) : Prop :=
  runs_ok (buffers sb) /\ forall p, bytes_at (buffers sb) p = f p.

(** The abstract operations: learn the bytes of a chunk where none is known, and
    forget those before a position. *)
Definition learn (f : Z -> option Z) (n : Buffer) : Z -> option Z := fun p => f p ∪ byte_at n p.
Definition forget (cutoff : Z) (f : Z -> option Z) : Z -> option Z :=
  fun p => if p <? cutoff then None else f p.

Lemma bytes_at_suffix k bs p :
  runs_ok (k ++ bs) ->
  let cutoff := match bs with [] => positionN k | b :: _ => seq b end in
  bytes_at bs p = forget cutoff (bytes_at (k ++ bs)) p.
Proof.
  intros Hr cutoff. unfold forget. rewrite bytes_at_app. apply runs_ok_app in Hr as (Hk & Hb & Hg).
  destruct bs as [|b bs]; unfold cutoff; clear cutoff.
  - cbn [bytes_at foldr]. destruct (Z.ltb_spec p (positionN k)); [done|]. rewrite (right_id _ _).
    destruct (decide (k = [])) as [->|Hne]; [done|]. symmetry. apply eq_None_not_Some. intros Hs.
    destruct (exists_last Hne) as (k' & b & ->). pose proof Hk as Hk'.
    apply runs_ok_app in Hk as (_ & [Hob _] & Hg'). apply Forall_inv in Hob.
    rewrite positionN_snoc in * by done. rewrite bytes_at_None in Hs; [by destruct Hs|].
    apply Forall_app. split; [|by constructor; [right|] ]. apply Forall_forall. intros a Ha.
    right. specialize (Hg' a b Ha ltac:(by left)). unfold gap, run_ok in *. lia.
  - destruct (Z.ltb_spec p (seq b)); [by apply bytes_at_first|].
    rewrite (bytes_at_None k); [by rewrite (left_id _ _)|]. apply Forall_forall. intros a Ha.
    right. specialize (Hg a b Ha ltac:(by left)). unfold gap in Hg. lia.
Qed.

(** ** Properties *)


(** [add_refines] for data that closes the gap between two runs and overlaps the second. *)
Definition two_runs : StreamBuffer (gmap Z Z) :=
  mk_StreamBuffer [mk_Buffer [10; 11] 100; mk_Buffer [15; 16; 17] 105] 1048576
    {[100 := 1; 105 := 2]}.

(** [Add] never panics.  Whatever runs the buffer holds, in whatever order
    and with whatever overlaps, adding non-empty data at positions below [2^63]
    returns, with runs of the same kind. *)
Theorem add_never_panics {T} `{TreeMap T} (sb : StreamBuffer T) n t :
  run_ok n -> Forall run_ok (buffers sb) ->
  exists r sb', Add sb (seq n) (buf n) t = Ret (r, sb') /\ Forall run_ok (buffers sb') /\
    capacity sb' = capacity sb.
Proof. apply Add_total. Qed.

(** [add_never_panics] on overlapping runs. *)
Lemma add_never_panics_witness :
  let sb := mk_StreamBuffer (T := gmap Z Z) [mk_Buffer [1; 2; 3] 10; mk_Buffer [2] 11] 100 ∅ in
  exists r sb', Add sb 12 [3; 4] 7 = Ret (r, sb') /\ Forall run_ok (buffers sb') /\
    capacity sb' = 100.
Proof.
  intros sb. apply (add_never_panics sb (mk_Buffer [3; 4] 12) 7).
  - unfold run_ok, stop, zlen. cbn. lia.
  - repeat constructor; unfold run_ok, stop, zlen; cbn; lia.
Defined.

(** [RemovePrefix] takes exactly the first [len] known bytes off the stream,
    and the runs that remain are ordered and apart if they were. *)
Theorem removePrefix_spec {T} `{TreeMap T} (sb : StreamBuffer T) len :
  Forall run_ok (buffers sb) -> 0 <= len <= zlen (content (buffers sb)) ->
  exists sb', RemovePrefix sb len = Ret sb' /\
    content (buffers sb') = drop (Z.to_nat len) (content (buffers sb)) /\
    Forall run_ok (buffers sb') /\ (runs_ok (buffers sb) -> runs_ok (buffers sb')) /\
    capacity sb' = capacity sb.
Proof.
  intros Ho Hl. unfold RemovePrefix, IsEmpty. destruct (buffers sb) as [|b bs] eqn:E.
  - exists sb. rewrite E. split; [done|]. cbn. by rewrite drop_nil.
  - destruct (cut_ok (b :: bs) len) as (bs' & Hc & Hd & Ho' & Hr'); [done..|].
    pose proof (removePrefixLoop_cut (b :: bs) sb len E) as H'. rewrite Hc in H'.
    destruct H' as (sb' & H1 & H2 & H3). exists sb'. by rewrite H2.
Qed.

(** [removePrefix_spec] across the end of the first run. *)
Lemma removePrefix_spec_witness :
  exists sb', RemovePrefix two_runs 3 = Ret sb' /\ content (buffers sb') = [16; 17] /\
    Forall run_ok (buffers sb') /\ (runs_ok (buffers two_runs) -> runs_ok (buffers sb')) /\
    capacity sb' = 1048576.
Proof.
  apply (removePrefix_spec two_runs 3).
  - repeat constructor; unfold run_ok, stop, zlen; cbn; lia.
  - unfold zlen. cbn. lia.
Defined.

(** When [RemovePrefix] panics.  On a buffer that is not empty it panics
    exactly when it is asked for a negative number of bytes or for more than there
    are: the loop runs out of runs and calls [Len] on a nil head.  On an empty
    buffer every length is accepted. *)
Theorem removePrefix_panics_iff {T} `{TreeMap T} (sb : StreamBuffer T) len :
  Forall run_ok (buffers sb) ->
  RemovePrefix sb len = Panic <->
  buffers sb <> [] /\ (len < 0 \/ zlen (content (buffers sb)) < len).
Proof.
  intros Ho. unfold RemovePrefix, IsEmpty. destruct (buffers sb) as [|b bs] eqn:E.
  { split; [done|]. by intros []. }
  pose proof (removePrefixLoop_cut (b :: bs) sb len E) as Hl. split.
  - intros Hp. split; [done|].
    destruct (decide (len < 0 \/ zlen (content (b :: bs)) < len)) as [|Hn]; [done|].
    destruct (cut_ok (b :: bs) len) as (bs' & Hc & _); [done|lia|].
    rewrite Hc in Hl. destruct Hl as (sb' & Hs & _). congruence.
  - intros [_ Hd]. by rewrite cut_panics in Hl.
Qed.

(** [removePrefix_panics_iff] for one byte too many. *)
Lemma removePrefix_panics_iff_witness :
  RemovePrefix two_runs 6 = Panic <->
  buffers two_runs <> [] /\ (6 < 0 \/ zlen (content (buffers two_runs)) < 6).
Proof.
  apply (removePrefix_panics_iff two_runs 6).
  repeat constructor; unfold run_ok, stop, zlen; cbn; lia.
Defined.

(** Data inside a run.  When new data lies inside a run that is already
    known, at a position no earlier [Add] used, it is not dropped: a second run is
    inserted that overlaps the first, so the same bytes of the stream are in the
    buffer twice and are handed to the parsers twice. *)
Theorem nested_data_duplicated {T} `{TreeMapLaws T} (b n : Buffer) c (ts : T) t :
  run_ok b -> run_ok n -> seq b <= seq n -> stop n < stop b ->
  stop b - seq n < 2147483647 -> stop b - seq b <= c < 9223372036854775808 ->
  tm_Get ts (seq n) = None ->
  exists sb', Add (mk_StreamBuffer [b] c ts) (seq n) (buf n) t = Ret (true, sb') /\
    content (buffers sb') = content [b] ++ buf n.
Proof.
  intros Hb Hn H1 H2 H3 Hc Hts. rewrite Add_normal; cycle 1.
  - split; [by constructor|]. constructor; constructor.
  - done.
  - done.
  - unfold near, Position0, PositionN. cbn [buffers]. change [b] with ([] ++ [b]).
    rewrite positionN_snoc by done. cbn. unfold run_ok in *. lia.
  - done.
  - cbn [buffers]. unfold add_to_buffers. cbn [findLeftBufferBySeq findRightBufferBySeq].
    unfold LeftBoundary. rewrite Z.gtb_ltb. destruct (Z.ltb_spec (seq n) (seq b)); [lia|].
    destruct (CanFuseAsLeft b _ _) eqn:E; [apply can_left_joins in E as [_ ?]; [lia|done..]|].
    cbn [mbind go_bind app]. eexists. split; [done|].
    assert (Hst : shrinkLoop c [b; mk_Buffer (buf n) (seq n)] None
                  = ([b; mk_Buffer (buf n) (seq n)], None)).
    { apply shrinkLoop_id; [|lia]. change [b; ?x] with ([b] ++ [x]).
      rewrite positionN_snoc by (by destruct n). cbn. unfold run_ok, stop in *. cbn. lia. }
    unfold settled, shrinkBufferUntilSizeBelowCapacity, updateTimestamp. fsimp_goal.
    cbn [capacity]. rewrite Hst. fsimp_goal. unfold content. cbn. by rewrite !app_nil_r.
Qed.

(** [nested_data_duplicated] for two bytes in the middle of five. *)
Lemma nested_data_duplicated_witness :
  exists sb', Add (mk_StreamBuffer [mk_Buffer [1; 2; 3; 4; 5] 10] 100 (∅ : gmap Z Z)) 12 [3; 4] 7
    = Ret (true, sb') /\ content (buffers sb') = [1; 2; 3; 4; 5; 3; 4].
Proof.
  apply (nested_data_duplicated (mk_Buffer [1; 2; 3; 4; 5] 10) (mk_Buffer [3; 4] 12) 100 (∅ : gmap Z Z) 7);
    unfold run_ok, stop, zlen; cbn; try lia. reflexivity.
Defined.
