(* ===== verification/Reassembly.v ===== *)
(** * Reassembly of a stream from its chunks

    The events of a connection reach the agent in no fixed order: the perf rings of
    the CPUs are drained independently.  This file shows that the stream buffer
    does not depend on the order: chunks that tile a stream, added in any order,
    leave one run that is the stream. *)

From stdpp Require Import gmap list sorting.
From Stdlib Require Import ZArith Lia.
From S2P Require Import Prelude.
From S2P Require Import GoBase.
From S2P Require Import StreamBuffer.
Local Open Scope Z_scope.

(** ** Chunks of a stream *)

(** The chunks [cs] are consecutive parts of a stream that starts at [base]. *)
Fixpoint tiles_from (base : Z) (cs : list Buffer) : Prop :=
  match cs with
  | [] => True
  | c :: cs => seq c = base /\ buf c <> [] /\ tiles_from (stop c) cs
  end.

Definition stream_of (cs : list Buffer) : list Z := concat (buf <$> cs).

Definition apart (a b : Buffer) : Prop := stop a <= seq b \/ stop b <= seq a.

Lemma nonempty_zlen {A} (l : list A) : l <> [] -> 0 < zlen l.
Proof. destruct l; [done|]. rewrite zlen_cons. pose proof (zlen_nonneg l). lia. Qed.

Lemma tiles_inside base cs :
  tiles_from base cs ->
  Forall (fun c => base <= seq c < stop c /\ stop c <= base + zlen (stream_of cs)) cs.
Proof.
  revert base. induction cs as [|c cs IH]; intros base; [done|]. intros (Hs & Hne & Ht).
  change (stream_of (c :: cs)) with (buf c ++ stream_of cs).
  pose proof (zlen_app (buf c) (stream_of cs)). pose proof (zlen_nonneg (stream_of cs)).
  pose proof (nonempty_zlen _ Hne). constructor; [unfold stop; lia|].
  eapply Forall_impl; [exact (IH _ Ht)|]. cbv beta. unfold stop. intros. lia.
Qed.

Lemma tiles_sorted base cs : tiles_from base cs -> StronglySorted (fun a b => stop a <= seq b) cs.
Proof.
  revert base. induction cs as [|c cs IH]; intros base; [constructor|]. intros (Hs & Hne & Ht).
  constructor; [by eapply IH|]. eapply Forall_impl; [exact (tiles_inside _ _ Ht)|]. cbv beta. lia.
Qed.

Lemma tiles_NoDup base cs : tiles_from base cs -> NoDup (seq <$> cs).
Proof.
  revert base. induction cs as [|c cs IH]; intros base; [constructor|]. intros (Hs & Hne & Ht).
  pose proof (nonempty_zlen _ Hne). rewrite fmap_cons. constructor; [|by eapply IH].
  intros (c' & E & Hc)%list_elem_of_fmap. pose proof (tiles_inside _ _ Ht) as Hf.
  rewrite Forall_forall in Hf. specialize (Hf _ Hc). unfold stop in *. lia.
Qed.

Lemma sorted_apart cs a b :
  StronglySorted (fun a b => stop a <= seq b) cs -> a ∈ cs -> b ∈ cs -> a = b \/ apart a b.
Proof.
  induction 1 as [|c cs Hs IH Hc]; intros Ha Hb; [by apply not_elem_of_nil in Ha|].
  rewrite Forall_forall in Hc. apply elem_of_cons in Ha as [->|Ha], Hb as [->|Hb]; auto.
  - right. left. auto.
  - right. right. auto.
Qed.

Lemma tiles_apart base cs a b : tiles_from base cs -> a ∈ cs -> b ∈ cs -> a = b \/ apart a b.
Proof. intros Ht. eapply sorted_apart, tiles_sorted, Ht. Qed.

Lemma bytes_at_tiles base cs p :
  tiles_from base cs -> bytes_at cs p = byte_at (mk_Buffer (stream_of cs) base) p.
Proof.
  revert base. induction cs as [|c cs IH]; intros base.
  - intros _. unfold byte_at. cbn. by destruct (_ <=? _).
  - intros (<- & Hne & Ht). rewrite bytes_at_cons, (IH _ Ht).
    set (n := mk_Buffer (stream_of cs) (stop c)).
    replace (mk_Buffer (stream_of (c :: cs)) (seq c)) with (fused_left c n).
    + rewrite byte_at_fused_left; [done| |]; cbn; unfold stop, n; cbn;
        pose proof (zlen_nonneg (buf c)); pose proof (zlen_nonneg (stream_of cs)); unfold stop; lia.
    + unfold fused_left, n. cbn [buf seq]. by rewrite Z.sub_diag.
Qed.

(** The bytes of a set of chunks. *)
Definition has_byte (cs : list Buffer) (p v : Z) : Prop := exists c, c ∈ cs /\ byte_at c p = Some v.

Lemma apart_None a b p v : apart a b -> byte_at a p = Some v -> byte_at b p = None.
Proof.
  intros Hab Ha. apply byte_at_None. unfold apart in Hab.
  assert (seq a <= p < stop a) by (apply byte_at_Some; by eexists). lia.
Qed.

Lemma bytes_at_has cs p v :
  StronglySorted (fun a b => stop a <= seq b) cs -> bytes_at cs p = Some v <-> has_byte cs p v.
Proof.
  induction 1 as [|c cs Hs IH Hc].
  { split; [done|]. intros (c & []%not_elem_of_nil & _). }
  rewrite bytes_at_cons. destruct (byte_at c p) as [w|] eqn:E.
  - rewrite union_Some_l. split.
    + intros [= ->]. exists c. split; [by left|done].
    + intros (c' & [->|Hin]%elem_of_cons & Hv); [congruence|].
      rewrite Forall_forall in Hc. specialize (Hc _ Hin).
      rewrite (apart_None c c' p w) in Hv; [done| |done]. by left.
  - rewrite (left_id _ _), IH. split.
    + intros (c' & Hin & Hv). exists c'. split; [by right|done].
    + intros (c' & [->|Hin]%elem_of_cons & Hv); [congruence|]. by exists c'.
Qed.

(** ** Reassembly *)

Section Reassembly.
Context {T : Type} `{TreeMapLaws T}.
Implicit Types sb : StreamBuffer T.



(** [Add] for every chunk of a list, each with the time of its event. *)
Fixpoint add_all sb (l : list (Buffer * Z)) : go (bool * StreamBuffer T) :=
  match l with
  | [] => Ret (true, sb)
  | (n, t) :: l =>
    '(r, sb) ← Add sb (seq n) (buf n) t;
    '(rs, sb) ← add_all sb l;
    Ret (r && rs, sb)
  end.

(** The times known: those of the chunks added, all of them as long as there
    are not too many. *)
Definition times_of (P : list (Buffer * Z)) (ts : T) : Prop :=
  (forall q, is_Some (tm_Get ts q) -> q ∈ (seq <$> P.*1)) /\
  ((zlen P <= maxTimestampEntries) -> forall n t, (n, t) ∈ P -> tm_Get ts (seq n) = Some t).

Lemma times_of_put P ts n t :
  times_of P ts -> seq n ∉ (seq <$> P.*1) -> times_of (P ++ [(n, t)]) (tm_Put ts (seq n) t).
Proof.
  intros [H1 H2] Hn. split.
  - intros q. rewrite tm_get_put, !fmap_app. cbn. case_decide as E; intros Hq.
    + subst. apply elem_of_app. right. by left.
    + apply elem_of_app. left. auto.
  - rewrite zlen_app. intros Hl n' t' [Hin|Hin]%elem_of_app.
    + rewrite tm_get_put, decide_False; [apply H2; [unfold zlen in *; lia|done]|].
      intros E. apply Hn. rewrite <- E. apply list_elem_of_fmap. exists n'. split; [done|].
      apply list_elem_of_fmap. by exists (n', t').
    + apply list_elem_of_singleton in Hin as [= -> ->]. by rewrite tm_get_put, decide_True.
Qed.

Lemma sorted_lt_NoDup l : StronglySorted Z.lt l -> NoDup l.
Proof.
  induction 1 as [|x l Hs IH Hx]; constructor; [|done].
  rewrite Forall_forall in Hx. intros Hin. specialize (Hx _ Hin). lia.
Qed.

Lemma times_of_clean P ts : times_of P ts -> times_of P (cleanOldTimestamps ts).
Proof.
  intros [H1 H2]. split; [intros q Hq%cleanOld_sub; auto|].
  intros Hl. unfold cleanOldTimestamps. destruct (Z.leb_spec (tm_Size ts) maxTimestampEntries); [auto|].
  exfalso. assert (length (tm_Keys ts) <= length (seq <$> P.*1))%nat.
  { apply submseteq_length, NoDup_submseteq; [apply sorted_lt_NoDup, tm_keys_sorted|].
    intros q Hq%tm_keys_get. auto. }
  rewrite !length_fmap in *. unfold tm_Size, zlen in *. lia.
Qed.

Definition holds (P : list (Buffer * Z)) (cap : Z) sb : Prop :=
  runs_ok (buffers sb) /\ capacity sb = cap /\ times_of P (timestamps sb) /\
  (forall p v, bytes_at (buffers sb) p = Some v <-> has_byte P.*1 p v).

Lemma has_byte_snoc P n p v : has_byte (P ++ [n]) p v <-> has_byte P p v \/ byte_at n p = Some v.
Proof.
  unfold has_byte. setoid_rewrite elem_of_app. setoid_rewrite list_elem_of_singleton. split.
  - intros (c & [Hc| ->] & Hv); [left; by exists c|by right].
  - intros [(c & Hc & Hv)|Hv]; [exists c|exists n]; auto.
Qed.

Section Step.
Context (P : list (Buffer * Z)) (n : Buffer) (t lo hi cap : Z).
Hypothesis Hin : Forall (fun c => lo <= seq c < stop c /\ stop c <= hi) (n :: P.*1).
Hypothesis Hap : Forall (apart n) P.*1.
Hypothesis Hlo : 0 <= lo /\ hi < 9223372036854775808.
Hypothesis Hw : hi - lo <= 1048576 /\ hi - lo <= cap < 9223372036854775808.

Lemma chunk_ok : run_ok n.
Proof using Hin Hlo. apply Forall_inv in Hin. unfold run_ok. lia. Qed.

Lemma chunk_new : seq n ∉ (seq <$> P.*1).
Proof using Hin Hap.
  intros (c & E & Hc)%list_elem_of_fmap. apply Forall_cons in Hin as [Hn HP].
  rewrite Forall_forall in HP, Hap. specialize (HP _ Hc). specialize (Hap _ Hc).
  unfold apart in Hap. lia.
Qed.

Lemma chunk_disjoint sb p :
  holds P cap sb -> seq n <= p < stop n -> bytes_at (buffers sb) p = None.
Proof using Hap.
  intros (_ & _ & _ & Hb) Hp. apply eq_None_not_Some. intros [v Hv].
  apply Hb in Hv as (c & Hc & Hv). rewrite Forall_forall in Hap. specialize (Hap _ Hc).
  apply byte_at_Some in Hp as [w Hw']. by rewrite (apart_None _ _ _ _ Hap Hw') in Hv.
Qed.

Lemma holds_bounds sb p : holds P cap sb -> is_Some (bytes_at (buffers sb) p) -> lo <= p < hi.
Proof using Hin.
  intros (_ & _ & _ & Hb) [v (c & Hc & Hv)%Hb]. apply Forall_cons in Hin as [_ HP].
  rewrite Forall_forall in HP. specialize (HP _ Hc).
  assert (seq c <= p < stop c) by (apply byte_at_Some; by eexists). lia.
Qed.

Lemma holds_put sb bs' ts' :
  holds P cap sb -> runs_ok bs' -> times_of (P ++ [(n, t)]) ts' ->
  (forall p, bytes_at bs' p = bytes_at (buffers sb) p ∪ byte_at n p) ->
  holds (P ++ [(n, t)]) cap (mk_StreamBuffer bs' cap ts').
Proof using Hap.
  intros Hh Hr' Ht Hb'. pose proof Hh as (Hr & Hc & _ & Hb). split_and!; try done.
  intros p v. cbn [buffers]. rewrite Hb', fmap_app. change ([(n, t)].*1) with [n]. rewrite has_byte_snoc, <- Hb.
  destruct (byte_at n p) as [w|] eqn:E.
  - rewrite (chunk_disjoint sb p Hh) by (apply byte_at_Some; by eexists).
    rewrite (left_id _ _). split; [by right|by intros [|] ].
  - rewrite (right_id _ _). split; [by left|by intros [|] ].
Qed.

Lemma add_step sb :
  holds P cap sb ->
  exists sb', Add sb (seq n) (buf n) t = Ret (true, sb') /\ holds (P ++ [(n, t)]) cap sb'.
Proof using Hin Hap Hlo Hw H0.
  intros Hh. pose proof Hh as (Hr & Hc & Ht & Hb). pose proof chunk_ok as Hn.
  pose proof (times_of_put _ _ _ t Ht chunk_new) as Ht'.
  assert (Hts : tm_Get (timestamps sb) (seq n) = None).
  { apply eq_None_not_Some. intros Hs. apply chunk_new. by apply Ht. }
  destruct (decide (buffers sb = [])) as [He|He].
  - eexists. split; [by apply Add_first|]. rewrite Hc. apply (holds_put sb); try done.
    + split; [by constructor|]. constructor; constructor.
    + intros p. by rewrite He, bytes_at_cons, (right_id _ _), (left_id _ _).
  - destruct (positions_in _ lo hi Hr He) as (Hp1 & Hp2 & Hp3 & Hp4).
    { intros p. by apply holds_bounds. }
    destruct (add_to_buffers_fits n Hn _ Hr) as (bs' & Ha & Hr' & Hb').
    { apply fits_disjoint; [done..|]. intros p. by apply chunk_disjoint. }
    pose proof (Forall_inv Hin) as Hin'. cbv beta in Hin'.
    assert (Hne : bs' <> []).
    { intros ->. specialize (Hb' (seq n)). destruct (proj2 (byte_at_Some n (seq n)) ltac:(lia)) as [w Hw'].
      rewrite Hw' in Hb'. symmetry in Hb'. apply union_None in Hb' as [_ ?]. done. }
    destruct (positions_in _ lo hi Hr' Hne) as (Hq1 & Hq2 & Hq3 & Hq4).
    { intros p. rewrite Hb'. intros [Hs|Hs]%union_is_Some; [by eapply holds_bounds|].
      apply byte_at_Some in Hs. lia. }
    rewrite Add_normal, Ha; [|done..| |done].
    + eexists. split; [done|]. rewrite settled_inside by lia. rewrite Hc.
      apply (holds_put sb); try done. by apply times_of_clean.
    + unfold near, PositionN, Position0. lia.
Qed.
End Step.

Lemma add_all_holds lo hi cap Q :
  0 <= lo -> hi < 9223372036854775808 -> hi - lo <= 1048576 ->
  hi - lo <= cap < 9223372036854775808 ->
  forall P sb, holds P cap sb -> NoDup (P ++ Q).*1 ->
  Forall (fun c => lo <= seq c < stop c /\ stop c <= hi) (P ++ Q).*1 ->
  (forall a b, a ∈ (P ++ Q).*1 -> b ∈ (P ++ Q).*1 -> a = b \/ apart a b) ->
  exists sb', add_all sb Q = Ret (true, sb') /\ holds (P ++ Q) cap sb'.
Proof.
  intros Hlo Hhi Hw Hcap. induction Q as [|[n t] Q IH]; intros P sb Hh Hnd Hin Hap.
  { exists sb. by rewrite app_nil_r. }
  rewrite fmap_app, fmap_cons in Hnd, Hin, Hap. cbn [fst] in Hnd, Hin, Hap.
  destruct (add_step P n t lo hi cap) with (sb := sb) as (sb1 & Ha & Hh1); try done.
  - apply Forall_app in Hin as [HP [Hn _]%Forall_cons]. by constructor.
  - apply Forall_forall. intros c Hc. destruct (Hap n c) as [->|]; try done.
    + apply elem_of_app. right. by left.
    + apply elem_of_app. by left.
    + apply NoDup_app in Hnd as (_ & Hd & _). destruct (Hd c Hc). by left.
  - destruct (IH (P ++ [(n, t)]) sb1 Hh1) as (sb2 & Hb & Hh2);
      rewrite <- ?app_assoc in *; try (rewrite !fmap_app, ?fmap_cons; done).
    exists sb2. cbn [add_all]. rewrite Ha. cbn [mbind go_bind]. by rewrite Hb.
Qed.
End Reassembly.

(** ** Properties *)

Section AnyOrder.
Context {T : Type} `{TreeMapLaws T}.

Lemma holds_new cap : holds [] cap (New (T := T) cap).
Proof.
  split_and!; try done.
  - split; constructor.
  - split; [|intros _ n t []%not_elem_of_nil]. intros q. cbn. rewrite tm_get_new. by intros [].
  - intros p v. cbn. split; [done|]. intros (c & []%not_elem_of_nil & _).
Qed.

Lemma holds_tiles base (cs cs' : list (Buffer * Z)) cap (sb : StreamBuffer T) :
  tiles_from base cs.*1 -> cs' ≡ₚ cs -> holds cs' cap sb -> cs <> [] ->
  0 <= base -> base + zlen (stream_of cs.*1) < 9223372036854775808 ->
  buffers sb = [mk_Buffer (stream_of cs.*1) base].
Proof.
  intros Ht Hp (Hr & _ & _ & Hb) Hne H1 H2. apply runs_canonical; [done| |].
  - assert (Hpos : 0 < zlen (stream_of cs.*1)).
    { destruct cs as [|[c t] cs]; [done|]. destruct Ht as (_ & Hn & _). cbn [fst] in Hn.
      change (stream_of _) with (buf c ++ stream_of cs.*1). rewrite zlen_app.
      pose proof (nonempty_zlen _ Hn). pose proof (zlen_nonneg (stream_of cs.*1)). lia. }
    split; [|constructor; constructor]. constructor; [|done].
    unfold run_ok, stop. cbn [seq buf]. lia.
  - intros p. rewrite bytes_at_cons, (right_id _ _), <- bytes_at_tiles by done.
    apply option_eq. intros v. rewrite Hb, (bytes_at_has cs.*1) by (by eapply tiles_sorted).
    unfold has_byte. by setoid_rewrite Hp.
Qed.

(** C28: reassembly.  Take the chunks of a stream of at most a mebibyte, none of
    them empty, and add them to a new stream buffer in any order.  Every [Add]
    succeeds, and in the end the buffer holds one run, which is the stream from
    its first position on.  Every position then has the time of the event of its
    chunk, unless there are more chunks than the table of times keeps. *)
Theorem reassembly base (cs cs' : list (Buffer * Z)) cap :
  tiles_from base cs.*1 -> cs <> [] -> cs' ≡ₚ cs ->
  0 <= base -> base + zlen (stream_of cs.*1) < 9223372036854775808 ->
  zlen (stream_of cs.*1) <= maxBytesGap -> zlen (stream_of cs.*1) <= cap < 9223372036854775808 ->
  exists sb, add_all (New (T := T) cap) cs' = Ret (true, sb) /\
    buffers sb = [mk_Buffer (stream_of cs.*1) base] /\
    (zlen cs <= maxTimestampEntries ->
     forall c t p, (c, t) ∈ cs -> seq c <= p < stop c -> FindTimestampBySeq sb p = (t, true)).
Proof.
  intros Ht Hne Hp H1 H2 H3 H4. set (hi := base + zlen (stream_of cs.*1)) in *.
  destruct (add_all_holds base hi cap cs') with (P := @nil (Buffer * Z)) (sb := New (T := T) cap)
    as (sb & Ha & Hh); try (unfold hi; change maxBytesGap with 1048576 in H3; lia).
  - apply holds_new.
  - cbn [app]. rewrite Hp. eapply NoDup_fmap_1, tiles_NoDup, Ht.
  - cbn [app]. rewrite Hp. apply tiles_inside, Ht.
  - cbn [app]. intros a b. rewrite Hp. eapply tiles_apart, Ht.
  - exists sb. split; [done|]. split; [by eapply holds_tiles|].
    intros Hl c t p Hc Hin. destruct Hh as (_ & _ & [Hk Hv] & _). unfold FindTimestampBySeq.
    assert (Hf : tm_Floor (timestamps sb) p = Some (seq c, t)); [|by rewrite Hf].
    apply tm_floor_some. split; [|split; [lia|] ].
    + apply Hv; [unfold zlen in *; by rewrite Hp|by rewrite Hp].
    + intros i Hi Hle. apply Hk, list_elem_of_fmap in Hi as (c' & -> & Hc').
      cbn [app] in Hc'. rewrite Hp in Hc'.
      assert (Hcin : c ∈ cs.*1) by (apply list_elem_of_fmap; by exists (c, t)).
      pose proof (tiles_inside _ _ Ht) as Hf'. rewrite Forall_forall in Hf'.
      specialize (Hf' _ Hc'). destruct (tiles_apart _ _ _ _ Ht Hc' Hcin) as [->|Hap]; [lia|].
      unfold apart in Hap. lia.
Qed.
End AnyOrder.

(** [reassembly] for three chunks that arrive last first. *)
Definition three_chunks : list (Buffer * Z) :=
  [(mk_Buffer [1; 2] 101, 7); (mk_Buffer [3] 103, 8); (mk_Buffer [4; 5; 6] 104, 9)].
Lemma reassembly_witness :
  exists sb, add_all (New (T := gmap Z Z) 1048576) (rev three_chunks) = Ret (true, sb) /\
    buffers sb = [mk_Buffer [1; 2; 3; 4; 5; 6] 101] /\
    (3 <= maxTimestampEntries ->
     forall c t p, (c, t) ∈ three_chunks -> seq c <= p < stop c -> FindTimestampBySeq sb p = (t, true)).
Proof.
  apply (reassembly 101 three_chunks).
  - cbn. unfold stop, zlen. cbn. split_and!; done.
  - done.
  - symmetry. apply Permutation_rev.
  - lia.
  - unfold zlen. cbn. lia.
  - unfold zlen. cbn. unfold maxBytesGap. lia.
  - unfold zlen. cbn. lia.
Defined.
