(* ===== verification/RingBuffer.v ===== *)
(** * The agent's ring buffer

    [src/common/ringbuffer.go]: a queue of bounded size in an array that is used
    as a circle.  The agent keeps the kernel events of a connection in one per
    step, and the processor delays events through others.  The operations are
    shown to implement a bounded list: [rep rb l] says that [rb] holds [l]. *)

From stdpp Require Import gmap list sorting.
From Stdlib Require Import ZArith Lia.
From S2P Require Import Prelude.
From S2P Require Import GoBase.
Local Open Scope Z_scope.

(** ** Definitions *)

Inductive rb_error : Set :=
| ErrRingBufferFull | ErrRingBufferEmpty | ErrIndexOutOfRange.
#[export] Instance rb_error_eq_dec : EqDecision rb_error.
Proof. solve_decision. Defined.

(** [a % b] on integers. *)
Definition go_rem (a b : Z) : go Z := if b =? 0 then Panic else Ret (Z.rem a b).

Section RingBuffer.
Context {A : Type}.

(** A slot of the array is nil or a value. *)
Record RingBuffer := mk_RingBuffer {
  data : list (option A);
  size : Z;
  start : Z;
  end_ : Z;
  isFull : bool;
}.
#[export] Instance eta_RingBuffer : Eta RingBuffer :=
  fun r => mk_RingBuffer (data r) (size r) (start r) (end_ r) (isFull r).

(** [rb.data[i]] and [rb.data[i] = v]. *)
Definition data_get (d : list (option A)) (i : Z) : go (option A) :=
  if (0 <=? i) && (i <? zlen d) then Ret (default None (d !! Z.to_nat i)) else Panic.
Definition data_set (d : list (option A)) (i : Z) (v : option A) : go (list (option A)) :=
  if (0 <=? i) && (i <? zlen d) then Ret (<[Z.to_nat i := v]> d) else Panic.

Definition NewRingBuffer (sz : Z) : go RingBuffer :=
  if sz <? 0 then Panic
  else Ret (mk_RingBuffer (replicate (Z.to_nat sz) None) sz 0 0 false).

Definition IsEmpty (rb : RingBuffer) : bool := negb (isFull rb) && (start rb =? end_ rb).
Definition IsFull (rb : RingBuffer) : bool := isFull rb.
Definition MaxCapacity (rb : RingBuffer) : Z := size rb.

Definition Size (rb : RingBuffer) : Z :=
  if isFull rb then size rb
  else if end_ rb >=? start rb then end_ rb - start rb
  else size rb - start rb + end_ rb.

(** The common end of [Write] and [Insert]. *)
Definition advance_end (rb : RingBuffer) : go RingBuffer :=
  e ← go_rem (end_ rb + 1) (size rb);
  let rb := rb <| end_ := e |> in
  Ret (if end_ rb =? start rb then rb <| isFull := true |> else rb).

Definition Write (rb : RingBuffer) (value : A) : go (option rb_error * RingBuffer) :=
  if isFull rb then Ret (Some ErrRingBufferFull, rb)
  else
    d ← data_set (data rb) (end_ rb) (Some value);
    rb ← advance_end (rb <| data := d |>);
    Ret (None, rb).

Definition Read (rb : RingBuffer) : go ((rb_error + option A) * RingBuffer) :=
  if IsEmpty rb then Ret (inl ErrRingBufferEmpty, rb)
  else
    value ← data_get (data rb) (start rb);
    d ← data_set (data rb) (start rb) None;
    st ← go_rem (start rb + 1) (size rb);
    Ret (inr value, rb <| data := d |> <| start := st |> <| isFull := false |>).

Definition Peek (rb : RingBuffer) : go (rb_error + option A) :=
  if IsEmpty rb then Ret (inl ErrRingBufferEmpty)
  else value ← data_get (data rb) (start rb); Ret (inr value).

Definition ReadIndex (rb : RingBuffer) (index : Z) : go (rb_error + option A) :=
  if (index <? 0) || (index >=? Size rb) then Ret (inl ErrIndexOutOfRange)
  else
    actualIndex ← go_rem (start rb + index) (size rb);
    value ← data_get (data rb) actualIndex;
    Ret (inr value).

(** The loop of [Insert], [n] iterations from [i] down: element [i - 1] moves to [i]. *)
Fixpoint shift (n : nat) (i : Z) (rb : RingBuffer) : go (list (option A)) :=
  match n with
  | O => Ret (data rb)
  | S n =>
    src ← go_rem (start rb + i - 1) (size rb);
    v ← data_get (data rb) src;
    dst ← go_rem (start rb + i) (size rb);
    d ← data_set (data rb) dst v;
    shift n (i - 1) (rb <| data := d |>)
  end.

Definition Insert (rb : RingBuffer) (index : Z) (value : A) : go (option rb_error * RingBuffer) :=
  if (index <? 0) || (index >? Size rb) then Ret (Some ErrIndexOutOfRange, rb)
  else if isFull rb then Ret (Some ErrRingBufferFull, rb)
  else
    actualIndex ← go_rem (start rb + index) (size rb);
    d ← shift (Z.to_nat (Size rb - index)) (Size rb) rb;
    d ← data_set d actualIndex (Some value);
    rb ← advance_end (rb <| data := d |>);
    Ret (None, rb).

(** The search; [compare] is called with slots, and panics on nil.  Every
    iteration halves the interval, so that [fuel] at least its length suffices. *)
Fixpoint searchLoop (fuel : nat) (rb : RingBuffer) (compare : option A -> go Z) (low high : Z)
    : go (option (Z * bool)) :=
  match fuel with
  | O => Ret None
  | S fuel =>
    if low <=? high then
      let mid := Z.quot (low + high) 2 in
      i ← go_rem (start rb + mid) (size rb);
      midValue ← data_get (data rb) i;
      comp ← compare midValue;
      if comp =? 0 then Ret (Some (mid, true))
      else if comp <? 0 then searchLoop fuel rb compare (mid + 1) high
      else searchLoop fuel rb compare low (mid - 1)
    else Ret (Some (low, false))
  end.

Definition BinarySearch (rb : RingBuffer) (compare : option A -> go Z) : go (option (Z * bool)) :=
  if IsEmpty rb then Ret (Some (0, false))
  else searchLoop (S (Z.to_nat (Size rb))) rb compare 0 (Size rb - 1).

Definition Clear (rb : RingBuffer) : RingBuffer :=
  mk_RingBuffer (replicate (Z.to_nat (size rb)) None) (size rb) 0 0 false.

(** [ForEach] with an action that changes a state [S] and says whether to go on. *)
Fixpoint forEachLoop {S : Type} (n : nat) (i : Z) (rb : RingBuffer) (action : option A -> S -> go (bool * S)) (s : S)
    : go S :=
  match n with
  | O => Ret s
  | Datatypes.S n =>
    index ← go_rem (start rb + i) (size rb);
    v ← data_get (data rb) index;
    r ← action v s;
    match r with
    | (true, s) => forEachLoop n (i + 1) rb action s
    | (false, s) => Ret s
    end
  end.

Definition ForEach {S} (rb : RingBuffer) (action : option A -> S -> go (bool * S)) (s : S) : go S :=
  if IsEmpty rb then Ret s else forEachLoop (Z.to_nat (Size rb)) 0 rb action s.

(** The loop of [DiscardBeforeIndex]: as long as [start] is not [actualIndex].
    It takes at most [size] steps. *)
Fixpoint discardLoop (fuel : nat) (rb : RingBuffer) (actualIndex : Z) : go (option RingBuffer) :=
  match fuel with
  | O => Ret None
  | S fuel =>
    if start rb =? actualIndex then Ret (Some rb)
    else
      d ← data_set (data rb) (start rb) None;
      st ← go_rem (start rb + 1) (size rb);
      discardLoop fuel (rb <| data := d |> <| start := st |> <| isFull := false |>) actualIndex
  end.

Definition DiscardBeforeIndex (rb : RingBuffer) (index : Z) : go (option (option rb_error * RingBuffer)) :=
  if (index <? 0) || (index >=? Size rb) then Ret (Some (Some ErrIndexOutOfRange, rb))
  else
    actualIndex ← go_rem (start rb + index) (size rb);
    r ← discardLoop (S (Z.to_nat (size rb))) rb actualIndex;
    Ret (rb' ← r; Some (None, rb')).
End RingBuffer.
Arguments RingBuffer : clear implicits.

(** ** The list a ring buffer holds *)

Section Rep.
Context {A : Type}.
Implicit Types (rb : RingBuffer A) (l : list A).

(** Slot [i] counted from [start], going round. *)
Definition wrap (st sz i : Z) : Z := (st + i) mod sz.
Definition slot (d : list (option A)) (st sz i : Z) : option A :=
  default None (d !! Z.to_nat (wrap st sz i)).

(** [rb] is well formed and holds [l]: slot [i] has element [i], and the slots
    after the last element are nil. *)
Record rep rb l : Prop := {
  rep_size : 0 < size rb;
  rep_len : zlen l <= size rb;
  rep_data : zlen (data rb) = size rb;
  rep_start : 0 <= start rb < size rb;
  rep_end : end_ rb = wrap (start rb) (size rb) (zlen l);
  rep_full : isFull rb = (zlen l =? size rb);
  rep_slot i : 0 <= i < size rb -> slot (data rb) (start rb) (size rb) i = l !! Z.to_nat i;
}.

Lemma wrap_spec st sz i :
  0 <= st < sz -> 0 <= i <= sz ->
  wrap st sz i = if decide (st + i < sz) then st + i else st + i - sz.
Proof.
  intros Hs Hi. unfold wrap. case_decide.
  - apply Z.mod_small. lia.
  - symmetry. apply Z.mod_unique with 1; lia.
Qed.

Lemma wrap_range st sz i : 0 < sz -> 0 <= wrap st sz i < sz.
Proof. intros. unfold wrap. apply Z.mod_pos_bound. lia. Qed.

Lemma wrap_inj st sz i j :
  0 <= st < sz -> 0 <= i < sz -> 0 <= j < sz -> wrap st sz i = wrap st sz j -> i = j.
Proof. intros Hs Hi Hj. rewrite !wrap_spec by lia. repeat case_decide; lia. Qed.

Lemma wrap_next st sz i :
  0 <= st < sz -> 0 <= i -> wrap (wrap st sz 1) sz i = wrap st sz (i + 1).
Proof. intros. unfold wrap. rewrite Zplus_mod_idemp_l. f_equal. lia. Qed.

Lemma go_rem_ok a b : 0 <= a -> 0 < b -> go_rem a b = Ret (a mod b).
Proof.
  intros. unfold go_rem. destruct (Z.eqb_spec b 0); [lia|]. by rewrite Z.rem_mod_nonneg by lia.
Qed.

Lemma data_get_ok (d : list (option A)) st sz i :
  zlen d = sz -> 0 < sz -> data_get d (wrap st sz i) = Ret (slot d st sz i).
Proof.
  intros Hd Hs. unfold data_get, slot. pose proof (wrap_range st sz i Hs).
  destruct (Z.leb_spec 0 (wrap st sz i)), (Z.ltb_spec (wrap st sz i) (zlen d)); try lia. done.
Qed.

Lemma data_set_ok (d : list (option A)) st sz i v :
  zlen d = sz -> 0 < sz -> data_set d (wrap st sz i) v = Ret (<[Z.to_nat (wrap st sz i) := v]> d).
Proof.
  intros Hd Hs. unfold data_set. pose proof (wrap_range st sz i Hs).
  destruct (Z.leb_spec 0 (wrap st sz i)), (Z.ltb_spec (wrap st sz i) (zlen d)); try lia. done.
Qed.

Lemma zlen_insert {B} (d : list B) i v : zlen (<[i := v]> d) = zlen d.
Proof. unfold zlen. by rewrite length_insert. Qed.

Lemma slot_set (d : list (option A)) st sz i j v :
  zlen d = sz -> 0 <= st < sz -> 0 <= i < sz -> 0 <= j < sz ->
  slot (<[Z.to_nat (wrap st sz i) := v]> d) st sz j = if decide (j = i) then v else slot d st sz j.
Proof.
  intros Hd Hs Hi Hj. unfold slot. pose proof (wrap_range st sz i ltac:(lia)).
  pose proof (wrap_range st sz j ltac:(lia)). case_decide as E.
  - subst j. rewrite list_lookup_insert_eq; [done|]. unfold zlen in Hd. lia.
  - rewrite list_lookup_insert_ne; [done|]. intros E'. apply E.
    apply (wrap_inj st sz); try done; lia.
Qed.

(** The start moves on by one. *)
Lemma slot_next (d : list (option A)) st sz i :
  0 <= st < sz -> 0 <= i -> slot d (wrap st sz 1) sz i = slot d st sz (i + 1).
Proof. intros. unfold slot. by rewrite wrap_next. Qed.

Lemma wrap_0 st sz : 0 <= st < sz -> wrap st sz 0 = st.
Proof. intros. unfold wrap. rewrite Z.add_0_r. by apply Z.mod_small. Qed.

(** ** The queries *)

Lemma Size_rep rb l : rep rb l -> Size rb = zlen l.
Proof.
  intros []. unfold Size. rewrite rep_full0. pose proof (zlen_nonneg l).
  destruct (Z.eqb_spec (zlen l) (size rb)); [done|].
  rewrite rep_end0, wrap_spec by lia. rewrite Z.geb_leb.
  case_decide; destruct (Z.leb_spec (start rb) (start rb + zlen l));
    try destruct (Z.leb_spec (start rb) (start rb + zlen l - size rb)); lia.
Qed.

Lemma IsEmpty_rep rb l : rep rb l -> IsEmpty rb = bool_decide (l = []).
Proof.
  intros []. unfold IsEmpty. rewrite rep_full0, rep_end0, wrap_spec by (pose proof (zlen_nonneg l); lia).
  destruct l as [|x l].
  - change (zlen (@nil A)) with 0 in *. destruct (Z.eqb_spec 0 (size rb)); [lia|].
    rewrite decide_True, bool_decide_eq_true_2 by (done || lia).
    cbn [negb andb]. apply Z.eqb_eq. lia.
  - rewrite zlen_cons in *. pose proof (zlen_nonneg l).
    rewrite bool_decide_eq_false_2 by done. apply andb_false_iff.
    destruct (Z.eqb_spec (zlen l + 1) (size rb)); [by left|right].
    case_decide; apply Z.eqb_neq; lia.
Qed.

Lemma slot_rep rb l i x :
  rep rb l -> 0 <= i -> l !! Z.to_nat i = Some x ->
  slot (data rb) (start rb) (size rb) i = Some x /\ i < zlen l.
Proof.
  intros Hr Hi Hx. pose proof (lookup_lt_Some _ _ _ Hx). pose proof (rep_len _ _ Hr).
  unfold zlen in *. rewrite (rep_slot _ _ Hr) by (unfold zlen; lia). split; [done|lia].
Qed.

Lemma ReadIndex_rep rb l i :
  rep rb l -> ReadIndex rb i =
    Ret (if decide (0 <= i < zlen l) then inr (l !! Z.to_nat i) else inl ErrIndexOutOfRange).
Proof.
  intros Hr. unfold ReadIndex. rewrite (Size_rep _ _ Hr), Z.geb_leb. pose proof Hr as [].
  destruct (Z.ltb_spec i 0), (Z.leb_spec (zlen l) i); cbn [orb]; case_decide; try lia; try done.
  rewrite go_rem_ok by lia. cbn [mbind go_bind]. fold (wrap (start rb) (size rb) i).
  rewrite data_get_ok by (done || lia). cbn [mbind go_bind]. by rewrite rep_slot0 by lia.
Qed.

Lemma Peek_rep rb l :
  rep rb l -> Peek rb = Ret (match l with [] => inl ErrRingBufferEmpty | x :: _ => inr (Some x) end).
Proof.
  intros Hr. unfold Peek. rewrite (IsEmpty_rep _ _ Hr). pose proof Hr as [].
  destruct l as [|x l]; [done|]. rewrite bool_decide_eq_false_2 by done.
  rewrite <- (wrap_0 (start rb) (size rb)) by lia. rewrite data_get_ok by (done || lia).
  cbn [mbind go_bind]. by rewrite rep_slot0 by lia.
Qed.
End Rep.

(** ** The updates *)

Section Updates.
Context {A : Type}.
Implicit Types (rb : RingBuffer A) (l : list A).

(** The end of [Write] and [Insert]: one more element. *)
Lemma advance_end_rep rb l d l' :
  rep rb l -> zlen d = size rb -> zlen l' = zlen l + 1 -> zlen l < size rb ->
  (forall i, 0 <= i < size rb -> slot d (start rb) (size rb) i = l' !! Z.to_nat i) ->
  exists rb', advance_end (rb <| data := d |>) = Ret rb' /\ rep rb' l' /\ size rb' = size rb.
Proof.
  intros [] Hd Hl' Hlt Hs. unfold advance_end. fsimp_goal. pose proof (zlen_nonneg l).
  assert (He : (end_ rb + 1) mod size rb = wrap (start rb) (size rb) (zlen l')).
  { rewrite rep_end0, Hl'. unfold wrap. rewrite Zplus_mod_idemp_l. f_equal. lia. }
  assert (0 <= end_ rb) by (rewrite rep_end0; by apply wrap_range).
  rewrite go_rem_ok by lia. cbn [mbind go_bind]. fsimp_goal. rewrite He.
  eexists. split; [done|].
  assert (Hf : (wrap (start rb) (size rb) (zlen l') =? start rb) = (zlen l' =? size rb)).
  { rewrite wrap_spec by lia. case_decide; destruct (Z.eqb_spec (zlen l') (size rb));
      [lia|..]; try (apply Z.eqb_neq; lia). apply Z.eqb_eq. lia. }
  rewrite Hf. destruct (zlen l' =? size rb) eqn:E; (split; [constructor; fsimp_goal|fsimp_goal]);
    try done; try lia.
  rewrite rep_full0, E. apply Z.eqb_neq. lia.
Qed.

Lemma Write_rep rb l v :
  rep rb l ->
  if decide (zlen l < size rb) then
    exists rb', Write rb v = Ret (None, rb') /\ rep rb' (l ++ [v]) /\ size rb' = size rb
  else Write rb v = Ret (Some ErrRingBufferFull, rb).
Proof.
  intros Hr. pose proof Hr as []. pose proof (zlen_nonneg l). unfold Write. rewrite rep_full0.
  destruct (Z.eqb_spec (zlen l) (size rb)); case_decide; try lia; [done|].
  rewrite rep_end0, data_set_ok by done. cbn [mbind go_bind].
  set (d := <[_ := _]> _).
  destruct (advance_end_rep rb l d (l ++ [v])) as (rb' & -> & ? & ?); try done.
  - unfold d. by rewrite zlen_insert.
  - by rewrite zlen_app.
  - intros i Hi. unfold d. rewrite slot_set by lia. case_decide as E.
    + subst i. unfold zlen. by rewrite Nat2Z.id, lookup_app_r, Nat.sub_diag.
    + rewrite rep_slot0 by done. destruct (Z.lt_ge_cases i (zlen l)).
      * rewrite lookup_app_l; [done|]. unfold zlen in *. lia.
      * rewrite !lookup_ge_None_2; [done| |]; rewrite ?length_app; unfold zlen in *; cbn; lia.
  - by exists rb'.
Qed.

(** Forgetting the first element, as [Read] and [DiscardBeforeIndex] do. *)
Lemma drop_first_rep rb x l :
  rep rb (x :: l) ->
  data_set (data rb) (start rb) None = Ret (<[Z.to_nat (start rb) := None]> (data rb)) /\
  go_rem (start rb + 1) (size rb) = Ret (wrap (start rb) (size rb) 1) /\
  rep (rb <| data := <[Z.to_nat (start rb) := None]> (data rb) |>
          <| start := wrap (start rb) (size rb) 1 |> <| isFull := false |>) l.
Proof.
  intros []. rewrite zlen_cons in *. pose proof (zlen_nonneg l).
  pose proof (wrap_0 (start rb) (size rb) rep_start0) as E0. split; [|split].
  - rewrite <- E0 at 1 2. by rewrite data_set_ok.
  - rewrite go_rem_ok by lia. done.
  - constructor; fsimp_goal; try done; try lia.
    + by rewrite zlen_insert.
    + by apply wrap_range.
    + by rewrite wrap_next by lia.
    + intros i Hi. rewrite slot_next by lia. rewrite <- E0 at 1.
      destruct (Z.eq_dec i (size rb - 1)) as [->|Hne].
      * replace (size rb - 1 + 1) with (size rb) by lia. unfold slot.
        replace (wrap (start rb) (size rb) (size rb)) with (wrap (start rb) (size rb) 0)
          by (rewrite !wrap_spec by lia; repeat case_decide; lia).
        rewrite list_lookup_insert_eq by (rewrite E0; unfold zlen in rep_data0; lia).
        cbn. symmetry. apply lookup_ge_None_2. unfold zlen in *. lia.
      * rewrite slot_set, decide_False by lia. rewrite rep_slot0 by lia.
        by replace (Z.to_nat (i + 1)) with (S (Z.to_nat i)) by lia.
Qed.

Lemma Read_rep rb l :
  rep rb l ->
  match l with
  | [] => Read rb = Ret (inl ErrRingBufferEmpty, rb)
  | x :: l' => exists rb', Read rb = Ret (inr (Some x), rb') /\ rep rb' l' /\ size rb' = size rb
  end.
Proof.
  intros Hr. unfold Read. rewrite (IsEmpty_rep _ _ Hr). destruct l as [|x l]; [done|].
  rewrite bool_decide_eq_false_2 by done. pose proof Hr as [].
  destruct (drop_first_rep _ _ _ Hr) as (Hd & Hg & Hr').
  assert (Hx : data_get (data rb) (start rb) = Ret (Some x)).
  { rewrite <- (wrap_0 (start rb) (size rb)) by lia. rewrite data_get_ok by done.
    by rewrite rep_slot0 by lia. }
  rewrite Hx, Hd, Hg. cbn [mbind go_bind]. by eexists.
Qed.

Lemma discardLoop_rep fuel k rb l :
  rep rb l -> (k < fuel)%nat -> (k < length l)%nat -> 
  forall st sz, st = start rb -> sz = size rb ->
  exists rb', discardLoop fuel rb (wrap st sz (Z.of_nat k)) = Ret (Some rb') /\ rep rb' (drop k l) /\
    size rb' = size rb.
Proof.
  revert fuel rb l. induction k as [|k IH]; intros [|fuel] rb l Hr Hf Hk st sz -> ->; try lia;
    pose proof Hr as []; cbn [discardLoop].
  - rewrite wrap_0 by done. rewrite Z.eqb_refl. by exists rb.
  - destruct l as [|x l]; cbn [length] in Hk; [lia|].
    rewrite zlen_cons in *.
    destruct (Z.eqb_spec (start rb) (wrap (start rb) (size rb) (Z.of_nat (S k)))) as [E|_].
    { exfalso. rewrite <- (wrap_0 (start rb) (size rb)) in E at 1 by done.
      apply wrap_inj in E; unfold zlen in *; lia. }
    destruct (drop_first_rep _ _ _ Hr) as (-> & -> & Hr'). cbn [mbind go_bind].
    destruct (IH fuel _ l Hr' ltac:(lia) ltac:(lia) _ _ eq_refl eq_refl) as (rb' & Hd & Hr2 & Hs).
    fsimp. rewrite wrap_next in Hd by lia.
    replace (Z.of_nat k + 1) with (Z.of_nat (S k)) in Hd by lia. by exists rb'.
Qed.

Lemma DiscardBeforeIndex_rep rb l i :
  rep rb l ->
  if decide (0 <= i < zlen l) then
    exists rb', DiscardBeforeIndex rb i = Ret (Some (None, rb')) /\ rep rb' (drop (Z.to_nat i) l) /\
      size rb' = size rb
  else DiscardBeforeIndex rb i = Ret (Some (Some ErrIndexOutOfRange, rb)).
Proof.
  intros Hr. unfold DiscardBeforeIndex. rewrite (Size_rep _ _ Hr), Z.geb_leb. pose proof Hr as [].
  destruct (Z.ltb_spec i 0), (Z.leb_spec (zlen l) i); cbn [orb]; case_decide; try lia; try done.
  rewrite go_rem_ok by lia. cbn [mbind go_bind]. fold (wrap (start rb) (size rb) i).
  destruct (discardLoop_rep (S (Z.to_nat (size rb))) (Z.to_nat i) rb l Hr) with
    (st := start rb) (sz := size rb) as (rb' & Hd & Hr' & Hs); try done; try (unfold zlen in *; lia).
  rewrite Z2Nat.id in Hd by lia. rewrite Hd. by exists rb'.
Qed.
End Updates.

Section Inserts.
Context {A : Type}.
Implicit Types (rb : RingBuffer A) (l : list A).

Lemma shift_slots n : forall i rb,
  0 < size rb -> zlen (data rb) = size rb -> 0 <= start rb < size rb ->
  Z.of_nat n <= i -> i < size rb ->
  exists d, shift n i rb = Ret d /\ zlen d = size rb /\
    forall k, 0 <= k < size rb -> slot d (start rb) (size rb) k =
      slot (data rb) (start rb) (size rb) (if decide (i - Z.of_nat n < k <= i) then k - 1 else k).
Proof.
  induction n as [|n IH]; intros i rb Hs Hd Hst Hn Hi; cbn [shift].
  - exists (data rb). split; [done|]. split; [done|]. intros k Hk. case_decide; [lia|done].
  - rewrite !go_rem_ok by lia. cbn [mbind go_bind].
    replace (start rb + i - 1) with (start rb + (i - 1)) by lia.
    fold (wrap (start rb) (size rb) (i - 1)). fold (wrap (start rb) (size rb) i).
    rewrite data_get_ok by done. cbn [mbind go_bind]. rewrite data_set_ok by done. cbn [mbind go_bind].
    destruct (IH (i - 1) (rb <| data := <[Z.to_nat (wrap (start rb) (size rb) i) :=
      slot (data rb) (start rb) (size rb) (i - 1)]> (data rb) |>)) as (d & Hsh & Hz & Hsl);
      fsimp; try done; try lia.
    { by rewrite zlen_insert. }
    exists d. split; [done|]. split; [done|]. intros k Hk. rewrite Hsl by done.
    case_decide; rewrite slot_set by lia.
    + rewrite decide_False, decide_True by lia. done.
    + case_decide as E; [subst k; by rewrite decide_True by lia|]. by rewrite decide_False by lia.
Qed.

Lemma lookup_slices_insert l i x k :
  (i <= length l)%nat ->
  slices_insert l i x !! k =
    if decide (k < i)%nat then l !! k else if decide (k = i) then Some x else l !! pred k.
Proof.
  intros Hi. unfold slices_insert.
  destruct (decide (k < i)%nat) as [Hlt|Hge].
  - rewrite lookup_app_l by (rewrite length_take; lia). by rewrite lookup_take_lt.
  - rewrite lookup_app_r by (rewrite length_take; lia). rewrite length_take, Nat.min_l by done.
    case_decide as E; [subst; by rewrite Nat.sub_diag|].
    replace (k - i)%nat with (S (pred k - i)) by lia.
    change ((x :: drop i l) !! S ?j) with (drop i l !! j). rewrite lookup_drop. f_equal. lia.
Qed.

Lemma Insert_rep rb l i v :
  rep rb l ->
  if decide (0 <= i <= zlen l) then
    if decide (zlen l < size rb) then
      exists rb', Insert rb i v = Ret (None, rb') /\ rep rb' (slices_insert l (Z.to_nat i) v) /\
        size rb' = size rb
    else Insert rb i v = Ret (Some ErrRingBufferFull, rb)
  else Insert rb i v = Ret (Some ErrIndexOutOfRange, rb).
Proof.
  intros Hr. pose proof Hr as []. pose proof (zlen_nonneg l). unfold Insert.
  rewrite (Size_rep _ _ Hr), Z.gtb_ltb.
  destruct (Z.ltb_spec i 0), (Z.ltb_spec (zlen l) i); cbn [orb]; case_decide; try lia; try done.
  rewrite rep_full0. destruct (Z.eqb_spec (zlen l) (size rb)); case_decide; try lia; [done|].
  rewrite go_rem_ok by lia. cbn [mbind go_bind]. fold (wrap (start rb) (size rb) i).
  destruct (shift_slots (Z.to_nat (zlen l - i)) (zlen l) rb) as (d & -> & Hz & Hsl); try done; try lia.
  cbn [mbind go_bind]. rewrite data_set_ok by done. cbn [mbind go_bind].
  destruct (advance_end_rep rb l (<[Z.to_nat (wrap (start rb) (size rb) i) := Some v]> d)
    (slices_insert l (Z.to_nat i) v)) as (rb' & -> & ? & ?); try done.
  - by rewrite zlen_insert.
  - unfold slices_insert. rewrite zlen_app, zlen_cons, zlen_take, zlen_drop by lia. lia.
  - intros k Hk. rewrite slot_set, lookup_slices_insert by (unfold zlen in *; lia).
    case_decide as E.
    + subst k. rewrite decide_False, decide_True by lia. done.
    + rewrite Hsl by done. case_decide.
      * rewrite decide_False, decide_False by lia. rewrite rep_slot0 by lia. f_equal. lia.
      * rewrite rep_slot0 by lia. case_decide; [done|].
        rewrite decide_False by lia.
        rewrite !lookup_ge_None_2; [done| |]; unfold zlen in *; lia.
  - by exists rb'.
Qed.

Lemma NewRingBuffer_rep sz : 0 < sz -> exists rb, NewRingBuffer (A := A) sz = Ret rb /\ rep rb [] /\ size rb = sz.
Proof.
  intros Hs. unfold NewRingBuffer. destruct (Z.ltb_spec sz 0); [lia|].
  eexists. split; [done|]. split; [|done]. constructor; cbn; try done; try lia.
  - unfold zlen. rewrite length_replicate. lia.
  - change (zlen (@nil A)) with 0. symmetry. apply Z.eqb_neq. lia.
  - intros i Hi. unfold slot. pose proof (wrap_range 0 sz i Hs).
    by rewrite lookup_replicate_2 by lia.
Qed.

Lemma Clear_rep rb l : rep rb l -> rep (Clear rb) [].
Proof.
  intros []. destruct (NewRingBuffer_rep (size rb) rep_size0) as (rb' & Hn & Hr & _).
  unfold NewRingBuffer in Hn. destruct (Z.ltb_spec (size rb) 0); [lia|]. by injection Hn as <-.
Qed.
End Inserts.

(** ** Searching and iterating *)

Section Search.
Context {A : Type}.
Implicit Types (rb : RingBuffer A) (l : list A).

(** [cmp] is the comparison with the target; it ascends along [l]: an element
    that is not below the target has none that is not above after it. *)
Definition ascending (cmp : A -> Z) l : Prop :=
  forall i j x y, (i < j)%nat -> l !! i = Some x -> l !! j = Some y -> 0 <= cmp x -> 0 < cmp y.

(** What the search promises: the index of an element equal to the target, or
    the place where it belongs. *)
Definition search_result (cmp : A -> Z) l (r : Z * bool) : Prop :=
  0 <= r.1 <= zlen l /\
  if r.2 then exists x, l !! Z.to_nat r.1 = Some x /\ cmp x = 0
  else (forall i x, (i < Z.to_nat r.1)%nat -> l !! i = Some x -> cmp x < 0) /\
       (forall i x, (Z.to_nat r.1 <= i)%nat -> l !! i = Some x -> 0 < cmp x).

(** A function of the values in the slots; the type assertion panics on nil. *)
Definition on_slot {B} (f : A -> B) (o : option A) : go B :=
  match o with Some x => Ret (f x) | None => Panic end.

Lemma searchLoop_rep fuel : forall rb l cmp low high,
  rep rb l -> ascending cmp l -> 0 <= low -> high < zlen l -> low <= high + 1 ->
  high - low + 1 < Z.of_nat fuel ->
  (forall i x, (i < Z.to_nat low)%nat -> l !! i = Some x -> cmp x < 0) ->
  (forall i x, (high < Z.of_nat i) -> l !! i = Some x -> 0 < cmp x) ->
  exists r, searchLoop fuel rb (on_slot cmp) low high = Ret (Some r) /\ search_result cmp l r.
Proof.
  induction fuel as [|fuel IH]; intros rb l cmp low high Hr Hasc Hlo Hhi Hle Hf Hbelow Habove; [lia|].
  cbn [searchLoop]. destruct (Z.leb_spec low high) as [Hlh|Hlh].
  - pose proof Hr as []. set (mid := Z.quot (low + high) 2).
    assert (Hm : low <= mid <= high).
    { unfold mid. rewrite Z.quot_div_nonneg by lia. Z.to_euclidean_division_equations. lia. }
    rewrite go_rem_ok by lia. cbn [mbind go_bind]. fold (wrap (start rb) (size rb) mid).
    rewrite data_get_ok by (done || lia). cbn [mbind go_bind].
    destruct (lookup_lt_is_Some_2 l (Z.to_nat mid)) as [x Hx]; [unfold zlen in *; lia|].
    rewrite rep_slot0, Hx by lia. cbn [on_slot mbind go_bind].
    destruct (Z.eqb_spec (cmp x) 0) as [E|E]; [|destruct (Z.ltb_spec (cmp x) 0) as [Hlt|Hge] ].
    + eexists. split; [done|]. split; cbn [fst snd]; [lia|]. by exists x.
    + apply IH; try done; try lia. intros i y Hi Hy.
      destruct (Nat.eq_dec i (Z.to_nat mid)) as [->|Hne]; [congruence|].
      destruct (Z.lt_ge_cases (cmp y) 0) as [|Hy0]; [done|].
      specialize (Hasc i (Z.to_nat mid) y x ltac:(lia) Hy Hx Hy0). lia.
    + apply IH; try done; try lia. intros i y Hi Hy.
      destruct (Nat.eq_dec i (Z.to_nat mid)) as [->|Hne].
      * assert (x = y) as <- by congruence. lia.
      * apply (Hasc (Z.to_nat mid) i x y); (done || lia).
  - eexists. split; [done|]. split; cbn [fst snd]; [lia|]. split; [done|].
    intros i x Hi. apply Habove. lia.
Qed.

Lemma BinarySearch_rep rb l cmp :
  rep rb l -> ascending cmp l ->
  exists r, BinarySearch rb (on_slot cmp) = Ret (Some r) /\ search_result cmp l r.
Proof.
  intros Hr Hasc. unfold BinarySearch. rewrite (IsEmpty_rep _ _ Hr), (Size_rep _ _ Hr).
  destruct l as [|x l].
  - rewrite bool_decide_eq_true_2 by done. eexists. split; [done|]. split; [done|].
    split; intros i y Hi Hy; done.
  - rewrite bool_decide_eq_false_2 by done. pose proof (zlen_nonneg (x :: l)).
    apply searchLoop_rep; try done; try lia.
    intros i y Hi Hy%lookup_lt_Some. unfold zlen in *. lia.
Qed.

(** [ForEach] runs the action over the elements until it says stop. *)
Fixpoint walk {S} (action : A -> S -> bool * S) l (s : S) : S :=
  match l with
  | [] => s
  | x :: l => let '(go_on, s) := action x s in if go_on then walk action l s else s
  end.

Definition on_slot_state {S} (action : A -> S -> bool * S) (o : option A) (s : S) : go (bool * S) :=
  f ← on_slot action o; Ret (f s).

Lemma forEachLoop_rep {S} (action : A -> S -> bool * S) k : forall rb l i s,
  rep rb l -> 0 <= i -> i + Z.of_nat k = zlen l ->
  forEachLoop k i rb (on_slot_state action) s = Ret (walk action (drop (Z.to_nat i) l) s).
Proof.
  induction k as [|k IH]; intros rb l i s Hr Hi Hk; cbn [forEachLoop].
  - rewrite drop_ge; [done|]. unfold zlen in Hk. lia.
  - pose proof Hr as []. rewrite go_rem_ok by lia. cbn [mbind go_bind].
    fold (wrap (start rb) (size rb) i). rewrite data_get_ok by (done || lia). cbn [mbind go_bind].
    destruct (lookup_lt_is_Some_2 l (Z.to_nat i)) as [x Hx]; [unfold zlen in *; lia|].
    rewrite rep_slot0, Hx by lia. erewrite (drop_S l) by done.
    change (on_slot_state action (Some x) s) with (Ret (action x s)). cbn [walk mbind go_bind].
    destruct (action x s) as [ [|] s']; [|done]. rewrite (IH rb l) by (done || lia).
    by replace (Z.to_nat (i + 1)) with (Datatypes.S (Z.to_nat i)) by lia.
Qed.

Lemma ForEach_rep {S} rb l (action : A -> S -> bool * S) s :
  rep rb l -> ForEach rb (on_slot_state action) s = Ret (walk action l s).
Proof.
  intros Hr. unfold ForEach. rewrite (IsEmpty_rep _ _ Hr), (Size_rep _ _ Hr).
  destruct l as [|x l]; [by rewrite bool_decide_eq_true_2|]. rewrite bool_decide_eq_false_2 by done.
  rewrite (forEachLoop_rep action _ rb (x :: l)); [done|done|lia|].
  pose proof (zlen_nonneg (x :: l)). lia.
Qed.
End Search.

(** ** The bounded queue as a specification *)

Section Queue.
Context {A : Type}.

Inductive op : Type :=
| OWrite (v : A) | ORead | OPeek | OReadIndex (i : Z) | OInsert (i : Z) (v : A)
| ODiscardBeforeIndex (i : Z) | OClear | OSize | OIsEmpty | OIsFull.

Inductive output : Type :=
| out_err (e : option rb_error)
| out_val (r : rb_error + option A)
| out_num (z : Z)
| out_bool (b : bool)
| out_unit.

(** A list of at most [cap] elements. *)
Definition queue_step (cap : Z) (o : op) (l : list A) : output * list A :=
  match o with
  | OWrite v =>
    if decide (zlen l < cap) then (out_err None, l ++ [v]) else (out_err (Some ErrRingBufferFull), l)
  | ORead =>
    match l with
    | [] => (out_val (inl ErrRingBufferEmpty), l)
    | x :: l' => (out_val (inr (Some x)), l')
    end
  | OPeek =>
    (out_val match l with [] => inl ErrRingBufferEmpty | x :: _ => inr (Some x) end, l)
  | OReadIndex i =>
    (out_val (if decide (0 <= i < zlen l) then inr (l !! Z.to_nat i) else inl ErrIndexOutOfRange), l)
  | OInsert i v =>
    if decide (0 <= i <= zlen l) then
      if decide (zlen l < cap) then (out_err None, slices_insert l (Z.to_nat i) v)
      else (out_err (Some ErrRingBufferFull), l)
    else (out_err (Some ErrIndexOutOfRange), l)
  | ODiscardBeforeIndex i =>
    if decide (0 <= i < zlen l) then (out_err None, drop (Z.to_nat i) l)
    else (out_err (Some ErrIndexOutOfRange), l)
  | OClear => (out_unit, [])
  | OSize => (out_num (zlen l), l)
  | OIsEmpty => (out_bool (bool_decide (l = [])), l)
  | OIsFull => (out_bool (zlen l =? cap), l)
  end.

(** The ring buffer under the same operations; [Ret None] would be a loop that
    ran out of fuel. *)
Definition ring_step (o : op) (rb : RingBuffer A) : go (option (output * RingBuffer A)) :=
  match o with
  | OWrite v => '(e, rb) ← Write rb v; Ret (Some (out_err e, rb))
  | ORead => '(r, rb) ← Read rb; Ret (Some (out_val r, rb))
  | OPeek => r ← Peek rb; Ret (Some (out_val r, rb))
  | OReadIndex i => r ← ReadIndex rb i; Ret (Some (out_val r, rb))
  | OInsert i v => '(e, rb) ← Insert rb i v; Ret (Some (out_err e, rb))
  | ODiscardBeforeIndex i =>
    r ← DiscardBeforeIndex rb i; Ret ('(e, rb) ← r; Some (out_err e, rb))
  | OClear => Ret (Some (out_unit, Clear rb))
  | OSize => Ret (Some (out_num (Size rb), rb))
  | OIsEmpty => Ret (Some (out_bool (IsEmpty rb), rb))
  | OIsFull => Ret (Some (out_bool (IsFull rb), rb))
  end.

Fixpoint queue_run (cap : Z) (os : list op) (l : list A) : list output * list A :=
  match os with
  | [] => ([], l)
  | o :: os =>
    let '(out, l) := queue_step cap o l in
    let '(outs, l) := queue_run cap os l in (out :: outs, l)
  end.

Fixpoint ring_run (os : list op) (rb : RingBuffer A) : go (option (list output * RingBuffer A)) :=
  match os with
  | [] => Ret (Some ([], rb))
  | o :: os =>
    r ← ring_step o rb;
    match r with
    | None => Ret None
    | Some (out, rb) => r ← ring_run os rb; Ret ('(outs, rb) ← r; Some (out :: outs, rb))
    end
  end.

Lemma ring_step_simulates o rb l :
  rep rb l ->
  exists rb', ring_step o rb = Ret (Some ((queue_step (size rb) o l).1, rb')) /\
    rep rb' (queue_step (size rb) o l).2 /\ size rb' = size rb.
Proof.
  intros Hr. destruct o; cbn [ring_step queue_step].
  - pose proof (Write_rep rb l v Hr) as H. case_decide; [destruct H as (rb' & -> & ? & ?)|rewrite H];
      eauto.
  - pose proof (Read_rep rb l Hr) as H. destruct l; [rewrite H|destruct H as (rb' & -> & ? & ?)]; eauto.
  - rewrite (Peek_rep _ _ Hr). eauto.
  - rewrite (ReadIndex_rep _ _ _ Hr). eauto.
  - pose proof (Insert_rep rb l i v Hr) as H. repeat case_decide; try rewrite H; eauto.
    destruct H as (rb' & -> & ? & ?). eauto.
  - pose proof (DiscardBeforeIndex_rep rb l i Hr) as H. case_decide; try rewrite H; eauto.
    destruct H as (rb' & -> & ? & ?). eauto.
  - eexists. split; [done|]. split; [by eapply Clear_rep|done].
  - rewrite (Size_rep _ _ Hr). eauto.
  - rewrite (IsEmpty_rep _ _ Hr). eauto.
  - unfold IsFull. rewrite (rep_full _ _ Hr). eauto.
Qed.

(** C29: the ring buffer is a bounded queue.  From a new buffer of positive size,
    any sequence of operations runs without a panic and without an endless loop,
    and gives, output by output, what a list of at most that many elements gives;
    slots that are not in use are nil, so nothing is kept alive. *)
Theorem ring_refines_queue sz os :
  0 < sz ->
  exists rb0 rb, NewRingBuffer sz = Ret rb0 /\
    ring_run os rb0 = Ret (Some ((queue_run sz os []).1, rb)) /\
    rep rb (queue_run sz os []).2.
Proof.
  intros Hs. destruct (NewRingBuffer_rep (A := A) sz Hs) as (rb0 & Hn & Hr & Hsz). exists rb0.
  assert (Hgen : exists rb, ring_run os rb0 = Ret (Some ((queue_run sz os []).1, rb)) /\
    rep rb (queue_run sz os []).2); [|destruct Hgen as (rb & ? & ?); by exists rb].
  clear Hn. revert rb0 Hr Hsz. generalize (@nil A). induction os as [|o os IH]; intros l rb Hr Hsz.
  { by exists rb. }
  cbn [ring_run queue_run]. destruct (ring_step_simulates o rb l Hr) as (rb1 & -> & Hr1 & Hs1).
  rewrite Hsz in *. destruct (queue_step sz o l) as [out l1]. cbn [fst snd mbind go_bind] in *.
  destruct (IH l1 rb1 Hr1 ltac:(lia)) as (rb2 & -> & Hr2). exists rb2.
  destruct (queue_run sz os l1) as [outs l2]. done.
Qed.

(** The binary search of the ring buffer ends and is right.  When the
    elements ascend with respect to the comparison with the target, the loop ends
    within one step more than there are elements, whatever the rotation of the
    array; it delivers the index of an element equal to the target if there is
    one, and otherwise the index that separates the smaller from the larger. *)
Theorem binary_search_correct (rb : RingBuffer A) l cmp :
  rep rb l -> ascending cmp l ->
  exists i found, BinarySearch rb (on_slot cmp) = Ret (Some (i, found)) /\
    search_result cmp l (i, found) /\
    (found = true <-> exists x, x ∈ l /\ cmp x = 0).
Proof.
  intros Hr Hasc. destruct (BinarySearch_rep rb l cmp Hr Hasc) as ([i found] & Hb & Hs).
  exists i, found. split; [done|]. split; [done|]. destruct Hs as [_ Hs]. cbn [fst snd] in Hs.
  destruct found; split; try done.
  - intros _. destruct Hs as (x & Hx & Hc). exists x. split; [|done]. by eapply list_elem_of_lookup_2.
  - intros (x & [j Hj]%list_elem_of_lookup_1 & Hc). exfalso. destruct Hs as [Hlo Hhi].
    destruct (Nat.lt_ge_cases j (Z.to_nat i)).
    + specialize (Hlo j x ltac:(done) Hj). lia.
    + specialize (Hhi j x ltac:(done) Hj). lia.
Qed.
End Queue.

(** [ring_refines_queue] for a buffer of two that wraps around and overflows. *)
Lemma ring_refines_queue_witness :
  0 < 2 /\
  exists rb0 rb, NewRingBuffer 2 = Ret rb0 /\
    ring_run [OWrite 1; OWrite 2; OWrite 3; ORead; OInsert 1 4; ODiscardBeforeIndex 2; OPeek] rb0
    = Ret (Some ([out_err None; out_err None; out_err (Some ErrRingBufferFull);
                  out_val (inr (Some 1)); out_err None; out_err (Some ErrIndexOutOfRange);
                  out_val (inr (Some 2))], rb)) /\
    rep rb [2; 4].
Proof.
  split; [lia|].
  apply (ring_refines_queue 2
    [OWrite 1; OWrite 2; OWrite 3; ORead; OInsert 1 4; ODiscardBeforeIndex 2; OPeek]). lia.
Defined.

(** [binary_search_correct] in an array that has gone round. *)
Definition rotated : RingBuffer Z := mk_RingBuffer [Some 30; None; Some 10; Some 20] 4 2 1 false.
Lemma binary_search_correct_witness :
  exists i found, BinarySearch rotated (on_slot (fun x => x - 20)) = Ret (Some (i, found)) /\
    search_result (fun x => x - 20) [10; 20; 30] (i, found) /\
    (found = true <-> exists x, x ∈ [10; 20; 30] /\ x - 20 = 0).
Proof.
  apply (binary_search_correct rotated [10; 20; 30] (fun x => x - 20)).
  - constructor; cbn; try done; try lia. intros i Hi.
    assert (i = 0 \/ i = 1 \/ i = 2 \/ i = 3) as [->|[->|[->| ->] ] ] by lia; reflexivity.
  - intros i j x y Hij Hx Hy.
    destruct i as [|[|[|i] ] ]; cbn in Hx; simplify_eq; destruct j as [|[|[|j] ] ]; cbn in Hy;
      simplify_eq; lia.
Defined.
