(* ===== verification/KernEvents.v ===== *)
(** * The agent's record of kernel events

    [src/agent/conn/kern_event_handler.go]: for each connection the agent keeps the
    events of every step of the packet path, ordered by sequence number, in a ring
    buffer per step, and the SSL events in two slices.  When a request and its
    response are known, their events are looked up by position, and positions that
    are no longer needed are marked for removal.

    [KernEvent] is stored by value, but its [attributes] is a reference to a map;
    the maps live in a store ([attrs]) and an event holds the index of its map.
    The name of a network interface comes from the system, so
    [getInterfaceNameByIndex] is a parameter; [None] is an error. *)

From stdpp Require Import gmap list sorting strings.
From Stdlib Require Import ZArith Lia.
From S2P Require Import Prelude.
From S2P Require Import Types.
From S2P Require Import GoBase.
From S2P Require Import RingBuffer.
Local Open Scope Z_scope.

(** A loop whose fuel ran out; [binary_search_correct] and [ring_refines_queue]
    say that it never does. *)
Definition must {A} (m : go (option A)) : go A :=
  r ← m; match r with Some a => Ret a | None => Panic end.

(** [slices.BinarySearchFunc] of the Go library. *)
Fixpoint bsearch_loop {A} (fuel : nat) (x : list A) (cmp : A -> Z) (i j : Z) : go (option Z) :=
  match fuel with
  | O => Ret None
  | S fuel =>
    if i <? j then
      let h := Z.shiftr (i + j) 1 in
      match x !! Z.to_nat h with
      | None => Panic
      | Some y => if cmp y <? 0 then bsearch_loop fuel x cmp (h + 1) j else bsearch_loop fuel x cmp i h
      end
    else Ret (Some i)
  end.
Definition BinarySearchFunc {A} (x : list A) (cmp : A -> Z) : go (Z * bool) :=
  i ← must (bsearch_loop (S (length x)) x cmp 0 (zlen x));
  Ret (i, match x !! Z.to_nat i with Some y => cmp y =? 0 | None => false end).

(** [cmp.Compare]. *)
Definition Compare (a b : Z) : Z := if a <? b then -1 else if a >? b then 1 else 0.

(** ** Data *)

Definition step_of_val (z : Z) : step_t :=
  match z with
  | 0 => step_start | 1 => SSL_OUT | 2 => SYSCALL_OUT | 3 => TCP_OUT | 4 => IP_OUT | 5 => QDISC_OUT
  | 6 => DEV_OUT | 7 => NIC_OUT | 8 => NIC_IN | 9 => DEV_IN | 10 => IP_IN | 11 => TCP_IN
  | 12 => USER_COPY | 13 => SYSCALL_IN | 14 => SSL_IN | _ => step_end
  end.
#[export] Instance step_t_countable : Countable step_t.
Proof. refine (inj_countable' step_val step_of_val _). by intros []. Defined.

Record KernEvent := mk_KernEvent {
  ev_seq : Z;
  ev_len : Z;
  ev_startTs : Z;
  ev_tsDelta : Z;
  ev_step : step_t;
  ev_attributes : option nat;
}.
#[export] Instance eta_KernEvent : Eta KernEvent := fun k =>
  mk_KernEvent (ev_seq k) (ev_len k) (ev_startTs k) (ev_tsDelta k) (ev_step k) (ev_attributes k).

Record SslEvent := mk_SslEvent {
  Seq : Z;
  KernSeq : Z;
  SslLen : Z;
  KernLen : Z;
  startTs : Z;
  tsDelta : Z;
  Step : step_t;
}.

(** [bpf.SslData] without its buffer. *)
Record ssl_header := mk_ssl_header { Ke : kern_evt; SyscallSeq : Z; SyscallLen : Z }.

Record KernEventStream := mk_KernEventStream {
  kernEvents : gmap step_t (RingBuffer KernEvent);
  sslInEvents : list SslEvent;
  sslOutEvents : list SslEvent;
  maxLen : Z;
  egressDiscardSeq : Z;
  ingressDiscardSeq : Z;
  egressSslDiscardSeq : Z;
  ingressSslDiscardSeq : Z;
  attrs : list (gmap string Z);
}.
#[export] Instance eta_KernEventStream : Eta KernEventStream := fun s =>
  mk_KernEventStream (kernEvents s) (sslInEvents s) (sslOutEvents s) (maxLen s) (egressDiscardSeq s)
    (ingressDiscardSeq s) (egressSslDiscardSeq s) (ingressSslDiscardSeq s) (attrs s).

Definition NewKernEventStream (maxLen : Z) : KernEventStream :=
  mk_KernEventStream ∅ [] [] maxLen 0 0 0 0 [].

Definition IsEgressStep (st : step_t) : bool := step_val st <=? step_val NIC_OUT.
Definition IsIngressStep (st : step_t) : bool := step_val st >=? step_val NIC_IN.

(** ** Discarding *)

Definition MarkNeedDiscardSeq (s : KernEventStream) (seq : Z) (egress : bool) : KernEventStream :=
  if egress then s <| egressDiscardSeq ::= fun x => Z.max x seq |>
  else s <| ingressDiscardSeq ::= fun x => Z.max x seq |>.
Definition MarkNeedDiscardSslSeq (s : KernEventStream) (seq : Z) (egress : bool) : KernEventStream :=
  if egress then s <| egressSslDiscardSeq ::= fun x => Z.max x seq |>
  else s <| ingressSslDiscardSeq ::= fun x => Z.max x seq |>.

(** Apply a function to every entry of a map; the order of the iteration does
    not matter since each entry is used on its own. *)
Definition go_map {V} (f : step_t -> V -> go V) (m : gmap step_t V) : go (gmap step_t V) :=
  foldr (fun '(k, v) acc => m ← acc; v ← f k v; Ret (<[k := v]> m)) (Ret m) (map_to_list m).

Definition seq_compare (seq : Z) (e : KernEvent) : Z := Compare (ev_seq e) seq.

(** The body of the loop of [discardEventsBySeq]; the error of
    [DiscardBeforeIndex] is not looked at. *)
Definition discard_before (seq : Z) (events : RingBuffer KernEvent) : go (RingBuffer KernEvent) :=
  '(index, _) ← must (BinarySearch events (on_slot (seq_compare seq)));
  if index >? 0 then
    '(_, events) ← must (DiscardBeforeIndex events index);
    Ret events
  else Ret events.

Definition discard_ring (seq : Z) (egress : bool) (st : step_t) (events : RingBuffer KernEvent)
    : go (RingBuffer KernEvent) :=
  if egress && negb (IsEgressStep st) then Ret events
  else if negb egress && negb (IsIngressStep st) then Ret events
  else discard_before seq events.

Definition discardEventsBySeq (s : KernEventStream) (seq : Z) (egress : bool) : go KernEventStream :=
  m ← go_map (discard_ring seq egress) (kernEvents s);
  Ret (s <| kernEvents := m |>).

Definition discardEventsIfNeeded (s : KernEventStream) : go KernEventStream :=
  s ← (if egressDiscardSeq s =? 0 then Ret s else discardEventsBySeq s (egressDiscardSeq s) true);
  if ingressDiscardSeq s =? 0 then Ret s else discardEventsBySeq s (ingressDiscardSeq s) false.

(** ** Adding and finding *)

Section Adding.
Variable getInterfaceNameByIndex : Z -> Z -> option string.

(** [UpdateIfTimestampAttr] on the map at [loc]. *)
Definition UpdateIfTimestampAttr (st : list (gmap string Z)) (loc : nat) (ifname : string) (time : Z)
    : bool * list (gmap string Z) :=
  let m := default ∅ (st !! loc) in
  let key := ("time-" +:+ ifname)%string in
  let set := (true, <[loc := <[key := time]> m]> st) in
  match m !! key with
  | Some ts => if ts <? time then (false, st) else set
  | None => set
  end.

(** The event to store for [event], given what the search found. *)
Inductive candidate : Type :=
| duplicate
| use (k : KernEvent).

Definition choose (event : kern_evt) (isNicEvnt : bool) (found : option KernEvent) : candidate :=
  match found with
  | Some old =>
    if (ev_startTs old >? ke_ts event) && negb isNicEvnt then
      use (old <| ev_seq := ke_seq event |> <| ev_len := ke_len event |>
               <| ev_startTs := ke_ts event |> <| ev_tsDelta := ke_ts_delta event |>
               <| ev_step := ke_step event |>)
    else if negb isNicEvnt then duplicate
    else use old
  | None => use (mk_KernEvent (ke_seq event) (ke_len event) (ke_ts event) (ke_ts_delta event)
                   (ke_step event) None)
  end.

(** The part of [AddKernEvent] for interfaces: the time an event passed one.
    [None] says that an earlier time is known. *)
Definition note_interface (event : kern_evt) (k : KernEvent) (st : list (gmap string Z))
    : option KernEvent * list (gmap string Z) :=
  let '(k, loc, st) :=
    match ev_attributes k with
    | Some loc => (k, loc, st)
    | None => (k <| ev_attributes := Some (length st) |>, length st, st ++ [∅])
    end in
  let ifname :=
    default "unknown"%string
      (getInterfaceNameByIndex (ke_ifindex event) (Z.shiftr (tgid_fd (ke_conn_id_s event)) 32)) in
  let '(updated, st) := UpdateIfTimestampAttr st loc ifname (s64 (ke_ts event)) in
  (if updated then Some k else None, st).

Definition AddKernEvent (s : KernEventStream) (event : kern_evt) : go (bool * KernEventStream) :=
  s ← discardEventsIfNeeded s;
  if ke_len event >? 0 then
    ring ← match kernEvents s !! ke_step event with
           | Some ring => Ret ring
           | None => NewRingBuffer (maxLen s)
           end;
    let s := s <| kernEvents ::= <[ke_step event := ring]> |> in
    do (index, found) <- must (BinarySearch ring (on_slot (seq_compare (ke_seq event))));
    let isNicEvnt := bool_decide (ke_step event = DEV_OUT) || bool_decide (ke_step event = DEV_IN) in
    old ← (if found then
             r ← ReadIndex ring index;
             match r with inr (Some k) => Ret (Some k) | _ => Panic end
           else Ret None);
    match choose event isNicEvnt old with
    | duplicate => Ret (false, s)
    | use k =>
      let '(k, st) := if isNicEvnt then note_interface event k (attrs s) else (Some k, attrs s) in
      let s := s <| attrs := st |> in
      match k with
      | None => Ret (false, s)
      | Some k =>
        if found then Ret (true, s)
        else
          '(err, ring) ← Insert ring index k;
          match err with
          | Some _ => Ret (false, s)
          | None => Ret (true, s <| kernEvents ::= <[ke_step event := ring]> |>)
          end
      end
    end
  else Ret (true, s).

(** [AddSyscallEvent] drops the result. *)
Definition AddSyscallEvent (s : KernEventStream) (event : kern_evt) : go KernEventStream :=
  '(_, s) ← AddKernEvent s event; Ret s.
End Adding.

(** The body of the loop of [FindEventsBySeqAndLen]: whether to go on, and the
    events found so far. *)
Definition find_action (start end_ : Z) (each : KernEvent) (result : list KernEvent)
    : bool * list KernEvent :=
  let stop := u64 (ev_seq each + u64 (ev_len each)) in
  if (ev_seq each <=? start) && (stop >? start) then (true, result ++ [each])
  else if (ev_seq each <? end_) && (stop >=? end_) then (true, result ++ [each])
  else if (ev_seq each >=? start) && (stop <=? end_) then (true, result ++ [each])
  else if ev_seq each >? end_ then (false, result)
  else (true, result).

Definition FindEventsBySeqAndLen (s : KernEventStream) (st : step_t) (seq len : Z)
    : go (list KernEvent) :=
  match kernEvents s !! st with
  | None => Ret []
  | Some events =>
    let start := seq in
    let end_ := u64 (start + u64 len) in
    ForEach events (on_slot_state (find_action start end_)) []
  end.

(** ** SSL events *)

Definition ssl_compare (seq : Z) (e : SslEvent) : Z := Compare (Seq e) seq.

Definition discardSslEventsBySeq (s : KernEventStream) (seq : Z) (egress : bool) : go KernEventStream :=
  let oldevents := if egress then sslOutEvents s else sslInEvents s in
  '(index, _) ← BinarySearchFunc oldevents (ssl_compare seq);
  if index >? 0 then
    evs ← slice_from oldevents index;
    Ret (if egress then s <| sslOutEvents := evs |> else s <| sslInEvents := evs |>)
  else Ret s.

Definition discardSslEventsIfNeeded (s : KernEventStream) (isIn : bool) : go KernEventStream :=
  if isIn then
    if ingressSslDiscardSeq s =? 0 then Ret s else discardSslEventsBySeq s (ingressSslDiscardSeq s) false
  else
    if egressSslDiscardSeq s =? 0 then Ret s else discardSslEventsBySeq s (egressSslDiscardSeq s) true.

(** [for len(l) > maxLen { l = l[1:] }]. *)
Fixpoint trim {A} (maxLen : Z) (l : list A) : go (list A) :=
  if zlen l >? maxLen then match l with [] => Panic | _ :: l => trim maxLen l end else Ret l.

Definition AddSslEvent (s : KernEventStream) (event : ssl_header) : go KernEventStream :=
  let isIn := bool_decide (ke_step (Ke event) = SSL_IN) in
  s ← discardSslEventsIfNeeded s isIn;
  let sslEvents := if isIn then sslInEvents s else sslOutEvents s in
  do (index, found) <- BinarySearchFunc sslEvents (ssl_compare (ke_seq (Ke event)));
  if found then Ret s
  else
    let e := mk_SslEvent (ke_seq (Ke event)) (SyscallSeq event) (ke_len (Ke event)) (SyscallLen event)
               (ke_ts (Ke event)) (ke_ts_delta (Ke event)) (ke_step (Ke event)) in
    sslEvents ← trim (maxLen s) (slices_insert sslEvents (Z.to_nat index) e);
    Ret (if isIn then s <| sslInEvents := sslEvents |> else s <| sslOutEvents := sslEvents |>).

(** The loop of [FindSslEventsBySeqAndLen]. *)
Fixpoint find_ssl (start end_ : Z) (es : list SslEvent) : list SslEvent :=
  match es with
  | [] => []
  | each :: es =>
    if Seq each <? start then find_ssl start end_ es
    else if Seq each <? end_ then each :: find_ssl start end_ es
    else []
  end.
Definition FindSslEventsBySeqAndLen (s : KernEventStream) (st : step_t) (seq len : Z) : list SslEvent :=
  let sslEvents := if bool_decide (st = SSL_IN) then sslInEvents s else sslOutEvents s in
  find_ssl seq (u64 (seq + u64 len)) sslEvents.

(** ** Ordered lists of events *)

Definition earlier (a b : KernEvent) : Prop := ev_seq a < ev_seq b.

Lemma sorted_lookup {A} (R : A -> A -> Prop) l i j x y :
  StronglySorted R l -> l !! i = Some x -> l !! j = Some y -> (i < j)%nat -> R x y.
Proof.
  intros Hs. revert i j. induction Hs as [|a l Hs IH Ha]; intros i j Hi Hj Hij; [done|].
  destruct j as [|j]; [lia|]. destruct i as [|i]; cbn in Hi, Hj.
  - injection Hi as ->. rewrite Forall_forall in Ha. apply Ha. by eapply list_elem_of_lookup_2.
  - apply (IH i j); (done || lia).
Qed.

Lemma Compare_lt a b : Compare a b < 0 <-> a < b.
Proof. unfold Compare. rewrite Z.gtb_ltb. destruct (Z.ltb_spec a b), (Z.ltb_spec b a); lia. Qed.
Lemma Compare_gt a b : 0 < Compare a b <-> b < a.
Proof. unfold Compare. rewrite Z.gtb_ltb. destruct (Z.ltb_spec a b), (Z.ltb_spec b a); lia. Qed.
Lemma Compare_eq a b : Compare a b = 0 <-> a = b.
Proof. unfold Compare. rewrite Z.gtb_ltb. destruct (Z.ltb_spec a b), (Z.ltb_spec b a); lia. Qed.

Lemma ascending_sorted q l : StronglySorted earlier l -> ascending (seq_compare q) l.
Proof.
  intros Hs i j x y Hij Hx Hy H. pose proof (sorted_lookup _ _ _ _ _ _ Hs Hx Hy Hij) as He.
  unfold seq_compare, earlier in *. apply Compare_gt. 
  destruct (Z.lt_ge_cases (ev_seq x) q) as [Hlt|]; [apply Compare_lt in Hlt; lia|lia].
Qed.

(** Where the search lands: the elements before the index are those below. *)
Definition splits (q : Z) (l : list KernEvent) (i : Z) (found : bool) : Prop :=
  0 <= i <= zlen l /\
  (forall j x, (j < Z.to_nat i)%nat -> l !! j = Some x -> ev_seq x < q) /\
  (forall j x, (Z.to_nat i <= j)%nat -> l !! j = Some x ->
     if found then q <= ev_seq x else q < ev_seq x) /\
  (found = true -> exists x, l !! Z.to_nat i = Some x /\ ev_seq x = q).

Lemma search_splits q l i found :
  StronglySorted earlier l -> search_result (seq_compare q) l (i, found) -> splits q l i found.
Proof.
  intros Hs [Hr H]. cbn [fst snd] in *. split; [done|]. unfold seq_compare in H. destruct found.
  - destruct H as (x & Hx & E). rewrite Compare_eq in E. split_and!.
    + intros j y Hj Hy. pose proof (sorted_lookup _ _ _ _ _ _ Hs Hy Hx Hj). unfold earlier in *. lia.
    + intros j y Hj Hy. destruct (decide (j = Z.to_nat i)) as [->|Hne]; [simplify_eq; lia|].
      pose proof (sorted_lookup _ _ _ _ _ _ Hs Hx Hy ltac:(lia)). unfold earlier in *. lia.
    + by exists x.
  - destruct H as [H1 H2]. split_and!; [|intros j x Hj Hx; by apply Compare_gt, (H2 j)|done].
    intros j x Hj Hx. by apply Compare_lt, (H1 j).
Qed.

Lemma drop_filter q l i found :
  splits q l i found -> drop (Z.to_nat i) l = filter (fun e => q <= ev_seq e) l.
Proof.
  intros (_ & H1 & H2 & _). generalize dependent (Z.to_nat i). clear i.
  induction l as [|e l IH]; intros i H1 H2; [by rewrite drop_nil|].
  destruct i as [|i].
  - rewrite drop_0. rewrite filter_cons_True.
    + f_equal. rewrite <- (drop_0 l) at 1. apply (IH 0%nat); [lia|].
      intros j x Hj Hx. apply (H2 (S j) x); [lia|done].
    + specialize (H2 0%nat e ltac:(lia) eq_refl). destruct found; lia.
  - rewrite filter_cons_False; [|specialize (H1 0%nat e ltac:(lia) eq_refl); lia].
    cbn [drop]. apply IH.
    + intros j x Hj Hx. apply (H1 (S j) x); [lia|done].
    + intros j x Hj Hx. apply (H2 (S j) x); [lia|done].
Qed.

(** What a ring becomes when positions below [q] are discarded: the events below
    go, unless there is no other event. *)
Definition discard_list (q : Z) (l : list KernEvent) : list KernEvent :=
  match filter (fun e => q <= ev_seq e) l with [] => l | l' => l' end.
Definition discards (egress : bool) (st : step_t) : bool :=
  if egress then IsEgressStep st else IsIngressStep st.

Lemma filter_sorted {A} (R : A -> A -> Prop) (P : A -> Prop) `{!forall x, Decision (P x)} l :
  StronglySorted R l -> StronglySorted R (filter P l).
Proof.
  induction 1 as [|x l Hs IH Hx]; [constructor|]. rewrite filter_cons. case_decide; [|done].
  constructor; [done|]. rewrite Forall_forall in Hx |- *. intros y [_ Hy]%list_elem_of_filter. by apply Hx.
Qed.

Lemma discard_list_sorted q l : StronglySorted earlier l -> StronglySorted earlier (discard_list q l).
Proof.
  intros Hs. unfold discard_list. pose proof (filter_sorted _ (fun e => q <= ev_seq e) _ Hs).
  by destruct (filter _ l).
Qed.

Section Rings.
Implicit Types (ring : RingBuffer KernEvent) (l : list KernEvent).

(** [ring] holds [l] in order. *)
Definition ring_holds (ml : Z) ring l : Prop :=
  rep ring l /\ size ring = ml /\ StronglySorted earlier l.

Lemma must_search ml ring l q :
  ring_holds ml ring l ->
  exists i found, must (BinarySearch ring (on_slot (seq_compare q))) = Ret (i, found) /\
    splits q l i found.
Proof.
  intros (Hr & _ & Hs). destruct (BinarySearch_rep _ _ _ Hr (ascending_sorted q l Hs)) as ([i f] & Hb & Hres).
  exists i, f. unfold must. rewrite Hb. split; [done|]. by apply search_splits.
Qed.

Lemma discard_before_holds ml q ring l :
  ring_holds ml ring l ->
  exists ring', discard_before q ring = Ret ring' /\ ring_holds ml ring' (discard_list q l).
Proof.
  intros Hh. destruct (must_search ml ring l q Hh) as (i & found & Hm & Hsp).
  unfold discard_before, discard_list. rewrite Hm. cbn [mbind go_bind].
  pose proof Hh as (Hr & Hsz & Hso). pose proof (drop_filter _ _ _ _ Hsp) as Hf. rewrite <- Hf.
  destruct Hsp as (Hi & _). rewrite Z.gtb_ltb. destruct (Z.ltb_spec 0 i) as [Hpos|Hz].
  - pose proof (DiscardBeforeIndex_rep ring l i Hr) as Hd. unfold must. case_decide as Hlt.
    + destruct Hd as (ring' & -> & Hr' & Hs'). exists ring'. split; [done|].
      assert (Hdl : (length (drop (Z.to_nat i) l) <> 0)%nat)
        by (rewrite length_drop; unfold zlen in *; lia).
      destruct (drop (Z.to_nat i) l) as [|e l']; [done|]. split; [done|]. split; [lia|].
      rewrite Hf. by apply filter_sorted.
    + rewrite Hd. exists ring. split; [done|]. by rewrite drop_ge by (unfold zlen in *; lia).
  - replace i with 0 by lia. rewrite drop_0. exists ring. split; [done|]. by destruct l.
Qed.

Lemma discard_ring_holds ml q eg st ring l :
  ring_holds ml ring l ->
  exists ring', discard_ring q eg st ring = Ret ring' /\
    ring_holds ml ring' (if discards eg st then discard_list q l else l).
Proof.
  intros Hh. unfold discard_ring, discards.
  destruct eg; cbn [andb negb]; [destruct (IsEgressStep st)|destruct (IsIngressStep st)]; cbn [negb];
    (by exists ring) || by apply discard_before_holds.
Qed.
End Rings.

(** ** All steps together *)

Lemma go_map_list {V} (f : step_t -> V -> go V) (g : step_t -> V -> V) (m0 : gmap step_t V)
    (kvs : list (step_t * V)) :
  NoDup kvs.*1 -> (forall k v, (k, v) ∈ kvs -> f k v = Ret (g k v)) ->
  exists m', foldr (fun '(k, v) acc => m ← acc; v ← f k v; Ret (<[k := v]> m)) (Ret m0) kvs = Ret m' /\
    (forall k v, (k, v) ∈ kvs -> m' !! k = Some (g k v)) /\
    (forall k, k ∉ kvs.*1 -> m' !! k = m0 !! k).
Proof.
  induction kvs as [|[k v] kvs IH]; intros Hnd Hf.
  { exists m0. split; [done|]. split; [|done]. intros k v []%not_elem_of_nil. }
  rewrite fmap_cons in Hnd. apply NoDup_cons in Hnd as [Hk Hnd]. cbn [fst] in Hk.
  destruct IH as (m' & Hm & Hin & Hout); [done|by intros ???; apply Hf; right|].
  exists (<[k := g k v]> m'). cbn [foldr]. rewrite Hm. cbn [mbind go_bind].
  rewrite Hf by by left. cbn [mbind go_bind]. split; [done|]. split.
  - intros k' v' [ [= -> ->]|Hin']%elem_of_cons; [by rewrite lookup_insert_eq|].
    rewrite lookup_insert_ne; [by apply Hin|]. intros ->. apply Hk.
    apply list_elem_of_fmap. by exists (k', v').
  - intros k' Hk'. rewrite fmap_cons, not_elem_of_cons in Hk'. cbn [fst] in Hk'.
    destruct Hk' as [Hne Hk']. rewrite lookup_insert_ne by done. by apply Hout.
Qed.

Lemma go_map_spec {V} (f : step_t -> V -> go V) (g : step_t -> V -> V) (m : gmap step_t V) :
  (forall k v, m !! k = Some v -> f k v = Ret (g k v)) ->
  exists m', go_map f m = Ret m' /\ forall k, m' !! k = g k <$> m !! k.
Proof.
  intros Hf. destruct (go_map_list f g m (map_to_list m)) as (m' & Hm & Hin & Hout).
  - apply NoDup_fst_map_to_list.
  - intros k v Hkv. by apply Hf, elem_of_map_to_list.
  - exists m'. split; [done|]. intros k. destruct (m !! k) as [v|] eqn:E.
    + apply Hin. by apply elem_of_map_to_list.
    + rewrite Hout; [done|]. intros ([k' v] & -> & Hkv%elem_of_map_to_list)%list_elem_of_fmap.
      cbn in E. congruence.
Qed.

(** The stream [s] holds, for each step, the events [f] gives. *)
Definition stream_holds (s : KernEventStream) (f : step_t -> list KernEvent) : Prop :=
  0 < maxLen s /\
  forall st, match kernEvents s !! st with
             | Some ring => ring_holds (maxLen s) ring (f st)
             | None => f st = []
             end.

Definition go_get {A} (d : A) (m : go A) : A := match m with Ret a => a | Panic => d end.

Lemma discardEventsBySeq_holds s f q eg :
  stream_holds s f ->
  exists s', discardEventsBySeq s q eg = Ret s' /\
    stream_holds s' (fun st => if discards eg st then discard_list q (f st) else f st) /\
    s' = s <| kernEvents := kernEvents s' |>.
Proof.
  intros [Hml Hf]. unfold discardEventsBySeq.
  destruct (go_map_spec (discard_ring q eg) (fun st r => go_get r (discard_ring q eg st r)) (kernEvents s))
    as (m' & Hm & Hk).
  - intros st ring E. specialize (Hf st). rewrite E in Hf.
    destruct (discard_ring_holds _ q eg st _ _ Hf) as (r' & -> & _). done.
  - rewrite Hm. cbn [mbind go_bind]. eexists. split; [done|]. split; [|by destruct s].
    split; [done|]. intros st. fsimp_goal. rewrite Hk. specialize (Hf st).
    destruct (kernEvents s !! st) as [ring|] eqn:E; cbn [fmap option_fmap option_map].
    + destruct (discard_ring_holds _ q eg st _ _ Hf) as (r' & -> & Hr'). done.
    + rewrite Hf. by destruct (discards eg st).
Qed.

(** What [discardEventsIfNeeded] leaves. *)
Definition kept (s : KernEventStream) (f : step_t -> list KernEvent) (st : step_t) : list KernEvent :=
  let q := if IsEgressStep st then egressDiscardSeq s else ingressDiscardSeq s in
  if q =? 0 then f st else discard_list q (f st).

Lemma step_directions st : IsIngressStep st = negb (IsEgressStep st).
Proof. by destruct st. Qed.

Lemma stream_holds_ext s f f' : (forall st, f st = f' st) -> stream_holds s f -> stream_holds s f'.
Proof. intros E [Hml Hf]. split; [done|]. intros st. rewrite <- E. apply Hf. Qed.

Lemma discardEventsIfNeeded_holds s f :
  stream_holds s f ->
  exists s', discardEventsIfNeeded s = Ret s' /\ stream_holds s' (kept s f) /\
    s' = s <| kernEvents := kernEvents s' |>.
Proof.
  intros Hs. unfold discardEventsIfNeeded, kept.
  assert (H1 : exists s1, (if egressDiscardSeq s =? 0 then Ret s
      else discardEventsBySeq s (egressDiscardSeq s) true) = Ret s1 /\
    stream_holds s1 (fun st => if IsEgressStep st && negb (egressDiscardSeq s =? 0)
      then discard_list (egressDiscardSeq s) (f st) else f st) /\ s1 = s <| kernEvents := kernEvents s1 |>).
  { destruct (egressDiscardSeq s =? 0).
    - exists s. split; [done|]. split; [|by destruct s]. eapply stream_holds_ext, Hs.
      intros st. by rewrite andb_false_r.
    - destruct (discardEventsBySeq_holds s f (egressDiscardSeq s) true Hs) as (s1 & ? & ? & ?).
      exists s1. split; [done|]. split; [|done]. eapply stream_holds_ext; [|done].
      intros st. cbn [discards negb]. by rewrite andb_true_r. }
  destruct H1 as (s1 & -> & Hs1 & E1). cbn [mbind go_bind].
  assert (Hi : ingressDiscardSeq s1 = ingressDiscardSeq s) by (by rewrite E1). rewrite Hi.
  destruct (ingressDiscardSeq s =? 0) eqn:Ez.
  - exists s1. split; [done|]. split; [|done]. eapply stream_holds_ext, Hs1. intros st.
    cbv beta zeta. destruct (IsEgressStep st); cbn [andb]; [by destruct (egressDiscardSeq s =? 0)|by rewrite Ez].
  - destruct (discardEventsBySeq_holds s1 _ (ingressDiscardSeq s) false Hs1) as (s2 & -> & Hs2 & E2).
    exists s2. split; [done|]. split; [|by rewrite E2, E1]. eapply stream_holds_ext, Hs2. intros st.
    cbn [discards]. rewrite step_directions. cbv beta zeta.
    destruct (IsEgressStep st); cbn [andb negb]; [by destruct (egressDiscardSeq s =? 0)|by rewrite Ez].
Qed.

(** ** [AddKernEvent] *)

Lemma sorted_seq_inj l a b :
  StronglySorted earlier l -> a ∈ l -> b ∈ l -> ev_seq a = ev_seq b -> a = b.
Proof.
  intros Hs [i Hi]%list_elem_of_lookup_1 [j Hj]%list_elem_of_lookup_1 E.
  destruct (Nat.lt_trichotomy i j) as [Hij|[->|Hij] ]; [|congruence|].
  - pose proof (sorted_lookup _ _ _ _ _ _ Hs Hi Hj Hij). unfold earlier in *. lia.
  - pose proof (sorted_lookup _ _ _ _ _ _ Hs Hj Hi Hij). unfold earlier in *. lia.
Qed.

Lemma kept_sorted s f st : stream_holds s f -> StronglySorted earlier (kept s f st).
Proof.
  intros [_ Hf]. specialize (Hf st).
  assert (Hs : StronglySorted earlier (f st)).
  { destruct (kernEvents s !! st); [by destruct Hf as (_ & _ & ?)|]. rewrite Hf. constructor. }
  unfold kept. cbv zeta. destruct (_ =? 0); [done|]. by apply discard_list_sorted.
Qed.

Definition is_nic (st : step_t) : bool := bool_decide (st = DEV_OUT) || bool_decide (st = DEV_IN).

(** [k] is the entry for [e]. *)
Definition entry_of (e : kern_evt) (k : KernEvent) : Prop :=
  ev_seq k = ke_seq e /\ ev_len k = ke_len e /\ ev_startTs k = ke_ts e /\
  ev_tsDelta k = ke_ts_delta e /\ ev_step k = ke_step e.

(** What becomes of the events [l] of the step of [e], and the result. *)
Inductive added_as (e : kern_evt) (ml : Z) (l : list KernEvent) : bool -> list KernEvent -> Prop :=
| add_no_data : ke_len e <= 0 -> added_as e ml l true l
| add_known old r :
    0 < ke_len e -> old ∈ l -> ev_seq old = ke_seq e ->
    (is_nic (ke_step e) = false -> r = (ev_startTs old >? ke_ts e)) -> added_as e ml l r l
| add_full :
    0 < ke_len e -> Forall (fun k => ev_seq k <> ke_seq e) l -> zlen l = ml -> added_as e ml l false l
| add_fresh l1 l2 k :
    0 < ke_len e -> l = l1 ++ l2 -> Forall (fun x => ev_seq x < ke_seq e) l1 ->
    Forall (fun x => ke_seq e < ev_seq x) l2 -> zlen l < ml -> entry_of e k ->
    added_as e ml l true (l1 ++ k :: l2).

Definition upd (f : step_t -> list KernEvent) (st : step_t) (l : list KernEvent) : step_t -> list KernEvent :=
  fun st' => if decide (st' = st) then l else f st'.

Section AddSpec.
Variable ifname : Z -> Z -> option string.

Lemma stream_holds_put s f st ring l :
  stream_holds s f -> ring_holds (maxLen s) ring l ->
  stream_holds (s <| kernEvents ::= <[st := ring]> |>) (upd f st l).
Proof.
  intros [Hml Hf] Hr. split; [done|]. intros st'. fsimp_goal. unfold upd. case_decide as E.
  - subst. by rewrite lookup_insert_eq.
  - rewrite lookup_insert_ne by done. apply Hf.
Qed.

Lemma stream_holds_attrs s f a : stream_holds s f -> stream_holds (s <| attrs := a |>) f.
Proof. done. Qed.

(** The ring of a step, made if there is none. *)
Lemma step_ring s f st :
  stream_holds s f ->
  exists ring, match kernEvents s !! st with Some ring => Ret ring | None => NewRingBuffer (maxLen s) end
    = Ret ring /\ ring_holds (maxLen s) ring (f st).
Proof.
  intros [Hml Hf]. specialize (Hf st). destruct (kernEvents s !! st) as [ring|]; [by exists ring|].
  destruct (NewRingBuffer_rep (A := KernEvent) (maxLen s) Hml) as (rb & -> & Hr & Hs).
  exists rb. rewrite Hf. split; [done|]. split; [done|]. split; [done|constructor].
Qed.

Lemma splits_found q l i :
  splits q l i true -> exists x, l !! Z.to_nat i = Some x /\ ev_seq x = q /\ 0 <= i < zlen l.
Proof.
  intros (Hi & _ & _ & Hx). destruct (Hx eq_refl) as (x & Hx' & E). exists x. split_and!; try done.
  - lia.
  - apply lookup_lt_Some in Hx'. unfold zlen. lia.
Qed.

Lemma splits_fresh q l i :
  splits q l i false ->
  Forall (fun x => ev_seq x < q) (take (Z.to_nat i) l) /\ Forall (fun x => q < ev_seq x) (drop (Z.to_nat i) l).
Proof.
  intros (Hi & H1 & H2 & _). rewrite !Forall_lookup. split.
  - intros j x Hj. destruct (Nat.lt_ge_cases j (Z.to_nat i)) as [Hlt|Hge].
    + rewrite lookup_take_lt in Hj by done. by apply (H1 j).
    + by rewrite lookup_take_ge in Hj by done.
  - intros j x Hj. rewrite lookup_drop in Hj. apply (H2 (Z.to_nat i + j)%nat); [lia|done].
Qed.

Lemma insert_sorted l1 l2 k :
  StronglySorted earlier (l1 ++ l2) -> Forall (fun x => ev_seq x < ev_seq k) l1 ->
  Forall (fun x => ev_seq k < ev_seq x) l2 -> StronglySorted earlier (l1 ++ k :: l2).
Proof.
  rewrite !StronglySorted_app. intros (H12 & H1 & H2) Ha Hb. rewrite Forall_forall in Ha.
  split_and!; [|done|by constructor].
  intros x y Hx [->|Hy]%elem_of_cons; [by apply Ha|by apply H12].
Qed.

(** The search and the reading of the entry it found. *)
Lemma lookup_old ml ring l q :
  ring_holds ml ring l ->
  exists i found old, must (BinarySearch ring (on_slot (seq_compare q))) = Ret (i, found) /\
    (if found then r ← ReadIndex ring i; match r with inr (Some k) => Ret (Some k) | _ => Panic end
     else Ret None) = Ret old /\
    match old with
    | Some k => found = true /\ k ∈ l /\ ev_seq k = q
    | None => found = false /\ splits q l i false
    end.
Proof.
  intros Hh. destruct (must_search ml ring l q Hh) as (i & found & Hm & Hsp). exists i, found.
  destruct found.
  - destruct (splits_found _ _ _ Hsp) as (x & Hx & Hq & Hi). exists (Some x). split; [done|].
    destruct Hh as (Hr & _). rewrite (ReadIndex_rep _ _ _ Hr), decide_True, Hx by done.
    split; [done|]. split_and!; try done. by eapply list_elem_of_lookup_2.
  - exists None. done.
Qed.

Lemma note_interface_new e k st :
  ev_attributes k = None -> exists k' st', note_interface ifname e k st = (Some k', st') /\
    exists a, k' = k <| ev_attributes := a |>.
Proof.
  intros E. unfold note_interface. rewrite E. unfold UpdateIfTimestampAttr.
  rewrite lookup_app_r, Nat.sub_diag by done. cbn. rewrite lookup_empty. eexists _, _. split; [done|].
  by eexists.
Qed.

(** The insertion of a new entry. *)
Lemma insert_case ml ring l i k e :
  ring_holds ml ring l -> splits (ke_seq e) l i false -> entry_of e k -> 0 < ke_len e ->
  exists err ring' l', Insert ring i k = Ret (err, ring') /\
    match err with
    | None => ring_holds ml ring' l' /\ added_as e ml l true l'
    | Some _ => added_as e ml l false l
    end.
Proof.
  intros (Hr & Hsz & Hso) Hsp Hent Hlen.
  destruct (splits_fresh _ _ _ Hsp) as [Hlo Hhi]. pose proof Hsp as (Hi & _).
  pose proof (Insert_rep ring l i k Hr) as Hins. rewrite decide_True in Hins by done.
  case_decide as Hfull.
  - destruct Hins as (ring' & -> & Hr' & Hsz'). exists None, ring', (slices_insert l (Z.to_nat i) k).
    split; [done|]. unfold slices_insert in *. split.
    + split; [done|]. split; [lia|]. destruct Hent as (Hq & _).
      apply insert_sorted; [by rewrite take_drop|by rewrite Hq..].
    + rewrite <- (take_drop (Z.to_nat i) l) at 1. eapply add_fresh; try done. rewrite take_drop. lia.
  - rewrite Hins. exists (Some ErrRingBufferFull), ring, l. split; [done|].
    apply add_full; [done| |destruct Hr; lia].
    rewrite <- (take_drop (Z.to_nat i) l). apply Forall_app.
    split; (eapply Forall_impl; [eassumption|]); cbn; lia.
Qed.

(** The entry to insert, with its interface. *)
Lemma new_entry e st :
  let k0 := mk_KernEvent (ke_seq e) (ke_len e) (ke_ts e) (ke_ts_delta e) (ke_step e) None in
  exists k st', (if is_nic (ke_step e) then note_interface ifname e k0 st else (Some k0, st)) = (Some k, st') /\
    entry_of e k.
Proof.
  intros k0. destruct (is_nic (ke_step e)); [|by exists k0, st].
  destruct (note_interface_new e k0 st) as (k & st' & -> & a & ->); [done|].
  by exists (k0 <| ev_attributes := a |>), st'.
Qed.

Lemma AddKernEvent_spec s f e :
  stream_holds s f ->
  exists r s' l', AddKernEvent ifname s e = Ret (r, s') /\
    stream_holds s' (upd (kept s f) (ke_step e) l') /\ maxLen s' = maxLen s /\
    added_as e (maxLen s) (kept s f (ke_step e)) r l' /\
    egressDiscardSeq s' = egressDiscardSeq s /\ ingressDiscardSeq s' = ingressDiscardSeq s.
Proof.
  intros Hs. unfold AddKernEvent.
  destruct (discardEventsIfNeeded_holds s f Hs) as (s1 & -> & Hs1 & E1). cbn [mbind go_bind].
  assert (Hml : maxLen s1 = maxLen s /\ egressDiscardSeq s1 = egressDiscardSeq s /\
    ingressDiscardSeq s1 = ingressDiscardSeq s) by (by rewrite E1). destruct Hml as (Hml & He & Hi).
  rewrite Z.gtb_ltb. destruct (Z.ltb_spec 0 (ke_len e)) as [Hlen|Hlen]; cycle 1.
  { exists true, s1, (kept s f (ke_step e)). split_and!; try done; [|by constructor].
    eapply stream_holds_ext, Hs1. intros st. unfold upd. by case_decide; subst. }
  destruct (step_ring s1 _ (ke_step e) Hs1) as (ring & -> & Hh). cbn [mbind go_bind].
  set (l := kept s f (ke_step e)) in *. rewrite Hml in Hh.
  destruct (lookup_old (maxLen s) ring l (ke_seq e) Hh) as (i & found & old & Hm & Ho & Hold).
  unfold go_then. rewrite Hm. cbn [mbind go_bind]. rewrite Ho. cbn [mbind go_bind]. fold (is_nic (ke_step e)).
  pose proof (stream_holds_put _ _ (ke_step e) _ _ Hs1 ltac:(by rewrite Hml)) as Hs2.
  set (s2 := s1 <| kernEvents ::= _ |>) in *. unfold choose. destruct old as [k|].
  - destruct Hold as (-> & Hk & Hq). destruct (is_nic (ke_step e)) eqn:En; cbn [negb].
    + rewrite andb_false_r. destruct (note_interface ifname e k (attrs s2)) as [ [k'|] st'];
        eexists _, (s2 <| attrs := st' |>), l; split_and!; try done; by eapply add_known; [..|congruence].
    + rewrite andb_true_r. destruct (ev_startTs k >? ke_ts e) eqn:Et;
        [exists true, (s2 <| attrs := attrs s2 |>), l|exists false, s2, l];
        split_and!; try done; by eapply add_known.
  - destruct Hold as [-> Hsp]. destruct (new_entry e (attrs s2)) as (k & st' & -> & Hent).
    destruct (insert_case _ _ _ _ _ _ Hh Hsp Hent Hlen) as (err & ring' & l' & -> & Hins).
    cbn [mbind go_bind]. set (s3 := s2 <| attrs := st' |>). destruct err as [err|].
    { exists false, s3, l. split_and!; done. }
    destruct Hins as [Hh' Hadd]. eexists true, _, l'. split_and!; try done.
    eapply stream_holds_ext; [|apply (stream_holds_put s3 _ (ke_step e) ring' l' Hs2)].
    + intros st. unfold upd. by case_decide.
    + change (maxLen s3) with (maxLen s1). by rewrite Hml.
Qed.
End AddSpec.

(** ** Finding events *)

(** The bytes of [k] meet the positions from [start] up to [end_]. *)
Definition overlaps (start end_ : Z) (k : KernEvent) : Prop :=
  ev_seq k < end_ /\ start < ev_seq k + ev_len k.
#[export] Instance overlaps_dec start end_ k : Decision (overlaps start end_ k).
Proof. unfold overlaps. apply _. Defined.

Definition in_range (k : KernEvent) : Prop := 0 <= ev_seq k < 4294967296 /\ 0 < ev_len k < 4294967296.

Lemma find_action_spec start end_ k acc :
  in_range k -> 0 <= start < end_ ->
  find_action start end_ k acc =
    if decide (overlaps start end_ k) then (true, acc ++ [k])
    else if decide (end_ < ev_seq k) then (false, acc) else (true, acc).
Proof.
  intros [Hq Hl] Hse. unfold find_action, overlaps. rewrite (u64_small (ev_len k)), u64_small by lia.
  destruct (Z.leb_spec (ev_seq k) start), (Z.gtb_spec (ev_seq k + ev_len k) start),
    (Z.ltb_spec (ev_seq k) end_), (Z.geb_spec (ev_seq k + ev_len k) end_),
    (Z.geb_spec (ev_seq k) start), (Z.leb_spec (ev_seq k + ev_len k) end_),
    (Z.gtb_spec (ev_seq k) end_); cbn [andb]; repeat case_decide; try lia; done.
Qed.

Lemma walk_find start end_ l acc :
  StronglySorted earlier l -> Forall in_range l -> 0 <= start < end_ ->
  walk (find_action start end_) l acc = acc ++ filter (overlaps start end_) l.
Proof.
  intros Hs Hr Hse. revert acc. induction Hs as [|k l Hs IH Hk]; intros acc; cbn [walk].
  - by rewrite app_nil_r.
  - apply Forall_cons in Hr as [Hrk Hr]. rewrite find_action_spec by done.
    rewrite filter_cons. case_decide as Ho; [|case_decide as He].
    + by rewrite (IH Hr), <- app_assoc.
    + assert (Hnil : filter (overlaps start end_) l = []).
      { apply filter_none. eapply Forall_impl; [exact Hk|]. unfold earlier, overlaps. intros. lia. }
      by rewrite Hnil, app_nil_r.
    + by rewrite (IH Hr).
Qed.

Lemma find_exact s f st seq len :
  stream_holds s f -> Forall in_range (f st) -> 0 <= seq -> 0 < len -> seq + len < 18446744073709551616 ->
  FindEventsBySeqAndLen s st seq len = Ret (filter (overlaps seq (seq + len)) (f st)).
Proof.
  intros [_ Hf] Hr Hq Hl Hw. unfold FindEventsBySeqAndLen. specialize (Hf st).
  destruct (kernEvents s !! st) as [ring|]; [|by rewrite Hf].
  destruct Hf as (Hrep & _ & Hs). cbv zeta. rewrite (u64_small len), u64_small by lia.
  rewrite (ForEach_rep _ _ _ _ Hrep), walk_find by (done || lia). done.
Qed.

(** ** SSL events *)

Definition ssl_sorted (l : list SslEvent) : Prop := StronglySorted (fun a b => Seq a < Seq b) l.

Lemma bsearch_loop_ok {A} (cmp : A -> Z) (x : list A) fuel : forall i j,
  (forall a b u v, (a < b)%nat -> x !! a = Some u -> x !! b = Some v -> 0 <= cmp u -> 0 <= cmp v) ->
  0 <= i <= j -> j <= zlen x -> j - i < Z.of_nat fuel ->
  (forall a u, (a < Z.to_nat i)%nat -> x !! a = Some u -> cmp u < 0) ->
  (forall a u, (Z.to_nat j <= a)%nat -> x !! a = Some u -> 0 <= cmp u) ->
  exists r, bsearch_loop fuel x cmp i j = Ret (Some r) /\ 0 <= r <= zlen x /\
    (forall a u, (a < Z.to_nat r)%nat -> x !! a = Some u -> cmp u < 0) /\
    (forall a u, (Z.to_nat r <= a)%nat -> x !! a = Some u -> 0 <= cmp u).
Proof.
  induction fuel as [|fuel IH]; intros i j Hasc Hij Hj Hf Hlo Hhi; [lia|]. cbn [bsearch_loop].
  destruct (Z.ltb_spec i j) as [Hlt|Hge].
  - set (h := Z.shiftr (i + j) 1).
    assert (Hh : i <= h < j).
    { unfold h. rewrite Z.shiftr_div_pow2 by lia. change (2 ^ 1) with 2.
      Z.to_euclidean_division_equations. lia. }
    destruct (lookup_lt_is_Some_2 x (Z.to_nat h)) as [y Hy]; [unfold zlen in *; lia|]. rewrite Hy.
    destruct (Z.ltb_spec (cmp y) 0) as [Hc|Hc].
    + apply IH; try done; try lia. intros a u Ha Hu.
      destruct (decide (a = Z.to_nat h)) as [->|Hne]; [congruence|].
      destruct (Z.lt_ge_cases (cmp u) 0) as [|Hu0]; [done|].
      specialize (Hasc a (Z.to_nat h) u y ltac:(lia) Hu Hy Hu0). lia.
    + apply IH; try done; try lia. intros a u Ha Hu.
      destruct (decide (a = Z.to_nat h)) as [->|Hne]; [congruence|].
      apply (Hasc (Z.to_nat h) a y u); (done || lia).
  - exists i. replace j with i in * by lia. split; [done|]. split; [lia|]. done.
Qed.

(** The search in a slice of SSL events: the elements before the index are
    those below, and [found] says whether the one at the index is equal. *)
Lemma ssl_search q l :
  ssl_sorted l ->
  exists i found, BinarySearchFunc l (ssl_compare q) = Ret (i, found) /\ 0 <= i <= zlen l /\
    Forall (fun e => Seq e < q) (take (Z.to_nat i) l) /\
    Forall (fun e => if found then q <= Seq e else q < Seq e) (drop (Z.to_nat i) l) /\
    (found = true -> exists e, l !! Z.to_nat i = Some e /\ Seq e = q).
Proof.
  intros Hs. unfold BinarySearchFunc, ssl_compare.
  destruct (bsearch_loop_ok (fun e => Compare (Seq e) q) l (S (length l)) 0 (zlen l))
    as (i & Hb & Hi & Hlo & Hhi); try (unfold zlen; lia).
  - intros a b u v Hab Hu Hv H. pose proof (sorted_lookup _ _ _ _ _ _ Hs Hu Hv Hab) as Hlt. cbv beta in Hlt.
    assert (0 < Compare (Seq v) q); [|lia]. apply Compare_gt.
    destruct (Z.lt_ge_cases (Seq u) q) as [Hq%Compare_lt|]; lia.
  - intros a u Ha Hu%lookup_lt_Some. unfold zlen in Ha. lia.
  - unfold must. rewrite Hb. cbn [mbind go_bind]. eexists i, _. split; [done|]. split; [done|].
    assert (Hge : forall a u, (Z.to_nat i <= a)%nat -> l !! a = Some u -> q <= Seq u).
    { intros a u Ha Hu. specialize (Hhi a u Ha Hu). 
      destruct (Z.lt_ge_cases (Seq u) q) as [Hq%Compare_lt|]; lia. }
    split; [|split].
    + apply Forall_lookup. intros a u Ha. destruct (Nat.lt_ge_cases a (Z.to_nat i)).
      * rewrite lookup_take_lt in Ha by done. by apply Compare_lt, (Hlo a).
      * by rewrite lookup_take_ge in Ha.
    + apply Forall_lookup. intros a u Ha. rewrite lookup_drop in Ha.
      pose proof (Hge (Z.to_nat i + a)%nat u ltac:(lia) Ha) as Hq.
      destruct (l !! Z.to_nat i) as [y|] eqn:Ey; cycle 1.
      { apply lookup_lt_Some in Ha. apply lookup_ge_None in Ey. lia. }
      destruct (Z.eqb_spec (Compare (Seq y) q) 0) as [E|E]; [done|].
      rewrite Compare_eq in E. pose proof (Hge (Z.to_nat i) y ltac:(lia) Ey).
      destruct (decide (a = 0%nat)) as [->|Hne].
      * rewrite Nat.add_0_r in Ha. simplify_eq. lia.
      * pose proof (sorted_lookup _ _ _ _ _ _ Hs Ey Ha ltac:(lia)) as Hlt. cbv beta in Hlt. lia.
    + destruct (l !! Z.to_nat i) as [y|]; [|done]. intros E%Z.eqb_eq. rewrite Compare_eq in E. by exists y.
Qed.

Lemma trim_ok {A} ml (l : list A) :
  0 <= ml -> exists k, trim ml l = Ret (drop k l) /\ zlen (drop k l) <= ml /\ (zlen l <= ml -> k = 0%nat).
Proof.
  intros Hml. induction l as [|x l (k & Hk & Hz & Hid)]; cbn [trim]; rewrite Z.gtb_ltb.
  - exists 0%nat. change (zlen (@nil A)) with 0. destruct (Z.ltb_spec ml 0); [lia|]. done.
  - destruct (Z.ltb_spec ml (zlen (x :: l))); [|exists 0%nat; rewrite drop_0; done].
    exists (S k). cbn [drop]. split; [done|]. split; [done|lia].
Qed.

Lemma find_ssl_filter start end_ l :
  ssl_sorted l -> find_ssl start end_ l = filter (fun e => start <= Seq e < end_) l.
Proof.
  induction 1 as [|e l Hs IH He]; [done|]. cbn [find_ssl]. rewrite filter_cons.
  destruct (Z.ltb_spec (Seq e) start); [by rewrite decide_False by lia|].
  destruct (Z.ltb_spec (Seq e) end_); [by rewrite decide_True, IH by lia|].
  rewrite decide_False by lia. symmetry. apply filter_none. eapply Forall_impl; [exact He|].
  cbv beta. intros. lia.
Qed.

(** The SSL events of one direction, and the state with them replaced. *)
Definition ssl_list (isIn : bool) (s : KernEventStream) : list SslEvent :=
  if isIn then sslInEvents s else sslOutEvents s.
Definition ssl_mark (isIn : bool) (s : KernEventStream) : Z :=
  if isIn then ingressSslDiscardSeq s else egressSslDiscardSeq s.
(** Those that are not marked as done. *)
Definition ssl_kept (isIn : bool) (s : KernEventStream) : list SslEvent :=
  if ssl_mark isIn s =? 0 then ssl_list isIn s
  else filter (fun e => ssl_mark isIn s <= Seq e) (ssl_list isIn s).

Definition ssl_entry (event : ssl_header) : SslEvent :=
  mk_SslEvent (ke_seq (Ke event)) (SyscallSeq event) (ke_len (Ke event)) (SyscallLen event)
    (ke_ts (Ke event)) (ke_ts_delta (Ke event)) (ke_step (Ke event)).

Lemma filter_split (P : SslEvent -> Prop) `{!forall x, Decision (P x)} i l :
  Forall (fun x => ~ P x) (take i l) -> Forall P (drop i l) -> filter P l = drop i l.
Proof.
  intros H1 H2. rewrite <- (take_drop i l) at 1. rewrite filter_app, filter_none by done.
  cbn [app]. induction H2 as [|x t Hx Ht IH]; [done|]. by rewrite filter_cons_True, IH.
Qed.

Lemma discardSsl_spec s isIn :
  ssl_sorted (ssl_list isIn s) ->
  exists s', discardSslEventsIfNeeded s isIn = Ret s' /\ ssl_list isIn s' = ssl_kept isIn s /\
    maxLen s' = maxLen s /\ ssl_sorted (ssl_kept isIn s).
Proof.
  intros Hs. unfold discardSslEventsIfNeeded, ssl_kept.
  set (q := ssl_mark isIn s). assert (Hgo : exists s',
    (if q =? 0 then Ret s else discardSslEventsBySeq s q (negb isIn)) = Ret s' /\
    ssl_list isIn s' = (if q =? 0 then ssl_list isIn s else filter (fun e => q <= Seq e) (ssl_list isIn s)) /\
    maxLen s' = maxLen s).
  { destruct (q =? 0); [by exists s|]. unfold discardSslEventsBySeq.
    replace (if negb isIn then sslOutEvents s else sslInEvents s) with (ssl_list isIn s) by (by destruct isIn).
    destruct (ssl_search q _ Hs) as (i & found & -> & Hi & Hlo & Hhi & _). cbn [mbind go_bind].
    rewrite (filter_split _ (Z.to_nat i)).
    - rewrite Z.gtb_ltb. destruct (Z.ltb_spec 0 i).
      + rewrite slice_from_ok by done. cbn [mbind go_bind]. destruct isIn; by eexists.
      + replace i with 0 by lia. rewrite drop_0. by exists s.
    - eapply Forall_impl; [exact Hlo|]. cbv beta. intros. lia.
    - eapply Forall_impl; [exact Hhi|]. cbv beta. intros e He. destruct found; lia. }
  destruct Hgo as (s' & Hd & Hl & Hm). exists s'. split; [by destruct isIn|]. split; [done|]. split; [done|].
  destruct (q =? 0); [done|]. by apply filter_sorted.
Qed.

Lemma AddSslEvent_spec s event :
  let isIn := bool_decide (ke_step (Ke event) = SSL_IN) in
  0 <= maxLen s -> ssl_sorted (ssl_list isIn s) ->
  exists s', AddSslEvent s event = Ret s' /\
    ((exists e, e ∈ ssl_kept isIn s /\ Seq e = ke_seq (Ke event)) /\ ssl_list isIn s' = ssl_kept isIn s \/
     exists l1 l2 k, ssl_kept isIn s = l1 ++ l2 /\ Forall (fun e => Seq e < ke_seq (Ke event)) l1 /\
       Forall (fun e => ke_seq (Ke event) < Seq e) l2 /\
       ssl_list isIn s' = drop k (l1 ++ ssl_entry event :: l2) /\ zlen (ssl_list isIn s') <= maxLen s /\
       (zlen (ssl_kept isIn s) < maxLen s -> k = 0%nat)).
Proof.
  intros isIn Hml Hs. unfold AddSslEvent. fold isIn.
  destruct (discardSsl_spec s isIn Hs) as (s1 & -> & Hl & Hm & Hso). cbn [mbind go_bind].
  replace (if isIn then sslInEvents s1 else sslOutEvents s1) with (ssl_kept isIn s) by (rewrite <- Hl; by destruct isIn).
  destruct (ssl_search (ke_seq (Ke event)) _ Hso) as (i & found & -> & Hi & Hlo & Hhi & Hf).
  unfold go_then. cbn [mbind go_bind]. destruct found.
  - exists s1. split; [done|]. left. destruct (Hf eq_refl) as (e & He & Hq). split; [|done].
    exists e. split; [by eapply list_elem_of_lookup_2|done].
  - rewrite Hm. fold (ssl_entry event).
    destruct (trim_ok (maxLen s) (slices_insert (ssl_kept isIn s) (Z.to_nat i) (ssl_entry event)) Hml)
      as (k & -> & Hz & Hk). cbn [mbind go_bind]. eexists. split; [done|]. right.
    exists (take (Z.to_nat i) (ssl_kept isIn s)), (drop (Z.to_nat i) (ssl_kept isIn s)), k.
    split; [by rewrite take_drop|]. split; [done|]. split; [done|].
    replace (ssl_list isIn _) with (drop k (slices_insert (ssl_kept isIn s) (Z.to_nat i) (ssl_entry event)))
      by (by destruct isIn).
    split; [done|]. split; [done|]. intros Hroom. apply Hk.
    unfold slices_insert. rewrite zlen_app, zlen_cons, zlen_take, zlen_drop by lia. lia.
Qed.

(** ** Properties *)

Section Properties.
Variable ifname : Z -> Z -> option string.

(** A list of events, one [AddKernEvent] each, with their results. *)
Fixpoint add_events (s : KernEventStream) (es : list kern_evt) : go (list bool * KernEventStream) :=
  match es with
  | [] => Ret ([], s)
  | e :: es =>
    do (r, s) <- AddKernEvent ifname s e;
    do (rs, s) <- add_events s es;
    Ret (r :: rs, s)
  end.

(** What [AddKernEvent] does.  On a stream whose rings hold, per step, events
    in ascending order of their sequence numbers, it never panics, all rings stay
    ordered, and the step of the event ends in one of four ways: an event without
    data changes nothing; an event with a known sequence number leaves the entries
    as they are; a full ring rejects it; otherwise it is inserted at its place.  The other
    steps lose only events below the marks. *)
Theorem add_kern_event_outcomes s f e :
  stream_holds s f ->
  exists r s' l', AddKernEvent ifname s e = Ret (r, s') /\
    stream_holds s' (upd (kept s f) (ke_step e) l') /\
    added_as e (maxLen s) (kept s f (ke_step e)) r l'.
Proof. intros Hs. destruct (AddKernEvent_spec ifname s f e Hs) as (r & s' & l' & ? & ? & _ & ? & _). by exists r, s', l'. Qed.

(** The lookup by position is exact.  For a non-empty range of positions,
    [FindEventsBySeqAndLen] delivers the events of the step whose bytes meet the
    range, all of them and no others, in order; the early end of its loop loses
    none. *)
Theorem find_events_exact s f st seq len :
  stream_holds s f -> Forall in_range (f st) -> 0 <= seq -> 0 < len -> seq + len < 18446744073709551616 ->
  FindEventsBySeqAndLen s st seq len = Ret (filter (overlaps seq (seq + len)) (f st)).
Proof. apply find_exact. Qed.

(** A full step is stuck.  When the ring of a step is full of events that
    all lie below the mark of its direction, which is the state after a message of
    more events than a ring has room for, discarding fails, because the index to
    discard up to is the size of the ring, and every further event of the step is
    rejected, whatever other events arrive: the step records nothing any more. *)
Theorem full_step_is_stuck es s f st :
  stream_holds s f -> zlen (f st) = maxLen s ->
  let mark := if IsEgressStep st then egressDiscardSeq s else ingressDiscardSeq s in
  0 < mark -> Forall (fun k => ev_seq k < mark) (f st) ->
  Forall (fun e => ke_step e = st -> 0 < ke_len e /\ mark <= ke_seq e) es ->
  exists rs s' f', add_events s es = Ret (rs, s') /\ stream_holds s' f' /\ f' st = f st /\
    Forall2 (fun e r => ke_step e = st -> r = false) es rs.
Proof.
  intros Hs Hfull mark Hmark Hbelow Hes. subst mark. revert s f Hs Hfull Hmark Hbelow Hes.
  induction es as [|e es IH]; intros s f Hs Hfull Hmark Hbelow Hes; [by exists [], s, f|].
  apply Forall_cons in Hes as [He Hes].
  assert (Hkept : kept s f st = f st).
  { unfold kept. cbv zeta. destruct (_ =? 0); [done|]. unfold discard_list. rewrite filter_none; [done|].
    eapply Forall_impl; [exact Hbelow|]. cbv beta. intros. lia. }
  destruct (AddKernEvent_spec ifname s f e Hs) as (r & s1 & l' & Ha & Hs1 & Hm & Hadd & Heg & Hin).
  assert (Hl' : upd (kept s f) (ke_step e) l' st = f st /\ (ke_step e = st -> r = false)).
  { unfold upd. case_decide as E; [subst st|by split; [|intros <-] ]. rewrite Hkept in Hadd.
    destruct (He eq_refl) as [H1 H2]. destruct Hadd; try lia; try done.
    rewrite Forall_forall in Hbelow. specialize (Hbelow _ ltac:(eassumption)). lia. }
  destruct Hl' as [Hl' Hr]. cbn [add_events]. rewrite Ha. unfold go_then. cbn [mbind go_bind].
  destruct (IH s1 _ Hs1) as (rs & s2 & f2 & -> & Hs2 & Hf2 & Hrs); rewrite ?Hl', ?Heg, ?Hin, ?Hm; try done.
  exists (r :: rs), s2, f2. cbn [mbind go_bind]. split; [done|]. split; [done|].
  split; [by rewrite Hf2|]. by constructor.
Qed.

(** An earlier event with a known sequence number is reported as added and
    not recorded.  When an event of a step other than those of the network
    devices arrives whose sequence number is taken by an event with a later time,
    the code overwrites its copy of the old entry, but never stores it: the
    result is [true] and the events of the step are as before. *)
Theorem earlier_event_not_recorded s f e old :
  stream_holds s f -> is_nic (ke_step e) = false -> 0 < ke_len e ->
  old ∈ kept s f (ke_step e) -> ev_seq old = ke_seq e -> ke_ts e < ev_startTs old ->
  exists s', AddKernEvent ifname s e = Ret (true, s') /\
    stream_holds s' (kept s f).
Proof.
  intros Hs Hn Hl Hold Hq Ht.
  destruct (AddKernEvent_spec ifname s f e Hs) as (r & s1 & l' & Ha & Hs1 & _ & Hadd & _).
  assert (Hr : r = true /\ l' = kept s f (ke_step e)).
  { set (l := kept s f (ke_step e)) in *. destruct Hadd as [|old' r' _ Hin Hq' Hr|_ Hne|l1 l2 k _ El H1 H2];
      [lia| | |].
    - assert (old' = old) as -> by (apply (sorted_seq_inj l); [by apply kept_sorted|done|done|lia]).
      split; [|done]. rewrite (Hr Hn). apply Z.gtb_lt. lia.
    - exfalso. rewrite Forall_forall in Hne. by apply (Hne old).
    - exfalso. rewrite Forall_forall in H1, H2. rewrite El in Hold.
      apply elem_of_app in Hold as [Ho|Ho]; [specialize (H1 _ Ho)|specialize (H2 _ Ho)]; lia. }
  destruct Hr as [-> ->]. exists s1. split; [done|]. eapply stream_holds_ext, Hs1.
  intros st. unfold upd. by case_decide; subst.
Qed.
End Properties.

(** An SSL event that is added is found.  When no event with its sequence
    number is known and there is room, the event is stored in order, and the
    lookup over any range of positions that contains its sequence number delivers
    it, with the pointer to the ciphertext it came with. *)
Theorem ssl_event_roundtrip s event seq len :
  let isIn := bool_decide (ke_step (Ke event) = SSL_IN) in
  ssl_sorted (ssl_list isIn s) -> zlen (ssl_kept isIn s) < maxLen s ->
  Forall (fun e => Seq e <> ke_seq (Ke event)) (ssl_kept isIn s) ->
  0 <= seq <= ke_seq (Ke event) -> ke_seq (Ke event) < seq + len -> 0 <= len -> seq + len < 18446744073709551616 ->
  exists s', AddSslEvent s event = Ret s' /\ ssl_sorted (ssl_list isIn s') /\
    FindSslEventsBySeqAndLen s' (ke_step (Ke event)) seq len
    = filter (fun e => seq <= Seq e < seq + len) (ssl_list isIn s') /\
    ssl_entry event ∈ FindSslEventsBySeqAndLen s' (ke_step (Ke event)) seq len.
Proof.
  intros isIn Hs Hroom Hnew Hq1 Hq2 Hl Hw. pose proof (zlen_nonneg (ssl_kept isIn s)).
  destruct (AddSslEvent_spec s event) as (s' & Ha & [ [(e & He & Hq) _]|(l1 & l2 & k & El & H1 & H2 & Hl' & _ & Hk)]);
    [lia|done| |].
  { rewrite Forall_forall in Hnew. by destruct (Hnew e He). }
  fold isIn in El, Hl', Hk. rewrite (Hk Hroom), drop_0 in Hl'. exists s'. split; [done|].
  assert (Hso : ssl_sorted (ssl_list isIn s')).
  { destruct (discardSsl_spec s isIn Hs) as (_ & _ & _ & _ & Hk'). rewrite El in Hk'. rewrite Hl'.
    unfold ssl_sorted in *. apply StronglySorted_app in Hk' as (H12 & Hs1 & Hs2).
    rewrite Forall_forall in H1. apply StronglySorted_app. split_and!; [|done|by constructor].
    intros x y Hx [->|Hy]%elem_of_cons; [by apply H1|by apply H12]. }
  split; [done|]. unfold FindSslEventsBySeqAndLen. fold isIn. fold (ssl_list isIn s').
  rewrite (u64_small len), u64_small, find_ssl_filter by (done || lia). split; [done|].
  apply list_elem_of_filter. split; [cbn; lia|]. rewrite Hl'. apply elem_of_app. right. by left.
Qed.

(** ** Examples *)

Definition no_names : Z -> Z -> option string := fun _ _ => None.
Definition evt (st : step_t) (seq len ts : Z) : kern_evt :=
  kern_evt_zero <| ke_step := st |> <| ke_seq := seq |> <| ke_len := len |> <| ke_ts := ts |>.

(** Two segments received by IP, in a stream that keeps two events per step. *)
Definition two_events : go (list bool * KernEventStream) :=
  add_events no_names (NewKernEventStream 2) [evt IP_IN 1 100 5; evt IP_IN 101 100 6].
Definition two_kept (st : step_t) : list KernEvent :=
  if decide (st = IP_IN) then [mk_KernEvent 1 100 5 0 IP_IN None; mk_KernEvent 101 100 6 0 IP_IN None]
  else [].
Definition after_two : KernEventStream :=
  match two_events with Ret (_, s) => s | Panic => NewKernEventStream 2 end.

Lemma after_two_holds : stream_holds after_two two_kept.
Proof.
  assert (Hmap : kernEvents after_two = {[IP_IN := mk_RingBuffer
    [Some (mk_KernEvent 1 100 5 0 IP_IN None); Some (mk_KernEvent 101 100 6 0 IP_IN None)] 2 0 0 true]}).
  { vm_compute. reflexivity. }
  split; [vm_compute; reflexivity|]. intros st. rewrite Hmap. unfold two_kept. case_decide as E.
  - subst st. rewrite lookup_singleton_eq. split; [|split].
    + constructor; try (vm_compute; done).
      intros i Hi. cbn [size] in Hi. assert (i = 0 \/ i = 1) as [->| ->] by lia; vm_compute; reflexivity.
    + vm_compute. reflexivity.
    + repeat constructor.
  - by rewrite lookup_singleton_ne.
Qed.

(** [add_kern_event_outcomes] for a third event, which finds the ring full. *)
Lemma add_kern_event_outcomes_witness :
  exists r s' l', AddKernEvent no_names after_two (evt IP_IN 201 50 7) = Ret (r, s') /\
    stream_holds s' (upd (kept after_two two_kept) IP_IN l') /\
    added_as (evt IP_IN 201 50 7) 2 (kept after_two two_kept IP_IN) r l'.
Proof.
  apply (add_kern_event_outcomes no_names after_two two_kept (evt IP_IN 201 50 7)).
  apply after_two_holds.
Defined.

(** [find_events_exact] for a range inside the second event. *)
Lemma find_events_exact_witness :
  FindEventsBySeqAndLen after_two IP_IN 150 20
  = Ret (filter (overlaps 150 (150 + 20)) (two_kept IP_IN)).
Proof.
  apply find_events_exact; try lia; [apply after_two_holds|].
  cbn. repeat constructor; cbn; lia.
Defined.

(** [full_step_is_stuck] after the response that ends at position 201. *)
Lemma full_step_is_stuck_witness :
  let s := MarkNeedDiscardSeq after_two 201 false in
  exists rs s' f', add_events no_names s [evt IP_IN 201 50 7; evt IP_OUT 1 10 8; evt IP_IN 251 50 9]
      = Ret (rs, s') /\ stream_holds s' f' /\ f' IP_IN = two_kept IP_IN /\
    Forall2 (fun e r => ke_step e = IP_IN -> r = false)
      [evt IP_IN 201 50 7; evt IP_OUT 1 10 8; evt IP_IN 251 50 9] rs.
Proof.
  intros s. apply (full_step_is_stuck no_names _ s two_kept IP_IN).
  - apply after_two_holds.
  - reflexivity.
  - vm_compute. reflexivity.
  - vm_compute. repeat constructor.
  - repeat (apply Forall_cons; split); [..|constructor]; vm_compute; split; congruence.
Defined.

(** [earlier_event_not_recorded] for a second event at position 101, two ticks earlier. *)
Lemma earlier_event_not_recorded_witness :
  exists s', AddKernEvent no_names after_two (evt IP_IN 101 60 4) = Ret (true, s') /\
    stream_holds s' (kept after_two two_kept).
Proof.
  apply (earlier_event_not_recorded no_names after_two two_kept (evt IP_IN 101 60 4)
    (mk_KernEvent 101 100 6 0 IP_IN None)); try reflexivity.
  - apply after_two_holds.
  - change (kept after_two two_kept (ke_step (evt IP_IN 101 60 4))) with
      [mk_KernEvent 1 100 5 0 IP_IN None; mk_KernEvent 101 100 6 0 IP_IN None].
    right. left.
Defined.

(** [ssl_event_roundtrip] for a first plaintext event. *)
Lemma ssl_event_roundtrip_witness :
  let s := NewKernEventStream 300 in
  let event := mk_ssl_header (evt SSL_OUT 1 20 5) 1 49 in
  exists s', AddSslEvent s event = Ret s' /\ ssl_sorted (ssl_list false s') /\
    FindSslEventsBySeqAndLen s' SSL_OUT 1 20
    = filter (fun e => 1 <= Seq e < 1 + 20) (ssl_list false s') /\
    ssl_entry event ∈ FindSslEventsBySeqAndLen s' SSL_OUT 1 20.
Proof.
  intros s event. apply (ssl_event_roundtrip s event 1 20).
  - constructor.
  - reflexivity.
  - constructor.
  - change (ke_seq (Ke event)) with 1. lia.
  - change (ke_seq (Ke event)) with 1. lia.
  - lia.
  - lia.
Defined.
