(* ===== verification/Protocol.v ===== *)
(** * What the protocol parsers of the agent share

    [src/agent/protocol]: the interface [ProtocolStreamParser] through which a
    connection uses a parser ([protocol.go]) as a class, with the laws the parsing
    loop of a connection relies on as a class of its own; [CreateFrameBase] and
    [matchByTimestamp] ([common.go]); and the stand-in for bytes the probes did not
    capture ([fakedata.go]).

    A parser works on the first run of a stream buffer and may change its own state
    ([P]).  A queue of messages is a list; the map from stream identifiers to queues
    a finite map. *)

From stdpp Require Import gmap list sorting.
From Stdlib Require Import ZArith Lia.
From S2P Require Import Prelude.
From S2P Require Import GoBase.
From S2P Require Import StreamBuffer.
Local Open Scope Z_scope.

(** ** Messages and parse results *)

Inductive MessageType : Set := Request | Response | Unknown.
#[export] Instance MessageType_eq_dec : EqDecision MessageType.
Proof. solve_decision. Defined.

Inductive ParseState : Set := Invalid | NeedsMoreData | Success | Ignore.
#[export] Instance ParseState_eq_dec : EqDecision ParseState.
Proof. solve_decision. Defined.

Record FrameBase := mk_FrameBase { timestampNs : Z; byteSize : Z; frame_seq : Z }.

Definition NewFrameBase (timestampNs byteSize seq : Z) : FrameBase := mk_FrameBase timestampNs byteSize seq.

Definition SetTimeStamp (f : FrameBase) (t : Z) : FrameBase := mk_FrameBase t (byteSize f) (frame_seq f).

Definition IncrByteSize (f : FrameBase) (incr : Z) : FrameBase :=
  mk_FrameBase (timestampNs f) (s64 (byteSize f + incr)) (frame_seq f).

(** The methods of [ParsedMessage], without the one that prints; [MsgSeq] is [Seq]. *)
Class ParsedMessage (M : Type) := {
  TimestampNs : M -> Z;
  ByteSize : M -> Z;
  IsReq : M -> bool;
  MsgSeq : M -> Z;
  StreamId : M -> Z;
}.

Record ParseResult (M : Type) := mk_ParseResult {
  parse_state : ParseState;
  ParsedMessages : list M;
  ReadBytes : Z;
}.
Arguments mk_ParseResult {M}.
Arguments parse_state {M}.
Arguments ParsedMessages {M}.
Arguments ReadBytes {M}.

(** [ParseResult{ParseState: s}] *)
Definition just {M} (s : ParseState) : ParseResult M := mk_ParseResult s [] 0.

Record Record_ (M : Type) := mk_Record { Req : M; Resp : M }.
Arguments mk_Record {M}.
Arguments Req {M}.
Arguments Resp {M}.

(** [map[StreamId]*ParsedMessageQueue] *)
Definition queues (M : Type) : Type := gmap Z (list M).

(** ** The interface *)

Class ProtocolStreamParser (T P M : Type) := {
  ParseStream : P -> StreamBuffer T -> MessageType -> go (ParseResult M * P);
  FindBoundary : P -> StreamBuffer T -> MessageType -> Z -> go Z;
}.

(** The third method of the interface, which pairs the messages of the two queues
    and takes what it used off them. *)
Class MessageMatcher (P M : Type) := {
  Match : P -> queues M -> queues M -> go (list (Record_ M) * queues M * queues M * P);
}.

(** A [[]byte] holds bytes. *)
Definition byte_list (l : list Z) : Prop := Forall (fun b => 0 <= b < 256) l.

(** A run as a stream buffer has it when only data was added. *)
Definition data_run (b : Buffer) : Prop := 0 < Len b /\ byte_list (buf b).

(** What [parseStreamBuffer] needs of a parser: on a buffer whose first run is not
    empty, a call returns; a message or a part to be skipped is not empty and lies in
    the first run; and so does a boundary, at or after the place where the search
    starts. *)
Class ParserLaws (T P M : Type) `{ProtocolStreamParser T P M} := {
  parse_total (p : P) (sb : StreamBuffer T) (mt : MessageType) (h : Buffer) :
    Head sb = Some h -> data_run h ->
    exists r p', ParseStream p sb mt = Ret (r, p') /\
      (parse_state r = Success \/ parse_state r = Ignore -> 0 < ReadBytes r <= Len h);
  boundary_total (p : P) (sb : StreamBuffer T) (mt : MessageType) (start : Z) (h : Buffer) :
    Head sb = Some h -> data_run h -> 0 <= start ->
    exists pos, FindBoundary p sb mt start = Ret pos /\ (pos = -1 \/ start <= pos < Len h);
}.

(** Matching returns. *)
Class MatcherLaws (P M : Type) `{MessageMatcher P M} := {
  match_total (p : P) (reqs resps : queues M) : exists r, Match p reqs resps = Ret r;
}.

(** ** Frames *)

(** [Head().LeftBoundary()] panics without a first run. *)
Definition CreateFrameBase {T} `{TreeMap T} (sb : StreamBuffer T) (readBytes : Z) : go (option FrameBase) :=
  match Head sb with
  | None => Panic
  | Some h =>
    let seq := LeftBoundary h in
    let '(ts, ok) := FindTimestampBySeq sb seq in
    Ret (if ok then Some (NewFrameBase ts readBytes seq) else None)
  end.

(** ** Matching requests and responses *)

Section Matching.
Context {M : Type} `{ParsedMessage M}.

(** The loop of [matchByTimestamp]: the requests and the responses left, and the
    request of the record under construction. *)
Fixpoint match_loop (resps : list M) : list M -> option M -> list (Record_ M) * list M :=
  fix match_reqs (reqs : list M) (record : option M) : list (Record_ M) * list M :=
    match resps with
    | [] => ([], reqs)
    | resp :: resps' =>
      let take_resp :=
        match record with
        | Some req => let '(rs, rest) := match_loop resps' reqs None in (mk_Record req resp :: rs, rest)
        | None => match_loop resps' reqs None
        end in
      match reqs with
      | req :: reqs' =>
        if TimestampNs req <? TimestampNs resp then match_reqs reqs' (Some req) else take_resp
      | [] => take_resp
      end
    end.

(** The records, and what is left of both streams. *)
Definition matchByTimestamp (reqStream respStream : list M) : list (Record_ M) * list M * list M :=
  match reqStream, respStream with
  | [], _ | _, [] => ([], reqStream, respStream)
  | _, _ => let '(rs, rest) := match_loop respStream reqStream None in (rs, rest, [])
  end.

(** [Match] of HTTP and of Redis, which have one stream of messages. *)
Definition match_stream_0 (reqStreams respStreams : queues M) : list (Record_ M) * queues M * queues M :=
  match reqStreams !! 0, respStreams !! 0 with
  | Some reqStream, Some respStream =>
    let '(records, reqs, resps) := matchByTimestamp reqStream respStream in
    (records, <[0 := reqs]> reqStreams, <[0 := resps]> respStreams)
  | _, _ => ([], reqStreams, respStreams)
  end.

End Matching.

(** ** Stand-in data *)

(** [__FAKE_DATA__] *)
Definition fakeDataMarkPrefix : list Z := [95; 95; 70; 65; 75; 69; 95; 68; 65; 84; 65; 95; 95].
Definition fakeDataMarkLen : Z := zlen fakeDataMarkPrefix + 4.

(** [copy(dst, src)] *)
Definition copy {A} (dst src : list A) : list A := take (length dst) src ++ drop (length src) dst.

Definition MakeNewFakeData (size : Z) : option (list Z) :=
  if size <? u32 fakeDataMarkLen then None
  else
    let buf := replicate (Z.to_nat size) 0 in
    let buf := copy buf fakeDataMarkPrefix in
    let size := u32 (size - u32 fakeDataMarkLen) in
    let n := length fakeDataMarkPrefix in
    let buf := <[n := u8 (Z.shiftr size 24)]> buf in
    let buf := <[(n + 1)%nat := u8 (Z.shiftr size 16)]> buf in
    let buf := <[(n + 2)%nat := u8 (Z.shiftr size 8)]> buf in
    Some (<[(n + 3)%nat := u8 size]> buf).

(** [strings.Index] *)
Fixpoint string_index (s sub : list Z) : Z :=
  if decide (take (length sub) s = sub) then 0
  else match s with
       | [] => -1
       | _ :: s' => let i := string_index s' sub in if i =? -1 then -1 else i + 1
       end.

Definition fakeDataMarkIndex (buf : list Z) : Z * bool :=
  if zlen buf <? fakeDataMarkLen then (-1, false)
  else let idx := string_index buf fakeDataMarkPrefix in
       if idx <? 0 then (-1, false) else (idx, true).

Definition getFakeDataSize (buf : list Z) (pos : Z) : go Z :=
  buf ← slice_from buf pos;
  if zlen buf <? fakeDataMarkLen then Ret 0
  else
    let n := length fakeDataMarkPrefix in
    let byte i := buf !!! (n + i)%nat in
    Ret (Z.lor (Z.lor (Z.lor (u32 (Z.shiftl (byte 0%nat) 24)) (u32 (Z.shiftl (byte 1%nat) 16)))
      (u32 (Z.shiftl (byte 2%nat) 8))) (byte 3%nat)).

(** ** Lemmas *)

(** [u32]'s four bytes, most significant first. *)
Lemma be_bytes z : 0 <= z < 4294967296 ->
  Z.lor (Z.lor (Z.lor (u32 (Z.shiftl (u8 (Z.shiftr z 24)) 24)) (u32 (Z.shiftl (u8 (Z.shiftr z 16)) 16)))
    (u32 (Z.shiftl (u8 (Z.shiftr z 8)) 8))) (u8 z) = z.
Proof.
  intros Hz. apply Z.bits_inj'. intros i Hi.
  unfold u32, u8. change 4294967296 with (2 ^ 32). change 256 with (2 ^ 8).
  rewrite !Z.lor_spec.
  assert (E : forall k, 0 <= k <= 24 ->
    Z.testbit (Z.shiftl (Z.shiftr z k mod 2 ^ 8) k mod 2 ^ 32) i =
    (k <=? i) && (i <? k + 8) && Z.testbit z i).
  { intros k Hk. destruct (Z.ltb_spec i 32).
    - rewrite Z.mod_pow2_bits_low, Z.shiftl_spec by lia.
      destruct (Z.leb_spec k i); [|by rewrite Z.testbit_neg_r by lia].
      destruct (Z.ltb_spec i (k + 8)).
      + rewrite Z.mod_pow2_bits_low, Z.shiftr_spec by lia. cbn. f_equal. lia.
      + rewrite Z.mod_pow2_bits_high by lia. done.
    - rewrite Z.mod_pow2_bits_high by lia.
      rewrite (proj2 (Z.ltb_ge i (k + 8))) by lia. by rewrite andb_false_r. }
  rewrite !E by lia.
  assert (Z.testbit (z mod 2 ^ 8) i = (i <? 8) && Z.testbit z i) as ->.
  { destruct (Z.ltb_spec i 8); [by rewrite Z.mod_pow2_bits_low by lia|].
    by rewrite Z.mod_pow2_bits_high by lia. }
  destruct (Z.testbit z i) eqn:Ez; [|by rewrite !andb_false_r].
  assert (i < 32).
  { destruct (Z.lt_ge_cases i 32); [done|]. rewrite Z.bits_above_log2 in Ez; [done|lia|].
    apply Z.lt_le_trans with 32; [|done]. destruct (Z.eq_dec z 0) as [->|]; [done|].
    apply Z.log2_lt_pow2; lia. }
  rewrite !andb_true_r.
  destruct (Z.leb_spec 24 i), (Z.ltb_spec i (24 + 8)), (Z.leb_spec 16 i), (Z.ltb_spec i (16 + 8)),
    (Z.leb_spec 8 i), (Z.ltb_spec i (8 + 8)), (Z.ltb_spec i 8); done || lia.
Qed.

(** The stand-in for [size] bytes: the mark, how many bytes follow, zeros. *)
Lemma MakeNewFakeData_eq size : 17 <= size < 4294967296 ->
  MakeNewFakeData size = Some (fakeDataMarkPrefix ++
    [u8 (Z.shiftr (size - 17) 24); u8 (Z.shiftr (size - 17) 16); u8 (Z.shiftr (size - 17) 8); u8 (size - 17)] ++
    replicate (Z.to_nat (size - 17)) 0).
Proof.
  intros Hs. unfold MakeNewFakeData. change (u32 fakeDataMarkLen) with 17.
  rewrite (proj2 (Z.ltb_ge size 17)) by lia. rewrite u32_small by lia. f_equal.
  replace (Z.to_nat size) with (17 + Z.to_nat (size - 17))%nat by lia. done.
Qed.

Lemma MakeNewFakeData_small size : 0 <= size < 17 -> MakeNewFakeData size = None.
Proof.
  intros Hs. unfold MakeNewFakeData. change (u32 fakeDataMarkLen) with 17.
  by rewrite (proj2 (Z.ltb_lt size 17)) by lia.
Qed.

Lemma MakeNewFakeData_len size buf : MakeNewFakeData size = Some buf -> 0 <= size < 4294967296 -> zlen buf = size.
Proof.
  intros E Hs. destruct (Z.lt_ge_cases size 17); [by rewrite MakeNewFakeData_small in E by lia|].
  rewrite MakeNewFakeData_eq in E by lia. apply (inj Some) in E as <-.
  unfold zlen. cbn [fakeDataMarkPrefix app length]. rewrite length_replicate. lia.
Qed.

(** The mark is found where it was written, with the number of bytes behind it. *)
Lemma fake_data_found size rest : 17 <= size < 4294967296 ->
  exists buf, MakeNewFakeData size = Some buf /\ zlen buf = size /\
    fakeDataMarkIndex (buf ++ rest) = (0, true) /\ getFakeDataSize (buf ++ rest) 0 = Ret (size - 17).
Proof.
  intros Hs. eexists. split; [by apply MakeNewFakeData_eq|].
  split; [by apply (MakeNewFakeData_len size); [apply MakeNewFakeData_eq|]; lia|].
  rewrite <- !app_assoc.
  assert (L : forall l : list Z, (zlen (fakeDataMarkPrefix ++ [u8 (Z.shiftr (size - 17) 24);
    u8 (Z.shiftr (size - 17) 16); u8 (Z.shiftr (size - 17) 8); u8 (size - 17)] ++ l) <? fakeDataMarkLen) = false).
  { intros l. apply Z.ltb_ge. change fakeDataMarkLen with 17. unfold zlen. cbn [fakeDataMarkPrefix app length]. lia. }
  split; [unfold fakeDataMarkIndex; rewrite L; done|].
  unfold getFakeDataSize, slice_from. cbn [Z.leb Z.compare andb].
  rewrite (proj2 (Z.leb_le 0 _)) by apply zlen_nonneg. change (Z.to_nat 0) with 0%nat. rewrite drop_0.
  change (Ret ?a ≫= ?k) with (k a). cbv beta. rewrite L. f_equal. apply be_bytes. lia.
Qed.

(** *** Matching *)

Section MatchingFacts.
Context {M : Type} `{ParsedMessage M}.

Definition pair_of (x : M * M) : Record_ M := mk_Record x.1 x.2.

(** Request and response in turn, each later than the one before. *)
Fixpoint in_turn (since : Z) (xs : list (M * M)) : Prop :=
  match xs with
  | [] => True
  | (q, r) :: xs' => since <= TimestampNs q < TimestampNs r /\ in_turn (TimestampNs r) xs'
  end.

Definition starts_after (t : Z) (reqs : list M) : Prop :=
  match reqs with [] => True | q :: _ => t <= TimestampNs q end.

Lemma match_loop_cons q r reqs resps record :
  match_loop (r :: resps) (q :: reqs) record =
  if TimestampNs q <? TimestampNs r then match_loop (r :: resps) reqs (Some q)
  else match record with
       | Some req => let '(rs, rest) := match_loop resps (q :: reqs) None in (mk_Record req r :: rs, rest)
       | None => match_loop resps (q :: reqs) None
       end.
Proof. done. Qed.

Lemma match_loop_take r reqs resps q :
  starts_after (TimestampNs r) reqs ->
  match_loop (r :: resps) reqs (Some q) =
  (mk_Record q r :: (match_loop resps reqs None).1, (match_loop resps reqs None).2).
Proof.
  destruct reqs as [|q' reqs]; intros Hs.
  - cbn. by destruct (match_loop resps [] None).
  - rewrite match_loop_cons. cbn in Hs. rewrite (proj2 (Z.ltb_ge _ _)) by lia.
    by destruct (match_loop resps (q' :: reqs) None).
Qed.

Lemma match_loop_in_turn xs more since :
  in_turn since xs -> starts_after (foldl (fun _ x => TimestampNs x.2) since xs) more ->
  match_loop xs.*2 (xs.*1 ++ more) None = (pair_of <$> xs, more).
Proof.
  revert since. induction xs as [|[q r] xs IH]; intros since Ht Hm.
  - cbn. by destruct more.
  - cbn [in_turn] in Ht. destruct Ht as [Ht Hx].
    rewrite !fmap_cons. cbn [fst snd app]. rewrite match_loop_cons.
    rewrite (proj2 (Z.ltb_lt _ _)) by lia. rewrite match_loop_take.
    + by rewrite (IH (TimestampNs r)).
    + destruct xs as [|[q' r'] xs]; cbn in Hx, Hm |- *; [done|lia].
Qed.

End MatchingFacts.

(** ** Theorems *)

(** Requests and responses that follow each other in turn are paired as they
    belong.  Whatever requests are still waiting for a response, each later than the
    last response, the records are exactly the pairs, in order; all responses are
    consumed and the waiting requests stay in their queue. *)
Theorem match_in_turn {M} `{ParsedMessage M} (xs : list (M * M)) (more : list M) (since : Z)
    (Hne : xs <> [])
    (Hturn : in_turn since xs)
    (Hmore : starts_after (foldl (fun _ x => TimestampNs x.2) since xs) more) :
  matchByTimestamp (xs.*1 ++ more) xs.*2 = (pair_of <$> xs, more, []).
Proof.
  pose proof (match_loop_in_turn xs more since Hturn Hmore) as E.
  destruct xs as [|[q r] xs]; [done|]. unfold matchByTimestamp.
  rewrite !fmap_cons in E |- *. cbn [fst snd app] in E |- *. by rewrite E.
Qed.

(** Messages that are their own time stamps. *)
Definition time_message : ParsedMessage Z := 
  {| TimestampNs := id; ByteSize := fun _ => 0; IsReq := Z.even; MsgSeq := id; StreamId := fun _ => 0 |}.

Lemma match_in_turn_witness :
  @matchByTimestamp Z time_message ([10; 30] ++ [50]) [20; 40] =
  (@pair_of Z <$> [(10, 20); (30, 40)], [50], []).
Proof.
  apply (@match_in_turn Z time_message [(10, 20); (30, 40)] [50] 0); [done|cbn; lia|cbn; lia].
Defined.

(** Stand-in data announces itself.  For any size the mark fits in, the stand-in
    is as long as the bytes it stands for, whatever follows it the mark is found at
    its start, and the number read behind the mark is that of the bytes that follow;
    for smaller sizes there is none. *)
Theorem fake_data_roundtrip (size : Z) (rest : list Z) (Hsize : 0 <= size < 4294967296) :
  match MakeNewFakeData size with
  | None => size < 17
  | Some buf => zlen buf = size /\ fakeDataMarkIndex (buf ++ rest) = (0, true) /\
      getFakeDataSize (buf ++ rest) 0 = Ret (size - 17)
  end.
Proof.
  destruct (Z.lt_ge_cases size 17).
  - by rewrite MakeNewFakeData_small by lia.
  - destruct (fake_data_found size rest) as (buf & -> & ? & ? & ?); [lia|done].
Qed.

Lemma fake_data_roundtrip_witness :
  match MakeNewFakeData 300 with
  | None => 300 < 17
  | Some buf => zlen buf = 300 /\ fakeDataMarkIndex (buf ++ [7]) = (0, true) /\
      getFakeDataSize (buf ++ [7]) 0 = Ret (300 - 17)
  end.
Proof. apply (fake_data_roundtrip 300 [7]). lia. Defined.
