(* ===== verification/Mysql.v ===== *)
(** * The MySQL parser's view of a stream

    [src/agent/protocol/mysql]: how the MySQL parser cuts a stream into packets
    ([MysqlParser.ParseStream]) and how it looks for the start of a request
    ([MysqlParser.FindBoundary]), with the commands and the range of packet lengths of
    each ([types.go]); and the little endian reader of [src/common/byte_util.go] they
    use.  Both work on the first run of the stream buffer.  The state of the parser,
    its prepared statements, does not matter to them.  Matching packets to records
    is in [MysqlMatch.v]. *)

From stdpp Require Import gmap list sorting.
From Stdlib Require Import ZArith Lia.
From S2P Require Import Prelude.
From S2P Require Import GoBase.
From S2P Require Import StreamBuffer.
From S2P Require Import Protocol.
Local Open Scope Z_scope.

(** [l[i]] *)
Definition index {A} (l : list A) (i : Z) : go A :=
  if 0 <=? i then match l !! Z.to_nat i with Some x => Ret x | None => Panic end else Panic.

(** ** Constants and commands *)

Definition kMaxPacketLength : Z := Z.shiftl 1 24 - 1.
Definition kPacketHeaderLength : Z := 4.
Definition kPayloadLengthLength : Z := 3.

Definition kSleep : Z := 0.
Definition kQuit : Z := 1.
Definition kInitDB : Z := 2.
Definition kQuery : Z := 3.
Definition kFieldList : Z := 4.
Definition kCreateDB : Z := 5.
Definition kDropDB : Z := 6.
Definition kRefresh : Z := 7.
Definition kShutdown : Z := 8.
Definition kStatistics : Z := 9.
Definition kProcessInfo : Z := 10.
Definition kConnect : Z := 11.
Definition kProcessKill : Z := 12.
Definition kDebug : Z := 13.
Definition kPing : Z := 14.
Definition kTime : Z := 15.
Definition kDelayedInsert : Z := 16.
Definition kChangeUser : Z := 17.
Definition kBinlogDump : Z := 18.
Definition kTableDump : Z := 19.
Definition kConnectOut : Z := 20.
Definition kRegisterSlave : Z := 21.
Definition kStmtPrepare : Z := 22.
Definition kStmtExecute : Z := 23.
Definition kStmtSendLongData : Z := 24.
Definition kStmtClose : Z := 25.
Definition kStmtReset : Z := 26.
Definition kSetOption : Z := 27.
Definition kStmtFetch : Z := 28.
Definition kDaemon : Z := 29.
Definition kBinlogDumpGTID : Z := 30.
Definition kResetConnection : Z := 31.

Definition parseCommand (b : Z) : Z * bool :=
  if (b >=? kSleep) && (b <=? kResetConnection) then (b, true) else (-1, false).

Definition InitCommandLengthRangs : gmap Z (Z * Z) := list_to_map [
  (kSleep, (1, 1)); (kQuit, (1, 1)); (kInitDB, (1, kMaxPacketLength));
  (kQuery, (1, kMaxPacketLength)); (kFieldList, (2, kMaxPacketLength));
  (kCreateDB, (1, kMaxPacketLength)); (kDropDB, (1, kMaxPacketLength)); (kRefresh, (2, 2));
  (kShutdown, (1, 2)); (kStatistics, (1, 1)); (kProcessInfo, (1, 1)); (kConnect, (1, 1));
  (kProcessKill, (1, 5)); (kDebug, (1, 1)); (kPing, (1, 1)); (kTime, (1, 1));
  (kDelayedInsert, (1, 1)); (kChangeUser, (4, kMaxPacketLength)); (kBinlogDump, (11, kMaxPacketLength));
  (kTableDump, (3, kMaxPacketLength)); (kConnectOut, (1, 1)); (kRegisterSlave, (18, kMaxPacketLength));
  (kStmtPrepare, (1, kMaxPacketLength)); (kStmtExecute, (10, kMaxPacketLength));
  (kStmtSendLongData, (7, kMaxPacketLength)); (kStmtClose, (5, 5)); (kStmtReset, (5, 5));
  (kSetOption, (3, 3)); (kStmtFetch, (9, 9)); (kDaemon, (1, 1)); (kBinlogDumpGTID, (19, 19));
  (kResetConnection, (1, 1)) ].

(** [commandLengthRanges[command]]; a missing entry reads as zeros. *)
Definition commandLengthRanges (command : Z) : Z * Z := default (0, 0) (InitCommandLengthRangs !! command).

(** [LEndianBytesToKInt[int32]] *)
Definition LEndianBytesToKInt (buf : list Z) (nBytes : Z) : Z * bool :=
  if nBytes >? 4 then (0, false)
  else if zlen buf <? nBytes then (0, false)
  else (foldl (fun result b => s32 (Z.lor b (s32 (Z.shiftl result 8)))) 0
          (rev (take (Z.to_nat nBytes) buf)), true).

(** ** Packets *)

Record MysqlPacket := mk_MysqlPacket {
  frame : FrameBase;
  seqId : Z;
  msg : list Z;
  cmd : Z;
  isReq : bool;
}.

#[export] Instance mysql_message : ParsedMessage MysqlPacket := {|
  TimestampNs m := timestampNs (frame m);
  ByteSize m := byteSize (frame m);
  MsgSeq m := frame_seq (frame m);
  IsReq := isReq;
  StreamId _ := 0;
|}.

Section Parser.
Context {T : Type} `{TreeMap T}.

(** The loop of [FindBoundary], [n] iterations before the bound on [idx]. *)
Fixpoint boundary_loop (buf : list Z) (n : nat) (idx : Z) : go Z :=
  match n with
  | O => Ret (-1)
  | S n' =>
    curBuf ← slice_from buf idx;
    let '(packetLength, _) := LEndianBytesToKInt curBuf kPayloadLengthLength in
    sequenceId ← index buf kPayloadLengthLength;
    commandByte ← index curBuf kPacketHeaderLength;
    let '(command, ok) := parseCommand commandByte in
    if negb (sequenceId =? 0) then boundary_loop buf n' (idx + 1)
    else if negb ok then boundary_loop buf n' (idx + 1)
    else
      let lengthRange := commandLengthRanges command in
      if (packetLength <? lengthRange.1) || (packetLength >? lengthRange.2)
      then boundary_loop buf n' (idx + 1)
      else Ret idx
  end.

Definition mysql_FindBoundary (sb : StreamBuffer T) (messageType : MessageType) (startPos : Z) : go Z :=
  match Head sb with
  | None => Panic
  | Some head =>
    let buf := buf head in
    if zlen buf <? kPacketHeaderLength then Ret (-1)
    else if decide (messageType = Response) then Ret (-1)
    else boundary_loop buf (Z.to_nat (zlen buf - kPacketHeaderLength - startPos)) startPos
  end.

(** The checks of a request, [None] when it passes them. *)
Definition check_request (buf : list Z) (packetLength : Z) : go (option ParseState) :=
  if zlen buf <? kPacketHeaderLength + 1 then Ret (Some NeedsMoreData)
  else
    commandByte ← index buf kPacketHeaderLength;
    let '(command, ok) := parseCommand commandByte in
    if negb ok then Ret (Some Invalid)
    else
      let lengthRange := commandLengthRanges command in
      if (packetLength <? lengthRange.1) || (packetLength >? lengthRange.2) then Ret (Some Invalid)
      else Ret None.

Definition mysql_ParseStream (sb : StreamBuffer T) (messageType : MessageType) : go (ParseResult MysqlPacket) :=
  match Head sb with
  | None => Panic
  | Some head =>
    let buf := buf head in
    if zlen buf <? kPacketHeaderLength then Ret (just NeedsMoreData)
    else
      seqId ← index buf 3;
      let '(packetLength, _) := LEndianBytesToKInt buf kPayloadLengthLength in
      let is_request := bool_decide (messageType = Request) in
      refused ← (if is_request then check_request buf packetLength else Ret None);
      match refused with
      | Some state => Ret (just state)
      | None =>
        let bufferLength := zlen buf in
        if bufferLength <? kPacketHeaderLength + packetLength then Ret (just NeedsMoreData)
        else
          upto ← slice_to buf (kPacketHeaderLength + packetLength);
          msg ← slice_from upto kPacketHeaderLength;
          fb ← CreateFrameBase sb (kPacketHeaderLength + packetLength);
          match fb with
          | None => Ret (mk_ParseResult Ignore [] (kPacketHeaderLength + packetLength))
          | Some fb =>
            Ret (mk_ParseResult Success [mk_MysqlPacket fb seqId msg 0 is_request]
              (kPacketHeaderLength + packetLength))
          end
      end
  end.

(** [MysqlParser] as a parser of streams; its state is left alone. *)
#[global] Instance mysql_parser {S : Type} : ProtocolStreamParser T S MysqlPacket := {|
  ParseStream s sb mt := r ← mysql_ParseStream sb mt; Ret (r, s);
  FindBoundary _ sb mt start := mysql_FindBoundary sb mt start;
|}.

End Parser.

(** ** Lemmas *)

Lemma index_ok {A} (l : list A) i : 0 <= i < zlen l -> exists x, index l i = Ret x.
Proof.
  intros Hi. unfold index, zlen in *. rewrite (proj2 (Z.leb_le _ _)) by lia.
  destruct (lookup_lt_is_Some_2 l (Z.to_nat i)) as [x ->]; [lia|by exists x].
Qed.

(** One byte below another number. *)
Lemma lor_byte x r : 0 <= x < 256 -> 0 <= r < 65536 ->
  s32 (Z.lor x (s32 (Z.shiftl r 8))) = x + 256 * r.
Proof.
  intros Hx Hr.
  assert (Z.land x (Z.shiftl r 8) = 0) as E.
  { apply Z.bits_inj'. intros i Hi. rewrite Z.land_spec, Z.bits_0.
    destruct (Z.lt_ge_cases i 8); [by rewrite Z.shiftl_spec_low, andb_false_r by lia|].
    rewrite <- (Z.mod_small x (2 ^ 8)) by lia. by rewrite Z.mod_pow2_bits_high by lia. }
  rewrite (s32_small (Z.shiftl r 8)) by (rewrite Z.shiftl_mul_pow2 by lia; lia).
  rewrite <- Z.lxor_lor, <- Z.add_nocarry_lxor by done.
  rewrite Z.shiftl_mul_pow2 by lia. rewrite s32_small; lia.
Qed.

(** Three bytes, least significant first. *)
Lemma LEndian3 a b c rest : 0 <= a < 256 -> 0 <= b < 256 -> 0 <= c < 256 ->
  LEndianBytesToKInt (a :: b :: c :: rest) kPayloadLengthLength = (a + 256 * b + 65536 * c, true).
Proof.
  intros Ha Hb Hc. unfold LEndianBytesToKInt, kPayloadLengthLength.
  rewrite (proj2 (Z.ltb_ge _ _)) by (unfold zlen; cbn [length]; lia).
  change (rev (take (Z.to_nat 3) (a :: b :: c :: rest))) with [c; b; a]. cbn [foldl].
  rewrite (lor_byte c 0), (lor_byte b), (lor_byte a) by lia. change (3 >? 4) with false. cbv iota. f_equal. lia.
Qed.

Lemma LEndian_range buf : byte_list buf -> 4 <= zlen buf ->
  exists n, LEndianBytesToKInt buf kPayloadLengthLength = (n, true) /\ 0 <= n <= kMaxPacketLength.
Proof.
  intros Hb Hl. destruct buf as [|a [|b [|c rest] ] ]; try (by cbn in Hl).
  apply Forall_cons in Hb as [Ha Hb]. apply Forall_cons in Hb as [Hb Hc].
  apply Forall_cons in Hc as [Hc _]. rewrite LEndian3 by done.
  eexists. split; [done|]. change kMaxPacketLength with 16777215. lia.
Qed.

Section Laws.
Context {T : Type} `{TreeMap T}.
Implicit Types sb : StreamBuffer T.

Lemma slice_ok {A} (l : list A) n : 0 <= n <= zlen l ->
  slice_from l n = Ret (drop (Z.to_nat n) l) /\ slice_to l n = Ret (take (Z.to_nat n) l).
Proof.
  intros Hn. unfold slice_from, slice_to.
  by rewrite (proj2 (Z.leb_le 0 n)), (proj2 (Z.leb_le n (zlen l))) by lia.
Qed.

Lemma boundary_loop_range buf n idx :
  4 <= zlen buf -> 0 <= idx -> idx + Z.of_nat n <= zlen buf - 4 ->
  exists pos, boundary_loop buf n idx = Ret pos /\ (pos = -1 \/ idx <= pos < zlen buf).
Proof.
  intros Hl. revert idx. induction n as [|n IH]; intros idx Hi Hn; [by exists (-1); auto|].
  cbn [boundary_loop]. rewrite (proj1 (slice_ok buf idx ltac:(lia))), go_bind_ret.
  destruct (LEndianBytesToKInt _ _) as [len ok'].
  destruct (index_ok buf kPayloadLengthLength) as [sid ->]; [unfold kPayloadLengthLength; lia|].
  destruct (index_ok (drop (Z.to_nat idx) buf) kPacketHeaderLength) as [b ->].
  { rewrite zlen_drop by lia. unfold kPacketHeaderLength. lia. }
  rewrite !go_bind_ret. destruct (parseCommand b) as [command ok].
  assert (exists pos, boundary_loop buf n (idx + 1) = Ret pos /\ (pos = -1 \/ idx <= pos < zlen buf)) as R.
  { destruct (IH (idx + 1)) as (pos & -> & Hp); [lia|lia|]. exists pos. split; [done|lia]. }
  destruct (negb (sid =? 0)); [done|]. destruct (negb ok); [done|].
  destruct (_ || _); [done|]. exists idx. split; [done|lia].
Qed.

Lemma FindBoundary_range sb mt start h :
  Head sb = Some h -> 0 <= start ->
  exists pos, mysql_FindBoundary sb mt start = Ret pos /\ (pos = -1 \/ start <= pos < Len h).
Proof.
  intros Hh Hs. unfold mysql_FindBoundary, Len, kPacketHeaderLength. rewrite Hh.
  destruct (Z.ltb_spec (zlen (buf h)) 4); [by exists (-1); auto|].
  case_decide; [by exists (-1); auto|].
  destruct (Z.le_gt_cases start (zlen (buf h) - 4)).
  - apply boundary_loop_range; lia.
  - replace (Z.to_nat (zlen (buf h) - 4 - start)) with 0%nat by lia. exists (-1). auto.
Qed.

Lemma check_request_total buf len :
  exists o, check_request buf len = Ret o /\ o <> Some Success /\ o <> Some Ignore.
Proof.
  unfold check_request, kPacketHeaderLength. destruct (Z.ltb_spec (zlen buf) (4 + 1)); [by eexists|].
  destruct (index_ok buf 4) as [b ->]; [lia|]. rewrite go_bind_ret.
  destruct (parseCommand b) as [c ok]. destruct (negb ok); [by eexists|]. destruct (_ || _); by eexists.
Qed.

Lemma ParseStream_range sb mt h :
  Head sb = Some h -> data_run h ->
  exists r, mysql_ParseStream sb mt = Ret r /\
    (parse_state r = Success \/ parse_state r = Ignore -> 0 < ReadBytes r <= Len h).
Proof.
  intros Hh [Hne Hb]. unfold mysql_ParseStream, Len, kPacketHeaderLength. rewrite Hh.
  destruct (Z.ltb_spec (zlen (buf h)) 4); [by exists (just NeedsMoreData); split; [|intros [?|?]]|].
  destruct (index_ok (buf h) 3) as [sid ->]; [lia|]. rewrite go_bind_ret.
  destruct (LEndian_range (buf h)) as (len & -> & Hlen); [done..|].
  assert (exists o, (if bool_decide (mt = Request) then check_request (buf h) len else Ret None) = Ret o
    /\ o <> Some Success /\ o <> Some Ignore) as (o & -> & Ho)
    by (destruct (bool_decide _); [apply check_request_total|by eexists]).
  rewrite go_bind_ret. destruct o as [st|].
  { exists (just st). split; [done|]. destruct Ho. intros [E|E]; cbn in E; congruence. }
  destruct (Z.ltb_spec (zlen (buf h)) (4 + len)); [by exists (just NeedsMoreData); split; [|intros [?|?]]|].
  rewrite (proj2 (slice_ok (buf h) (4 + len) ltac:(lia))), go_bind_ret.
  assert (zlen (take (Z.to_nat (4 + len)) (buf h)) = 4 + len) as Ht
    by (unfold zlen in *; rewrite length_take; lia).
  rewrite (proj1 (slice_ok (take (Z.to_nat (4 + len)) (buf h)) 4 ltac:(lia))), go_bind_ret.
  unfold CreateFrameBase. rewrite Hh. destruct (FindTimestampBySeq sb _) as [ts [] ];
    rewrite go_bind_ret; eexists; (split; [done|]); cbn; lia.
Qed.

#[global] Instance mysql_parser_laws {S : Type} : ParserLaws T S MysqlPacket.
Proof.
  split.
  - intros p sb mt h Hh Hr. destruct (ParseStream_range sb mt h Hh Hr) as (r & E & Hb).
    exists r, p. split; [|done]. cbn. by rewrite E.
  - intros p sb mt start h Hh _ Hs. apply (FindBoundary_range sb mt start h Hh Hs).
Qed.

End Laws.

(** ** Packets on the wire *)

Definition packet_bytes (sid : Z) (m : list Z) : list Z :=
  [zlen m mod 256; zlen m / 256 mod 256; zlen m / 65536; sid] ++ m.

(** The first byte of a request is a command, which bounds its length. *)
Definition is_request (m : list Z) : bool :=
  match m with
  | [] => false
  | c :: _ =>
    (0 <=? c) && (c <=? 31) && ((commandLengthRanges c).1 <=? zlen m) && (zlen m <=? (commandLengthRanges c).2)
  end.

Definition valid_packet (mt : MessageType) (sid : Z) (m : list Z) : Prop :=
  0 <= sid < 256 /\ byte_list m /\ zlen m <= kMaxPacketLength /\ (mt = Request -> is_request m).

Lemma zlen_packet_bytes sid m : zlen (packet_bytes sid m) = 4 + zlen m.
Proof. unfold zlen, packet_bytes. rewrite length_app. cbn [length]. lia. Qed.

Lemma packet_header_range (m : list Z) : zlen m <= kMaxPacketLength ->
  0 <= zlen m mod 256 < 256 /\ 0 <= zlen m / 256 mod 256 < 256 /\ 0 <= zlen m / 65536 < 256.
Proof.
  change kMaxPacketLength with 16777215. intros Hm. pose proof (zlen_nonneg m).
  Z.to_euclidean_division_equations. lia.
Qed.

Lemma packet_bytes_ok mt sid m : valid_packet mt sid m -> byte_list (packet_bytes sid m).
Proof.
  intros (Hs & Hb & Hl & _). destruct (packet_header_range m Hl) as (? & ? & ?).
  repeat (apply Forall_cons; split; [done|]). done.
Qed.

(** The length field, of a packet or of a piece of one that has the header. *)
Lemma packet_length sid (m rest : list Z) : zlen m <= kMaxPacketLength ->
  LEndianBytesToKInt ([zlen m mod 256; zlen m / 256 mod 256; zlen m / 65536; sid] ++ rest)
    kPayloadLengthLength = (zlen m, true).
Proof.
  intros Hm. destruct (packet_header_range m Hm) as (? & ? & ?). cbn [app].
  rewrite LEndian3 by done. f_equal.
  pose proof (Z_div_mod_eq_full (zlen m) 256). pose proof (Z_div_mod_eq_full (zlen m / 256) 256).
  rewrite Z.div_div in * by lia. change (256 * 256) with 65536 in *. lia.
Qed.

Lemma check_request_valid hd c m b :
  length hd = 4%nat -> is_request (c :: m) -> check_request (hd ++ c :: b) (zlen (c :: m)) = Ret None.
Proof.
  intros Hh Hr. unfold check_request, kPacketHeaderLength.
  rewrite (proj2 (Z.ltb_ge _ _)) by (unfold zlen; rewrite length_app, Hh; cbn [length]; lia).
  unfold index. change (0 <=? 4) with true. cbv iota. change (Z.to_nat 4) with 4%nat.
  rewrite lookup_app_r, Hh by lia. cbn [lookup list_lookup Nat.sub]. rewrite go_bind_ret.
  unfold is_request in Hr. rewrite !andb_True in Hr. destruct Hr as [[[H1 H2] H3] H4].
  apply Is_true_true in H1, H2. apply Is_true_true, Z.leb_le in H3, H4.
  unfold parseCommand, kSleep, kResetConnection. rewrite Z.geb_leb, H1, H2. cbn [andb negb].
  rewrite (proj2 (Z.ltb_ge _ _)) by lia. rewrite Z.gtb_ltb, (proj2 (Z.ltb_ge _ _)) by lia. done.
Qed.

(** *** Whole and partial packets *)

Section Packets.
Context {T : Type} `{TreeMap T}.
Implicit Types sb : StreamBuffer T.

(** The header has been read and the checks passed. *)
Lemma ParseStream_header sb mt h sid m b :
  Head sb = Some h ->
  buf h = [zlen m mod 256; zlen m / 256 mod 256; zlen m / 65536; sid] ++ b ->
  zlen m <= kMaxPacketLength ->
  (mt = Request -> exists c m' b', m = c :: m' /\ b = c :: b' /\ is_request m) ->
  mysql_ParseStream sb mt =
    if zlen b <? zlen m then Ret (just NeedsMoreData)
    else
      upto ← slice_to (buf h) (4 + zlen m);
      msg ← slice_from upto 4;
      fb ← CreateFrameBase sb (4 + zlen m);
      match fb with
      | None => Ret (mk_ParseResult Ignore [] (4 + zlen m))
      | Some fb => Ret (mk_ParseResult Success [mk_MysqlPacket fb sid msg 0 (bool_decide (mt = Request))] (4 + zlen m))
      end.
Proof.
  intros Hh Hb Hl Hr. unfold mysql_ParseStream, kPacketHeaderLength. rewrite Hh.
  assert (zlen (buf h) = 4 + zlen b) as Hz by (rewrite Hb; unfold zlen; cbn [app length]; lia).
  pose proof (zlen_nonneg b).
  rewrite (proj2 (Z.ltb_ge (zlen (buf h)) 4)) by lia.
  assert (index (buf h) 3 = Ret sid) as -> by (by rewrite Hb).
  rewrite go_bind_ret.
  assert (LEndianBytesToKInt (buf h) kPayloadLengthLength = (zlen m, true)) as ->
    by (rewrite Hb; by apply packet_length).
  assert ((if bool_decide (mt = Request) then check_request (buf h) (zlen m) else Ret None) = Ret None) as ->.
  { case_bool_decide as E; [|done]. destruct (Hr E) as (c & m' & b' & -> & -> & Hq).
    rewrite Hb. by apply check_request_valid. }
  rewrite go_bind_ret, Hz.
  destruct (Z.ltb_spec (4 + zlen b) (4 + zlen m)), (Z.ltb_spec (zlen b) (zlen m)); done || lia.
Qed.

Lemma ParseStream_whole sb mt h sid m rest t :
  Head sb = Some h -> buf h = packet_bytes sid m ++ rest -> valid_packet mt sid m ->
  FindTimestampBySeq sb (seq h) = (t, true) ->
  mysql_ParseStream sb mt = Ret (mk_ParseResult Success
    [mk_MysqlPacket (mk_FrameBase t (4 + zlen m) (seq h)) sid m 0 (bool_decide (mt = Request))] (4 + zlen m)).
Proof.
  intros Hh Hb (Hs & Hm & Hl & Hr) Ht. pose proof (zlen_nonneg m). pose proof (zlen_nonneg rest).
  rewrite (ParseStream_header sb mt h sid m (m ++ rest)); [|done|by rewrite Hb; unfold packet_bytes; rewrite <- app_assoc|done|].
  2:{ intros E. specialize (Hr E). destruct m as [|c m]; [done|]. by exists c, m, (m ++ rest). }
  assert (zlen (m ++ rest) = zlen m + zlen rest) as Hz by (unfold zlen; rewrite length_app; lia).
  rewrite (proj2 (Z.ltb_ge _ _)) by lia.
  assert (zlen (buf h) = 4 + zlen m + zlen rest) as Hzh.
  { rewrite Hb. unfold zlen, packet_bytes. rewrite !length_app. cbn [length]. lia. }
  rewrite (proj2 (slice_ok (buf h) (4 + zlen m) ltac:(lia))), go_bind_ret, Hb.
  rewrite take_app_length' by (pose proof (zlen_packet_bytes sid m); unfold zlen in *; lia).
  rewrite (proj1 (slice_ok (packet_bytes sid m) 4 ltac:(rewrite zlen_packet_bytes; lia))), go_bind_ret.
  unfold CreateFrameBase. rewrite Hh. unfold LeftBoundary. by rewrite Ht.
Qed.

Lemma ParseStream_partial sb mt h sid m k :
  Head sb = Some h -> buf h = take k (packet_bytes sid m) -> valid_packet mt sid m ->
  Z.of_nat k < 4 + zlen m -> mysql_ParseStream sb mt = Ret (just NeedsMoreData).
Proof.
  intros Hh Hb (Hs & Hm & Hl & Hr) Hk.
  destruct k as [|[|[|[|k] ] ] ]; [by unfold mysql_ParseStream; rewrite Hh, Hb..|].
  assert (buf h = [zlen m mod 256; zlen m / 256 mod 256; zlen m / 65536; sid] ++ take k m) as Hb' by done.
  destruct (decide (mt = Request)) as [E|E].
  - destruct k as [|k].
    { unfold mysql_ParseStream. rewrite Hh, Hb'. rewrite packet_length by done.
      by rewrite bool_decide_true. }
    rewrite (ParseStream_header sb mt h sid m (take (S k) m)); [|done..|].
    + rewrite (proj2 (Z.ltb_lt _ _)); [done|]. unfold zlen in *. rewrite length_take. lia.
    + intros _. specialize (Hr E). destruct m as [|c m]; [done|]. by exists c, m, (take k m).
  - rewrite (ParseStream_header sb mt h sid m (take k m)); [|done..].
    rewrite (proj2 (Z.ltb_lt _ _)); [done|]. unfold zlen in *. rewrite length_take. lia.
Qed.

Lemma boundary_loop_first_id buf n idx b :
  buf !! 3%nat = Some b -> b <> 0 -> 4 <= zlen buf -> 0 <= idx -> idx + Z.of_nat n <= zlen buf - 4 ->
  boundary_loop buf n idx = Ret (-1).
Proof.
  intros Hb Hne Hl. revert idx. induction n as [|n IH]; intros idx Hi Hn; [done|].
  cbn [boundary_loop]. rewrite (proj1 (slice_ok buf idx ltac:(lia))), go_bind_ret.
  destruct (LEndianBytesToKInt _ _) as [len ok'].
  assert (index buf kPayloadLengthLength = Ret b) as ->.
  { unfold index. change (0 <=? kPayloadLengthLength) with true.
    change (Z.to_nat kPayloadLengthLength) with 3%nat. by rewrite Hb. }
  destruct (index_ok (drop (Z.to_nat idx) buf) kPacketHeaderLength) as [c ->].
  { rewrite zlen_drop by lia. unfold kPacketHeaderLength. lia. }
  rewrite !go_bind_ret. destruct (parseCommand c) as [command ok].
  rewrite (proj2 (Z.eqb_neq b 0)) by done. cbn [negb]. apply IH; lia.
Qed.

End Packets.

(** ** Theorems *)

(** Packets are read as they were written.  When the first run starts with the
    bytes of a packet, whatever follows, the parser returns the packet, stamped with
    the time of the data its first byte came with, and takes exactly its bytes; when
    the run is only a part of the packet, it asks for more. *)
Theorem mysql_packet_roundtrip {T} `{TreeMap T} (sb : StreamBuffer T) (mt : MessageType)
    (h : Buffer) (sid : Z) (m rest : list Z) (k : nat) (t : Z)
    (Hhead : Head sb = Some h)
    (Hpacket : valid_packet mt sid m)
    (Htime : FindTimestampBySeq sb (seq h) = (t, true)) :
  (buf h = packet_bytes sid m ++ rest ->
   mysql_ParseStream sb mt = Ret (mk_ParseResult Success
     [mk_MysqlPacket (mk_FrameBase t (zlen (packet_bytes sid m)) (seq h)) sid m 0 (bool_decide (mt = Request))]
     (zlen (packet_bytes sid m)))) /\
  (buf h = take k (packet_bytes sid m) -> Z.of_nat k < zlen (packet_bytes sid m) ->
   mysql_ParseStream sb mt = Ret (just NeedsMoreData)).
Proof.
  rewrite zlen_packet_bytes. split; [by intros; eapply ParseStream_whole|].
  intros. by eapply ParseStream_partial.
Qed.

(** A query, [COM_QUERY "ping"], and the start of another. *)
Definition ping_query : list Z := [3; 112; 105; 110; 103].
Definition ping_stream : StreamBuffer (gmap Z Z) :=
  mk_StreamBuffer [mk_Buffer (packet_bytes 0 ping_query ++ [5; 0]) 100] 1048576 {[90 := 7]}.

Lemma mysql_packet_roundtrip_witness :
  mysql_ParseStream ping_stream Request = Ret (mk_ParseResult Success
    [mk_MysqlPacket (mk_FrameBase 7 9 100) 0 ping_query 0 true] 9).
Proof.
  apply (mysql_packet_roundtrip ping_stream Request
    (mk_Buffer (packet_bytes 0 ping_query ++ [5; 0]) 100) 0 ping_query [5; 0] 0 7).
  - reflexivity.
  - split; [lia|]. split; [repeat constructor; lia|]. split; [vm_compute; discriminate|intros _; vm_compute; exact I].
  - vm_compute. reflexivity.
  - reflexivity.
Defined.

(** The search for a request reads the sequence number of the first packet of the
    run at every place it tries.  When the run starts in the middle of a
    conversation, with a packet whose number is not 0, it finds no boundary, wherever
    it starts and whatever requests follow. *)
Theorem boundary_reads_first_sequence_id {T} `{TreeMap T} (sb : StreamBuffer T)
    (mt : MessageType) (sid start : Z) (m rest : list Z) (sq : Z)
    (Hhead : Head sb = Some (mk_Buffer (packet_bytes sid m ++ rest) sq))
    (Hsid : sid <> 0) (Hstart : 0 <= start) :
  mysql_FindBoundary sb mt start = Ret (-1).
Proof.
  unfold mysql_FindBoundary, kPacketHeaderLength. rewrite Hhead. cbn [buf].
  assert (4 <= zlen (packet_bytes sid m ++ rest)).
  { unfold zlen, packet_bytes. rewrite !length_app. cbn [length]. lia. }
  rewrite (proj2 (Z.ltb_ge _ _)) by lia. case_decide; [done|].
  destruct (Z.le_gt_cases start (zlen (packet_bytes sid m ++ rest) - 4)).
  - apply (boundary_loop_first_id _ _ _ sid); [done|done|lia..].
  - by replace (Z.to_nat _) with 0%nat by lia.
Qed.

(** A response packet with number 1 and a request behind it. *)
Lemma boundary_reads_first_sequence_id_witness :
  mysql_FindBoundary (mk_StreamBuffer [mk_Buffer (packet_bytes 1 [0; 0] ++ packet_bytes 0 ping_query) 100]
    1048576 (∅ : gmap Z Z)) Request 1 = Ret (-1).
Proof.
  apply (boundary_reads_first_sequence_id _ Request 1 1 [0; 0] (packet_bytes 0 ping_query) 100);
    [reflexivity|lia|lia].
Defined.
