(* ===== verification/AgentConn.v ===== *)
(** * A connection in the agent

    The part of [Connection4] ([src/agent/conn/conntrack.go]) that takes the events
    of the probes: data of system call and SSL events goes into the stream buffer of
    its direction ([addDataToBufferAndTryParse]), the parser of the connection's
    protocol cuts the buffers into messages ([parseStreamBuffer]), and the events are
    kept for the time line ([StreamEvents]).

    - Bytes that a probe did not capture are replaced by stand-ins of the same length
      ([fillSyscallDataIfNeeded]).
    - The parser is any implementation of the interface of [Protocol.v]; [Mysql.v] is
      one.  [parser] is [None] for a protocol without one.
    - [which] says which stream buffer a pointer means, the request's ([true]) or the
      response's.
    - The clock is a sequence of readings, [now], of which each call of [time.Now]
      takes the next; [mills] is the conversion from nanoseconds to milliseconds
      through a floating point division; the theorems hold for all of them.
    - [onRoleChanged] updates maps of the probes: those updates are recorded in
      [bpf_updates] ([System.v] has them as steps).  Records sent to the channel are
      kept in [recordChannel].
    - The parse loop has fuel; [parse_loop_total] shows that the number of bytes in the
      buffer is enough. *)

From stdpp Require Import gmap list sorting strings.
From Stdlib Require Import ZArith Lia.
From S2P Require Import Prelude.
From S2P Require Import Types.
From S2P Require Import GoBase.
From S2P Require Import StreamBuffer.
From S2P Require Import KernEvents.
From S2P Require Import Protocol.
From S2P Require Import Mysql.
Local Open Scope Z_scope.
Local Open Scope model_scope.

Inductive SideEnum : Set := AllSide | ServerSide | ClientSide.
#[export] Instance SideEnum_eq_dec : EqDecision SideEnum.
Proof. solve_decision. Defined.

Definition TCP_FLAGS_ACK : Z := Z.shiftl 1 4.
Definition TCP_FLAGS_SYN : Z := Z.shiftl 1 1.

Section Connection.
Context {T P M : Type} `{TreeMap T} `{ParsedMessage M} `{!ProtocolStreamParser T P M} `{!MessageMatcher P M}.
Variable now : nat -> Z.
Variable mills : Z -> Z.
Variable MaxAllowStuckTimeMills : Z.
Variable side : SideEnum.
Variable getInterfaceNameByIndex : Z -> Z -> option string.

Record Connection4 := mk_Connection4 {
  Role : endpoint_role_t;
  ssl : bool;
  tracable : conn_trace_state_t;
  ServerSynReceived : bool;
  ServerSynReceivedTs : Z;
  ClientAckSent : bool;
  ClientAckSentTs : Z;
  reqStreamBuffer : StreamBuffer T;
  respStreamBuffer : StreamBuffer T;
  ReqQueue : queues M;
  RespQueue : queues M;
  lastReqMadeProgressTime : Z;
  lastRespMadeProgressTime : Z;
  StreamEvents : KernEventStream;
  parser : option P;
  bpf_updates : list conn_trace_state_t;
  recordChannel : list (Record_ M);
  clock_readings : nat;
}.
#[export] Instance eta_Connection4 : Eta Connection4 := fun c =>
  mk_Connection4 (Role c) (ssl c) (tracable c) (ServerSynReceived c) (ServerSynReceivedTs c)
    (ClientAckSent c) (ClientAckSentTs c) (reqStreamBuffer c) (respStreamBuffer c) (ReqQueue c)
    (RespQueue c) (lastReqMadeProgressTime c) (lastRespMadeProgressTime c) (StreamEvents c) (parser c)
    (bpf_updates c) (recordChannel c) (clock_readings c).

(** [NewConnFromEvent], of what is modelled; the parser is made on first use. *)
Definition NewConnFromEvent (role : endpoint_role_t) (p : option P) : Connection4 :=
  mk_Connection4 role false unset false 0 false 0 (New (1024 * 1024)) (New (1024 * 1024)) ∅ ∅ 0 0
    (NewKernEventStream 300) p [] [] 0.

(** ** Direction, side and time of an event *)

Definition IsServerSide (c : Connection4) : bool := negb (bool_decide (Role c = kRoleClient)).

(** Whether the event belongs to a request, and whether that is known. *)
Definition isReq (c : Connection4) (event : kern_evt) : bool * bool :=
  if decide (Role c = kRoleUnknown) then (false, false)
  else
    let isReq :=
      if negb (IsServerSide c) then step_val (ke_step event) <=? step_val NIC_OUT
      else step_val (ke_step event) >=? step_val NIC_IN in
    (isReq, true).

Definition endpointRoleAsSideEnum (role : endpoint_role_t) : SideEnum :=
  if decide (role = kRoleClient) then ClientSide
  else if decide (role = kRoleServer) then ServerSide else AllSide.

Definition Side (c : Connection4) : SideEnum := endpointRoleAsSideEnum (Role c).

Definition getEventTimestamp (ke : kern_evt) (c : Connection4) (isReq : bool) : Z :=
  let later := u64 (ke_ts ke + ke_ts_delta ke) in
  match Side c with
  | AllSide => later
  | ClientSide => if isReq then ke_ts ke else later
  | ServerSide => if isReq then later else ke_ts ke
  end.

(** ** Progress of the parsers *)

(** [streamBuffer]: a pointer to one of the two buffers. *)
Definition sbuf (which : bool) (c : Connection4) : StreamBuffer T :=
  if which then reqStreamBuffer c else respStreamBuffer c.
Definition set_sbuf (which : bool) (sb : StreamBuffer T) (c : Connection4) : Connection4 :=
  if which then c <| reqStreamBuffer := sb |> else c <| respStreamBuffer := sb |>.
Definition queue (which : bool) (c : Connection4) : queues M :=
  if which then ReqQueue c else RespQueue c.
Definition set_queue (which : bool) (q : queues M) (c : Connection4) : Connection4 :=
  if which then c <| ReqQueue := q |> else c <| RespQueue := q |>.

(** [time.Now().UnixMilli()] *)
Definition time_now (c : Connection4) : Z * Connection4 :=
  (now (clock_readings c), c <| clock_readings ::= S |>).

Definition updateProgressTime (which : bool) (c : Connection4) : Connection4 :=
  let '(t, c) := time_now c in
  if which then c <| lastReqMadeProgressTime := t |> else c <| lastRespMadeProgressTime := t |>.

Definition getLastProgressTime (which : bool) (c : Connection4) : Z :=
  if which then lastReqMadeProgressTime c else lastRespMadeProgressTime c.

Definition progressIsStucked (which : bool) (c : Connection4) : bool * Connection4 :=
  if getLastProgressTime which c =? 0 then (false, updateProgressTime which c)
  else
    let '(headTime, ok) := FindTimestampBySeq (sbuf which c) (Position0 (sbuf which c)) in
    let '(t, c) := time_now c in
    let stuckDuration := s64 (t - mills headTime) in
    (negb ok || (stuckDuration >? MaxAllowStuckTimeMills), c).

Definition checkProgress (which : bool) (c : Connection4) : go (bool * Connection4) :=
  if getLastProgressTime which c =? 0 then Ret (false, updateProgressTime which c)
  else
    let '(headTime, ok) := FindTimestampBySeq (sbuf which c) (Position0 (sbuf which c)) in
    let '(t, c) := time_now c in
    if negb ok || (s64 (t - mills headTime) >? MaxAllowStuckTimeMills) then
      sb ← RemoveHead (sbuf which c);
      Ret (true, set_sbuf which sb c)
    else Ret (false, c).

Definition resetParseProgress (c : Connection4) : Connection4 :=
  c <| reqStreamBuffer ::= Clear |> <| respStreamBuffer ::= Clear |>
    <| ReqQueue := ∅ |> <| RespQueue := ∅ |>.

(** ** The role of the connection *)

Definition UpdateConnectionTraceable (traceableState : conn_trace_state_t) (c : Connection4) : Connection4 :=
  if decide (tracable c = traceableState) then c
  else c <| tracable := traceableState |> <| bpf_updates ::= fun l => l ++ [traceableState] |>.

Definition isSideNotMatched (c : Connection4) : bool :=
  negb (bool_decide (side = AllSide)) &&
  negb (Bool.eqb (bool_decide (Role c = kRoleClient)) (bool_decide (side = ClientSide))).

Definition onRoleChanged (c : Connection4) : Connection4 :=
  if isSideNotMatched c then UpdateConnectionTraceable other c
  else UpdateConnectionTraceable traceable c.

(** The role that follows from the kind of message an event carried. *)
Definition role_from (ke : kern_evt) (is_req : bool) : endpoint_role_t :=
  if (IsIngressStep (ke_step ke) && is_req) || (IsEgressStep (ke_step ke) && negb is_req)
  then kRoleServer else kRoleClient.

(** ** Parsing *)

(** [RemovePrefix] of the buffer of one direction. *)
Definition remove_prefix (which : bool) (n : Z) (c : Connection4) : go Connection4 :=
  sb ← RemovePrefix (sbuf which c) n;
  Ret (set_sbuf which sb c).

(** A message at the end of the queue of its stream. *)
Definition enqueue (q : queues M) (m : M) : queues M :=
  <[StreamId m := default [] (q !! StreamId m) ++ [m]]> q.

(** [case protocol.Success] *)
Definition on_success (which : bool) (messageType : MessageType) (ke : kern_evt)
    (r : ParseResult M) (c : Connection4) : go Connection4 :=
  match ParsedMessages r with
  | parsedMessage :: _ =>
    if decide (Role c = kRoleUnknown) then
      Ret (resetParseProgress (onRoleChanged (c <| Role := role_from ke (IsReq parsedMessage) |>)))
    else if negb (Bool.eqb (IsReq parsedMessage) (bool_decide (messageType = Request))) then
      remove_prefix which (ReadBytes r) c
    else remove_prefix which (ReadBytes r) (set_queue which (foldl enqueue (queue which c) (ParsedMessages r)) c)
  | [] => remove_prefix which (ReadBytes r) c
  end.

(** [case protocol.Invalid]: whether to stop. *)
Definition on_invalid (p : P) (which : bool) (messageType : MessageType) (ke : kern_evt) (c : Connection4)
    : go (bool * Connection4) :=
  pos ← FindBoundary p (sbuf which c) messageType 1;
  if negb (pos =? -1) then
    c ← remove_prefix which pos c;
    Ret (false, c)
  else
    let '(stucked, c) := progressIsStucked which c in
    if stucked then
      match Head (sbuf which c) with
      | None => Panic
      | Some h =>
        if Len h >? ke_len ke then
          c ← remove_prefix which (Len h - ke_len ke) c;
          Ret (false, c)
        else
          do (removed, c) <- checkProgress which c;
          Ret (negb removed, c)
      end
    else Ret (true, c).

(** One iteration of the loop. *)
Definition parse_step (p : P) (which : bool) (messageType : MessageType) (ke : kern_evt) (c : Connection4)
    : go (bool * Connection4) :=
  do (r, p) <- ParseStream p (sbuf which c) messageType;
  let c := c <| parser := Some p |> in
  match parse_state r with
  | Success => c ← on_success which messageType ke r c; Ret (false, c)
  | Invalid => on_invalid p which messageType ke c
  | NeedsMoreData =>
    do (removed, c) <- checkProgress which c;
    Ret (negb removed, c)
  | Ignore => c ← remove_prefix which (ReadBytes r) c; Ret (false, c)
  end.

(** [for !stop && !streamBuffer.IsEmpty()], [None] when the fuel is used up. *)
Fixpoint parse_loop (fuel : nat) (which : bool) (messageType : MessageType) (ke : kern_evt) (c : Connection4)
    : go (option Connection4) :=
  if IsEmpty (sbuf which c) then Ret (Some c)
  else
    match fuel, parser c with
    | S fuel', Some p =>
      do (stop, c) <- parse_step p which messageType ke c;
      if stop then Ret (Some c) else parse_loop fuel' which messageType ke c
    | _, _ => Ret None
    end.

(** The bytes of a buffer. *)
Definition total (bs : list Buffer) : nat := sum_list ((fun b => length (buf b)) <$> bs).

Definition parseStreamBuffer (which : bool) (messageType : MessageType) (ke : kern_evt) (c : Connection4)
    : go (option Connection4) :=
  match parser c with
  | None => Ret (Some c)
  | Some p =>
    if IsEmpty (sbuf which c) then Ret (Some c)
    else
      startPos ← FindBoundary p (sbuf which c) messageType 0;
      let startPos := if startPos =? -1 then 0 else startPos in
      c ← (if startPos >? 0 then remove_prefix which startPos c else Ret c);
      let originPos := Position0 (sbuf which c) in
      r ← parse_loop (total (buffers (sbuf which c))) which messageType ke c;
      match r with
      | None => Ret None
      | Some c =>
        let curProgress := Position0 (sbuf which c) in
        Ret (Some (if IsEmpty (sbuf which c) || negb (curProgress =? originPos)
                   then updateProgressTime which c else c))
      end
  end.

(** ** Events *)

(** [binary.LittleEndian.PutUint32] *)
Definition PutUint32 (v : Z) : list Z :=
  [u8 v; u8 (Z.shiftr v 8); u8 (Z.shiftr v 16); u8 (Z.shiftr v 24)].

(** The event of the four bytes before the data, of which the probes report the
    value. *)
Definition extractHeaderEvent (ke : kern_evt) : option (kern_evt * list Z) :=
  if negb (ke_prepend_length_header ke) then None
  else
    let headerEvt := ke <| ke_len := 4 |> <| ke_seq := u32 (ke_seq ke - 4) |>
                        <| ke_prepend_length_header := false |> in
    Some (headerEvt, PutUint32 (ke_length_header ke)).

(** The bytes go into the buffer of the event's direction, after the length header if
    there is one. *)
Definition add_data (data : list Z) (ke : kern_evt) (c : Connection4) : go (bool * Connection4) :=
  let '(which, _) := isReq c ke in
  let ts := getEventTimestamp ke c which in
  sb ← match extractHeaderEvent ke with
       | Some (headerEvt, header) =>
         do (_, sb) <- Add (sbuf which c) (ke_seq headerEvt) header ts; Ret sb
       | None => Ret (sbuf which c)
       end;
  do (addedToBuffer, sb) <- Add sb (ke_seq ke) data ts;
  Ret (addedToBuffer, set_sbuf which sb c).

Definition addDataToBufferAndTryParse (data : list Z) (ke : kern_evt) (c : Connection4)
    : go (option (bool * Connection4)) :=
  do (addedToBuffer, c) <- add_data data ke c;
  if negb addedToBuffer then Ret (Some (false, c))
  else
    let unknown := bool_decide (Role c = kRoleUnknown) in
    let reqSteamMessageType := if unknown then Unknown else Request in
    let respSteamMessageType := if unknown then Unknown else Response in
    r ← parseStreamBuffer true reqSteamMessageType ke c;
    match r with
    | None => Ret None
    | Some c =>
      r ← parseStreamBuffer false respSteamMessageType ke c;
      Ret (match r with None => None | Some c => Some (true, c) end)
    end.

(** The records [Match] makes are sent to the channel. *)
Definition match_messages (c : Connection4) : go Connection4 :=
  match parser c with
  | None => Ret c
  | Some p =>
    do (records, reqs, resps, p) <- Match p (ReqQueue c) (RespQueue c);
    Ret (c <| ReqQueue := reqs |> <| RespQueue := resps |> <| parser := Some p |>
           <| recordChannel ::= fun l => l ++ records |>)
  end.

Definition OnSslDataEvent (data : list Z) (event : ssl_header) (c : Connection4) : go (option Connection4) :=
  r ← (if zlen data >? 0 then addDataToBufferAndTryParse data (Ke event) c else Ret (Some (true, c)));
  match r with
  | None => Ret None
  | Some (_, c) =>
    let c := c <| ssl := true |> in
    s ← AddSslEvent (StreamEvents c) event;
    c ← match_messages (c <| StreamEvents := s |>);
    Ret (Some c)
  end.

(** [SyscallEvent]: the event and the number of bytes the probe captured. *)
Record SyscallEvent := mk_SyscallEvent { se_Ke : kern_evt; BufSize : Z }.

Definition GetSourceFunction (event : SyscallEvent) : Z := default 0 (ke_func_name (se_Ke event) !! 0%nat).

Definition isSyscallFunctionMultiMessage (f : Z) : bool :=
  (f =? source_function_val kSyscallSendMMsg) || (f =? source_function_val kSyscallRecvMMsg) ||
  (f =? source_function_val kSyscallWriteV) || (f =? source_function_val kSyscallReadV).

(** [make([]byte, n)] *)
Definition zeros (n : Z) : list Z := replicate (Z.to_nat n) 0.

Definition fillSyscallDataIfNeeded (data : list Z) (event : SyscallEvent) : list Z :=
  if ke_len (se_Ke event) >? BufSize event then
    let missing := u32 (ke_len (se_Ke event) - BufSize event) in
    data ++ default (zeros missing) (MakeNewFakeData missing)
  else data.

(** What [OnSyscallEvent] puts into the buffers, [None] for nothing. *)
Definition syscall_data (data : list Z) (event : SyscallEvent) (ssl : bool) : option (list Z) :=
  let len := ke_len (se_Ke event) in
  if zlen data >? 0 then
    if ssl then None else Some (fillSyscallDataIfNeeded data event)
  else if GetSourceFunction event =? source_function_val kSyscallSendfile then
    Some (default (zeros len) (MakeNewFakeData len))
  else if isSyscallFunctionMultiMessage (GetSourceFunction event) && negb ssl then
    MakeNewFakeData len
  else None.

Definition OnSyscallEvent (data : list Z) (event : SyscallEvent) (c : Connection4)
    : go (option (bool * Connection4)) :=
  r ← match syscall_data data event (ssl c) with
      | Some data => addDataToBufferAndTryParse data (se_Ke event) c
      | None => Ret (Some (true, c))
      end;
  match r with
  | None => Ret None
  | Some (false, c) => Ret (Some (false, c))
  | Some (true, c) =>
    s ← AddSyscallEvent getInterfaceNameByIndex (StreamEvents c) (se_Ke event);
    c ← match_messages (c <| StreamEvents := s |>);
    Ret (Some (true, c))
  end.

Definition OnKernEvent (event : kern_evt) (c : Connection4) : go (bool * Connection4) :=
  let '(isReq, ok) := isReq c event in
  if ke_len event >? 0 then
    do (alreadyExisted, s) <- AddKernEvent getInterfaceNameByIndex (StreamEvents c) event;
    Ret (alreadyExisted, c <| StreamEvents := s |>)
  else if ok then
    let c :=
      if truthy (Z.land (ke_flags event) (u8 TCP_FLAGS_SYN)) && negb isReq &&
         bool_decide (ke_step event = IP_IN) && negb (ServerSynReceived c)
      then c <| ServerSynReceived := true |> <| ServerSynReceivedTs := ke_ts event |>
      else c in
    Ret (true,
      if truthy (Z.land (ke_flags event) (u8 TCP_FLAGS_ACK)) && isReq && ServerSynReceived c &&
         negb (ClientAckSent c) && bool_decide (ke_step event = IP_OUT)
      then c <| ClientAckSent := true |> <| ClientAckSentTs := ke_ts event |>
      else c)
  else Ret (true, c).

End Connection.

(** ** The parse loop ends *)

Section Ends.
Context {T P M : Type} `{TreeMap T} `{ParsedMessage M} `{!ProtocolStreamParser T P M} `{!ParserLaws T P M}.
Variable now : nat -> Z.
Variable mills : Z -> Z.
Variable MaxAllowStuckTimeMills : Z.
Variable side : SideEnum.
Implicit Types c : Connection4 (T := T) (P := P) (M := M).
Implicit Types sb : StreamBuffer T.

Definition bytes_left sb : nat := total (buffers sb).

(** A run of bytes at positions without wrap-around. *)
Definition good_run (b : Buffer) : Prop := run_ok b /\ byte_list (buf b).
Definition data_runs sb : Prop := Forall good_run (buffers sb).

Lemma good_run_data b : good_run b -> data_run b.
Proof. intros [Hr Hb]. split; [|done]. unfold run_ok, stop, Len in *. lia. Qed.

Lemma total_cons b bs : total (b :: bs) = (length (buf b) + total bs)%nat.
Proof. done. Qed.

(** Part of the first run, and all of it. *)
Lemma RemovePrefix_part sb h bs n :
  buffers sb = h :: bs -> 0 < n < Len h ->
  RemovePrefix sb n =
    Ret (sb <| buffers := mk_Buffer (drop (Z.to_nat n) (buf h)) (u64 (seq h + u64 n)) :: bs |>).
Proof.
  intros Hb Hn. unfold RemovePrefix, IsEmpty. rewrite Hb. cbn [removePrefixLoop].
  rewrite (proj2 (Z.eqb_neq n 0)) by lia. rewrite Z.gtb_ltb, (proj2 (Z.ltb_lt _ _)) by lia.
  unfold Buffer_RemovePrefix, slice_from. rewrite Z.gtb_ltb, (proj2 (Z.ltb_lt _ _)) by lia.
  unfold Len in Hn. by rewrite (proj2 (Z.leb_le 0 n)), (proj2 (Z.leb_le n _)) by lia.
Qed.

Lemma RemovePrefix_run sb h bs :
  buffers sb = h :: bs -> 0 < Len h -> RemovePrefix sb (Len h) = Ret (shrinkHeadBuffer sb).
Proof.
  intros Hb Hn. unfold RemovePrefix, IsEmpty. rewrite Hb. cbn [removePrefixLoop].
  rewrite (proj2 (Z.eqb_neq (Len h) 0)) by lia.
  rewrite Z.gtb_ltb, (proj2 (Z.ltb_ge _ _)) by lia. rewrite Z.sub_diag. by destruct bs.
Qed.

Lemma shrinkHeadBuffer_buffers sb h bs : buffers sb = h :: bs -> buffers (shrinkHeadBuffer sb) = bs.
Proof. intros Hb. unfold shrinkHeadBuffer. by rewrite Hb. Qed.

Lemma RemovePrefix_less sb h bs n :
  buffers sb = h :: bs -> data_runs sb -> 0 < n <= Len h ->
  exists sb', RemovePrefix sb n = Ret sb' /\ data_runs sb' /\ (bytes_left sb' < bytes_left sb)%nat.
Proof.
  intros Hb Hd Hn. unfold data_runs, bytes_left in *. rewrite Hb in Hd |- *. rewrite total_cons.
  apply Forall_cons in Hd as [ [Hl Hy] Hd]. unfold run_ok, stop, Len, zlen in *.
  destruct (decide (n = Len h)) as [->|Hne].
  - exists (shrinkHeadBuffer sb). rewrite (RemovePrefix_run sb h bs) by (unfold Len, zlen; done || lia).
    rewrite (shrinkHeadBuffer_buffers sb h bs) by done. split_and!; [done..|lia].
  - unfold Len, zlen in Hne. eexists. split; [apply (RemovePrefix_part sb h bs n); [done|unfold Len, zlen; lia]|].
    split.
    + apply Forall_cons. split; [|done]. split; [|by apply Forall_drop].
      unfold run_ok, stop, zlen. cbn [buf seq]. rewrite length_drop, (u64_small n) by lia.
      rewrite u64_small by lia. lia.
    + change (total (mk_Buffer (drop (Z.to_nat n) (buf h)) (u64 (seq h + u64 n)) :: bs) <
        length (buf h) + total bs)%nat.
      rewrite total_cons. cbn [buf]. rewrite length_drop. lia.
Qed.

(** Both buffers hold data only. *)
Definition conn_data c : Prop := data_runs (reqStreamBuffer c) /\ data_runs (respStreamBuffer c).

Lemma conn_data_sbuf w c : conn_data c -> data_runs (sbuf w c).
Proof. intros [? ?]. by destruct w. Qed.

Lemma conn_data_set w sb c : conn_data c -> data_runs sb -> conn_data (set_sbuf w sb c).
Proof. intros [? ?] ?. by destruct w. Qed.

Lemma sbuf_set w sb c : sbuf w (set_sbuf w sb c) = sb.
Proof. by destruct w. Qed.

Lemma head_of w c : conn_data c -> IsEmpty (sbuf w c) = false ->
  exists h bs, buffers (sbuf w c) = h :: bs /\ Head (sbuf w c) = Some h /\ data_run h.
Proof.
  intros Hd%(conn_data_sbuf w) He. unfold data_runs, IsEmpty, Head in *.
  destruct (buffers (sbuf w c)) as [|h bs]; [done|]. exists h, bs.
  apply Forall_cons in Hd as [Hh ?]. auto using good_run_data.
Qed.

(** What a step of the loop may do: keep [conn_data] and a parser, and go on only
    with fewer bytes. *)
Definition good_step w c (x : bool * Connection4) : Prop :=
  conn_data x.2 /\ is_Some (parser x.2) /\
  (x.1 = false -> (bytes_left (sbuf w x.2) < bytes_left (sbuf w c))%nat).

Lemma remove_prefix_good w c h bs n :
  conn_data c -> is_Some (parser c) -> buffers (sbuf w c) = h :: bs -> 0 < n <= Len h ->
  exists c', remove_prefix w n c = Ret c' /\ good_step w c (false, c').
Proof.
  intros Hd Hp Hb Hn. unfold remove_prefix.
  destruct (RemovePrefix_less _ _ _ n Hb (conn_data_sbuf w c Hd) Hn) as (sb' & -> & Hd' & Hl).
  exists (set_sbuf w sb' c). split; [done|]. split; [by apply conn_data_set|].
  split; [by destruct w|]. cbn [snd]. by rewrite sbuf_set.
Qed.

Lemma checkProgress_good w c h bs :
  conn_data c -> is_Some (parser c) -> buffers (sbuf w c) = h :: bs -> data_run h ->
  exists r, checkProgress now mills MaxAllowStuckTimeMills w c = Ret r /\ good_step w c (negb r.1, r.2).
Proof.
  intros Hd Hp Hb [Hh _]. unfold checkProgress.
  destruct (getLastProgressTime w c =? 0).
  { eexists. split; [done|]. split; [by destruct w|]. split; [by destruct w|done]. }
  destruct (FindTimestampBySeq _ _) as [ht ok]. cbn [time_now].
  destruct (negb ok || _).
  - unfold RemoveHead, Head. replace (buffers (sbuf w _)) with (h :: bs) by (by destruct w).
    cbn [head]. destruct (RemovePrefix_less (sbuf w c) h bs (Len h)) as (sb' & E & Hd' & Hl);
      [done|by apply conn_data_sbuf|lia|].
    replace (sbuf w _) with (sbuf w c) by (by destruct w). rewrite E.
    eexists. split; [done|]. split; [by destruct w; destruct Hd; split|].
    split; [by destruct w|]. cbn [fst snd negb]. rewrite sbuf_set. lia.
  - eexists. split; [done|]. split; [by destruct w|]. split; [by destruct w|done].
Qed.

Lemma set_queue_same w q c :
  sbuf w (set_queue w q c) = sbuf w c /\ parser (set_queue w q c) = parser c /\
  (conn_data c -> conn_data (set_queue w q c)).
Proof. by destruct w. Qed.

Lemma good_step_weaken w c c0 x : sbuf w c = sbuf w c0 -> good_step w c x -> good_step w c0 x.
Proof. unfold good_step. by intros ->. Qed.

Lemma reset_parser c : parser (resetParseProgress (onRoleChanged side c)) = parser c.
Proof.
  unfold onRoleChanged, UpdateConnectionTraceable. destruct (isSideNotMatched side c); by case_decide.
Qed.

Lemma on_success_good w mt ke r c h bs :
  conn_data c -> is_Some (parser c) -> buffers (sbuf w c) = h :: bs -> data_run h ->
  0 < ReadBytes r <= Len h ->
  exists c', on_success side w mt ke r c = Ret c' /\ good_step w c (false, c').
Proof.
  intros Hd Hp Hb Hh Hr. unfold on_success.
  destruct (ParsedMessages r) as [|m ms]; [by eapply remove_prefix_good|].
  case_decide.
  - eexists. split; [done|]. split; [|split].
    + split; apply Forall_nil_2.
    + cbn [snd]. by rewrite reset_parser.
    + intros _. cbn [snd]. unfold bytes_left. rewrite Hb, total_cons. destruct Hh as [Hl _].
      replace (buffers (sbuf w _)) with ([] : list Buffer) by (by destruct w).
      unfold Len, zlen in Hl. cbn. lia.
  - destruct (negb _); [by eapply remove_prefix_good|].
    destruct (set_queue_same w (foldl enqueue (queue w c) (m :: ms)) c) as (E1 & E2 & E3).
    destruct (remove_prefix_good w (set_queue w (foldl enqueue (queue w c) (m :: ms)) c) h bs (ReadBytes r))
      as (c' & -> & Hg); [by auto|by rewrite E2|by rewrite E1|done|].
    exists c'. split; [done|]. by eapply good_step_weaken.
Qed.

Lemma progressIsStucked_same w c :
  exists c', (progressIsStucked now mills MaxAllowStuckTimeMills w c).2 = c' /\
    parser c' = parser c /\ sbuf w c' = sbuf w c /\ (conn_data c -> conn_data c').
Proof.
  eexists. split; [done|]. unfold progressIsStucked.
  destruct (_ =? 0); [by destruct w|]. destruct (FindTimestampBySeq _ _). by destruct w.
Qed.

Lemma on_invalid_good p w mt ke c h bs :
  conn_data c -> is_Some (parser c) -> buffers (sbuf w c) = h :: bs -> data_run h -> 0 <= ke_len ke ->
  exists x, on_invalid now mills MaxAllowStuckTimeMills p w mt ke c = Ret x /\ good_step w c x.
Proof.
  intros Hd Hp Hb Hh Hk. unfold on_invalid.
  assert (Hhd : Head (sbuf w c) = Some h) by (unfold Head; by rewrite Hb).
  destruct (boundary_total p (sbuf w c) mt 1 h Hhd Hh ltac:(lia)) as (pos & -> & Hpos).
  rewrite go_bind_ret. destruct (Z.eqb_spec pos (-1)); cbn [negb].
  2:{ destruct (remove_prefix_good w c h bs pos) as (c' & -> & Hg); [done..|lia|]. by eexists. }
  destruct (progressIsStucked_same w c) as (c' & E & E1 & E2 & E3).
  destruct (progressIsStucked _ _ _ w c) as [stucked c1]. cbn [snd] in E. subst c1.
  destruct stucked.
  2:{ eexists. split; [done|]. split; [by auto|]. split; [cbn [snd]; by rewrite E1|done]. }
  rewrite E2, Hhd. rewrite Z.gtb_ltb. destruct Hh as [Hl Hy]. destruct (Z.ltb_spec (ke_len ke) (Len h)).
  - destruct (remove_prefix_good w c' h bs (Len h - ke_len ke)) as (c2 & -> & Hg);
      [by auto|by rewrite E1|by rewrite E2|lia|].
    eexists. split; [done|]. by eapply good_step_weaken.
  - destruct (checkProgress_good w c' h bs) as ([removed c2] & -> & Hg);
      [by auto|by rewrite E1|by rewrite E2|done|].
    eexists. split; [done|]. by eapply good_step_weaken.
Qed.

Lemma parse_step_good p w mt ke c :
  conn_data c -> IsEmpty (sbuf w c) = false -> 0 <= ke_len ke ->
  exists x, parse_step now mills MaxAllowStuckTimeMills side p w mt ke c = Ret x /\ good_step w c x.
Proof.
  intros Hd He Hk. destruct (head_of w c Hd He) as (h & bs & Hb & Hhd & Hh). unfold parse_step.
  destruct (parse_total p (sbuf w c) mt h Hhd Hh) as (r & p' & -> & Hr).
  change (go_then (Ret ?a) ?k) with (k a). cbv beta iota.
  set (c1 := c <| parser := Some p' |>).
  assert (E : sbuf w c1 = sbuf w c) by (by destruct w).
  assert (Hd1 : conn_data c1) by done. assert (Hp1 : is_Some (parser c1)) by done.
  rewrite <- E in Hb. destruct (parse_state r) eqn:Es.
  - destruct (on_invalid_good p' w mt ke c1 h bs Hd1 Hp1 Hb Hh Hk) as (x & -> & Hg).
    eexists. split; [done|]. by eapply good_step_weaken.
  - destruct (checkProgress_good w c1 h bs Hd1 Hp1 Hb Hh) as ([removed c2] & -> & Hg).
    eexists. split; [done|]. by eapply good_step_weaken.
  - destruct (on_success_good w mt ke r c1 h bs Hd1 Hp1 Hb Hh) as (c2 & -> & Hg); [auto|].
    eexists. split; [done|]. by eapply good_step_weaken.
  - destruct (remove_prefix_good w c1 h bs (ReadBytes r) Hd1 Hp1 Hb) as (c2 & -> & Hg); [auto|].
    eexists. split; [done|]. by eapply good_step_weaken.
Qed.

(** As many iterations as there are bytes are enough. *)
Lemma parse_loop_total fuel w mt ke c :
  conn_data c -> is_Some (parser c) -> 0 <= ke_len ke -> (bytes_left (sbuf w c) <= fuel)%nat ->
  exists c', parse_loop now mills MaxAllowStuckTimeMills side fuel w mt ke c = Ret (Some c') /\
    conn_data c' /\ is_Some (parser c').
Proof.
  revert c. induction fuel as [|fuel IH]; intros c Hd Hp Hk Hf.
  all: cbn [parse_loop]; destruct (IsEmpty (sbuf w c)) eqn:He; [by eauto|].
  - destruct (head_of w c Hd He) as (h & bs & Hb & _ & [Hl _]).
    unfold bytes_left in Hf. rewrite Hb, total_cons in Hf. unfold Len, zlen in Hl. lia.
  - destruct (parser c) as [p|] eqn:Ep; [|by destruct Hp].
    destruct (parse_step_good p w mt ke c Hd He Hk) as ([stop c'] & -> & Hd' & Hp' & Hl).
    change (go_then (Ret ?a) ?k) with (k a). cbv beta iota. cbn [fst snd] in *.
    destruct stop; [by eauto|]. apply IH; auto. specialize (Hl eq_refl). lia.
Qed.

End Ends.

(** ** Adding data *)

Section AddingData.
Context {T : Type} `{TreeMap T}.
Implicit Types sb : StreamBuffer T.

Definition all_bytes (bs : list Buffer) : Prop := Forall (fun b => byte_list (buf b)) bs.

Lemma FuseAsLeft_bytes b q data b' :
  FuseAsLeft b q data = Ret b' -> byte_list (buf b) -> byte_list data -> byte_list (buf b').
Proof.
  unfold FuseAsLeft, slice_from. intros E Hb Hd.
  repeat (destruct (_ && _) || destruct (_ =? _)); simplify_eq/=; apply Forall_app_2; auto using Forall_drop.
Qed.

Lemma FuseAsRight_bytes b q data b' :
  FuseAsRight b q data = Ret b' -> byte_list (buf b) -> byte_list data -> byte_list (buf b').
Proof.
  unfold FuseAsRight, slice_to. intros E Hb Hd.
  repeat (destruct (_ && _) || destruct (_ =? _)); simplify_eq/=; apply Forall_app_2; auto using Forall_take.
Qed.

Lemma found_bytes bs q :
  all_bytes bs ->
  (forall i b, findLeftBufferBySeq q bs 0 None = Some (i, b) -> byte_list (buf b)) /\
  (forall i b, findRightBufferBySeq q bs 0 = Some (i, b) -> byte_list (buf b)).
Proof.
  intros Ha. split.
  - enough (forall k prev i b, (forall j b', prev = Some (j, b') -> byte_list (buf b')) ->
      findLeftBufferBySeq q bs k prev = Some (i, b) -> byte_list (buf b)) as E by (intros; eapply E; [|done]; done).
    induction Ha as [|x bs Hx _ IH]; intros k prev i b Hp; cbn; [by apply Hp|].
    destruct (_ >? _); [by apply Hp|]. apply IH. by intros j b' [= _ <-].
  - enough (forall k i b, findRightBufferBySeq q bs k = Some (i, b) -> byte_list (buf b)) as E by (intros i b; apply E).
    induction Ha as [|x bs Hx _ IH]; intros k i b; cbn; [done|].
    destruct (_ >? _); [by intros [= _ <-]|]. apply IH.
Qed.

Lemma add_to_buffers_bytes bs q data bs' :
  add_to_buffers bs q data = Ret bs' -> all_bytes bs -> byte_list data -> all_bytes bs'.
Proof.
  intros E Ha Hd. destruct (found_bytes bs q Ha) as [HL HR]. unfold add_to_buffers in E. cbv zeta in E.
  assert (all_bytes [mk_Buffer data q]) as Hn by (by constructor).
  destruct (findLeftBufferBySeq _ _ _ _) as [ [li L]|]; [specialize (HL _ _ eq_refl)|clear HL];
  (destruct (findRightBufferBySeq _ _ _) as [ [ri R]|]; [specialize (HR _ _ eq_refl)|clear HR]).
  all: repeat match type of E with
  | (if ?b then _ else _) = _ => destruct b
  | (_ ≫= _) = _ => apply go_bind_inv in E as (? & ?F & E)
  end.
  all: injection E as <-.
  all: repeat match goal with
  | F : FuseAsLeft _ _ _ = Ret _ |- _ => apply FuseAsLeft_bytes in F; [|done..]
  | F : FuseAsRight _ _ _ = Ret _ |- _ => apply FuseAsRight_bytes in F; [|done..]
  end.
  all: unfold all_bytes; repeat first
    [ done | apply Forall_slices_delete | apply Forall_slices_insert | apply Forall_insert | apply Forall_app; split ].
Qed.

Lemma Add_bytes sb q data t r sb' :
  Add sb q data t = Ret (r, sb') -> all_bytes (buffers sb) -> byte_list data -> all_bytes (buffers sb').
Proof.
  unfold Add. intros E Ha Hd. assert (all_bytes [mk_Buffer data q]) as Hn by (by constructor).
  destruct (tm_Get _ _); [by simplify_eq|]. destruct (IsEmpty sb).
  { injection E as _ <-. by apply Forall_app. }
  destruct (_ >=? _); [by injection E as _ <-|]. destruct (_ >=? _); [by simplify_eq|].
  destruct (_ >=? _); [by injection E as _ <-|].
  apply go_bind_inv in E as (bs' & Eb & E). injection E as _ <-.
  pose proof (add_to_buffers_bytes _ _ _ _ Eb Ha Hd) as Hb'.
  fsimp_goal. unfold shrinkBufferUntilSizeBelowCapacity, updateTimestamp. fsimp_goal.
  pose proof (suffix_Forall _ _ _ (shrinkLoop_suffix (capacity sb) bs' None) Hb') as Hs.
  by destruct (shrinkLoop _ _ _) as [bs [b|] ].
Qed.

Lemma Add_good sb q data t :
  run_ok (mk_Buffer data q) -> byte_list data -> data_runs sb ->
  exists r sb', Add sb q data t = Ret (r, sb') /\ data_runs sb'.
Proof.
  intros Hn Hd Hs. apply Forall_and in Hs as [Hr Hb].
  destruct (Add_total sb (mk_Buffer data q) t Hn Hr) as (r & sb' & E & Hr' & _).
  exists r, sb'. split; [done|]. apply Forall_and. split; [done|]. by eapply Add_bytes.
Qed.

End AddingData.

(** ** Handling data never fails *)

Section Handling.
Context {T P M : Type} `{TreeMap T} `{ParsedMessage M} `{!ProtocolStreamParser T P M} `{!ParserLaws T P M}.
Variable now : nat -> Z.
Variable mills : Z -> Z.
Variable MaxAllowStuckTimeMills : Z.
Variable side : SideEnum.
Implicit Types c : Connection4 (T := T) (P := P) (M := M).

Lemma parseStreamBuffer_total w mt ke c :
  conn_data c -> 0 <= ke_len ke ->
  exists c', parseStreamBuffer now mills MaxAllowStuckTimeMills side w mt ke c = Ret (Some c') /\ conn_data c'.
Proof.
  intros Hd Hk. unfold parseStreamBuffer. destruct (parser c) as [p|] eqn:Ep; [|by eauto].
  destruct (IsEmpty (sbuf w c)) eqn:He; [by eauto|].
  destruct (head_of w c Hd He) as (h & bs & Hb & Hhd & Hh).
  destruct (boundary_total p (sbuf w c) mt 0 h Hhd Hh ltac:(lia)) as (pos & -> & Hpos).
  rewrite go_bind_ret.
  assert (exists c1, (if (if pos =? -1 then 0 else pos) >? 0
      then remove_prefix w (if pos =? -1 then 0 else pos) c else Ret c) = Ret c1 /\
    conn_data c1 /\ is_Some (parser c1)) as (c1 & -> & Hd1 & Hp1).
  { rewrite Z.gtb_ltb. destruct (Z.ltb_spec 0 (if pos =? -1 then 0 else pos)).
    - destruct (remove_prefix_good w c h bs (if pos =? -1 then 0 else pos)) as (c1 & -> & Hg & Hp & _);
        [done|by rewrite Ep|done| |by eauto]. destruct (Z.eqb_spec pos (-1)); lia.
    - exists c. rewrite Ep. by eauto. }
  rewrite go_bind_ret.
  destruct (parse_loop_total now mills MaxAllowStuckTimeMills side (total (buffers (sbuf w c1))) w mt ke c1)
    as (c2 & -> & Hd2 & _); [done..|].
  rewrite go_bind_ret. eexists. split; [done|]. destruct (_ || _); [|done]. by destruct w.
Qed.

(** Data as the probes report it. *)
Definition event_ok (e : list Z * kern_evt) : Prop :=
  0 < zlen e.1 < 4294967296 /\ byte_list e.1 /\ 0 <= ke_seq e.2 < 4294967296 /\ 0 <= ke_len e.2.

Lemma PutUint32_bytes v : byte_list (PutUint32 v).
Proof. repeat constructor; unfold u8; apply Z.mod_pos_bound; lia. Qed.

Lemma add_data_total data ke c :
  event_ok (data, ke) -> conn_data c ->
  exists r c', add_data data ke c = Ret (r, c') /\ conn_data c'.
Proof.
  intros (Hl & Hb & Hq & Hk) Hd. cbn [fst snd] in *. unfold add_data.
  destruct (isReq c ke) as [w ok].
  assert (exists sb, match extractHeaderEvent ke with
    | Some (headerEvt, header) =>
      do (_, sb) <- Add (sbuf w c) (ke_seq headerEvt) header (getEventTimestamp ke c w); Ret sb
    | None => Ret (sbuf w c) end = Ret sb /\ data_runs sb) as (sb & -> & Hs).
  { pose proof (conn_data_sbuf w c Hd) as Hs. unfold extractHeaderEvent.
    destruct (negb _); [by eauto|]. fsimp_goal.
    destruct (Add_good (sbuf w c) (u32 (ke_seq ke - 4)) (PutUint32 (ke_length_header ke))
      (getEventTimestamp ke c w)) as (r & sb & E & Hs');
      [|apply PutUint32_bytes|done|exists sb; by rewrite E].
    pose proof (u32_range (ke_seq ke - 4)). unfold run_ok, stop, zlen. cbn. lia. }
  rewrite go_bind_ret.
  destruct (Add_good sb (ke_seq ke) data (getEventTimestamp ke c w)) as (r & sb' & -> & Hs');
    [unfold run_ok, stop; cbn [buf seq]; lia|done..|].
  exists r, (set_sbuf w sb' c). split; [done|]. by apply conn_data_set.
Qed.

Lemma try_parse_total data ke c :
  event_ok (data, ke) -> conn_data c ->
  exists r c', addDataToBufferAndTryParse now mills MaxAllowStuckTimeMills side data ke c = Ret (Some (r, c')) /\
    conn_data c'.
Proof.
  intros He Hd. unfold addDataToBufferAndTryParse.
  destruct (add_data_total data ke c He Hd) as (r & c1 & -> & Hd1).
  change (go_then (Ret ?a) ?k) with (k a). cbv beta iota. destruct r; cbn [negb]; [|by eauto].
  destruct He as (_ & _ & _ & Hk).
  destruct (parseStreamBuffer_total true (if bool_decide (Role c1 = kRoleUnknown) then Unknown else Request)
    ke c1 Hd1 Hk) as (c2 & -> & Hd2).
  rewrite go_bind_ret.
  destruct (parseStreamBuffer_total false (if bool_decide (Role c1 = kRoleUnknown) then Unknown else Response)
    ke c2 Hd2 Hk) as (c3 & -> & Hd3).
  rewrite go_bind_ret. by eauto.
Qed.

(** The data of a sequence of events, one after the other. *)
Fixpoint feed (es : list (list Z * kern_evt)) c : go (option Connection4) :=
  match es with
  | [] => Ret (Some c)
  | (data, ke) :: es =>
    r ← addDataToBufferAndTryParse now mills MaxAllowStuckTimeMills side data ke c;
    match r with
    | None => Ret None
    | Some (_, c) => feed es c
    end
  end.

(** No data makes the agent panic or hang.  For every parser that keeps the laws of
    the interface, whatever data arrives, with whatever sequence numbers, in whatever
    order, with or without length headers, at whatever times and for whatever role of
    the connection, every event is handled to the end: both parse loops finish within
    as many iterations as the buffers hold bytes, and every index and slice is in
    range. *)
Theorem data_events_handled (es : list (list Z * kern_evt)) c
    (Hevents : Forall event_ok es) (Hconn : conn_data c) :
  exists c', feed es c = Ret (Some c') /\ conn_data c'.
Proof.
  revert c Hconn. induction Hevents as [|[data ke] es He _ IH]; intros c Hd; [by exists c|].
  cbn [feed]. destruct (try_parse_total data ke c He Hd) as (r & c' & -> & Hd').
  rewrite go_bind_ret. by apply IH.
Qed.

End Handling.

(** A MySQL server's connection, with data that no parser expects: a piece of a
    packet, then a packet far behind it, then one before both. *)
Definition mysql_conn : Connection4 (T := gmap Z Z) (P := unit) (M := MysqlPacket) :=
  NewConnFromEvent kRoleServer (Some tt).

Definition odd_events : list (list Z * kern_evt) :=
  [([1; 2; 3], kern_evt_zero <| ke_seq := 4000 |> <| ke_len := 3 |> <| ke_step := SYSCALL_IN |>);
   (packet_bytes 0 ping_query, kern_evt_zero <| ke_seq := 4294967290 |> <| ke_len := 9 |> <| ke_step := SYSCALL_IN |>);
   ([0], kern_evt_zero <| ke_seq := 2 |> <| ke_len := 1 |> <| ke_step := SYSCALL_IN |>
          <| ke_prepend_length_header := true |> <| ke_length_header := 77 |>)].

Lemma data_events_handled_witness :
  exists c', feed (fun n => Z.of_nat n * 5000) (fun t => t / 1000000) 1000 AllSide odd_events mysql_conn = Ret (Some c') /\
    conn_data c'.
Proof.
  apply (data_events_handled (fun n => Z.of_nat n * 5000) (fun t => t / 1000000) 1000 AllSide odd_events mysql_conn).
  - repeat constructor; vm_compute; done.
  - split; apply Forall_nil_2.
Defined.
