(* ===== verification/AgentStream.v ===== *)
(** * From events to messages

    The pieces together: the data of the events of a connection, in the order in
    which the stream has it but split in any way, passes through the stream buffer
    ([StreamBuffer.v]) and the parse loop of the connection ([AgentConn.v]) with a
    parser; what arrives in the queue of messages are the frames of the stream, each
    once, in order, at its position and with the time of the event its first byte
    came with.

    [Framing] and [FramingLaws] are what this takes of the parser: a whole frame at
    the start of the buffer gives its message, a part of one a request for more.
    [Streams.v] has the instances.  [at_rest] describes the connection between two
    events: the buffer holds the bytes of the frame that is not complete yet, and
    nothing else. *)

From stdpp Require Import gmap list sorting strings.
From Stdlib Require Import ZArith Lia.
From S2P Require Import Prelude.
From S2P Require Import Types.
From S2P Require Import GoBase.
From S2P Require Import StreamBuffer.
From S2P Require Import Reassembly.
From S2P Require Import KernEvents.
From S2P Require Import Protocol.
From S2P Require Import AgentConn.
Local Open Scope Z_scope.
Local Open Scope model_scope.

(** ** Times of positions *)

(** The time of the chunk that holds position [x], for chunks that tile a stream
    that starts at or before [x]. *)
Fixpoint arrival (P : list (Buffer * Z)) (x : Z) : Z :=
  match P with
  | [] => 0
  | (n, t) :: P' => if x <? stop n then t else arrival P' x
  end.

Definition end_of (base : Z) (P : list (Buffer * Z)) : Z := base + zlen (stream_of P.*1).

Section Times.
Context {T : Type} `{TreeMapLaws T}.

(** The table of times has entries of chunks only, and those of all chunks that
    reach beyond position [q]. *)
Definition known (P : list (Buffer * Z)) (ts : T) (q : Z) : Prop :=
  (forall k v, tm_Get ts k = Some v -> exists n, (n, v) ∈ P /\ seq n = k) /\
  (forall n t, (n, t) ∈ P -> q < stop n -> tm_Get ts (seq n) = Some t).

Lemma end_of_cons base n t P : end_of base ((n, t) :: P) = end_of (base + zlen (buf n)) P.
Proof.
  unfold end_of. rewrite fmap_cons. cbn [fst].
  change (stream_of (n :: P.*1)) with (buf n ++ stream_of P.*1). rewrite zlen_app. lia.
Qed.

Lemma end_of_snoc base P n t : end_of base (P ++ [(n, t)]) = end_of base P + zlen (buf n).
Proof.
  unfold end_of, stream_of. rewrite !fmap_app, concat_app, zlen_app. cbn. rewrite app_nil_r. lia.
Qed.

Lemma chunk_at base P x :
  tiles_from base P.*1 -> base <= x < end_of base P ->
  exists n, (n, arrival P x) ∈ P /\ seq n <= x < stop n.
Proof.
  revert base. induction P as [|[n t] P IH]; intros base Ht Hx.
  { unfold end_of, zlen in Hx. cbn in Hx. lia. }
  rewrite end_of_cons in Hx. rewrite fmap_cons in Ht. destruct Ht as (Hs & _ & Ht). cbn [fst] in *.
  cbn [arrival]. destruct (Z.ltb_spec x (stop n)).
  - exists n. split; [by left|lia].
  - destruct (IH (stop n) Ht) as (n' & Hin & Hx'); [unfold stop in *; rewrite Hs in *; lia|].
    exists n'. split; [by right|done].
Qed.

Lemma arrival_app base P Q x :
  tiles_from base P.*1 -> base <= x < end_of base P -> arrival (P ++ Q) x = arrival P x.
Proof.
  revert base. induction P as [|[n t] P IH]; intros base Ht Hx.
  { unfold end_of, zlen in Hx. cbn in Hx. lia. }
  rewrite end_of_cons in Hx. rewrite fmap_cons in Ht. destruct Ht as (Hs & _ & Ht). cbn [fst] in *.
  cbn [app arrival]. destruct (Z.ltb_spec x (stop n)); [done|].
  apply (IH (stop n) Ht). unfold stop in *. rewrite Hs in *. lia.
Qed.

Lemma tiles_members base P n t :
  tiles_from base P.*1 -> (n, t) ∈ P -> base <= seq n < stop n /\ stop n <= end_of base P.
Proof.
  intros Ht Hin. pose proof (tiles_inside _ _ Ht) as Hf. rewrite Forall_forall in Hf.
  apply Hf, list_elem_of_fmap. by exists (n, t).
Qed.

(** The time found for a position is that of its chunk. *)
Lemma known_floor base P (ts : T) q x :
  tiles_from base P.*1 -> known P ts q -> base <= x < end_of base P -> q <= x ->
  exists k, tm_Floor ts x = Some (k, arrival P x).
Proof.
  intros Ht [H1 H2] Hx Hq. destruct (chunk_at base P x Ht Hx) as (n & Hin & Hn).
  exists (seq n). apply tm_floor_some. split; [apply H2; [done|lia]|]. split; [lia|].
  intros i [v Hv] Hi. destruct (H1 i v Hv) as (n' & Hin' & <-).
  assert (n ∈ P.*1) by (apply list_elem_of_fmap; by exists (n, arrival P x)).
  assert (n' ∈ P.*1) by (apply list_elem_of_fmap; by exists (n', v)).
  destruct (tiles_members base P n' v Ht Hin') as [? _].
  destruct (tiles_apart _ _ n n' Ht) as [->|[?|?] ]; [done..|lia|lia|lia].
Qed.

Lemma known_put base P (ts : T) q n t :
  tiles_from base P.*1 -> known P ts q -> seq n = end_of base P ->
  tm_Get ts (seq n) = None /\ known (P ++ [(n, t)]) (tm_Put ts (seq n) t) q.
Proof.
  intros Ht [H1 H2] Hn. split.
  - apply eq_None_not_Some. intros [v Hv]. destruct (H1 _ _ Hv) as (n' & Hin & E).
    destruct (tiles_members base P n' v Ht Hin). lia.
  - split.
    + intros k v. rewrite tm_get_put. case_decide as E; intros Hv.
      * injection Hv as <-. exists n. split; [apply elem_of_app; right; by left|done].
      * destruct (H1 k v Hv) as (n' & Hin & Hk). exists n'. split; [apply elem_of_app; by left|done].
    + intros n' t' [Hin|Hin]%elem_of_app Hq; rewrite tm_get_put.
      * destruct (tiles_members base P n' t' Ht Hin). rewrite decide_False by lia. auto.
      * apply list_elem_of_singleton in Hin as [= -> ->]. by rewrite decide_True.
Qed.

(** Few enough entries are never thinned out. *)
Lemma clean_few base P (ts : T) q :
  tiles_from base P.*1 -> known P ts q -> zlen P <= maxTimestampEntries -> cleanOldTimestamps ts = ts.
Proof.
  intros Ht [H1 _] Hl. unfold cleanOldTimestamps.
  destruct (Z.leb_spec (tm_Size ts) maxTimestampEntries); [done|]. exfalso.
  assert (length (tm_Keys ts) <= length (seq <$> P.*1))%nat.
  { apply submseteq_length, NoDup_submseteq; [apply sorted_lt_NoDup, tm_keys_sorted|].
    intros k [v Hv]%tm_keys_get. destruct (H1 k v Hv) as (n & Hin & <-).
    apply list_elem_of_fmap. exists n. split; [done|]. apply list_elem_of_fmap. by exists (n, v). }
  rewrite !length_fmap in *. unfold tm_Size, zlen in *. lia.
Qed.

End Times.

(** ** Parsing what has arrived *)

Definition mt_of (w : bool) : MessageType := if w then Request else Response.

(** What a direction of a protocol is made of: frames [X], their bytes, which of them
    a direction may have ([true] for requests), and the message a frame at a position
    becomes. *)
Class Framing (M X : Type) := {
  bytes_of : X -> list Z;
  sendable : bool -> X -> Prop;
  message_at : bool -> Z -> Z -> X -> M;
}.

(** What the parser promises about frames: the first frame of a buffer is read when it
    is there as a whole, and waited for otherwise; the search for a boundary does not
    skip it. *)
Class FramingLaws (T S M X : Type) `{TreeMap T} `{ParsedMessage M} `{ProtocolStreamParser T S M} `{Framing M X} := {
  frame_nonempty (x : X) : bytes_of (M := M) x <> [];
  frame_direction (w : bool) (t q : Z) (x : X) : IsReq (message_at w t q x) = w;
  whole_frame (p : S) (sb : StreamBuffer T) (h : Buffer) (w : bool) (x : X) (rest : list Z) (t : Z) :
    Head sb = Some h -> buf h = bytes_of (M := M) x ++ rest -> sendable (M := M) w x ->
    FindTimestampBySeq sb (seq h) = (t, true) ->
    ParseStream p sb (mt_of w) =
      Ret (mk_ParseResult Success [message_at w t (seq h) x] (zlen (bytes_of (M := M) x)), p);
  part_of_frame (p : S) (sb : StreamBuffer T) (h : Buffer) (w : bool) (x : X) (k : nat) (t : Z) :
    Head sb = Some h -> buf h = take k (bytes_of (M := M) x) -> (k < length (bytes_of (M := M) x))%nat ->
    sendable (M := M) w x -> FindTimestampBySeq sb (seq h) = (t, true) ->
    ParseStream p sb (mt_of w) = Ret (just NeedsMoreData, p);
  first_boundary (p : S) (sb : StreamBuffer T) (h : Buffer) (w : bool) (x : X) (beyond fut : list Z) :
    Head sb = Some h -> buf h <> [] -> bytes_of (M := M) x ++ beyond = buf h ++ fut -> sendable (M := M) w x ->
    exists pos, FindBoundary p sb (mt_of w) 0 = Ret pos /\ (pos = 0 \/ pos = -1);
}.

(** The bytes of a stream of frames, and its messages from position [pos] on. *)
Section Wire.
Context {M X : Type} `{Framing M X}.

Definition wire (ps : list X) : list Z := concat (bytes_of (M := M) <$> ps).

Fixpoint stream_messages (time : Z -> Z) (w : bool) (pos : Z) (ps : list X) : list M :=
  match ps with
  | [] => []
  | x :: ps' => message_at w (time pos) pos x :: stream_messages time w (pos + zlen (bytes_of (M := M) x)) ps'
  end.

Lemma wire_cons x ps : wire (x :: ps) = bytes_of (M := M) x ++ wire ps.
Proof. done. Qed.

End Wire.

(** The runs of a buffer with the bytes [pend] at position [q]. *)
Definition run_at (pend : list Z) (q : Z) : list Buffer :=
  match pend with [] => [] | _ => [mk_Buffer pend q] end.

Section Parsing.
Context {T S M X : Type} `{TreeMapLaws T} `{ParsedMessage M} `{!ProtocolStreamParser T S M}
  `{!Framing M X} `{!FramingLaws T S M X}.
Variable now : nat -> Z.
Variable mills : Z -> Z.
Variable MaxAllowStuckTimeMills : Z.
Variable side : SideEnum.
Variable w : bool.
Implicit Types c : Connection4 (T := T) (P := S) (M := M).

(** The parts of a connection that reading one direction leaves alone. *)
Definition same_rest c c' : Prop :=
  Role c' = Role c /\ parser c' = parser c /\ sbuf (negb w) c' = sbuf (negb w) c /\
  queue (negb w) c' = queue (negb w) c /\ ssl c' = ssl c /\ StreamEvents c' = StreamEvents c /\
  recordChannel c' = recordChannel c.

Lemma same_rest_trans c1 c2 c3 : same_rest c1 c2 -> same_rest c2 c3 -> same_rest c1 c3.
Proof. unfold same_rest. intros (-> & -> & -> & -> & -> & -> & ->) (-> & -> & -> & -> & -> & -> & ->). done. Qed.

Lemma set_sbuf_rest sb c :
  same_rest c (set_sbuf w sb c) /\ queue w (set_sbuf w sb c) = queue w c.
Proof. unfold same_rest. destruct w; done. Qed.

(** Nothing is given up while the first byte is not too old. *)
Lemma checkProgress_fresh c pend q cap ts k t :
  sbuf w c = mk_StreamBuffer [mk_Buffer pend q] cap ts -> tm_Floor ts q = Some (k, t) ->
  (forall n, s64 (now n - mills t) <= MaxAllowStuckTimeMills) ->
  exists c', checkProgress now mills MaxAllowStuckTimeMills w c = Ret (false, c') /\
    same_rest c c' /\ sbuf w c' = sbuf w c /\ queue w c' = queue w c.
Proof.
  intros Hs Hf Hfr. unfold checkProgress. destruct (_ =? 0).
  { eexists. split; [done|]. by destruct w. }
  rewrite Hs. unfold FindTimestampBySeq, Position0. cbn [buffers position0 seq timestamps]. rewrite Hf.
  cbn [time_now negb orb]. rewrite Z.gtb_ltb, (proj2 (Z.ltb_ge _ _)) by apply Hfr.
  eexists. split; [done|]. by destruct w.
Qed.

Lemma remove_prefix_split c a b q cap ts :
  sbuf w c = mk_StreamBuffer [mk_Buffer (a ++ b) q] cap ts -> a <> [] ->
  0 <= q -> q + zlen (a ++ b) < 9223372036854775808 ->
  exists c' ts', remove_prefix w (zlen a) c = Ret c' /\ same_rest c c' /\ queue w c' = queue w c /\
    sbuf w c' = mk_StreamBuffer (run_at b (q + zlen a)) cap ts' /\
    (forall k v, tm_Get ts' k = Some v -> tm_Get ts k = Some v) /\ (b <> [] -> ts' = ts).
Proof.
  intros Hs Ha Hq Hz. pose proof (nonempty_zlen _ Ha). rewrite zlen_app in Hz. pose proof (zlen_nonneg b).
  unfold remove_prefix. rewrite Hs. destruct b as [|x b].
  - rewrite app_nil_r in *.
    rewrite (RemovePrefix_run (mk_StreamBuffer [mk_Buffer a q] cap ts) (mk_Buffer a q) []) by (done || cbn; lia).
    rewrite go_bind_ret. eexists _, (cleanTimestampMapBySeqNoMoreThan ts q). split; [done|].
    split; [apply set_sbuf_rest|]. split; [apply set_sbuf_rest|]. rewrite sbuf_set. split; [done|]. split; [|done].
    intros k v. unfold cleanTimestampMapBySeqNoMoreThan. rewrite tm_get_remove_all. by case_decide.
  - pose proof (zlen_nonneg b). rewrite zlen_cons in *.
    rewrite (RemovePrefix_part (mk_StreamBuffer [mk_Buffer (a ++ x :: b) q] cap ts) (mk_Buffer (a ++ x :: b) q) []).
    2:{ done. } 2:{ unfold Len. cbn [buf]. rewrite zlen_app, zlen_cons. lia. }
    rewrite go_bind_ret. eexists _, ts. split; [done|].
    split; [apply set_sbuf_rest|]. split; [apply set_sbuf_rest|]. rewrite sbuf_set. split; [|done].
    cbn [buf seq]. rewrite u64_small, u64_small by (rewrite ?u64_small by lia; lia).
    unfold zlen at 1. rewrite Nat2Z.id, drop_app_length. done.
Qed.

(** One iteration on a whole packet and on a part of one. *)
Lemma parse_step_whole c p ke x rest q cap ts k t :
  Role c <> kRoleUnknown -> sendable w x ->
  sbuf w c = mk_StreamBuffer [mk_Buffer (bytes_of x ++ rest) q] cap ts ->
  0 <= q -> q + zlen (bytes_of x ++ rest) < 9223372036854775808 -> tm_Floor ts q = Some (k, t) ->
  parser c = Some p ->
  exists c' ts', parse_step now mills MaxAllowStuckTimeMills side p w (mt_of w) ke c = Ret (false, c') /\
    same_rest c c' /\
    queue w c' = enqueue (queue w c) (message_at w t q x) /\
    sbuf w c' = mk_StreamBuffer (run_at rest (q + zlen (bytes_of x))) cap ts' /\
    (forall k v, tm_Get ts' k = Some v -> tm_Get ts k = Some v) /\ (rest <> [] -> ts' = ts).
Proof.
  intros Hr Hv Hs Hq Hz Hf Hp. unfold parse_step.
  rewrite (whole_frame p (sbuf w c) (mk_Buffer (bytes_of x ++ rest) q) w x rest t);
    [|by rewrite Hs|done|done|by rewrite Hs; unfold FindTimestampBySeq; cbn; rewrite Hf].
  change (go_then (Ret ?a) ?k) with (k a). cbv beta iota. cbn [parse_state]. unfold on_success.
  cbn [ParsedMessages ReadBytes]. rewrite decide_False by done.
  replace (bool_decide (mt_of w = Request)) with w by (by destruct w).
  cbn [StreamBuffer.seq]. rewrite frame_direction, eqb_reflx. cbn [negb foldl].
  destruct (remove_prefix_split (set_queue w (enqueue (queue w (c <| parser := Some p |>))
    (message_at w t q x)) (c <| parser := Some p |>))
    (bytes_of x) rest q cap ts) as (c' & ts' & E & Hsr & Hqu & Hsb & Ht); [|apply frame_nonempty|done|done|].
  { rewrite <- Hs. by destruct w. }
  rewrite E, go_bind_ret. exists c', ts'. split; [done|]. split_and!; [| |done|apply Ht..].
  - eapply same_rest_trans; [|done]. unfold same_rest. rewrite Hp. by destruct w.
  - rewrite Hqu. by destruct w.
Qed.

Lemma parse_step_partial c p ke x pend q cap ts k t :
  sendable w x -> pend `prefix_of` bytes_of x -> zlen pend < zlen (bytes_of x) ->
  sbuf w c = mk_StreamBuffer [mk_Buffer pend q] cap ts -> tm_Floor ts q = Some (k, t) ->
  (forall n, s64 (now n - mills t) <= MaxAllowStuckTimeMills) -> parser c = Some p ->
  exists c', parse_step now mills MaxAllowStuckTimeMills side p w (mt_of w) ke c = Ret (true, c') /\
    same_rest c c' /\ queue w c' = queue w c /\ sbuf w c' = sbuf w c.
Proof.
  intros Hv Hpre Hl Hs Hf Hfr Hp. unfold parse_step.
  rewrite (part_of_frame p (sbuf w c) (mk_Buffer pend q) w x (length pend) t);
    [|by rewrite Hs| |unfold zlen in Hl; lia|done|by rewrite Hs; unfold FindTimestampBySeq; cbn; rewrite Hf].
  2:{ destruct Hpre as [r E]. cbn [buf]. by rewrite E, take_app_length. }
  change (go_then (Ret ?a) ?k) with (k a). cbv beta iota. cbn [parse_state just].
  destruct (checkProgress_fresh (c <| parser := Some p |>) pend q cap ts k t)
    as (c' & -> & Hsr & Hsb & Hqu); [by destruct w|done|done|].
  exists c'. split; [done|]. split; [|by destruct w].
  eapply same_rest_trans; [|done]. unfold same_rest. rewrite Hp. by destruct w.
Qed.

(** What a connection has after parsing [pend] of the stream of the packets [todo]:
    the packets [done] in the queue, the part [pend'] of the next in the buffer. *)
Definition parsed (time : Z -> Z) cap (ts : T) (todo : list X) (pend fut : list Z) (q : Z) c c' : Prop :=
  exists done todo' pend' ts',
    todo = done ++ todo' /\ pend = wire done ++ pend' /\ wire todo' = pend' ++ fut /\
    match todo' with [] => pend' = [] | x :: _ => zlen pend' < zlen (bytes_of x) end /\
    same_rest c c' /\
    sbuf w c' = mk_StreamBuffer (run_at pend' (q + zlen (wire done))) cap ts' /\
    (forall k v, tm_Get ts' k = Some v -> tm_Get ts k = Some v) /\ (pend' <> [] -> ts' = ts) /\
    queue w c' = foldl enqueue (queue w c) (stream_messages time w q done).

(** A packet is contained in what has arrived, or the other way round. *)
Lemma split_packet (a pend b fut : list Z) :
  a ++ b = pend ++ fut -> (exists rest, pend = a ++ rest) \/ (pend `prefix_of` a /\ zlen pend < zlen a).
Proof.
  intros E. destruct (Nat.le_gt_cases (length a) (length pend)).
  - left. exists (drop (length a) pend).
    rewrite <- (take_drop (length a) pend) at 1. f_equal.
    apply (f_equal (take (length a))) in E. rewrite take_app_length, take_app_le in E by lia. done.
  - right. split; [|unfold zlen; lia]. exists (drop (length pend) a).
    rewrite <- (take_drop (length pend) a) at 1. f_equal.
    apply (f_equal (take (length pend))) in E. rewrite take_app_length, take_app_le in E by lia. done.
Qed.

Lemma parsed_none time cap ts todo pend fut q c c' x :
  wire todo = pend ++ fut -> head todo = Some x -> zlen pend < zlen (bytes_of x) -> pend <> [] ->
  same_rest c c' -> sbuf w c' = mk_StreamBuffer [mk_Buffer pend q] cap ts -> queue w c' = queue w c ->
  parsed time cap ts todo pend fut q c c'.
Proof.
  intros Hw Hx Hl Hne Hsr Hs Hqu. exists [], todo, pend, ts. destruct todo as [|x' todo]; [done|].
  injection Hx as ->. split_and!; try done.
  rewrite Hs. destruct pend; [done|]. cbn [wire run_at]. do 2 f_equal. f_equal. unfold zlen. cbn. lia.
Qed.

(** The first packet is whole. *)
Lemma parsed_cons time cap ts todo x rest fut q c c1 c' :
  same_rest c c1 ->
  queue w c1 = enqueue (queue w c) (message_at w (time q) q x) ->
  parsed time cap ts todo rest fut (q + (zlen (bytes_of x))) c1 c' ->
  parsed time cap ts (x :: todo) (bytes_of x ++ rest) fut q c c'.
Proof.
  intros Hsr Hqu (done & todo' & pend' & ts' & -> & -> & Hw & Hh & Hsr' & Hs & Hsub & Hts & Hq).
  exists (x :: done), todo', pend', ts'. rewrite wire_cons.
  split_and!; try done.
  - by rewrite <- app_assoc.
  - by eapply same_rest_trans.
  - rewrite Hs. do 2 f_equal. rewrite zlen_app. lia.
  - by rewrite Hq, Hqu.
Qed.

Lemma parsed_all time cap ts ts' todo fut q c c' :
  wire todo = fut -> same_rest c c' -> sbuf w c' = mk_StreamBuffer [] cap ts' -> queue w c' = queue w c ->
  (forall k v, tm_Get ts' k = Some v -> tm_Get ts k = Some v) ->
  parsed time cap ts todo [] fut q c c'.
Proof.
  intros Hw Hsr Hs Hqu Hsub. exists [], todo, [], ts'. split_and!; try done.
  destruct todo as [|x todo]; [done|]. pose proof (nonempty_zlen _ (frame_nonempty x)). unfold zlen at 1. cbn. lia.
Qed.

Lemma parse_packets time ke p cap ts todo :
  forall fuel c q pend fut,
  Role c <> kRoleUnknown -> parser c = Some p ->
  sbuf w c = mk_StreamBuffer [mk_Buffer pend q] cap ts -> pend <> [] ->
  wire todo = pend ++ fut -> Forall (sendable w) todo ->
  0 <= q -> q + zlen pend < 9223372036854775808 ->
  (forall x, q <= x < q + zlen pend -> exists k, tm_Floor ts x = Some (k, time x)) ->
  (forall x n, q <= x < q + zlen pend -> s64 (now n - mills (time x)) <= MaxAllowStuckTimeMills) ->
  (length pend <= fuel)%nat ->
  exists c', parse_loop now mills MaxAllowStuckTimeMills side fuel w (mt_of w) ke c = Ret (Some c') /\
    parsed time cap ts todo pend fut q c c'.
Proof.
  induction todo as [|x todo IH]; intros fuel c q pend fut Hr Hp Hs Hne Hw Hv Hq Hz Htm Hfr Hfu.
  { symmetry in Hw. apply app_eq_nil in Hw as [-> _]. done. }
  pose proof (nonempty_zlen _ Hne) as Hpos. apply Forall_cons in Hv as [Hv1 Hv].
  destruct fuel as [|fuel]; [unfold zlen in Hpos; lia|].
  cbn [parse_loop]. rewrite Hp.
  assert (IsEmpty (sbuf w c) = false) as -> by (by rewrite Hs).
  destruct (Htm q ltac:(lia)) as [k Hk]. rewrite wire_cons in Hw. cbn [fst snd] in Hw.
  destruct (split_packet _ _ _ _ Hw) as [ [rest ->] | [Hpre Hl] ].
  2:{ destruct (parse_step_partial c p ke x pend q cap ts k (time q)) as (c' & -> & Hsr & Hqu & Hsb);
        [done..|by intros n; apply Hfr; lia|done|].
      change (go_then (Ret ?a) ?k) with (k a). cbv beta iota. exists c'. split; [done|].
      apply (parsed_none _ _ _ _ _ _ _ _ _ x); try done. by rewrite Hsb. }
  destruct (parse_step_whole c p ke x rest q cap ts k (time q)) as (c1 & ts1 & -> & Hsr & Hqu & Hsb & Hsub & Hts);
    [done..|].
  change (go_then (Ret ?a) ?k) with (k a). cbv beta iota.
  rewrite <- app_assoc in Hw. apply app_inv_head in Hw. rewrite zlen_app in *.
  pose proof (nonempty_zlen _ (frame_nonempty x)) as Hlp.
  destruct (decide (rest = [])) as [->|Hrest].
  - exists c1. split.
    + replace (parse_loop _ _ _ _ _ _ _ _ c1) with (Ret (A := option (Connection4 (T := T) (P := S) (M := M))) (Some c1));
        [done|]. destruct fuel; cbn [parse_loop]; by rewrite Hsb.
    + eapply parsed_cons; [done|by rewrite Hqu|]. by eapply parsed_all.
  - rewrite (Hts Hrest) in *. pose proof Hsr as (Er & Ep & _).
    destruct (IH fuel c1 (q + (zlen (bytes_of x))) rest fut) as (c' & E & Hpar); try done.
    + by rewrite Er.
    + by rewrite Ep.
    + rewrite Hsb. by destruct rest.
    + lia.
    + lia.
    + intros z Hz'. apply Htm. lia.
    + intros z n Hz'. apply Hfr. lia.
    + rewrite length_app in Hfu. unfold zlen in Hlp. lia.
    + exists c'. split; [done|]. by eapply parsed_cons.
Qed.

End Parsing.

(** ** One event *)

Lemma tiles_prefix base cs cs' : tiles_from base (cs ++ cs') -> tiles_from base cs.
Proof.
  revert base. induction cs as [|n cs IH]; intros base; [done|]. cbn. intros (? & ? & ?). eauto.
Qed.

Lemma tiles_last base cs n : tiles_from base (cs ++ [n]) -> seq n = base + zlen (stream_of cs) /\ buf n <> [].
Proof.
  revert base. induction cs as [|m cs IH]; intros base; cbn [app tiles_from].
  - intros (? & ? & _). change (zlen (stream_of [])) with 0. split; [lia|done].
  - intros (Hs & _ & Ht). destruct (IH _ Ht) as [E ?]. split; [|done].
    change (stream_of (m :: cs)) with (buf m ++ stream_of cs). rewrite zlen_app. unfold stop in E. lia.
Qed.

Section Event.
Context {T S M X : Type} `{TreeMapLaws T} `{ParsedMessage M} `{!ProtocolStreamParser T S M}
  `{!Framing M X} `{!FramingLaws T S M X}.
Variable now : nat -> Z.
Variable mills : Z -> Z.
Variable MaxAllowStuckTimeMills : Z.
Variable side : SideEnum.
Variable w : bool.
Variable cap : Z.
Implicit Types c : Connection4 (T := T) (P := S) (M := M).

Lemma parsed_update time ts todo pend fut q c c' :
  parsed w time cap ts todo pend fut q c c' ->
  parsed w time cap ts todo pend fut q c (updateProgressTime now w c').
Proof.
  intros (done & todo' & pend' & ts' & E1 & E2 & E3 & E4 & E5 & E8 & E9).
  exists done, todo', pend', ts'. split; [done|]. split; [done|]. split; [done|]. split; [done|].
  split; [|destruct w; by split]. destruct w; apply E5.
Qed.

Lemma parseStreamBuffer_packets time ke p ts todo c q pend fut :
  Role c <> kRoleUnknown -> parser c = Some p ->
  sbuf w c = mk_StreamBuffer [mk_Buffer pend q] cap ts -> pend <> [] ->
  wire todo = pend ++ fut -> Forall (sendable w) todo ->
  0 <= q -> q + zlen pend < 9223372036854775808 ->
  (forall x, q <= x < q + zlen pend -> exists k, tm_Floor ts x = Some (k, time x)) ->
  (forall x n, q <= x < q + zlen pend -> s64 (now n - mills (time x)) <= MaxAllowStuckTimeMills) ->
  exists c', parseStreamBuffer now mills MaxAllowStuckTimeMills side w (mt_of w) ke c = Ret (Some c') /\
    parsed w time cap ts todo pend fut q c c'.
Proof.
  intros Hr Hp Hs Hne Hw Hv Hq Hz Htm Hfr. unfold parseStreamBuffer. rewrite Hp.
  assert (IsEmpty (sbuf w c) = false) as -> by (by rewrite Hs).
  assert (forall pos, pos = 0 \/ pos = -1 -> (if pos =? -1 then 0 else pos) = 0) as Ez by (by intros pos [-> | ->]).
  destruct todo as [|x todo]; [symmetry in Hw; by apply app_eq_nil in Hw as [-> _]|].
  destruct (first_boundary p (sbuf w c) (mk_Buffer pend q) w x (wire todo) fut) as (pos & -> & Hpos);
    [by rewrite Hs|done|done|by apply Forall_cons in Hv as [? _]|].
  rewrite go_bind_ret, (Ez pos Hpos). change (0 >? 0) with false. cbv iota zeta. rewrite go_bind_ret.
  destruct (parse_packets now mills MaxAllowStuckTimeMills side w time ke p cap ts (x :: todo)
    (total (buffers (sbuf w c))) c q pend fut) as (c' & -> & Hpar); try done.
  { rewrite Hs. cbn. lia. }
  rewrite go_bind_ret. eexists. split; [done|]. destruct (_ || _); [|done]. by apply parsed_update.
Qed.

(** The data of the next chunk behind what is in the buffer. *)
Lemma Add_next sb base P n t q pend ts :
  sb = mk_StreamBuffer (run_at pend q) cap ts ->
  known P ts q -> tiles_from base (P ++ [(n, t)]).*1 -> seq n = end_of base P -> q + zlen pend = end_of base P ->
  buf n <> [] -> 0 <= q -> end_of base P + zlen (buf n) < 9223372036854775808 ->
  zlen pend + zlen (buf n) <= cap < 9223372036854775808 -> zlen (P ++ [(n, t)]) <= maxTimestampEntries ->
  Add sb (seq n) (buf n) t =
    Ret (true, mk_StreamBuffer [mk_Buffer (pend ++ buf n) q] cap (tm_Put ts (seq n) t)).
Proof.
  intros -> Hk Ht Hn He Hne Hq Hz Hc Hl. pose proof (nonempty_zlen _ Hne).
  assert (tiles_from base P.*1) as Ht0 by (rewrite fmap_app in Ht; by eapply tiles_prefix).
  destruct (known_put base P ts q n t Ht0 Hk Hn) as [Hg Hk'].
  destruct (decide (pend = [])) as [->|Hpe].
  { assert (q = seq n) as -> by (change (zlen []) with 0 in He; lia).
    rewrite (Add_first _ n t) by done. by destruct n. }
  pose proof (nonempty_zlen _ Hpe).
  assert (run_ok (mk_Buffer pend q)) as Hro by (unfold run_ok, stop; cbn [buf seq]; lia).
  assert (run_ok n) as Hrn by (unfold run_ok, stop; lia).
  assert (run_at pend q = [mk_Buffer pend q]) as -> by (by destruct pend).
  assert (RightBoundary (mk_Buffer pend q) = seq n) as Hrb
    by (rewrite RightBoundary_stop by done; unfold stop; cbn [buf seq]; lia).
  rewrite Add_normal; [|split; [by constructor|constructor; constructor]|done|done| |done].
  2:{ unfold near, PositionN, Position0. cbn [buffers position0 positionN last]. rewrite Hrb. cbn [seq]. lia. }
  cbn [buffers].
  pose proof (add_left n Hrn [] [] ltac:(constructor) ltac:(constructor) (mk_Buffer pend q) Hro) as E.
  cbn [app] in E. rewrite E; [|unfold joins_left, stop; cbn [buf seq]; lia|constructor].
  rewrite go_bind_ret. unfold fused_left, stop. cbn [buf seq].
  replace (q + zlen pend - seq n) with 0 by lia. change (Z.to_nat 0) with 0%nat. rewrite drop_0.
  rewrite settled_inside; cbn [capacity timestamps]; [| |lia].
  2:{ cbn [positionN last position0 seq]. unfold RightBoundary. cbn [buf seq]. rewrite zlen_app.
      rewrite u64_small, u64_small by (rewrite ?u64_small by lia; lia). lia. }
  by rewrite (clean_few base (P ++ [(n, t)]) _ q).
Qed.

(** The connection between two events: [P] has arrived, of which the packets before
    position [q] are parsed and the bytes [pend] are left. *)
Record at_rest (base : Z) (P : list (Buffer * Z)) (todo : list X) (pend : list Z) (q : Z) c : Prop := {
  ar_role : Role c <> kRoleUnknown;
  ar_parser : is_Some (parser c);
  ar_other : buffers (sbuf (negb w) c) = [];
  ar_buffer : exists ts, sbuf w c = mk_StreamBuffer (run_at pend q) cap ts /\ known P ts q;
  ar_end : q + zlen pend = end_of base P;
  ar_start : 0 <= base <= q;
  ar_short : match todo with [] => pend = [] | x :: _ => zlen pend < zlen (bytes_of x) end;
}.

Definition fresh (nt : Buffer * Z) : Prop := forall k, s64 (now k - mills nt.2) <= MaxAllowStuckTimeMills.

(** The data of the event in the buffer, and both buffers parsed. *)
Lemma try_parse_chunk c n ke sb' :
  Role c <> kRoleUnknown -> is_Some (parser c) -> isReq c ke = (w, true) -> ke_seq ke = seq n ->
  ke_prepend_length_header ke = false -> buffers (sbuf (negb w) c) = [] ->
  Add (sbuf w c) (seq n) (buf n) (getEventTimestamp ke c w) = Ret (true, sb') ->
  forall c', parseStreamBuffer now mills MaxAllowStuckTimeMills side w (mt_of w) ke (set_sbuf w sb' c) = Ret (Some c') ->
  buffers (sbuf (negb w) c') = [] ->
  addDataToBufferAndTryParse now mills MaxAllowStuckTimeMills side (buf n) ke c = Ret (Some (true, c')).
Proof.
  intros Hr Hp Hd Hseq Hh Ho Ha c' Hc' Ho'. unfold addDataToBufferAndTryParse, add_data.
  rewrite Hd. unfold extractHeaderEvent. rewrite Hh. cbn [negb]. rewrite go_bind_ret, Hseq, Ha.
  change (go_then (Ret ?a) ?k) with (k a). cbv beta iota.
  change (go_then (Ret ?a) ?k) with (k a). cbv beta iota. cbn [negb].
  assert (Role (set_sbuf w sb' c) <> kRoleUnknown) as Hr' by (by destruct w).
  rewrite bool_decide_false by done.
  assert (forall c1 mt, buffers (sbuf (negb w) c1) = [] ->
    parseStreamBuffer now mills MaxAllowStuckTimeMills side (negb w) mt ke c1 = Ret (Some c1)) as Hskip.
  { intros c1 mt E. unfold parseStreamBuffer. destruct (parser c1); [|done].
    assert (IsEmpty (sbuf (negb w) c1) = true) as -> by (unfold IsEmpty; by rewrite E). done. }
  clear Ha. destruct w; cbn [mt_of negb] in *.
  - rewrite Hc', go_bind_ret, Hskip by done. done.
  - rewrite Hskip by done. by rewrite go_bind_ret, Hc'.
Qed.

Lemma known_mono P (ts ts' : T) q q' base (pend : list Z) :
  tiles_from base P.*1 -> known P ts q -> q <= q' -> q' + zlen pend = end_of base P ->
  (forall k v, tm_Get ts' k = Some v -> tm_Get ts k = Some v) -> (pend <> [] -> ts' = ts) -> known P ts' q'.
Proof.
  intros Ht [Hk1 Hk2] Hq He Hsub Hts. split; [eauto|]. intros n t Hin Hn.
  destruct (decide (pend = [])) as [->|Hpe].
  - destruct (tiles_members base P n t Ht Hin). change (zlen []) with 0 in He. lia.
  - rewrite (Hts Hpe). apply Hk2; [done|lia].
Qed.

Lemma event_step base P n ke c todo pend q fut :
  let nt := (n, getEventTimestamp ke c w) in
  at_rest base P todo pend q c -> tiles_from base (P ++ [nt]).*1 ->
  isReq c ke = (w, true) -> ke_seq ke = seq n -> ke_prepend_length_header ke = false ->
  wire todo = pend ++ buf n ++ fut -> Forall (sendable w) todo ->
  Forall fresh (P ++ [nt]) ->
  end_of base (P ++ [nt]) < 9223372036854775808 ->
  zlen pend + zlen (buf n) <= cap < 9223372036854775808 -> zlen (P ++ [nt]) <= maxTimestampEntries ->
  exists c' done todo' pend',
    addDataToBufferAndTryParse now mills MaxAllowStuckTimeMills side (buf n) ke c = Ret (Some (true, c')) /\
    at_rest base (P ++ [nt]) todo' pend' (q + zlen (wire done)) c' /\ same_rest w c c' /\
    todo = done ++ todo' /\ wire todo' = pend' ++ fut /\ pend ++ buf n = wire done ++ pend' /\
    queue w c' = foldl enqueue (queue w c) (stream_messages (arrival (P ++ [nt])) w q done).
Proof.
  intros nt [Hr [p Hp] Ho (ts & Hs & Hk) He Hst _] Ht Hd Hseq Hh Hw Hv Hf Hz Hc Hl.
  assert (tiles_from base P.*1) as Ht0 by (rewrite fmap_app in Ht; by eapply tiles_prefix).
  pose proof Ht as Hn. rewrite fmap_app in Hn. apply tiles_last in Hn as [Hn Hne]. cbn [fst nt] in Hn, Hne.
  change (base + zlen (stream_of P.*1)) with (end_of base P) in Hn.
  assert (end_of base (P ++ [nt]) = end_of base P + zlen (buf n)) as Hes by apply end_of_snoc.
  pose proof (nonempty_zlen _ Hne). pose proof (zlen_nonneg pend).
  destruct (known_put base P ts q n (getEventTimestamp ke c w) Ht0 Hk Hn) as [_ Hk'].
  pose proof (Add_next _ base P n (getEventTimestamp ke c w) q pend ts Hs Hk Ht Hn He Hne ltac:(lia) ltac:(lia) Hc Hl) as Ha.
  destruct (parseStreamBuffer_packets (arrival (P ++ [nt])) ke p (tm_Put ts (seq n) (getEventTimestamp ke c w)) todo
    (set_sbuf w (mk_StreamBuffer [mk_Buffer (pend ++ buf n) q] cap (tm_Put ts (seq n) (getEventTimestamp ke c w))) c)
    q (pend ++ buf n) fut) as (c' & Hc' & Hpar).
  1,2: by destruct w.
  1: by rewrite sbuf_set.
  1: by intros [_ ?]%app_eq_nil.
  1: by rewrite <- app_assoc.
  1: done.
  1,2: rewrite ?zlen_app; lia.
  { intros x Hx. rewrite zlen_app in Hx. apply (known_floor base _ _ q); [done|done|lia|lia]. }
  { intros x k Hx. rewrite zlen_app in Hx. destruct (chunk_at base (P ++ [nt]) x Ht) as (n' & Hin & _); [lia|].
    rewrite Forall_forall in Hf. apply (Hf _ Hin k). }
  destruct Hpar as (done & todo' & pend' & ts' & E1 & E2 & E3 & E4 & R & E5 & E6 & E7 & E8).
  assert (same_rest w c c') as Hsr by (eapply same_rest_trans; [|exact R]; apply set_sbuf_rest). clear R.
  pose proof Hsr as (R1 & R2 & R3 & _). exists c', done, todo', pend'.
  assert (buffers (sbuf (negb w) c') = []) as Ho' by (rewrite R3, <- Ho; by destruct w).
  assert (Role c' = Role c) as Hr' by (rewrite R1; by destruct w).
  split; [by eapply try_parse_chunk|]. split; [|split; [done|split; [done|split; [done|split; [done|] ] ] ] ].
  2:{ rewrite E8. by destruct w. }
  apply (f_equal zlen) in E2. rewrite !zlen_app in E2. pose proof (zlen_nonneg (wire done)).
  split; [by rewrite Hr'|rewrite R2; by destruct w|done| |lia|lia|done].
  exists ts'. split; [done|]. eapply (known_mono _ _ ts' q _ base pend'); [done|exact Hk'|lia|lia|done|done].
Qed.

End Event.

(** ** A whole stream *)

Section Messages.
Context {T S M X : Type} `{TreeMap T} `{ParsedMessage M} `{!ProtocolStreamParser T S M}
  `{!Framing M X} `{!FramingLaws T S M X}.

Lemma stream_messages_app time w q (ps ps' : list X) :
  stream_messages (M := M) time w q (ps ++ ps') =
  stream_messages time w q ps ++ stream_messages time w (q + zlen (wire (M := M) ps)) ps'.
Proof.
  revert q. induction ps as [|x ps IH]; intros q; cbn [app stream_messages].
  - change (zlen (wire [])) with 0. by rewrite Z.add_0_r.
  - by rewrite IH, wire_cons, zlen_app, Z.add_assoc.
Qed.

Lemma stream_messages_ext f g w q (ps : list X) :
  (forall z, q <= z < q + zlen (wire (M := M) ps) -> f z = g z) ->
  stream_messages (M := M) f w q ps = stream_messages g w q ps.
Proof.
  revert q. induction ps as [|x ps IH]; intros q Hfg; [done|]. cbn [stream_messages].
  rewrite wire_cons, zlen_app in Hfg.
  pose proof (nonempty_zlen _ (frame_nonempty (M := M) x)). pose proof (zlen_nonneg (wire (M := M) ps)).
  rewrite Hfg by lia. f_equal. apply IH. intros z Hz. apply Hfg. lia.
Qed.

(** The messages of a queue that is not multiplexed. *)
Lemma foldl_enqueue (q : queues M) ms :
  Forall (fun m => StreamId m = 0) ms ->
  default [] (foldl enqueue q ms !! 0) = default [] (q !! 0) ++ ms.
Proof.
  intros Hms. revert q. induction Hms as [|m ms Hm _ IH]; intros q; cbn [foldl]; [by rewrite app_nil_r|].
  rewrite IH. unfold enqueue. rewrite Hm. unfold queues in *.
  rewrite lookup_insert_eq. cbn [default from_option id]. by rewrite <- app_assoc.
Qed.

Lemma stream_messages_all (Q : M -> Prop) time w q (ps : list X) :
  (forall t z x, Q (message_at w t z x)) -> Forall Q (stream_messages time w q ps).
Proof.
  intros HQ. revert q. induction ps as [|x ps IH]; intros q; constructor; [apply HQ|apply IH].
Qed.

End Messages.

Section Stream.
Context {T S M X : Type} `{TreeMapLaws T} `{ParsedMessage M} `{!ProtocolStreamParser T S M}
  `{!Framing M X} `{!FramingLaws T S M X}.
Variable now : nat -> Z.
Variable mills : Z -> Z.
Variable MaxAllowStuckTimeMills : Z.
Variable side : SideEnum.
Variable w : bool.
Implicit Types c : Connection4 (T := T) (P := S) (M := M).
Implicit Types es : list (Buffer * kern_evt).

(** Chunks with the times the connection gives to their events. *)
Definition chunks c es : list (Buffer * Z) := (fun e => (e.1, getEventTimestamp e.2 c w)) <$> es.

(** An event for a chunk of this direction. *)
Definition chunk_event c (e : Buffer * kern_evt) : Prop :=
  isReq c e.2 = (w, true) /\ ke_seq e.2 = seq e.1 /\ ke_prepend_length_header e.2 = false.

Definition event_data es : list (list Z * kern_evt) := (fun e => (buf e.1, e.2)) <$> es.

Lemma chunks_role c c' es : Role c' = Role c -> chunks c' es = chunks c es.
Proof.
  intros E. unfold chunks. apply list_fmap_ext. intros i [n ke] _. cbn. unfold getEventTimestamp, Side.
  by rewrite E.
Qed.

Lemma chunk_event_role c c' es : Role c' = Role c -> Forall (chunk_event c) es -> Forall (chunk_event c') es.
Proof.
  intros E Hf. eapply Forall_impl; [done|]. intros e. unfold chunk_event, isReq, IsServerSide. by rewrite E.
Qed.

Section Bounds.
Variables A B cap base : Z.
Hypothesis HAB : 0 <= A /\ A + B <= cap < 9223372036854775808.

Lemma feed_chunks es : forall P c todo pend q,
  at_rest w cap base P todo pend q c ->
  tiles_from base (P ++ chunks c es).*1 -> Forall (chunk_event c) es ->
  wire todo = pend ++ stream_of es.*1 -> Forall (sendable w) todo ->
  Forall (fresh now mills MaxAllowStuckTimeMills) (P ++ chunks c es) ->
  end_of base (P ++ chunks c es) < 9223372036854775808 ->
  Forall (fun x => zlen (bytes_of x) <= A) todo -> Forall (fun e => zlen (buf e.1) <= B) es ->
  zlen (P ++ chunks c es) <= maxTimestampEntries ->
  exists c', feed now mills MaxAllowStuckTimeMills side (event_data es) c = Ret (Some c') /\
    buffers (sbuf w c') = [] /\
    queue w c' = foldl enqueue (queue w c) (stream_messages (arrival (P ++ chunks c es)) w q todo).
Proof.
  induction es as [|[n ke] es IH]; intros P c todo pend q Hc Ht He Hw Hv Hf Hz HA HB Hl.
  - exists c. split; [done|]. change (stream_of _) with (@nil Z) in Hw. rewrite app_nil_r in Hw.
    destruct Hc as [_ _ _ (ts & Hs & _) _ _ Hsh]. destruct todo as [|x todo].
    + rewrite Hs, Hsh. done.
    + rewrite wire_cons in Hw. rewrite <- Hw, zlen_app in Hsh. pose proof (zlen_nonneg (wire todo)). lia.
  - apply Forall_cons in He as [ (Hd & Hq & Hp) He], HB as [HB1 HB]. cbn [fst snd] in *.
    change (chunks c ((n, ke) :: es)) with ([(n, getEventTimestamp ke c w)] ++ chunks c es) in *.
    change (stream_of ((n, ke) :: es).*1) with (buf n ++ stream_of es.*1) in Hw.
    rewrite (app_assoc P) in *. set (nt := (n, getEventTimestamp ke c w)) in *.
    assert (zlen pend <= A).
    { destruct Hc as [_ _ _ _ _ _ Hsh]. destruct todo as [|x todo]; [rewrite Hsh; change (zlen []) with 0; lia|].
      apply Forall_cons in HA as [HA _]. lia. }
    pose proof Hf as Hf1. apply Forall_app in Hf1 as [Hf1 _].
    pose proof Ht as Ht1. rewrite fmap_app in Ht1. apply tiles_prefix in Ht1.
    assert (end_of base (P ++ [nt]) <= end_of base ((P ++ [nt]) ++ chunks c es)) as Hend.
    { unfold end_of, stream_of. rewrite (fmap_app fst (P ++ [nt])), (fmap_app buf), concat_app, zlen_app.
      pose proof (zlen_nonneg (concat (buf <$> (chunks c es).*1))). lia. }
    pose proof Hl as Hl1. rewrite zlen_app in Hl1. pose proof (zlen_nonneg (chunks c es)).
    destruct (event_step now mills MaxAllowStuckTimeMills side w cap base P n ke c todo pend q (stream_of es.*1)
      Hc Ht1 Hd Hq Hp Hw Hv Hf1 ltac:(fold nt; lia) ltac:(lia) ltac:(fold nt; lia))
      as (c1 & done & todo' & pend' & E & Hc1 & (Hr & _) & -> & Hw' & Hpd & Hqu).
    apply Forall_app in Hv as [_ Hv], HA as [_ HA].
    destruct (IH (P ++ [nt]) c1 todo' pend' (q + zlen (wire done))) as (c' & E' & Hb & Hq'); try done.
    1-5: rewrite ?(chunks_role c c1) by done; try done. 1: by eapply chunk_event_role.
    exists c'. split; [|split; [done|] ].
    + cbn [event_data feed fmap list_fmap fst snd]. rewrite E, go_bind_ret. apply E'.
    + rewrite Hq', Hqu, (chunks_role c c1) by done. rewrite <- foldl_app, stream_messages_app. f_equal. f_equal.
      apply stream_messages_ext. intros x Hx. symmetry.
      destruct Hc as [_ _ _ _ Hce Hcs _], Hc1 as [_ _ _ _ Hce1 _ _]. pose proof (zlen_nonneg pend').
      apply (arrival_app base); [done|lia].
Qed.

End Bounds.

Lemma chunks_fst c es : (chunks c es).*1 = es.*1.
Proof. unfold chunks. rewrite <- list_fmap_compose. by apply list_fmap_ext. Qed.

(** After the last event the queues of the connection have received the messages of the
    frames, each once and in order, and no byte is left in the buffer. *)
Lemma stream_arrives (A B cap base : Z) c es (frames : list X) :
  Role c <> kRoleUnknown -> is_Some (parser c) ->
  sbuf w c = New cap -> buffers (sbuf (negb w) c) = [] ->
  tiles_from base es.*1 -> Forall (chunk_event c) es ->
  stream_of es.*1 = wire frames -> Forall (sendable w) frames ->
  Forall (fresh now mills MaxAllowStuckTimeMills) (chunks c es) ->
  0 <= base /\ base + zlen (wire frames) < 9223372036854775808 ->
  Forall (fun x => zlen (bytes_of x) <= A) frames ->
  Forall (fun e => zlen (buf e.1) <= B) es ->
  0 <= A /\ A + B <= cap < 9223372036854775808 ->
  zlen es <= maxTimestampEntries ->
  exists c', feed now mills MaxAllowStuckTimeMills side (event_data es) c = Ret (Some c') /\
    buffers (sbuf w c') = [] /\
    queue w c' = foldl enqueue (queue w c) (stream_messages (arrival (chunks c es)) w base frames).
Proof.
  intros Hrole Hparser Hbuffer Hother Htiles Hevents Hstream Hframes Hfresh Hrange HA HB Hcap Hcount.
  destruct (feed_chunks A B cap base Hcap es [] c frames [] base) as (c' & E & Hb & Hq); cbn [app].
  - split; [done|done|done| |done|lia|].
    + exists tm_new. split; [done|]. split; [|by intros n t []%not_elem_of_nil].
      intros k v. by rewrite tm_get_new.
    + destruct frames as [|x frames]; [done|]. pose proof (nonempty_zlen _ (frame_nonempty x)).
      change (zlen []) with 0. lia.
  - by rewrite chunks_fst.
  - done.
  - done.
  - done.
  - done.
  - unfold end_of. rewrite chunks_fst, Hstream. lia.
  - done.
  - done.
  - unfold chunks, zlen in *. by rewrite length_fmap.
  - by exists c'.
Qed.

End Stream.
