(* ===== verification/Pipeline.v ===== *)
(** * From the probes to the agent's buffers

    What the probes promise about the events of system calls ([tiles],
    [DataCommon.v], shown for every sequence of calls in [Conn.v]) is what the agent
    needs to put the stream together ([tiles_from], [Reassembly.v]): an event that
    stands for [ke_len] bytes fills exactly these positions of the stream buffer, with
    the bytes the probe captured first and a stand-in for the rest. *)

From stdpp Require Import gmap list sorting strings.
From Stdlib Require Import ZArith Lia.
From S2P Require Import Prelude.
From S2P Require Import Types.
From S2P Require Import Machine.
From S2P Require Import DataCommon.
From S2P Require Import GoBase.
From S2P Require Import StreamBuffer.
From S2P Require Import Reassembly.
From S2P Require Import Protocol.
From S2P Require Import AgentConn.
Local Open Scope Z_scope.

(** The bytes [OnSyscallEvent] adds for a record of the ring, at the position it adds
    them, for a connection without SSL. *)
Definition chunk_of (r : perf_record) : option Buffer :=
  match r with
  | syscall_rb ke n payload =>
    data ← syscall_data payload (mk_SyscallEvent ke n) false;
    Some (mk_Buffer data (ke_seq ke))
  | _ => None
  end.

(** Records for which the agent has bytes to add: captured ones, those of sendfile,
    and those of the calls it takes for calls with many messages, if there is room for
    the mark. *)
Definition fillable (r : perf_record) : Prop :=
  match r with
  | syscall_rb ke n payload =>
    payload <> [] \/
    GetSourceFunction (mk_SyscallEvent ke n) = source_function_val kSyscallSendfile \/
    (isSyscallFunctionMultiMessage (GetSourceFunction (mk_SyscallEvent ke n)) = true /\ 17 <= ke_len ke)
  | _ => True
  end.

Lemma fake_or_zeros_len n : 0 <= n < 4294967296 -> zlen (default (zeros n) (MakeNewFakeData n)) = n.
Proof.
  intros Hn. destruct (MakeNewFakeData n) as [d|] eqn:E; cbn [default from_option id].
  - by apply (MakeNewFakeData_len n d).
  - unfold zlen, zeros. rewrite length_replicate. lia.
Qed.

(** The data for an event, or why there is none. *)
Lemma syscall_data_cases ke n payload :
  captured ke n payload -> 0 < ke_len ke < 4294967296 ->
  match syscall_data payload (mk_SyscallEvent ke n) false with
  | Some d => zlen d = ke_len ke /\ payload `prefix_of` d /\ fillable (syscall_rb ke n payload)
  | None => ~ fillable (syscall_rb ke n payload)
  end.
Proof.
  intros [Hl Hn] Hk. change (Z.of_nat (length payload)) with (zlen payload) in Hl.
  unfold syscall_data, fillable. cbn [se_Ke]. destruct (decide (payload = [])) as [->|Hne].
  - change (zlen [] >? 0) with false. cbv iota.
    destruct (Z.eqb_spec (GetSourceFunction (mk_SyscallEvent ke n)) (source_function_val kSyscallSendfile)) as [E|E].
    { split; [apply fake_or_zeros_len; lia|]. split; [apply prefix_nil|]. right. by left. }
    rewrite andb_true_r. destruct (isSyscallFunctionMultiMessage _) eqn:Em; [|by intros [?|[?|[? _] ] ] ].
    destruct (MakeNewFakeData (ke_len ke)) as [d|] eqn:Ed.
    + split; [by apply (MakeNewFakeData_len _ d); [|lia]|]. split; [apply prefix_nil|]. right. right. split; [done|].
      destruct (Z.lt_ge_cases (ke_len ke) 17); [by rewrite MakeNewFakeData_small in Ed by lia|done].
    + intros [?|[?|[_ H17] ] ]; [done..|]. by rewrite MakeNewFakeData_eq in Ed by lia.
  - pose proof (nonempty_zlen _ Hne). rewrite Z.gtb_ltb, (proj2 (Z.ltb_lt 0 _)) by lia.
    unfold fillSyscallDataIfNeeded. cbn [se_Ke BufSize]. rewrite Z.gtb_ltb.
    destruct (Z.ltb_spec n (ke_len ke)).
    + split; [|split; [by apply prefix_app_r|by left] ]. rewrite zlen_app, u32_small, fake_or_zeros_len by lia. lia.
    + split; [lia|]. split; [done|by left].
Qed.

(** The bytes of a record are found at its position of a stream that starts at [base]. *)
Definition placed (base : Z) (stream : list Z) (r : perf_record) : Prop :=
  match r with
  | syscall_rb ke _ payload =>
    base <= ke_seq ke /\ take (length payload) (drop (Z.to_nat (ke_seq ke - base)) stream) = payload
  | _ => True
  end.

Lemma placed_after base d s r : placed (base + zlen d) s r -> placed base (d ++ s) r.
Proof.
  destruct r as [|ke n payload| | | | |]; try done. cbn. pose proof (zlen_nonneg d). intros [Hb E].
  split; [lia|]. rewrite drop_app_ge by (unfold zlen in *; lia).
  rewrite <- E at 2. do 2 f_equal. unfold zlen. lia.
Qed.

(** The chunks of records that tile a stream tile it too. *)
Lemma tiles_chunks cid st rs : forall seq total,
  tiles cid st seq total rs -> Forall fillable rs -> 0 <= seq -> seq + total < 4294967296 ->
  exists cs, chunk_of <$> rs = Some <$> cs /\ tiles_from seq cs /\ zlen (stream_of cs) = total /\
    Forall (placed seq (stream_of cs)) rs.
Proof.
  induction rs as [|[|ke n payload| | | | |] rs IH]; intros seq total Ht Hf Hs Hb; try done.
  { exists []. by split_and!. }
  destruct Ht as (Hke & [Hk Hc] & Ht). apply Forall_cons in Hf as [Hf1 Hf].
  destruct (IH _ _ Ht Hf) as (cs & E & Htc & Hz & Hpl); [lia|lia|].
  pose proof (syscall_data_cases ke n payload Hc ltac:(lia)) as Hd.
  destruct (syscall_data payload (mk_SyscallEvent ke n) false) as [d|] eqn:Ed; [|done].
  destruct Hd as (Hl & Hp & _). destruct Hke as (Hq & _). rewrite u32_small in Hq by lia.
  exists (mk_Buffer d (ke_seq ke) :: cs).
  change (stream_of (mk_Buffer d (ke_seq ke) :: cs)) with (d ++ stream_of cs). split_and!.
  - cbn [fmap list_fmap chunk_of]. rewrite Ed. cbn. f_equal. exact E.
  - rewrite Hq. unfold stop. cbn [tiles_from StreamBuffer.seq buf]. split; [done|]. split.
    + intros ->. unfold zlen in Hl. cbn in Hl. lia.
    + unfold stop. cbn [StreamBuffer.seq buf]. by rewrite Hl.
  - rewrite zlen_app, Hl, Hz. lia.
  - apply Forall_cons. split.
    + cbn [placed]. rewrite Hq. split; [lia|]. rewrite Z.sub_diag. change (Z.to_nat 0) with 0%nat. rewrite drop_0.
      destruct Hp as [k ->]. by rewrite <- app_assoc, take_app_length.
    + eapply Forall_impl; [done|]. intros r Hr. apply placed_after. by rewrite Hl.
Qed.

(** ** Theorems *)

(** What the agent adds for an event of a system call.  For an event that stands
    for [ke_len] bytes of which the probe captured the first, the data added has
    exactly [ke_len] bytes and starts with those captured.  Nothing is added, so that a
    hole stays in the stream, exactly when no byte was captured and the call is neither
    sendfile nor one of sendmmsg, recvmmsg, writev and readv with at least 17 bytes.  So
    the part of a sendmsg or recvmsg behind the vectors the probe reads is always a hole,
    and so is that of a writev, whose probe leaves the source function at 0. *)
Theorem syscall_data_fills (ke : kern_evt) (n : Z) (payload : list Z)
    (Hcaptured : captured ke n payload) (Hlen : 0 < ke_len ke < 4294967296) :
  match syscall_data payload (mk_SyscallEvent ke n) false with
  | Some d => zlen d = ke_len ke /\ payload `prefix_of` d /\ fillable (syscall_rb ke n payload)
  | None => ~ fillable (syscall_rb ke n payload)
  end /\
  (payload = [] ->
   GetSourceFunction (mk_SyscallEvent ke n) ∈
     (source_function_val <$> [kSourceFunctionUnknown; kSyscallSendMsg; kSyscallRecvMsg]) ->
   syscall_data payload (mk_SyscallEvent ke n) false = None).
Proof.
  split; [by apply syscall_data_cases|]. intros -> Hf. unfold syscall_data.
  change (zlen [] >? 0) with false. cbv iota.
  apply list_elem_of_fmap in Hf as (f & -> & Hf).
  repeat (apply elem_of_cons in Hf as [->|Hf]; [done|]). by apply not_elem_of_nil in Hf.
Qed.

(** The rest of a sendmsg behind its first three vectors. *)
Lemma syscall_data_fills_witness :
  syscall_data [] (mk_SyscallEvent (kern_evt_zero <| ke_len := 500 |>
    <| ke_func_name ::= <[0%nat := source_function_val kSyscallSendMsg]> |>) 0) false = None.
Proof.
  apply (syscall_data_fills (kern_evt_zero <| ke_len := 500 |>
    <| ke_func_name ::= <[0%nat := source_function_val kSyscallSendMsg]> |>) 0 []).
  - split; [reflexivity|vm_compute; discriminate].
  - vm_compute. split; reflexivity.
  - reflexivity.
  - right. by left.
Defined.


(** A write whose start is captured, and a sendfile. *)
Definition two_records : list perf_record :=
  [syscall_rb (kern_evt_zero <| ke_seq := 1 |> <| ke_len := 40 |> <| ke_step := SYSCALL_OUT |>) 3 [7; 8; 9];
   syscall_rb (kern_evt_zero <| ke_seq := 41 |> <| ke_len := 5 |> <| ke_step := SYSCALL_OUT |>
     <| ke_func_name ::= <[0%nat := source_function_val kSyscallSendfile]> |>) 0 [] ].

