(* ===== verification/Float64.v ===== *)
(** * Go's [float64], for integers

    The agent computes durations in [float64].  All its operands are integers or
    differences of integers, so that a value is an integer that 53 bits hold, up to a
    power of two; a conversion or a subtraction rounds to the nearest such number, and
    to the even one of two ([f64]).  Times in nanoseconds since 1970 need 61 bits, so
    the rounding is visible. *)

From Stdlib Require Import ZArith Lia.
From stdpp Require Import base numbers.
Local Open Scope Z_scope.

(** The multiple of [m] nearest to [z]. *)
Definition round_to (m z : Z) : Z :=
  let q := z / m in
  let r := z mod m in
  m * (if 2 * r <? m then q else if m <? 2 * r then q + 1 else if Z.even q then q else q + 1).

(** The distance of neighbouring numbers around [z]. *)
Definition ulp (z : Z) : Z := 2 ^ Z.max 0 (Z.log2 (Z.abs z) - 52).

(** [float64(z)] *)
Definition f64 (z : Z) : Z := round_to (ulp z) z.

(** The difference of two numbers. *)
Definition fsub (a b : Z) : Z := f64 (a - b).

Lemma round_to_mult m q : 0 < m -> round_to m (m * q) = m * q.
Proof.
  intros Hm. unfold round_to. rewrite (Z.mul_comm m q), Z.mod_mul, Z.div_mul by lia.
  destruct (Z.ltb_spec (2 * 0) m); lia.
Qed.

Lemma round_to_error m z : 0 < m -> 2 * Z.abs (round_to m z - z) <= m.
Proof.
  intros Hm. unfold round_to. pose proof (Z.div_mod z m ltac:(lia)) as E.
  pose proof (Z.mod_pos_bound z m Hm) as Hr. set (q := z / m) in *. set (r := z mod m) in *.
  destruct (Z.ltb_spec (2 * r) m); [lia|]. destruct (Z.ltb_spec m (2 * r)); [lia|].
  destruct (Z.even q); lia.
Qed.

Lemma round_to_mono m a b : 0 < m -> a <= b -> round_to m a <= round_to m b.
Proof.
  intros Hm Hab. unfold round_to.
  pose proof (Z.div_mod a m ltac:(lia)) as Ea. pose proof (Z.div_mod b m ltac:(lia)) as Eb.
  pose proof (Z.mod_pos_bound a m Hm) as Ha. pose proof (Z.mod_pos_bound b m Hm) as Hb.
  pose proof (Z.div_le_mono a b m Hm Hab) as Hq.
  set (qa := a / m) in *. set (qb := b / m) in *. set (ra := a mod m) in *. set (rb := b mod m) in *.
  apply Z.mul_le_mono_nonneg_l; [lia|]. destruct (Z.eq_dec qa qb) as [E|].
  - rewrite <- E in *. assert (ra <= rb) by lia.
    destruct (Z.ltb_spec (2 * ra) m), (Z.ltb_spec (2 * rb) m), (Z.ltb_spec m (2 * ra)), (Z.ltb_spec m (2 * rb)),
      (Z.even qa); lia.
  - destruct (2 * ra <? m), (m <? 2 * ra), (Z.even qa), (2 * rb <? m), (m <? 2 * rb), (Z.even qb); lia.
Qed.

Lemma ulp_pos z : 0 < ulp z.
Proof. apply Z.pow_pos_nonneg; lia. Qed.

Lemma ulp_bound k z : 0 <= k -> Z.abs z < 2 ^ (53 + k) -> ulp z <= 2 ^ k.
Proof.
  intros Hk Hz. apply Z.pow_le_mono_r; [lia|]. destruct (Z.eq_dec z 0) as [->|Hne]; [change (Z.log2 (Z.abs 0)) with 0; lia|].
  apply Z.log2_lt_pow2 in Hz; lia.
Qed.

(** Up to 53 bits nothing is lost; with [k] bits more, half of [2 ^ k]. *)
Lemma f64_exact z : Z.abs z < 2 ^ 53 -> f64 z = z.
Proof.
  intros Hz. pose proof (ulp_bound 0 z ltac:(lia) Hz). pose proof (ulp_pos z).
  unfold f64. assert (ulp z = 1) as -> by (cbn in *; lia). rewrite <- (Z.mul_1_l z) at 1. rewrite round_to_mult; lia.
Qed.

Lemma f64_error k z : 0 <= k -> Z.abs z < 2 ^ (53 + k) -> 2 * Z.abs (f64 z - z) <= 2 ^ k.
Proof.
  intros Hk Hz. pose proof (ulp_bound k z Hk Hz). pose proof (round_to_error (ulp z) z (ulp_pos z)).
  unfold f64. lia.
Qed.

Lemma f64_mono a b : 0 <= a <= b -> f64 a <= f64 b.
Proof.
  intros Hab. unfold f64. pose proof (Z.log2_le_mono a b ltac:(lia)) as Hl.
  destruct (Z.eq_dec (ulp a) (ulp b)) as [E|Hne].
  { rewrite E. apply round_to_mono; [apply ulp_pos|lia]. }
  assert (Hd : Z.log2 a < Z.log2 b /\ 52 < Z.log2 b).
  { unfold ulp in Hne. rewrite !Z.abs_eq in Hne by lia.
    destruct (Z.le_gt_cases (Z.log2 b) 52); [rewrite !Z.max_l in Hne by lia; lia|].
    destruct (Z.eq_dec (Z.log2 a) (Z.log2 b)) as [E|]; [by rewrite E in Hne|lia]. }
  assert (Hb : 2 ^ Z.log2 b <= b) by (apply Z.log2_spec; destruct (Z.eq_dec b 0) as [->|]; [cbn in *; lia|lia]).
  assert (Ha : a < 2 ^ Z.log2 b).
  { destruct (Z.eq_dec a 0) as [->|]; [apply Z.pow_pos_nonneg; lia|]. apply Z.log2_lt_pow2; lia. }
  assert (Hm : forall c, 0 <= c -> Z.log2 c <= Z.log2 b -> exists q, 2 ^ Z.log2 b = ulp c * q).
  { intros c Hc Hlc. unfold ulp. rewrite Z.abs_eq by lia.
    exists (2 ^ (Z.log2 b - Z.max 0 (Z.log2 c - 52))). rewrite <- Z.pow_add_r by lia. f_equal. lia. }
  destruct (Hm a ltac:(lia) Hl) as [qa Eqa]. destruct (Hm b ltac:(lia) ltac:(lia)) as [qb Eqb].
  transitivity (2 ^ Z.log2 b).
  - rewrite Eqa. rewrite <- (round_to_mult (ulp a) qa (ulp_pos a)). apply round_to_mono; [apply ulp_pos|]. lia.
  - rewrite Eqb. rewrite <- (round_to_mult (ulp b) qb (ulp_pos b)). apply round_to_mono; [apply ulp_pos|]. lia.
Qed.

(** The difference of two times, which fit into 61 bits until the year 2043, that are
    less than 52 days apart: it is not negative, and off by at most 256 nanoseconds. *)
Lemma duration_error a b :
  0 <= a <= b -> b < 2 ^ 61 -> b - a < 2 ^ 52 ->
  0 <= fsub (f64 b) (f64 a) /\ Z.abs (fsub (f64 b) (f64 a) - (b - a)) <= 256.
Proof.
  intros Hab Hb Hd. pose proof (f64_mono a b Hab) as Hm.
  pose proof (f64_error 8 a ltac:(lia) ltac:(lia)). pose proof (f64_error 8 b ltac:(lia) ltac:(lia)).
  unfold fsub. rewrite f64_exact by lia. lia.
Qed.
