(* ===== verification/ConnManager.v ===== *)
(** * The agent's connections

    The manager of connections ([ConnManager] of [src/agent/conn/conntrack.go]): which
    connection an event belongs to.  A descriptor of a process is used for one
    connection after the other, and events arrive late, so that each descriptor has a
    chain of connections, the newest in [connMap] and the older ones in its
    [prevConn]; an event is given to the connection that was open at its time.  The
    global [ConnectionMap] finds a connection by its addresses.

    - [connection] is [Connection4] with the fields the handlers of events do not use
      ([AgentConn.v] has the others, [stream]).  [TCPHandshakeStatus] is embedded; of its
      fields, the two times of the connection are here.
    - A pointer to a connection is an index into [heap], since connections are reached
      from both maps and from [prevConn] and are changed through each.
    - [LaunchEpochTime], the time of the kernel's clock zero, is a parameter, and so is
      [GetParserByProtocol], which looks a table up that the packages of the parsers
      fill. *)

From stdpp Require Import gmap list sorting strings.
From Stdlib Require Import ZArith Lia.
From S2P Require Import Prelude.
From S2P Require Import Types.
From S2P Require Import SockKey.
From S2P Require Import Conn.
From S2P Require Import GoBase.
From S2P Require Import StreamBuffer.
From S2P Require Import KernEvents.
From S2P Require Import Protocol.
From S2P Require Import Mysql.
From S2P Require Import AgentConn.
Local Open Scope Z_scope.
Local Open Scope model_scope.

Inductive ConnStatus : Set := Connected | Closed.
#[export] Instance ConnStatus_eq_dec : EqDecision ConnStatus.
Proof. solve_decision. Defined.

Definition traffic_protocol_of (z : Z) : traffic_protocol_t :=
  match z with
  | 0 => kProtocolUnset | 1 => kProtocolUnknown | 2 => kProtocolHTTP | 3 => kProtocolHTTP2
  | 4 => kProtocolMySQL | 5 => kProtocolCQL | 6 => kProtocolPGSQL | 7 => kProtocolDNS
  | 8 => kProtocolRedis | 9 => kProtocolNATS | 10 => kProtocolMongo | 11 => kProtocolKafka
  | 12 => kProtocolMux | 13 => kProtocolAMQP | 14 => kProtocolRocketMQ | _ => kNumProtocols
  end.
#[export] Instance traffic_protocol_countable : Countable traffic_protocol_t.
Proof. refine (inj_countable' traffic_protocol_val traffic_protocol_of _). by intros []. Defined.

(** [SyscallEventData] and [SslData]: a header and the captured bytes. *)
Definition SyscallEventData : Type := SyscallEvent * list Z.
Definition SslData : Type := ssl_header * list Z.

(** ** Addresses *)

(** The sixteen bytes of [struct in6_addr]. *)
Definition in6_bytes (a : in6_addr) : list Z := le_encode 8 (addr64_0 a) ++ le_encode 8 (addr64_1 a).

Definition BytesToNetIP (addr : list Z) (isIpv6 : bool) : list Z := if isIpv6 then addr else take 4 addr.

(** [BytesToInt] of an unsigned type of [n] bytes; a short slice gives 0. *)
Definition BytesToInt (n : nat) (byteArray : list Z) : Z :=
  if (length byteArray <? n)%nat then 0 else le_decode (take n byteArray).

Definition BytesToSockKey (ip : list Z) : Z * Z :=
  if (length ip =? 16)%nat then (BytesToInt 8 (take 8 ip), BytesToInt 8 (drop 8 ip))
  else (BytesToInt 4 ip, 0).

Section Manager.
Context {T P M : Type} `{TreeMap T} `{ParsedMessage M} `{!ProtocolStreamParser T P M} `{!MessageMatcher P M}.
Variable LaunchEpochTime : Z.
Variable GetParserByProtocol : traffic_protocol_t -> option P.

Record connection := mk_connection {
  LocalIp : list Z;
  RemoteIp : list Z;
  LocalPort : Z;
  RemotePort : Z;
  conn_protocol : traffic_protocol_t;
  TgidFd : Z;
  TempKernEvents : list kern_evt;
  TempConnEvents : list conn_evt_t;
  TempSyscallEvents : list SyscallEventData;
  TempSslEvents : list SslData;
  Status : ConnStatus;
  ConnectStartTs : Z;
  CloseTs : Z;
  protocolParsers : gmap traffic_protocol_t (option P);
  prevConn : list nat;
  stream : Connection4 (T := T) (P := P) (M := M);
}.
#[export] Instance eta_connection : Eta connection := fun c =>
  mk_connection (LocalIp c) (RemoteIp c) (LocalPort c) (RemotePort c) (conn_protocol c) (TgidFd c)
    (TempKernEvents c) (TempConnEvents c) (TempSyscallEvents c) (TempSslEvents c) (Status c)
    (ConnectStartTs c) (CloseTs c) (protocolParsers c) (prevConn c) (stream c).

(** [uint64(pid)<<32 | uint64(fd)] *)
Definition tgid_fd_of (ci : conn_info_t) : Z :=
  Z.lor (u64 (Z.shiftl (cid_tgid (ci_conn_id ci)) 32)) (u64 (cid_fd (ci_conn_id ci))).

(** [NewConnFromEvent] up to the entry in [ConnectionMap], which [NewConn] below makes. *)
Definition connection_of (event : conn_evt_t) : connection :=
  let ci := ce_conn_info event in
  let isIpv6 := sin6_family (ci_laddr ci) =? AF_INET6 in
  mk_connection
    (BytesToNetIP (in6_bytes (sin6_addr (ci_laddr ci))) isIpv6)
    (BytesToNetIP (in6_bytes (sin6_addr (ci_raddr ci))) isIpv6)
    (sin6_port (ci_laddr ci)) (sin6_port (ci_raddr ci)) (ci_protocol ci) (tgid_fd_of ci)
    [] [] [] [] Connected (u64 (ce_ts event + LaunchEpochTime)) 0 ∅ []
    (NewConnFromEvent (ci_role ci) None).

Definition extractSockKeys (c : connection) : sock_key * sock_key :=
  let '(dip0, dip1) := BytesToSockKey (RemoteIp c) in
  let '(sip0, sip1) := BytesToSockKey (LocalIp c) in
  let dport := u16 (RemotePort c) in
  let sport := u16 (LocalPort c) in
  (mk_sock_key sip0 sip1 dip0 dip1 sport dport, mk_sock_key dip0 dip1 sip0 sip1 dport sport).

Definition IsIpPortEqualsWith (c o : connection) : bool :=
  bool_decide (LocalIp c = LocalIp o) && bool_decide (RemoteIp c = RemoteIp o) &&
  (RemotePort c =? RemotePort o) && (LocalPort c =? LocalPort o).

(** ** Events kept until the protocol is known *)

Definition keep_kern_event (c : connection) (e : kern_evt) : connection :=
  c <| TempKernEvents ::= fun l => l ++ [e] |>.
Definition AddConnEvent (c : connection) (e : conn_evt_t) : connection :=
  c <| TempConnEvents ::= fun l => l ++ [e] |>.
Definition keep_syscall_event (c : connection) (e : SyscallEventData) : connection :=
  c <| TempSyscallEvents ::= fun l => l ++ [e] |>.
Definition keep_ssl_event (c : connection) (e : SslData) : connection :=
  c <| TempSslEvents ::= fun l => l ++ [e] |>.

Definition ProtocolInferred (c : connection) : bool :=
  negb (bool_decide (conn_protocol c = kProtocolUnknown)) && negb (bool_decide (conn_protocol c = kProtocolUnset)).

Definition IsTraceble (c : connection) : bool := trace_le_traceable (tracable (stream c)).

Definition timeBoundCheck (c : connection) (toCheck : Z) : bool :=
  if ConnectStartTs c =? 0 then true
  else if toCheck <? ConnectStartTs c then false
  else if negb (CloseTs c =? 0) && (toCheck >? CloseTs c) then false
  else true.

Definition GetProtocolParser (c : connection) (p : traffic_protocol_t) : option P * connection :=
  match protocolParsers c !! p with
  | Some parser => (parser, c)
  | None => let parser := GetParserByProtocol p in (parser, c <| protocolParsers ::= <[p := parser]> |>)
  end.

(** ** The manager *)

Record store := mk_store {
  heap : list connection;
  connMap : gmap Z nat;
  ConnectionMap : gmap sock_key nat;
  connectionAdded : Z;
  connectionClosed : Z;
}.
#[export] Instance eta_store : Eta store := fun s =>
  mk_store (heap s) (connMap s) (ConnectionMap s) (connectionAdded s) (connectionClosed s).

Definition InitConnManager : store := mk_store [] ∅ ∅ 0 0.

(** The connection behind a pointer. *)
Definition deref (s : store) (l : nat) : go connection :=
  match heap s !! l with Some c => Ret c | None => Panic end.

Definition set_conn (l : nat) (f : connection -> connection) (s : store) : store := s <| heap ::= alter f l |>.

(** [NewConnFromEvent]: the new connection, known by its addresses. *)
Definition NewConn (event : conn_evt_t) (s : store) : nat * store :=
  let c := connection_of event in
  let l := length (heap s) in
  (l, s <| heap ::= fun h => h ++ [c] |> <| ConnectionMap ::= <[(extractSockKeys c).1 := l]> |>).

Definition forget_key (s : store) (l : nat) : go store :=
  c ← deref s l; Ret (s <| ConnectionMap ::= delete (extractSockKeys c).1 |>).

(** A loop over pointers. *)
Fixpoint each_conn (f : store -> nat -> go store) (ls : list nat) (s : store) : go store :=
  match ls with
  | [] => Ret s
  | l :: ls => s ← f s l; each_conn f ls s
  end.

Definition RemoveConnFromSockKeyMap (s : store) (l : nat) : go store :=
  c ← deref s l;
  s ← forget_key s l;
  each_conn forget_key (prevConn c) s.

Definition FindConnection4Exactly (s : store) (k : Z) : option nat := connMap s !! k.

(** The index of the last closed connection, searched from the end. *)
Fixpoint last_closed (s : store) (prev : list nat) : go (option nat) :=
  match prev with
  | [] => Ret None
  | l :: prev =>
    r ← last_closed s prev;
    match r with
    | Some i => Ret (Some (S i))
    | None => c ← deref s l; Ret (if decide (Status c = Closed) then Some 0%nat else None)
    end
  end.

Definition AddConnection4 (k : Z) (l : nat) (s : store) : go store :=
  match FindConnection4Exactly s k with
  | Some el =>
    existedConn ← deref s el;
    conn ← deref s l;
    if negb (IsIpPortEqualsWith existedConn conn) then
      let s := set_conn el (fun c => c <| prevConn := [] |>) s in
      deleteEndIdx ← last_closed s (prevConn existedConn);
      do (s, prev) <- match deleteEndIdx with
        | Some i =>
          s ← each_conn RemoveConnFromSockKeyMap (take (S i) (prevConn existedConn)) s;
          Ret (s <| connectionClosed ::= fun n => n + (Z.of_nat i + 1) |>, drop (S i) (prevConn existedConn))
        | None => Ret (s, prevConn existedConn)
        end;
      let s := set_conn l (fun c => c <| prevConn := prev ++ [el] |>
        <| TempSyscallEvents ::= fun es => es ++ TempSyscallEvents existedConn |>
        <| TempKernEvents ::= fun es => es ++ TempKernEvents existedConn |>
        <| TempSslEvents ::= fun es => es ++ TempSslEvents existedConn |>) s in
      let s := set_conn el (fun c => c <| TempSyscallEvents := [] |> <| TempKernEvents := [] |>
        <| TempSslEvents := [] |>) s in
      Ret (s <| connMap ::= <[k := l]> |> <| connectionAdded ::= fun n => n + 1 |>)
    else Ret s
  | None => Ret (s <| connMap ::= <[k := l]> |> <| connectionAdded ::= fun n => n + 1 |>)
  end.

Definition RemoveConnection4 (k : Z) (s : store) : store := s <| connMap ::= delete k |>.

(** The loop over [prevConn], from the newest. *)
Fixpoint find_open (s : store) (ts : Z) (ls : list nat) : go (option nat) :=
  match ls with
  | [] => Ret None
  | l :: ls => c ← deref s l; if timeBoundCheck c ts then Ret (Some l) else find_open s ts ls
  end.

Definition LookupConnection4ByTimestamp (s : store) (k ts : Z) : go (option nat) :=
  match connMap s !! k with
  | None => Ret None
  | Some l =>
    connection ← deref s l;
    if ConnectStartTs connection <? ts then Ret (Some l)
    else find_open s ts (rev (prevConn connection))
  end.

(** [OnClose] of a connection, of the agent's own state; its map deletions are [OnClose]
    of [System.v]. *)
Definition close_conn (l : nat) (s : store) : store := set_conn l (fun c => c <| Status := Closed |>) s.

(** The work of the manager's ticker: the connections that are closed are removed. *)
Definition is_closed (s : store) (kl : Z * nat) : bool :=
  match heap s !! kl.2 with Some c => bool_decide (Status c = Closed) | None => false end.
Fixpoint delete_all (ks : list Z) (s : store) : go store :=
  match ks with
  | [] => Ret s
  | k :: ks =>
    s ← match connMap s !! k with
        | Some l => RemoveConnFromSockKeyMap (s <| connMap ::= delete k |>) l
        | None => Ret s
        end;
    delete_all ks s
  end.
Definition collect (s : store) : go store :=
  let needsDelete := (filter (fun kl => is_closed s kl) (map_to_list (connMap s))).*1 in
  s ← delete_all needsDelete s;
  Ret (s <| connectionClosed ::= fun n => n + zlen needsDelete |>).

End Manager.

(** ** Chains of connections *)

Section Chains.
Context {T P M : Type} `{TreeMap T} `{ParsedMessage M} `{!ProtocolStreamParser T P M} `{!MessageMatcher P M}.
Variable LaunchEpochTime : Z.
Abbreviation connection := (connection (T := T) (P := P) (M := M)).
Abbreviation store := (store (T := T) (P := P) (M := M)).
Implicit Types (c : connection) (s : store) (k ts : Z) (l : nat).

(** What a change of a connection other than its replacement keeps. *)
Definition same_identity c c' : Prop :=
  TgidFd c' = TgidFd c /\ ConnectStartTs c' = ConnectStartTs c /\ prevConn c' = prevConn c.

(** The connections of a descriptor, behind the pointers [ls]: one after the other. *)
Record chain_ok s k (ls : list nat) (cs : list connection) : Prop := mk_chain_ok {
  chain_heap : Forall2 (fun l c => heap s !! l = Some c) ls cs;
  chain_order : StronglySorted Z.lt (ConnectStartTs <$> cs);
  chain_owner : Forall (fun c => TgidFd c = k /\ 0 < ConnectStartTs c) cs;
}.

(** No pointer dangles. *)
Definition pointers_ok s : Prop :=
  forall l c, heap s !! l = Some c -> Forall (fun l' => (l' < length (heap s))%nat) (prevConn c).

(** Every descriptor has a chain. *)
Record wf s : Prop := mk_wf {
  wf_chains k l : connMap s !! k = Some l ->
    exists c cs, heap s !! l = Some c /\ chain_ok s k (prevConn c ++ [l]) cs;
  wf_pointers : pointers_ok s;
}.

Lemma deref_ok s l c : heap s !! l = Some c -> deref s l = Ret c.
Proof. unfold deref. by intros ->. Qed.

Lemma deref_in s l : (l < length (heap s))%nat -> exists c, deref s l = Ret c /\ heap s !! l = Some c.
Proof. intros Hl. destruct (lookup_lt_is_Some_2 (heap s) l Hl) as [c Hc]. exists c. by rewrite (deref_ok s l c). Qed.

(** *** Removing keys touches nothing but [ConnectionMap] *)

Definition same_conns s s' : Prop := heap s' = heap s /\ connMap s' = connMap s.

Lemma forget_key_ok s l : (l < length (heap s))%nat -> exists s', forget_key s l = Ret s' /\ same_conns s s'.
Proof.
  intros Hl. destruct (deref_in s l Hl) as (c & Hd & _). unfold forget_key. rewrite Hd. cbn [mbind go_bind].
  eexists. split; [done|]. by split.
Qed.

Lemma each_conn_ok f ls : forall s,
  (forall s1 l, l ∈ ls -> same_conns s s1 -> exists s2, f s1 l = Ret s2 /\ same_conns s1 s2) ->
  exists s', each_conn f ls s = Ret s' /\ same_conns s s'.
Proof.
  induction ls as [|l ls IH]; intros s Hf; cbn [each_conn].
  { exists s. by repeat split. }
  destruct (Hf s l) as (s1 & -> & H1); [by left|by split|]. cbn [mbind go_bind].
  destruct (IH s1) as (s2 & -> & H2).
  - intros s3 l' Hl' H3. apply Hf; [by right|]. destruct H1, H3. split; congruence.
  - exists s2. split; [done|]. destruct H1, H2. split; congruence.
Qed.

Lemma RemoveConn_ok s l :
  pointers_ok s -> (l < length (heap s))%nat ->
  exists s', RemoveConnFromSockKeyMap s l = Ret s' /\ same_conns s s'.
Proof.
  intros Hp Hl. destruct (deref_in s l Hl) as (c & Hd & Hc). unfold RemoveConnFromSockKeyMap. rewrite Hd.
  cbn [mbind go_bind]. destruct (forget_key_ok s l Hl) as (s1 & -> & [Hh Hm]). cbn [mbind go_bind].
  destruct (each_conn_ok forget_key (prevConn c) s1) as (s2 & -> & [Hh2 Hm2]).
  - intros s3 l' Hl' [Hh3 _]. apply forget_key_ok. rewrite Hh3, Hh.
    specialize (Hp l c Hc). rewrite Forall_forall in Hp. by apply Hp.
  - exists s2. split; [done|]. split; congruence.
Qed.

Lemma wf_same s s' : same_conns s s' -> wf s -> wf s'.
Proof.
  intros [Hh Hm] [Hc Hp]. split.
  - intros k l Hk. rewrite Hm in Hk. destruct (Hc k l Hk) as (c & cs & Hl & [H1 H2 H3]).
    exists c, cs. rewrite Hh. split; [done|]. split; [|done|done]. by rewrite Hh.
  - unfold pointers_ok. by rewrite Hh.
Qed.

(** *** Looking up *)

(** The connection was open at [ts], as far as the agent knows. *)
Definition open_at ts c : Prop := ConnectStartTs c <= ts /\ (CloseTs c = 0 \/ ts <= CloseTs c).

Lemma timeBoundCheck_spec c ts :
  0 < ConnectStartTs c -> if timeBoundCheck c ts then open_at ts c else ~ open_at ts c.
Proof.
  intros Hs. unfold timeBoundCheck, open_at. rewrite (proj2 (Z.eqb_neq _ 0)) by lia.
  destruct (Z.ltb_spec ts (ConnectStartTs c)); [lia|]. rewrite Z.gtb_ltb.
  destruct (Z.eqb_spec (CloseTs c) 0); cbn [negb andb]; [lia|].
  destruct (Z.ltb_spec (CloseTs c) ts); lia.
Qed.

Lemma find_open_skip s ts ls cs rest :
  Forall2 (fun l c => heap s !! l = Some c) ls cs ->
  Forall (fun c => 0 < ConnectStartTs c /\ ~ open_at ts c) cs ->
  find_open s ts (ls ++ rest) = find_open s ts rest.
Proof.
  intros Hf. induction Hf as [|l c ls cs Hl Hf IH]; intros Hp; [done|]. cbn [find_open app].
  apply Forall_cons in Hp as [ [Hc Ho] Hp]. rewrite (deref_ok s l c Hl). cbn [mbind go_bind].
  pose proof (timeBoundCheck_spec c ts Hc) as Ht. destruct (timeBoundCheck c ts); [done|]. by apply IH.
Qed.

Lemma chain_split s k ls cs i li ci :
  chain_ok s k ls cs -> ls !! i = Some li -> cs !! i = Some ci ->
  heap s !! li = Some ci /\
  Forall2 (fun l c => heap s !! l = Some c) (rev (drop (S i) ls)) (rev (drop (S i) cs)) /\
  Forall (fun c => 0 < ConnectStartTs c) cs.
Proof.
  intros [Hh Ho Hk] Hl Hc. split_and!.
  - by eapply (Forall2_lookup_lr _ _ _ i) in Hh.
  - rewrite !rev_alt. apply (Forall2_reverse _ (drop (S i) ls) (drop (S i) cs)). by apply Forall2_drop.
  - eapply Forall_impl; [exact Hk|]. by intros c [_ ?].
Qed.

(** The lookup finds the connection that was the current one at [ts]. *)
Lemma lookup_current s k ts l c cs i li ci :
  connMap s !! k = Some l -> heap s !! l = Some c -> chain_ok s k (prevConn c ++ [l]) cs ->
  (prevConn c ++ [l]) !! i = Some li -> cs !! i = Some ci ->
  ConnectStartTs ci < ts -> (CloseTs ci = 0 \/ ts <= CloseTs ci) ->
  Forall (fun c' => ts < ConnectStartTs c') (drop (S i) cs) ->
  LookupConnection4ByTimestamp s k ts = Ret (Some li).
Proof.
  intros Hk Hl Hch Hi Hci Hs Hcl Hlater. destruct (chain_split _ _ _ _ _ _ _ Hch Hi Hci) as (Hli & Hrest & Hpos).
  unfold LookupConnection4ByTimestamp. rewrite Hk, (deref_ok s l c Hl). cbn [mbind go_bind].
  destruct (decide (i = length (prevConn c))) as [->|Hne].
  { rewrite lookup_app_r, Nat.sub_diag in Hi by lia. injection Hi as <-. rewrite Hl in Hli. injection Hli as <-.
    by rewrite (proj2 (Z.ltb_lt _ _)). }
  pose proof (lookup_lt_Some _ _ _ Hi) as Hlt. rewrite length_app in Hlt. cbn in Hlt.
  assert (Hc : ts < ConnectStartTs c).
  { assert (Hn : cs !! length (prevConn c) = Some c).
    { destruct Hch as [Hh _ _]. destruct (Forall2_lookup_l _ _ _ (length (prevConn c)) l Hh) as (c' & ? & E).
      - rewrite lookup_app_r, Nat.sub_diag by lia. done.
      - rewrite Hl in E. by injection E as <-. }
    rewrite Forall_forall in Hlater. apply Hlater, list_elem_of_lookup.
    exists (length (prevConn c) - S i)%nat. rewrite lookup_drop. rewrite <- Hn. f_equal. lia. }
  rewrite (proj2 (Z.ltb_ge _ _)) by lia. rewrite lookup_app_l in Hi by lia.
  rewrite <- (take_drop_middle _ _ _ Hi) at 1. rewrite rev_app_distr. cbn [rev]. rewrite <- app_assoc.
  rewrite drop_app_le, rev_app_distr in Hrest by lia. cbn [rev app] in Hrest.
  inversion Hrest as [|? cn ? cs' Hn Hrest' E1 E2]; subst.
  rewrite (find_open_skip s ts _ cs'); [|done|].
  - cbn [find_open app]. rewrite (deref_ok s li ci Hli). cbn [mbind go_bind].
    assert (Hci0 : 0 < ConnectStartTs ci) by (rewrite Forall_forall in Hpos; apply Hpos; by eapply list_elem_of_lookup_2).
    pose proof (timeBoundCheck_spec ci ts Hci0) as Ht. destruct (timeBoundCheck ci ts); [done|].
    destruct Ht. unfold open_at. lia.
  - assert (Hin : Forall (fun c' => 0 < ConnectStartTs c' /\ ts < ConnectStartTs c') (cn :: cs')).
    { rewrite E2. apply Forall_rev, Forall_and. split; [by apply Forall_drop|done]. }
    apply Forall_cons in Hin as [_ Hin]. eapply Forall_impl; [exact Hin|]. unfold open_at. cbv beta. intros. lia.
Qed.

(** *** Keeping the chains *)

Lemma heap_set l f s l' :
  heap (set_conn l f s) !! l' = if decide (l' = l) then f <$> heap s !! l' else heap s !! l'.
Proof.
  unfold set_conn. fsimp_goal. case_decide as E; [subst; apply list_lookup_alter_eq|by apply list_lookup_alter_ne].
Qed.

Lemma length_set l f s : length (heap (set_conn l f s)) = length (heap s).
Proof. unfold set_conn. fsimp_goal. apply length_alter. Qed.

Lemma wf_set l f s :
  (forall c, heap s !! l = Some c -> same_identity c (f c)) -> wf s -> wf (set_conn l f s).
Proof.
  intros Hf [Hc Hp].
  assert (Hk : forall l' c, heap s !! l' = Some c ->
    exists c', heap (set_conn l f s) !! l' = Some c' /\ same_identity c c').
  { intros l' c Hl. rewrite heap_set, Hl. case_decide as E; [subst|by exists c].
    exists (f c). split; [done|]. by apply Hf. }
  split.
  - intros k l' Hl'. change (connMap s !! k = Some l') in Hl'. destruct (Hc k l' Hl') as (c & cs & Hh & [H1 H2 H3]).
    destruct (Hk l' c Hh) as (c' & Hh' & _ & _ & Hpr). rewrite <- Hpr in H1.
    assert (Hcs : exists cs', Forall2 (fun l0 c0 => heap (set_conn l f s) !! l0 = Some c0) (prevConn c' ++ [l']) cs' /\
      ConnectStartTs <$> cs' = ConnectStartTs <$> cs /\ Forall (fun c => TgidFd c = k /\ 0 < ConnectStartTs c) cs').
    { clear -H1 H3 Hk. induction H1 as [|l0 c0 ls cs Hl0 _ IH]; [by exists []|].
      apply Forall_cons in H3 as [ [Ht Hs] H3]. destruct (IH H3) as (cs' & Hf' & E & Ho).
      destruct (Hk l0 c0 Hl0) as (c0' & Hl0' & E1 & E2 & _). exists (c0' :: cs'). split_and!.
      - by constructor.
      - cbn. by rewrite E, E2.
      - constructor; [|done]. by rewrite E1, E2. }
    destruct Hcs as (cs' & Hf' & E & Ho). exists c', cs'. split; [done|]. split; [done| |done]. by rewrite E.
  - intros l' c' Hl'. rewrite length_set. rewrite heap_set in Hl'. case_decide as E; [subst l'|by eapply Hp].
    destruct (heap s !! l) as [c|] eqn:El; [|done]. injection Hl' as <-.
    destruct (Hf c eq_refl) as (_ & _ & ->). by eapply Hp.
Qed.

(** The connection [l] takes the place of [el] on the descriptor [k]. *)
Record replaces s s' k el l (ex n ex' n' : connection) (prev : list nat) : Prop := mk_replaces {
  rp_old : heap s' !! el = Some ex' /\ TgidFd ex' = TgidFd ex /\ ConnectStartTs ex' = ConnectStartTs ex /\
    prevConn ex' = [];
  rp_new : heap s' !! l = Some n' /\ TgidFd n' = TgidFd n /\ ConnectStartTs n' = ConnectStartTs n /\
    prevConn n' = prev ++ [el];
  rp_rest l' : l' <> el -> l' <> l -> heap s' !! l' = heap s !! l';
  rp_length : length (heap s') = length (heap s);
  rp_map : connMap s' = <[k := l]> (connMap s);
}.

(** A pointer to a connection that no descriptor has yet. *)
Definition unused s l : Prop :=
  forall k l' c, connMap s !! k = Some l' -> heap s !! l' = Some c -> l ∉ prevConn c ++ [l'].

Lemma chain_starts s k ls cs l c :
  chain_ok s k (ls ++ [l]) cs -> heap s !! l = Some c ->
  exists cs0, cs = cs0 ++ [c] /\ Forall2 (fun l c => heap s !! l = Some c) ls cs0 /\
    Forall (fun c' => ConnectStartTs c' < ConnectStartTs c) cs0.
Proof.
  intros [Hh Ho _] Hl. apply Forall2_app_inv_l in Hh as (cs0 & cs1 & Hls & Hlast & ->).
  apply Forall2_cons_inv_l in Hlast as (c' & ? & Hc' & ->%Forall2_nil_inv_l & ->). rewrite Hl in Hc'. injection Hc' as <-.
  exists cs0. split_and!; [done..|]. rewrite fmap_app in Ho. apply StronglySorted_app in Ho as (Ho & _).
  apply Forall_forall. intros c' Hc'. apply Ho; [by apply list_elem_of_fmap_2|by left].
Qed.

Lemma Forall2_same_heap s s' ls cs :
  Forall2 (fun l c => heap s !! l = Some c) ls cs -> (forall l, l ∈ ls -> heap s' !! l = heap s !! l) ->
  Forall2 (fun l c => heap s' !! l = Some c) ls cs.
Proof.
  intros Hf. induction Hf as [|l c ls cs Hl Hf IH]; intros He; [done|]. constructor.
  - rewrite He; [done|by left].
  - apply IH. intros l' Hl'. apply He. by right.
Qed.

Lemma chain_member s k ls cs l c :
  chain_ok s k ls cs -> l ∈ ls -> heap s !! l = Some c -> c ∈ cs.
Proof.
  intros [Hh _ _] Hl Hc. apply list_elem_of_lookup in Hl as (i & Hi).
  destruct (Forall2_lookup_l _ _ _ _ _ Hh Hi) as (c' & Hc' & E). rewrite Hc in E. injection E as <-.
  by eapply list_elem_of_lookup_2.
Qed.

Lemma chain_owner_of s k ls cs l c : chain_ok s k ls cs -> l ∈ ls -> heap s !! l = Some c -> TgidFd c = k.
Proof.
  intros Hch Hl Hc. pose proof (chain_member _ _ _ _ _ _ Hch Hl Hc) as Hin. destruct Hch as [_ _ Ho].
  rewrite Forall_forall in Ho. by apply Ho.
Qed.

(** The new chain: what is left of the old one, and the new connection. *)
Lemma replaces_chain s s' k el l ex n ex' n' j cs :
  replaces s s' k el l ex n ex' n' (drop j (prevConn ex)) ->
  heap s !! el = Some ex -> chain_ok s k (prevConn ex ++ [el]) cs -> l ∉ prevConn ex ++ [el] ->
  TgidFd n = k -> 0 < ConnectStartTs n -> Forall (fun c => ConnectStartTs c < ConnectStartTs n) cs ->
  exists cs', chain_ok s' k (prevConn n' ++ [l]) cs'.
Proof.
  intros [(Ho & Eo1 & Eo2 & _) (Hn & En1 & En2 & Epr) Hr _ _] Hel Hch Hl Hk Hp Hlast.
  destruct (chain_starts _ _ _ _ _ _ Hch Hel) as (cs0 & -> & Hf & Hs). pose proof Hch as [_ Hord Hown].
  exists (drop j cs0 ++ [ex'; n']). rewrite Epr, <- app_assoc. cbn [app]. split.
  - apply Forall2_app; [|by repeat constructor]. apply (Forall2_same_heap s); [by apply Forall2_drop|].
    intros l' Hl'. assert (Hin : l' ∈ prevConn ex) by (by eapply elem_of_dropped). apply Hr.
    + intros ->. apply list_elem_of_lookup in Hin as (i & Hi).
      destruct (Forall2_lookup_l _ _ _ _ _ Hf Hi) as (c & Hc & E). rewrite Hel in E. injection E as <-.
      rewrite Forall_forall in Hs. apply list_elem_of_lookup_2 in Hc. specialize (Hs _ Hc). lia.
    + intros ->. apply Hl. apply elem_of_app. by left.
  - apply Forall_app in Hlast as [Hl0 Hl1]. rewrite Forall_singleton in Hl1.
    rewrite fmap_app in Hord. rewrite fmap_app. cbn [fmap list_fmap] in *. rewrite Eo2, En2, fmap_drop.
    rewrite <- (take_drop j (ConnectStartTs <$> cs0)) in Hord. rewrite <- app_assoc in Hord.
    apply StronglySorted_app in Hord as (_ & _ & Hord).
    apply StronglySorted_app in Hord as (H12 & Hd & _). apply StronglySorted_app. split_and!; [|done|].
    + intros x y Hx Hy. rewrite !elem_of_cons in Hy. destruct Hy as [->|[->|Hy%not_elem_of_nil] ]; [|..|done].
      * apply H12; [done|by left].
      * rewrite <- fmap_drop in Hx. apply list_elem_of_fmap in Hx as (c & -> & Hc). rewrite Forall_forall in Hl0.
        apply Hl0. by eapply elem_of_dropped.
    + constructor; [by repeat constructor|]. by constructor.
  - apply Forall_app in Hown as [Hw0 Hw1]. rewrite Forall_singleton in Hw1; destruct Hw1 as [Hw1 Hw2].
    apply Forall_app. split; [by apply Forall_drop|]. repeat constructor; rewrite ?Eo1, ?Eo2, ?En1, ?En2; done.
Qed.

Lemma replaces_wf s s' k el l ex n ex' n' j cs :
  replaces s s' k el l ex n ex' n' (drop j (prevConn ex)) ->
  wf s -> connMap s !! k = Some el -> heap s !! el = Some ex -> heap s !! l = Some n ->
  chain_ok s k (prevConn ex ++ [el]) cs -> unused s l ->
  TgidFd n = k -> 0 < ConnectStartTs n -> Forall (fun c => ConnectStartTs c < ConnectStartTs n) cs ->
  wf s'.
Proof.
  intros Hrep [Hc Hp] Hkel Hel Hln Hch Hun Hk Hpos Hlast. pose proof (Hun k el ex Hkel Hel) as Hl.
  destruct (replaces_chain _ _ _ _ _ _ _ _ _ _ _ Hrep Hel Hch Hl Hk Hpos Hlast) as (cs' & Hch').
  destruct Hrep as [(Ho & _ & _ & Epo) (Hn & _ & _ & Epr) Hr Hlen Hm]. split.
  - intros k' l' Hk'. rewrite Hm in Hk'. destruct (decide (k' = k)) as [->|Hne].
    { rewrite lookup_insert_eq in Hk'. injection Hk' as <-. by exists n', cs'. }
    rewrite lookup_insert_ne in Hk' by done. destruct (Hc k' l' Hk') as (c & cs0 & Hl' & Hch0).
    assert (Hsame : forall l0, l0 ∈ prevConn c ++ [l'] -> heap s' !! l0 = heap s !! l0).
    { intros l0 Hl0. apply Hr; intros ->; [|by eapply Hun].
      apply Hne. rewrite <- (chain_owner_of _ _ _ _ _ _ Hch0 Hl0 Hel).
      eapply chain_owner_of; [exact Hch| |exact Hel]. apply elem_of_app. right. by left. }
    exists c, cs0. split; [rewrite Hsame; [done|]; apply elem_of_app; right; by left|].
    destruct Hch0 as [H1 H2 H3]. split; [by eapply Forall2_same_heap|done|done].
  - intros l' c' Hl'. rewrite Hlen. destruct (decide (l' = el)) as [->|Hne1].
    { rewrite Ho in Hl'. injection Hl' as <-. by rewrite Epo. }
    destruct (decide (l' = l)) as [->|Hne2].
    + rewrite Hn in Hl'. injection Hl' as <-. rewrite Epr. apply Forall_app. split.
      * apply Forall_drop. by eapply Hp.
      * repeat constructor. by eapply lookup_lt_Some.
    + rewrite Hr in Hl' by done. by eapply Hp.
Qed.

Lemma last_closed_ok s ls :
  Forall (fun l => (l < length (heap s))%nat) ls ->
  exists r, last_closed s ls = Ret r /\ (forall i, r = Some i -> (i < length ls)%nat).
Proof.
  induction 1 as [|l ls Hl Hls IH]; cbn [last_closed]; [by exists None|].
  destruct IH as (r & -> & Hr). cbn [mbind go_bind]. destruct r as [i|].
  { exists (Some (S i)). split; [done|]. intros ? [= <-]. specialize (Hr i eq_refl). cbn. lia. }
  destruct (deref_in s l Hl) as (c & -> & Hc). cbn [mbind go_bind]. case_decide; eexists; split; try done.
  intros ? [= <-]. cbn. lia.
Qed.

Lemma pointers_same s s' : same_conns s s' -> pointers_ok s -> pointers_ok s'.
Proof. intros [Hh _]. unfold pointers_ok. by rewrite Hh. Qed.

Lemma pointers_set l f s :
  (forall c, prevConn (f c) = [] \/ prevConn (f c) = prevConn c) -> pointers_ok s -> pointers_ok (set_conn l f s).
Proof.
  intros Hf Hp l' c' Hl'. rewrite length_set. rewrite heap_set in Hl'. case_decide; [subst|by eapply Hp].
  destruct (heap s !! l) as [c|] eqn:E; [|done]. injection Hl' as <-.
  destruct (Hf c) as [->| ->]; [done|]. by eapply Hp.
Qed.

(** The removal of the connections before the last closed one. *)
Lemma remove_closed_ok s prev r :
  pointers_ok s -> Forall (fun l => (l < length (heap s))%nat) prev ->
  exists s' j, match r with
    | Some i => s0 ← each_conn RemoveConnFromSockKeyMap (take (S i) prev) s;
        Ret (s0 <| connectionClosed ::= fun n => n + (Z.of_nat i + 1) |>, drop (S i) prev)
    | None => Ret (s, prev) end = Ret (s', drop j prev) /\ same_conns s s'.
Proof.
  intros Hp Hl. destruct r as [i|]; [|by exists s, 0%nat].
  destruct (each_conn_ok RemoveConnFromSockKeyMap (take (S i) prev) s) as (s2 & -> & Hs).
  - intros s0 l Hin Hs0. apply RemoveConn_ok; [by eapply pointers_same|]. destruct Hs0 as [-> _].
    rewrite Forall_forall in Hl. apply Hl. rewrite <- (take_drop (S i) prev). apply elem_of_app. by left.
  - cbn [mbind go_bind]. eexists _, (S i). split; [done|]. exact Hs.
Qed.

(** What [AddConnection4] does with a descriptor that is known with other addresses:
    the new connection becomes the current one, and the connections before it stay,
    except those up to the last closed one. *)
Lemma AddConnection4_replaces s k el l ex n :
  wf s -> connMap s !! k = Some el -> heap s !! el = Some ex -> heap s !! l = Some n -> el <> l ->
  IsIpPortEqualsWith ex n = false ->
  exists s' ex' n' j, AddConnection4 k l s = Ret s' /\ replaces s s' k el l ex n ex' n' (drop j (prevConn ex)).
Proof.
  intros Hwf Hk Hel Hl Hne Haddr. unfold AddConnection4, FindConnection4Exactly.
  rewrite Hk, (deref_ok s el ex Hel). cbn [mbind go_bind]. rewrite (deref_ok s l n Hl). cbn [mbind go_bind].
  rewrite Haddr. cbn [negb]. set (s1 := set_conn el _ s). pose proof (wf_pointers s Hwf el ex Hel) as Hp.
  assert (Hp1 : Forall (fun l' => (l' < length (heap s1))%nat) (prevConn ex)) by (unfold s1; by rewrite length_set).
  destruct (last_closed_ok s1 (prevConn ex) Hp1) as (r & -> & _). cbn [mbind go_bind].
  destruct (remove_closed_ok s1 (prevConn ex) r) as (s2 & j & -> & [Hh Hm]); [|done|].
  { apply pointers_set; [by left|]. apply (wf_pointers s Hwf). }
  unfold go_then. cbn [mbind go_bind]. eexists _, _, _, j. split; [done|]. split; fsimp_goal.
  - rewrite heap_set, decide_True by done. rewrite heap_set, decide_False by done. rewrite Hh. unfold s1.
    rewrite heap_set, decide_True, Hel by done. by split_and!.
  - rewrite heap_set, decide_False by done. rewrite heap_set, decide_True by done. rewrite Hh. unfold s1.
    rewrite heap_set, decide_False, Hl by done. by split_and!.
  - intros l' H1 H2. rewrite heap_set, decide_False by done. rewrite heap_set, decide_False by done. rewrite Hh.
    unfold s1. by rewrite heap_set, decide_False.
  - rewrite !length_set, Hh. unfold s1. by rewrite length_set.
  - unfold set_conn. fsimp_goal. by rewrite Hm.
Qed.

(** [n] starts after every connection of the descriptor [k]. *)
Definition newer s k (n : connection) : Prop :=
  forall el ex cs, connMap s !! k = Some el -> heap s !! el = Some ex -> chain_ok s k (prevConn ex ++ [el]) cs ->
    Forall (fun c => ConnectStartTs c < ConnectStartTs n) cs.

Lemma wf_first s k l n :
  wf s -> heap s !! l = Some n -> prevConn n = [] -> TgidFd n = k -> 0 < ConnectStartTs n ->
  wf (s <| connMap ::= <[k := l]> |> <| connectionAdded ::= fun n => n + 1 |>).
Proof.
  intros [Hc Hp] Hl Hpn Hk Hs. split; [|done]. intros k' l' Hk'. fsimp.
  destruct (decide (k' = k)) as [->|Hne].
  - rewrite lookup_insert_eq in Hk'. injection Hk' as <-. exists n, [n]. split; [done|]. rewrite Hpn.
    split; [by repeat constructor|by repeat constructor|by repeat constructor].
  - rewrite lookup_insert_ne in Hk' by done. destruct (Hc k' l' Hk') as (c & cs & ? & [? ? ?]).
    exists c, cs. split; [done|]. by split.
Qed.

Lemma AddConnection4_wf s k l n :
  wf s -> heap s !! l = Some n -> prevConn n = [] -> TgidFd n = k -> 0 < ConnectStartTs n ->
  unused s l -> newer s k n ->
  exists s', AddConnection4 k l s = Ret s' /\ wf s' /\
    (forall el ex, connMap s !! k = Some el -> heap s !! el = Some ex -> IsIpPortEqualsWith ex n = false ->
     exists n' j, heap s' !! l = Some n' /\ prevConn n' = drop j (prevConn ex) ++ [el] /\ connMap s' !! k = Some l).
Proof.
  intros Hwf Hl Hpn Hk Hs Hun Hnew. destruct (connMap s !! k) as [el|] eqn:Hkel.
  - destruct (wf_chains s Hwf k el Hkel) as (ex & cs & Hel & Hch).
    assert (Hne : el <> l).
    { intros ->. apply (Hun k l ex Hkel Hel), elem_of_app. right. by left. }
    destruct (IsIpPortEqualsWith ex n) eqn:Haddr.
    + exists s. unfold AddConnection4, FindConnection4Exactly. rewrite Hkel, (deref_ok s el ex Hel). cbn [mbind go_bind].
      rewrite (deref_ok s l n Hl). cbn [mbind go_bind]. rewrite Haddr. split_and!; [done..|].
      intros ? ex' [= <-] Hex'. congruence.
    + destruct (AddConnection4_replaces s k el l ex n Hwf Hkel Hel Hl Hne Haddr) as (s' & ex' & n' & j & Ha & Hrep).
      exists s'. split; [done|]. split.
      * eapply replaces_wf; [exact Hrep|done..|]. by eapply Hnew.
      * intros ? ? [= <-] E _. rewrite Hel in E. injection E as <-. exists n', j.
        destruct Hrep as [_ (Hn & _ & _ & Hpr) _ _ Hm]. split_and!; [done..|]. by rewrite Hm, lookup_insert_eq.
  - eexists. unfold AddConnection4, FindConnection4Exactly. rewrite Hkel. split; [done|].
    split; [by eapply wf_first|done].
Qed.

(** *** Removing *)

Lemma wf_remove s k : wf s -> wf (RemoveConnection4 k s).
Proof.
  intros [Hc Hp]. split; [|done]. intros k' l' Hk'. unfold RemoveConnection4 in Hk'. fsimp.
  apply lookup_delete_Some in Hk' as [_ Hk']. destruct (Hc k' l' Hk') as (c & cs & ? & [? ? ?]).
  exists c, cs. split; [done|]. by split.
Qed.

Lemma delete_all_ok ks : forall s, wf s -> exists s', delete_all ks s = Ret s' /\ wf s' /\ heap s' = heap s.
Proof.
  induction ks as [|k ks IH]; intros s Hwf; cbn [delete_all]; [by exists s|].
  destruct (connMap s !! k) as [l|] eqn:Hk; cbn [mbind go_bind]; [|by apply IH].
  destruct (wf_chains s Hwf k l Hk) as (c & cs & Hl & _). pose proof (wf_remove s k Hwf) as Hw.
  destruct (RemoveConn_ok (RemoveConnection4 k s) l) as (s1 & E & Hs1).
  { apply (wf_pointers _ Hw). }
  { by eapply lookup_lt_Some. }
  unfold RemoveConnection4 in E. rewrite E. cbn [mbind go_bind].
  destruct (IH s1 (wf_same _ _ Hs1 Hw)) as (s2 & -> & Hw2 & Hh). exists s2. split; [done|]. split; [done|].
  rewrite Hh. by destruct Hs1 as [-> _].
Qed.

Lemma collect_ok s : wf s -> exists s', collect s = Ret s' /\ wf s' /\ heap s' = heap s.
Proof.
  intros Hwf. unfold collect. destruct (delete_all_ok (filter (fun kl => is_closed s kl) (map_to_list (connMap s))).*1 s Hwf)
    as (s1 & -> & Hw & Hh). cbn [mbind go_bind]. eexists. split; [done|]. split; [|done].
  apply (wf_same s1); [by split|done].
Qed.

(** *** The life of the manager *)

Abbreviation connection_of := (connection_of (T := T) (P := P) (M := M) LaunchEpochTime).

(** A connect event: a new connection, entered. *)
Definition connects (event : conn_evt_t) s : go store :=
  let '(l, s) := NewConn LaunchEpochTime event s in
  AddConnection4 (tgid_fd_of (ce_conn_info event)) l s.

Lemma heap_new event s l c : heap s !! l = Some c -> heap (NewConn LaunchEpochTime event s).2 !! l = Some c.
Proof. intros Hl. unfold NewConn. cbn [snd]. fsimp_goal. by apply lookup_app_l_Some. Qed.

Lemma NewConn_wf event s :
  wf s -> let s' := (NewConn LaunchEpochTime event s).2 in
  wf s' /\ unused s' (length (heap s)) /\ heap s' !! length (heap s) = Some (connection_of event).
Proof.
  intros [Hc Hp] s'. assert (Hlen : length (heap s') = S (length (heap s))).
  { unfold s', NewConn. cbn [snd]. fsimp_goal. rewrite length_app. cbn. lia. }
  assert (Hlast : heap s' !! length (heap s) = Some (connection_of event)).
  { unfold s', NewConn. cbn [snd]. fsimp_goal. by rewrite lookup_app_r, Nat.sub_diag by lia. }
  split; [|split; [|done] ].
  - split.
    + intros k l Hk. destruct (Hc k l Hk) as (c & cs & Hl & [H1 H2 H3]). exists c, cs.
      split; [by apply heap_new|]. split; [|done|done]. eapply Forall2_impl; [exact H1|]. cbv beta. intros. by apply heap_new.
    + intros l c Hl. rewrite Hlen. destruct (decide (l = length (heap s))) as [->|Hne].
      * rewrite Hlast in Hl. injection Hl as <-. done.
      * assert (Hl0 : heap s !! l = Some c).
        { pose proof (lookup_lt_Some _ _ _ Hl). unfold s', NewConn in Hl. cbn [snd] in Hl. fsimp.
          rewrite lookup_app_l in Hl by lia. done. }
        eapply Forall_impl; [by eapply Hp|]. cbv beta. lia.
  - intros k l' c' Hk Hl' Hin. change (connMap s !! k = Some l') in Hk.
    destruct (Hc k l' Hk) as (c & cs & Hl & [H1 _ _]).
    pose proof (heap_new event s l' c Hl) as E'. fold s' in E'. rewrite E' in Hl'. injection Hl' as <-.
    apply list_elem_of_lookup in Hin as (i & Hi). destruct (Forall2_lookup_l _ _ _ _ _ H1 Hi) as (c1 & _ & E).
    apply lookup_lt_Some in E. lia.
Qed.

Lemma newer_new event s k n : newer s k n -> wf s -> newer (NewConn LaunchEpochTime event s).2 k n.
Proof.
  intros Hn [Hc _] el ex cs Hk Hel Hch. change (connMap s !! k = Some el) in Hk.
  destruct (Hc k el Hk) as (ex' & cs' & Hel' & Hch'). rewrite (heap_new event s el ex' Hel') in Hel. injection Hel as <-.
  assert (cs' = cs) as <-; [|by eapply Hn]. destruct Hch as [Hf _ _], Hch' as [Hf' _ _]. clear -Hf Hf'.
  revert cs Hf. induction Hf' as [|l c ls cs' Hl Hf' IH]; intros cs Hf.
  - by apply Forall2_nil_inv_l in Hf as ->.
  - apply Forall2_cons_inv_l in Hf as (c' & cs2 & E & Hf & ->). rewrite (heap_new event s l c Hl) in E.
    injection E as <-. f_equal. by apply IH.
Qed.

Lemma connects_wf event s :
  let k := tgid_fd_of (ce_conn_info event) in
  wf s -> 0 < ConnectStartTs (connection_of event) -> newer s k (connection_of event) ->
  exists s', connects event s = Ret s' /\ wf s'.
Proof.
  intros k Hwf Hs Hn. destruct (NewConn_wf event s Hwf) as (Hw & Hun & Hl).
  destruct (AddConnection4_wf _ k (length (heap s)) _ Hw Hl eq_refl eq_refl Hs Hun) as (s' & Ha & Hw' & _).
  { by apply newer_new. }
  exists s'. by split.
Qed.

(** Connect events, in the order of their times for each descriptor; changes of
    connections by the handlers of events; and the manager's own removals. *)
Inductive mstep s : store -> Prop :=
| m_connect event s' :
    0 < ConnectStartTs (connection_of event) -> newer s (tgid_fd_of (ce_conn_info event)) (connection_of event) ->
    connects event s = Ret s' -> mstep s s'
| m_change l f : (forall c, same_identity c (f c)) -> mstep s (set_conn l f s)
| m_collect s' : collect s = Ret s' -> mstep s s'
| m_remove k : mstep s (RemoveConnection4 k s).

Lemma mstep_wf s s' : mstep s s' -> wf s -> wf s'.
Proof.
  intros Hs Hw. destruct Hs as [event s' Hp Hn Hc|l f Hf|s' Hc|k].
  - destruct (connects_wf event s Hw Hp Hn) as (s1 & E & Hw1). congruence.
  - by apply wf_set.
  - destruct (collect_ok s Hw) as (s1 & E & Hw1 & _). congruence.
  - by apply wf_remove.
Qed.

Lemma reachable_wf s : rtc mstep InitConnManager s -> wf s.
Proof.
  intros Hr. assert (Hw : wf InitConnManager) by (by split).
  induction Hr as [|s1 s2 s3 Hs _ IH]; [done|]. apply IH. by eapply mstep_wf.
Qed.

(** *** Keys that are lost *)

Lemma forget_key_absent s l s' key :
  forget_key s l = Ret s' -> ConnectionMap s !! key = None -> ConnectionMap s' !! key = None.
Proof.
  unfold forget_key. intros (c & Hc & [= <-])%go_bind_inv Hk. fsimp_goal.
  apply lookup_delete_None. by right.
Qed.

Lemma each_forget_absent key ls : forall s s',
  each_conn forget_key ls s = Ret s' -> ConnectionMap s !! key = None -> ConnectionMap s' !! key = None.
Proof.
  induction ls as [|l ls IH]; intros s s' E Hk; cbn [each_conn] in E; [by injection E as <-|].
  apply go_bind_inv in E as (s1 & E1 & E). eapply IH; [exact E|]. by eapply forget_key_absent.
Qed.

(** Removing a connection removes the key of its addresses, whoever it belongs to. *)
Lemma RemoveConn_absent s l c s' :
  RemoveConnFromSockKeyMap s l = Ret s' -> heap s !! l = Some c -> ConnectionMap s' !! (extractSockKeys c).1 = None.
Proof.
  unfold RemoveConnFromSockKeyMap. intros (c' & Hc' & (s1 & E1 & E)%go_bind_inv)%go_bind_inv Hc.
  eapply each_forget_absent; [exact E|]. unfold forget_key in E1. rewrite (deref_ok s l c Hc) in E1.
  cbn [mbind go_bind] in E1. injection E1 as <-. fsimp_goal. apply lookup_delete_eq.
Qed.

Lemma RemoveConn_keeps_absent s l s' key :
  RemoveConnFromSockKeyMap s l = Ret s' -> ConnectionMap s !! key = None -> ConnectionMap s' !! key = None.
Proof.
  unfold RemoveConnFromSockKeyMap. intros (c' & Hc' & (s1 & E1 & E)%go_bind_inv)%go_bind_inv Hk.
  eapply each_forget_absent; [exact E|]. by eapply forget_key_absent.
Qed.

Lemma each_remove_absent ls l c : forall s s',
  pointers_ok s -> Forall (fun l => (l < length (heap s))%nat) ls ->
  each_conn RemoveConnFromSockKeyMap ls s = Ret s' -> heap s !! l = Some c ->
  l ∈ ls \/ ConnectionMap s !! (extractSockKeys c).1 = None -> ConnectionMap s' !! (extractSockKeys c).1 = None.
Proof.
  induction ls as [|l' ls IH]; intros s s' Hp Hls E Hc Hin; cbn [each_conn] in E.
  { injection E as <-. destruct Hin as [Hin|?]; [by apply not_elem_of_nil in Hin|done]. }
  apply Forall_cons in Hls as [Hl' Hls]. destruct (RemoveConn_ok s l' Hp Hl') as (s1 & E1 & Hs1).
  rewrite E1 in E. cbn [mbind go_bind] in E. destruct Hs1 as [Hh Hm].
  apply (IH s1); [by eapply pointers_same|by rewrite Hh|done|by rewrite Hh|].
  destruct Hin as [ [->|Hin]%elem_of_cons|Hk]; [right|by left|right].
  - by eapply RemoveConn_absent.
  - by eapply RemoveConn_keeps_absent.
Qed.

Lemma last_closed_after s ls i l c r :
  last_closed s ls = Ret r -> ls !! i = Some l -> heap s !! l = Some c -> Status c = Closed ->
  exists j, r = Some j /\ (i <= j)%nat.
Proof.
  revert i r. induction ls as [|l' ls IH]; intros i r E Hi Hc Hs; [done|]. cbn [last_closed] in E.
  apply go_bind_inv in E as (r' & E' & E). destruct i as [|i]; cbn in Hi.
  - injection Hi as ->. destruct r' as [j|]; [injection E as <-; exists (S j); split; [done|lia]|].
    rewrite (deref_ok s l c Hc) in E. cbn [mbind go_bind] in E. rewrite decide_True in E by done.
    injection E as <-. by exists 0%nat.
  - destruct (IH i r' E' Hi Hc Hs) as (j & -> & Hj). injection E as <-. exists (S j). split; [done|lia].
Qed.

Lemma same_address_key c c' : IsIpPortEqualsWith c c' = true -> extractSockKeys c = extractSockKeys c'.
Proof.
  unfold IsIpPortEqualsWith. intros [ [ [H1 H2]%andb_prop H3]%andb_prop H4]%andb_prop.
  apply bool_decide_eq_true in H1, H2. apply Z.eqb_eq in H3, H4. unfold extractSockKeys. by rewrite H1, H2, H3, H4.
Qed.

(** The connections removed on the way to a new one leave no entry under its key. *)
Lemma AddConnection4_absent s s' k el l ex n i a c :
  wf s -> connMap s !! k = Some el -> heap s !! el = Some ex -> heap s !! l = Some n ->
  IsIpPortEqualsWith ex n = false -> prevConn ex !! i = Some a -> heap s !! a = Some c -> a <> el ->
  Status c = Closed -> AddConnection4 k l s = Ret s' -> ConnectionMap s' !! (extractSockKeys c).1 = None.
Proof.
  intros Hwf Hk Hel Hl Haddr Hi Ha Hne Hst E. unfold AddConnection4, FindConnection4Exactly in E.
  rewrite Hk, (deref_ok s el ex Hel) in E. cbn [mbind go_bind] in E. rewrite (deref_ok s l n Hl) in E.
  cbn [mbind go_bind] in E. rewrite Haddr in E. cbn [negb] in E. revert E. set (s1 := set_conn el _ s). intros E.
  assert (Ha1 : heap s1 !! a = Some c) by (unfold s1; by rewrite heap_set, decide_False).
  assert (Hp1 : pointers_ok s1) by (apply pointers_set; [by left|apply (wf_pointers s Hwf)]).
  assert (Hl1 : Forall (fun l' => (l' < length (heap s1))%nat) (prevConn ex)).
  { unfold s1. rewrite length_set. by apply (wf_pointers s Hwf el). }
  apply go_bind_inv in E as (r & Hr & E).
  destruct (last_closed_after s1 (prevConn ex) i a c r Hr Hi Ha1 Hst) as (j & -> & Hj).
  unfold go_then in E. apply go_bind_inv in E as ([s2 prev] & (s0 & E0 & [= <- <-])%go_bind_inv & [= <-]).
  unfold set_conn. fsimp_goal. apply (each_remove_absent (take (S j) (prevConn ex)) a c s1 s0); [done| |done..|].
  - by apply Forall_take.
  - left. apply list_elem_of_lookup. exists i. rewrite lookup_take_lt by lia. done.
Qed.

End Chains.

(** ** The agent's keys and the probes' *)

Lemma take_le_encode (n m : nat) (z : Z) : (n <= m)%nat -> take n (le_encode m z) = le_encode n z.
Proof.
  revert m z. induction n as [|n IH]; intros m z Hn; [done|]. destruct m as [|m]; [lia|]. cbn [le_encode take].
  f_equal. apply IH. lia.
Qed.

Lemma BytesToInt_encode n z rest : BytesToInt n (le_encode n z ++ rest) = z mod 256 ^ Z.of_nat n.
Proof.
  unfold BytesToInt. rewrite length_app, length_le_encode, (proj2 (Nat.ltb_ge _ _)) by lia.
  rewrite take_app_length' by (by rewrite length_le_encode). apply le_decode_encode.
Qed.

(** An address as the agent keeps it gives the words of the key the probes use. *)
Lemma sock_key_words (a : in6_addr) (isIpv6 : bool) :
  BytesToSockKey (BytesToNetIP (in6_bytes a) isIpv6) =
  if isIpv6 then (u64 (addr64_0 a), u64 (addr64_1 a)) else (addr32_0 a, 0).
Proof.
  unfold BytesToSockKey, BytesToNetIP, in6_bytes. destruct isIpv6.
  - rewrite length_app, !length_le_encode. cbn [Nat.add Nat.eqb].
    rewrite take_app_length', drop_app_length' by (by rewrite length_le_encode).
    rewrite <- (app_nil_r (le_encode 8 (addr64_0 a))), <- (app_nil_r (le_encode 8 (addr64_1 a))).
    by rewrite !BytesToInt_encode.
  - rewrite take_app_le by (rewrite length_le_encode; lia). rewrite take_le_encode by lia.
    rewrite length_le_encode. cbn [Nat.eqb].
    rewrite <- (app_nil_r (le_encode 4 (addr64_0 a))). by rewrite BytesToInt_encode.
Qed.

(** ** Properties *)

Section Properties.
Context {T P M : Type} `{TreeMap T} `{ParsedMessage M} `{!ProtocolStreamParser T P M} `{!MessageMatcher P M}.
Variable LaunchEpochTime : Z.
Abbreviation connection_of := (connection_of (T := T) (P := P) (M := M) LaunchEpochTime).
Abbreviation store := (store (T := T) (P := P) (M := M)).


(** A connection can lose its key.  When a descriptor that was used for some
    addresses and then for others is used for the first ones again, and the earlier
    connection is closed, the new connection is entered for the descriptor, but the
    removal of the earlier one takes the entry of [ConnectionMap] away that the new
    one has just made: its first packets will not be found. *)
Theorem reused_address_forgotten (s : store) event el ex i a c
    (Hwf : wf s) (Hk : connMap s !! tgid_fd_of (ce_conn_info event) = Some el)
    (Hel : heap s !! el = Some ex) (Hother : IsIpPortEqualsWith ex (connection_of event) = false)
    (Hprev : prevConn ex !! i = Some a) (Ha : heap s !! a = Some c) (Hclosed : Status c = Closed)
    (Hsame : IsIpPortEqualsWith c (connection_of event) = true) :
  exists s', connects LaunchEpochTime event s = Ret s' /\
    connMap s' !! tgid_fd_of (ce_conn_info event) = Some (length (heap s)) /\
    ConnectionMap s' !! (extractSockKeys (connection_of event)).1 = None.
Proof.
  destruct (NewConn_wf LaunchEpochTime event s Hwf) as (Hw & _ & Hl). set (s0 := (NewConn LaunchEpochTime event s).2) in *.
  pose proof (heap_new LaunchEpochTime event s el ex Hel) as Hel0. pose proof (heap_new LaunchEpochTime event s a c Ha) as Ha0.
  assert (el <> length (heap s)) as Hne by (apply lookup_lt_Some in Hel; lia).
  destruct (AddConnection4_replaces s0 _ el (length (heap s)) ex _ Hw Hk Hel0 Hl Hne Hother)
    as (s' & ex' & n' & j & E & Hrep). exists s'. split; [exact E|]. split.
  - rewrite (rp_map _ _ _ _ _ _ _ _ _ _ Hrep). apply lookup_insert_eq.
  - rewrite <- (same_address_key c _ Hsame). eapply (AddConnection4_absent s0 s' _ el (length (heap s))); [exact Hw|done..| |done|exact E].
    intros ->. congruence.
Qed.


End Properties.

(** ** Examples *)

(** Connections of descriptor 7 of process 5 to port [port], started at [ts]. *)
Definition connect_event (port ts : Z) : conn_evt_t :=
  mk_conn_evt (conn_info_zero <| ci_conn_id := mk_conn_id 5 0 7 0 |>
    <| ci_laddr := mk_sockaddr AF_INET 40000 0 (mk_in6_addr 16777343 0) 0 |>
    <| ci_raddr := mk_sockaddr AF_INET port 0 (mk_in6_addr 33554559 0) 0 |>) Types.kConnect ts.

Definition example_store : Type := store (T := gmap Z Z) (P := unit) (M := MysqlPacket).

Definition connected (events : list conn_evt_t) (s : example_store) : example_store :=
  foldl (fun s event => go_get s (connects 0 event s)) s events.

(** The descriptor is used for port 80, then for port 90. *)
Definition two_connections : example_store := connected [connect_event 80 100; connect_event 90 200] InitConnManager.

Lemma two_connections_reachable : rtc (mstep 0) InitConnManager two_connections.
Proof.
  eapply rtc_l; [|eapply rtc_l; [|apply rtc_refl] ].
  - eapply (m_connect 0 _ (connect_event 80 100)); [done| |by vm_compute].
    intros el ex cs Hk. by vm_compute in Hk.
  - eapply (m_connect 0 _ (connect_event 90 200)); [done| |by vm_compute].
    intros el ex cs Hk Hel [Hf _ _]. injection Hk as <-. injection Hel as <-. cbn [prevConn app] in Hf.
    apply Forall2_cons_inv_l in Hf as (c & cs' & [= <-] & ->%Forall2_nil_inv_l & ->). by repeat constructor.
Qed.


(** The connection to port 80 is closed, and the descriptor is used for port 80 again. *)
Definition closed_first : example_store := close_conn 0 two_connections.

Lemma reused_address_forgotten_witness :
  exists s', connects 0 (connect_event 80 300) closed_first = Ret s' /\
    connMap s' !! (5 * 4294967296 + 7) = Some 2%nat /\
    ConnectionMap s' !! (extractSockKeys (connection_of 0 (connect_event 80 300)
      : connection (T := gmap Z Z) (P := unit) (M := MysqlPacket))).1 = None.
Proof.
  eapply (reused_address_forgotten 0 closed_first (connect_event 80 300) 1%nat _ 0%nat 0%nat);
    [|reflexivity..].
  apply wf_set; [|by apply (reachable_wf 0), two_connections_reachable].
  intros c _. by split_and!.
Defined.

