(* ===== verification/Stat.v ===== *)
(** * From a record to its time line

    [src/agent/analysis/stat.go]: when a request and its response are matched, the
    events that carried their bytes are looked up in the connection's record of events
    ([prepareEvents]), and from their times come the durations shown to the user
    ([ReceiveRecord]); then the events are marked as no longer needed.

    - [traceDevEvent] and [traceSocketEvent] are options of the command line.
    - Durations are [float64] ([Float64.v]); -1 stands for an unknown one.
    - [GetMinIfItmestampAttr] and [GetMaxIfTimestampAttr] iterate over a Go map, whose
      order is not fixed; the time they find does not depend on it, and the name of the
      interface, which does, is not used here.
    - The annotated record is returned, where the code sends it to a channel or, without
      a channel, prints it. *)

From stdpp Require Import gmap list sorting strings.
From Stdlib Require Import ZArith Lia.
From S2P Require Import Prelude.
From S2P Require Import Types.
From S2P Require Import GoBase.
From S2P Require Import Float64.
From S2P Require Import StreamBuffer.
From S2P Require Import RingBuffer.
From S2P Require Import KernEvents.
From S2P Require Import Protocol.
From S2P Require Import Mysql.
From S2P Require Import AgentConn.
From S2P Require Import ConnManager.
Local Open Scope Z_scope.
Local Open Scope model_scope.

Definition MaxUint64 : Z := 18446744073709551615.
Definition MaxInt64 : Z := 9223372036854775807.

(** ** Times of an event *)

Definition GetEndTs (k : KernEvent) : Z := u64 (ev_startTs k + ev_tsDelta k).

(** [kernevent.attributes]; a nil map reads like an empty one. *)
Definition attributes_of (st : list (gmap string Z)) (k : KernEvent) : gmap string Z :=
  match ev_attributes k with Some loc => default ∅ (st !! loc) | None => ∅ end.

(** The values under keys with the prefix [time-]. *)
Definition if_times (m : gmap string Z) : list Z :=
  (filter (fun kv => String.prefix "time-" kv.1 = true) (map_to_list m)).*2.

(** The time, and whether there is one. *)
Definition GetMaxIfTimestampAttr (st : list (gmap string Z)) (k : KernEvent) : Z * bool :=
  foldl (fun '(m, found) t => if t >? m then (t, true) else (m, found)) (0, false) (if_times (attributes_of st k)).
Definition GetMinIfItmestampAttr (st : list (gmap string Z)) (k : KernEvent) : Z * bool :=
  foldl (fun '(m, found) t => if t <? m then (t, true) else (m, found)) (MaxInt64, false)
    (if_times (attributes_of st k)).

Definition findMaxTimestamp (events : list KernEvent) (useStartTs : bool) : Z :=
  foldl (fun m each => Z.max m (if useStartTs then ev_startTs each else GetEndTs each)) 0 events.
Definition findMinTimestamp (events : list KernEvent) (useStartTs : bool) : Z :=
  foldl (fun m each => Z.min m (if useStartTs then ev_startTs each else GetEndTs each)) MaxUint64 events.

(** ** The ciphertext of SSL events *)

Definition has_kern (each : SslEvent) : bool := negb (KernSeq each =? 0) || negb (KernLen each =? 0).

Definition getKernSeqAndLen (syscallEvents : list SslEvent) : Z * Z :=
  match head (filter (fun e => has_kern e = true) syscallEvents) with
  | None => (0, 0)
  | Some first =>
    let syscallSeq := s64 (KernSeq first) in
    if syscallSeq =? -1 then (0, 0)
    else
      let syscallLen :=
        match last (filter (fun e => has_kern e = true) syscallEvents) with
        | Some each => s64 (s64 (KernLen each + s64 (KernSeq each)) - syscallSeq)
        | None => 0
        end in
      (u64 syscallSeq, syscallLen)
  end.

Definition isKernEvtCanMatchSslEvt (events : list SslEvent) : bool :=
  forallb (fun each => negb (KernLen each =? 0)) events.

(** ** Records *)

Inductive DirectEnum : Set := DirectEgress | DirectIngress.

Definition getParsedMessageBySide {M} (r : Record_ M) (IsServerSide : bool) (direct : DirectEnum) : M :=
  match IsServerSide, direct with
  | false, DirectEgress => Req r
  | false, DirectIngress => Resp r
  | true, DirectEgress => Resp r
  | true, DirectIngress => Req r
  end.

(** [PacketEventDetail] and [SyscallEventDetail]. *)
Record PacketEventDetail := mk_PacketEventDetail { detail_ByteSize : Z; detail_Timestamp : Z }.
Record NicEventDetail := mk_NicEventDetail { nic_detail : PacketEventDetail; Attributes : option nat }.

Definition KernEventsToEventDetails (kernEvents : list KernEvent) : list PacketEventDetail :=
  (fun each => mk_PacketEventDetail (ev_len each) (ev_startTs each)) <$> kernEvents.
Definition KernEventsToNicEventDetails (kernEvents : list KernEvent) : list NicEventDetail :=
  (fun each => mk_NicEventDetail (mk_PacketEventDetail (ev_len each) (ev_startTs each)) (ev_attributes each))
  <$> kernEvents.

Record ConnDesc := mk_ConnDesc {
  cd_RemotePort : Z; cd_RemoteAddr : list Z; cd_LocalAddr : list Z; cd_LocalPort : Z;
  cd_Protocol : Z; cd_Pid : Z; cd_Side : SideEnum; cd_IsSsl : bool;
}.

Section Stat.
Context {T P M : Type} `{TreeMap T} `{ParsedMessage M}.
Variable traceDevEvent traceSocketEvent : bool.
Abbreviation connection := (connection (T := T) (P := P) (M := M)).

Record events := mk_events {
  sslWriteSyscallEvents : list SslEvent;
  sslReadSyscallEvents : list SslEvent;
  writeSyscallEvents : list KernEvent;
  readSyscallEvents : list KernEvent;
  devOutEvents : list KernEvent;
  nicIngressEvents : list KernEvent;
  userCopyEvents : list KernEvent;
  tcpInEvents : list KernEvent;
  egressMessage : M;
  ingressMessage : M;
  ingressSeq : Z;
  egressSeq : Z;
  ingressKernSeq : Z;
  egressKernSeq : Z;
  ingressKernLen : Z;
  egressKernLen : Z;
}.

Record AnnotatedRecord := mk_AnnotatedRecord {
  ar_ConnDesc : ConnDesc;
  ar_Record : Record_ M;
  StartTs : Z;
  EndTs : Z;
  ReqPlainTextSize : Z;
  RespPlainTextSize : Z;
  ReqSize : Z;
  RespSize : Z;
  TotalDuration : Z;
  BlackBoxDuration : Z;
  CopyToSocketBufferDuration : Z;
  ReadFromSocketBufferDuration : Z;
  ReqSyscallEventDetails : list PacketEventDetail;
  RespSyscallEventDetails : list PacketEventDetail;
  ReqNicEventDetails : list NicEventDetail;
  RespNicEventDetails : list NicEventDetail;
}.
#[export] Instance eta_AnnotatedRecord : Eta AnnotatedRecord := fun a =>
  mk_AnnotatedRecord (ar_ConnDesc a) (ar_Record a) (StartTs a) (EndTs a) (ReqPlainTextSize a) (RespPlainTextSize a)
    (ReqSize a) (RespSize a) (TotalDuration a) (BlackBoxDuration a) (CopyToSocketBufferDuration a)
    (ReadFromSocketBufferDuration a) (ReqSyscallEventDetails a) (RespSyscallEventDetails a) (ReqNicEventDetails a)
    (RespNicEventDetails a).

(** [CreateAnnotedRecord], with the two fields that are assigned next. *)
Definition CreateAnnotedRecord (desc : ConnDesc) (r : Record_ M) : AnnotatedRecord :=
  mk_AnnotatedRecord desc r 0 0 0 0 (-1) (-1) (-1) (-1) 0 (-1) [] [] [] [].

Definition prepareEvents (r : Record_ M) (c : connection) : go events :=
  let streamEvents := StreamEvents (stream c) in
  let server := IsServerSide (stream c) in
  let egressMessage := getParsedMessageBySide r server DirectEgress in
  let ingressMessage := getParsedMessageBySide r server DirectIngress in
  let ingressSeq := MsgSeq ingressMessage in
  let egressSeq := MsgSeq egressMessage in
  let sslWrite := if ssl (stream c)
    then FindSslEventsBySeqAndLen streamEvents SSL_OUT egressSeq (ByteSize egressMessage) else [] in
  let sslRead := if ssl (stream c)
    then FindSslEventsBySeqAndLen streamEvents SSL_IN ingressSeq (ByteSize ingressMessage) else [] in
  let '(egressKernSeq, egressKernLen) :=
    if ssl (stream c) then getKernSeqAndLen sslWrite else (egressSeq, ByteSize egressMessage) in
  let '(ingressKernSeq, ingressKernLen) :=
    if ssl (stream c) then getKernSeqAndLen sslRead else (ingressSeq, ByteSize ingressMessage) in
  let egress st := FindEventsBySeqAndLen streamEvents st egressKernSeq egressKernLen in
  let ingress st := FindEventsBySeqAndLen streamEvents st ingressKernSeq ingressKernLen in
  write ← egress SYSCALL_OUT;
  read ← ingress SYSCALL_IN;
  devOut ← (if traceDevEvent then egress DEV_OUT else Ret []);
  nicIn ← (if traceDevEvent then ingress NIC_IN else Ret []);
  nicIn ← (if traceDevEvent && (zlen nicIn =? 0) then ingress DEV_IN else Ret nicIn);
  userCopy ← (if traceSocketEvent then ingress USER_COPY else Ret []);
  tcpIn ← (if traceSocketEvent then ingress TCP_IN else Ret []);
  Ret (mk_events sslWrite sslRead write read devOut nicIn userCopy tcpIn egressMessage ingressMessage
         ingressSeq egressSeq ingressKernSeq egressKernSeq ingressKernLen egressKernLen).

(** ** Durations *)

(** Whether the times of system calls and packets belong to the messages. *)
Definition canCalculateReadPathTime (c : connection) (ev : events) : bool :=
  negb (ssl (stream c)) || isKernEvtCanMatchSslEvt (sslReadSyscallEvents ev).
Definition canCalculateWritePathTime (c : connection) (ev : events) : bool :=
  negb (ssl (stream c)) || isKernEvtCanMatchSslEvt (sslWriteSyscallEvents ev).

(** [float64(a) - float64(b)] *)
Definition float_diff (a b : Z) : Z := fsub (f64 a) (f64 b).

(** The last lines of both branches: without socket events, the time from the device to
    the end of the read. *)
Definition read_duration_without_socket (st : list (gmap string Z)) (can : bool) (ev : events) (d : Z) : Z :=
  match head (nicIngressEvents ev), last (readSyscallEvents ev) with
  | Some nic, Some read =>
    if negb traceSocketEvent && can then
      match GetMinIfItmestampAttr st nic with
      | (ts, true) => f64 (u64 (GetEndTs read - u64 ts))
      | _ => d
      end
    else d
  | _, _ => d
  end.

Definition server_start (st : list (gmap string Z)) (ev : events) : Z :=
  match head (nicIngressEvents ev), head (tcpInEvents ev), head (userCopyEvents ev), head (readSyscallEvents ev) with
  | Some nic, _, _, _ =>
    match GetMinIfItmestampAttr st nic with (ts, true) => Z.min (u64 ts) MaxUint64 | _ => MaxUint64 end
  | None, Some k, _, _ | None, None, Some k, _ | None, None, None, Some k => Z.min (ev_startTs k) MaxUint64
  | None, None, None, None => MaxUint64
  end.

Definition server_end (st : list (gmap string Z)) (ev : events) : Z :=
  match last (devOutEvents ev), last (writeSyscallEvents ev) with
  | Some dev, _ => match GetMaxIfTimestampAttr st dev with (ts, true) => u64 ts | _ => MaxUint64 end
  | None, Some k => GetEndTs k
  | None, None => MaxUint64
  end.

(** The branch for [IsServerSide]. *)
Definition annotate_server (st : list (gmap string Z)) (c : connection) (ev : events) (a : AnnotatedRecord)
    : AnnotatedRecord :=
  let canR := canCalculateReadPathTime c ev in
  let canW := canCalculateWritePathTime c ev in
  let start := server_start st ev in
  let stop := server_end st ev in
  let total := if negb (start =? MaxUint64) && negb (stop =? MaxUint64) && (canR && canW)
               then float_diff stop start else TotalDuration a in
  let blackbox :=
    match head (readSyscallEvents ev), last (writeSyscallEvents ev), canR && canW with
    | Some read, Some write, true => float_diff (GetEndTs write) (ev_startTs read)
    | _, _, _ => float_diff (TimestampNs (egressMessage ev)) (TimestampNs (ingressMessage ev))
    end in
  let readFrom :=
    match last (userCopyEvents ev), head (tcpInEvents ev), canR with
    | Some copy, Some tcp, true => float_diff (ev_startTs copy) (ev_startTs tcp)
    | _, _, _ => ReadFromSocketBufferDuration a
    end in
  let copyTo :=
    match last (tcpInEvents ev), head (nicIngressEvents ev), canW with
    | Some tcp, Some nic, true => f64 (u64 (ev_startTs tcp - ev_startTs nic))
    | _, _, _ => CopyToSocketBufferDuration a
    end in
  a <| StartTs := start |> <| EndTs := stop |>
    <| ReqPlainTextSize ::= fun n => if ssl (stream c) then ByteSize (ingressMessage ev) else n |>
    <| RespPlainTextSize ::= fun n => if ssl (stream c) then ByteSize (egressMessage ev) else n |>
    <| ReqSize := ingressKernLen ev |> <| RespSize := egressKernLen ev |>
    <| TotalDuration := if negb traceDevEvent then blackbox else total |>
    <| BlackBoxDuration := blackbox |>
    <| CopyToSocketBufferDuration := copyTo |>
    <| ReadFromSocketBufferDuration := read_duration_without_socket st canR ev readFrom |>
    <| ReqSyscallEventDetails := KernEventsToEventDetails (readSyscallEvents ev) |>
    <| RespSyscallEventDetails := KernEventsToEventDetails (writeSyscallEvents ev) |>
    <| ReqNicEventDetails := KernEventsToNicEventDetails (nicIngressEvents ev) |>
    <| RespNicEventDetails := KernEventsToNicEventDetails (devOutEvents ev) |>.

(** The time between the devices: the last packet in, the first one out. *)
Definition network_duration (st : list (gmap string Z)) (ev : events) : Z :=
  let nicIngressTimestamp :=
    foldl (fun m k => match GetMinIfItmestampAttr st k with (ts, true) => Z.max m ts | _ => m end) 0
      (nicIngressEvents ev) in
  if negb (nicIngressTimestamp =? 0) then
    let nicEgressTimestamp :=
      foldl (fun m k => match GetMaxIfTimestampAttr st k with (ts, true) => Z.min m ts | _ => m end) MaxInt64
        (devOutEvents ev) in
    if negb (nicEgressTimestamp =? MaxInt64) then float_diff nicIngressTimestamp nicEgressTimestamp else -1
  else -1.

(** The branch for a client. *)
Definition annotate_client (st : list (gmap string Z)) (c : connection) (ev : events) (a : AnnotatedRecord)
    : AnnotatedRecord :=
  let canR := canCalculateReadPathTime c ev in
  let canW := canCalculateWritePathTime c ev in
  let hasRead := negb (zlen (readSyscallEvents ev) =? 0) in
  let hasWrite := negb (zlen (writeSyscallEvents ev) =? 0) in
  let start := if hasWrite && canW then findMinTimestamp (writeSyscallEvents ev) true
               else TimestampNs (egressMessage ev) in
  let stop := if hasRead && canR then findMaxTimestamp (readSyscallEvents ev) false
              else TimestampNs (ingressMessage ev) in
  let total := if hasRead && hasWrite && canR && canW then float_diff stop start
               else float_diff (TimestampNs (ingressMessage ev)) (TimestampNs (egressMessage ev)) in
  let blackbox :=
    if negb (zlen (nicIngressEvents ev) =? 0) && negb (zlen (devOutEvents ev) =? 0) && canR && canW
    then network_duration st ev else BlackBoxDuration a in
  let readFrom :=
    match last (userCopyEvents ev), last (readSyscallEvents ev), head (tcpInEvents ev), canR with
    | Some copy, _, Some tcp, true => fsub (f64 (ev_startTs copy)) (f64 (ev_startTs tcp))
    | None, Some read, Some tcp, true => fsub (f64 (GetEndTs read)) (f64 (ev_startTs tcp))
    | _, _, _, _ => ReadFromSocketBufferDuration a
    end in
  let copyTo :=
    match last (tcpInEvents ev), head (nicIngressEvents ev), canR with
    | Some tcp, Some nic, true => f64 (u64 (ev_startTs tcp - ev_startTs nic))
    | _, _, _ => CopyToSocketBufferDuration a
    end in
  a <| StartTs := start |> <| EndTs := stop |>
    <| ReqPlainTextSize ::= fun n => if ssl (stream c) then ByteSize (egressMessage ev) else n |>
    <| RespPlainTextSize ::= fun n => if ssl (stream c) then ByteSize (ingressMessage ev) else n |>
    <| ReqSize := egressKernLen ev |> <| RespSize := ingressKernLen ev |>
    <| TotalDuration := total |>
    <| BlackBoxDuration := blackbox |>
    <| CopyToSocketBufferDuration := copyTo |>
    <| ReadFromSocketBufferDuration := read_duration_without_socket st canR ev readFrom |>
    <| ReqSyscallEventDetails := KernEventsToEventDetails (writeSyscallEvents ev) |>
    <| RespSyscallEventDetails := KernEventsToEventDetails (readSyscallEvents ev) |>
    <| ReqNicEventDetails := KernEventsToNicEventDetails (devOutEvents ev) |>
    <| RespNicEventDetails := KernEventsToNicEventDetails (nicIngressEvents ev) |>.

Definition conn_desc (c : connection) : ConnDesc :=
  mk_ConnDesc (RemotePort c) (RemoteIp c) (LocalIp c) (LocalPort c) (traffic_protocol_val (conn_protocol c))
    (u32 (Z.shiftr (TgidFd c) 32)) (if IsServerSide (stream c) then ServerSide else ClientSide) (ssl (stream c)).

(** What the events of the messages are marked with at the end. *)
Definition mark_events (c : connection) (ev : events) (s : KernEventStream) : KernEventStream :=
  let s := MarkNeedDiscardSeq s (u64 (egressKernSeq ev + u64 (egressKernLen ev))) true in
  let s := MarkNeedDiscardSeq s (u64 (ingressKernSeq ev + u64 (ingressKernLen ev))) false in
  if ssl (stream c) then
    let s := MarkNeedDiscardSslSeq s (u64 (egressSeq ev + u64 (ByteSize (egressMessage ev)))) true in
    MarkNeedDiscardSslSeq s (u64 (ingressSeq ev + u64 (ByteSize (ingressMessage ev)))) false
  else s.

Definition ReceiveRecord (r : Record_ M) (c : connection) : go (AnnotatedRecord * connection) :=
  let a := CreateAnnotedRecord (conn_desc c) r in
  ev ← prepareEvents r c;
  let st := attrs (StreamEvents (stream c)) in
  let a := if IsServerSide (stream c) then annotate_server st c ev a else annotate_client st c ev a in
  Ret (a, c <| stream ::= fun s => s <| StreamEvents ::= mark_events c ev |> |>).

(** The fields of a record that both branches copy. *)
Lemma server_fields st c ev a :
  let x := annotate_server st c ev a in
  ReqSyscallEventDetails x = KernEventsToEventDetails (readSyscallEvents ev) /\
  RespSyscallEventDetails x = KernEventsToEventDetails (writeSyscallEvents ev) /\
  ReqNicEventDetails x = KernEventsToNicEventDetails (nicIngressEvents ev) /\
  RespNicEventDetails x = KernEventsToNicEventDetails (devOutEvents ev) /\
  ReqSize x = ingressKernLen ev /\ RespSize x = egressKernLen ev.
Proof. by repeat split. Qed.

Lemma client_fields st c ev a :
  let x := annotate_client st c ev a in
  ReqSyscallEventDetails x = KernEventsToEventDetails (writeSyscallEvents ev) /\
  RespSyscallEventDetails x = KernEventsToEventDetails (readSyscallEvents ev) /\
  ReqNicEventDetails x = KernEventsToNicEventDetails (devOutEvents ev) /\
  RespNicEventDetails x = KernEventsToNicEventDetails (nicIngressEvents ev) /\
  ReqSize x = egressKernLen ev /\ RespSize x = ingressKernLen ev.
Proof. by repeat split. Qed.

(** ** The events of a record *)

(** The positions of a message, and the events of a step that meet them. *)
Definition range_ok (r : Z * Z) : Prop := 0 <= r.1 /\ 0 < r.2 /\ r.1 + r.2 < 18446744073709551616.
Definition carried (f : step_t -> list KernEvent) (st : step_t) (r : Z * Z) : list KernEvent :=
  filter (overlaps r.1 (r.1 + r.2)) (f st).

(** The positions of the bytes on the wire: those of the message, or of its ciphertext. *)
Definition wire_range (c : connection) (egress : bool) (m : M) : Z * Z :=
  if ssl (stream c)
  then getKernSeqAndLen (FindSslEventsBySeqAndLen (StreamEvents (stream c)) (if egress then SSL_OUT else SSL_IN)
         (MsgSeq m) (ByteSize m))
  else (MsgSeq m, ByteSize m).

Lemma find_carried s f st r :
  stream_holds s f -> (forall st, Forall in_range (f st)) -> range_ok r ->
  FindEventsBySeqAndLen s st r.1 r.2 = Ret (carried f st r).
Proof. intros Hs Hr (H1 & H2 & H3). by apply find_exact. Qed.

Lemma prepare_exact r c f :
  let eg := getParsedMessageBySide r (IsServerSide (stream c)) DirectEgress in
  let ing := getParsedMessageBySide r (IsServerSide (stream c)) DirectIngress in
  let e := wire_range c true eg in
  let i := wire_range c false ing in
  stream_holds (StreamEvents (stream c)) f -> (forall st, Forall in_range (f st)) -> range_ok e -> range_ok i ->
  exists sw sr, prepareEvents r c = Ret (mk_events sw sr (carried f SYSCALL_OUT e) (carried f SYSCALL_IN i)
    (if traceDevEvent then carried f DEV_OUT e else [])
    (if traceDevEvent then if zlen (carried f NIC_IN i) =? 0 then carried f DEV_IN i else carried f NIC_IN i else [])
    (if traceSocketEvent then carried f USER_COPY i else []) (if traceSocketEvent then carried f TCP_IN i else [])
    eg ing (MsgSeq ing) (MsgSeq eg) i.1 e.1 i.2 e.2) /\
    (ssl (stream c) = false -> sw = [] /\ sr = []).
Proof.
  intros eg ing e i Hs Hr He Hi. unfold prepareEvents. fold eg ing.
  eexists _, _. rewrite (surjective_pairing (if ssl (stream c) then getKernSeqAndLen _ else (MsgSeq eg, _))).
  rewrite (surjective_pairing (if ssl (stream c) then getKernSeqAndLen _ else (MsgSeq ing, _))).
  assert (Ee : (if ssl (stream c) then getKernSeqAndLen (if ssl (stream c) then
    FindSslEventsBySeqAndLen (StreamEvents (stream c)) SSL_OUT (MsgSeq eg) (ByteSize eg) else [])
    else (MsgSeq eg, ByteSize eg)) = e) by (unfold e, wire_range; by destruct (ssl (stream c))).
  assert (Ei : (if ssl (stream c) then getKernSeqAndLen (if ssl (stream c) then
    FindSslEventsBySeqAndLen (StreamEvents (stream c)) SSL_IN (MsgSeq ing) (ByteSize ing) else [])
    else (MsgSeq ing, ByteSize ing)) = i) by (unfold i, wire_range; by destruct (ssl (stream c))).
  rewrite Ee, Ei. clearbody e i. rewrite !(find_carried _ f) by done. cbn [mbind go_bind].
  destruct traceDevEvent, traceSocketEvent; cbn [mbind go_bind andb];
    try (destruct (zlen (carried f NIC_IN i) =? 0)); cbn [mbind go_bind]; (split; [done|]); intros ->; done.
Qed.

(** ** Earliest and latest times *)

Lemma foldl_min {A} (g : A -> Z) l m : m <= MaxUint64 ->
  let r := foldl (fun m x => Z.min m (g x)) m l in
  r <= m /\ (forall x, x ∈ l -> r <= g x) /\ (r = m \/ exists x, x ∈ l /\ r = g x).
Proof.
  intros Hm. revert m Hm. induction l as [|x l IH]; intros m Hm; cbn [foldl].
  { split_and!; [lia|by intros ? ?%not_elem_of_nil|by left]. }
  destruct (IH (Z.min m (g x)) ltac:(lia)) as (H1 & H2 & H3). split_and!.
  - lia.
  - intros y [->|Hy]%elem_of_cons; [lia|by apply H2].
  - destruct H3 as [E|(y & Hy & E)]; [|right; exists y; split; [by right|done] ].
    destruct (Z.min_spec m (g x)) as [ [_ E']|[_ E'] ]; rewrite E' in *; [by left|right; exists x; split; [by left|done] ].
Qed.

Lemma foldl_max {A} (g : A -> Z) l m :
  let r := foldl (fun m x => Z.max m (g x)) m l in
  m <= r /\ (forall x, x ∈ l -> g x <= r) /\ (r = m \/ exists x, x ∈ l /\ r = g x).
Proof.
  revert m. induction l as [|x l IH]; intros m; cbn [foldl].
  { split_and!; [lia|by intros ? ?%not_elem_of_nil|by left]. }
  destruct (IH (Z.max m (g x))) as (H1 & H2 & H3). split_and!.
  - lia.
  - intros y [->|Hy]%elem_of_cons; [lia|by apply H2].
  - destruct H3 as [E|(y & Hy & E)]; [|right; exists y; split; [by right|done] ].
    destruct (Z.max_spec m (g x)) as [ [_ E']|[_ E'] ]; rewrite E' in *; [right; exists x; split; [by left|done]|by left].
Qed.

(** The earliest start and the latest end, of events with times. *)
Lemma findMin_spec l :
  l <> [] -> Forall (fun k => 0 <= ev_startTs k <= MaxUint64) l ->
  (forall k, k ∈ l -> findMinTimestamp l true <= ev_startTs k) /\
  exists k, k ∈ l /\ findMinTimestamp l true = ev_startTs k.
Proof.
  intros Hne Hr. destruct (foldl_min ev_startTs l MaxUint64 ltac:(lia)) as (H1 & H2 & H3).
  unfold findMinTimestamp. split; [done|]. destruct H3 as [E|?]; [|done].
  destruct l as [|k l]; [done|]. exists k. split; [by left|]. apply Forall_cons in Hr as [Hk _].
  specialize (H2 k ltac:(by left)). lia.
Qed.

Lemma findMax_spec l :
  l <> [] -> (forall k, k ∈ l -> GetEndTs k <= findMaxTimestamp l false) /\
  exists k, k ∈ l /\ findMaxTimestamp l false = GetEndTs k.
Proof.
  intros Hne. destruct (foldl_max GetEndTs l 0) as (H1 & H2 & H3). unfold findMaxTimestamp. split; [done|].
  destruct H3 as [E|?]; [|done]. destruct l as [|k l]; [done|]. exists k. split; [by left|].
  specialize (H2 k ltac:(by left)). pose proof (u64_range (ev_startTs k + ev_tsDelta k)). unfold GetEndTs in *. lia.
Qed.

End Stat.
