(* ===== verification/TimeLine.v ===== *)
(** * The time line of a request

    The point of the program, put together: events of the probes, recorded in whatever
    order they arrive ([KernEvents.v]), and a request matched with its response
    ([AgentConn.v]) give an annotated record ([Stat.v]) that names, for each step of the
    way, exactly the system calls and packets that carried bytes of the message.  On an
    encrypted connection the way leads over the SSL events, which name the ciphertext of
    the message. *)

From stdpp Require Import gmap list sorting strings.
From Stdlib Require Import ZArith Lia.
From S2P Require Import Prelude.
From S2P Require Import Types.
From S2P Require Import GoBase.
From S2P Require Import Float64.
From S2P Require Import StreamBuffer.
From S2P Require Import RingBuffer.
From S2P Require Import KernEvents.
From S2P Require Import Protocol.
From S2P Require Import Mysql.
From S2P Require Import AgentConn.
From S2P Require Import ConnManager.
From S2P Require Import Stat.
Local Open Scope Z_scope.
Local Open Scope model_scope.

(** ** Recording events *)

(** An event with data, in the ranges of its fields. *)
Definition data_event (e : kern_evt) : Prop :=
  0 <= ke_seq e < 4294967296 /\ 0 < ke_len e < 4294967296 /\ 0 <= ke_ts e /\ 0 <= ke_ts_delta e /\
  ke_ts e + ke_ts_delta e < 18446744073709551616.

Definition of_step (st : step_t) (es : list kern_evt) : list kern_evt := filter (fun e => ke_step e = st) es.

(** The entries [l] of a step are the events [es] of that step, in the order of their
    positions. *)
Definition records (st : step_t) (es : list kern_evt) (l : list KernEvent) : Prop :=
  exists ks, Forall2 entry_of ks l /\ ks ≡ₚ of_step st es.

Section Recording.
Variable ifname : Z -> Z -> option string.

Lemma records_insert st es l1 l2 e k :
  records st es (l1 ++ l2) -> entry_of e k -> ke_step e = st -> records st (e :: es) (l1 ++ k :: l2).
Proof.
  intros (ks & Hf & Hp) Hk Hst. apply Forall2_app_inv_r in Hf as (k1 & k2 & H1 & H2 & ->).
  exists (k1 ++ e :: k2). split; [by apply Forall2_app; [|constructor]|].
  unfold of_step in *. rewrite filter_cons_True by done. rewrite <- Hp. symmetry. apply Permutation_middle.
Qed.

Lemma records_members st es l k : records st es l -> k ∈ l -> exists e, e ∈ es /\ ke_step e = st /\ entry_of e k.
Proof.
  intros (ks & Hf & Hp) [i Hi]%list_elem_of_lookup. destruct (Forall2_lookup_r _ _ _ _ _ Hf Hi) as (e & He & Hk).
  apply list_elem_of_lookup_2 in He. rewrite Hp in He. apply list_elem_of_filter in He as [Hst He]. by exists e.
Qed.

Lemma records_length st es l : records st es l -> zlen l = zlen (of_step st es).
Proof.
  intros (ks & Hf & Hp). unfold zlen. by rewrite <- (Forall2_length _ _ _ Hf), Hp.
Qed.

(** Events with different positions are all recorded, whatever their order. *)
Lemma add_events_records es : forall s f done,
  stream_holds s f -> egressDiscardSeq s = 0 -> ingressDiscardSeq s = 0 ->
  (forall st, records st done (f st)) ->
  Forall data_event es -> NoDup ((fun e => (ke_step e, ke_seq e)) <$> (rev es ++ done)) ->
  (forall st, zlen (of_step st (rev es ++ done)) <= maxLen s) ->
  exists s' f', add_events ifname s es = Ret (replicate (length es) true, s') /\ stream_holds s' f' /\
    forall st, records st (rev es ++ done) (f' st).
Proof.
  induction es as [|e es IH]; intros s f don Hs Heg Hin Hrec Hes Hnd Hmax; cbn [add_events rev length replicate].
  { exists s, f. by split. }
  apply Forall_cons in Hes as [He Hes]. destruct (AddKernEvent_spec ifname s f e Hs) as (r & s1 & l' & -> & Hs1 & Hm & Ha & Heg1 & Hin1).
  assert (Hkept : forall st, kept s f st = f st).
  { intros st. unfold kept. cbv zeta. by destruct (IsEgressStep st); rewrite ?Heg, ?Hin. }
  rewrite Hkept in Ha. cbn [rev] in Hnd, Hmax. rewrite <- app_assoc in Hnd, Hmax. cbn [app] in Hnd, Hmax.
  assert (Hfresh : Forall (fun k => ev_seq k <> ke_seq e) (f (ke_step e))).
  { apply Forall_forall. intros k Hk E. destruct (records_members _ _ _ _ (Hrec (ke_step e)) Hk) as (e' & He' & Hst & Hent & _).
    rewrite fmap_app, fmap_cons in Hnd. apply NoDup_app in Hnd as (_ & _ & Hnd). apply NoDup_cons in Hnd as [Hnd _].
    apply Hnd, list_elem_of_fmap. exists e'. split; [|done]. f_equal; congruence. }
  assert (Hroom : zlen (f (ke_step e)) < maxLen s).
  { rewrite (records_length _ _ _ (Hrec (ke_step e))). specialize (Hmax (ke_step e)). unfold of_step, zlen in *.
    rewrite filter_app, filter_cons_True, length_app in Hmax by done. cbn [length] in Hmax. lia. }
  assert (Hadd : r = true /\ records (ke_step e) (e :: don) l').
  { destruct He as (_ & Hlen & _). destruct Ha as [H|old r' _ Hold Hq _|_ _ Hfull|l1 l2 k _ El _ _ _ Hent]; [lia| |lia|].
    - rewrite Forall_forall in Hfresh. by destruct (Hfresh old).
    - split; [done|]. pose proof (Hrec (ke_step e)) as Hr. rewrite El in Hr. by apply records_insert. }
  destruct Hadd as [-> Hl']. unfold go_then. cbn [mbind go_bind].
  destruct (IH s1 (upd (kept s f) (ke_step e) l') (e :: don)) as (s2 & f2 & -> & Hs2 & Hrec2); rewrite ?Heg1, ?Hin1, ?Hm; try done.
  - intros st. unfold upd. case_decide as E; [by subst|]. rewrite Hkept. destruct (Hrec st) as (ks & Hf & Hp).
    exists ks. split; [done|]. unfold of_step. by rewrite filter_cons_False.
  - exists s2, f2. cbn [mbind go_bind]. split; [done|]. split; [done|]. intros st. rewrite <- app_assoc. apply Hrec2.
Qed.
End Recording.

(** ** SSL events are kept apart *)

Definition same_ssl (s s' : KernEventStream) : Prop :=
  sslInEvents s' = sslInEvents s /\ sslOutEvents s' = sslOutEvents s.

Lemma discard_same_ssl s s' : discardEventsIfNeeded s = Ret s' -> same_ssl s s'.
Proof.
  assert (H1 : forall s q eg s', discardEventsBySeq s q eg = Ret s' -> same_ssl s s').
  { intros s0 q eg s1 (m & _ & [= <-])%go_bind_inv. by split. }
  unfold discardEventsIfNeeded. intros (s1 & E1 & E2)%go_bind_inv.
  assert (Ha : same_ssl s s1) by (destruct (egressDiscardSeq s =? 0); [by injection E1 as <-|by eapply H1]).
  assert (Hb : same_ssl s1 s') by (destruct (ingressDiscardSeq s1 =? 0); [by injection E2 as <-|by eapply H1]).
  destruct Ha, Hb. split; congruence.
Qed.

Section Ssl.
Variable ifname : Z -> Z -> option string.

Lemma AddKernEvent_same_ssl s e r s' : AddKernEvent ifname s e = Ret (r, s') -> same_ssl s s'.
Proof.
  unfold AddKernEvent. intros (s1 & E1 & E)%go_bind_inv. apply discard_same_ssl in E1 as [H1 H2].
  destruct (ke_len e >? 0); [|injection E as <- <-; by split].
  apply go_bind_inv in E as (ring & _ & E). unfold go_then in E.
  apply go_bind_inv in E as ([i found] & _ & (old & _ & E)%go_bind_inv).
  destruct (choose e _ old) as [|k]; [injection E as <- <-; by split|].
  destruct (if _ || _ then _ else _) as [k' st']. destruct k' as [k'|]; [|injection E as <- <-; by split].
  destruct found; [injection E as <- <-; by split|]. apply go_bind_inv in E as ([err ring'] & _ & E).
  destruct err; injection E as <- <-; by split.
Qed.

Lemma add_events_same_ssl es : forall s rs s', add_events ifname s es = Ret (rs, s') -> same_ssl s s'.
Proof.
  induction es as [|e es IH]; intros s rs s' E; cbn [add_events] in E; [by injection E as <- <-|].
  unfold go_then in E. apply go_bind_inv in E as ([r s1] & E1 & ([rs1 s2] & E2 & [= <- <-])%go_bind_inv).
  apply AddKernEvent_same_ssl in E1 as []. apply IH in E2 as []. split; congruence.
Qed.
End Ssl.

(** ** The events that carried a message *)

(** The bytes of [e] meet the positions [r]. *)
Definition meets (r : Z * Z) (e : kern_evt) : Prop := ke_seq e < r.1 + r.2 /\ r.1 < ke_seq e + ke_len e.
#[export] Instance meets_dec r e : Decision (meets r e).
Proof. unfold meets. apply _. Defined.

Definition carriers (es : list kern_evt) (st : step_t) (r : Z * Z) : list kern_evt :=
  filter (fun e => ke_step e = st /\ meets r e) es.

Definition detail (e : kern_evt) : PacketEventDetail := mk_PacketEventDetail (ke_len e) (ke_ts e).

(** [ds] lists the events of the step that carried the positions [r]: all of them,
    nothing else, and in the order of the stream. *)
Definition lists (es : list kern_evt) (st : step_t) (r : Z * Z) (ds : list PacketEventDetail) : Prop :=
  exists ks, ks ≡ₚ carriers es st r /\ StronglySorted (fun a b => ke_seq a < ke_seq b) ks /\ ds = detail <$> ks.

Lemma Forall2_filter_entries r ks l :
  Forall2 entry_of ks l -> Forall2 entry_of (filter (meets r) ks) (filter (overlaps r.1 (r.1 + r.2)) l).
Proof.
  induction 1 as [|e k ks l Hk Hf IH]; [done|]. rewrite !filter_cons.
  assert (Hiff : meets r e <-> overlaps r.1 (r.1 + r.2) k).
  { destruct Hk as (Hq & Hl & _). unfold meets, overlaps. rewrite Hq, Hl. done. }
  case_decide; case_decide; try tauto. by constructor.
Qed.

Lemma filter_filter_step es st r : filter (meets r) (of_step st es) = carriers es st r.
Proof.
  unfold of_step, carriers. induction es as [|e es IH]; [done|]. rewrite !filter_cons.
  repeat case_decide; rewrite ?filter_cons; repeat case_decide; try tauto; by rewrite IH.
Qed.

(** What the record of events delivers, in terms of the events of the probes. *)
Lemma records_carried es st (f : step_t -> list KernEvent) r :
  records st es (f st) -> StronglySorted earlier (f st) ->
  exists ks, Forall2 entry_of ks (carried f st r) /\ ks ≡ₚ carriers es st r /\
    StronglySorted (fun a b => ke_seq a < ke_seq b) ks.
Proof.
  intros (ks & Hf & Hp) Hs. exists (filter (meets r) ks). split_and!.
  - by apply Forall2_filter_entries.
  - by rewrite Hp, filter_filter_step.
  - apply filter_sorted. clear Hp. induction Hf as [|e k ks l Hk Hf IH]; [constructor|].
    apply StronglySorted_inv in Hs as [Hs Hk']. constructor; [by apply IH|]. apply Forall_forall. intros e' [i Hi]%list_elem_of_lookup.
    destruct (Forall2_lookup_l _ _ _ _ _ Hf Hi) as (k' & Hk2 & He2). rewrite Forall_forall in Hk'.
    apply list_elem_of_lookup_2 in Hk2. specialize (Hk' k' Hk2). destruct Hk as (Hq & _), He2 as (Hq2 & _).
    unfold earlier in Hk'. lia.
Qed.

Lemma entries_details ks l : Forall2 entry_of ks l -> KernEventsToEventDetails l = detail <$> ks.
Proof.
  unfold KernEventsToEventDetails. induction 1 as [|e k ks l (Hq & Hl & Ht & _) Hf IH]; [done|]. cbn. rewrite IH.
  unfold detail. by rewrite Hl, Ht.
Qed.

Lemma nic_details l : nic_detail <$> KernEventsToNicEventDetails l = KernEventsToEventDetails l.
Proof. unfold KernEventsToNicEventDetails, KernEventsToEventDetails. by rewrite <- list_fmap_compose. Qed.

Lemma carried_lists es st f r :
  records st es (f st) -> StronglySorted earlier (f st) -> lists es st r (KernEventsToEventDetails (carried f st r)).
Proof.
  intros Hr Hs. destruct (records_carried es st f r Hr Hs) as (ks & Hf & Hp & Ho). exists ks. split_and!; [done..|].
  by apply entries_details.
Qed.

(** ** The time line *)

Section TimeLine.
Context {T P M : Type} `{TreeMap T} `{ParsedMessage M}.
Variable ifname : Z -> Z -> option string.
Variable traceDevEvent traceSocketEvent : bool.
Abbreviation connection := (connection (T := T) (P := P) (M := M)).
Implicit Types (c : connection) (r : Record_ M).

Definition with_events (s : KernEventStream) c : connection :=
  c <| stream ::= fun st => st <| StreamEvents := s |> |>.

(** Events that fit into the rings of a connection that has none yet. *)
Record fits_in c (es : list kern_evt) : Prop := mk_fits_in {
  fit_none : kernEvents (StreamEvents (stream c)) = ∅;
  fit_marks : egressDiscardSeq (StreamEvents (stream c)) = 0 /\ ingressDiscardSeq (StreamEvents (stream c)) = 0;
  fit_max : 0 < maxLen (StreamEvents (stream c));
  fit_data : Forall data_event es;
  fit_apart : NoDup ((fun e => (ke_step e, ke_seq e)) <$> es);
  fit_room st : zlen (of_step st es) <= maxLen (StreamEvents (stream c));
}.

Lemma fits_recorded c es :
  fits_in c es ->
  exists s' f, add_events ifname (StreamEvents (stream c)) es = Ret (replicate (length es) true, s') /\
    same_ssl (StreamEvents (stream c)) s' /\ stream_holds s' f /\
    forall st, records st es (f st) /\ StronglySorted earlier (f st) /\ Forall in_range (f st).
Proof.
  intros [Hn [He Hi] Hm Hd Ha Hr]. set (s := StreamEvents (stream c)) in *.
  assert (Hrev : forall st, of_step st (rev es) ≡ₚ of_step st es).
  { intros st. unfold of_step. by rewrite <- Permutation_rev. }
  destruct (add_events_records ifname es s (fun _ => []) []) as (s' & f & E & Hs & Hrec); rewrite ?app_nil_r; try done.
  - split; [done|]. intros st. by rewrite Hn.
  - intros st. exists []. by split.
  - by rewrite <- Permutation_rev.
  - intros st. unfold zlen. rewrite Hrev. apply Hr.
  - exists s', f. split; [done|]. split; [by eapply add_events_same_ssl|]. split; [done|]. intros st.
    specialize (Hrec st). rewrite app_nil_r in Hrec. destruct Hrec as (ks & Hf & Hp). rewrite Hrev in Hp. split_and!.
    + by exists ks.
    + destruct Hs as [_ Hs]. specialize (Hs st). destruct (kernEvents s' !! st); [by destruct Hs as (_ & _ & ?)|].
      rewrite Hs. constructor.
    + apply Forall_forall. intros k Hk. destruct (records_members st es (f st) k) as (e & He' & _ & Hq & Hl & _); [by exists ks|done|].
      rewrite Forall_forall in Hd. destruct (Hd e He') as (H1 & H2 & _). unfold in_range. lia.
Qed.

Lemma wire_range_same c s egress m :
  same_ssl (StreamEvents (stream c)) s -> wire_range (with_events s c) egress m = wire_range c egress m.
Proof.
  intros [Hi Ho]. unfold wire_range, with_events, FindSslEventsBySeqAndLen. do 2 fsimp_goal. by rewrite Hi, Ho.
Qed.

(** The record of a connection that has recorded [es]. *)
Lemma record_prepared r c es :
  fits_in c es ->
  let server := IsServerSide (stream c) in
  let eg := getParsedMessageBySide r server DirectEgress in
  let ing := getParsedMessageBySide r server DirectIngress in
  let e := wire_range c true eg in
  let i := wire_range c false ing in
  range_ok e -> range_ok i ->
  exists s' f sw sr, add_events ifname (StreamEvents (stream c)) es = Ret (replicate (length es) true, s') /\
    (forall st, records st es (f st) /\ StronglySorted earlier (f st)) /\
    prepareEvents traceDevEvent traceSocketEvent r (with_events s' c) = Ret (mk_events sw sr (carried f SYSCALL_OUT e) (carried f SYSCALL_IN i)
    (if traceDevEvent then carried f DEV_OUT e else [])
    (if traceDevEvent then if zlen (carried f NIC_IN i) =? 0 then carried f DEV_IN i else carried f NIC_IN i else [])
    (if traceSocketEvent then carried f USER_COPY i else []) (if traceSocketEvent then carried f TCP_IN i else [])
    eg ing (MsgSeq ing) (MsgSeq eg) i.1 e.1 i.2 e.2) /\
    (ssl (stream c) = false -> sw = [] /\ sr = []).
Proof.
  intros Hfit server eg ing e i He Hi. destruct (fits_recorded c es Hfit) as (s' & f & E & Hssl & Hs & Hf).
  destruct (prepare_exact traceDevEvent traceSocketEvent r (with_events s' c) f) as (sw & sr & Hp & Hplain).
  - done.
  - intros st. apply Hf.
  - by rewrite wire_range_same.
  - by rewrite wire_range_same.
  - exists s', f, sw, sr. split; [done|]. split; [intros st; split; apply Hf|]. split; [|done].
    rewrite Hp. by rewrite !wire_range_same.
Qed.


(** ** Durations *)

Definition end_of_event (e : kern_evt) : Z := ke_ts e + ke_ts_delta e.

Lemma entry_end e k : data_event e -> entry_of e k -> GetEndTs k = end_of_event e.
Proof.
  intros (_ & _ & Ht & Hd & Hr) (_ & _ & E1 & E2 & _). unfold GetEndTs, end_of_event. rewrite E1, E2. apply u64_small. lia.
Qed.

Lemma entries_first ks l :
  Forall2 entry_of ks l -> Forall data_event ks -> ks <> [] ->
  exists e, e ∈ ks /\ findMinTimestamp l true = ke_ts e /\ Forall (fun e' => ke_ts e <= ke_ts e') ks.
Proof.
  intros Hf Hd Hne. assert (Hl : l <> []) by (intros ->; by apply Forall2_nil_inv_r in Hf).
  destruct (findMin_spec l Hl) as (Hle & k & Hk & E).
  { apply Forall_forall. intros k [i Hi]%list_elem_of_lookup. destruct (Forall2_lookup_r _ _ _ _ _ Hf Hi) as (e & He & _ & _ & Ht & _).
    apply list_elem_of_lookup_2 in He. rewrite Forall_forall in Hd. destruct (Hd e He) as (_ & _ & ?). unfold MaxUint64. lia. }
  apply list_elem_of_lookup in Hk as (i & Hi). destruct (Forall2_lookup_r _ _ _ _ _ Hf Hi) as (e & He & _ & _ & Ht & _).
  exists e. split; [by eapply list_elem_of_lookup_2|]. split; [congruence|]. apply Forall_forall. intros e' [j Hj]%list_elem_of_lookup.
  destruct (Forall2_lookup_l _ _ _ _ _ Hf Hj) as (k' & Hk' & _ & _ & Ht' & _). apply list_elem_of_lookup_2 in Hk'.
  specialize (Hle k' Hk'). lia.
Qed.

Lemma entries_last ks l :
  Forall2 entry_of ks l -> Forall data_event ks -> ks <> [] ->
  exists e, e ∈ ks /\ findMaxTimestamp l false = end_of_event e /\ Forall (fun e' => end_of_event e' <= end_of_event e) ks.
Proof.
  intros Hf Hd Hne. assert (Hl : l <> []) by (intros ->; by apply Forall2_nil_inv_r in Hf).
  rewrite Forall_forall in Hd. destruct (findMax_spec l Hl) as (Hle & k & Hk & E).
  apply list_elem_of_lookup in Hk as (i & Hi). destruct (Forall2_lookup_r _ _ _ _ _ Hf Hi) as (e & He & Hent).
  apply list_elem_of_lookup_2 in He. pose proof (entry_end e k (Hd e He) Hent) as Ee.
  exists e. split; [done|]. split; [congruence|]. apply Forall_forall. intros e' [j Hj]%list_elem_of_lookup.
  destruct (Forall2_lookup_l _ _ _ _ _ Hf Hj) as (k' & Hk' & Hent'). apply list_elem_of_lookup_2 in Hk', Hj.
  specialize (Hle k' Hk'). rewrite (entry_end e' k' (Hd e' Hj) Hent') in Hle. lia.
Qed.

(** The times of a client's record, when the calls that carried it are known. *)
Lemma client_times st c ev a :
  ssl (stream c) = false -> zlen (readSyscallEvents ev) <> 0 -> zlen (writeSyscallEvents ev) <> 0 ->
  let x := annotate_client traceSocketEvent st c ev a in
  StartTs x = findMinTimestamp (writeSyscallEvents ev) true /\ EndTs x = findMaxTimestamp (readSyscallEvents ev) false /\
  TotalDuration x = float_diff (EndTs x) (StartTs x).
Proof.
  intros Hssl Hr Hw x.
  assert (Er : negb (zlen (readSyscallEvents ev) =? 0) = true) by (by rewrite (proj2 (Z.eqb_neq _ 0))).
  assert (Ew : negb (zlen (writeSyscallEvents ev) =? 0) = true) by (by rewrite (proj2 (Z.eqb_neq _ 0))).
  assert (Ec : canCalculateReadPathTime c ev = true /\ canCalculateWritePathTime c ev = true)
    by (unfold canCalculateReadPathTime, canCalculateWritePathTime; by rewrite Hssl).
  destruct Ec as [Ec1 Ec2]. unfold x, annotate_client. rewrite Er, Ew, Ec1, Ec2. by repeat split.
Qed.


End TimeLine.

(** ** Ciphertext *)

(** The SSL events [es] name consecutive pieces of ciphertext from [start] on. *)
Fixpoint ciphertext_tiles (start : Z) (es : list SslEvent) : Prop :=
  match es with
  | [] => True
  | e :: es => KernSeq e = start /\ 0 < KernLen e /\ ciphertext_tiles (start + KernLen e) es
  end.
Definition ciphertext_len (es : list SslEvent) : Z := foldr (fun e n => KernLen e + n) 0 es.

Lemma ciphertext_len_nonneg start es : ciphertext_tiles start es -> 0 <= ciphertext_len es.
Proof.
  revert start. induction es as [|e es IH]; intros start Ht; [done|]. destruct Ht as (_ & ? & Ht). specialize (IH _ Ht).
  change (0 <= KernLen e + ciphertext_len es). lia.
Qed.

Lemma tiles_have_kern start es : ciphertext_tiles start es -> filter (fun e => has_kern e = true) es = es.
Proof.
  revert start. induction es as [|e es IH]; intros start Ht; [done|]. destruct Ht as (_ & Hl & Ht).
  rewrite filter_cons_True; [by rewrite (IH _ Ht)|]. unfold has_kern. rewrite (proj2 (Z.eqb_neq (KernLen e) 0)) by lia.
  by rewrite orb_true_r.
Qed.

Lemma tiles_last_end start es e :
  ciphertext_tiles start es -> last es = Some e ->
  KernSeq e + KernLen e = start + ciphertext_len es /\ start <= KernSeq e /\ 0 < KernLen e.
Proof.
  revert start. induction es as [|e0 es IH]; intros start Ht Hl; [done|]. destruct Ht as (Hs & Hpos & Ht).
  change (ciphertext_len (e0 :: es)) with (KernLen e0 + ciphertext_len es).
  destruct es as [|e1 es]; [injection Hl as <-; cbn; lia|]. change (last (e1 :: es) = Some e) in Hl.
  destruct (IH _ Ht Hl) as (H1 & H2 & H3). lia.
Qed.

Lemma getKernSeqAndLen_tiles start es :
  ciphertext_tiles start es -> es <> [] -> 0 <= start -> start + ciphertext_len es < 9223372036854775808 ->
  getKernSeqAndLen es = (start, ciphertext_len es).
Proof.
  intros Ht Hne Hs Hr. unfold getKernSeqAndLen. rewrite (tiles_have_kern start es Ht).
  pose proof (ciphertext_len_nonneg _ _ Ht). destruct (last es) as [e|] eqn:Hl; [|by apply last_None in Hl].
  destruct (tiles_last_end start es e Ht Hl) as (H1 & H2 & H3).
  destruct es as [|e0 es]; [done|]. cbn [head]. destruct Ht as (Hq & Hpos & Ht). rewrite Hq, (s64_small start) by lia.
  rewrite (proj2 (Z.eqb_neq start (-1))) by lia. rewrite u64_small, (s64_small (KernSeq e)), (s64_small (KernLen e + KernSeq e)), s64_small by lia.
  f_equal. lia.
Qed.

Section Encrypted.
Context {T P M : Type} `{TreeMap T} `{ParsedMessage M}.

(** From plaintext to ciphertext.  On an encrypted connection, when the SSL events
    whose plaintext starts within a message name consecutive ciphertext, the positions
    that are looked up for the message are those of that ciphertext, from its first
    byte to its last, and the times of the system calls and packets found there count. *)
Theorem ssl_wire_range (c : connection (T := T) (P := P) (M := M)) (egress : bool) (m : M) (start : Z)
    (Hssl : ssl (stream c) = true)
    (Hsorted : ssl_sorted (ssl_list (negb egress) (StreamEvents (stream c))))
    (Hrange : 0 <= MsgSeq m /\ 0 <= ByteSize m /\ MsgSeq m + ByteSize m < 18446744073709551616) :
  let es := filter (fun e => MsgSeq m <= Seq e < MsgSeq m + ByteSize m)
              (ssl_list (negb egress) (StreamEvents (stream c))) in
  es <> [] -> ciphertext_tiles start es -> 0 <= start -> start + ciphertext_len es < 9223372036854775808 ->
  wire_range c egress m = (start, ciphertext_len es) /\ isKernEvtCanMatchSslEvt es = true.
Proof.
  intros es Hne Ht Hs Hr.
  assert (Hes : FindSslEventsBySeqAndLen (StreamEvents (stream c)) (if egress then SSL_OUT else SSL_IN) (MsgSeq m) (ByteSize m) = es).
  { unfold FindSslEventsBySeqAndLen. rewrite (u64_small (ByteSize m)), u64_small by lia.
    unfold es, ssl_list in *. destruct egress; cbn [negb] in *; by apply find_ssl_filter. }
  unfold wire_range. rewrite Hssl, Hes. split; [by apply getKernSeqAndLen_tiles|].
  clear -Ht. clearbody es. revert start Ht. induction es as [|e es IH]; intros start Ht; [done|]. destruct Ht as (_ & Hl & Ht). cbn.
  rewrite (proj2 (Z.eqb_neq _ 0)) by lia. by apply (IH _ Ht).
Qed.

End Encrypted.

(** ** Examples *)

Definition example_connection : Type := connection (T := gmap Z Z) (P := unit) (M := MysqlPacket).

(** A client's connection, a query of 10 bytes written by two calls in one packet, and a
    response of 20 bytes read by one call. *)
Definition client_connection : example_connection :=
  connection_of 0 (connect_event 80 100) <| stream ::= fun s => s <| Role := kRoleClient |> |>.

Definition call (st : step_t) (sq len ts : Z) : kern_evt :=
  kern_evt_zero <| ke_step := st |> <| ke_seq := sq |> <| ke_len := len |> <| ke_ts := ts |> <| ke_ts_delta := 30 |>.

Definition query_events : list kern_evt :=
  [call SYSCALL_IN 1 20 5000; call SYSCALL_OUT 5 6 2000; call DEV_OUT 1 10 2100; call SYSCALL_OUT 1 4 1000;
   call DEV_IN 1 20 4000; call SYSCALL_OUT 11 3 9000].

Definition query_record : Record_ MysqlPacket :=
  mk_Record (mk_MysqlPacket (mk_FrameBase 1000 10 1) 0 [] 0 true) (mk_MysqlPacket (mk_FrameBase 5030 20 1) 1 [] 0 false).

Lemma query_events_fit : fits_in client_connection query_events.
Proof.
  split; [done|done|done| | |].
  - repeat (apply Forall_cons_2; [by vm_compute|]). apply Forall_nil_2.
  - apply (bool_decide_unpack _). by vm_compute.
  - intros st. unfold zlen. pose proof (length_filter (fun e => ke_step e = st) query_events) as Hl.
    change (length query_events) with 6%nat in Hl. change (maxLen _) with 300. unfold of_step. lia.
Qed.



(** An encrypted query of 300 bytes, written by two SSL calls, whose ciphertext has the
    positions 1 to 358. *)
Definition encrypted_connection : example_connection :=
  client_connection <| stream ::= fun s => s <| ssl := true |> <| StreamEvents ::= fun e => e <| sslOutEvents :=
    [mk_SslEvent 1 1 200 229 1000 10 SSL_OUT; mk_SslEvent 201 230 100 129 1100 10 SSL_OUT] |> |> |>.

Lemma ssl_wire_range_witness :
  wire_range encrypted_connection true (mk_MysqlPacket (mk_FrameBase 1000 300 1) 0 [] 0 true) = (1, 358).
Proof.
  destruct (ssl_wire_range encrypted_connection true (mk_MysqlPacket (mk_FrameBase 1000 300 1) 0 [] 0 true) 1) as [E _];
    [reflexivity|by repeat constructor|by vm_compute|by vm_compute|by vm_compute|lia|by vm_compute|exact E].
Defined.
