(* ===== verification/Records.v ===== *)
(** * Records waiting to be analysed

    [src/agent/conn/record_processor.go]: matched records are collected, and once a second
    those whose response is at least a second old are handed on in the order of their
    requests, if they pass the filters of [src/agent/protocol/generic_filter.go].

    - The comparison with the clock and the latency are [float64] computations with
      fractions; they are done with the binary64 operations of [SpecFloat].
    - [slices.SortFunc] is not stable, so that the order of records with the same time is
      not fixed; [SortFunc] says what a sort does.
    - [RecordFunc], which receives a record ([ReceiveRecord] of [Stat.v]), is what the
      returned list is for. *)

From stdpp Require Import gmap list sorting.
From Stdlib Require Import ZArith Lia Floats.SpecFloat.
From S2P Require Import Prelude.
From S2P Require Import Types.
From S2P Require Import GoBase.
From S2P Require Import StreamBuffer.
From S2P Require Import Protocol.
From S2P Require Import Mysql.
From S2P Require Import AgentConn.
From S2P Require Import ConnManager.
Local Open Scope Z_scope.
Local Open Scope model_scope.

(** ** [float64] *)

Definition float64 (z : Z) : spec_float := binary_normalize 53 1024 z 0 false.
Definition fdiv (a b : spec_float) : spec_float := SFdiv 53 1024 a b.
Definition fminus (a b : spec_float) : spec_float := SFsub 53 1024 a b.
(** [a >= b] *)
Definition fge (a b : spec_float) : bool := SFleb b a.

Definition NanoToMills (x : Z) : spec_float := fdiv (float64 x) (float64 1000000).

(** ** Filters *)

Record ProtocolFilter (M : Type) := mk_ProtocolFilter {
  Filter : option M -> option M -> bool;
  FilterByProtocol : traffic_protocol_t -> bool;
  FilterByRequest : bool;
  FilterByResponse : bool;
}.
Arguments mk_ProtocolFilter {M}.
Arguments Filter {M}.
Arguments FilterByProtocol {M}.
Arguments FilterByRequest {M}.
Arguments FilterByResponse {M}.

Definition NoopFilter {M} : ProtocolFilter M := mk_ProtocolFilter (fun _ _ => true) (fun _ => true) false false.
Definition BaseFilter {M} : ProtocolFilter M :=
  mk_ProtocolFilter (fun _ _ => true) (fun p => negb (bool_decide (p = kProtocolUnknown))) false false.

Record LatencyFilter := mk_LatencyFilter { MinLatency : spec_float }.
Definition filter_latency (f : LatencyFilter) (latency : spec_float) : bool :=
  if fge (float64 0) (MinLatency f) then true else fge latency (MinLatency f).

Record SizeFilter := mk_SizeFilter { MinReqSize : Z; MinRespSize : Z }.
Definition FilterByReqSize (f : SizeFilter) (reqSize : Z) : bool :=
  if MinReqSize f <=? 0 then true else reqSize >=? MinReqSize f.
Definition FilterByRespSize (f : SizeFilter) (respSize : Z) : bool :=
  if MinRespSize f <=? 0 then true else respSize >=? MinRespSize f.

(** ** The processor of records *)

(** [slices.SortFunc] by a key. *)
Class SortFunc := {
  sort_by {A} : (A -> Z) -> list A -> list A;
  sort_perm {A} (key : A -> Z) (l : list A) : sort_by key l ≡ₚ l;
  sort_sorted {A} (key : A -> Z) (l : list A) : StronglySorted (fun a b => key a <= key b) (sort_by key l);
}.

Section Processor.
Context {T P M : Type} `{TreeMap T} `{ParsedMessage M} `{SortFunc}.
Variable GetParserByProtocol : traffic_protocol_t -> option P.
Variable MessageFilter : ProtocolFilter M.
Variable Latency : LatencyFilter.
Variable Size : SizeFilter.
Abbreviation connection := (connection (T := T) (P := P) (M := M)).

Definition RecordWithConn : Type := Record_ M * connection.

(** [submitRecord]: whether the record is handed to [RecordFunc]. *)
Definition submitRecord (record : Record_ M) (c : connection) : bool :=
  let duration := u64 (TimestampNs (Resp record) - TimestampNs (Req record)) in
  let needSubmit := FilterByProtocol MessageFilter (conn_protocol c) &&
    filter_latency Latency (fdiv (float64 duration) (float64 1000000)) &&
    FilterByReqSize Size (ByteSize (Req record)) && FilterByRespSize Size (ByteSize (Resp record)) in
  let '(parser, _) := GetProtocolParser GetParserByProtocol c (conn_protocol c) in
  match needSubmit, parser with
  | true, Some _ =>
    let parsedRequest := if FilterByRequest MessageFilter then Some (Req record) else None in
    let parsedResponse := if FilterByResponse MessageFilter then Some (Resp record) else None in
    if FilterByRequest MessageFilter || FilterByResponse MessageFilter
    then Filter MessageFilter parsedRequest parsedResponse else true
  | _, _ => false
  end.

(** [float64(now)-recordMills >= 1000] *)
Definition due (now : Z) (r : RecordWithConn) : bool :=
  fge (fminus (float64 now) (NanoToMills (TimestampNs (Resp r.1)))) (float64 1000).

Definition request_time (r : RecordWithConn) : Z := TimestampNs (Req r.1).

(** The loop over the records: those that are due, and the index of the last of them
    plus one. *)
Fixpoint process_due (now : Z) (i : nat) (rs : list RecordWithConn) : list RecordWithConn * nat :=
  match rs with
  | [] => ([], 0%nat)
  | r :: rs =>
    let '(ds, n) := process_due now (S i) rs in
    if due now r then (r :: ds, Nat.max (S i) n) else (ds, n)
  end.

(** One tick: the records handed on, and those kept. *)
Definition tick (now : Z) (records : list RecordWithConn) : list RecordWithConn * list RecordWithConn :=
  let sorted := sort_by request_time records in
  let '(ds, n) := process_due now 0 sorted in
  (filter (fun r => submitRecord r.1 r.2 = true) ds, drop n sorted).

(** [Run]: records arrive ([inl]) and the ticker fires ([inr], with the time). *)
Fixpoint Run (inputs : list (RecordWithConn + Z)) (records : list RecordWithConn)
    : list RecordWithConn * list RecordWithConn :=
  match inputs with
  | [] => ([], records)
  | inl r :: inputs => Run inputs (records ++ [r])
  | inr now :: inputs =>
    let '(out, records) := match records with [] => ([], []) | _ => tick now records end in
    let '(outs, records) := Run inputs records in
    (out ++ outs, records)
  end.

(** ** What a tick does *)

Lemma process_due_spec now rs : forall i,
  let '(ds, n) := process_due now i rs in
  ds = filter (fun r => due now r = true) rs /\
  (n = 0%nat /\ ds = [] \/
   exists l1 r l2, rs = l1 ++ r :: l2 /\ n = S (i + length l1) /\ due now r = true /\ Forall (fun x => due now x = false) l2).
Proof.
  induction rs as [|r rs IH]; intros i; cbn [process_due].
  { split; [done|]. by left. }
  specialize (IH (S i)). destruct (process_due now (S i) rs) as [ds n]. destruct IH as [-> Hn].
  destruct (due now r) eqn:Ed.
  - split; [by rewrite filter_cons_True|]. right. destruct Hn as [ [-> Hnil]|(l1 & x & l2 & -> & -> & Hx & Hl2)].
    + exists [], r, rs. cbn [app length]. split_and!; [done|lia|done|]. apply Forall_forall. intros x Hx.
      destruct (due now x) eqn:E; [|done]. exfalso. eapply (not_elem_of_nil x). rewrite <- Hnil.
      by apply list_elem_of_filter.
    + exists (r :: l1), x, l2. cbn [app length]. split_and!; [done|lia|done|done].
  - split; [by rewrite filter_cons_False by (by rewrite Ed)|].
    destruct Hn as [Hn|(l1 & x & l2 & -> & -> & Hx & Hl2)]; [by left|right].
    exists (r :: l1), x, l2. cbn [app length]. split_and!; [done|lia|done|done].
Qed.

Lemma filter_split_perm {A} (Q : A -> Prop) `{!forall x, Decision (Q x)} (l : list A) :
  l ≡ₚ filter Q l ++ filter (fun x => ~ Q x) l.
Proof.
  induction l as [|x l IH]; [done|]. rewrite !filter_cons. case_decide; case_decide; try tauto; cbn [app].
  - by constructor.
  - rewrite <- Permutation_middle. by constructor.
Qed.

Lemma sorted_before {A} (key : A -> Z) (l1 l2 : list A) x y :
  StronglySorted (fun a b => key a <= key b) (l1 ++ l2) -> x ∈ l1 -> y ∈ l2 -> key x <= key y.
Proof. intros Hs Hx Hy. apply StronglySorted_app in Hs as (H12 & _). by apply H12. Qed.

(** The records of a tick: handed on, kept, or lost because a record whose request came
    later was due and they were not. *)
Lemma tick_accounts now records :
  let '(out, rest) := tick now records in
  exists ds lost, records ≡ₚ ds ++ rest ++ lost /\ ds = filter (fun r => due now r = true) (sort_by request_time records) /\
    out = filter (fun r => submitRecord r.1 r.2 = true) ds /\
    Forall (fun r => due now r = false) rest /\
    Forall (fun r => due now r = false) lost /\
    (forall x, x ∈ lost -> exists y, y ∈ ds /\ request_time x <= request_time y) /\
    (forall x y, x ∈ rest -> y ∈ ds -> request_time y <= request_time x).
Proof.
  unfold tick. set (sorted := sort_by request_time records).
  pose proof (sort_sorted request_time records : StronglySorted _ sorted) as Hs.
  pose proof (sort_perm request_time records : sorted ≡ₚ records) as Hp.
  pose proof (process_due_spec now sorted 0) as Hd. destruct (process_due now 0 sorted) as [ds n].
  destruct Hd as [Eds [ [-> Hnil]|(l1 & r & l2 & El & -> & Hr & Hl2)] ].
  - exists ds, []. rewrite Hnil in *. cbn [app drop]. rewrite app_nil_r.
    assert (Hall : Forall (fun x => due now x = false) sorted).
    { apply Forall_forall. intros x Hx. destruct (due now x) eqn:E; [|done]. exfalso. eapply (not_elem_of_nil x).
      rewrite Eds. by apply list_elem_of_filter. }
    split_and!; [done|done|done|done|..].
    + by constructor.
    + by intros x ?%not_elem_of_nil.
    + by intros x y _ ?%not_elem_of_nil.
  - assert (Hdrop : drop (S (0 + length l1)) sorted = l2).
    { rewrite El. rewrite (cons_middle r l1 l2), app_assoc. apply drop_app_length'. rewrite length_app. cbn. lia. }
    rewrite Hdrop. assert (Hds : ds = filter (fun x => due now x = true) l1 ++ [r]).
    { rewrite Eds, El, filter_app, filter_cons_True by done. do 2 f_equal. apply filter_none.
      eapply Forall_impl; [exact Hl2|]. cbv beta. intros x -> ?. done. }
    exists ds, (filter (fun x => ~ due now x = true) l1). split_and!; [|done|done|done|..].
    + rewrite <- Hp, El, Hds. rewrite (filter_split_perm (fun x => due now x = true) l1) at 1.
      rewrite <- !app_assoc. apply Permutation_app_head. cbn [app]. rewrite <- Permutation_middle. constructor.
      apply Permutation_app_comm.
    + apply Forall_forall. intros x [Hx _]%list_elem_of_filter. by destruct (due now x).
    + intros x [_ Hx]%list_elem_of_filter. exists r. split.
      * rewrite Hds. apply elem_of_app. right. by left.
      * rewrite El in Hs. eapply sorted_before; [exact Hs|done|]. by left.
    + intros x y Hx Hy. rewrite El in Hs. rewrite cons_middle, app_assoc in Hs. eapply sorted_before; [exact Hs| |done].
      rewrite Hds in Hy. apply elem_of_app. apply elem_of_app in Hy as [ [_ Hy]%list_elem_of_filter|Hy]; [by left|by right].
Qed.

(** The records that arrive, and those already waiting. *)
Fixpoint arrived (inputs : list (RecordWithConn + Z)) : list RecordWithConn :=
  match inputs with
  | [] => []
  | inl r :: inputs => r :: arrived inputs
  | inr _ :: inputs => arrived inputs
  end.

(** Whenever a record is due, so are those with earlier requests. *)
Definition due_in_turn (inputs : list (RecordWithConn + Z)) (all : list RecordWithConn) : Prop :=
  Forall (fun i => match i with
    | inl _ => True
    | inr now => forall x y, x ∈ all -> y ∈ all -> request_time x <= request_time y -> due now y = true -> due now x = true
    end) inputs.

Lemma in_turn_incl inputs all all' : all' ⊆ all -> due_in_turn inputs all -> due_in_turn inputs all'.
Proof. intros Hs Hin. eapply Forall_impl; [exact Hin|]. intros [r|now]; [done|]. cbv beta iota. eauto. Qed.

Lemma tick_in_turn now records :
  due_in_turn [inr now] records ->
  let '(out, rest) := tick now records in
  exists ds, records ≡ₚ ds ++ rest /\ out = filter (fun r => submitRecord r.1 r.2 = true) ds /\
    Forall (fun r => due now r = true) ds /\ Forall (fun r => due now r = false) rest.
Proof.
  intros Hin. unfold due_in_turn in Hin. rewrite Forall_singleton in Hin. pose proof (tick_accounts now records) as Ht. destruct (tick now records) as [out rest].
  destruct Ht as (ds & lost & Hp & Hds & Hout & Hrest & Hlost & Hl & _).
  assert (Hdue : Forall (fun r => due now r = true) ds).
  { rewrite Hds. apply Forall_forall. by intros x [? _]%list_elem_of_filter. }
  exists ds. split_and!; [|done..]. destruct lost as [|x lost]; [by rewrite app_nil_r in Hp|exfalso].
  destruct (Hl x ltac:(by left)) as (y & Hy & Hle). apply Forall_cons in Hlost as [Hx _].
  assert (Hxr : x ∈ records) by (rewrite Hp, !elem_of_app; right; right; by left).
  assert (Hyr : y ∈ records) by (rewrite Hp, elem_of_app; by left).
  rewrite Forall_forall in Hdue. by rewrite (Hin x y Hxr Hyr Hle (Hdue y Hy)) in Hx.
Qed.

Lemma Run_in_turn inputs : forall records,
  due_in_turn inputs (records ++ arrived inputs) ->
  let '(out, rest) := Run inputs records in
  exists ds, records ++ arrived inputs ≡ₚ ds ++ rest /\ out = filter (fun r => submitRecord r.1 r.2 = true) ds /\
    Forall (fun r => exists now, inr now ∈ inputs /\ due now r = true) ds.
Proof.
  induction inputs as [|[r|now] inputs IH]; intros records Hin; cbn [Run arrived] in *.
  - exists []. rewrite app_nil_r. by split_and!.
  - specialize (IH (records ++ [r])). rewrite <- app_assoc in IH. cbn [app] in IH.
    apply Forall_cons in Hin as [_ Hin]. specialize (IH Hin). destruct (Run inputs _) as [out rest].
    destruct IH as (ds & Hp & Hout & Hd). exists ds. split_and!; [done..|].
    eapply Forall_impl; [exact Hd|]. intros x (now & Hn & Hx). exists now. split; [by right|done].
  - assert (Ht : let '(out, rest) := match records with [] => ([], []) | _ => tick now records end in
      exists ds, records ≡ₚ ds ++ rest /\ out = filter (fun r => submitRecord r.1 r.2 = true) ds /\
        Forall (fun r => due now r = true) ds).
    { apply Forall_cons in Hin as [Hin _]. destruct records as [|r records]; [by exists []; split_and!|].
      pose proof (tick_in_turn now (r :: records)) as Ht. destruct (tick now (r :: records)) as [out rest].
      destruct Ht as (ds & ? & ? & ? & _); [|by exists ds].
      apply Forall_singleton. intros x y Hx Hy. apply Hin; by apply elem_of_app; left. }
    destruct (match records with [] => _ | _ => _ end) as [out rest]. destruct Ht as (ds & Hp & -> & Hd).
    specialize (IH rest). destruct (Run inputs rest) as [outs rest']. destruct IH as (ds' & Hp' & -> & Hd').
    { apply Forall_cons in Hin as [_ Hin]. eapply in_turn_incl; [|exact Hin]. intros x. rewrite Hp, !elem_of_app. tauto. }
    exists (ds ++ ds'). split_and!.
    + by rewrite Hp, <- !app_assoc, Hp'.
    + by rewrite filter_app.
    + apply Forall_app. split; (eapply Forall_impl; [eassumption|]); cbv beta.
      * intros x Hx. exists now. split; [by left|done].
      * intros x (n & Hn & Hx). exists n. split; [by right|done].
Qed.

Lemma Run_last inputs now : forall records, Forall (fun r => due now r = false) (Run (inputs ++ [inr now]) records).2.
Proof.
  induction inputs as [|[r|t] inputs IH]; intros records; cbn [Run app].
  - destruct records as [|r records]; [by constructor|]. pose proof (tick_accounts now (r :: records)) as Ht.
    destruct (tick now (r :: records)) as [out rest]. by destruct Ht as (ds & lost & _ & _ & _ & ? & _).
  - apply IH.
  - destruct (match records with [] => _ | _ => _ end) as [out rest]. specialize (IH rest).
    by destruct (Run (inputs ++ [inr now]) rest).
Qed.

(** C12: as long as a record is never due before one with an earlier request, the processor
    accounts for every record: after any sequence of arrivals and ticks, the records that
    arrived are those it has dealt with, each once and at a tick at which its response was
    a second old, and those it still keeps; of the former it handed on exactly those that
    pass the filters, and if the last input is a tick none of those it keeps is due. *)
Theorem records_accounted inputs now :
  due_in_turn (inputs ++ [inr now]) (arrived (inputs ++ [inr now])) ->
  let '(out, rest) := Run (inputs ++ [inr now]) [] in
  exists dealt, arrived (inputs ++ [inr now]) ≡ₚ dealt ++ rest /\
    out = filter (fun r => submitRecord r.1 r.2 = true) dealt /\
    Forall (fun r => exists t, inr t ∈ inputs ++ [inr now] /\ due t r = true) dealt /\
    Forall (fun r => due now r = false) rest.
Proof.
  intros Hin. pose proof (Run_in_turn (inputs ++ [inr now]) [] Hin) as Hr.
  pose proof (Run_last inputs now []) as Hl.
  destruct (Run (inputs ++ [inr now]) []) as [out rest]. destruct Hr as (ds & Hp & Hout & Hd).
  by exists ds.
Qed.

(** C36: a record is lost if its response is not a second old yet when a record with a later
    request is due: the tick that hands the later one on neither hands the earlier one on
    nor keeps it, since it keeps the records behind the last one that was due. *)
Theorem slow_record_lost now records slow quick :
  slow ∈ records -> quick ∈ records -> request_time slow < request_time quick ->
  due now quick = true -> due now slow = false ->
  (slow ∉ (tick now records).1) /\ (slow ∉ (tick now records).2).
Proof.
  intros Hs Hq Hlt Hdq Hds. pose proof (tick_accounts now records) as Ht. destruct (tick now records) as [out rest].
  destruct Ht as (ds & lost & Hp & Eds & -> & _ & _ & _ & Ho). split; intros Hx.
  - apply list_elem_of_filter in Hx as [_ Hx]. rewrite Eds in Hx. apply list_elem_of_filter in Hx as [Hx _]. congruence.
  - assert (quick ∈ ds) as Hqd.
    { rewrite Eds. apply list_elem_of_filter. split; [done|]. by rewrite sort_perm. }
    specialize (Ho slow quick Hx Hqd). lia.
Qed.

End Processor.

(** ** Examples *)

#[export] Instance key_le_dec {A} (key : A -> Z) : RelDecision (fun a b => key a <= key b).
Proof. intros a b. apply Z_le_dec. Defined.
#[export] Instance key_le_total {A} (key : A -> Z) : Total (fun a b => key a <= key b).
Proof. intros a b. apply Z.le_ge_cases. Qed.
#[export] Instance key_le_trans {A} (key : A -> Z) : Transitive (fun a b => key a <= key b).
Proof. intros a b c. apply Z.le_trans. Qed.

#[export] Instance merge_SortFunc : SortFunc := {|
  sort_by A key := merge_sort (fun a b => key a <= key b);
  sort_perm A key l := merge_sort_Permutation _ l;
  sort_sorted A key l := StronglySorted_merge_sort _ l;
|}.

Definition waiting_record (request response : Z) : Record_ MysqlPacket * connection (T := gmap Z Z) (P := unit) (M := MysqlPacket) :=
  (mk_Record (mk_MysqlPacket (mk_FrameBase request 10 1) 0 [] 0 true) (mk_MysqlPacket (mk_FrameBase response 20 1) 1 [] 0 false),
   connection_of 0 (connect_event 80 100)).

(** One record was fast, one slow enough, and one is too recent at the second tick; only
    responses that took at least 5 ms are wanted. *)
Definition fast := waiting_record 1000000000 1001000000.
Definition wanted := waiting_record 1100000000 1110000000.
Definition recent := waiting_record 3000000000 3005000000.
Definition example_inputs := [inl wanted; inr 1500; inl fast; inl recent].

Lemma example_in_turn : due_in_turn (example_inputs ++ [inr 3500]) (arrived (example_inputs ++ [inr 3500])).
Proof.
  repeat (apply Forall_cons_2; [first [exact I|intros x y Hx Hy Hle Hd]|]); [..|by apply Forall_nil_2].
  all: repeat (apply elem_of_cons in Hx as [->|Hx]); try by apply not_elem_of_nil in Hx.
  all: repeat (apply elem_of_cons in Hy as [->|Hy]); try by apply not_elem_of_nil in Hy.
  all: first [by vm_compute|by vm_compute in Hd|by vm_compute in Hle].
Qed.

Lemma records_accounted_witness :
  let run := Run (fun _ => Some ()) NoopFilter (mk_LatencyFilter (float64 5)) (mk_SizeFilter 0 0) (example_inputs ++ [inr 3500]) [] in
  run = ([wanted], [recent]) /\ exists dealt, [wanted; fast; recent] ≡ₚ dealt ++ run.2.
Proof.
  pose proof (records_accounted (fun _ => Some ()) NoopFilter (mk_LatencyFilter (float64 5)) (mk_SizeFilter 0 0)
    example_inputs 3500 example_in_turn) as Hr.
  cbv zeta. destruct (Run _ _ _ _ _ _) as [out rest] eqn:E in Hr |- *. destruct Hr as (dealt & Hp & _).
  split; [|by exists dealt]. rewrite <- E. by vm_compute.
Defined.

(** The request at second 10 was answered at second 15, the one at second 11 at 14.2. *)
Definition slow := waiting_record 10000000000 15000000000.
Definition quick := waiting_record 11000000000 14200000000.

Lemma slow_record_lost_witness :
  let after := tick (fun _ => Some ()) NoopFilter (mk_LatencyFilter (float64 0)) (mk_SizeFilter 0 0) 15900 [quick; slow] in
  (slow ∉ after.1) /\ (slow ∉ after.2) /\ after = ([quick], []).
Proof.
  destruct (slow_record_lost (fun _ => Some ()) NoopFilter (mk_LatencyFilter (float64 0)) (mk_SizeFilter 0 0) 15900
    [quick; slow] slow quick) as [H1 H2]; [by right; left|by left|by vm_compute..|].
  cbv zeta. split_and!; [exact H1|exact H2|by vm_compute].
Defined.
