(* ===== verification/Redis.v ===== *)
(** * The Redis parser

    [src/agent/protocol/redis..go]: the parser of RESP, the protocol of Redis, with its
    table of commands and its filter, and the part of [decoder.go] it reads bytes with.

    - A string is its bytes.  A decoding function returns a value and the decoder behind
      it, or an error; no caller looks at the decoder after an error.
    - [ParseMessage] and [ParseArray] call each other.  Their fuel is twice the number of
      bytes left; running out of it is a panic, so that [parse_message_total] shows that
      it suffices.
    - [strings.ToUpper] is needed for the look-up of commands only, whose names are ASCII;
      of the letters that are not, two have a capital letter that is. *)

From stdpp Require Import gmap list sorting strings.
From Stdlib Require Import ZArith Lia.
From S2P Require Import Prelude.
From S2P Require Import Types.
From S2P Require Import GoBase.
From S2P Require Import StreamBuffer.
From S2P Require Import Protocol.
From S2P Require Import Records.
Local Open Scope Z_scope.
Local Open Scope model_scope.

(** The bytes of a Go string literal. *)
Definition bytes (s : string) : list Z := (fun c => Z.of_N (Ascii.N_of_ascii c)) <$> String.list_ascii_of_string s.

(** ** The decoder *)

Inductive decode_error : Set := NotFound | ResourceNotAvailble | InvalidArgument.

Record BinaryDecoder := mk_BinaryDecoder { dec_buf : list Z; dec_str : list Z; readBytes : Z }.

Definition NewBinaryDecoder (buf : list Z) : BinaryDecoder := mk_BinaryDecoder buf buf 0.

Definition dec (A : Type) : Type := BinaryDecoder -> go (decode_error + A * BinaryDecoder).
#[export] Instance dec_ret : MRet dec := fun _ a d => Ret (inr (a, d)).
#[export] Instance dec_bind : MBind dec := fun _ _ k m d =>
  r ← m d; match r with inl e => Ret (inl e) | inr (a, d) => k a d end.
Definition fail {A} (e : decode_error) : dec A := fun _ => Ret (inl e).
Definition lift {A} (m : go A) : dec A := fun d => a ← m; Ret (inr (a, d)).

(** The number of bytes read so far. *)
Definition ReadBytesSoFar : dec Z := fun d => Ret (inr (readBytes d, d)).

Definition ExtractStringUntil (sentinel : list Z) : dec (list Z) := fun d =>
  let idx := string_index (dec_str d) sentinel in
  if idx =? -1 then Ret (inl NotFound)
  else
    ret ← slice_to (dec_str d) idx;
    str ← slice_from (dec_str d) (idx + zlen sentinel);
    Ret (inr (ret, mk_BinaryDecoder (dec_buf d) str (readBytes d + (idx + zlen sentinel)))).

Definition ExtractString (length : Z) : dec (list Z) := fun d =>
  if zlen (dec_str d) <? length then Ret (inl ResourceNotAvailble)
  else
    ret ← slice_to (dec_str d) length;
    str ← slice_from (dec_str d) length;
    Ret (inr (ret, mk_BinaryDecoder (dec_buf d) str (readBytes d + length))).

Definition ExtractByte : dec Z := fun d =>
  match dec_str d with
  | [] => Ret (inl ResourceNotAvailble)
  | x :: str => Ret (inr (x, mk_BinaryDecoder (dec_buf d) str (readBytes d + 1)))
  end.

(** ** Constants *)

Definition kSimpleStringMarker : Z := 43.
Definition kErrorMarker : Z := 45.
Definition kIntegerMarker : Z := 58.
Definition kBulkStringsMarker : Z := 36.
Definition kArrayMarker : Z := 42.
Definition kTerminalSequence : list Z := [13; 10].
Definition kNullSize : Z := -1.
Definition kSizeStrMaxLen : Z := 16.
Definition bulk_maxLen : Z := 512 * 1024 * 1024.

(** The keys of [redisCommandsMap]; the values are not used. *)
Definition redisCommandsMap : list (list Z) := bytes <$> [
  "ACL LOAD"; "ACL SAVE"; "ACL LIST"; "ACL USERS"; "ACL GETUSER"; "ACL SETUSER"; "ACL DELUSER"; "ACL CAT";
  "ACL GENPASS"; "ACL WHOAMI"; "ACL LOG"; "ACL HELP"; "APPEND"; "AUTH"; "BGREWRITEAOF"; "BGSAVE"; "BITCOUNT";
  "BITFIELD"; "BITOP"; "BITPOS"; "BLPOP"; "BRPOP"; "BRPOPLPUSH"; "BLMOVE"; "BZPOPMIN"; "BZPOPMAX"; "CLIENT CACHING";
  "CLIENT ID"; "CLIENT INFO"; "CLIENT KILL"; "CLIENT LIST"; "CLIENT GETNAME"; "CLIENT GETREDIR"; "CLIENT UNPAUSE";
  "CLIENT PAUSE"; "CLIENT REPLY"; "CLIENT SETNAME"; "CLIENT TRACKING"; "CLIENT TRACKINGINFO"; "CLIENT UNBLOCK";
  "CLUSTER ADDSLOTS"; "CLUSTER BUMPEPOCH"; "CLUSTER COUNT-FAILURE-REPORTS"; "CLUSTER COUNTKEYSINSLOT";
  "CLUSTER DELSLOTS"; "CLUSTER FAILOVER"; "CLUSTER FLUSHSLOTS"; "CLUSTER FORGET"; "CLUSTER GETKEYSINSLOT";
  "CLUSTER INFO"; "CLUSTER KEYSLOT"; "CLUSTER MEET"; "CLUSTER MYID"; "CLUSTER NODES"; "CLUSTER REPLICATE";
  "CLUSTER RESET"; "CLUSTER SAVECONFIG"; "CLUSTER SET-CONFIG-EPOCH"; "CLUSTER SETSLOT"; "CLUSTER SLAVES";
  "CLUSTER REPLICAS"; "CLUSTER SLOTS"; "COMMAND"; "COMMAND COUNT"; "COMMAND GETKEYS"; "COMMAND INFO"; "CONFIG GET";
  "CONFIG REWRITE"; "CONFIG SET"; "CONFIG RESETSTAT"; "COPY"; "DBSIZE"; "DEBUG OBJECT"; "DEBUG SEGFAULT"; "DECR";
  "DECRBY"; "DEL"; "DISCARD"; "DUMP"; "ECHO"; "EVAL"; "EVALSHA"; "EXEC"; "EXISTS"; "EXPIRE"; "EXPIREAT"; "FAILOVER";
  "FLUSHALL"; "FLUSHDB"; "GEOADD"; "GEOHASH"; "GEOPOS"; "GEODIST"; "GEORADIUS"; "GEORADIUSBYMEMBER"; "GEOSEARCH";
  "GEOSEARCHSTORE"; "GET"; "GETBIT"; "GETDEL"; "GETEX"; "GETRANGE"; "GETSET"; "HDEL"; "HELLO"; "HEXISTS"; "HGET";
  "HGETALL"; "HINCRBY"; "HINCRBYFLOAT"; "HKEYS"; "HLEN"; "HMGET"; "HMSET"; "HSET"; "HSETNX"; "HRANDFIELD"; "HSTRLEN";
  "HVALS"; "INCR"; "INCRBY"; "INCRBYFLOAT"; "INFO"; "LOLWUT"; "KEYS"; "LASTSAVE"; "LINDEX"; "LINSERT"; "LLEN";
  "LPOP"; "LPOS"; "LPUSH"; "LPUSHX"; "LRANGE"; "LREM"; "LSET"; "LTRIM"; "MEMORY DOCTOR"; "MEMORY HELP";
  "MEMORY MALLOC-STATS"; "MEMORY PURGE"; "MEMORY STATS"; "MEMORY USAGE"; "MGET"; "MIGRATE"; "MODULE LIST";
  "MODULE LOAD"; "MODULE UNLOAD"; "MONITOR"; "MOVE"; "MSET"; "MSETNX"; "MULTI"; "OBJECT"; "PERSIST"; "PEXPIRE";
  "PEXPIREAT"; "PFADD"; "PFCOUNT"; "PFMERGE"; "PING"; "PSETEX"; "PSUBSCRIBE"; "PUBSUB"; "PTTL"; "PUBLISH";
  "PUNSUBSCRIBE"; "QUIT"; "RANDOMKEY"; "READONLY"; "READWRITE"; "RENAME"; "RENAMENX"; "RESET"; "RESTORE"; "ROLE";
  "RPOP"; "RPOPLPUSH"; "LMOVE"; "RPUSH"; "RPUSHX"; "SADD"; "SAVE"; "SCARD"; "SCRIPT DEBUG"; "SCRIPT EXISTS";
  "SCRIPT FLUSH"; "SCRIPT KILL"; "SCRIPT LOAD"; "SDIFF"; "SDIFFSTORE"; "SELECT"; "SET"; "SETBIT"; "SETEX"; "SETNX";
  "SETRANGE"; "SHUTDOWN"; "SINTER"; "SINTERSTORE"; "SISMEMBER"; "SMISMEMBER"; "SLAVEOF"; "REPLICAOF"; "SLOWLOG";
  "SMEMBERS"; "SMOVE"; "SORT"; "SPOP"; "SRANDMEMBER"; "SREM"; "STRALGO"; "STRLEN"; "SUBSCRIBE"; "SUNION";
  "SUNIONSTORE"; "SWAPDB"; "SYNC"; "PSYNC"; "TIME"; "TOUCH"; "TTL"; "TYPE"; "UNSUBSCRIBE"; "UNLINK"; "UNWATCH";
  "WAIT"; "WATCH"; "ZADD"; "ZCARD"; "ZCOUNT"; "ZDIFF"; "ZDIFFSTORE"; "ZINCRBY"; "ZINTER"; "ZINTERSTORE"; "ZLEXCOUNT";
  "ZPOPMAX"; "ZPOPMIN"; "ZRANDMEMBER"; "ZRANGESTORE"; "ZRANGE"; "ZRANGEBYLEX"; "ZREVRANGEBYLEX"; "ZRANGEBYSCORE";
  "ZRANK"; "ZREM"; "ZREMRANGEBYLEX"; "ZREMRANGEBYRANK"; "ZREMRANGEBYSCORE"; "ZREVRANGE"; "ZREVRANGEBYSCORE";
  "ZREVRANK"; "ZSCORE"; "ZUNION"; "ZMSCORE"; "ZUNIONSTORE"; "SCAN"; "SSCAN"; "HSCAN"; "ZSCAN"; "XINFO"; "XADD";
  "XTRIM"; "XDEL"; "XRANGE"; "XREVRANGE"; "XLEN"; "XREAD"; "XGROUP"; "XREADGROUP"; "XACK"; "XCLAIM"; "XAUTOCLAIM";
  "XPENDING"; "LATENCY DOCTOR"; "LATENCY GRAPH"; "LATENCY HISTORY"; "LATENCY LATEST"; "LATENCY RESET";
  "LATENCY HELP"; "SENTINEL"; "REPLCONF ACK" ]%string.

(** ** Messages *)

Inductive ResponseStatus : Set := NoneStatus | SuccessStatus | FailStatus | UnknownStatus.

Record RedisMessage := mk_RedisMessage {
  redis_frame : FrameBase;
  payload : list Z;
  command : list Z;
  redis_isReq : bool;
  status : ResponseStatus;
}.

#[export] Instance redis_message : ParsedMessage RedisMessage := {|
  TimestampNs m := timestampNs (redis_frame m);
  ByteSize m := byteSize (redis_frame m);
  MsgSeq m := frame_seq (redis_frame m);
  IsReq := redis_isReq;
  StreamId _ := 0;
|}.

(** ** Sizes *)

Fixpoint atoi_digits (n : Z) (s : list Z) : option Z :=
  match s with
  | [] => Some n
  | ch :: s => if (48 <=? ch) && (ch <=? 57) then atoi_digits (n * 10 + (ch - 48)) s else None
  end.
(** [strconv.Atoi] of at most 18 characters, whose value fits. *)
Definition Atoi (s : list Z) : option Z :=
  let neg := bool_decide (head s = Some 45) in
  let digits := if neg || bool_decide (head s = Some 43) then tail s else s in
  match digits with
  | [] => None
  | _ => n ← atoi_digits 0 digits; Some (if neg then - n else n)
  end.

Definition ParseSize : dec Z :=
  str ← ExtractStringUntil kTerminalSequence;
  if zlen str >? kSizeStrMaxLen then fail InvalidArgument
  else
    match Atoi str with
    | None => fail InvalidArgument
    | Some size => if size <? kNullSize then fail InvalidArgument else mret size
    end.

Definition ParseBulkString : dec (list Z) :=
  length ← ParseSize;
  if length >? bulk_maxLen then fail InvalidArgument
  else if length =? kNullSize then mret (bytes "<NULL>")
  else
    str ← ExtractString (length + zlen kTerminalSequence);
    lift (slice_to str length).

(** ** Commands *)

Fixpoint ToUpper (s : list Z) : list Z :=
  match s with
  | [] => []
  | b :: s' =>
    match s' with
    | c :: s'' =>
      if (b =? 196) && (c =? 177) then 73 :: ToUpper s''
      else if (b =? 197) && (c =? 191) then 83 :: ToUpper s''
      else (if (97 <=? b) && (b <=? 122) then b - 32 else b) :: ToUpper s'
    | [] => [if (97 <=? b) && (b <=? 122) then b - 32 else b]
    end
  end.

Definition known_command (c : list Z) : bool := bool_decide (c ∈ redisCommandsMap).

(** [finalPayload] after the loop over the arguments. *)
Definition join_args (payloads : list RedisMessage) : list Z := concat ((fun m => payload m ++ [32]) <$> payloads).

Definition trim_space (s : list Z) : list Z :=
  if decide (last s = Some 32) then take (length s - 1) s else s.

Definition getCmdAndArgs (payloads : list RedisMessage) : list Z * list Z :=
  let one :=
    match payloads with
    | [] => ([], [])
    | firstMessage :: args =>
      let candidateCmd := ToUpper (payload firstMessage) in
      let '(cmd, finalPayload) := if known_command candidateCmd then (candidateCmd, join_args args) else ([], []) in
      (cmd, trim_space finalPayload)
    end in
  match payloads with
  | firstMessage :: secondMessage :: args =>
    let candidateCmd := ToUpper (payload firstMessage ++ [32] ++ payload secondMessage) in
    if known_command candidateCmd then (candidateCmd, join_args args) else one
  | _ => one
  end.

(** ** Messages of RESP *)

(** [ParseArray], with the loop over the elements as an argument. *)
Definition ParseArrayWith (elements : Z -> dec (list RedisMessage)) (timestamp seq : Z) : dec RedisMessage :=
  size ← ParseSize;
  if size =? kNullSize then
    n ← ReadBytesSoFar;
    mret (mk_RedisMessage (NewFrameBase timestamp n seq) (bytes "[NULL]") [] false NoneStatus)
  else
    msgSlice ← elements size;
    n ← ReadBytesSoFar;
    let '(cmd, payload) := getCmdAndArgs msgSlice in
    mret (mk_RedisMessage (NewFrameBase timestamp n n) payload cmd true NoneStatus).

(** The message of a string, stamped with the bytes read. *)
Definition string_message (timestamp seq : Z) (s : list Z) (st : ResponseStatus) : dec RedisMessage :=
  n ← ReadBytesSoFar; mret (mk_RedisMessage (NewFrameBase timestamp n seq) s [] false st).

Fixpoint ParseMessage (fuel : nat) (timestamp seq : Z) : dec RedisMessage :=
  match fuel with
  | O => lift Panic
  | S fuel =>
    typeMarker ← ExtractByte;
    if typeMarker =? kSimpleStringMarker then
      str ← ExtractStringUntil kTerminalSequence; string_message timestamp seq str SuccessStatus
    else if typeMarker =? kBulkStringsMarker then
      str ← ParseBulkString; string_message timestamp seq str SuccessStatus
    else if typeMarker =? kErrorMarker then
      str ← ExtractStringUntil kTerminalSequence; string_message timestamp seq (45 :: str) FailStatus
    else if typeMarker =? kIntegerMarker then
      str ← ExtractStringUntil kTerminalSequence; string_message timestamp seq str SuccessStatus
    else if typeMarker =? kArrayMarker then ParseArrayWith (parse_elements fuel timestamp seq) timestamp seq
    else fail InvalidArgument
  end
with parse_elements (fuel : nat) (timestamp seq : Z) (size : Z) : dec (list RedisMessage) :=
  match fuel with
  | O => lift Panic
  | S fuel =>
    if size <=? 0 then mret []
    else
      msg ← ParseMessage fuel timestamp seq;
      msgs ← parse_elements fuel timestamp seq (size - 1);
      mret (msg :: msgs)
  end.

(** ** The parser *)

Section Parser.
Context {T : Type} `{TreeMap T}.

Definition is_marker (b : Z) : bool :=
  (b =? kSimpleStringMarker) || (b =? kErrorMarker) || (b =? kIntegerMarker) || (b =? kBulkStringsMarker) ||
  (b =? kArrayMarker).

Fixpoint marker_loop (l : list Z) (startPos : Z) : Z :=
  match l with
  | [] => -1
  | typeMarker :: l => if is_marker typeMarker then startPos else marker_loop l (startPos + 1)
  end.

Definition redis_FindBoundary (sb : StreamBuffer T) (messageType : MessageType) (startPos : Z) : go Z :=
  match Head sb with
  | None => Panic
  | Some h => if startPos <? 0 then Panic else Ret (marker_loop (drop (Z.to_nat startPos) (buf h)) startPos)
  end.

(** Who sent a message: known, or guessed by whether it starts with a command. *)
Definition redis_is_request (messageType : MessageType) (m : RedisMessage) : bool :=
  match messageType with
  | Request => true
  | Response => false
  | Unknown => redis_isReq m && negb (bool_decide (command m = []))
  end.

Definition redis_ParseStream (sb : StreamBuffer T) (messageType : MessageType) : go (ParseResult RedisMessage) :=
  match Head sb with
  | None => Panic
  | Some head =>
    let seq := LeftBoundary head in
    let '(ts, ok) := FindTimestampBySeq sb seq in
    r ← ParseMessage (2 * length (buf head) + 1) ts seq (NewBinaryDecoder (buf head));
    match r with
    | inl NotFound | inl ResourceNotAvailble => Ret (just NeedsMoreData)
    | inl InvalidArgument => Ret (just Invalid)
    | inr (m, _) =>
      let frame := mk_FrameBase (timestampNs (redis_frame m)) (byteSize (redis_frame m)) seq in
      let m := mk_RedisMessage frame (payload m) (command m) (redis_is_request messageType m) (status m) in
      Ret (mk_ParseResult (if ok then Success else Ignore) [m] (ByteSize m))
    end
  end.

#[global] Instance redis_parser : ProtocolStreamParser T unit RedisMessage := {|
  ParseStream s sb mt := r ← redis_ParseStream sb mt; Ret (r, s);
  FindBoundary _ sb mt start := redis_FindBoundary sb mt start;
|}.

End Parser.

#[export] Instance redis_matcher : MessageMatcher unit RedisMessage := {|
  Match p reqs resps := let '(records, reqs, resps) := match_stream_0 reqs resps in Ret (records, reqs, resps, p);
|}.

(** ** The filter *)

Record RedisFilter := mk_RedisFilter {
  TargetCommands : list (list Z);
  TargetKeys : list (list Z);
  KeyPrefix : list Z;
}.

Definition extractKeyFromPayLoad (m : RedisMessage) : list Z :=
  let spaceIdx := string_index (payload m) [32] in
  if spaceIdx =? -1 then payload m else take (Z.to_nat spaceIdx) (payload m).

(** [len(l) == 0 || slices.Index(l, x) != -1] *)
Definition unless_listed (l : list (list Z)) (x : list Z) : bool := bool_decide (l = []) || bool_decide (x ∈ l).

Definition redis_filter (r : RedisFilter) : ProtocolFilter RedisMessage := {|
  Filter req _ :=
    match req with
    | None => false
    | Some redisReq =>
      let firstKey := extractKeyFromPayLoad redisReq in
      unless_listed (TargetCommands r) (command redisReq) && unless_listed (TargetKeys r) firstKey &&
      (bool_decide (KeyPrefix r = []) || bool_decide (take (length (KeyPrefix r)) firstKey = KeyPrefix r))
    end;
  FilterByProtocol p := bool_decide (p = kProtocolRedis);
  FilterByRequest := negb (bool_decide (TargetCommands r = [])) || negb (bool_decide (TargetKeys r = [])) ||
    negb (bool_decide (KeyPrefix r = []));
  FilterByResponse := false;
|}.

(** ** Every run of a decoding function *)

(** From [d] to [d'] at least [k] bytes were read. *)
Definition advances (k : Z) (d d' : BinaryDecoder) : Prop :=
  exists n, k <= n /\ readBytes d' = readBytes d + n /\ zlen (dec_str d) = n + zlen (dec_str d').

(** [m] returns at [d], and a value only after at least [k] bytes. *)
Definition reads_at_least {A} (k : Z) (m : dec A) (d : BinaryDecoder) : Prop :=
  exists r, m d = Ret r /\ forall a d', r = inr (a, d') -> advances k d d'.

Lemma reads_bind {A B} j k (m : dec A) (f : A -> dec B) d :
  reads_at_least j m d -> (forall a d', advances j d d' -> reads_at_least k (f a) d') ->
  reads_at_least (j + k) (m ≫= f) d.
Proof.
  intros (r & E & Hr) Hf. unfold reads_at_least, mbind, dec_bind. rewrite E, go_bind_ret.
  destruct r as [e|[a d1] ]; [by eexists|]. specialize (Hr a d1 eq_refl).
  destruct (Hf a d1 Hr) as (r' & E' & Hr'). exists r'. split; [done|]. intros b d' ->.
  destruct Hr as (n1 & ? & ? & ?), (Hr' b d' eq_refl) as (n2 & ? & ? & ?). exists (n1 + n2). lia.
Qed.

Lemma reads_ret {A} (a : A) d : reads_at_least 0 (mret a) d.
Proof. eexists. split; [done|]. intros ? ? [= <- <-]. exists 0. lia. Qed.
Lemma reads_fail {A} k e d : reads_at_least k (fail (A := A) e) d.
Proof. by eexists. Qed.
Lemma reads_so_far d : reads_at_least 0 ReadBytesSoFar d.
Proof. eexists. split; [done|]. intros ? ? [= <- <-]. exists 0. lia. Qed.
Lemma reads_lift {A} (a : A) m d : m = Ret a -> reads_at_least 0 (lift m) d.
Proof. intros ->. apply (reads_ret a d). Qed.

Lemma string_index_range s sub : string_index s sub = -1 \/
  0 <= string_index s sub /\ string_index s sub + zlen sub <= zlen s.
Proof.
  induction s as [|b s IH]; cbn [string_index]; case_decide as E; try (by left).
  1,2: right; split; [done|]; apply (f_equal zlen) in E; unfold zlen in *; rewrite length_take in E; cbn in *; lia.
  destruct IH as [-> |[? ?] ]; [by left|]. right. rewrite zlen_cons.
  rewrite (proj2 (Z.eqb_neq _ _)) by lia. lia.
Qed.

Lemma reads_until sub d : reads_at_least (zlen sub) (ExtractStringUntil sub) d.
Proof.
  unfold reads_at_least, ExtractStringUntil.
  destruct (string_index_range (dec_str d) sub) as [-> |[H1 H2] ]; [by eexists|].
  pose proof (zlen_nonneg sub). rewrite (proj2 (Z.eqb_neq _ _)) by lia.
  rewrite slice_to_ok, go_bind_ret, slice_from_ok, go_bind_ret by lia.
  eexists. split; [done|]. intros ? ? [= <- <-]. eexists. cbn. rewrite zlen_drop by lia. split; [|split; [done|]]; lia.
Qed.

Lemma reads_string n d : 0 <= n -> reads_at_least n (ExtractString n) d.
Proof.
  intros Hn. unfold reads_at_least, ExtractString. destruct (Z.ltb_spec (zlen (dec_str d)) n); [by eexists|].
  rewrite slice_to_ok, go_bind_ret, slice_from_ok, go_bind_ret by lia.
  eexists. split; [done|]. intros ? ? [= <- <-]. exists n. cbn. rewrite zlen_drop by lia. lia.
Qed.

Lemma reads_byte d : reads_at_least 1 ExtractByte d.
Proof.
  unfold reads_at_least, ExtractByte. destruct (dec_str d) as [|x str] eqn:E; [by eexists|].
  eexists. split; [done|]. intros ? ? [= <- <-]. exists 1. rewrite E, zlen_cons. cbn. lia.
Qed.

Lemma reads_weaken {A} j k (m : dec A) d : reads_at_least j m d -> k <= j -> reads_at_least k m d.
Proof.
  intros (r & E & Hr) Hk. exists r. split; [done|]. intros a d' Hd. destruct (Hr a d' Hd) as (n & ? & ? & ?).
  exists n. lia.
Qed.

(** A size is at least -1. *)
Lemma ParseSize_value d a d' : ParseSize d = Ret (inr (a, d')) -> -1 <= a.
Proof.
  unfold ParseSize, mbind, dec_bind. intros ([e|[str d1] ] & _ & H)%go_bind_inv; [done|].
  destruct (zlen str >? kSizeStrMaxLen); [done|]. destruct (Atoi str) as [size|]; [|done].
  destruct (Z.ltb_spec size kNullSize); [done|]. injection H as -> ->. unfold kNullSize in *. lia.
Qed.

Lemma reads_size d : reads_at_least 2 ParseSize d.
Proof.
  apply (reads_bind 2 0); [apply reads_until|]. intros str d' _.
  destruct (zlen str >? kSizeStrMaxLen); [apply reads_fail|]. destruct (Atoi str) as [size|]; [|apply reads_fail].
  destruct (size <? kNullSize); [apply reads_fail|apply reads_ret].
Qed.

(** The binds of a parser whose first call is known to return. *)
Lemma reads_bind_value {A B} j k (m : dec A) (f : A -> dec B) d :
  reads_at_least j m d -> (forall a d', m d = Ret (inr (a, d')) -> advances j d d' -> reads_at_least k (f a) d') ->
  reads_at_least (j + k) (m ≫= f) d.
Proof.
  intros Hm Hf. pose proof Hm as (r & E & Hr). destruct r as [e|[a d1] ].
  - exists (inl e). split; [|done]. unfold mbind, dec_bind. by rewrite E.
  - destruct (Hf a d1 E (Hr a d1 eq_refl)) as (r' & E' & Hr'). destruct (Hr a d1 eq_refl) as (n1 & ? & ? & ?).
    exists r'. split; [unfold mbind, dec_bind; by rewrite E|]. intros b d' ->.
    destruct (Hr' b d' eq_refl) as (n2 & ? & ? & ?). exists (n1 + n2). lia.
Qed.

Lemma ExtractString_length n d a d' : 0 <= n -> ExtractString n d = Ret (inr (a, d')) -> zlen a = n.
Proof.
  intros Hn. unfold ExtractString. destruct (Z.ltb_spec (zlen (dec_str d)) n); [done|].
  rewrite slice_to_ok, go_bind_ret, slice_from_ok, go_bind_ret by lia. intros [= <- _]. by rewrite zlen_take by lia.
Qed.

Lemma reads_bulk d : reads_at_least 2 ParseBulkString d.
Proof.
  apply (reads_bind_value 2 0); [apply reads_size|]. intros len d' E _. apply ParseSize_value in E.
  destruct (len >? bulk_maxLen); [apply reads_fail|]. unfold kNullSize.
  destruct (Z.eqb_spec len (-1)); [apply reads_ret|]. change (zlen kTerminalSequence) with 2.
  apply (reads_weaken (len + 2 + 0)); [|lia]. apply reads_bind_value; [apply reads_string; lia|].
  intros str d1 Es _. apply ExtractString_length in Es; [|lia].
  apply (reads_lift (take (Z.to_nat len) str)). apply slice_to_ok. lia.
Qed.

Lemma reads_message_of_string ts seq st (p : dec (list Z)) (g : list Z -> list Z) d :
  reads_at_least 2 p d -> reads_at_least 0 (s ← p; string_message ts seq (g s) st) d.
Proof.
  intros Hp. apply (reads_weaken (2 + 0)); [|done]. apply reads_bind; [done|]. intros s d' _.
  apply (reads_bind 0 0); [apply reads_so_far|]. intros. apply reads_ret.
Qed.

Lemma reads_array elements ts seq d :
  (forall size d', advances 2 d d' -> reads_at_least 0 (elements size) d') ->
  reads_at_least 2 (ParseArrayWith elements ts seq) d.
Proof.
  intros He. apply (reads_bind 2 0); [apply reads_size|]. intros size d' Hd. destruct (size =? kNullSize).
  - apply (reads_bind 0 0); [apply reads_so_far|]. intros. apply reads_ret.
  - apply (reads_bind 0 0); [by apply He|]. intros ms d1 _. apply (reads_bind 0 0); [apply reads_so_far|].
    intros n d2 _. destruct (getCmdAndArgs ms). apply reads_ret.
Qed.

(** Every byte string is read to a message or an error: the fuel is enough, and nothing
    panics. *)
Lemma parse_message_total ts seq fuel :
  (forall d, 2 * zlen (dec_str d) + 1 <= Z.of_nat fuel -> reads_at_least 1 (ParseMessage fuel ts seq) d) /\
  (forall size d, 2 * zlen (dec_str d) + 2 <= Z.of_nat fuel -> reads_at_least 0 (parse_elements fuel ts seq size) d).
Proof.
  induction fuel as [|fuel [IHm IHe] ].
  { split; intros; pose proof (zlen_nonneg (dec_str d)); lia. }
  split.
  - intros d Hd. cbn [ParseMessage]. apply (reads_bind 1 0); [apply reads_byte|]. intros b d1 (n & Hn & _ & Hs).
    destruct (b =? _); [apply (reads_message_of_string _ _ _ _ id), reads_until|].
    destruct (b =? _); [apply (reads_message_of_string _ _ _ _ id), reads_bulk|].
    destruct (b =? _); [apply (reads_message_of_string _ _ _ _ (cons 45)), reads_until|].
    destruct (b =? _); [apply (reads_message_of_string _ _ _ _ id), reads_until|].
    destruct (b =? _); [|apply reads_fail]. eapply (reads_weaken 2); [|done]. apply reads_array.
    intros size d2 (n' & ? & _ & ?). apply IHe. lia.
  - intros size d Hd. cbn [parse_elements]. destruct (size <=? 0); [apply reads_ret|].
    eapply (reads_weaken (1 + 0)); [|done]. apply reads_bind; [apply IHm; lia|]. intros m d1 (n & Hn & _ & Hs).
    apply (reads_bind 0 0); [apply IHe; lia|]. intros ms d2 _. apply reads_ret.
Qed.

Lemma marker_loop_range l start : marker_loop l start = -1 \/ start <= marker_loop l start < start + zlen l.
Proof.
  revert start. induction l as [|b l IH]; intros start; cbn [marker_loop]; [by left|]. rewrite zlen_cons.
  pose proof (zlen_nonneg l). destruct (is_marker b); [lia|]. destruct (IH (start + 1)); lia.
Qed.

(** A frame's size is the number of bytes read. *)
Lemma ParseMessage_size ts seq fuel d m d' : ParseMessage fuel ts seq d = Ret (inr (m, d')) -> ByteSize m = readBytes d'.
Proof.
  destruct fuel as [|fuel]; [done|]. cbn [ParseMessage]. unfold mbind, dec_bind.
  intros ([e|[b d1] ] & _ & H)%go_bind_inv; [done|].
  assert (Hs : forall s st d2, string_message ts seq s st d2 = Ret (inr (m, d')) -> ByteSize m = readBytes d')
    by (intros s st d2 [= <- <-]; done).
  assert (Hb : forall (p : dec (list Z)) g, (forall s d2, g s d2 = Ret (inr (m, d')) -> ByteSize m = readBytes d') ->
    (r ← p d1; match r with inl e => Ret (inl e) | inr (a, d2) => g a d2 end) = Ret (inr (m, d')) -> ByteSize m = readBytes d')
    by (intros p g Hg ([e|[s d2] ] & _ & E)%go_bind_inv; [done|by apply (Hg s d2)]).
  destruct (b =? _); [refine (Hb _ _ _ H); intros s d2; apply Hs|].
  destruct (b =? _); [refine (Hb _ _ _ H); intros s d2; apply Hs|].
  destruct (b =? _); [refine (Hb _ _ _ H); intros s d2; apply Hs|].
  destruct (b =? _); [refine (Hb _ _ _ H); intros s d2; apply Hs|].
  destruct (b =? _); [|done]. unfold ParseArrayWith, mbind, dec_bind in H.
  apply go_bind_inv in H as ([e|[size d2] ] & _ & H); [done|]. destruct (size =? kNullSize).
  - by injection H as <- <-.
  - apply go_bind_inv in H as ([e|[ms d3] ] & _ & H); [done|]. cbn in H. destruct (getCmdAndArgs ms).
    by injection H as <- <-.
Qed.

Section Laws.
Context {T : Type} `{TreeMap T}.

#[global] Instance redis_parser_laws : ParserLaws T unit RedisMessage.
Proof.
  split.
  - intros [] sb mt h Hh _. cbn [ParseStream redis_parser]. unfold redis_ParseStream, LeftBoundary. rewrite Hh.
    destruct (FindTimestampBySeq sb (seq h)) as [ts ok].
    destruct (proj1 (parse_message_total ts (seq h) (2 * length (buf h) + 1)) (NewBinaryDecoder (buf h))) as (r & E & Hr).
    { cbn [dec_str NewBinaryDecoder]. unfold zlen. lia. }
    rewrite E, !go_bind_ret. destruct r as [ [] |[m d'] ]; try (by eexists; eexists; split; [done|]; intros []).
    rewrite go_bind_ret. eexists _, _. split; [done|]. intros _. cbn [ReadBytes]. apply ParseMessage_size in E.
    destruct (Hr m d' eq_refl) as (n & ? & Hn & Hl). cbn [readBytes dec_str NewBinaryDecoder] in *.
    pose proof (zlen_nonneg (dec_str d')). unfold ByteSize, redis_message in *. cbn [redis_frame byteSize]. unfold Len. lia.
  - intros [] sb mt start h Hh _ Hs. cbn [FindBoundary redis_parser]. unfold redis_FindBoundary. rewrite Hh.
    rewrite (proj2 (Z.ltb_ge _ _)) by lia. eexists. split; [done|]. unfold Len.
    destruct (marker_loop_range (drop (Z.to_nat start) (buf h)) start) as [-> |Hm]; [by left|]. right.
    unfold zlen in *. rewrite length_drop in Hm. lia.
Qed.
End Laws.

#[export] Instance redis_matcher_laws : MatcherLaws unit RedisMessage.
Proof. split. intros p reqs resps. cbn. destruct (match_stream_0 reqs resps) as [ [? ?] ?]. by eexists. Qed.

(** ** RESP on the wire *)

(** Values; the text of an integer is kept as it is. *)
Inductive resp : Type :=
| RSimple (s : list Z)
| RError (s : list Z)
| RInteger (s : list Z)
| RBulk (s : list Z)
| RNullBulk
| RArray (vs : list resp)
| RNullArray.

(** Numbers of at most sixteen digits. *)
Fixpoint digits (more : nat) (n : Z) (acc : list Z) : list Z :=
  match more with
  | O => (48 + n) :: acc
  | S more => if n <? 10 then (48 + n) :: acc else digits more (n / 10) ((48 + n mod 10) :: acc)
  end.
Definition decimal (n : Z) : list Z := digits 15 n [].

Fixpoint encode (v : resp) : list Z :=
  match v with
  | RSimple s => [kSimpleStringMarker] ++ s ++ kTerminalSequence
  | RError s => [kErrorMarker] ++ s ++ kTerminalSequence
  | RInteger s => [kIntegerMarker] ++ s ++ kTerminalSequence
  | RBulk s => [kBulkStringsMarker] ++ (decimal (zlen s) ++ kTerminalSequence) ++ s ++ kTerminalSequence
  | RNullBulk => [kBulkStringsMarker] ++ [45; 49] ++ kTerminalSequence
  | RArray vs => [kArrayMarker] ++ (decimal (zlen vs) ++ kTerminalSequence) ++ concat (encode <$> vs)
  | RNullArray => [kArrayMarker] ++ [45; 49] ++ kTerminalSequence
  end.

(** Lines have no carriage return, and lengths are those Redis allows. *)
Fixpoint valid (v : resp) : Prop :=
  match v with
  | RSimple s | RError s | RInteger s => 13 ∉ s
  | RBulk s => zlen s <= bulk_maxLen
  | RArray vs => zlen vs < 10 ^ 16 /\ foldr (fun v P => valid v /\ P) True vs
  | RNullBulk | RNullArray => True
  end.

(** What a message shows of a value. *)
Definition cmd_and_args (payloads : list (list Z)) : list Z * list Z :=
  getCmdAndArgs ((fun p => mk_RedisMessage (mk_FrameBase 0 0 0) p [] false NoneStatus) <$> payloads).
Fixpoint payload_of (v : resp) : list Z :=
  match v with
  | RSimple s | RInteger s | RBulk s => s
  | RError s => 45 :: s
  | RNullBulk => bytes "<NULL>"
  | RArray vs => (cmd_and_args (payload_of <$> vs)).2
  | RNullArray => bytes "[NULL]"
  end.
Definition command_of (v : resp) : list Z :=
  match v with RArray vs => (cmd_and_args (payload_of <$> vs)).1 | _ => [] end.
Definition is_array (v : resp) : bool := match v with RArray _ => true | _ => false end.
Definition status_of (v : resp) : ResponseStatus :=
  match v with RError _ => FailStatus | RArray _ | RNullArray => NoneStatus | _ => SuccessStatus end.
Definition message_of (ts sq : Z) (v : resp) (n : Z) : RedisMessage :=
  mk_RedisMessage (mk_FrameBase ts n (if is_array v then n else sq)) (payload_of v) (command_of v) (is_array v) (status_of v).

Section resp_ind'.
Variable P : resp -> Prop.
Hypothesis leaf : forall v, is_array v = false -> P v.
Hypothesis node : forall vs, Forall P vs -> P (RArray vs).
Fixpoint resp_ind' (v : resp) : P v :=
  match v with
  | RArray vs => node vs ((fix all (vs : list resp) : Forall P vs :=
      match vs with [] => Forall_nil_2 P | v :: vs => Forall_cons_2 P v vs (resp_ind' v) (all vs) end) vs)
  | v => leaf v eq_refl
  end.
End resp_ind'.

(** *** Sizes *)

Definition is_digit (b : Z) : Prop := 48 <= b <= 57.

Lemma digits_value more n acc : 0 <= n < 10 ^ (Z.of_nat more + 1) ->
  atoi_digits 0 (digits more n acc) = atoi_digits n acc.
Proof.
  assert (Hone : forall k l, 0 <= k < 10 -> atoi_digits 0 ((48 + k) :: l) = atoi_digits k l).
  { intros k l Hk. cbn [atoi_digits]. rewrite !(proj2 (Z.leb_le _ _)) by lia. cbn [andb]. f_equal. lia. }
  revert n acc. induction more as [|more IH]; intros n acc Hn; cbn [digits];
    [change (10 ^ (Z.of_nat 0 + 1)) with 10 in Hn; by apply Hone|].
  destruct (Z.ltb_spec n 10); [apply Hone; lia|]. rewrite IH.
  - cbn [atoi_digits]. pose proof (Z.mod_pos_bound n 10). rewrite !(proj2 (Z.leb_le _ _)) by lia. cbn [andb].
    f_equal. pose proof (Z_div_mod_eq_full n 10). lia.
  - split; [apply Z.div_pos; lia|]. apply Z.div_lt_upper_bound; [lia|]. rewrite <- Z.pow_succ_r by lia.
    replace (Z.succ (Z.of_nat more + 1)) with (Z.of_nat (S more) + 1) by lia. lia.
Qed.

Lemma digits_ok more n acc : 0 <= n < 10 ^ (Z.of_nat more + 1) -> Forall is_digit acc ->
  Forall is_digit (digits more n acc) /\ (length (digits more n acc) <= S more + length acc)%nat /\ digits more n acc <> [].
Proof.
  revert n acc. induction more as [|more IH]; intros n acc Hn Ha; cbn [digits].
  { change (10 ^ (Z.of_nat 0 + 1)) with 10 in Hn. split; [|split; [cbn; lia|done] ]. constructor; [|done]. unfold is_digit. lia. }
  destruct (Z.ltb_spec n 10).
  { split; [|split; [cbn; lia|done] ]. constructor; [|done]. unfold is_digit. lia. }
  destruct (IH (n / 10) ((48 + n mod 10) :: acc)) as (? & Hl & ?).
  - split; [apply Z.div_pos; lia|]. apply Z.div_lt_upper_bound; [lia|]. rewrite <- Z.pow_succ_r by lia.
    replace (Z.succ (Z.of_nat more + 1)) with (Z.of_nat (S more) + 1) by lia. lia.
  - constructor; [|done]. pose proof (Z.mod_pos_bound n 10). unfold is_digit. lia.
  - split; [done|]. split; [|done]. cbn [length] in Hl. lia.
Qed.

Lemma decimal_ok n : 0 <= n < 10 ^ 16 ->
  Atoi (decimal n) = Some n /\ (13 ∉ decimal n) /\ zlen (decimal n) <= kSizeStrMaxLen.
Proof.
  intros Hn. change 16 with (Z.of_nat 15 + 1) in Hn. destruct (digits_ok 15 n [] Hn) as (Hd & Hl & Hne); [done|].
  pose proof (digits_value 15 n [] Hn) as Hv. unfold decimal. split; [|split].
  - destruct (digits 15 n []) as [|b l]; [done|]. apply Forall_cons in Hd as [Hb _]. unfold is_digit in Hb.
    unfold Atoi. cbn [head tail]. rewrite !bool_decide_false by (intros [= ->]; lia). cbn [orb]. by rewrite Hv.
  - intros Hin. rewrite Forall_forall in Hd. specialize (Hd _ Hin). unfold is_digit in Hd. lia.
  - unfold kSizeStrMaxLen, zlen. cbn [length] in Hl. lia.
Qed.

(** *** Whole and partial encodings *)

(** [m] reads exactly [s], whatever follows, and returns [a]. *)
Definition gets {A} (m : dec A) (s : list Z) (a : A) : Prop :=
  forall buf rest n, m (mk_BinaryDecoder buf (s ++ rest) n) = Ret (inr (a, mk_BinaryDecoder buf rest (n + zlen s))).

Definition part_of (p s : list Z) : Prop := exists x r, s = p ++ x :: r.

(** [m] asks for more. *)
Definition asks {A} (m : dec A) (d : BinaryDecoder) : Prop :=
  m d = Ret (inl NotFound) \/ m d = Ret (inl ResourceNotAvailble).

(** [m] asks for more at every part of [s]. *)
Definition hungry {A} (m : dec A) (s : list Z) : Prop :=
  forall p buf n, part_of p s -> asks m (mk_BinaryDecoder buf p n).

Lemma part_of_app p s s' : part_of p (s ++ s') -> part_of p s \/ exists p', p = s ++ p' /\ part_of p' s'.
Proof.
  intros (x & r & E). symmetry in E. apply app_eq_inv in E as [ (k & -> & ->)|(k & -> & E)].
  - right. exists k. split; [done|]. by exists x, r.
  - destruct k as [|y k]; [|by left; exists y, k]. right. exists []. rewrite !app_nil_r. split; [done|].
    exists x, r. by rewrite E.
Qed.

Lemma bind_gets {A B} (m : dec A) s a (f : A -> dec B) buf rest n :
  gets m s a -> (m ≫= f) (mk_BinaryDecoder buf (s ++ rest) n) = f a (mk_BinaryDecoder buf rest (n + zlen s)).
Proof. intros Hm. unfold mbind at 1, dec_bind. by rewrite Hm. Qed.

Lemma bind_asks {A B} (m : dec A) (f : A -> dec B) d : asks m d -> asks (m ≫= f) d.
Proof. unfold asks, mbind, dec_bind. by intros [-> | ->]; [left|right]. Qed.

Lemma gets_bind {A B} (m : dec A) s a (f : A -> dec B) s' b :
  gets m s a -> gets (f a) s' b -> gets (m ≫= f) (s ++ s') b.
Proof.
  intros Hm Hf buf rest n. rewrite <- app_assoc, (bind_gets _ _ _ _ _ _ _ Hm), Hf, zlen_app. by rewrite Z.add_assoc.
Qed.

Lemma gets_then {A B} (m : dec A) s a (f : A -> dec B) b : gets m s a -> gets (f a) [] b -> gets (m ≫= f) s b.
Proof. intros Hm Hf. rewrite <- (app_nil_r s). by eapply gets_bind. Qed.

Lemma hungry_bind {A B} (m : dec A) s a (f : A -> dec B) s' :
  gets m s a -> hungry m s -> hungry (f a) s' -> hungry (m ≫= f) (s ++ s').
Proof.
  intros Hg Hm Hf p buf n [Hp|(p' & -> & Hp)]%part_of_app; [by apply bind_asks, Hm|].
  unfold asks. rewrite (bind_gets _ _ _ _ _ _ _ Hg). by apply Hf.
Qed.

Lemma gets_byte b : gets ExtractByte [b] b.
Proof. done. Qed.
Lemma hungry_byte b : hungry ExtractByte [b].
Proof. intros p buf n (x & r & E). destruct p as [|y p]; [by right|]. by destruct p. Qed.

(** Lines. *)
Lemma index_line s rest : 13 ∉ s -> string_index (s ++ kTerminalSequence ++ rest) kTerminalSequence = zlen s.
Proof.
  induction s as [|b s IH]; intros Hs; [done|]. apply not_elem_of_cons in Hs as [Hb Hs].
  cbn [app string_index]. rewrite decide_False by (unfold kTerminalSequence; cbn [length take]; congruence). rewrite IH, zlen_cons by done.
  pose proof (zlen_nonneg s). by rewrite (proj2 (Z.eqb_neq _ _)) by lia.
Qed.

Lemma index_part s p : 13 ∉ s -> part_of p (s ++ kTerminalSequence) -> string_index p kTerminalSequence = -1.
Proof.
  intros Hs. revert p. induction s as [|b s IH]; intros p (x & r & E).
  - destruct p as [|a [|c p] ]; [done| |]; [by cbn in E; injection E as <- _ _|]. cbn in E. by destruct p.
  - destruct p as [|a p]; [done|]. cbn [app] in E. injection E as <- E. apply not_elem_of_cons in Hs as [Hb Hs].
    cbn [string_index]. rewrite decide_False by (unfold kTerminalSequence; cbn [length take]; congruence).
    rewrite (IH Hs p); [done|]. by exists x, r.
Qed.

Lemma gets_line s : 13 ∉ s -> gets (ExtractStringUntil kTerminalSequence) (s ++ kTerminalSequence) s.
Proof.
  intros Hs buf rest n. unfold ExtractStringUntil. cbn [dec_str dec_buf readBytes]. rewrite <- app_assoc, index_line by done.
  pose proof (zlen_nonneg s). pose proof (zlen_nonneg rest). rewrite (proj2 (Z.eqb_neq _ _)) by lia.
  change (zlen kTerminalSequence) with 2.
  assert (zlen (s ++ kTerminalSequence ++ rest) = zlen s + 2 + zlen rest) by (rewrite !zlen_app; change (zlen kTerminalSequence) with 2; lia).
  rewrite slice_to_ok, go_bind_ret, slice_from_ok, go_bind_ret by lia.
  rewrite take_app_length' by (unfold zlen; lia). rewrite app_assoc, drop_app_length' by (rewrite length_app; unfold zlen; cbn; lia).
  rewrite zlen_app. done.
Qed.

Lemma hungry_line s : 13 ∉ s -> hungry (ExtractStringUntil kTerminalSequence) (s ++ kTerminalSequence).
Proof. intros Hs p buf n Hp. left. unfold ExtractStringUntil. cbn [dec_str]. by rewrite (index_part s p). Qed.

(** Sizes and strings. *)
Lemma gets_size str n : 13 ∉ str -> Atoi str = Some n -> zlen str <= kSizeStrMaxLen -> -1 <= n ->
  gets ParseSize (str ++ kTerminalSequence) n /\ hungry ParseSize (str ++ kTerminalSequence).
Proof.
  intros Hs Ha Hl Hn. split.
  - unfold ParseSize. eapply gets_then; [by apply gets_line|].
    rewrite Z.gtb_ltb, (proj2 (Z.ltb_ge _ _)), Ha by done. unfold kNullSize. rewrite (proj2 (Z.ltb_ge _ _)) by lia.
    intros buf rest k. by rewrite Z.add_0_r.
  - intros p buf k Hp. by apply bind_asks, (hungry_line str).
Qed.

Lemma gets_string s : gets (ExtractString (zlen s)) s s.
Proof.
  intros buf rest n. unfold ExtractString. cbn [dec_str dec_buf readBytes]. pose proof (zlen_nonneg rest). pose proof (zlen_nonneg s).
  rewrite zlen_app, (proj2 (Z.ltb_ge _ _)) by lia.
  rewrite slice_to_ok, go_bind_ret, slice_from_ok, go_bind_ret by (rewrite zlen_app; lia).
  by rewrite take_app_length', drop_app_length' by (unfold zlen; lia).
Qed.

Lemma hungry_string s : hungry (ExtractString (zlen s)) s.
Proof.
  intros p buf n (x & r & ->). right. unfold ExtractString. cbn [dec_str]. pose proof (zlen_nonneg r).
  by rewrite zlen_app, zlen_cons, (proj2 (Z.ltb_lt _ _)) by lia.
Qed.

Lemma gets_bulk s : zlen s <= bulk_maxLen ->
  gets ParseBulkString ((decimal (zlen s) ++ kTerminalSequence) ++ s ++ kTerminalSequence) s /\
  hungry ParseBulkString ((decimal (zlen s) ++ kTerminalSequence) ++ s ++ kTerminalSequence).
Proof.
  intros Hl. pose proof (zlen_nonneg s). unfold bulk_maxLen in Hl.
  destruct (decimal_ok (zlen s)) as (Ha & Hc & Hd); [lia|].
  destruct (gets_size _ _ Hc Ha Hd ltac:(lia)) as [Hg Hh].
  assert (zlen s + zlen kTerminalSequence = zlen (s ++ kTerminalSequence)) as Ez by (by rewrite zlen_app).
  unfold ParseBulkString. split; [eapply gets_bind; [done|]|eapply hungry_bind; [done..|]];
    rewrite Z.gtb_ltb, (proj2 (Z.ltb_ge _ _)), (proj2 (Z.eqb_neq _ kNullSize)) by (unfold bulk_maxLen, kNullSize; lia); rewrite Ez.
  - eapply gets_then; [apply gets_string|]. intros buf rest n.
    unfold lift. rewrite slice_to_ok, go_bind_ret by (rewrite zlen_app; change (zlen kTerminalSequence) with 2; lia).
    rewrite take_app_length' by (unfold zlen; lia). by rewrite Z.add_0_r.
  - intros p buf n Hp. by apply bind_asks, hungry_string.
Qed.

Lemma gets_null : gets ParseSize ([45; 49] ++ kTerminalSequence) (-1) /\ hungry ParseSize ([45; 49] ++ kTerminalSequence).
Proof. by apply gets_size; [rewrite <- (bool_decide_spec (13 ∉ _))|..]. Qed.

(** *** Values *)

Lemma join_args_payloads (ms ms' : list RedisMessage) : payload <$> ms = payload <$> ms' -> join_args ms = join_args ms'.
Proof.
  revert ms'. induction ms as [|m ms IH]; intros [|m' ms'] E; try done. injection E as Em E.
  change (join_args (m :: ms)) with ((payload m ++ [32]) ++ join_args ms). by rewrite Em, (IH _ E).
Qed.

Lemma getCmdAndArgs_payloads ms ms' : payload <$> ms = payload <$> ms' -> getCmdAndArgs ms = getCmdAndArgs ms'.
Proof.
  intros E. unfold getCmdAndArgs. destruct ms as [|a ms], ms' as [|a' ms']; try done.
  injection E as Ea E. rewrite Ea, (join_args_payloads _ _ E). destruct ms as [|b ms], ms' as [|b' ms']; try done.
  injection E as Eb E. by rewrite Eb, (join_args_payloads _ _ E).
Qed.

Lemma getCmdAndArgs_values (ms : list RedisMessage) ps : payload <$> ms = ps -> getCmdAndArgs ms = cmd_and_args ps.
Proof. intros <-. apply getCmdAndArgs_payloads. induction ms as [|m ms IH]; [done|]. cbn. by f_equal. Qed.

Section Values.
Variables ts sq : Z.

(** [m] reads exactly [s] and returns the message [f] of the number of bytes read. *)
Definition gives (m : dec RedisMessage) (s : list Z) (f : Z -> RedisMessage) : Prop := forall buf rest n,
  m (mk_BinaryDecoder buf (s ++ rest) n) = Ret (inr (f (n + zlen s), mk_BinaryDecoder buf rest (n + zlen s))).

(** A marker and what its branch reads. *)
Lemma marker_value fuel b s (q : dec RedisMessage) f :
  (forall buf str n, ParseMessage (S fuel) ts sq (mk_BinaryDecoder buf (b :: str) n) = q (mk_BinaryDecoder buf str (n + 1))) ->
  gives q s f -> hungry q s ->
  gives (ParseMessage (S fuel) ts sq) ([b] ++ s) f /\ hungry (ParseMessage (S fuel) ts sq) ([b] ++ s).
Proof.
  intros Hrun Hg Hh. split.
  - intros buf rest n. rewrite <- app_assoc. cbn [app]. rewrite Hrun, Hg, zlen_cons.
    by replace (n + 1 + zlen s) with (n + (zlen s + 1)) by lia.
  - intros [|x p] buf n (y & r & E); [by right|]. cbn in E. injection E as <- E. unfold asks. rewrite Hrun.
    apply Hh. by exists y, r.
Qed.

Lemma gives_string p s a (g : list Z -> list Z) st :
  gets p s a -> hungry p s ->
  gives (s0 ← p; string_message ts sq (g s0) st) s (fun n => mk_RedisMessage (mk_FrameBase ts n sq) (g a) [] false st) /\
  hungry (s0 ← p; string_message ts sq (g s0) st) s.
Proof.
  intros Hg Hh. split; [|intros q buf n Hq; by apply bind_asks, Hh].
  intros buf rest n. by rewrite (bind_gets _ _ _ _ _ _ _ Hg).
Qed.

Lemma leaf_value v fuel : is_array v = false -> valid v ->
  gives (ParseMessage (S fuel) ts sq) (encode v) (message_of ts sq v) /\ hungry (ParseMessage (S fuel) ts sq) (encode v).
Proof.
  intros Hv Hok. destruct v as [s|s|s|s| |vs|]; cbn [valid] in Hok; try done; cbn [encode].
  - destruct (gives_string _ _ _ id SuccessStatus (gets_line s Hok) (hungry_line s Hok)). by eapply marker_value.
  - destruct (gives_string _ _ _ (cons 45) FailStatus (gets_line s Hok) (hungry_line s Hok)). by eapply marker_value.
  - destruct (gives_string _ _ _ id SuccessStatus (gets_line s Hok) (hungry_line s Hok)). by eapply marker_value.
  - destruct (gets_bulk s Hok) as [Hg Hh]. destruct (gives_string _ _ _ id SuccessStatus Hg Hh). by eapply marker_value.
  - destruct gets_null as [Hg Hh]. destruct (gives_string ParseBulkString ([45; 49] ++ kTerminalSequence) (bytes "<NULL>") id SuccessStatus).
    + eapply gets_then; [done|]. intros buf rest n. by rewrite Z.add_0_r.
    + intros q buf n Hq. by apply bind_asks, Hh.
    + by eapply marker_value.
  - destruct gets_null as [Hg Hh]. eapply (marker_value _ _ _ (ParseArrayWith (parse_elements fuel ts sq) ts sq)); [done|..].
    + intros buf rest n. unfold ParseArrayWith. by rewrite (bind_gets _ _ _ _ _ _ _ Hg).
    + intros q buf n Hq. by apply bind_asks, Hh.
Qed.

Definition reads_value (v : resp) : Prop := forall fuel buf rest n,
  2 * zlen (encode v ++ rest) + 1 <= Z.of_nat fuel ->
  ParseMessage fuel ts sq (mk_BinaryDecoder buf (encode v ++ rest) n) =
    Ret (inr (message_of ts sq v (n + zlen (encode v)), mk_BinaryDecoder buf rest (n + zlen (encode v)))).

Definition waits_for (v : resp) : Prop := forall fuel p buf n,
  part_of p (encode v) -> 2 * zlen p + 1 <= Z.of_nat fuel -> asks (ParseMessage fuel ts sq) (mk_BinaryDecoder buf p n).

Lemma encode_nonempty v : 1 <= zlen (encode v).
Proof. destruct v; cbn [encode app]; rewrite zlen_cons; pose proof (zlen_nonneg (A := Z)); match goal with |- 1 <= zlen ?l + 1 => specialize (H l); lia end. Qed.

Lemma elements_whole vs : Forall reads_value vs -> forall fuel buf rest n,
  2 * zlen (concat (encode <$> vs) ++ rest) + 2 <= Z.of_nat fuel ->
  exists ms, parse_elements fuel ts sq (zlen vs) (mk_BinaryDecoder buf (concat (encode <$> vs) ++ rest) n) =
    Ret (inr (ms, mk_BinaryDecoder buf rest (n + zlen (concat (encode <$> vs))))) /\ payload <$> ms = payload_of <$> vs.
Proof.
  induction 1 as [|v vs Hv Hvs IH]; intros fuel buf rest n Hf; (destruct fuel as [|fuel];
    [match type of Hf with context [zlen ?l] => pose proof (zlen_nonneg l); lia end|]); cbn [parse_elements].
  - exists []. change (zlen (concat (encode <$> []))) with 0. rewrite Z.add_0_r. done.
  - rewrite zlen_cons. pose proof (zlen_nonneg vs). rewrite (proj2 (Z.leb_gt _ _)) by lia.
    rewrite fmap_cons in *. cbn [concat] in *. rewrite <- app_assoc in *.
    pose proof (encode_nonempty v). rewrite zlen_app in Hf.
    unfold mbind at 1, dec_bind. rewrite Hv by (rewrite zlen_app; lia). rewrite go_bind_ret.
    unfold mbind at 1, dec_bind. replace (zlen vs + 1 - 1) with (zlen vs) by lia.
    destruct (IH fuel buf rest (n + zlen (encode v))) as (ms & -> & Hms); [lia|]. rewrite go_bind_ret.
    eexists. split; [by rewrite zlen_app, Z.add_assoc|]. rewrite !fmap_cons, Hms. done.
Qed.

Lemma elements_part vs : Forall reads_value vs -> Forall waits_for vs -> forall fuel p buf n,
  part_of p (concat (encode <$> vs)) -> 2 * zlen p + 2 <= Z.of_nat fuel ->
  asks (parse_elements fuel ts sq (zlen vs)) (mk_BinaryDecoder buf p n).
Proof.
  induction 1 as [|v vs Hv Hvs IH]; intros Hw fuel p buf n Hp Hf.
  { destruct Hp as (x & r & E). by destruct p. }
  apply Forall_cons in Hw as [Hv' Hw]. pose proof (zlen_nonneg p). pose proof (zlen_nonneg vs).
  destruct fuel as [|fuel]; [lia|]. cbn [parse_elements]. rewrite zlen_cons, (proj2 (Z.leb_gt _ _)) by lia.
  rewrite fmap_cons in Hp. cbn [concat] in Hp. apply part_of_app in Hp as [Hp|(p' & -> & Hp)].
  - apply bind_asks, Hv'; [done|lia].
  - rewrite zlen_app in Hf. pose proof (encode_nonempty v). unfold asks, mbind at 1 3, dec_bind.
    rewrite Hv by (rewrite zlen_app; lia). rewrite go_bind_ret. replace (zlen vs + 1 - 1) with (zlen vs) by lia.
    apply (bind_asks (parse_elements fuel ts sq (zlen vs))), IH; [done|done|lia].
Qed.

Lemma array_value vs : zlen vs < 10 ^ 16 -> Forall reads_value vs -> Forall waits_for vs ->
  reads_value (RArray vs) /\ waits_for (RArray vs).
Proof.
  intros Hl Hr Hw. pose proof (zlen_nonneg vs). destruct (decimal_ok (zlen vs)) as (Ha & Hc & Hd); [lia|].
  destruct (gets_size _ _ Hc Ha Hd ltac:(lia)) as [Hg Hh]. set (size := decimal (zlen vs) ++ kTerminalSequence) in *.
  assert (Henc : encode (RArray vs) = [kArrayMarker] ++ size ++ concat (encode <$> vs)) by done. clearbody size.
  pose proof (elements_whole vs Hr) as Hwhole. pose proof (elements_part vs Hr Hw) as Hpart.
  set (els := concat (encode <$> vs)) in *. clearbody els.
  assert (Hrun : forall fuel buf str n, ParseMessage (S fuel) ts sq (mk_BinaryDecoder buf (kArrayMarker :: str) n) =
    ParseArrayWith (parse_elements fuel ts sq) ts sq (mk_BinaryDecoder buf str (n + 1))) by done.
  split.
  - intros fuel buf rest n Hf. rewrite Henc in *.
    rewrite <- !app_assoc in *. rewrite !zlen_app in Hf. change (zlen [kArrayMarker]) with 1 in Hf.
    pose proof (zlen_nonneg size). pose proof (zlen_nonneg els). pose proof (zlen_nonneg rest).
    destruct fuel as [|fuel]; [lia|]. cbn [app]. rewrite Hrun. unfold ParseArrayWith. rewrite (bind_gets _ _ _ _ _ _ _ Hg).
    rewrite (proj2 (Z.eqb_neq _ kNullSize)) by (unfold kNullSize; lia). unfold mbind at 1, dec_bind.
    destruct (Hwhole fuel buf rest (n + 1 + zlen size)) as (ms & E & Hms); [rewrite zlen_app; lia|].
    rewrite E, go_bind_ret. cbn. rewrite (getCmdAndArgs_values ms _ Hms).
    rewrite zlen_cons, zlen_app. unfold message_of, NewFrameBase. cbn [is_array payload_of command_of status_of].
    destruct (cmd_and_args _). replace (n + (zlen size + zlen els + 1)) with (n + 1 + zlen size + zlen els) by lia. done.
  - intros fuel [|x p] buf n Hp Hf; [destruct fuel; [done|by right]|]. rewrite Henc in Hp.
    destruct Hp as (y & r & E). cbn [app] in E. injection E as <- E. rewrite zlen_cons in Hf. pose proof (zlen_nonneg p).
    destruct fuel as [|fuel]; [lia|]. unfold asks. rewrite Hrun. fold (asks (ParseArrayWith (parse_elements fuel ts sq) ts sq) (mk_BinaryDecoder buf p (n + 1))).
    assert (part_of p (size ++ els)) as [Hp|(p' & -> & Hp)]%part_of_app by (by exists y, r); [by apply bind_asks, Hh|].
    rewrite zlen_app in Hf. pose proof (zlen_nonneg size). unfold asks, ParseArrayWith. rewrite (bind_gets _ _ _ _ _ _ _ Hg).
    rewrite (proj2 (Z.eqb_neq _ kNullSize)) by (unfold kNullSize; lia).
    apply (bind_asks (parse_elements fuel ts sq (zlen vs))), Hpart; [done|lia].
Qed.

Lemma valid_all vs : foldr (fun v P => valid v /\ P) True vs -> Forall valid vs.
Proof. induction vs as [|v vs IH]; [done|]. intros [Hv Hvs]. constructor; auto. Qed.

Lemma every_value v : valid v -> reads_value v /\ waits_for v.
Proof.
  induction v as [v Hv|vs IH] using resp_ind'; intros Hok.
  - split.
    + intros fuel buf rest n Hf. destruct fuel as [|fuel]; [pose proof (zlen_nonneg (encode v ++ rest)); lia|].
      by apply leaf_value.
    + intros fuel p buf n Hp Hf. destruct fuel as [|fuel]; [pose proof (zlen_nonneg p); lia|]. by apply (leaf_value v).
  - destruct Hok as [Hl Hvs%valid_all]. assert (Forall (fun v => reads_value v /\ waits_for v) vs) as Hall.
    { rewrite Forall_forall in IH, Hvs |- *. auto. }
    apply Forall_and in Hall as [? ?]. by apply array_value.
Qed.
End Values.

(** *** Requests *)

(** Words with a space between them. *)
Fixpoint unwords (ws : list (list Z)) : list Z :=
  match ws with [] => [] | [w] => w | w :: ws => w ++ [32] ++ unwords ws end.

Lemma trim_unwords ws : trim_space (concat ((fun w => w ++ [32]) <$> ws)) = unwords ws.
Proof.
  destruct ws as [|w ws]; [done|].
  assert (forall w, concat ((fun w => w ++ [32]) <$> (w :: ws)) = unwords (w :: ws) ++ [32]) as E.
  { induction ws as [|w' ws IH]; intros w0; [cbn; by rewrite app_nil_r|]. rewrite fmap_cons. cbn [concat].
    rewrite IH. cbn [unwords]. by rewrite <- !app_assoc. }
  rewrite E. unfold trim_space. rewrite last_snoc, decide_True by done. rewrite length_app. cbn [length].
  apply take_app_length'. lia.
Qed.

(** A request is read as its command and its arguments. *)
Lemma request_read w ws :
  known_command (ToUpper w) = true ->
  (forall w' ws', ws = w' :: ws' -> known_command (ToUpper (w ++ [32] ++ w')) = false) ->
  cmd_and_args (w :: ws) = (ToUpper w, unwords ws).
Proof.
  intros Hk H2. unfold cmd_and_args, getCmdAndArgs. rewrite fmap_cons. cbn [payload]. rewrite Hk.
  set (msg := fun p => mk_RedisMessage (mk_FrameBase 0 0 0) p [] false NoneStatus).
  assert (join_args (msg <$> ws) = concat ((fun w => w ++ [32]) <$> ws)) as ->.
  { unfold join_args. by rewrite <- list_fmap_compose. }
  rewrite trim_unwords. destruct ws as [|w' ws]; [done|]. rewrite fmap_cons. cbn [payload msg].
  by rewrite (H2 w' ws).
Qed.

(** A value at the start of the first run, and a part of one. *)
Section Reading.
Context {T : Type} `{TreeMap T}.

Lemma read_value (sb : StreamBuffer T) mt h v rest t :
  Head sb = Some h -> valid v -> FindTimestampBySeq sb (seq h) = (t, true) -> buf h = encode v ++ rest ->
  redis_ParseStream sb mt = Ret (mk_ParseResult Success
    [mk_RedisMessage (mk_FrameBase t (zlen (encode v)) (seq h)) (payload_of v) (command_of v)
       (redis_is_request mt (message_of t (seq h) v 0)) (status_of v)]
    (zlen (encode v))).
Proof.
  intros Hhead Hvalid Htime Hb. destruct (every_value t (seq h) v Hvalid) as [Hr _].
  unfold redis_ParseStream, LeftBoundary. rewrite Hhead, Htime.
  rewrite Hb at 2. unfold NewBinaryDecoder. rewrite Hr by (rewrite <- Hb; unfold zlen; lia).
  rewrite go_bind_ret. by rewrite Z.add_0_l.
Qed.

Lemma read_part (sb : StreamBuffer T) mt h v k t :
  Head sb = Some h -> valid v -> FindTimestampBySeq sb (seq h) = (t, true) -> buf h = take k (encode v) ->
  Z.of_nat k < zlen (encode v) -> redis_ParseStream sb mt = Ret (just NeedsMoreData).
Proof.
  intros Hhead Hvalid Htime Hb Hk. destruct (every_value t (seq h) v Hvalid) as [_ Hw].
  unfold redis_ParseStream, LeftBoundary. rewrite Hhead, Htime. unfold zlen in Hk.
  assert (Hp : part_of (buf h) (encode v)).
  { destruct (lookup_lt_is_Some_2 (encode v) k) as [x Hx]; [lia|]. rewrite Hb. exists x, (drop (S k) (encode v)).
    by rewrite (take_drop_middle _ _ _ Hx). }
  destruct (Hw (2 * length (buf h) + 1)%nat (buf h) (buf h) 0 Hp) as [E|E];
    [unfold zlen; lia|unfold NewBinaryDecoder; by rewrite E..].
Qed.

End Reading.

(** ** Theorem *)

(** C19: RESP is read as it was written.  When the first run starts with a value of any
    depth, whatever follows, the parser returns one message that shows the value, stamped
    with the time of the data its first byte came with, and takes exactly the bytes of the
    value; when the run is only a part of the value, it asks for more.  A request is
    shown as its command, found in the table in capital letters, and its arguments. *)
Theorem redis_value_roundtrip {T} `{TreeMap T} (sb : StreamBuffer T) (mt : MessageType) (h : Buffer) (v : resp)
    (rest : list Z) (k : nat) (t : Z)
    (Hhead : Head sb = Some h) (Hvalid : valid v) (Htime : FindTimestampBySeq sb (seq h) = (t, true)) :
  (buf h = encode v ++ rest ->
   redis_ParseStream sb mt = Ret (mk_ParseResult Success
     [mk_RedisMessage (mk_FrameBase t (zlen (encode v)) (seq h)) (payload_of v) (command_of v)
        (redis_is_request mt (message_of t (seq h) v 0)) (status_of v)]
     (zlen (encode v)))) /\
  (buf h = take k (encode v) -> Z.of_nat k < zlen (encode v) -> redis_ParseStream sb mt = Ret (just NeedsMoreData)) /\
  (forall w ws, v = RArray (RBulk <$> w :: ws) -> known_command (ToUpper w) = true ->
   (forall w' ws', ws = w' :: ws' -> known_command (ToUpper (w ++ [32] ++ w')) = false) ->
   command_of v = ToUpper w /\ payload_of v = unwords ws).
Proof.
  split; [|split].
  - intros Hb. by apply (read_value sb mt h v rest t).
  - intros Hb Hk. by apply (read_part sb mt h v k t).
  - intros w ws -> Hk H2. cbn [command_of payload_of]. rewrite <- list_fmap_compose.
    change (payload_of ∘ RBulk) with (fun s : list Z => s). rewrite list_fmap_id. by rewrite (request_read w ws Hk H2).
Qed.

(** [SET key 10], and the start of another request. *)
Definition set_request : resp := RArray (RBulk <$> [bytes "set"; bytes "key"; bytes "10"]).
Definition redis_stream : StreamBuffer (gmap Z Z) :=
  mk_StreamBuffer [mk_Buffer (encode set_request ++ [42; 49]) 100] 1048576 {[90 := 7]}.

Lemma redis_value_roundtrip_witness :
  redis_ParseStream redis_stream Unknown = Ret (mk_ParseResult Success
    [mk_RedisMessage (mk_FrameBase 7 30 100) (bytes "key 10") (bytes "SET") true NoneStatus] 30).
Proof.
  eapply eq_trans.
  - refine (proj1 (redis_value_roundtrip redis_stream Unknown (mk_Buffer (encode set_request ++ [42; 49]) 100)
      set_request [42; 49] 0 7 _ _ _) _).
    + reflexivity.
    + vm_compute. repeat split; discriminate.
    + vm_compute. reflexivity.
    + reflexivity.
  - vm_compute. reflexivity.
Defined.
