(* ===== verification/Streams.v ===== *)
(** * Streams of MySQL and of Redis

    The parsers of MySQL ([Mysql.v]) and Redis ([Redis.v]) keep the laws of a framing
    ([AgentStream.v]), so what the events of a connection bring becomes the packets of
    the one and the values of the other, however the events cut the stream. *)

From stdpp Require Import gmap list sorting strings.
From Stdlib Require Import ZArith Lia.
From S2P Require Import Prelude.
From S2P Require Import Types.
From S2P Require Import GoBase.
From S2P Require Import StreamBuffer.
From S2P Require Import Reassembly.
From S2P Require Import KernEvents.
From S2P Require Import Protocol.
From S2P Require Import Mysql.
From S2P Require Import AgentConn.
From S2P Require Import AgentStream.
From S2P Require Import Redis.
Local Open Scope Z_scope.
Local Open Scope model_scope.

(** ** MySQL: the start of the buffer is a boundary *)

Lemma parseCommand_ok c : 0 <= c <= 31 -> parseCommand c = (c, true).
Proof.
  intros Hc. unfold parseCommand, kSleep, kResetConnection.
  rewrite Z.geb_leb, (proj2 (Z.leb_le 0 c)), (proj2 (Z.leb_le c 31)) by lia. done.
Qed.

Lemma boundary_at_packet pend sid c m b n :
  pend = [zlen (c :: m) mod 256; zlen (c :: m) / 256 mod 256; zlen (c :: m) / 65536; sid] ++ c :: b ->
  sid = 0 -> zlen (c :: m) <= kMaxPacketLength -> is_request (c :: m) ->
  boundary_loop pend (S n) 0 = Ret 0.
Proof.
  intros -> -> Hl Hr. cbn [boundary_loop].
  destruct (slice_ok ([zlen (c :: m) mod 256; zlen (c :: m) / 256 mod 256; zlen (c :: m) / 65536; 0] ++ c :: b) 0)
    as [-> _]; [pose proof (zlen_nonneg b); unfold zlen in *; cbn [app length]; lia|].
  rewrite go_bind_ret. change (Z.to_nat 0) with 0%nat. rewrite drop_0, packet_length by done.
  change (index _ kPayloadLengthLength) with (Ret 0). rewrite go_bind_ret.
  change (index _ kPacketHeaderLength) with (Ret c). rewrite go_bind_ret.
  unfold is_request in Hr. rewrite !andb_True, !Is_true_true, !Z.leb_le in Hr.
  rewrite parseCommand_ok by lia. cbn [negb Z.eqb].
  rewrite (proj2 (Z.ltb_ge _ _)) by lia. rewrite Z.gtb_ltb, (proj2 (Z.ltb_ge _ _)) by lia. done.
Qed.

Lemma boundary_at_start {T} `{TreeMap T} (sb : StreamBuffer T) w pend q sid m beyond fut :
  Head sb = Some (mk_Buffer pend q) -> packet_bytes sid m ++ beyond = pend ++ fut -> valid_packet (mt_of w) sid m ->
  mysql_FindBoundary sb (mt_of w) 0 = Ret 0 \/ mysql_FindBoundary sb (mt_of w) 0 = Ret (-1).
Proof.
  intros Hh Hw (_ & _ & Hl & Hr). unfold mysql_FindBoundary, kPacketHeaderLength. rewrite Hh. cbn [buf].
  destruct (Z.ltb_spec (zlen pend) 4) as [|H4]; [by right|]. destruct w; cbn [mt_of]; [|by right].
  rewrite decide_False by done. specialize (Hr eq_refl). destruct m as [|c m]; [done|].
  destruct pend as [|a0 [|a1 [|a2 [|a3 [|a4 pend] ] ] ] ]; try done.
  { right. by replace (Z.to_nat _) with 0%nat by done. }
  injection Hw as <- <- <- <- <- _.
  destruct (decide (sid = 0)) as [Hs|Hs].
  - left. replace (Z.to_nat _) with (S (length pend)) by (unfold zlen; cbn [length]; lia).
    by eapply boundary_at_packet.
  - right. apply (boundary_loop_first_id _ _ _ sid); [done|done| |lia|]; unfold zlen; cbn [length]; lia.
Qed.

(** ** The framings *)

(** A packet is a sequence number and a payload. *)
#[export] Instance mysql_framing : Framing MysqlPacket (Z * list Z) := {|
  bytes_of x := packet_bytes x.1 x.2;
  sendable w x := valid_packet (mt_of w) x.1 x.2;
  message_at w t q x := mk_MysqlPacket (mk_FrameBase t (4 + zlen x.2) q) x.1 x.2 0 w;
|}.

#[export] Instance mysql_framing_laws {T S} `{TreeMap T} : FramingLaws T S MysqlPacket (Z * list Z).
Proof.
  split.
  - intros [sid m] E. by apply (f_equal length) in E.
  - done.
  - intros p sb h w [sid m] rest t Hh Hb Hv Ht. cbn [ParseStream mysql_parser bytes_of mysql_framing fst snd] in *.
    rewrite (ParseStream_whole sb (mt_of w) h sid m rest t), go_bind_ret by done.
    rewrite zlen_packet_bytes. by destruct w.
  - intros p sb h w [sid m] k t Hh Hb Hk Hv _. cbn [ParseStream mysql_parser bytes_of mysql_framing fst snd] in *.
    rewrite (ParseStream_partial sb (mt_of w) h sid m k), go_bind_ret; [done..|].
    rewrite <- zlen_packet_bytes with (sid := sid). unfold zlen. lia.
  - intros p sb [pend q] w [sid m] beyond fut Hh _ Hw Hv.
    destruct (boundary_at_start sb w pend q sid m beyond fut Hh Hw Hv) as [E|E]; eexists; split; eauto.
Qed.

(** A value of RESP, which both sides may send. *)
#[export] Instance redis_framing : Framing RedisMessage resp := {|
  bytes_of := encode;
  sendable _ := valid;
  message_at w t q v := mk_RedisMessage (mk_FrameBase t (zlen (encode v)) q) (payload_of v) (command_of v) w (status_of v);
|}.

Lemma redis_boundary_at_start {T} `{TreeMap T} (sb : StreamBuffer T) h mt v beyond fut :
  Head sb = Some h -> buf h <> [] -> encode v ++ beyond = buf h ++ fut -> redis_FindBoundary sb mt 0 = Ret 0.
Proof.
  intros Hh Hne Hw. unfold redis_FindBoundary. rewrite Hh. cbn [Z.ltb Z.compare Z.to_nat]. rewrite drop_0.
  destruct (buf h) as [|b l]; [done|].
  assert (is_marker b = true) as Hb by (destruct v; injection Hw as <- _; reflexivity).
  cbn [marker_loop]. by rewrite Hb.
Qed.

#[export] Instance redis_framing_laws {T} `{TreeMap T} : FramingLaws T unit RedisMessage resp.
Proof.
  split.
  - intros v E. pose proof (encode_nonempty v) as Hl. cbn [bytes_of redis_framing] in E. rewrite E in Hl.
    unfold zlen in Hl. cbn in Hl. lia.
  - done.
  - intros p sb h w v rest t Hh Hb Hv Ht. cbn [ParseStream redis_parser bytes_of redis_framing] in *.
    rewrite (read_value sb (mt_of w) h v rest t), go_bind_ret by done. by destruct w.
  - intros p sb h w v k t Hh Hb Hk Hv Ht. cbn [ParseStream redis_parser bytes_of redis_framing] in *.
    rewrite (read_part sb (mt_of w) h v k t), go_bind_ret; [done..|]. unfold zlen. lia.
  - intros p sb h w v beyond fut Hh Hne Hw _. cbn [FindBoundary redis_parser].
    rewrite (redis_boundary_at_start sb h (mt_of w) v beyond fut) by done. eauto.
Qed.

(** ** What arrives *)

Section Arrival.
Context {T S : Type} `{TreeMapLaws T}.
Variable now : nat -> Z.
Variable mills : Z -> Z.
Variable MaxAllowStuckTimeMills : Z.
Variable side : SideEnum.
Variable w : bool.
Implicit Types es : list (Buffer * kern_evt).


(** C3: the same for Redis.  Whatever values of RESP one side of a connection sends,
    nested to any depth, and wherever the system calls cut them, the queue receives for
    every value one message, in the order of the stream, with the command and the
    arguments of the value, its size, its position, and the time of the event that
    brought its first byte; no byte is left in the buffer. *)
Theorem redis_stream_arrives (A B cap base : Z) (c : Connection4 (T := T) (P := unit) (M := RedisMessage)) es
    (values : list resp)
    (Hrole : Role c <> kRoleUnknown) (Hparser : is_Some (parser c))
    (Hbuffer : sbuf w c = New cap) (Hother : buffers (sbuf (negb w) c) = [])
    (Htiles : tiles_from base es.*1) (Hevents : Forall (chunk_event w c) es)
    (Hstream : stream_of es.*1 = concat (encode <$> values)) (Hvalues : Forall valid values)
    (Hfresh : Forall (fresh now mills MaxAllowStuckTimeMills) (chunks w c es))
    (Hrange : 0 <= base /\ base + zlen (concat (encode <$> values)) < 9223372036854775808)
    (HA : Forall (fun v => zlen (encode v) <= A) values)
    (HB : Forall (fun e => zlen (buf e.1) <= B) es)
    (Hcap : 0 <= A /\ A + B <= cap < 9223372036854775808)
    (Hcount : zlen es <= maxTimestampEntries) :
  exists c', feed now mills MaxAllowStuckTimeMills side (event_data es) c = Ret (Some c') /\
    buffers (sbuf w c') = [] /\
    default [] (queue w c' !! 0) =
      default [] (queue w c !! 0) ++ stream_messages (arrival (chunks w c es)) w base values.
Proof.
  destruct (stream_arrives now mills MaxAllowStuckTimeMills side w A B cap base c es values) as (c' & E & Hb & Hq);
    [done..|].
  exists c'. split; [done|]. split; [done|]. rewrite Hq. apply foldl_enqueue.
  by apply stream_messages_all.
Qed.

End Arrival.

(** Two queries to a server, the first split inside its header, the second sent with
    the end of the first. *)
Definition two_pings : list (Z * list Z) := [(0, ping_query); (0, ping_query)].
Definition syscall_in (seq len ts : Z) : kern_evt :=
  kern_evt_zero <| ke_seq := seq |> <| ke_len := len |> <| ke_ts := ts |> <| ke_step := SYSCALL_IN |>.
Definition ping_events : list (Buffer * kern_evt) :=
  [(mk_Buffer [5; 0] 1, syscall_in 1 2 1000); (mk_Buffer [0; 0; 3; 112] 3, syscall_in 3 4 2000);
   (mk_Buffer [105; 110; 103; 5; 0; 0; 0; 3; 112; 105; 110; 103] 7, syscall_in 7 12 3000)].


(** A command to a server, cut inside the length of its second word, and the start of
    another in the chunk that ends it. *)
Definition redis_conn : Connection4 (T := gmap Z Z) (P := unit) (M := RedisMessage) :=
  NewConnFromEvent kRoleServer (Some tt).
Definition redis_bytes : list Z := encode set_request ++ encode (RArray [RBulk (bytes "ping")]).
Definition redis_events : list (Buffer * kern_evt) :=
  [(mk_Buffer (take 14 redis_bytes) 1, syscall_in 1 14 1000);
   (mk_Buffer (take 20 (drop 14 redis_bytes)) 15, syscall_in 15 20 2000);
   (mk_Buffer (drop 34 redis_bytes) 35, syscall_in 35 10 3000)].

Lemma redis_stream_arrives_witness :
  exists c', feed (fun _ => 5) (fun t => t / 1000000) 1000 AllSide (event_data redis_events) redis_conn = Ret (Some c') /\
    buffers (sbuf true c') = [] /\
    default [] (queue true c' !! 0) =
      [mk_RedisMessage (mk_FrameBase 1000 30 1) (bytes "key 10") (bytes "SET") true NoneStatus;
       mk_RedisMessage (mk_FrameBase 2000 14 31) [] (bytes "PING") true NoneStatus].
Proof.
  apply (redis_stream_arrives (fun _ => 5) (fun t => t / 1000000) 1000 AllSide true 100 100 1048576 1
    redis_conn redis_events [set_request; RArray [RBulk (bytes "ping")]]).
  - done.
  - by exists tt.
  - done.
  - done.
  - cbn. unfold stop, zlen. cbn. split_and!; done.
  - repeat constructor.
  - reflexivity.
  - repeat constructor; vm_compute; discriminate.
  - repeat constructor; intros k; vm_compute; discriminate.
  - vm_compute. split; [discriminate|reflexivity].
  - repeat constructor; vm_compute; discriminate.
  - repeat constructor; vm_compute; discriminate.
  - lia.
  - vm_compute. discriminate.
Defined.
