(* ===== verification/Conversation.v ===== *)
(** * A conversation: from system calls to records

    The stages of the agent in sequence, for a connection on which the two sides speak in
    turn: [OnSyscallEvent] ([AgentConn.v]) puts the data of a system call into the stream
    buffer, parses what is complete into the queues and matches requests with responses
    after every event; what it sends to the channel of records is what
    [agent/conn/record_processor.go] ([Records.v]) receives.

    [stream_fits] says of one direction what [AgentStream.v] asks of it; [turn] is one
    message, cut into any number of system calls; [exchanges_recorded] a sequence of
    requests and responses. *)

From stdpp Require Import gmap list sorting strings.
From Stdlib Require Import ZArith Lia.
From S2P Require Import Prelude.
From S2P Require Import Types.
From S2P Require Import GoBase.
From S2P Require Import StreamBuffer.
From S2P Require Import Reassembly.
From S2P Require Import KernEvents.
From S2P Require Import Protocol.
From S2P Require Import AgentConn.
From S2P Require Import AgentStream.
From S2P Require Import Redis.
From S2P Require Import Streams.
Local Open Scope Z_scope.
Local Open Scope model_scope.

(** ** Matching *)

Section Waiting.
Context {T S M : Type} `{TreeMap T} `{ParsedMessage M} `{!MessageMatcher S M}.
Implicit Types c : Connection4 (T := T) (P := S) (M := M).

(** The messages of the one stream of a direction that wait to be matched. *)
Definition waiting (w : bool) c : list M := default [] (queue w c !! 0).

(** A request alone, or a response alone, stays where it is. *)
Lemma match_stream_0_waits (Q R : queues M) :
  default [] (Q !! 0) = [] \/ default [] (R !! 0) = [] ->
  exists Q' R', match_stream_0 Q R = ([], Q', R') /\
    default [] (Q' !! 0) = default [] (Q !! 0) /\ default [] (R' !! 0) = default [] (R !! 0).
Proof.
  intros Hw. unfold match_stream_0. destruct (Q !! 0) as [qs|] eqn:EQ; [|by exists Q, R; rewrite EQ].
  destruct (R !! 0) as [rs|] eqn:ER; [|by exists Q, R; rewrite EQ, ER]. cbn [default from_option id] in Hw.
  exists (<[0 := qs]> Q), (<[0 := rs]> R). split; [|by unfold queues in *; rewrite !lookup_insert_eq].
  by destruct Hw as [-> | ->]; [|destruct qs].
Qed.

Lemma match_stream_0_pair (Q R : queues M) q r :
  default [] (Q !! 0) = [q] -> default [] (R !! 0) = [r] -> TimestampNs q < TimestampNs r ->
  match_stream_0 Q R = ([mk_Record q r], <[0 := []]> Q, <[0 := []]> R).
Proof.
  intros HQ HR Ht. unfold match_stream_0.
  destruct (Q !! 0) as [qs|]; cbn in HQ; [subst qs|done]. destruct (R !! 0) as [rs|]; cbn in HR; [subst rs|done].
  unfold matchByTimestamp. cbn [match_loop]. by rewrite (proj2 (Z.ltb_lt _ _) Ht).
Qed.

(** Requests that were sent before the response to the first of them are lost but for the
    last, which is recorded with the response to the first. *)
Lemma pipelined_requests_lost (reqs : list M) (req resp : M) (resps : list M) :
  Forall (fun q => TimestampNs q < TimestampNs resp) (reqs ++ [req]) ->
  matchByTimestamp (reqs ++ [req]) (resp :: resps) = ([mk_Record req resp], [], []).
Proof.
  intros Hf. assert (forall record, match_loop (resp :: resps) (reqs ++ [req]) record = ([mk_Record req resp], [])) as E.
  { induction reqs as [|q reqs IH]; intros record; cbn [app] in *; apply Forall_cons in Hf as [Hq Hf];
      cbn [match_loop]; rewrite (proj2 (Z.ltb_lt _ _) Hq); [|by apply IH].
    enough (match_loop resps [] None = ([], [])) as -> by done. clear. by induction resps. }
  unfold matchByTimestamp. rewrite E. by destruct reqs.
Qed.

End Waiting.

(** ** One event *)

(** An event whose data is captured in full. *)
Definition captured (e : Buffer * kern_evt) : Prop := ke_len e.2 = zlen (buf e.1).
Definition syscall_event (e : Buffer * kern_evt) : SyscallEvent := mk_SyscallEvent e.2 (zlen (buf e.1)).

Section Turns.
Context {T S M X : Type} `{TreeMapLaws T} `{ParsedMessage M} `{!ProtocolStreamParser T S M}
  `{!Framing M X} `{!FramingLaws T S M X} `{!MessageMatcher S M}.
Variable now : nat -> Z.
Variable mills : Z -> Z.
Variable MaxAllowStuckTimeMills : Z.
Variable side : SideEnum.
Variable ifname : Z -> Z -> option string.
Variables A B cap : Z.
Hypothesis HAB : 0 <= A /\ A + B <= cap < 9223372036854775808.
Hypothesis one_stream : forall (p : S) (reqs resps : queues M),
  Match p reqs resps = let '(records, reqs, resps) := match_stream_0 reqs resps in Ret (records, reqs, resps, p).
Hypothesis stream_id_0 : forall w t q (x : X), StreamId (message_at (M := M) w t q x) = 0.
Hypothesis message_time : forall w t q (x : X), TimestampNs (message_at (M := M) w t q x) = t.
Implicit Types c : Connection4 (T := T) (P := S) (M := M).
Implicit Types es : list (Buffer * kern_evt).

(** The system calls of a connection, one after the other. *)
Fixpoint handle_calls es c : go (option Connection4) :=
  match es with
  | [] => Ret (Some c)
  | e :: es =>
    r ← OnSyscallEvent now mills MaxAllowStuckTimeMills side ifname (buf e.1) (syscall_event e) c;
    match r with
    | None => Ret None
    | Some (_, c) => handle_calls es c
    end
  end.

Lemma handle_calls_app es1 es2 c c' : handle_calls es1 c = Ret (Some c') ->
  handle_calls (es1 ++ es2) c = handle_calls es2 c'.
Proof.
  revert c. induction es1 as [|e es1 IH]; intros c; cbn [handle_calls app]; [by intros [= ->]|].
  destruct (OnSyscallEvent _ _ _ _ _ _ _ _) as [ [ [b c1]|] |]; [|done..]. rewrite !go_bind_ret. apply IH.
Qed.

(** What the handlers rely on besides the buffers. *)
Definition plain c : Prop := ssl c = false /\ exists f, stream_holds (StreamEvents c) f.

(** Everything but the queues and the records. *)
Definition same_buffers c c' : Prop :=
  Role c' = Role c /\ parser c' = parser c /\ (forall w, sbuf w c' = sbuf w c).

Lemma at_rest_same w base P todo pend q c c' : same_buffers c c' ->
  at_rest (X := X) w cap base P todo pend q c -> at_rest w cap base P todo pend q c'.
Proof. intros (Er & Ep & Es) [? ? ? ? ? ? ?]. split; rewrite ?Er, ?Ep, ?Es; done. Qed.

Lemma match_messages_waits c : is_Some (parser c) -> plain c -> waiting true c = [] \/ waiting false c = [] ->
  exists c', match_messages c = Ret c' /\ same_buffers c c' /\ plain c' /\
    (forall w, waiting w c' = waiting w c) /\ recordChannel c' = recordChannel c.
Proof.
  intros [p Hp] Hpl Hw. unfold match_messages. rewrite Hp, one_stream.
  destruct (match_stream_0_waits (ReqQueue c) (RespQueue c) Hw) as (Q & R & -> & EQ & ER).
  eexists. split; [done|]. split; [by split; [|split; [|intros []] ]|]. split; [done|].
  split; [by intros []|]. apply app_nil_r.
Qed.

Lemma match_messages_pair c m r : is_Some (parser c) -> plain c ->
  waiting true c = [m] -> waiting false c = [r] -> TimestampNs m < TimestampNs r ->
  exists c', match_messages c = Ret c' /\ same_buffers c c' /\ plain c' /\
    (forall w, waiting w c' = []) /\ recordChannel c' = recordChannel c ++ [mk_Record m r].
Proof.
  intros [p Hp] Hpl Hm Hr Ht. unfold match_messages. rewrite Hp, one_stream.
  rewrite (match_stream_0_pair (ReqQueue c) (RespQueue c) m r Hm Hr Ht).
  eexists. split; [done|]. split; [by split; [|split; [|intros []] ]|]. split; [done|]. split; [|done].
  intros w'. assert (forall Q : gmap Z (list M), default [] (<[0 := []]> Q !! 0) = []) as E
    by (intros Q; by rewrite lookup_insert_eq). destruct w'; apply E.
Qed.

Lemma on_chunk w base P n ke c todo pend q fut :
  let nt := (n, getEventTimestamp ke c w) in
  at_rest w cap base P todo pend q c -> plain c -> tiles_from base (P ++ [nt]).*1 ->
  chunk_event w c (n, ke) -> captured (n, ke) ->
  wire todo = pend ++ buf n ++ fut -> Forall (sendable w) todo ->
  Forall (fresh now mills MaxAllowStuckTimeMills) (P ++ [nt]) ->
  end_of base (P ++ [nt]) < 9223372036854775808 ->
  zlen pend + zlen (buf n) <= cap < 9223372036854775808 -> zlen (P ++ [nt]) <= maxTimestampEntries ->
  exists c1 done todo' pend',
    OnSyscallEvent now mills MaxAllowStuckTimeMills side ifname (buf n) (syscall_event (n, ke)) c =
      (c' ← match_messages c1; Ret (Some (true, c'))) /\
    at_rest w cap base (P ++ [nt]) todo' pend' (q + zlen (wire done)) c1 /\ plain c1 /\
    Role c1 = Role c /\ sbuf (negb w) c1 = sbuf (negb w) c /\ recordChannel c1 = recordChannel c /\
    waiting (negb w) c1 = waiting (negb w) c /\
    waiting w c1 = waiting w c ++ stream_messages (arrival (P ++ [nt])) w q done /\
    todo = done ++ todo' /\ wire todo' = pend' ++ fut /\ pend ++ buf n = wire done ++ pend'.
Proof.
  intros nt Hc [Hssl [f Hf] ] Ht (Hd & Hq & Hh) Hcap Hw Hv Hfr Hz Hb Hl. cbn [fst snd] in *.
  destruct (event_step now mills MaxAllowStuckTimeMills side w cap base P n ke c todo pend q fut)
    as (c1 & ds & todo' & pend' & E & Hc1 & (R1 & R2 & R3 & R4 & R5 & R6 & R7) & E1 & E2 & E3 & E4); [done..|].
  fold nt in Hc1, E4. destruct (AddKernEvent_spec ifname (StreamEvents c1) f ke) as (r & s & l & Ea & Hs & _); [by rewrite R6|].
  exists (c1 <| StreamEvents := s |>), ds, todo', pend'.
  assert (buf n <> []) as Hne by (rewrite fmap_app in Ht; by apply tiles_last in Ht as [_ ?]).
  pose proof (nonempty_zlen _ Hne). split.
  { unfold OnSyscallEvent, syscall_data, fillSyscallDataIfNeeded, syscall_event. cbn [fst snd se_Ke BufSize].
    unfold captured in Hcap. cbn [fst snd] in Hcap.
    rewrite Hssl, Hcap, !Z.gtb_ltb, (proj2 (Z.ltb_lt 0 (zlen (buf n)))), Z.ltb_irrefl by lia.
    rewrite E, go_bind_ret. unfold AddSyscallEvent. by rewrite Ea, !go_bind_ret. }
  assert (same_buffers c1 (c1 <| StreamEvents := s |>)) as Hsb by (by split; [|split; [|intros []] ]).
  split; [by eapply at_rest_same|]. split; [split; [by rewrite <- Hssl, <- R5|by eexists]|].
  split; [done|]. split; [by rewrite <- R3; destruct w|]. split; [done|].
  split; [unfold waiting; rewrite <- R4; by destruct w|]. split; [|done].
  transitivity (waiting w c1); [by destruct w|]. unfold waiting. rewrite E4. apply foldl_enqueue.
  by apply stream_messages_all.
Qed.

(** ** One message *)

(** The events [es] bring the part of a direction's stream that follows [P], complete, in
    order, in time, and in chunks that fit into the buffer. *)
Definition stream_fits w base P c es : Prop :=
  tiles_from base (P ++ chunks w c es).*1 /\ Forall (chunk_event w c) es /\ Forall captured es /\
  Forall (fresh now mills MaxAllowStuckTimeMills) (P ++ chunks w c es) /\
  end_of base (P ++ chunks w c es) < 9223372036854775808 /\
  zlen (P ++ chunks w c es) <= maxTimestampEntries /\ Forall (fun e => zlen (buf e.1) <= B) es.

Lemma end_of_app base P Q : end_of base P <= end_of base (P ++ Q).
Proof.
  unfold end_of, stream_of. rewrite !fmap_app, concat_app, zlen_app.
  pose proof (zlen_nonneg (concat (buf <$> Q.*1))). lia.
Qed.

Lemma stream_fits_app w base P c es1 es2 : stream_fits w base P c (es1 ++ es2) ->
  stream_fits w base P c es1 /\ stream_fits w base (P ++ chunks w c es1) c es2.
Proof.
  unfold stream_fits. assert (chunks w c (es1 ++ es2) = chunks w c es1 ++ chunks w c es2) as -> by apply fmap_app.
  rewrite (app_assoc P). set (P1 := P ++ chunks w c es1). intros (Ht & He & Hc & Hf & Hz & Hl & HB).
  apply Forall_app in He as [? ?], Hc as [? ?], HB as [? ?].
  pose proof (end_of_app base P1 (chunks w c es2)). pose proof (zlen_nonneg (chunks w c es2)).
  split; split_and!; try done.
  - rewrite fmap_app in Ht. by eapply tiles_prefix.
  - by apply Forall_app in Hf as [? _].
  - lia.
  - rewrite zlen_app in Hl. lia.
Qed.

Lemma stream_fits_role w base P c c' es : Role c' = Role c -> stream_fits w base P c es -> stream_fits w base P c' es.
Proof.
  intros E. unfold stream_fits. rewrite (chunks_role w c c' es) by done. intros (? & ? & ?).
  split; [done|]. split; [by eapply chunk_event_role|done].
Qed.

(** No event is without data. *)
Lemma no_data_no_events w base P c es : stream_fits w base P c es -> stream_of es.*1 = [] -> es = [].
Proof.
  intros (Ht & _) E. destruct es as [|[n ke] es]; [done|]. rewrite fmap_app in Ht.
  assert (buf n <> []) as Hne.
  { revert base Ht. generalize (P.*1). intros cs. induction cs as [|m cs IH]; cbn [app tiles_from]; [by intros ? (_ & ? & _)|].
    intros base (_ & _ & Ht). eauto. }
  change (stream_of ((n, ke) :: es).*1) with (buf n ++ stream_of es.*1) in E. by apply app_eq_nil in E as [? _].
Qed.

(** Whose turn it is: no message of the direction is waiting, and on the side of the
    responses the request they answer, which came before time [t]. *)
Definition ready (w : bool) (t : Z) c : Prop :=
  waiting w c = [] /\ if w then waiting false c = [] else exists m, waiting true c = [m] /\ TimestampNs m < t.

(** What the message [m] leads to: a request waits, a response makes a record. *)
Definition leads_to (w : bool) (m : M) c c' : Prop :=
  if w then waiting true c' = [m] /\ waiting false c' = [] /\ recordChannel c' = recordChannel c
  else exists req, waiting true c = [req] /\ (forall w', waiting w' c' = []) /\
    recordChannel c' = recordChannel c ++ [mk_Record req m].

(** Neither depends on more of the connection than what waits and what was sent. *)
Lemma ready_same w t c c' : (forall w', waiting w' c' = waiting w' c) -> ready w t c -> ready w t c'.
Proof. intros E. unfold ready. rewrite !E. done. Qed.

Lemma leads_to_same w m c1 c c' : (forall w', waiting w' c1 = waiting w' c) -> recordChannel c1 = recordChannel c ->
  leads_to w m c1 c' -> leads_to w m c c'.
Proof. intros E Er. unfold leads_to. rewrite !E, Er. done. Qed.

(** Matching after the event that completed the message [m]. *)
Lemma message_complete w t q (x : X) c c1 : ready w t c -> is_Some (parser c1) -> plain c1 ->
  waiting (negb w) c1 = waiting (negb w) c -> waiting w c1 = [message_at w t q x] -> recordChannel c1 = recordChannel c ->
  exists c', match_messages c1 = Ret c' /\ same_buffers c1 c' /\ plain c' /\ leads_to w (message_at w t q x) c c'.
Proof.
  intros [_ Hr] Hp Hpl Hn Hw Hrec. destruct w; cbn [negb ready leads_to] in *.
  - destruct (match_messages_waits c1 Hp Hpl) as (c' & E & Hs & Hpl' & Hwt & Hrc); [right; by rewrite Hn|].
    exists c'. do 3 (split; [done|]). rewrite !Hwt, Hrc. split_and!; [done|by rewrite Hn|done].
  - destruct Hr as (m & Hm & Ht).
    destruct (match_messages_pair c1 m (message_at false t q x) Hp Hpl) as (c' & E & Hs & Hpl' & Hwt & Hrc);
      [by rewrite Hn|done|by rewrite message_time|].
    exists c'. do 3 (split; [done|]). exists m. by rewrite Hrc, Hrec.
Qed.

(** A message that arrives in any number of system calls. *)
Lemma turn w base (x : X) es : forall P c pend q,
  at_rest w cap base P [x] pend q c -> plain c -> stream_fits w base P c es ->
  bytes_of x = pend ++ stream_of es.*1 -> sendable w x -> zlen (bytes_of x) <= A ->
  ready w (arrival (P ++ chunks w c es) q) c ->
  exists c', handle_calls es c = Ret (Some c') /\
    at_rest w cap base (P ++ chunks w c es) ([] : list X) [] (q + zlen (bytes_of x)) c' /\ plain c' /\
    Role c' = Role c /\ sbuf (negb w) c' = sbuf (negb w) c /\
    leads_to w (message_at w (arrival (P ++ chunks w c es) q) q x) c c'.
Proof.
  induction es as [|[n ke] es IH]; intros P c pend q Hc Hpl Hfit Hb Hv HA Hready.
  { destruct Hc as [_ _ _ _ _ _ Hsh]. change (stream_of _) with (@nil Z) in Hb. rewrite app_nil_r in Hb. rewrite Hb in Hsh. lia. }
  destruct (stream_fits_app w base P c [(n, ke)] es Hfit) as [ (Ht1 & He1 & Hc1 & Hf1 & Hz1 & Hl1 & HB1) Hfit2].
  change (chunks w c [(n, ke)]) with [(n, getEventTimestamp ke c w)] in *.
  change (chunks w c ((n, ke) :: es)) with ([(n, getEventTimestamp ke c w)] ++ chunks w c es) in *.
  set (nt := (n, getEventTimestamp ke c w)) in *. rewrite (app_assoc P) in *.
  change (stream_of ((n, ke) :: es).*1) with (buf n ++ stream_of es.*1) in Hb.
  apply Forall_cons in He1 as [He1 _], Hc1 as [Hc1 _], HB1 as [HB1 _]. cbn [fst] in HB1.
  assert (zlen pend <= A) as HpA by (apply (f_equal zlen) in Hb; rewrite zlen_app in Hb; pose proof (zlen_nonneg (buf n ++ stream_of es.*1)); lia).
  destruct (on_chunk w base P n ke c [x] pend q (stream_of es.*1))
    as (c1 & ds & todo' & pend' & E & Hr1 & Hpl1 & Ero & Esb & Erc & Ewn & Eww & Etodo & Ewire & Epend);
    [done..|by rewrite wire_cons, <- Hb; apply app_nil_r|by constructor|done|done|lia|done|].
  fold nt in E, Hr1, Eww. cbn [handle_calls fst]. pose proof (proj1 Hready) as Hw0. rewrite Hw0 in Eww. cbn [app] in Eww.
  assert (Hpc1 : is_Some (parser c1)) by apply Hr1.
  destruct ds as [|x' ds]; cbn [app stream_messages] in Etodo, Eww; [subst todo'|].
  - assert (forall w', waiting w' c1 = waiting w' c) as Ew by (intros []; destruct w; cbn [negb] in *; congruence).
    destruct (match_messages_waits c1 Hpc1 Hpl1) as (c2 & E2 & Hs2 & Hpl2 & Hw2 & Hrc2); [destruct w; [by left|by right]|].
    rewrite E, E2, !go_bind_ret. pose proof Hs2 as (Er2 & _ & Es2).
    assert (forall w', waiting w' c2 = waiting w' c) as Ew2 by (intros w'; by rewrite Hw2).
    assert (chunks w c2 es = chunks w c es) as Ech by (apply chunks_role; congruence).
    destruct (IH (P ++ [nt]) c2 pend' q) as (c' & E' & Hc' & Hpl' & Hro & Hsb & Hl'); try done.
    + eapply at_rest_same; [exact Hs2|]. by rewrite Z.add_0_r in Hr1.
    + eapply stream_fits_role; [|exact Hfit2]. congruence.
    + by rewrite Hb, app_assoc, Epend.
    + rewrite Ech. by eapply ready_same.
    + rewrite Ech in *. exists c'. do 3 (split; [done|]). split; [congruence|]. split; [by rewrite Hsb, Es2|].
      eapply leads_to_same; [exact Ew2|congruence|done].
  - injection Etodo as <- [-> ->]%eq_sym%app_eq_nil. assert (pend' = []) as -> by apply Hr1.
    rewrite (no_data_no_events _ _ _ _ _ Hfit2 (eq_sym Ewire)) in *. cbn [app chunks fmap list_fmap] in *. rewrite app_nil_r in *.
    destruct (message_complete w (arrival (P ++ [nt]) q) q x c c1) as (c2 & E2 & Hs2 & Hpl2 & Hl2); [done..|].
    rewrite E, E2, !go_bind_ret. pose proof Hs2 as (Er2 & _ & Es2). exists c2. split; [done|].
    split; [|by rewrite Er2, Es2]. eapply at_rest_same; [exact Hs2|].
    by rewrite wire_cons, app_nil_r in Hr1.
Qed.

(** ** Requests and responses in turn *)

(** The time the agent gives to a message: that of the call with its first byte. *)
Definition first_time (w : bool) c es : Z := match es with [] => 0 | e :: _ => getEventTimestamp e.2 c w end.

Lemma first_arrival w base P c es : stream_fits w base P c es -> es <> [] ->
  arrival (P ++ chunks w c es) (end_of base P) = first_time w c es.
Proof.
  intros (Ht & _) Hne. destruct es as [|[n ke] es]; [done|]. clear Hne. cbn [first_time snd].
  change (chunks w c ((n, ke) :: es)) with ((n, getEventTimestamp ke c w) :: chunks w c es) in *.
  revert base Ht. induction P as [|[m t] P IH]; intros base Ht; cbn [app arrival].
  - destruct Ht as (Hs & Hb & _). pose proof (nonempty_zlen _ Hb). cbn [fst] in *. unfold stop, end_of. change (zlen (stream_of [].*1)) with 0.
    by rewrite (proj2 (Z.ltb_lt _ _)) by lia.
  - destruct Ht as (Hs & _ & Ht). cbn [fst] in *. rewrite end_of_cons. unfold stop in *.
    pose proof (zlen_nonneg (stream_of P.*1)). rewrite (proj2 (Z.ltb_ge _ _)) by (unfold end_of; lia).
    rewrite Hs in Ht. by apply IH.
Qed.

(** A request and its response, with the system calls that carried them. *)
Record exchange := mk_exchange { asked : X; asking : list (Buffer * kern_evt); answered : X; answering : list (Buffer * kern_evt) }.

Definition well_exchanged c (e : exchange) : Prop :=
  stream_of (asking e).*1 = bytes_of (M := M) (asked e) /\ stream_of (answering e).*1 = bytes_of (M := M) (answered e) /\
  sendable (M := M) true (asked e) /\ sendable (M := M) false (answered e) /\
  zlen (bytes_of (M := M) (asked e)) <= A /\ zlen (bytes_of (M := M) (answered e)) <= A /\
  first_time true c (asking e) < first_time false c (answering e).

(** The records of a conversation whose directions have come to the positions [q] and
    [r]. *)
Fixpoint records_of c (q r : Z) (xs : list exchange) : list (Record_ M) :=
  match xs with
  | [] => []
  | e :: xs =>
    mk_Record (message_at true (first_time true c (asking e)) q (asked e))
      (message_at false (first_time false c (answering e)) r (answered e)) ::
    records_of c (q + zlen (bytes_of (M := M) (asked e))) (r + zlen (bytes_of (M := M) (answered e))) xs
  end.

Lemma records_of_role c c' q r xs : Role c' = Role c -> records_of c' q r xs = records_of c q r xs.
Proof.
  intros E. revert q r. induction xs as [|e xs IH]; intros q r; [done|]. cbn [records_of]. rewrite IH.
  assert (forall w es, first_time w c' es = first_time w c es) as Ef; [|by rewrite !Ef].
  intros w [|a es]; [done|]. cbn. unfold getEventTimestamp, Side. by rewrite E.
Qed.

Lemma next_message w base P q c (x : X) : at_rest w cap base P ([] : list X) [] q c -> at_rest w cap base P [x] [] q c.
Proof.
  intros [? ? ? ? ? ? _]. split; try done. pose proof (nonempty_zlen _ (frame_nonempty (M := M) x)). by change (zlen []) with 0; lia.
Qed.

(** The direction that is silent stays as it is. *)
Lemma other_at_rest w base P todo q base' P' q' c c' :
  at_rest w cap base P ([] : list X) [] q c' -> at_rest (negb w) cap base' P' (todo : list X) [] q' c ->
  sbuf (negb w) c' = sbuf (negb w) c -> at_rest (negb w) cap base' P' todo [] q' c'.
Proof.
  intros [? ? _ (ts & Hs & _) _ _ _] [_ _ _ (ts' & Hs' & Hk) ? ? ?] E. split; try done.
  - by rewrite negb_involutive, Hs.
  - exists ts'. by rewrite E.
Qed.

(** Between two exchanges: everything is parsed, matched and sent. *)
Definition settled_between bq br PQ PR q r c : Prop :=
  at_rest true cap bq PQ ([] : list X) [] q c /\ at_rest false cap br PR ([] : list X) [] r c /\
  plain c /\ forall w, waiting w c = [].

Lemma one_exchange bq br PQ PR q r c (e : exchange) :
  settled_between bq br PQ PR q r c -> stream_fits true bq PQ c (asking e) -> stream_fits false br PR c (answering e) ->
  well_exchanged c e ->
  exists c', handle_calls (asking e ++ answering e) c = Ret (Some c') /\ Role c' = Role c /\
    settled_between bq br (PQ ++ chunks true c (asking e)) (PR ++ chunks false c (answering e))
      (q + zlen (bytes_of (M := M) (asked e))) (r + zlen (bytes_of (M := M) (answered e))) c' /\
    recordChannel c' = recordChannel c ++ records_of c q r [e].
Proof.
  intros (Hq & Hr & Hpl & Hw) Fq Fr (Sq & Sr & Vq & Vr & Aq & Ar & Ht).
  assert (asking e <> [] /\ answering e <> []) as [Nq Nr].
  { split; intros E; rewrite E in *; [symmetry in Sq; by apply frame_nonempty in Sq|symmetry in Sr; by apply frame_nonempty in Sr]. }
  pose proof (first_arrival _ _ _ _ _ Fq Nq) as Tq. pose proof (first_arrival _ _ _ _ _ Fr Nr) as Tr.
  assert (end_of bq PQ = q /\ end_of br PR = r) as [Eq Er].
  { destruct Hq as [_ _ _ _ Eq _ _], Hr as [_ _ _ _ Er _ _]. change (zlen []) with 0 in *. lia. }
  rewrite Eq in Tq. rewrite Er in Tr.
  destruct (turn true bq (asked e) (asking e) PQ c [] q) as (c1 & E1 & Hq1 & Hpl1 & Er1 & Es1 & Hw1 & Hw1' & Hrc1);
    [by apply next_message|done|done|by rewrite Sq|done|done|by split; apply Hw|].
  rewrite Tq in Hw1. pose proof (other_at_rest true _ _ _ _ _ _ _ c c1 Hq1 Hr Es1) as Hr1. cbn [negb] in Hr1.
  assert (chunks false c1 (answering e) = chunks false c (answering e)) as Ech by (by apply chunks_role).
  destruct (turn false br (answered e) (answering e) PR c1 [] r) as (c2 & E2 & Hr2 & Hpl2 & Er2 & Es2 & req & Hreq & Hw2 & Hrc2).
  - by apply next_message.
  - done.
  - by eapply stream_fits_role.
  - by rewrite Sr.
  - done.
  - done.
  - rewrite Ech, Tr. split; [done|]. eexists. split; [exact Hw1|]. by rewrite message_time.
  - exists c2. split; [by rewrite (handle_calls_app _ _ _ c1) by done|]. split; [congruence|].
    rewrite Ech, ?Tr in *. split; [|rewrite Hrc2, Hrc1; cbn [records_of]; congruence].
    split; [exact (other_at_rest false _ _ _ _ _ _ _ c1 c2 Hr2 Hq1 Es2)|done].
Qed.

Lemma exchanges_recorded bq br xs : forall PQ PR q r c,
  settled_between bq br PQ PR q r c ->
  stream_fits true bq PQ c (concat (asking <$> xs)) -> stream_fits false br PR c (concat (answering <$> xs)) ->
  Forall (well_exchanged c) xs ->
  exists c', handle_calls (concat ((fun e => asking e ++ answering e) <$> xs)) c = Ret (Some c') /\
    (forall w, waiting w c' = [] /\ buffers (sbuf w c') = []) /\
    recordChannel c' = recordChannel c ++ records_of c q r xs.
Proof.
  induction xs as [|e xs IH]; intros PQ PR q r c Hc Fq Fr Hx.
  { exists c. split; [done|]. cbn [records_of]. rewrite app_nil_r. split; [|done].
    destruct Hc as (Hq & Hr & _ & Hw). intros w. split; [done|].
    destruct w; [destruct Hr as [_ _ Ho _ _ _ _]|destruct Hq as [_ _ Ho _ _ _ _] ]; exact Ho. }
  rewrite fmap_cons in Fq, Fr. cbn [concat] in Fq, Fr. apply Forall_cons in Hx as [He Hx].
  apply stream_fits_app in Fq as [Fq Fq'], Fr as [Fr Fr'].
  destruct (one_exchange bq br PQ PR q r c e Hc Fq Fr He) as (c1 & E1 & Er1 & Hc1 & Hrc1).
  destruct (IH _ _ _ _ c1 Hc1) as (c' & E' & Hw' & Hrc').
  - by eapply stream_fits_role.
  - by eapply stream_fits_role.
  - eapply Forall_impl; [done|]. intros x. unfold well_exchanged, first_time, getEventTimestamp, Side. by rewrite Er1.
  - exists c'. rewrite fmap_cons. cbn [concat]. rewrite (handle_calls_app _ _ _ c1) by done.
    split; [done|]. split; [done|]. rewrite Hrc', Hrc1, (records_of_role c c1) by done. by rewrite <- app_assoc.
Qed.

End Turns.

(** ** A conversation with Redis *)

(** A connection the agent has just made. *)
Definition new_redis {T} `{TreeMap T} (role : endpoint_role_t) : Connection4 (T := T) (P := unit) (M := RedisMessage) :=
  NewConnFromEvent role (Some tt).

Lemma new_redis_settled {T} `{TreeMapLaws T} role bq br : role <> kRoleUnknown -> 0 <= bq -> 0 <= br ->
  settled_between (X := resp) 1048576 bq br [] [] bq br (new_redis (T := T) role).
Proof.
  intros Hrole Hq Hr.
  assert (forall w base, 0 <= base -> at_rest (X := resp) w 1048576 base [] [] [] base (new_redis (T := T) role)) as Ha.
  { intros w base Hb. split; [done|by eexists|by destruct w| |unfold end_of, zlen; cbn; lia|lia|done].
    exists tm_new. split; [by destruct w|]. split; [|by intros n t []%not_elem_of_nil]. intros k v. by rewrite tm_get_new. }
  split; [by apply Ha|]. split; [by apply Ha|]. split; [|by intros []]. split; [done|]. exists (fun _ => []). by split.
Qed.


(** A client that sets a key and reads it: the first request in two calls. *)
Definition calls (w : bool) (q t : Z) (parts : list (list Z)) : list (Buffer * kern_evt) :=
  (foldl (fun '(acc, q, t) bs =>
    (acc ++ [(mk_Buffer bs q, kern_evt_zero <| ke_seq := q |> <| ke_len := zlen bs |> <| ke_ts := t |>
       <| ke_step := if w then SYSCALL_OUT else SYSCALL_IN |>)], q + zlen bs, t + 1)) ([], q, t) parts).1.1.
Definition get_request : resp := RArray (RBulk <$> [bytes "get"; bytes "key"]).
Definition set_and_get : list (exchange (X := resp)) :=
  [mk_exchange set_request (calls true 1 100 [take 10 (encode set_request); drop 10 (encode set_request)])
     (RSimple (bytes "OK")) (calls false 1 200 [encode (RSimple (bytes "OK"))]);
   mk_exchange get_request (calls true (1 + zlen (encode set_request)) 300 [encode get_request])
     (RBulk (bytes "10")) (calls false 6 400 [take 3 (encode (RBulk (bytes "10"))); drop 3 (encode (RBulk (bytes "10")))])].

