(* ===== verification/RocketMQ.v ===== *)
(** * The RocketMQ parser

    [src/agent/protocol/rocketmq]: frames with a length, a header, in JSON or in a binary
    form, and a body; matching of responses to requests by the number [opaque] both carry.

    - A slice of a byte array may be extended up to its capacity.  The bytes of the array
      behind the first run of the stream buffer are the parameter [spare].
    - [json.Unmarshal] into the structure of the header is the parameter [Unmarshal].
    - The clock that [Match] reads is the parameter [currentTime]. *)

From stdpp Require Import gmap list sorting strings.
From Stdlib Require Import ZArith Lia.
From S2P Require Import Prelude.
From S2P Require Import Types.
From S2P Require Import GoBase.
From S2P Require Import StreamBuffer.
From S2P Require Import Protocol.
From S2P Require Import Mysql.
From S2P Require Import Records.
From S2P Require Import Redis.
Local Open Scope Z_scope.
Local Open Scope model_scope.

(** [s[lo:hi]], where [arr] is the array from the start of [s] to its capacity. *)
Definition slice {A} (arr : list A) (lo hi : Z) : go (list A) :=
  if (0 <=? lo) && (lo <=? hi) && (hi <=? zlen arr) then Ret (take (Z.to_nat (hi - lo)) (drop (Z.to_nat lo) arr)) else Panic.

(** [binary.BigEndian.Uint16] and [Uint32] of [s[i:i+n]]. *)
Definition uint_at (arr : list Z) (i n : Z) : go Z := b ← slice arr i (i + n); Ret (be_decode b).

(** ** Messages *)

Definition requestCodeOffset : Z := 0.
Definition languageCodeOffset : Z := 2.
Definition versionFlagOffset : Z := 3.
Definition opaqueOffset : Z := 5.
Definition requestFlagOffset : Z := 9.
Definition remarkLengthOffset : Z := 13.
Definition serializationTypeJSON : Z := 0.
Definition serializationTypeRocketMQ : Z := 1.
(** Five minutes in nanoseconds. *)
Definition requestTimeoutDuration : Z := 300 * 1000000000.

Definition UNKNOWN_LANGUAGE : Z := 14.
Definition language_names : list (list Z) := bytes <$>
  ["JAVA"; "CPP"; "DOTNET"; "PYTHON"; "DELPHI"; "ERLANG"; "RUBY"; "OTHER"; "HTTP"; "GO"; "PHP"; "OMS"; "RUST"; "NODE_JS"]%string.
Definition ConvertToLanguageCode (language : list Z) : Z :=
  match list_find (fun n => n = language) language_names with Some (i, _) => Z.of_nat i | None => 13 end.
Definition convertToLanguageCodeFromByte (flag : Z) : Z := if flag >? 13 then 0 else flag.

Record RocketMQMessage := mk_RocketMQMessage {
  rmq_frame : FrameBase;
  RequestCode : Z;
  LanguageCode : Z;
  VersionFlag : Z;
  Opaque : Z;
  RequestFlag : Z;
  RemarkLength : Z;
  RemarkBuf : list Z;
  PropertiesLen : Z;
  PropertiesBuf : list Z;
  Properties : gmap (list Z) (list Z);
  BodyBuf : list Z;
  rmq_isReq : bool;
}.

#[export] Instance rocketmq_message : ParsedMessage RocketMQMessage := {|
  TimestampNs m := timestampNs (rmq_frame m);
  ByteSize m := byteSize (rmq_frame m);
  MsgSeq m := frame_seq (rmq_frame m);
  IsReq := rmq_isReq;
  StreamId _ := 0;
|}.

(** The structure a JSON header is read into. *)
Record json_header := mk_json_header {
  js_code : Z; js_language : list Z; js_version : Z; js_opaque : Z; js_flag : Z; js_remark : list Z;
  js_extFields : gmap (list Z) (list Z);
}.

Definition no_frame : FrameBase := mk_FrameBase 0 0 0.

(** ** The parser *)

Section Parser.
Context {T : Type} `{TreeMap T}.
Variable spare : list Z.
Variable Unmarshal : list Z -> option json_header.

(** The binary header, [None] for an error; [beyond] is the array behind it. *)
Definition parse_binary_header (headerBody beyond : list Z) : go (option RocketMQMessage) :=
  if zlen headerBody <? 18 then Ret None
  else
    let arr := headerBody ++ beyond in
    requestCode ← uint_at arr requestCodeOffset 2;
    languageCode ← index headerBody languageCodeOffset;
    versionFlag ← uint_at arr versionFlagOffset 2;
    opaque ← uint_at arr opaqueOffset 4;
    requestFlag ← uint_at arr requestFlagOffset 4;
    remarkLength ← uint_at arr remarkLengthOffset 4;
    let RemarkLength := s32 remarkLength in
    remark_on ← slice_from headerBody (remarkLengthOffset + 4);
    if RemarkLength >? zlen remark_on then Ret None
    else
      remarkBuf ← slice arr (remarkLengthOffset + 4) (s32 (remarkLengthOffset + 4 + RemarkLength));
      let propertiesStart := s32 (remarkLengthOffset + 4 + RemarkLength) in
      properties_on ← slice_from headerBody propertiesStart;
      if zlen properties_on <? 4 then Ret None
      else
        propertiesLen ← uint_at arr propertiesStart 4;
        let PropertiesLen := s32 propertiesLen in
        propertiesBuf ← slice arr (s32 (propertiesStart + 4)) (s32 (propertiesStart + 4 + PropertiesLen));
        Ret (Some (mk_RocketMQMessage no_frame (s16 requestCode) (convertToLanguageCodeFromByte languageCode)
          (s16 versionFlag) (s32 opaque) (s32 requestFlag) RemarkLength remarkBuf PropertiesLen propertiesBuf ∅ [] false)).

Definition parseHeader (headerBody beyond : list Z) (serializedType : Z) : go (option RocketMQMessage) :=
  if serializedType =? serializationTypeJSON then
    Ret (temp ← Unmarshal headerBody;
      Some (mk_RocketMQMessage no_frame (js_code temp) (ConvertToLanguageCode (js_language temp)) (js_version temp)
        (js_opaque temp) (js_flag temp) (s32 (zlen (js_remark temp))) (js_remark temp)
        (s32 (Z.of_nat (size (js_extFields temp)))) [] (js_extFields temp) [] false))
  else if serializedType =? serializationTypeRocketMQ then parse_binary_header headerBody beyond
  else Ret None.

Definition with_body (m : RocketMQMessage) (body : list Z) : RocketMQMessage :=
  mk_RocketMQMessage (rmq_frame m) (RequestCode m) (LanguageCode m) (VersionFlag m) (Opaque m) (RequestFlag m)
    (RemarkLength m) (RemarkBuf m) (PropertiesLen m) (PropertiesBuf m) (Properties m) body (rmq_isReq m).
Definition with_frame (m : RocketMQMessage) (fb : FrameBase) (isReq : bool) : RocketMQMessage :=
  mk_RocketMQMessage fb (RequestCode m) (LanguageCode m) (VersionFlag m) (Opaque m) (RequestFlag m)
    (RemarkLength m) (RemarkBuf m) (PropertiesLen m) (PropertiesBuf m) (Properties m) (BodyBuf m) isReq.

Definition rocketmq_ParseStream (sb : StreamBuffer T) (messageType : MessageType) : go (ParseResult RocketMQMessage) :=
  match Head sb with
  | None => Panic
  | Some head =>
    let buffer := buf head in
    let arr := buffer ++ spare in
    if zlen buffer <? 8 then Ret (just NeedsMoreData)
    else
      frameSize ← uint_at arr 0 4;
      if frameSize <=? 0 then Ret (mk_ParseResult Invalid [] 4)
      else if frameSize + 4 >? zlen buffer then Ret (just NeedsMoreData)
      else
        headerLength ← uint_at arr 4 4;
        let headerDataLen := Z.land headerLength 16777215 in
        let serializedType := u8 (Z.land (Z.shiftr headerLength 24) 255) in
        if (4 + headerDataLen >? frameSize) || (zlen buffer <? 8 + headerDataLen) then Ret (just NeedsMoreData)
        else
          headerBody ← slice arr 8 (8 + headerDataLen);
          header ← parseHeader headerBody (drop (Z.to_nat (8 + headerDataLen)) arr) serializedType;
          match header with
          | None => Ret (mk_ParseResult Invalid [] frameSize)
          | Some message =>
            message ← (if frameSize >? 4 + headerDataLen then
              body ← slice arr (8 + headerDataLen) frameSize; Ret (with_body message body) else Ret message);
            fb ← CreateFrameBase sb frameSize;
            match fb with
            | None => Ret (mk_ParseResult Ignore [] frameSize)
            | Some fb =>
              Ret (mk_ParseResult Success [with_frame message fb (bool_decide (messageType = Request))] frameSize)
            end
          end
  end.

(** [buffer[i+8:i+16]] of a JSON header: [{"code":]. *)
Definition json_start : list Z := [123; 34; 99; 111; 100; 101; 34; 58].

(** The loop of [FindBoundary], [n] iterations before the bound on [i]. *)
Fixpoint rmq_boundary_loop (buffer : list Z) (requestOpaqueMap : gset Z) (mt : MessageType) (n : nat) (i : Z) : go Z :=
  match n with
  | O => Ret (-1)
  | S n =>
    let arr := buffer ++ spare in
    let continue := rmq_boundary_loop buffer requestOpaqueMap mt n (i + 1) in
    frameSize ← uint_at arr i 4;
    if frameSize <=? 0 then continue
    else if i + frameSize + 4 >? zlen buffer then Ret (-1)
    else
      headerLength ← uint_at arr (i + 4) 4;
      let serializedType := u8 (Z.land (Z.shiftr headerLength 24) 255) in
      let headerDataLen := Z.land headerLength 16777215 in
      if negb (serializedType =? 0) && negb (serializedType =? 1) then continue
      else if (headerDataLen <=? 0) || negb (headerDataLen =? frameSize - 4) then continue
      else
        json_ok ← (if serializedType =? serializationTypeJSON then
          if i + 16 >? zlen buffer then Ret false
          else start ← slice arr (i + 8) (i + 16); Ret (bool_decide (start = json_start)) else Ret true);
        if negb json_ok then continue
        else
          binary_ok ← (if serializedType =? serializationTypeRocketMQ then
            if i + 14 >? zlen buffer then Ret false
            else
              requestCode ← uint_at arr (i + 8) 2;
              lFlag ← index buffer (i + 10);
              Ret (negb ((requestCode <? 10) || (lFlag >=? UNKNOWN_LANGUAGE))) else Ret true);
          if negb binary_ok then continue
          else if bool_decide (mt = Response) then
            if i + 20 >? zlen buffer then continue
            else
              opaque ← uint_at arr (i + 16) 4;
              if decide (s32 opaque ∈ requestOpaqueMap) then Ret i else continue
          else Ret i
  end.

Definition rocketmq_FindBoundary (requestOpaqueMap : gset Z) (sb : StreamBuffer T) (mt : MessageType) (startPos : Z) : go Z :=
  match Head sb with
  | None => Panic
  | Some h => rmq_boundary_loop (buf h) requestOpaqueMap mt (Z.to_nat (zlen (buf h) - 16 - startPos + 1)) startPos
  end.

(** The parser, whose state is [requestOpaqueMap]. *)
Definition rocketmq_parser : ProtocolStreamParser T (gset Z) RocketMQMessage := {|
  ParseStream p sb mt := r ← rocketmq_ParseStream sb mt; Ret (r, p);
  FindBoundary p sb mt start := rocketmq_FindBoundary p sb mt start;
|}.

End Parser.

(** ** Matching *)

(** The loop over the responses. *)
Fixpoint match_responses (resps : list RocketMQMessage) (reqMap : gmap Z RocketMQMessage) (requestOpaqueMap : gset Z)
    : list (Record_ RocketMQMessage) * gmap Z RocketMQMessage * gset Z :=
  match resps with
  | [] => ([], reqMap, requestOpaqueMap)
  | resp :: resps =>
    match reqMap !! Opaque resp with
    | Some req =>
      let '(records, reqMap, opaques) :=
        match_responses resps (delete (Opaque req) reqMap) (requestOpaqueMap ∖ {[Opaque req]}) in
      (mk_Record req resp :: records, reqMap, opaques)
    | None => match_responses resps reqMap requestOpaqueMap
    end
  end.

Definition request_map (reqs : list RocketMQMessage) : gmap Z RocketMQMessage :=
  foldl (fun m req => <[Opaque req := req]> m) ∅ reqs.

Definition rocketmq_Match (currentTime : Z) (requestOpaqueMap : gset Z) (reqStreams respStreams : queues RocketMQMessage)
    : list (Record_ RocketMQMessage) * queues RocketMQMessage * queues RocketMQMessage * gset Z :=
  match reqStreams !! 0, respStreams !! 0 with
  | Some reqStream, Some respStream =>
    let '(records, reqMap, opaques) := match_responses respStream (request_map reqStream) requestOpaqueMap in
    let reqMap := filter (fun kv => ~ currentTime - s64 (TimestampNs kv.2) > requestTimeoutDuration) reqMap in
    let newReqStream := filter (fun req => is_Some (reqMap !! Opaque req)) reqStream in
    (records, <[0 := newReqStream]> reqStreams, <[0 := []]> respStreams, opaques)
  | _, _ => ([], reqStreams, respStreams, requestOpaqueMap)
  end.

#[export] Instance rocketmq_matcher (currentTime : Z) : MessageMatcher (gset Z) RocketMQMessage := {|
  Match p reqs resps := Ret (rocketmq_Match currentTime p reqs resps);
|}.

(** ** The filter *)

Record rocketmq_Filter := mk_rocketmq_Filter { TargetRequestCodes : list Z; TargetLanguageCodes : list Z }.
Definition rocketmq_filter (m : rocketmq_Filter) : ProtocolFilter RocketMQMessage :=
  let wanted := negb (bool_decide (TargetRequestCodes m = [])) || negb (bool_decide (TargetLanguageCodes m = [])) in {|
  Filter req _ :=
    match req with
    | None => false
    | Some r =>
      (bool_decide (TargetRequestCodes m = []) || bool_decide (RequestCode r ∈ TargetRequestCodes m)) &&
      (bool_decide (TargetLanguageCodes m = []) || bool_decide (LanguageCode r ∈ TargetLanguageCodes m))
    end;
  FilterByProtocol p := bool_decide (p = kProtocolRocketMQ);
  FilterByRequest := wanted;
  FilterByResponse := wanted;
|}.

(** ** Frames on the wire *)

Record rmq_header := mk_rmq_header {
  h_code : Z; h_language : Z; h_version : Z; h_opaque : Z; h_flag : Z; h_remark : list Z; h_ext : list Z;
}.

(** The binary form of a header. *)
Definition header_bytes (hd : rmq_header) : list Z :=
  be_encode 2 (h_code hd) ++ [h_language hd] ++ be_encode 2 (h_version hd) ++ be_encode 4 (h_opaque hd) ++
  be_encode 4 (h_flag hd) ++ be_encode 4 (zlen (h_remark hd)) ++ h_remark hd ++ be_encode 4 (zlen (h_ext hd)) ++ h_ext hd.

(** The length of what follows it, the form and the length of the header, header and body. *)
Definition frame_bytes (hd : rmq_header) (body : list Z) : list Z :=
  be_encode 4 (4 + zlen (header_bytes hd) + zlen body) ++ be_encode 4 (16777216 + zlen (header_bytes hd)) ++
  header_bytes hd ++ body.

Definition int16 (z : Z) : Prop := -32768 <= z < 32768.
Definition int32 (z : Z) : Prop := -2147483648 <= z < 2147483648.

Definition header_valid (hd : rmq_header) : Prop :=
  int16 (h_code hd) /\ 0 <= h_language hd <= 13 /\ int16 (h_version hd) /\ int32 (h_opaque hd) /\ int32 (h_flag hd) /\
  zlen (header_bytes hd) < 16777216.

Definition message_of_header (hd : rmq_header) : RocketMQMessage :=
  mk_RocketMQMessage no_frame (h_code hd) (h_language hd) (h_version hd) (h_opaque hd) (h_flag hd)
    (zlen (h_remark hd)) (h_remark hd) (zlen (h_ext hd)) (h_ext hd) ∅ [] false.

Lemma zlen_be n z : zlen (be_encode n z) = Z.of_nat n.
Proof. unfold zlen. by rewrite length_be_encode. Qed.

Lemma slice_field (a b c : list Z) arr lo hi :
  arr = a ++ b ++ c -> lo = zlen a -> hi = zlen a + zlen b -> slice arr lo hi = Ret b.
Proof.
  intros -> -> ->. pose proof (zlen_nonneg a). pose proof (zlen_nonneg b). pose proof (zlen_nonneg c).
  unfold slice. rewrite !zlen_app, !(proj2 (Z.leb_le _ _)) by lia. cbn [andb].
  rewrite drop_app_length' by (unfold zlen; lia). f_equal. apply take_app_length'. unfold zlen. lia.
Qed.

Lemma uint_field (a c : list Z) (n : nat) z arr i k :
  arr = a ++ be_encode n z ++ c -> i = zlen a -> k = Z.of_nat n -> uint_at arr i k = Ret (z mod 256 ^ Z.of_nat n).
Proof.
  intros Ha -> ->. unfold uint_at. rewrite (slice_field a (be_encode n z) c) by (done || by rewrite zlen_be).
  rewrite go_bind_ret. by rewrite be_decode_encode.
Qed.

Lemma s16_mod z : int16 z -> s16 (z mod 65536) = z.
Proof. intros Hz. unfold int16, s16 in *. rewrite Zplus_mod_idemp_l, Z.mod_small; lia. Qed.
Lemma s32_mod z : int32 z -> s32 (z mod 4294967296) = z.
Proof. intros Hz. unfold int32, s32 in *. rewrite Zplus_mod_idemp_l, Z.mod_small; lia. Qed.

Lemma zlen_header hd : zlen (header_bytes hd) = 21 + zlen (h_remark hd) + zlen (h_ext hd).
Proof. unfold header_bytes. rewrite !zlen_app, !zlen_be. change (zlen [h_language hd]) with 1. lia. Qed.

(** The number behind the bytes [a]. *)
Ltac field Harr a n z i k := erewrite (uint_field a _ n z _ i k);
  [rewrite go_bind_ret|rewrite Harr, <- ?app_assoc; reflexivity|rewrite ?zlen_app, ?zlen_cons; change (zlen (@nil Z)) with 0; lia|reflexivity].

Lemma parse_header_bytes hd beyond : header_valid hd ->
  parse_binary_header (header_bytes hd) beyond = Ret (Some (message_of_header hd)).
Proof.
  intros (Hc & Hl & Hv & Ho & Hf & Hz). rewrite zlen_header in Hz.
  pose proof (zlen_nonneg (h_remark hd)). pose proof (zlen_nonneg (h_ext hd)).
  unfold parse_binary_header, requestCodeOffset, languageCodeOffset, versionFlagOffset, opaqueOffset, requestFlagOffset,
    remarkLengthOffset. rewrite zlen_header, (proj2 (Z.ltb_ge _ _)) by lia.
  set (c := be_encode 2 (h_code hd)). set (v := be_encode 2 (h_version hd)). set (o := be_encode 4 (h_opaque hd)).
  set (f := be_encode 4 (h_flag hd)). set (rl := be_encode 4 (zlen (h_remark hd))). set (el := be_encode 4 (zlen (h_ext hd))).
  assert (Hhd : header_bytes hd = c ++ [h_language hd] ++ v ++ o ++ f ++ rl ++ h_remark hd ++ el ++ h_ext hd) by done.
  assert (Harr : header_bytes hd ++ beyond = c ++ [h_language hd] ++ v ++ o ++ f ++ rl ++ h_remark hd ++ el ++ h_ext hd ++ beyond)
    by (rewrite Hhd, <- !app_assoc; done).
  assert (zlen c = 2 /\ zlen v = 2 /\ zlen o = 4 /\ zlen f = 4 /\ zlen rl = 4 /\ zlen el = 4) as (? & ? & ? & ? & ? & ?)
    by (split_and!; apply zlen_be).
  cbv zeta. field Harr (@nil Z) 2%nat (h_code hd) 0 2.
  assert (index (header_bytes hd) 2 = Ret (h_language hd)) as -> by done. rewrite go_bind_ret.
  field Harr (c ++ [h_language hd]) 2%nat (h_version hd) 3 2. field Harr (c ++ [h_language hd] ++ v) 4%nat (h_opaque hd) 5 4.
  field Harr (c ++ [h_language hd] ++ v ++ o) 4%nat (h_flag hd) 9 4.
  field Harr (c ++ [h_language hd] ++ v ++ o ++ f) 4%nat (zlen (h_remark hd)) 13 4.
  change (256 ^ Z.of_nat 4) with 4294967296. change (256 ^ Z.of_nat 2) with 65536.
  rewrite (s32_mod (zlen (h_remark hd))) by (unfold int32; lia).
  rewrite (slice_from_ok _ (13 + 4)), go_bind_ret, zlen_drop by (rewrite zlen_header; lia). rewrite zlen_header.
  rewrite Z.gtb_ltb, (proj2 (Z.ltb_ge _ _)) by lia. rewrite (s32_small (13 + 4 + zlen (h_remark hd))) by lia.
  rewrite (slice_field (c ++ [h_language hd] ++ v ++ o ++ f ++ rl) (h_remark hd) (el ++ h_ext hd ++ beyond)), go_bind_ret;
    [|rewrite Harr, <- !app_assoc; done|rewrite !zlen_app, zlen_cons; change (zlen (@nil Z)) with 0; lia..].
  rewrite slice_from_ok, go_bind_ret, zlen_drop by (rewrite zlen_header; lia). rewrite zlen_header.
  rewrite (proj2 (Z.ltb_ge _ _)) by lia.
  set (pre := c ++ [h_language hd] ++ v ++ o ++ f ++ rl ++ h_remark hd).
  assert (zlen pre = 13 + 4 + zlen (h_remark hd)) as Hpre
    by (unfold pre; rewrite !zlen_app, zlen_cons; change (zlen (@nil Z)) with 0; lia).
  erewrite (uint_field pre _ 4 (zlen (h_ext hd)) _ (13 + 4 + zlen (h_remark hd)) 4);
    [rewrite go_bind_ret|rewrite Harr; unfold pre; rewrite <- !app_assoc; reflexivity|done|reflexivity].
  change (256 ^ Z.of_nat 4) with 4294967296. rewrite (s32_mod (zlen (h_ext hd))) by (unfold int32; lia).
  rewrite (s32_small (13 + 4 + zlen (h_remark hd) + 4)), (s32_small (13 + 4 + zlen (h_remark hd) + 4 + zlen (h_ext hd))) by lia.
  rewrite (slice_field (pre ++ el) (h_ext hd) beyond), go_bind_ret;
    [|rewrite Harr; unfold pre; rewrite <- !app_assoc; done|rewrite zlen_app; lia..].
  unfold message_of_header, convertToLanguageCodeFromByte. rewrite Z.gtb_ltb, (proj2 (Z.ltb_ge _ _)) by lia.
  by rewrite !s16_mod, !s32_mod.
Qed.

Lemma slice_panic {A} (arr : list A) lo hi : hi < lo -> slice arr lo hi = Panic.
Proof. intros Hl. unfold slice. by rewrite (proj2 (Z.leb_gt lo hi)), andb_false_r by lia. Qed.

Lemma zlen_frame hd body : zlen (frame_bytes hd body) = 8 + zlen (header_bytes hd) + zlen body.
Proof. unfold frame_bytes. rewrite !zlen_app, !zlen_be. lia. Qed.

(** The second word of a frame. *)
Lemma header_word n : 0 <= n < 16777216 ->
  Z.land (16777216 + n) 16777215 = n /\ u8 (Z.land (Z.shiftr (16777216 + n) 24) 255) = 1.
Proof.
  intros Hn. change 16777215 with (Z.ones 24). rewrite Z.land_ones, Z.shiftr_div_pow2 by lia.
  change (2 ^ 24) with 16777216. rewrite Z.add_mod, Z.mod_same, Z.add_0_l, Z.mod_mod, Z.mod_small by lia.
  replace ((16777216 + n) / 16777216) with 1; [done|]. apply Z.div_unique with n; lia.
Qed.

Section Frames.
Context {T : Type} `{TreeMap T}.
Variable spare : list Z.
Variable Unmarshal : list Z -> option json_header.

(** A frame that is complete, up to its body. *)
Lemma frame_header (sb : StreamBuffer T) mt h hd body rest :
  Head sb = Some h -> header_valid hd -> 4 + zlen (header_bytes hd) + zlen body < 4294967296 ->
  buf h = frame_bytes hd body ++ rest ->
  rocketmq_ParseStream spare Unmarshal sb mt =
    (message ← (if 4 + zlen (header_bytes hd) + zlen body >? 4 + zlen (header_bytes hd) then
       body ← slice (frame_bytes hd body ++ rest ++ spare) (8 + zlen (header_bytes hd)) (4 + zlen (header_bytes hd) + zlen body);
       Ret (with_body (message_of_header hd) body) else Ret (message_of_header hd));
     fb ← CreateFrameBase sb (4 + zlen (header_bytes hd) + zlen body);
     match fb with
     | None => Ret (mk_ParseResult Ignore [] (4 + zlen (header_bytes hd) + zlen body))
     | Some fb => Ret (mk_ParseResult Success [with_frame message fb (bool_decide (mt = Request))]
         (4 + zlen (header_bytes hd) + zlen body))
     end).
Proof.
  intros Hh Hv Hs Hb. pose proof (zlen_header hd). pose proof (zlen_nonneg (h_remark hd)). pose proof (zlen_nonneg (h_ext hd)).
  pose proof (zlen_nonneg body). pose proof (zlen_nonneg rest).
  assert (zlen (header_bytes hd) < 16777216) as Hhl by apply Hv. set (n := zlen (header_bytes hd)) in *.
  unfold rocketmq_ParseStream. rewrite Hh, Hb. cbv zeta.
  assert (Hz : zlen (frame_bytes hd body ++ rest) = 8 + n + zlen body + zlen rest) by (rewrite zlen_app, zlen_frame; lia).
  rewrite Hz, (proj2 (Z.ltb_ge _ 8)) by lia. rewrite <- app_assoc.
  set (arr := frame_bytes hd body ++ rest ++ spare). set (f1 := be_encode 4 (4 + n + zlen body)). set (f2 := be_encode 4 (16777216 + n)).
  assert (Harr : arr = f1 ++ f2 ++ header_bytes hd ++ body ++ rest ++ spare) by (unfold arr, frame_bytes; rewrite <- !app_assoc; done).
  assert (zlen f1 = 4 /\ zlen f2 = 4) as [? ?] by (split; apply zlen_be).
  field Harr (@nil Z) 4%nat (4 + n + zlen body) 0 4. change (256 ^ Z.of_nat 4) with 4294967296. rewrite Z.mod_small by lia.
  rewrite (proj2 (Z.leb_gt _ 0)) by lia. rewrite (Z.gtb_ltb (4 + n + zlen body + 4)), (proj2 (Z.ltb_ge _ _)) by lia.
  field Harr f1 4%nat (16777216 + n) 4 4. change (256 ^ Z.of_nat 4) with 4294967296. rewrite Z.mod_small by lia.
  destruct (header_word n) as [-> ->]; [lia|].
  rewrite (Z.gtb_ltb (4 + n)), !(proj2 (Z.ltb_ge _ _)) by lia. cbn [orb].
  rewrite (slice_field (f1 ++ f2) (header_bytes hd) (body ++ rest ++ spare) arr 8 (8 + n)), go_bind_ret;
    [|rewrite Harr, <- !app_assoc; done|rewrite zlen_app; lia|rewrite zlen_app; fold n; lia].
  assert (forall b, parseHeader Unmarshal (header_bytes hd) b 1 = Ret (Some (message_of_header hd))) as ->
    by (intros b; by apply parse_header_bytes). done.
Qed.

(** What the parser makes of a whole frame. *)
Definition frame_outcome (mt : MessageType) (t sq : Z) (hd : rmq_header) (body : list Z) : go (ParseResult RocketMQMessage) :=
  if (1 <=? zlen body) && (zlen body <=? 3) then Panic
  else
    let n := zlen (frame_bytes hd body) - 4 in
    Ret (mk_ParseResult Success [with_frame (with_body (message_of_header hd) (take (length body - 4) body)) (mk_FrameBase t n sq)
      (bool_decide (mt = Request))] n).

Lemma frame_whole (sb : StreamBuffer T) mt h hd body rest t :
  Head sb = Some h -> header_valid hd -> 4 + zlen (header_bytes hd) + zlen body < 4294967296 ->
  FindTimestampBySeq sb (seq h) = (t, true) -> buf h = frame_bytes hd body ++ rest ->
  rocketmq_ParseStream spare Unmarshal sb mt = frame_outcome mt t (seq h) hd body.
Proof.
  intros Hh Hv Hs Ht Hb. rewrite (frame_header sb mt h hd body rest) by done. unfold frame_outcome. rewrite zlen_frame.
  set (n := zlen (header_bytes hd)). pose proof (zlen_nonneg body). pose proof (zlen_nonneg rest). pose proof (zlen_nonneg spare).
  assert (CreateFrameBase sb (4 + n + zlen body) = Ret (Some (mk_FrameBase t (4 + n + zlen body) (seq h)))) as ->
    by (unfold CreateFrameBase, LeftBoundary; by rewrite Hh, Ht).
  replace (8 + n + zlen body - 4) with (4 + n + zlen body) by lia. rewrite Z.gtb_ltb.
  destruct (Z.ltb_spec (4 + n) (4 + n + zlen body)).
  - rewrite (proj2 (Z.leb_le 1 (zlen body))) by lia. cbn [andb]. destruct (Z.leb_spec (zlen body) 3).
    + by rewrite slice_panic by lia.
    + rewrite (slice_field (be_encode 4 (4 + n + zlen body) ++ be_encode 4 (16777216 + n) ++ header_bytes hd)
        (take (length body - 4) body) (drop (length body - 4) body ++ rest ++ spare)); [by rewrite !go_bind_ret|..].
      * unfold frame_bytes. rewrite <- !app_assoc. do 3 f_equal. by rewrite (app_assoc (take _ _)), take_drop.
      * rewrite !zlen_app, !zlen_be. fold n. lia.
      * rewrite !zlen_app, !zlen_be. fold n.
        assert (zlen (take (length body - 4) body) = zlen body - 4) as ->; [|lia]. unfold zlen in *. rewrite length_take. lia.
  - destruct body as [|b body]; [|rewrite zlen_cons in *; pose proof (zlen_nonneg body); lia]. by rewrite !go_bind_ret.
Qed.

Lemma frame_part (sb : StreamBuffer T) mt h hd body k :
  Head sb = Some h -> header_valid hd -> 4 + zlen (header_bytes hd) + zlen body < 4294967296 ->
  buf h = take k (frame_bytes hd body) -> Z.of_nat k < zlen (frame_bytes hd body) ->
  rocketmq_ParseStream spare Unmarshal sb mt = Ret (just NeedsMoreData).
Proof.
  intros Hh Hv Hs Hb Hk. pose proof (zlen_frame hd body) as Hf. unfold rocketmq_ParseStream. rewrite Hh. cbv zeta.
  assert (zlen (buf h) = Z.of_nat k) as Hz by (rewrite Hb; unfold zlen in *; rewrite length_take; lia). rewrite Hz.
  destruct (Z.ltb_spec (Z.of_nat k) 8); [done|]. pose proof (zlen_header hd). pose proof (zlen_nonneg body).
  pose proof (zlen_nonneg (h_remark hd)). pose proof (zlen_nonneg (h_ext hd)).
  set (n := zlen (header_bytes hd)) in *. set (f1 := be_encode 4 (4 + n + zlen body)).
  assert (exists c, buf h ++ spare = f1 ++ c) as [c Hc].
  { rewrite Hb. unfold frame_bytes. fold n f1. exists (take (k - 4) (be_encode 4 (16777216 + n) ++ header_bytes hd ++ body) ++ spare).
    assert (length f1 = 4%nat) as Hf1 by apply length_be_encode.
    rewrite take_app, (take_ge f1), Hf1 by lia. by rewrite <- app_assoc. }
  field Hc (@nil Z) 4%nat (4 + n + zlen body) 0 4. change (256 ^ Z.of_nat 4) with 4294967296. rewrite Z.mod_small by lia.
  rewrite (proj2 (Z.leb_gt _ 0)) by lia. rewrite Z.gtb_ltb, (proj2 (Z.ltb_lt _ _)) by lia. done.
Qed.

End Frames.

(** ** Boundaries *)

Lemma uint_total (arr : list Z) i n : 0 <= i -> 0 <= n -> i + n <= zlen arr -> exists z, uint_at arr i n = Ret z.
Proof. intros. unfold uint_at, slice. rewrite !(proj2 (Z.leb_le _ _)) by lia. by eexists. Qed.

Lemma slice_total {A} (arr : list A) lo hi : 0 <= lo <= hi -> hi <= zlen arr -> exists l, slice arr lo hi = Ret l.
Proof. intros. unfold slice. rewrite !(proj2 (Z.leb_le _ _)) by lia. by eexists. Qed.

(** A response's boundary needs a request's number, and none is ever entered. *)
Lemma no_response_boundary spare buffer n : forall i, 0 <= i -> i + Z.of_nat n <= zlen buffer - 15 ->
  rmq_boundary_loop spare buffer ∅ Response n i = Ret (-1).
Proof.
  induction n as [|n IH]; intros i Hi Hn; [done|]. cbn [rmq_boundary_loop]. rewrite (IH (i + 1)) by lia.
  pose proof (zlen_nonneg spare). pose proof (zlen_app buffer spare) as Hz.
  destruct (uint_total (buffer ++ spare) i 4) as [fs ->]; [lia..|]. rewrite go_bind_ret.
  destruct (fs <=? 0); [done|]. destruct (i + fs + 4 >? zlen buffer); [done|].
  destruct (uint_total (buffer ++ spare) (i + 4) 4) as [hl ->]; [lia..|]. rewrite go_bind_ret.
  destruct (negb _ && _); [done|]. destruct (_ || _); [done|].
  destruct (slice_total (buffer ++ spare) (i + 8) (i + 16)) as [st ->]; [lia..|].
  destruct (uint_total (buffer ++ spare) (i + 8) 2) as [code ->]; [lia..|]. destruct (index_ok buffer (i + 10)) as [fl ->]; [lia|].
  assert (Hone : forall (b c : bool) (g : bool -> go Z), (forall x, g x = Ret (-1)) ->
    ((if b then if c then Ret false else Ret (bool_decide (st = json_start)) else Ret true) ≫= g) = Ret (-1) /\
    ((if b then if c then Ret false else Ret (negb ((code <? 10) || (fl >=? UNKNOWN_LANGUAGE))) else Ret true) ≫= g) = Ret (-1))
    by (intros [] [] g Hg; split; apply Hg).
  rewrite !go_bind_ret. apply Hone. intros [] ; cbn [negb]; [|done]. apply Hone. intros []; cbn [negb]; [|done].
  rewrite bool_decide_true by done. destruct (Z.gtb_spec (i + 20) (zlen buffer)); [done|].
  destruct (uint_total (buffer ++ spare) (i + 16) 4) as [op ->]; [lia..|]. rewrite go_bind_ret. by rewrite decide_False by set_solver.
Qed.

(** ** Matching *)

Lemma request_map_from reqs k req : request_map reqs !! k = Some req -> Opaque req = k /\ req ∈ reqs.
Proof.
  unfold request_map. assert (forall m : gmap Z RocketMQMessage,
    foldl (fun m req => <[Opaque req := req]> m) m reqs !! k = Some req ->
    m !! k = Some req \/ Opaque req = k /\ req ∈ reqs) as Hgen.
  { induction reqs as [|r reqs IH]; intros m Hm; cbn [foldl] in Hm; [by left|].
    apply IH in Hm as [ [ [<- <-]|[_ Hm] ]%lookup_insert_Some|[? ?] ]; [right; by split; [|left]|by left|].
    right. split; [done|by right]. }
  intros [Hm|?]%Hgen; [|done]. by rewrite lookup_empty in Hm.
Qed.

Lemma match_responses_from resps : forall reqMap opaques records reqMap' opaques',
  (forall k req, reqMap !! k = Some req -> Opaque req = k) ->
  match_responses resps reqMap opaques = (records, reqMap', opaques') ->
  Forall (fun r => Opaque (Req r) = Opaque (Resp r) /\ reqMap !! Opaque (Req r) = Some (Req r) /\ Resp r ∈ resps) records /\
  NoDup ((fun r => Opaque (Req r)) <$> records) /\
  Forall (fun r => reqMap' !! Opaque (Req r) = None) records /\ reqMap' ⊆ reqMap.
Proof.
  induction resps as [|resp resps IH]; intros reqMap opaques records reqMap' opaques' Hk E; cbn [match_responses] in E.
  { injection E as <- <- <-. split_and!; [constructor..|done]. }
  destruct (reqMap !! Opaque resp) as [req|] eqn:Er.
  - destruct (match_responses resps _ _) as [ [rs m'] o'] eqn:Em. injection E as <- <- <-.
    pose proof (Hk _ _ Er) as Ho. apply IH in Em as (H1 & H2 & H3 & H4).
    + assert (m' !! Opaque req = None) as Hnone.
      { destruct (m' !! Opaque req) as [x|] eqn:Ex; [|done]. eapply lookup_weaken in Ex; [|exact H4]. by rewrite lookup_delete_eq in Ex. }
      split_and!.
      * constructor; [cbn; split_and!; [done|by rewrite Ho|by left]|]. eapply Forall_impl; [exact H1|]. cbn.
        intros r (? & Hr & ?). split; [done|]. apply lookup_delete_Some in Hr as [_ Hr]. split; [done|by right].
      * rewrite fmap_cons. constructor; [|done]. intros (r & Heq & Hr)%list_elem_of_fmap. rewrite Forall_forall in H1.
        destruct (H1 r Hr) as (_ & Hd & _). apply lookup_delete_Some in Hd as [Hd _]. cbn in Heq. congruence.
      * by constructor.
      * etrans; [exact H4|apply delete_subseteq].
    + intros k r [_ Hr]%lookup_delete_Some. by apply Hk.
  - apply IH in E as (H1 & H2 & H3 & H4); [|done]. split_and!; try done. eapply Forall_impl; [exact H1|].
    intros r (? & ? & ?). split_and!; [done..|by right].
Qed.

(** Requests and responses of the same number are paired, each request at most once, and a
    request stays in its queue only if it was not paired. *)
Lemma rocketmq_match_pairs now opaques (reqStreams respStreams : queues RocketMQMessage) reqs resps :
  reqStreams !! 0 = Some reqs -> respStreams !! 0 = Some resps ->
  let '(records, reqStreams', respStreams', _) := rocketmq_Match now opaques reqStreams respStreams in
  Forall (fun r => Opaque (Req r) = Opaque (Resp r) /\ Req r ∈ reqs /\ Resp r ∈ resps) records /\
  NoDup ((fun r => Opaque (Req r)) <$> records) /\
  (exists left, reqStreams' !! 0 = Some left /\ forall req r, req ∈ left -> r ∈ records -> Opaque req <> Opaque (Req r)) /\
  respStreams' !! 0 = Some [].
Proof.
  intros E1 E2. unfold rocketmq_Match. rewrite E1, E2.
  destruct (match_responses resps (request_map reqs) opaques) as [ [rs m'] o'] eqn:Em.
  apply match_responses_from in Em as (H1 & H2 & H3 & H4); [|intros k req Hr; by apply (request_map_from reqs)].
  unfold queues in *. rewrite !lookup_insert_eq. split_and!; try done.
  - eapply Forall_impl; [exact H1|]. cbn. intros r (? & Hr & ?). split; [done|]. split; [|done]. by apply request_map_from in Hr as [_ ?].
  - eexists. split; [done|]. intros req r [ [x Hx] _]%list_elem_of_filter Hr Heq.
    apply map_lookup_filter_Some in Hx as [Hx _]. rewrite Forall_forall in H3. rewrite Heq, (H3 r Hr) in Hx. done.
Qed.

(** ** Theorem *)

(** A request with a body of one byte. *)
Definition plain_header : rmq_header := mk_rmq_header 10 0 1 7 0 [] [].

Lemma rocketmq_breaks_laws {T} `{TreeMap T} spare Unmarshal :
  @ParserLaws T (gset Z) RocketMQMessage (rocketmq_parser spare Unmarshal) -> False.
Proof.
  intros L. set (h := mk_Buffer (frame_bytes plain_header [1]) 0). set (sb := mk_StreamBuffer [h] 1048576 (tm_new : T)).
  destruct (@parse_total _ _ _ _ L ∅ sb Request h eq_refl) as (r & p' & E & _).
  { split; [by vm_compute|]. change (byte_list (frame_bytes plain_header [1])). repeat constructor; by vm_compute. }
  cbn [ParseStream rocketmq_parser] in E. rewrite (frame_header spare Unmarshal sb Request h plain_header [1] []) in E;
    [by vm_compute in E|done|repeat split; by vm_compute|by vm_compute|by rewrite app_nil_r].
Qed.


