(* ===== verification/MysqlMatch.v ===== *)
(** * Requests and responses of MySQL

    [Match] of [src/agent/protocol/mysql/mysql.go] takes the packets of a connection apart
    into commands and their responses; the handlers of
    [src/agent/protocol/mysql/handler.go], with the readers of
    [src/agent/protocol/mysql/utils.go], interpret the packets of a response and keep the
    prepared statements of the connection.

    - A record holds pointers that may be nil: [option].
    - [record.Req = &( *req )] is the packet of the queue itself, so that what
      [HandleStmtExecuteRequest] and [HandleStmtCloseRequest] write into [record.Req] they
      write into the queue: the packet as it is afterwards is a result of
      [processPackets].
    - The decimal text of a float parameter is made of the address of the buffer and not of
      its bytes ([LEndianBytesToFloat]): [float_text].
    - [Fatalf] ends the program; it is [Panic] here.  Logging is left out, except for the
      slice [reqPacket.msg[1:]] that one message takes. *)

From stdpp Require Import gmap list strings.
From Stdlib Require Import ZArith Lia.
From S2P Require Import Prelude.
From S2P Require Import Types.
From S2P Require Import GoBase.
From S2P Require Import StreamBuffer.
From S2P Require Import Protocol.
From S2P Require Import Mysql.
From S2P Require Import Records.
From S2P Require Import Redis.
From S2P Require Import RocketMQ.
Local Open Scope Z_scope.
Local Open Scope model_scope.

(** ** Integers and strings in a packet *)

(** [LEndianBytesToKInt[T]] for a signed type of [size] bytes. *)
Definition LEndianBytesTo (size : Z) (wrap : Z -> Z) (buf : list Z) (nBytes : Z) : Z :=
  if nBytes >? size then 0
  else if zlen buf <? nBytes then 0
  else foldl (fun result b => wrap (Z.lor (wrap b) (wrap (Z.shiftl result 8)))) 0 (rev (take (Z.to_nat nBytes) buf)).

Definition kResultsetRowNullPrefix : Z := 251.
Definition kLencIntPrefix2b : Z := 252.
Definition kLencIntPrefix3b : Z := 253.
Definition kLencIntPrefix8b : Z := 254.

(** The value and whether there is one, and the new offset. *)
Definition processLengthEncodedInt (s : list Z) (offset : Z) : go (option Z * Z) :=
  if decide (s = []) then Ret (None, offset)
  else
    s ← slice_from s offset;
    match s with
    | [] => Ret (None, offset)
    | b :: rest =>
      let prefixed n :=
        if zlen rest <? n then (None, offset) else (Some (LEndianBytesTo 8 s64 rest n), offset + 1 + n) in
      Ret (if b =? kResultsetRowNullPrefix then (Some 0, offset + 1)
           else if b =? kLencIntPrefix2b then prefixed 2
           else if b =? kLencIntPrefix3b then prefixed 3
           else if b =? kLencIntPrefix8b then prefixed 8
           else (Some (LEndianBytesTo 8 s64 s 1), offset + 1))
    end.

Definition DissectInt (size : Z) (wrap : Z -> Z) (msg : list Z) (offset length : Z) : go (option Z * Z) :=
  if zlen msg <? offset + length then Ret (None, offset)
  else s ← slice_from msg offset; Ret (Some (LEndianBytesTo size wrap s length), offset + length).

(** [fmt.Sprintf("%d", z)] *)
Definition itoa (z : Z) : list Z := if z <? 0 then 45 :: digits 19 (- z) [] else digits 19 z [].

(** The text of the value; [None] is [false]. *)
Definition DissectStringParam (s : list Z) (offset : Z) : go (option (list Z) * Z) :=
  do (param_length, offset) <- processLengthEncodedInt s offset;
  match param_length with
  | None => Ret (None, offset)
  | Some param_length =>
    let stop := s64 (offset + param_length) in
    if zlen s <? stop then Ret (None, offset)
    else
      param ← (if param_length =? 0 then Ret (bytes "NULL") else slice s offset stop);
      Ret (Some param, stop)
  end.

(** [DissectIntParam[T]], which returns [true] also when there are not enough bytes. *)
Definition DissectIntParam (s : list Z) (offset nbytes : Z) : go (option (list Z) * Z) :=
  do (p, offset) <- DissectInt 8 s64 s offset nbytes;
  Ret (Some (itoa (default 0 p)), offset).

Definition DissectDateTimeParam (msg : list Z) (offset : Z) : go (option (list Z) * Z) :=
  if zlen msg <? offset + 1 then Ret (None, offset)
  else
    length ← index msg offset;
    let offset := offset + 1 in
    if zlen msg <? offset + length then Ret (None, offset)
    else Ret (Some (bytes "MySQL DateTime rendering not implemented yet"), offset + length).

(** ** Kinds of response packets *)

Definition kRespHeaderEOF : Z := 254.
Definition kRespHeaderErr : Z := 255.
Definition kRespHeaderOK : Z := 0.

Definition isErrPacket (p : MysqlPacket) : go bool :=
  b ← index (msg p) 0; Ret ((b =? kRespHeaderErr) && (3 <? zlen (msg p))).

Definition isEOFPacket (p : MysqlPacket) (protocol41 : bool) : go bool :=
  let expectedSize := if protocol41 then 5 else 1 in
  header ← index (msg p) 0; Ret ((header =? kRespHeaderEOF) && (zlen (msg p) =? expectedSize)).

Definition isEOFPacketAll (p : MysqlPacket) : go bool :=
  a ← isEOFPacket p true; if a : bool then Ret true else isEOFPacket p false.

Definition isOkPacket (p : MysqlPacket) : go bool :=
  header ← index (msg p) 0;
  do (affected, offset) <- processLengthEncodedInt (msg p) 1;
  if decide (affected = None) then Ret false
  else
    do (last_insert_id, offset) <- processLengthEncodedInt (msg p) offset;
    if decide (last_insert_id = None) then Ret false
    else
      do (status_flag, offset) <- DissectInt 2 s16 (msg p) offset 2;
      if decide (status_flag = None) then Ret false
      else
        do (warnings, offset) <- DissectInt 2 s16 (msg p) offset 2;
        if decide (warnings = None) then Ret false
        else if (header =? kRespHeaderOK) && (7 <=? zlen (msg p)) then Ret true
        else if (header =? kRespHeaderEOF) && (zlen (msg p) <? 9) then
          eof ← isEOFPacketAll p; Ret (negb eof)
        else Ret false.

Definition isStmtPrepareOKPacket (p : MysqlPacket) : go bool :=
  if negb (zlen (msg p) =? 12) then Ret false
  else a ← index (msg p) 0; b ← index (msg p) 9; Ret ((a =? 0) && (b =? 0)).

Definition kServerMoreResultsExistFlag : Z := 8.

Definition MoreResultsExist (p : MysqlPacket) : go bool :=
  ok ← isOkPacket p;
  if ok : bool then
    do (a, pos) <- processLengthEncodedInt (msg p) 1;
    do (b, pos) <- processLengthEncodedInt (msg p) pos;
    if decide (a = None \/ b = None) then Ret false
    else x ← index (msg p) pos; Ret (negb (Z.land (s8 x) kServerMoreResultsExistFlag =? 0))
  else
    eof ← isEOFPacket p true;
    if eof : bool then x ← index (msg p) 3; Ret (negb (Z.land x kServerMoreResultsExistFlag =? 0)) else Ret false.

(** ** Columns *)

Definition kDecimal : Z := 0.
Definition kTiny : Z := 1.
Definition kShort : Z := 2.
Definition kLong : Z := 3.
Definition kFloat : Z := 4.
Definition kDouble : Z := 5.
Definition kNull : Z := 6.
Definition kTimestamp : Z := 7.
Definition kLongLong : Z := 8.
Definition kInt24 : Z := 9.
Definition kDate : Z := 10.
Definition kTimeColType : Z := 11.
Definition kDateTime : Z := 12.
Definition kYear : Z := 13.
Definition kVarChar : Z := 15.
Definition kBit : Z := 16.
Definition kNewDecimal : Z := 246.
Definition kEnum : Z := 247.
Definition kSet : Z := 248.
Definition kTinyBlob : Z := 249.
Definition kMediumBlob : Z := 250.
Definition kLongBlob : Z := 251.
Definition kBlob : Z := 252.
Definition kVarString : Z := 253.
Definition kString : Z := 254.
Definition kGeometry : Z := 255.

(** The types whose values are strings. *)
Definition string_types : list Z :=
  [kString; kVarChar; kVarString; kEnum; kSet; kLongBlob; kMediumBlob; kBlob; kTinyBlob; kGeometry; kBit; kDecimal; kNewDecimal].

Record ColDefinition := mk_ColDefinition {
  Catalog : list Z; Schema : list Z; Table : list Z; OrgTable : list Z; Name : list Z; OrgName : list Z;
  NextLength : Z; CharacterSet : Z; ColumnLength : Z; ColumnType : Z; Flags : Z; Decimals : Z;
}.

(** Strings one after the other, up to the first that cannot be read. *)
Fixpoint dissect_strings (n : nat) (s : list Z) (offset : Z) : go (option (list (list Z)) * Z) :=
  match n with
  | O => Ret (Some [], offset)
  | S n =>
    do (p, offset) <- DissectStringParam s offset;
    match p with
    | None => Ret (None, offset)
    | Some x => do (r, offset) <- dissect_strings n s offset; Ret (cons x <$> r, offset)
    end
  end.

Definition ProcessColumnDefPacket (p : MysqlPacket) : go (option ColDefinition) :=
  do (catalog, offset) <- DissectStringParam (msg p) 0;
  match catalog with
  | None => Ret None
  | Some catalog =>
    if decide (catalog <> bytes "def") then Ret None
    else
      do (names, offset) <- dissect_strings 5 (msg p) offset;
      match names with
      | Some [schema; table; orgTable; name; orgName] =>
        do (result, offset) <- processLengthEncodedInt (msg p) offset;
        let nextLength := s8 (default (-1) result) in
        if negb (nextLength =? 12) then Ret None
        else
          do (cs, offset) <- DissectInt 2 s16 (msg p) offset 2;
          do (len, offset) <- (if decide (cs = None) then Ret (None, offset) else DissectInt 4 s32 (msg p) offset 4);
          do (ty, offset) <- (if decide (len = None) then Ret (None, offset) else DissectInt 1 s8 (msg p) offset 1);
          do (fl, offset) <- (if decide (ty = None) then Ret (None, offset) else DissectInt 2 s16 (msg p) offset 2);
          do (dc, offset) <- (if decide (fl = None) then Ret (None, offset) else DissectInt 1 s8 (msg p) offset 1);
          Ret (dc ← dc; Some (mk_ColDefinition catalog schema table orgTable name orgName nextLength
            (default 0 cs) (default 0 len) (default 0 ty) (default 0 fl) dc))
      | _ => Ret None
      end
  end.

(** ** Records *)

Module RespStatus.
Inductive t : Set := Unknwon | None | Ok | Err.
End RespStatus.

Record MysqlResponse := mk_MysqlResponse { resp_frame : FrameBase; resp_status : RespStatus.t; resp_Msg : list Z }.

Definition Status (m : MysqlResponse) : ResponseStatus :=
  match resp_status m with
  | RespStatus.Ok => SuccessStatus
  | RespStatus.Err => FailStatus
  | RespStatus.Unknwon => UnknownStatus
  | RespStatus.None => NoneStatus
  end.

Record mysql_record := mk_mysql_record { rec_Req : option MysqlPacket; rec_Resp : option MysqlResponse }.
Definition no_record : mysql_record := mk_mysql_record None None.

Definition with_req (r : mysql_record) (p : MysqlPacket) : mysql_record := mk_mysql_record (Some p) (rec_Resp r).
Definition with_resp (r : mysql_record) (m : MysqlResponse) : mysql_record := mk_mysql_record (rec_Req r) (Some m).
Definition with_msg (p : MysqlPacket) (s : list Z) : MysqlPacket := mk_MysqlPacket (frame p) (seqId p) s (cmd p) (isReq p).

(** A handler's result: the state and the record. *)
Abbreviation handled := (ParseState * mysql_record)%type.

Definition handleStringRequest (p : MysqlPacket) : go MysqlPacket :=
  b ← index (msg p) 0;
  s ← slice_from (msg p) 1;
  Ret (mk_MysqlPacket (frame p) (seqId p) s (parseCommand b).1 (isReq p)).

Definition handleNonStringRequest (p : MysqlPacket) : go MysqlPacket :=
  b ← index (msg p) 0;
  Ret (mk_MysqlPacket (frame p) (seqId p) (msg p) (parseCommand b).1 (isReq p)).

Definition kMinOKPacketSize : Z := 7.
Definition kMinErrPacketSize : Z := 9.
Definition kErrorMessagePos : Z := 9.

Definition handleOkMessage (view : list MysqlPacket) (r : mysql_record) : go handled :=
  resp ← index view 0;
  if zlen (msg resp) <? kMinOKPacketSize then Ret (Invalid, r)
  else
    let r := with_resp r (mk_MysqlResponse (frame resp) RespStatus.Unknwon (bytes "OK")) in
    Ret (if 1 <? zlen view then Invalid else Success, r).

Definition handleNoResponse (req : MysqlPacket) (view : list MysqlPacket) (r : mysql_record) : handled :=
  if 0 <? zlen view then (Invalid, r)
  else (Success, with_resp r (mk_MysqlResponse (NewFrameBase (TimestampNs req) 0 0) RespStatus.None [])).

Definition handleErrMessage (view : list MysqlPacket) (r : mysql_record) : go handled :=
  resp ← index view 0;
  if zlen (msg resp) <? kMinErrPacketSize then Ret (Invalid, r)
  else
    let m := default (mk_MysqlResponse (frame resp) RespStatus.Unknwon []) (rec_Resp r) in
    text ← slice_from (msg resp) kErrorMessagePos;
    let r := with_resp r (mk_MysqlResponse (resp_frame m) (resp_status m) text) in
    Ret (if 1 <? zlen view then Invalid else Success, r).

Definition processRequestWithBasicResponse (req : MysqlPacket) (stringReq : bool) (view : list MysqlPacket) : go handled :=
  q ← (if stringReq then handleStringRequest req else handleNonStringRequest req);
  let r := with_req no_record q in
  match view with
  | [] => Ret (NeedsMoreData, r)
  | [resp] =>
    let r := with_resp r (mk_MysqlResponse (frame resp) RespStatus.Unknwon []) in
    ok ← isOkPacket resp;
    eof ← (if ok : bool then Ret true else isEOFPacketAll resp);
    if eof : bool then Ret (Success, r)
    else
      err ← isErrPacket resp;
      if err : bool then handleErrMessage view r else Ret (Invalid, r)
  | _ => Ret (Invalid, r)
  end.

Definition ProcessQuit (req : MysqlPacket) (view : list MysqlPacket) : go handled :=
  q ← handleNonStringRequest req;
  let r := with_req no_record q in
  match view with
  | [] =>
    Ret (Success, with_resp r (mk_MysqlResponse (SetTimeStamp (mk_FrameBase 0 0 0) (TimestampNs req)) RespStatus.None []))
  | resp :: _ =>
    ok ← isOkPacket resp;
    Ret (if ok : bool then (Success, with_resp r (mk_MysqlResponse (frame resp) RespStatus.Ok [])) else (Invalid, r))
  end.

(** ** Result sets *)

Section Handlers.
Variable float_text : list Z -> list Z.

(** [DissectFloatParam] of a type of [size] bytes. *)
Definition DissectFloatParam (size : Z) (msg : list Z) (offset : Z) : go (option (list Z) * Z) :=
  if zlen msg <? offset + size then Ret (None, offset)
  else s ← slice msg offset (offset + size); Ret (Some (float_text s), offset + size).

Definition ProcessTextResultsetRowPacket (p : MysqlPacket) (numCol : nat) : go bool :=
  null ← (if zlen (msg p) =? 1 then b ← index (msg p) 0; Ret (b =? kResultsetRowNullPrefix) else Ret false);
  if null : bool then Ret true
  else
    do (r, offset) <- dissect_strings numCol (msg p) 0;
    match r with None => Ret false | Some _ => Ret (negb (offset <? zlen (msg p))) end.

(** A value of a binary row of the type [ty]; a type that is not known takes no bytes. *)
Definition dissect_column (ty : Z) (msg : list Z) (offset : Z) : go (option (list Z) * Z) :=
  if decide (ty ∈ string_types) then DissectStringParam msg offset
  else if ty =? kLongLong then DissectIntParam msg offset 8
  else if (ty =? kLong) || (ty =? kInt24) then DissectIntParam msg offset 4
  else if (ty =? kShort) || (ty =? kYear) then DissectIntParam msg offset 2
  else if ty =? kTiny then DissectIntParam msg offset 1
  else if ty =? kDouble then DissectFloatParam 8 msg offset
  else if ty =? kFloat then DissectFloatParam 4 msg offset
  else if decide (ty ∈ [kDate; kDateTime; kTimestamp; kTimeColType]) then DissectDateTimeParam msg offset
  else Ret (Some [], offset).

(** The columns from the [i]th on, all read by the type of the first. *)
Fixpoint binary_columns (n : nat) (ty : Z) (nullBitmap msg : list Z) (i offset : Z) : go (option Z) :=
  match n with
  | O => Ret (Some offset)
  | S n =>
    b ← index nullBitmap ((i + 2) / 8);
    if Z.land (Z.shiftr b ((i + 2) mod 8)) 1 =? 1 then binary_columns n ty nullBitmap msg (i + 1) offset
    else
      do (v, offset) <- dissect_column ty msg offset;
      match v with None => Ret None | Some _ => binary_columns n ty nullBitmap msg (i + 1) offset end
  end.

Definition ProcessBinaryResultsetRowPacket (p : MysqlPacket) (columnDefs : list ColDefinition) : go bool :=
  header ← index (msg p) 0;
  if negb (header =? 0) then Ret false
  else
    let nullBitmapLen := (zlen columnDefs + 7 + 2) / 8 in
    nullBitmap ← slice (msg p) 1 (1 + nullBitmapLen);
    r ← (match columnDefs with
         | [] => Ret (Some (1 + nullBitmapLen))
         | c :: _ => binary_columns (length columnDefs) (ColumnType c) nullBitmap (msg p) 0 (1 + nullBitmapLen)
         end);
    match r with None => Ret false | Some offset => Ret (offset =? zlen (msg p)) end.

(** Definitions of columns at the head of the packets: [inl] is the state the handler
    returns. *)
Fixpoint column_defs (n : nat) (view : list MysqlPacket) : go (ParseState + list ColDefinition * list MysqlPacket) :=
  match n with
  | O => Ret (inr ([], view))
  | S n =>
    match view with
    | [] => Ret (inl NeedsMoreData)
    | p :: view =>
      c ← ProcessColumnDefPacket p;
      match c with
      | None => Ret (inl Invalid)
      | Some c =>
        r ← column_defs n view;
        Ret (match r with inl s => inl s | inr (cs, view) => inr (c :: cs, view) end)
      end
    end
  end.

Definition isLastPacket (p : MysqlPacket) : go bool :=
  err ← isErrPacket p;
  if err : bool then Ret true else ok ← isOkPacket p; if ok : bool then Ret true else isEOFPacketAll p.

(** The rows: how many, the bytes they add to the response, the packets from the last
    one on, and whether the packet behind the rows is the last. *)
Fixpoint result_rows (binary : bool) (colDefs : list ColDefinition) (view : list MysqlPacket) (rows size : Z)
    : go (Z * Z * list MysqlPacket * bool) :=
  match view with
  | [] => Ret (rows, size, [], true)
  | p :: view' =>
    status ← (if binary then ProcessBinaryResultsetRowPacket p colDefs else ProcessTextResultsetRowPacket p (length colDefs));
    if status : bool then result_rows binary colDefs view' (rows + 1) (size + ByteSize p)
    else last ← isLastPacket p; Ret (rows, size, view, last)
  end.

(** The state with which a handler returns, and the response it has made. *)
Definition return_with (s : ParseState) (r : mysql_record) (fb : FrameBase) (st : RespStatus.t) (text : list Z) : go (option handled) :=
  Ret (Some (s, with_resp r (mk_MysqlResponse fb st text))).

(** [None] when the fuel is used up. *)
Fixpoint HandleResultsetResponse (fuel : nat) (binary multi : bool) (view : list MysqlPacket) (r : mysql_record) : go (option handled) :=
  match fuel, view with
  | O, _ => Ret None
  | _, [] => Ret (Some (NeedsMoreData, r))
  | S fuel, firstResp :: view =>
    let fb := frame firstResp in
    ok ← (if multi then isOkPacket firstResp else Ret false);
    if ok : bool then return_with Success r fb RespStatus.Ok []
    else
      do (numCol, paramOffset) <- processLengthEncodedInt (msg firstResp) 0;
      match numCol with
      | None => return_with Invalid r fb RespStatus.Unknwon []
      | Some numCol =>
        if negb (paramOffset =? zlen (msg firstResp)) then return_with Invalid r fb RespStatus.Unknwon []
        else if numCol =? 0 then return_with Invalid r fb RespStatus.Unknwon []
        else if zlen view <? s64 (numCol + 1) then return_with NeedsMoreData r fb RespStatus.Unknwon []
        else
          defs ← column_defs (Z.to_nat numCol) view;
          match defs with
          | inl s => return_with s r fb RespStatus.Unknwon []
          | inr (_, []) => return_with NeedsMoreData r fb RespStatus.Unknwon []
          | inr (colDefs, (p :: view') as view) =>
            eof ← isEOFPacketAll p;
            rows ← result_rows binary colDefs (if eof : bool then view' else view) 0 0;
            match rows with
            | (_, size, _, false) => return_with Invalid r (IncrByteSize fb size) RespStatus.Unknwon []
            | (_, size, [], true) => return_with NeedsMoreData r (IncrByteSize fb size) RespStatus.Unknwon []
            | (n, size, (lastPacket :: rest) as view, true) =>
              let fb := IncrByteSize fb size in
              err ← isErrPacket lastPacket;
              if err : bool then h ← handleErrMessage view (with_resp r (mk_MysqlResponse fb RespStatus.Unknwon [])); Ret (Some h)
              else
                let text := (if multi then bytes ", " else []) ++ bytes "Resultset rows = " ++ itoa n in
                more ← MoreResultsExist lastPacket;
                if more : bool then
                  HandleResultsetResponse fuel binary true rest (with_resp r (mk_MysqlResponse fb RespStatus.Unknwon text))
                else return_with Success r (SetTimeStamp fb (TimestampNs lastPacket)) RespStatus.Ok text
            end
          end
      end
  end.

(** ** Commands *)

Definition processQuery (req : MysqlPacket) (view : list MysqlPacket) : go (option handled) :=
  q ← handleStringRequest req;
  let r := with_req no_record q in
  match view with
  | [] => Ret (Some (NeedsMoreData, r))
  | firstResp :: _ =>
    err ← isErrPacket firstResp;
    if err : bool then do (_, r) <- handleErrMessage view r; Ret (Some (Success, r))
    else
      ok ← isOkPacket firstResp;
      if ok : bool then h ← handleOkMessage view r; Ret (Some h)
      else HandleResultsetResponse (S (length view)) false false view r
  end.

Record StmtPrepareRespHeader := mk_StmtPrepareRespHeader { StmtId : Z; NumColumns : Z; NumParams : Z; WarningCount : Z }.
Record PreparedStatement := mk_PreparedStatement {
  ps_Request : list Z; ps_Header : StmtPrepareRespHeader; ColDefs : list ColDefinition; ParamDefs : list ColDefinition;
}.

Record State := mk_State { PreparedStatements : gmap Z PreparedStatement; active : bool }.

(** The time of the response is that of the last packet that was read. *)
Definition stamp (r : mysql_record) (t : Z) : mysql_record :=
  match rec_Resp r with
  | Some m => with_resp r (mk_MysqlResponse (SetTimeStamp (resp_frame m) t) (resp_status m) (resp_Msg m))
  | None => r
  end.

(** The definitions of parameters or columns, each of which moves the time of the
    response. *)
Fixpoint prepare_defs (n : nat) (view : list MysqlPacket) (r : mysql_record)
    : go (ParseState * mysql_record + list ColDefinition * list MysqlPacket * mysql_record) :=
  match n with
  | O => Ret (inr ([], view, r))
  | S n =>
    match view with
    | [] => Ret (inl (NeedsMoreData, r))
    | p :: view =>
      c ← ProcessColumnDefPacket p;
      match c with
      | None => Ret (inl (Invalid, r))
      | Some c =>
        x ← prepare_defs n view (stamp r (TimestampNs p));
        Ret (match x with inl e => inl e | inr (cs, view, r) => inr (c :: cs, view, r) end)
      end
    end
  end.

Definition skip_eof (n : Z) (view : list MysqlPacket) (r : mysql_record) : go (list MysqlPacket * mysql_record) :=
  match view with
  | p :: view' =>
    if n =? 0 then Ret (view, r)
    else eof ← isEOFPacketAll p; Ret (if eof : bool then (view', stamp r (TimestampNs p)) else (view, r))
  | [] => Ret (view, r)
  end.

Definition handleStmtPrepareOKResponse (st : State) (view : list MysqlPacket) (r : mysql_record) : go (handled * State) :=
  match view with
  | [] => Ret (NeedsMoreData, r, st)
  | firstResp :: view =>
    ok ← isStmtPrepareOKPacket firstResp;
    if negb ok then Ret (Invalid, r, st)
    else
      let int_at i n := s ← slice_from (msg firstResp) i; Ret (LEndianBytesTo 4 s32 s n) in
      stmt_id ← int_at 1 4;
      num_col ← int_at 5 2;
      num_param ← int_at 7 2;
      warning_count ← int_at 10 2;
      if s32 (num_col + num_param) >? zlen view then Ret (NeedsMoreData, r, st)
      else
        let r := with_resp r (mk_MysqlResponse (frame firstResp) RespStatus.Unknwon []) in
        params ← prepare_defs (Z.to_nat num_param) view r;
        match params with
        | inl (s, r) => Ret (s, r, st)
        | inr (paramDefs, view, r) =>
          do (view, r) <- skip_eof num_param view r;
          cols ← prepare_defs (Z.to_nat num_col) view r;
          match cols with
          | inl (s, r) => Ret (s, r, st)
          | inr (colDefs, view, r) =>
            do (view, r) <- skip_eof num_col view r;
            match rec_Req r, rec_Resp r with
            | Some q, Some m =>
              let ps := mk_PreparedStatement (msg q) (mk_StmtPrepareRespHeader stmt_id num_col num_param warning_count) colDefs paramDefs in
              Ret (Success, with_resp r (mk_MysqlResponse (resp_frame m) RespStatus.Ok (resp_Msg m)),
                mk_State (<[stmt_id := ps]> (PreparedStatements st)) (active st))
            | _, _ => Panic
            end
          end
        end
  end.

Definition ProcessStmtPrepare (st : State) (req : MysqlPacket) (view : list MysqlPacket) : go (handled * State) :=
  q ← handleStringRequest req;
  let r := with_req no_record q in
  match view with
  | [] => Ret (NeedsMoreData, r, st)
  | firstResp :: _ =>
    err ← isErrPacket firstResp;
    if err : bool then do (_, r) <- handleErrMessage view r; Ret (Success, r, st)
    else handleStmtPrepareOKResponse st view r
  end.

(** [HandleStmtCloseRequest] clears the message of the packet before it reads the number
    of the statement from it; the packet, as it is then, is a result. *)
Definition HandleStmtCloseRequest (st : State) (req : MysqlPacket) (r : mysql_record) : go (handled * MysqlPacket * State) :=
  if zlen (msg req) <? 1 + 4 then Ret (Invalid, r, req, st)
  else
    let req := with_msg req [] in
    let r := with_req r req in
    stmt_id ← (if 1 + 4 <=? zlen (msg req) then s ← slice_from (msg req) 1; Ret (LEndianBytesTo 4 s32 s 4) else Ret 0);
    Ret (Success, r, req, mk_State (delete stmt_id (PreparedStatements st)) (active st)).

Definition ProcessStmtClose (st : State) (req : MysqlPacket) (view : list MysqlPacket) : go (handled * MysqlPacket * State) :=
  do (h, req, st) <- HandleStmtCloseRequest st req no_record;
  match h with
  | (Success, r) => Ret (handleNoResponse req view r, req, st)
  | _ => Ret (h, req, st)
  end.

(** One parameter: its value, [None] for [false], and the two offsets behind it. *)
Definition HandleStmtExecuteParam (s : list Z) (typeOffset valOffset : Z) : go (option (list Z) * Z * Z) :=
  ty ← index s typeOffset;
  let typeOffset := typeOffset + 2 in
  do (v, valOffset) <-
    (if decide (ty ∈ string_types) then DissectStringParam s valOffset
     else if ty =? kTiny then DissectIntParam s valOffset 1
     else if ty =? kYear then DissectIntParam s valOffset 2
     else if ty =? kInt24 then DissectIntParam s valOffset 4
     else if ty =? kLongLong then DissectIntParam s valOffset 8
     else if ty =? kFloat then DissectFloatParam 4 s valOffset
     else if ty =? kDouble then DissectFloatParam 8 s valOffset
     else if (ty =? kTimestamp) || (ty =? kTimeColType) then DissectDateTimeParam s valOffset
     else if decide (ty ∈ [kShort; kLong; kDate; kDateTime; kNull]) then Ret (Some [], valOffset)
     else Panic);
  Ret (v, typeOffset, valOffset).

Fixpoint execute_params (n : nat) (s : list Z) (typeOffset valOffset : Z) : go (option (list (list Z))) :=
  match n with
  | O => Ret (Some [])
  | S n =>
    do (v, typeOffset, valOffset) <- HandleStmtExecuteParam s typeOffset valOffset;
    match v with
    | None => Ret None
    | Some v => vs ← execute_params n s typeOffset valOffset; Ret (option_map (cons v) vs)
    end
  end.

Fixpoint join_params (vs : list (list Z)) : list Z :=
  match vs with [] => [] | [v] => v | v :: vs => v ++ bytes ", " ++ join_params vs end.
Definition CombinePrepareExecute (request : list Z) (params : list (list Z)) : list Z :=
  bytes "query=[" ++ request ++ bytes "] params=[" ++ join_params params ++ bytes "]".

(** The state, the record and the packet, whose message the record shares. *)
Definition HandleStmtExecuteRequest (st : State) (req : MysqlPacket) : go (handled * MysqlPacket) :=
  if zlen (msg req) <? 1 + 4 then Ret (Invalid, no_record, req)
  else
    s ← slice_from (msg req) 1;
    let stmt_id := LEndianBytesTo 4 s32 s 4 in
    let rewritten text := let req := with_msg req text in (Success, with_req no_record req, req) in
    let kept s := (s, with_req no_record req, req) in
    match PreparedStatements st !! stmt_id with
    | None => Ret (rewritten (bytes "Execute stmt_id=" ++ itoa stmt_id ++ bytes "."))
    | Some stmt =>
      let num_params := NumParams (ps_Header stmt) in
      let offset := 1 + 4 + 1 + 4 in
      if zlen (msg req) <? offset then Ret (kept Invalid)
      else
        let offset := offset + (num_params + 7) / 8 in
        stmt_bound ← index (msg req) offset;
        let offset := offset + 1 in
        params ← (if stmt_bound =? 1 then execute_params (Z.to_nat num_params) (msg req) offset (offset + 2 * num_params)
                  else Ret (Some []));
        match params with
        | None => Ret (kept Invalid)
        | Some params => Ret (rewritten (CombinePrepareExecute (ps_Request stmt) params))
        end
    end.

Definition ProcessStmtExecute (st : State) (req : MysqlPacket) (view : list MysqlPacket) : go (option (handled * MysqlPacket)) :=
  do (h, req) <- HandleStmtExecuteRequest st req;
  match h with
  | (Success, r) =>
    match view with
    | [] => Ret (Some (NeedsMoreData, r, req))
    | firstResp :: _ =>
      err ← isErrPacket firstResp;
      if err : bool then h ← handleErrMessage view r; Ret (Some (h, req))
      else
        ok ← isOkPacket firstResp;
        if ok : bool then h ← handleOkMessage view r; Ret (Some (h, req))
        else h ← HandleResultsetResponse (S (length view)) true false view r; Ret (option_map (fun h => (h, req)) h)
    end
  | _ => Ret (Some (h, req))
  end.

Definition ProcessStmtSendLongData (req : MysqlPacket) (view : list MysqlPacket) : go handled :=
  q ← handleNonStringRequest req; Ret (handleNoResponse req view (with_req no_record q)).

Definition ProcessStmtFetch (req : MysqlPacket) : go handled :=
  q ← handleNonStringRequest req;
  Ret (Ignore, with_resp (with_req no_record q) (mk_MysqlResponse (mk_FrameBase 0 0 0) RespStatus.Unknwon [])).

(** The commands with one response packet, without and with text. *)
Definition basic_commands : list Z :=
  [kConnect; kConnectOut; kTime; kDelayedInsert; kDaemon; kSleep; kRegisterSlave; kResetConnection; kProcessKill; kRefresh;
   kPing; kShutdown; kSetOption; kDebug; kStmtReset].
Definition text_commands : list Z := [kInitDB; kCreateDB; kDropDB].

(** The record, the state of parsing, the packet as it is afterwards, and the state of the
    connection. *)
Definition processPackets (st : State) (req : MysqlPacket) (view : list MysqlPacket) : go (option (handled * MysqlPacket * State)) :=
  b ← index (msg req) 0;
  let command := (parseCommand b).1 in
  if decide (command ∈ basic_commands) then h ← processRequestWithBasicResponse req false view; Ret (Some (h, req, st))
  else if decide (command ∈ text_commands) then h ← processRequestWithBasicResponse req true view; Ret (Some (h, req, st))
  else if command =? kQuit then h ← ProcessQuit req view; Ret (Some (h, req, st))
  else if command =? kQuery then h ← processQuery req view; Ret (option_map (fun h => (h, req, st)) h)
  else if command =? kStmtPrepare then do (h, st) <- ProcessStmtPrepare st req view; Ret (Some (h, req, st))
  else if command =? kStmtSendLongData then h ← ProcessStmtSendLongData req view; Ret (Some (h, req, st))
  else if command =? kStmtExecute then h ← ProcessStmtExecute st req view; Ret (option_map (fun h => (h, st)) h)
  else if command =? kStmtClose then h ← ProcessStmtClose st req view; Ret (Some h)
  else if command =? kStmtFetch then h ← ProcessStmtFetch req; Ret (Some (h, req, st))
  else Ret (Some (Ignore, no_record, req, st)).

(** ** Matching *)

Fixpoint syncRespQueue (req : MysqlPacket) (resps : list MysqlPacket) : list MysqlPacket :=
  match resps with
  | resp :: resps' => if TimestampNs resp <? TimestampNs req then syncRespQueue req resps' else resps
  | [] => []
  end.

(** The responses up to the next request whose numbers are [count + 1] and so on. *)
Fixpoint resp_view (next : option MysqlPacket) (resps : list MysqlPacket) (count : Z) : list MysqlPacket :=
  match resps with
  | [] => []
  | resp :: resps =>
    if match next with Some q => TimestampNs resp >? TimestampNs q | None => false end then []
    else if negb (seqId resp =? u8 (count + 1)) then []
    else resp :: resp_view next resps (count + 1)
  end.
Definition getRespView (reqs resps : list MysqlPacket) : list MysqlPacket := resp_view (reqs !! 1%nat) resps 0.

Definition activating : list Z := [kConnect; kInitDB; kCreateDB; kDropDB; kQuery; kStmtPrepare; kStmtExecute].

(** The loop over the requests: the records, and what is left of both queues. *)
Fixpoint match_packets (reqs resps : list MysqlPacket) (st : State) (records : list mysql_record)
    : go (option (list mysql_record * list MysqlPacket * list MysqlPacket * State)) :=
  match reqs with
  | [] => Ret (Some (records, [], resps, st))
  | req :: rest =>
    b ← index (msg req) 0;
    let command := (parseCommand b).1 in
    let resps := syncRespQueue req resps in
    let view := getRespView reqs resps in
    p ← processPackets st req view;
    match p with
    | None => Ret None
    | Some (state, record, req, st) =>
      let st := if negb (active st) && bool_decide (state = Success) && bool_decide (command ∈ activating)
                then mk_State (PreparedStatements st) true else st in
      let on records := match_packets rest (drop (length view) resps) st records in
      match state with
      | NeedsMoreData =>
        if bool_decide (rest = []) && (zlen view =? zlen resps) then Ret (Some (records, [req], resps, st))
        else _ ← slice_from (msg req) 1; on records
      | Success => on (records ++ [record])
      | _ => on records
      end
    end
  end.

Definition mysql_Match (st : State) (reqStreams respStreams : queues MysqlPacket)
    : go (option (list mysql_record * queues MysqlPacket * queues MysqlPacket * State)) :=
  match reqStreams !! 0, respStreams !! 0 with
  | Some reqStream, Some respStream =>
    m ← match_packets reqStream respStream st [];
    Ret (match m with
         | None => None
         | Some (records, reqs, resps, st) =>
           Some (if active st then records else [], <[0 := reqs]> reqStreams, <[0 := resps]> respStreams, st)
         end)
  | _, _ => Ret (Some ([], reqStreams, respStreams, st))
  end.

End Handlers.

(** ** The filter *)

Definition mysql_filter : ProtocolFilter MysqlPacket :=
  mk_ProtocolFilter (fun _ _ => true) (fun p => bool_decide (p = kProtocolMySQL)) false false.
