(* ===== verification/MysqlRecords.v ===== *)
(** * What becomes of MySQL commands

    The handlers of [MysqlMatch.v] on packets as a server sends them: a query with a result
    set of any number of rows becomes one record; and what the handlers do not do.

    The encodings are those of the protocol's documentation: integers and strings with a
    length in front, definitions of columns, rows of text, and the packets that end a
    response. *)

From stdpp Require Import gmap list strings.
From Stdlib Require Import ZArith Lia.
From S2P Require Import Prelude.
From S2P Require Import Types.
From S2P Require Import GoBase.
From S2P Require Import StreamBuffer.
From S2P Require Import Protocol.
From S2P Require Import Mysql.
From S2P Require Import Redis.
From S2P Require Import RocketMQ.
From S2P Require Import MysqlMatch.
Local Open Scope Z_scope.
Local Open Scope model_scope.

Ltac go_step := change (go_then (Ret ?a) ?k) with (k a); cbv beta iota.

(** ** Integers *)

Lemma lor_shift b r : 0 <= b < 256 -> 0 <= r -> Z.lor b (Z.shiftl r 8) = b + 256 * r.
Proof.
  intros Hb Hr.
  assert (Z.land b (Z.shiftl r 8) = 0) as E.
  { apply Z.bits_inj'. intros i Hi. rewrite Z.land_spec, Z.bits_0.
    destruct (Z.lt_ge_cases i 8); [by rewrite Z.shiftl_spec_low, andb_false_r by lia|].
    rewrite <- (Z.mod_small b (2 ^ 8)) by lia. by rewrite Z.mod_pow2_bits_high by lia. }
  rewrite <- Z.lxor_lor, <- Z.add_nocarry_lxor by done. rewrite Z.shiftl_mul_pow2 by lia. lia.
Qed.

(** Bytes whose value fits into an [int64]. *)
Lemma fold_le l : Forall byte_range l -> le_decode l < 9223372036854775808 ->
  foldl (fun result b => s64 (Z.lor (s64 b) (s64 (Z.shiftl result 8)))) 0 (rev l) = le_decode l.
Proof.
  induction 1 as [|b l Hb Hl IH]; [done|]. cbn [rev le_decode]. intros Hd.
  pose proof (le_decode_range l Hl) as [Hr _]. unfold byte_range in Hb.
  rewrite foldl_app. cbn [foldl]. rewrite IH by lia.
  rewrite (s64_small b), (s64_small (Z.shiftl _ 8)), lor_shift by (rewrite ?Z.shiftl_mul_pow2 by lia; lia).
  rewrite s64_small; lia.
Qed.

Lemma LEndian_encode (n : nat) z rest : (n <= 8)%nat -> 0 <= z < 256 ^ Z.of_nat n -> z < 9223372036854775808 ->
  LEndianBytesTo 8 s64 (le_encode n z ++ rest) (Z.of_nat n) = z.
Proof.
  intros Hn Hz Hs. unfold LEndianBytesTo. rewrite Z.gtb_ltb, !(proj2 (Z.ltb_ge _ _)).
  2:{ rewrite zlen_app. unfold zlen. rewrite length_le_encode. lia. } 2: lia.
  rewrite Nat2Z.id, take_app_length' by (by rewrite length_le_encode).
  rewrite fold_le; [|apply le_encode_bytes|]; rewrite le_decode_encode, Z.mod_small by lia; lia.
Qed.

(** ** Integers and strings with their length *)

Definition lenenc (n : Z) : list Z :=
  if n <? 251 then [n]
  else if n <? 65536 then 252 :: le_encode 2 n
  else if n <? 16777216 then 253 :: le_encode 3 n
  else 254 :: le_encode 8 n.

Definition lenenc_str (s : list Z) : list Z := lenenc (zlen s) ++ s.

Lemma lenenc_nonempty n : 1 <= zlen (lenenc n).
Proof. unfold lenenc. repeat destruct (_ <? _); rewrite ?zlen_cons; pose proof (@zlen_nonneg Z); unfold zlen in *; cbn; lia. Qed.

(** An offset behind [pre]. *)
Lemma drop_pre (pre s : list Z) : drop (Z.to_nat (zlen pre)) (pre ++ s) = s.
Proof. unfold zlen. by rewrite Nat2Z.id, drop_app_length. Qed.

Lemma slice_from_pre (pre s : list Z) : slice_from (pre ++ s) (zlen pre) = Ret s.
Proof. pose proof (zlen_nonneg pre). pose proof (zlen_nonneg s). rewrite slice_from_ok, drop_pre by (rewrite zlen_app; lia). done. Qed.

Lemma read_lenenc pre n rest : 0 <= n < 9223372036854775808 ->
  processLengthEncodedInt (pre ++ lenenc n ++ rest) (zlen pre) = Ret (Some n, zlen pre + zlen (lenenc n)).
Proof.
  intros Hn. unfold processLengthEncodedInt. pose proof (lenenc_nonempty n) as Hl. pose proof (zlen_nonneg rest).
  rewrite decide_False by (intros [_ [E _]%app_eq_nil]%app_eq_nil; rewrite E in Hl; unfold zlen in Hl; cbn in Hl; lia).
  rewrite slice_from_pre, go_bind_ret.
  assert (forall k : nat, (zlen (le_encode k n ++ rest) <? Z.of_nat k) = false) as Hk.
  { intros k. apply Z.ltb_ge. rewrite zlen_app. unfold zlen at 1. rewrite length_le_encode. lia. }
  assert (forall k : nat, zlen (le_encode k n) = Z.of_nat k) as He by (intros k; unfold zlen; by rewrite length_le_encode).
  unfold lenenc in *. destruct (Z.ltb_spec n 251).
  { cbn [app]. unfold kResultsetRowNullPrefix, kLencIntPrefix2b, kLencIntPrefix3b, kLencIntPrefix8b.
    rewrite !(proj2 (Z.eqb_neq _ _)) by lia.
    replace (n :: rest) with (le_encode 1 n ++ rest) by (cbn; rewrite Z.mod_small by lia; done).
    rewrite (LEndian_encode 1) by (cbn; lia). done. }
  destruct (Z.ltb_spec n 65536); [|destruct (Z.ltb_spec n 16777216)]; rewrite zlen_cons, He, <- app_comm_cons; cbv zeta;
    unfold kResultsetRowNullPrefix, kLencIntPrefix2b, kLencIntPrefix3b, kLencIntPrefix8b; cbn [Z.eqb Pos.eqb].
  - rewrite (Hk 2%nat : (_ <? 2) = false).
    rewrite (LEndian_encode 2 n rest ltac:(lia) ltac:(cbn; lia) ltac:(lia) : LEndianBytesTo 8 s64 _ 2 = n).
    do 2 f_equal. lia.
  - rewrite (Hk 3%nat : (_ <? 3) = false).
    rewrite (LEndian_encode 3 n rest ltac:(lia) ltac:(cbn; lia) ltac:(lia) : LEndianBytesTo 8 s64 _ 3 = n).
    do 2 f_equal. lia.
  - rewrite (Hk 8%nat : (_ <? 8) = false).
    rewrite (LEndian_encode 8 n rest ltac:(lia) ltac:(cbn; lia) ltac:(lia) : LEndianBytesTo 8 s64 _ 8 = n).
    do 2 f_equal. lia.
Qed.

(** A value of a row: a string, or NULL. *)
Definition value_bytes (v : option (list Z)) : list Z :=
  match v with None => [kResultsetRowNullPrefix] | Some s => lenenc_str s end.
Definition value_text (v : option (list Z)) : list Z :=
  match v with Some (b :: s) => b :: s | _ => bytes "NULL" end.

Abbreviation int64_max := 9223372036854775808.

Lemma read_value_bytes pre v rest : zlen (pre ++ value_bytes v) < int64_max ->
  DissectStringParam (pre ++ value_bytes v ++ rest) (zlen pre) = Ret (Some (value_text v), zlen (pre ++ value_bytes v)).
Proof.
  intros Hb. pose proof (zlen_nonneg pre). pose proof (zlen_nonneg rest). unfold DissectStringParam.
  rewrite !zlen_app in *. destruct v as [s|].
  - cbn [value_bytes] in *. unfold lenenc_str in *. rewrite <- app_assoc.
    pose proof (zlen_nonneg s). pose proof (lenenc_nonempty (zlen s)). rewrite !zlen_app in *.
    rewrite read_lenenc by lia. change (go_then (Ret ?a) ?k) with (k a). cbv beta iota zeta.
    rewrite s64_small, (proj2 (Z.ltb_ge _ _)) by lia.
    destruct (Z.eqb_spec (zlen s) 0) as [E|E].
    + destruct s; [|rewrite zlen_cons in E; pose proof (zlen_nonneg s); lia]. rewrite go_bind_ret. do 2 f_equal. lia.
    + rewrite (slice_field (pre ++ lenenc (zlen s)) s rest);
        [|by rewrite <- !app_assoc|by rewrite zlen_app|by rewrite zlen_app]. rewrite go_bind_ret.
      destruct s; [done|]. do 2 f_equal. lia.
  - cbn [value_bytes] in *. unfold processLengthEncodedInt. change (zlen [kResultsetRowNullPrefix]) with 1 in *.
    rewrite decide_False by (by intros [_ ?]%app_eq_nil).
    rewrite slice_from_pre, go_bind_ret. cbn [app]. rewrite Z.eqb_refl. cbv zeta.
    go_step.
    rewrite s64_small, (proj2 (Z.ltb_ge _ _)) by (rewrite ?zlen_cons; lia). cbn [Z.eqb]. rewrite go_bind_ret.
    do 2 f_equal. lia.
Qed.

Lemma read_values vs : forall pre rest, zlen (pre ++ concat (value_bytes <$> vs)) < int64_max ->
  dissect_strings (length vs) (pre ++ concat (value_bytes <$> vs) ++ rest) (zlen pre) =
    Ret (Some (value_text <$> vs), zlen (pre ++ concat (value_bytes <$> vs))).
Proof.
  induction vs as [|v vs IH]; intros pre rest Hb; cbn [length dissect_strings fmap list_fmap concat].
  { by rewrite app_nil_r. }
  rewrite <- app_assoc. cbn [fmap list_fmap concat] in Hb. rewrite app_assoc in Hb.
  rewrite read_value_bytes by (rewrite zlen_app in Hb; pose proof (zlen_nonneg (concat (value_bytes <$> vs))); lia).
  go_step. rewrite (app_assoc pre).
  rewrite IH by done. go_step. by rewrite <- app_assoc.
Qed.

(** ** Packets of a result set *)

Definition row_bytes (vs : list (option (list Z))) : list Z := concat (value_bytes <$> vs).

Lemma row_read p vs : msg p = row_bytes vs -> zlen (row_bytes vs) < int64_max ->
  ProcessTextResultsetRowPacket p (length vs) = Ret true.
Proof.
  intros Hm Hb. unfold ProcessTextResultsetRowPacket. rewrite Hm.
  assert (exists b, (if zlen (row_bytes vs) =? 1 then b ← index (row_bytes vs) 0; Ret (b =? kResultsetRowNullPrefix)
    else Ret false) = Ret b) as [b ->].
  { destruct (Z.eqb_spec (zlen (row_bytes vs)) 1) as [E|E]; [|eauto].
    destruct (index_ok (row_bytes vs) 0) as [x ->]; [lia|]. eauto. }
  rewrite go_bind_ret. destruct b; [done|].
  pose proof (read_values vs [] [] Hb) as E. cbn [app] in E. rewrite app_nil_r in E. unfold row_bytes.
  change 0 with (zlen (@nil Z)) at 1. rewrite E. go_step.
  by rewrite Z.ltb_irrefl.
Qed.

(** The definition of a column: six names, of which the first is the catalog's, and fields
    of fixed sizes. *)
Definition column_bytes (names : list (list Z)) (fields : list Z) : list Z :=
  concat (value_bytes <$> (Some <$> bytes "def" :: names)) ++ [12] ++ fields.

Lemma read_fixed size wrap s offset k : 0 <= offset -> 0 <= k -> offset + k <= zlen s ->
  exists v, DissectInt size wrap s offset k = Ret (Some v, offset + k).
Proof.
  intros Ho Hk Hl. unfold DissectInt. rewrite (proj2 (Z.ltb_ge _ _)) by lia.
  rewrite slice_from_ok by lia. eexists. done.
Qed.

Lemma column_read p names fields : msg p = column_bytes names fields -> length names = 5%nat -> 10 <= zlen fields ->
  zlen (column_bytes names fields) < int64_max -> exists c, ProcessColumnDefPacket p = Ret (Some c).
Proof.
  intros Hm Hn Hf Hb. unfold ProcessColumnDefPacket. rewrite Hm. unfold column_bytes in *.
  cbn [fmap list_fmap concat] in *. rewrite <- (app_assoc (value_bytes _)). rewrite <- app_assoc in Hb.
  set (rest := concat _ ++ [12] ++ fields) in *. pose proof (zlen_nonneg rest).
  assert (zlen (value_bytes (Some (bytes "def"))) = 4) as H4 by done.
  pose proof (read_value_bytes [] (Some (bytes "def")) rest) as E. cbn [app] in E.
  change (zlen (@nil Z)) with 0 in E. rewrite E by lia. clear E.
  go_step. cbn [value_text].
  rewrite decide_False by (by intros []).
  rewrite <- Hn, <- (length_fmap Some names). unfold rest.
  rewrite (read_values (Some <$> names) (value_bytes (Some (bytes "def"))) ([12] ++ fields)).
  2:{ unfold rest in Hb. rewrite !zlen_app in *. pose proof (zlen_nonneg fields). change (zlen [12]) with 1 in Hb. lia. }
  go_step.
  rewrite (app_assoc (value_bytes (Some (bytes "def")))). clear rest H Hb.
  generalize (value_bytes (Some (bytes "def")) ++ concat (value_bytes <$> (Some <$> names))). intros pre.
  destruct names as [|n1 [|n2 [|n3 [|n4 [|n5 [|] ] ] ] ] ]; try done. cbn [fmap list_fmap].
  pose proof (read_lenenc pre 12 fields ltac:(lia)) as E. change (lenenc 12) with [12] in E. rewrite E. clear E.
  go_step. change (zlen [12]) with 1.
  assert (zlen (pre ++ [12] ++ fields) = zlen pre + 1 + zlen fields) as Hl by (rewrite !zlen_app; change (zlen [12]) with 1; lia).
  pose proof (zlen_nonneg pre).
  change (negb (s8 (default (-1) (Some 12)) =? 12)) with false. cbv iota.
  destruct (read_fixed 2 s16 (pre ++ [12] ++ fields) (zlen pre + 1) 2) as [v1 ->]; [lia..|].
  go_step. rewrite decide_False by done.
  destruct (read_fixed 4 s32 (pre ++ [12] ++ fields) (zlen pre + 1 + 2) 4) as [v2 ->]; [lia..|].
  go_step. rewrite decide_False by done.
  destruct (read_fixed 1 s8 (pre ++ [12] ++ fields) (zlen pre + 1 + 2 + 4) 1) as [v3 ->]; [lia..|].
  go_step. rewrite decide_False by done.
  destruct (read_fixed 2 s16 (pre ++ [12] ++ fields) (zlen pre + 1 + 2 + 4 + 1) 2) as [v4 ->]; [lia..|].
  go_step. rewrite decide_False by done.
  destruct (read_fixed 1 s8 (pre ++ [12] ++ fields) (zlen pre + 1 + 2 + 4 + 1 + 2) 1) as [v5 ->]; [lia..|].
  eexists. reflexivity.
Qed.

(** The packet that ends the definitions of columns and the rows, with the low byte of the
    server's status. *)
Definition eof_bytes (a b : Z) : list Z := [kRespHeaderEOF; 0; 0; a; b].

Lemma eof_kind p a b : msg p = eof_bytes a b ->
  isErrPacket p = Ret false /\ isOkPacket p = Ret false /\ isEOFPacketAll p = Ret true /\ isLastPacket p = Ret true /\
  MoreResultsExist p = Ret (negb (Z.land a kServerMoreResultsExistFlag =? 0)).
Proof.
  destruct p as [fb sid m c r]. cbn [msg]. intros ->.
  assert (isErrPacket (mk_MysqlPacket fb sid (eof_bytes a b) c r) = Ret false) as E1 by reflexivity.
  assert (isOkPacket (mk_MysqlPacket fb sid (eof_bytes a b) c r) = Ret false) as E2 by reflexivity.
  assert (isEOFPacketAll (mk_MysqlPacket fb sid (eof_bytes a b) c r) = Ret true) as E3 by reflexivity.
  split_and!; [done|done|done| |].
  - unfold isLastPacket. by rewrite E1, go_bind_ret, E2, go_bind_ret.
  - unfold MoreResultsExist. rewrite E2, go_bind_ret. reflexivity.
Qed.

Lemma eof_no_row p a b n : msg p = eof_bytes a b -> ProcessTextResultsetRowPacket p (S n) = Ret false.
Proof. destruct p as [fb sid m c r]. cbn [msg]. intros ->. reflexivity. Qed.

Definition column_packet (p : MysqlPacket) : Prop :=
  exists names fields, msg p = column_bytes names fields /\ length names = 5%nat /\ 10 <= zlen fields /\ zlen (msg p) < int64_max.
Definition row_packet (n : nat) (p : MysqlPacket) : Prop :=
  exists vs, msg p = row_bytes vs /\ length vs = n /\ zlen (msg p) < int64_max.

Lemma columns_read cols rest : Forall column_packet cols ->
  exists cs, column_defs (length cols) (cols ++ rest) = Ret (inr (cs, rest)) /\ length cs = length cols.
Proof.
  induction 1 as [|p cols (names & fields & Hm & Hn & Hf & Hb) _ (cs & E & Hl)]; cbn [length column_defs app].
  { by exists []. }
  destruct (column_read p names fields Hm Hn Hf) as [c ->]; [by rewrite <- Hm|]. rewrite go_bind_ret, E, go_bind_ret.
  exists (c :: cs). split; [done|]. cbn. by rewrite Hl.
Qed.

Definition sizes (ps : list MysqlPacket) : Z := foldr (fun p n => ByteSize p + n) 0 ps.

Section Query.
Variable float_text : list Z -> list Z.

Lemma rows_read colDefs rows eof a b n : Forall (row_packet (length colDefs)) rows -> length colDefs = S n ->
  msg eof = eof_bytes a b -> forall k size,
  result_rows float_text false colDefs (rows ++ [eof]) k size = Ret (k + zlen rows, size + sizes rows, [eof], true).
Proof.
  intros Hr Hn He. destruct (eof_kind eof a b He) as (_ & _ & _ & Hlast & _).
  induction Hr as [|p rows (vs & Hm & Hl & Hb) _ IH]; intros k size; cbn [app result_rows].
  - rewrite Hn, (eof_no_row eof a b n He), go_bind_ret, Hlast, go_bind_ret. unfold zlen. cbn. by rewrite !Z.add_0_r.
  - rewrite <- Hl, (row_read p vs Hm) by (by rewrite <- Hm). rewrite go_bind_ret, IH, zlen_cons. cbn [sizes foldr].
    replace (k + 1 + zlen rows) with (k + (zlen rows + 1)) by lia. by rewrite <- Z.add_assoc.
Qed.

(** The numbers the packets of a response have, from [count + 1] on. *)
Fixpoint numbered (count : Z) (ps : list MysqlPacket) : Prop :=
  match ps with [] => True | p :: ps => seqId p = u8 (count + 1) /\ numbered (count + 1) ps end.

Lemma numbered_view count ps : numbered count ps -> resp_view None ps count = ps.
Proof.
  revert count. induction ps as [|p ps IH]; intros count; [done|]. intros [Hs Hn]. cbn [resp_view].
  rewrite Hs, Z.eqb_refl. cbn [negb]. by rewrite IH.
Qed.

(** A response with a result set. *)
Record result_set (first : MysqlPacket) (cols rows : list MysqlPacket) (eof1 eof2 : MysqlPacket) : Prop := mk_result_set {
  rs_first : msg first = [zlen cols];
  rs_count : 1 <= zlen cols <= 250;
  rs_cols : Forall column_packet cols;
  rs_eof1 : exists a b, msg eof1 = eof_bytes a b;
  rs_rows : Forall (row_packet (length cols)) rows;
  rs_eof2 : exists a b, msg eof2 = eof_bytes a b /\ Z.land a kServerMoreResultsExistFlag = 0;
}.

Lemma result_set_handled first cols rows eof1 eof2 r fuel : result_set first cols rows eof1 eof2 ->
  HandleResultsetResponse float_text (S fuel) false false (first :: cols ++ eof1 :: rows ++ [eof2]) r =
    Ret (Some (Success, with_resp r (mk_MysqlResponse
      (SetTimeStamp (IncrByteSize (frame first) (sizes rows)) (TimestampNs eof2)) RespStatus.Ok
      (bytes "Resultset rows = " ++ itoa (zlen rows))))).
Proof.
  intros [Hf Hc Hcols (a1 & b1 & He1) Hrows (a2 & b2 & He2 & Hmore)]. cbn [HandleResultsetResponse]. rewrite go_bind_ret.
  pose proof (read_lenenc [] (zlen cols) [] ltac:(lia)) as E. cbn [app] in E. rewrite app_nil_r in E.
  unfold lenenc in E. rewrite (proj2 (Z.ltb_lt _ _)) in E by lia. rewrite Hf. change (zlen (@nil Z)) with 0 in E.
  rewrite E. go_step. change (negb (0 + zlen [zlen cols] =? zlen [zlen cols])) with false. cbv iota.
  rewrite (proj2 (Z.eqb_neq _ _)) by lia. rewrite s64_small by lia.
  rewrite (proj2 (Z.ltb_ge _ _)) by (rewrite zlen_app, zlen_cons; pose proof (zlen_nonneg (rows ++ [eof2])); lia).
  replace (Z.to_nat (zlen cols)) with (length cols) by (unfold zlen; lia).
  destruct (columns_read cols (eof1 :: rows ++ [eof2]) Hcols) as (cs & -> & Hl). rewrite go_bind_ret.
  destruct (eof_kind eof1 a1 b1 He1) as (_ & _ & -> & _). rewrite go_bind_ret.
  destruct (length cs) as [|n] eqn:En; [unfold zlen in Hc; lia|].
  rewrite (rows_read cs rows eof2 a2 b2 n) by (done || by rewrite En, Hl). rewrite go_bind_ret, !Z.add_0_l.
  destruct (eof_kind eof2 a2 b2 He2) as (-> & _ & _ & _ & ->). rewrite !go_bind_ret, Hmore. done.
Qed.

Lemma first_kind first cols rows eof1 eof2 : result_set first cols rows eof1 eof2 ->
  isErrPacket first = Ret false /\ isOkPacket first = Ret false.
Proof.
  intros [Hf Hc _ _ _ _]. destruct first as [fb sid m c r]. cbn [msg] in Hf. subst m. split; [|reflexivity].
  unfold isErrPacket. cbn [msg]. change (index [zlen cols] 0) with (Ret (zlen cols)). rewrite go_bind_ret.
  by rewrite andb_false_r.
Qed.

(** The record of a query [q] with a result set. *)
Definition query_record (req first eof2 : MysqlPacket) (rows : list MysqlPacket) (q : list Z) : mysql_record :=
  mk_mysql_record (Some (mk_MysqlPacket (frame req) (seqId req) q kQuery (isReq req)))
    (Some (mk_MysqlResponse (SetTimeStamp (IncrByteSize (frame first) (sizes rows)) (TimestampNs eof2)) RespStatus.Ok
      (bytes "Resultset rows = " ++ itoa (zlen rows)))).

Lemma query_handled st req q first cols rows eof1 eof2 : msg req = kQuery :: q -> result_set first cols rows eof1 eof2 ->
  processPackets float_text st req (first :: cols ++ eof1 :: rows ++ [eof2]) =
    Ret (Some (Success, query_record req first eof2 rows q, req, st)).
Proof.
  intros Hq Hset. unfold processPackets. rewrite Hq. change (index (kQuery :: q) 0) with (Ret kQuery). rewrite go_bind_ret.
  change (parseCommand kQuery).1 with kQuery.
  rewrite !decide_False by (apply (bool_decide_unpack _); vm_compute; exact I).
  change (kQuery =? kQuit) with false. change (kQuery =? kQuery) with true. cbv iota. unfold processQuery, handleStringRequest.
  rewrite Hq. change (index (kQuery :: q) 0) with (Ret kQuery). rewrite go_bind_ret.
  pose proof (zlen_nonneg q). rewrite slice_from_ok by (rewrite zlen_cons; lia). rewrite !go_bind_ret.
  destruct (first_kind _ _ _ _ _ Hset) as [-> ->]. rewrite !go_bind_ret.
  rewrite (result_set_handled _ _ _ _ _ _ _ Hset). by rewrite go_bind_ret.
Qed.


End Query.

(** ** What the handlers do not do *)

Section Faults.
Variable float_text : list Z -> list Z.

(** The text written over the message of an [EXECUTE] does not start with a command. *)
Lemma rewritten_head st req r req' : HandleStmtExecuteRequest float_text st req = Ret (Success, r, req') ->
  exists b s, msg req' = b :: s /\ (parseCommand b).1 = -1 /\ frame req' = frame req.
Proof.
  unfold HandleStmtExecuteRequest. destruct (_ <? _); [done|].
  destruct (slice_from (msg req) 1) as [s|]; [|done]. rewrite go_bind_ret.
  destruct (PreparedStatements st !! _) as [stmt|].
  - destruct (_ <? _); [done|]. destruct (index _ _) as [b|]; [|done]. rewrite go_bind_ret.
    destruct (if b =? 1 then _ else _) as [ [ps|]|]; [|done|done]. rewrite go_bind_ret.
    intros E. injection E as _ <-. eexists _, _. split; [reflexivity|done].
  - intros E. injection E as _ <-. eexists _, _. split; [reflexivity|done].
Qed.

Lemma unknown_ignored st req b s view : msg req = b :: s -> (parseCommand b).1 = -1 ->
  processPackets float_text st req view = Ret (Some (Ignore, no_record, req, st)).
Proof.
  intros Hm Hb. unfold processPackets. rewrite Hm. change (index (b :: s) 0) with (Ret b). rewrite go_bind_ret, Hb.
  rewrite !decide_False by (apply (bool_decide_unpack _); vm_compute; exact I). done.
Qed.

Lemma sync_later req ps : Forall (fun p => TimestampNs req <= TimestampNs p) ps -> syncRespQueue req ps = ps.
Proof. destruct 1 as [|p ps Hp _]; [done|]. cbn [syncRespQueue]. by rewrite (proj2 (Z.ltb_ge _ _)) by lia. Qed.

Lemma execute_dispatch st req s view : msg req = kStmtExecute :: s ->
  processPackets float_text st req view =
    (h ← ProcessStmtExecute float_text st req view; Ret (option_map (fun h => (h, st)) h)).
Proof.
  intros Hm. unfold processPackets. rewrite Hm. change (index (kStmtExecute :: s) 0) with (Ret kStmtExecute).
  rewrite go_bind_ret. change (parseCommand kStmtExecute).1 with kStmtExecute.
  rewrite !decide_False by (apply (bool_decide_unpack _); vm_compute; exact I). done.
Qed.

(** C38: an executed statement that has to wait is forgotten.  Matching is tried with every
    event, so an [EXECUTE] is usually seen before its response.  It then waits in the
    queue, but its packet has been overwritten with the text that is to be shown, which
    starts with no command: when the response is there, the request is not recognised any
    more, and request and response are dropped without a record. *)
Theorem waiting_execute_lost (st : State) (reqStreams respStreams : queues MysqlPacket) (req req' : MysqlPacket)
    (s : list Z) (r : mysql_record) (resps : list MysqlPacket)
    (Hreq : reqStreams !! 0 = Some [req]) (Hresp : respStreams !! 0 = Some [])
    (Hexecute : msg req = kStmtExecute :: s)
    (Hhandled : HandleStmtExecuteRequest float_text st req = Ret (Success, r, req'))
    (Hnumbers : numbered 0 resps) (Hlater : Forall (fun p => TimestampNs req <= TimestampNs p) resps) :
  mysql_Match float_text st reqStreams respStreams =
    Ret (Some ([], <[0 := [req']]> reqStreams, <[0 := []]> respStreams, st)) /\
  mysql_Match float_text st (<[0 := [req']]> reqStreams) (<[0 := resps]> respStreams) =
    Ret (Some ([], <[0 := []]> reqStreams, <[0 := []]> respStreams, st)).
Proof.
  destruct (rewritten_head st req r req' Hhandled) as (b & s' & Hm & Hb & Hf). unfold mysql_Match. split.
  - rewrite Hreq, Hresp. cbn [match_packets]. rewrite Hexecute.
    change (index (kStmtExecute :: s) 0) with (Ret kStmtExecute). rewrite go_bind_ret.
    rewrite (execute_dispatch st req s _ Hexecute). unfold ProcessStmtExecute. rewrite Hhandled. go_step.
    cbn [syncRespQueue getRespView resp_view]. rewrite !go_bind_ret. cbn [option_map].
    replace (negb (active st) && bool_decide (NeedsMoreData = Success) && bool_decide ((parseCommand kStmtExecute).1 ∈ activating))
      with false by (by rewrite (bool_decide_false (NeedsMoreData = Success)), andb_false_r by done).
    cbn. rewrite Z.eqb_refl, go_bind_ret. by destruct (active st).
  - unfold queues in *. rewrite !lookup_insert_eq. cbn [match_packets]. rewrite Hm. change (index (b :: s') 0) with (Ret b).
    rewrite go_bind_ret, (sync_later req' resps) by (unfold TimestampNs, mysql_message in *; by rewrite Hf).
    unfold getRespView. cbn [lookup list_lookup]. rewrite (numbered_view 0 resps Hnumbers).
    rewrite (unknown_ignored st req' b s' resps Hm Hb), go_bind_ret, drop_all.
    replace (negb (active st) && bool_decide (Ignore = Success) && bool_decide ((parseCommand b).1 ∈ activating))
      with false by (by rewrite (bool_decide_false (Ignore = Success)), andb_false_r by done).
    cbv iota zeta. rewrite go_bind_ret, !insert_insert_eq. by destruct (active st).
Qed.

(** Executing a statement without parameters ends the agent.  The request is ten bytes
    long, and the handler reads the eleventh, which only requests with parameters have. *)
Theorem execute_without_parameters_panics (st : State) (reqStreams respStreams : queues MysqlPacket) (req : MysqlPacket)
    (rest : list MysqlPacket) (s : list Z) (stmt : PreparedStatement)
    (Hreq : reqStreams !! 0 = Some (req :: rest)) (Hresp : is_Some (respStreams !! 0))
    (Hexecute : msg req = kStmtExecute :: s) (Hlength : zlen s = 9)
    (Hstatement : PreparedStatements st !! LEndianBytesTo 4 s32 s 4 = Some stmt)
    (Hparams : NumParams (ps_Header stmt) = 0) :
  mysql_Match float_text st reqStreams respStreams = Panic.
Proof.
  destruct Hresp as [resps Hresp]. unfold mysql_Match. rewrite Hreq, Hresp. cbn [match_packets]. rewrite Hexecute.
  change (index (kStmtExecute :: s) 0) with (Ret kStmtExecute). rewrite go_bind_ret.
  rewrite (execute_dispatch st req s _ Hexecute). unfold ProcessStmtExecute, HandleStmtExecuteRequest. rewrite Hexecute.
  assert (zlen (kStmtExecute :: s) = 10) as Hl by (rewrite zlen_cons; lia). rewrite Hl.
  change (10 <? 1 + 4) with false. rewrite slice_from_ok by lia. rewrite go_bind_ret.
  change (drop (Z.to_nat 1) (kStmtExecute :: s)) with s. rewrite Hstatement, Hparams.
  change (10 <? 1 + 4 + 1 + 4) with false. cbv iota.
  assert (index (kStmtExecute :: s) (1 + 4 + 1 + 4 + (0 + 7) / 8) = Panic) as ->; [|done].
  unfold index. change (1 + 4 + 1 + 4 + (0 + 7) / 8) with 10. change (0 <=? 10) with true. cbv iota.
  rewrite lookup_ge_None_2; [done|]. unfold zlen in Hl. lia.
Qed.

(** Closing a statement forgets the statement number 0, whichever was closed: the message
    is cleared before its number is read. *)
Lemma close_deletes_zero st req view : 5 <= zlen (msg req) ->
  exists h req', ProcessStmtClose st req view =
    Ret (h, req', mk_State (delete 0 (PreparedStatements st)) (active st)).
Proof.
  intros Hl. unfold ProcessStmtClose, HandleStmtCloseRequest. rewrite (proj2 (Z.ltb_ge _ _)) by lia.
  cbn [with_msg msg]. change (1 + 4 <=? zlen []) with false. cbv iota. rewrite go_bind_ret. go_step. by eexists _, _.
Qed.

(** Neither a success nor an error is marked as such: the status is unknown. *)
Lemma ok_status_unknown view r r' : handleOkMessage view r = Ret (Success, r') -> Status <$> rec_Resp r' = Some UnknownStatus.
Proof.
  unfold handleOkMessage. destruct (index view 0) as [p|]; [|done]. rewrite go_bind_ret.
  destruct (_ <? kMinOKPacketSize); [done|]. cbv zeta. intros E. by injection E as _ <-.
Qed.

Lemma err_status_unknown view r r' : rec_Resp r = None -> handleErrMessage view r = Ret (Success, r') ->
  Status <$> rec_Resp r' = Some UnknownStatus.
Proof.
  intros Hr. unfold handleErrMessage. destruct (index view 0) as [p|]; [|done]. rewrite go_bind_ret, Hr.
  destruct (_ <? kMinErrPacketSize); [done|]. cbv zeta. destruct (slice_from _ _); [|done]. rewrite go_bind_ret.
  intros E. by injection E as _ <-.
Qed.

(** A packet without payload as the response to a query ends the agent; an error packet
    too short for its message makes a record without a response. *)
Lemma empty_packet_panics req q p view : msg req = kQuery :: q -> msg p = [] -> processQuery float_text req (p :: view) = Panic.
Proof.
  intros Hq Hp. unfold processQuery, handleStringRequest. rewrite Hq.
  change (index (kQuery :: q) 0) with (Ret kQuery). pose proof (zlen_nonneg q).
  rewrite go_bind_ret, slice_from_ok by (rewrite zlen_cons; lia). rewrite !go_bind_ret.
  unfold isErrPacket. by rewrite Hp.
Qed.

Lemma short_error_no_response req q p s : msg req = kQuery :: q -> msg p = kRespHeaderErr :: s -> 3 <= zlen s < 8 ->
  exists r, processQuery float_text req [p] = Ret (Some (Success, r)) /\ rec_Resp r = None.
Proof.
  intros Hq Hp Hs. unfold processQuery, handleStringRequest. rewrite Hq.
  change (index (kQuery :: q) 0) with (Ret kQuery). pose proof (zlen_nonneg q).
  rewrite go_bind_ret, slice_from_ok by (rewrite zlen_cons; lia). rewrite !go_bind_ret.
  assert (isErrPacket p = Ret true) as ->.
  { unfold isErrPacket. rewrite Hp. change (index (kRespHeaderErr :: s) 0) with (Ret kRespHeaderErr).
    rewrite go_bind_ret, zlen_cons, (proj2 (Z.ltb_lt _ _)) by lia. done. }
  rewrite go_bind_ret. unfold handleErrMessage. change (index [p] 0) with (Ret p). rewrite go_bind_ret, Hp, zlen_cons.
  unfold kMinErrPacketSize. rewrite (proj2 (Z.ltb_lt _ _)) by lia. by eexists.
Qed.

(** A parameter that is a number of 32 bits is shown as nothing, and its bytes are taken for
    the next parameter; the types of string columns, read as signed, are not known. *)
Lemma long_parameter_skipped s t v : index s t = Ret kLong -> HandleStmtExecuteParam float_text s t v = Ret (Some [], t + 2, v).
Proof. intros E. unfold HandleStmtExecuteParam. rewrite E. reflexivity. Qed.

Lemma string_column_unknown ty s offset : 128 <= ty < 256 -> dissect_column float_text (s8 ty) s offset = Ret (Some [], offset).
Proof.
  intros Ht. assert (s8 ty = ty - 256) as ->.
  { unfold s8. replace (ty + 128) with (ty - 128 + 1 * 256) by lia. rewrite Z.mod_add, Z.mod_small by lia. lia. }
  unfold dissect_column. rewrite !decide_False.
  - unfold kLongLong, kLong, kInt24, kShort, kYear, kTiny, kDouble, kFloat. rewrite !(proj2 (Z.eqb_neq _ _)) by lia. done.
  - unfold kDate, kDateTime, kTimestamp, kTimeColType. rewrite !elem_of_cons, elem_of_nil. lia.
  - unfold string_types, kString, kVarChar, kVarString, kEnum, kSet, kLongBlob, kMediumBlob, kBlob, kTinyBlob, kGeometry,
      kBit, kDecimal, kNewDecimal. rewrite !elem_of_cons, elem_of_nil. lia.
Qed.

End Faults.

(** ** Witnesses *)

Definition packet (t sid : Z) (m : list Z) (req : bool) : MysqlPacket :=
  mk_MysqlPacket (mk_FrameBase t (4 + zlen m) (10 * sid)) sid m 0 req.

(** [SELECT name FROM t]: one column, the rows ["kyanos"] and NULL. *)
Definition select_request : MysqlPacket := packet 100 0 (kQuery :: bytes "SELECT name FROM t") true.
Definition select_first : MysqlPacket := packet 200 1 [1] false.
Definition select_column : MysqlPacket :=
  packet 201 2 (column_bytes (bytes <$> ["db"; "t"; "t"; "name"; "name"]%string) [33; 0; 255; 0; 0; 0; 253; 0; 0; 0; 0; 0]) false.
Definition select_rows : list MysqlPacket :=
  [packet 203 4 (row_bytes [Some (bytes "kyanos")]) false; packet 204 5 (row_bytes [None]) false].
Definition select_eof (t sid : Z) : MysqlPacket := packet t sid (eof_bytes 2 0) false.


(** [EXECUTE] of the statement 7, and an OK. *)
Definition execute_request : MysqlPacket := packet 300 0 [kStmtExecute; 7; 0; 0; 0; 0; 1; 0; 0; 0] true.
Definition ok_response : MysqlPacket := packet 400 1 [0; 1; 0; 2; 0; 0; 0] false.

Lemma waiting_execute_lost_witness :
  mysql_Match (fun _ => []) (mk_State ∅ true) {[0 := [execute_request]]} {[0 := []]} =
    Ret (Some ([], {[0 := [with_msg execute_request (bytes "Execute stmt_id=7.")]]}, {[0 := []]}, mk_State ∅ true)) /\
  mysql_Match (fun _ => []) (mk_State ∅ true) {[0 := [with_msg execute_request (bytes "Execute stmt_id=7.")]]} {[0 := [ok_response]]} =
    Ret (Some ([], {[0 := []]}, {[0 := []]}, mk_State ∅ true)).
Proof.
  refine (waiting_execute_lost (fun _ => []) (mk_State ∅ true) {[0 := [execute_request]]} {[0 := []]} execute_request
    (with_msg execute_request (bytes "Execute stmt_id=7.")) [7; 0; 0; 0; 0; 1; 0; 0; 0]
    (with_req no_record (with_msg execute_request (bytes "Execute stmt_id=7."))) [ok_response] _ _ _ _ _ _).
  - reflexivity.
  - reflexivity.
  - reflexivity.
  - vm_compute. reflexivity.
  - vm_compute. done.
  - repeat constructor. vm_compute. discriminate.
Defined.

Definition now_statement : PreparedStatement := mk_PreparedStatement (bytes "SELECT NOW()") (mk_StmtPrepareRespHeader 7 1 0 0) [] [].

Lemma execute_without_parameters_panics_witness :
  mysql_Match (fun _ => []) (mk_State {[7 := now_statement]} true) {[0 := [execute_request]]} {[0 := []]} = Panic.
Proof.
  apply (execute_without_parameters_panics (fun _ => []) (mk_State {[7 := now_statement]} true) {[0 := [execute_request]]} {[0 := []]}
    execute_request [] [7; 0; 0; 0; 0; 1; 0; 0; 0] now_statement).
  - reflexivity.
  - by eexists.
  - reflexivity.
  - vm_compute. reflexivity.
  - vm_compute. reflexivity.
  - reflexivity.
Defined.
