(* ===== verification/Samples.v ===== *)
(** * The samples of a class of records

    [AddToSamples] of [src/agent/analysis/analysis.go] keeps, for one metric, the records
    with the largest values: it finds the place of a new record by binary search, inserts
    it, and drops records from the front.

    - [cmp.Compare] and [slices.BinarySearchFunc], [slices.Insert] are those of the
      standard library, on binary64 values as [SpecFloat] has them.  [cmp.Compare] puts
      NaN below everything, which makes it a total preorder; [frank] says which one.
    - A slice [s[i]] beyond its end panics. *)

From stdpp Require Import list sorting.
From Stdlib Require Import ZArith Lia Floats.SpecFloat.
From S2P Require Import Prelude.
From S2P Require Import GoBase.
From S2P Require Import Mysql.
Local Open Scope Z_scope.
Local Open Scope model_scope.

(** ** [cmp.Compare] *)

Definition isNaN (x : spec_float) : bool := match x with S754_nan => true | _ => false end.

Definition Compare (x y : spec_float) : Z :=
  let xNaN := isNaN x in
  let yNaN := isNaN y in
  if xNaN then (if yNaN then 0 else -1)
  else if yNaN then 1
  else if SFltb x y then -1
  else if SFltb y x then 1
  else 0.

(** [a] is not above [b]. *)
Definition fle (a b : spec_float) : Prop := Compare a b <= 0.

(** The order as one on triples of integers: the kind and the sign, the exponent, the
    mantissa. *)
Definition frank (x : spec_float) : Z * Z * Z :=
  match x with
  | S754_nan => (-3, 0, 0)
  | S754_infinity true => (-2, 0, 0)
  | S754_finite true m e => (-1, - e, Z.neg m)
  | S754_zero _ => (0, 0, 0)
  | S754_finite false m e => (1, e, Z.pos m)
  | S754_infinity false => (2, 0, 0)
  end.

Definition rank_lt (a b : Z * Z * Z) : Prop :=
  a.1.1 < b.1.1 \/ a.1.1 = b.1.1 /\ (a.1.2 < b.1.2 \/ a.1.2 = b.1.2 /\ a.2 < b.2).

Lemma Compare_rank x y :
  (Compare x y = -1 /\ rank_lt (frank x) (frank y)) \/
  (Compare x y = 0 /\ frank x = frank y) \/
  (Compare x y = 1 /\ rank_lt (frank y) (frank x)).
Proof.
  unfold Compare, SFltb, rank_lt.
  destruct x as [?|[]| |[] m e], y as [?|[]| |[] m' e']; cbn -[Z.compare];
    try (intuition lia);
    rewrite (Z.compare_antisym e e'); destruct (Z.compare_spec e e') as [->|?|?]; cbn -[Pos.compare_cont];
    try (intuition lia);
    change (Pos.compare_cont Eq ?a ?b) with (Pos.compare a b);
    rewrite (Pos.compare_antisym m m'); destruct (Pos.compare_spec m m') as [->|?|?]; cbn; intuition lia.
Qed.

Lemma fle_rank x y : fle x y <-> ~ rank_lt (frank y) (frank x).
Proof.
  unfold fle. destruct (Compare_rank x y) as [ [-> H]|[ [-> H]|[-> H] ] ]; [|rewrite H|];
    unfold rank_lt in *; intuition lia.
Qed.

Lemma Compare_below x y : Compare x y < 0 <-> ~ fle y x.
Proof.
  rewrite fle_rank. destruct (Compare_rank x y) as [ [-> H]|[ [-> H]|[-> H] ] ]; [|rewrite H|];
    unfold rank_lt in *; intuition lia.
Qed.

#[export] Instance fle_dec : RelDecision fle.
Proof. intros a b. unfold fle. apply _. Defined.
#[export] Instance fle_refl : Reflexive fle.
Proof. intros a. rewrite fle_rank. unfold rank_lt. lia. Qed.
#[export] Instance fle_trans : Transitive fle.
Proof. intros a b c. rewrite !fle_rank. unfold rank_lt. lia. Qed.
#[export] Instance fle_total : Total fle.
Proof. intros a b. rewrite !fle_rank. unfold rank_lt. lia. Qed.

(** ** [slices.BinarySearchFunc] *)

Section Slices.
Context {A : Type}.

(** The loop on [i] and [j]; [None] when the fuel is used up. *)
Fixpoint search_loop (cmp : A -> Z) (x : list A) (fuel : nat) (i j : Z) : go (option Z) :=
  if i <? j then
    match fuel with
    | O => Ret None
    | S fuel =>
      let h := Z.shiftr (i + j) 1 in
      a ← index x h;
      if cmp a <? 0 then search_loop cmp x fuel (h + 1) j else search_loop cmp x fuel i h
    end
  else Ret (Some i).

Definition BinarySearchFunc (x : list A) (cmp : A -> Z) : go (option Z) :=
  search_loop cmp x (length x) 0 (zlen x).

(** [slices.Insert], which panics when the index is out of range. *)
Definition Insert (s : list A) (i : Z) (v : A) : go (list A) :=
  if (i <? 0) || (zlen s <? i) then Panic
  else Ret (take (Z.to_nat i) s ++ v :: drop (Z.to_nat i) s).

(** [for len(result) > maxSamplesNum] [result = result[1:]] *)
Fixpoint drop_front (result : list A) (maxSamplesNum : Z) : list A :=
  match result with
  | [] => []
  | _ :: rest => if zlen result >? maxSamplesNum then drop_front rest maxSamplesNum else result
  end.

End Slices.

(** ** [AddToSamples] *)

(** A record is kept as the pointer it is; [extractMetric] reads its value. *)
Definition AddToSamples {A} (extractMetric : A -> spec_float) (samples : list A) (newSample : A) (maxSamplesNum : Z)
    : go (option (list A)) :=
  let isFull := zlen samples =? maxSamplesNum in
  found ← BinarySearchFunc samples (fun o1 => Compare (extractMetric o1) (extractMetric newSample));
  match found with
  | None => Ret None
  | Some idx =>
    let isMin := idx =? 0 in
    if isFull && isMin then Ret (Some samples)
    else
      result ← Insert samples idx newSample;
      Ret (Some (drop_front result maxSamplesNum))
  end.

(** ** The search *)

Section Search.
Context {A : Type} (key : A -> spec_float).

(** The values before [i] are below the new one, those from [j] on are not. *)
Definition below (v : A) (a : A) : Prop := ~ fle (key v) (key a).

Definition key_le (a b : A) : Prop := fle (key a) (key b).
#[export] Instance key_le_dec' : RelDecision key_le.
Proof. intros a b. unfold key_le. apply _. Defined.
#[export] Instance key_le_trans' : Transitive key_le.
Proof. intros a b c. unfold key_le. apply fle_trans. Qed.
#[export] Instance key_le_total' : Total key_le.
Proof. intros a b. unfold key_le. apply fle_total. Qed.

Lemma below_le v a : below v a -> key_le a v.
Proof. unfold below, key_le. intros H. destruct (fle_total (key v) (key a)); [done|done]. Qed.

Lemma below_down v a b : key_le a b -> below v b -> below v a.
Proof. unfold below, key_le. intros Hab Hb Hv. apply Hb. by trans (key a). Qed.

(** A sorted list is split by the values below [v]. *)
Definition split_at (v : A) (x : list A) (i : Z) : Prop :=
  0 <= i <= zlen x /\ Forall (below v) (take (Z.to_nat i) x) /\ Forall (key_le v) (drop (Z.to_nat i) x).

Lemma sorted_samples_lookup (x : list A) (i j : nat) a b :
  StronglySorted key_le x -> x !! i = Some a -> x !! j = Some b -> (i < j)%nat -> key_le a b.
Proof.
  intros Hs. revert i j. induction Hs as [|y x Hs IH Hy]; intros [|i] [|j] Ha Hb Hij; try (done || lia).
  - injection Ha as ->. rewrite Forall_lookup in Hy. by apply (Hy j).
  - apply (IH i j); [done|done|lia].
Qed.

Lemma search_loop_ok v x : StronglySorted key_le x -> forall fuel i j,
  0 <= i <= j -> j <= zlen x -> j - i <= Z.of_nat fuel ->
  Forall (below v) (take (Z.to_nat i) x) -> Forall (key_le v) (drop (Z.to_nat j) x) ->
  exists k, search_loop (fun o => Compare (key o) (key v)) x fuel i j = Ret (Some k) /\ split_at v x k.
Proof.
  intros Hs. induction fuel as [|fuel IH]; intros i j Hij Hj Hf Hlo Hhi; cbn [search_loop].
  all: destruct (Z.ltb_spec i j) as [Hlt|Hge]; [|exists i; split; [done|]; assert (j = i) as -> by lia; by split; [lia|]].
  { lia. }
  rewrite Z.shiftr_div_pow2 by lia. change (2 ^ 1) with 2. set (h := (i + j) / 2).
  assert (i <= h < j) as Hh.
  { unfold h. pose proof (Z.div_mod (i + j) 2). pose proof (Z.mod_pos_bound (i + j) 2). lia. }
  destruct (lookup_lt_is_Some_2 x (Z.to_nat h)) as [a Ha]; [unfold zlen in Hj; lia|].
  assert (index x h = Ret a) as ->.
  { unfold index. rewrite (proj2 (Z.leb_le _ _)) by lia. by rewrite Ha. }
  rewrite go_bind_ret. destruct (Z.ltb_spec (Compare (key a) (key v)) 0) as [Hc|Hc].
  - apply IH; [lia|lia|lia| |done].
    apply Compare_below in Hc. replace (Z.to_nat (h + 1)) with (S (Z.to_nat h)) by lia.
    rewrite (take_S_r _ _ a Ha), Forall_app. split; [|by repeat constructor].
    apply Forall_lookup. intros k b Hb. apply lookup_take_Some in Hb as [Hb Hk].
    apply (below_down v b a); [|done]. by apply (sorted_samples_lookup x k (Z.to_nat h)).
  - apply IH; [lia|lia|lia|done|].
    assert (key_le v a) as Hva.
    { unfold key_le. destruct (decide (fle (key v) (key a))) as [|Hn]; [done|]. apply Compare_below in Hn. lia. }
    apply Forall_lookup. intros k b Hb. rewrite lookup_drop in Hb. destruct k as [|k].
    + rewrite Nat.add_0_r, Ha in Hb. by injection Hb as <-.
    + unfold key_le. trans (key a); [done|]. apply (sorted_samples_lookup x (Z.to_nat h) (Z.to_nat h + S k)); [done..|lia].
Qed.

(** The search returns the first place where the order is kept. *)
Lemma BinarySearchFunc_ok v x : StronglySorted key_le x ->
  exists k, BinarySearchFunc x (fun o => Compare (key o) (key v)) = Ret (Some k) /\ split_at v x k.
Proof.
  intros Hs. pose proof (zlen_nonneg x). apply search_loop_ok; [done|lia|lia|unfold zlen; lia| |].
  - constructor.
  - unfold zlen. rewrite Nat2Z.id, drop_all. constructor.
Qed.

End Search.

(** ** The samples *)

Section Samples.
Context {A : Type} (key : A -> spec_float).
Abbreviation key_le := (key_le key).

(** The samples [samples] of the records [rs], at most [K] of them. *)
Definition largest (K : Z) (rs samples : list A) : Prop :=
  StronglySorted key_le samples /\ zlen samples = Z.min K (zlen rs) /\
  exists dropped, samples ++ dropped ≡ₚ rs /\ forall d s, d ∈ dropped -> s ∈ samples -> key_le d s.

(** Records added one after the other. *)
Fixpoint add_all (K : Z) (samples rs : list A) : go (option (list A)) :=
  match rs with
  | [] => Ret (Some samples)
  | r :: rs =>
    s ← AddToSamples key samples r K;
    match s with None => Ret None | Some samples => add_all K samples rs end
  end.

Lemma sorted_insert v (x y : list A) :
  StronglySorted key_le (x ++ y) -> Forall (below key v) x -> Forall (key_le v) y ->
  StronglySorted key_le (x ++ v :: y).
Proof.
  intros Hs Hx Hy. induction x as [|a x IH]; cbn [app] in *; [by constructor|].
  apply StronglySorted_inv in Hs as [Hs Ha]. apply Forall_cons in Hx as [Hav Hx].
  apply Forall_app in Ha as [Ha1 Ha2]. constructor; [by apply IH|]. apply Forall_app. split; [done|].
  constructor; [by apply below_le|done].
Qed.

Lemma drop_front_short (l : list A) K : zlen l <= K -> drop_front l K = l.
Proof. destruct l; [done|]. intros Hl. cbn [drop_front]. by rewrite Z.gtb_ltb, (proj2 (Z.ltb_ge _ _)). Qed.

Lemma drop_front_one a (l : list A) : drop_front (a :: l) (zlen l) = l.
Proof.
  cbn [drop_front]. rewrite zlen_cons, Z.gtb_ltb, (proj2 (Z.ltb_lt _ _)) by lia. by apply drop_front_short.
Qed.

Lemma Insert_split v (x : list A) k : split_at key v x k ->
  Insert x k v = Ret (take (Z.to_nat k) x ++ v :: drop (Z.to_nat k) x) /\
  zlen (take (Z.to_nat k) x ++ v :: drop (Z.to_nat k) x) = zlen x + 1 /\
  take (Z.to_nat k) x ++ v :: drop (Z.to_nat k) x ≡ₚ v :: x.
Proof.
  intros (Hk & _). assert (take (Z.to_nat k) x ++ v :: drop (Z.to_nat k) x ≡ₚ v :: x) as Hp.
  { rewrite <- Permutation_middle. by rewrite take_drop. }
  split; [|split; [|done] ].
  - unfold Insert. rewrite !(proj2 (Z.ltb_ge _ _)) by lia. done.
  - apply Permutation_length in Hp. unfold zlen in *. cbn [length] in Hp. lia.
Qed.

(** A full slice: the smallest sample is replaced, unless the new one is not larger. *)
Lemma replace_smallest v x rs a l :
  StronglySorted key_le (a :: l) -> below key v a -> l ≡ₚ v :: x ->
  (exists dropped, (a :: x) ++ dropped ≡ₚ rs /\ forall d s, d ∈ dropped -> s ∈ a :: x -> key_le d s) ->
  exists dropped, l ++ dropped ≡ₚ rs ++ [v] /\ forall d s, d ∈ dropped -> s ∈ l -> key_le d s.
Proof.
  intros Hs Ha Hl (dropped & Hp & Hd). exists (a :: dropped). split.
  - rewrite <- Hp, Hl. cbn [app]. rewrite (Permutation_app_comm _ [v]). cbn [app].
    rewrite <- Permutation_middle. apply Permutation_swap.
  - apply StronglySorted_inv in Hs as [_ Hs]. rewrite Forall_forall in Hs.
    intros d s [->|Hin]%elem_of_cons Hs'; [by apply Hs|].
    etrans; [apply (Hd d a); [done|by left]|by apply Hs].
Qed.

Lemma AddToSamples_largest K v rs x : 0 <= K -> largest K rs x ->
  exists x', AddToSamples key x v K = Ret (Some x') /\ largest K (rs ++ [v]) x'.
Proof.
  intros HK (Hs & Hl & Hd). destruct (BinarySearchFunc_ok key v x Hs) as (k & Hb & Hk).
  unfold AddToSamples. rewrite Hb, go_bind_ret. destruct (Insert_split v x k Hk) as (Hi & Hil & Hip).
  destruct Hk as (Hk & Hlo & Hhi). assert (zlen (rs ++ [v]) = zlen rs + 1) as Hrs by (rewrite zlen_app; done).
  destruct (Z.eqb_spec (zlen x) K) as [Hfull|Hfull], (Z.eqb_spec k 0) as [Hmin|Hmin]; cbn [andb].
  { exists x. split; [done|]. split; [done|]. split; [lia|]. destruct Hd as (dropped & Hp & Hd).
    exists (dropped ++ [v]). split; [by rewrite app_assoc, Hp|]. rewrite Hmin, drop_0, Forall_forall in Hhi.
    intros d s [Hin|Hin]%elem_of_app Hs'; [by apply Hd|]. apply list_elem_of_singleton in Hin as ->. by apply Hhi. }
  all: rewrite Hi, go_bind_ret; eexists; split; [done|].
  1:{ destruct x as [|a x]; [unfold zlen in Hk; cbn in Hk; lia|].
      destruct (Z.to_nat k) as [|n] eqn:En; [lia|]. cbn [take drop app] in *.
      apply Forall_cons in Hlo as [Ha Hlo].
      rewrite !zlen_cons in *. assert (zlen (take n x ++ v :: drop n x) = K) as Hlen by lia.
      replace (drop_front _ K) with (take n x ++ v :: drop n x) by (rewrite <- Hlen; by rewrite drop_front_one).
      assert (StronglySorted key_le (a :: take n x ++ v :: drop n x)) as Hs'.
      { apply (sorted_insert v (a :: take n x) (drop n x)); [by cbn [app]; rewrite take_drop|by constructor|done]. }
      split; [by apply StronglySorted_inv in Hs' as [? _]|]. split; [lia|].
      eapply replace_smallest; [exact Hs'|done| |done]. rewrite <- Permutation_middle. by rewrite take_drop. }
  all: assert (zlen x < K) by lia; rewrite drop_front_short by lia;
    (split; [apply sorted_insert; [by rewrite take_drop|done|done]|split; [lia|] ]);
    destruct Hd as (dropped & Hp & Hd); exists []; split; [|by intros d s []%not_elem_of_nil].
  all: assert (dropped = []) as -> by (apply Permutation_length in Hp; rewrite length_app in Hp;
      unfold zlen in *; destruct dropped; [done|cbn [length] in Hp; lia]);
    rewrite app_nil_r in *; rewrite Hip, Hp; by rewrite Permutation_app_comm.
Qed.

Lemma add_all_largest K rs : 0 <= K -> forall seen samples, largest K seen samples ->
  exists s, add_all K samples rs = Ret (Some s) /\ largest K (seen ++ rs) s.
Proof.
  intros HK. induction rs as [|r rs IH]; intros seen samples Hs; cbn [add_all].
  - exists samples. by rewrite app_nil_r.
  - destruct (AddToSamples_largest K r seen samples HK Hs) as (s & -> & Hs'). rewrite go_bind_ret.
    destruct (IH _ _ Hs') as (s' & Hs1 & Hs2). exists s'. split; [done|]. by rewrite <- app_assoc in Hs2.
Qed.

Lemma largest_nil K : 0 <= K -> largest K [] [].
Proof.
  intros HK. split; [constructor|]. split; [unfold zlen; cbn; lia|]. exists []. split; [done|].
  by intros d s []%not_elem_of_nil.
Qed.

End Samples.

(** C21: the samples are the largest.  However many records are offered one after the
    other, in whatever order, and with whatever values, NaN and infinities included, each
    call returns; the samples kept are sorted, as many as the limit allows, and among the
    records offered none that was turned away or dropped is above one that is kept. *)
Theorem samples_are_largest {A} (key : A -> spec_float) (K : Z) (rs : list A) (HK : 0 <= K) :
  exists samples, add_all key K [] rs = Ret (Some samples) /\ largest key K rs samples.
Proof. apply (add_all_largest key K rs HK [] []). by apply largest_nil. Qed.

Definition int_value (z : Z) : spec_float := binary_normalize 53 1024 z 0 false.

Lemma samples_are_largest_witness :
  add_all int_value 3 [] [5; 1; 9; 3; 9; 2] = Ret (Some [5; 9; 9]) /\ largest int_value 3 [5; 1; 9; 3; 9; 2] [5; 9; 9].
Proof.
  destruct (samples_are_largest int_value 3 [5; 1; 9; 3; 9; 2]) as (s & E & Hs); [lia|].
  vm_compute in E. injection E as <-. split; [vm_compute; reflexivity|done].
Defined.
