(* ===== verification/Percentile.v ===== *)
(** * Percentiles

    [PercentileCalculator] of [src/agent/analysis/percentile.go]: values are counted in
    buckets whose boundaries are the powers of two up to 4096, and a percentile is
    estimated inside the bucket it falls into.

    - Counts are [int]s, which do not reach their bound.
    - [int(x)] of a [float64] that is not in the range of [int] is left to the
      implementation by the language: [int_overflow]. *)

From stdpp Require Import list sorting.
From Stdlib Require Import ZArith Lia Floats.SpecFloat.
From S2P Require Import Prelude.
From S2P Require Import GoBase.
From S2P Require Import Mysql.
From S2P Require Import Records.
From S2P Require Import Samples.
Local Open Scope Z_scope.
Local Open Scope model_scope.

(** ** [float64] *)

Definition fmul (a b : spec_float) : spec_float := SFmul 53 1024 a b.
Definition fadd (a b : spec_float) : spec_float := SFadd 53 1024 a b.

(** [math.Ceil] as an integer, for the values that have one. *)
Definition ceil_of (x : spec_float) : option Z :=
  match x with
  | S754_zero _ => Some 0
  | S754_finite s m e =>
    let v := if s then Z.neg m else Z.pos m in
    Some (if e >=? 0 then v * 2 ^ e else - (- v / 2 ^ (- e)))
  | _ => None
  end.

(** ** The calculator *)

Record PercentileCalculator := mk_PercentileCalculator {
  buckets : list Z;
  boundaries : list spec_float;
  totalValues : Z;
}.

Definition NewPercentileCalculator : PercentileCalculator :=
  let bs := float64 <$> [1; 2; 4; 8; 16; 32; 64; 128; 256; 512; 1024; 2048; 4096] in
  mk_PercentileCalculator (replicate (length bs + 1) 0) bs 0.

(** The loop over the boundaries from the [i]th on. *)
Fixpoint bucket_loop (val : spec_float) (bs : list spec_float) (i : Z) : Z :=
  match bs with
  | [] => i
  | boundary :: bs => if SFleb val boundary then i else bucket_loop val bs (i + 1)
  end.
Definition findBucket (p : PercentileCalculator) (val : spec_float) : Z := bucket_loop val (boundaries p) 0.

Definition AddValue (p : PercentileCalculator) (val : spec_float) : go PercentileCalculator :=
  let bucketIndex := findBucket p val in
  n ← index (buckets p) bucketIndex;
  Ret (mk_PercentileCalculator (<[Z.to_nat bucketIndex := n + 1]> (buckets p)) (boundaries p) (totalValues p + 1)).

Section Percentile.
Variable int_overflow : spec_float -> Z.

(** [int(math.Ceil(x))] *)
Definition int_ceil (x : spec_float) : Z :=
  match ceil_of x with
  | Some z => if (-9223372036854775808 <=? z) && (z <? 9223372036854775808) then z else int_overflow x
  | None => int_overflow x
  end.

(** The value inside the [i]th bucket. *)
Definition interpolate (p : PercentileCalculator) (i count percentileIndex bucketCount : Z) : go spec_float :=
  if i =? zlen (boundaries p) then
    b ← index (boundaries p) (zlen (boundaries p) - 1); Ret (fmul b (float64 2))
  else
    let percent := fminus (float64 1) (fdiv (float64 (count - percentileIndex)) (float64 bucketCount)) in
    prevBoundary ← (if i >? 0 then index (boundaries p) (i - 1) else Ret (float64 0));
    b ← index (boundaries p) i;
    Ret (fadd (fmul percent (fminus b prevBoundary)) prevBoundary).

(** The loop over the buckets from the [i]th on, with [count] values before it. *)
Fixpoint percentile_loop (p : PercentileCalculator) (percentileIndex : Z) (bs : list Z) (i count : Z) : go spec_float :=
  match bs with
  | [] => Ret (float64 0)
  | bucketCount :: bs =>
    let count := count + bucketCount in
    if count >=? percentileIndex then interpolate p i count percentileIndex bucketCount
    else percentile_loop p percentileIndex bs (i + 1) count
  end.

Definition percentile_index (p : PercentileCalculator) (line : spec_float) : Z :=
  int_ceil (fmul line (float64 (totalValues p))).

Definition CalculatePercentile (p : PercentileCalculator) (line : spec_float) : go spec_float :=
  if totalValues p =? 0 then Ret (float64 0)
  else percentile_loop p (percentile_index p line) (buckets p) 0 0.

End Percentile.

(** Values added one after the other. *)
Fixpoint add_values (p : PercentileCalculator) (vs : list spec_float) : go PercentileCalculator :=
  match vs with
  | [] => Ret p
  | v :: vs => p ← AddValue p v; add_values p vs
  end.

(** ** Buckets *)

Abbreviation bounds := (boundaries NewPercentileCalculator).
Definition bucket_of (v : spec_float) : Z := findBucket NewPercentileCalculator v.
Definition number (Q : Z -> Prop) `{!forall i, Decision (Q i)} (vs : list spec_float) : Z :=
  zlen (filter (fun v => Q (bucket_of v)) vs).

Lemma bucket_loop_range v bs i : i <= bucket_loop v bs i <= i + zlen bs.
Proof.
  revert i. induction bs as [|b bs IH]; intros i; cbn [bucket_loop]; [unfold zlen; cbn; lia|].
  rewrite zlen_cons. pose proof (zlen_nonneg bs). destruct (SFleb v b); [lia|]. specialize (IH (i + 1)). lia.
Qed.

Lemma bucket_of_range v : 0 <= bucket_of v <= 13.
Proof. apply (bucket_loop_range v bounds 0). Qed.

Lemma SFleb_fle x y : isNaN x = false -> isNaN y = false -> SFleb x y = true <-> fle x y.
Proof.
  intros Hx Hy. unfold fle, Compare. rewrite Hx, Hy. unfold SFltb, SFleb.
  assert (SFcompare y x = CompOpp <$> SFcompare x y) as ->.
  { destruct x as [?|[]| |[] m e], y as [?|[]| |[] m' e']; try done; cbn -[Z.compare Pos.compare_cont];
      rewrite (Z.compare_antisym e e'); destruct (Z.compare e e'); try done; cbn;
      change (Pos.compare_cont Eq ?a ?b) with (Pos.compare a b); rewrite (Pos.compare_antisym m m');
      by destruct (Pos.compare m m'). }
  destruct (SFcompare x y) as [ []|] eqn:E; cbn; try (split; [done|lia]).
  by destruct x as [?|[]| |[] m e], y as [?|[]| |[] m' e'].
Qed.

Lemma bucket_loop_mono a b bs i : isNaN a = false -> isNaN b = false -> Forall (fun x => isNaN x = false) bs ->
  fle a b -> bucket_loop a bs i <= bucket_loop b bs i.
Proof.
  intros Ha Hb Hbs Hab. revert i. induction Hbs as [|x bs Hx Hbs IH]; intros i; cbn [bucket_loop]; [lia|].
  destruct (SFleb b x) eqn:E.
  - apply SFleb_fle in E; [|done..]. rewrite (proj2 (SFleb_fle a x Ha Hx)) by (by trans b). lia.
  - destruct (SFleb a x); [|apply IH]. pose proof (bucket_loop_range b bs (i + 1)). lia.
Qed.

Lemma bucket_of_mono a b : isNaN a = false -> isNaN b = false -> fle a b -> bucket_of a <= bucket_of b.
Proof. intros Ha Hb. apply bucket_loop_mono; [done..|]. vm_compute. repeat constructor. Qed.

(** The counts after some values. *)
Definition counted (vs : list spec_float) (p : PercentileCalculator) : Prop :=
  boundaries p = bounds /\ totalValues p = zlen vs /\ length (buckets p) = 14%nat /\
  forall i : nat, (i < 14)%nat -> buckets p !! i = Some (number (fun j => j = Z.of_nat i) vs).

Lemma number_app (Q : Z -> Prop) `{!forall i, Decision (Q i)} vs vs' : number Q (vs ++ vs') = number Q vs + number Q vs'.
Proof. unfold number. by rewrite filter_app, zlen_app. Qed.

Lemma AddValue_counted vs p v : counted vs p -> exists p', AddValue p v = Ret p' /\ counted (vs ++ [v]) p'.
Proof.
  intros (Hb & Ht & Hl & Hn). unfold AddValue. unfold findBucket. rewrite Hb.
  change (bucket_loop v bounds 0) with (bucket_of v). pose proof (bucket_of_range v) as Hr.
  set (i := Z.to_nat (bucket_of v)). assert (Z.of_nat i = bucket_of v) as Hi by lia.
  assert (index (buckets p) (bucket_of v) = Ret (number (fun j => j = Z.of_nat i) vs)) as ->.
  { unfold index. rewrite (proj2 (Z.leb_le _ _)) by lia. fold i. by rewrite (Hn i) by lia. }
  rewrite go_bind_ret. eexists. split; [done|]. split; [done|]. split; [by cbn; rewrite Ht, zlen_app|].
  cbn [buckets]. split; [by rewrite length_insert|]. intros j Hj. rewrite number_app.
  destruct (decide (j = i)) as [->|Hji].
  - rewrite list_lookup_insert_eq by lia. unfold number at 3. rewrite filter_cons_True by lia. done.
  - rewrite list_lookup_insert_ne by done. unfold number at 2. rewrite filter_cons_False by lia.
    cbn [filter list_filter]. change (zlen []) with 0. rewrite Z.add_0_r. by apply Hn.
Qed.

Lemma add_values_counted vs : forall seen p, counted seen p ->
  exists p', add_values p vs = Ret p' /\ counted (seen ++ vs) p'.
Proof.
  induction vs as [|v vs IH]; intros seen p Hp; cbn [add_values].
  - exists p. by rewrite app_nil_r.
  - destruct (AddValue_counted seen p v Hp) as (p1 & -> & Hp1). rewrite go_bind_ret.
    destruct (IH _ _ Hp1) as (p' & E & Hp'). exists p'. split; [done|]. by rewrite <- app_assoc in Hp'.
Qed.

Lemma counted_nil : counted [] NewPercentileCalculator.
Proof.
  split; [done|]. split; [done|]. split; [done|]. intros i Hi. cbn [buckets NewPercentileCalculator].
  by apply lookup_replicate_2.
Qed.

(** ** Percentiles *)

Lemma number_S (i : nat) vs :
  number (fun j => j < Z.of_nat (S i)) vs = number (fun j => j < Z.of_nat i) vs + number (fun j => j = Z.of_nat i) vs.
Proof.
  unfold number. induction vs as [|v vs IH]; [done|]. rewrite !filter_cons.
  repeat case_decide; rewrite ?zlen_cons; lia.
Qed.

Lemma number_mono (Q R : Z -> Prop) `{!forall i, Decision (Q i)} `{!forall i, Decision (R i)} vs :
  (forall i, Q i -> R i) -> number Q vs <= number R vs.
Proof.
  intros HQR. unfold number. induction vs as [|v vs IH]; [done|]. rewrite !filter_cons.
  repeat case_decide; rewrite ?zlen_cons; try lia. naive_solver.
Qed.

(** The loop stops at the bucket that has the [k]th value. *)
Lemma percentile_loop_stops p vs k (i0 : nat) : counted vs p -> (i0 < 14)%nat ->
  number (fun j => j < Z.of_nat i0) vs < k <= number (fun j => j < Z.of_nat (S i0)) vs ->
  forall i : nat, (i <= i0)%nat ->
  percentile_loop p k (drop i (buckets p)) (Z.of_nat i) (number (fun j => j < Z.of_nat i) vs) =
  interpolate p (Z.of_nat i0) (number (fun j => j < Z.of_nat (S i0)) vs) k (number (fun j => j = Z.of_nat i0) vs).
Proof.
  intros (_ & _ & _ & Hn) Hi0 Hk i Hi. remember (i0 - i)%nat as d eqn:Hd. revert i Hi Hd.
  induction d as [|d IH]; intros i Hi Hd.
  all: rewrite (drop_S _ _ i (Hn i ltac:(lia))); cbn [percentile_loop]; rewrite <- number_S, Z.geb_leb.
  - assert (i = i0) as -> by lia. by rewrite (proj2 (Z.leb_le _ _)) by lia.
  - rewrite (proj2 (Z.leb_gt _ _)).
    + replace (Z.of_nat i + 1) with (Z.of_nat (S i)) by lia. apply IH; lia.
    + eapply Z.le_lt_trans; [|apply Hk]. apply number_mono. lia.
Qed.

Lemma number_none (Q : Z -> Prop) `{!forall i, Decision (Q i)} vs :
  Forall (fun v => ~ Q (bucket_of v)) vs -> number Q vs = 0.
Proof. unfold number. induction 1; [done|]. by rewrite filter_cons_False. Qed.

Lemma number_every (Q : Z -> Prop) `{!forall i, Decision (Q i)} vs :
  Forall (fun v => Q (bucket_of v)) vs -> number Q vs = zlen vs.
Proof. unfold number. induction 1; [done|]. rewrite filter_cons_True, !zlen_cons by done. lia. Qed.

Lemma number_le (Q : Z -> Prop) `{!forall i, Decision (Q i)} vs : 0 <= number Q vs <= zlen vs.
Proof. unfold number, zlen. pose proof (length_filter (fun v => Q (bucket_of v)) vs). lia. Qed.

Lemma number_perm (Q : Z -> Prop) `{!forall i, Decision (Q i)} vs vs' : vs ≡ₚ vs' -> number Q vs = number Q vs'.
Proof. intros Hp. unfold number, zlen. by rewrite Hp. Qed.

Lemma zlen_perm {A} (l l' : list A) : l ≡ₚ l' -> zlen l = zlen l'.
Proof. intros Hp. unfold zlen. by rewrite Hp. Qed.

(** Below the bucket of the [k]th value are less than [k] values, up to it at least [k]. *)
Lemma number_around l v l' :
  StronglySorted fle (l ++ v :: l') -> Forall (fun x => isNaN x = false) (l ++ v :: l') ->
  number (fun j => j < bucket_of v) (l ++ v :: l') <= zlen l < number (fun j => j < bucket_of v + 1) (l ++ v :: l').
Proof.
  intros Hs [Hn1 [Hv Hn2]%Forall_cons]%Forall_app. apply StronglySorted_app in Hs as (Hs & _ & Hs2).
  apply StronglySorted_inv in Hs2 as [_ Hs2]. rewrite Forall_forall in Hn1, Hn2, Hs2.
  change (v :: l') with ([v] ++ l'). rewrite !number_app. split.
  - rewrite (number_none _ l'), (number_none _ [v]).
    + pose proof (number_le (fun j => j < bucket_of v) l). lia.
    + repeat constructor. lia.
    + apply Forall_forall. intros x Hx. pose proof (bucket_of_mono v x Hv (Hn2 x Hx) (Hs2 x Hx)). lia.
  - rewrite (number_every _ l), (number_every _ [v]).
    + pose proof (number_le (fun j => j < bucket_of v + 1) l'). change (zlen [v]) with 1. lia.
    + repeat constructor. lia.
    + apply Forall_forall. intros x Hx.
      pose proof (bucket_of_mono x v (Hn1 x Hx) Hv (Hs x v Hx ltac:(by left))). lia.
Qed.

(** ** Theorem *)


(** Five values, and their median. *)
Definition five : list spec_float := float64 <$> [100; 3; 10; 1; 2].
Definition half : spec_float := fdiv (float64 1) (float64 2).

