(* ===== verification/Classify.v ===== *)
(** * Metrics and classes

    What a record is counted under and what is counted: the metrics and the options of
    [src/agent/analysis/common/types.go], the kinds of classes of
    [src/agent/analysis/common/classfier.go], the classifiers of
    [src/agent/analysis/classfier.go], and the names of connections of
    [src/common/type.go].

    - A class id is a Go string: a list of bytes.
    - [MessageKinds] is what the type assertions of the classifiers see of a message:
      [None] when it is not of the type.
    - [int32(x)] of a [float64] out of the range of [int32] is left to the implementation
      by the language: [int32_overflow].
    - A call of a missing entry of a map of functions panics. *)

From stdpp Require Import gmap list strings.
From Stdlib Require Import ZArith Lia Floats.SpecFloat.
From S2P Require Import Prelude.
From S2P Require Import Types.
From S2P Require Import GoBase.
From S2P Require Import StreamBuffer.
From S2P Require Import Protocol.
From S2P Require Import AgentConn.
From S2P Require Import ConnManager.
From S2P Require Import Stat.
From S2P Require Import Records.
From S2P Require Import Redis.
Local Open Scope Z_scope.
Local Open Scope model_scope.

(** ** Kinds of classes and metrics *)

Module Classfier.
Inductive t : Set :=
| Default | None | Conn | RemotePort | LocalPort | RemoteIp | Protocol | HttpPath | RedisCommand | ProtocolAdaptive.
#[global] Instance eq_dec : EqDecision t.
Proof. solve_decision. Defined.
End Classfier.
Abbreviation ClassfierType := Classfier.t.

Module Metric.
Inductive t : Set :=
| Start | ResponseSize | RequestSize | TotalDuration | BlackBoxDuration | ReadFromSocketBufferDuration | NoneType.
#[global] Instance eq_dec : EqDecision t.
Proof. solve_decision. Defined.
Definition val (m : t) : nat :=
  match m with
  | Start => 0 | ResponseSize => 1 | RequestSize => 2 | TotalDuration => 3 | BlackBoxDuration => 4
  | ReadFromSocketBufferDuration => 5 | NoneType => 6
  end.
Definition of_val (n : nat) : option t :=
  match n with
  | 0 => Some Start | 1 => Some ResponseSize | 2 => Some RequestSize | 3 => Some TotalDuration
  | 4 => Some BlackBoxDuration | 5 => Some ReadFromSocketBufferDuration | 6 => Some NoneType | _ => None
  end%nat.
#[global] Instance countable : Countable t.
Proof. apply (inj_countable val of_val). by intros []. Defined.
End Metric.
Abbreviation MetricType := Metric.t.

Definition IsTotalMeaningful (m : MetricType) : bool :=
  match m with Metric.ResponseSize | Metric.RequestSize => true | _ => false end.

(** ** Options *)

Abbreviation MetricTypeSet := (gmap MetricType bool).
Definition NewMetricTypeSet (metricTypes : list MetricType) : MetricTypeSet :=
  foldl (fun result t => <[t := true]> result) ∅ metricTypes.

(** The fields the analysis reads. *)
Record AnalysisOptions := mk_AnalysisOptions {
  EnabledMetricTypeSet : MetricTypeSet;
  SampleLimit : Z;
  opt_ClassfierType : ClassfierType;
  SubClassfierType : ClassfierType;
  ProtocolSpecificClassfiers : gmap Z ClassfierType;
  CleanWhenHarvest : bool;
  TimeLimit : Z;
  SlowMode : bool;
  BigRespMode : bool;
  BigReqMode : bool;
}.
#[export] Instance eta_AnalysisOptions : Eta AnalysisOptions := fun a =>
  mk_AnalysisOptions (EnabledMetricTypeSet a) (SampleLimit a) (opt_ClassfierType a) (SubClassfierType a)
    (ProtocolSpecificClassfiers a) (CleanWhenHarvest a) (TimeLimit a) (SlowMode a) (BigRespMode a) (BigReqMode a).

Definition EnableBatchModel (a : AnalysisOptions) : bool := TimeLimit a >? 0.

Definition default_class (c : ClassfierType) (a : AnalysisOptions) : AnalysisOptions :=
  if decide (opt_ClassfierType a = Classfier.Default) then a <| opt_ClassfierType := c |> else a.

Definition Init (a : AnalysisOptions) : AnalysisOptions :=
  let a := if SampleLimit a <=? 0 then a <| SampleLimit := 10 |> else a in
  let a := a <| CleanWhenHarvest := EnableBatchModel a |> in
  if SlowMode a then
    default_class Classfier.RemoteIp (a <| EnabledMetricTypeSet := {[Metric.TotalDuration := true]} |>)
  else if BigReqMode a || BigRespMode a then
    default_class Classfier.RemoteIp
      (if BigRespMode a then a <| EnabledMetricTypeSet := {[Metric.ResponseSize := true]} |>
       else a <| EnabledMetricTypeSet := {[Metric.RequestSize := true]} |>)
  else default_class Classfier.Conn a.

(** ** Names of addresses and connections *)

Definition hex_digit (n : Z) : Z := if n <? 10 then 48 + n else 87 + n.

(** [appendHex]: a number of 16 bits without leading zeros. *)
Definition append_hex (x : Z) : list Z :=
  (if x >=? 4096 then [hex_digit (x / 4096)] else []) ++
  (if x >=? 256 then [hex_digit (x / 256 mod 16)] else []) ++
  (if x >=? 16 then [hex_digit (x / 16 mod 16)] else []) ++ [hex_digit (x mod 16)].

(** The groups of 16 bits of an address. *)
Fixpoint groups (ip : list Z) : list Z :=
  match ip with a :: b :: ip => 256 * a + b :: groups ip | _ => [] end.

Fixpoint zeros (gs : list Z) : nat := match gs with 0 :: gs => S (zeros gs) | _ => O end.

(** The first of the longest runs of at least two zero groups: its start and its end,
    255 when there is none.  [i] is the number of the first group of [gs]. *)
Fixpoint zero_run (gs : list Z) (i : nat) (best : nat * nat) : nat * nat :=
  match gs with
  | [] => best
  | _ :: gs' =>
    let l := zeros gs in
    zero_run gs' (S i) (if (2 <=? l)%nat && (best.2 - best.1 <? l)%nat then (i, i + l)%nat else best)
  end.

Fixpoint join_groups (gs : list Z) (i : nat) (run : nat * nat) : list Z :=
  match gs with
  | [] => []
  | g :: gs =>
    (if (i =? run.1)%nat then [58; 58]
     else if (run.1 <? i)%nat && (i <? run.2)%nat then []
     else (if (0 <? i)%nat && negb (i =? run.2)%nat then [58] else []) ++ append_hex g)
      ++ join_groups gs (S i) run
  end.

Definition dotted (ip : list Z) : list Z :=
  match ip with
  | [a; b; c; d] => decimal a ++ [46] ++ decimal b ++ [46] ++ decimal c ++ [46] ++ decimal d
  | _ => []
  end.

(** [net.IP.String] *)
Definition IP_String (ip : list Z) : list Z :=
  if decide (ip = []) then bytes "<nil>"
  else if decide (length ip = 4%nat) then dotted ip
  else if decide (length ip = 16%nat) then
    if decide (take 12 ip = replicate 10 0 ++ [255; 255]) then dotted (drop 12 ip)
    else join_groups (groups ip) 0 (zero_run (groups ip) 0 (255, 255)%nat)
  else bytes "?" ++ concat ((fun b => [hex_digit (b / 16); hex_digit (b mod 16)]) <$> ip).

(** [IntToBytes] of a [uint16], little endian. *)
Definition IntToBytes (n : Z) : list Z := [n mod 256; n / 256].

Definition Identity (c : ConnDesc) : list Z :=
  let result := cd_LocalAddr c ++ IntToBytes (cd_LocalPort c) in
  result ++ cd_RemoteAddr c ++ IntToBytes (cd_RemotePort c).

Definition SimpleString (c : ConnDesc) : list Z :=
  let direct := bytes (if decide (cd_Side c = ClientSide) then "=>" else "<=") in
  IP_String (cd_LocalAddr c) ++ [58] ++ decimal (cd_LocalPort c) ++ [32] ++ direct ++ [32] ++
  IP_String (cd_RemoteAddr c) ++ [58] ++ decimal (cd_RemotePort c).

Definition ProtocolNamesMap : gmap Z (list Z) := list_to_map [
  (traffic_protocol_val kProtocolHTTP, bytes "HTTP"); (traffic_protocol_val kProtocolRedis, bytes "Redis");
  (traffic_protocol_val kProtocolMySQL, bytes "MySQL"); (traffic_protocol_val kProtocolMongo, bytes "Mongo");
  (traffic_protocol_val kProtocolRocketMQ, bytes "RocketMQ"); (traffic_protocol_val kProtocolKafka, bytes "Kafka")].

(** ** Classifiers *)

Class MessageKinds (M : Type) := {
  as_StatusfulMessage : M -> option ResponseStatus;
  as_ParsedHttpRequest : M -> option (list Z);
  as_RedisMessage : M -> option (list Z);
}.

Section Classes.
Context {M : Type} `{ParsedMessage M} `{!MessageKinds M}.
Abbreviation record := (AnnotatedRecord (M := M)).

Definition http_path (ar : record) : list Z :=
  match as_ParsedHttpRequest (Req (ar_Record ar)) with None => bytes "_not_a_http_req_" | Some path => path end.
Definition redis_command (ar : record) : list Z :=
  match as_RedisMessage (Req (ar_Record ar)) with None => bytes "_not_a_redis_req_" | Some command => command end.

(** The classifiers, none of which returns an error. *)
Definition classfierMap (t : ClassfierType) : option (record -> list Z) :=
  match t with
  | Classfier.Default => None
  | Classfier.None => Some (fun _ => bytes "none")
  | Classfier.Conn => Some (fun ar => Identity (ar_ConnDesc ar))
  | Classfier.RemotePort => Some (fun ar => decimal (cd_RemotePort (ar_ConnDesc ar)))
  | Classfier.LocalPort => Some (fun ar => decimal (cd_LocalPort (ar_ConnDesc ar)))
  | Classfier.RemoteIp => Some (fun ar => IP_String (cd_RemoteAddr (ar_ConnDesc ar)))
  | Classfier.Protocol => Some (fun ar => decimal (cd_Protocol (ar_ConnDesc ar)))
  | Classfier.HttpPath => Some http_path
  | Classfier.RedisCommand | Classfier.ProtocolAdaptive => Some redis_command
  end.

Definition classIdHumanReadableMap (t : ClassfierType) : option (record -> list Z) :=
  match t with
  | Classfier.RemoteIp => Some (fun ar => IP_String (cd_RemoteAddr (ar_ConnDesc ar)))
  | Classfier.RemotePort => Some (fun ar => decimal (cd_RemotePort (ar_ConnDesc ar)))
  | Classfier.LocalPort => Some (fun ar => decimal (cd_LocalPort (ar_ConnDesc ar)))
  | Classfier.Conn => Some (fun ar => SimpleString (ar_ConnDesc ar))
  | Classfier.HttpPath => Some http_path
  | Classfier.RedisCommand => Some redis_command
  | Classfier.Protocol => Some (fun ar => default [] (ProtocolNamesMap !! cd_Protocol (ar_ConnDesc ar)))
  | _ => None
  end.

(** A call of an entry of a map of functions. *)
Definition call (f : option (record -> list Z)) (ar : record) : go (list Z) :=
  match f with Some f => Ret (f ar) | None => Panic end.

Definition GetClassfierType (t : ClassfierType) (options : AnalysisOptions) (r : record) : ClassfierType :=
  if decide (t = Classfier.ProtocolAdaptive) then
    default Classfier.RemoteIp (ProtocolSpecificClassfiers options !! cd_Protocol (ar_ConnDesc r))
  else t.

(** [None] is a nil function. *)
Definition getClassfier (t : ClassfierType) (options : AnalysisOptions) : option (record -> go (list Z)) :=
  if decide (t = Classfier.ProtocolAdaptive) then
    Some (fun ar =>
      match ProtocolSpecificClassfiers options !! cd_Protocol (ar_ConnDesc ar) with
      | None => call (classfierMap Classfier.RemoteIp) ar
      | Some c => call (classfierMap c) ar
      end)
  else (fun f ar => Ret (f ar)) <$> classfierMap t.

Definition getClassIdHumanReadableFunc (t : ClassfierType) (options : AnalysisOptions) : option (record -> go (list Z)) :=
  if decide (t = Classfier.ProtocolAdaptive) then
    Some (fun ar =>
      match ProtocolSpecificClassfiers options !! cd_Protocol (ar_ConnDesc ar) with
      | None => call (classIdHumanReadableMap Classfier.RemoteIp) ar
      | Some c => call (classIdHumanReadableMap c) ar
      end)
  else (fun f ar => Ret (f ar)) <$> classIdHumanReadableMap t.

(** ** Values of a metric *)

Variable int32_overflow : Z -> Z.

(** [int32(x)] of a duration. *)
Definition int32_of (x : Z) : Z :=
  if (-2147483648 <=? x) && (x <? 2147483648) then x else int32_overflow x.

Definition GetTotalDurationMills (a : record) : spec_float := NanoToMills (int32_of (TotalDuration a)).
Definition GetBlackBoxDurationMills (a : record) : spec_float := NanoToMills (int32_of (BlackBoxDuration a)).
Definition GetReadFromSocketBufferDurationMills (a : record) : spec_float :=
  NanoToMills (int32_of (ReadFromSocketBufferDuration a)).

(** [GetMetricExtractFunc[float64]] *)
Definition GetMetricExtractFunc (t : MetricType) : record -> spec_float :=
  match t with
  | Metric.ResponseSize => fun ar => float64 (RespSize ar)
  | Metric.RequestSize => fun ar => float64 (ReqSize ar)
  | Metric.TotalDuration => GetTotalDurationMills
  | Metric.BlackBoxDuration => GetBlackBoxDurationMills
  | Metric.ReadFromSocketBufferDuration => GetReadFromSocketBufferDurationMills
  | _ => GetTotalDurationMills
  end.

End Classes.

Example ip_examples :
  (IP_String [127; 0; 0; 1] = bytes "127.0.0.1") /\
  (IP_String [32; 1; 13; 184; 0; 0; 0; 0; 0; 0; 0; 0; 0; 0; 0; 1] = bytes "2001:db8::1") /\
  (IP_String (replicate 16 0) = bytes "::") /\
  (IP_String [0; 1; 0; 0; 0; 0; 0; 2; 0; 0; 0; 0; 0; 0; 171; 205] = bytes "1:0:0:2::abcd") /\
  (IP_String (replicate 10 0 ++ [255; 255; 10; 0; 0; 1]) = bytes "10.0.0.1") /\
  (IP_String [1; 2; 3; 4; 5; 6; 7; 8; 9; 10; 11; 12; 13; 14; 0; 0] = bytes "102:304:506:708:90a:b0c:d0e:0").
Proof. vm_compute. done. Qed.
