(* ===== verification/Analysis.v ===== *)
(** * Aggregation

    [src/agent/analysis/analysis.go] and [src/agent/analysis/types.go]: every record is
    classified, the aggregator of its class counts it and keeps samples and statistics of
    the enabled metrics, and if there is a second classifier the aggregator of the class
    inside the class does so too.  [Run] answers each signal and each tick with the
    statistics of all classes.

    - An iteration over a Go map has no fixed order; here it is that of [map_to_list].
      The theorems do not depend on it: what one metric does is independent of the others,
      and results are sets of statistics.
    - [Run] receives what is ready on its channels: [run_input] lists what it receives, in
      the order in which it does.  The statistics of a result are those at the time it is
      sent; that the code sends pointers to statistics that go on changing is not modelled.
    - A [None] of an operation would be a search that has used up its fuel, which the
      theorems exclude. *)

From stdpp Require Import gmap list sorting strings.
From Stdlib Require Import ZArith Lia Floats.SpecFloat.
From S2P Require Import Prelude.
From S2P Require Import Types.
From S2P Require Import GoBase.
From S2P Require Import StreamBuffer.
From S2P Require Import Protocol.
From S2P Require Import AgentConn.
From S2P Require Import ConnManager.
From S2P Require Import Stat.
From S2P Require Import Records.
From S2P Require Import Redis.
From S2P Require Import Samples.
From S2P Require Import Percentile.
From S2P Require Import Classify.
Local Open Scope Z_scope.
Local Open Scope model_scope.

(** ** [float32] and [math.Max] *)

(** A value rounded to a [float32], and a [float32] as a [float64]. *)
Definition round_format (prec emax : Z) (x : spec_float) : spec_float :=
  match x with
  | S754_finite s m e => binary_normalize prec emax (if s then Z.neg m else Z.pos m) e s
  | _ => x
  end.
Definition float32_of (x : spec_float) : spec_float := round_format 24 128 x.
Definition float64_of (x : spec_float) : spec_float := round_format 53 1024 x.

Definition math_Max (x y : spec_float) : spec_float :=
  match x, y with
  | S754_infinity false, _ | _, S754_infinity false => S754_infinity false
  | S754_nan, _ | _, S754_nan => S754_nan
  | S754_zero s, S754_zero _ => if s then y else x
  | _, _ => if SFltb y x then x else y
  end.

(** A search that has not used up its fuel. *)
Definition bind_some {A B} (m : go (option A)) (k : A -> go (option B)) : go (option B) :=
  x ← m; match x with Some a => k a | None => Ret None end.
Notation "'let?' x := m 'in' k" := (bind_some m (fun x => k)) (at level 10, x pattern, k at level 200).

Section Analysis.
Context {M : Type} `{ParsedMessage M} `{!MessageKinds M}.
Variable int32_overflow : Z -> Z.
Variable int_overflow : spec_float -> Z.
Abbreviation record := (AnnotatedRecord (M := M)).
Abbreviation metric m := (GetMetricExtractFunc (M := M) int32_overflow m).

(** ** Statistics of a class *)

Record ConnStat := mk_ConnStat {
  Count : Z;
  FailedCount : Z;
  SamplesMap : gmap MetricType (list record);
  PercentileCalculators : gmap MetricType PercentileCalculator;
  MaxMap : gmap MetricType spec_float;
  SumMap : gmap MetricType spec_float;
  stat_Side : SideEnum;
  ClassId : list Z;
  HumanReadbleClassId : list Z;
  stat_ClassfierType : ClassfierType;
  IsSub : bool;
}.
#[export] Instance eta_ConnStat : Eta ConnStat := fun c =>
  mk_ConnStat (Count c) (FailedCount c) (SamplesMap c) (PercentileCalculators c) (MaxMap c) (SumMap c) (stat_Side c)
    (ClassId c) (HumanReadbleClassId c) (stat_ClassfierType c) (IsSub c).

Definition ClassIdAsHumanReadable (c : ConnStat) (classId : list Z) : list Z :=
  match stat_ClassfierType c with
  | Classfier.None => bytes "All"
  | Classfier.Conn | Classfier.RemotePort | Classfier.LocalPort | Classfier.RemoteIp | Classfier.Protocol =>
    HumanReadbleClassId c
  | _ => if decide (HumanReadbleClassId c = []) then classId else HumanReadbleClassId c
  end.

Inductive LatencyMetric : Set := Avg | Max | P50 | P90 | P99.

(** The [float32] constants 0.5, 0.90 and 0.99. *)
Definition percent (l : LatencyMetric) : spec_float :=
  match l with
  | P50 => binary_normalize 24 128 1 (-1) false
  | P90 => binary_normalize 24 128 15099494 (-24) false
  | _ => binary_normalize 24 128 16609444 (-24) false
  end.

Definition GetValueByMetricType (c : ConnStat) (l : LatencyMetric) (m : MetricType) : go spec_float :=
  match l with
  | Avg => match SumMap c !! m with None => Ret (float64 0) | Some sum => Ret (fdiv sum (float64 (Count c))) end
  | Max => match MaxMap c !! m with None => Ret (float64 0) | Some max => Ret (float64_of max) end
  | P50 | P90 | P99 =>
    match PercentileCalculators c !! m with
    | None => Ret (float64 0)
    | Some p => CalculatePercentile int_overflow p (float64_of (percent l))
    end
  end.

(** ** Aggregators *)

Record aggregator := mk_aggregator { stat : ConnStat; isSub : bool }.

Definition enabled (o : AnalysisOptions) (m : MetricType) : bool := default false (EnabledMetricTypeSet o !! m).

(** The aggregator [reset] leaves: the maps of the calculators and the samples have an
    entry for every enabled metric. *)
Definition createAggregator (classId : list Z) (o : AnalysisOptions) (sub : bool) : aggregator :=
  let on := filter (fun kv => kv.2 = true) (EnabledMetricTypeSet o) in
  mk_aggregator (mk_ConnStat 0 0 ((fun _ => []) <$> on) ((fun _ => NewPercentileCalculator) <$> on) ∅ ∅ AllSide classId []
    (if sub then SubClassfierType o else opt_ClassfierType o) sub) sub.

Definition createAggregatorWithHumanReadableClassId (human classId : list Z) (o : AnalysisOptions) (sub : bool) : aggregator :=
  let a := createAggregator classId o sub in
  mk_aggregator (stat a <| HumanReadbleClassId := human |>) (isSub a).

(** How many samples an aggregator keeps. *)
Definition sample_limit (o : AnalysisOptions) (sub : bool) : Z :=
  if sub || bool_decide (SubClassfierType o = Classfier.None) then SampleLimit o else 1.

(** What [receive] does for one metric. *)
Definition receive_metric (o : AnalysisOptions) (sub : bool) (r : record) (m : MetricType) (c : ConnStat)
    : go (option ConnStat) :=
  let? samples := AddToSamples (metric m) (default [] (SamplesMap c !! m)) r (sample_limit o sub) in
  let metricValue := metric m r in
  match PercentileCalculators c !! m with
  | None => Panic
  | Some percentileCalculator =>
    p ← AddValue percentileCalculator metricValue;
    Ret (Some (c <| SamplesMap ::= <[m := samples]> |> <| PercentileCalculators ::= <[m := p]> |>
      <| MaxMap := <[m := float32_of (math_Max (float64_of (default (S754_zero false) (MaxMap c !! m))) metricValue)]> (MaxMap c) |>
      <| SumMap := <[m := fadd (default (S754_zero false) (SumMap c !! m)) metricValue]> (SumMap c) |>))
  end.

Fixpoint receive_metrics (o : AnalysisOptions) (sub : bool) (r : record) (ms : list (MetricType * bool)) (c : ConnStat)
    : go (option ConnStat) :=
  match ms with
  | [] => Ret (Some c)
  | (m, on) :: ms =>
    let? c := (if on : bool then receive_metric o sub r m c else Ret (Some c)) in
    receive_metrics o sub r ms c
  end.

Definition failed (r : record) : bool :=
  match as_StatusfulMessage (Resp (ar_Record r)) with
  | Some SuccessStatus | None => false
  | Some _ => true
  end.

Definition receive (o : AnalysisOptions) (r : record) (a : aggregator) : go (option aggregator) :=
  let c := stat a <| Count ::= Z.add 1 |> in
  let c := if failed r then c <| FailedCount ::= Z.add 1 |> else c in
  let c := c <| stat_Side := cd_Side (ar_ConnDesc r) |> in
  let? c := receive_metrics o (isSub a) r (map_to_list (EnabledMetricTypeSet o)) c in
  Ret (Some (mk_aggregator c (isSub a))).

(** ** The analyzer *)

Record Analyzer := mk_Analyzer {
  Aggregators : gmap (list Z) aggregator;
  recordReceived : Z;
}.

Definition CreateAnalyzer : Analyzer := mk_Analyzer ∅ 0.

(** The aggregator of a class, created with the name its first record gives it. *)
Definition find_or_create (o : AnalysisOptions) (human : option (record -> go (list Z))) (classId : list Z) (sub : bool)
    (r : record) (t : gmap (list Z) aggregator) : go aggregator :=
  match t !! classId with
  | Some a => Ret a
  | None =>
    match human with
    | Some f => name ← f r; Ret (createAggregatorWithHumanReadableClassId name classId o sub)
    | None => Ret (createAggregator classId o sub)
    end
  end.

Definition separator : list Z := bytes "||".

Definition analyze (o : AnalysisOptions) (r : record) (t : gmap (list Z) aggregator) : go (option (gmap (list Z) aggregator)) :=
  match getClassfier (opt_ClassfierType o) o with
  | None => Panic
  | Some classfier =>
    class ← classfier r;
    a ← find_or_create o ((fun f ar => Ret (f ar)) <$> classIdHumanReadableMap (opt_ClassfierType o)) class false r t;
    let? a := receive o r a in
    let t := <[class := a]> t in
    let subClassfier := if decide (SubClassfierType o = Classfier.None) then None else getClassfier (SubClassfierType o) o in
    match subClassfier with
    | None => Ret (Some t)
    | Some subClassfier =>
      subClassId ← subClassfier r;
      let fullClassId := class ++ separator ++ subClassId in
      a ← find_or_create o (getClassIdHumanReadableFunc (SubClassfierType o) o) fullClassId true r t;
      let? a := receive o r a in
      Ret (Some (<[fullClassId := a]> t))
    end
  end.

Definition harvest (o : AnalysisOptions) (a : Analyzer) : list ConnStat * Analyzer :=
  let result := (fun kv => stat kv.2) <$> map_to_list (Aggregators a) in
  (result, if CleanWhenHarvest o then mk_Analyzer ∅ (recordReceived a) else a).

(** What [Run] receives. *)
Inductive run_input : Type := CtxDone | InRecord (r : record) | HavestSignal | Tick.

(** The results sent on [resultChannel]; without a ticker there are no ticks. *)
Fixpoint Run (o : AnalysisOptions) (inputs : list run_input) (a : Analyzer) : go (option (list (list ConnStat) * Analyzer)) :=
  match inputs with
  | [] | CtxDone :: _ => Ret (Some ([], a))
  | InRecord r :: inputs =>
    let? t := analyze o r (Aggregators a) in
    Run o inputs (mk_Analyzer t (recordReceived a + 1))
  | HavestSignal :: inputs =>
    let '(result, a) := harvest o a in
    if EnableBatchModel o then Ret (Some ([result], a))
    else let? (results, a) := Run o inputs a in Ret (Some (result :: results, a))
  | Tick :: inputs =>
    if EnableBatchModel o then Run o inputs a
    else
      let '(result, a) := harvest o a in
      let? (results, a) := Run o inputs a in Ret (Some (result :: results, a))
  end.

(** ** What the statistics of a class are *)

Abbreviation zero := (S754_zero false).
Definition sum_of (vs : list spec_float) : spec_float := foldl fadd zero vs.
Definition max_of (vs : list spec_float) : spec_float := foldl (fun mx v => float32_of (math_Max (float64_of mx) v)) zero vs.

(** The entries of one metric after the records [rs]. *)
Definition metric_state (o : AnalysisOptions) (sub : bool) (rs : list record) (m : MetricType) (c : ConnStat) : Prop :=
  (exists samples, SamplesMap c !! m = Some samples /\ largest (metric m) (sample_limit o sub) rs samples) /\
  (exists p, PercentileCalculators c !! m = Some p /\ counted (metric m <$> rs) p) /\
  default zero (MaxMap c !! m) = max_of (metric m <$> rs) /\
  default zero (SumMap c !! m) = sum_of (metric m <$> rs).

(** The statistics of the class [id] with the records [rs]. *)
Record describes (o : AnalysisOptions) (sub : bool) (id : list Z) (rs : list record) (c : ConnStat) : Prop := mk_describes {
  of_count : Count c = zlen rs;
  of_failed : FailedCount c = zlen (filter (fun r => failed r = true) rs);
  of_side : stat_Side c = from_option (fun r => cd_Side (ar_ConnDesc r)) AllSide (last rs);
  of_class : ClassId c = id /\ IsSub c = sub /\
    stat_ClassfierType c = if sub then SubClassfierType o else opt_ClassfierType o;
  of_metrics : forall m, enabled o m = true -> metric_state o sub rs m c;
}.

Definition same_entry (m : MetricType) (c c' : ConnStat) : Prop :=
  SamplesMap c' !! m = SamplesMap c !! m /\ PercentileCalculators c' !! m = PercentileCalculators c !! m /\
  MaxMap c' !! m = MaxMap c !! m /\ SumMap c' !! m = SumMap c !! m.

Definition same_head (c c' : ConnStat) : Prop :=
  Count c' = Count c /\ FailedCount c' = FailedCount c /\ stat_Side c' = stat_Side c /\ ClassId c' = ClassId c /\
  IsSub c' = IsSub c /\ stat_ClassfierType c' = stat_ClassfierType c /\ HumanReadbleClassId c' = HumanReadbleClassId c.

Lemma same_entry_state o sub rs m c c' : same_entry m c c' -> metric_state o sub rs m c -> metric_state o sub rs m c'.
Proof. unfold same_entry, metric_state. by intros (-> & -> & -> & ->). Qed.

Lemma receive_metric_ok o sub r rs m c : 0 <= sample_limit o sub -> metric_state o sub rs m c ->
  exists c', receive_metric o sub r m c = Ret (Some c') /\ same_head c c' /\ metric_state o sub (rs ++ [r]) m c' /\
    forall m', m' <> m -> same_entry m' c c'.
Proof.
  intros Hl ((samples & Hs & Hlarge) & (p & Hp & Hc) & Hmax & Hsum).
  destruct (AddToSamples_largest (metric m) _ r rs samples Hl Hlarge) as (samples' & Ea & Hlarge').
  destruct (AddValue_counted _ _ (metric m r) Hc) as (p' & Ep & Hc').
  unfold receive_metric, bind_some. rewrite Hs. cbn [default from_option id].
  rewrite Ea, go_bind_ret, Hp, Ep, go_bind_ret. eexists. split; [reflexivity|]. split; [done|]. split.
  - split; [exists samples'; split; [apply lookup_insert_eq|done]|]. rewrite !fmap_app.
    split; [exists p'; split; [apply lookup_insert_eq|done]|].
    unfold max_of, sum_of in *. rewrite !foldl_app, <- Hmax, <- Hsum.
    split; (etrans; [apply (f_equal (default zero)), lookup_insert_eq|done]).
  - intros m' Hm. split_and!; apply lookup_insert_ne; congruence.
Qed.

Lemma receive_metrics_ok o sub r rs ms : 0 <= sample_limit o sub -> forall c, NoDup ms.*1 ->
  (forall m, (m, true) ∈ ms -> metric_state o sub rs m c) ->
  exists c', receive_metrics o sub r ms c = Ret (Some c') /\ same_head c c' /\
    (forall m, (m, true) ∈ ms -> metric_state o sub (rs ++ [r]) m c') /\
    (forall m, m ∉ ms.*1 -> same_entry m c c').
Proof.
  intros Hl. induction ms as [|[m on] ms IH]; intros c Hn Hms; cbn [receive_metrics].
  { exists c. split; [done|]. split; [done|]. split; [by intros m []%not_elem_of_nil|done]. }
  rewrite fmap_cons in Hn. apply NoDup_cons in Hn as [Hm Hn]. cbn [fst] in Hm.
  assert (exists c1, (if on then receive_metric o sub r m c else Ret (Some c)) = Ret (Some c1) /\ same_head c c1 /\
    (on = true -> metric_state o sub (rs ++ [r]) m c1) /\ forall m', m' <> m -> same_entry m' c c1)
    as (c1 & -> & Hh & Hs & Ho).
  { destruct on; [|by exists c]. destruct (receive_metric_ok o sub r rs m c Hl) as (c1 & E & Hh & Hs & Ho);
      [apply Hms; by left|]. by exists c1. }
  unfold bind_some at 1. rewrite go_bind_ret.
  assert (forall m', (m', true) ∈ ms -> m' <> m) as Hne.
  { intros m' Hin ->. apply Hm, list_elem_of_fmap. by exists (m, true). }
  destruct (IH c1 Hn) as (c' & -> & Hh' & Hs' & Ho').
  { intros m' Hin. apply (same_entry_state o sub rs m' c); [by apply Ho, Hne|apply Hms; by right]. }
  exists c'. split; [done|]. split.
  { unfold same_head in *. by destruct Hh as (<- & <- & <- & <- & <- & <- & <-). }
  split.
  - intros m' [E|Hin]%elem_of_cons; [|by apply Hs']. injection E as -> <-.
    apply (same_entry_state o sub _ m c1); [by apply Ho'|by apply Hs].
  - intros m'. rewrite fmap_cons, not_elem_of_cons. intros [Hm1 Hm2].
    specialize (Ho m' Hm1). specialize (Ho' m' Hm2). unfold same_entry in *.
    by destruct Ho as (<- & <- & <- & <-).
Qed.

Lemma enabled_listed o m : enabled o m = true <-> (m, true) ∈ map_to_list (EnabledMetricTypeSet o).
Proof.
  rewrite elem_of_map_to_list. unfold enabled. destruct (EnabledMetricTypeSet o !! m) as [ []|]; cbn; split; congruence.
Qed.

Lemma receive_describes o r id rs a : 0 <= sample_limit o (isSub a) -> describes o (isSub a) id rs (stat a) ->
  exists a', receive o r a = Ret (Some a') /\ isSub a' = isSub a /\ describes o (isSub a) id (rs ++ [r]) (stat a') /\
    HumanReadbleClassId (stat a') = HumanReadbleClassId (stat a).
Proof.
  intros Hl [Hc Hf Hs Hi Hm]. unfold receive.
  set (c := (if failed r then _ else _) <| stat_Side := _ |>).
  assert (Count c = zlen rs + 1 /\ FailedCount c = zlen (filter (fun r => failed r = true) (rs ++ [r])) /\
    stat_Side c = cd_Side (ar_ConnDesc r) /\ ClassId c = ClassId (stat a) /\ IsSub c = IsSub (stat a) /\
    stat_ClassfierType c = stat_ClassfierType (stat a) /\ HumanReadbleClassId c = HumanReadbleClassId (stat a) /\
    forall m, same_entry m (stat a) c) as (C1 & C2 & C3 & C4 & C5 & C6 & C7 & C8).
  { rewrite filter_app, zlen_app. unfold c. destruct (failed r) eqn:E.
    - rewrite filter_cons_True by done. split_and!; try done; [change (1 + Count (stat a) = zlen rs + 1); lia|].
      change (1 + FailedCount (stat a) = zlen (filter (fun r => failed r = true) rs) + 1). lia.
    - rewrite filter_cons_False by (by rewrite E). split_and!; try done; [change (1 + Count (stat a) = zlen rs + 1); lia|].
      change (FailedCount (stat a) = zlen (filter (fun r => failed r = true) rs) + 0). lia. }
  destruct (receive_metrics_ok o (isSub a) r rs (map_to_list (EnabledMetricTypeSet o)) Hl c) as (c' & -> & Hh & Hm' & _).
  - apply NoDup_fst_map_to_list.
  - intros m Hin. apply (same_entry_state o (isSub a) rs m (stat a)); [done|]. by apply Hm, enabled_listed.
  - unfold bind_some. rewrite go_bind_ret. destruct Hh as (D1 & D2 & D3 & D4 & D5 & D6 & D7).
    eexists. split; [done|]. split; [done|]. cbn [stat]. split; [|by rewrite D7, C7].
    split; rewrite ?D1, ?D2, ?D3, ?D4, ?D5, ?D6, ?C1, ?C2, ?C3, ?C4, ?C5, ?C6; try done.
    + by rewrite zlen_app.
    + by rewrite last_snoc.
    + intros m Hen. by apply Hm', enabled_listed.
Qed.

Lemma new_describes o id human sub : 0 <= sample_limit o sub ->
  describes o sub id [] (stat (createAggregatorWithHumanReadableClassId human id o sub)) /\
  describes o sub id [] (stat (createAggregator id o sub)).
Proof.
  intros Hl. assert (forall c, SamplesMap c = SamplesMap (stat (createAggregator id o sub)) ->
    PercentileCalculators c = PercentileCalculators (stat (createAggregator id o sub)) ->
    MaxMap c = ∅ -> SumMap c = ∅ -> forall m, enabled o m = true -> metric_state o sub [] m c) as Hm.
  { intros c E1 E2 E3 E4 m Hen. unfold metric_state. rewrite E1, E2, E3, E4. cbn [stat createAggregator SamplesMap PercentileCalculators].
    assert (filter (fun kv : MetricType * bool => kv.2 = true) (EnabledMetricTypeSet o) !! m = Some true) as Hf.
    { apply map_lookup_filter_Some. split; [|done]. unfold enabled in Hen. by destruct (EnabledMetricTypeSet o !! m) as [ []|]. }
    rewrite !lookup_fmap, Hf, !lookup_empty. cbn. split; [|split; [|done] ].
    - exists []. split; [done|by apply largest_nil].
    - eexists. split; [done|apply counted_nil]. }
  split; (split; [done|done|done|by destruct sub|by apply Hm]).
Qed.

(** ** Which records belong to which class *)

(** The class a record has, and the name it gives to it. *)
Definition class_of (o : AnalysisOptions) (t : ClassfierType) (r : record) : list Z :=
  default [] ((fun f => f r) <$> classfierMap (GetClassfierType t o r)).
Definition name_of (o : AnalysisOptions) (sub : bool) (r : record) : list Z :=
  default [] ((fun f => f r) <$>
    classIdHumanReadableMap (if sub then GetClassfierType (SubClassfierType o) o r else opt_ClassfierType o)).

Definition has_sub (o : AnalysisOptions) : bool :=
  match SubClassfierType o with Classfier.None | Classfier.Default => false | _ => true end.

(** A record is posted to its class and to its class inside the class. *)
Record posting := mk_posting { post_id : list Z; post_sub : bool; post_record : record }.
Definition postings_of (o : AnalysisOptions) (r : record) : list posting :=
  let class := class_of o (opt_ClassfierType o) r in
  mk_posting class false r ::
  (if has_sub o then [mk_posting (class ++ separator ++ class_of o (SubClassfierType o) r) true r] else []).
Definition postings (o : AnalysisOptions) (rs : list record) : list posting := rs ≫= postings_of o.

(** The aggregators [t] hold what was posted: a class has an aggregator when something
    was posted to it, which describes the records posted to it. *)
Definition table_of (o : AnalysisOptions) (ps : list posting) (t : gmap (list Z) aggregator) : Prop :=
  forall id, match filter (fun p => post_id p = id) ps with
  | [] => t !! id = None
  | (first :: _) as mine =>
    exists a, t !! id = Some a /\ isSub a = post_sub first /\
      describes o (post_sub first) id (post_record <$> mine) (stat a) /\
      HumanReadbleClassId (stat a) = name_of o (post_sub first) (post_record first)
  end.

(** Options the analysis can work with: as [Init] leaves them, and with protocols mapped
    to classes that have names. *)
Definition options_ok (o : AnalysisOptions) : Prop :=
  opt_ClassfierType o <> Classfier.Default /\ 0 <= SampleLimit o /\
  forall p c, ProtocolSpecificClassfiers o !! p = Some c -> is_Some (classIdHumanReadableMap (M := M) c).

Lemma limit_nonneg o sub : options_ok o -> 0 <= sample_limit o sub.
Proof. intros (_ & ? & _). unfold sample_limit. destruct (_ || _); lia. Qed.

Lemma named_classified (c : ClassfierType) :
  is_Some (classIdHumanReadableMap (M := M) c) -> is_Some (classfierMap (M := M) c).
Proof. destruct c; intros [f Hf]; done || eauto. Qed.

Lemma getClassfier_total o t r : options_ok o -> t <> Classfier.Default ->
  exists f, getClassfier t o = Some f /\ f r = Ret (class_of o t r).
Proof.
  intros (_ & _ & Hp) Ht. unfold getClassfier, class_of, GetClassfierType. case_decide as E.
  - eexists. split; [done|]. cbv beta. destruct (ProtocolSpecificClassfiers o !! _) as [c|] eqn:Ec; cbn [default from_option id]; [|done].
    destruct (named_classified c (Hp _ _ Ec)) as [f Hf]. unfold call. by rewrite Hf.
  - destruct t; try done; eexists; (split; [reflexivity|done]).
Qed.

Lemma human_total o r : options_ok o -> has_sub o = true ->
  match getClassIdHumanReadableFunc (SubClassfierType o) o with
  | Some f => f r = Ret (name_of o true r)
  | None => name_of o true r = []
  end.
Proof.
  intros (_ & _ & Hp) Hs. unfold getClassIdHumanReadableFunc, name_of, GetClassfierType. case_decide as E.
  - cbv beta. destruct (ProtocolSpecificClassfiers o !! _) as [c|] eqn:Ec; cbn [default from_option id]; [|done].
    destruct (Hp _ _ Ec) as [f Hf]. unfold call. by rewrite Hf.
  - destruct (SubClassfierType o); done.
Qed.

(** One posting: the aggregator is found or created, and receives the record. *)
Lemma post_ok o human id sub r ps t : options_ok o -> table_of o ps t ->
  match human with Some f => f r = Ret (name_of o sub r) | None => name_of o sub r = [] end ->
  exists a a', find_or_create o human id sub r t = Ret a /\ receive o r a = Ret (Some a') /\
    table_of o (ps ++ [mk_posting id sub r]) (<[id := a']> t).
Proof.
  intros Ho Ht Hh. pose proof (Ht id) as Hid.
  assert (exists a first rest, find_or_create o human id sub r t = Ret a /\
    filter (fun p => post_id p = id) (ps ++ [mk_posting id sub r]) = first :: rest /\ isSub a = post_sub first /\
    describes o (post_sub first) id (post_record <$> filter (fun p => post_id p = id) ps) (stat a) /\
    HumanReadbleClassId (stat a) = name_of o (post_sub first) (post_record first))
    as (a & first & rest & Ha & Hf & Hsub & Hd & Hn).
  { rewrite filter_app, filter_cons_True by done. unfold find_or_create.
    destruct (filter (fun p => post_id p = id) ps) as [|first rest] eqn:E.
    - rewrite Hid. destruct (new_describes o id (name_of o sub r) sub (limit_nonneg o sub Ho)) as [D1 D2].
      destruct human as [f|].
      + rewrite Hh, go_bind_ret. by eexists _, _, _.
      + by eexists _, _, _.
    - destruct Hid as (a & Hta & Hs & Hd & Hn). rewrite Hta. exists a, first, (rest ++ [mk_posting id sub r]). split_and!; done. }
  rewrite <- Hsub in Hd.
  destruct (receive_describes o r id _ a (limit_nonneg o _ Ho) Hd) as (a' & Er & Hs' & Hd' & Hn').
  exists a, a'. split; [done|]. split; [done|]. intros id'. destruct (decide (id' = id)) as [->|Hne].
  - rewrite Hf, lookup_insert_eq. exists a'. split; [done|]. split; [by rewrite Hs'|]. split; [|by rewrite Hn', Hn].
    rewrite <- Hsub, <- Hf, filter_app, fmap_app. by rewrite (filter_cons_True _ (mk_posting id sub r)) by done.
  - rewrite filter_app, filter_cons_False by done. rewrite lookup_insert_ne by done.
    rewrite filter_nil, app_nil_r. apply Ht.
Qed.

Lemma analyze_ok o r ps t : options_ok o -> table_of o ps t ->
  exists t', analyze o r t = Ret (Some t') /\ table_of o (ps ++ postings_of o r) t'.
Proof.
  intros Ho Ht. unfold analyze, postings_of.
  destruct (getClassfier_total o (opt_ClassfierType o) r Ho (proj1 Ho)) as (f & -> & ->). rewrite go_bind_ret.
  set (class := class_of o (opt_ClassfierType o) r).
  destruct (post_ok o ((fun f ar => Ret (f ar)) <$> classIdHumanReadableMap (opt_ClassfierType o)) class false r ps t Ho Ht)
    as (a & a' & -> & Er & Ht').
  { unfold name_of. by destruct (opt_ClassfierType o). }
  rewrite go_bind_ret, Er. unfold bind_some at 1. rewrite go_bind_ret. cbv zeta.
  assert (has_sub o = false -> (if decide (SubClassfierType o = Classfier.None) then None
    else getClassfier (M := M) (SubClassfierType o) o) = None) as Hno by (unfold has_sub; by destruct (SubClassfierType o)).
  destruct (has_sub o) eqn:Hs; [|by rewrite Hno by done; eexists].
  rewrite decide_False by (by intros E; unfold has_sub in Hs; rewrite E in Hs).
  destruct (getClassfier_total o (SubClassfierType o) r Ho) as (g & -> & ->);
    [by intros E; unfold has_sub in Hs; rewrite E in Hs|]. rewrite go_bind_ret.
  destruct (post_ok o (getClassIdHumanReadableFunc (SubClassfierType o) o) (class ++ separator ++ class_of o (SubClassfierType o) r)
    true r (ps ++ [mk_posting class false r]) _ Ho Ht') as (b & b' & -> & Er' & Ht'').
  { by apply human_total. }
  rewrite go_bind_ret, Er'. unfold bind_some. rewrite go_bind_ret. eexists. split; [done|].
  by rewrite <- app_assoc in Ht''.
Qed.

(** ** Reports *)

(** The statistics of all classes of the records [rs]. *)
Definition report_of (o : AnalysisOptions) (rs : list record) (result : list ConnStat) : Prop :=
  exists t, table_of o (postings o rs) t /\ result = (fun kv => stat kv.2) <$> map_to_list t.

(** The records received before each report. *)
Fixpoint reported (o : AnalysisOptions) (inputs : list run_input) (seen : list record) : list (list record) :=
  match inputs with
  | [] | CtxDone :: _ => []
  | InRecord r :: inputs => reported o inputs (seen ++ [r])
  | HavestSignal :: inputs => seen :: (if EnableBatchModel o then [] else reported o inputs seen)
  | Tick :: inputs => if EnableBatchModel o then reported o inputs seen else seen :: reported o inputs seen
  end.

Lemma Init_spec o :
  opt_ClassfierType (Init o) <> Classfier.Default /\ 1 <= SampleLimit (Init o) /\
  CleanWhenHarvest (Init o) = EnableBatchModel (Init o) /\
  ProtocolSpecificClassfiers (Init o) = ProtocolSpecificClassfiers o /\ SubClassfierType (Init o) = SubClassfierType o.
Proof.
  destruct o as [ms lim cl sub prot clean tl slow bigr bigq]. unfold Init. cbn [SampleLimit].
  destruct (Z.leb_spec lim 0) as [?|Hl], slow, bigq, bigr, cl; split_and!; try done; change (1 <= lim); lia.
Qed.

Lemma Run_reports o inputs : options_ok o -> CleanWhenHarvest o = EnableBatchModel o -> forall seen a,
  table_of o (postings o seen) (Aggregators a) ->
  exists results a', Run o inputs a = Ret (Some (results, a')) /\ Forall2 (report_of o) (reported o inputs seen) results.
Proof.
  intros Ho Hclean. induction inputs as [|[|r| |] inputs IH]; intros seen a Ha; cbn [Run reported];
    [by eexists _, _|by eexists _, _| | |].
  - destruct (analyze_ok o r _ _ Ho Ha) as (t & -> & Ht). unfold bind_some at 1. rewrite go_bind_ret.
    apply IH. cbn [Aggregators]. unfold postings. by rewrite bind_app, bind_singleton.
  - cbn [harvest]. destruct (EnableBatchModel o) eqn:Eb; [by eexists _, _; split; [done|]; repeat constructor; eexists|].
    rewrite Hclean. destruct (IH seen a Ha) as (results & a' & -> & Hr). unfold bind_some. rewrite go_bind_ret.
    eexists _, _. split; [done|]. constructor; [by eexists|done].
  - cbn [harvest]. destruct (EnableBatchModel o) eqn:Eb; [by apply IH|].
    rewrite Hclean. destruct (IH seen a Ha) as (results & a' & -> & Hr). unfold bind_some. rewrite go_bind_ret.
    eexists _, _. split; [done|]. constructor; [by eexists|done].
Qed.


End Analysis.
