(* ===== verification/Reports.v ===== *)
(** * What the reports show

    Consequences of how the values of the reports are computed: durations go through an
    [int32], percentiles through a [float32], and a status that is not a success counts as
    a failure. *)

From stdpp Require Import gmap list sorting strings.
From Stdlib Require Import ZArith Lia Floats.SpecFloat.
From S2P Require Import Prelude.
From S2P Require Import Types.
From S2P Require Import GoBase.
From S2P Require Import StreamBuffer.
From S2P Require Import Protocol.
From S2P Require Import AgentConn.
From S2P Require Import ConnManager.
From S2P Require Import Stat.
From S2P Require Import Records.
From S2P Require Import Redis.
From S2P Require Import Samples.
From S2P Require Import Percentile.
From S2P Require Import Classify.
From S2P Require Import Analysis.
Local Open Scope Z_scope.
Local Open Scope model_scope.

(** ** Signs *)

Lemma shr_nonneg mrs p : 0 <= shr_m mrs -> 0 <= shr_m (iter_pos shr_1 p mrs).
Proof.
  revert mrs. induction p as [p IH|p IH|]; intros mrs Hm; cbn [iter_pos]; [apply IH, IH|by apply IH, IH|];
    destruct mrs as [ [|[m|m|]|m] r s]; cbn in *; lia.
Qed.

Lemma shr_fexp_nonneg prec emax m e l : 0 <= m -> 0 <= shr_m (shr_fexp prec emax m e l).1.
Proof.
  intros Hm. unfold shr_fexp, shr.
  assert (0 <= shr_m (shr_record_of_loc m l)) by (by destruct l as [|[] ]).
  destruct (fexp _ _ _ - e); [done|by apply shr_nonneg|done].
Qed.

(** A rounded value that is not negative and not NaN. *)
Definition nonneg_float (x : spec_float) : Prop := 0 <= (frank x).1.1.

Lemma round_nonneg prec emax m e l : 0 <= m -> nonneg_float (binary_round_aux prec emax false m e l).
Proof.
  intros Hm. unfold binary_round_aux.
  pose proof (shr_fexp_nonneg prec emax m e l Hm) as H1. destruct (shr_fexp prec emax m e l) as [mrs e1]. cbn [fst] in H1.
  assert (0 <= round_nearest_even (shr_m mrs) (loc_of_shr_record mrs)) as H2.
  { unfold round_nearest_even. destruct (loc_of_shr_record mrs) as [|[] ]; try (destruct (Z.even _)); lia. }
  pose proof (shr_fexp_nonneg prec emax _ e1 loc_Exact H2) as H3. destruct (shr_fexp prec emax _ e1 loc_Exact) as [mrs' e2].
  cbn [fst] in H3. destruct (shr_m mrs') as [|q|q]; [done| |lia]. unfold nonneg_float. by destruct (e2 <=? _).
Qed.

Lemma float64_nonneg z : 0 <= z -> nonneg_float (float64 z).
Proof.
  intros Hz. unfold float64, binary_normalize. destruct z as [|z|z]; [done| |lia].
  unfold binary_round. destruct (shl_align _ _ _) as [m e]. by apply round_nonneg.
Qed.

Lemma NanoToMills_nonneg z : 0 <= z -> nonneg_float (NanoToMills z).
Proof.
  intros Hz. unfold NanoToMills, fdiv. pose proof (float64_nonneg z Hz) as Hf.
  replace (float64 1000000) with (S754_finite false 8589934592000000 (-33)) by (vm_compute; reflexivity).
  destruct (float64 z) as [s|[]| |[] m e]; try done; cbn [SFdiv]. unfold SFdiv_core_binary.
  set (m' := match _ with Z0 => _ | _ => _ end).
  assert (0 <= m') as Hm by (unfold m'; destruct (_ - _ - _); [done|by apply Z.shiftl_nonneg|done]).
  pose proof (Z.div_pos m' (Z.pos 8589934592000000) Hm ltac:(done)) as Hq. unfold Z.div in Hq.
  destruct (Z.div_eucl m' (Z.pos 8589934592000000)) as [q r]. by apply round_nonneg.
Qed.

(** ** Slow requests *)

Section Slow.
Context {M : Type} `{ParsedMessage M} `{!MessageKinds M}.
Abbreviation record := (AnnotatedRecord (M := M)).

(** The conversion instruction of amd64 answers the least [int32] to what is out of
    range. *)
Definition amd64_int32_overflow (x : Z) : Z := -2147483648.
Abbreviation duration := (GetMetricExtractFunc (M := M) amd64_int32_overflow Metric.TotalDuration).

Lemma slow_below (slow quick : record) :
  2147483648 <= TotalDuration slow -> 0 <= TotalDuration quick < 2147483648 ->
  fle (duration slow) (duration quick) /\ ~ fle (duration quick) (duration slow).
Proof.
  intros Hs Hq. cbn [GetMetricExtractFunc]. unfold GetTotalDurationMills, int32_of.
  rewrite (proj2 (Z.ltb_ge (TotalDuration slow) _)), andb_false_r by lia.
  rewrite (proj2 (Z.leb_le _ (TotalDuration quick))), (proj2 (Z.ltb_lt (TotalDuration quick) _)) by lia. cbn [andb].
  pose proof (NanoToMills_nonneg (TotalDuration quick) ltac:(lia)) as Hn. unfold nonneg_float in Hn.
  assert ((frank (NanoToMills (amd64_int32_overflow (TotalDuration slow)))).1.1 = -1) as Hr by (vm_compute; reflexivity).
  rewrite !fle_rank. unfold rank_lt. rewrite Hr. lia.
Qed.

(** C37: the slowest requests are not among the samples.  A duration is counted in
    nanoseconds and passed through an [int32], so on amd64 one of more than 2.147 seconds
    becomes the least of all values.  Once there are as many samples as may be kept of
    requests that took less, such a request is turned away, however slow it was: the mode
    that looks for slow requests shows the quick ones. *)
Theorem slow_request_not_sampled (samples : list record) (slow : record)
    (Hsorted : StronglySorted (key_le duration) samples)
    (Hquick : Forall (fun r => 0 <= TotalDuration r < 2147483648) samples)
    (Hslow : 2147483648 <= TotalDuration slow) :
  Forall (fun r => TotalDuration r < TotalDuration slow) samples /\
  AddToSamples duration samples slow (zlen samples) = Ret (Some samples).
Proof.
  split; [by eapply Forall_impl; [done|]; cbn; lia|].
  destruct (BinarySearchFunc_ok duration slow samples Hsorted) as (k & Hb & Hk & Hlo & _).
  unfold AddToSamples. rewrite Hb, go_bind_ret, Z.eqb_refl.
  assert (k = 0) as ->; [|done]. destruct samples as [|a samples]; [unfold zlen in Hk; cbn in Hk; lia|].
  destruct (Z.to_nat k) as [|n] eqn:E; [lia|]. cbn [take] in Hlo. apply Forall_cons in Hlo as [Ha _].
  apply Forall_cons in Hquick as [Hq _]. destruct (slow_below slow a Hslow Hq) as [Hle _]. done.
Qed.

End Slow.

(** ** Percentiles *)

(** The 99th percentile of a hundred values is that of the largest: 0.99 as a [float32] is
    above 0.99. *)
Lemma p99_takes_largest int_overflow (p : PercentileCalculator) : totalValues p = 100 ->
  percentile_index int_overflow p (float64_of (percent P99)) = 100 /\
  percentile_index int_overflow p (fdiv (float64 99) (float64 100)) = 99.
Proof. intros Hp. unfold percentile_index. rewrite Hp. split; vm_compute; reflexivity. Qed.

(** ** Failures *)

#[export] Instance redis_kinds : MessageKinds RedisMessage := {|
  as_StatusfulMessage m := Some (status m);
  as_ParsedHttpRequest _ := None;
  as_RedisMessage m := Some (command m);
|}.

(** Every Redis reply that is an array counts as a failure. *)
Lemma array_reply_counts_as_failed (r : AnnotatedRecord (M := RedisMessage)) vs :
  status (Resp (ar_Record r)) = status_of (RArray vs) -> failed r = true.
Proof. intros E. unfold failed. cbn [as_StatusfulMessage redis_kinds]. by rewrite E. Qed.

(** ** Witnesses *)

Definition redis_msg (t n q : Z) (cmd : string) (req : bool) (st : ResponseStatus) : RedisMessage :=
  mk_RedisMessage (mk_FrameBase t n q) [] (bytes cmd) req st.

(** A request of a client at 10.0.0.[host], of some size and duration. *)
Definition redis_annotated (host : Z) (cmd : string) (size duration : Z) (st : ResponseStatus)
    : AnnotatedRecord (M := RedisMessage) :=
  mk_AnnotatedRecord (mk_ConnDesc 6379 [10; 0; 0; host] [10; 0; 0; 1] 40000 8 77 ClientSide false)
    (mk_Record (redis_msg 1000 size 1 cmd true NoneStatus) (redis_msg 2000 8 1 "" false st))
    1000 (1000 + duration) 0 0 size 8 duration (-1) 0 (-1) [] [] [] [].

Lemma slow_request_not_sampled_witness :
  AddToSamples (GetMetricExtractFunc amd64_int32_overflow Metric.TotalDuration)
    [redis_annotated 2 "GET" 10 1000000 SuccessStatus; redis_annotated 2 "SET" 10 2000000 SuccessStatus]
    (redis_annotated 2 "KEYS" 10 5000000000 NoneStatus) 2 =
  Ret (Some [redis_annotated 2 "GET" 10 1000000 SuccessStatus; redis_annotated 2 "SET" 10 2000000 SuccessStatus]).
Proof.
  refine (proj2 (slow_request_not_sampled
    [redis_annotated 2 "GET" 10 1000000 SuccessStatus; redis_annotated 2 "SET" 10 2000000 SuccessStatus]
    (redis_annotated 2 "KEYS" 10 5000000000 NoneStatus) _ _ _)).
  - repeat constructor; vm_compute; discriminate.
  - repeat constructor; vm_compute; discriminate || reflexivity.
  - vm_compute. discriminate.
Defined.

(** By host, and inside a host by command: three requests to two hosts. *)
Definition example_options : AnalysisOptions :=
  mk_AnalysisOptions {[Metric.TotalDuration := true]} 0 Classfier.RemoteIp Classfier.ProtocolAdaptive
    {[2 := Classfier.HttpPath; 8 := Classfier.RedisCommand]} false 0 false false false.
Definition example_inputs' : list run_input :=
  [InRecord (redis_annotated 2 "GET" 10 1000000 SuccessStatus); InRecord (redis_annotated 3 "GET" 10 2000000 FailStatus);
   InRecord (redis_annotated 2 "GET" 10 3000000 SuccessStatus); HavestSignal].

