(* ===== verification/Dns.v ===== *)
(** * The DNS parser

    [src/agent/protocol/dns]: [ParseStream] makes one message of everything in the first run
    of the buffer, [FindBoundary] finds nothing, and [Match] pairs requests and responses by
    their transaction numbers ([dns.go]); frames ([type.go]) and the filter ([filter.go]).

    - The package [github.com/miekg/dns], which takes a message apart, is not part of the
      repository: [Unpack] is a parameter.  A resource record is an interface; [rr_A] and
      [rr_AAAA] are what the type assertions see of it.  The package gives a record of type
      A or AAAA the corresponding Go type ([well_typed]).
    - The queues hold pointers: [Match] sets [Consumed] of a request in the queue, and of the
      same request in the record. *)

From stdpp Require Import gmap list sorting strings.
From Stdlib Require Import ZArith Lia.
From S2P Require Import Prelude.
From S2P Require Import Types.
From S2P Require Import GoBase.
From S2P Require Import StreamBuffer.
From S2P Require Import Protocol.
From S2P Require Import Mysql.
From S2P Require Import Redis.
From S2P Require Import Classify.
Local Open Scope Z_scope.
Local Open Scope model_scope.

(** ** Messages *)

Record DNSHeader := mk_DNSHeader {
  TXID : Z; Flags : Z; NumQueries : Z; NumAnswers : Z; NumAuth : Z; NumAddl : Z;
}.
Definition sizeof_DNSHeader : Z := 12.

Record DNSRecord := mk_DNSRecord { dns_Name : list Z; dns_CName : list Z; dns_Type : Z }.

Record Frame := mk_Frame {
  dns_frame : FrameBase;
  Header : DNSHeader;
  Records : list DNSRecord;
  Consumed : bool;
  RecordsSize : Z;
  IsRequest : bool;
}.
#[export] Instance eta_Frame : Eta Frame := fun f =>
  mk_Frame (dns_frame f) (Header f) (Records f) (Consumed f) (RecordsSize f) (IsRequest f).

#[export] Instance dns_message : ParsedMessage Frame := {|
  TimestampNs f := timestampNs (dns_frame f);
  ByteSize f := byteSize (dns_frame f);
  IsReq := IsRequest;
  MsgSeq f := frame_seq (dns_frame f);
  StreamId _ := 0;
|}.

Definition ExtractDNSFlag (flags pos width : Z) : Z := Z.land (Z.shiftr flags pos) (Z.shiftl 1 width - 1).

Definition AddRecords (f : Frame) (records : list DNSRecord) : Frame :=
  f <| RecordsSize := foldl (fun n r => s64 (n + (zlen (dns_Name r) + zlen (dns_CName r)))) (RecordsSize f) records |>
    <| Records ::= fun l => l ++ records |>.

(** ** Parsing *)

(** What [dns.Msg] holds of the questions and the answers. *)
Record dns_RR := mk_dns_RR {
  rr_Name : list Z; Rrtype : Z; rr_A : option (list Z); rr_AAAA : option (list Z); rr_String : list Z;
}.
Record dns_Msg := mk_dns_Msg { Question : list (list Z * Z); Answer : list dns_RR }.
Definition TypeA : Z := 1.
Definition TypeAAAA : Z := 28.

(** [ExtractBEInt[uint16]] *)
Definition ExtractBEInt_uint16 : dec Z := fun d =>
  if zlen (dec_str d) <? 2 then Ret (inl ResourceNotAvailble)
  else
    b0 ← index (dec_str d) 0;
    b1 ← index (dec_str d) 1;
    str ← slice_from (dec_str d) 2;
    Ret (inr (Z.lor b1 (u16 (Z.shiftl (Z.lor b0 (u16 (Z.shiftl 0 8))) 8)), mk_BinaryDecoder (dec_buf d) str (readBytes d + 2))).

Definition extract_header : dec DNSHeader :=
  txid ← ExtractBEInt_uint16; flags ← ExtractBEInt_uint16; queries ← ExtractBEInt_uint16;
  answers ← ExtractBEInt_uint16; auth ← ExtractBEInt_uint16; addl ← ExtractBEInt_uint16;
  mret (mk_DNSHeader txid flags queries answers auth addl).

(** The text of an answer; an assertion of the wrong type panics. *)
Definition answer_text (a : dns_RR) : go (list Z) :=
  if Rrtype a =? TypeA then match rr_A a with Some ip => Ret (IP_String ip) | None => Panic end
  else if Rrtype a =? TypeAAAA then match rr_AAAA a with Some ip => Ret (IP_String ip) | None => Panic end
  else Ret (rr_String a).

Fixpoint add_answers (f : Frame) (l : list dns_RR) : go Frame :=
  match l with
  | [] => Ret f
  | a :: l =>
    text ← answer_text a;
    add_answers (AddRecords f [mk_DNSRecord (rr_Name a) text (Rrtype a)]) l
  end.

Definition add_questions (f : Frame) (l : list (list Z * Z)) : Frame :=
  foldl (fun f q => AddRecords f [mk_DNSRecord q.1 [] q.2]) f l.

Section Parser.
Context {T : Type} `{TreeMap T}.
Variable Unpack : list Z -> option dns_Msg.

Definition dns_ParseStream (sb : StreamBuffer T) (messageType : MessageType) : go (ParseResult Frame) :=
  match Head sb with
  | None => Panic
  | Some h =>
    match Unpack (buf h) with
    | None => Ret (just Invalid)
    | Some m =>
      if zlen (buf h) <? sizeof_DNSHeader then Ret (just NeedsMoreData)
      else
        r ← extract_header (NewBinaryDecoder (buf h));
        match r with
        | inl _ => Ret (just Invalid)
        | inr (header, _) =>
          let frame := mk_Frame (mk_FrameBase 0 0 0) header [] false 0 false in
          frame ← add_answers (add_questions frame (Question m)) (Answer m);
          let frame := frame <| IsRequest := bool_decide (messageType = Request) |> in
          fb ← CreateFrameBase sb (zlen (buf h));
          Ret (match fb with
               | None => just Invalid
               | Some fb => mk_ParseResult Success [frame <| dns_frame := fb |>] (zlen (buf h))
               end)
        end
    end
  end.

Definition dns_FindBoundary (sb : StreamBuffer T) (messageType : MessageType) (startPos : Z) : Z := -1.

Definition dns_parser : ProtocolStreamParser T unit Frame := {|
  ParseStream p sb mt := r ← dns_ParseStream sb mt; Ret (r, p);
  FindBoundary _ sb mt start := Ret (dns_FindBoundary sb mt start);
|}.
End Parser.

(** ** Matching *)

Definition consume (f : Frame) : Frame := f <| Consumed := true |>.

(** The loop over the requests: where the first is that has the number of the response. *)
Fixpoint find_request (resp : Frame) (reqs : list Frame) : option nat :=
  match reqs with
  | [] => None
  | req :: reqs =>
    if TimestampNs req >? TimestampNs resp then None
    else if TXID (Header req) =? TXID (Header resp) then Some O
    else S <$> find_request resp reqs
  end.

(** The requests at the head that have been answered are taken off. *)
Fixpoint drop_consumed (reqs : list Frame) : list Frame :=
  match reqs with
  | [] => []
  | req :: reqs' => if Consumed req then drop_consumed reqs' else reqs
  end.

Definition processReqRespPair (req resp : Frame) : Record_ Frame := mk_Record req resp.

Fixpoint match_responses (resps reqs : list Frame) : list (Record_ Frame) * list Frame :=
  match resps with
  | [] => ([], reqs)
  | resp :: resps =>
    match find_request resp reqs ≫= fun i => (fun req => (i, req)) <$> reqs !! i with
    | Some (i, req) =>
      let '(rs, rest) := match_responses resps (drop_consumed (<[i := consume req]> reqs)) in
      (processReqRespPair (consume req) resp :: rs, rest)
    | None => match_responses resps (drop_consumed reqs)
    end
  end.

Definition dns_Match (reqStreams respStreams : queues Frame) : list (Record_ Frame) * queues Frame * queues Frame :=
  match reqStreams !! 0, respStreams !! 0 with
  | Some ((_ :: _) as reqStream), Some ((_ :: _) as respStream) =>
    let '(records, rest) := match_responses respStream reqStream in
    (records, <[0 := rest]> reqStreams, <[0 := []]> respStreams)
  | _, _ => ([], reqStreams, respStreams)
  end.

#[export] Instance dns_matcher : MessageMatcher unit Frame := {|
  Match p reqs resps := let '(records, reqs, resps) := dns_Match reqs resps in Ret (records, reqs, resps, p);
|}.
#[export] Instance dns_matcher_laws : MatcherLaws unit Frame.
Proof. split. intros p reqs resps. cbn. destruct (dns_Match reqs resps) as [ [? ?] ?]. by eexists. Qed.

(** ** The filter *)

(** [DnsFilter.Filter], which panics without a request. *)
Definition dns_Filter (targetHost : list Z) (req : option Frame) : go bool :=
  match req with
  | None => Panic
  | Some f =>
    Ret (bool_decide (targetHost = []) ||
      existsb (fun r => bool_decide (take (length targetHost) (dns_Name r) = targetHost)) (Records f))
  end.
Definition dns_FilterByProtocol (p : traffic_protocol_t) : bool := bool_decide (p = kProtocolDNS).

(** ** The laws of the interface *)

Definition well_typed (a : dns_RR) : Prop :=
  (Rrtype a = TypeA -> is_Some (rr_A a)) /\ (Rrtype a = TypeAAAA -> is_Some (rr_AAAA a)).

Lemma add_answers_total l : forall f, Forall well_typed l -> exists f', add_answers f l = Ret f'.
Proof.
  induction l as [|a l IH]; intros f Hl; [by eexists|]. apply Forall_cons in Hl as [ [Ha Hb] Hl].
  assert (exists text, answer_text a = Ret text) as [text E].
  { unfold answer_text. destruct (Z.eqb_spec (Rrtype a) TypeA) as [E1|_]; [destruct (Ha E1) as [ip ->]; by eexists|].
    destruct (Z.eqb_spec (Rrtype a) TypeAAAA) as [E2|_]; [destruct (Hb E2) as [ip ->]; by eexists|by eexists]. }
  cbn [add_answers]. rewrite E, go_bind_ret. by apply IH.
Qed.

(** The two bytes of a number. *)
Lemma extract_uint16 d b0 b1 str : dec_str d = b0 :: b1 :: str ->
  exists x, ExtractBEInt_uint16 d = Ret (inr (x, mk_BinaryDecoder (dec_buf d) str (readBytes d + 2))).
Proof.
  intros E. unfold ExtractBEInt_uint16. rewrite E. pose proof (zlen_nonneg str).
  rewrite (proj2 (Z.ltb_ge _ _)) by (rewrite !zlen_cons; lia).
  change (index (b0 :: b1 :: str) 0) with (Ret b0). rewrite go_bind_ret.
  change (index (b0 :: b1 :: str) 1) with (Ret b1). rewrite go_bind_ret.
  rewrite slice_from_ok by (rewrite !zlen_cons; lia). rewrite go_bind_ret. by eexists.
Qed.

Lemma extract_header_total l : sizeof_DNSHeader <= zlen l -> exists r, extract_header (NewBinaryDecoder l) = Ret (inr r).
Proof.
  intros Hl. unfold sizeof_DNSHeader, zlen in Hl.
  destruct l as [|a0 [|a1 [|a2 [|a3 [|a4 [|a5 [|a6 [|a7 [|a8 [|a9 [|a10 [|a11 l] ] ] ] ] ] ] ] ] ] ] ]; cbn in Hl; try lia.
  unfold extract_header, mbind at 1, dec_bind at 1, NewBinaryDecoder.
  do 5 (edestruct extract_uint16 as [? ->]; [reflexivity|]; rewrite go_bind_ret; cbn [dec_str dec_buf readBytes];
    unfold mbind at 1, dec_bind at 1).
  edestruct extract_uint16 as [? ->]; [reflexivity|]. rewrite go_bind_ret. by eexists.
Qed.

(** With a package that gives records the types they say, the parser keeps the laws a
    connection relies on. *)
Lemma dns_parser_laws {T} `{TreeMap T} (Unpack : list Z -> option dns_Msg) :
  (forall l m, Unpack l = Some m -> Forall well_typed (Answer m)) ->
  @ParserLaws T unit Frame (dns_parser Unpack).
Proof.
  intros Ht. split.
  - intros p sb mt h Hh [Hl _]. cbn [ParseStream dns_parser]. unfold dns_ParseStream. rewrite Hh.
    assert (forall s p, s <> Success -> s <> Ignore -> exists (r : ParseResult Frame) (p' : unit), (Ret (just s, p) : go _) = Ret (r, p') /\
      (parse_state r = Success \/ parse_state r = Ignore -> 0 < ReadBytes r <= Len h)) as Hno.
    { intros s p' H1 H2. eexists _, _. split; [done|]. by intros []. }
    destruct (Unpack (buf h)) as [m|] eqn:Em; [|rewrite go_bind_ret; by apply Hno].
    destruct (Z.ltb_spec (zlen (buf h)) sizeof_DNSHeader) as [|Hs]; [rewrite go_bind_ret; by apply Hno|].
    destruct (extract_header_total (buf h) Hs) as [ [header d] ->]. rewrite go_bind_ret.
    destruct (add_answers_total (Answer m) (add_questions (mk_Frame (mk_FrameBase 0 0 0) header [] false 0 false) (Question m))
      (Ht _ _ Em)) as [f ->]. rewrite go_bind_ret. unfold CreateFrameBase. rewrite Hh.
    destruct (FindTimestampBySeq sb (LeftBoundary h)) as [ts []]; rewrite !go_bind_ret; [|by apply Hno].
    eexists _, _. split; [done|]. intros _. unfold Len in *. cbn. lia.
  - intros p sb mt start h _ _ _. exists (-1). split; [done|]. by left.
Qed.

(** The bit of the header that says whether a message is a query is not looked at: while
    the role of the connection is unknown, every message is taken for a response. *)
Lemma unknown_message_is_response {T} `{TreeMap T} Unpack (sb : StreamBuffer T) r f :
  dns_ParseStream Unpack sb Unknown = Ret r -> f ∈ ParsedMessages r -> IsReq f = false.
Proof.
  unfold dns_ParseStream. destruct (Head sb) as [h|] eqn:Hh; [|done].
  destruct (Unpack (buf h)) as [m|]; [|by intros [= <-] ?%not_elem_of_nil].
  destruct (_ <? _); [by intros [= <-] ?%not_elem_of_nil|].
  destruct (extract_header _) as [ [e|[hd d] ]|]; [by intros [= <-] ?%not_elem_of_nil| |done]. rewrite go_bind_ret.
  destruct (add_answers _ _) as [f'|]; [|done]. rewrite go_bind_ret. unfold CreateFrameBase. rewrite Hh.
  destruct (FindTimestampBySeq _ _) as [ts []]; rewrite go_bind_ret; intros [= <-]; [|by intros ?%not_elem_of_nil].
  by intros ->%list_elem_of_singleton.
Qed.

(** ** Which request a response belongs to *)

Abbreviation id f := (TXID (Header f)).
Definition answers (resp req : Frame) : bool := (id req =? id resp) && (TimestampNs req <=? TimestampNs resp).
(** The request of the response's number that was not sent after it. *)
Definition request_of (reqs : list Frame) (resp : Frame) : option Frame := head (filter (fun req => answers resp req) reqs).

Definition sent_before (a b : Frame) : Prop := TimestampNs a <= TimestampNs b.
Definition mark (d : Frame -> bool) (f : Frame) : Frame := if d f then consume f else f.

(** What is known of the waiting requests. *)
Definition queue_ok (reqs : list Frame) : Prop :=
  StronglySorted sent_before reqs /\ NoDup ((fun f => id f) <$> reqs) /\ Forall (fun f => Consumed f = false) reqs.

Lemma queue_ok_cons f l : queue_ok (f :: l) ->
  queue_ok l /\ Consumed f = false /\ Forall (sent_before f) l /\ Forall (fun g => id g <> id f) l.
Proof.
  intros (Hs & Hn & Hc). apply StronglySorted_inv in Hs as [Hs Hf]. rewrite fmap_cons in Hn. apply NoDup_cons in Hn as [Hn1 Hn].
  apply Forall_cons in Hc as [Hc1 Hc]. do 3 (split; [done|]). apply Forall_forall. intros g Hg E. apply Hn1.
  rewrite <- E. apply list_elem_of_fmap. by exists g.
Qed.

Lemma mark_ext (d d' : Frame -> bool) l : Forall (fun f => d f = d' f) l -> mark d <$> l = mark d' <$> l.
Proof. intros Hl. apply Forall_fmap_ext_1. eapply Forall_impl; [exact Hl|]. intros f E. unfold mark. by rewrite E. Qed.

Lemma no_answers resp l : Forall (fun f => answers resp f = false) l -> request_of l resp = None.
Proof.
  intros Hl. unfold request_of. enough (filter (fun req => answers resp req) l = []) as -> by done.
  apply filter_none. eapply Forall_impl; [exact Hl|]. intros f E. cbn beta in *. rewrite E. by intros [].
Qed.

Lemma request_of_cons resp f l : request_of (f :: l) resp = if answers resp f then Some f else request_of l resp.
Proof. unfold request_of. rewrite filter_cons. by destruct (answers resp f). Qed.

(** The loop over the requests finds it, some of them answered already. *)
Lemma find_request_marked (d : Frame -> bool) resp l :
  queue_ok l -> Forall (fun f => d f -> id f <> id resp) l ->
  let d' := fun f => d f || answers resp f in
  match find_request resp (mark d <$> l) with
  | Some i => exists r, l !! i = Some r /\ mark d r = r /\ request_of l resp = Some r /\ <[i := consume r]> (mark d <$> l) = mark d' <$> l
  | None => request_of l resp = None /\ mark d' <$> l = mark d <$> l
  end.
Proof.
  intros Hok Hd d'. induction l as [|f l IH]; [done|].
  apply queue_ok_cons in Hok as (Hok & Hc & Hf & Hid). apply Forall_cons in Hd as [Hd1 Hd]. specialize (IH Hok Hd).
  assert (TimestampNs (mark d f) = TimestampNs f /\ id (mark d f) = id f) as [Et Ei] by (unfold mark; by destruct (d f)).
  rewrite fmap_cons. cbn [find_request]. rewrite Et, Ei, request_of_cons.
  assert (forall l', Forall (fun g => answers resp g = false) l' -> mark d' <$> l' = mark d <$> l') as Hsame.
  { intros l' Hl. apply mark_ext. eapply Forall_impl; [exact Hl|]. intros g E. unfold d'. by rewrite E, orb_false_r. }
  rewrite Z.gtb_ltb. destruct (Z.ltb_spec (TimestampNs resp) (TimestampNs f)) as [Hlt|Hle].
  { assert (Forall (fun g => answers resp g = false) (f :: l)) as Hna.
    { constructor; [|eapply Forall_impl; [exact Hf|] ]; unfold sent_before, answers; cbn beta; intros;
        by rewrite (proj2 (Z.leb_gt _ _)), andb_false_r by lia. }
    split; [|by apply (Hsame (f :: l))]. by rewrite <- request_of_cons, no_answers. }
  destruct (Z.eqb_spec (id f) (id resp)) as [E|Hne].
  - assert (d f = false) as Hdf by (destruct (d f) eqn:Ed; [by destruct (Hd1 I E)|done]).
    assert (answers resp f = true) as Ha by (unfold answers; by rewrite E, Z.eqb_refl, (proj2 (Z.leb_le _ _)) by done).
    exists f. split; [done|]. split; [unfold mark; by rewrite Hdf|]. rewrite Ha. split; [done|]. assert (mark d' f = consume f) as Em by (unfold mark, d'; by rewrite Ha, orb_true_r).
    rewrite fmap_cons, Em. cbn [insert list_insert]. f_equal. symmetry. apply Hsame. eapply Forall_impl; [exact Hid|].
    intros g Hg. unfold answers. by rewrite (proj2 (Z.eqb_neq _ _)) by congruence.
  - assert (answers resp f = false) as Ha by (unfold answers; by rewrite (proj2 (Z.eqb_neq _ _)) by done).
    assert (mark d' f = mark d f) as Em by (unfold mark, d'; by rewrite Ha, orb_false_r). rewrite Ha.
    destruct (find_request resp (mark d <$> l)) as [i|]; cbn [fmap option_fmap option_map].
    + destruct IH as (r & Hr & Hm & Hreq & Hi). exists r. do 3 (split; [done|]). by rewrite fmap_cons, Em, <- Hi.
    + destruct IH as [Hreq Hi]. split; [done|]. by rewrite fmap_cons, Em, Hi.
Qed.

Lemma drop_consumed_marked (d : Frame -> bool) f l :
  drop_consumed (mark d <$> f :: l) = if d f || Consumed f then drop_consumed (mark d <$> l) else mark d <$> f :: l.
Proof.
  rewrite fmap_cons. cbn [drop_consumed]. assert (Consumed (mark d f) = d f || Consumed f) as -> by (unfold mark; by destruct (d f)). done.
Qed.

(** One response, with the requests at the head that are answered taken off already. *)
Lemma match_one (d : Frame -> bool) resp resps l :
  queue_ok l -> Forall (fun f => d f -> id f <> id resp) l ->
  match_responses (resp :: resps) (drop_consumed (mark d <$> l)) =
  let '(rs, rest) := match_responses resps (drop_consumed (mark (fun f => d f || answers resp f) <$> l)) in
  (option_list ((fun req => mk_Record (consume req) resp) <$> request_of l resp) ++ rs, rest).
Proof.
  intros Hok Hd. induction l as [|f l IH]; [cbn [match_responses]; by destruct (match_responses _ _)|].
  pose proof (queue_ok_cons f l Hok) as (Hok' & Hc & _). pose proof Hd as Hd0. apply Forall_cons in Hd0 as [Hd1 Hd'].
  rewrite !drop_consumed_marked, Hc, !orb_false_r. destruct (d f) eqn:Ed.
  - assert (answers resp f = false) as Ha by (unfold answers; by rewrite (proj2 (Z.eqb_neq _ _)) by auto).
    cbn [orb]. by rewrite (IH Hok' Hd'), request_of_cons, Ha.
  - cbn [orb]. pose proof (find_request_marked d resp (f :: l) Hok Hd) as Hfind. cbv zeta in Hfind. cbn [match_responses].
    set (d' := fun f => d f || answers resp f) in *.
    assert (drop_consumed (mark d' <$> f :: l) = if answers resp f then drop_consumed (mark d' <$> l) else mark d' <$> f :: l) as Edrop.
    { rewrite drop_consumed_marked, Hc, orb_false_r. unfold d' at 1. by rewrite Ed. }
    rewrite <- Edrop. destruct (find_request resp (mark d <$> f :: l)) as [i|]; cbn [mbind option_bind].
    + destruct Hfind as (r & Hr & Hm & Hreq & Hi). rewrite list_lookup_fmap, Hr. change (_ <$> (mark d <$> Some r)) with (Some (i, mark d r)).
      rewrite Hm, Hi, Hreq. destruct (match_responses _ _) as [rs rest]. done.
    + destruct Hfind as [Hreq Hi]. rewrite Hreq, Hi. destruct (match_responses resps (drop_consumed (mark d <$> f :: l))) as [rs rest]. done.
Qed.

Lemma match_all resps : forall (d : Frame -> bool) l,
  queue_ok l -> NoDup ((fun f => id f) <$> resps) -> Forall (fun f => d f -> id f ∉ ((fun f => id f) <$> resps)) l ->
  match_responses resps (drop_consumed (mark d <$> l)) =
    (resps ≫= (fun resp => option_list ((fun req => mk_Record (consume req) resp) <$> request_of l resp)),
     drop_consumed (mark (fun f => d f || existsb (fun resp => answers resp f) resps) <$> l)).
Proof.
  induction resps as [|resp resps IH]; intros d l Hok Hn Hd.
  { cbn. do 2 f_equal. apply mark_ext, Forall_forall. intros f _. by rewrite orb_false_r. }
  rewrite fmap_cons in Hn, Hd. apply NoDup_cons in Hn as [Hn1 Hn].
  rewrite match_one; [|done|eapply Forall_impl; [exact Hd|]; intros f Hf Hdf E; apply (Hf Hdf); rewrite E; by left].
  rewrite IH; [|done|done|].
  - cbn [mbind list_bind existsb]. f_equal. f_equal. apply mark_ext, Forall_forall. intros f _. by rewrite orb_assoc.
  - eapply Forall_impl; [exact Hd|]. intros f Hf [Hdf|Ha]%orb_True Hin; [apply (Hf Hdf); by right|].
    unfold answers in Ha. apply andb_True in Ha as [Ha _]. apply Hn1. by rewrite <- (proj1 (Z.eqb_eq _ _) (Is_true_eq_true _ Ha)).
Qed.

(** ** Theorems *)

(** A request that is never answered stays at the head, and behind it every request that
    was. *)
Lemma unanswered_request_stays resps : forall req l rs rest,
  Consumed req = false -> Forall (fun resp => id resp <> id req) resps ->
  match_responses resps (req :: l) = (rs, rest) -> head rest = Some req /\ length rest = S (length l).
Proof.
  induction resps as [|resp resps IH]; intros req l rs rest Hc Hid E; cbn [match_responses] in E; [by injection E as <- <-|].
  apply Forall_cons in Hid as [Hid1 Hid].
  assert (forall l', drop_consumed (req :: l') = req :: l') as Ed by (intros l'; cbn [drop_consumed]; by rewrite Hc).
  destruct (find_request resp (req :: l)) as [ [|i]|] eqn:Ef; cbn [mbind option_bind] in E; [| |rewrite Ed in E; by eapply IH].
  { cbn [find_request] in Ef. rewrite (proj2 (Z.eqb_neq (id req) (id resp))) in Ef by congruence.
    destruct (_ >? _); [done|]. by destruct (find_request resp l). }
  change ((req :: l) !! S i) with (l !! i) in E. destruct (l !! i) as [r|].
  - change (_ <$> Some r) with (Some (S i, r)) in E. cbv beta iota in E.
    change (<[S i := consume r]> (req :: l)) with (req :: <[i := consume r]> l) in E. rewrite Ed in E.
    destruct (match_responses resps (req :: <[i := consume r]> l)) as [rs' rest'] eqn:E'.
    injection E as _ <-. destruct (IH _ _ _ _ Hc Hid E') as [? Hl]. split; [done|]. by rewrite Hl, length_insert.
  - change (_ <$> None) with (@None (nat * Frame)) in E. cbv beta iota in E. rewrite Ed in E. by eapply IH.
Qed.

(** As long as it is there, an answered request is matched again when its number is used
    again: the response to the new request is recorded with the old one. *)
Lemma reused_number_matched_twice (r0 r1 r2 resp : Frame) :
  Consumed r0 = false -> id r0 <> id resp -> id r1 = id resp -> id r2 = id resp ->
  TimestampNs r0 <= TimestampNs resp -> TimestampNs r1 <= TimestampNs resp ->
  match_responses [resp] [r0; consume r1; r2] = ([mk_Record (consume r1) resp], [r0; consume r1; r2]).
Proof.
  intros Hc H0 H1 H2 Ht0 Ht1. cbn [match_responses find_request].
  change (TimestampNs (consume r1)) with (TimestampNs r1). change (id (consume r1)) with (id r1).
  rewrite !Z.gtb_ltb, !(proj2 (Z.ltb_ge _ _)) by done. rewrite (proj2 (Z.eqb_neq _ _)) by done.
  rewrite H1, Z.eqb_refl. cbn. by rewrite Hc.
Qed.

(** C20: responses are matched by their numbers.  Let the requests that wait have different
    numbers and be in the order of their times, some of them answered before ([d]) and kept
    because of one in front of them that is not.  Whatever responses arrive together, each
    with a number of its own that none of the answered requests has, the records are, in
    the order of the responses, each response with the request of its number that was not
    sent after it; a response without one makes no record.  Of the requests, those that
    are answered now are marked, and the answered ones at the head are taken off; all
    responses are consumed. *)
Theorem dns_responses_matched (reqStreams respStreams : queues Frame) (d : Frame -> bool) (reqs resps : list Frame)
    (Hreqs : reqStreams !! 0 = Some (drop_consumed (mark d <$> reqs))) (Hresps : respStreams !! 0 = Some resps)
    (Hwaiting : drop_consumed (mark d <$> reqs) <> []) (Hsome : resps <> [])
    (Horder : StronglySorted sent_before reqs) (Hnumbers : NoDup ((fun f => id f) <$> reqs))
    (Hnew : Forall (fun f => Consumed f = false) reqs) (Hdistinct : NoDup ((fun f => id f) <$> resps))
    (Hopen : Forall (fun f => d f -> id f ∉ ((fun f => id f) <$> resps)) reqs) :
  dns_Match reqStreams respStreams =
    (resps ≫= (fun resp => option_list ((fun req => mk_Record (consume req) resp) <$> request_of reqs resp)),
     <[0 := drop_consumed (mark (fun f => d f || existsb (fun resp => answers resp f) resps) <$> reqs)]> reqStreams,
     <[0 := []]> respStreams).
Proof.
  pose proof (match_all resps d reqs (conj Horder (conj Hnumbers Hnew)) Hdistinct Hopen) as E.
  unfold dns_Match. rewrite Hreqs, Hresps. destruct (drop_consumed (mark d <$> reqs)) as [|f l]; [done|].
  destruct resps as [|resp resps]; [done|]. by rewrite E.
Qed.

Definition dns_query (n t : Z) (req : bool) : Frame := mk_Frame (mk_FrameBase t 30 1) (mk_DNSHeader n 0 1 0 0 0) [] false 0 req.

(** Three queries, the second answered before; now the third and then the first are. *)
Lemma dns_responses_matched_witness :
  dns_Match {[0 := [dns_query 1 10 true; consume (dns_query 2 20 true); dns_query 3 30 true]]}
    {[0 := [dns_query 3 40 false; dns_query 1 50 false; dns_query 9 60 false]]} =
  ([mk_Record (consume (dns_query 3 30 true)) (dns_query 3 40 false); mk_Record (consume (dns_query 1 10 true)) (dns_query 1 50 false)],
   <[0 := []]> {[0 := [dns_query 1 10 true; consume (dns_query 2 20 true); dns_query 3 30 true]]},
   <[0 := []]> {[0 := [dns_query 3 40 false; dns_query 1 50 false; dns_query 9 60 false]]}).
Proof.
  apply (dns_responses_matched _ _ (fun f => id f =? 2) [dns_query 1 10 true; dns_query 2 20 true; dns_query 3 30 true]
    [dns_query 3 40 false; dns_query 1 50 false; dns_query 9 60 false]).
  - reflexivity.
  - reflexivity.
  - discriminate.
  - discriminate.
  - repeat constructor; vm_compute; discriminate.
  - apply (bool_decide_unpack _). vm_compute. exact I.
  - repeat constructor.
  - apply (bool_decide_unpack _). vm_compute. exact I.
  - repeat constructor; intros Hd; try (by vm_compute in Hd); apply (bool_decide_unpack _); vm_compute; exact I.
Defined.
