(* ===== verification/Processor.v ===== *)
(** * The processors of events

    A [Processor] ([src/agent/conn/processor.go]) receives the events of the probes for a
    share of the descriptors.  Events of connections are handled at once; all others wait
    100 ms in a ring, since events of several rings arrive out of order and a connection
    must be known before its data.  Then they are given to the connection that was open at
    their time: handled, kept until the protocol of the connection is known, or dropped.

    - [Processor] has the four rings, the connections ([store] of [ConnManager.v]), the
      records sent to the record processor ([sent], with the connection each belongs to)
      and the connections whose close waits ([closing]).
    - [run_step] is one turn of the loop in [run], by the channel that was ready; the
      goroutine that closes a connection after a wait and the manager's ticker are steps
      too.  Each call of [time.Now] is an argument.
    - An event is changed in place when it is handled ([event.Ts += LaunchEpochTime]), once
      each.
    - [FirstPacketProcessor] ([src/agent/conn/first_packet_processor.go]) finds the
      connection of packets that were seen before their connection was known to the probes. *)

From stdpp Require Import gmap list sorting strings.
From Stdlib Require Import ZArith Lia.
From S2P Require Import Prelude.
From S2P Require Import Types.
From S2P Require Import SockKey.
From S2P Require Import Conn.
From S2P Require Import GoBase.
From S2P Require Import StreamBuffer.
From S2P Require Import RingBuffer.
From S2P Require Import KernEvents.
From S2P Require Import Protocol.
From S2P Require Import Mysql.
From S2P Require Import AgentConn.
From S2P Require Import ConnManager.
From S2P Require Import Records.
Local Open Scope Z_scope.
Local Open Scope model_scope.

(** ** Waiting events *)

Section Waiting.
Context {A S : Type}.
Variable process : A -> S -> go S.

(** [100 * time.Millisecond] *)
Definition wait_time : Z := 100 * 1000000.

(** The loop of [processOldKernEvents] and its three siblings; [None] when the fuel is
    used up. *)
Fixpoint processOldLoop (fuel : nat) (now : Z) (q : RingBuffer (A * Z)) (s : S) : go (option (RingBuffer (A * Z) * S)) :=
  if IsEmpty q then Ret (Some (q, s))
  else
    match fuel with
    | O => Ret None
    | Datatypes.S fuel =>
      r ← Peek q;
      match r with
      | inl _ => Ret (Some (q, s))
      | inr None => Panic
      | inr (Some (event, timestamp)) =>
        if now - timestamp >? wait_time then
          s ← process event s;
          do (_, q) <- Read q;
          processOldLoop fuel now q s
        else Ret (Some (q, s))
      end
    end.

Definition processOld (now : Z) (q : RingBuffer (A * Z)) (s : S) : go (RingBuffer (A * Z) * S) :=
  must (processOldLoop (Z.to_nat (Size q)) now q s).

(** [handleKernEvent] and its siblings: the error of [Write] is not looked at. *)
Definition handle (arrived now : Z) (event : A) (q : RingBuffer (A * Z)) (s : S) : go (RingBuffer (A * Z) * S) :=
  do (_, q) <- Write q (event, arrived);
  processOld now q s.

End Waiting.

Section Processing.
Context {T P M : Type} `{TreeMap T} `{ParsedMessage M} `{!ProtocolStreamParser T P M} `{!MessageMatcher P M}.
Variable clock : nat -> Z.
Variable mills : Z -> Z.
Variable MaxAllowStuckTimeMills : Z.
Variable side : SideEnum.
Variable getInterfaceNameByIndex : Z -> Z -> option string.
Variable LaunchEpochTime : Z.
Variable GetParserByProtocol : traffic_protocol_t -> option P.
Variable MessageFilter : ProtocolFilter M.
Abbreviation connection := (connection (T := T) (P := P) (M := M)).
Abbreviation store := (store (T := T) (P := P) (M := M)).

(** ** The handlers of a connection, with the parser of its protocol *)

(** [c.GetProtocolParser(c.Protocol)] is a pointer: what the handler changes in the parser
    stays in the connection's table. *)
Definition with_parser (f : Connection4 -> go (option (Connection4 (T := T) (P := P) (M := M)))) (c : connection)
    : go (list (Record_ M) * connection) :=
  let '(p, c) := GetProtocolParser GetParserByProtocol c (conn_protocol c) in
  st ← must (f (stream c <| parser := p |> <| recordChannel := [] |>));
  Ret (recordChannel st,
    c <| stream := st <| recordChannel := [] |> |> <| protocolParsers ::= <[conn_protocol c := parser st]> |>).

Definition conn_OnSyscallEvent (e : SyscallEventData) : connection -> go (list (Record_ M) * connection) :=
  with_parser (fun st =>
    r ← OnSyscallEvent clock mills MaxAllowStuckTimeMills side getInterfaceNameByIndex e.2 e.1 st;
    Ret (match r with Some (_, st) => Some st | None => None end)).

Definition conn_OnSslDataEvent (e : SslData) : connection -> go (list (Record_ M) * connection) :=
  with_parser (OnSslDataEvent clock mills MaxAllowStuckTimeMills side e.2 e.1).

Definition conn_OnKernEvent (e : kern_evt) (c : connection) : go (bool * connection) :=
  do (added, st) <- OnKernEvent getInterfaceNameByIndex e (stream c);
  Ret (added, c <| stream := st |>).

Definition update_traceable (t : conn_trace_state_t) (c : connection) : connection :=
  c <| stream ::= UpdateConnectionTraceable t |>.

(** ** What a connection does with an event *)

(** [processKernEvent], of a connection that was found. *)
Definition kern_event_to (event : kern_evt) (c : connection) : go (list (Record_ M) * connection) :=
  if negb (IsTraceble c) then Ret ([], c)
  else if (ke_len event >? 0) && negb (bool_decide (conn_protocol c = kProtocolUnknown)) then
    if decide (conn_protocol c = kProtocolUnset) then
      do (added, c) <- conn_OnKernEvent event c;
      Ret ([], if added then c else keep_kern_event c event)
    else if decide (conn_protocol c = kProtocolUnknown) then Ret ([], c)
    else do (_, c) <- conn_OnKernEvent event c; Ret ([], c)
  else if ke_len event >? 0 then Ret ([], c)
  else if ke_len event =? 0 then do (_, c) <- conn_OnKernEvent event c; Ret ([], c)
  else Ret ([], c).

(** [GetEndTs] *)
Definition end_ts (ke : kern_evt) : Z := u64 (ke_ts ke + ke_ts_delta ke).

Definition syscall_event_to (e : SyscallEventData) (c : connection) : go (list (Record_ M) * connection) :=
  let timeCheck := timeBoundCheck c (end_ts (se_Ke e.1)) in
  if negb (IsTraceble c) then Ret ([], c)
  else if ProtocolInferred c && timeCheck then conn_OnSyscallEvent e c
  else if decide (conn_protocol c = kProtocolUnset) then Ret ([], keep_syscall_event c e)
  else Ret ([], c).

Definition ssl_event_to (e : SslData) (c : connection) : go (list (Record_ M) * connection) :=
  if negb (IsTraceble c) then Ret ([], c)
  else if ProtocolInferred c then conn_OnSslDataEvent e c
  else if decide (conn_protocol c = kProtocolUnset) then Ret ([], keep_ssl_event c e)
  else if decide (conn_protocol c = kProtocolUnknown) then Ret ([], keep_ssl_event c e)
  else Ret ([], c).

(** ** When the protocol is known *)

(** The loop over one of the lists of events kept. *)
Fixpoint replay {E} (at_ts : E -> Z) (h : E -> connection -> go (list (Record_ M) * connection)) (es : list E) (c : connection)
    : go (list (Record_ M) * connection) :=
  match es with
  | [] => Ret ([], c)
  | e :: es =>
    do (rs, c) <- if timeBoundCheck c (at_ts e) then h e c else Ret ([], c);
    do (rs', c) <- replay at_ts h es c;
    Ret (rs ++ rs', c)
  end.

Definition replay_kept (c : connection) : go (list (Record_ M) * connection) :=
  do (rs1, c) <- replay (fun e => end_ts (se_Ke e.1)) conn_OnSyscallEvent (TempSyscallEvents c) c;
  let c := c <| TempSyscallEvents := [] |> in
  do (rs2, c) <- replay (fun e => end_ts (Ke e.1)) conn_OnSslDataEvent (TempSslEvents c) c;
  let c := c <| TempSslEvents := [] |> in
  let c := update_traceable traceable c in
  do (_, c) <- replay ke_ts (fun e c => do (_, c) <- conn_OnKernEvent e c; Ret ([], c)) (TempKernEvents c) c;
  Ret (rs1 ++ rs2, c <| TempKernEvents := [] |>).

(** The rest of the case of an inferred protocol, from the role on. *)
Definition protocol_inferred (role : endpoint_role_t) (c : connection) : go (list (Record_ M) * connection) :=
  let c := if bool_decide (Role (stream c) = kRoleUnknown) && negb (bool_decide (role = kRoleUnknown))
           then c <| stream ::= fun st => onRoleChanged side (st <| Role := role |>) |> else c in
  let isProtocolInterested := bool_decide (conn_protocol c = kProtocolUnset) || FilterByProtocol MessageFilter (conn_protocol c) in
  if isProtocolInterested && negb (isSideNotMatched side (stream c)) then
    do (rs, c) <- if decide (conn_protocol c = kProtocolUnknown) then Ret ([], c) else replay_kept c;
    Ret (rs, c <| TempConnEvents := [] |>)
  else if decide (conn_protocol c = kProtocolUnknown) then Ret ([], update_traceable protocol_unknown c)
  else if negb isProtocolInterested then Ret ([], update_traceable protocol_not_matched c)
  else Ret ([], update_traceable other c).

(** ** The processor *)

Record Processor := mk_Processor {
  connManager : store;
  tempKernEvents : RingBuffer (kern_evt * Z);
  tempSyscallEvents : RingBuffer (SyscallEventData * Z);
  tempSslEvents : RingBuffer (SslData * Z);
  tempFirstPacketEvents : RingBuffer ((kern_evt * nat) * Z);
  sent : list (Record_ M * nat);
  closing : list nat;
}.
#[export] Instance eta_Processor : Eta Processor := fun p =>
  mk_Processor (connManager p) (tempKernEvents p) (tempSyscallEvents p) (tempSslEvents p) (tempFirstPacketEvents p)
    (sent p) (closing p).

Definition initProcessor (m : store) : go Processor :=
  k ← NewRingBuffer 1000;
  y ← NewRingBuffer 1000;
  f ← NewRingBuffer 100;
  s ← NewRingBuffer 100;
  Ret (mk_Processor m k y s f [] []).

(** A handler of the connection [l]; the records it makes are sent. *)
Definition on_conn (l : nat) (f : connection -> go (list (Record_ M) * connection)) (p : Processor) : go Processor :=
  c ← deref (connManager p) l;
  do (rs, c) <- f c;
  Ret (p <| connManager ::= set_conn l (fun _ => c) |> <| sent ::= fun q => q ++ ((fun r => (r, l)) <$> rs) |>).

(** The connection of the descriptor that was open at a time; without one the event is
    dropped. *)
Definition to_connection (k ts : Z) (f : connection -> go (list (Record_ M) * connection)) (p : Processor) : go Processor :=
  conn ← LookupConnection4ByTimestamp (connManager p) k ts;
  match conn with Some l => on_conn l f p | None => Ret p end.

(** [event.Ts += common.LaunchEpochTime] *)
Definition wall_clock (e : kern_evt) : kern_evt := e <| ke_ts := u64 (ke_ts e + LaunchEpochTime) |>.

Definition processKernEvent (event : kern_evt) (p : Processor) : go Processor :=
  let event := wall_clock event in
  to_connection (tgid_fd (ke_conn_id_s event)) (ke_ts event) (kern_event_to event) p.

Definition processSyscallEvent (e : SyscallEventData) (p : Processor) : go Processor :=
  let ke := wall_clock (se_Ke e.1) in
  to_connection (tgid_fd (ke_conn_id_s ke)) (end_ts ke) (syscall_event_to (mk_SyscallEvent ke (BufSize e.1), e.2)) p.

Definition processSslEvent (e : SslData) (p : Processor) : go Processor :=
  let ke := wall_clock (Ke e.1) in
  to_connection (tgid_fd (ke_conn_id_s ke)) (end_ts ke)
    (ssl_event_to (mk_ssl_header ke (SyscallSeq e.1) (SyscallLen e.1), e.2)) p.

Definition processFirstPacketEvent (event : kern_evt * nat) (p : Processor) : go Processor :=
  on_conn event.2 (fun c => do (_, c) <- conn_OnKernEvent (wall_clock event.1) c; Ret ([], c)) p.

(** The queues: the ring is a field of the processor and the handlers do not touch it. *)
Definition processOldKernEvents (now : Z) (p : Processor) : go Processor :=
  do (q, p) <- processOld processKernEvent now (tempKernEvents p) p; Ret (p <| tempKernEvents := q |>).
Definition processOldSyscallEvents (now : Z) (p : Processor) : go Processor :=
  do (q, p) <- processOld processSyscallEvent now (tempSyscallEvents p) p; Ret (p <| tempSyscallEvents := q |>).
Definition processOldSslEvents (now : Z) (p : Processor) : go Processor :=
  do (q, p) <- processOld processSslEvent now (tempSslEvents p) p; Ret (p <| tempSslEvents := q |>).
Definition processOldFirstPacketEvents (now : Z) (p : Processor) : go Processor :=
  do (q, p) <- processOld processFirstPacketEvent now (tempFirstPacketEvents p) p; Ret (p <| tempFirstPacketEvents := q |>).

Definition handleKernEvent (arrived now : Z) (event : kern_evt) (p : Processor) : go Processor :=
  do (q, p) <- handle processKernEvent arrived now event (tempKernEvents p) p; Ret (p <| tempKernEvents := q |>).
Definition handleSyscallEvent (arrived now : Z) (event : SyscallEventData) (p : Processor) : go Processor :=
  do (q, p) <- handle processSyscallEvent arrived now event (tempSyscallEvents p) p; Ret (p <| tempSyscallEvents := q |>).
Definition handleSslEvent (arrived now : Z) (event : SslData) (p : Processor) : go Processor :=
  do (q, p) <- handle processSslEvent arrived now event (tempSslEvents p) p; Ret (p <| tempSslEvents := q |>).
Definition handleFirstPacketEvent (arrived now : Z) (event : kern_evt * nat) (p : Processor) : go Processor :=
  do (q, p) <- handle processFirstPacketEvent arrived now event (tempFirstPacketEvents p) p; Ret (p <| tempFirstPacketEvents := q |>).

(** ** Events of connections *)

Definition set_manager (s : store) (p : Processor) : Processor := p <| connManager := s |>.

(** The connection of an inferred protocol, made if it is missing; [None] for one that is
    closed. *)
Definition infer_conn (event : conn_evt_t) (s : store) : go (option nat * store) :=
  let k := tgid_fd_of (ce_conn_info event) in
  conn ← LookupConnection4ByTimestamp s k (u64 (ce_ts event + LaunchEpochTime));
  match conn with
  | Some l =>
    c ← deref s l;
    if decide (Status c = Closed) then Ret (None, s)
    else Ret (Some l, set_conn l (fun c => c <| conn_protocol := ci_protocol (ce_conn_info event) |>) s)
  | None =>
    let '(l, s) := NewConn LaunchEpochTime event s in
    s ← AddConnection4 k l s;
    Ret (Some l, s)
  end.

Definition handleConnEvent (event : conn_evt_t) (p : Processor) : go Processor :=
  let k := tgid_fd_of (ce_conn_info event) in
  let ts := u64 (ce_ts event + LaunchEpochTime) in
  match ce_conn_type event with
  | Types.kConnect =>
    let '(l, s) := NewConn LaunchEpochTime event (connManager p) in
    s ← AddConnection4 k l s;
    Ret (set_manager (set_conn l (fun c => AddConnEvent c (mk_conn_evt (ce_conn_info event) (ce_conn_type event) ts)) s) p)
  | kClose =>
    match FindConnection4Exactly (connManager p) k with
    | None => Ret p
    | Some l => Ret (p <| connManager ::= set_conn l (fun c => c <| CloseTs := ts |>) |> <| closing ::= fun ls => ls ++ [l] |>)
    end
  | kProtocolInfer =>
    do (conn, s) <- infer_conn event (connManager p);
    match conn with
    | Some l => on_conn l (protocol_inferred (ci_role (ce_conn_info event))) (set_manager s p)
    | None => Ret (set_manager s p)
    end
  end.

(** ** One turn *)

Inductive input : Type :=
| conn_event (e : conn_evt_t)
| syscall_event (arrived now : Z) (e : SyscallEventData)
| ssl_event (arrived now : Z) (e : SslData)
| kern_event (arrived now : Z) (e : kern_evt)
| first_packet_event (arrived now : Z) (e : kern_evt * nat)
| ticked (now1 now2 now3 now4 : Z)
| closed (l : nat)
| collected.

Definition run_step (i : input) (p : Processor) : go Processor :=
  match i with
  | conn_event e => handleConnEvent e p
  | syscall_event arrived now e => handleSyscallEvent arrived now e p
  | ssl_event arrived now e => handleSslEvent arrived now e p
  | kern_event arrived now e => handleKernEvent arrived now e p
  | first_packet_event arrived now e => handleFirstPacketEvent arrived now e p
  | ticked now1 now2 now3 now4 =>
    p ← processOldSslEvents now1 p;
    p ← processOldKernEvents now2 p;
    p ← processOldFirstPacketEvents now3 p;
    processOldSyscallEvents now4 p
  | closed l => Ret (if decide (l ∈ closing p) then p <| connManager ::= close_conn l |> <| closing ::= filter (fun x => x <> l) |> else p)
  | collected => s ← collect (connManager p); Ret (set_manager s p)
  end.

Fixpoint run (inputs : list input) (p : Processor) : go Processor :=
  match inputs with
  | [] => Ret p
  | i :: inputs => p ← run_step i p; run inputs p
  end.

(** ** First packets *)

Definition timedFirstPacketEventAsKernEvent (event : first_packet_evt) (connIds : conn_id_s_t) : kern_evt :=
  kern_evt_zero <| ke_ts := fp_ts event |> <| ke_ts_delta := 0 |> <| ke_seq := 1 |> <| ke_len := fp_len event |>
    <| ke_flags := fp_flags event |> <| ke_ifindex := fp_ifindex event |> <| ke_conn_id_s := connIds |>
    <| ke_step := fp_step event |>.

(** The channel and the event sent to it; [n] is the number of channels. *)
Definition processEvent (n : Z) (s : store) (event : first_packet_evt) : go (option (Z * (kern_evt * nat))) :=
  match ConnectionMap s !! fp_key event with
  | None => Ret None
  | Some l =>
    c ← deref s l;
    i ← go_rem (s64 (TgidFd c)) n;
    if (0 <=? i) && (i <? n) then
      Ret (Some (i, (timedFirstPacketEventAsKernEvent event (mk_conn_id_s (TgidFd c) (tracable (stream c))), l)))
    else Panic
  end.

(** [processEvents]: the events sent, and those that wait. *)
Fixpoint processEvents (n : Z) (s : store) (now : Z) (events : list (first_packet_evt * Z))
    : go (list (Z * (kern_evt * nat)) * list (first_packet_evt * Z)) :=
  match events with
  | [] => Ret ([], [])
  | (event, timestamp) :: rest =>
    if u64 (now - timestamp) >? 50 then
      r ← processEvent n s event;
      do (out, rest) <- processEvents n s now rest;
      Ret (match r with Some x => x :: out | None => out end, rest)
    else Ret ([], events)
  end.

End Processing.
