(* ===== verification/Delay.v ===== *)
(** * Events wait in order

    What the rings of a processor do ([processOld], [handle] of [Processor.v]): whatever
    is done with an event when its time has come, events are handled in the order of
    their arrival, each once, more than 100 ms after its arrival and at the first chance
    after that. *)

From stdpp Require Import gmap list sorting.
From Stdlib Require Import ZArith Lia.
From S2P Require Import Prelude.
From S2P Require Import GoBase.
From S2P Require Import RingBuffer.
From S2P Require Import KernEvents.
From S2P Require Import Processor.
Local Open Scope Z_scope.
Local Open Scope model_scope.

Section Delay.
Context {A S : Type}.
Variable process : A -> S -> go S.
Implicit Types (q : RingBuffer (A * Z)) (l w : list (A * Z)) (s : S).

(** An event that has waited long enough, and the ones before the first that has not. *)
Definition old (now : Z) (x : A * Z) : Prop := now - x.2 > wait_time.
#[export] Instance old_dec now x : Decision (old now x).
Proof. unfold old. apply _. Defined.

Fixpoint process_all (es : list A) s : go S :=
  match es with
  | [] => Ret s
  | e :: es => s ← process e s; process_all es s
  end.

Lemma process_all_app es es' s : process_all (es ++ es') s = (s ← process_all es s; process_all es' s).
Proof. revert s. induction es as [|e es IH]; intros s; [done|]. cbn. by destruct (process e s); cbn. Qed.

(** The events before the first that is not old, and the others. *)
Fixpoint split_old (now : Z) l : list A * list (A * Z) :=
  match l with
  | [] => ([], [])
  | x :: l' => if decide (old now x) then let '(es, rest) := split_old now l' in (x.1 :: es, rest) else ([], l)
  end.

Lemma processOldLoop_rep fuel now : forall q l s,
  rep q l -> (length l <= fuel)%nat ->
  match process_all (split_old now l).1 s with
  | Ret s' => exists q', processOldLoop process fuel now q s = Ret (Some (q', s')) /\ rep q' (split_old now l).2 /\ size q' = size q
  | Panic => processOldLoop process fuel now q s = Panic
  end.
Proof.
  induction fuel as [|fuel IH]; intros q l s Hr Hl; destruct l as [|[e t] l]; cbn [length] in Hl; try lia; cbn [split_old].
  1,2: exists q; cbn [processOldLoop]; by rewrite (IsEmpty_rep _ _ Hr), bool_decide_eq_true_2.
  cbn [processOldLoop]. rewrite (IsEmpty_rep _ _ Hr), bool_decide_eq_false_2, (Peek_rep _ _ Hr) by done.
  cbn [mbind go_bind]. rewrite Z.gtb_ltb. unfold old. cbn [snd fst]. case_decide as Ho.
  - rewrite (proj2 (Z.ltb_lt _ _)) by lia. destruct (Read_rep _ _ Hr) as (q1 & -> & Hr1 & Hsz).
    specialize (IH q1 l). destruct (split_old now l) as [es rest]. cbn [process_all fst snd] in *.
    destruct (process e s) as [s1|]; [|done]. cbn [mbind go_bind]. unfold go_then. cbn [mbind go_bind].
    rewrite <- Hsz. apply IH; [done|lia].
  - rewrite (proj2 (Z.ltb_ge _ _)) by lia. by exists q.
Qed.

Lemma processOld_rep now q l s :
  rep q l ->
  match process_all (split_old now l).1 s with
  | Ret s' => exists q', processOld process now q s = Ret (q', s') /\ rep q' (split_old now l).2 /\ size q' = size q
  | Panic => processOld process now q s = Panic
  end.
Proof.
  intros Hr. pose proof (processOldLoop_rep (Z.to_nat (Size q)) now q l s Hr) as Hl. unfold processOld, must.
  rewrite (Size_rep _ _ Hr) in *. specialize (Hl ltac:(unfold zlen; lia)). destruct (process_all _ s) as [s'|].
  - destruct Hl as (q' & -> & ? & ?). by exists q'.
  - by rewrite Hl.
Qed.

(** ** A queue and a list *)

(** What happens to one queue: an event arrives, and is followed by a look at the queue,
    or the ticker fires. *)
Inductive queue_input : Type :=
| arrives (t now : Z) (e : A)
| ticks (now : Z).

Fixpoint delay_run (inputs : list queue_input) q s : go (RingBuffer (A * Z) * S) :=
  match inputs with
  | [] => Ret (q, s)
  | arrives t now e :: inputs => do (q, s) <- handle process t now e q s; delay_run inputs q s
  | ticks now :: inputs => do (q, s) <- processOld process now q s; delay_run inputs q s
  end.

(** The list of waiting events: an event is refused when [sz] events wait; those that have
    waited long enough are delivered. *)
Record outcome := mk_outcome { delivered : list A; waiting : list (A * Z); refused : list A }.

Definition look (now : Z) (o : outcome) : outcome :=
  mk_outcome (delivered o ++ (filter (old now) (waiting o)).*1) (filter (fun x => ~ old now x) (waiting o)) (refused o).
Definition accept (sz t : Z) (e : A) (o : outcome) : outcome :=
  if decide (zlen (waiting o) < sz) then mk_outcome (delivered o) (waiting o ++ [(e, t)]) (refused o)
  else mk_outcome (delivered o) (waiting o) (refused o ++ [e]).

Definition list_step (sz : Z) (o : outcome) (i : queue_input) : outcome :=
  match i with
  | arrives t now e => look now (accept sz t e o)
  | ticks now => look now o
  end.

(** The clock does not go back. *)
Fixpoint clock_from (t0 : Z) (inputs : list queue_input) : Prop :=
  match inputs with
  | [] => True
  | arrives t now _ :: inputs => t0 <= t <= now /\ clock_from now inputs
  | ticks now :: inputs => t0 <= now /\ clock_from now inputs
  end.

Definition arrivals (inputs : list queue_input) : list A :=
  omap (fun i => match i with arrives _ _ e => Some e | ticks _ => None end) inputs.

Definition in_order (t0 : Z) w : Prop := StronglySorted (fun x y => x.2 <= y.2) w /\ Forall (fun x => x.2 <= t0) w.

Lemma split_old_sorted now w :
  StronglySorted (fun x y : A * Z => x.2 <= y.2) w ->
  split_old now w = ((filter (old now) w).*1, filter (fun x => ~ old now x) w).
Proof.
  induction 1 as [|x w Hs IH Hx]; [done|]. cbn [split_old]. rewrite !filter_cons. case_decide as Ho.
  - rewrite (decide_False (P := ~ old now x)) by tauto. by rewrite IH.
  - rewrite decide_True by done. assert (Hall : Forall (fun y => ~ old now y) w).
    { eapply Forall_impl; [exact Hx|]. unfold old in *. intros y ?. lia. }
    rewrite filter_none by done. f_equal. f_equal. clear -Hall.
    induction Hall as [|y w Hy Hw IH]; [done|]. by rewrite filter_cons_True, <- IH.
Qed.

Lemma in_order_later t0 t1 w : t0 <= t1 -> in_order t0 w -> in_order t1 w.
Proof. intros Hle [? Hw]. split; [done|]. eapply Forall_impl; [exact Hw|]. cbv beta. intros. lia. Qed.

Lemma in_order_look now o : in_order now (waiting o) -> in_order now (waiting (look now o)).
Proof.
  intros [Hs Hw]. split; cbn [look waiting].
  - by apply filter_sorted.
  - apply Forall_forall. intros x [_ Hx]%list_elem_of_filter. by rewrite Forall_forall in Hw; apply Hw.
Qed.

Lemma in_order_accept sz t e o : in_order t (waiting o) -> in_order t (waiting (accept sz t e o)).
Proof.
  intros [Hs Hw]. unfold accept. case_decide; [|done]. cbn [waiting]. split.
  - apply StronglySorted_app_2; [|done|by repeat constructor].
    intros x y Hx ->%list_elem_of_singleton. rewrite Forall_forall in Hw. by apply Hw.
  - apply Forall_app. split; [done|by repeat constructor].
Qed.

(** A look keeps the order of events that are in the order of their times. *)
Lemma look_order now o :
  StronglySorted (fun x y : A * Z => x.2 <= y.2) (waiting o) ->
  delivered (look now o) ++ (waiting (look now o)).*1 = delivered o ++ (waiting o).*1.
Proof.
  intros Hs. cbn [look delivered waiting]. rewrite <- app_assoc, <- fmap_app. do 2 f_equal.
  induction Hs as [|x w Hs IH Hx]; [done|]. rewrite !filter_cons. case_decide as Ho.
  - rewrite (decide_False (P := ~ old now x)) by tauto. cbn [app]. by rewrite IH.
  - rewrite decide_True by done. assert (Hall : Forall (fun y => ~ old now y) w).
    { eapply Forall_impl; [exact Hx|]. unfold old in *. intros y ?. lia. }
    rewrite (filter_none (old now) w) in IH |- * by done. cbn [app] in *. by rewrite IH.
Qed.

(** The sequence of all events accepted, and the number of all. *)
Lemma list_step_accounts sz t0 o i :
  in_order t0 (waiting o) -> clock_from t0 [i] ->
  let o' := list_step sz o i in
  exists r, refused o' = refused o ++ r /\
    (r = [] -> delivered o' ++ (waiting o').*1 = (delivered o ++ (waiting o).*1) ++ arrivals [i]) /\
    (delivered o' ++ (waiting o').*1) ++ r ≡ₚ (delivered o ++ (waiting o).*1) ++ arrivals [i].
Proof.
  intros Ho Hc. destruct i as [t now e|now]; cbn [list_step clock_from] in *.
  - assert (Ht : in_order t (waiting (accept sz t e o))).
    { apply in_order_accept. eapply in_order_later; [|done]. lia. }
    rewrite look_order by apply Ht. unfold accept. case_decide; cbn [look delivered waiting refused arrivals omap list_omap].
    + exists []. rewrite !app_nil_r, fmap_app, app_assoc. by split_and!.
    + exists [e]. by split_and!.
  - exists []. rewrite look_order by apply Ho. cbn [look refused arrivals omap list_omap]. rewrite !app_nil_r. by split_and!.
Qed.

Lemma list_step_in_order sz t0 o i :
  in_order t0 (waiting o) -> clock_from t0 [i] ->
  in_order (match i with arrives _ now _ => now | ticks now => now end) (waiting (list_step sz o i)).
Proof.
  intros Ho Hc. destruct i as [t now e|now]; cbn [list_step clock_from] in *; apply in_order_look.
  - apply (in_order_later t); [lia|]. apply in_order_accept. eapply in_order_later; [|done]. lia.
  - eapply in_order_later; [|done]. lia.
Qed.

(** ** The processor's queues *)

Variables (good : S -> Prop) (fine : A -> Prop).
Hypothesis process_total : forall e s, fine e -> good s -> exists s', process e s = Ret s' /\ good s'.

Lemma process_all_total es s : Forall fine es -> good s -> exists s', process_all es s = Ret s' /\ good s'.
Proof.
  intros He. revert s. induction He as [|e es He _ IH]; intros s Hs; [by exists s|].
  cbn [process_all]. destruct (process_total e s He Hs) as (s1 & -> & Hs1). cbn [mbind go_bind]. by apply IH.
Qed.

Lemma processOld_look now q o s t0 :
  rep q (waiting o) -> in_order t0 (waiting o) -> Forall fine (waiting o).*1 -> good s ->
  exists q' s', processOld process now q s = Ret (q', s') /\ rep q' (waiting (look now o)) /\ size q' = size q /\
    process_all (filter (old now) (waiting o)).*1 s = Ret s' /\ good s'.
Proof.
  intros Hr [Ho _] Hf Hs. pose proof (processOld_rep now q _ s Hr) as Hp. rewrite (split_old_sorted now _ Ho) in Hp. cbn [fst snd] in Hp.
  destruct (process_all_total (filter (old now) (waiting o)).*1 s) as (s' & E & Hs'); [|done|].
  { apply Forall_fmap, Forall_forall. intros x [_ Hx]%list_elem_of_filter. rewrite Forall_fmap, Forall_forall in Hf. by apply Hf. }
  rewrite E in Hp. destruct Hp as (q' & ? & ? & ?). by exists q', s'.
Qed.

Lemma handle_look sz t now e q o s :
  rep q (waiting o) -> size q = sz -> in_order t (waiting o) -> Forall fine (waiting o).*1 -> fine e -> good s ->
  exists q' s', handle process t now e q s = Ret (q', s') /\ rep q' (waiting (look now (accept sz t e o))) /\ size q' = sz /\
    process_all (filter (old now) (waiting (accept sz t e o))).*1 s = Ret s' /\ good s'.
Proof.
  intros Hr Hz Ho Hf He Hs. unfold handle.
  assert (exists r q1, Write q (e, t) = Ret (r, q1) /\ rep q1 (waiting (accept sz t e o)) /\ size q1 = sz) as (r & q1 & -> & Hr1 & Hz1).
  { pose proof (Write_rep q (waiting o) (e, t) Hr) as Hw. rewrite Hz in Hw. unfold accept. case_decide.
    - destruct Hw as (q1 & -> & ? & ?). eexists _, q1. by split_and!.
    - rewrite Hw. eexists _, q. by split_and!. }
  unfold go_then. cbn [mbind go_bind].
  destruct (processOld_look now q1 (accept sz t e o) s t) as (q' & s' & ? & ? & ? & ? & ?); [done|by apply in_order_accept| |done|].
  - unfold accept. case_decide; cbn [waiting]; [|done]. rewrite fmap_app. apply Forall_app. split; [done|by repeat constructor].
  - exists q', s'. split_and!; [done..|congruence|done|done].
Qed.

Lemma arrivals_cons i inputs : arrivals (i :: inputs) = arrivals [i] ++ arrivals inputs.
Proof. destruct i; done. Qed.

Lemma clock_from_cons t0 i inputs :
  clock_from t0 (i :: inputs) ->
  clock_from t0 [i] /\ clock_from (match i with arrives _ now _ => now | ticks now => now end) inputs.
Proof. by destruct i; intros [? ?]; split. Qed.

Lemma delay_run_cons i inputs q s : delay_run (i :: inputs) q s = (do (q, s) <- delay_run [i] q s; delay_run inputs q s).
Proof.
  destruct i as [t now e|now]; cbn [delay_run]; unfold go_then;
    [destruct (handle process t now e q s) as [ [q1 s1]|]|destruct (processOld process now q s) as [ [q1 s1]|] ]; done.
Qed.

Lemma list_step_fine sz o i :
  Forall fine (waiting o).*1 -> Forall fine (arrivals [i]) -> Forall fine (waiting (list_step sz o i)).*1.
Proof.
  intros Hf Hi. assert (Hl : forall now o, Forall fine (waiting o).*1 -> Forall fine (waiting (look now o)).*1).
  { intros now o0 H0. apply Forall_fmap, Forall_forall. intros x [_ Hx]%list_elem_of_filter.
    rewrite Forall_fmap, Forall_forall in H0. by apply H0. }
  destruct i as [t now e|now]; cbn [list_step]; apply Hl; [|done].
  unfold accept. case_decide; cbn [waiting]; [|done]. rewrite fmap_app. by apply Forall_app.
Qed.

Lemma delay_simulates sz inputs : forall t0 q o s,
  rep q (waiting o) -> size q = sz -> in_order t0 (waiting o) -> Forall fine (waiting o).*1 -> good s ->
  clock_from t0 inputs -> Forall fine (arrivals inputs) ->
  let o' := foldl (list_step sz) o inputs in
  exists q' s' es, delay_run inputs q s = Ret (q', s') /\ rep q' (waiting o') /\ delivered o' = delivered o ++ es /\
    process_all es s = Ret s' /\ good s'.
Proof.
  induction inputs as [|i inputs IH]; intros t0 q o s Hr Hz Ho Hf Hs Hc Ha; cbv zeta.
  { exists q, s, []. rewrite app_nil_r. by split_and!. }
  apply clock_from_cons in Hc as [Hc1 Hc]. rewrite arrivals_cons in Ha. apply Forall_app in Ha as [Ha1 Ha].
  assert (exists q1 s1 es1, delay_run [i] q s = Ret (q1, s1) /\ rep q1 (waiting (list_step sz o i)) /\ size q1 = sz /\
    delivered (list_step sz o i) = delivered o ++ es1 /\ process_all es1 s = Ret s1 /\ good s1)
    as (q1 & s1 & es1 & E1 & Hr1 & Hz1 & Hd1 & Hp1 & Hs1).
  { destruct i as [t now e|now]; cbn [delay_run list_step clock_from] in *.
    - apply Forall_cons in Ha1 as [He _].
      destruct (handle_look sz t now e q o s) as (q1 & s1 & -> & ? & ? & ? & ?); [done|done|by apply (in_order_later t0); [lia|]|done..|].
      exists q1, s1. eexists. split_and!; [done|done|done| |done|done]. unfold accept. by case_decide.
    - destruct (processOld_look now q o s t0) as (q1 & s1 & -> & ? & ? & ? & ?); [done..|].
      exists q1, s1. eexists. by split_and!; [done|done|congruence|..]. }
  destruct (IH _ q1 _ s1 Hr1 Hz1 (list_step_in_order sz t0 o i Ho Hc1) (list_step_fine sz o i Hf Ha1) Hs1 Hc Ha)
    as (q' & s' & es & E & Hr' & Hd & Hp & Hs').
  exists q', s', (es1 ++ es). rewrite delay_run_cons, E1, process_all_app, Hp1. cbn [foldl]. rewrite Hd, Hd1, <- app_assoc.
  by split_and!.
Qed.

Lemma list_accounts sz inputs : forall t0 o,
  in_order t0 (waiting o) -> clock_from t0 inputs ->
  let o' := foldl (list_step sz) o inputs in
  exists r, refused o' = refused o ++ r /\
    (r = [] -> delivered o' ++ (waiting o').*1 = (delivered o ++ (waiting o).*1) ++ arrivals inputs) /\
    (delivered o' ++ (waiting o').*1) ++ r ≡ₚ (delivered o ++ (waiting o).*1) ++ arrivals inputs.
Proof.
  induction inputs as [|i inputs IH]; intros t0 o Ho Hc; cbv zeta.
  { exists []. cbn [foldl arrivals omap list_omap]. rewrite !app_nil_r. by split_and!. }
  apply clock_from_cons in Hc as [Hc1 Hc]. destruct (list_step_accounts sz t0 o i Ho Hc1) as (r1 & Hr1 & Hq1 & Hp1).
  destruct (IH _ _ (list_step_in_order sz t0 o i Ho Hc1) Hc) as (r & Hr & Hq & Hp). cbn [foldl].
  exists (r1 ++ r). rewrite arrivals_cons. split_and!.
  - by rewrite Hr, Hr1, app_assoc.
  - intros [-> ->]%app_eq_nil. by rewrite Hq, Hq1, app_assoc.
  - rewrite (Permutation_app_comm r1 r), app_assoc, Hp, app_assoc, <- Hp1. rewrite <- !app_assoc. 
    do 2 apply Permutation_app_head. apply Permutation_app_comm.
Qed.

(** C11: the queues of a processor deliver in order.  Whatever is done with an event when
    its time has come (as long as it does not panic), for every sequence of arrivals and
    ticks on a clock that does not go back, a ring of [sz] places behaves as the list of
    waiting events: an event is handled once, in the order of arrival, at the first look
    at the queue more than 100 ms after it arrived.  An event that finds [sz] events
    waiting is refused, which the code does not notice; if none is, the events handled
    and those that wait are all that arrived, in order. *)
Theorem delay_queue_in_order sz inputs t0 s
    (Hsz : 0 < sz) (Hclock : clock_from t0 inputs) (Hfine : Forall fine (arrivals inputs)) (Hgood : good s) :
  exists q q' s', NewRingBuffer sz = Ret q /\ delay_run inputs q s = Ret (q', s') /\
    let o := foldl (list_step sz) (mk_outcome [] [] []) inputs in
    process_all (delivered o) s = Ret s' /\ rep q' (waiting o) /\
    (refused o = [] -> delivered o ++ (waiting o).*1 = arrivals inputs) /\
    (delivered o ++ (waiting o).*1) ++ refused o ≡ₚ arrivals inputs.
Proof.
  destruct (NewRingBuffer_rep (A := A * Z) sz Hsz) as (q & E & Hr & Hz).
  assert (Ho : in_order t0 (waiting (mk_outcome [] [] []))) by (split; constructor).
  destruct (delay_simulates sz inputs t0 q (mk_outcome [] [] []) s) as (q' & s' & es & Eq & Hr' & Hd & Hp & _); [done..|].
  destruct (list_accounts sz inputs t0 (mk_outcome [] [] []) Ho Hclock) as (r & Hr1 & Hq & Hperm).
  exists q, q', s'. cbv zeta. rewrite Hd, Hr1. rewrite Hd in Hq, Hperm. by split_and!.
Qed.
End Delay.

(** ** Example *)

Definition ms (t : Z) : Z := t * 1000000.
Definition note_event (e : Z) (s : list Z) : go (list Z) := Ret (s ++ [e]).

(** A queue of two places: the third event finds it full and is lost. *)
Definition three_arrive : list (queue_input (A := Z)) :=
  [arrives (ms 0) (ms 0) 7; arrives (ms 50) (ms 50) 8; arrives (ms 60) (ms 61) 9; ticks (ms 101); ticks (ms 151)].

Lemma delay_queue_in_order_witness :
  exists q q' s', NewRingBuffer 2 = Ret q /\ delay_run note_event three_arrive q [] = Ret (q', s') /\ s' = [7; 8] /\
    refused (foldl (list_step 2) (mk_outcome [] [] []) three_arrive) = [9].
Proof.
  destruct (delay_queue_in_order note_event (fun _ => True) (fun _ => True) ltac:(by eexists) 2 three_arrive 0 [])
    as (q & q' & s' & H1 & H2 & H3 & _); [lia|by vm_compute|by repeat constructor|done|].
  exists q, q', s'. split; [exact H1|]. split; [exact H2|]. split; [|by vm_compute].
  vm_compute in H3. by injection H3.
Defined.
