(* ===== verification/AgentSafe.v ===== *)
(** * The agent never panics

    The handlers of [AgentConn.v], the connections of [ConnManager.v] and the loop of
    [Processor.v] together: whatever events arrive, in whatever order and at whatever
    times, every turn of a processor's loop returns.  A panic in a goroutine ends the
    whole agent, so this is what keeps it alive. *)

From stdpp Require Import gmap list sorting strings.
From Stdlib Require Import ZArith Lia.
From S2P Require Import Prelude.
From S2P Require Import Types.
From S2P Require Import SockKey.
From S2P Require Import Conn.
From S2P Require Import GoBase.
From S2P Require Import StreamBuffer.
From S2P Require Import RingBuffer.
From S2P Require Import KernEvents.
From S2P Require Import Protocol.
From S2P Require Import AgentConn.
From S2P Require Import ConnManager.
From S2P Require Import Records.
From S2P Require Import Redis.
From S2P Require Import Processor.
From S2P Require Import Delay.
Local Open Scope Z_scope.
Local Open Scope model_scope.

(** ** What data leaves alone *)

Section Frame.
Context {T P M : Type} `{TreeMap T} `{ParsedMessage M} `{!ProtocolStreamParser T P M}.
Variable now : nat -> Z.
Variable mills : Z -> Z.
Variable MaxAllowStuckTimeMills : Z.
Variable side : SideEnum.
Implicit Types c : Connection4 (T := T) (P := P) (M := M).

(** A part of a connection that does not depend on its buffers, queues, progress times,
    parser and clock, and that the discovery of the role leaves alone. *)
Context {X : Type}.
Variable part : Connection4 (T := T) (P := P) (M := M) -> X.
Variable ok : X -> Prop.
Hypothesis part_sbuf : forall w sb c, part (set_sbuf w sb c) = part c.
Hypothesis part_queue : forall w q c, part (set_queue w q c) = part c.
Hypothesis part_progress : forall w c, part (updateProgressTime now w c) = part c.
Hypothesis part_clock : forall c, part (c <| clock_readings ::= S |>) = part c.
Hypothesis part_parser : forall c p, part (c <| parser := p |>) = part c.
Hypothesis part_role : forall c r, ok (part c) -> Role c = kRoleUnknown ->
  part (resetParseProgress (onRoleChanged side (c <| Role := r |>))) = part c.

Lemma remove_prefix_part w n c c' : remove_prefix w n c = Ret c' -> part c' = part c.
Proof. unfold remove_prefix. intros (sb & _ & [= <-])%go_bind_inv. apply part_sbuf. Qed.

Lemma checkProgress_part w c r c' :
  checkProgress now mills MaxAllowStuckTimeMills w c = Ret (r, c') -> part c' = part c.
Proof.
  unfold checkProgress, time_now. intros E. destruct (getLastProgressTime w c =? 0); [injection E as _ <-; apply part_progress|].
  destruct (FindTimestampBySeq _ _). destruct (negb _ || _); [|injection E as _ <-; apply part_clock].
  apply go_bind_inv in E as (sb & _ & [= _ <-]). by rewrite part_sbuf, part_clock.
Qed.

Lemma stucked_part w c : part (progressIsStucked now mills MaxAllowStuckTimeMills w c).2 = part c.
Proof.
  unfold progressIsStucked, time_now. destruct (_ =? 0); [apply part_progress|]. destruct (FindTimestampBySeq _ _). apply part_clock.
Qed.

Lemma on_success_part w mt ke r c c' : on_success side w mt ke r c = Ret c' -> ok (part c) -> part c' = part c.
Proof.
  unfold on_success. intros E Hok. destruct (ParsedMessages r) as [|m ms]; [by apply remove_prefix_part in E|].
  case_decide; [injection E as <-; by apply part_role|].
  destruct (negb _); apply remove_prefix_part in E; rewrite E; [done|apply part_queue].
Qed.

Lemma on_invalid_part p w mt ke c r c' :
  on_invalid now mills MaxAllowStuckTimeMills p w mt ke c = Ret (r, c') -> part c' = part c.
Proof.
  unfold on_invalid. intros (pos & _ & E)%go_bind_inv. destruct (negb _).
  { apply go_bind_inv in E as (c1 & E & [= _ <-]). by apply remove_prefix_part in E. }
  pose proof (stucked_part w c) as Hs. destruct (progressIsStucked _ _ _ w c) as [st c1]. cbn [snd] in Hs.
  destruct st; [|by injection E as <- <-]. destruct (Head _) as [h|]; [|done]. destruct (_ >? _).
  - apply go_bind_inv in E as (c2 & E & [= _ <-]). by rewrite (remove_prefix_part _ _ _ _ E).
  - apply go_bind_inv in E as ([rm c2] & E & [= _ <-]). by rewrite (checkProgress_part _ _ _ _ E).
Qed.

Lemma parse_step_part p w mt ke c r c' :
  parse_step now mills MaxAllowStuckTimeMills side p w mt ke c = Ret (r, c') -> ok (part c) -> part c' = part c.
Proof.
  unfold parse_step. intros ([pr p'] & _ & E)%go_bind_inv Hok. rewrite <- (part_parser c (Some p')) in Hok |- *.
  destruct (parse_state pr).
  - by apply on_invalid_part in E.
  - apply go_bind_inv in E as ([rm c2] & E & [= _ <-]). by rewrite (checkProgress_part _ _ _ _ E).
  - apply go_bind_inv in E as (c2 & E & [= _ <-]). by rewrite (on_success_part _ _ _ _ _ _ E).
  - apply go_bind_inv in E as (c2 & E & [= _ <-]). by rewrite (remove_prefix_part _ _ _ _ E).
Qed.

Lemma parse_loop_part fuel w mt ke : forall c c',
  parse_loop now mills MaxAllowStuckTimeMills side fuel w mt ke c = Ret (Some c') -> ok (part c) -> part c' = part c.
Proof.
  induction fuel as [|fuel IH]; intros c c' E Hok; cbn [parse_loop] in E; destruct (StreamBuffer.IsEmpty _);
    try by (injection E as <- || discriminate E).
  destruct (parser c); [|done]. apply go_bind_inv in E as ([stop c1] & E1 & E).
  rewrite <- (parse_step_part _ _ _ _ _ _ _ E1 Hok) in Hok |- *. destruct stop; [by injection E as <-|by apply IH].
Qed.

Lemma parseStreamBuffer_part w mt ke c c' :
  parseStreamBuffer now mills MaxAllowStuckTimeMills side w mt ke c = Ret (Some c') -> ok (part c) -> part c' = part c.
Proof.
  unfold parseStreamBuffer. intros E Hok. destruct (parser c) as [p|]; [|by injection E as <-].
  destruct (StreamBuffer.IsEmpty _); [by injection E as <-|]. apply go_bind_inv in E as (pos & _ & E).
  apply go_bind_inv in E as (c1 & E1 & E). apply go_bind_inv in E as (r & E2 & E).
  assert (H1 : part c1 = part c).
  { destruct (_ >? 0); [by apply remove_prefix_part in E1|by injection E1 as <-]. }
  destruct r as [c2|]; [|done]. apply parse_loop_part in E2; [|by rewrite H1]. injection E as <-.
  destruct (_ || _); rewrite ?part_progress; congruence.
Qed.

Lemma add_data_part data ke c r c' : add_data data ke c = Ret (r, c') -> part c' = part c.
Proof.
  unfold add_data. intros E1. destruct (isReq c ke) as [w ok0]. apply go_bind_inv in E1 as (sb & _ & E1).
  apply go_bind_inv in E1 as ([r1 sb1] & _ & [= _ <-]). apply part_sbuf.
Qed.

Lemma try_parse_part data ke c r c' :
  addDataToBufferAndTryParse now mills MaxAllowStuckTimeMills side data ke c = Ret (Some (r, c')) ->
  ok (part c) -> part c' = part c.
Proof.
  unfold addDataToBufferAndTryParse. intros ([added c1] & E1%add_data_part & E)%go_bind_inv Hok.
  destruct (negb added); [by injection E as <- <-|]. apply go_bind_inv in E as (r2 & E2 & E).
  destruct r2 as [c2|]; [|done]. apply parseStreamBuffer_part in E2; [|by rewrite E1].
  apply go_bind_inv in E as (r3 & E3 & E). destruct r3 as [c3|]; [|done]. apply parseStreamBuffer_part in E3; [|by rewrite E2, E1].
  injection E as <- <-. congruence.
Qed.
End Frame.

(** Data does not touch the record of events. *)
Lemma try_parse_events {T P M} `{TreeMap T} `{ParsedMessage M} `{!ProtocolStreamParser T P M} now mills stuck side data ke
    (c : Connection4 (T := T) (P := P) (M := M)) r c' :
  addDataToBufferAndTryParse now mills stuck side data ke c = Ret (Some (r, c')) -> StreamEvents c' = StreamEvents c.
Proof.
  intros E. eapply (try_parse_part _ _ _ _ StreamEvents (fun _ => True)); try exact E; try done.
  - by intros [].
  - by intros [].
  - by intros [].
  - intros c0 r0 _ _. unfold onRoleChanged, UpdateConnectionTraceable.
    destruct (isSideNotMatched side _); by case_decide.
Qed.

(** ** The record of events *)

Definition same_ssl_lists (s s' : KernEventStream) : Prop := sslInEvents s' = sslInEvents s /\ sslOutEvents s' = sslOutEvents s.

Lemma discard_ssl_lists s s' : discardEventsIfNeeded s = Ret s' -> same_ssl_lists s s'.
Proof.
  assert (Hd : forall q eg s s', discardEventsBySeq s q eg = Ret s' -> same_ssl_lists s s').
  { intros q eg s1 s2. unfold discardEventsBySeq. by intros (m & _ & [= <-])%go_bind_inv. }
  unfold discardEventsIfNeeded. intros (s1 & E1 & E2)%go_bind_inv. assert (H1 : same_ssl_lists s s1).
  { destruct (egressDiscardSeq s =? 0); [by injection E1 as <-|by apply Hd in E1]. }
  destruct (ingressDiscardSeq s1 =? 0); [by injection E2 as <-|]. apply Hd in E2. destruct H1, E2. split; congruence.
Qed.

Lemma AddKernEvent_ssl_lists ifname s e r s' : AddKernEvent ifname s e = Ret (r, s') -> same_ssl_lists s s'.
Proof.
  unfold AddKernEvent. intros (s1 & E1%discard_ssl_lists & E)%go_bind_inv.
  destruct (_ >? 0); [|by injection E as <- <-].
  apply go_bind_inv in E as (ring & _ & E). apply go_bind_inv in E as ([i found] & _ & E).
  apply go_bind_inv in E as (o & _ & E). destruct (choose _ _ _) as [|k]; [by injection E as <- <-|].
  destruct (if (_ || _ : bool) then _ else _) as [ [k'|] st]; [|by injection E as <- <-].
  destruct found; [by injection E as <- <-|]. apply go_bind_inv in E as ([err ring'] & _ & E).
  destruct err; by injection E as <- <-.
Qed.

Definition events_ok (s : KernEventStream) : Prop :=
  (exists f, stream_holds s f) /\ ssl_sorted (sslInEvents s) /\ ssl_sorted (sslOutEvents s).

Lemma AddKernEvent_ok ifname s e : events_ok s -> exists r s', AddKernEvent ifname s e = Ret (r, s') /\ events_ok s'.
Proof.
  intros ([f Hf] & Hi & Ho). destruct (AddKernEvent_spec ifname s f e Hf) as (r & s' & l' & E & Hs & _).
  exists r, s'. split; [done|]. destruct (AddKernEvent_ssl_lists _ _ _ _ _ E) as [Ei Eo].
  unfold events_ok. rewrite Ei, Eo. by split; [eexists|].
Qed.

(** What [AddSslEvent] leaves alone. *)
Definition same_but_ssl (isIn : bool) (s s' : KernEventStream) : Prop :=
  kernEvents s' = kernEvents s /\ maxLen s' = maxLen s /\ ssl_list (negb isIn) s' = ssl_list (negb isIn) s.

Lemma discardSsl_same s isIn s' : discardSslEventsIfNeeded s isIn = Ret s' -> same_but_ssl isIn s s'.
Proof.
  assert (Hd : forall q s s', discardSslEventsBySeq s q (negb isIn) = Ret s' -> same_but_ssl isIn s s').
  { intros q s1 s2. unfold discardSslEventsBySeq. intros ([i f] & _ & E)%go_bind_inv.
    destruct (_ >? 0); [|by injection E as <-]. apply go_bind_inv in E as (l & _ & [= <-]). by destruct isIn. }
  unfold discardSslEventsIfNeeded. intros E.
  destruct isIn; destruct (_ =? 0); first [by injection E as <-|by apply (Hd _ _ _ E)].
Qed.

Lemma AddSslEvent_same s event s' :
  AddSslEvent s event = Ret s' -> same_but_ssl (bool_decide (ke_step (Ke event) = SSL_IN)) s s'.
Proof.
  unfold AddSslEvent. set (isIn := bool_decide _). intros (s1 & E1%discardSsl_same & E)%go_bind_inv.
  apply go_bind_inv in E as ([i found] & _ & E). destruct found; [by injection E as <-|].
  apply go_bind_inv in E as (l & _ & [= <-]). by destruct isIn.
Qed.

Lemma ssl_sorted_insert l1 l2 e k :
  ssl_sorted (l1 ++ l2) -> Forall (fun x => Seq x < Seq e) l1 -> Forall (fun x => Seq e < Seq x) l2 ->
  ssl_sorted (drop k (l1 ++ e :: l2)).
Proof.
  intros Hs H1 H2. unfold ssl_sorted in *. apply StronglySorted_app in Hs as (H12 & Hl1 & Hl2).
  assert (Ha : StronglySorted (fun a b => Seq a < Seq b) (l1 ++ e :: l2)).
  { apply StronglySorted_app_2; [|done|by constructor]. rewrite Forall_forall in H1.
    intros x y Hx [->|Hy]%elem_of_cons; [by apply H1|by apply H12]. }
  rewrite <- (take_drop k) in Ha. by apply StronglySorted_app_1_r in Ha.
Qed.

Lemma AddSslEvent_ok s event : events_ok s -> exists s', AddSslEvent s event = Ret s' /\ events_ok s'.
Proof.
  intros ([f Hf] & Hi & Ho). set (isIn := bool_decide (ke_step (Ke event) = SSL_IN)).
  assert (Hs : ssl_sorted (ssl_list isIn s)) by (by destruct isIn).
  assert (Hml : 0 <= maxLen s) by (destruct Hf; lia).
  destruct (AddSslEvent_spec s event Hml Hs) as (s' & E & Hres). exists s'. split; [done|].
  destruct (AddSslEvent_same _ _ _ E) as (Hk & Hm & Hother). fold isIn in Hother, Hres.
  destruct (discardSsl_spec s isIn Hs) as (_ & _ & _ & _ & Hkept).
  assert (Hnew : ssl_sorted (ssl_list isIn s')).
  { destruct Hres as [[_ ->]|(l1 & l2 & k & El & H1 & H2 & -> & _)]; [done|]. rewrite El in Hkept. by apply ssl_sorted_insert. }
  split. { exists f. unfold stream_holds. by rewrite Hk, Hm. }
  destruct isIn; cbn [negb ssl_list] in *; rewrite Hother; by split.
Qed.

(** ** The handlers of events *)

Section Handlers.
Context {T P M : Type} `{TreeMap T} `{ParsedMessage M} `{!ProtocolStreamParser T P M} `{!ParserLaws T P M}.
Context `{!MessageMatcher P M} `{!MatcherLaws P M}.
Variable now : nat -> Z.
Variable mills : Z -> Z.
Variable MaxAllowStuckTimeMills : Z.
Variable side : SideEnum.
Variable ifname : Z -> Z -> option string.
Implicit Types c : Connection4 (T := T) (P := P) (M := M).

Definition stream_ok c : Prop := conn_data c /\ events_ok (StreamEvents c).

(** Events as they come out of the rings of the probes: 32-bit fields, and as many bytes
    as the header says. *)
Definition syscall_ok (e : SyscallEventData) : Prop :=
  byte_list e.2 /\ zlen e.2 = BufSize e.1 /\ BufSize e.1 < 4294967296 /\
  0 <= ke_seq (se_Ke e.1) < 4294967296 /\ 0 < ke_len (se_Ke e.1) < 4294967296.
Definition ssl_ok (e : SslData) : Prop :=
  byte_list e.2 /\ zlen e.2 < 4294967296 /\ 0 <= ke_seq (Ke e.1) < 4294967296 /\ 0 <= ke_len (Ke e.1).

Lemma match_messages_ok c : stream_ok c -> exists c', match_messages c = Ret c' /\ stream_ok c'.
Proof.
  intros Hc. unfold match_messages. destruct (parser c) as [p|]; [|by exists c].
  destruct (match_total p (ReqQueue c) (RespQueue c)) as ([ [ [rs q] r] p'] & ->).
  eexists. split; [done|]. exact Hc.
Qed.

Lemma zeros_bytes n : byte_list (zeros n).
Proof. apply Forall_replicate. lia. Qed.

Lemma fake_bytes n buf : MakeNewFakeData n = Some buf -> 0 <= n < 4294967296 -> byte_list buf.
Proof.
  intros E Hn. destruct (Z.lt_ge_cases n 17); [by rewrite MakeNewFakeData_small in E by lia|].
  rewrite MakeNewFakeData_eq in E by lia. apply (inj Some) in E as <-. unfold byte_list. rewrite !Forall_app.
  split_and!; [by apply (bool_decide_unpack _)| |apply zeros_bytes].
  repeat constructor; unfold u8; apply Z.mod_pos_bound; lia.
Qed.

(** Stand-in data for [n] bytes. *)
Lemma filler_ok n : 0 < n < 4294967296 ->
  byte_list (default (zeros n) (MakeNewFakeData n)) /\ zlen (default (zeros n) (MakeNewFakeData n)) = n.
Proof.
  intros Hn. destruct (MakeNewFakeData n) as [buf|] eqn:E; cbn [default id].
  - split; [apply (fake_bytes _ _ E); lia|apply (MakeNewFakeData_len _ _ E); lia].
  - split; [apply zeros_bytes|]. unfold zlen, zeros. rewrite length_replicate. lia.
Qed.

Lemma syscall_data_ok e b data : syscall_ok e -> syscall_data e.2 e.1 b = Some data -> event_ok (data, se_Ke e.1).
Proof.
  intros (Hb & Hl & Hbs & Hq & Hk) E. unfold event_ok. cbn [fst snd].
  enough (byte_list data /\ 0 < zlen data < 4294967296) as (? & ?) by (split_and!; done || lia).
  unfold syscall_data in E. rewrite Z.gtb_ltb in E. destruct (Z.ltb_spec 0 (zlen e.2)) as [Hpos|_].
  - destruct b; [done|]. injection E as <-. unfold fillSyscallDataIfNeeded. rewrite Z.gtb_ltb.
    destruct (Z.ltb_spec (BufSize e.1) (ke_len (se_Ke e.1))); [|by split; [|lia] ]. rewrite u32_small by lia.
    destruct (filler_ok (ke_len (se_Ke e.1) - BufSize e.1)) as [Hf Hz]; [lia|].
    split; [by apply Forall_app|]. rewrite zlen_app, Hz. lia.
  - destruct (_ =? _); [injection E as <-; destruct (filler_ok _ Hk) as [? ->]; by split|].
    destruct (_ && _); [|done]. split; [apply (fake_bytes _ _ E); lia|]. rewrite (MakeNewFakeData_len _ _ E); lia.
Qed.

Lemma OnSyscallEvent_ok e c : syscall_ok e -> stream_ok c ->
  exists r c', OnSyscallEvent now mills MaxAllowStuckTimeMills side ifname e.2 e.1 c = Ret (Some (r, c')) /\ stream_ok c'.
Proof.
  intros He [Hd Hv]. unfold OnSyscallEvent.
  assert (exists r c1, match syscall_data e.2 e.1 (ssl c) with
    | Some data => addDataToBufferAndTryParse now mills MaxAllowStuckTimeMills side data (se_Ke e.1) c
    | None => Ret (Some (true, c)) end = Ret (Some (r, c1)) /\ stream_ok c1) as (r & c1 & -> & Hc1).
  { destruct (syscall_data _ _ _) as [data|] eqn:E; [|by exists true, c].
    destruct (try_parse_total now mills MaxAllowStuckTimeMills side data (se_Ke e.1) c (syscall_data_ok _ _ _ He E) Hd)
      as (r & c1 & E1 & Hd1). exists r, c1. split; [done|]. split; [done|]. by rewrite (try_parse_events _ _ _ _ _ _ _ _ _ E1). }
  cbn [mbind go_bind]. destruct r; [|by exists false, c1]. destruct Hc1 as [Hd1 Hv1]. unfold AddSyscallEvent.
  destruct (AddKernEvent_ok ifname _ (se_Ke e.1) Hv1) as (r & s & -> & Hs). cbn [mbind go_bind].
  destruct (match_messages_ok (c1 <| StreamEvents := s |>)) as (c2 & -> & Hc2); [by split|].
  by exists true, c2.
Qed.

Lemma OnSslDataEvent_ok e c : ssl_ok e -> stream_ok c ->
  exists c', OnSslDataEvent now mills MaxAllowStuckTimeMills side e.2 e.1 c = Ret (Some c') /\ stream_ok c'.
Proof.
  intros (Hb & Hl & Hq & Hk) [Hd Hv]. unfold OnSslDataEvent.
  assert (exists r c1, (if zlen e.2 >? 0 then addDataToBufferAndTryParse now mills MaxAllowStuckTimeMills side e.2 (Ke e.1) c
    else Ret (Some (true, c))) = Ret (Some (r, c1)) /\ stream_ok c1) as (r & c1 & -> & Hc1).
  { rewrite Z.gtb_ltb. destruct (Z.ltb_spec 0 (zlen e.2)); [|by exists true, c].
    destruct (try_parse_total now mills MaxAllowStuckTimeMills side e.2 (Ke e.1) c) as (r & c1 & E1 & Hd1);
      [unfold event_ok; cbn [fst snd]; split_and!; done || lia|done|].
    exists r, c1. split; [done|]. split; [done|]. by rewrite (try_parse_events _ _ _ _ _ _ _ _ _ E1). }
  cbn [mbind go_bind]. destruct Hc1 as [Hd1 Hv1].
  destruct (AddSslEvent_ok (StreamEvents (c1 <| ssl := true |>)) e.1) as (s & -> & Hs); [done|]. cbn [mbind go_bind].
  destruct (match_messages_ok (c1 <| ssl := true |> <| StreamEvents := s |>)) as (c2 & -> & Hc2); [by split|]. by exists c2.
Qed.

Lemma OnKernEvent_ok e c : stream_ok c -> exists r c', OnKernEvent ifname e c = Ret (r, c') /\ stream_ok c'.
Proof.
  intros [Hd Hv]. unfold OnKernEvent. destruct (isReq c e) as [w ok]. destruct (ke_len e >? 0).
  - destruct (AddKernEvent_ok ifname _ e Hv) as (r & s & -> & Hs). eexists _, _. split; [done|]. by split.
  - destruct ok; [|by exists true, c]. eexists _, _. split; [done|].
    destruct (_ && _); destruct (_ && _); by split.
Qed.
End Handlers.

(** ** Connections and the processor *)

Section Loop.
Context {T P M : Type} `{TreeMap T} `{ParsedMessage M} `{!ProtocolStreamParser T P M} `{!ParserLaws T P M}.
Context `{!MessageMatcher P M} `{!MatcherLaws P M}.
Variable clock : nat -> Z.
Variable mills : Z -> Z.
Variable MaxAllowStuckTimeMills : Z.
Variable side : SideEnum.
Variable ifname : Z -> Z -> option string.
Variable LaunchEpochTime : Z.
Variable GetParserByProtocol : traffic_protocol_t -> option P.
Variable MessageFilter : ProtocolFilter M.
Abbreviation connection := (connection (T := T) (P := P) (M := M)).
Abbreviation store := (store (T := T) (P := P) (M := M)).
Abbreviation Processor := (Processor (T := T) (P := P) (M := M)).
Implicit Types (c : connection) (s : store) (p : Processor) (l : nat).

Definition conn_fine c : Prop :=
  stream_ok (stream c) /\ Forall syscall_ok (TempSyscallEvents c) /\ Forall ssl_ok (TempSslEvents c).

Definition handler_ok (f : connection -> go (list (Record_ M) * connection)) : Prop :=
  forall c, conn_fine c -> exists rs c', f c = Ret (rs, c') /\ conn_fine c' /\ prevConn c' = prevConn c.

Lemma handler_none (g : connection -> connection) :
  (forall c, conn_fine c -> conn_fine (g c) /\ prevConn (g c) = prevConn c) -> handler_ok (fun c => Ret ([], g c)).
Proof. intros Hg c Hc. exists [], (g c). destruct (Hg c Hc). by split_and!. Qed.

Lemma with_parser_ok f :
  (forall st, stream_ok st -> exists st', f st = Ret (Some st') /\ stream_ok st') ->
  handler_ok (with_parser GetParserByProtocol f).
Proof.
  intros Hf c (Hs & Hy & Hl). unfold with_parser.
  assert (exists q c1, GetProtocolParser GetParserByProtocol c (conn_protocol c) = (q, c1) /\ conn_fine c1 /\ prevConn c1 = prevConn c)
    as (q & c1 & -> & (Hs1 & Hy1 & Hl1) & Hp1).
  { unfold GetProtocolParser. destruct (protocolParsers c !! _); eexists _, _; by split_and!. }
  destruct (Hf (stream c1 <| parser := q |> <| recordChannel := [] |>)) as (st & E & Hst); [exact Hs1|].
  unfold must. rewrite E. cbn [mbind go_bind]. eexists _, _. by split_and!.
Qed.

Lemma conn_OnSyscallEvent_ok e :
  syscall_ok e -> handler_ok (conn_OnSyscallEvent clock mills MaxAllowStuckTimeMills side ifname GetParserByProtocol e).
Proof.
  intros He. apply with_parser_ok. intros st Hst.
  destruct (OnSyscallEvent_ok clock mills MaxAllowStuckTimeMills side ifname e st He Hst) as (r & st' & -> & Hst').
  by exists st'.
Qed.

Lemma conn_OnSslDataEvent_ok e :
  ssl_ok e -> handler_ok (conn_OnSslDataEvent clock mills MaxAllowStuckTimeMills side GetParserByProtocol e).
Proof. intros He. apply with_parser_ok. intros st Hst. by apply OnSslDataEvent_ok. Qed.

Lemma conn_OnKernEvent_ok e c : conn_fine c ->
  exists r c', conn_OnKernEvent ifname e c = Ret (r, c') /\ conn_fine c' /\ prevConn c' = prevConn c.
Proof.
  intros (Hs & Hy & Hl). unfold conn_OnKernEvent. destruct (OnKernEvent_ok ifname e _ Hs) as (r & st & -> & Hst).
  eexists _, _. by split_and!.
Qed.

(** A call of [OnKernEvent] whose result is not looked at. *)
Lemma drop_result_ok e : handler_ok (fun c => do (_, c) <- conn_OnKernEvent ifname e c; Ret ([], c)).
Proof. intros c Hc. destruct (conn_OnKernEvent_ok e c Hc) as (r & c' & -> & ? & ?). eexists _, _. by split_and!. Qed.

Lemma kern_event_to_ok e : handler_ok (kern_event_to ifname e).
Proof.
  intros c Hc. unfold kern_event_to. destruct (negb _); [by exists [], c|]. destruct (_ && _).
  - case_decide; [|case_decide; [by exists [], c|by apply drop_result_ok] ].
    destruct (conn_OnKernEvent_ok e c Hc) as (r & c' & -> & Hc' & Hp). eexists _, _. split; [done|]. by destruct r.
  - destruct (_ >? 0); [by exists [], c|]. destruct (_ =? 0); [by apply drop_result_ok|by exists [], c].
Qed.

Lemma keep_syscall_ok e : syscall_ok e -> handler_ok (fun c => Ret ([], keep_syscall_event c e)).
Proof.
  intros He. apply handler_none. intros c (? & ? & ?). split; [|done]. split_and!; [done| |done].
  change (Forall syscall_ok (TempSyscallEvents c ++ [e])). apply Forall_app. split; [done|by apply Forall_singleton].
Qed.
Lemma keep_ssl_ok e : ssl_ok e -> handler_ok (fun c => Ret ([], keep_ssl_event c e)).
Proof.
  intros He. apply handler_none. intros c (? & ? & ?). split; [|done]. split_and!; [done|done|].
  change (Forall ssl_ok (TempSslEvents c ++ [e])). apply Forall_app. split; [done|by apply Forall_singleton].
Qed.

Lemma syscall_event_to_ok e :
  syscall_ok e -> handler_ok (syscall_event_to clock mills MaxAllowStuckTimeMills side ifname GetParserByProtocol e).
Proof.
  intros He c Hc. unfold syscall_event_to. destruct (negb _); [by exists [], c|].
  destruct (_ && _); [by apply conn_OnSyscallEvent_ok|]. case_decide; [by apply keep_syscall_ok|by exists [], c].
Qed.

Lemma ssl_event_to_ok e :
  ssl_ok e -> handler_ok (ssl_event_to clock mills MaxAllowStuckTimeMills side GetParserByProtocol e).
Proof.
  intros He c Hc. unfold ssl_event_to. destruct (negb _); [by exists [], c|].
  destruct (ProtocolInferred c); [by apply conn_OnSslDataEvent_ok|].
  repeat (case_decide; [by apply keep_ssl_ok|]). by exists [], c.
Qed.

(** ** The protocol becomes known *)

Lemma replay_ok {E} (at_ts : E -> Z) h (es : list E) : Forall (fun e => handler_ok (h e)) es -> handler_ok (replay at_ts h es).
Proof.
  induction 1 as [|e es He _ IH]; intros c Hc; cbn [replay]; [by exists [], c|].
  assert (exists rs c1, (if timeBoundCheck c (at_ts e) then h e c else Ret ([], c)) = Ret (rs, c1) /\ conn_fine c1 /\
    prevConn c1 = prevConn c) as (rs & c1 & -> & Hc1 & Hp1).
  { destruct (timeBoundCheck c _); [by apply He|by exists [], c]. }
  unfold go_then. cbn [mbind go_bind]. destruct (IH c1 Hc1) as (rs' & c2 & -> & Hc2 & Hp2). eexists _, _.
  split; [done|]. split; [done|]. congruence.
Qed.

Lemma update_traceable_ok t c : conn_fine c -> conn_fine (update_traceable t c) /\ prevConn (update_traceable t c) = prevConn c.
Proof. intros Hc. unfold update_traceable, UpdateConnectionTraceable, conn_fine. fsimp_goal. split; [|done]. by case_decide. Qed.

Lemma replay_kept_ok : handler_ok (replay_kept clock mills MaxAllowStuckTimeMills side ifname GetParserByProtocol).
Proof.
  intros c Hc. unfold replay_kept, go_then. pose proof Hc as (_ & Hy & _).
  destruct (replay_ok (fun e => end_ts (se_Ke e.1)) (conn_OnSyscallEvent clock mills MaxAllowStuckTimeMills side ifname GetParserByProtocol)
    (TempSyscallEvents c)) with (c := c) as (rs1 & c1 & -> & (Hs1 & _ & Hl1) & Hp1); [|done|].
  { eapply Forall_impl; [exact Hy|]. apply conn_OnSyscallEvent_ok. }
  cbn [mbind go_bind]. set (c1' := c1 <| TempSyscallEvents := [] |>).
  destruct (replay_ok (fun e => end_ts (Ke e.1)) (conn_OnSslDataEvent clock mills MaxAllowStuckTimeMills side GetParserByProtocol)
    (TempSslEvents c1')) with (c := c1') as (rs2 & c2 & -> & (Hs2 & Hy2 & _) & Hp2);
    [eapply Forall_impl; [exact Hl1|apply conn_OnSslDataEvent_ok]|by split_and!|].
  cbn [mbind go_bind]. destruct (update_traceable_ok traceable (c2 <| TempSslEvents := [] |>)) as [Hc3 Hp3]; [by split_and!|].
  set (c3 := update_traceable traceable _) in *.
  destruct (replay_ok ke_ts (fun e c => conn_OnKernEvent ifname e c ≫= fun '(_, c) => Ret ([], c)) (TempKernEvents c3))
    with (c := c3) as (rs3 & c4 & -> & Hc4 & Hp4); [by apply Forall_true; intros; apply drop_result_ok|done|].
  cbn [mbind go_bind]. eexists _, _. split; [done|]. split; [exact Hc4|].
  change (prevConn c4 = prevConn c). rewrite Hp4, Hp3. change (prevConn c2 = prevConn c). rewrite Hp2. exact Hp1.
Qed.

Lemma protocol_inferred_ok role :
  handler_ok (protocol_inferred clock mills MaxAllowStuckTimeMills side ifname GetParserByProtocol MessageFilter role).
Proof.
  intros c Hc. unfold protocol_inferred. set (c0 := if bool_decide (Role (stream c) = kRoleUnknown) && _ then _ else c).
  assert (Hc0 : conn_fine c0 /\ prevConn c0 = prevConn c).
  { subst c0. destruct (_ && _); [|done]. unfold onRoleChanged, conn_fine. fsimp_goal. split; [|done].
    destruct (isSideNotMatched side _); unfold UpdateConnectionTraceable; by case_decide. }
  destruct Hc0 as [Hc0 Hp0]. clearbody c0. rewrite <- Hp0. destruct (_ && _).
  - assert (exists rs c1, (if decide (conn_protocol c0 = kProtocolUnknown) then Ret ([], c0) else
      replay_kept clock mills MaxAllowStuckTimeMills side ifname GetParserByProtocol c0) = Ret (rs, c1) /\
      conn_fine c1 /\ prevConn c1 = prevConn c0) as (rs & c1 & -> & Hc1 & Hp1).
    { case_decide; [by exists [], c0|by apply replay_kept_ok]. }
    eexists _, _. split; [done|]. by split.
  - case_decide; [|destruct (negb _)]; eexists _, _; (split; [done|]); by apply update_traceable_ok.
Qed.

(** ** The connections *)

Record safe s : Prop := mk_safe {
  safe_pointers : pointers_ok s;
  safe_current k l : connMap s !! k = Some l -> (l < length (heap s))%nat;
  safe_conns l c : heap s !! l = Some c -> conn_fine c;
}.

Lemma safe_same s s' : same_conns s s' -> safe s -> safe s'.
Proof.
  intros [Hh Hm] [Hp Hk Hc]. split; [by eapply pointers_same|..]; rewrite Hh; [|done].
  intros k l. rewrite Hm. by apply Hk.
Qed.

Lemma safe_set l f s :
  (forall c, heap s !! l = Some c -> conn_fine (f c) /\ (prevConn (f c) = [] \/ prevConn (f c) = prevConn c)) ->
  safe s -> safe (set_conn l f s).
Proof.
  intros Hf [Hp Hk Hc]. split.
  - intros l' c' Hl'. rewrite length_set. rewrite heap_set in Hl'. case_decide; [subst|by eapply Hp].
    destruct (heap s !! l) as [c|] eqn:E; [|done]. injection Hl' as <-.
    destruct (Hf c eq_refl) as [_ [->| ->] ]; [done|]. by eapply Hp.
  - intros k l'. rewrite length_set. apply Hk.
  - intros l' c' Hl'. rewrite heap_set in Hl'. case_decide; [subst|by eapply Hc].
    destruct (heap s !! l) as [c|] eqn:E; [|done]. injection Hl' as <-. by apply Hf.
Qed.

Lemma find_open_in s ts ls :
  Forall (fun l => (l < length (heap s))%nat) ls ->
  exists r, find_open s ts ls = Ret r /\ forall l, r = Some l -> (l < length (heap s))%nat.
Proof.
  induction 1 as [|l ls Hl _ IH]; cbn [find_open]; [by exists None|].
  destruct (deref_in s l Hl) as (c & -> & _). cbn [mbind go_bind]. destruct (timeBoundCheck c ts); [|done].
  exists (Some l). split; [done|]. by intros ? [= <-].
Qed.

Lemma lookup_in s k ts :
  safe s -> exists r, LookupConnection4ByTimestamp s k ts = Ret r /\ forall l, r = Some l -> (l < length (heap s))%nat.
Proof.
  intros [Hp Hk _]. unfold LookupConnection4ByTimestamp. destruct (connMap s !! k) as [l|] eqn:E; [|by exists None].
  destruct (deref_in s l (Hk k l E)) as (c & -> & Hc). cbn [mbind go_bind]. destruct (_ <? _).
  - exists (Some l). split; [done|]. intros ? [= <-]. by eapply Hk.
  - apply find_open_in, Forall_rev. by eapply Hp.
Qed.

Lemma new_conn_fine event : conn_fine (connection_of LaunchEpochTime event).
Proof.
  split_and!; [|by constructor|by constructor]. split; [split; by constructor|].
  split; [|split; by constructor]. exists (fun _ => []). split; [done|]. intros st. cbn. by rewrite lookup_empty.
Qed.

Lemma NewConn_safe event s : safe s -> safe (NewConn LaunchEpochTime event s).2.
Proof.
  intros [Hp Hk Hc]. assert (Hlen : length (heap (NewConn LaunchEpochTime event s).2) = S (length (heap s))).
  { unfold NewConn. cbn [snd]. fsimp_goal. rewrite length_app. cbn. lia. }
  assert (Hl : forall l c, heap (NewConn LaunchEpochTime event s).2 !! l = Some c ->
    heap s !! l = Some c \/ c = connection_of LaunchEpochTime event).
  { intros l c. unfold NewConn. cbn [snd]. fsimp_goal. intros [?|(_ & Hl)]%lookup_app_Some; [by left|right].
    apply list_lookup_singleton_Some in Hl as [_ <-]. done. }
  split.
  - intros l c Hlc. rewrite Hlen. destruct (Hl l c Hlc) as [Ho| ->]; [|done].
    eapply Forall_impl; [by eapply Hp|]. cbv beta. intros. lia.
  - intros k l Hkl. rewrite Hlen. change (connMap s !! k = Some l) in Hkl. specialize (Hk k l Hkl). lia.
  - intros l c Hlc. destruct (Hl l c Hlc) as [Ho| ->]; [by eapply Hc|apply new_conn_fine].
Qed.

Lemma safe_put s k l :
  safe s -> (l < length (heap s))%nat -> safe (s <| connMap ::= <[k := l]> |> <| connectionAdded ::= fun n => n + 1 |>).
Proof.
  intros [Hp Hk Hc] Hl. split; [done| |done]. intros k' l'. fsimp_goal.
  intros [ [_ <-]|[_ ?] ]%lookup_insert_Some; [done|by eapply Hk].
Qed.

(** The connection that replaces another in the chain: its [prevConn] points into the
    heap. *)
Lemma safe_adopt s l f prev :
  Forall (fun x => (x < length (heap s))%nat) prev ->
  (forall c, heap s !! l = Some c -> conn_fine (f c) /\ prevConn (f c) = prev) -> safe s -> safe (set_conn l f s).
Proof.
  intros Hprev Hf [Hp Hk Hc]. split.
  - intros l' c' Hl'. rewrite length_set. rewrite heap_set in Hl'. case_decide; [subst|by eapply Hp].
    destruct (heap s !! l) as [c|] eqn:E; [|done]. injection Hl' as <-. by destruct (Hf c eq_refl) as [_ ->].
  - intros k l'. rewrite length_set. apply Hk.
  - intros l' c' Hl'. rewrite heap_set in Hl'. case_decide; [subst|by eapply Hc].
    destruct (heap s !! l) as [c|] eqn:E; [|done]. injection Hl' as <-. by apply Hf.
Qed.

Lemma AddConnection4_safe s k l :
  safe s -> (l < length (heap s))%nat ->
  exists s', AddConnection4 k l s = Ret s' /\ safe s' /\ length (heap s') = length (heap s).
Proof.
  intros Hs Hl. unfold AddConnection4, FindConnection4Exactly. destruct (connMap s !! k) as [el|] eqn:Ek.
  2:{ eexists. split; [done|]. split; [by apply safe_put|done]. }
  pose proof (safe_current s Hs k el Ek) as Hel. destruct (deref_in s el Hel) as (ex & -> & Hex).
  destruct (deref_in s l Hl) as (n & -> & Hn). cbn [mbind go_bind]. destruct (negb _); [|by exists s].
  set (s1 := set_conn el _ s).
  pose proof (safe_pointers s Hs el ex Hex) as Hprev. pose proof (safe_conns s Hs el ex Hex) as (_ & Hy & Hss).
  assert (Hs1 : safe s1).
  { apply safe_set; [|done]. intros c Hc. split; [|by left]. by apply (safe_conns s Hs el c Hc). }
  assert (Hlen1 : length (heap s1) = length (heap s)) by apply length_set.
  rewrite <- Hlen1 in Hprev, Hl, Hel. destruct (last_closed_ok s1 (prevConn ex) Hprev) as (r & -> & _). cbn [mbind go_bind].
  destruct (remove_closed_ok s1 (prevConn ex) r (safe_pointers s1 Hs1) Hprev) as (s2 & j & E & H12).
  unfold go_then. rewrite E. cbn [mbind go_bind]. pose proof (safe_same s1 s2 H12 Hs1) as Hs2.
  assert (Hlen2 : length (heap s2) = length (heap s1)) by (by destruct H12 as [-> _]).
  set (adopt := fun c : connection => c <| prevConn := _ |> <| TempSyscallEvents ::= _ |> <| TempKernEvents ::= _ |> <| TempSslEvents ::= _ |>).
  assert (Hs3 : safe (set_conn l adopt s2)).
  { apply (safe_adopt _ _ _ (drop j (prevConn ex) ++ [el])); [|intros c Hc; split; [|done]|done].
    - rewrite Hlen2. apply Forall_app. split; [by apply Forall_drop|by apply Forall_singleton].
    - destruct (safe_conns s2 Hs2 l c Hc) as (Hst & Hyc & Hsc). split_and!; [done|by apply Forall_app_2..]. }
  eexists. split; [done|]. split.
  - apply safe_put; [|by rewrite !length_set, Hlen2]. apply safe_set; [|done]. intros c Hc. split; [|by right].
    destruct (safe_conns _ Hs3 el c Hc) as (Hst & _ & _). split_and!; [done|by constructor..].
  - fsimp_goal. by rewrite !length_set, Hlen2.
Qed.

Lemma delete_all_safe ks : forall s,
  safe s -> exists s', delete_all ks s = Ret s' /\ safe s' /\ heap s' = heap s.
Proof.
  induction ks as [|k ks IH]; intros s Hs; cbn [delete_all]; [by exists s|].
  destruct (connMap s !! k) as [l|] eqn:Hk; cbn [mbind go_bind]; [|by apply IH].
  assert (Hs1 : safe (s <| connMap ::= delete k |>)).
  { destruct Hs as [Hp Hc Hf]. split; [done| |done]. intros k' l' Hk'. fsimp. apply lookup_delete_Some in Hk' as [_ Hk'].
    by eapply Hc. }
  destruct (RemoveConn_ok (s <| connMap ::= delete k |>) l) as (s2 & -> & H12);
    [apply Hs1|by eapply (safe_current s Hs k)|]. cbn [mbind go_bind].
  destruct (IH s2 (safe_same _ _ H12 Hs1)) as (s3 & -> & ? & Hh). exists s3. split; [done|]. split; [done|].
  rewrite Hh. by destruct H12 as [-> _].
Qed.

Lemma collect_safe s : safe s -> exists s', collect s = Ret s' /\ safe s' /\ length (heap s') = length (heap s).
Proof.
  intros Hs. unfold collect. destruct (delete_all_safe (filter (fun kl => is_closed s kl) (map_to_list (connMap s))).*1 s Hs)
    as (s1 & -> & Hs1 & Hh). cbn [mbind go_bind]. eexists. split; [done|]. split; [by apply (safe_same s1)|]. fsimp_goal. by rewrite Hh.
Qed.

(** ** The processor *)

Definition ring_of {A} (ok : A -> Prop) (q : RingBuffer (A * Z)) : Prop := exists w : list (A * Z), rep q w /\ Forall ok w.*1.
Definition conn_exists s (e : kern_evt * nat) : Prop := (e.2 < length (heap s))%nat.

Record proc_ok p : Prop := mk_proc_ok {
  ok_conns : safe (connManager p);
  ok_kern : ring_of (fun _ => True) (tempKernEvents p);
  ok_syscall : ring_of syscall_ok (tempSyscallEvents p);
  ok_ssl : ring_of ssl_ok (tempSslEvents p);
  ok_first : ring_of (conn_exists (connManager p)) (tempFirstPacketEvents p);
}.

Lemma ring_of_impl {A} (ok ok' : A -> Prop) q : (forall e, ok e -> ok' e) -> ring_of ok q -> ring_of ok' q.
Proof. intros Hi (l & Hr & Hl). exists l. split; [done|]. by eapply Forall_impl. Qed.

(** The rings stay, the connections stay safe and none disappears. *)
Definition same_rings p p' : Prop :=
  tempKernEvents p' = tempKernEvents p /\ tempSyscallEvents p' = tempSyscallEvents p /\
  tempSslEvents p' = tempSslEvents p /\ tempFirstPacketEvents p' = tempFirstPacketEvents p.

Lemma proc_ok_conns p p' :
  same_rings p p' -> safe (connManager p') -> (length (heap (connManager p)) <= length (heap (connManager p')))%nat ->
  proc_ok p -> proc_ok p'.
Proof.
  intros (Ek & Ey & El & Ef) Hs Hlen [_ Hk Hy Hl Hf]. split; [done|by rewrite ?Ek, ?Ey, ?El..|].
  rewrite Ef. eapply ring_of_impl; [|exact Hf]. unfold conn_exists. intros. lia.
Qed.

(** What a handler does to a processor. *)
Definition step_ok p (m : go Processor) : Prop := exists p', m = Ret p' /\ proc_ok p' /\ same_rings p p' /\
  (length (heap (connManager p)) <= length (heap (connManager p')))%nat.

Lemma step_ok_same p : proc_ok p -> step_ok p (Ret p).
Proof. intros Hp. by exists p. Qed.

Lemma on_conn_ok l f p : proc_ok p -> (l < length (heap (connManager p)))%nat -> handler_ok f -> step_ok p (on_conn l f p).
Proof.
  intros Hp Hl Hf. unfold on_conn. destruct (deref_in (connManager p) l Hl) as (c & -> & Hc). cbn [mbind go_bind].
  destruct (Hf c) as (rs & c' & -> & Hc' & Hprev); [by eapply safe_conns; [apply Hp|]|]. unfold go_then. cbn [mbind go_bind].
  eexists. split; [done|]. assert (Hlen : length (heap (set_conn l (fun _ => c') (connManager p))) = length (heap (connManager p)))
    by apply length_set.
  split; [|split; [done|] ]; [|fsimp_goal; by rewrite Hlen].
  apply (proc_ok_conns p); [done|..|done]; fsimp_goal; [|by rewrite Hlen].
  apply safe_set; [|apply Hp]. intros c0 Hc0. rewrite Hc in Hc0. injection Hc0 as <-. split; [done|by right].
Qed.

Lemma to_connection_ok k ts f p : proc_ok p -> handler_ok f -> step_ok p (to_connection k ts f p).
Proof.
  intros Hp Hf. unfold to_connection. destruct (lookup_in (connManager p) k ts) as (r & -> & Hr); [apply Hp|].
  cbn [mbind go_bind]. destruct r as [l|]; [|by apply step_ok_same]. apply on_conn_ok; [done|by apply Hr|done].
Qed.

Lemma processKernEvent_ok e p : proc_ok p -> step_ok p (processKernEvent ifname LaunchEpochTime e p).
Proof. intros Hp. apply to_connection_ok; [done|apply kern_event_to_ok]. Qed.

Lemma processSyscallEvent_ok e p : syscall_ok e -> proc_ok p ->
  step_ok p (processSyscallEvent clock mills MaxAllowStuckTimeMills side ifname LaunchEpochTime GetParserByProtocol e p).
Proof. intros He Hp. apply to_connection_ok; [done|]. by apply syscall_event_to_ok. Qed.

Lemma processSslEvent_ok e p : ssl_ok e -> proc_ok p ->
  step_ok p (processSslEvent clock mills MaxAllowStuckTimeMills side LaunchEpochTime GetParserByProtocol e p).
Proof. intros He Hp. apply to_connection_ok; [done|]. by apply ssl_event_to_ok. Qed.

Lemma processFirstPacketEvent_ok e p : conn_exists (connManager p) e -> proc_ok p ->
  step_ok p (processFirstPacketEvent ifname LaunchEpochTime e p).
Proof. intros He Hp. apply on_conn_ok; [done|done|apply drop_result_ok]. Qed.

(** ** The rings *)

Section Ring.
Context {A : Type}.
Variable process : A -> Processor -> go Processor.
Variable ok : Processor -> A -> Prop.
Hypothesis process_ok : forall e p, ok p e -> proc_ok p -> step_ok p (process e p).
Hypothesis ok_later : forall e p p', (length (heap (connManager p)) <= length (heap (connManager p')))%nat -> ok p e -> ok p' e.

Lemma same_rings_trans p1 p2 p3 : same_rings p1 p2 -> same_rings p2 p3 -> same_rings p1 p3.
Proof. intros (? & ? & ? & ?) (? & ? & ? & ?). unfold same_rings. split_and!; congruence. Qed.

Lemma process_all_ok es p : Forall (ok p) es -> proc_ok p -> step_ok p (process_all process es p).
Proof.
  revert p. induction es as [|e es IH]; intros p He Hp; cbn [process_all]; [by apply step_ok_same|].
  apply Forall_cons in He as [He Hes]. destruct (process_ok e p He Hp) as (p1 & -> & Hp1 & Hr1 & Hl1). cbn [mbind go_bind].
  destruct (IH p1) as (p2 & E & Hp2 & Hr2 & Hl2); [|done|].
  { eapply Forall_impl; [exact Hes|]. intros x. by apply ok_later. }
  exists p2. split; [done|]. split; [done|]. split; [by eapply same_rings_trans|lia].
Qed.

Lemma split_old_ok now (l : list (A * Z)) (Q : A -> Prop) : Forall Q l.*1 -> Forall Q (split_old now l).1 /\ Forall Q (split_old now l).2.*1.
Proof.
  induction l as [|x l IH]; cbn [split_old]; [done|]. intros [Hx Hl]%Forall_cons. case_decide; [|by split; [|constructor] ].
  specialize (IH Hl). destruct (split_old now l) as [es rest]. destruct IH. split; [by constructor|done].
Qed.

Lemma processOld_ok now q p :
  ring_of (ok p) q -> proc_ok p ->
  exists q' p', processOld process now q p = Ret (q', p') /\ ring_of (ok p') q' /\ proc_ok p' /\ same_rings p p' /\
    (length (heap (connManager p)) <= length (heap (connManager p')))%nat.
Proof.
  intros (l & Hr & Hl) Hp. destruct (split_old_ok now l (ok p) Hl) as [H1 H2].
  pose proof (processOld_rep process now q l p Hr) as Hq.
  destruct (process_all_ok (split_old now l).1 p H1 Hp) as (p' & E & Hp' & Hrr & Hlen). rewrite E in Hq.
  destruct Hq as (q' & Eq & Hr' & _). exists q', p'. split_and!; try done. exists (split_old now l).2. split; [done|].
  eapply Forall_impl; [exact H2|]. intros x. by apply ok_later.
Qed.

Lemma handle_ok arrived now e q p :
  ok p e -> ring_of (ok p) q -> proc_ok p ->
  exists q' p', handle process arrived now e q p = Ret (q', p') /\ ring_of (ok p') q' /\ proc_ok p' /\ same_rings p p' /\
    (length (heap (connManager p)) <= length (heap (connManager p')))%nat.
Proof.
  intros He (l & Hr & Hl) Hp. unfold handle, go_then. pose proof (Write_rep q l (e, arrived) Hr) as Hw.
  case_decide.
  - destruct Hw as (q1 & -> & Hr1 & _). cbn [mbind go_bind]. apply processOld_ok; [|done]. exists (l ++ [(e, arrived)]).
    split; [done|]. rewrite fmap_app. apply Forall_app. split; [done|by apply Forall_singleton].
  - rewrite Hw. cbn [mbind go_bind]. apply processOld_ok; [|done]. by exists l.
Qed.
End Ring.

(** ** One turn of the loop *)

Abbreviation run_step := (run_step clock mills MaxAllowStuckTimeMills side ifname LaunchEpochTime GetParserByProtocol MessageFilter).

(** After a look at a queue, the ring is put back. *)
Ltac queue_turn turn :=
  destruct turn as (q & p' & E & Hq & [] & _ & _); [first [done|by apply ok_kern|by apply ok_syscall|by apply ok_ssl|by apply ok_first]..|];
  unfold go_then; rewrite E; eexists; split; [done|by split].

Lemma old_kern_ok now p : proc_ok p -> exists p', processOldKernEvents ifname LaunchEpochTime now p = Ret p' /\ proc_ok p'.
Proof.
  intros Hp. unfold processOldKernEvents. queue_turn (processOld_ok (processKernEvent ifname LaunchEpochTime) (fun _ _ => True)
    ltac:(intros; by apply processKernEvent_ok) ltac:(done) now (tempKernEvents p) p).
Qed.
Lemma handle_kern_ok arrived now e p :
  proc_ok p -> exists p', handleKernEvent ifname LaunchEpochTime arrived now e p = Ret p' /\ proc_ok p'.
Proof.
  intros Hp. unfold handleKernEvent. queue_turn (handle_ok (processKernEvent ifname LaunchEpochTime) (fun _ _ => True)
    ltac:(intros; by apply processKernEvent_ok) ltac:(done) arrived now e (tempKernEvents p) p).
Qed.

Abbreviation process_syscall := (processSyscallEvent clock mills MaxAllowStuckTimeMills side ifname LaunchEpochTime GetParserByProtocol).
Lemma old_syscall_ok now p : proc_ok p ->
  exists p', processOldSyscallEvents clock mills MaxAllowStuckTimeMills side ifname LaunchEpochTime GetParserByProtocol now p = Ret p' /\ proc_ok p'.
Proof.
  intros Hp. unfold processOldSyscallEvents. queue_turn (processOld_ok process_syscall (fun _ => syscall_ok)
    ltac:(intros; by apply processSyscallEvent_ok) ltac:(done) now (tempSyscallEvents p) p).
Qed.
Lemma handle_syscall_ok arrived now e p : syscall_ok e -> proc_ok p ->
  exists p', handleSyscallEvent clock mills MaxAllowStuckTimeMills side ifname LaunchEpochTime GetParserByProtocol arrived now e p = Ret p' /\ proc_ok p'.
Proof.
  intros He Hp. unfold handleSyscallEvent. queue_turn (handle_ok process_syscall (fun _ => syscall_ok)
    ltac:(intros; by apply processSyscallEvent_ok) ltac:(done) arrived now e (tempSyscallEvents p) p).
Qed.

Abbreviation process_ssl := (processSslEvent clock mills MaxAllowStuckTimeMills side LaunchEpochTime GetParserByProtocol).
Lemma old_ssl_ok now p : proc_ok p ->
  exists p', processOldSslEvents clock mills MaxAllowStuckTimeMills side LaunchEpochTime GetParserByProtocol now p = Ret p' /\ proc_ok p'.
Proof.
  intros Hp. unfold processOldSslEvents. queue_turn (processOld_ok process_ssl (fun _ => ssl_ok)
    ltac:(intros; by apply processSslEvent_ok) ltac:(done) now (tempSslEvents p) p).
Qed.
Lemma handle_ssl_ok arrived now e p : ssl_ok e -> proc_ok p ->
  exists p', handleSslEvent clock mills MaxAllowStuckTimeMills side LaunchEpochTime GetParserByProtocol arrived now e p = Ret p' /\ proc_ok p'.
Proof.
  intros He Hp. unfold handleSslEvent. queue_turn (handle_ok process_ssl (fun _ => ssl_ok)
    ltac:(intros; by apply processSslEvent_ok) ltac:(done) arrived now e (tempSslEvents p) p).
Qed.

Lemma conn_exists_later e p p' :
  (length (heap (connManager p)) <= length (heap (connManager p')))%nat ->
  conn_exists (connManager p) e -> conn_exists (connManager p') e.
Proof. unfold conn_exists. lia. Qed.
Abbreviation process_first := (processFirstPacketEvent ifname LaunchEpochTime).
Lemma old_first_ok now p : proc_ok p -> exists p', processOldFirstPacketEvents ifname LaunchEpochTime now p = Ret p' /\ proc_ok p'.
Proof.
  intros Hp. unfold processOldFirstPacketEvents. queue_turn (processOld_ok process_first (fun p => conn_exists (connManager p))
    ltac:(intros; by apply processFirstPacketEvent_ok) conn_exists_later now (tempFirstPacketEvents p) p).
Qed.
Lemma handle_first_ok arrived now e p : conn_exists (connManager p) e -> proc_ok p ->
  exists p', handleFirstPacketEvent ifname LaunchEpochTime arrived now e p = Ret p' /\ proc_ok p'.
Proof.
  intros He Hp. unfold handleFirstPacketEvent. queue_turn (handle_ok process_first (fun p => conn_exists (connManager p))
    ltac:(intros; by apply processFirstPacketEvent_ok) conn_exists_later arrived now e (tempFirstPacketEvents p) p).
Qed.

(** ** Events of connections *)

Lemma NewConn_length event s : length (heap (NewConn LaunchEpochTime event s).2) = S (length (heap s)).
Proof. unfold NewConn. cbn [snd]. fsimp_goal. rewrite length_app. cbn. lia. Qed.

(** A new connection that is given to the manager. *)
Lemma new_connection_ok event k s :
  safe s -> exists s', AddConnection4 k (length (heap s)) (NewConn LaunchEpochTime event s).2 = Ret s' /\ safe s' /\
    length (heap s') = S (length (heap s)).
Proof.
  intros Hs. destruct (AddConnection4_safe (NewConn LaunchEpochTime event s).2 k (length (heap s))) as (s' & -> & Hs' & Hl).
  - by apply NewConn_safe.
  - rewrite NewConn_length. lia.
  - exists s'. split; [done|]. split; [done|]. by rewrite Hl, NewConn_length.
Qed.

Lemma infer_conn_ok event s : safe s ->
  exists r s', infer_conn LaunchEpochTime event s = Ret (r, s') /\ safe s' /\
    (length (heap s) <= length (heap s'))%nat /\ (forall l, r = Some l -> (l < length (heap s'))%nat).
Proof.
  intros Hs. unfold infer_conn.
  destruct (lookup_in s (tgid_fd_of (ce_conn_info event)) (u64 (ce_ts event + LaunchEpochTime)) Hs) as (r & -> & Hr).
  cbn [mbind go_bind]. destruct r as [l|].
  - destruct (deref_in s l (Hr l eq_refl)) as (c & -> & Hc). cbn [mbind go_bind]. case_decide; [by exists None, s|].
    eexists _, _. split; [done|]. rewrite length_set. split; [|split; [done|] ].
    + apply safe_set; [|done]. intros c0 Hc0. split; [exact (safe_conns s Hs l c0 Hc0)|by right].
    + intros l' [= <-]. by apply Hr.
  - destruct (new_connection_ok event (tgid_fd_of (ce_conn_info event)) s Hs) as (s' & E & Hs' & Hl).
    unfold NewConn in E |- *. cbn [snd] in E. rewrite E. cbn [mbind go_bind]. eexists _, _.
    split; [done|]. split; [done|]. split; [lia|]. intros l [= <-]. lia.
Qed.

Lemma set_manager_ok s p :
  safe s -> (length (heap (connManager p)) <= length (heap s))%nat -> proc_ok p -> proc_ok (set_manager s p).
Proof. intros Hs Hl Hp. by apply (proc_ok_conns p). Qed.

Lemma handleConnEvent_ok event p : proc_ok p ->
  exists p', handleConnEvent clock mills MaxAllowStuckTimeMills side ifname LaunchEpochTime GetParserByProtocol MessageFilter event p = Ret p' /\ proc_ok p'.
Proof.
  intros Hp. pose proof (ok_conns p Hp) as Hs. unfold handleConnEvent. destruct (ce_conn_type event).
  - destruct (new_connection_ok event (tgid_fd_of (ce_conn_info event)) _ Hs) as (s' & E & Hs' & Hl).
    unfold NewConn in E |- *. cbn [snd] in E. rewrite E. cbn [mbind go_bind]. eexists. split; [done|].
    apply set_manager_ok; [|rewrite length_set; lia|done].
    apply safe_set; [|done]. intros c Hc. split; [by apply (safe_conns s' Hs' _ c Hc)|by right].
  - unfold FindConnection4Exactly. destruct (connMap _ !! _) as [l|]; [|by exists p]. eexists. split; [done|].
    apply (proc_ok_conns p); [done|..|done]; fsimp_goal; [|by rewrite length_set].
    apply safe_set; [|done]. intros c Hc. split; [exact (safe_conns _ Hs l c Hc)|by right].
  - destruct (infer_conn_ok event _ Hs) as (r & s' & -> & Hs' & Hl & Hr). unfold go_then. cbn [mbind go_bind].
    pose proof (set_manager_ok s' p Hs' Hl Hp) as Hp'. destruct r as [l|]; [|by eexists].
    destruct (on_conn_ok l _ (set_manager s' p) Hp' (Hr l eq_refl) (protocol_inferred_ok (ci_role (ce_conn_info event))))
      as (p' & E & ? & _ & _). by exists p'.
Qed.

(** ** Every turn returns *)

(** An input that can arrive: well-formed events, and first packets of connections that
    exist. *)
Definition input_ok p (i : input) : Prop :=
  match i with
  | syscall_event _ _ e => syscall_ok e
  | ssl_event _ _ e => ssl_ok e
  | first_packet_event _ _ e => conn_exists (connManager p) e
  | _ => True
  end.

Lemma run_step_ok i p : input_ok p i -> proc_ok p -> exists p', run_step i p = Ret p' /\ proc_ok p'.
Proof.
  intros Hi Hp. destruct i as [e|a n e|a n e|a n e|a n e|n1 n2 n3 n4|l|]; cbn [run_step input_ok] in *.
  - by apply handleConnEvent_ok.
  - by apply handle_syscall_ok.
  - by apply handle_ssl_ok.
  - by apply handle_kern_ok.
  - by apply handle_first_ok.
  - destruct (old_ssl_ok n1 p Hp) as (p1 & E1 & Hp1). destruct (old_kern_ok n2 p1 Hp1) as (p2 & E2 & Hp2).
    destruct (old_first_ok n3 p2 Hp2) as (p3 & E3 & Hp3). destruct (old_syscall_ok n4 p3 Hp3) as (p4 & E4 & Hp4).
    exists p4. unfold Processor.run_step. rewrite E1. cbn [mbind go_bind]. rewrite E2. cbn [mbind go_bind]. rewrite E3. by cbn [mbind go_bind].
  - eexists. split; [done|]. case_decide; [|done].
    apply (proc_ok_conns p); [done|..|done]; fsimp_goal; [|by unfold close_conn; rewrite length_set].
    apply safe_set; [|apply Hp]. intros c Hc. split; [exact (safe_conns _ (ok_conns p Hp) l c Hc)|by right].
  - destruct (collect_safe (connManager p) (ok_conns p Hp)) as (s & E & Hs & Hl). unfold Processor.run_step. rewrite E.
    eexists. split; [done|]. apply set_manager_ok; [done|lia|done].
Qed.

(** The turns of a processor. *)
Definition pstep p p' : Prop := exists i, input_ok p i /\ run_step i p = Ret p'.

Lemma new_ring {A} (ok : A -> Prop) n q : 0 < n -> NewRingBuffer n = Ret q -> ring_of ok q.
Proof.
  intros Hn E. destruct (NewRingBuffer_rep (A := A * Z) n Hn) as (q' & E' & Hq & _). rewrite E in E'. injection E' as <-.
  exists []. by split; [|constructor].
Qed.

Lemma init_ok p0 : initProcessor InitConnManager = Ret p0 -> proc_ok p0.
Proof.
  unfold initProcessor. intros (k & Ek & (y & Ey & (f & Ef & (q & Eq & [= <-])%go_bind_inv)%go_bind_inv)%go_bind_inv)%go_bind_inv.
  split; [|by eapply new_ring; [|eassumption]..]. split; [by intros l c ?|by intros k' l ?|by intros l c ?].
Qed.

Lemma reachable_ok p0 p : rtc pstep p0 p -> proc_ok p0 -> proc_ok p.
Proof.
  induction 1 as [|p1 p2 p3 (j & Hj & E) _ IH]; [done|]. intros Hp. apply IH.
  destruct (run_step_ok j p1 Hj Hp) as (p' & E' & ?). congruence.
Qed.

(** C6: no event makes the agent panic.  From its start, after any sequence of events
    (connections opened and closed in any order, protocols inferred at any time or for
    unknown connections, data, packets and first packets at any time, ticks, removals),
    every next event is handled to its end: every pointer is valid, every slice and ring
    index is in range and every loop ends.  This holds for every parser that keeps the
    laws of its interface, every filter, every clock and every table of interface names;
    a panic of one goroutine would end the agent. *)
Theorem agent_never_panics p0 p i
    (Hinit : initProcessor InitConnManager = Ret p0) (Hreach : rtc pstep p0 p) (Hinput : input_ok p i) :
  exists p', run_step i p = Ret p'.
Proof.
  apply init_ok in Hinit. destruct (run_step_ok i p Hinput (reachable_ok p0 p Hreach Hinit)) as (p' & E & _). by exists p'.
Qed.
End Loop.

(** ** Example *)

(** A client connects, its protocol is found to be Redis, and a request and its response
    pass; they wait and are then made into a record. *)
Definition client_event (ty : conn_type_t) (pr : traffic_protocol_t) (ts : Z) : conn_evt_t :=
  mk_conn_evt (ce_conn_info (connect_event 80 0) <| ci_role := kRoleClient |> <| ci_protocol := pr |>) ty ts.
Definition client_call (st : step_t) (ts : Z) (bytes : list Z) : SyscallEventData :=
  (mk_SyscallEvent (kern_evt_zero <| ke_step := st |> <| ke_seq := 1 |> <| ke_len := zlen bytes |> <| ke_ts := ts |>
     <| ke_conn_id_s := mk_conn_id_s (5 * 4294967296 + 7) traceable |>) (zlen bytes), bytes).

Definition example_session : list (input : Type) :=
  [conn_event (client_event Types.kConnect kProtocolUnset 100);
   syscall_event (ms 1) (ms 1) (client_call SYSCALL_OUT 200 (encode (RArray [RBulk (Redis.bytes "PING")])));
   conn_event (client_event kProtocolInfer kProtocolRedis 210);
   kern_event (ms 2) (ms 2) (kern_evt_zero <| ke_step := DEV_OUT |> <| ke_seq := 1 |> <| ke_len := 14 |> <| ke_ts := 220 |>
     <| ke_conn_id_s := mk_conn_id_s (5 * 4294967296 + 7) traceable |>);
   syscall_event (ms 3) (ms 3) (client_call SYSCALL_IN 300 (encode (RSimple (Redis.bytes "PONG"))));
   ticked (ms 50) (ms 50) (ms 50) (ms 50)].

Definition example_processor : Processor (T := gmap Z Z) (P := unit) (M := RedisMessage) :=
  go_get (mk_Processor InitConnManager (mk_RingBuffer [] 0 0 0 false) (mk_RingBuffer [] 0 0 0 false)
    (mk_RingBuffer [] 0 0 0 false) (mk_RingBuffer [] 0 0 0 false) [] [])
    (p ← initProcessor InitConnManager;
     run (fun _ => 0) (fun t => t / 1000000) 1000 AllSide no_names 1000 (fun _ => Some tt) NoopFilter example_session p).

Abbreviation example_step :=
  (run_step (fun _ => 0) (fun t => t / 1000000) 1000 AllSide no_names 1000 (fun _ => Some tt) NoopFilter).
Abbreviation example_pstep :=
  (pstep (T := gmap Z Z) (fun _ => 0) (fun t => t / 1000000) 1000 AllSide no_names 1000 (fun _ => Some tt) NoopFilter).

Lemma session_reachable inputs : forall p p',
  Forall (fun i => match i with
    | syscall_event _ _ e => syscall_ok e | ssl_event _ _ e => ssl_ok e | first_packet_event _ _ _ => False | _ => True
    end) inputs ->
  run (fun _ => 0) (fun t => t / 1000000) 1000 AllSide no_names 1000 (fun _ => Some tt) NoopFilter inputs p = Ret p' ->
  rtc example_pstep p p'.
Proof.
  induction inputs as [|i inputs IH]; intros p p' Hi E; cbn [run] in E; [by injection E as <-|].
  apply Forall_cons in Hi as [H1 Hi]. apply go_bind_inv in E as (p1 & E1 & E). eapply rtc_l; [|by apply IH].
  exists i. split; [|done]. by destruct i.
Qed.

Lemma agent_never_panics_witness :
  exists p', example_step (ticked (ms 200) (ms 200) (ms 200) (ms 200)) example_processor = Ret p' /\
    length (sent p') = 1%nat.
Proof.
  destruct (initProcessor (T := gmap Z Z) (P := unit) (M := RedisMessage) InitConnManager) as [p0|] eqn:E0; [|discriminate E0].
  destruct (agent_never_panics (fun _ => 0) (fun t => t / 1000000) 1000 AllSide no_names 1000 (fun _ => Some tt) NoopFilter
    p0 example_processor (ticked (ms 200) (ms 200) (ms 200) (ms 200)) E0) as (p' & E); [|exact I|].
  - injection E0 as <-. apply (session_reachable example_session); [|by vm_compute].
    repeat (apply Forall_cons_2; [first [exact I|split_and!; [apply (bool_decide_unpack _)|..]; by vm_compute]|]). apply Forall_nil_2.
  - exists p'. split; [exact E|]. vm_compute in E. injection E as <-. reflexivity.
Defined.
