(* ===== verification/EarlyData.v ===== *)
(** * Data that arrives before its protocol is known

    The data of a connection may arrive before the event that says which protocol it
    speaks; a processor keeps it ([syscall_event_to]) and handles it when the protocol is
    known ([protocol_inferred], both of [Processor.v]).  It makes no difference: the
    connection ends in the same state, and the same records are sent, as if the protocol
    had been known first. *)

From stdpp Require Import gmap list sorting strings.
From Stdlib Require Import ZArith Lia.
From S2P Require Import Prelude.
From S2P Require Import Types.
From S2P Require Import GoBase.
From S2P Require Import StreamBuffer.
From S2P Require Import RingBuffer.
From S2P Require Import KernEvents.
From S2P Require Import Protocol.
From S2P Require Import AgentConn.
From S2P Require Import ConnManager.
From S2P Require Import Records.
From S2P Require Import Redis.
From S2P Require Import Processor.
From S2P Require Import AgentSafe.
Local Open Scope Z_scope.
Local Open Scope model_scope.

(** A result that is changed. *)
Definition go_fmap {A B} (f : A -> B) (m : go A) : go B := match m with Ret a => Ret (f a) | Panic => Panic end.

Section Mark.
Context {T P M : Type} `{TreeMap T} `{ParsedMessage M} `{!ProtocolStreamParser T P M} `{!MessageMatcher P M}.
Variable now : nat -> Z.
Variable mills : Z -> Z.
Variable MaxAllowStuckTimeMills : Z.
Variable side : SideEnum.
Variable ifname : Z -> Z -> option string.
Implicit Types c : Connection4 (T := T) (P := P) (M := M).

(** ** The mark of a traced connection does not matter to data *)

(** What [UpdateConnectionTraceable] writes. *)
Definition mark (t : conn_trace_state_t) c : Connection4 :=
  c <| tracable := t |> <| bpf_updates ::= fun l => l ++ [t] |>.
Definition mark2 {X} t (x : X * Connection4 (T := T) (P := P) (M := M)) := (x.1, mark t x.2).

Lemma mark_set_sbuf t w sb c : set_sbuf w sb (mark t c) = mark t (set_sbuf w sb c).
Proof. by destruct w. Qed.
Lemma mark_sbuf t w c : sbuf w (mark t c) = sbuf w c.
Proof. by destruct w. Qed.

Lemma remove_prefix_mark t w n c : remove_prefix w n (mark t c) = go_fmap (mark t) (remove_prefix w n c).
Proof. unfold remove_prefix. rewrite mark_sbuf. destruct (RemovePrefix _ n); [|done]. cbn. by rewrite mark_set_sbuf. Qed.

Lemma checkProgress_mark t w c :
  checkProgress now mills MaxAllowStuckTimeMills w (mark t c) = go_fmap (mark2 t) (checkProgress now mills MaxAllowStuckTimeMills w c).
Proof.
  unfold checkProgress. replace (getLastProgressTime w (mark t c)) with (getLastProgressTime w c) by (by destruct w).
  destruct (_ =? 0); [by destruct w|]. rewrite mark_sbuf. destruct (FindTimestampBySeq _ _) as [ht ok]. cbn [time_now].
  change (now (clock_readings (mark t c))) with (now (clock_readings c)).
  destruct (negb ok || _); [|done]. change (mark t c <| clock_readings ::= S |>) with (mark t (c <| clock_readings ::= S |>)).
  rewrite mark_sbuf. destruct (RemoveHead _); [|done]. cbn. by rewrite mark_set_sbuf.
Qed.

Lemma stucked_mark t w c :
  progressIsStucked now mills MaxAllowStuckTimeMills w (mark t c) = mark2 t (progressIsStucked now mills MaxAllowStuckTimeMills w c).
Proof.
  unfold progressIsStucked. replace (getLastProgressTime w (mark t c)) with (getLastProgressTime w c) by (by destruct w).
  destruct (_ =? 0); [by destruct w|]. rewrite mark_sbuf. by destruct (FindTimestampBySeq _ _) as [ht ok].
Qed.

Lemma on_success_mark t w mt ke r c : Role c <> kRoleUnknown ->
  on_success side w mt ke r (mark t c) = go_fmap (mark t) (on_success side w mt ke r c).
Proof.
  intros Hr. unfold on_success. destruct (ParsedMessages r) as [|m ms]; [apply remove_prefix_mark|].
  rewrite !decide_False by done. destruct (negb _); [apply remove_prefix_mark|].
  rewrite <- remove_prefix_mark. f_equal. by destruct w.
Qed.

Lemma on_invalid_mark t p w mt ke c :
  on_invalid now mills MaxAllowStuckTimeMills p w mt ke (mark t c) =
  go_fmap (mark2 t) (on_invalid now mills MaxAllowStuckTimeMills p w mt ke c).
Proof.
  unfold on_invalid. rewrite mark_sbuf. destruct (FindBoundary _ _ _ _) as [pos|]; [|done]. cbn [mbind go_bind].
  destruct (negb (pos =? -1)). { rewrite remove_prefix_mark. by destruct (remove_prefix w pos c). }
  rewrite stucked_mark. destruct (progressIsStucked _ _ _ w c) as [st c1]. cbn [mark2 fst snd]. destruct st; [|done].
  rewrite mark_sbuf. destruct (Head _) as [h|]; [|done]. destruct (_ >? _).
  - rewrite remove_prefix_mark. by destruct (remove_prefix w _ c1).
  - rewrite checkProgress_mark. by destruct (checkProgress _ _ _ w c1) as [ [rm c2]|].
Qed.

Lemma parse_step_mark t p w mt ke c : Role c <> kRoleUnknown ->
  parse_step now mills MaxAllowStuckTimeMills side p w mt ke (mark t c) =
  go_fmap (mark2 t) (parse_step now mills MaxAllowStuckTimeMills side p w mt ke c).
Proof.
  intros Hr. unfold parse_step. rewrite mark_sbuf. destruct (ParseStream p _ mt) as [ [r p']|]; [|done].
  unfold go_then. cbn [mbind go_bind]. change (mark t c <| parser := Some p' |>) with (mark t (c <| parser := Some p' |>)).
  destruct (parse_state r).
  - apply on_invalid_mark.
  - rewrite checkProgress_mark. by destruct (checkProgress _ _ _ w _) as [ [rm c2]|].
  - rewrite on_success_mark by done. by destruct (on_success _ _ _ _ _ _).
  - rewrite remove_prefix_mark. by destruct (remove_prefix w _ _).
Qed.

(** A connection with a known role keeps it, and its mark. *)
Definition identity c : endpoint_role_t * conn_trace_state_t := (Role c, tracable c).
Definition known_role (x : endpoint_role_t * conn_trace_state_t) : Prop := x.1 <> kRoleUnknown.

Lemma identity_role c r : known_role (identity c) -> Role c = kRoleUnknown ->
  identity (resetParseProgress (onRoleChanged side (c <| Role := r |>))) = identity c.
Proof. done. Qed.

Ltac same_identity :=
  first [by intros []|by intros ? ? []|apply identity_role|done].

Lemma parse_loop_mark t fuel w mt ke : forall c, Role c <> kRoleUnknown ->
  parse_loop now mills MaxAllowStuckTimeMills side fuel w mt ke (mark t c) =
  go_fmap (fmap (mark t)) (parse_loop now mills MaxAllowStuckTimeMills side fuel w mt ke c).
Proof.
  induction fuel as [|fuel IH]; intros c Hr; cbn [parse_loop]; rewrite mark_sbuf; destruct (StreamBuffer.IsEmpty _); try done.
  change (parser (mark t c)) with (parser c). destruct (parser c) as [p|]; [|done]. unfold go_then.
  rewrite parse_step_mark by done. destruct (parse_step _ _ _ _ _ _ _ _ c) as [ [stop c1]|] eqn:E; [|done].
  cbn [go_fmap mbind go_bind mark2 fst snd]. destruct stop; [done|]. apply IH.
  eapply (parse_step_part _ _ _ _ identity known_role) in E; [|same_identity..|exact Hr].
  injection E as ER _. by rewrite ER.
Qed.

Lemma mark_progress t w c : updateProgressTime now w (mark t c) = mark t (updateProgressTime now w c).
Proof. by destruct w. Qed.

Lemma parseStreamBuffer_mark t w mt ke c : Role c <> kRoleUnknown ->
  parseStreamBuffer now mills MaxAllowStuckTimeMills side w mt ke (mark t c) =
  go_fmap (fmap (mark t)) (parseStreamBuffer now mills MaxAllowStuckTimeMills side w mt ke c).
Proof.
  intros Hr. unfold parseStreamBuffer. change (parser (mark t c)) with (parser c). destruct (parser c) as [p|]; [|done].
  rewrite mark_sbuf. destruct (StreamBuffer.IsEmpty _); [done|]. destruct (FindBoundary _ _ _ _) as [pos|]; [|done]. cbn [mbind go_bind].
  set (start := if pos =? -1 then 0 else pos).
  assert (Hm : (if start >? 0 then remove_prefix w start (mark t c) else Ret (mark t c)) =
    go_fmap (mark t) (if start >? 0 then remove_prefix w start c else Ret c)).
  { destruct (start >? 0); [apply remove_prefix_mark|done]. }
  rewrite Hm. destruct (if start >? 0 then remove_prefix w start c else Ret c) as [c1|] eqn:E1; [|done].
  cbn [go_fmap mbind go_bind]. rewrite !mark_sbuf. assert (Hr1 : Role c1 <> kRoleUnknown).
  { destruct (start >? 0); [|by injection E1 as <-].
    eapply (remove_prefix_part identity) in E1; [|same_identity]. injection E1 as ER _. by rewrite ER. }
  rewrite parse_loop_mark by done. destruct (parse_loop _ _ _ _ _ _ _ _ c1) as [ [c2|]|]; [|done..].
  cbn [go_fmap mbind go_bind fmap option_fmap option_map]. rewrite !mark_sbuf. destruct (_ || _); [|done].
  by rewrite mark_progress.
Qed.

Lemma add_data_mark t data ke c : add_data data ke (mark t c) = go_fmap (mark2 t) (add_data data ke c).
Proof.
  unfold add_data. change (isReq (mark t c) ke) with (isReq c ke). destruct (isReq c ke) as [w ok].
  change (getEventTimestamp ke (mark t c) w) with (getEventTimestamp ke c w). rewrite mark_sbuf.
  destruct (match extractHeaderEvent ke with Some _ => _ | None => _ end) as [sb|]; [|done]. cbn [mbind go_bind].
  unfold go_then. destruct (Add sb _ data _) as [ [r sb']|]; [|done]. cbn [mbind go_bind go_fmap]. unfold mark2. cbn [fst snd].
  by rewrite mark_set_sbuf.
Qed.

Lemma try_parse_mark t data ke c : Role c <> kRoleUnknown ->
  addDataToBufferAndTryParse now mills MaxAllowStuckTimeMills side data ke (mark t c) =
  go_fmap (fmap (mark2 t)) (addDataToBufferAndTryParse now mills MaxAllowStuckTimeMills side data ke c).
Proof.
  intros Hr. unfold addDataToBufferAndTryParse, go_then. rewrite add_data_mark.
  destruct (add_data data ke c) as [ [added c1]|] eqn:E1; [|done]. cbn [go_fmap mbind go_bind mark2 fst snd].
  assert (Hr1 : Role c1 <> kRoleUnknown).
  { eapply (add_data_part identity) in E1; [|same_identity]. injection E1 as ER _. by rewrite ER. }
  destruct (negb added); [done|]. change (Role (mark t c1)) with (Role c1). rewrite parseStreamBuffer_mark by done.
  destruct (parseStreamBuffer _ _ _ _ true _ ke c1) as [ [c2|]|] eqn:E2; [|done..].
  cbn [go_fmap mbind go_bind fmap option_fmap option_map]. rewrite parseStreamBuffer_mark.
  - by destruct (parseStreamBuffer _ _ _ _ false _ ke c2) as [ [c3|]|].
  - eapply (parseStreamBuffer_part _ _ _ _ identity known_role) in E2; [|same_identity..|exact Hr1].
    injection E2 as ER _. by rewrite ER.
Qed.

Lemma match_messages_mark t c : match_messages (mark t c) = go_fmap (mark t) (match_messages c).
Proof.
  unfold match_messages. change (parser (mark t c)) with (parser c). destruct (parser c) as [p|]; [|done]. unfold go_then.
  change (ReqQueue (mark t c)) with (ReqQueue c). change (RespQueue (mark t c)) with (RespQueue c).
  by destruct (Match p _ _) as [ [ [ [rs q] r] p']|].
Qed.

Lemma match_messages_identity c c' : match_messages c = Ret c' -> identity c' = identity c.
Proof.
  unfold match_messages. destruct (parser c) as [p|]; [|by intros [= <-]].
  by intros ([ [ [rs q] r] p'] & _ & [= <-])%go_bind_inv.
Qed.

(** A system call event is handled the same way before and after the mark. *)
Lemma OnSyscallEvent_mark t data e c : Role c <> kRoleUnknown ->
  OnSyscallEvent now mills MaxAllowStuckTimeMills side ifname data e (mark t c) =
  go_fmap (fmap (mark2 t)) (OnSyscallEvent now mills MaxAllowStuckTimeMills side ifname data e c).
Proof.
  intros Hr. unfold OnSyscallEvent. change (ssl (mark t c)) with (ssl c).
  assert (Hm : match syscall_data data e (ssl c) with
    | Some d => addDataToBufferAndTryParse now mills MaxAllowStuckTimeMills side d (se_Ke e) (mark t c)
    | None => Ret (Some (true, mark t c)) end = go_fmap (fmap (mark2 t)) match syscall_data data e (ssl c) with
    | Some d => addDataToBufferAndTryParse now mills MaxAllowStuckTimeMills side d (se_Ke e) c
    | None => Ret (Some (true, c)) end).
  { destruct (syscall_data _ _ _); [by apply try_parse_mark|done]. }
  rewrite Hm. destruct (match syscall_data data e (ssl c) with
    | Some d => addDataToBufferAndTryParse now mills MaxAllowStuckTimeMills side d (se_Ke e) c
    | None => Ret (Some (true, c)) end) as [ [ [added c1]|]|]; [|done..].
  cbn [go_fmap mbind go_bind fmap option_fmap option_map mark2 fst snd]. destruct added; [|done].
  change (StreamEvents (mark t c1)) with (StreamEvents c1). destruct (AddSyscallEvent _ _ _) as [s|]; [|done]. cbn [mbind go_bind].
  change (mark t c1 <| StreamEvents := s |>) with (mark t (c1 <| StreamEvents := s |>)).
  rewrite match_messages_mark. by destruct (match_messages _).
Qed.

Lemma OnSyscallEvent_identity data e c r c' : Role c <> kRoleUnknown ->
  OnSyscallEvent now mills MaxAllowStuckTimeMills side ifname data e c = Ret (Some (r, c')) -> identity c' = identity c.
Proof.
  intros Hr. unfold OnSyscallEvent. intros (o & E1 & E)%go_bind_inv. destruct o as [ [added c1]|]; [|done].
  assert (H1 : identity c1 = identity c).
  { destruct (syscall_data _ _ _); [|by injection E1 as <- <-].
    eapply (try_parse_part _ _ _ _ identity known_role) in E1; [done|same_identity..|exact Hr]. }
  destruct added; [|by injection E as <- <-]. apply go_bind_inv in E as (s & _ & E).
  apply go_bind_inv in E as (c2 & E2%match_messages_identity & E). injection E as <- <-. rewrite E2. exact H1.
Qed.
End Mark.

Section Early.
Context {T P M : Type} `{TreeMap T} `{ParsedMessage M} `{!ProtocolStreamParser T P M} `{!MessageMatcher P M}.
Variable clock : nat -> Z.
Variable mills : Z -> Z.
Variable MaxAllowStuckTimeMills : Z.
Variable side : SideEnum.
Variable ifname : Z -> Z -> option string.
Variable GetParserByProtocol : traffic_protocol_t -> option P.
Variable MessageFilter : ProtocolFilter M.
Abbreviation connection := (connection (T := T) (P := P) (M := M)).
Implicit Types (c : connection) (es : list SyscallEventData).
Abbreviation on_syscall := (conn_OnSyscallEvent clock mills MaxAllowStuckTimeMills side ifname GetParserByProtocol).
Abbreviation syscall_event_to := (syscall_event_to clock mills MaxAllowStuckTimeMills side ifname GetParserByProtocol).
Abbreviation protocol_inferred := (protocol_inferred clock mills MaxAllowStuckTimeMills side ifname GetParserByProtocol MessageFilter).

(** Events one after the other, with the records they make. *)
Fixpoint handle_all {E} (f : E -> connection -> go (list (Record_ M) * connection)) (es : list E) c
    : go (list (Record_ M) * connection) :=
  match es with
  | [] => Ret ([], c)
  | e :: es =>
    do (rs, c) <- f e c;
    do (rs', c) <- handle_all f es c;
    Ret (rs ++ rs', c)
  end.

(** ** The end of an inference commutes with data *)

Definition finish c : connection :=
  update_traceable traceable (c <| TempSyscallEvents := [] |> <| TempSslEvents := [] |>)
    <| TempKernEvents := [] |> <| TempConnEvents := [] |>.
Definition finish2 (x : list (Record_ M) * connection) := (x.1, finish x.2).

(** What a system call event leaves alone. *)
Definition same_rest c c' : Prop :=
  TempSyscallEvents c' = TempSyscallEvents c /\ TempSslEvents c' = TempSslEvents c /\ TempKernEvents c' = TempKernEvents c /\
  ConnectStartTs c' = ConnectStartTs c /\ CloseTs c' = CloseTs c /\ conn_protocol c' = conn_protocol c /\
  identity (stream c') = identity (stream c).

Lemma on_syscall_rest e c rs c' : Role (stream c) <> kRoleUnknown -> on_syscall e c = Ret (rs, c') -> same_rest c c'.
Proof.
  intros Hr. unfold conn_OnSyscallEvent, with_parser, GetProtocolParser, must.
  destruct (protocolParsers c !! conn_protocol c) as [p|]; intros (st & E & [= <- <-])%go_bind_inv;
    apply go_bind_inv in E as (o & E & Eo); destruct o as [o|]; [|done| |done]; injection Eo as ->;
    apply go_bind_inv in E as (r & E & Er); destruct r as [ [b o]|]; try discriminate Er; injection Er as ->;
    apply OnSyscallEvent_identity in E; try exact Hr; by split_and!.
Qed.

Definition clear_kept c : connection :=
  c <| TempSyscallEvents := [] |> <| TempSslEvents := [] |> <| TempKernEvents := [] |> <| TempConnEvents := [] |>.
Lemma finish_traced c : tracable (stream c) = traceable -> finish c = clear_kept c.
Proof.
  intros Ht. unfold finish, update_traceable. assert (E : UpdateConnectionTraceable traceable (stream c) = stream c).
  { unfold UpdateConnectionTraceable. by rewrite decide_True. }
  change (clear_kept c <| stream := UpdateConnectionTraceable traceable (stream c) |> = clear_kept c). by rewrite E.
Qed.
Lemma finish_untraced c : tracable (stream c) <> traceable -> finish c = clear_kept c <| stream ::= mark traceable |>.
Proof.
  intros Ht. unfold finish, update_traceable. assert (E : UpdateConnectionTraceable traceable (stream c) = mark traceable (stream c)).
  { unfold UpdateConnectionTraceable. by rewrite decide_False. }
  change (clear_kept c <| stream := UpdateConnectionTraceable traceable (stream c) |> = clear_kept c <| stream ::= mark traceable |>).
  by rewrite E.
Qed.

Lemma get_parser_finish c pr :
  GetProtocolParser GetParserByProtocol (finish c) pr =
  let '(p, c) := GetProtocolParser GetParserByProtocol c pr in (p, finish c).
Proof.
  unfold GetProtocolParser. change (protocolParsers (finish c)) with (protocolParsers c).
  by destruct (protocolParsers c !! pr).
Qed.

Lemma get_parser_same c pr p c1 : GetProtocolParser GetParserByProtocol c pr = (p, c1) -> stream c1 = stream c /\ conn_protocol c1 = conn_protocol c.
Proof. unfold GetProtocolParser. destruct (protocolParsers c !! pr); by intros [= <- <-]. Qed.

Lemma with_parser_finish f c :
  Role (stream c) <> kRoleUnknown ->
  (forall st, Role st <> kRoleUnknown -> f (mark traceable st) = go_fmap (fmap (mark traceable)) (f st)) ->
  (forall st st', Role st <> kRoleUnknown -> f st = Ret (Some st') -> identity st' = identity st) ->
  with_parser GetParserByProtocol f (finish c) = go_fmap finish2 (with_parser GetParserByProtocol f c).
Proof.
  intros Hr Hmark Hid. unfold with_parser. change (conn_protocol (finish c)) with (conn_protocol c).
  rewrite get_parser_finish. destruct (GetProtocolParser _ c _) as [p c1] eqn:Ep.
  apply get_parser_same in Ep as [Es _]. rewrite <- Es in Hr. clear c Es.
  set (st0 := stream c1 <| parser := p |> <| recordChannel := [] |>).
  assert (Hid0 : forall st, f st0 = Ret (Some st) -> tracable st = tracable (stream c1)).
  { intros st E. apply Hid in E; [|exact Hr]. by injection E as _ ->. }
  destruct (decide (tracable (stream c1) = traceable)) as [Ht|Ht].
  - rewrite finish_traced by done. change (stream (clear_kept c1) <| parser := p |> <| recordChannel := [] |>) with st0.
    unfold must. destruct (f st0) as [ [st|]|] eqn:E; [|done..]. cbn [mbind go_bind go_fmap]. unfold finish2. cbn [fst snd].
    by rewrite finish_traced by (rewrite <- Ht; exact (Hid0 st eq_refl)).
  - rewrite finish_untraced by done.
    change (stream (clear_kept c1 <| stream ::= mark traceable |>) <| parser := p |> <| recordChannel := [] |>) with (mark traceable st0).
    unfold must. rewrite Hmark by exact Hr. destruct (f st0) as [ [st|]|] eqn:E; [|done..].
    cbn [mbind go_bind go_fmap fmap option_fmap option_map]. unfold finish2. cbn [fst snd].
    rewrite finish_untraced; [done|]. intros Et. apply Ht. rewrite <- Et. symmetry. exact (Hid0 st eq_refl).
Qed.

Lemma on_syscall_finish e c : Role (stream c) <> kRoleUnknown -> on_syscall e (finish c) = go_fmap finish2 (on_syscall e c).
Proof.
  intros Hr. apply with_parser_finish; [done|..].
  - intros st Hst. rewrite OnSyscallEvent_mark by done. by destruct (OnSyscallEvent _ _ _ _ _ _ _ st) as [ [ [r st']|]|].
  - intros st st' Hst (o & E & Eo)%go_bind_inv. destruct o as [ [r o]|]; [|done]. injection Eo as ->.
    by apply OnSyscallEvent_identity in E.
Qed.

(** ** Keeping, replaying and handling *)

Lemma handle_all_finish es : forall c, Role (stream c) <> kRoleUnknown ->
  handle_all on_syscall es (finish c) = go_fmap finish2 (handle_all on_syscall es c).
Proof.
  induction es as [|e es IH]; intros c Hr; cbn [handle_all]; [done|]. rewrite on_syscall_finish by done.
  destruct (on_syscall e c) as [ [rs c1]|] eqn:E; [|done]. unfold go_then. cbn [go_fmap mbind go_bind finish2 fst snd].
  apply on_syscall_rest in E as (_ & _ & _ & _ & _ & _ & [= HR _]); [|done]. rewrite IH by (by rewrite HR).
  by destruct (handle_all on_syscall es c1) as [ [rs' c2]|].
Qed.

Lemma handle_all_rest es : forall c rs c', Role (stream c) <> kRoleUnknown ->
  handle_all on_syscall es c = Ret (rs, c') -> same_rest c c'.
Proof.
  induction es as [|e es IH]; intros c rs c' Hr E; cbn [handle_all] in E; [injection E as <- <-; by split_and!|].
  apply go_bind_inv in E as ([rs1 c1] & E1 & E). apply go_bind_inv in E as ([rs2 c2] & E2 & [= <- <-]).
  apply on_syscall_rest in E1; [|done]. pose proof E1 as (H1 & H2 & H3 & H4 & H5 & H6 & H7).
  destruct (IH c1 rs2 c2) as (G1 & G2 & G3 & G4 & G5 & G6 & G7); [injection H7 as HR _; by rewrite HR|done|].
  split_and!; congruence.
Qed.

Lemma timeBound_same c c' ts : ConnectStartTs c' = ConnectStartTs c -> CloseTs c' = CloseTs c -> timeBoundCheck c' ts = timeBoundCheck c ts.
Proof. intros E1 E2. unfold timeBoundCheck. by rewrite E1, E2. Qed.

Abbreviation in_time c := (fun e : SyscallEventData => timeBoundCheck c (end_ts (se_Ke e.1)) = true).

Lemma in_time_same c c' es : same_rest c c' -> Forall (in_time c) es -> Forall (in_time c') es.
Proof.
  intros (_ & _ & _ & E1 & E2 & _) Ht. eapply Forall_impl; [exact Ht|]. cbv beta. intros e <-. by apply timeBound_same.
Qed.

Lemma replay_in_time es : forall c, Role (stream c) <> kRoleUnknown -> Forall (in_time c) es ->
  replay (fun e => end_ts (se_Ke e.1)) on_syscall es c = handle_all on_syscall es c.
Proof.
  induction es as [|e es IH]; intros c Hr Ht; cbn [replay handle_all]; [done|]. apply Forall_cons in Ht as [He Ht]. rewrite He.
  unfold go_then. destruct (on_syscall e c) as [ [rs c1]|] eqn:E; [|done]. cbn [mbind go_bind].
  apply on_syscall_rest in E; [|done]. rewrite IH; [done|..|by eapply in_time_same].
  destruct E as (_ & _ & _ & _ & _ & _ & [= HR _]). by rewrite HR.
Qed.

(** A connection whose protocol is known and that is traced handles every event. *)
Lemma known_handles es : forall c, Role (stream c) <> kRoleUnknown -> ProtocolInferred c = true -> tracable (stream c) = traceable ->
  Forall (in_time c) es -> handle_all syscall_event_to es c = handle_all on_syscall es c.
Proof.
  induction es as [|e es IH]; intros c Hr Hp Ht Hes; cbn [handle_all]; [done|]. apply Forall_cons in Hes as [He Hes].
  assert (E : syscall_event_to e c = on_syscall e c).
  { unfold Processor.syscall_event_to, IsTraceble. by rewrite Ht, Hp, He. }
  rewrite E. unfold go_then. destruct (on_syscall e c) as [ [rs c1]|] eqn:E1; [|done]. cbn [mbind go_bind].
  apply on_syscall_rest in E1; [|done]. pose proof E1 as (_ & _ & _ & _ & _ & Hpr & [= HR HT]).
  rewrite IH; [done|by rewrite HR|unfold ProtocolInferred in *; by rewrite Hpr|by rewrite HT|by eapply in_time_same].
Qed.

(** One without a protocol keeps every event. *)
Lemma unset_keeps es : forall c, conn_protocol c = kProtocolUnset -> IsTraceble c = true ->
  handle_all syscall_event_to es c = Ret ([], c <| TempSyscallEvents ::= fun l => l ++ es |>).
Proof.
  induction es as [|e es IH]; intros c Hp Ht; cbn [handle_all].
  { f_equal. f_equal. unfold set_field. destruct c. cbn. by rewrite app_nil_r. }
  assert (E : syscall_event_to e c = Ret ([], keep_syscall_event c e)).
  { unfold Processor.syscall_event_to, ProtocolInferred. rewrite Ht, Hp. done. }
  rewrite E. unfold go_then. cbn [mbind go_bind]. rewrite IH by done. cbn [mbind go_bind app].
  f_equal. f_equal. unfold keep_syscall_event, set_field. destruct c. cbn. by rewrite <- app_assoc.
Qed.

(** Nothing but data is kept. *)
Definition only_data c : Prop := TempSslEvents c = [] /\ TempKernEvents c = [].

Lemma replay_kept_data c : Role (stream c) <> kRoleUnknown -> only_data c -> Forall (in_time c) (TempSyscallEvents c) ->
  (do (rs, c) <- replay_kept clock mills MaxAllowStuckTimeMills side ifname GetParserByProtocol c;
   Ret (rs, c <| TempConnEvents := [] |>)) = go_fmap finish2 (handle_all on_syscall (TempSyscallEvents c) c).
Proof.
  intros Hr [Hl Hk] Ht. unfold replay_kept. rewrite replay_in_time by done. unfold go_then.
  destruct (handle_all on_syscall _ c) as [ [rs c1]|] eqn:E; [|done].
  apply handle_all_rest in E as (_ & Hl1 & Hk1 & _); [|done]. cbn [mbind go_bind].
  change (TempSslEvents (c1 <| TempSyscallEvents := [] |>)) with (TempSslEvents c1). rewrite Hl1, Hl. cbn [replay mbind go_bind].
  change (TempKernEvents (update_traceable _ _)) with (TempKernEvents c1). rewrite Hk1, Hk. cbn [replay mbind go_bind].
  by rewrite app_nil_r.
Qed.

(** The protocol is one that is wanted, of a connection on the side that is wanted. *)
Definition wanted_protocol c (pr : traffic_protocol_t) : Prop :=
  pr <> kProtocolUnset /\ pr <> kProtocolUnknown /\ FilterByProtocol MessageFilter pr = true /\ isSideNotMatched side (stream c) = false.

Lemma inferred_data role c :
  Role (stream c) <> kRoleUnknown -> wanted_protocol c (conn_protocol c) -> only_data c ->
  Forall (in_time c) (TempSyscallEvents c) ->
  protocol_inferred role c = go_fmap finish2 (handle_all on_syscall (TempSyscallEvents c) c).
Proof.
  intros Hr (H1 & H2 & H3 & H4) Ho Ht. unfold Processor.protocol_inferred.
  rewrite (bool_decide_eq_false_2 (Role (stream c) = kRoleUnknown)) by done. cbn [andb].
  rewrite H3, H4, orb_true_r, decide_False by done. cbn [andb negb]. by apply replay_kept_data.
Qed.

(** C9: data that arrives before the protocol of its connection is known is treated as if
    it had arrived after.  For a connection whose role is known and whose protocol is not,
    and system call events while it is open, the processor that first gets the events and
    then learns the protocol, if it is one that is wanted, ends with the same connection
    and has sent the same records, in the same order, as one that learns the protocol
    first; it also panics in the same cases. *)
Theorem early_data_not_lost c es pr role
    (Hunset : conn_protocol c = kProtocolUnset) (Htrace : IsTraceble c = true) (Hrole : Role (stream c) <> kRoleUnknown)
    (Hnone : TempSyscallEvents c = []) (Honly : only_data c) (Hwanted : wanted_protocol c pr) (Htime : Forall (in_time c) es) :
  (do (rs, c) <- handle_all syscall_event_to es c;
   do (rs', c) <- protocol_inferred role (c <| conn_protocol := pr |>);
   Ret (rs ++ rs', c)) =
  (do (rs, c) <- protocol_inferred role (c <| conn_protocol := pr |>);
   do (rs', c) <- handle_all syscall_event_to es c;
   Ret (rs ++ rs', c)).
Proof.
  rewrite unset_keeps by done. unfold go_then. cbn [mbind go_bind app]. fsimp_goal.
  set (kept := c <| TempSyscallEvents ::= fun l => l ++ es |> <| conn_protocol := pr |>).
  set (known := c <| conn_protocol := pr |>).
  assert (Ek : TempSyscallEvents kept = es) by (change (TempSyscallEvents c ++ es = es); by rewrite Hnone).
  rewrite (inferred_data role kept), (inferred_data role known);
    [|done|done|done|change (Forall (in_time known) (TempSyscallEvents c)); by rewrite Hnone|done|done|done|by rewrite Ek].
  rewrite Ek. change (TempSyscallEvents known) with (TempSyscallEvents c). rewrite Hnone. cbn [handle_all go_fmap mbind go_bind finish2 fst snd app].
  rewrite <- handle_all_finish by done. change (finish known) with (finish kept).
  destruct Hwanted as (H1 & H2 & _ & _).
  rewrite known_handles; [..|done].
  - by destruct (handle_all on_syscall es (finish kept)) as [ [rs c']|].
  - change (Role (UpdateConnectionTraceable traceable (stream c)) <> kRoleUnknown). unfold UpdateConnectionTraceable. by case_decide.
  - unfold ProtocolInferred. change (conn_protocol (finish kept)) with pr. by rewrite !bool_decide_eq_false_2.
  - change (tracable (UpdateConnectionTraceable traceable (stream c)) = traceable). unfold UpdateConnectionTraceable. by case_decide.
Qed.
End Early.

(** ** Example *)

Definition early_connection : connection (T := gmap Z Z) (P := unit) (M := RedisMessage) :=
  connection_of 1000 (client_event Types.kConnect kProtocolUnset 100).
(** A request and its response, with the times the processor has put on them. *)
Definition early_calls : list SyscallEventData :=
  [client_call SYSCALL_OUT 1200 (encode (RArray [RBulk (Redis.bytes "PING")])); client_call SYSCALL_IN 1300 (encode (RSimple (Redis.bytes "PONG")))].

Lemma early_data_not_lost_witness :
  exists rs c,
    (do (rs, c) <- handle_all (syscall_event_to (fun _ => 0) (fun t => t / 1000000) 1000 AllSide no_names (fun _ => Some tt))
       early_calls early_connection;
     do (rs', c) <- protocol_inferred (fun _ => 0) (fun t => t / 1000000) 1000 AllSide no_names (fun _ => Some tt) NoopFilter
       kRoleClient (c <| conn_protocol := kProtocolRedis |>);
     Ret (rs ++ rs', c)) = Ret (rs, c) /\ length rs = 1%nat.
Proof.
  pose proof (early_data_not_lost (fun _ => 0) (fun t => t / 1000000) 1000 AllSide no_names (fun _ => Some tt) NoopFilter
    early_connection early_calls kProtocolRedis kRoleClient) as He.
  rewrite He; [|done|by vm_compute|by vm_compute|done|by split|by split_and!|by repeat constructor; vm_compute]. clear He.
  match goal with |- exists rs c, ?m = _ /\ _ => destruct m as [ [rs c]|] eqn:E; vm_compute in E; [|discriminate E] end.
  exists rs, c. split; [reflexivity|]. injection E as <- <-. reflexivity.
Defined.
