(* ===== verification/Events.v ===== *)
(** * The format of the rings

    The probes write C structures into perf rings ([Machine.v] has them as values); the
    agent reads them back ([src/bpf/events.go]) into the Go structures that [bpf2go]
    generated ([src/bpf/agent_x86_bpfel.go]).  Here are the bytes in between.

    - [c_struct] lays a structure out: members in order, each at a multiple of its
      alignment, with the layouts of [Types.v]; what is in the padding is not known
      ([pad], by position).
    - [binary.Read] fills a Go structure field by field without alignment; the generated
      structures have the padding as fields of their own.  A record that is too short is an
      error ([None]).
    - [payload] is taken at [unsafe.Sizeof] of the header less 4. *)

From stdpp Require Import gmap list.
From Stdlib Require Import ZArith Lia.
From S2P Require Import Prelude.
From S2P Require Import Types.
From S2P Require Import Machine.
From S2P Require Import DataCommon.
From S2P Require Import GoBase.
From S2P Require Import KernEvents.
From S2P Require Import Protocol.
From S2P Require Import AgentConn.
From S2P Require Import ConnManager.
From S2P Require Import RingBuffer.
From S2P Require Import AgentSafe.
Local Open Scope Z_scope.
Local Open Scope model_scope.

(** ** C structures *)

Definition bool_byte (b : bool) : list Z := [if b then 1 else 0].

Definition endpoint_role_val (r : endpoint_role_t) : Z :=
  match r with kRoleZero => 0 | kRoleClient => 1 | kRoleServer => 2 | kRoleUnknown => 4 end.
Definition conn_type_val (t : conn_type_t) : Z :=
  match t with Types.kConnect => 0 | kClose => 1 | kProtocolInfer => 2 end.

Section Bytes.
Variable pad : Z -> Z.

(** The bytes between two offsets that belong to no member. *)
Definition padding (from to : Z) : list Z := (fun i => u8 (pad (from + Z.of_nat i))) <$> seq 0 (Z.to_nat (to - from)).

(** The members, from an offset on, of a structure at [base]. *)
Fixpoint lay_out (base off : Z) (fs : list (Z * Z)) (vs : list (list Z)) : list Z :=
  match fs, vs with
  | (sz, al) :: fs, v :: vs =>
    padding (base + off) (base + round_up off al) ++ v ++ lay_out base (round_up off al + sz) fs vs
  | _, _ => []
  end.
Definition c_struct (base : Z) (fs : list (Z * Z)) (vs : list (list Z)) : list Z :=
  lay_out base 0 fs vs ++ padding (base + layout_end 0 fs) (base + struct_size fs).

Definition conn_id_s_bytes (base : Z) (c : conn_id_s_t) : list Z :=
  c_struct base conn_id_s_t_layout [le_encode 8 (tgid_fd c); le_encode 4 (conn_trace_state_val (cids_no_trace c))].

Definition kern_evt_bytes (base : Z) (e : kern_evt) : list Z :=
  c_struct base kern_evt_layout
    [ke_func_name e; le_encode 8 (ke_ts e); le_encode 4 (ke_ts_delta e); le_encode 4 (ke_seq e); le_encode 4 (ke_len e);
     le_encode 1 (ke_flags e); bool_byte (ke_prepend_length_header e); le_encode 4 (ke_ifindex e);
     conn_id_s_bytes (base + offset_of kern_evt_layout 8) (ke_conn_id_s e); le_encode 4 (step_val (ke_step e));
     le_encode 4 (ke_length_header e)].

Definition sock_key_layout : list (Z * Z) := [(8, 8); (8, 8); (8, 8); (8, 8); (2, 2); (2, 2)].
Definition sock_key_bytes (base : Z) (k : sock_key) : list Z :=
  c_struct base sock_key_layout
    [le_encode 8 (sip0 k); le_encode 8 (sip1 k); le_encode 8 (dip0 k); le_encode 8 (dip1 k); le_encode 2 (sport k);
     le_encode 2 (dport k)].

Definition first_packet_evt_layout : list (Z * Z) := [(8, 8); (4, 4); (1, 1); (4, 4); (4, 4); struct_member sock_key_layout].
Definition first_packet_evt_bytes (e : first_packet_evt) : list Z :=
  c_struct 0 first_packet_evt_layout
    [le_encode 8 (fp_ts e); le_encode 4 (fp_len e); le_encode 1 (fp_flags e); le_encode 4 (fp_ifindex e);
     le_encode 4 (step_val (fp_step e)); sock_key_bytes (offset_of first_packet_evt_layout 5) (fp_key e)].

Definition conn_id_layout : list (Z * Z) := [struct_member [(4, 4); (8, 8)]; (4, 4); (8, 8)].
Definition conn_id_bytes (base : Z) (c : conn_id_t) : list Z :=
  c_struct base conn_id_layout
    [c_struct base [(4, 4); (8, 8)] [le_encode 4 (cid_tgid c); le_encode 8 (cid_start_time_ticks c)];
     le_encode 4 (cid_fd c); le_encode 8 (cid_tsid c)].

(** [struct sockaddr_in6], the largest member of [union sockaddr_t]. *)
Definition sockaddr_layout : list (Z * Z) := [(2, 2); (2, 2); (4, 4); (16, 4); (4, 4)].
Definition sockaddr_bytes (base : Z) (a : sockaddr_t) : list Z :=
  c_struct base sockaddr_layout
    [le_encode 2 (sin6_family a); le_encode 2 (sin6_port a); le_encode 4 (sin6_flowinfo a); in6_bytes (sin6_addr a);
     le_encode 4 (sin6_scope_id a)].

Definition conn_info_layout : list (Z * Z) :=
  [struct_member conn_id_layout; (8, 8); (8, 8); (8, 8); (8, 8); struct_member sockaddr_layout; struct_member sockaddr_layout;
   (4, 4); (4, 4); (8, 8); (4, 1); (1, 1); (4, 4); (1, 1)].
Definition conn_info_bytes (base : Z) (c : conn_info_t) : list Z :=
  c_struct base conn_info_layout
    [conn_id_bytes base (ci_conn_id c); le_encode 8 (ci_read_bytes c); le_encode 8 (ci_write_bytes c);
     le_encode 8 (ci_ssl_read_bytes c); le_encode 8 (ci_ssl_write_bytes c);
     sockaddr_bytes (base + offset_of conn_info_layout 5) (ci_laddr c); sockaddr_bytes (base + offset_of conn_info_layout 6) (ci_raddr c);
     le_encode 4 (traffic_protocol_val (ci_protocol c)); le_encode 4 (endpoint_role_val (ci_role c)); le_encode 8 (ci_prev_count c);
     ci_prev_buf c; bool_byte (ci_prepend_length_header c); le_encode 4 (conn_trace_state_val (ci_no_trace c)); bool_byte (ci_ssl c)].

Definition conn_evt_layout : list (Z * Z) := [struct_member conn_info_layout; (4, 4); (8, 8)].
Definition conn_evt_bytes (e : conn_evt_t) : list Z :=
  c_struct 0 conn_evt_layout
    [conn_info_bytes 0 (ce_conn_info e); le_encode 4 (conn_type_val (ce_conn_type e)); le_encode 8 (ce_ts e)].

(** A record of a ring: what [bpf_perf_event_output] copies of the structure. *)
Definition record_bytes (r : perf_record) : list Z :=
  match r with
  | rb evt => kern_evt_bytes 0 evt
  | syscall_rb ke buf_size payload =>
    lay_out 0 0 kern_evt_data_layout [kern_evt_bytes 0 ke; le_encode 4 buf_size; payload]
  | ssl_rb ke syscall_seq syscall_len buf_size payload =>
    lay_out 0 0 kern_evt_ssl_data_layout
      [kern_evt_bytes 0 ke; le_encode 4 syscall_seq; le_encode 4 syscall_len; le_encode 4 buf_size; payload]
  | first_packet_rb evt => first_packet_evt_bytes evt
  | conn_evt_rb evt => conn_evt_bytes evt
  | proc_exec_events pid | proc_exit_events pid => le_encode 4 pid
  end.
End Bytes.

(** ** [binary.Read] *)

Definition read_n (n : nat) (bs : list Z) : option (list Z * list Z) :=
  if (n <=? length bs)%nat then Some (take n bs, drop n bs) else None.
Definition read_uint (n : nat) (bs : list Z) : option (Z * list Z) :=
  '(b, bs) ← read_n n bs; Some (le_decode b, bs).
Definition read_bool (bs : list Z) : option (bool * list Z) :=
  '(b, bs) ← read_uint 1 bs; Some (negb (b =? 0), bs).

Definition conn_trace_state_of (z : Z) : conn_trace_state_t :=
  match z with 0 => unset | 1 => traceable | 2 => protocol_not_matched | 3 => protocol_unknown | _ => other end.

Definition read_AgentConnIdS_t (bs : list Z) : option (conn_id_s_t * list Z) :=
  '(TgidFd, bs) ← read_uint 8 bs;
  '(NoTrace, bs) ← read_uint 4 bs;
  '(_, bs) ← read_n 4 bs;
  Some (mk_conn_id_s TgidFd (conn_trace_state_of NoTrace), bs).

Definition read_AgentKernEvt (bs : list Z) : option (kern_evt * list Z) :=
  '(FuncName, bs) ← read_n 16 bs;
  '(Ts, bs) ← read_uint 8 bs;
  '(TsDelta, bs) ← read_uint 4 bs;
  '(Seq, bs) ← read_uint 4 bs;
  '(Len, bs) ← read_uint 4 bs;
  '(Flags, bs) ← read_uint 1 bs;
  '(PrependLengthHeader, bs) ← read_bool bs;
  '(_, bs) ← read_n 2 bs;
  '(Ifindex, bs) ← read_uint 4 bs;
  '(_, bs) ← read_n 4 bs;
  '(ConnIdS, bs) ← read_AgentConnIdS_t bs;
  '(Step, bs) ← read_uint 4 bs;
  '(LengthHeader, bs) ← read_uint 4 bs;
  Some (mk_kern_evt (s8 <$> FuncName) Ts TsDelta Seq Len Flags PrependLengthHeader Ifindex ConnIdS (step_of_val Step) LengthHeader, bs).

Definition read_AgentSockKey (bs : list Z) : option (sock_key * list Z) :=
  '(a, bs) ← read_uint 8 bs;
  '(b, bs) ← read_uint 8 bs;
  '(c, bs) ← read_uint 8 bs;
  '(d, bs) ← read_uint 8 bs;
  '(Sport, bs) ← read_uint 2 bs;
  '(Dport, bs) ← read_uint 2 bs;
  '(_, bs) ← read_n 4 bs;
  Some (mk_sock_key a b c d Sport Dport, bs).

Definition read_AgentFirstPacketEvt (bs : list Z) : option (first_packet_evt * list Z) :=
  '(Ts, bs) ← read_uint 8 bs;
  '(Len, bs) ← read_uint 4 bs;
  '(Flags, bs) ← read_uint 1 bs;
  '(_, bs) ← read_n 3 bs;
  '(Ifindex, bs) ← read_uint 4 bs;
  '(Step, bs) ← read_uint 4 bs;
  '(Key, bs) ← read_AgentSockKey bs;
  Some (mk_first_packet_evt Ts Len Flags Ifindex (step_of_val Step) Key, bs).

Definition endpoint_role_of (z : Z) : endpoint_role_t :=
  match z with 1 => kRoleClient | 2 => kRoleServer | 4 => kRoleUnknown | _ => kRoleZero end.
Definition conn_type_of (z : Z) : conn_type_t :=
  match z with 0 => Types.kConnect | 1 => kClose | _ => kProtocolInfer end.

(** The sixteen bytes of an address are kept; here as the two words they are. *)
Definition read_sockaddr (bs : list Z) : option (sockaddr_t * list Z) :=
  '(Sin6Family, bs) ← read_uint 2 bs;
  '(Sin6Port, bs) ← read_uint 2 bs;
  '(Sin6Flowinfo, bs) ← read_uint 4 bs;
  '(a0, bs) ← read_uint 8 bs;
  '(a1, bs) ← read_uint 8 bs;
  '(Sin6ScopeId, bs) ← read_uint 4 bs;
  Some (mk_sockaddr Sin6Family Sin6Port Sin6Flowinfo (mk_in6_addr a0 a1) Sin6ScopeId, bs).

Definition read_conn_id (bs : list Z) : option (conn_id_t * list Z) :=
  '(Pid, bs) ← read_uint 4 bs;
  '(_, bs) ← read_n 4 bs;
  '(StartTimeTicks, bs) ← read_uint 8 bs;
  '(Fd, bs) ← read_uint 4 bs;
  '(_, bs) ← read_n 4 bs;
  '(Tsid, bs) ← read_uint 8 bs;
  Some (mk_conn_id Pid StartTimeTicks (s32 Fd) Tsid, bs).

Definition read_AgentConnInfoT (bs : list Z) : option (conn_info_t * list Z) :=
  '(ConnId, bs) ← read_conn_id bs;
  '(ReadBytes, bs) ← read_uint 8 bs;
  '(WriteBytes, bs) ← read_uint 8 bs;
  '(SslReadBytes, bs) ← read_uint 8 bs;
  '(SslWriteBytes, bs) ← read_uint 8 bs;
  '(Laddr, bs) ← read_sockaddr bs;
  '(Raddr, bs) ← read_sockaddr bs;
  '(Protocol, bs) ← read_uint 4 bs;
  '(Role, bs) ← read_uint 4 bs;
  '(PrevCount, bs) ← read_uint 8 bs;
  '(PrevBuf, bs) ← read_n 4 bs;
  '(PrependLengthHeader, bs) ← read_bool bs;
  '(_, bs) ← read_n 3 bs;
  '(NoTrace, bs) ← read_uint 4 bs;
  '(Ssl, bs) ← read_bool bs;
  '(_, bs) ← read_n 3 bs;
  Some (mk_conn_info ConnId ReadBytes WriteBytes SslReadBytes SslWriteBytes Laddr Raddr (traffic_protocol_of Protocol)
    (endpoint_role_of Role) PrevCount (s8 <$> PrevBuf) PrependLengthHeader (conn_trace_state_of NoTrace) Ssl, bs).

Definition read_AgentConnEvtT (bs : list Z) : option (conn_evt_t * list Z) :=
  '(ConnInfo, bs) ← read_AgentConnInfoT bs;
  '(ConnType, bs) ← read_uint 4 bs;
  '(_, bs) ← read_n 4 bs;
  '(Ts, bs) ← read_uint 8 bs;
  Some (mk_conn_evt ConnInfo (conn_type_of ConnType) Ts, bs).

(** ** The parsers *)

Definition parseConnEvent (record : list Z) : option conn_evt_t := fst <$> read_AgentConnEvtT record.

Definition parseKernEvent (record : list Z) : option kern_evt := fst <$> read_AgentKernEvt record.
Definition parseFirstPacketEvent (record : list Z) : option first_packet_evt := fst <$> read_AgentFirstPacketEvt record.

Definition parseExitEvent (rawSample : list Z) : option Z := '(Pid, _) ← read_uint 4 rawSample; Some (s32 Pid).
Definition parseExecEvent (rawSample : list Z) : option Z := '(Pid, _) ← read_uint 4 rawSample; Some (s32 Pid).

(** [unsafe.Sizeof] of [SyscallEvent] and of [SslEventHeader]. *)
Definition sizeof_SyscallEvent : Z := struct_size [struct_member kern_evt_layout; (4, 4)].
Definition sizeof_SslEventHeader : Z := struct_size [struct_member kern_evt_layout; (4, 4); (4, 4); (4, 4)].

(** The bytes behind the header; the slice expression panics if there is no header. *)
Definition read_payload (record : list Z) (headerSize msgSize : Z) : go (option (list Z)) :=
  bs ← slice_from record headerSize;
  Ret (fst <$> read_n (Z.to_nat msgSize) bs).

Definition parseSyscallDataEvent (rawSample : list Z) : go (option SyscallEventData) :=
  match ('(ke, bs) ← read_AgentKernEvt rawSample; '(BufSize, _) ← read_uint 4 bs; Some (ke, BufSize)) with
  | None => Ret None
  | Some (ke, msgSize) =>
    buf ← (if msgSize >? 0 then read_payload rawSample (sizeof_SyscallEvent - 4) msgSize else Ret (Some []));
    Ret (buf ← buf; Some (mk_SyscallEvent ke msgSize, buf))
  end.

Definition parseSslDataEvent (record : list Z) : go (option SslData) :=
  match ('(ke, bs) ← read_AgentKernEvt record; '(SyscallSeq, bs) ← read_uint 4 bs; '(SyscallLen, bs) ← read_uint 4 bs;
         '(BufSize, _) ← read_uint 4 bs; Some (mk_ssl_header ke SyscallSeq SyscallLen, BufSize)) with
  | None => Ret None
  | Some (header, msgSize) =>
    buf ← read_payload record (sizeof_SslEventHeader - 4) msgSize;
    Ret (buf ← buf; Some (header, buf))
  end.

(** The processor an event is sent to. *)
Definition channel_of (n tgidfd : Z) : go Z :=
  i ← go_rem (s64 tgidfd) n;
  if (0 <=? i) && (i <? n) then Ret i else Panic.

(** ** What is written is read *)

Lemma read_n_app n v rest : length v = n -> read_n n (v ++ rest) = Some (v, rest).
Proof.
  intros <-. unfold read_n. rewrite length_app, (proj2 (Nat.leb_le _ _)) by lia. by rewrite take_app_length, drop_app_length.
Qed.

Lemma read_uint_app n z rest : 0 <= z < 256 ^ Z.of_nat n -> read_uint n (le_encode n z ++ rest) = Some (z, rest).
Proof.
  intros Hz. unfold read_uint. rewrite read_n_app by apply length_le_encode. cbn. rewrite le_decode_encode. by rewrite Z.mod_small.
Qed.

Lemma read_bool_app b rest : read_bool (bool_byte b ++ rest) = Some (b, rest).
Proof. by destruct b. Qed.

Lemma padding_length pad from to : length (padding pad from to) = Z.to_nat (to - from).
Proof. unfold padding. by rewrite length_fmap, length_seq. Qed.

Lemma read_padding pad n from to rest : to - from = Z.of_nat n -> read_n n (padding pad from to ++ rest) = Some (padding pad from to, rest).
Proof. intros E. apply read_n_app. rewrite padding_length. lia. Qed.

Lemma no_padding pad a : padding pad a a = [].
Proof. unfold padding. by rewrite Z.sub_diag. Qed.

(** The offsets of a layout, computed. *)
Ltac offsets :=
  unfold struct_member; cbn [lay_out];
  repeat match goal with
  | |- context [round_up ?a ?b] => let v := eval vm_compute in (round_up a b) in change (round_up a b) with v
  | |- context [struct_align ?fs] => let v := eval vm_compute in (struct_align fs) in change (struct_align fs) with v
  | |- context [layout_end 0 ?fs] => let v := eval vm_compute in (layout_end 0 fs) in change (layout_end 0 fs) with v
  | |- context [struct_size ?fs] => let v := eval vm_compute in (struct_size fs) in change (struct_size fs) with v
  | |- context [offset_of ?fs ?i] => let v := eval vm_compute in (offset_of fs i) in change (offset_of fs i) with v
  end; rewrite ?no_padding, <- ?app_assoc, ?app_nil_l.

Ltac read_step := first
  [rewrite read_uint_app by (done || (cbn; lia))|rewrite read_bool_app|rewrite read_padding by (cbn; lia)]; cbn [mbind option_bind]; rewrite ?app_nil_l.

Lemma trace_state_val t : conn_trace_state_of (conn_trace_state_val t) = t /\ 0 <= conn_trace_state_val t < 256 ^ Z.of_nat 4.
Proof. by destruct t. Qed.
Lemma step_val_of st : step_of_val (step_val st) = st /\ 0 <= step_val st < 256 ^ Z.of_nat 4.
Proof. by destruct st. Qed.

Definition u64_ok (z : Z) : Prop := 0 <= z < 256 ^ Z.of_nat 8.
Definition u32_ok (z : Z) : Prop := 0 <= z < 256 ^ Z.of_nat 4.
Definition u16_ok (z : Z) : Prop := 0 <= z < 256 ^ Z.of_nat 2.
Definition u8_ok (z : Z) : Prop := 0 <= z < 256 ^ Z.of_nat 1.

Lemma conn_id_s_read pad base c rest : u64_ok (tgid_fd c) ->
  read_AgentConnIdS_t (conn_id_s_bytes pad base c ++ rest) = Some (c, rest).
Proof.
  intros Hc. destruct (trace_state_val (cids_no_trace c)) as [Et Ht].
  unfold read_AgentConnIdS_t, conn_id_s_bytes, c_struct, conn_id_s_t_layout. offsets.
  do 3 read_step. rewrite Et. by destruct c.
Qed.

(** An event whose fields have their widths. *)
Record kern_evt_valid (e : kern_evt) : Prop := mk_kern_evt_valid {
  valid_name : length (ke_func_name e) = 16%nat /\ Forall (fun b => 0 <= b < 128) (ke_func_name e);
  valid_ts : u64_ok (ke_ts e);
  valid_delta : u32_ok (ke_ts_delta e);
  valid_seq : u32_ok (ke_seq e);
  valid_len : u32_ok (ke_len e);
  valid_flags : u8_ok (ke_flags e);
  valid_ifindex : u32_ok (ke_ifindex e);
  valid_tgid_fd : u64_ok (tgid_fd (ke_conn_id_s e));
  valid_header : u32_ok (ke_length_header e);
}.

Lemma s8_chars l : Forall (fun b => 0 <= b < 128) l -> s8 <$> l = l.
Proof. induction 1 as [|b l Hb Hl IH]; [done|]. cbn. rewrite IH. f_equal. unfold s8. rewrite Z.mod_small; lia. Qed.

Lemma kern_evt_read pad base e rest : kern_evt_valid e ->
  read_AgentKernEvt (kern_evt_bytes pad base e ++ rest) = Some (e, rest).
Proof.
  intros [ [Hn Hc] H1 H2 H3 H4 H5 H6 H7 H8]. destruct (step_val_of (ke_step e)) as [Es Hs].
  unfold read_AgentKernEvt, kern_evt_bytes, c_struct, kern_evt_layout. offsets.
  rewrite read_n_app by done. cbn [mbind option_bind]. rewrite ?app_nil_l. do 9 read_step.
  rewrite conn_id_s_read by done. cbn [mbind option_bind]. rewrite ?app_nil_l. do 2 read_step.
  rewrite Es, s8_chars by done. by destruct e.
Qed.

Lemma sock_key_read pad base k rest :
  u64_ok (sip0 k) -> u64_ok (sip1 k) -> u64_ok (dip0 k) -> u64_ok (dip1 k) -> u16_ok (sport k) -> u16_ok (dport k) ->
  read_AgentSockKey (sock_key_bytes pad base k ++ rest) = Some (k, rest).
Proof.
  intros. unfold read_AgentSockKey, sock_key_bytes, c_struct, sock_key_layout. offsets.
  do 7 read_step. by destruct k.
Qed.

Record first_packet_valid (e : first_packet_evt) : Prop := mk_first_packet_valid {
  first_ts : u64_ok (fp_ts e);
  first_len : u32_ok (fp_len e);
  first_flags : u8_ok (fp_flags e);
  first_ifindex : u32_ok (fp_ifindex e);
  first_ips : u64_ok (sip0 (fp_key e)) /\ u64_ok (sip1 (fp_key e)) /\ u64_ok (dip0 (fp_key e)) /\ u64_ok (dip1 (fp_key e));
  first_ports : u16_ok (sport (fp_key e)) /\ u16_ok (dport (fp_key e));
}.

Lemma first_packet_read pad e rest : first_packet_valid e ->
  read_AgentFirstPacketEvt (first_packet_evt_bytes pad e ++ rest) = Some (e, rest).
Proof.
  intros [H1 H2 H3 H4 (H5 & H6 & H7 & H8) [H9 H10] ]. destruct (step_val_of (fp_step e)) as [Es Hs].
  unfold read_AgentFirstPacketEvt, first_packet_evt_bytes, c_struct, first_packet_evt_layout. offsets.
  do 6 read_step. rewrite sock_key_read by done. cbn [mbind option_bind]. rewrite Es. by destruct e.
Qed.

Lemma sockaddr_read pad base a rest :
  u16_ok (sin6_family a) -> u16_ok (sin6_port a) -> u32_ok (sin6_flowinfo a) -> u64_ok (addr64_0 (sin6_addr a)) ->
  u64_ok (addr64_1 (sin6_addr a)) -> u32_ok (sin6_scope_id a) ->
  read_sockaddr (sockaddr_bytes pad base a ++ rest) = Some (a, rest).
Proof.
  intros. unfold read_sockaddr, sockaddr_bytes, in6_bytes, c_struct, sockaddr_layout. offsets.
  do 6 read_step. by destruct a as [? ? ? [] ?].
Qed.

Lemma read_fd fd rest : -2147483648 <= fd < 2147483648 ->
  read_uint 4 (le_encode 4 fd ++ rest) = Some (fd mod 4294967296, rest) /\ s32 (fd mod 4294967296) = fd.
Proof.
  intros Hf. split.
  - unfold read_uint. rewrite read_n_app by apply length_le_encode. cbn [mbind option_bind]. by rewrite le_decode_encode.
  - unfold s32. rewrite Zplus_mod_idemp_l, Z.mod_small; lia.
Qed.

Record conn_id_valid (c : conn_id_t) : Prop := mk_conn_id_valid {
  id_tgid : u32_ok (cid_tgid c);
  id_start : u64_ok (cid_start_time_ticks c);
  id_fd : -2147483648 <= cid_fd c < 2147483648;
  id_tsid : u64_ok (cid_tsid c);
}.

Lemma conn_id_read pad base c rest : conn_id_valid c -> read_conn_id (conn_id_bytes pad base c ++ rest) = Some (c, rest).
Proof.
  intros [H1 H2 H3 H4]. unfold read_conn_id, conn_id_bytes, c_struct, conn_id_layout. offsets.
  do 3 read_step. match goal with |- context [read_uint 4 (le_encode 4 (cid_fd c) ++ ?r)] => destruct (read_fd (cid_fd c) r H3) as [-> Es] end.
  cbn [mbind option_bind]. do 2 read_step. rewrite Es. by destruct c.
Qed.

Record sockaddr_valid (a : sockaddr_t) : Prop := mk_sockaddr_valid {
  sa_family : u16_ok (sin6_family a);
  sa_port : u16_ok (sin6_port a);
  sa_flow : u32_ok (sin6_flowinfo a);
  sa_words : u64_ok (addr64_0 (sin6_addr a)) /\ u64_ok (addr64_1 (sin6_addr a));
  sa_scope : u32_ok (sin6_scope_id a);
}.

Record conn_info_valid (c : conn_info_t) : Prop := mk_conn_info_valid {
  info_id : conn_id_valid (ci_conn_id c);
  info_counts : u64_ok (ci_read_bytes c) /\ u64_ok (ci_write_bytes c) /\ u64_ok (ci_ssl_read_bytes c) /\
    u64_ok (ci_ssl_write_bytes c) /\ u64_ok (ci_prev_count c);
  info_addrs : sockaddr_valid (ci_laddr c) /\ sockaddr_valid (ci_raddr c);
  info_buf : length (ci_prev_buf c) = 4%nat;
}.

Lemma protocol_val_of p : traffic_protocol_of (traffic_protocol_val p) = p /\ 0 <= traffic_protocol_val p < 256 ^ Z.of_nat 4.
Proof. by destruct p. Qed.
Lemma role_val_of r : endpoint_role_of (endpoint_role_val r) = r /\ 0 <= endpoint_role_val r < 256 ^ Z.of_nat 4.
Proof. by destruct r. Qed.
Lemma conn_type_val_of t : conn_type_of (conn_type_val t) = t /\ 0 <= conn_type_val t < 256 ^ Z.of_nat 4.
Proof. by destruct t. Qed.

(** [PrevBuf] is the one field that changes its type: [char] is read as [int8]. *)
Definition as_read (c : conn_info_t) : conn_info_t := c <| ci_prev_buf ::= fmap s8 |>.

Lemma conn_info_read pad base c rest : conn_info_valid c ->
  read_AgentConnInfoT (conn_info_bytes pad base c ++ rest) = Some (as_read c, rest).
Proof.
  intros [H1 (H2 & H3 & H4 & H5 & H6) [ [] [] ] H7].
  destruct (protocol_val_of (ci_protocol c)) as [Ep Hp], (role_val_of (ci_role c)) as [Er Hr], (trace_state_val (ci_no_trace c)) as [Et Ht].
  unfold read_AgentConnInfoT, conn_info_bytes, c_struct, conn_info_layout. offsets.
  rewrite conn_id_read by done. cbn [mbind option_bind]. rewrite ?app_nil_l. do 4 read_step.
  destruct sa_words0, sa_words1. do 2 (rewrite sockaddr_read by done; cbn [mbind option_bind]; rewrite ?app_nil_l).
  do 3 read_step. rewrite read_n_app by done. cbn [mbind option_bind]. rewrite ?app_nil_l. do 5 read_step.
  rewrite Ep, Er, Et. by destruct c.
Qed.

Lemma conn_evt_read pad e rest : conn_info_valid (ce_conn_info e) -> u64_ok (ce_ts e) ->
  read_AgentConnEvtT (conn_evt_bytes pad e ++ rest) =
    Some (mk_conn_evt (as_read (ce_conn_info e)) (ce_conn_type e) (ce_ts e), rest).
Proof.
  intros H1 H2. destruct (conn_type_val_of (ce_conn_type e)) as [Et Ht].
  unfold read_AgentConnEvtT, conn_evt_bytes, c_struct, conn_evt_layout. offsets.
  rewrite conn_info_read by done. cbn [mbind option_bind]. rewrite ?app_nil_l. do 3 read_step. by rewrite Et.
Qed.

Lemma kern_evt_bytes_length pad base e : length (ke_func_name e) = 16%nat -> length (kern_evt_bytes pad base e) = 72%nat.
Proof.
  intros Hn. unfold kern_evt_bytes, conn_id_s_bytes, c_struct, kern_evt_layout, conn_id_s_t_layout. offsets.
  rewrite !length_app, !padding_length, !length_le_encode, Hn. unfold bool_byte. cbn [length]. lia.
Qed.

Lemma payload_read header payload extra n m :
  zlen header = n -> zlen payload = m -> read_payload (header ++ payload ++ extra) n m = Ret (Some payload).
Proof.
  intros Hn Hm. unfold read_payload. pose proof (zlen_nonneg header). pose proof (zlen_nonneg (payload ++ extra)).
  rewrite slice_from_ok by (rewrite zlen_app; lia). cbn [mbind go_bind].
  rewrite drop_app_length' by (unfold zlen in *; lia). by rewrite read_n_app by (unfold zlen in *; lia).
Qed.

Lemma syscall_read pad ke buf_size payload extra :
  kern_evt_valid ke -> u32_ok buf_size -> zlen payload = buf_size ->
  parseSyscallDataEvent (record_bytes pad (syscall_rb ke buf_size payload) ++ extra) =
    Ret (Some (mk_SyscallEvent ke buf_size, payload)).
Proof.
  intros Hk Hb Hp. unfold parseSyscallDataEvent, record_bytes, kern_evt_data_layout. offsets. 
  rewrite kern_evt_read by done. cbn [mbind option_bind]. rewrite ?app_nil_l. read_step.
  change (sizeof_SyscallEvent - 4) with 76. rewrite Z.gtb_ltb. destruct (Z.ltb_spec 0 buf_size) as [Hpos|Hz].
  - rewrite app_assoc, payload_read; [done| |done].
    rewrite zlen_app. unfold zlen. rewrite kern_evt_bytes_length by apply Hk. by rewrite length_le_encode.
  - destruct payload; [done|]. rewrite zlen_cons in Hp. pose proof (zlen_nonneg payload). lia.
Qed.

Lemma ssl_read pad ke sq sl buf_size payload extra :
  kern_evt_valid ke -> u32_ok sq -> u32_ok sl -> u32_ok buf_size -> zlen payload = buf_size ->
  parseSslDataEvent (record_bytes pad (ssl_rb ke sq sl buf_size payload) ++ extra) = Ret (Some (mk_ssl_header ke sq sl, payload)).
Proof.
  intros Hk Hq Hl Hb Hp. unfold parseSslDataEvent, record_bytes, kern_evt_ssl_data_layout. offsets.
  rewrite kern_evt_read by done. cbn [mbind option_bind]. rewrite ?app_nil_l. do 3 read_step.
  change (sizeof_SslEventHeader - 4) with 84. rewrite !app_assoc, <- (app_assoc _ payload), payload_read; [done| |done].
  rewrite !zlen_app. unfold zlen. rewrite kern_evt_bytes_length by apply Hk. by rewrite !length_le_encode.
Qed.

(** ** Bytes are all a decoder needs *)

Lemma read_n_bytes n bs b rest : byte_list bs -> read_n n bs = Some (b, rest) ->
  byte_list b /\ length b = n /\ byte_list rest /\ length bs = (n + length rest)%nat.
Proof.
  intros Hb. unfold read_n. destruct (Nat.leb_spec n (length bs)); [|done]. intros [= <- <-].
  split_and!; [by apply Forall_take|by apply length_take_le|by apply Forall_drop|]. rewrite length_drop. lia.
Qed.

Lemma read_uint_bytes n bs z rest : byte_list bs -> read_uint n bs = Some (z, rest) ->
  0 <= z < 256 ^ Z.of_nat n /\ byte_list rest /\ length bs = (n + length rest)%nat.
Proof.
  intros Hb. unfold read_uint. intros ([b r] & E & [= <- <-])%bind_Some.
  destruct (read_n_bytes n bs b r Hb E) as (H1 & <- & H2 & H3). split; [by apply le_decode_range|done].
Qed.

Lemma read_bool_bytes bs b rest : byte_list bs -> read_bool bs = Some (b, rest) ->
  byte_list rest /\ length bs = (1 + length rest)%nat.
Proof. intros Hb. unfold read_bool. intros ([z r] & E & [= _ <-])%bind_Some. by apply read_uint_bytes in E as [_ ?]. Qed.

(** The next read of a structure, and what it says of the value and of the rest. *)
Ltac next_read :=
  match goal with
  | H : mbind _ (?read ?n ?bs) = Some _ |- _ =>
    let E := fresh "E" in let z := fresh "z" in let r := fresh "r" in
    apply bind_Some in H as ([z r] & E & H);
    first [apply read_uint_bytes in E as (? & ? & ?)|apply read_n_bytes in E as (? & ? & ? & ?)]; [|done]
  | H : mbind _ (read_bool _) = Some _ |- _ =>
    let E := fresh "E" in let z := fresh "z" in let r := fresh "r" in
    apply bind_Some in H as ([z r] & E & H); apply read_bool_bytes in E as (? & ?); [|done]
  end.

Lemma read_kern_evt_bytes bs e rest : byte_list bs -> read_AgentKernEvt bs = Some (e, rest) ->
  u32_ok (ke_seq e) /\ u32_ok (ke_len e) /\ byte_list rest /\ length bs = (72 + length rest)%nat.
Proof.
  intros Hb E. unfold read_AgentKernEvt in E. do 10 next_read.
  apply bind_Some in E as ([c r9] & E0 & E). unfold read_AgentConnIdS_t in E0. do 3 next_read.
  injection E0 as _ <-. do 2 next_read. injection E as <- <-. split_and!; try done. lia.
Qed.

(** The payload behind a header that was read is there, or the record is short. *)
Lemma read_payload_bytes raw n m : byte_list raw -> 0 <= n <= zlen raw -> 0 <= m ->
  exists o, read_payload raw n m = Ret o /\ forall buf, o = Some buf -> byte_list buf /\ zlen buf = m.
Proof.
  intros Hb Hn Hm. unfold read_payload. rewrite slice_from_ok by done. cbn [mbind go_bind]. eexists. split; [done|].
  intros buf E. destruct (read_n (Z.to_nat m) (drop (Z.to_nat n) raw)) as [ [b r]|] eqn:Er; [|done].
  apply read_n_bytes in Er as (H1 & H2 & _); [|by apply Forall_drop]. injection E as <-. split; [done|].
  cbn [fst]. unfold zlen. lia.
Qed.

Lemma parse_syscall_bytes raw : byte_list raw ->
  exists o, parseSyscallDataEvent raw = Ret o /\ forall e, o = Some e -> 0 < ke_len (se_Ke e.1) -> syscall_ok e.
Proof.
  intros Hb. unfold parseSyscallDataEvent. change (sizeof_SyscallEvent - 4) with 76.
  destruct (_ ≫= _) as [ [ke n]|] eqn:E; [|by exists None].
  apply bind_Some in E as ([ke' bs] & E1 & E). apply read_kern_evt_bytes in E1 as (Hq & Hl & Hbs & Hlen); [|done].
  next_read. injection E as -> ->.
  assert (exists o, (if n >? 0 then read_payload raw 76 n else Ret (Some [])) = Ret o /\
    forall buf, o = Some buf -> byte_list buf /\ zlen buf = n) as (o & -> & Ho).
  { rewrite Z.gtb_ltb. destruct (Z.ltb_spec 0 n); [apply read_payload_bytes; [done| |lia]; unfold zlen; lia|].
    exists (Some []). split; [done|]. intros buf [= <-]. split; [constructor|]. unfold zlen. cbn. lia. }
  cbn [mbind go_bind]. eexists. split; [done|]. intros e He Hpos. destruct o as [buf|]; [|done]. injection He as <-.
  destruct (Ho buf eq_refl) as [Hbuf Hn]. unfold u32_ok in *. cbn [fst snd] in *. split_and!; cbn [fst snd BufSize se_Ke]; done || lia.
Qed.

Lemma parse_ssl_bytes raw : byte_list raw ->
  exists o, parseSslDataEvent raw = Ret o /\ forall e, o = Some e -> ssl_ok e.
Proof.
  intros Hb. unfold parseSslDataEvent. change (sizeof_SslEventHeader - 4) with 84.
  destruct (_ ≫= _) as [ [h n]|] eqn:E; [|by exists None].
  apply bind_Some in E as ([ke' bs] & E1 & E). apply read_kern_evt_bytes in E1 as (Hq & Hl & Hbs & Hlen); [|done].
  do 3 next_read. injection E as <- ->.
  destruct (read_payload_bytes raw 84 n Hb) as (o & -> & Ho); [unfold zlen; lia|lia|].
  cbn [mbind go_bind]. eexists. split; [done|]. intros e He. destruct o as [buf|]; [|done]. injection He as <-.
  destruct (Ho buf eq_refl) as [Hbuf Hn]. unfold u32_ok in *. split_and!; cbn [fst snd Ke]; done || lia.
Qed.

(** ** Properties *)

(** A record as the probes write it: fields of their widths, a payload of [buf_size]
    bytes. *)
Definition record_valid (r : perf_record) : Prop :=
  match r with
  | rb evt => kern_evt_valid evt
  | syscall_rb ke buf_size payload => kern_evt_valid ke /\ u32_ok buf_size /\ zlen payload = buf_size
  | ssl_rb ke sq sl buf_size payload => kern_evt_valid ke /\ u32_ok sq /\ u32_ok sl /\ u32_ok buf_size /\ zlen payload = buf_size
  | first_packet_rb evt => first_packet_valid evt
  | conn_evt_rb evt => conn_info_valid (ce_conn_info evt) /\ u64_ok (ce_ts evt)
  | proc_exec_events pid | proc_exit_events pid => -2147483648 <= pid < 2147483648
  end.

(** The agent's parser of the ring gives the record's values. *)
Definition reads_back (r : perf_record) (raw : list Z) : Prop :=
  match r with
  | rb evt => parseKernEvent raw = Some evt
  | syscall_rb ke buf_size payload => parseSyscallDataEvent raw = Ret (Some (mk_SyscallEvent ke buf_size, payload))
  | ssl_rb ke sq sl _ payload => parseSslDataEvent raw = Ret (Some (mk_ssl_header ke sq sl, payload))
  | first_packet_rb evt => parseFirstPacketEvent raw = Some evt
  | conn_evt_rb evt => parseConnEvent raw = Some (mk_conn_evt (as_read (ce_conn_info evt)) (ce_conn_type evt) (ce_ts evt))
  | proc_exec_events pid => parseExecEvent raw = Some pid
  | proc_exit_events pid => parseExitEvent raw = Some pid
  end.

(** C10: what the probes write is what the agent reads.  For the structure of every ring,
    laid out by the C compiler with any bytes in its padding and any bytes behind it in
    the record, the agent's parser of that ring returns the values the probe stored: the
    fields that [bpf2go] generated for the padding are where the compiler leaves it, and
    the payload of a system call or SSL event starts at the size of the Go header less
    the four bytes of its own padding.  Only [PrevBuf] changes, from [char] to
    [int8]. *)
Theorem ring_records_read_back (pad : Z -> Z) (r : perf_record) (extra : list Z) (Hvalid : record_valid r) :
  reads_back r (record_bytes pad r ++ extra).
Proof.
  destruct r as [e|ke n payload|ke sq sl n payload|e|e|pid|pid]; cbn [record_valid reads_back] in *.
  - unfold parseKernEvent. cbn [record_bytes]. by rewrite kern_evt_read.
  - destruct Hvalid as (? & ? & ?). by apply syscall_read.
  - destruct Hvalid as (? & ? & ? & ? & ?). by apply ssl_read.
  - unfold parseFirstPacketEvent. cbn [record_bytes]. by rewrite first_packet_read.
  - destruct Hvalid as [? ?]. unfold parseConnEvent. cbn [record_bytes]. by rewrite conn_evt_read.
  - unfold parseExecEvent. destruct (read_fd pid extra Hvalid) as [E Es]. cbn [record_bytes]. rewrite E. cbn. by rewrite Es.
  - unfold parseExitEvent. destruct (read_fd pid extra Hvalid) as [E Es]. cbn [record_bytes]. rewrite E. cbn. by rewrite Es.
Qed.


Lemma tgid_fd_agrees ci : 0 <= cid_tgid (ci_conn_id ci) < 4294967296 -> 0 <= cid_fd (ci_conn_id ci) < 2147483648 ->
  tgid_fd_of ci = gen_tgid_fd (cid_tgid (ci_conn_id ci)) (cid_fd (ci_conn_id ci)) /\
  tgid_fd_of ci = cid_tgid (ci_conn_id ci) * 4294967296 + cid_fd (ci_conn_id ci).
Proof.
  intros Ht Hf. unfold tgid_fd_of, gen_tgid_fd. rewrite !u32_small by lia. rewrite Z.shiftl_mul_pow2 by lia.
  change (2 ^ 32) with 4294967296. rewrite !u64_small by lia. split; [done|].
  rewrite <- Z.lxor_lor, <- Z.add_nocarry_lxor; [done|..].
  all: change 4294967296 with (2 ^ 32); rewrite <- Z.shiftl_mul_pow2 by lia.
  all: apply Z.bits_inj'; intros i Hi; rewrite Z.land_spec, Z.bits_0; destruct (Z.lt_ge_cases i 32);
    [by rewrite Z.shiftl_spec_low|].
  all: replace (Z.testbit (cid_fd (ci_conn_id ci)) i) with false; [apply andb_false_r|].
  all: symmetry; destruct (Z.eq_dec (cid_fd (ci_conn_id ci)) 0) as [->|]; [apply Z.bits_0|apply Z.bits_above_log2; [lia|] ].
  all: apply Z.log2_lt_pow2; [lia|]; assert (2 ^ 31 <= 2 ^ i) by (apply Z.pow_le_mono_r; lia); lia.
Qed.

(** All events of a descriptor meet in one processor.  The agent computes the key of
    a connection event from its process and descriptor, and takes that of every other
    event as the probe put it ([gen_tgid_fd]): the two are equal, and the channel they
    select is one of the processors. *)
Theorem events_of_descriptor_meet (ci : conn_info_t) (n : Z)
    (Htgid : 0 <= cid_tgid (ci_conn_id ci) < 2147483648) (Hfd : 0 <= cid_fd (ci_conn_id ci) < 2147483648) (Hn : 0 < n) :
  exists i, 0 <= i < n /\ channel_of n (tgid_fd_of ci) = Ret i /\
    channel_of n (gen_tgid_fd (cid_tgid (ci_conn_id ci)) (cid_fd (ci_conn_id ci))) = Ret i.
Proof.
  destruct (tgid_fd_agrees ci) as [E Ev]; [lia|done|]. rewrite <- E. set (k := tgid_fd_of ci) in *.
  assert (Hk : 0 <= k < 9223372036854775808) by lia. exists (k mod n). pose proof (Z.mod_pos_bound k n Hn).
  enough (channel_of n k = Ret (k mod n)) by done. unfold channel_of. rewrite s64_small, go_rem_ok by lia. cbn [mbind go_bind].
  by rewrite (proj2 (Z.leb_le _ _)), (proj2 (Z.ltb_lt _ _)) by lia.
Qed.

(** ** Examples *)

Lemma ring_records_read_back_witness :
  reads_back (conn_evt_rb (connect_event 80 100)) (record_bytes (fun i => i * 7) (conn_evt_rb (connect_event 80 100)) ++ [9; 9]) /\
  reads_back (syscall_rb kern_evt_zero 3 [71; 69; 84]) (record_bytes (fun i => i) (syscall_rb kern_evt_zero 3 [71; 69; 84]) ++ []).
Proof.
  split.
  - apply (ring_records_read_back (fun i => i * 7) (conn_evt_rb (connect_event 80 100)) [9; 9]). by repeat constructor.
  - apply (ring_records_read_back (fun i => i) (syscall_rb kern_evt_zero 3 [71; 69; 84]) []).
    split; [|by repeat constructor]. by repeat constructor.
Defined.

(** A header that announces five bytes, with three behind it. *)
Definition short_record : list Z := replicate 72 200 ++ [5; 0; 0; 0; 1; 2; 3].

Lemma events_of_descriptor_meet_witness : exists i, 0 <= i < 4 /\ channel_of 4 (tgid_fd_of (ce_conn_info (connect_event 80 100))) = Ret i.
Proof.
  destruct (events_of_descriptor_meet (ce_conn_info (connect_event 80 100)) 4) as (i & Hi & E & _); [by vm_compute|by vm_compute|lia|].
  exists i. split; [exact Hi|exact E].
Defined.
